(* ===== verification/_CoqProject ===== *)
-Q . S2P
Prelude.v
Machine.v
Kmonad.v
Spinlock.v
PageAlloc.v
Paging.v
Kvm.v
Space.v
Task.v
TaskInv.v
TaskInit.v
TaskSpace.v
TaskFork.v
Bytes.v
Ports.v
Lapic.v
Screen.v
Kbd.v
Lab3Kbd.v
MpConfig.v
Firmware.v
Trap.v
TrapProofs.v
System.v
UserMode.v
Str.v
Printfmt.v
Assert.v
MemInit.v
MemCheck.v
MemBoot.v
Boot.v
User.v
Shell.v
Terminal.v
Lab3.v
Main.v
StartFrame.v
MainInv.v
TrapRun.v
KernelRun.v
StartUp.v
BootRun.v
