(* ===== verification/Prelude.v ===== *)
(** * NCTU-OS: a verification development

    The program is the teaching kernel of the last lab, src/lab6/nctuos: a
    multiprocessor 32-bit x86 kernel with its boot loader, user library and shell.
    The earlier labs hold earlier stages of the same kernel; the one of lab 3, a
    monitor shell inside the kernel and no tasks, is modelled too.

    ** The program and the files that model it

    - Constants, macros and descriptor formats (inc/mmu.h, inc/memlayout.h,
      inc/trap.h, inc/error.h, inc/types.h): Machine.
    - Effects: Kmonad.  A C function is a computation in the monad [M S A] on the
      state [S] it can touch.  It returns ([Ret]), leaves the kernel through [iret]
      with a trap frame ([Iret]), or stops: a panic, a memory fault, or a loop that
      does not end ([Stop]).  [zoom] runs the code of one component on its part of a
      larger state.  [wp m s Q] says that [m] returns and [Q] holds; [safe m s Q I]
      speaks of whatever way [m] ends, and [pres R m] relates the states before and
      after.
    - kernel/spinlock.c: Spinlock.  Sequential operations, and the interleaved steps
      of all processors on one lock.
    - kernel/mem.c: PageAlloc (physical pages), Paging (page tables), Kvm (the
      kernel's part of an address space), Space (whole address spaces: which pages
      they own, and their destruction), MemInit (start-up and the self tests), MemCheck
      (the tests of the page tables, run against an abstract machine of three pages),
      MemBoot (start-up as a whole).
      The state [mm_state] holds the variables of mem.c, the array of page records,
      and physical memory as words.
    - kernel/task.c, kernel/sched.c, kernel/cpu.h: Task (all operations), TaskInv (the
      scheduler's invariant and the operations that keep it), TaskInit (its start),
      TaskSpace (the memory of all tasks: [task_create], [task_free], kill), TaskFork
      ([sys_fork] and [task_init] with what they put into memory).
    - kernel/trap.c, kernel/timer.c, kernel/syscall.c: Trap; proofs in TrapProofs.
      [kern] is the state of the whole kernel.  System puts queues, tasks and memory
      together and follows the machine through its events; UserMode adds the stores of
      user code.
    - Devices: Ports (kernel/kclock.c, kernel/picirq.c, kernel/timer.c), Lapic
      (kernel/lapic.c), Screen (kernel/screen.c), Kbd (kernel/kbd.c), MpConfig
      (kernel/mpconfig.c), over Bytes for byte accesses to memory; Firmware has the
      tables that MpConfig reads, as bytes.  The hardware is a
      parameter: the classes [Ports], [ApicRegs] and [CpuView] give its accesses, and
      the classes with laws ([KbdLaws], [Nvram], [ApicView], [ApicDelivers]) what the
      manuals promise.  Each has an instance, used in the witnesses.
    - lib/string.c: Str.  lib/printfmt.c, kernel/printf.c, lib/printf.c: Printfmt.
      kernel/assert.c: Assert.
    - boot/main.c: Boot, on a disk behind the IDE ports.
    - lib/syscall.c, lib/console.c, lib/readline.c: User.  user/shell.c, user/main.c:
      Shell.  Their kernel is a parameter, the class [SysInt]; its instance [term_sys]
      is a terminal (a queue of keys, the characters shown), against which the theorems
      of User and Shell are proved.  Terminal shows that SYS_getc and SYS_puts of
      kernel/syscall.c behave like it.
    - kernel/main.c: Main, which composes the components as [kernel_main] does, and
      boots the other processors; proofs in StartFrame and MainInv.  TrapRun goes on
      from there through any sequence of traps; KernelRun follows the traps that come
      from user mode through the whole kernel, devices included.  StartUp has the devices'
      part of the start, BootRun the start as a whole.
    - src/lab3/nctuos: Lab3Kbd (kernel/kbd.c) and Lab3 (kernel/screen.c,
      kernel/printf.c, kernel/timer.c, kernel/trap.c, lib/readline.c, kernel/shell.c,
      kernel/main.c).  Its string, formatting and 8259A code is that of lab 6.

    ** What the theorems show

    The whole.  [kernel_boots_and_runs] composes the components: from power-on, on a
    machine with the firmware's tables, memory for the kernel and its tasks, and devices
    that answer, [kernel_main] leaves for user mode with every processor of the table
    started and running a task of its own, and from then on the traps that [trap_ok]
    admits are handled: timer and keyboard interrupts and system calls from user mode on
    a processor that runs a task, a fork with eighty free pages or no free task
    structure, SYS_puts with a readable string.  The other theorems on runs speak of the
    same traps ([allowed] of System.v for the events of tasks alone), except
    [kernel_inv_from_power_on], which takes any trap.  BootRun also has, from power-on,
    that every other processor is started ([boot_aps_starts_all]) and that no store of
    user code leaves its task's stack and the program ([user_store_confined]).  The start asks for 1035 pages for each processor: a
    task's directory, at most 1024 page tables, ten stack pages.  The area of the
    floating pointer that the firmware names must lie outside base memory as the NVRAM
    reports it, because [mem_init] runs first and writes to every page below.

    Scheduling.  [sched_inv] says that run queues and task table agree: every task in
    use is in exactly one queue, no free task is, and the current task of a processor
    is in that processor's queue.  [kernel_main] establishes it, the other processors
    keep it when they join, and every later trap on any processor keeps it
    ([kernel_inv_from_power_on]).  The scheduler is round robin, a runnable task is chosen within
    one round as long as no task joins or leaves the queue, a fork goes to a least loaded
    processor, and a sleeping task that is not the current one of its processor wakes
    after the number of ticks it asked for.  A system call's result is in eax when its
    task goes on, all other registers as they were ([syscall_result_in_eax]).

    Memory.  Allocation is a stack of pages; [page_init] puts exactly the usable pages
    on it.  An address space is read as a function from addresses to page table
    entries: [boot_map_region], [page_insert] and [page_remove] are updates of that
    function and change nothing else, and [setupkvm] builds exactly the kernel's
    regions.  Start-up succeeds ([mem_init_succeeds]): on every machine with enough memory
    [mem_init] returns, so all the assertions of its self tests hold; what the tests
    borrow they give back, and afterwards the kernel's directory maps exactly the
    kernel's regions and every usable page is free or a page table.

    Tasks and memory.  [machine_ok] adds to the scheduler's invariant that every
    existing task owns its directory, its page tables and ten stack pages, that no page
    has two owners, that what nobody owns is on the free list, and that user mode can
    write its own stack and the program and nothing else.  [kernel_ok] adds screen,
    keyboard buffer and interrupt handlers.  Whatever traps arrive from user mode and
    whatever user code stores in between, the kernel keeps all of it, loses no page, and
    every handler ends: no panic, fault, deadlock or endless loop.  A fork gives the
    child the parent's registers and a copy of its stack, the end of a task gives back
    exactly what it owned, and no two tasks ever share a stack page.  A fork asks for 80
    free pages: the directory and 68 page tables of [setupkvm], one page table for the
    user part, ten stack pages.

    Concurrency.  The spin lock gives mutual exclusion under every interleaving, and the
    sequential operations the rest of the development uses are runs of it.

    Devices and text.  Screen output refines a reference terminal, the console buffer
    is a queue, the interrupt table holds the intended gates, the firmware's tables are
    found and their processors counted, scan codes are read as a reference keyboard types
    them, formatting ends with a result or one of three kinds of fault and is read back by [strtol], the buffered and the truncating printers lose nothing they should keep,
    and the string functions meet their usual specifications.

    Start and user side.  The boot loader copies the segments of the image and rejects
    a bad one; the line editor, the command parser and the history of the shell are
    equal to their reference definitions.

    Lab 3.  Its keyboard interrupt handler turns the bytes of any sequence of key presses
    and releases into the characters typed, and a line typed at the keyboard is the line
    [readline] returns, echoed on the screen.

    ** Integers, bounds and fuel

    An integer of width w is a [Z]; wrap-around is written out with [u8], [u16], [u32],
    [s32] and so on where the code can reach it.  A loop whose number of turns is known
    from its data is a [Fixpoint] on that number: pages from a size, entries from a
    count, the 32 tasks, the 8 processors, the 256 gates.  The walk along the free list
    has as fuel the number of page records plus one, enough because the list has no
    repetition.  A loop that waits for a device ([wait_delivered], [cons_intr], the disk
    and key waits) has its fuel as a parameter, and runs out of it only if the device
    does not answer; [kbd_intr_terminates] gives the amount for a keyboard controller
    that keeps its contract.  [vprintfmt] runs on the format itself and on fuel computed
    from its length ([vprintfmt_terminates]).

    ** Modelling choices

    Printing inside the kernel is recorded in a log ([printk] of PageAlloc); its real
    path to the screen is modelled in Printfmt and Screen.  While the boot processor
    waits for another one it changes nothing, so the other's set-up is one step of
    the model.  The set-up of a processor and the loops on a task table run without
    other processors in between, and a trap is handled to its end before the next one
    begins ([kstep], [kernel_step], [run_step]): traps on several processors at once, which
    main.c allows, are not modelled; the interleaving of lock operations is the subject of
    Spinlock.  A table read with an index out of range is a fault.  The strings [vsnprintf]
    reads lie outside the buffer it writes (a string that reaches into it is a fault).  What an uninitialised local holds, the registers the compiler leaves in
    place, and the linker's symbols are parameters.  What the theorems on memory ask
    of them is named: [linked] (page aligned kernel stacks above KERNBASE, the local APIC
    inside the MMIO window, and an uninitialised local of [page_remove] that does not
    hold zero, see its theorem), [cold] (what the linker puts into the allocator's
    variables), [kernel_image] (where the linker puts stacks, user program and start-up
    code), [power_on] (variables at zero and memory sizes), [firmware] (the tables), [placed] (page aligned page records, and the kernel
    directory, above KERNBASE), [region_ok] (the program's sections are page aligned and
    above KERNBASE), and that the program's pages ([image]) are not on the free list.
    The address space of a store in user mode is that of the task the processor runs.

    ** Not modelled

    The assembly files (boot/boot.S, kernel/entry.S, kernel/mpentry.S,
    kernel/trap_entry.S), represented by the addresses of their labels and the frames
    they push; kernel/entrypgdir.c, a table of constants for the assembly entry code;
    kernel/shell.c and lib/readelf.c, which are not built; labs 4 and 5,
    uniprocessor stages of the code modelled here; Linux 0.11 and SeaBIOS under lab1
    and lab2, which are third-party sources. *)

From Stdlib Require Import ZArith Lia.
From stdpp Require Import base numbers gmap strings list.

Local Open Scope Z_scope.

(** ** Machine integers

    A w-bit integer of the C code is a [Z]; the wrap-around of each arithmetic
    step is written out with the functions below. *)

Definition u8 (x : Z) : Z := x mod 256.
Definition u16 (x : Z) : Z := x mod 65536.
Definition u32 (x : Z) : Z := x mod 4294967296.
Definition u64 (x : Z) : Z := x mod 18446744073709551616.

(** Two's complement reading of the low 8, 32 and 64 bits. *)
Definition s8 (x : Z) : Z := (x + 128) mod 256 - 128.
Definition s32 (x : Z) : Z := (x + 2147483648) mod 4294967296 - 2147483648.
Definition s64 (x : Z) : Z :=
  (x + 9223372036854775808) mod 18446744073709551616 - 9223372036854775808.

(** [~x] on a 32-bit unsigned operand. *)
Definition lnot32 (x : Z) : Z := u32 (Z.lnot x).

(** C's boolean test of an integer. *)
Definition truth (x : Z) : bool := negb (x =? 0).

(** A character constant and the bytes of a string constant before its NUL. *)
Definition chr (a : Ascii.ascii) : Z := Z.of_N (Ascii.N_of_ascii a).
Arguments chr a%_char_scope.
Fixpoint bytes (s : string) : list Z :=
  match s with EmptyString => [] | String a s' => chr a :: bytes s' end.

(** ** Tactics *)

(** Linear arithmetic with the wrap-around functions opened. *)
Ltac wrap_lia :=
  unfold u8, u16, u32, u64, s8, s32, s64 in *;
  Z.to_euclidean_division_equations; lia.

(** Case analysis on the innermost match or if of the goal, keeping the equation. *)
Ltac case_match_goal :=
  match goal with
  | |- context [match ?x with _ => _ end] =>
      lazymatch x with
      | context [match _ with _ => _ end] => fail
      | _ => let H := fresh "Hm" in destruct x eqn:H
      end
  end.

(** The same in a hypothesis. *)
Ltac case_match_in H :=
  match type of H with
  | context [match ?x with _ => _ end] =>
      lazymatch x with
      | context [match _ with _ => _ end] => fail
      | _ => let E := fresh "Hm" in destruct x eqn:E
      end
  end.

(** Reflect the boolean comparisons of hypotheses and goal into [Prop]. *)
Ltac breflect :=
  repeat match goal with
  | H : (_ =? _) = true |- _ => apply Z.eqb_eq in H
  | H : (_ =? _) = false |- _ => apply Z.eqb_neq in H
  | H : (_ <? _) = true |- _ => apply Z.ltb_lt in H
  | H : (_ <? _) = false |- _ => apply Z.ltb_ge in H
  | H : (_ <=? _) = true |- _ => apply Z.leb_le in H
  | H : (_ <=? _) = false |- _ => apply Z.leb_gt in H
  | H : (_ >=? _) = true |- _ => rewrite Z.geb_leb in H; apply Z.leb_le in H
  | H : (_ >=? _) = false |- _ => rewrite Z.geb_leb in H; apply Z.leb_gt in H
  | H : (_ >? _) = true |- _ => rewrite Z.gtb_ltb in H; apply Z.ltb_lt in H
  | H : (_ >? _) = false |- _ => rewrite Z.gtb_ltb in H; apply Z.ltb_ge in H
  | H : (_ && _) = true |- _ => apply andb_prop in H; destruct H
  | H : negb _ = true |- _ => apply negb_true_iff in H
  | H : negb _ = false |- _ => apply negb_false_iff in H
  end.

(** ** Lemmas on wrap-around *)

Lemma u32_small x : 0 <= x < 4294967296 -> u32 x = x.
Proof. intros. unfold u32. by apply Z.mod_small. Qed.

Lemma u32_range x : 0 <= u32 x < 4294967296.
Proof. apply Z.mod_pos_bound. lia. Qed.

Lemma u16_small x : 0 <= x < 65536 -> u16 x = x.
Proof. intros. unfold u16. by apply Z.mod_small. Qed.

Lemma u16_range x : 0 <= u16 x < 65536.
Proof. apply Z.mod_pos_bound. lia. Qed.

Lemma u8_small x : 0 <= x < 256 -> u8 x = x.
Proof. intros. unfold u8. by apply Z.mod_small. Qed.

Lemma u8_range x : 0 <= u8 x < 256.
Proof. apply Z.mod_pos_bound. lia. Qed.

Lemma u64_small x : 0 <= x < 18446744073709551616 -> u64 x = x.
Proof. intros. unfold u64. by apply Z.mod_small. Qed.

Lemma s32_small x : -2147483648 <= x < 2147483648 -> s32 x = x.
Proof. intros. wrap_lia. Qed.

Lemma s32_range x : -2147483648 <= s32 x < 2147483648.
Proof. unfold s32. pose proof (Z.mod_pos_bound (x + 2147483648) 4294967296). lia. Qed.

(** ** Lemmas on bits *)

(** The low [n] bits. *)
Lemma land_low x n : 0 <= n -> Z.land x (2 ^ n - 1) = x mod 2 ^ n.
Proof.
  intros. rewrite <- Z.land_ones by done.
  by rewrite Z.ones_equiv, Z.sub_1_r.
Qed.

(** Or-ing low bits into an aligned word is addition. *)
Lemma lor_aligned a b n :
  0 <= n -> a mod 2 ^ n = 0 -> 0 <= b < 2 ^ n -> Z.lor a b = a + b.
Proof.
  intros Hn Ha Hb.
  rewrite <- Z.lxor_lor.
  - rewrite <- Z.add_nocarry_lxor; [done|].
    apply Z.bits_inj'. intros i Hi. rewrite Z.land_spec, Z.bits_0.
    destruct (Z.lt_ge_cases i n).
    + rewrite <- (Z.mod_pow2_bits_low a n i) by lia.
      by rewrite Ha, Z.bits_0.
    + rewrite <- (Z.mod_small b (2 ^ n)) by done.
      rewrite Z.mod_pow2_bits_high by lia. apply andb_false_r.
  - apply Z.bits_inj'. intros i Hi. rewrite Z.land_spec, Z.bits_0.
    destruct (Z.lt_ge_cases i n).
    + rewrite <- (Z.mod_pow2_bits_low a n i) by lia.
      by rewrite Ha, Z.bits_0.
    + rewrite <- (Z.mod_small b (2 ^ n)) by done.
      rewrite Z.mod_pow2_bits_high by lia. apply andb_false_r.
Qed.

(** Clearing the low [n] bits of a [w]-bit word. *)
Lemma land_high x n w :
  0 <= n <= w -> 0 <= x < 2 ^ w ->
  Z.land x ((Z.lnot (2 ^ n - 1)) mod 2 ^ w) = x - x mod 2 ^ n.
Proof.
  intros Hn Hx.
  assert (x - x mod 2 ^ n = Z.ldiff x (Z.ones n)) as ->.
  { rewrite Z.ldiff_ones_r by lia. rewrite Z.shiftr_div_pow2, Z.shiftl_mul_pow2 by lia.
    pose proof (Z.div_mod x (2 ^ n)). lia. }
  apply Z.bits_inj'. intros i Hi.
  rewrite Z.land_spec, Z.ldiff_spec, Z.testbit_ones_nonneg by lia.
  destruct (Z.lt_ge_cases i w).
  - rewrite Z.mod_pow2_bits_low by lia. rewrite Z.lnot_spec by lia.
    replace (2 ^ n - 1) with (Z.ones n) by (rewrite Z.ones_equiv; lia).
    by rewrite Z.testbit_ones_nonneg by lia.
  - rewrite <- (Z.mod_small x (2 ^ w)) by done.
    by rewrite !Z.mod_pow2_bits_high by lia.
Qed.

Lemma shiftr_div x n : 0 <= n -> Z.shiftr x n = x / 2 ^ n.
Proof. intros. by apply Z.shiftr_div_pow2. Qed.

(** Testing one flag of an entry built by or-ing flags in is boolean or. *)
Lemma land_bit_truth x i : 0 <= i -> truth (Z.land x (2 ^ i)) = Z.testbit x i.
Proof.
  intros Hi. unfold truth.
  assert (Z.land x (2 ^ i) = if Z.testbit x i then 2 ^ i else 0) as ->.
  { apply Z.bits_inj'. intros j Hj. rewrite Z.land_spec, Z.pow2_bits_eqb by lia.
    destruct (Z.eqb_spec i j) as [->|].
    - rewrite andb_true_r. destruct (Z.testbit x j) eqn:E.
      + by rewrite Z.pow2_bits_true.
      + by rewrite Z.bits_0.
    - rewrite andb_false_r. destruct (Z.testbit x i).
      + by rewrite Z.pow2_bits_false.
      + by rewrite Z.bits_0. }
  destruct (Z.testbit x i); [|done].
  pose proof (Z.pow_pos_nonneg 2 i). destruct (Z.eqb_spec (2 ^ i) 0); [lia|done].
Qed.

(** ** Arrays indexed by a C [int]

    An out-of-range index reads [None]; an out-of-range write is [None] too, so
    that an access outside an array is visible in the model. *)

Definition zget {A} (l : list A) (i : Z) : option A :=
  if (0 <=? i) then l !! Z.to_nat i else None.

Definition zset {A} (l : list A) (i : Z) (x : A) : option (list A) :=
  if (0 <=? i) && (i <? Z.of_nat (length l)) then Some (<[Z.to_nat i := x]> l) else None.

Lemma zget_Some_range {A} (l : list A) i x :
  zget l i = Some x -> 0 <= i < Z.of_nat (length l).
Proof.
  unfold zget. destruct (Z.leb_spec 0 i); [|done].
  intros H1%lookup_lt_Some. lia.
Qed.

Lemma zget_is_Some {A} (l : list A) i :
  0 <= i < Z.of_nat (length l) -> is_Some (zget l i).
Proof.
  intros. unfold zget. destruct (Z.leb_spec 0 i); [|lia].
  apply lookup_lt_is_Some. lia.
Qed.

Lemma zset_Some {A} (l : list A) i x :
  0 <= i < Z.of_nat (length l) -> zset l i x = Some (<[Z.to_nat i := x]> l).
Proof.
  intros. unfold zset. destruct (Z.leb_spec 0 i); [|lia].
  destruct (Z.ltb_spec i (Z.of_nat (length l))); [done|lia].
Qed.

Lemma zset_inv {A} (l l' : list A) i x :
  zset l i x = Some l' ->
  0 <= i < Z.of_nat (length l) /\ l' = <[Z.to_nat i := x]> l.
Proof.
  unfold zset. intros H. case_match; [|done]. breflect. split; [lia|congruence].
Qed.

Lemma zget_zset_eq {A} (l l' : list A) i x :
  zset l i x = Some l' -> zget l' i = Some x.
Proof.
  intros [H1 ->]%zset_inv. unfold zget. destruct (Z.leb_spec 0 i); [|lia].
  apply list_lookup_insert_eq. lia.
Qed.

Lemma zget_zset_ne {A} (l l' : list A) i j x :
  zset l i x = Some l' -> i <> j -> zget l' j = zget l j.
Proof.
  intros [H1 ->]%zset_inv Hne. unfold zget. destruct (Z.leb_spec 0 j); [|done].
  apply list_lookup_insert_ne. lia.
Qed.

Lemma zset_length {A} (l l' : list A) i x :
  zset l i x = Some l' -> length l' = length l.
Proof. intros [H1 ->]%zset_inv. apply length_insert. Qed.

(** Distinct numbers below [n]: no more than [n] of them. *)
Lemma NoDup_bounded_length (l : list Z) (n : Z) :
  0 <= n -> NoDup l -> (forall i, i ∈ l -> 0 <= i < n) -> Z.of_nat (length l) <= n.
Proof.
  intros Hn Hnd Hl. assert (l ⊆+ (Z.of_nat <$> seq 0 (Z.to_nat n))) as Hs.
  { apply NoDup_submseteq; [done|]. intros i Hi%Hl.
    apply list_elem_of_fmap. exists (Z.to_nat i). rewrite elem_of_seq. lia. }
  apply submseteq_length in Hs. rewrite length_fmap, length_seq in Hs. lia.
Qed.

(** Two predicates that agree on a list filter it alike. *)
Lemma filter_iff_on {A} (P Q : A -> Prop)
    `{!forall x, Decision (P x), !forall x, Decision (Q x)} (L : list A) :
  (forall y, y ∈ L -> P y <-> Q y) -> filter P L = filter Q L.
Proof.
  intros HPQ. induction L as [|y L IH]; [done|]. rewrite !filter_cons.
  rewrite IH by (intros; apply HPQ; by right).
  pose proof (HPQ y (list_elem_of_here _ _)).
  destruct (decide (P y)), (decide (Q y)); done || tauto.
Qed.

(** Dropping one element from the predicate drops one from the count. *)
Lemma filter_length_drop {A} `{!EqDecision A} (P Q : A -> Prop)
    `{!forall x, Decision (P x), !forall x, Decision (Q x)} (L : list A) x :
  NoDup L -> x ∈ L -> P x -> (forall y, y ∈ L -> Q y <-> P y /\ y <> x) ->
  length (filter P L) = S (length (filter Q L)).
Proof.
  intros Hnd Hx HP HQ. induction L as [|y L IH]; [by apply elem_of_nil in Hx|].
  apply NoDup_cons in Hnd as [Hy Hnd]. rewrite !filter_cons.
  pose proof (HQ y (list_elem_of_here _ _)) as Hqy.
  destruct (decide (y = x)) as [->|Hne].
  - rewrite decide_True by done. rewrite decide_False by tauto. simpl. do 2 f_equal.
    apply filter_iff_on. intros z Hz. rewrite HQ by by right.
    split; [intros; split; [done|by intros ->]|tauto].
  - apply elem_of_cons in Hx as [->|Hx]; [done|].
    assert (length (filter P L) = S (length (filter Q L))) as E.
    { apply IH; [done|done|]. intros z Hz. apply HQ. by right. }
    destruct (decide (P y)), (decide (Q y)); simpl; rewrite ?E; done || tauto.
Qed.

(** ** Reflexive transitive closure of a step relation *)

Section Star.
Context {S : Type} (step : S -> S -> Prop).

Inductive star : S -> S -> Prop :=
| star_refl s : star s s
| star_step s1 s2 s3 : step s1 s2 -> star s2 s3 -> star s1 s3.

(** An invariant preserved by every step holds along every run. *)
Lemma star_invariant (I : S -> Prop) :
  (forall s s', I s -> step s s' -> I s') ->
  forall s s', I s -> star s s' -> I s'.
Proof. intros Hstep s s' Hs Hrun. induction Hrun; eauto. Qed.

Lemma star_one s s' : step s s' -> star s s'.
Proof. intros. eapply star_step; [done|constructor]. Qed.

Lemma star_trans s1 s2 s3 : star s1 s2 -> star s2 s3 -> star s1 s3.
Proof. induction 1; eauto using star. Qed.
End Star.

(** ** Hint databases *)

Create HintDb wrap.
Create Rewrite HintDb wrap.
#[export] Hint Resolve u32_range u16_range u8_range s32_range : wrap.
#[export] Hint Rewrite u32_small u16_small u8_small using (by auto with wrap || lia) : wrap.
