(* ===== verification/Machine.v ===== *)
(** * The x86 machine as the headers describe it

    The constants, address macros and descriptor layouts of [inc/types.h],
    [inc/mmu.h], [inc/memlayout.h], [inc/trap.h] and [inc/error.h] of
    lab6/nctuos: paging arithmetic, segment and gate descriptors, the trap
    frame.  Everything else of the development is written with these names. *)

From S2P Require Import Prelude.
From Stdlib Require Import ZArith Lia.
From stdpp Require Import base gmap list strings.

Local Open Scope Z_scope.

(** ** inc/types.h *)

(** [ROUNDDOWN(a, n)]: the value is computed on [uint32_t]. *)
Definition ROUNDDOWN (a n : Z) : Z := u32 a - u32 a mod n.

(** [ROUNDUP(a, n)]: [(uint32_t) a + n - 1] wraps before it is rounded down. *)
Definition ROUNDUP (a n : Z) : Z := ROUNDDOWN (u32 (u32 a + n - 1)) n.

(** ** inc/mmu.h, part 1: paging *)

Definition PTXSHIFT : Z := 12.
Definition PDXSHIFT : Z := 22.
Definition PGSHIFT : Z := 12.
Definition NPDENTRIES : Z := 1024.
Definition NPTENTRIES : Z := 1024.
Definition PGSIZE : Z := 4096.
Definition PTSIZE : Z := PGSIZE * NPTENTRIES.

Definition PGNUM (la : Z) : Z := Z.shiftr la PTXSHIFT.
Definition PDX (la : Z) : Z := Z.land (Z.shiftr la PDXSHIFT) 0x3FF.
Definition PTX (la : Z) : Z := Z.land (Z.shiftr la PTXSHIFT) 0x3FF.
Definition PGOFF (la : Z) : Z := Z.land la 0xFFF.
Definition PGADDR (d t o : Z) : Z :=
  Z.lor (Z.lor (Z.shiftl d PDXSHIFT) (Z.shiftl t PTXSHIFT)) o.

Definition PTE_P : Z := 0x001.
Definition PTE_W : Z := 0x002.
Definition PTE_U : Z := 0x004.
Definition PTE_PWT : Z := 0x008.
Definition PTE_PCD : Z := 0x010.

Definition PTE_ADDR (pte : Z) : Z := Z.land pte (lnot32 0xFFF).

Definition CR0_PE : Z := 0x00000001.
Definition CR0_MP : Z := 0x00000002.
Definition CR0_EM : Z := 0x00000004.
Definition CR0_TS : Z := 0x00000008.
Definition CR0_NE : Z := 0x00000020.
Definition CR0_WP : Z := 0x00010000.
Definition CR0_AM : Z := 0x00040000.
Definition CR0_PG : Z := 0x80000000.

(** ** inc/memlayout.h *)

Definition GD_KT : Z := 0x08.
Definition GD_KD : Z := 0x10.
Definition GD_UT : Z := 0x18.
Definition GD_UD : Z := 0x20.
Definition GD_TSS0 : Z := 0x28.

Definition KERNBASE : Z := 0xF0000000.
Definition IOPHYSMEM : Z := 0x0A0000.
Definition EXTPHYSMEM : Z := 0x100000.
Definition KSTACKTOP : Z := KERNBASE.
Definition KSTKSIZE : Z := 8 * PGSIZE.
Definition KSTKGAP : Z := 8 * PGSIZE.
Definition MMIOLIM : Z := KSTACKTOP - PTSIZE.
Definition MMIOBASE : Z := MMIOLIM - PTSIZE.
Definition ULIM : Z := MMIOBASE.
Definition UVPT : Z := ULIM - PTSIZE.
Definition UPAGES : Z := UVPT - PTSIZE.
Definition UENVS : Z := UPAGES - PTSIZE.
Definition UTOP : Z := UENVS.
Definition USTACKTOP : Z := UTOP - 2 * PGSIZE.
Definition MPENTRY_PADDR : Z := 0x7000.

(** ** inc/error.h *)

Definition E_UNSPECIFIED : Z := 1.
Definition E_BAD_ENV : Z := 2.
Definition E_INVAL : Z := 3.
Definition E_NO_MEM : Z := 4.
Definition E_NO_FREE_ENV : Z := 5.
Definition E_FAULT : Z := 6.
Definition E_IPC_NOT_RECV : Z := 7.
Definition E_EOF : Z := 8.
Definition MAXERROR : Z := 9.

(** ** inc/trap.h *)

Definition T_STACK : Z := 12.
Definition T_GPFLT : Z := 13.
Definition T_PGFLT : Z := 14.
Definition T_SYSCALL : Z := 48.
Definition T_DEFAULT : Z := 500.
Definition IRQ_OFFSET : Z := 32.
Definition IRQ_TIMER : Z := 0.
Definition IRQ_KBD : Z := 1.
Definition IRQ_SPURIOUS : Z := 7.
Definition IRQ_ERROR : Z := 19.

Record PushRegs := mkPushRegs {
  reg_edi : Z; reg_esi : Z; reg_ebp : Z; reg_oesp : Z;
  reg_ebx : Z; reg_edx : Z; reg_ecx : Z; reg_eax : Z
}.

Record Trapframe := mkTrapframe {
  tf_regs : PushRegs;
  tf_es : Z; tf_padding1 : Z;
  tf_ds : Z; tf_padding2 : Z;
  tf_trapno : Z;
  tf_err : Z;
  tf_eip : Z;
  tf_cs : Z; tf_padding3 : Z;
  tf_eflags : Z;
  tf_esp : Z;
  tf_ss : Z; tf_padding4 : Z
}.

(** What [memset(&tf, 0, sizeof(tf))] leaves. *)
Definition regs0 : PushRegs := mkPushRegs 0 0 0 0 0 0 0 0.
Definition tf0 : Trapframe := mkTrapframe regs0 0 0 0 0 0 0 0 0 0 0 0 0 0.

Definition regs_set_eax (r : PushRegs) (v : Z) : PushRegs :=
  mkPushRegs (reg_edi r) (reg_esi r) (reg_ebp r) (reg_oesp r)
             (reg_ebx r) (reg_edx r) (reg_ecx r) v.

Definition tf_set_eax (t : Trapframe) (v : Z) : Trapframe :=
  mkTrapframe (regs_set_eax (tf_regs t) v) (tf_es t) (tf_padding1 t) (tf_ds t)
    (tf_padding2 t) (tf_trapno t) (tf_err t) (tf_eip t) (tf_cs t) (tf_padding3 t)
    (tf_eflags t) (tf_esp t) (tf_ss t) (tf_padding4 t).

Definition tf_set_eip (t : Trapframe) (v : Z) : Trapframe :=
  mkTrapframe (tf_regs t) (tf_es t) (tf_padding1 t) (tf_ds t)
    (tf_padding2 t) (tf_trapno t) (tf_err t) v (tf_cs t) (tf_padding3 t)
    (tf_eflags t) (tf_esp t) (tf_ss t) (tf_padding4 t).

(** ** inc/mmu.h, parts 2 and 3: descriptors *)

(** Assigning to an unsigned bit field of width [w] keeps the low [w] bits. *)
Definition bf (w x : Z) : Z := x mod 2 ^ w.

Record Segdesc := mkSegdesc {
  sd_lim_15_0 : Z; sd_base_15_0 : Z; sd_base_23_16 : Z; sd_type : Z; sd_s : Z;
  sd_dpl : Z; sd_p : Z; sd_lim_19_16 : Z; sd_avl : Z; sd_rsv1 : Z; sd_db : Z;
  sd_g : Z; sd_base_31_24 : Z
}.

Definition STA_X : Z := 0x8.
Definition STA_W : Z := 0x2.
Definition STA_R : Z := 0x2.
Definition STS_T32A : Z := 0x9.
Definition STS_IG32 : Z := 0xE.
Definition STS_TG32 : Z := 0xF.

Definition SEG_NULL : Segdesc := mkSegdesc 0 0 0 0 0 0 0 0 0 0 0 0 0.

Definition SEG (type base lim dpl : Z) : Segdesc :=
  mkSegdesc (Z.land (Z.shiftr lim 12) 0xffff) (Z.land base 0xffff)
    (Z.land (Z.shiftr base 16) 0xff) (bf 4 type) 1 (bf 2 dpl) 1
    (bf 4 (Z.shiftr (u32 lim) 28)) 0 0 1 1 (bf 8 (Z.shiftr (u32 base) 24)).

Definition SEG16 (type base lim dpl : Z) : Segdesc :=
  mkSegdesc (Z.land lim 0xffff) (Z.land base 0xffff)
    (Z.land (Z.shiftr base 16) 0xff) (bf 4 type) 1 (bf 2 dpl) 1
    (bf 4 (Z.shiftr (u32 lim) 16)) 0 0 1 0 (bf 8 (Z.shiftr (u32 base) 24)).

Record tss_struct := mkTss {
  ts_link : Z; ts_esp0 : Z; ts_ss0 : Z; ts_padding1 : Z; ts_esp1 : Z; ts_ss1 : Z;
  ts_padding2 : Z; ts_esp2 : Z; ts_ss2 : Z; ts_padding3 : Z; ts_cr3 : Z; ts_eip : Z;
  ts_eflags : Z; ts_eax : Z; ts_ecx : Z; ts_edx : Z; ts_ebx : Z; ts_esp : Z; ts_ebp : Z;
  ts_esi : Z; ts_edi : Z; ts_es : Z; ts_padding4 : Z; ts_cs : Z; ts_padding5 : Z;
  ts_ss : Z; ts_padding6 : Z; ts_ds : Z; ts_padding7 : Z; ts_fs : Z; ts_padding8 : Z;
  ts_gs : Z; ts_padding9 : Z; ts_ldt : Z; ts_padding10 : Z; ts_t : Z; ts_iomb : Z
}.

(** [sizeof(struct tss_struct)]: 15 words, one half word pair for each of the
    11 selectors, and the last two half words. *)
Definition sizeof_tss : Z := 104.

(** A zeroed TSS with the four fields [task_init_percpu] sets. *)
Definition tss_with (esp0 ss0 fs gs : Z) : tss_struct :=
  mkTss 0 esp0 ss0 0 0 0 0 0 0 0 0 0 0 0 0 0 0 0 0 0 0 0 0 0 0 0 0 0 0 fs 0 gs 0 0 0 0 0.

Definition tss0 : tss_struct := tss_with 0 0 0 0.

Record Gatedesc := mkGatedesc {
  gd_off_15_0 : Z; gd_sel : Z; gd_args : Z; gd_rsv1 : Z; gd_type : Z;
  gd_s : Z; gd_dpl : Z; gd_p : Z; gd_off_31_16 : Z
}.

Definition gate0 : Gatedesc := mkGatedesc 0 0 0 0 0 0 0 0 0.

(** [SETGATE(gate, istrap, sel, off, dpl)] assigns every field of the gate. *)
Definition SETGATE (istrap sel off dpl : Z) : Gatedesc :=
  mkGatedesc (Z.land (u32 off) 0xffff) (bf 16 sel) 0 0
    (if truth istrap then STS_TG32 else STS_IG32) 0 (bf 2 dpl) 1
    (bf 16 (Z.shiftr (u32 off) 16)).

(** ** What the processor reads back *)

(** The linear base address of a segment descriptor. *)
Definition seg_base (d : Segdesc) : Z :=
  sd_base_15_0 d + sd_base_23_16 d * 2 ^ 16 + sd_base_31_24 d * 2 ^ 24.

(** Its last valid offset: the 20-bit limit, scaled by 4K when [sd_g] is set. *)
Definition seg_limit (d : Segdesc) : Z :=
  let l := sd_lim_15_0 d + sd_lim_19_16 d * 2 ^ 16 in
  if truth (sd_g d) then l * 4096 + 4095 else l.

(** The entry point of a gate. *)
Definition gate_offset (g : Gatedesc) : Z := gd_off_15_0 g + gd_off_31_16 g * 2 ^ 16.

(** ** Address arithmetic *)

Lemma PGNUM_div la : PGNUM la = la / 4096.
Proof. apply (Z.shiftr_div_pow2 la 12). lia. Qed.

Lemma PDX_spec la : PDX la = (la / 4194304) mod 1024.
Proof.
  unfold PDX, PDXSHIFT. rewrite Z.shiftr_div_pow2 by lia. apply (land_low _ 10). lia.
Qed.

Lemma PTX_spec la : PTX la = (la / 4096) mod 1024.
Proof.
  unfold PTX, PTXSHIFT. rewrite Z.shiftr_div_pow2 by lia. apply (land_low _ 10). lia.
Qed.

Lemma PGOFF_spec la : PGOFF la = la mod 4096.
Proof. apply (land_low la 12). lia. Qed.

Lemma PDX_range la : 0 <= PDX la < 1024.
Proof. rewrite PDX_spec. apply Z.mod_pos_bound. lia. Qed.

Lemma PTX_range la : 0 <= PTX la < 1024.
Proof. rewrite PTX_spec. apply Z.mod_pos_bound. lia. Qed.

Lemma PTE_ADDR_spec e : 0 <= e < 4294967296 -> PTE_ADDR e = e - e mod 4096.
Proof. intros. apply (land_high e 12 32); lia. Qed.

Lemma PTE_ADDR_range e : 0 <= e < 4294967296 -> 0 <= PTE_ADDR e < 4294967296.
Proof. intros. rewrite PTE_ADDR_spec by done. Z.to_euclidean_division_equations. lia. Qed.

Lemma PTE_ADDR_aligned e : 0 <= e < 4294967296 -> PTE_ADDR e mod 4096 = 0.
Proof. intros. rewrite PTE_ADDR_spec by done. Z.to_euclidean_division_equations. lia. Qed.

(** An entry built as [pa | perm | PTE_P] is the sum of its parts. *)
Lemma lor_pte pa fl :
  pa mod 4096 = 0 -> 0 <= fl < 4096 -> Z.lor pa fl = pa + fl.
Proof. intros. by apply (lor_aligned pa fl 12). Qed.

Lemma PTE_ADDR_lor pa fl :
  0 <= pa < 4294967296 -> pa mod 4096 = 0 -> 0 <= fl < 4096 ->
  PTE_ADDR (Z.lor pa fl) = pa.
Proof.
  intros. rewrite lor_pte by done. rewrite PTE_ADDR_spec.
  - Z.to_euclidean_division_equations. lia.
  - Z.to_euclidean_division_equations. lia.
Qed.

Lemma ROUNDUP_spec a :
  0 <= a <= 4294963200 ->
  ROUNDUP a PGSIZE = (a + 4095) / 4096 * 4096.
Proof.
  intros. unfold ROUNDUP, ROUNDDOWN, PGSIZE.
  rewrite (u32_small a) by lia.
  rewrite (u32_small (a + 4096 - 1)) by lia.
  rewrite u32_small by lia.
  replace (a + 4096 - 1) with (a + 4095) by lia.
  rewrite Z.mul_comm. pose proof (Z.div_mod (a + 4095) 4096). lia.
Qed.

(** ** Properties *)

(** Splitting a linear address and putting it together again is the identity. *)
Theorem PGADDR_roundtrip la :
  0 <= la < 4294967296 -> PGADDR (PDX la) (PTX la) (PGOFF la) = la.
Proof.
  intros. unfold PGADDR, PDXSHIFT, PTXSHIFT. rewrite PDX_spec, PTX_spec, PGOFF_spec.
  rewrite !Z.shiftl_mul_pow2 by lia.
  change (2 ^ 22) with 4194304. change (2 ^ 12) with 4096.
  set (d := (la / 4194304) mod 1024). set (t := (la / 4096) mod 1024).
  assert (0 <= t < 1024) by (subst t; apply Z.mod_pos_bound; lia).
  rewrite (lor_aligned (d * 4194304) (t * 4096) 22) by (try apply Z.mod_mul; lia).
  rewrite (lor_aligned _ (la mod 4096) 12)
    by (change (2 ^ 12) with 4096; Z.to_euclidean_division_equations; lia).
  subst d t.
  Z.to_euclidean_division_equations. lia.
Qed.

Lemma PGADDR_roundtrip_witness :
  PGADDR (PDX 0xF0123456) (PTX 0xF0123456) (PGOFF 0xF0123456) = 0xF0123456.
Proof. apply PGADDR_roundtrip. lia. Defined.

(** The descriptor fields [SEG16] spreads the base over are read back whole. *)
Theorem SEG16_base_limit type base lim dpl :
  0 <= base < 4294967296 -> 0 <= lim < 2 ^ 20 ->
  seg_base (SEG16 type base lim dpl) = base /\ seg_limit (SEG16 type base lim dpl) = lim.
Proof.
  intros. unfold seg_base, seg_limit, SEG16, bf. simpl sd_base_15_0. simpl sd_base_23_16.
  simpl sd_base_31_24. simpl sd_lim_15_0. simpl sd_lim_19_16. simpl sd_g.
  rewrite !u32_small by lia. rewrite !Z.shiftr_div_pow2 by lia.
  change 65535 with (2 ^ 16 - 1). change 255 with (2 ^ 8 - 1).
  rewrite (land_low base 16), (land_low lim 16), (land_low (base / 2 ^ 16) 8) by lia.
  change (2 ^ 16) with 65536. change (2 ^ 8) with 256. change (2 ^ 24) with 16777216.
  change (2 ^ 20) with 1048576 in *. change (2 ^ 4) with 16.
  change (truth 0) with false. cbv iota.
  split; Z.to_euclidean_division_equations; lia.
Qed.

Lemma SEG16_base_limit_witness :
  seg_base (SEG16 STS_T32A 0xF0112340 104 0) = 0xF0112340
  /\ seg_limit (SEG16 STS_T32A 0xF0112340 104 0) = 104.
Proof. apply SEG16_base_limit; lia. Defined.

(** The gate [SETGATE] fills points to the entry it is given. *)
Lemma SETGATE_offset istrap sel off dpl :
  0 <= off < 4294967296 -> gate_offset (SETGATE istrap sel off dpl) = off.
Proof.
  intros. unfold gate_offset, SETGATE, bf. simpl gd_off_15_0. simpl gd_off_31_16.
  rewrite !u32_small by lia. rewrite Z.shiftr_div_pow2 by lia.
  change 65535 with (2 ^ 16 - 1). rewrite (land_low _ 16) by lia.
  change (2 ^ 16) with 65536. Z.to_euclidean_division_equations. lia.
Qed.
