(* ===== verification/Kmonad.v ===== *)
(** * The kernel monad

    Kernel code threads a state and ends in one of three ways: it returns, it
    leaves the kernel through [iret] with a trap frame ([env_pop_tf] does not
    return), or it stops for good: a [panic], an access outside the memory or
    the array it names, or a loop that never ends.  A stopped computation
    keeps no state: nothing runs after it. *)

From S2P Require Import Prelude.
From S2P Require Import Machine.
From Stdlib Require Import ZArith Lia.
From stdpp Require Import base gmap list strings.

Local Open Scope Z_scope.

Inductive stop :=
| Panic (msg : string)
| Fault (what : string)
| Hang (what : string).

Inductive outcome (S A : Type) :=
| Ret (a : A) (s : S)
| Iret (f : Trapframe) (s : S)
| Stop (e : stop).
Arguments Ret {S A} a s.
Arguments Iret {S A} f s.
Arguments Stop {S A} e.

Definition M (S A : Type) : Type := S -> outcome S A.

#[global] Instance M_ret S : MRet (M S) := fun A a s => Ret a s.
#[global] Instance M_bind S : MBind (M S) := fun A B f m s =>
  match m s with
  | Ret a s' => f a s'
  | Iret t s' => Iret t s'
  | Stop e => Stop e
  end.

Definition get {S} : M S S := fun s => Ret s s.
Definition put {S} (s : S) : M S unit := fun _ => Ret tt s.
Definition gets {S A} (f : S -> A) : M S A := fun s => Ret (f s) s.
Definition modify {S} (f : S -> S) : M S unit := fun s => Ret tt (f s).
Definition stop_with {S A} (e : stop) : M S A := fun _ => Stop e.
Definition panic {S A} (msg : string) : M S A := stop_with (Panic msg).
Definition fault {S A} (what : string) : M S A := stop_with (Fault what).
Definition hang {S A} (what : string) : M S A := stop_with (Hang what).
(** [env_pop_tf]: leave the kernel with the registers of the frame. *)
Definition iret {S A} (f : Trapframe) : M S A := fun s => Iret f s.

(** [assert(x)] of [inc/assert.h]. *)
Definition kassert {S} (b : bool) (what : string) : M S unit :=
  if b then mret tt else panic ("assertion failed: " +:+ what).

(** A value that has to be there. *)
Definition need {S A} (o : option A) (what : string) : M S A :=
  match o with Some a => mret a | None => fault what end.

Definition when {S} (b : bool) (m : M S unit) : M S unit := if b then m else mret tt.

(** ** Running a computation of one component on a part of a larger state *)

Section Zoom.
Context {S T : Type} (view : S -> T) (upd : T -> S -> S).

Definition zoom {A} (m : M T A) : M S A := fun s =>
  match m (view s) with
  | Ret a t => Ret a (upd t s)
  | Iret f t => Iret f (upd t s)
  | Stop e => Stop e
  end.
End Zoom.

Definition on_fst {S T A} : M S A -> M (S * T) A := zoom fst (fun s p => (s, snd p)).
Definition on_snd {S T A} : M T A -> M (S * T) A := zoom snd (fun t p => (fst p, t)).

(** ** Postconditions

    [wp m s Q]: run from [s], [m] returns, with a result and a state that
    satisfy [Q] (so it neither stops nor leaves through [iret]).  [wlp m s Q]:
    if it returns, then [Q]. *)

Definition wp {S A} (m : M S A) (s : S) (Q : A -> S -> Prop) : Prop :=
  match m s with Ret a s' => Q a s' | _ => False end.

Definition wlp {S A} (m : M S A) (s : S) (Q : A -> S -> Prop) : Prop :=
  match m s with Ret a s' => Q a s' | _ => True end.

Section Wp.
Context {S : Type}.

Lemma wp_ret {A} (a : A) (s : S) Q : Q a s -> wp (mret a) s Q.
Proof. done. Qed.

Lemma wp_bind {A B} (m : M S A) (f : A -> M S B) s Q :
  wp m s (fun a s' => wp (f a) s' Q) -> wp (m ≫= f) s Q.
Proof. unfold wp, mbind, M_bind. by destruct (m s). Qed.

Lemma wp_mono {A} (m : M S A) s (Q Q' : A -> S -> Prop) :
  wp m s Q -> (forall a s', Q a s' -> Q' a s') -> wp m s Q'.
Proof. unfold wp. destruct (m s); auto. Qed.

Lemma wp_get (s : S) Q : Q s s -> wp get s Q.
Proof. done. Qed.

Lemma wp_gets {A} (f : S -> A) s Q : Q (f s) s -> wp (gets f) s Q.
Proof. done. Qed.

Lemma wp_put (s s' : S) Q : Q tt s' -> wp (put s') s Q.
Proof. done. Qed.

Lemma wp_modify (f : S -> S) s Q : Q tt (f s) -> wp (modify f) s Q.
Proof. done. Qed.

Lemma wp_need {A} (o : option A) a what s (Q : A -> S -> Prop) :
  o = Some a -> Q a s -> wp (need o what) s Q.
Proof. intros ->. done. Qed.

Lemma wp_assert b what (s : S) Q : b = true -> Q tt s -> wp (kassert b what) s Q.
Proof. intros ->. done. Qed.

Lemma wp_eq {A} (m : M S A) s a s' Q : m s = Ret a s' -> Q a s' -> wp m s Q.
Proof. unfold wp. by intros ->. Qed.

Lemma wp_inv {A} (m : M S A) s Q :
  wp m s Q -> exists a s', m s = Ret a s' /\ Q a s'.
Proof. unfold wp. destruct (m s) eqn:E; [eauto|done|done]. Qed.

(** The rest of a run whose first part returns. *)
Lemma run_bind {A B} (m : M S A) (f : A -> M S B) s Q (P : outcome S B -> Prop) :
  wp m s Q -> (forall a s', Q a s' -> P (f a s')) -> P ((m ≫= f) s).
Proof. unfold wp, mbind, M_bind. destruct (m s); [auto|done|done]. Qed.

Lemma wlp_bind {A B} (m : M S A) (f : A -> M S B) s Q :
  wlp m s (fun a s' => wlp (f a) s' Q) -> wlp (m ≫= f) s Q.
Proof. unfold wlp, mbind, M_bind. by destruct (m s). Qed.

Lemma wlp_mono {A} (m : M S A) s (Q Q' : A -> S -> Prop) :
  wlp m s Q -> (forall a s', Q a s' -> Q' a s') -> wlp m s Q'.
Proof. unfold wlp. destruct (m s); auto. Qed.

Lemma wp_wlp {A} (m : M S A) s Q : wp m s Q -> wlp m s Q.
Proof. unfold wp, wlp. by destruct (m s). Qed.

Lemma bind_ret {A B} (m : M S A) (f : A -> M S B) s a s1 :
  m s = Ret a s1 -> (m ≫= f) s = f a s1.
Proof. unfold mbind, M_bind. by intros ->. Qed.

Lemma bind_ret_inv {A B} (m : M S A) (f : A -> M S B) s b s2 :
  (m ≫= f) s = Ret b s2 -> exists a s1, m s = Ret a s1 /\ f a s1 = Ret b s2.
Proof. unfold mbind, M_bind. destruct (m s); [eauto|done|done]. Qed.
End Wp.

Lemma wp_zoom {S T A} (view : S -> T) upd (m : M T A) s Q :
  wp m (view s) (fun a t => Q a (upd t s)) -> wp (zoom view upd m) s Q.
Proof. unfold wp, zoom. by destruct (m (view s)). Qed.

(** ** Invariants

    [safe m s Q I]: if [m] returns from [s] then [Q] holds of its result, and if
    it leaves through [iret] the state satisfies [I].  [pres R m]: [m] does not
    leave through [iret], and if it returns, the final state is related to the
    initial one.  Neither says that [m] does not stop. *)

Definition safe {S A} (m : M S A) (s : S) (Q : A -> S -> Prop) (I : S -> Prop) : Prop :=
  match m s with Ret a s' => Q a s' | Iret _ s' => I s' | Stop _ => True end.

Definition pres {S A} (R : S -> S -> Prop) (m : M S A) : Prop :=
  forall s, match m s with Ret _ s' => R s s' | Iret _ _ => False | Stop _ => True end.

Section Safe.
Context {S : Type} (I : S -> Prop).

Lemma safe_bind {A B} (m : M S A) (f : A -> M S B) s Q :
  safe m s (fun a s' => safe (f a) s' Q I) I -> safe (m ≫= f) s Q I.
Proof. unfold safe, mbind, M_bind. by destruct (m s). Qed.

Lemma safe_mono {A} (m : M S A) s (Q Q' : A -> S -> Prop) :
  safe m s Q I -> (forall a s', Q a s' -> Q' a s') -> safe m s Q' I.
Proof. unfold safe. destruct (m s); auto. Qed.

Lemma safe_need {A} (o : option A) what s (Q : A -> S -> Prop) :
  (forall a, o = Some a -> Q a s) -> safe (need o what) s Q I.
Proof. unfold safe, need. destruct o; simpl; auto. Qed.

Lemma safe_eq {A} (m : M S A) s a s' Q : m s = Ret a s' -> Q a s' -> safe m s Q I.
Proof. unfold safe. by intros ->. Qed.
End Safe.

Section Pres.
Context {S : Type} (R : S -> S -> Prop) `{!PreOrder R}.

Lemma pres_ret {A} (a : A) : pres R (mret a).
Proof. intros s. simpl. reflexivity. Qed.

Lemma pres_bind {A B} (m : M S A) (f : A -> M S B) :
  pres R m -> (forall a, pres R (f a)) -> pres R (m ≫= f).
Proof.
  intros Hm Hf s. specialize (Hm s). unfold mbind, M_bind.
  destruct (m s) as [a s1|t s1|e]; [|done|done].
  specialize (Hf a s1). destruct (f a s1); [by etrans|done|done].
Qed.

Lemma pres_gets {A} (f : S -> A) : pres R (gets f).
Proof. intros s. simpl. reflexivity. Qed.

Lemma pres_get : pres R get.
Proof. intros s. simpl. reflexivity. Qed.

Lemma pres_modify f : (forall s, R s (f s)) -> pres R (modify f).
Proof. intros H s. apply H. Qed.

Lemma pres_stop {A} e : pres R (stop_with e : M S A).
Proof. done. Qed.

Lemma pres_need {A} (o : option A) what : pres R (need o what).
Proof. intros s. destruct o; simpl; [reflexivity|done]. Qed.

Lemma pres_assert b what : pres R (kassert b what).
Proof. intros s. destruct b; simpl; [reflexivity|done]. Qed.

Lemma pres_when b m : pres R m -> pres R (when b m).
Proof. intros H. destruct b; [done|apply pres_ret]. Qed.
End Pres.

Lemma pres_zoom {S T A} (R : S -> S -> Prop) (view : S -> T) upd (m : M T A) (R' : T -> T -> Prop) :
  (forall s t, R' (view s) t -> R s (upd t s)) -> pres R' m -> pres R (zoom view upd m).
Proof. intros H Hm s. specialize (Hm (view s)). unfold zoom. destruct (m (view s)); auto. Qed.

(** Runs through a computation whose leaves are in the database [pres]. *)
Create HintDb pres.

Ltac pres_step :=
  first
    [ assumption
    | solve [eauto 2 with pres nocore]
    | lazymatch goal with
      | |- PreOrder _ => typeclasses eauto
      | |- forall _, _ => intro
      | |- pres _ (_ ≫= _) => apply pres_bind
      | |- pres _ (mret _) => apply pres_ret
      | |- pres _ (gets _) => apply pres_gets
      | |- pres _ get => apply pres_get
      | |- pres _ (need _ _) => apply pres_need
      | |- pres _ (kassert _ _) => apply pres_assert
      | |- pres _ (when _ _) => apply pres_when
      | |- pres _ (panic _) => apply pres_stop
      | |- pres _ (fault _) => apply pres_stop
      | |- pres _ (hang _) => apply pres_stop
      | |- pres _ (if ?b then _ else _) => destruct b
      | |- pres _ (match ?x with _ => _ end) => destruct x
      | |- pres _ (let _ := _ in _) => cbv zeta
      end ].

Ltac pres_tac := repeat pres_step.

(** ** Monad laws, extensionally *)

Section Laws.
Context {S A B C : Type}.

Lemma M_left_id (a : A) (f : A -> M S B) s : (mret a ≫= f) s = f a s.
Proof. done. Qed.

Lemma M_right_id (m : M S A) s : (m ≫= mret) s = m s.
Proof. unfold mbind, M_bind, mret, M_ret. by destruct (m s). Qed.

Lemma M_assoc (m : M S A) (f : A -> M S B) (g : B -> M S C) s :
  ((m ≫= f) ≫= g) s = (m ≫= (fun a => f a ≫= g)) s.
Proof. unfold mbind, M_bind. by destruct (m s). Qed.
End Laws.

(** ** Proof automation *)

Create HintDb wp.
#[export] Hint Resolve wp_ret wp_get wp_gets wp_put wp_modify : wp.

(** One step of symbolic execution. *)
Ltac wp_step :=
  match goal with
  | |- wp (_ ≫= _) _ _ => apply wp_bind
  | |- wp (mret _) _ _ => apply wp_ret
  | |- wp get _ _ => apply wp_get
  | |- wp (gets _) _ _ => apply wp_gets
  | |- wp (put _) _ _ => apply wp_put
  | |- wp (modify _) _ _ => apply wp_modify
  | |- wp (need (Some _) _) _ _ => eapply wp_need; [reflexivity|]
  | |- wp (kassert true _) _ _ => apply wp_assert; [reflexivity|]
  end; cbv beta.

Ltac wp_steps := repeat wp_step.

(** The same for [safe]. *)
Lemma safe_ret {S A} (I : S -> Prop) (a : A) s Q : Q a s -> safe (mret a) s Q I.
Proof. done. Qed.

Lemma safe_gets {S A} (I : S -> Prop) (f : S -> A) s Q : Q (f s) s -> safe (gets f) s Q I.
Proof. done. Qed.

Lemma safe_get {S} (I : S -> Prop) s Q : Q s s -> safe get s Q I.
Proof. done. Qed.

Lemma safe_modify {S} (I : S -> Prop) (f : S -> S) s Q : Q tt (f s) -> safe (modify f) s Q I.
Proof. done. Qed.

Lemma safe_stop {S A} (I : S -> Prop) e s Q : safe (stop_with e : M S A) s Q I.
Proof. done. Qed.

Lemma safe_pres {S A} (R : S -> S -> Prop) (I : S -> Prop) (m : M S A) s (Q : A -> S -> Prop) :
  pres R m -> (forall a s', R s s' -> Q a s') -> safe m s Q I.
Proof. intros Hm HQ. specialize (Hm s). unfold safe. destruct (m s); [auto|done|done]. Qed.

Lemma pres_safe {S A} (R : S -> S -> Prop) (m : M S A) :
  (forall s, safe m s (fun _ s' => R s s') (fun _ => False)) -> pres R m.
Proof. done. Qed.

Lemma pres_mono {S A} (R R' : S -> S -> Prop) (m : M S A) :
  (forall s s', R s s' -> R' s s') -> pres R m -> pres R' m.
Proof. intros H Hm s. specialize (Hm s). destruct (m s); auto. Qed.

(** Two facts about the same run. *)
Lemma safe_both {S A} (R : S -> S -> Prop) (I : S -> Prop) (m : M S A) s (Q : A -> S -> Prop) :
  safe m s Q I -> pres R m -> safe m s (fun a s' => Q a s' /\ R s s') I.
Proof. intros H Hm. specialize (Hm s). unfold safe in *. by destruct (m s). Qed.

Lemma safe_weaken {S A} (m : M S A) s (Q Q' : A -> S -> Prop) (I I' : S -> Prop) :
  safe m s Q I -> (forall a s', Q a s' -> Q' a s') -> (forall s', I s' -> I' s') -> safe m s Q' I'.
Proof. unfold safe. destruct (m s); auto. Qed.

(** A step that stays related to an earlier state. *)
Lemma safe_frame {S A B} (R : S -> S -> Prop) `{!PreOrder R} (I : S -> Prop) (m : M S A) (f : A -> M S B)
    s s0 (Q : B -> S -> Prop) :
  pres R m -> R s s0 -> (forall a s1, R s s1 -> safe (f a) s1 Q I) -> safe (m ≫= f) s0 Q I.
Proof.
  intros Hm H0 HQ. apply safe_bind, (safe_pres R); [done|]. intros a s1 E. apply HQ. by etrans.
Qed.

Lemma safe_zoom {S T A} (view : S -> T) upd (m : M T A) s Q (I : S -> Prop) :
  safe m (view s) (fun a t => Q a (upd t s)) (fun t => I (upd t s)) -> safe (zoom view upd m) s Q I.
Proof. unfold safe, zoom. by destruct (m (view s)). Qed.

Ltac safe_step :=
  match goal with
  | |- safe (_ ≫= _) _ _ _ => apply safe_bind
  | |- safe (mret _) _ _ _ => apply safe_ret
  | |- safe get _ _ _ => apply safe_get
  | |- safe (gets _) _ _ _ => apply safe_gets
  | |- safe (modify _) _ _ _ => apply safe_modify
  | |- safe (panic _) _ _ _ => apply safe_stop
  | |- safe (hang _) _ _ _ => apply safe_stop
  | |- safe (fault _) _ _ _ => apply safe_stop
  end; cbv beta.

Ltac safe_steps := repeat safe_step.

(** ** Code on its way

    Running [m] from [s] comes to running [m'] from a state with [R]. *)
Definition comes_to {S A} (m m' : M S A) (s : S) (R : S -> Prop) : Prop :=
  exists s', m s = m' s' /\ R s'.

Lemma comes_step {S A B} (m : M S A) (f : A -> M S B) m' s a s' R :
  m s = Ret a s' -> comes_to (f a) m' s' R -> comes_to (m ≫= f) m' s R.
Proof. intros E (s2 & E2 & HR). exists s2. split; [|exact HR]. by rewrite (bind_ret _ _ _ _ _ E). Qed.

Lemma comes_bind {S A B} (m : M S A) (f : A -> M S B) m' s Q R :
  wp m s Q -> (forall a s', Q a s' -> comes_to (f a) m' s' R) -> comes_to (m ≫= f) m' s R.
Proof. intros Hw Hf. destruct (wp_inv _ _ _ Hw) as (a & s' & E & HQ). eapply comes_step; [exact E|]. by apply Hf. Qed.
