(* ===== verification/Spinlock.v ===== *)
(** * Spin locks (kernel/spinlock.c)

    Two views of the same code.  The sequential operations [spin_initlock],
    [spin_lock] and [spin_unlock] are what the rest of the kernel calls.  The
    step relation [lstep] interleaves any number of CPUs that run
    [spin_lock(lk); critical section; spin_unlock(lk)] for ever, one access to
    the shared lock at a time; on it mutual exclusion and the silence of the
    DEBUG_SPINLOCK checks are proved. *)

From S2P Require Import Prelude.
From S2P Require Import Machine.
From S2P Require Import Kmonad.
From Stdlib Require Import ZArith Lia.
From stdpp Require Import base gmap list strings functions.

Local Open Scope Z_scope.

(** ** Data *)

(** [struct spinlock] with DEBUG_SPINLOCK defined; [lk_cpu] is the index of the
    holder in [cpus], [None] for the null pointer. *)
Record spinlock := mkSpinlock {
  locked : Z;
  lk_name : string;
  lk_cpu : option Z;
  pcs : list Z
}.

(** The CPU that runs the code: its number, its %ebp and the stack words the
    frame pointer chain goes through. *)
Record cpu_ctx := mkCtx {
  ctx_cpu : Z;
  ctx_ebp : Z;
  ctx_stack : gmap Z Z
}.

(** ** Operations *)

(** The two loops of [get_caller_pcs]: follow the chain while it stays above
    ULIM, then fill with zeroes. *)
Fixpoint caller_pcs_from (n : nat) (stack : gmap Z Z) (ebp : Z) : list Z :=
  match n with
  | O => []
  | S n' =>
      if (ebp =? 0) || (ebp <? ULIM) then replicate n 0
      else default 0 (stack !! (ebp + 4))
           :: caller_pcs_from n' stack (default 0 (stack !! ebp))
  end.

Definition get_caller_pcs (c : cpu_ctx) : list Z :=
  caller_pcs_from 10 (ctx_stack c) (ctx_ebp c).

Definition holding (c : cpu_ctx) (lk : spinlock) : bool :=
  truth (locked lk) && bool_decide (lk_cpu lk = Some (ctx_cpu c)).

(** [__spin_initlock]: the program counters keep what they held. *)
Definition spin_initlock (name : string) (lk : spinlock) : spinlock :=
  mkSpinlock 0 name None (pcs lk).

(** [spin_lock]: with the lock held by another CPU the [while (xchg(...))] loop
    ends only when that CPU releases it, which a sequential run never sees. *)
Definition spin_lock (c : cpu_ctx) : M spinlock unit :=
  lk ← get;
  if holding c lk then panic "CPU %d cannot acquire %s: already holding"
  else if truth (locked lk) then hang "spin_lock"
  else put (mkSpinlock 1 (lk_name lk) (Some (ctx_cpu c)) (get_caller_pcs c)).

Definition spin_unlock (c : cpu_ctx) : M spinlock unit :=
  lk ← get;
  if negb (holding c lk) then panic "spin_unlock"
  else put (mkSpinlock 0 (lk_name lk) None (<[0%nat := 0]> (pcs lk))).

(** ** Sequential behaviour *)

Definition lock_free (lk : spinlock) : Prop := locked lk = 0.

Lemma spin_lock_free c lk :
  lock_free lk ->
  spin_lock c lk
  = Ret tt (mkSpinlock 1 (lk_name lk) (Some (ctx_cpu c)) (get_caller_pcs c)).
Proof.
  unfold lock_free. intros H. unfold spin_lock, get, mbind, M_bind.
  unfold holding. rewrite H. done.
Qed.

Lemma length_caller_pcs_from n stack ebp :
  length (caller_pcs_from n stack ebp) = n.
Proof.
  revert ebp. induction n as [|n IH]; intros ebp; [done|]. simpl.
  destruct (_ || _); simpl; [by rewrite length_replicate|by rewrite IH].
Qed.

(** Releasing a lock the same CPU has just taken. *)
Lemma spin_lock_unlock c lk :
  lock_free lk ->
  exists lk', (spin_lock c ;; spin_unlock c) lk = Ret tt lk'
              /\ lock_free lk' /\ lk_cpu lk' = None /\ lk_name lk' = lk_name lk.
Proof.
  intros H. unfold mbind, M_bind. rewrite spin_lock_free by done.
  unfold spin_unlock, get, mbind, M_bind, holding. simpl locked. simpl lk_cpu.
  rewrite bool_decide_eq_true_2 by done. simpl. eexists. split; [done|done].
Qed.

(** Taking a lock twice on one CPU is caught. *)
Lemma spin_lock_twice c lk :
  lock_free lk ->
  (spin_lock c ;; spin_lock c) lk
  = Stop (Panic "CPU %d cannot acquire %s: already holding").
Proof.
  intros H. unfold mbind at 1, M_bind at 1. rewrite spin_lock_free by done.
  unfold spin_lock, get, mbind, M_bind, holding. simpl.
  by rewrite bool_decide_eq_true_2.
Qed.

(** ** Interleaved execution *)

(** Where a CPU is in [spin_lock; critical; spin_unlock]. *)
Inductive pc :=
| Outside        (* before spin_lock *)
| HoldCpu        (* holding(lk) read lk->locked != 0, next reads lk->cpu *)
| Spinning       (* in while (xchg(&lk->locked, 1) != 0) *)
| SetCpu         (* acquired, next lk->cpu = thiscpu *)
| SetPcs         (* next get_caller_pcs(lk->pcs) *)
| Critical       (* returned from spin_lock *)
| UnHold         (* spin_unlock: next reads lk->locked *)
| UnHoldCpu      (* next reads lk->cpu *)
| UnPcs          (* next lk->pcs[0] = 0 *)
| UnCpu          (* next lk->cpu = 0 *)
| Release        (* next xchg(&lk->locked, 0) *)
| Panicked.

#[global] Instance pc_eq_dec : EqDecision pc.
Proof. solve_decision. Defined.

(** The shared lock word and owner field, and every CPU's position. *)
Record lstate := mkL { l_locked : Z; l_cpu : option Z; l_pc : Z -> pc }.

Definition goto (s : lstate) (c : Z) (p : pc) : lstate :=
  mkL (l_locked s) (l_cpu s) (<[c := p]> (l_pc s)).

(** One shared access of CPU [c]. *)
Inductive lstep_cpu (c : Z) : lstate -> lstate -> Prop :=
| st_hold_free s :
    l_pc s c = Outside -> l_locked s = 0 -> lstep_cpu c s (goto s c Spinning)
| st_hold_locked s :
    l_pc s c = Outside -> l_locked s <> 0 -> lstep_cpu c s (goto s c HoldCpu)
| st_hold_mine s :
    l_pc s c = HoldCpu -> l_cpu s = Some c -> lstep_cpu c s (goto s c Panicked)
| st_hold_other s :
    l_pc s c = HoldCpu -> l_cpu s <> Some c -> lstep_cpu c s (goto s c Spinning)
| st_xchg_busy s :
    l_pc s c = Spinning -> l_locked s <> 0 ->
    lstep_cpu c s (mkL 1 (l_cpu s) (l_pc s))
| st_xchg_got s :
    l_pc s c = Spinning -> l_locked s = 0 ->
    lstep_cpu c s (mkL 1 (l_cpu s) (<[c := SetCpu]> (l_pc s)))
| st_set_cpu s :
    l_pc s c = SetCpu ->
    lstep_cpu c s (mkL (l_locked s) (Some c) (<[c := SetPcs]> (l_pc s)))
| st_set_pcs s :
    l_pc s c = SetPcs -> lstep_cpu c s (goto s c Critical)
| st_leave s :
    l_pc s c = Critical -> lstep_cpu c s (goto s c UnHold)
| st_unhold_free s :
    l_pc s c = UnHold -> l_locked s = 0 -> lstep_cpu c s (goto s c Panicked)
| st_unhold_locked s :
    l_pc s c = UnHold -> l_locked s <> 0 -> lstep_cpu c s (goto s c UnHoldCpu)
| st_unhold_other s :
    l_pc s c = UnHoldCpu -> l_cpu s <> Some c -> lstep_cpu c s (goto s c Panicked)
| st_unhold_mine s :
    l_pc s c = UnHoldCpu -> l_cpu s = Some c -> lstep_cpu c s (goto s c UnPcs)
| st_unpcs s :
    l_pc s c = UnPcs -> lstep_cpu c s (goto s c UnCpu)
| st_uncpu s :
    l_pc s c = UnCpu ->
    lstep_cpu c s (mkL (l_locked s) None (<[c := Release]> (l_pc s)))
| st_release s :
    l_pc s c = Release ->
    lstep_cpu c s (mkL 0 (l_cpu s) (<[c := Outside]> (l_pc s))).

Definition lstep (s s' : lstate) : Prop := exists c, lstep_cpu c s s'.

(** After [spin_initlock], with every CPU outside. *)
Definition linit : lstate := mkL 0 None (fun _ => Outside).

(** Between winning the [xchg] and giving the lock back. *)
Definition owns (p : pc) : bool :=
  match p with
  | SetCpu | SetPcs | Critical | UnHold | UnHoldCpu | UnPcs | UnCpu | Release => true
  | Outside | HoldCpu | Spinning | Panicked => false
  end.

(** Between [lk->cpu = thiscpu] and [lk->cpu = 0]. *)
Definition named (p : pc) : bool :=
  match p with
  | SetPcs | Critical | UnHold | UnHoldCpu | UnPcs | UnCpu => true
  | _ => false
  end.

(** ** The invariant *)

Record linv (s : lstate) : Prop := {
  linv_bit : l_locked s = 0 \/ l_locked s = 1;
  linv_owner : forall c, owns (l_pc s c) = true -> l_locked s = 1;
  linv_unique : forall c d,
    owns (l_pc s c) = true -> owns (l_pc s d) = true -> c = d;
  linv_free : l_locked s = 1 -> exists c, owns (l_pc s c) = true;
  linv_named : forall c, named (l_pc s c) = true <-> l_cpu s = Some c;
  linv_quiet : forall c, l_pc s c <> Panicked
}.

Lemma named_owns p : named p = true -> owns p = true.
Proof. by destruct p. Qed.

Lemma linv_init : linv linit.
Proof. split; try done; auto. Qed.

(** Reading a position after one CPU moved. *)
Ltac pc_cases d c :=
  destruct (decide (d = c)) as [->|];
  [rewrite ?fn_lookup_insert in *|rewrite ?fn_lookup_insert_ne in * by congruence].

(** A move of [c] that neither takes nor gives the lock, nor touches its fields. *)
Lemma linv_goto s c p :
  linv s -> owns p = owns (l_pc s c) -> named p = named (l_pc s c) -> p <> Panicked ->
  linv (goto s c p).
Proof.
  intros [Hb Ho Hu Hf Hn Hq] Eo En Hp.
  assert (forall d, owns (<[c:=p]> (l_pc s) d) = owns (l_pc s d)) as Eown.
  { intros d. pc_cases d c; done. }
  split; simpl.
  - done.
  - intros d. rewrite Eown. apply Ho.
  - intros d e. rewrite !Eown. apply Hu.
  - intros E. destruct (Hf E) as [d Hd]. exists d. by rewrite Eown.
  - intros d. rewrite <- Hn. pc_cases d c; [by rewrite En|done].
  - intros d. pc_cases d c; [done|apply Hq].
Qed.

(** The owner writes the owner field. *)
Lemma linv_rename s c p o :
  linv s -> owns (l_pc s c) = true -> owns p = true ->
  (o = Some c /\ named p = true) \/ (o = None /\ named p = false) ->
  linv (mkL (l_locked s) o (<[c := p]> (l_pc s))).
Proof.
  intros [Hb Ho Hu Hf Hn Hq] Hc Hp Ho'. split; simpl.
  - done.
  - intros d. pc_cases d c; intros; eauto.
  - intros d e. pc_cases d c; pc_cases e c; intros; eauto.
  - intros _. exists c. by rewrite fn_lookup_insert.
  - intros d. pc_cases d c.
    + destruct Ho' as [[-> ->]|[-> ->]]; split; congruence.
    + split.
      * intros E. destruct n. apply Hu; [by apply named_owns|done].
      * destruct Ho' as [[-> _]|[-> _]]; congruence.
  - intros d. pc_cases d c; [by destruct p|apply Hq].
Qed.

Lemma linv_step s s' : linv s -> lstep s s' -> linv s'.
Proof.
  intros I [c Hstep]. pose proof I as [Hb Ho Hu Hf Hn Hq].
  destruct Hstep as
    [s P L|s P L|s P C|s P C|s P L|s P L|s P|s P|s P|s P L|s P L|s P C|s P C|s P|s P|s P];
    try (apply linv_goto; rewrite ?P; done).
  - exfalso. apply Hn in C. by rewrite P in C.
  - destruct Hb as [|E]; [done|]. by destruct s; simpl in *; subst.
  - assert (forall d, owns (l_pc s d) = false) as Hnone.
    { intros d. destruct (owns (l_pc s d)) eqn:E; [|done]. apply Ho in E. lia. }
    split; simpl.
    + by right.
    + done.
    + intros d e. pc_cases d c; pc_cases e c; rewrite ?Hnone; done.
    + intros _. exists c. by rewrite fn_lookup_insert.
    + intros d. rewrite <- Hn. pc_cases d c; [by rewrite P|done].
    + intros d. pc_cases d c; [done|apply Hq].
  - apply linv_rename; rewrite ?P; auto.
  - assert (l_locked s = 1) by (apply (Ho c); by rewrite P). lia.
  - exfalso. apply C, Hn. by rewrite P.
  - apply linv_rename; rewrite ?P; auto.
  - assert (forall d, d <> c -> owns (l_pc s d) = false) as Hnone.
    { intros d Hd. destruct (owns (l_pc s d)) eqn:E; [|done].
      destruct Hd. apply Hu; [done|by rewrite P]. }
    split; simpl.
    + by left.
    + intros d. pc_cases d c; [done|]. by rewrite Hnone.
    + intros d e. pc_cases d c; [done|]. by rewrite Hnone.
    + done.
    + intros d. rewrite <- Hn. pc_cases d c; [by rewrite P|done].
    + intros d. pc_cases d c; [done|apply Hq].
Qed.

Lemma linv_reachable s : star lstep linit s -> linv s.
Proof.
  apply (star_invariant lstep linv); [apply linv_step|apply linv_init].
Qed.

(** The owner [c] makes the move [lem] and keeps the lock. *)
Ltac moves lem :=
  eexists; split; [done|]; split; [by apply lem|];
  left; simpl; by rewrite fn_lookup_insert.

(** ** Properties of the interleaved lock *)

(** C10: Mutual exclusion under every interleaving of the CPUs' accesses to the
    lock: in every reachable state at most one CPU is in the critical section,
    the owner field of the lock names it, and the checks that [holding] makes on
    entry and on exit have panicked on no CPU. *)
Theorem spinlock_mutual_exclusion s c :
  star lstep linit s ->
  (l_pc s c = Critical ->
   l_locked s = 1 /\ l_cpu s = Some c /\ forall d, l_pc s d = Critical -> d = c)
  /\ l_pc s c <> Panicked.
Proof.
  intros R%linv_reachable. split; [|apply (linv_quiet s R)]. intros Hc. split_and!.
  - apply (linv_owner s R c). by rewrite Hc.
  - apply (linv_named s R). by rewrite Hc.
  - intros d Hd. apply (linv_unique s R); by rewrite ?Hc, ?Hd.
Qed.

(** A run of one CPU is a run of the machine. *)
Lemma solo_run c s s' : star (lstep_cpu c) s s' -> star lstep s s'.
Proof. induction 1; [constructor|]. econstructor; [by exists c|done]. Qed.

(** CPU [c] alone walks from a free lock into the critical section. *)
Lemma lock_run s c :
  l_pc s c = Outside -> l_locked s = 0 ->
  exists s', star (lstep_cpu c) s s' /\ l_locked s' = 1 /\ l_cpu s' = Some c
             /\ l_pc s' c = Critical /\ forall d, d <> c -> l_pc s' d = l_pc s d.
Proof.
  intros P L. eexists. split.
  { eapply star_step; [by apply st_hold_free|].
    eapply star_step; [apply st_xchg_got; simpl; [by rewrite fn_lookup_insert|done]|].
    eapply star_step; [apply st_set_cpu; simpl; by rewrite fn_lookup_insert|].
    apply star_one. apply st_set_pcs. simpl. by rewrite fn_lookup_insert. }
  simpl. repeat split; [by rewrite fn_lookup_insert|].
  intros d Hd. by rewrite !fn_lookup_insert_ne.
Qed.

(** And back. *)
Lemma unlock_run s c :
  l_pc s c = Critical -> l_locked s = 1 -> l_cpu s = Some c ->
  exists s', star (lstep_cpu c) s s' /\ l_locked s' = 0 /\ l_cpu s' = None
             /\ l_pc s' c = Outside /\ forall d, d <> c -> l_pc s' d = l_pc s d.
Proof.
  intros P L C. eexists. split.
  { eapply star_step; [by apply st_leave|].
    eapply star_step; [apply st_unhold_locked; simpl; [by rewrite fn_lookup_insert|lia]|].
    eapply star_step; [apply st_unhold_mine; simpl; [by rewrite fn_lookup_insert|done]|].
    eapply star_step; [apply st_unpcs; simpl; by rewrite fn_lookup_insert|].
    eapply star_step; [apply st_uncpu; simpl; by rewrite fn_lookup_insert|].
    apply star_one. apply st_release. simpl. by rewrite fn_lookup_insert. }
  simpl. repeat split; [by rewrite fn_lookup_insert|].
  intros d Hd. by rewrite !fn_lookup_insert_ne.
Qed.

(** CPU [c] finds the lock in its own hands. *)
Lemma panic_run s c :
  l_pc s c = Outside -> l_locked s <> 0 -> l_cpu s = Some c ->
  exists s', star (lstep_cpu c) s s' /\ l_pc s' c = Panicked.
Proof.
  intros P L C. eexists. split.
  { eapply star_step; [by apply st_hold_locked|]. apply star_one, st_hold_mine; simpl; [by rewrite fn_lookup_insert|done]. }
  simpl. by rewrite fn_lookup_insert.
Qed.

(** While another CPU has the lock, [c] stays before the critical section. *)
Definition kept_out (c : Z) (s : lstate) : Prop :=
  l_locked s <> 0 /\ l_cpu s <> Some c /\ (l_pc s c = Outside \/ l_pc s c = HoldCpu \/ l_pc s c = Spinning).

Lemma kept_out_step c s s' : kept_out c s -> lstep_cpu c s s' -> kept_out c s'.
Proof.
  intros (L & C & P) H. destruct H; simpl in *; try (destruct P as [P|[P|P]]; congruence); (split; [done|split; [done|]]);
    simpl; rewrite ?fn_lookup_insert; eauto.
Qed.

Lemma spinlock_mutual_exclusion_witness :
  exists s, star lstep linit s /\ l_pc s 0 = Critical /\ l_cpu s = Some 0
            /\ l_pc s 0 <> Panicked.
Proof.
  destruct (lock_run linit 0 eq_refl eq_refl) as (s & R%solo_run & _ & _ & P & _).
  exists s. destruct (spinlock_mutual_exclusion s 0 R) as [H ?].
  destruct (H P) as (? & ? & ?). done.
Defined.

(** Some CPU that holds the lock can always move on until it gives it back:
    in a reachable state the lock bit is set exactly when some CPU owns it, and
    that CPU is never stuck. *)
Theorem spinlock_holder_progress s :
  star lstep linit s -> l_locked s <> 0 ->
  exists c s', owns (l_pc s c) = true /\ lstep_cpu c s s'
               /\ (owns (l_pc s' c) = true \/ l_locked s' = 0).
Proof.
  intros R%linv_reachable HL.
  destruct (linv_bit s R) as [|HL1]; [done|].
  destruct (linv_free s R HL1) as [c Hc]. exists c.
  pose proof (linv_named s R c) as Hn.
  destruct (l_pc s c) eqn:P; try done.
  - moves st_set_cpu.
  - moves st_set_pcs.
  - moves st_leave.
  - moves st_unhold_locked.
  - eexists. split; [done|]. split; [apply st_unhold_mine; [done|by apply Hn]|].
    left. simpl. by rewrite fn_lookup_insert.
  - moves st_unpcs.
  - moves st_uncpu.
  - eexists. split; [done|]. split; [by apply st_release|]. by right.
Qed.

Lemma spinlock_holder_progress_witness :
  exists s, star lstep linit s /\ l_locked s <> 0 /\
  exists c s', owns (l_pc s c) = true /\ lstep_cpu c s s'
               /\ (owns (l_pc s' c) = true \/ l_locked s' = 0).
Proof.
  destruct (lock_run linit 0 eq_refl eq_refl) as (s & R%solo_run & L & _).
  exists s. split; [done|]. assert (l_locked s <> 0) by lia. split; [done|].
  by apply spinlock_holder_progress.
Defined.

(** C34: The sequential definitions of the lock's operations, with which the rest of
    the kernel is modelled, are what one CPU's own accesses amount to when no other
    CPU's come in between.  If [spin_lock] returns, the CPU's accesses take it from
    outside to the critical section and leave the lock word and the owner as
    [spin_lock] does; the [spin_unlock] that follows does not panic, and the CPU's
    accesses take it back outside and leave the lock as [spin_unlock] does; the other
    CPUs have not moved.  If [spin_lock] panics, so do the accesses; if it never
    returns, they never reach the critical section. *)
Theorem spinlock_ops_refine_steps ctx lk s :
  let c := ctx_cpu ctx in
  l_pc s c = Outside -> l_locked s = locked lk -> l_cpu s = lk_cpu lk ->
  match spin_lock ctx lk with
  | Ret _ lk1 => exists s1 s2 lk2,
      star (lstep_cpu c) s s1 /\ l_locked s1 = locked lk1 /\ l_cpu s1 = lk_cpu lk1 /\ l_pc s1 c = Critical
      /\ spin_unlock ctx lk1 = Ret tt lk2
      /\ star (lstep_cpu c) s1 s2 /\ l_locked s2 = locked lk2 /\ l_cpu s2 = lk_cpu lk2 /\ l_pc s2 c = Outside
      /\ forall d, d <> c -> l_pc s1 d = l_pc s d /\ l_pc s2 d = l_pc s d
  | Stop (Panic _) => exists s1, star (lstep_cpu c) s s1 /\ l_pc s1 c = Panicked
  | Stop (Hang _) => forall s1, star (lstep_cpu c) s s1 -> l_pc s1 c <> Critical /\ l_pc s1 c <> Panicked
  | _ => False
  end.
Proof.
  intros c P L C. destruct (decide (locked lk = 0)) as [E|E].
  - rewrite spin_lock_free by done.
    destruct (lock_run s c) as (s1 & R1 & L1 & C1 & P1 & O1); [done|congruence|].
    destruct (unlock_run s1 c) as (s2 & R2 & L2 & C2 & P2 & O2); [done..|].
    exists s1, s2. eexists. split_and!; try done.
    + unfold spin_unlock, get, mbind, M_bind, holding. simpl locked. simpl lk_cpu.
      by rewrite bool_decide_eq_true_2.
    + done.
    + done.
    + intros d Hd. by rewrite O2, O1.
  - unfold spin_lock, get, mbind, M_bind, holding. assert (truth (locked lk) = true) as ->
      by (unfold truth; by destruct (Z.eqb_spec (locked lk) 0)).
    cbn [andb]. destruct (bool_decide_reflect (lk_cpu lk = Some (ctx_cpu ctx))) as [Hm|Hm].
    + apply panic_run; [done|by rewrite L|by rewrite C].
    + intros s1 R. assert (kept_out c s1) as (_ & _ & [H|[H|H]]).
      { apply (star_invariant (lstep_cpu c) (kept_out c)) with (s := s); [apply kept_out_step| |exact R].
        split; [by rewrite L|]. split; [by rewrite C|by left]. }
      all: rewrite H; done.
Qed.

Lemma spinlock_ops_refine_steps_witness :
  exists s1 : lstate, star (lstep_cpu 0) linit s1 /\ l_pc s1 0 = Critical.
Proof.
  pose proof (spinlock_ops_refine_steps (mkCtx 0 0 ∅) (mkSpinlock 0 "page_free_list_lock" None []) linit
    eq_refl eq_refl eq_refl) as H. simpl in H.
  destruct H as (s1 & _ & _ & R & _ & _ & P & _). by exists s1.
Defined.
