(* ===== verification/PageAlloc.v ===== *)
(** * Physical pages (kernel/mem.c, first half)

    The boot-time allocator [boot_alloc], the [struct PageInfo] array with its
    free list, and [page_init], [page_alloc], [page_free], [page_decref].  The
    page tables that live in the pages handed out here are in [Paging.v].

    Physical memory is a map from word-aligned physical addresses to 32-bit
    words (a missing word reads 0).  A [struct PageInfo *] is the page number,
    so [pp - pages] is the number itself; the null pointer is [None].  The
    array [pages] is kept beside the memory it is allocated in. *)

From S2P Require Import Prelude.
From S2P Require Import Machine.
From S2P Require Import Kmonad.
From S2P Require Import Spinlock.
From Stdlib Require Import ZArith Lia.
From stdpp Require Import base gmap list strings.

Local Open Scope Z_scope.

(** ** State *)

(** [struct PageInfo]; [pp_ref] is a [uint16_t]. *)
Record PageInfo := mkPage { pp_link : option Z; pp_ref : Z }.

(** The variables that only set-up code writes: [npages], [npages_basemem],
    [nextfree] (0 while null), [kern_pgdir], the address [pages] points to,
    [mmio_map_region]'s static [base], the control registers; with them the CPU
    that runs, the addresses given to [invlpg] and the messages printed. *)
Record mm_cfg := mkCfg {
  c_npages : Z;
  c_npages_basemem : Z;
  c_nextfree : Z;
  c_kern_pgdir : Z;
  c_pages_va : Z;
  c_mmio_base : Z;
  c_cr3 : Z;
  c_cr0 : Z;
  c_ctx : cpu_ctx;
  c_invlpg : list Z;
  c_console : list (string * list Z)
}.

Record mm_state := MM {
  cfg : mm_cfg;
  pages : gmap Z PageInfo;
  page_free_list : option Z;
  num_free_pages : Z;
  page_free_list_lock : spinlock;
  ram : gmap Z Z
}.

Definition npages (s : mm_state) : Z := c_npages (cfg s).
Definition npages_basemem (s : mm_state) : Z := c_npages_basemem (cfg s).
Definition nextfree (s : mm_state) : Z := c_nextfree (cfg s).
Definition kern_pgdir (s : mm_state) : Z := c_kern_pgdir (cfg s).

(** Assignments to the variables. *)
Definition upd_cfg (f : mm_cfg -> mm_cfg) (s : mm_state) : mm_state :=
  MM (f (cfg s)) (pages s) (page_free_list s) (num_free_pages s) (page_free_list_lock s) (ram s).
Definition set_pages (p : gmap Z PageInfo) (s : mm_state) : mm_state :=
  MM (cfg s) p (page_free_list s) (num_free_pages s) (page_free_list_lock s) (ram s).
Definition set_page_free_list (h : option Z) (s : mm_state) : mm_state :=
  MM (cfg s) (pages s) h (num_free_pages s) (page_free_list_lock s) (ram s).
Definition set_num_free_pages (n : Z) (s : mm_state) : mm_state :=
  MM (cfg s) (pages s) (page_free_list s) n (page_free_list_lock s) (ram s).
Definition set_lock (lk : spinlock) (s : mm_state) : mm_state :=
  MM (cfg s) (pages s) (page_free_list s) (num_free_pages s) lk (ram s).
Definition set_ram (m : gmap Z Z) (s : mm_state) : mm_state :=
  MM (cfg s) (pages s) (page_free_list s) (num_free_pages s) (page_free_list_lock s) m.

Definition set_nextfree (v : Z) (c : mm_cfg) : mm_cfg :=
  mkCfg (c_npages c) (c_npages_basemem c) v (c_kern_pgdir c) (c_pages_va c) (c_mmio_base c)
        (c_cr3 c) (c_cr0 c) (c_ctx c) (c_invlpg c) (c_console c).
Definition log_invlpg (va : Z) (c : mm_cfg) : mm_cfg :=
  mkCfg (c_npages c) (c_npages_basemem c) (c_nextfree c) (c_kern_pgdir c) (c_pages_va c)
        (c_mmio_base c) (c_cr3 c) (c_cr0 c) (c_ctx c) (va :: c_invlpg c) (c_console c).
Definition log_console (m : string * list Z) (c : mm_cfg) : mm_cfg :=
  mkCfg (c_npages c) (c_npages_basemem c) (c_nextfree c) (c_kern_pgdir c) (c_pages_va c)
        (c_mmio_base c) (c_cr3 c) (c_cr0 c) (c_ctx c) (c_invlpg c) (m :: c_console c).

Definition ALLOC_ZERO : Z := 1.

(** ** Addresses (kernel/mem.h) *)

(** [PADDR]: kernel virtual to physical, panics below KERNBASE. *)
Definition PADDR (kva : Z) : M mm_state Z :=
  if (kva <? KERNBASE) then panic "PADDR called with invalid kva %08lx"
  else mret (u32 (kva - KERNBASE)).

(** [KADDR]: physical to kernel virtual, panics outside physical memory. *)
Definition KADDR (pa : Z) : M mm_state Z :=
  n ← gets npages;
  if (PGNUM pa >=? n) then panic "KADDR called with invalid pa %08lx"
  else mret (u32 (pa + KERNBASE)).

Definition page2pa (pp : Z) : Z := u32 (Z.shiftl pp PGSHIFT).

Definition pa2page (pa : Z) : M mm_state Z :=
  n ← gets npages;
  if (PGNUM pa >=? n) then panic "pa2page called with invalid pa" else mret (PGNUM pa).

Definition page2kva (pp : Z) : M mm_state Z := KADDR (page2pa pp).

(** ** Access to memory through the direct map at KERNBASE *)

Definition rd32 (m : gmap Z Z) (pa : Z) : Z := default 0 (m !! pa).

(** The word at [pa] exists: aligned and inside physical memory. *)
Definition word_ok (s : mm_state) (pa : Z) : bool :=
  (0 <=? pa) && (pa mod 4 =? 0) && (PGNUM pa <? npages s).

Definition load32 (kva : Z) : M mm_state Z :=
  s ← get;
  let pa := kva - KERNBASE in
  if word_ok s pa then mret (rd32 (ram s) pa) else fault "load32".

Definition store32 (kva v : Z) : M mm_state unit :=
  s ← get;
  let pa := kva - KERNBASE in
  if word_ok s pa then put (set_ram (<[pa := v]> (ram s)) s) else fault "store32".

(** [n] words from [pa] on. *)
Fixpoint fill (n : nat) (pa w : Z) (m : gmap Z Z) : gmap Z Z :=
  match n with
  | O => m
  | S n' => fill n' (pa + 4) w (<[pa := w]> m)
  end.

(** [memset(v, c, n)] of lib/string.c on the branch every caller in the memory
    code takes: [v] and [n] multiples of four, [rep stosl] of the byte repeated. *)
Definition memset (v c n : Z) : M mm_state unit :=
  if (n =? 0) then mret tt
  else if negb ((v mod 4 =? 0) && (n mod 4 =? 0)) then fault "memset: unaligned"
  else
    s ← get;
    let pa := v - KERNBASE in
    let b := Z.land c 0xFF in
    let w := Z.lor (Z.lor (Z.lor (Z.shiftl b 24) (Z.shiftl b 16)) (Z.shiftl b 8)) b in
    if word_ok s pa && word_ok s (pa + n - 4)
    then put (set_ram (fill (Z.to_nat (n / 4)) pa w (ram s)) s)
    else fault "memset".

(** ** Locks and messages *)

Definition with_lock (f : cpu_ctx -> M spinlock unit) : M mm_state unit :=
  c ← gets (fun s => c_ctx (cfg s));
  zoom page_free_list_lock set_lock (f c).

Definition printk (fmt : string) (args : list Z) : M mm_state unit :=
  modify (upd_cfg (log_console (fmt, args))).

(** ** Fields of a [struct PageInfo] *)

Definition page_get (pp : Z) : M mm_state PageInfo :=
  pg ← gets pages; need (pg !! pp) "struct PageInfo read".

Definition page_put (pp : Z) (pi : PageInfo) : M mm_state unit :=
  pg ← gets pages;
  _ ← need (pg !! pp) "struct PageInfo write";
  modify (set_pages (<[pp := pi]> pg)).

Definition set_pp_link (pp : Z) (l : option Z) : M mm_state unit :=
  pi ← page_get pp; page_put pp (mkPage l (pp_ref pi)).

Definition set_pp_ref (pp : Z) (r : Z) : M mm_state unit :=
  pi ← page_get pp; page_put pp (mkPage (pp_link pi) r).

(** ** boot_alloc *)

Section Boot.
  (** The linker's symbol [end]. *)
  Context (end_va : Z).

Definition boot_alloc (n : Z) : M mm_state Z :=
  nf0 ← gets nextfree;
  _ ← when (nf0 =? 0) (modify (upd_cfg (set_nextfree (ROUNDUP end_va PGSIZE))));
  result ← gets nextfree;
  if (n =? 0) then mret result
  else
    _ ← modify (upd_cfg (set_nextfree (u32 (result + ROUNDUP n PGSIZE))));
    mret result.

(** ** page_init *)

(** One turn of the loops that put a page on the free list. *)
Definition page_init_free (i : Z) : M mm_state unit :=
  _ ← set_pp_ref i 0;
  h ← gets page_free_list;
  _ ← set_pp_link i h;
  _ ← modify (set_page_free_list (Some i));
  n ← gets num_free_pages;
  modify (set_num_free_pages (u32 (n + 1))).

(** [for (; i < hi; i++) body(i)], with [hi] read again on every turn.  The
    first value of [hi] bounds the number of turns. *)
Fixpoint for_loop (fuel : nat) (i : Z) (hi : M mm_state Z) (body : Z -> M mm_state unit)
  : M mm_state unit :=
  b ← hi;
  if (i <? b) then
    match fuel with
    | O => hang "for_loop: out of fuel"
    | S fuel' => _ ← body i; for_loop fuel' (i + 1) hi body
    end
  else mret tt.

Definition for_below (i : Z) (hi : M mm_state Z) (body : Z -> M mm_state unit)
  : M mm_state unit :=
  b ← hi; for_loop (Z.to_nat (b - i)) i hi body.

(** [PADDR(boot_alloc(0)) / PGSIZE]. *)
Definition first_free_page_number : M mm_state Z :=
  v ← boot_alloc 0; pa ← PADDR v; mret (pa / PGSIZE).

Definition page_init : M mm_state unit :=
  _ ← set_pp_link 0 None;
  _ ← for_below 1 (mret (PGNUM MPENTRY_PADDR)) page_init_free;
  _ ← set_pp_link (PGNUM MPENTRY_PADDR) None;
  _ ← for_below (PGNUM MPENTRY_PADDR + 1) (gets npages_basemem) page_init_free;
  base ← gets npages_basemem;
  _ ← for_below base (mret (EXTPHYSMEM / PGSIZE)) (fun i => set_pp_link i None);
  _ ← for_below (EXTPHYSMEM / PGSIZE) first_free_page_number
        (fun i => set_pp_link i None);
  first ← first_free_page_number;
  for_below first (gets npages) page_init_free.
End Boot.

(** ** Allocation *)

Definition page_alloc (alloc_flags : Z) : M mm_state (option Z) :=
  _ ← with_lock spin_lock;
  h ← gets page_free_list;
  match h with
  | None => _ ← with_lock spin_unlock; mret None
  | Some pp =>
      pi ← page_get pp;
      _ ← modify (set_page_free_list (pp_link pi));
      _ ← set_pp_link pp None;
      _ ← when (truth (Z.land alloc_flags ALLOC_ZERO))
            (kva ← page2kva pp; memset kva 0 PGSIZE);
      n ← gets num_free_pages;
      _ ← modify (set_num_free_pages (u32 (n - 1)));
      _ ← with_lock spin_unlock;
      mret (Some pp)
  end.

Definition page_free (pp : Z) : M mm_state unit :=
  pi ← page_get pp;
  if negb (pp_ref pi =? 0) then panic "page_free: pp_ref is nonzero"
  else if bool_decide (is_Some (pp_link pi)) then panic "page_free: pp_link is not NULL"
  else
    _ ← with_lock spin_lock;
    h ← gets page_free_list;
    _ ← set_pp_link pp h;
    _ ← modify (set_page_free_list (Some pp));
    n ← gets num_free_pages;
    _ ← modify (set_num_free_pages (u32 (n + 1)));
    with_lock spin_unlock.

Definition page_decref (pp : Z) : M mm_state unit :=
  pi ← page_get pp;
  let r := u16 (pp_ref pi - 1) in
  _ ← set_pp_ref pp r;
  if (r =? 0) then page_free pp else mret tt.

Definition sys_get_num_free_page : M mm_state Z :=
  n ← gets num_free_pages; mret (s32 n).

Definition sys_get_num_used_page : M mm_state Z :=
  s ← get; mret (s32 (u32 (npages s - num_free_pages s))).

(** [memset(pages, 0, sizeof(struct PageInfo) * npages)] on the fresh array. *)
Fixpoint zero_pages (n : nat) : gmap Z PageInfo :=
  match n with
  | O => ∅
  | S n' => <[Z.of_nat n' := mkPage None 0]> (zero_pages n')
  end.

Lemma lookup_zero_pages n i :
  zero_pages n !! i
  = if bool_decide (0 <= i < Z.of_nat n) then Some (mkPage None 0) else None.
Proof.
  induction n as [|n IH]; [by rewrite bool_decide_eq_false_2 by lia|].
  cbn [zero_pages]. destruct (decide (i = Z.of_nat n)) as [->|].
  - rewrite lookup_insert_eq. by rewrite bool_decide_eq_true_2 by lia.
  - rewrite lookup_insert_ne by done. rewrite IH.
    case_bool_decide; case_bool_decide; try done; lia.
Qed.

(** ** Well-formedness *)

(** The pages of [l], in order, are what the links starting at [h] go through;
    none of them is referenced. *)
Fixpoint flist (pg : gmap Z PageInfo) (h : option Z) (l : list Z) : Prop :=
  match l with
  | [] => h = None
  | i :: l' => h = Some i /\ exists pi, pg !! i = Some pi /\ pp_ref pi = 0
                                      /\ flist pg (pp_link pi) l'
  end.

(** The allocator between two calls, with [l] the free pages in list order.
    KERNBASE leaves room for 65536 pages of direct map. *)
Record mm_wf (s : mm_state) (l : list Z) : Prop := {
  wf_list : flist (pages s) (page_free_list s) l;
  wf_nodup : NoDup l;
  wf_count : num_free_pages s = Z.of_nat (length l);
  wf_dom : forall i, is_Some (pages s !! i) <-> 0 <= i < npages s;
  wf_npages : 0 <= npages s <= 65536;
  wf_lock : lock_free (page_free_list_lock s);
  wf_ram : forall pa w, ram s !! pa = Some w -> 0 <= w < 4294967296
}.

Lemma flist_insert pg h l i pi :
  i ∉ l -> flist pg h l -> flist (<[i := pi]> pg) h l.
Proof.
  revert h. induction l as [|j l IH]; intros h Hi; [done|].
  apply not_elem_of_cons in Hi as [Hij Hi].
  intros (-> & pj & Hj & Hr & Hl). split; [done|]. exists pj.
  rewrite lookup_insert_ne by done. eauto.
Qed.

Lemma flist_dom pg h l i : flist pg h l -> i ∈ l -> is_Some (pg !! i).
Proof.
  revert h. induction l as [|j l IH]; intros h; [by intros _ ?%elem_of_nil|].
  intros (-> & pj & Hj & Hr & Hl) [->|Hi]%elem_of_cons; eauto.
Qed.

Lemma flist_ref pg h l i pi : flist pg h l -> i ∈ l -> pg !! i = Some pi -> pp_ref pi = 0.
Proof.
  revert h. induction l as [|j l IH]; intros h; [by intros _ ?%elem_of_nil|].
  intros (-> & pj & Hj & Hr & Hl) [->|Hi]%elem_of_cons Hpi; [congruence|eauto].
Qed.

Lemma wf_range s l i : mm_wf s l -> i ∈ l -> 0 <= i < npages s.
Proof. intros W Hi. apply (wf_dom s l W). eapply flist_dom; [apply W|done]. Qed.

Lemma wf_length s l : mm_wf s l -> Z.of_nat (length l) <= npages s.
Proof.
  intros W. pose proof (wf_npages s l W).
  apply NoDup_bounded_length; [lia|apply (wf_nodup s l W)|].
  intros i. by apply wf_range.
Qed.

Lemma rd32_range s l pa : mm_wf s l -> 0 <= rd32 (ram s) pa < 4294967296.
Proof.
  intros W. unfold rd32. destruct (ram s !! pa) eqn:E; simpl; [|lia].
  by apply (wf_ram s l W) in E.
Qed.

(** ** Memory lemmas *)

Lemma page2pa_spec pp : 0 <= pp < 65536 -> page2pa pp = pp * 4096.
Proof.
  intros. unfold page2pa, PGSHIFT. rewrite Z.shiftl_mul_pow2 by lia.
  change (2 ^ 12) with 4096. apply u32_small. lia.
Qed.

Lemma PGNUM_page pp o : 0 <= o < 4096 -> PGNUM (pp * 4096 + o) = pp.
Proof. intros. rewrite PGNUM_div. Z.to_euclidean_division_equations. lia. Qed.

Lemma lookup_fill n pa w m a :
  fill n pa w m !! a
  = if bool_decide (pa <= a < pa + 4 * Z.of_nat n /\ (a - pa) mod 4 = 0)
    then Some w else m !! a.
Proof.
  revert pa m. induction n as [|n IH]; intros pa m.
  { simpl. rewrite bool_decide_eq_false_2; [done|lia]. }
  simpl fill. rewrite IH. case_bool_decide as H1; case_bool_decide as H2; try done.
  - exfalso. apply H2. destruct H1. split; [lia|].
    Z.to_euclidean_division_equations. lia.
  - destruct (decide (a = pa)) as [->|]; [by rewrite lookup_insert_eq|].
    exfalso. apply H1. destruct H2 as [? Hm]. Z.to_euclidean_division_equations. lia.
  - rewrite lookup_insert_ne; [done|]. intros ->. apply H2.
    rewrite Z.sub_diag. split; [lia|done].
Qed.

(** A page cleared by [memset(page2kva(pp), 0, PGSIZE)]. *)
Definition zero_page (pp : Z) (m : gmap Z Z) : gmap Z Z := fill 1024 (pp * 4096) 0 m.

Lemma rd32_zero_page_in pp m a :
  pp * 4096 <= a < pp * 4096 + 4096 -> a mod 4 = 0 -> rd32 (zero_page pp m) a = 0.
Proof.
  intros. unfold rd32, zero_page. rewrite lookup_fill, bool_decide_eq_true_2; [done|].
  split; [lia|]. Z.to_euclidean_division_equations. lia.
Qed.

Lemma lookup_zero_page_out pp m a :
  ~ (pp * 4096 <= a < pp * 4096 + 4096) -> zero_page pp m !! a = m !! a.
Proof. intros. unfold zero_page. rewrite lookup_fill, bool_decide_eq_false_2; [done|lia]. Qed.

Lemma lookup_zero_page_inv pp m a w :
  zero_page pp m !! a = Some w -> w = 0 \/ m !! a = Some w.
Proof.
  unfold zero_page. rewrite lookup_fill. case_bool_decide; [|by right].
  intros [= <-]. by left.
Qed.

#[global] Arguments zero_page : simpl never.
#[global] Arguments fill : simpl never.
#[global] Opaque zero_page.

(** ** Symbolic execution of the primitives *)

(** The lock as [spin_lock] and then [spin_unlock] leave it. *)
Definition lock_taken (s : mm_state) : spinlock :=
  mkSpinlock 1 (lk_name (page_free_list_lock s)) (Some (ctx_cpu (c_ctx (cfg s))))
    (get_caller_pcs (c_ctx (cfg s))).
Definition lock_cycled (s : mm_state) : spinlock :=
  mkSpinlock 0 (lk_name (page_free_list_lock s)) None
    (<[0%nat := 0]> (get_caller_pcs (c_ctx (cfg s)))).

Section WpPrims.
Context (s : mm_state).

Lemma wp_lock Q :
  lock_free (page_free_list_lock s) ->
  Q tt (set_lock (lock_taken s) s) -> wp (with_lock spin_lock) s Q.
Proof.
  intros Hl HQ. unfold with_lock. apply wp_bind, wp_gets, wp_zoom.
  eapply wp_eq; [by apply spin_lock_free|done].
Qed.

Lemma wp_unlock Q :
  locked (page_free_list_lock s) = 1 ->
  lk_cpu (page_free_list_lock s) = Some (ctx_cpu (c_ctx (cfg s))) ->
  Q tt (set_lock (mkSpinlock 0 (lk_name (page_free_list_lock s)) None
                    (<[0%nat := 0]> (pcs (page_free_list_lock s)))) s) ->
  wp (with_lock spin_unlock) s Q.
Proof.
  intros Hl Hc HQ. unfold with_lock. apply wp_bind, wp_gets, wp_zoom.
  eapply wp_eq; [|done]. unfold spin_unlock, get, mbind, M_bind, holding.
  rewrite Hl, Hc, bool_decide_eq_true_2 by done. done.
Qed.

Lemma wp_page_get pp pi Q : pages s !! pp = Some pi -> Q pi s -> wp (page_get pp) s Q.
Proof. intros H HQ. unfold page_get. wp_steps. by eapply wp_need. Qed.

Lemma wp_page_put pp pi0 pi Q :
  pages s !! pp = Some pi0 -> Q tt (set_pages (<[pp := pi]> (pages s)) s) ->
  wp (page_put pp pi) s Q.
Proof.
  intros H HQ. unfold page_put. wp_steps. eapply wp_need; [done|]. by wp_steps.
Qed.

Lemma wp_set_pp_link pp pi l Q :
  pages s !! pp = Some pi ->
  Q tt (set_pages (<[pp := mkPage l (pp_ref pi)]> (pages s)) s) ->
  wp (set_pp_link pp l) s Q.
Proof.
  intros H HQ. unfold set_pp_link. wp_step.
  eapply wp_page_get; [done|]. by eapply wp_page_put.
Qed.

Lemma wp_set_pp_ref pp pi r Q :
  pages s !! pp = Some pi ->
  Q tt (set_pages (<[pp := mkPage (pp_link pi) r]> (pages s)) s) ->
  wp (set_pp_ref pp r) s Q.
Proof.
  intros H HQ. unfold set_pp_ref. wp_step.
  eapply wp_page_get; [done|]. by eapply wp_page_put.
Qed.

Lemma wp_KADDR pa Q :
  0 <= pa < 268435456 -> PGNUM pa < npages s -> Q (pa + KERNBASE) s -> wp (KADDR pa) s Q.
Proof.
  intros H Hn HQ. unfold KADDR. wp_steps. rewrite Z.geb_leb.
  destruct (Z.leb_spec (npages s) (PGNUM pa)); [lia|].
  rewrite u32_small by (unfold KERNBASE; lia). by wp_steps.
Qed.

Lemma wp_PADDR kva Q :
  KERNBASE <= kva < 4294967296 -> Q (kva - KERNBASE) s -> wp (PADDR kva) s Q.
Proof.
  intros H HQ. unfold PADDR. destruct (Z.ltb_spec kva KERNBASE); [lia|].
  rewrite u32_small by (unfold KERNBASE in *; lia). by wp_steps.
Qed.

Lemma wp_pa2page pa Q : PGNUM pa < npages s -> Q (PGNUM pa) s -> wp (pa2page pa) s Q.
Proof.
  intros Hn HQ. unfold pa2page. wp_steps. rewrite Z.geb_leb.
  destruct (Z.leb_spec (npages s) (PGNUM pa)); [lia|]. by wp_steps.
Qed.

Lemma wp_page2kva pp Q :
  npages s <= 65536 -> 0 <= pp < npages s ->
  Q (pp * 4096 + KERNBASE) s -> wp (page2kva pp) s Q.
Proof.
  intros Hn Hp HQ. unfold page2kva. rewrite page2pa_spec by lia.
  apply wp_KADDR; [lia| |done].
  rewrite <- (Z.add_0_r (pp * 4096)), PGNUM_page by lia. lia.
Qed.

Lemma word_ok_page pp o :
  0 <= pp < npages s -> 0 <= o < 4096 -> o mod 4 = 0 -> word_ok s (pp * 4096 + o) = true.
Proof.
  intros. unfold word_ok. rewrite PGNUM_page by done.
  apply andb_true_intro. split; [apply andb_true_intro; split|].
  - apply Z.leb_le. lia.
  - apply Z.eqb_eq. Z.to_euclidean_division_equations. lia.
  - apply Z.ltb_lt. lia.
Qed.

Lemma wp_load32 pa Q :
  word_ok s pa = true -> Q (rd32 (ram s) pa) s -> wp (load32 (pa + KERNBASE)) s Q.
Proof.
  intros H HQ. unfold load32. wp_step. wp_step.
  rewrite Z.add_simpl_r, H. by wp_steps.
Qed.

Lemma wp_store32 pa v Q :
  word_ok s pa = true -> Q tt (set_ram (<[pa := v]> (ram s)) s) ->
  wp (store32 (pa + KERNBASE) v) s Q.
Proof.
  intros H HQ. unfold store32. wp_step. wp_step.
  rewrite Z.add_simpl_r, H. by wp_steps.
Qed.

Lemma wp_memset_zero_page pp Q :
  0 <= pp < npages s -> Q tt (set_ram (zero_page pp (ram s)) s) ->
  wp (memset (pp * 4096 + KERNBASE) 0 PGSIZE) s Q.
Proof.
  intros Hp HQ. unfold memset.
  assert ((pp * 4096 + KERNBASE) mod 4 = 0) as E.
  { unfold KERNBASE. Z.to_euclidean_division_equations. lia. }
  rewrite E. simpl (PGSIZE =? 0). simpl (PGSIZE mod 4 =? 0). cbn -[KERNBASE PGSIZE fill].
  wp_steps. rewrite Z.add_simpl_r.
  replace (pp * 4096 + PGSIZE - 4) with (pp * 4096 + 4092) by (unfold PGSIZE; lia).
  rewrite <- (Z.add_0_r (pp * 4096)) at 1. rewrite !word_ok_page by (done || lia).
  apply wp_put. exact HQ.
Qed.
End WpPrims.

(** ** What one call does *)

(** The state after [page_alloc] handed out [p], whose record was [pi]. *)
Definition after_alloc (flags p : Z) (pi : PageInfo) (s : mm_state) : mm_state :=
  MM (cfg s) (<[p := mkPage None (pp_ref pi)]> (pages s)) (pp_link pi)
     (u32 (num_free_pages s - 1)) (lock_cycled s)
     (if truth (Z.land flags ALLOC_ZERO) then zero_page p (ram s) else ram s).

(** The state after [page_free] took [p] back. *)
Definition after_free (p : Z) (pi : PageInfo) (s : mm_state) : mm_state :=
  MM (cfg s) (<[p := mkPage (page_free_list s) (pp_ref pi)]> (pages s)) (Some p)
     (u32 (num_free_pages s + 1)) (lock_cycled s) (ram s).

Lemma page_alloc_nil s flags :
  mm_wf s [] -> page_alloc flags s = Ret None (set_lock (lock_cycled s) s).
Proof.
  intros W. cut (wp (page_alloc flags) s
                   (fun r s' => r = None /\ s' = set_lock (lock_cycled s) s)).
  { intros (a & s' & -> & -> & ->)%wp_inv. done. }
  unfold page_alloc. wp_step. apply wp_lock; [apply W|]. wp_steps.
  simpl. rewrite (wf_list s [] W). wp_step. by apply wp_unlock.
Qed.

Lemma page_alloc_cons s flags p l :
  mm_wf s (p :: l) ->
  exists pi, pages s !! p = Some pi /\ pp_ref pi = 0
             /\ page_alloc flags s = Ret (Some p) (after_alloc flags p pi s).
Proof.
  intros W. pose proof (wf_list s _ W) as (Hh & pi & Hpi & Hr & Hl).
  assert (0 <= p < npages s) as Hp by (eapply wf_range; [done|by left]).
  pose proof (wf_npages s _ W) as Hn.
  exists pi. split; [done|]. split; [done|].
  cut (wp (page_alloc flags) s (fun r s' => r = Some p /\ s' = after_alloc flags p pi s)).
  { intros (a & s' & -> & -> & ->)%wp_inv. done. }
  unfold page_alloc. wp_step. apply wp_lock; [apply W|]. wp_steps.
  simpl. rewrite Hh. wp_step. eapply wp_page_get; [done|]. wp_steps.
  eapply wp_set_pp_link; [done|]. wp_step. unfold when.
  destruct (truth (Z.land flags ALLOC_ZERO)) eqn:Hf.
  - wp_step. apply wp_page2kva; [apply Hn|apply Hp|].
    apply wp_memset_zero_page; [apply Hp|]. wp_steps. apply wp_unlock; [done|done|].
    wp_steps. split; [done|]. unfold after_alloc. by rewrite Hf.
  - wp_steps. apply wp_unlock; [done|done|].
    wp_steps. split; [done|]. unfold after_alloc. by rewrite Hf.
Qed.

Lemma page_free_eq s l p pi :
  mm_wf s l -> pages s !! p = Some pi -> pp_ref pi = 0 -> pp_link pi = None ->
  page_free p s = Ret tt (after_free p pi s).
Proof.
  intros W Hpi Hr Hl.
  cut (wp (page_free p) s (fun r s' => s' = after_free p pi s)).
  { intros ([] & s' & -> & ->)%wp_inv. done. }
  unfold page_free. wp_step. eapply wp_page_get; [done|].
  rewrite Hr, Hl. simpl. wp_step. apply wp_lock; [apply W|]. wp_steps.
  eapply wp_set_pp_link; [done|]. wp_steps. by apply wp_unlock.
Qed.

(** ** Preservation of the invariant *)

Lemma after_alloc_wf s flags p pi l :
  mm_wf s (p :: l) -> pages s !! p = Some pi -> mm_wf (after_alloc flags p pi s) l.
Proof.
  intros W Hpi. pose proof (wf_list s _ W) as (Hh & pi' & Hpi' & Hr & Hl).
  simplify_eq. pose proof (wf_nodup s _ W) as [Hnin Hnd]%NoDup_cons.
  pose proof (wf_length s _ W) as Hlen. pose proof (wf_npages s _ W).
  split; simpl.
  - by apply flist_insert.
  - done.
  - rewrite (wf_count s _ W). simpl in *. rewrite u32_small; lia.
  - intros i. rewrite <- (wf_dom s _ W i). destruct (decide (i = p)) as [->|].
    + rewrite lookup_insert_eq. split; intros; eauto.
    + by rewrite lookup_insert_ne.
  - done.
  - done.
  - intros pa w. destruct (truth _); [|apply (wf_ram s _ W)].
    intros [->|H1]%lookup_zero_page_inv; [lia|by eapply (wf_ram s _ W)].
Qed.

Lemma after_free_wf s p pi l :
  mm_wf s l -> pages s !! p = Some pi -> pp_ref pi = 0 -> p ∉ l ->
  mm_wf (after_free p pi s) (p :: l).
Proof.
  intros W Hpi Hr Hnin.
  assert (0 <= p < npages s) as Hp by (apply (wf_dom s _ W); eauto).
  assert (NoDup (p :: l)) as Hnd by (apply NoDup_cons; split; [done|apply W]).
  pose proof (wf_npages s _ W).
  assert (Z.of_nat (length (p :: l)) <= npages s) as Hlen.
  { apply NoDup_bounded_length; [lia|done|].
    intros i [->|Hi%(wf_range s _ i W)]%elem_of_cons; done. }
  split; simpl.
  - split; [done|]. eexists. rewrite lookup_insert_eq. split; [done|]. split; [done|].
    apply flist_insert; [done|apply W].
  - done.
  - rewrite (wf_count s _ W). simpl in *. rewrite u32_small; lia.
  - intros i. rewrite <- (wf_dom s _ W i). destruct (decide (i = p)) as [->|].
    + rewrite lookup_insert_eq. split; intros; eauto.
    + by rewrite lookup_insert_ne.
  - done.
  - done.
  - apply (wf_ram s _ W).
Qed.

(** ** page_init builds the free list *)

(** The list after the pages [i], [i+1], ... ([n] of them) were pushed on [l]. *)
Fixpoint push_range (n : nat) (i : Z) (l : list Z) : list Z :=
  match n with
  | O => l
  | S n' => push_range n' (i + 1) (i :: l)
  end.

Lemma elem_of_push_range n i l j :
  j ∈ push_range n i l <-> i <= j < i + Z.of_nat n \/ j ∈ l.
Proof.
  revert i l. induction n as [|n IH]; intros i l; simpl push_range; [intuition lia|].
  rewrite IH, elem_of_cons. intuition lia.
Qed.

(** Writing the record of a page that is not free keeps the free list. *)
Lemma set_pages_wf s l i pi0 pi :
  mm_wf s l -> i ∉ l -> pages s !! i = Some pi0 ->
  mm_wf (set_pages (<[i := pi]> (pages s)) s) l.
Proof.
  intros W Hi Hpi. split; simpl; try apply W.
  - apply flist_insert; [done|apply W].
  - intros j. rewrite <- (wf_dom s _ W j). destruct (decide (i = j)) as [->|].
    + rewrite lookup_insert_eq. split; intros; eauto.
    + by rewrite lookup_insert_ne.
Qed.

(** [s'] differs from [s] in the page records and the free list only. *)
Definition only_pages (s s' : mm_state) : Prop := cfg s' = cfg s /\ ram s' = ram s.

Lemma wp_page_init_free s l i :
  mm_wf s l -> i ∉ l -> 0 <= i < npages s ->
  wp (page_init_free i) s (fun _ s' => mm_wf s' (i :: l) /\ only_pages s s').
Proof.
  intros W Hi Hr. pose proof (proj2 (wf_dom s l W i) Hr) as [pi Hpi].
  unfold page_init_free. wp_step. eapply wp_set_pp_ref; [done|]. wp_steps.
  eapply wp_set_pp_link; [apply lookup_insert_eq|]. wp_steps. split; [|done].
  assert (mm_wf (set_pages (<[i := mkPage (pp_link pi) 0]> (pages s)) s) l) as W1
    by by eapply set_pages_wf.
  pose proof (after_free_wf _ i (mkPage (pp_link pi) 0) l W1) as W2.
  simpl in W2. rewrite lookup_insert_eq in W2. specialize (W2 eq_refl eq_refl Hi).
  destruct W2. split; try done; apply W.
Qed.

(** A bound that only reads the set-up variables. *)
Definition reads_cfg (hi : M mm_state Z) (s : mm_state) (b : Z) : Prop :=
  forall s', cfg s' = cfg s -> hi s' = Ret b s'.

Lemma reads_cfg_mono hi s s' b : only_pages s s' -> reads_cfg hi s b -> reads_cfg hi s' b.
Proof. intros [E _] H s2 E2. apply H. congruence. Qed.

(** A loop whose body turns list [l] into [f i l] on turn [i]. *)
Lemma wp_for_loop (f : nat -> Z -> list Z -> list Z) hi body b n :
  (forall m i l, f (S m) i l = f m (i + 1) (f 1%nat i l)) ->
  (forall i l, f O i l = l) ->
  forall s l i, reads_cfg hi s b -> i + Z.of_nat n = Z.max i b -> mm_wf s l ->
  (forall s2 m l2, i <= m < b -> mm_wf s2 l2 -> l2 = f (Z.to_nat (m - i)) i l ->
     only_pages s s2 ->
     wp (body m) s2 (fun _ s3 => mm_wf s3 (f 1%nat m l2) /\ only_pages s2 s3)) ->
  (forall k m l, f (S k) m l = f 1%nat (m + Z.of_nat k) (f k m l)) ->
  wp (for_loop n i hi body) s (fun _ s' => mm_wf s' (f n i l) /\ only_pages s s').
Proof.
  intros Hf Hf0. induction n as [|n IH]; intros s l i Hhi Hn W Hbody Hsnoc.
  - simpl. wp_step. eapply wp_eq; [by apply Hhi|].
    destruct (Z.ltb_spec i b); [lia|]. rewrite Hf0. wp_steps. done.
  - simpl. wp_step. eapply wp_eq; [by apply Hhi|].
    destruct (Z.ltb_spec i b); [|lia]. wp_step.
    eapply wp_mono.
    { apply (Hbody s i l); [lia|done| |done]. by rewrite Z.sub_diag, Hf0. }
    intros _ s1 [W1 H1]. simpl. eapply wp_mono.
    { apply (IH s1 (f 1%nat i l)); [by eapply reads_cfg_mono|lia|done| |done].
      intros s2 m l2 Hm W2 -> H2. apply Hbody; [lia|done| |].
      - rewrite <- Hf. f_equal. lia.
      - destruct H1, H2. split; congruence. }
    intros _ s2 [W2 H2]. rewrite Hf. split; [done|]. destruct H1, H2. split; congruence.
Qed.

Lemma push_range_snoc k m l : push_range (S k) m l = (m + Z.of_nat k) :: push_range k m l.
Proof.
  revert m l. induction k as [|k IH]; intros m l.
  { simpl. f_equal. lia. }
  change (push_range (S (S k)) m l) with (push_range (S k) (m + 1) (m :: l)).
  rewrite IH. f_equal. lia.
Qed.

Lemma wp_for_free hi s l i b :
  reads_cfg hi s b -> mm_wf s l -> 0 <= i -> b <= npages s ->
  (forall j, i <= j < b -> j ∉ l) ->
  wp (for_below i hi page_init_free) s
     (fun _ s' => mm_wf s' (push_range (Z.to_nat (b - i)) i l) /\ only_pages s s').
Proof.
  intros Hhi W Hi Hb Hl. unfold for_below. wp_step. eapply wp_eq; [by apply Hhi|].
  apply (wp_for_loop push_range hi page_init_free b); try done; [lia| |].
  - intros s2 m l2 Hm W2 -> [E _]. apply wp_page_init_free; [done| |].
    + rewrite elem_of_push_range. intros [?|?]; [lia|by apply (Hl m)].
    + unfold npages. rewrite E. fold (npages s). lia.
  - intros k m l2. rewrite push_range_snoc. done.
Qed.

Lemma wp_set_pp_link_wf s l i :
  mm_wf s l -> i ∉ l -> 0 <= i < npages s ->
  wp (set_pp_link i None) s (fun _ s' => mm_wf s' l /\ only_pages s s').
Proof.
  intros W Hi Hr. pose proof (proj2 (wf_dom s l W i) Hr) as [pi Hpi].
  eapply wp_set_pp_link; [done|]. split; [|done]. by eapply set_pages_wf.
Qed.

Lemma wp_for_null hi s l i b :
  reads_cfg hi s b -> mm_wf s l -> 0 <= i -> b <= npages s ->
  (forall j, i <= j < b -> j ∉ l) ->
  wp (for_below i hi (fun j => set_pp_link j None)) s
     (fun _ s' => mm_wf s' l /\ only_pages s s').
Proof.
  intros Hhi W Hi Hb Hl. unfold for_below. wp_step. eapply wp_eq; [by apply Hhi|].
  apply (wp_for_loop (fun _ _ l => l) hi _ b); try done; [lia|].
  intros s2 m l2 Hm W2 -> [E _]. apply wp_set_pp_link_wf; [done|by apply Hl|].
  unfold npages. rewrite E. fold (npages s). lia.
Qed.

Lemma reads_first_free_page e s :
  KERNBASE <= nextfree s < 4294967296 ->
  reads_cfg (first_free_page_number e) s ((nextfree s - KERNBASE) / 4096).
Proof.
  intros H s' E.
  assert (nextfree s' = nextfree s) as En by (unfold nextfree; by rewrite E).
  cut (wp (first_free_page_number e) s'
         (fun r s2 => r = (nextfree s - KERNBASE) / 4096 /\ s2 = s')).
  { intros (a & s2 & -> & -> & ->)%wp_inv. done. }
  unfold first_free_page_number, boot_alloc. wp_steps.
  rewrite En. destruct (Z.eqb_spec (nextfree s) 0); [unfold KERNBASE in *; lia|].
  simpl. wp_steps. rewrite En. apply wp_PADDR; [done|]. by wp_steps.
Qed.

(** The phases of [page_init], relative to the state [s0] it starts from. *)
Definition built (s0 : mm_state) (l : list Z) (s : mm_state) : Prop :=
  mm_wf s l /\ only_pages s0 s.

Section Phases.
Context (s0 : mm_state).

Lemma built_npages l s : built s0 l s -> npages s = npages s0.
Proof. intros [_ [E _]]. unfold npages. by rewrite E. Qed.

Lemma built_trans l l' s s' : built s0 l s -> mm_wf s' l' /\ only_pages s s' -> built s0 l' s'.
Proof. intros [_ [E R]] [W' [E' R']]. split; [done|]. split; congruence. Qed.

Lemma phase_free l s hi i b :
  built s0 l s -> reads_cfg hi s0 b -> 0 <= i -> b <= npages s0 ->
  (forall j, i <= j < b -> j ∉ l) ->
  wp (for_below i hi page_init_free) s
     (fun _ s' => built s0 (push_range (Z.to_nat (b - i)) i l) s').
Proof.
  intros B Hhi Hi Hb Hl. pose proof (built_npages l s B) as En. pose proof B as [W O].
  eapply wp_mono; [apply (wp_for_free hi s l i b)|intros; by eapply built_trans];
    try done; [by eapply reads_cfg_mono|lia].
Qed.

Lemma phase_null l s hi i b :
  built s0 l s -> reads_cfg hi s0 b -> 0 <= i -> b <= npages s0 ->
  (forall j, i <= j < b -> j ∉ l) ->
  wp (for_below i hi (fun j => set_pp_link j None)) s (fun _ s' => built s0 l s').
Proof.
  intros B Hhi Hi Hb Hl. pose proof (built_npages l s B) as En. pose proof B as [W O].
  eapply wp_mono; [apply (wp_for_null hi s l i b)|intros; by eapply built_trans];
    try done; [by eapply reads_cfg_mono|lia].
Qed.

Lemma phase_skip l s i :
  built s0 l s -> i ∉ l -> 0 <= i < npages s0 ->
  wp (set_pp_link i None) s (fun _ s' => built s0 l s').
Proof.
  intros B Hi Hr. pose proof (built_npages l s B) as En. pose proof B as [W O].
  eapply wp_mono; [apply (wp_set_pp_link_wf s l i)|intros; by eapply built_trans];
    try done; lia.
Qed.
End Phases.

(** Membership in a list built by the phases. *)
Ltac in_range := intros; rewrite ?elem_of_push_range, ?elem_of_nil; lia.

(** The free list [page_init] builds when the boot-time allocations end at
    [nextfree]: all of low memory except page 0 and the page of the AP entry
    code, nothing of the I/O hole, and extended memory from [nextfree] on. *)
Lemma page_init_wf e s :
  mm_wf s [] -> 8 <= npages_basemem s <= 256 ->
  256 * 4096 + KERNBASE <= nextfree s < 4294967296 ->
  (nextfree s - KERNBASE) / 4096 <= npages s ->
  exists l, wp (page_init e) s (fun _ s' => mm_wf s' l /\ only_pages s s')
    /\ forall i, i ∈ l <-> 1 <= i < 7 \/ 7 < i < npages_basemem s
                           \/ (nextfree s - KERNBASE) / 4096 <= i < npages s.
Proof.
  intros W Hb Hnf Hnp. set (F := (nextfree s - KERNBASE) / 4096) in *.
  assert (256 <= F) as HF by (subst F; Z.to_euclidean_division_equations; lia).
  assert (reads_cfg (first_free_page_number e) s F) as HrF
    by (apply reads_first_free_page; lia).
  assert (reads_cfg (gets npages_basemem) s (npages_basemem s)) as HrB.
  { intros s' E. unfold gets. f_equal. unfold npages_basemem. congruence. }
  assert (reads_cfg (gets npages) s (npages s)) as HrN.
  { intros s' E. unfold gets. f_equal. unfold npages. congruence. }
  eexists. split.
  - unfold page_init. change (PGNUM MPENTRY_PADDR) with 7.
    change (EXTPHYSMEM / PGSIZE) with 256.
    wp_step. eapply wp_mono; [apply (phase_skip s []); [done|in_range|lia]|intros ? s1 B1].
    wp_step. eapply wp_mono; [eapply (phase_free s _ _ _ 1 7); [exact B1|done|lia|lia|in_range]|].
    intros ? s2 B2. wp_step. eapply wp_mono; [eapply phase_skip; [exact B2|in_range|lia]|].
    intros ? s3 B3. wp_step.
    eapply wp_mono; [eapply (phase_free s _ _ _ 8); [exact B3|done|lia|lia|in_range]|].
    intros ? s4 B4. wp_step. eapply wp_eq; [apply HrB, B4|]. wp_step.
    eapply wp_mono; [eapply (phase_null s _ _ _ _ 256); [exact B4|done|lia|lia|in_range]|].
    intros ? s5 B5. wp_step.
    eapply wp_mono; [eapply (phase_null s _ _ _ 256 F); [exact B5|done|lia|lia|in_range]|].
    intros ? s6 B6. wp_step. eapply wp_eq; [apply HrF, B6|].
    eapply (phase_free s _ _ _ F (npages s)); [exact B6|done|lia|lia|in_range].
  - in_range.
Qed.

(** ** Properties *)

(** C11: [page_alloc] is a pop from the stack of free pages.  With no free page
    it returns NULL and changes neither the pages nor memory.  Otherwise it
    returns the first free page, unlinked and unreferenced, cleared to zero when
    ALLOC_ZERO is set, and touches no other page record and no other word. *)
Theorem page_alloc_refines_pop s flags l :
  mm_wf s l ->
  wp (page_alloc flags) s (fun r s' =>
    match l with
    | [] => r = None /\ mm_wf s' [] /\ pages s' = pages s /\ only_pages s s'
    | p :: l' =>
        r = Some p /\ mm_wf s' l' /\ cfg s' = cfg s
        /\ pages s' !! p = Some (mkPage None 0)
        /\ (forall q, q <> p -> pages s' !! q = pages s !! q)
        /\ (forall a, a mod 4 = 0 -> rd32 (ram s') a =
              if truth (Z.land flags ALLOC_ZERO) && bool_decide (a / 4096 = p)
              then 0 else rd32 (ram s) a)
    end).
Proof.
  intros W. destruct l as [|p l].
  - eapply wp_eq; [by apply page_alloc_nil|]. split; [done|]. split; [|done].
    by destruct W; split.
  - destruct (page_alloc_cons s flags p l W) as (pi & Hpi & Hr & E).
    eapply wp_eq; [done|]. split; [done|]. split; [by eapply after_alloc_wf|].
    split; [done|]. simpl. rewrite lookup_insert_eq, Hr. split; [done|].
    split; [intros q Hq; by rewrite lookup_insert_ne|].
    intros a Ha. destruct (truth _); [|done]. simpl. case_bool_decide as Hp.
    + apply rd32_zero_page_in; [|done]. Z.to_euclidean_division_equations. lia.
    + unfold rd32. rewrite lookup_zero_page_out; [done|].
      intros H. apply Hp. Z.to_euclidean_division_equations. lia.
Qed.

(** A page given back with [page_free] is the next page [page_alloc] hands
    out, and the pair leaves the free list and memory as they were. *)
Theorem page_free_alloc_roundtrip s l p :
  mm_wf s l -> pages s !! p = Some (mkPage None 0) -> p ∉ l ->
  wp (page_free p ;; page_alloc 0) s (fun r s' =>
    r = Some p /\ mm_wf s' l /\ pages s' = pages s /\ only_pages s s').
Proof.
  intros W Hp Hnin. wp_step. eapply wp_eq; [by eapply page_free_eq|].
  assert (mm_wf (after_free p (mkPage None 0) s) (p :: l)) as W' by by apply after_free_wf.
  destruct (page_alloc_cons _ 0 p l W') as (pi & Hpi & Hr & E).
  simpl in Hpi. rewrite lookup_insert_eq in Hpi. injection Hpi as <-.
  eapply wp_eq; [done|]. split; [done|].
  split; [eapply after_alloc_wf; [done|apply lookup_insert_eq]|].
  split; [|done]. simpl. rewrite insert_insert_eq. by apply insert_id.
Qed.

(** The link of a free page that is not the last one. *)
Lemma flist_link_inner pg h l1 p q l2 :
  flist pg h (l1 ++ p :: q :: l2) -> exists pi, pg !! p = Some pi /\ pp_link pi = Some q
                                               /\ pp_ref pi = 0.
Proof.
  revert h. induction l1 as [|i l1 IH]; intros h; simpl.
  - intros (_ & pi & Hpi & Hr & Hq & _). eauto.
  - intros (_ & pi & _ & _ & H). eauto.
Qed.

Lemma flist_link_last pg h l p :
  flist pg h (l ++ [p]) -> exists pi, pg !! p = Some pi /\ pp_link pi = None /\ pp_ref pi = 0.
Proof.
  revert h. induction l as [|i l IH]; intros h; simpl.
  - intros (_ & pi & Hpi & Hr & Hq). eauto.
  - intros (_ & pi & _ & _ & H). eauto.
Qed.

(** Freeing a free page panics when the page is not the last one of the
    list, because its link is set. *)
Theorem page_free_double_free_panics s l1 p q l2 :
  mm_wf s (l1 ++ p :: q :: l2) ->
  page_free p s = Stop (Panic "page_free: pp_link is not NULL").
Proof.
  intros W. destruct (flist_link_inner _ _ l1 p q l2 (wf_list _ _ W)) as (pi & Hpi & Hl & Hr).
  unfold page_free, page_get, need, gets, mbind, M_bind. rewrite Hpi. simpl.
  rewrite Hr. simpl. rewrite bool_decide_eq_true_2; [done|]. rewrite Hl. eauto.
Qed.

(** The same mistake on the last page of the list is not noticed: its link
    is NULL, [page_free] returns, and the free list is a cycle that no finite
    list of pages describes. *)
Theorem page_free_double_free_last_undetected s l p :
  mm_wf s (l ++ [p]) ->
  wp (page_free p) s (fun _ s' => forall l', ~ flist (pages s') (page_free_list s') l').
Proof.
  intros W. destruct (flist_link_last _ _ l p (wf_list _ _ W)) as (pi & Hpi & Hl & Hr).
  eapply wp_eq; [by eapply page_free_eq|]. simpl.
  pose proof (wf_list _ _ W) as HL. pose proof (wf_nodup _ _ W) as Hnd.
  set (pg := <[p := _]> (pages s)).
  (* from the head of the old list one always comes back to [p] *)
  assert (forall k h, (exists l1, flist (pages s) h (l1 ++ [p]) /\ p ∉ l1) -> ~ flist pg h k) as H.
  { induction k as [|i k IH]; intros h (l1 & H1 & Hp) Hk.
    - simpl in Hk. subst h. by destruct l1, H1.
    - destruct Hk as (-> & pj & Hj & _ & Hk). destruct l1 as [|j l1].
      + destruct H1 as ([= ->] & _). unfold pg in Hj. rewrite lookup_insert_eq in Hj.
        injection Hj as <-. simpl in Hk. apply IH in Hk; [done|].
        exists l. split; [done|]. apply NoDup_app in Hnd as (_ & H2 & _).
        intros Hin. apply (H2 p Hin). by left.
      + destruct H1 as ([= <-] & pj' & Hj' & _ & H1).
        apply not_elem_of_cons in Hp as [Hpi' Hp].
        unfold pg in Hj. rewrite lookup_insert_ne in Hj by done. simplify_eq.
        apply IH in Hk; [done|]. eauto. }
  intros k Hk. destruct k as [|i k]; [done|].
  destruct Hk as ([= <-] & pj & Hj & _ & Hk). unfold pg in Hj.
  rewrite lookup_insert_eq in Hj. injection Hj as <-. simpl in Hk.
  revert Hk. apply H. exists l. split; [done|].
  apply NoDup_app in Hnd as (_ & H2 & _). intros Hin. apply (H2 p Hin). by left.
Qed.

(** [page_decref] on a referenced page: the count drops by one, and the page
    goes to the head of the free list exactly when the count reaches zero. *)
Lemma wp_page_decref s l p r :
  mm_wf s l -> pages s !! p = Some (mkPage None r) -> p ∉ l -> 1 <= r < 65536 ->
  wp (page_decref p) s (fun _ s' =>
    mm_wf s' (if r =? 1 then p :: l else l) /\ only_pages s s'
    /\ (forall q, q <> p -> pages s' !! q = pages s !! q)
    /\ pp_ref <$> (pages s' !! p) = Some (r - 1)).
Proof.
  intros W Hp Hnin Hr. unfold page_decref. wp_step. eapply wp_page_get; [done|].
  simpl. rewrite u16_small by lia. wp_step. eapply wp_set_pp_ref; [done|].
  assert (mm_wf (set_pages (<[p := mkPage None (r - 1)]> (pages s)) s) l) as W1
    by by eapply set_pages_wf.
  destruct (Z.eqb_spec (r - 1) 0) as [E0|]; destruct (Z.eqb_spec r 1); try lia.
  - eapply wp_eq; [eapply page_free_eq; [done|apply lookup_insert_eq|done|done]|].
    split; [apply after_free_wf; [done|apply lookup_insert_eq|done|done]|].
    split; [done|]. split.
    + intros q Hq. simpl. by rewrite !lookup_insert_ne.
    + simpl. by rewrite lookup_insert_eq.
  - apply wp_ret. split; [done|]. split; [done|]. split.
    + intros q Hq. simpl. by rewrite lookup_insert_ne.
    + simpl. by rewrite lookup_insert_eq.
Qed.

(** After [page_init] the free list holds exactly pages 1 to 6, the pages
    above the AP entry page 7 up to the end of base memory, and the pages from
    the end of the boot-time allocations to the end of memory: never page 0, the
    AP entry page, the I/O hole or the kernel.  Memory itself is not touched. *)
Theorem page_init_free_set e s :
  mm_wf s [] -> 8 <= npages_basemem s <= 256 ->
  256 * 4096 + KERNBASE <= nextfree s < 4294967296 ->
  (nextfree s - KERNBASE) / 4096 <= npages s ->
  exists l, wp (page_init e) s (fun _ s' => mm_wf s' l /\ only_pages s s')
    /\ forall i, i ∈ l <-> 1 <= i < 7 \/ 7 < i < npages_basemem s
                           \/ (nextfree s - KERNBASE) / 4096 <= i < npages s.
Proof. apply page_init_wf. Qed.

Lemma nextfree_upd v s : nextfree (upd_cfg (set_nextfree v) s) = v.
Proof. done. Qed.

(** [boot_alloc] hands out page-aligned chunks in increasing order: a call
    with [n > 0] returns the old end of the allocated area and moves the end up
    by [n] rounded up to whole pages.  It does so whatever the amount of
    physical memory: no bound is checked. *)
Theorem boot_alloc_spec e s n :
  0 <= n -> nextfree s + n <= 4294963200 -> nextfree s mod 4096 = 0 -> 0 < nextfree s ->
  wp (boot_alloc e n) s (fun r s' =>
    r = nextfree s /\ nextfree s' mod 4096 = 0
    /\ nextfree s + n <= nextfree s' < nextfree s + n + 4096
    /\ npages s' = npages s /\ pages s' = pages s /\ ram s' = ram s).
Proof.
  intros Hn Hlim Hal Hpos. unfold boot_alloc. wp_steps.
  destruct (Z.eqb_spec (nextfree s) 0); [lia|]. simpl. wp_steps.
  destruct (Z.eqb_spec n 0) as [->|].
  - wp_steps. repeat split; lia.
  - wp_steps. rewrite nextfree_upd. rewrite ROUNDUP_spec by lia.
    rewrite u32_small by (Z.to_euclidean_division_equations; lia).
    repeat split; Z.to_euclidean_division_equations; lia.
Qed.

(** ** Concrete machines for the witnesses *)

Definition demo_ctx : cpu_ctx := mkCtx 0 0 ∅.

(** A machine with [n] pages, [base] of them base memory, and boot-time
    allocations up to [nf]: nothing free yet. *)
Definition fresh_mm (n base nf : Z) : mm_state :=
  MM (mkCfg n base nf 0 0 MMIOBASE 0 0 demo_ctx [] []) (zero_pages (Z.to_nat n)) None 0
     (mkSpinlock 0 "page_free_list_lock" None []) ∅.

Lemma fresh_wf n base nf : 0 <= n <= 65536 -> mm_wf (fresh_mm n base nf) [].
Proof.
  intros Hn. split; try done.
  - constructor.
  - intros i. simpl. rewrite lookup_zero_pages. unfold npages. simpl.
    case_bool_decide; split; try lia; intros; eauto. by destruct H0.
Qed.

(** Four pages, with page 2 and then page 3 given back. *)
Definition demo1 : mm_state := after_free 2 (mkPage None 0) (fresh_mm 4 0 0).
Definition demo2 : mm_state := after_free 3 (mkPage None 0) demo1.

Lemma demo1_wf : mm_wf demo1 [2].
Proof. apply after_free_wf; [by apply fresh_wf|done|done|apply not_elem_of_nil]. Qed.

Lemma demo2_wf : mm_wf demo2 [3; 2].
Proof. apply after_free_wf; [apply demo1_wf|done|done|by intros ?%list_elem_of_singleton]. Qed.

Lemma page_alloc_refines_pop_witness :
  wp (page_alloc ALLOC_ZERO) demo2 (fun r s' => r = Some 3 /\ mm_wf s' [2]).
Proof.
  eapply wp_mono; [apply (page_alloc_refines_pop demo2 ALLOC_ZERO [3; 2]), demo2_wf|].
  intros r s' (H1 & H2 & _). done.
Defined.

Lemma page_free_alloc_roundtrip_witness :
  wp (page_free 1 ;; page_alloc 0) demo1 (fun r s' => r = Some 1 /\ pages s' = pages demo1).
Proof.
  eapply wp_mono; [apply (page_free_alloc_roundtrip demo1 [2] 1 demo1_wf); [reflexivity|]|].
  - by intros ?%list_elem_of_singleton.
  - intros r s' (H1 & _ & H3 & _). done.
Defined.

Lemma page_free_double_free_panics_witness :
  page_free 3 demo2 = Stop (Panic "page_free: pp_link is not NULL").
Proof. apply (page_free_double_free_panics demo2 [] 3 2 []), demo2_wf. Defined.

Lemma page_free_double_free_last_undetected_witness :
  wp (page_free 2) demo2 (fun _ s' => forall l', ~ flist (pages s') (page_free_list s') l').
Proof. apply (page_free_double_free_last_undetected demo2 [3] 2), demo2_wf. Defined.

Lemma page_init_free_set_witness :
  exists l, wp (page_init 0) (fresh_mm 300 160 (280 * 4096 + KERNBASE))
              (fun _ s' => mm_wf s' l)
            /\ (159 ∈ l) /\ ~ (7 ∈ l) /\ ~ (200 ∈ l) /\ (280 ∈ l).
Proof.
  destruct (page_init_free_set 0 (fresh_mm 300 160 (280 * 4096 + KERNBASE))) as (l & Hw & Hl).
  - apply fresh_wf. lia.
  - unfold npages_basemem. simpl. lia.
  - unfold nextfree, KERNBASE. simpl. lia.
  - by vm_compute.
  - exists l. split; [eapply wp_mono; [apply Hw|by intros a s' [? _]]|].
    change (npages_basemem _) with 160 in Hl. change (npages _) with 300 in Hl.
    change ((nextfree _ - KERNBASE) / 4096) with 280 in Hl. rewrite !Hl. lia.
Defined.

Lemma boot_alloc_spec_witness :
  wp (boot_alloc 0 5000) (fresh_mm 300 160 (280 * 4096 + KERNBASE))
     (fun r s' => r = 280 * 4096 + KERNBASE /\ nextfree s' = 282 * 4096 + KERNBASE).
Proof.
  eapply wp_mono; [apply boot_alloc_spec; vm_compute; congruence|].
  intros r s' (-> & H1 & H2 & _). split; [done|].
  change (nextfree (fresh_mm _ _ _)) with (280 * 4096 + KERNBASE) in H2.
  unfold KERNBASE in *. Z.to_euclidean_division_equations. lia.
Defined.
