(* ===== verification/Paging.v ===== *)
(** * Page tables (kernel/mem.c, second half)

    The two-level page tables: [pgdir_walk], [boot_map_region], [page_insert],
    [page_lookup], [page_remove], the tear-down functions, and the set-up of
    kernel and user address spaces.  A [pde_t *] or [pte_t *] is the kernel
    virtual address of the entry; NULL is [None].

    What an address space means is [vm_lookup]: the entry the MMU finds for a
    linear address by walking directory and table in memory.  The theorems
    state each operation as an update of that function. *)

From S2P Require Import Prelude.
From S2P Require Import Machine.
From S2P Require Import Kmonad.
From S2P Require Import Spinlock.
From S2P Require Import PageAlloc.
From Stdlib Require Import ZArith Lia.
From stdpp Require Import base gmap list strings.

Local Open Scope Z_scope.

Definition NCPU : Z := 8.

(** ** Walking *)

Definition pgdir_walk (pgdir va create : Z) : M mm_state (option Z) :=
  let pde := pgdir + 4 * PDX va in
  e ← load32 pde;
  if truth (Z.land e PTE_P) then
    pte ← KADDR (PTE_ADDR e);
    mret (Some (pte + 4 * PTX va))
  else if negb (truth create) then mret None
  else
    r ← page_alloc ALLOC_ZERO;
    match r with
    | None => mret None
    | Some pp =>
        pi ← page_get pp;
        _ ← set_pp_ref pp (u16 (pp_ref pi + 1));
        _ ← store32 pde (Z.lor (Z.lor (Z.lor (page2pa pp) PTE_P) PTE_U) PTE_W);
        pte ← page2kva pp;
        mret (Some (pte + 4 * PTX va))
    end.

(** The loop of [boot_map_region]; [size] shrinks by PGSIZE on every turn, so
    [size / PGSIZE] turns are enough.  The result of [pgdir_walk] is
    dereferenced unchecked. *)
Fixpoint boot_map_loop (fuel : nat) (pgdir va size pa perm : Z) : M mm_state unit :=
  if (size >=? PGSIZE) then
    match fuel with
    | O => hang "boot_map_region: out of fuel"
    | S fuel' =>
        r ← pgdir_walk pgdir va 1;
        pte ← need r "boot_map_region: *pte with pte null";
        _ ← store32 pte (Z.lor (Z.lor pa perm) PTE_P);
        boot_map_loop fuel' pgdir (u32 (va + PGSIZE)) (size - PGSIZE) (u32 (pa + PGSIZE)) perm
    end
  else mret tt.

Definition boot_map_region (pgdir va size pa perm : Z) : M mm_state unit :=
  boot_map_loop (Z.to_nat (size / PGSIZE)) pgdir va size pa perm.

(** [tlb_invalidate]: always one [invlpg]. *)
Definition tlb_invalidate (pgdir va : Z) : M mm_state unit :=
  modify (upd_cfg (log_invlpg va)).

(** [page_lookup(pgdir, va, pte_store)] with [stored] the pointer that
    [*pte_store] holds on entry (0 for NULL); the second result is what it holds
    on return. *)
Definition page_lookup (pgdir va stored : Z) : M mm_state (option Z * Z) :=
  r ← pgdir_walk pgdir va 0;
  match r with
  | None => mret (None, stored)
  | Some pte =>
      e ← load32 pte;
      if negb (truth (Z.land e PTE_P)) then mret (None, stored)
      else
        pp ← pa2page (PTE_ADDR e);
        mret (Some pp, if truth stored then pte else stored)
  end.

Section Remove.
  (** [page_remove] hands [page_lookup] the address of a local variable it has
      not initialised: [garbage] is what the variable holds. *)
  Context (garbage : Z).

Definition page_remove (pgdir va : Z) : M mm_state unit :=
  r ← page_lookup pgdir va garbage;
  match r with
  | (None, _) => mret tt
  | (Some pp, pte) =>
      _ ← page_decref pp;
      _ ← (if (pte =? 0) then fault "page_remove: *pte with pte null" else store32 pte 0);
      tlb_invalidate pgdir va
  end.

Definition page_insert (pgdir pp va perm : Z) : M mm_state Z :=
  r ← pgdir_walk pgdir va 1;
  match r with
  | None => mret (- E_NO_MEM)
  | Some pte =>
      e ← load32 pte;
      let entry := Z.lor (Z.lor (page2pa pp) perm) PTE_P in
      if truth (Z.land e PTE_P) && (PTE_ADDR e =? page2pa pp) then
        _ ← store32 pte entry; mret 0
      else
        _ ← when (truth (Z.land e PTE_P)) (page_remove pgdir va);
        pi ← page_get pp;
        _ ← set_pp_ref pp (u16 (pp_ref pi + 1));
        _ ← tlb_invalidate pgdir va;
        _ ← store32 pte entry;
        mret 0
  end.
End Remove.

(** ** Tear-down *)

(** [for (i = 0; i < 1024; i++)] of [ptable_remove], [n] turns left. *)
Fixpoint ptable_remove_loop (n : nat) (pgdir i : Z) : M mm_state unit :=
  match n with
  | O => mret tt
  | S n' =>
      e ← load32 (pgdir + 4 * i);
      _ ← when (truth (Z.land e PTE_P)) (pp ← pa2page (PTE_ADDR e); page_decref pp);
      ptable_remove_loop n' pgdir (i + 1)
  end.

Definition ptable_remove (pgdir : Z) : M mm_state unit := ptable_remove_loop 1024 pgdir 0.

Definition pgdir_remove (pgdir : Z) : M mm_state unit :=
  pa ← PADDR pgdir; pp ← pa2page pa; page_free pp.

(** ** Set-up *)

Definition set_mmio_base (v : Z) (c : mm_cfg) : mm_cfg :=
  mkCfg (c_npages c) (c_npages_basemem c) (c_nextfree c) (c_kern_pgdir c) (c_pages_va c) v
        (c_cr3 c) (c_cr0 c) (c_ctx c) (c_invlpg c) (c_console c).

(** [mmio_map_region]: the test [base + size > MMIOLIM] is on 32-bit values. *)
Definition mmio_map_region (pa size : Z) : M mm_state Z :=
  base ← gets (fun s => c_mmio_base (cfg s));
  if (u32 (base + size) >? MMIOLIM) then
    panic "mmio_map_region(): reservation overflow MMIOLIM"
  else
    kpd ← gets kern_pgdir;
    _ ← boot_map_region kpd base (ROUNDUP size PGSIZE) pa
          (Z.lor (Z.lor PTE_W PTE_PCD) PTE_PWT);
    _ ← modify (upd_cfg (set_mmio_base (u32 (base + ROUNDUP size PGSIZE))));
    mret base.

(** [check_va2pa]: the physical page of [va], all ones when there is none. *)
Definition check_va2pa (pgdir va : Z) : M mm_state Z :=
  e ← load32 (pgdir + 4 * PDX va);
  if negb (truth (Z.land e PTE_P)) then mret (lnot32 0)
  else
    p ← KADDR (PTE_ADDR e);
    e2 ← load32 (p + 4 * PTX va);
    if negb (truth (Z.land e2 PTE_P)) then mret (lnot32 0)
    else mret (PTE_ADDR e2).

Definition setupvm (pgdir start size : Z) : M mm_state unit :=
  pa ← PADDR start;
  _ ← boot_map_region pgdir start (ROUNDUP size PGSIZE) pa (Z.lor PTE_W PTE_U);
  v ← check_va2pa pgdir start;
  pa' ← PADDR start;
  kassert (v =? pa') "check_va2pa(pgdir, start) == PADDR((void*)start)".

(** [sizeof(struct PageInfo)]: a pointer, a half word and padding. *)
Definition sizeof_PageInfo : Z := 8.

(** [(2^32)-KERNBASE] in C: [^] is exclusive or, then the difference wraps. *)
Definition KERN_MAP_SIZE : Z := u32 (Z.lxor 2 32 - KERNBASE).

Section Kvm.
  (** The address of [percpu_kstacks], and the [lapic] and [lapicaddr] variables
      of kernel/lapic.c. *)
  Context (percpu_kstacks lapic lapicaddr : Z).

(** The loop over the CPUs shared by [mem_init_mp] and [setupkvm]; [n] left. *)
Fixpoint map_kstacks (n : nat) (pgdir i : Z) : M mm_state unit :=
  match n with
  | O => mret tt
  | S n' =>
      pa ← PADDR (percpu_kstacks + i * KSTKSIZE);
      _ ← boot_map_region pgdir (KSTACKTOP - i * (KSTKSIZE + KSTKGAP) - KSTKSIZE) KSTKSIZE
            pa PTE_W;
      map_kstacks n' pgdir (i + 1)
  end.

Definition mem_init_mp : M mm_state unit :=
  kpd ← gets kern_pgdir; map_kstacks (Z.to_nat NCPU) kpd 0.

Definition setupkvm : M mm_state (option Z) :=
  r ← page_alloc ALLOC_ZERO;
  match r with
  | None => mret None
  | Some pp =>
      pgdir ← page2kva pp;
      np ← gets npages;
      pgs ← gets (fun s => c_pages_va (cfg s));
      pgs_pa ← PADDR pgs;
      _ ← boot_map_region pgdir UPAGES (ROUNDUP (u32 (sizeof_PageInfo * np)) PGSIZE) pgs_pa PTE_U;
      _ ← boot_map_region pgdir KERNBASE KERN_MAP_SIZE 0 PTE_W;
      _ ← boot_map_region pgdir IOPHYSMEM (ROUNDUP (EXTPHYSMEM - IOPHYSMEM) PGSIZE) IOPHYSMEM
            PTE_W;
      _ ← map_kstacks (Z.to_nat NCPU) pgdir 0;
      _ ← boot_map_region pgdir lapic (ROUNDUP 4096 PGSIZE) lapicaddr
            (Z.lor (Z.lor PTE_W PTE_PCD) PTE_PWT);
      mret (Some pgdir)
  end.
End Kvm.

(** ** What an address space means *)

Definition present (e : Z) : bool := truth (Z.land e PTE_P).

(** The page of the page table that slot [i] of directory page [d] points to. *)
Definition tab (m : gmap Z Z) (d i : Z) : option Z :=
  let e := rd32 m (d * 4096 + 4 * i) in
  if present e then Some (PTE_ADDR e / 4096) else None.

(** The entry the MMU finds for [va] in the address space of directory page [d]. *)
Definition vm_lookup (m : gmap Z Z) (d va : Z) : option Z :=
  match tab m d (PDX va) with
  | None => None
  | Some t =>
      let e := rd32 m (t * 4096 + 4 * PTX va) in
      if present e then Some e else None
  end.

(** The slot through which the kernel directory maps itself at UVPT. *)
Definition SELF : Z := PDX UVPT.

(** The pointer to directory page [d]. *)
Definition dirp (d : Z) : Z := d * 4096 + KERNBASE.

(** The tables of directory [d] are pages of memory, apart from each other and
    from the directory, and none of them is free.  The self map is left out. *)
Record dir_wf (s : mm_state) (l : list Z) (d : Z) : Prop := {
  dw_dir : 0 <= d < npages s;
  dw_live : d ∉ l;
  dw_tab : forall i t, 0 <= i < 1024 -> i <> SELF -> tab (ram s) d i = Some t ->
                       0 <= t < npages s /\ (t ∉ l) /\ t <> d;
  dw_inj : forall i j t, 0 <= i < 1024 -> 0 <= j < 1024 -> i <> SELF -> j <> SELF ->
                         tab (ram s) d i = Some t -> tab (ram s) d j = Some t -> i = j
}.

(** ** Lemmas on entries and words *)

Lemma rd32_insert m a b v : rd32 (<[a := v]> m) b = if bool_decide (a = b) then v else rd32 m b.
Proof.
  unfold rd32. case_bool_decide as H.
  - subst. by rewrite lookup_insert_eq.
  - by rewrite lookup_insert_ne.
Qed.

Lemma rd32_insert_eq m a v : rd32 (<[a := v]> m) a = v.
Proof. by rewrite rd32_insert, bool_decide_eq_true_2. Qed.

Lemma rd32_insert_ne m a b v : a <> b -> rd32 (<[a := v]> m) b = rd32 m b.
Proof. intros. by rewrite rd32_insert, bool_decide_eq_false_2. Qed.

Lemma rd32_zero_page_out p m q o :
  q <> p -> 0 <= o < 4096 -> rd32 (zero_page p m) (q * 4096 + o) = rd32 m (q * 4096 + o).
Proof. intros. unfold rd32. by rewrite lookup_zero_page_out by lia. Qed.

Lemma word_off_mod i : (4 * i) mod 4 = 0.
Proof. rewrite Z.mul_comm. by apply Z.mod_mul. Qed.

Lemma present_odd e : present e = Z.odd e.
Proof.
  unfold present. change PTE_P with (2 ^ 0). rewrite land_bit_truth by lia. apply Z.bit0_odd.
Qed.

Lemma present_lor a : present (Z.lor a PTE_P) = true.
Proof. rewrite present_odd, <- Z.bit0_odd, Z.lor_spec. apply orb_true_r. Qed.

(** The entry made from page [pp] and flags [fl]. *)
Lemma pte_fields pp fl :
  0 <= pp < 65536 -> 0 <= fl < 4096 ->
  0 <= Z.lor (pp * 4096) fl < 4294967296 /\ PTE_ADDR (Z.lor (pp * 4096) fl) = pp * 4096.
Proof.
  intros. assert ((pp * 4096) mod 4096 = 0) by by apply Z.mod_mul.
  split; [rewrite lor_pte by done; lia|]. apply PTE_ADDR_lor; [lia|done|done].
Qed.

Lemma pde_new pp :
  0 <= pp < 65536 ->
  Z.lor (Z.lor (Z.lor (page2pa pp) PTE_P) PTE_U) PTE_W = pp * 4096 + 7.
Proof.
  intros. rewrite page2pa_spec by done. rewrite <- !Z.lor_assoc.
  change (Z.lor PTE_P (Z.lor PTE_U PTE_W)) with 7.
  apply lor_pte; [by apply Z.mod_mul|lia].
Qed.

Lemma tab_new pp m d i :
  0 <= pp < 65536 -> tab (<[d * 4096 + 4 * i := pp * 4096 + 7]> m) d i = Some pp.
Proof.
  intros. unfold tab. rewrite rd32_insert_eq, present_odd.
  replace (Z.odd (pp * 4096 + 7)) with true.
  - rewrite PTE_ADDR_spec by lia. f_equal. Z.to_euclidean_division_equations. lia.
  - symmetry. rewrite Z.odd_add, Z.odd_mul, andb_false_r. done.
Qed.

(** Writes elsewhere leave a slot of the directory alone. *)
Lemma tab_insert_ne m d i a v :
  a <> d * 4096 + 4 * i -> tab (<[a := v]> m) d i = tab m d i.
Proof. intros. unfold tab. by rewrite rd32_insert_ne. Qed.

Lemma tab_zero_page m d i p :
  d <> p -> 0 <= i < 1024 -> tab (zero_page p m) d i = tab m d i.
Proof. intros. unfold tab. rewrite rd32_zero_page_out by lia. done. Qed.

Lemma tab_Some_inv s l d i t :
  mm_wf s l -> tab (ram s) d i = Some t ->
  exists e, rd32 (ram s) (d * 4096 + 4 * i) = e /\ present e = true
            /\ PTE_ADDR e = t * 4096 /\ 0 <= t < 1048576.
Proof.
  intros W. unfold tab. pose proof (rd32_range s l (d * 4096 + 4 * i) W) as Hr.
  destruct (present _) eqn:Hp; [|done]. intros [= <-].
  eexists. split; [done|]. split; [done|].
  rewrite PTE_ADDR_spec by done. Z.to_euclidean_division_equations. lia.
Qed.

(** Two well-formed states with the same tables and no more free pages. *)
Lemma dir_wf_ext s s' l l' d :
  dir_wf s l d -> npages s' = npages s -> (forall i, i ∈ l' -> i ∈ l) ->
  (forall i, 0 <= i < 1024 -> tab (ram s') d i = tab (ram s) d i) ->
  dir_wf s' l' d.
Proof.
  intros [Hd Hl Ht Hi] En Hsub Et. split.
  - by rewrite En.
  - by intros Hin%Hsub.
  - intros i t Hr Hs. rewrite Et, En by done. intros H.
    destruct (Ht i t) as (? & Hn & ?); [done..|]. split; [done|].
    split; [by intros ?%Hsub|done].
  - intros i j t ????. rewrite !Et by done. by apply Hi.
Qed.

(** ** pgdir_walk *)

Section Walk.
Context (s : mm_state) (l : list Z) (d : Z).
  Hypotheses (W : mm_wf s l) (D : dir_wf s l d).

Lemma pde_word_ok va : word_ok s (d * 4096 + 4 * PDX va) = true.
Proof.
  apply word_ok_page; [apply D| |apply word_off_mod].
  pose proof (PDX_range va). lia.
Qed.

Lemma pte_word_ok t va : 0 <= t < npages s -> word_ok s (t * 4096 + 4 * PTX va) = true.
Proof.
  intros. apply word_ok_page; [done| |apply word_off_mod].
  pose proof (PTX_range va). lia.
Qed.

(** Running the first load of the walk. *)
Lemma dirp_slot i : dirp d + 4 * i = d * 4096 + 4 * i + KERNBASE.
Proof. unfold dirp. lia. Qed.

Lemma pgdir_walk_hit va t create :
  PDX va <> SELF -> tab (ram s) d (PDX va) = Some t ->
  pgdir_walk (dirp d) va create s = Ret (Some (t * 4096 + 4 * PTX va + KERNBASE)) s.
Proof.
  intros Hs Ht.
  destruct (dw_tab s l d D (PDX va) t (PDX_range va) Hs Ht) as (Hr & _ & _).
  destruct (tab_Some_inv s l d (PDX va) t W Ht) as (e & He & Hp & Ha & _).
  pose proof (wf_npages s l W) as Hn.
  cut (wp (pgdir_walk (dirp d) va create) s
         (fun r s' => r = Some (t * 4096 + 4 * PTX va + KERNBASE) /\ s' = s)).
  { intros (a & s' & -> & -> & ->)%wp_inv. done. }
  unfold pgdir_walk. wp_step. rewrite dirp_slot. apply wp_load32; [apply pde_word_ok|].
  rewrite He. unfold present in Hp. rewrite Hp, Ha. wp_step. apply wp_KADDR.
  - lia.
  - rewrite <- (Z.add_0_r (t * 4096)), PGNUM_page by lia. lia.
  - wp_steps. split; [f_equal; lia|done].
Qed.

Lemma pgdir_walk_miss va :
  tab (ram s) d (PDX va) = None -> pgdir_walk (dirp d) va 0 s = Ret None s.
Proof.
  intros Ht. unfold tab in Ht. destruct (present _) eqn:Hp; [done|].
  cut (wp (pgdir_walk (dirp d) va 0) s (fun r s' => r = None /\ s' = s)).
  { intros (a & s' & -> & -> & ->)%wp_inv. done. }
  unfold pgdir_walk. wp_step. rewrite dirp_slot. apply wp_load32; [apply pde_word_ok|].
  unfold present in Hp. rewrite Hp. simpl. by wp_steps.
Qed.
End Walk.

(** The state after [pgdir_walk] put page [p] into slot [i] of directory [d]. *)
Definition after_walk (d i p : Z) (pi : PageInfo) (s : mm_state) : mm_state :=
  let s1 := after_alloc ALLOC_ZERO p pi s in
  let s2 := set_pages (<[p := mkPage None 1]> (pages s1)) s1 in
  set_ram (<[d * 4096 + 4 * i := p * 4096 + 7]> (ram s2)) s2.

Lemma pgdir_walk_create s p l d va :
  mm_wf s (p :: l) -> dir_wf s (p :: l) d -> tab (ram s) d (PDX va) = None ->
  exists pi, pages s !! p = Some pi /\
  pgdir_walk (dirp d) va 1 s
  = Ret (Some (p * 4096 + 4 * PTX va + KERNBASE)) (after_walk d (PDX va) p pi s).
Proof.
  intros W D Ht. destruct (page_alloc_cons s ALLOC_ZERO p l W) as (pi & Hpi & Hr & Ea).
  assert (0 <= p < npages s) as Hp by (eapply wf_range; [done|by left]).
  pose proof (wf_npages s _ W) as Hn.
  exists pi. split; [done|]. unfold tab in Ht. destruct (present _) eqn:Hpr; [done|].
  cut (wp (pgdir_walk (dirp d) va 1) s
         (fun r s' => r = Some (p * 4096 + 4 * PTX va + KERNBASE)
                      /\ s' = after_walk d (PDX va) p pi s)).
  { intros (a & s' & -> & -> & ->)%wp_inv. done. }
  unfold pgdir_walk. wp_step. rewrite dirp_slot.
  apply wp_load32; [by eapply pde_word_ok|].
  unfold present in Hpr. rewrite Hpr. simpl. wp_step. eapply wp_eq; [exact Ea|].
  simpl. wp_step. eapply wp_page_get; [apply lookup_insert_eq|]. simpl.
  rewrite Hr. change (u16 (0 + 1)) with 1. wp_step.
  eapply wp_set_pp_ref; [apply lookup_insert_eq|]. rewrite pde_new by lia. wp_step.
  apply wp_store32; [by eapply (pde_word_ok s)|]. wp_step.
  apply wp_page2kva; [apply Hn|apply Hp|]. wp_steps. split; [f_equal; lia|done].
Qed.

(** Writing a 32-bit word keeps the allocator's invariant. *)
Lemma set_ram_insert_wf s l a v :
  mm_wf s l -> 0 <= v < 4294967296 -> mm_wf (set_ram (<[a := v]> (ram s)) s) l.
Proof.
  intros [w1 w2 w3 w4 w5 w6 w7] Hv. split; try done.
  intros pa w. simpl. destruct (decide (a = pa)) as [->|].
  - rewrite lookup_insert_eq. by intros [= <-].
  - rewrite lookup_insert_ne by done. apply w7.
Qed.

Lemma after_walk_wf s p pi l d i :
  mm_wf s (p :: l) -> pages s !! p = Some pi -> mm_wf (after_walk d i p pi s) l.
Proof.
  intros W Hpi. pose proof (after_alloc_wf s ALLOC_ZERO p pi l W Hpi) as W1.
  pose proof (wf_nodup s _ W) as [Hnin _]%NoDup_cons.
  assert (0 <= p < npages s) as Hp by (eapply wf_range; [done|by left]).
  pose proof (wf_npages s _ W).
  pose proof (set_pages_wf _ l p _ (mkPage None 1) W1 Hnin (lookup_insert_eq _ _ _)) as W2.
  unfold after_walk. apply set_ram_insert_wf; [exact W2|lia].
Qed.

(** ** The walk as an operation on address spaces *)

(** Reading an entry through a table that is not written. *)
Lemma vm_lookup_ext m m' d va :
  tab m' d (PDX va) = tab m d (PDX va) ->
  (forall t, tab m d (PDX va) = Some t ->
     rd32 m' (t * 4096 + 4 * PTX va) = rd32 m (t * 4096 + 4 * PTX va)) ->
  vm_lookup m' d va = vm_lookup m d va.
Proof.
  intros Et Er. unfold vm_lookup. rewrite Et. destruct (tab m d (PDX va)) as [t|]; [|done].
  by rewrite Er.
Qed.

(** A page address determines the page. *)
Lemma page_off_inj p q a b :
  0 <= a < 4096 -> 0 <= b < 4096 -> p * 4096 + a = q * 4096 + b -> p = q /\ a = b.
Proof. intros. lia. Qed.

Section AfterWalk.
Context (s : mm_state) (p : Z) (pi : PageInfo) (l : list Z) (d va : Z).
  Hypotheses (W : mm_wf s (p :: l)) (D : dir_wf s (p :: l) d).
  Hypotheses (Hpi : pages s !! p = Some pi) (Hs : PDX va <> SELF)
             (Ht : tab (ram s) d (PDX va) = None).

Let s' := after_walk d (PDX va) p pi s.

Lemma after_walk_fresh : p <> d.
Proof. intros ->. apply (dw_live s _ d D). by left. Qed.

Lemma after_walk_page : 0 <= p < 65536.
Proof.
  pose proof (wf_npages s _ W). assert (0 <= p < npages s); [|lia].
  eapply wf_range; [done|by left].
Qed.

Lemma after_walk_tab i :
  0 <= i < 1024 ->
  tab (ram s') d i = if bool_decide (i = PDX va) then Some p else tab (ram s) d i.
Proof.
  intros Hi. pose proof after_walk_fresh as Hne. pose proof after_walk_page. unfold s'. simpl.
  change (truth (Z.land ALLOC_ZERO ALLOC_ZERO)) with true. cbv iota.
  case_bool_decide as E.
  - subst i. by apply tab_new.
  - rewrite tab_insert_ne by (pose proof (PDX_range va); lia).
    apply tab_zero_page; [done|lia].
Qed.

Lemma after_walk_dir : dir_wf s' l d.
Proof.
  pose proof D as [Hd Hl Htb Hi]. pose proof after_walk_fresh as Hne.
  pose proof (wf_nodup s _ W) as [Hnin _]%NoDup_cons.
  assert (0 <= p < npages s) as Hp by (eapply wf_range; [done|by left]).
  split.
  - done.
  - intros ?. apply Hl. by right.
  - intros i t Hr Hsf. rewrite after_walk_tab by done. case_bool_decide as E.
    + intros [= <-]. done.
    + intros H. destruct (Htb i t Hr Hsf H) as (? & Hn & ?). split; [done|].
      split; [|done]. intros ?. apply Hn. by right.
  - intros i j t Hr Hr' Hsf Hsf'. rewrite !after_walk_tab by done.
    case_bool_decide as E; case_bool_decide as E'; try congruence.
    + intros [= <-] H. destruct (Htb j p Hr' Hsf' H) as (_ & Hn & _).
      destruct Hn. by left.
    + intros H [= <-]. destruct (Htb i p Hr Hsf H) as (_ & Hn & _).
      destruct Hn. by left.
    + by apply Hi.
Qed.

(** Words outside the directory and the new page are not touched. *)
Lemma after_walk_ram q o :
  q <> d -> q <> p -> 0 <= o < 4096 ->
  rd32 (ram s') (q * 4096 + o) = rd32 (ram s) (q * 4096 + o).
Proof.
  intros Hqd Hqp Ho. pose proof (PDX_range va). unfold s'. simpl.
  change (truth (Z.land ALLOC_ZERO ALLOC_ZERO)) with true. cbv iota.
  rewrite rd32_insert_ne by (intros ?%page_off_inj; lia).
  by apply rd32_zero_page_out.
Qed.

(** The new table is empty. *)
Lemma after_walk_empty o :
  0 <= o < 4096 -> o mod 4 = 0 -> rd32 (ram s') (p * 4096 + o) = 0.
Proof.
  intros Ho Hm. pose proof (PDX_range va). pose proof after_walk_fresh. unfold s'. simpl.
  change (truth (Z.land ALLOC_ZERO ALLOC_ZERO)) with true. cbv iota.
  rewrite rd32_insert_ne by (intros ?%page_off_inj; lia).
  apply rd32_zero_page_in; [lia|]. Z.to_euclidean_division_equations. lia.
Qed.

(** So no address is mapped differently. *)
Lemma after_walk_lookup va' :
  PDX va' <> SELF -> vm_lookup (ram s') d va' = vm_lookup (ram s) d va'.
Proof.
  intros Hs'. destruct (decide (PDX va' = PDX va)) as [E|E].
  - unfold vm_lookup. rewrite after_walk_tab by apply PDX_range.
    rewrite bool_decide_eq_true_2 by done. rewrite E, Ht.
    pose proof (PTX_range va').
    rewrite after_walk_empty; [done|lia|apply word_off_mod].
  - apply vm_lookup_ext.
    + rewrite after_walk_tab by apply PDX_range. by rewrite bool_decide_eq_false_2.
    + intros t Htb.
      destruct (dw_tab s _ d D _ t (PDX_range va') Hs' Htb) as (_ & Hn & Hd).
      pose proof (PTX_range va'). apply after_walk_ram; [done| |lia].
      intros ->. apply Hn. by left.
Qed.
End AfterWalk.

(** ** Writing one entry *)

(** Same virtual page. *)
Definition same_page (va va' : Z) : bool := (PDX va =? PDX va') && (PTX va =? PTX va').

Section SetPte.
Context (s : mm_state) (l : list Z) (d va t v : Z).
  Hypotheses (W : mm_wf s l) (D : dir_wf s l d).
  Hypotheses (Hs : PDX va <> SELF) (Ht : tab (ram s) d (PDX va) = Some t)
             (Hv : 0 <= v < 4294967296).

Definition set_pte : mm_state := set_ram (<[t * 4096 + 4 * PTX va := v]> (ram s)) s.

Lemma set_pte_tab i : 0 <= i < 1024 -> tab (ram set_pte) d i = tab (ram s) d i.
Proof.
  intros Hi. destruct (dw_tab s l d D _ t (PDX_range va) Hs Ht) as (_ & _ & Hne).
  pose proof (PTX_range va). apply tab_insert_ne. intros ?%page_off_inj; lia.
Qed.

Lemma set_pte_dir : dir_wf set_pte l d.
Proof. eapply dir_wf_ext; [exact D|done|done|apply set_pte_tab]. Qed.

Lemma set_pte_wf : mm_wf set_pte l.
Proof.
  by apply set_ram_insert_wf.
Qed.

Lemma set_pte_lookup va' :
  PDX va' <> SELF ->
  vm_lookup (ram set_pte) d va'
  = if same_page va va' then (if present v then Some v else None)
    else vm_lookup (ram s) d va'.
Proof.
  intros Hs'. unfold same_page. destruct (Z.eqb_spec (PDX va) (PDX va')) as [E|E]; simpl.
  - unfold vm_lookup. rewrite set_pte_tab by apply PDX_range. rewrite <- E, Ht.
    destruct (Z.eqb_spec (PTX va) (PTX va')) as [E2|E2].
    + simpl. rewrite <- E2. by rewrite rd32_insert_eq.
    + simpl. rewrite rd32_insert_ne by lia. done.
  - apply vm_lookup_ext; [apply set_pte_tab, PDX_range|].
    intros t' Ht'. simpl. apply rd32_insert_ne.
    pose proof (PTX_range va). pose proof (PTX_range va').
    intros [-> _]%page_off_inj; [|lia..]. apply E.
    eapply (dw_inj s l d D); eauto using PDX_range.
Qed.

(** Words outside the table are not touched. *)
Lemma set_pte_ram q o :
  q <> t -> 0 <= o < 4096 -> rd32 (ram set_pte) (q * 4096 + o) = rd32 (ram s) (q * 4096 + o).
Proof.
  intros Hq Ho. simpl. pose proof (PTX_range va).
  apply rd32_insert_ne. intros ?%page_off_inj; lia.
Qed.
End SetPte.

(** ** Steps that only extend the tables of one directory *)

(** The pages that hold the tables of directory [d]. *)
Definition tables (m : gmap Z Z) (d : Z) : list Z := omap (tab m d) (seqZ 0 1024).

Lemma tables_seq m d : omap (tab m d) (seqZ 0 (Z.of_nat 1024)) = tables m d.
Proof. assert (Z.of_nat 1024 = 1024) as -> by (by vm_compute). unfold tables. reflexivity. Qed.

Lemma tables_elem m d t : t ∈ tables m d <-> exists i, 0 <= i < 1024 /\ tab m d i = Some t.
Proof.
  unfold tables. rewrite list_elem_of_omap. split; intros (i & Hi & Ht); exists i; (split; [|done]).
  - by apply elem_of_seqZ in Hi.
  - by apply elem_of_seqZ.
Qed.

Lemma omap_ext_on {A B} (f g : A -> option B) (l : list A) :
  (forall x, x ∈ l -> f x = g x) -> omap f l = omap g l.
Proof.
  induction l as [|x l IH]; intros H; [done|]. cbn. rewrite H by by left.
  rewrite IH; [done|]. intros y Hy. apply H. by right.
Qed.

Lemma tables_ext m m' d :
  (forall i, 0 <= i < 1024 -> tab m' d i = tab m d i) -> tables m' d = tables m d.
Proof. intros H. apply omap_ext_on. intros i Hi%elem_of_seqZ. apply H. lia. Qed.

(** A new table in an empty slot. *)
Lemma omap_new {B} (f g : Z -> option B) (l : list Z) i x :
  NoDup l -> i ∈ l -> f i = None -> (forall j, j ∈ l -> g j = if bool_decide (j = i) then Some x else f j) ->
  omap g l ≡ₚ x :: omap f l.
Proof.
  intros Hnd Hi Hf Hg. apply list_elem_of_split in Hi as (l1 & l2 & ->).
  apply NoDup_app in Hnd as (_ & Hd & Hnd2). apply NoDup_cons in Hnd2 as [Hd2 _].
  assert (forall j, j ∈ l1 \/ j ∈ l2 -> g j = f j) as Hne.
  { intros j Hj. rewrite Hg, bool_decide_eq_false_2; [done| |].
    - intros ->. destruct Hj as [H1|H1]; [|done]. apply (Hd i H1). by left.
    - rewrite elem_of_app, elem_of_cons. by destruct Hj; auto. }
  rewrite !omap_app. cbn. rewrite Hf, Hg, bool_decide_eq_true_2 by set_solver.
  rewrite (omap_ext_on g f l1), (omap_ext_on g f l2) by auto. by rewrite Permutation_middle.
Qed.

Lemma tables_new m m' d i x :
  0 <= i < 1024 -> tab m d i = None ->
  (forall j, 0 <= j < 1024 -> tab m' d j = if bool_decide (j = i) then Some x else tab m d j) ->
  tables m' d ≡ₚ x :: tables m d.
Proof.
  intros Hi Hf Hg. apply (omap_new _ _ _ i); [apply NoDup_seqZ|by apply elem_of_seqZ|done|].
  intros j Hj%elem_of_seqZ. apply Hg. lia.
Qed.

Lemma NoDup_omap {A B} (f : A -> option B) (l : list A) :
  NoDup l -> (forall x y b, x ∈ l -> y ∈ l -> f x = Some b -> f y = Some b -> x = y) -> NoDup (omap f l).
Proof.
  induction 1 as [|x l Hx Hnd IH]; intros Hinj; [constructor|]. cbn.
  assert (NoDup (omap f l)) as IH' by (apply IH; intros; eapply Hinj; [by right|by right|done|done]).
  destruct (f x) as [b|] eqn:E; [|done]. apply NoDup_cons. split; [|done].
  intros (y & Hy & Ey)%list_elem_of_omap. apply Hx. by rewrite (Hinj x y b); [|left|right|..].
Qed.

Lemma tables_inj m d :
  (forall i j t, 0 <= i < 1024 -> 0 <= j < 1024 -> tab m d i = Some t -> tab m d j = Some t -> i = j) ->
  NoDup (tables m d).
Proof.
  intros H. apply NoDup_omap; [apply NoDup_seqZ|]. intros i j t Hi%elem_of_seqZ Hj%elem_of_seqZ. apply H; lia.
Qed.

Lemma length_omap_le {A B} (f : A -> option B) (l : list A) : (length (omap f l) <= length l)%nat.
Proof. induction l as [|x l IH]; [done|]. cbn [omap list_omap length]. destruct (f x); cbn [length]; lia. Qed.

Lemma tables_length m d : (length (tables m d) <= 1024)%nat.
Proof. unfold tables. etrans; [apply length_omap_le|]. rewrite length_seqZ. by apply Nat.eq_le_incl. Qed.

#[global] Opaque tables.

Lemma perm_move_one {A} (x : A) l1 l2 l : l2 ≡ₚ x :: l1 -> l2 ++ l ≡ₚ l1 ++ x :: l.
Proof. intros ->. simpl. by rewrite Permutation_middle. Qed.

(** From [s] with free pages [l] to [s'] with free pages [l']: directory [d] now
    maps addresses as [f] says; new tables come from the free list, with one
    reference each, and no page gets lost; page records and words outside the
    directory, its tables and the pages taken are as before. *)
Record step_vm (s : mm_state) (l : list Z) (d : Z) (s' : mm_state) (l' : list Z)
    (f : Z -> option Z) : Prop := {
  sv_wf : mm_wf s' l';
  sv_dir : dir_wf s' l' d;
  sv_cfg : cfg s' = cfg s;
  sv_lookup : forall va, 0 <= va < 4294967296 -> PDX va <> SELF -> vm_lookup (ram s') d va = f va;
  sv_free : forall q, q ∈ l' -> q ∈ l;
  sv_pages : forall q, q ∉ l -> pages s' !! q = pages s !! q;
  sv_tab : forall i t, 0 <= i < 1024 -> tab (ram s) d i = Some t -> tab (ram s') d i = Some t;
  sv_new : forall i t, 0 <= i < 1024 -> tab (ram s') d i = Some t ->
                       tab (ram s) d i = Some t \/ t ∈ l;
  sv_frame : forall q o, q <> d -> q ∉ l -> (forall i, 0 <= i < 1024 -> tab (ram s) d i <> Some q) ->
                         0 <= o < 4096 ->
                         rd32 (ram s') (q * 4096 + o) = rd32 (ram s) (q * 4096 + o);
  sv_self : tab (ram s') d SELF = tab (ram s) d SELF;
  sv_acct : tables (ram s') d ++ l' ≡ₚ tables (ram s) d ++ l;
  sv_recs : forall i t, 0 <= i < 1024 -> tab (ram s') d i = Some t ->
              tab (ram s) d i = Some t \/ pages s' !! t = Some (mkPage None 1)
}.

Lemma step_vm_trans s l d s1 l1 f s2 l2 g :
  step_vm s l d s1 l1 f -> step_vm s1 l1 d s2 l2 g -> step_vm s l d s2 l2 g.
Proof.
  intros [] []. split; try done.
  - congruence.
  - auto.
  - intros q Hq. rewrite <- sv_pages0 by done. auto.
  - auto.
  - intros i t Hi H. destruct (sv_new1 i t Hi H) as [H1|H1]; auto.
  - intros q o Hd Hl Ht Ho. rewrite <- sv_frame0 by done. apply sv_frame1; auto.
    intros i Hi H. destruct (sv_new0 i q Hi H); [by eapply Ht|done].
  - congruence.
  - by etrans.
  - intros i t Hi H. destruct (sv_recs1 i t Hi H) as [H1|H1]; [|by right].
    destruct (sv_recs0 i t Hi H1) as [H2|H2]; [by left|]. destruct (decide (i = SELF)) as [->|Hne].
    { left. congruence. }
    right. destruct (dw_tab _ _ _ sv_dir0 i t Hi Hne H1) as (_ & Hn & _). by rewrite sv_pages1.
Qed.

Lemma step_vm_refl s l d :
  mm_wf s l -> dir_wf s l d -> step_vm s l d s l (vm_lookup (ram s) d).
Proof. intros. split; auto. Qed.

Lemma step_vm_ext s l d s' l' f g :
  (forall va, 0 <= va < 4294967296 -> PDX va <> SELF -> f va = g va) ->
  step_vm s l d s' l' f -> step_vm s l d s' l' g.
Proof. intros E []. split; auto. intros va Hva Hs. rewrite <- E by done. auto. Qed.

(** Slots of a directory, each named once. *)
Definition slots (sl : list Z) : Prop := NoDup sl /\ Forall (fun i => 0 <= i < 1024) sl.

(** How many of the slots [sl] have no table yet. *)
Definition missing_in (m : gmap Z Z) (d : Z) (sl : list Z) : nat :=
  length (filter (fun i => tab m d i = None) sl).

(** The same for the slots [lo..hi]. *)
Definition missing (m : gmap Z Z) (d lo hi : Z) : nat := missing_in m d (seqZ lo (hi - lo + 1)).

Lemma slots_range lo hi : 0 <= lo -> hi < 1024 -> slots (seqZ lo (hi - lo + 1)).
Proof.
  intros. split; [apply NoDup_seqZ|]. apply Forall_forall. intros i Hi%elem_of_seqZ. lia.
Qed.

Lemma slots_elem sl i : slots sl -> i ∈ sl -> 0 <= i < 1024.
Proof. intros [_ H]. rewrite Forall_forall in H. apply H. Qed.

Lemma missing_new s s' d sl i p :
  tab (ram s) d i = None -> i ∈ sl -> slots sl ->
  (forall j, 0 <= j < 1024 -> tab (ram s') d j = if bool_decide (j = i) then Some p
                                                else tab (ram s) d j) ->
  missing_in (ram s) d sl = S (missing_in (ram s') d sl).
Proof.
  intros Hi Hr Hsl Ht. unfold missing_in.
  apply (filter_length_drop _ _ _ i); [apply Hsl|done|done|].
  intros j Hj%(slots_elem _ _ Hsl). rewrite Ht by lia. case_bool_decide; intuition congruence.
Qed.

Lemma missing_one m d i : (missing m d i i <= 1)%nat.
Proof.
  unfold missing, missing_in. replace (i - i + 1) with 1 by lia.
  etrans; [apply length_filter|]. by rewrite length_seqZ.
Qed.

(** From [s] with free pages [l] to [s'] with [l']: every page taken became the table
    of one of the slots [sl], open for reading and writing to all, and the other slots
    are as they were. *)
Definition spends (sl : list Z) (d : Z) (s : mm_state) (l : list Z) (s' : mm_state) (l' : list Z) : Prop :=
  (missing_in (ram s') d sl + length l = missing_in (ram s) d sl + length l')%nat
  /\ forall i, 0 <= i < 1024 -> rd32 (ram s') (d * 4096 + 4 * i) = rd32 (ram s) (d * 4096 + 4 * i)
       \/ (i ∈ sl /\ exists t, rd32 (ram s') (d * 4096 + 4 * i) = t * 4096 + 7).

Lemma spends_trans sl d s l s1 l1 s2 l2 : spends sl d s l s1 l1 -> spends sl d s1 l1 s2 l2 -> spends sl d s l s2 l2.
Proof. intros [H1 K1] [H2 K2]. split; [lia|]. intros i Hi. destruct (K2 i Hi) as [->|]; [by apply K1|by right]. Qed.

Lemma spends_refl sl d s l : spends sl d s l s l.
Proof. split; [done|]. intros i _. by left. Qed.

(** [pgdir_walk(pgdir, va, 1)] when there is a table or a page to make one of. *)
Lemma wp_pgdir_walk_create s l d va sl :
  mm_wf s l -> dir_wf s l d -> PDX va <> SELF -> PDX va ∈ sl -> slots sl ->
  (missing_in (ram s) d sl <= length l)%nat ->
  wp (pgdir_walk (dirp d) va 1) s (fun r s' => exists t l',
    r = Some (t * 4096 + 4 * PTX va + KERNBASE)
    /\ tab (ram s') d (PDX va) = Some t
    /\ spends sl d s l s' l'
    /\ step_vm s l d s' l' (vm_lookup (ram s) d)).
Proof.
  intros W D Hs Hr Hsl Hm. destruct (tab (ram s) d (PDX va)) as [t|] eqn:Ht.
  - eapply wp_eq; [by eapply pgdir_walk_hit|]. exists t, l.
    split; [done|]. split; [done|]. split; [apply spends_refl|]. by apply step_vm_refl.
  - destruct l as [|p l].
    { exfalso. assert (PDX va ∈ filter (fun i => tab (ram s) d i = None) sl) as H
        by by apply list_elem_of_filter.
      unfold missing_in in Hm. destruct (filter _ _); [by apply elem_of_nil in H|simpl in Hm; lia]. }
    destruct (pgdir_walk_create s p l d va W D Ht) as (pi & Hpi & E).
    eapply wp_eq; [exact E|]. exists p, l.
    pose proof (after_walk_tab s p pi l d va W D Hpi) as Htab.
    split; [done|].
    split; [rewrite Htab by apply PDX_range; by rewrite bool_decide_eq_true_2|].
    split.
    { split; [rewrite (missing_new s _ d sl (PDX va) p Ht Hr Hsl Htab); simpl; lia|]. intros i Hi.
      assert (p <> d) as Hpd by by eapply after_walk_fresh. unfold after_walk. cbn [ram set_ram set_pages].
      destruct (decide (i = PDX va)) as [->|Hne]; [right; split; [done|exists p; apply rd32_insert_eq]|left].
      rewrite rd32_insert_ne by lia. by apply rd32_zero_page_out; [|lia]. }
    split.
    + by apply after_walk_wf.
    + by eapply after_walk_dir.
    + done.
    + intros. by eapply after_walk_lookup.
    + intros q Hq. by right.
    + intros q [Hq _]%not_elem_of_cons. simpl. by rewrite !lookup_insert_ne.
    + intros i t Hi H. rewrite Htab by done. case_bool_decide; congruence.
    + intros i t Hi. rewrite Htab by done. case_bool_decide; [|by left].
      intros [= <-]. right. by left.
    + intros q o Hd [Hq _]%not_elem_of_cons Htq Ho. by eapply after_walk_ram.
    + rewrite Htab by done. by rewrite bool_decide_eq_false_2 by done.
    + apply perm_move_one. exact (tables_new (ram s) _ d (PDX va) p (PDX_range va) Ht Htab).
    + intros i t Hi. rewrite Htab by done. case_bool_decide; [|by left]. intros [= <-]. right.
      unfold after_walk. cbn [pages set_ram set_pages]. apply lookup_insert_eq.
Qed.

(** Writing an entry is such a step. *)
Lemma set_pte_step s l d va t v :
  mm_wf s l -> dir_wf s l d -> PDX va <> SELF -> tab (ram s) d (PDX va) = Some t ->
  0 <= v < 4294967296 ->
  step_vm s l d (set_pte s va t v) l
    (fun va' => if same_page va va' then (if present v then Some v else None)
                else vm_lookup (ram s) d va').
Proof.
  intros W D Hs Ht Hv. split; try done.
  - by apply set_pte_wf.
  - by eapply set_pte_dir.
  - intros. by eapply set_pte_lookup.
  - intros i t' Hi. by erewrite set_pte_tab.
  - intros i t' Hi. erewrite set_pte_tab by done. by left.
  - intros q o Hd Hl Htq Ho. apply set_pte_ram; [|done].
    intros ->. by eapply (Htq (PDX va)); [apply PDX_range|].
  - by erewrite set_pte_tab.
  - rewrite (tables_ext (ram s)); [done|]. intros i Hi. by eapply set_pte_tab.
  - intros i t' Hi. erewrite set_pte_tab by done. by left.
Qed.

(** ** boot_map_region *)

Lemma same_page_spec va va' :
  0 <= va < 4294967296 -> 0 <= va' < 4294967296 ->
  same_page va va' = (PGNUM va =? PGNUM va').
Proof.
  intros. unfold same_page. rewrite !PDX_spec, !PTX_spec, !PGNUM_div.
  destruct (Z.eqb_spec (va / 4096) (va' / 4096)) as [E|E].
  - rewrite E, Z.eqb_refl, andb_true_r. apply Z.eqb_eq.
    Z.to_euclidean_division_equations. lia.
  - apply andb_false_iff. rewrite !Z.eqb_neq. Z.to_euclidean_division_equations. lia.
Qed.

(** [f] with [n] pages from [va] on mapped to the frames from [pa] on. *)
Definition map_range (va : Z) (n : nat) (pa perm : Z) (f : Z -> option Z) (va' : Z)
  : option Z :=
  let k := PGNUM va' - PGNUM va in
  if (0 <=? k) && (k <? Z.of_nat n)
  then Some (Z.lor (Z.lor (pa + k * 4096) perm) PTE_P)
  else f va'.

Lemma lor3_range pa perm :
  0 <= pa < 4294967296 -> 0 <= perm < 4096 ->
  0 <= Z.lor (Z.lor pa perm) PTE_P < 4294967296.
Proof.
  intros. split; [apply Z.lor_nonneg; split; [apply Z.lor_nonneg; lia|done]|].
  apply (Z.log2_lt_pow2 _ 32).
  { assert (present (Z.lor (Z.lor pa perm) PTE_P) = true) as Hp by apply present_lor.
    assert (0 <= Z.lor (Z.lor pa perm) PTE_P)
      by (apply Z.lor_nonneg; split; [apply Z.lor_nonneg; lia|done]).
    destruct (Z.eq_dec (Z.lor (Z.lor pa perm) PTE_P) 0) as [E|]; [|lia].
    rewrite E in Hp. done. }
  rewrite !Z.log2_lor by (try apply Z.lor_nonneg; try split; (lia || done)).
  assert (forall x, 0 <= x < 4294967296 -> Z.log2 x < 32) as Hl.
  { intros x Hx. destruct (Z.eq_dec x 0) as [->|]; [done|].
    apply Z.log2_lt_pow2; [lia|]. change (2 ^ 32) with 4294967296. lia. }
  pose proof (Hl pa H). pose proof (Hl perm ltac:(lia)). pose proof (Hl PTE_P ltac:(done)).
  lia.
Qed.

(** The page an entry names. *)
Lemma entry_page pa perm :
  0 <= pa < 4294967296 -> pa mod 4096 = 0 -> 0 <= perm < 4096 -> PTE_ADDR (Z.lor (Z.lor pa perm) PTE_P) = pa.
Proof.
  intros Hpa Hm Hp. rewrite <- Z.lor_assoc. apply PTE_ADDR_lor; [done|done|].
  pose proof (lor3_range 0 perm ltac:(lia) Hp) as Hl. rewrite Z.lor_0_l in Hl. split; [lia|].
  destruct (Z.eq_dec (Z.lor perm PTE_P) 0) as [->|]; [lia|].
  apply (Z.log2_lt_pow2 _ 12); [lia|]. rewrite Z.log2_lor by (done || lia). apply Z.max_lub_lt; [|done].
  destruct (Z.eq_dec perm 0) as [->|]; [done|]. apply Z.log2_lt_pow2; [lia|change (2 ^ 12) with 4096; lia].
Qed.

(** The address space inside a mapped range. *)
Lemma map_range_in va n pa perm f k :
  0 <= k < Z.of_nat n -> map_range va n pa perm f (va + k * 4096) = Some (Z.lor (Z.lor (pa + k * 4096) perm) PTE_P).
Proof.
  intros Hk. unfold map_range. rewrite !PGNUM_div, Z.div_add by lia. replace (va / 4096 + k - va / 4096) with k by lia.
  destruct (Z.leb_spec 0 k), (Z.ltb_spec k (Z.of_nat n)); try lia. done.
Qed.

Lemma map_range_cons va n pa perm f va' :
  0 <= va -> va + 4096 < 4294967296 -> 0 <= va' < 4294967296 ->
  map_range (va + 4096) n (pa + 4096) perm
    (fun x => if same_page va x then Some (Z.lor (Z.lor pa perm) PTE_P) else f x) va'
  = map_range va (S n) pa perm f va'.
Proof.
  intros H0 H1 H2. unfold map_range. rewrite same_page_spec by lia.
  assert (PGNUM (va + 4096) = PGNUM va + 1) as ->
    by (rewrite !PGNUM_div; Z.to_euclidean_division_equations; lia).
  set (k := PGNUM va' - PGNUM va). set (k1 := PGNUM va' - (PGNUM va + 1)).
  assert (k1 = k - 1) as -> by lia.
  destruct (Z.leb_spec 0 (k - 1)), (Z.ltb_spec (k - 1) (Z.of_nat n)), (Z.leb_spec 0 k),
    (Z.ltb_spec k (Z.of_nat (S n))); simpl; try lia;
    destruct (Z.eqb_spec (PGNUM va) (PGNUM va')); try lia; try done;
    do 3 f_equal; lia.
Qed.

Lemma map_range_one va pa perm f va' :
  0 <= va < 4294967296 -> 0 <= va' < 4294967296 ->
  (if same_page va va' then Some (Z.lor (Z.lor pa perm) PTE_P) else f va')
  = map_range va 1 pa perm f va'.
Proof.
  intros H0 H2. unfold map_range. rewrite same_page_spec by lia.
  destruct (Z.leb_spec 0 (PGNUM va' - PGNUM va)),
    (Z.ltb_spec (PGNUM va' - PGNUM va) (Z.of_nat 1)),
    (Z.eqb_spec (PGNUM va) (PGNUM va')); simpl; try lia; try done.
  do 3 f_equal. lia.
Qed.

Lemma map_range_out va n pa perm f x :
  PGNUM x < PGNUM va \/ PGNUM va + Z.of_nat n <= PGNUM x -> map_range va n pa perm f x = f x.
Proof.
  intros H. unfold map_range. destruct (Z.leb_spec 0 (PGNUM x - PGNUM va)), (Z.ltb_spec (PGNUM x - PGNUM va) (Z.of_nat n));
    simpl; lia || done.
Qed.

(** One turn of the loop. *)
Lemma wp_map_one s l d va pa perm sl :
  mm_wf s l -> dir_wf s l d -> PDX va <> SELF -> PDX va ∈ sl -> slots sl ->
  (missing_in (ram s) d sl <= length l)%nat ->
  0 <= pa < 4294967296 -> 0 <= perm < 4096 ->
  wp (r ← pgdir_walk (dirp d) va 1;
      pte ← need r "boot_map_region: *pte with pte null";
      store32 pte (Z.lor (Z.lor pa perm) PTE_P)) s
     (fun _ s' => exists l',
        spends sl d s l s' l'
        /\ step_vm s l d s' l'
             (fun x => if same_page va x then Some (Z.lor (Z.lor pa perm) PTE_P)
                       else vm_lookup (ram s) d x)).
Proof.
  intros W D Hs Hr Hsl Hm Hpa Hpm. wp_step.
  eapply wp_mono; [by apply (wp_pgdir_walk_create s l d va sl)|].
  intros r s1 (t & l1 & -> & Ht & Hm1 & S1). wp_step. apply (wp_need _ _ _ _ _ eq_refl).
  destruct (dw_tab s1 l1 d (sv_dir _ _ _ _ _ _ S1) _ t (PDX_range va) Hs Ht) as (Htr & _).
  apply wp_store32; [by apply pte_word_ok|].
  pose proof (set_pte_step s1 l1 d va t (Z.lor (Z.lor pa perm) PTE_P)
    (sv_wf _ _ _ _ _ _ S1) (sv_dir _ _ _ _ _ _ S1) Hs Ht (lor3_range pa perm Hpa Hpm)) as S2.
  exists l1. split; [eapply spends_trans; [exact Hm1|]; split|].
  - f_equal. unfold missing_in. erewrite filter_iff_on; [done|].
    intros i Hi%(slots_elem _ _ Hsl). cbv beta.
    pose proof (set_pte_tab s1 l1 d va t (Z.lor (Z.lor pa perm) PTE_P)
      (sv_dir _ _ _ _ _ _ S1) Hs Ht i ltac:(lia)) as E. unfold set_pte in E. by rewrite E.
  - intros i Hi. left. apply (set_pte_ram s1 va t); [|lia]. by destruct (dw_tab s1 l1 d (sv_dir _ _ _ _ _ _ S1) _ t (PDX_range va) Hs Ht) as (_ & _ & ?%not_eq_sym).
  - eapply step_vm_ext; [|eapply step_vm_trans; [exact S1|exact S2]].
    intros x Hx Hsx. cbv beta. rewrite present_lor.
    destruct (same_page va x); [done|]. by apply (sv_lookup _ _ _ _ _ _ S1).
Qed.


(** Every page of [n] pages from [va] on lies in the slots [sl] of the
    directory, away from the self map. *)
Definition slots_in (va : Z) (n : nat) (sl : list Z) : Prop :=
  forall k, 0 <= k < Z.of_nat n ->
    PDX (va + k * 4096) ∈ sl /\ PDX (va + k * 4096) <> SELF.

Lemma slots_in_tail va n sl :
  slots_in va (S n) sl -> va + 4096 < 4294967296 -> slots_in (va + 4096) n sl.
Proof.
  intros H Hva k Hk. replace (va + 4096 + k * 4096) with (va + (k + 1) * 4096) by lia.
  apply H. lia.
Qed.

Lemma slots_in_head va n sl :
  slots_in va (S n) sl -> PDX va ∈ sl /\ PDX va <> SELF.
Proof. intros H. specialize (H 0 ltac:(lia)). by rewrite Z.mul_0_l, Z.add_0_r in H. Qed.

(** A range of addresses that does not wrap and stays inside [lo..hi]. *)
Lemma slots_in_range va n lo hi sl :
  0 <= va -> va + Z.of_nat n * 4096 <= 4294967296 ->
  lo * 4194304 <= va -> va + Z.of_nat n * 4096 <= (hi + 1) * 4194304 ->
  hi < SELF \/ SELF < lo -> (forall i, lo <= i <= hi -> i ∈ sl) -> slots_in va n sl.
Proof.
  intros H0 H1 H2 H3 H4 Hsl k Hk. rewrite PDX_spec.
  assert (0 <= (va + k * 4096) / 4194304 < 1024 /\ lo <= (va + k * 4096) / 4194304 <= hi)
    by (Z.to_euclidean_division_equations; lia).
  rewrite Z.mod_small by lia. split; [apply Hsl|]; lia.
Qed.

Section BootMap.
Context (d perm : Z) (sl : list Z).
  Hypotheses (Hperm : 0 <= perm < 4096) (Hsl : slots sl).

Lemma wp_boot_map_loop n s l va size pa :
  mm_wf s l -> dir_wf s l d -> slots_in va n sl ->
  size / 4096 = Z.of_nat n -> 0 <= va -> va + Z.of_nat n * 4096 <= 4294967296 ->
  0 <= pa -> pa + Z.of_nat n * 4096 <= 4294967296 ->
  (missing_in (ram s) d sl <= length l)%nat ->
  wp (boot_map_loop n (dirp d) va size pa perm) s (fun _ s' => exists l',
    spends sl d s l s' l'
    /\ step_vm s l d s' l' (map_range va n pa perm (vm_lookup (ram s) d))).
Proof.
  revert s l va size pa. induction n as [|n IH];
    intros s l va size pa W D Hin Hsz Hva Hva' Hpa Hpa' Hm; cbn [boot_map_loop];
    change PGSIZE with 4096; rewrite Z.geb_leb.
  - destruct (Z.leb_spec 4096 size); [Z.to_euclidean_division_equations; lia|].
    wp_step. exists l. split; [apply spends_refl|].
    eapply step_vm_ext; [|by apply step_vm_refl].
    intros x _ _. unfold map_range.
    destruct (Z.leb_spec 0 (PGNUM x - PGNUM va)), (Z.ltb_spec (PGNUM x - PGNUM va) (Z.of_nat 0));
      simpl; try lia; done.
  - destruct (Z.leb_spec 4096 size); [|Z.to_euclidean_division_equations; lia].
    apply slots_in_head in Hin as Hh. destruct Hh as [Hr Hs].
    pose proof (wp_map_one s l d va pa perm sl W D Hs Hr Hsl Hm ltac:(lia) Hperm) as H1.
    apply wp_inv in H1 as ([] & s1 & E1 & l1 & Hm1 & S1).
    apply bind_ret_inv in E1 as (r & s2 & E2 & (pte & s3 & E3 & E4)%bind_ret_inv).
    wp_step. eapply wp_eq; [exact E2|]. wp_step. eapply wp_eq; [exact E3|].
    wp_step. eapply wp_eq; [exact E4|]. destruct n as [|n].
    + cbn [boot_map_loop]. change PGSIZE with 4096. rewrite Z.geb_leb.
      destruct (Z.leb_spec 4096 (size - 4096)); [Z.to_euclidean_division_equations; lia|].
      wp_step. exists l1. split; [done|]. eapply step_vm_ext; [|exact S1].
      intros x Hx _. apply map_range_one; lia.
    + rewrite !u32_small by lia.
      eapply wp_mono; [apply (IH s1 l1 (va + 4096) _ (pa + 4096) (sv_wf _ _ _ _ _ _ S1)
                                (sv_dir _ _ _ _ _ _ S1)); try lia; try done|].
      * apply slots_in_tail; [done|lia].
      * Z.to_euclidean_division_equations; lia.
      * destruct Hm1. lia.
      * intros _ s' (l' & Hm' & S'). exists l'. split; [by eapply spends_trans|].
        eapply step_vm_ext; [|eapply step_vm_trans; [exact S1|exact S']].
        intros x Hx Hxs. cbv beta. rewrite <- (map_range_cons va (S n)) by lia.
        unfold map_range at 1 2. destruct (_ && _); [done|]. by apply (sv_lookup _ _ _ _ _ _ S1).
Qed.

Lemma wp_boot_map_region s l va size pa n :
  mm_wf s l -> dir_wf s l d -> slots_in va n sl ->
  size / 4096 = Z.of_nat n -> 0 <= va -> va + Z.of_nat n * 4096 <= 4294967296 ->
  0 <= pa -> pa + Z.of_nat n * 4096 <= 4294967296 ->
  (missing_in (ram s) d sl <= length l)%nat ->
  wp (boot_map_region (dirp d) va size pa perm) s (fun _ s' => exists l',
    spends sl d s l s' l'
    /\ step_vm s l d s' l' (map_range va n pa perm (vm_lookup (ram s) d))).
Proof.
  intros W D Hin Hsz ?????. unfold boot_map_region. change PGSIZE with 4096.
  rewrite Hsz, Nat2Z.id. by apply wp_boot_map_loop.
Qed.
End BootMap.

(** ** Mapped pages *)

(** Page [p] is in use with [r] references, and is neither the directory [d] nor
    one of its tables. *)
Record frame (s : mm_state) (l : list Z) (d p r : Z) : Prop := {
  fr_page : pages s !! p = Some (mkPage None r);
  fr_used : p ∉ l;
  fr_dir : p <> d;
  fr_tab : forall i, 0 <= i < 1024 -> tab (ram s) d i <> Some p
}.

Lemma frame_step s l d s' l' f p r :
  step_vm s l d s' l' f -> frame s l d p r -> frame s' l' d p r.
Proof.
  intros S [Hp Hl Hd Ht]. split; [|by intros ?%(sv_free _ _ _ _ _ _ S)|done|].
  - by rewrite (sv_pages _ _ _ _ _ _ S).
  - intros i Hi H. destruct (sv_new _ _ _ _ _ _ S i p Hi H); [by eapply Ht|done].
Qed.

Lemma frame_range s l d p r : mm_wf s l -> frame s l d p r -> 0 <= p < npages s.
Proof. intros W F. apply (wf_dom s l W). rewrite (fr_page _ _ _ _ _ F). eauto. Qed.

(** A state that differs from [s] in page records only. *)
Lemma dir_wf_pages s s' l l' d :
  dir_wf s l d -> cfg s' = cfg s -> ram s' = ram s -> (forall q, q ∈ l' -> q ∈ l \/
    (q <> d /\ forall i, 0 <= i < 1024 -> tab (ram s) d i <> Some q)) ->
  dir_wf s' l' d.
Proof.
  intros [Hd Hl Ht Hi] Ec Er Hsub. split; rewrite ?Er; unfold npages; rewrite ?Ec.
  - done.
  - intros [?|[? _]]%Hsub; done.
  - intros i t Hr Hs H. destruct (Ht i t Hr Hs H) as (? & Hn & ?).
    split; [done|]. split; [|done]. intros [?|[_ Hq]]%Hsub; [done|by eapply Hq].
  - done.
Qed.

(** The entry found for [va], in terms of the walk. *)
Lemma vm_lookup_inv m d va e :
  vm_lookup m d va = Some e ->
  exists t, tab m d (PDX va) = Some t /\ rd32 m (t * 4096 + 4 * PTX va) = e /\ present e = true.
Proof.
  unfold vm_lookup. destruct (tab _ _ _) as [t|]; [|done].
  destruct (present _) eqn:Hp; [|done]. intros [= <-]. eauto.
Qed.

Lemma word_ok_cfg s s' pa : cfg s' = cfg s -> word_ok s' pa = word_ok s pa.
Proof. intros E. unfold word_ok, npages. by rewrite E. Qed.

(** ** page_lookup *)

Lemma page_lookup_none s l d va stored :
  mm_wf s l -> dir_wf s l d -> PDX va <> SELF -> vm_lookup (ram s) d va = None ->
  page_lookup (dirp d) va stored s = Ret (None, stored) s.
Proof.
  intros W D Hs Hv.
  cut (wp (page_lookup (dirp d) va stored) s (fun r s' => r = (None, stored) /\ s' = s)).
  { intros (a & s' & -> & -> & ->)%wp_inv. done. }
  unfold page_lookup. wp_step. unfold vm_lookup in Hv.
  destruct (tab (ram s) d (PDX va)) as [t|] eqn:Ht.
  - eapply wp_eq; [by eapply pgdir_walk_hit|]. cbv beta iota. wp_step.
    destruct (dw_tab s l d D _ t (PDX_range va) Hs Ht) as (Hr & _).
    apply wp_load32; [by apply pte_word_ok|].
    destruct (present _) eqn:Hp; [done|]. unfold present in Hp. rewrite Hp. cbn [negb]. by wp_steps.
  - eapply wp_eq; [by eapply pgdir_walk_miss|]. by apply wp_ret.
Qed.

Lemma page_lookup_some s l d va stored e t p :
  mm_wf s l -> dir_wf s l d -> PDX va <> SELF -> tab (ram s) d (PDX va) = Some t ->
  vm_lookup (ram s) d va = Some e -> PTE_ADDR e = p * 4096 -> 0 <= p < npages s ->
  page_lookup (dirp d) va stored s
  = Ret (Some p, if truth stored then t * 4096 + 4 * PTX va + KERNBASE else stored) s.
Proof.
  intros W D Hs Ht Hv Hp Hr.
  set (res := (_, _)).
  cut (wp (page_lookup (dirp d) va stored) s (fun r s' => r = res /\ s' = s)).
  { intros (a & s' & -> & -> & ->)%wp_inv. done. }
  apply vm_lookup_inv in Hv as (t' & Ht' & He & Hpr). simplify_eq.
  unfold page_lookup. wp_step. eapply wp_eq; [by eapply pgdir_walk_hit|]. cbv beta iota. wp_step.
  destruct (dw_tab s l d D _ t (PDX_range va) Hs Ht) as (Htr & _).
  apply wp_load32; [by apply pte_word_ok|]. unfold present in Hpr. rewrite Hpr, Hp. cbn [negb].
  assert (PGNUM (p * 4096) = p) as Ep by (rewrite <- (Z.add_0_r (p * 4096)); by apply PGNUM_page).
  wp_step. apply wp_pa2page; [rewrite Ep; lia|]. wp_steps. by rewrite Ep.
Qed.

Lemma wp_KADDR_page s l f (Q : Z -> mm_state -> Prop) :
  mm_wf s l -> 0 <= f < npages s -> Q (f * 4096 + KERNBASE) s -> wp (KADDR (f * 4096)) s Q.
Proof.
  intros W Hf HQ. pose proof (wf_npages s l W). apply wp_KADDR; [lia| |done].
  rewrite <- (Z.add_0_r (f * 4096)), PGNUM_page by lia. lia.
Qed.

(** [check_va2pa] reads the address space. *)
Lemma wp_check_va2pa s l d va (Q : Z -> mm_state -> Prop) :
  mm_wf s l -> dir_wf s l d -> PDX va <> SELF ->
  Q (match vm_lookup (ram s) d va with Some e => PTE_ADDR e | None => lnot32 0 end) s ->
  wp (check_va2pa (dirp d) va) s Q.
Proof.
  intros W D Hs HQ. unfold check_va2pa. wp_step. rewrite dirp_slot. apply wp_load32; [by eapply pde_word_ok|].
  unfold vm_lookup in HQ. destruct (tab (ram s) d (PDX va)) as [t|] eqn:Ht.
  - destruct (tab_Some_inv s l d (PDX va) t W Ht) as (e1 & He1 & Hp1 & Ha1 & _). unfold present in Hp1.
    destruct (dw_tab s l d D _ t (PDX_range va) Hs Ht) as (Htr & _). rewrite He1, Hp1. cbn [negb].
    wp_step. rewrite Ha1. eapply wp_KADDR_page; [exact W|exact Htr|]. wp_step.
    replace (t * 4096 + KERNBASE + 4 * PTX va) with (t * 4096 + 4 * PTX va + KERNBASE) by lia.
    apply wp_load32; [by apply pte_word_ok|]. destruct (present _) eqn:Hp; unfold present in Hp; rewrite Hp;
      cbn [negb]; by wp_step.
  - unfold tab in Ht. destruct (present _) eqn:Hp; [done|]. unfold present in Hp. rewrite Hp. cbn [negb]. by wp_step.
Qed.

(** A state that differs in the configuration, not in [npages]. *)
Lemma upd_cfg_wf g s l :
  mm_wf s l -> c_npages (g (cfg s)) = npages s -> mm_wf (upd_cfg g s) l.
Proof.
  intros [] E. split; try assumption; change (npages (upd_cfg g s)) with (c_npages (g (cfg s)));
    by rewrite E.
Qed.

(** ** page_remove *)

(** What [page_remove] of a mapping of [p], held [r] times, leaves. *)
Record removed (s : mm_state) (l : list Z) (d va p r : Z) (s' : mm_state) (l' : list Z)
    : Prop := {
  rm_wf : mm_wf s' l';
  rm_dir : dir_wf s' l' d;
  rm_list : l' = if r =? 1 then p :: l else l;
  rm_cfg : cfg s' = log_invlpg va (cfg s);
  rm_lookup : forall va', PDX va' <> SELF ->
    vm_lookup (ram s') d va' = if same_page va va' then None else vm_lookup (ram s) d va';
  rm_pages : forall q, q <> p -> pages s' !! q = pages s !! q;
  rm_ref : pp_ref <$> pages s' !! p = Some (r - 1);
  rm_tab : forall i, 0 <= i < 1024 -> tab (ram s') d i = tab (ram s) d i;
  rm_ram : exists t, tab (ram s) d (PDX va) = Some t /\ ram s' = ram (set_pte s va t 0)
}.

Section RemoveProofs.
Context (s : mm_state) (l : list Z) (d va e p r : Z).
  Hypotheses (W : mm_wf s l) (D : dir_wf s l d) (Hs : PDX va <> SELF)
             (Hv : vm_lookup (ram s) d va = Some e) (Hp : PTE_ADDR e = p * 4096)
             (F : frame s l d p r) (Hr : 1 <= r < 65536).

(** [page_decref] of a frame leaves the directory in order. *)
Lemma wp_decref_frame :
  wp (page_decref p) s (fun _ s' => exists l', l' = (if r =? 1 then p :: l else l)
    /\ mm_wf s' l' /\ dir_wf s' l' d /\ only_pages s s'
    /\ (forall q, q <> p -> pages s' !! q = pages s !! q)
    /\ pp_ref <$> (pages s' !! p) = Some (r - 1)).
Proof.
  eapply wp_mono; [by apply (wp_page_decref s l p r); [|apply F|apply F|]|].
  intros _ s' (W' & [Ec Er] & Hq & Hpr). eexists. split; [done|]. split; [done|].
  split; [|done]. eapply dir_wf_pages; [done|done|done|].
  intros q. destruct (r =? 1); [|by left].
  intros [->|?]%elem_of_cons; [right|by left]. split; apply F.
Qed.

Lemma wp_page_remove garbage :
  garbage <> 0 ->
  wp (page_remove garbage (dirp d) va) s (fun _ s' => exists l', removed s l d va p r s' l').
Proof.
  intros Hg. apply vm_lookup_inv in Hv as Hv'. destruct Hv' as (t & Ht & He & Hpr).
  pose proof (frame_range _ _ _ _ _ W F) as Hpn.
  destruct (dw_tab s l d D _ t (PDX_range va) Hs Ht) as (Htr & _).
  unfold page_remove. wp_step. eapply wp_eq; [by eapply page_lookup_some|]. cbv beta iota.
  unfold truth. destruct (Z.eqb_spec garbage 0); [done|]. cbn [negb].
  wp_step. eapply wp_mono; [apply wp_decref_frame|].
  intros _ s1 (l1 & El & W1 & D1 & [Ec Er] & Hq & Href). wp_step.
  destruct (Z.eqb_spec (t * 4096 + 4 * PTX va + KERNBASE) 0) as [E0|].
  { pose proof (PTX_range va). unfold KERNBASE in E0. lia. }
  apply wp_store32; [erewrite word_ok_cfg by done; by apply pte_word_ok|].
  assert (tab (ram s1) d (PDX va) = Some t) as Ht1 by by rewrite Er.
  pose proof (set_pte_step s1 l1 d va t 0 W1 D1 Hs Ht1 ltac:(lia)) as S2.
  unfold tlb_invalidate. wp_step. exists l1. split; try assumption.
  - apply upd_cfg_wf; [apply (sv_wf _ _ _ _ _ _ S2)|reflexivity].
  - eapply dir_wf_ext; [apply (sv_dir _ _ _ _ _ _ S2)|done|done|done].
  - cbn [cfg upd_cfg set_ram]. by rewrite Ec.
  - intros va' Hs'. rewrite <- Er.
    exact (set_pte_lookup s1 l1 d va t 0 D1 Hs Ht1 va' Hs').
  - intros i Hi. rewrite <- Er. exact (set_pte_tab s1 l1 d va t 0 D1 Hs Ht1 i Hi).
  - exists t. split; [done|]. simpl. by rewrite Er.
Qed.

(** The local variable holds 0 on entry: the null pointer is written through. *)
Lemma page_remove_null_faults :
  page_remove 0 (dirp d) va s = Stop (Fault "page_remove: *pte with pte null").
Proof.
  apply vm_lookup_inv in Hv as Hv'. destruct Hv' as (t & Ht & He & Hpr).
  pose proof (frame_range _ _ _ _ _ W F) as Hpn.
  pose proof (page_lookup_some s l d va 0 e t p W D Hs Ht Hv Hp Hpn) as El.
  unfold page_remove. unfold mbind, M_bind. rewrite El. cbn [truth negb Z.eqb].
  destruct (wp_inv _ _ _ wp_decref_frame) as ([] & s1 & -> & _). done.
Qed.
End RemoveProofs.

(** ** page_insert *)

(** The page that [va] maps to. *)
Definition vm_page (m : gmap Z Z) (d va : Z) : option Z :=
  (fun e => PTE_ADDR e / 4096) <$> vm_lookup m d va.

Definition refs (s : mm_state) (q : Z) : option Z := pp_ref <$> pages s !! q.

(** The entry [page_insert] writes. *)
Definition insert_entry (pp perm : Z) : Z := Z.lor (Z.lor (page2pa pp) perm) PTE_P.

Section InsertTail.
Context (s : mm_state) (l : list Z) (d va t pp r perm : Z).
  Hypotheses (W : mm_wf s l) (D : dir_wf s l d) (Hs : PDX va <> SELF)
             (Ht : tab (ram s) d (PDX va) = Some t) (F : frame s l d pp r)
             (Hr : 0 <= r < 65535) (Hperm : 0 <= perm < 4096).

Let entry := insert_entry pp perm.

Lemma insert_entry_range : 0 <= entry < 4294967296.
Proof.
  pose proof (frame_range _ _ _ _ _ W F). pose proof (wf_npages _ _ W).
  apply lor3_range; [|done]. rewrite page2pa_spec by lia. lia.
Qed.

Lemma insert_entry_step (s' : mm_state) (l' : list Z) :
  mm_wf s' l' -> dir_wf s' l' d -> ram s' = ram s ->
  mm_wf (set_pte s' va t entry) l' /\ dir_wf (set_pte s' va t entry) l' d
  /\ forall va', PDX va' <> SELF ->
       vm_lookup (ram (set_pte s' va t entry)) d va'
       = if same_page va va' then Some entry else vm_lookup (ram s) d va'.
Proof.
  intros W' D' Er. pose proof insert_entry_range as He.
  assert (tab (ram s') d (PDX va) = Some t) as Ht' by by rewrite Er.
  split; [by apply set_pte_wf|]. split; [by eapply set_pte_dir|].
  intros va' Hs'. rewrite (set_pte_lookup s' l' d va t entry D' Hs Ht' va' Hs').
  rewrite Er. unfold entry, insert_entry. by rewrite present_lor.
Qed.

(** The last four statements, on the page's new reference. *)
Lemma wp_insert_tail :
  wp (pi ← page_get pp;
      set_pp_ref pp (u16 (pp_ref pi + 1)) ;;
      tlb_invalidate (dirp d) va ;;
      store32 (t * 4096 + 4 * PTX va + KERNBASE) entry ;;
      mret 0) s
     (fun res s' => res = 0 /\ mm_wf s' l /\ dir_wf s' l d
        /\ cfg s' = log_invlpg va (cfg s)
        /\ pages s' = <[pp := mkPage None (r + 1)]> (pages s)
        /\ (forall va', PDX va' <> SELF ->
             vm_lookup (ram s') d va'
             = if same_page va va' then Some entry else vm_lookup (ram s) d va')
        /\ ram s' = ram (set_pte s va t entry)).
Proof.
  destruct (dw_tab s l d D _ t (PDX_range va) Hs Ht) as (Htr & _).
  wp_step. eapply wp_page_get; [apply F|]. cbn [pp_ref]. rewrite u16_small by lia.
  wp_step. eapply wp_set_pp_ref; [apply F|]. cbn [pp_link].
  set (s1 := set_pages _ s).
  assert (mm_wf s1 l) as W1 by (eapply set_pages_wf; [done|apply F|apply F]).
  wp_step. unfold tlb_invalidate. wp_step. set (s2 := upd_cfg _ s1).
  assert (mm_wf s2 l) as W2 by by apply upd_cfg_wf.
  assert (dir_wf s2 l d) as D2 by (eapply dir_wf_ext; [exact D|done|done|done]).
  wp_step. apply wp_store32; [by apply pte_word_ok|].
  change (set_ram _ s2) with (set_pte s2 va t entry). wp_step.
  destruct (insert_entry_step s2 l W2 D2 eq_refl) as (W3 & D3 & H3). done.
Qed.
End InsertTail.

(** What [page_insert] of page [pp] at [va] leaves: the mapping, and the
    reference counts of all frames. *)
Record inserted (s : mm_state) (l : list Z) (d va pp perm : Z) (s' : mm_state) (l' : list Z)
    : Prop := {
  ins_wf : mm_wf s' l';
  ins_dir : dir_wf s' l' d;
  ins_lookup : forall va', 0 <= va' < 4294967296 -> PDX va' <> SELF ->
    vm_lookup (ram s') d va'
    = if same_page va va' then Some (insert_entry pp perm) else vm_lookup (ram s) d va';
  ins_refs : forall q rq, frame s l d q rq ->
    refs s' q = Some (rq + Z.b2z (bool_decide (q = pp))
                         - Z.b2z (bool_decide (vm_page (ram s) d va = Some q)));
  ins_tlb : if bool_decide (vm_page (ram s) d va = Some pp) then cfg s' = cfg s
            else exists older, c_invlpg (cfg s') = va :: older
}.

(** Every page that [va] maps is a frame with at least one reference. *)
Definition mapped_ok (s : mm_state) (l : list Z) (d va : Z) : Prop :=
  forall q, vm_page (ram s) d va = Some q -> exists rq, frame s l d q rq /\ 1 <= rq < 65536.

Section InsertProofs.
Context (s : mm_state) (l : list Z) (d va t pp r perm garbage : Z).
  Hypotheses (W : mm_wf s l) (D : dir_wf s l d) (Hs : PDX va <> SELF)
             (Ht : tab (ram s) d (PDX va) = Some t) (F : frame s l d pp r)
             (Hr : 0 <= r < 65535) (Hperm : 0 <= perm < 4096) (Hg : garbage <> 0)
             (Hold : mapped_ok s l d va).

Lemma vm_page_inv q :
  vm_page (ram s) d va = Some q ->
  exists e, vm_lookup (ram s) d va = Some e /\ PTE_ADDR e = q * 4096
            /\ rd32 (ram s) (t * 4096 + 4 * PTX va) = e /\ present e = true.
Proof.
  unfold vm_page. destruct (vm_lookup (ram s) d va) as [e|] eqn:Hv; [|done].
  intros [= <-]. exists e. split; [done|].
  apply vm_lookup_inv in Hv as (t' & Ht' & He & Hp). simplify_eq.
  split; [|done]. pose proof (rd32_range s l (t * 4096 + 4 * PTX va) W).
  rewrite PTE_ADDR_spec by done. Z.to_euclidean_division_equations. lia.
Qed.

(** [page_insert] once the walk has found the table [t]. *)
Lemma wp_insert_prefix Q :
  (let e := rd32 (ram s) (t * 4096 + 4 * PTX va) in
   let pte := t * 4096 + 4 * PTX va + KERNBASE in
   wp (if present e && (PTE_ADDR e =? pp * 4096) then
         store32 pte (insert_entry pp perm) ;; mret 0
       else
         when (present e) (page_remove garbage (dirp d) va) ;;
         pi ← page_get pp;
         set_pp_ref pp (u16 (pp_ref pi + 1)) ;;
         tlb_invalidate (dirp d) va ;;
         store32 pte (insert_entry pp perm) ;; mret 0) s Q) ->
  wp (page_insert garbage (dirp d) pp va perm) s Q.
Proof.
  intros H. destruct (dw_tab s l d D _ t (PDX_range va) Hs Ht) as (Htr & _).
  pose proof (frame_range _ _ _ _ _ W F) as Hpn. pose proof (wf_npages _ _ W) as Hn.
  unfold page_insert. wp_step. eapply wp_eq; [by eapply pgdir_walk_hit|]. cbv beta iota.
  wp_step. apply wp_load32; [by apply pte_word_ok|]. cbv zeta.
  fold (insert_entry pp perm). rewrite page2pa_spec by lia. exact H.
Qed.

(** The counts after one more reference to [pp]. *)
Lemma refs_bump s1 s' q rq :
  pages s' = <[pp := mkPage None (r + 1)]> (pages s1) ->
  frame s l d q rq -> (q <> pp -> refs s1 q = Some (rq - Z.b2z (bool_decide
    (vm_page (ram s) d va = Some q)))) -> vm_page (ram s) d va <> Some pp ->
  refs s' q = Some (rq + Z.b2z (bool_decide (q = pp))
                       - Z.b2z (bool_decide (vm_page (ram s) d va = Some q))).
Proof.
  intros Ep Fq H Hne. unfold refs. rewrite Ep. destruct (decide (q = pp)) as [->|Hq].
  - rewrite lookup_insert_eq. destruct F as [F' _ _ _], Fq as [Fq' _ _ _]. simplify_eq.
    rewrite bool_decide_eq_true_2, bool_decide_eq_false_2 by done. simpl. f_equal. lia.
  - rewrite lookup_insert_ne by done. fold (refs s1 q). rewrite H by done.
    rewrite (bool_decide_eq_false_2 (q = pp)) by done. simpl. f_equal. lia.
Qed.

Lemma wp_insert_same :
  vm_page (ram s) d va = Some pp ->
  wp (page_insert garbage (dirp d) pp va perm) s (fun res s' =>
    res = 0 /\ exists l', inserted s l d va pp perm s' l').
Proof.
  intros Hq. destruct (vm_page_inv pp Hq) as (e & Hv & Ha & He & Hp).
  destruct (dw_tab s l d D _ t (PDX_range va) Hs Ht) as (Htr & _).
  apply wp_insert_prefix. cbv zeta. rewrite He, Hp, Ha, Z.eqb_refl. simpl andb. cbv iota.
  wp_step. apply wp_store32; [by apply pte_word_ok|].
  change (set_ram _ s) with (set_pte s va t (insert_entry pp perm)). wp_step.
  destruct (insert_entry_step s l d va t pp r perm W Hs Ht F Hperm s l W D eq_refl)
    as (W3 & D3 & H3).
  split; [done|]. exists l. split; auto.
  - intros q' rq' Fq'. rewrite Hq. unfold refs. simpl. rewrite (fr_page _ _ _ _ _ Fq').
    simpl. f_equal. case_bool_decide; case_bool_decide; simpl; try lia; congruence.
  - rewrite Hq. by rewrite bool_decide_eq_true_2.
Qed.

Lemma wp_insert_replace q :
  vm_page (ram s) d va = Some q -> q <> pp ->
  wp (page_insert garbage (dirp d) pp va perm) s (fun res s' =>
    res = 0 /\ exists l', inserted s l d va pp perm s' l').
Proof.
  intros Hq Hne. destruct (vm_page_inv q Hq) as (e & Hv & Ha & He & Hp).
  destruct (Hold q Hq) as (rq & Fq & Hrq).
  apply wp_insert_prefix. cbv zeta. rewrite He, Hp, Ha. simpl andb.
  destruct (Z.eqb_spec (q * 4096) (pp * 4096)) as [E|E]; [lia|].
  cbn [when]. wp_step. eapply wp_mono; [by eapply (wp_page_remove s l d va e q rq)|].
  intros _ s1 (l1 & [W1 D1 El Ec1 Hl1 Hpg Href Htab _]).
  assert (frame s1 l1 d pp r) as F1.
  { split; [rewrite Hpg by congruence; apply F| |apply F|].
    - subst l1. destruct (rq =? 1); [|apply F].
      apply not_elem_of_cons. split; [congruence|apply F].
    - intros i Hi. rewrite Htab by done. by apply F. }
  assert (tab (ram s1) d (PDX va) = Some t) as Ht1 by (by rewrite Htab by apply PDX_range).
  eapply wp_mono; [by apply (wp_insert_tail s1 l1 d va t pp r perm)|].
  intros res s2 (-> & W2 & D2 & Ec & Ep & Hl2 & _). split; [done|]. exists l1. split; auto.
  - intros va' _ Hs'. rewrite Hl2, Hl1 by done. by destruct (same_page va va').
  - intros q' rq' Fq'. apply (refs_bump s1); [done|done| |congruence].
    intros Hq'. unfold refs. rewrite Hq. case_bool_decide as Eq; simplify_eq; simpl.
    + rewrite Href. destruct Fq as [Fq _ _ _], Fq' as [Fq' _ _ _]. simplify_eq. done.
    + rewrite Hpg by congruence. rewrite (fr_page _ _ _ _ _ Fq'). simpl. f_equal. lia.
  - rewrite Hq, bool_decide_eq_false_2 by congruence. rewrite Ec. simpl. eauto.
Qed.

Lemma wp_insert_empty :
  vm_page (ram s) d va = None ->
  wp (page_insert garbage (dirp d) pp va perm) s (fun res s' =>
    res = 0 /\ exists l', inserted s l d va pp perm s' l').
Proof.
  intros Hq. apply wp_insert_prefix. cbv zeta.
  assert (present (rd32 (ram s) (t * 4096 + 4 * PTX va)) = false) as ->.
  { unfold vm_page, vm_lookup in Hq. rewrite Ht in Hq. by destruct (present _). }
  cbn [andb when]. wp_step. wp_step.
  eapply wp_mono; [by apply (wp_insert_tail s l d va t pp r perm)|].
  intros res s2 (-> & W2 & D2 & Ec & Ep & Hl2 & _). split; [done|]. exists l. split; auto.
  - intros q' rq' Fq'. apply (refs_bump s); [done|done| |congruence].
    intros _. unfold refs. rewrite Hq, (fr_page _ _ _ _ _ Fq'). simpl. f_equal. lia.
  - rewrite Hq, bool_decide_eq_false_2 by congruence. rewrite Ec. simpl. eauto.
Qed.

Lemma wp_insert_found :
  wp (page_insert garbage (dirp d) pp va perm) s (fun res s' =>
    res = 0 /\ exists l', inserted s l d va pp perm s' l').
Proof.
  destruct (vm_page (ram s) d va) as [q|] eqn:Hq; [|by apply wp_insert_empty].
  destruct (decide (q = pp)) as [->|]; [by apply wp_insert_same|by eapply wp_insert_replace].
Qed.
End InsertProofs.

(** [page_insert] begins with the walk: once the table is there, walking again
    changes nothing. *)
Lemma page_insert_after_walk garbage s s1 l1 d va t pp perm :
  mm_wf s1 l1 -> dir_wf s1 l1 d -> PDX va <> SELF -> tab (ram s1) d (PDX va) = Some t ->
  pgdir_walk (dirp d) va 1 s = Ret (Some (t * 4096 + 4 * PTX va + KERNBASE)) s1 ->
  page_insert garbage (dirp d) pp va perm s = page_insert garbage (dirp d) pp va perm s1.
Proof.
  intros W D Hs Ht E. unfold page_insert. unfold mbind at 1 9, M_bind at 1 9.
  rewrite E. by rewrite (pgdir_walk_hit s1 l1 d W D va t 1 Hs Ht).
Qed.

(** A step that maps nothing new in between. *)
Lemma inserted_step s l d va pp perm s1 l1 s' l' :
  0 <= va < 4294967296 -> PDX va <> SELF ->
  step_vm s l d s1 l1 (vm_lookup (ram s) d) ->
  inserted s1 l1 d va pp perm s' l' -> inserted s l d va pp perm s' l'.
Proof.
  intros Hva Hs S I.
  assert (vm_page (ram s1) d va = vm_page (ram s) d va) as E.
  { unfold vm_page. by rewrite (sv_lookup _ _ _ _ _ _ S). }
  split.
  - apply I.
  - apply I.
  - intros va' Hv' Hs'. rewrite (ins_lookup _ _ _ _ _ _ _ _ I) by done.
    by rewrite (sv_lookup _ _ _ _ _ _ S).
  - intros q rq Fq. rewrite <- E. apply (ins_refs _ _ _ _ _ _ _ _ I). by eapply frame_step.
  - pose proof (ins_tlb _ _ _ _ _ _ _ _ I) as Ht. rewrite E in Ht.
    case_bool_decide; [|done]. by rewrite Ht, (sv_cfg _ _ _ _ _ _ S).
Qed.

Lemma mapped_ok_step s l d va s1 l1 :
  0 <= va < 4294967296 -> PDX va <> SELF ->
  step_vm s l d s1 l1 (vm_lookup (ram s) d) -> mapped_ok s l d va -> mapped_ok s1 l1 d va.
Proof.
  intros Hva Hs S H q Hq. destruct (H q) as (rq & Fq & Hrq).
  - revert Hq. unfold vm_page. by rewrite (sv_lookup _ _ _ _ _ _ S).
  - exists rq. split; [by eapply frame_step|done].
Qed.

(** ** Properties *)

(** C15: [boot_map_region] maps exactly the [size / PGSIZE] pages from [va] on to
    the frames from [pa] on with the given permissions, and no other address of
    the directory changes; it terminates, takes tables only from the free list,
    and leaves page records and memory outside the directory and its tables as
    they were.  There have to be enough free pages for the missing tables. *)
Theorem boot_map_region_maps s l d va size pa perm n lo hi :
  mm_wf s l -> dir_wf s l d -> 0 <= perm < 4096 -> size / 4096 = Z.of_nat n ->
  0 <= va -> va + Z.of_nat n * 4096 <= 4294967296 ->
  0 <= pa -> pa + Z.of_nat n * 4096 <= 4294967296 ->
  0 <= lo -> hi < 1024 -> hi < SELF \/ SELF < lo ->
  lo * 4194304 <= va -> va + Z.of_nat n * 4096 <= (hi + 1) * 4194304 ->
  (missing (ram s) d lo hi <= length l)%nat ->
  wp (boot_map_region (dirp d) va size pa perm) s (fun _ s' => exists l',
    step_vm s l d s' l' (map_range va n pa perm (vm_lookup (ram s) d))).
Proof.
  intros. eapply wp_mono; [apply (wp_boot_map_region d perm (seqZ lo (hi - lo + 1))); try done|].
  { by apply slots_range. }
  { apply (slots_in_range _ _ lo hi); try done. intros i Hi. apply elem_of_seqZ. lia. }
  intros _ s' (l' & _ & S). eauto.
Qed.

(** C14: [page_insert] of a page into a well-formed directory, outside the self map,
    when the uninitialised local of page_remove, which replacing a mapping calls,
    does not hold zero (it faults otherwise).  Without a table for [va] and without
    a free page it returns -E_NO_MEM and changes no page and no word.  Otherwise it
    returns 0, [va] maps to [pp] with the given permissions, no other address
    changes, and every frame's reference count is the number of its mappings again:
    plus one for [pp], minus one for the page mapped before, so that inserting the
    same page again changes no count (and, against the comment above the function,
    does not touch the TLB). *)
Theorem page_insert_spec s l d va pp r perm garbage :
  mm_wf s l -> dir_wf s l d -> 0 <= va < 4294967296 -> PDX va <> SELF ->
  frame s l d pp r -> 0 <= r < 65535 -> 0 <= perm < 4096 -> garbage <> 0 ->
  mapped_ok s l d va ->
  wp (page_insert garbage (dirp d) pp va perm) s (fun res s' =>
    match tab (ram s) d (PDX va), l with
    | None, [] => res = - E_NO_MEM /\ mm_wf s' [] /\ pages s' = pages s /\ only_pages s s'
    | _, _ => res = 0 /\ exists l', inserted s l d va pp perm s' l'
    end).
Proof.
  intros W D Hva Hs F Hr Hperm Hg Hold.
  destruct (tab (ram s) d (PDX va)) as [t|] eqn:Ht; [by eapply wp_insert_found|].
  destruct l as [|p l].
  - unfold page_insert, pgdir_walk. wp_step. wp_step. rewrite dirp_slot.
    apply wp_load32; [by eapply pde_word_ok|]. unfold tab in Ht.
    destruct (present _) eqn:Hp; [done|]. unfold present in Hp. rewrite Hp. cbn [negb truth Z.eqb].
    wp_step. eapply wp_eq; [by apply page_alloc_nil|]. cbv beta iota. wp_step. wp_step.
    split; [done|]. split; [by destruct W; split|done].
  - pose proof (wp_pgdir_walk_create s (p :: l) d va [PDX va] W D Hs) as Hw.
    pose proof (PDX_range va). destruct (wp_inv _ _ _ (Hw ltac:(by left)
      ltac:(split; [apply NoDup_singleton|by apply Forall_singleton])
      ltac:(etrans; [apply length_filter|simpl; lia]))) as (a & s1 & E & t & l1 & -> & Ht1 & _ & S).
    unfold wp. rewrite (page_insert_after_walk garbage s s1 l1 d va t pp perm);
      [|apply S|apply S|done|done|done].
    eapply wp_mono; [eapply (wp_insert_found s1 l1 d va t pp r perm garbage); try done|].
    + apply S.
    + apply S.
    + by eapply frame_step.
    + by eapply mapped_ok_step.
    + intros res s' (-> & l' & I). split; [done|]. exists l'. by eapply inserted_step.
Qed.

(** [page_remove] of a mapped page, when the local variable it passes to
    [page_lookup] happens to hold a nonzero value: [va] is unmapped and no other
    address changes, the frame loses one reference and goes back to the free
    list with the last one, and the TLB entry is invalidated. *)
Theorem page_remove_unmaps s l d va e p r garbage :
  mm_wf s l -> dir_wf s l d -> PDX va <> SELF ->
  vm_lookup (ram s) d va = Some e -> PTE_ADDR e = p * 4096 ->
  frame s l d p r -> 1 <= r < 65536 -> garbage <> 0 ->
  wp (page_remove garbage (dirp d) va) s (fun _ s' => exists l', removed s l d va p r s' l').
Proof. intros. by eapply wp_page_remove. Qed.

(** C31: the same call when the uninitialised variable holds zero: [page_lookup]
    does not store the entry's address, and [page_remove] writes through the
    null pointer (the page has lost its reference by then). *)
Theorem page_remove_uninitialised_faults s l d va e p r :
  mm_wf s l -> dir_wf s l d -> PDX va <> SELF ->
  vm_lookup (ram s) d va = Some e -> PTE_ADDR e = p * 4096 ->
  frame s l d p r -> 1 <= r < 65536 ->
  page_remove 0 (dirp d) va s = Stop (Fault "page_remove: *pte with pte null").
Proof. intros. by eapply page_remove_null_faults. Qed.

(** ** Concrete address spaces for the witnesses *)

(** Five pages, 2 and 3 free; page 1 is an empty directory. *)
Definition demo5 : mm_state :=
  after_free 3 (mkPage None 0) (after_free 2 (mkPage None 0) (fresh_mm 5 0 0)).

Lemma demo5_wf : mm_wf demo5 [3; 2].
Proof.
  apply after_free_wf; [|done|done|by intros ?%list_elem_of_singleton].
  apply after_free_wf; [by apply fresh_wf|done|done|apply not_elem_of_nil].
Qed.

Lemma tab_empty d i : tab ∅ d i = None.
Proof. unfold tab, rd32. by rewrite lookup_empty. Qed.

Lemma vm_lookup_empty d va : vm_lookup ∅ d va = None.
Proof. unfold vm_lookup. by rewrite tab_empty. Qed.

Ltac not_in_small := rewrite !not_elem_of_cons; repeat split; try lia; apply not_elem_of_nil.

Lemma demo5_dir : dir_wf demo5 [3; 2] 1.
Proof.
  split; [done|not_in_small| |]; intros i; intros; change (ram demo5) with (∅ : gmap Z Z) in *;
    by rewrite tab_empty in *.
Qed.

Lemma demo5_frame : frame demo5 [3; 2] 1 0 0.
Proof.
  split; [done|not_in_small|lia|]. intros i _. change (ram demo5) with (∅ : gmap Z Z).
  by rewrite tab_empty.
Qed.

(** The same with table 4 in slot 1 and page 0 mapped at 4 MB. *)
Definition demo_ram : gmap Z Z := <[4 * 4096 := 7]> (<[4096 + 4 := 4 * 4096 + 7]> ∅).
Definition demo_map : mm_state :=
  set_ram demo_ram (set_pages (<[0 := mkPage None 1]> (pages demo5)) demo5).

Lemma demo_map_wf : mm_wf demo_map [3; 2].
Proof.
  assert (mm_wf (set_pages (<[0 := mkPage None 1]> (pages demo5)) demo5) [3; 2]) as W.
  { eapply set_pages_wf; [apply demo5_wf|not_in_small|reflexivity]. }
  pose proof (set_ram_insert_wf _ _ 4100 16391 W ltac:(lia)) as W1.
  exact (set_ram_insert_wf _ _ 16384 7 W1 ltac:(lia)).
Qed.

Lemma demo_map_tab i t : 0 <= i < 1024 -> tab demo_ram 1 i = Some t -> i = 1 /\ t = 4.
Proof.
  intros Hi. unfold demo_ram. rewrite tab_insert_ne by lia.
  destruct (decide (i = 1)) as [->|].
  - vm_compute. by intros [= <-].
  - rewrite tab_insert_ne by lia. by rewrite tab_empty.
Qed.

Lemma demo_map_dir : dir_wf demo_map [3; 2] 1.
Proof.
  split; [done|not_in_small| |].
  - intros i t Hi _ [-> ->]%demo_map_tab; [|done]. split; [by vm_compute|]. split; [not_in_small|lia].
  - intros i j t Hi Hj _ _ [-> _]%demo_map_tab [-> _]%demo_map_tab; done.
Qed.

Lemma demo_map_frame : frame demo_map [3; 2] 1 0 1.
Proof.
  split; [done|not_in_small|lia|]. by intros i Hi [_ ?]%demo_map_tab.
Qed.

Lemma boot_map_region_maps_witness :
  wp (boot_map_region (dirp 1) 4194304 8192 0 PTE_W) demo5
     (fun _ s' => vm_lookup (ram s') 1 4198400 = Some (4096 + 3)
                  /\ vm_lookup (ram s') 1 4202496 = None).
Proof.
  eapply wp_mono.
  - apply (boot_map_region_maps demo5 [3; 2] 1 4194304 8192 0 PTE_W 2 1 1);
      try exact demo5_wf; try exact demo5_dir; try reflexivity; try (vm_compute; intuition congruence).
    etrans; [apply missing_one|]. simpl. lia.
  - intros _ s' (l' & S). rewrite !(sv_lookup _ _ _ _ _ _ S); by vm_compute.
Defined.

Lemma page_insert_spec_witness :
  wp (page_insert 1 (dirp 1) 0 4194304 PTE_W) demo5
     (fun res s' => res = 0 /\ vm_lookup (ram s') 1 4194304 = Some 3 /\ refs s' 0 = Some 1).
Proof.
  eapply wp_mono.
  - apply (page_insert_spec demo5 [3; 2] 1 4194304 0 0 PTE_W 1);
      [exact demo5_wf|exact demo5_dir|lia|done|exact demo5_frame|lia|done|done|].
    intros q Hq. exfalso. revert Hq. unfold vm_page. by rewrite vm_lookup_empty.
  - change (ram demo5) with (∅ : gmap Z Z). rewrite tab_empty. cbv iota.
    intros res s' (-> & l' & I). split; [done|]. split.
    + by rewrite (ins_lookup _ _ _ _ _ _ _ _ I).
    + rewrite (ins_refs _ _ _ _ _ _ _ _ I 0 0 demo5_frame).
      change (ram demo5) with (∅ : gmap Z Z). unfold vm_page. by rewrite vm_lookup_empty.
Defined.

Lemma page_remove_unmaps_witness :
  wp (page_remove 1 (dirp 1) 4194304) demo_map
     (fun _ s' => vm_lookup (ram s') 1 4194304 = None /\ mm_wf s' [0; 3; 2]).
Proof.
  eapply wp_mono.
  - apply (page_remove_unmaps demo_map [3; 2] 1 4194304 7 0 1 1);
      [exact demo_map_wf|exact demo_map_dir|done|by vm_compute|done|exact demo_map_frame|lia|lia].
  - intros _ s' (l' & R). rewrite (rm_lookup _ _ _ _ _ _ _ _ R) by done. split; [done|].
    pose proof (rm_wf _ _ _ _ _ _ _ _ R) as H. by rewrite (rm_list _ _ _ _ _ _ _ _ R) in H.
Defined.

Lemma page_remove_uninitialised_faults_witness :
  page_remove 0 (dirp 1) 4194304 demo_map = Stop (Fault "page_remove: *pte with pte null").
Proof.
  apply (page_remove_uninitialised_faults demo_map [3; 2] 1 4194304 7 0 1);
    [exact demo_map_wf|exact demo_map_dir|done|by vm_compute|done|exact demo_map_frame|lia].
Defined.
