(* ===== verification/Kvm.v ===== *)
(** * The kernel part of an address space

    What [setupkvm] and [mem_init_mp] of kernel/mem.c build, from the theorem on
    one [boot_map_region] in Paging.v: a fresh directory that maps the page array,
    the physical memory, the I/O hole, the kernel stacks and the local APIC, and
    nothing else.  Sixty-nine free pages are enough: the directory and one table for
    each of the sixty-eight slots involved. *)

From S2P Require Import Prelude.
From S2P Require Import Machine.
From S2P Require Import Kmonad.
From S2P Require Import Spinlock.
From S2P Require Import PageAlloc.
From S2P Require Import Paging.
From Stdlib Require Import ZArith Lia.
From stdpp Require Import base gmap list strings.

Local Open Scope Z_scope.

(** The slots of the directory that the kernel's mappings use. *)
Definition kvm_slots : list Z := [PDX UPAGES; PDX IOPHYSMEM; PDX (KSTACKTOP - 1); PDX MMIOBASE] ++ seqZ 960 64.

Lemma kvm_slots_ok : slots kvm_slots.
Proof.
  split.
  - apply (bool_decide_unpack _). by vm_compute.
  - apply (bool_decide_unpack _). by vm_compute.
Qed.

(** ** Chains of mappings *)

(** From [s0] with free pages [l0], directory [d] maps as [f] says, and there are
    pages left for the tables still missing. *)
Definition mapping (s0 : mm_state) (l0 : list Z) (d : Z) (s : mm_state) (f : Z -> option Z) : Prop :=
  exists l, step_vm s0 l0 d s l f /\ (missing_in (ram s) d kvm_slots <= length l)%nat
            /\ spends kvm_slots d s0 l0 s l.

Lemma map_range_ext va n pa perm f g x : f x = g x -> map_range va n pa perm f x = map_range va n pa perm g x.
Proof. unfold map_range. by intros ->. Qed.

(** One more region. *)
Lemma wp_map_next s0 l0 d s f va size pa perm n lo hi :
  mapping s0 l0 d s f -> 0 <= perm < 4096 -> size / 4096 = Z.of_nat n ->
  0 <= va -> va + Z.of_nat n * 4096 <= 4294967296 ->
  0 <= pa -> pa + Z.of_nat n * 4096 <= 4294967296 ->
  lo * 4194304 <= va -> va + Z.of_nat n * 4096 <= (hi + 1) * 4194304 ->
  hi < SELF \/ SELF < lo -> (forall i, lo <= i <= hi -> i ∈ kvm_slots) ->
  wp (boot_map_region (dirp d) va size pa perm) s (fun _ s' => mapping s0 l0 d s' (map_range va n pa perm f)).
Proof.
  intros (l & S & Hm & Ha) Hperm Hsz H1 H2 H3 H4 H5 H6 H7 Hin.
  eapply wp_mono; [apply (wp_boot_map_region d perm kvm_slots Hperm kvm_slots_ok s l va size pa n);
    try done; try apply S; by apply (slots_in_range _ _ lo hi)|].
  intros u s' (l' & Hm' & S'). exists l'. split; [|split; [destruct Hm'; lia|by eapply spends_trans] ].
  eapply step_vm_ext; [|eapply step_vm_trans; [exact S|exact S'] ].
  intros x Hx Hxs. apply map_range_ext. by apply (sv_lookup _ _ _ _ _ _ S).
Qed.

(** ** The regions *)

Section Regions.
Context (s0 : mm_state) (l0 : list Z) (d : Z) (s : mm_state) (f : Z -> option Z).
Context (Hmap : mapping s0 l0 d s f).

Lemma wp_map_upages np pgs_pa perm :
  0 <= perm < 4096 -> 0 <= np <= 65536 -> 0 <= pgs_pa -> pgs_pa + np * 8 <= 4294963200 ->
  wp (boot_map_region (dirp d) UPAGES (ROUNDUP (u32 (sizeof_PageInfo * np)) PGSIZE) pgs_pa perm) s
    (fun _ s' => mapping s0 l0 d s' (map_range UPAGES (Z.to_nat ((np * 8 + 4095) / 4096)) pgs_pa perm f)).
Proof.
  intros Hpe Hn Hp Hp'. unfold sizeof_PageInfo. rewrite u32_small, ROUNDUP_spec by lia.
  replace (8 * np) with (np * 8) by lia.
  assert (0 <= (np * 8 + 4095) / 4096 <= 128 /\ (np * 8 + 4095) / 4096 * 4096 <= np * 8 + 4095) as [Hk Hk']
    by (Z.to_euclidean_division_equations; lia).
  set (k := (np * 8 + 4095) / 4096) in *.
  apply (wp_map_next s0 l0 d s f _ _ _ _ _ 956 956 Hmap); rewrite ?Z2Nat.id by lia;
    change UPAGES with (956 * 4194304); try lia; try done.
  - by apply Z.div_mul.
  - left. by vm_compute.
  - intros i Hi. assert (i = 956) as -> by lia. by left.
Qed.

Lemma wp_map_kern :
  wp (boot_map_region (dirp d) KERNBASE KERN_MAP_SIZE 0 PTE_W) s
    (fun _ s' => mapping s0 l0 d s' (map_range KERNBASE (Z.to_nat 65536) 0 PTE_W f)).
Proof.
  apply (wp_map_next s0 l0 d s f _ _ _ _ _ 960 1023 Hmap); rewrite ?Z2Nat.id by lia;
    change KERNBASE with (960 * 4194304); try lia; try done.
  - right. by vm_compute.
  - intros i Hi. unfold kvm_slots. apply elem_of_app. right. apply elem_of_seqZ. lia.
Qed.

Lemma wp_map_io perm :
  0 <= perm < 4096 ->
  wp (boot_map_region (dirp d) IOPHYSMEM (ROUNDUP (EXTPHYSMEM - IOPHYSMEM) PGSIZE) IOPHYSMEM perm) s
    (fun _ s' => mapping s0 l0 d s' (map_range IOPHYSMEM 96 IOPHYSMEM perm f)).
Proof.
  intros Hpe.
  apply (wp_map_next s0 l0 d s f _ _ _ _ _ 0 0 Hmap); unfold IOPHYSMEM; try lia; try done.
  - left. by vm_compute.
  - intros i Hi. assert (i = 0) as -> by lia. right. by left.
Qed.

Lemma wp_map_lapic va pa perm :
  MMIOBASE <= va -> va + 4096 <= MMIOLIM -> 0 <= pa <= 4294963200 -> 0 <= perm < 4096 ->
  wp (boot_map_region (dirp d) va (ROUNDUP 4096 PGSIZE) pa perm) s
    (fun _ s' => mapping s0 l0 d s' (map_range va 1 pa perm f)).
Proof.
  change MMIOBASE with (958 * 4194304). change MMIOLIM with (959 * 4194304). intros H1 H2 H3 H4.
  apply (wp_map_next s0 l0 d s f _ _ _ _ _ 958 958 Hmap); try lia; try done.
  - right. by vm_compute.
  - intros i Hi. assert (i = 958) as -> by lia. do 3 right. by left.
Qed.
End Regions.

Section Kvm.
  Context (percpu_kstacks lapic lapicaddr : Z).

(** ** The kernel stacks *)

(** The stack of CPU [i], below a guard gap. *)
Definition kstack_va (i : Z) : Z := KSTACKTOP - i * (KSTKSIZE + KSTKGAP) - KSTKSIZE.
Definition kstack_pa (i : Z) : Z := percpu_kstacks + i * KSTKSIZE - KERNBASE.

(** The stacks of CPUs [i], [i+1], ... mapped over [f]. *)
Fixpoint kstacks_space (n : nat) (i : Z) (f : Z -> option Z) : Z -> option Z :=
  match n with
  | O => f
  | S n' => kstacks_space n' (i + 1) (map_range (kstack_va i) 8 (kstack_pa i) PTE_W f)
  end.

Context (Hst : KERNBASE <= percpu_kstacks) (Hst' : percpu_kstacks + 8 * KSTKSIZE <= 4294967296).

Lemma wp_map_kstacks s0 l0 d n i s f :
  mapping s0 l0 d s f -> 0 <= i -> i + Z.of_nat n <= 8 ->
  wp (map_kstacks percpu_kstacks n (dirp d) i) s (fun _ s' =>
    mapping s0 l0 d s' (kstacks_space n i f)).
Proof.
  revert i s f. induction n as [|n IH]; intros i s f Hm Hi Hn; cbn [map_kstacks kstacks_space].
  - by wp_step.
  - wp_step. unfold KSTKSIZE, PGSIZE in *. apply wp_PADDR; [unfold KERNBASE in *; lia|]. wp_step.
    eapply wp_mono; [apply (wp_map_next s0 l0 d s f _ _ _ _ 8 959 959); try done|].
    + unfold KSTACKTOP, KSTKGAP, PGSIZE, KERNBASE. lia.
    + unfold KSTACKTOP, KSTKGAP, PGSIZE, KERNBASE. lia.
    + unfold KERNBASE in *. lia.
    + unfold KERNBASE in *. lia.
    + unfold KSTACKTOP, KSTKGAP, PGSIZE, KERNBASE. lia.
    + unfold KSTACKTOP, KSTKGAP, PGSIZE, KERNBASE. lia.
    + right. by vm_compute.
    + intros j Hj. assert (j = 959) as -> by lia. do 2 right. by left.
    + intros u s' Hm'. cbv beta in Hm'. apply IH; [exact Hm'|lia|lia].
Qed.

(** ** The whole *)

(** The address space of [setupkvm], for a machine with [np] pages and the page
    array at physical address [pgs_pa]. *)
Definition kvm_space (np pgs_pa : Z) : Z -> option Z :=
  map_range lapic 1 lapicaddr (Z.lor (Z.lor PTE_W PTE_PCD) PTE_PWT)
    (kstacks_space 8 0
      (map_range IOPHYSMEM 96 IOPHYSMEM PTE_W
        (map_range KERNBASE (Z.to_nat 65536) 0 PTE_W
          (map_range UPAGES (Z.to_nat ((np * 8 + 4095) / 4096)) pgs_pa PTE_U (fun _ => None))))).

(** A zeroed directory maps nothing. *)
Lemma zero_dir s l p :
  mm_wf s l -> 0 <= p < npages s -> p ∉ l -> (forall o, 0 <= o < 4096 -> o mod 4 = 0 -> rd32 (ram s) (p * 4096 + o) = 0) ->
  dir_wf s l p /\ (forall i, 0 <= i < 1024 -> tab (ram s) p i = None).
Proof.
  intros W Hp Hl Hz.
  assert (forall i, 0 <= i < 1024 -> tab (ram s) p i = None) as Ht.
  { intros i Hi. unfold tab. by rewrite Hz by (lia || apply word_off_mod). }
  split; [|done]. split; try done.
  - intros i t Hi _ H. by rewrite Ht in H.
  - intros i j t Hi _ _ _ H. by rewrite Ht in H.
Qed.

(** The directory [setupkvm] starts from. *)
Lemma fresh_dir s p l pi :
  mm_wf s (p :: l) -> pages s !! p = Some pi -> (68 <= length l)%nat ->
  let s1 := after_alloc ALLOC_ZERO p pi s in
  mapping s1 l p s1 (fun _ => None) /\ 0 <= p < npages s1 /\ mm_wf s1 l
  /\ forall i, 0 <= i < 1024 -> tab (ram s1) p i = None.
Proof.
  intros W Hpi Hl s1. assert (mm_wf s1 l) as W1 by by eapply after_alloc_wf.
  assert (0 <= p < npages s1) as Hp by (eapply (wf_range s); [exact W|by left]).
  pose proof (wf_nodup s _ W) as [Hnin _]%NoDup_cons.
  destruct (zero_dir s1 l p W1 Hp Hnin) as [D Ht].
  { intros o Ho Hm. apply rd32_zero_page_in; [lia|]. Z.to_euclidean_division_equations. lia. }
  split_and!; [|lia|lia|done|done]. exists l. split.
  - eapply step_vm_ext; [|by apply step_vm_refl]. intros va Hva _. unfold vm_lookup.
    by rewrite Ht by apply PDX_range.
  - split; [|apply spends_refl]. etrans; [apply length_filter|]. done.
Qed.

(** [setupkvm] is one chain of mappings from the zeroed directory. *)
Lemma wp_setupkvm s p l pi :
  mm_wf s (p :: l) -> pages s !! p = Some pi -> (68 <= length l)%nat ->
  KERNBASE <= c_pages_va (cfg s) -> c_pages_va (cfg s) + npages s * 8 <= 4294963200 ->
  MMIOBASE <= lapic -> lapic + 4096 <= MMIOLIM -> 0 <= lapicaddr <= 4294963200 ->
  wp (setupkvm percpu_kstacks lapic lapicaddr) s (fun r s' => r = Some (dirp p) /\
    mapping (after_alloc ALLOC_ZERO p pi s) l p s' (kvm_space (npages s) (c_pages_va (cfg s) - KERNBASE))).
Proof.
  intros W Hpi0 Hl Hpg Hpg' Hla Hla' Hlp. unfold setupkvm. pose proof (wf_npages s _ W) as Hnp.
  destruct (page_alloc_cons s ALLOC_ZERO p l W) as (pi' & Hpi & _ & E). assert (pi' = pi) as -> by congruence.
  wp_step. eapply wp_eq; [exact E|]. set (s1 := after_alloc ALLOC_ZERO p pi s).
  destruct (fresh_dir s p l pi W Hpi Hl) as (M1 & Hp & W1 & Ht). fold s1 in M1, Hp, W1, Ht.
  assert (npages s1 = npages s) as En by done.
  wp_step. apply wp_page2kva; [lia|done|]. do 4 wp_step. wp_step. change (cfg s1) with (cfg s).
  apply wp_PADDR; [unfold KERNBASE in *; lia|]. fold (dirp p). wp_step.
  rewrite En. set (pgs_pa := c_pages_va (cfg s) - KERNBASE) in *.
  eapply wp_mono; [apply (wp_map_upages s1 l p s1 _ M1); [done|unfold pgs_pa, KERNBASE in *; lia..]|].
  intros u2 s2 M2. cbv beta in M2. wp_step.
  eapply wp_mono; [apply (wp_map_kern s1 l p s2 _ M2)|]. intros u3 s3 M3. cbv beta in M3. wp_step.
  eapply wp_mono; [by apply (wp_map_io s1 l p s3 _ M3)|]. intros u4 s4 M4. cbv beta in M4. wp_step.
  eapply wp_mono; [apply (wp_map_kstacks s1 l p (Z.to_nat NCPU) 0 s4 _ M4); done|].
  intros u5 s5 M5. cbv beta in M5. wp_step.
  eapply wp_mono; [apply (wp_map_lapic s1 l p s5 _ M5); done|]. intros u6 s6 M6. cbv beta in M6.
  wp_step. by split.
Qed.

(** The stacks lie in slot 959. *)
Lemma kstacks_space_out n i f x :
  0 <= i -> i + Z.of_nat n <= 8 -> PGNUM x < 959 * 1024 \/ 960 * 1024 <= PGNUM x -> kstacks_space n i f x = f x.
Proof.
  revert i f. induction n as [|n IH]; intros i f Hi Hn Hx; cbn [kstacks_space]; [done|].
  rewrite IH by lia. apply map_range_out. unfold kstack_va.
  replace (KSTACKTOP - i * (KSTKSIZE + KSTKGAP) - KSTKSIZE) with ((959 * 1024 + (1016 - 16 * i)) * 4096 + 0)
    by (unfold KSTACKTOP, KSTKSIZE, KSTKGAP, PGSIZE, KERNBASE; lia).
  rewrite PGNUM_page by lia. lia.
Qed.

(** Nothing is mapped in the slot of UVPT. *)
Lemma kvm_space_self np pgs_pa va :
  np <= 65536 -> MMIOBASE <= lapic -> lapic + 4096 <= MMIOLIM -> 0 <= va < 4294967296 -> PDX va = SELF ->
  kvm_space np pgs_pa va = None.
Proof.
  intros Hnp Hla Hla' Hva Hs. rewrite PDX_spec in Hs. change SELF with 957 in Hs. unfold kvm_space.
  assert (957 * 1024 <= PGNUM va < 958 * 1024) as E by (rewrite PGNUM_div; Z.to_euclidean_division_equations; lia).
  assert (958 * 1024 <= PGNUM lapic) as El.
  { change MMIOBASE with (958 * 4194304) in Hla. rewrite PGNUM_div. Z.to_euclidean_division_equations. lia. }
  rewrite map_range_out by lia. rewrite kstacks_space_out by lia.
  rewrite map_range_out by (change (PGNUM IOPHYSMEM) with 160; lia).
  rewrite map_range_out by (change (PGNUM KERNBASE) with (960 * 1024); lia).
  rewrite map_range_out; [done|]. right. change (PGNUM UPAGES) with (956 * 1024).
  Z.to_euclidean_division_equations. lia.
Qed.

(** C18: [setupkvm] with sixty-nine free pages returns a new directory whose address
    space is exactly: the array of pages, readable for users, at UPAGES; all
    physical memory at KERNBASE; the I/O hole at its own address; eight kernel stacks
    with unmapped gaps below KSTACKTOP; the local APIC's page, uncached.  No other
    address is mapped, and page records and memory outside the pages taken from the
    free list do not change. *)
Theorem setupkvm_maps s p l :
  mm_wf s (p :: l) -> (68 <= length l)%nat ->
  KERNBASE <= c_pages_va (cfg s) -> c_pages_va (cfg s) + npages s * 8 <= 4294963200 ->
  MMIOBASE <= lapic -> lapic + 4096 <= MMIOLIM -> 0 <= lapicaddr <= 4294963200 ->
  wp (setupkvm percpu_kstacks lapic lapicaddr) s (fun r s' =>
    r = Some (dirp p) /\ exists l', mm_wf s' l' /\ dir_wf s' l' p /\ cfg s' = cfg s
      /\ (forall va, 0 <= va < 4294967296 ->
            vm_lookup (ram s') p va = kvm_space (npages s) (c_pages_va (cfg s) - KERNBASE) va)
      /\ (forall q, q ∉ p :: l -> pages s' !! q = pages s !! q)
      /\ (forall q o, q ∉ p :: l -> 0 <= o < 4096 ->
            rd32 (ram s') (q * 4096 + o) = rd32 (ram s) (q * 4096 + o))).
Proof.
  intros W Hl Hpg Hpg' Hla Hla' Hlp. destruct (page_alloc_cons s ALLOC_ZERO p l W) as (pi & Hpi & _).
  destruct (fresh_dir s p l pi W Hpi Hl) as (_ & _ & _ & Ht).
  eapply wp_mono; [by apply (wp_setupkvm s p l pi)|]. intros r s' [-> (l6 & S & _)]. split; [done|]. exists l6.
  split; [exact (sv_wf _ _ _ _ _ _ S)|]. split; [exact (sv_dir _ _ _ _ _ _ S)|].
  split; [by rewrite (sv_cfg _ _ _ _ _ _ S)|]. split; [|split].
  - intros va Hva. destruct (decide (PDX va = SELF)) as [E|Hs]; [|by apply (sv_lookup _ _ _ _ _ _ S)].
    rewrite kvm_space_self by (done || (pose proof (wf_npages s _ W); lia)).
    unfold vm_lookup. by rewrite E, (sv_self _ _ _ _ _ _ S), Ht by done.
  - intros q [Hq1 Hq2]%not_elem_of_cons. rewrite (sv_pages _ _ _ _ _ _ S) by done. simpl.
    by rewrite lookup_insert_ne.
  - intros q o [Hq1 Hq2]%not_elem_of_cons Ho.
    rewrite (sv_frame _ _ _ _ _ _ S) by (done || (intros i Hi; by rewrite Ht)).
    by apply rd32_zero_page_out.
Qed.
End Kvm.

(** ** A concrete machine for the witness *)

(** Pages 1 to [n] given back, the last one first in the list. *)
Fixpoint free_up (n : nat) (s : mm_state) : mm_state :=
  match n with O => s | S n' => after_free (Z.of_nat n) (mkPage None 0) (free_up n' s) end.
Fixpoint down_from (n : nat) : list Z :=
  match n with O => [] | S n' => Z.of_nat n :: down_from n' end.

Lemma down_from_elem n p : p ∈ down_from n -> 1 <= p <= Z.of_nat n.
Proof. induction n as [|n IH]; intros Hp; [by apply elem_of_nil in Hp|]. apply elem_of_cons in Hp as [->|?]; lia || (apply IH in H; lia). Qed.

Lemma free_up_pages n s p : Z.of_nat n < p -> pages (free_up n s) !! p = pages s !! p.
Proof. induction n as [|n IH]; intros Hp; [done|]. cbn [free_up pages after_free]. rewrite lookup_insert_ne by lia. apply IH. lia. Qed.

Lemma free_up_wf n s :
  mm_wf s [] -> (forall p, 1 <= p <= Z.of_nat n -> pages s !! p = Some (mkPage None 0)) ->
  mm_wf (free_up n s) (down_from n).
Proof.
  intros W Hp. induction n as [|n IH]; [done|]. cbn [free_up down_from].
  apply after_free_wf; [apply IH; intros; apply Hp; lia| |done|intros ?%down_from_elem; lia].
  rewrite free_up_pages by lia. apply Hp. lia.
Qed.

(** One hundred pages, seventy of them free; the array of pages is in page 80. *)
Definition demo_kvm : mm_state :=
  free_up 70 (upd_cfg (fun c => mkCfg (c_npages c) 0 0 0 (KERNBASE + 80 * 4096) MMIOBASE 0 0 (c_ctx c) [] [])
                (fresh_mm 100 0 0)).

Lemma demo_kvm_wf : mm_wf demo_kvm (down_from 70).
Proof.
  apply free_up_wf.
  - by apply upd_cfg_wf; [by apply fresh_wf|].
  - intros p Hp. cbn [pages upd_cfg fresh_mm]. rewrite lookup_zero_pages. by rewrite bool_decide_true by lia.
Qed.

(** On that machine the directory is page 70, and the first page of the first
    kernel stack is mapped where the model of the address space says, with a gap below. *)
Lemma setupkvm_maps_witness :
  wp (setupkvm (KERNBASE + 0x10000) MMIOBASE 0xFEE00000) demo_kvm (fun r s' =>
    r = Some (dirp 70) /\ vm_lookup (ram s') 70 (KSTACKTOP - KSTKSIZE) = Some (0x10000 + PTE_W + PTE_P)
    /\ vm_lookup (ram s') 70 (KSTACKTOP - KSTKSIZE - 1) = None).
Proof.
  eapply wp_mono; [apply (setupkvm_maps (KERNBASE + 0x10000) MMIOBASE 0xFEE00000) with (l := down_from 69);
    [by vm_compute|by vm_compute|exact demo_kvm_wf|by vm_compute; lia|by vm_compute|by vm_compute|by vm_compute|by vm_compute|by vm_compute]|].
  intros r s' (-> & l' & _ & _ & _ & Hlk & _). split; [done|].
  rewrite !Hlk by (by vm_compute). by vm_compute.
Defined.
