(* ===== verification/Space.v ===== *)
(** * Ownership of the pages of an address space

    An address space owns its directory, the pages of its tables and the frames
    of the user stack ([own]).  The operations that build and take down address
    spaces (kernel/mem.c: [setupkvm], [page_insert], [page_remove],
    [ptable_remove], [pgdir_remove]) move pages between the free list and that
    set, and lose none: [evolve] says so, and that pages of nobody else are
    touched. *)

From S2P Require Import Prelude.
From S2P Require Import Machine.
From S2P Require Import Kmonad.
From S2P Require Import Spinlock.
From S2P Require Import PageAlloc.
From S2P Require Import Paging.
From S2P Require Import Kvm.
From Stdlib Require Import ZArith Lia.
From stdpp Require Import base gmap list strings.

Local Open Scope Z_scope.

(** Permissions of a page of the user stack. *)
Definition PTE_UW : Z := Z.lor PTE_W PTE_U.

(** ** Address spaces *)

(** Directory [d] and the user pages [fm]: pairs of an address and the frame
    mapped there. *)
Record space (s : mm_state) (l : list Z) (d : Z) (fm : list (Z * Z)) : Prop := {
  sp_dir : dir_wf s l d;
  sp_self : tab (ram s) d SELF = None;
  sp_rec : pages s !! d = Some (mkPage None 0);
  sp_tabs : forall i t, 0 <= i < 1024 -> tab (ram s) d i = Some t -> pages s !! t = Some (mkPage None 1);
  sp_map : forall va f, (va, f) ∈ fm -> vm_lookup (ram s) d va = Some (insert_entry f PTE_UW);
  sp_frame : forall va f, (va, f) ∈ fm -> frame s l d f 1;
  sp_nodup : NoDup fm.*2;
  sp_vas : forall va f, (va, f) ∈ fm -> 0 <= va < 4294967296 /\ PDX va <> SELF
}.

(** The pages the space owns. *)
Definition own (s : mm_state) (d : Z) (fm : list (Z * Z)) : list Z := d :: tables (ram s) d ++ fm.*2.

#[global] Arguments own : simpl never.

Lemma own_cons s d fm va f : own s d ((va, f) :: fm) ≡ₚ f :: own s d fm.
Proof. unfold own. rewrite fmap_cons. by rewrite <- Permutation_middle, Permutation_swap. Qed.

(** Records and words of the pages outside [P] stay. *)
Definition outside (P : list Z) (s s' : mm_state) : Prop :=
  forall q, q ∉ P -> pages s' !! q = pages s !! q
    /\ forall o, 0 <= o < 4096 -> rd32 (ram s') (q * 4096 + o) = rd32 (ram s) (q * 4096 + o).

#[global] Instance outside_preorder P : PreOrder (outside P).
Proof.
  split; [by intros s q Hq|]. intros x y z H1 H2 q Hq. destruct (H1 q Hq) as [E1 F1], (H2 q Hq) as [E2 F2].
  split; [congruence|]. intros o Ho. by rewrite F2, F1.
Qed.

Lemma outside_mono P P' s s' : (forall q, q ∈ P -> q ∈ P') -> outside P s s' -> outside P' s s'.
Proof. intros H HO q Hq. apply HO. by intros ?%H. Qed.

(** What the operations on an address space never change. *)
Definition layout (s : mm_state) : Z * Z * Z * cpu_ctx :=
  (npages s, c_pages_va (cfg s), kern_pgdir s, c_ctx (cfg s)).

Lemma layout_ctx s s' : layout s' = layout s -> c_ctx (cfg s') = c_ctx (cfg s).
Proof. unfold layout. intros [= _ _ _ H]. exact H. Qed.

Section Space.
Context (s : mm_state) (l : list Z) (d : Z) (fm : list (Z * Z)).
  Hypotheses (W : mm_wf s l) (Sp : space s l d fm).

Lemma space_tab i t : 0 <= i < 1024 -> tab (ram s) d i = Some t -> 0 <= t < npages s /\ (t ∉ l) /\ t <> d.
Proof.
  intros Hi Ht. apply (dw_tab _ _ _ (sp_dir _ _ _ _ Sp) i t Hi); [|done].
  intros ->. by rewrite (sp_self _ _ _ _ Sp) in Ht.
Qed.

Lemma tables_nodup : NoDup (tables (ram s) d).
Proof.
  apply tables_inj. intros i j t Hi Hj H1 H2.
  apply (dw_inj _ _ _ (sp_dir _ _ _ _ Sp) i j t); [done|done| | |done|done].
  - intros ->. by rewrite (sp_self _ _ _ _ Sp) in H1.
  - intros ->. by rewrite (sp_self _ _ _ _ Sp) in H2.
Qed.

(** Owned pages are owned once and are not free. *)
Lemma own_nodup : NoDup (own s d fm ++ l).
Proof.
  assert (forall f, f ∈ fm.*2 -> frame s l d f 1) as Hf.
  { intros f ([va f'] & -> & Hin)%list_elem_of_fmap. by eapply (sp_frame _ _ _ _ Sp va). }
  apply NoDup_app. split_and!; [|intros q Hq|apply W].
  - apply NoDup_cons. split.
    + rewrite elem_of_app. intros [(i & Hi & Ht)%tables_elem|H%Hf].
      * by destruct (space_tab i d Hi Ht) as (_ & _ & ?).
      * by destruct H.
    + apply NoDup_app. split_and!; [apply tables_nodup|intros t (i & Hi & Ht)%tables_elem Hin%Hf|apply Sp].
      by apply (fr_tab _ _ _ _ _ Hin i).
  - unfold own in Hq. rewrite elem_of_cons, elem_of_app in Hq. destruct Hq as [->|[ (i & Hi & Ht)%tables_elem|H%Hf] ].
    + apply (dw_live _ _ _ (sp_dir _ _ _ _ Sp)).
    + by destruct (space_tab i q Hi Ht) as (_ & ? & _).
    + apply H.
Qed.

Lemma own_not_free q : q ∈ own s d fm -> q ∉ l.
Proof. pose proof own_nodup as (_ & H & _)%NoDup_app. auto. Qed.

(** A state that keeps the owned pages as they are: tables and mappings stay. *)
Lemma outside_lookup P s' :
  outside P s s' -> (forall q, q ∈ own s d fm -> q ∉ P) ->
  (forall i, 0 <= i < 1024 -> tab (ram s') d i = tab (ram s) d i)
  /\ (forall va, vm_lookup (ram s') d va = vm_lookup (ram s) d va).
Proof.
  intros HO HP. assert (forall i, 0 <= i < 1024 -> tab (ram s') d i = tab (ram s) d i) as Ht.
  { intros i Hi. unfold tab. destruct (HO d) as [_ Hw]; [apply HP; by left|]. by rewrite Hw by lia. }
  split; [done|]. intros va. apply vm_lookup_ext; [apply Ht, PDX_range|].
  intros t Htb. destruct (HO t) as [_ Hw].
  - apply HP. right. apply elem_of_app. left. apply tables_elem. eauto using PDX_range.
  - apply Hw. pose proof (PTX_range va). lia.
Qed.

Lemma space_outside P s' l' :
  outside P s s' -> (forall q, q ∈ own s d fm -> q ∉ P) -> (forall q, q ∈ own s d fm -> q ∉ l') ->
  npages s' = npages s -> space s' l' d fm /\ own s' d fm = own s d fm.
Proof.
  intros HO HP Hl En.
  assert (forall q, q ∈ own s d fm -> pages s' !! q = pages s !! q
    /\ forall o, 0 <= o < 4096 -> rd32 (ram s') (q * 4096 + o) = rd32 (ram s) (q * 4096 + o)) as H.
  { intros q Hq. apply HO. by apply HP. }
  destruct (outside_lookup P s' HO HP) as [Ht Hlk].
  assert (forall i t, 0 <= i < 1024 -> tab (ram s) d i = Some t -> t ∈ own s d fm) as Hto.
  { intros i t Hi Hti. right. apply elem_of_app. left. apply tables_elem. eauto. }
  assert (forall va f, (va, f) ∈ fm -> f ∈ own s d fm) as Hfo.
  { intros va f Hf. right. apply elem_of_app. right. apply list_elem_of_fmap. by exists (va, f). }
  split; [|unfold own; by rewrite (tables_ext (ram s))]. pose proof Sp as [D S1 S2 S3 S4 S5 S6 S7]. split.
  - destruct D as [D1 D2 D3 D4]. split; rewrite ?En; [done|apply Hl; by left| |].
    + intros i t Hi Hs. rewrite Ht by done. intros Hti. destruct (D3 i t Hi Hs Hti) as (? & _ & ?).
      split; [done|]. split; [|done]. apply Hl. by eapply Hto.
    + intros i j t Hi Hj. rewrite !Ht by done. by apply D4.
  - rewrite Ht; [done|]. by vm_compute.
  - destruct (H d) as [-> _]; [by left|done].
  - intros i t Hi. rewrite Ht by done. intros Hti. destruct (H t) as [-> _]; [by eapply Hto|by eapply S3].
  - intros va f Hf. rewrite Hlk. by apply S4.
  - intros va f Hf. destruct (S5 va f Hf) as [F1 F2 F3 F4]. split; [|by apply Hl, (Hfo va)|done|].
    + destruct (H f) as [-> _]; [by eapply Hfo|done].
    + intros i Hi. rewrite Ht by done. by apply F4.
  - done.
  - done.
Qed.
End Space.

(** ** Steps of one space *)

(** From [s] with free pages [l] to [s'] with free pages [l']: the space of [d] has
    the user pages [fm'] instead of [fm]; owned and free pages together are the
    same pages as before, and nothing else is touched. *)
Record evolve (s : mm_state) (l : list Z) (d : Z) (fm : list (Z * Z))
    (s' : mm_state) (l' : list Z) (fm' : list (Z * Z)) : Prop := {
  ev_wf : mm_wf s' l';
  ev_space : space s' l' d fm';
  ev_acct : own s' d fm' ++ l' ≡ₚ own s d fm ++ l;
  ev_out : outside (own s d fm ++ l) s s';
  ev_layout : layout s' = layout s
}.

Lemma evolve_refl s l d fm : mm_wf s l -> space s l d fm -> evolve s l d fm s l fm.
Proof. by split. Qed.

Lemma evolve_trans s l d fm s1 l1 fm1 s2 l2 fm2 :
  evolve s l d fm s1 l1 fm1 -> evolve s1 l1 d fm1 s2 l2 fm2 -> evolve s l d fm s2 l2 fm2.
Proof.
  intros [] []. split; [done|done|by etrans| |congruence].
  etrans; [done|]. eapply outside_mono; [|done]. intros q. by rewrite ev_acct0.
Qed.

(** Another space that shares nothing with the first one is not affected. *)
Lemma evolve_other s l d fm s' l' fm' d2 fm2 :
  evolve s l d fm s' l' fm' -> mm_wf s l -> space s l d2 fm2 ->
  (forall q, q ∈ own s d2 fm2 -> q ∉ own s d fm) ->
  space s' l' d2 fm2 /\ own s' d2 fm2 = own s d2 fm2.
Proof.
  intros E W S2 Hd. assert (forall q, q ∈ own s d2 fm2 -> q ∉ own s d fm ++ l) as H.
  { intros q Hq. rewrite elem_of_app. intros [?|?]; [by apply (Hd q)|by eapply (own_not_free s l d2 fm2)]. }
  apply (space_outside s l d2 fm2 S2 (own s d fm ++ l)); [apply E|done| |].
  - intros q Hq Hl. apply (H q Hq). rewrite <- (ev_acct _ _ _ _ _ _ _ E). apply elem_of_app. by right.
  - pose proof (ev_layout _ _ _ _ _ _ _ E) as EL. unfold layout in EL. by simplify_eq.
Qed.

(** A chain of mappings that leaves the user pages alone. *)
Lemma evolve_step s l d fm s' l' f :
  space s l d fm -> step_vm s l d s' l' f ->
  (forall va fr, (va, fr) ∈ fm -> f va = vm_lookup (ram s) d va) ->
  evolve s l d fm s' l' fm.
Proof.
  intros Sp S Hf. pose proof Sp as [D S1 S2 S3 S4 S5 S6 S7]. split.
  - apply S.
  - split.
    + apply S.
    + by rewrite (sv_self _ _ _ _ _ _ S).
    + rewrite (sv_pages _ _ _ _ _ _ S); [done|apply D].
    + intros i t Hi H. destruct (sv_recs _ _ _ _ _ _ S i t Hi H) as [H1|H1]; [|done].
      destruct (space_tab s l d fm Sp i t Hi H1) as (_ & Hn & _). rewrite (sv_pages _ _ _ _ _ _ S) by done.
      by eapply S3.
    + intros va fr Hin. destruct (S7 va fr Hin). rewrite (sv_lookup _ _ _ _ _ _ S), (Hf va fr) by done. by apply S4.
    + intros va fr Hin. eapply frame_step; [done|by eapply S5].
    + done.
    + done.
  - unfold own. simpl. rewrite <- !(assoc_L (++)), (comm (++) fm.*2 l'), (comm (++) fm.*2 l), !(assoc_L (++)).
    by rewrite (sv_acct _ _ _ _ _ _ S).
  - intros q Hq. unfold own in Hq. rewrite elem_of_app, elem_of_cons, elem_of_app in Hq. split.
    + apply S. tauto.
    + intros o Ho. apply S; [tauto|tauto| |done]. intros i Hi Ht. apply Hq. left. right. left.
      apply tables_elem. eauto.
  - unfold layout, npages, kern_pgdir. by rewrite (sv_cfg _ _ _ _ _ _ S).
Qed.

(** The words of page [f]. *)
Definition same_words (f : Z) (s s' : mm_state) : Prop :=
  forall o, 0 <= o < 4096 -> rd32 (ram s') (f * 4096 + o) = rd32 (ram s) (f * 4096 + o).

(** Mappings do not change what is in the frames. *)
Lemma step_same_words s l d s' l' f p r : step_vm s l d s' l' f -> frame s l d p r -> same_words p s s'.
Proof. intros S [F1 F2 F3 F4] o Ho. by apply (sv_frame _ _ _ _ _ _ S). Qed.

(** ** A page of the user stack *)

(** A page that is taken from the free list for the space. *)
Lemma alloc_frame s p pi l d fm :
  mm_wf s (p :: l) -> pages s !! p = Some pi -> pp_ref pi = 0 -> space s (p :: l) d fm ->
  let s1 := after_alloc ALLOC_ZERO p pi s in
  mm_wf s1 l /\ space s1 l d fm /\ frame s1 l d p 0 /\ outside [p] s s1 /\ own s1 d fm = own s d fm
  /\ (forall i, 0 <= i < 1024 -> tab (ram s1) d i = tab (ram s) d i)
  /\ (forall va, vm_lookup (ram s1) d va = vm_lookup (ram s) d va).
Proof.
  intros W Hpi Hr Sp s1. assert (mm_wf s1 l) as W1 by by eapply after_alloc_wf.
  assert (outside [p] s s1) as O.
  { intros q Hq%not_elem_of_cons. split.
    - simpl. rewrite lookup_insert_ne; [done|]. intros ->. by destruct Hq.
    - intros o Ho. unfold s1, after_alloc. cbn [ram]. change (truth _) with true. cbv iota.
      apply rd32_zero_page_out; [|done]. by destruct Hq. }
  pose proof (own_not_free s (p :: l) d fm W Sp) as Hfree.
  assert (forall q, q ∈ own s d fm -> q ∉ [p]) as Hnp.
  { intros q Hq ->%list_elem_of_singleton. apply (Hfree p Hq). by left. }
  destruct (outside_lookup s d fm [p] s1 O Hnp) as [Ht Hlk].
  destruct (space_outside s (p :: l) d fm Sp [p] s1 l O) as [Sp1 Eo].
  - done.
  - intros q Hq Hl. apply (Hfree q Hq). by right.
  - done.
  - split_and!; [done|done| |done|done|done|done]. pose proof (wf_nodup _ _ W) as [Hnin _]%NoDup_cons.
    assert (p ∉ own s d fm) as Hno by (intros H%Hfree; apply H; by left).
    split; [simpl; rewrite lookup_insert_eq; by rewrite Hr|done| |].
    + intros ->. apply Hno. by left.
    + intros i Hi Hti. apply Hno. rewrite <- Eo. right. apply elem_of_app. left. apply tables_elem. eauto.
Qed.

Lemma same_page_lookup m d va va' : same_page va va' = true -> vm_lookup m d va' = vm_lookup m d va.
Proof.
  unfold same_page, vm_lookup. intros H. apply andb_prop in H as [H1%Z.eqb_eq H2%Z.eqb_eq].
  by rewrite H1, H2.
Qed.

Section InsertFrame.
Context (s : mm_state) (l : list Z) (d : Z) (fm : list (Z * Z)) (pp va t : Z).
  Hypotheses (W : mm_wf s l) (Sp : space s l d fm) (F : frame s l d pp 0).
  Hypotheses (Hva : 0 <= va < 4294967296) (Hs : PDX va <> SELF) (Hv : vm_lookup (ram s) d va = None)
             (Ht : tab (ram s) d (PDX va) = Some t).

(** The state after the last four statements of [page_insert]. *)
Lemma insert_frame_space s2 :
  mm_wf s2 l -> dir_wf s2 l d -> pages s2 = <[pp := mkPage None 1]> (pages s) ->
  (forall va', PDX va' <> SELF -> vm_lookup (ram s2) d va'
     = if same_page va va' then Some (insert_entry pp PTE_UW) else vm_lookup (ram s) d va') ->
  ram s2 = ram (set_pte s va t (insert_entry pp PTE_UW)) ->
  space s2 l d ((va, pp) :: fm) /\ own s2 d fm = own s d fm /\ outside (pp :: own s d fm) s s2.
Proof.
  intros W2 D2 Ep Hl Er. pose proof Sp as [D S1 S2 S3 S4 S5 S6 S7]. pose proof F as [F1 F2 F3 F4].
  assert (forall i, 0 <= i < 1024 -> tab (ram s2) d i = tab (ram s) d i) as Et.
  { intros i Hi. rewrite Er. exact (set_pte_tab s l d va t _ D Hs Ht i Hi). }
  assert (forall va' f, (va', f) ∈ fm -> f <> pp) as Hne.
  { intros va' f Hin ->. destruct (S5 va' pp Hin) as [H _ _ _]. congruence. }
  split_and!; [split| |].
  - done.
  - rewrite Et; [done|by vm_compute].
  - rewrite Ep, lookup_insert_ne by done. done.
  - intros i ti Hi. rewrite Et by done. intros Hti. rewrite Ep, lookup_insert_ne; [by eapply S3|].
    intros ->. by apply (F4 i).
  - intros va' f [ [= -> ->]|Hin]%elem_of_cons.
    + rewrite Hl by done. unfold same_page. by rewrite !Z.eqb_refl.
    + destruct (S7 va' f Hin) as [_ Hs']. rewrite Hl by done. destruct (same_page va va') eqn:E; [|by apply S4].
      pose proof (S4 va' f Hin) as H. rewrite (same_page_lookup _ _ _ _ E), Hv in H. done.
  - intros va' f Hin. assert (pages s2 !! f = Some (mkPage None 1) /\ (f ∉ l) /\ f <> d
      /\ forall i, 0 <= i < 1024 -> tab (ram s) d i <> Some f) as (H1 & H2 & H3 & H4).
    { apply elem_of_cons in Hin as [ [= -> ->]|Hin].
      - rewrite Ep, lookup_insert_eq. done.
      - destruct (S5 va' f Hin). rewrite Ep, lookup_insert_ne by (intros E; by apply (Hne va' f)). done. }
    split; [done|done|done|]. intros i Hi. rewrite Et by done. by apply H4.
  - simpl. apply NoDup_cons. split; [|done]. intros ([va' f] & -> & Hin)%list_elem_of_fmap.
    by apply (Hne va' f Hin).
  - intros va' f [ [= -> ->]|Hin]%elem_of_cons; [done|by eapply S7].
  - unfold own. by rewrite (tables_ext (ram s)).
  - intros q Hq. apply not_elem_of_cons in Hq as [Hq1 Hq2]. split; [by rewrite Ep, lookup_insert_ne|].
    intros o Ho. rewrite Er. apply set_pte_ram; [|done]. intros ->. apply Hq2. right. apply elem_of_app. left.
    apply tables_elem. exists (PDX va). split; [apply PDX_range|done].
Qed.

Lemma wp_insert_present garbage :
  wp (page_insert garbage (dirp d) pp va PTE_UW) s (fun r s' => r = 0 /\ mm_wf s' l
    /\ space s' l d ((va, pp) :: fm) /\ own s' d fm = own s d fm /\ outside (pp :: own s d fm) s s'
    /\ layout s' = layout s
    /\ (forall i, 0 <= i < 1024 -> tab (ram s') d i = tab (ram s) d i)
    /\ (forall va', PDX va' <> SELF -> vm_lookup (ram s') d va'
          = if same_page va va' then Some (insert_entry pp PTE_UW) else vm_lookup (ram s) d va')
    /\ (forall f r, frame s l d f r -> same_words f s s')).
Proof.
  assert (0 <= PTE_UW < 4096) as Hp by by vm_compute. pose proof (sp_dir _ _ _ _ Sp) as D.
  apply (wp_insert_prefix s l d va t pp 0 PTE_UW garbage W D Hs Ht F). cbv zeta.
  assert (present (rd32 (ram s) (t * 4096 + 4 * PTX va)) = false) as ->.
  { unfold vm_lookup in Hv. rewrite Ht in Hv. by destruct (present _). }
  cbn [andb when]. do 2 wp_step.
  eapply wp_mono; [by apply (wp_insert_tail s l d va t pp 0 PTE_UW)|].
  intros r s2 (-> & W2 & D2 & Ec & Ep & Hl & Er).
  destruct (insert_frame_space s2 W2 D2 Ep Hl Er) as (Sp2 & Eo & O). split_and!; try done.
  - unfold layout, npages, kern_pgdir. by rewrite Ec.
  - intros i Hi. rewrite Er. exact (set_pte_tab s l d va t _ D Hs Ht i Hi).
  - intros f r [_ _ _ F4] o Ho. rewrite Er. apply set_pte_ram; [|done]. intros ->. by apply (F4 (PDX va) (PDX_range va)).
Qed.
End InsertFrame.

Lemma missing_found m d i t : tab m d i = Some t -> missing_in m d [i] = 0%nat.
Proof. intros H. unfold missing_in. rewrite filter_cons_False, filter_nil by congruence. done. Qed.

(** The frame taken before joins the space. *)
Lemma evolve_add s pp pi l d fm va garbage :
  mm_wf s (pp :: l) -> pages s !! pp = Some pi -> pp_ref pi = 0 -> space s (pp :: l) d fm ->
  (missing_in (ram s) d [PDX va] <= length l)%nat ->
  0 <= va < 4294967296 -> PDX va <> SELF -> vm_lookup (ram s) d va = None ->
  wp (page_insert garbage (dirp d) pp va PTE_UW) (after_alloc ALLOC_ZERO pp pi s) (fun r s' =>
    r = 0 /\ exists l', evolve s (pp :: l) d fm s' l' ((va, pp) :: fm)
      /\ (length l = missing_in (ram s) d [PDX va] + length l')%nat /\ missing_in (ram s') d [PDX va] = 0%nat
      /\ (forall va', 0 <= va' < 4294967296 -> PDX va' <> SELF -> same_page va va' = false ->
           vm_lookup (ram s') d va' = vm_lookup (ram s) d va')
      /\ (forall o, 0 <= o < 4096 -> o mod 4 = 0 -> rd32 (ram s') (pp * 4096 + o) = 0)
      /\ forall f, f ∈ fm.*2 -> same_words f s s').
Proof.
  intros W Hpi Hr Sp Hm Hva Hs Hv.
  destruct (alloc_frame s pp pi l d fm W Hpi Hr Sp) as (W1 & Sp1 & F1 & O1 & Eo1 & Et1 & El1).
  set (s1 := after_alloc ALLOC_ZERO pp pi s) in *. pose proof (PDX_range va) as Hi.
  assert (missing_in (ram s1) d [PDX va] = missing_in (ram s) d [PDX va]) as Em.
  { unfold missing_in. erewrite filter_iff_on; [done|]. intros i ->%list_elem_of_singleton. by rewrite Et1. }
  assert (slots [PDX va]) as Hsl by (split; [apply NoDup_singleton|by apply Forall_singleton]).
  destruct (wp_inv _ _ _ (wp_pgdir_walk_create s1 l d va [PDX va] W1 (sp_dir _ _ _ _ Sp1) Hs ltac:(by left) Hsl
    ltac:(by rewrite Em))) as (a & s2 & E & t & l2 & -> & Ht2 & [Hm2 _] & S).
  pose proof (evolve_step s1 l d fm s2 l2 _ Sp1 S ltac:(done)) as E2.
  unfold wp. rewrite (page_insert_after_walk garbage s1 s2 l2 d va t pp PTE_UW (sv_wf _ _ _ _ _ _ S)
    (sv_dir _ _ _ _ _ _ S) Hs Ht2 E). fold (wp (page_insert garbage (dirp d) pp va PTE_UW) s2).
  assert (vm_lookup (ram s2) d va = None) as Hv2 by (by rewrite (sv_lookup _ _ _ _ _ _ S), El1).
  eapply wp_mono; [apply (wp_insert_present s2 l2 d fm pp va t (ev_wf _ _ _ _ _ _ _ E2) (ev_space _ _ _ _ _ _ _ E2)
    (frame_step _ _ _ _ _ _ _ _ S F1)); done|].
  intros r s3 (-> & W3 & Sp3 & Eo3 & O3 & Ly3 & Et3 & El3 & Hw3). split; [done|]. exists l2. split; [split|].
  - done.
  - done.
  - rewrite own_cons, Eo3, <- Permutation_middle, <- Eo1. simpl. by rewrite (ev_acct _ _ _ _ _ _ _ E2).
  - assert (forall q, q ∈ own s2 d fm ++ l2 -> q ∈ own s d fm ++ l) as Hin.
    { intros q. by rewrite (ev_acct _ _ _ _ _ _ _ E2), Eo1. }
    etrans; [eapply outside_mono; [|exact O1]|etrans; [eapply outside_mono; [|exact (ev_out _ _ _ _ _ _ _ E2)]|
      eapply outside_mono; [|exact O3] ] ]; intros q; specialize (Hin q); rewrite ?Eo1; revert Hin;
      rewrite !elem_of_app, ?elem_of_cons, ?elem_of_nil; tauto.
  - rewrite Ly3. exact (ev_layout _ _ _ _ _ _ _ E2).
  - rewrite (missing_found _ _ _ t Ht2), Em in Hm2. split; [lia|]. split.
    + apply (missing_found _ _ _ t). rewrite Et3 by exact Hi. exact Ht2.
    + split; [intros va' Hva' Hs' Hsp; by rewrite El3, Hsp, (sv_lookup _ _ _ _ _ _ S), El1 by done|]. split.
      * intros o Ho Ho4. rewrite (Hw3 pp 0 (frame_step _ _ _ _ _ _ _ _ S F1) o Ho).
        rewrite (step_same_words _ _ _ _ _ _ _ _ S F1 o Ho). apply rd32_zero_page_in; [lia|].
        Z.to_euclidean_division_equations; lia.
      * intros f ([va' f'] & -> & Hin)%list_elem_of_fmap o Ho. cbn [snd].
        rewrite (Hw3 f' 1 (sp_frame _ _ _ _ (ev_space _ _ _ _ _ _ _ E2) va' f' Hin) o Ho).
        rewrite (step_same_words _ _ _ _ _ _ _ _ S (sp_frame _ _ _ _ Sp1 va' f' Hin) o Ho).
        apply O1; [|done]. intros ->%list_elem_of_singleton.
        apply (own_not_free s (pp :: l) d fm W Sp pp); [|by left]. right. apply elem_of_app. right.
        apply list_elem_of_fmap. exists (va', pp). split; [reflexivity|exact Hin].
Qed.

(** ** Birth *)

Lemma SELF_range : 0 <= SELF < 1024.
Proof. by vm_compute. Qed.

Lemma missing_kvm m d : (missing_in m d kvm_slots <= 68)%nat.
Proof. unfold missing_in. rewrite length_filter. change (length kvm_slots) with 68%nat. reflexivity. Qed.

Section Birth.
  Context (percpu_kstacks lapic lapicaddr : Z).
  Context (Hst : KERNBASE <= percpu_kstacks) (Hst' : percpu_kstacks + 8 * KSTKSIZE <= 4294967296)
          (Hla : MMIOBASE <= lapic) (Hla' : lapic + 4096 <= MMIOLIM) (Hlp : 0 <= lapicaddr <= 4294963200).

(** A directory made by [setupkvm] is a space without user pages; its pages come
    from the free list, at most sixty-nine of them. *)
Lemma wp_setupkvm_space s p l :
  mm_wf s (p :: l) -> (68 <= length l)%nat ->
  KERNBASE <= c_pages_va (cfg s) -> c_pages_va (cfg s) + npages s * 8 <= 4294963200 ->
  wp (setupkvm percpu_kstacks lapic lapicaddr) s (fun r s' => r = Some (dirp p) /\ exists l',
    mm_wf s' l' /\ space s' l' p [] /\ own s' p [] ++ l' ≡ₚ p :: l /\ outside (p :: l) s s' /\ layout s' = layout s
    /\ (length l <= 68 + length l')%nat
    /\ (forall va, 0 <= va < 4294967296 -> PDX va <> SELF -> vm_lookup (ram s') p va
          = kvm_space percpu_kstacks lapic lapicaddr (npages s) (c_pages_va (cfg s) - KERNBASE) va)).
Proof.
  intros W Hl Hpg Hpg'. destruct (page_alloc_cons s ALLOC_ZERO p l W) as (pi & Hpi & Hr & _).
  destruct (fresh_dir s p l pi W Hpi Hl) as (_ & _ & _ & Ht).
  pose proof (wf_nodup s _ W) as [Hnin _]%NoDup_cons.
  eapply wp_mono; [by apply (wp_setupkvm percpu_kstacks lapic lapicaddr Hst Hst' s p l pi)|].
  set (s1 := after_alloc ALLOC_ZERO p pi s) in *.
  intros r s' [-> (l' & S & Hm & Ha & _)]. split; [done|]. exists l'.
  assert (tables (ram s1) p = []) as Et.
  { apply elem_of_nil_inv. intros t (i & Hi & H)%tables_elem. by rewrite Ht in H. }
  assert (tables (ram s') p ++ l' ≡ₚ l) as Hacct by (rewrite (sv_acct _ _ _ _ _ _ S); by rewrite Et).
  split_and!.
  - apply S.
  - assert (forall va f, (va, f) ∉ ([] : list (Z * Z))) as Hnil by (intros va f; apply not_elem_of_nil).
    split; [apply S| | | |intros va f Hf; by destruct (Hnil va f)..|constructor|intros va f Hf; by destruct (Hnil va f)].
    + rewrite (sv_self _ _ _ _ _ _ S). exact (Ht SELF SELF_range).
    + rewrite (sv_pages _ _ _ _ _ _ S) by done. unfold s1. simpl. by rewrite lookup_insert_eq, Hr.
    + intros i t Hi H. destruct (sv_recs _ _ _ _ _ _ S i t Hi H) as [H1|H1]; [by rewrite Ht in H1|done].
  - unfold own. rewrite app_nil_r. simpl. by f_equiv.
  - intros q [Hq1 Hq2]%not_elem_of_cons. split.
    + rewrite (sv_pages _ _ _ _ _ _ S) by done. simpl. by rewrite lookup_insert_ne.
    + intros o Ho. rewrite (sv_frame _ _ _ _ _ _ S q o Hq1 Hq2).
      * by apply rd32_zero_page_out.
      * intros i Hi. rewrite (Ht i Hi). discriminate.
      * exact Ho.
  - unfold layout, npages, kern_pgdir. by rewrite (sv_cfg _ _ _ _ _ _ S).
  - pose proof (missing_kvm (ram s1) p). lia.
  - exact (sv_lookup _ _ _ _ _ _ S).
Qed.
End Birth.

(** ** Death *)

Lemma space_perm s l d fm fm' : fm ≡ₚ fm' -> space s l d fm -> space s l d fm'.
Proof.
  intros E []. split; try done; try (intros va f; rewrite <- E; by eauto).
  by rewrite <- E.
Qed.

(** [page_remove] of a page of the space, which goes back to the free list. *)
Lemma evolve_remove s l d fm va f garbage :
  mm_wf s l -> space s l d ((va, f) :: fm) -> garbage <> 0 ->
  (forall va' f', (va', f') ∈ fm -> same_page va va' = false) ->
  wp (page_remove garbage (dirp d) va) s (fun _ s' =>
    evolve s l d ((va, f) :: fm) s' (f :: l) fm).
Proof.
  intros W Sp Hg Hsp. pose proof Sp as [D S1 S2 S3 S4 S5 S6 S7].
  destruct (S7 va f) as [Hva Hs]; [by left|]. pose proof (S5 va f ltac:(by left)) as F.
  pose proof (frame_range _ _ _ _ _ W F) as Hf. pose proof (wf_npages s _ W).
  eapply wp_mono; [apply (wp_page_remove s l d va (insert_entry f PTE_UW) f 1); try done|].
  - apply S4. by left.
  - unfold insert_entry. rewrite page2pa_spec, <- Z.lor_assoc by lia. apply pte_fields; [lia|by vm_compute].
  - intros _ s' (l' & [R1 R2 R3 R4 R5 R6 R7 R8 (t & Ht & R9)]). rewrite Z.eqb_refl in R3. subst l'.
    assert (forall va' f', (va', f') ∈ fm -> f' <> f) as Hne.
    { intros va' f' Hin ->. apply NoDup_cons in S6 as [Hn _]. apply Hn. apply list_elem_of_fmap. by exists (va', f). }
    assert (own s' d fm = own s d fm) as Eo by (unfold own; by rewrite (tables_ext (ram s))).
    split; [done|split|..].
    + done.
    + rewrite R8 by exact SELF_range. done.
    + rewrite R6 by (intros E; apply (fr_dir _ _ _ _ _ F); congruence). done.
    + intros i ti Hi. rewrite R8 by done. intros Hti. rewrite R6; [by eapply S3|].
      intros ->. by apply (fr_tab _ _ _ _ _ F i).
    + intros va' f' Hin. destruct (S7 va' f') as [_ Hs']; [by right|]. rewrite R5, (Hsp va' f' Hin) by done.
      apply S4. by right.
    + intros va' f' Hin. destruct (S5 va' f') as [F1 F2 F3 F4]; [by right|]. pose proof (Hne va' f' Hin).
      split; [by rewrite R6|by apply not_elem_of_cons|done|]. intros i Hi. rewrite R8 by done. by apply F4.
    + by apply NoDup_cons in S6 as [_ ?].
    + intros va' f' Hin. apply (S7 va' f'). by right.
    + rewrite own_cons, Eo. by rewrite <- Permutation_middle.
    + intros q. rewrite own_cons, elem_of_app, elem_of_cons. intros Hq.
      assert (q <> f /\ q ∉ own s d fm) as [Hq1 Hq2] by tauto. split; [by apply R6|].
      intros o Ho. rewrite R9. apply set_pte_ram; [|done]. intros ->. apply Hq2. right. apply elem_of_app. left.
      apply tables_elem. exists (PDX va). split; [apply PDX_range|done].
    + unfold layout, npages, kern_pgdir. by rewrite R4.
Qed.

(** The loop of [ptable_remove] gives back the tables of the slots it visits. *)
Lemma wp_ptable_remove_loop d n i s l :
  mm_wf s l -> 0 <= d < npages s -> 0 <= i -> i + Z.of_nat n <= 1024 ->
  (forall j t, i <= j < i + Z.of_nat n -> tab (ram s) d j = Some t ->
     pages s !! t = Some (mkPage None 1) /\ t ∉ l) ->
  NoDup (omap (tab (ram s) d) (seqZ i (Z.of_nat n))) ->
  wp (ptable_remove_loop n (dirp d) i) s (fun _ s' =>
    mm_wf s' (reverse (omap (tab (ram s) d) (seqZ i (Z.of_nat n))) ++ l) /\ only_pages s s'
    /\ forall q, q ∉ omap (tab (ram s) d) (seqZ i (Z.of_nat n)) -> pages s' !! q = pages s !! q).
Proof.
  revert i s l. induction n as [|n IH]; intros i s l W Hd Hi Hn Ht Hnd; cbn [ptable_remove_loop].
  - wp_step. split; [done|]. by split.
  - rewrite seqZ_cons in * by lia. replace (Z.pred (Z.of_nat (S n))) with (Z.of_nat n) in * by lia.
    replace (Z.succ i) with (i + 1) in * by lia. wp_step. rewrite dirp_slot.
    apply wp_load32; [apply word_ok_page; [done|lia|apply word_off_mod]|]. cbn [omap list_omap] in *.
    destruct (tab (ram s) d i) as [t|] eqn:E.
    + destruct (tab_Some_inv s l d i t W E) as (e & -> & Hp & Ha & _). unfold present in Hp. rewrite Hp, Ha.
      cbn [when]. destruct (Ht i t) as [Hpg Hl]; [lia|done|]. apply NoDup_cons in Hnd as [Hnt Hnd].
      assert (0 <= t < npages s) as Htr by (apply (wf_dom s l W); eauto).
      wp_step. wp_step. apply wp_pa2page; rewrite <- (Z.add_0_r (t * 4096)), PGNUM_page by lia; [lia|].
      eapply wp_mono; [by apply (wp_page_decref s l t 1)|]. intros _ s1 (W1 & [Ec Er] & Hq & _). cbv beta iota delta [Z.eqb Pos.eqb] in W1.
      assert (forall j u, i + 1 <= j < i + 1 + Z.of_nat n -> tab (ram s) d j = Some u ->
        u <> t /\ pages s !! u = Some (mkPage None 1) /\ u ∉ l) as Hu.
      { intros j u Hj Hju. split; [|apply (Ht j u); [lia|done] ]. intros ->. apply Hnt.
        apply list_elem_of_omap. exists j. split; [apply elem_of_seqZ; lia|done]. }
      eapply wp_mono; [apply (IH (i + 1) s1 (t :: l)); rewrite ?Er; unfold npages in *; rewrite ?Ec; try lia; try done|].
      * intros j u Hj Hju. destruct (Hu j u Hj Hju) as (Hne & H1 & H2). rewrite Hq by done.
        split; [done|]. by apply not_elem_of_cons.
      * intros u s2 (W2 & [Ec2 Er2] & Hq2). rewrite Er in W2, Hq2. split; [|split].
        -- rewrite reverse_cons, <- (assoc_L (++)). exact W2.
        -- split; congruence.
        -- intros q [Hq3 Hq4]%not_elem_of_cons. by rewrite Hq2, Hq.
    + unfold tab in E. destruct (present (rd32 (ram s) (d * 4096 + 4 * i))) eqn:Hp; [done|].
      unfold present in Hp. rewrite Hp. cbn [when]. do 2 wp_step. apply IH; try lia; try done.
      intros j t Hj. apply Ht. lia.
Qed.

(** [ptable_remove] and [pgdir_remove] of a space without user pages: all its
    pages are free again; memory keeps its contents. *)
Lemma wp_destroy s l d :
  mm_wf s l -> space s l d [] ->
  wp (ptable_remove (dirp d) ;; pgdir_remove (dirp d)) s (fun _ s' => exists l',
    mm_wf s' l' /\ l' ≡ₚ own s d [] ++ l /\ outside (own s d []) s s' /\ layout s' = layout s).
Proof.
  intros W Sp. pose proof (own_not_free s l d [] W Sp) as Hof. pose proof (own_nodup s l d [] W Sp) as Hnd.
  pose proof (dw_dir _ _ _ (sp_dir _ _ _ _ Sp)) as Hd. pose proof (wf_npages s l W) as Hnp.
  assert (d ∉ tables (ram s) d) as Hdt.
  { apply NoDup_app in Hnd as (Hnd & _). unfold own in Hnd. apply NoDup_cons in Hnd as [H _].
    rewrite app_nil_r in H. done. }
  wp_step. unfold ptable_remove. eapply wp_mono; [apply (wp_ptable_remove_loop d 1024 0 s l W Hd)|].
  - lia.
  - lia.
  - intros j t Hj Ht. split; [by eapply (sp_tabs _ _ _ _ Sp)|]. apply Hof. right. apply elem_of_app. left.
    apply tables_elem. exists j. split; [lia|done].
  - rewrite tables_seq. exact (tables_nodup s l d [] Sp).
  - rewrite tables_seq. intros u s1 (W1 & [Ec Er] & Hq).
    assert (pages s1 !! d = Some (mkPage None 0)) as Hr by (rewrite Hq by exact Hdt; apply Sp).
    assert (npages s1 = npages s) as En by (unfold npages; by rewrite Ec).
    assert (dirp d - KERNBASE = d * 4096 + 0) as Epa by (unfold dirp; lia).
    unfold pgdir_remove. wp_step. apply wp_PADDR; [unfold dirp, KERNBASE; lia|]. rewrite Epa. wp_step.
    apply wp_pa2page; rewrite PGNUM_page by lia; [lia|].
    eapply wp_eq; [by apply (page_free_eq s1 _ d _ W1 Hr)|].
    assert (d ∉ reverse (tables (ram s) d) ++ l) as Hn.
    { rewrite elem_of_app, elem_of_reverse. intros [?|?]; [done|]. apply (Hof d); [by left|done]. }
    eexists. split; [by apply (after_free_wf s1 d _ _ W1 Hr)|]. split; [|split].
    + unfold own. rewrite app_nil_r, reverse_Permutation. done.
    + intros q Hqo. unfold own in Hqo. rewrite app_nil_r in Hqo. apply not_elem_of_cons in Hqo as [H1 H2]. split.
      * cbn [pages after_free]. rewrite lookup_insert_ne by congruence. by apply Hq.
      * intros o Ho. cbn [ram after_free]. by rewrite Er.
    + unfold layout, npages, kern_pgdir. cbn [cfg after_free]. by rewrite Ec.
Qed.

(** ** Writes into frames *)

(** Words of the frames may change: the spaces do not. *)
Lemma space_writes s s' l d fm :
  space s l d fm -> pages s' = pages s -> npages s' = npages s -> same_words d s s' ->
  (forall t, t ∈ tables (ram s) d -> same_words t s s') ->
  space s' l d fm /\ own s' d fm = own s d fm /\ (forall va, vm_lookup (ram s') d va = vm_lookup (ram s) d va).
Proof.
  intros Sp Ep En Hd Ht. assert (forall i, 0 <= i < 1024 -> tab (ram s') d i = tab (ram s) d i) as Et.
  { intros i Hi. unfold tab. by rewrite Hd by lia. }
  assert (forall va, vm_lookup (ram s') d va = vm_lookup (ram s) d va) as El.
  { intros va. apply vm_lookup_ext; [apply Et, PDX_range|]. intros t Htb. apply Ht.
    - apply tables_elem. exists (PDX va). split; [apply PDX_range|exact Htb].
    - pose proof (PTX_range va). lia. }
  split; [|split; [unfold own; by rewrite (tables_ext (ram s))|done] ].
  destruct Sp as [D S1 S2 S3 S4 S5 S6 S7]. split; rewrite ?Ep; try assumption.
  - eapply dir_wf_ext; [exact D|exact En|auto|exact Et].
  - rewrite Et; [exact S1|exact SELF_range].
  - intros i t Hi. rewrite Et by exact Hi. by apply S3.
  - intros va f Hf. rewrite El. by apply S4.
  - intros va f Hf. destruct (S5 va f Hf) as [F1 F2 F3 F4]. split; rewrite ?Ep; try assumption.
    intros i Hi. rewrite Et by exact Hi. by apply F4.
Qed.
