(* ===== verification/Task.v ===== *)
(** * Tasks and the scheduler (kernel/task.c, kernel/sched.c)

    The task array, the per-CPU run queues, [task_create], [task_free],
    [sys_fork], [sys_kill], [task_init], [task_init_percpu] and [sched_yield].
    A [Task *] is the index of the task in [tasks]; NULL is [None].  The CPU that
    runs the code is the one of [c_ctx]; [thiscpu] is its entry of [cpus].

    Memory operations run on the [mm] part of the state through [zoom], so a
    task structure or a run queue changes only where the code assigns to it. *)

From S2P Require Import Prelude.
From S2P Require Import Machine.
From S2P Require Import Kmonad.
From S2P Require Import Spinlock.
From S2P Require Import PageAlloc.
From S2P Require Import Paging.
From Stdlib Require Import ZArith Lia.
From stdpp Require Import base gmap list strings.

Local Open Scope Z_scope.

(** ** Data (kernel/task.h, kernel/cpu.h) *)

Definition NR_TASKS : Z := 32.
Definition TIME_QUANT : Z := 100.
Definition USR_STACK_SIZE : Z := 40960.

Inductive TaskState := TASK_FREE | TASK_RUNNABLE | TASK_RUNNING | TASK_SLEEP | TASK_STOP.

#[global] Instance TaskState_eq : EqDecision TaskState.
Proof. solve_decision. Defined.

Record Task := mkTask {
  task_id : Z;
  parent_id : Z;
  tf : Trapframe;
  remind_ticks : Z;
  state : TaskState;
  pgdir : Z
}.

Record Runqueue := mkRq { total : Z; current_index : Z; runQueue : list Z }.

Record CpuInfo := mkCpu {
  cpu_id : Z;
  cpu_status : Z;
  cpu_task : option Z;
  cpu_rq : Runqueue;
  cpu_tss : tss_struct
}.

Definition task0 : Task := mkTask 0 0 tf0 0 TASK_FREE 0.
Definition rq0 : Runqueue := mkRq 0 0 (replicate 32 0).
Definition cpu0 : CpuInfo := mkCpu 0 0 None rq0 tss0.

(** The initial contents of [gdt]. *)
Definition gdt_init : list Segdesc :=
  [SEG_NULL; SEG (Z.lor STA_X STA_R) 0x0 0xffffffff 0; SEG STA_W 0x0 0xffffffff 0;
   SEG (Z.lor STA_X STA_R) 0x0 0xffffffff 3; SEG STA_W 0x0 0xffffffff 3; SEG_NULL]
  ++ replicate 7 SEG_NULL.

(** The variables of task.c and mpconfig.c, and what [lgdt], [lldt] and [ltr]
    loaded last. *)
Record tk_state := TK {
  mm : mm_state;
  tasks : list Task;
  cpus : list CpuInfo;
  ncpu : Z;
  bootcpu : Z;
  tasks_lock : spinlock;
  cpus_lock : spinlock;
  gdt : list Segdesc;
  user_sizes : Z * Z * Z * Z;
  seg_regs : option (Z * Z * Z)
}.

Definition set_mm v s := TK v (tasks s) (cpus s) (ncpu s) (bootcpu s) (tasks_lock s)
                            (cpus_lock s) (gdt s) (user_sizes s) (seg_regs s).
Definition set_tasks v s := TK (mm s) v (cpus s) (ncpu s) (bootcpu s) (tasks_lock s)
                               (cpus_lock s) (gdt s) (user_sizes s) (seg_regs s).
Definition set_cpus v s := TK (mm s) (tasks s) v (ncpu s) (bootcpu s) (tasks_lock s)
                              (cpus_lock s) (gdt s) (user_sizes s) (seg_regs s).
Definition set_tasks_lock v s := TK (mm s) (tasks s) (cpus s) (ncpu s) (bootcpu s) v
                                    (cpus_lock s) (gdt s) (user_sizes s) (seg_regs s).
Definition set_cpus_lock v s := TK (mm s) (tasks s) (cpus s) (ncpu s) (bootcpu s) (tasks_lock s)
                                   v (gdt s) (user_sizes s) (seg_regs s).
Definition set_gdt v s := TK (mm s) (tasks s) (cpus s) (ncpu s) (bootcpu s) (tasks_lock s)
                             (cpus_lock s) v (user_sizes s) (seg_regs s).
Definition set_user_sizes v s := TK (mm s) (tasks s) (cpus s) (ncpu s) (bootcpu s) (tasks_lock s)
                                    (cpus_lock s) (gdt s) v (seg_regs s).
Definition set_seg_regs v s := TK (mm s) (tasks s) (cpus s) (ncpu s) (bootcpu s) (tasks_lock s)
                                  (cpus_lock s) (gdt s) (user_sizes s) (Some v).

(** Field assignments. *)
Definition t_set_tf v t := mkTask (task_id t) (parent_id t) v (remind_ticks t) (state t) (pgdir t).
Definition t_set_ticks v t := mkTask (task_id t) (parent_id t) (tf t) v (state t) (pgdir t).
Definition t_set_state v t := mkTask (task_id t) (parent_id t) (tf t) (remind_ticks t) v (pgdir t).
Definition t_set_pgdir v t := mkTask (task_id t) (parent_id t) (tf t) (remind_ticks t) (state t) v.
Definition t_set_ids i p t := mkTask i p (tf t) (remind_ticks t) (state t) (pgdir t).

Definition c_set_status v c := mkCpu (cpu_id c) v (cpu_task c) (cpu_rq c) (cpu_tss c).
Definition c_set_task v c := mkCpu (cpu_id c) (cpu_status c) v (cpu_rq c) (cpu_tss c).
Definition c_set_rq v c := mkCpu (cpu_id c) (cpu_status c) (cpu_task c) v (cpu_tss c).
Definition c_set_tss v c := mkCpu (cpu_id c) (cpu_status c) (cpu_task c) (cpu_rq c) v.

(** ** Access *)

Definition on_mm {A} : M mm_state A -> M tk_state A := zoom mm set_mm.

(** [cpunum()], the number of the CPU that runs. *)
Definition cpunum (s : tk_state) : Z := ctx_cpu (c_ctx (cfg (mm s))).

Definition get_task (i : Z) : M tk_state Task :=
  ts ← gets tasks; need (zget ts i) "tasks[] read".

Definition upd_task (i : Z) (f : Task -> Task) : M tk_state unit :=
  t ← get_task i;
  ts ← gets tasks;
  ts' ← need (zset ts i (f t)) "tasks[] write";
  modify (set_tasks ts').

Definition get_cpu (i : Z) : M tk_state CpuInfo :=
  cs ← gets cpus; need (zget cs i) "cpus[] read".

Definition upd_cpu (i : Z) (f : CpuInfo -> CpuInfo) : M tk_state unit :=
  c ← get_cpu i;
  cs ← gets cpus;
  cs' ← need (zset cs i (f c)) "cpus[] write";
  modify (set_cpus cs').

(** [*thiscpu] and assignments to its fields. *)
Definition thiscpu : M tk_state CpuInfo := i ← gets cpunum; get_cpu i.
Definition upd_thiscpu (f : CpuInfo -> CpuInfo) : M tk_state unit :=
  i ← gets cpunum; upd_cpu i f.

(** The task index in [thiscpu->cpu_task], which is dereferenced. *)
Definition cur : M tk_state Z :=
  c ← thiscpu; need (cpu_task c) "thiscpu->cpu_task is NULL".

Definition lock_with (get' : tk_state -> spinlock) (set' : spinlock -> tk_state -> tk_state)
    (f : cpu_ctx -> M spinlock unit) : M tk_state unit :=
  c ← gets (fun s => c_ctx (cfg (mm s)));
  zoom get' set' (f c).

Definition on_tasks_lock := lock_with tasks_lock set_tasks_lock.
Definition on_cpus_lock := lock_with cpus_lock set_cpus_lock.

Definition set_cr3 (v : Z) (c : mm_cfg) : mm_cfg :=
  mkCfg (c_npages c) (c_npages_basemem c) (c_nextfree c) (c_kern_pgdir c) (c_pages_va c)
        (c_mmio_base c) v (c_cr0 c) (c_ctx c) (c_invlpg c) (c_console c).

Definition lcr3 (v : Z) : M mm_state unit := modify (upd_cfg (set_cr3 v)).

(** [memcpy(dst, src, n)] on word-aligned kernel addresses, [n] a multiple of
    four: the words go up one by one ([rep movsl]); source and destination are
    whole pages, which never overlap part way. *)
Fixpoint copy_words (n : nat) (dst src : Z) (m : gmap Z Z) : gmap Z Z :=
  match n with
  | O => m
  | S n' => copy_words n' (dst + 4) (src + 4) (<[dst := rd32 m src]> m)
  end.

Definition memcpy (dst src n : Z) : M mm_state unit :=
  s ← get;
  let d := dst - KERNBASE in
  let r := src - KERNBASE in
  if word_ok s d && word_ok s (d + n - 4) && word_ok s r && word_ok s (r + n - 4)
  then put (set_ram (copy_words (Z.to_nat (n / 4)) d r (ram s)) s)
  else fault "memcpy".

(** ** Scheduler (kernel/sched.c) *)

(** The [for] loop of [sched_yield]; [n] turns left, [rq_idx] the index tried
    last. *)
Fixpoint sched_loop (n : nat) (rq_idx : Z) : M tk_state unit :=
  match n with
  | O => mret tt
  | S n' =>
      c ← thiscpu;
      let idx := Z.rem (rq_idx + 1) (total (cpu_rq c)) in
      next_pid ← need (zget (runQueue (cpu_rq c)) idx) "runQueue[] read";
      t ← get_task next_pid;
      if decide (state t = TASK_RUNNABLE) then
        _ ← upd_thiscpu (c_set_task (Some next_pid));
        _ ← upd_task next_pid (fun t => t_set_ticks TIME_QUANT (t_set_state TASK_RUNNING t));
        _ ← upd_thiscpu (fun c => c_set_rq (mkRq (total (cpu_rq c)) idx (runQueue (cpu_rq c))) c);
        _ ← on_mm (pa ← PADDR (pgdir t); lcr3 pa);
        t' ← get_task next_pid;
        iret (tf t')
      else sched_loop n' idx
  end.

Definition sched_yield : M tk_state unit :=
  c ← thiscpu;
  let rq_idx := match cpu_task c with Some _ => current_index (cpu_rq c) | None => 0 end in
  sched_loop (Z.to_nat (total (cpu_rq c))) rq_idx.

(** ** Creation (kernel/task.c) *)

(** The addresses the linker and the compiler choose, and the two variables of
    lapic.c that [setupkvm] reads; [k_garbage] is what [page_remove]'s
    uninitialised variable holds. *)
Record ksyms := mkKsyms {
  UTEXT_start : Z; UTEXT_end : Z;
  UDATA_start : Z; UDATA_end : Z;
  UBSS_start : Z; UBSS_end : Z;
  URODATA_start : Z; URODATA_end : Z;
  user_entry : Z; idle_entry : Z;
  percpu_kstacks : Z;
  cpu_tss_addr : Z -> Z;
  gdt_addr : Z;
  k_lapic : Z; k_lapicaddr : Z;
  k_garbage : Z
}.

Section Tasks.
  Context (K : ksyms).

(** [for (va = USTACKTOP; va > USTACKTOP - USR_STACK_SIZE; va -= PGSIZE)]; the
    body returns false to leave the function.  The result says whether the loop
    ran to its end. *)
Fixpoint stack_loop (fuel : nat) (va : Z) (body : Z -> M tk_state bool) : M tk_state bool :=
  if (va >? USTACKTOP - USR_STACK_SIZE) then
    match fuel with
    | O => hang "user stack loop: out of fuel"
    | S fuel' =>
        ok ← body va;
        if (ok : bool) then stack_loop fuel' (va - PGSIZE) body else mret false
    end
  else mret true.

Definition for_stack (body : Z -> M tk_state bool) : M tk_state bool :=
  stack_loop (Z.to_nat (USR_STACK_SIZE / PGSIZE)) USTACKTOP body.

(** The search for a free task structure from [pid] on, [n] entries left. *)
Fixpoint find_free (n : nat) (pid : Z) : M tk_state (option Z) :=
  match n with
  | O => mret None
  | S n' =>
      t ← get_task pid;
      if decide (state t = TASK_FREE) then mret (Some pid) else find_free n' (pid + 1)
  end.

(** The frame [task_create] makes. *)
Definition fresh_tf : Trapframe :=
  mkTrapframe regs0 (Z.lor GD_UD 0x03) 0 (Z.lor GD_UD 0x03) 0 0 0 0 (Z.lor GD_UT 0x03) 0 0
    (USTACKTOP - PGSIZE) (Z.lor GD_UD 0x03) 0.

(** One page of the user stack: [page_insert] is compared with -1, which it never
    returns. *)
Definition stack_page (pid va : Z) : M tk_state bool :=
  r ← on_mm (page_alloc ALLOC_ZERO);
  match r with
  | None => mret false
  | Some pp =>
      t ← get_task pid;
      v ← on_mm (page_insert (k_garbage K) (pgdir t) pp (va - PGSIZE) (Z.lor PTE_W PTE_U));
      mret (negb (v =? -1))
  end.

Definition task_create : M tk_state Z :=
  _ ← on_tasks_lock spin_lock;
  r ← find_free (Z.to_nat NR_TASKS) 0;
  match r with
  | None => _ ← on_tasks_lock spin_unlock; mret (-1)
  | Some pid =>
      pd ← on_mm (setupkvm (percpu_kstacks K) (k_lapic K) (k_lapicaddr K));
      _ ← upd_task pid (t_set_pgdir (default 0 pd));
      _ ← when (bool_decide (pd = None))
            (panic "Not enough memory for per process page directory!");
      ok ← for_stack (stack_page pid);
      if negb ok then _ ← on_tasks_lock spin_unlock; mret (-1)
      else
        _ ← upd_task pid (t_set_tf fresh_tf);
        c ← thiscpu;
        parent ← (match cpu_task c with
                  | Some p => pt ← get_task p; mret (task_id pt)
                  | None => mret 0
                  end);
        _ ← upd_task pid (fun t => t_set_state TASK_RUNNABLE
                                    (t_set_ticks TIME_QUANT (t_set_ids pid parent t)));
        _ ← on_tasks_lock spin_unlock;
        mret pid
  end.

(** ** Termination *)

Definition task_free (pid : Z) : M tk_state unit :=
  _ ← on_mm (kpd ← gets kern_pgdir; pa ← PADDR kpd; lcr3 pa);
  _ ← for_stack (fun va =>
        t ← get_task pid;
        _ ← on_mm (page_remove (k_garbage K) (pgdir t) (va - PGSIZE));
        mret true);
  t ← get_task pid;
  _ ← on_mm (ptable_remove (pgdir t));
  on_mm (pgdir_remove (pgdir t)).

(** The loop of [sys_kill] on a run queue: the entry [pid] is overwritten with
    the last one, and the queue gets shorter. *)
Fixpoint rq_remove_loop (n : nat) (i pid : Z) (q : Runqueue) : option Runqueue :=
  match n with
  | O => Some q
  | S n' =>
      p ← zget (runQueue q) i;
      if (p =? pid) then
        let total' := total q - 1 in
        last ← zget (runQueue q) total';
        l ← zset (runQueue q) i last;
        Some (mkRq total' (current_index q) l)
      else rq_remove_loop n' (i + 1) pid q
  end.

Definition rq_remove (pid : Z) (q : Runqueue) : option Runqueue :=
  rq_remove_loop (Z.to_nat (total q)) 0 pid q.

Definition sys_kill (pid : Z) : M tk_state unit :=
  if (pid >? 0) && (pid <? NR_TASKS) then
    c ← thiscpu;
    if (total (cpu_rq c) >? 1) then
      q ← need (rq_remove pid (cpu_rq c)) "runQueue[]";
      _ ← upd_thiscpu (c_set_rq q);
      _ ← on_tasks_lock spin_lock;
      _ ← task_free pid;
      _ ← upd_task pid (t_set_state TASK_FREE);
      _ ← on_tasks_lock spin_unlock;
      i ← cur;
      t ← get_task i;
      if (task_id t =? pid) then
        _ ← upd_thiscpu (c_set_task None);
        sched_yield
      else mret tt
    else mret tt
  else mret tt.

(** ** fork *)

(** Copy one stack page of the parent to the child. *)
Definition copy_stack_page (pid va : Z) : M tk_state bool :=
  i ← cur;
  parent ← get_task i;
  child ← get_task pid;
  _ ← on_mm (
    rp ← pgdir_walk (pgdir parent) (va - PGSIZE) 0;
    rc ← pgdir_walk (pgdir child) (va - PGSIZE) 0;
    pte_child ← need rc "sys_fork: *pte_child";
    ec ← load32 pte_child;
    dst ← KADDR (PTE_ADDR ec);
    pte_parent ← need rp "sys_fork: *pte_parent";
    ep ← load32 pte_parent;
    src ← KADDR (PTE_ADDR ep);
    memcpy dst src PGSIZE);
  mret true.

(** The four [setupvm] calls for the user program. *)
Definition setup_user_program (i : Z) : M tk_state unit :=
  t ← get_task i;
  sz ← gets user_sizes;
  let '(text_sz, data_sz, bss_sz, rodata_sz) := sz in
  on_mm (
    setupvm (pgdir t) (UTEXT_start K) text_sz ;;
    setupvm (pgdir t) (UDATA_start K) data_sz ;;
    setupvm (pgdir t) (UBSS_start K) bss_sz ;;
    setupvm (pgdir t) (URODATA_start K) rodata_sz).

(** The search for the CPU with the fewest tasks: [i], [min], [cpu_idx] of the
    loop, [n] CPUs left. *)
Fixpoint min_cpu (n : nat) (cs : list CpuInfo) (i min cpu_idx : Z) : option Z :=
  match n with
  | O => Some cpu_idx
  | S n' =>
      c ← zget cs i;
      if (total (cpu_rq c) <? min) then min_cpu n' cs (i + 1) (total (cpu_rq c)) i
      else min_cpu n' cs (i + 1) min cpu_idx
  end.

(** [workCpu->cpu_rq.runQueue[workCpu->cpu_rq.total++] = pid]. *)
Definition rq_push (pid : Z) (q : Runqueue) : option Runqueue :=
  l ← zset (runQueue q) (total q) pid;
  Some (mkRq (total q + 1) (current_index q) l).

Definition dispatch (pid : Z) : M tk_state unit :=
  s ← get;
  cpu_idx ← need (min_cpu (Z.to_nat (ncpu s)) (cpus s) 0 NR_TASKS 0) "cpus[] read";
  c ← get_cpu cpu_idx;
  q ← need (rq_push pid (cpu_rq c)) "runQueue[] write";
  upd_cpu cpu_idx (c_set_rq q).

Definition sys_fork : M tk_state Z :=
  pid ← task_create;
  if (pid =? -1) then mret (-1)
  else
    c ← thiscpu;
    _ ← (match cpu_task c with
         | Some p =>
             pt ← get_task p;
             _ ← upd_task pid (t_set_tf (tf pt));
             _ ← for_stack (copy_stack_page pid);
             _ ← setup_user_program pid;
             _ ← upd_task p (fun t => t_set_tf (tf_set_eax (tf t) (u32 pid)) t);
             upd_task pid (fun t => t_set_tf (tf_set_eax (tf t) 0) t)
         | None => mret tt
         end);
    _ ← on_cpus_lock spin_lock;
    _ ← dispatch pid;
    _ ← on_cpus_lock spin_unlock;
    mret pid.

(** ** Initialisation *)

Definition set_gdt_entry (i : Z) (d : Segdesc) : M tk_state unit :=
  g ← gets gdt; g' ← need (zset g i d) "gdt[] write"; modify (set_gdt g').

(** [sd_s = 0] of the descriptor just written. *)
Definition clear_sd_s (d : Segdesc) : Segdesc :=
  mkSegdesc (sd_lim_15_0 d) (sd_base_15_0 d) (sd_base_23_16 d) (sd_type d) 0 (sd_dpl d) (sd_p d)
    (sd_lim_19_16 d) (sd_avl d) (sd_rsv1 d) (sd_db d) (sd_g d) (sd_base_31_24 d).

Definition task_init_percpu : M tk_state unit :=
  me ← gets cpunum;
  c ← thiscpu;
  let id := cpu_id c in
  _ ← upd_thiscpu (c_set_tss (tss_with (u32 (percpu_kstacks K + id * KSTKSIZE + KSTKSIZE)) GD_KD
                               (Z.lor GD_UD 0x03) (Z.lor GD_UD 0x03)));
  let slot := Z.shiftr GD_TSS0 3 + id in
  _ ← set_gdt_entry slot (clear_sd_s (SEG16 STS_T32A (cpu_tss_addr K me) sizeof_tss 0));
  i ← task_create;
  _ ← upd_thiscpu (c_set_task (Some i));
  _ ← setup_user_program i;
  b ← gets bootcpu;
  bc ← get_cpu b;
  _ ← upd_task i (fun t => t_set_tf (tf_set_eip (tf t)
        (if (id =? cpu_id bc) then user_entry K else idle_entry K)) t);
  _ ← upd_task i (t_set_state TASK_RUNNING);
  q ← need (zset (replicate 32 0) 0 i) "runQueue[0]";
  _ ← upd_thiscpu (c_set_rq (mkRq 1 0 q));
  modify (set_seg_regs (gdt_addr K, 0, Z.shiftl slot 3)).

Definition task_init : M tk_state unit :=
  _ ← modify (set_user_sizes
        (u32 (UTEXT_end K - UTEXT_start K), u32 (UDATA_end K - UDATA_start K),
         u32 (UBSS_end K - UBSS_start K), u32 (URODATA_end K - URODATA_start K)));
  _ ← modify (fun s => set_tasks_lock (spin_initlock "&tasks_lock" (tasks_lock s)) s);
  _ ← modify (fun s => set_cpus_lock (spin_initlock "&cpus_lock" (cpus_lock s)) s);
  _ ← modify (set_tasks (replicate (Z.to_nat NR_TASKS) task0));
  task_init_percpu.
End Tasks.
