(* ===== verification/TaskInv.v ===== *)
(** * The scheduler's invariant and behaviour

    Proofs about [Task.v]: what the memory code leaves alone, the run queue
    operations, the choice [sched_yield] makes, and the invariant that all
    operations of all CPUs together keep: every task is in exactly one run
    queue, at most once, and a CPU runs a task of its own queue. *)

From S2P Require Import Prelude.
From S2P Require Import Machine.
From S2P Require Import Kmonad.
From S2P Require Import Spinlock.
From S2P Require Import PageAlloc.
From S2P Require Import Paging.
From Stdlib Require Import ZArith Lia.
From stdpp Require Import base gmap list strings.
From S2P Require Import Task.

Local Open Scope Z_scope.

(** ** Memory operations run on one CPU *)

(** The CPU and the kernel's directory stay. *)
Definition same_ctx (s s' : mm_state) : Prop := c_ctx (cfg s') = c_ctx (cfg s).

#[global] Instance same_ctx_preorder : PreOrder same_ctx.
Proof. split; [done|]. intros ???. unfold same_ctx. congruence. Qed.

(** Locking returns or stops. *)
Definition returns {S} (f : cpu_ctx -> M S unit) : Prop := forall c, pres (fun _ _ => True) (f c).

Lemma returns_lock : returns spin_lock.
Proof. intros c s. unfold spin_lock, get, mbind, M_bind. destruct (holding c s); [done|]. by destruct (truth _). Qed.
Lemma returns_unlock : returns spin_unlock.
Proof. intros c s. unfold spin_unlock, get, mbind, M_bind. by destruct (negb _). Qed.

Lemma pres_with_lock f : returns f -> pres same_ctx (with_lock f).
Proof. intros H. unfold with_lock. pres_tac. by apply (pres_zoom _ _ _ _ (fun _ _ => True)). Qed.

Lemma pres_KADDR pa : pres same_ctx (KADDR pa).
Proof. unfold KADDR. pres_tac. Qed.
Lemma pres_PADDR va : pres same_ctx (PADDR va).
Proof. unfold PADDR. pres_tac. Qed.
Lemma pres_pa2page pa : pres same_ctx (pa2page pa).
Proof. unfold pa2page. pres_tac. Qed.
Lemma pres_load32 a : pres same_ctx (load32 a).
Proof. unfold load32. pres_tac. Qed.
Lemma pres_store32 a v : pres same_ctx (store32 a v).
Proof. intros s. unfold store32, get, put, mbind, M_bind. by destruct (word_ok _ _). Qed.
Lemma pres_memset v c n : pres same_ctx (memset v c n).
Proof.
  intros s. unfold memset, get, put, mbind, M_bind. destruct (n =? 0); [done|].
  destruct (negb _); [done|]. cbv zeta. by destruct (_ && _).
Qed.
Lemma pres_memcpy d r n : pres same_ctx (memcpy d r n).
Proof. intros s. unfold memcpy, get, put, mbind, M_bind. cbv zeta. by destruct (_ && _). Qed.
Lemma pres_page_get pp : pres same_ctx (page_get pp).
Proof. unfold page_get. pres_tac. Qed.
Lemma pres_page_put pp pi : pres same_ctx (page_put pp pi).
Proof. unfold page_put. pres_tac. by apply pres_modify. Qed.
#[export] Hint Resolve returns_lock returns_unlock pres_with_lock pres_KADDR pres_PADDR pres_pa2page pres_load32
  pres_store32 pres_memset pres_memcpy pres_page_get pres_page_put : pres.

(** Assignments to one variable of the memory code. *)
Lemma pres_set_free_list h : pres same_ctx (modify (set_page_free_list h)).
Proof. by apply pres_modify. Qed.
Lemma pres_set_num_free n : pres same_ctx (modify (set_num_free_pages n)).
Proof. by apply pres_modify. Qed.
Lemma pres_lcr3 v : pres same_ctx (lcr3 v).
Proof. by apply pres_modify. Qed.
Lemma pres_tlb d va : pres same_ctx (tlb_invalidate d va).
Proof. by apply pres_modify. Qed.
#[export] Hint Resolve pres_set_free_list pres_set_num_free pres_lcr3 pres_tlb : pres.

Lemma pres_set_pp_link pp l : pres same_ctx (set_pp_link pp l).
Proof. unfold set_pp_link. pres_tac. Qed.
Lemma pres_set_pp_ref pp r : pres same_ctx (set_pp_ref pp r).
Proof. unfold set_pp_ref. pres_tac. Qed.
#[export] Hint Resolve pres_set_pp_link pres_set_pp_ref : pres.

Lemma pres_page2kva pp : pres same_ctx (page2kva pp).
Proof. apply pres_KADDR. Qed.
#[export] Hint Resolve pres_page2kva : pres.

Lemma pres_page_alloc f : pres same_ctx (page_alloc f).
Proof. unfold page_alloc. pres_tac. Qed.
Lemma pres_page_free pp : pres same_ctx (page_free pp).
Proof. unfold page_free. pres_tac. Qed.
#[export] Hint Resolve pres_page_alloc pres_page_free : pres.

Lemma pres_page_decref pp : pres same_ctx (page_decref pp).
Proof. unfold page_decref. pres_tac. Qed.
Lemma pres_pgdir_walk d va c : pres same_ctx (pgdir_walk d va c).
Proof. unfold pgdir_walk. pres_tac. Qed.
#[export] Hint Resolve pres_page_decref pres_pgdir_walk : pres.

Lemma pres_page_lookup d va st : pres same_ctx (page_lookup d va st).
Proof. unfold page_lookup. pres_tac. Qed.
#[export] Hint Resolve pres_page_lookup : pres.

Lemma pres_page_remove g d va : pres same_ctx (page_remove g d va).
Proof. unfold page_remove. pres_tac. Qed.
#[export] Hint Resolve pres_page_remove : pres.

Lemma pres_page_insert g d pp va p : pres same_ctx (page_insert g d pp va p).
Proof. unfold page_insert. pres_tac. Qed.

Lemma pres_boot_map d va sz pa p : pres same_ctx (boot_map_region d va sz pa p).
Proof.
  unfold boot_map_region. generalize (Z.to_nat (sz / PGSIZE)). intros n.
  revert va sz pa. induction n as [|n IH]; intros; simpl; pres_tac.
Qed.
#[export] Hint Resolve pres_page_insert pres_boot_map : pres.

Lemma pres_map_kstacks k n d i : pres same_ctx (map_kstacks k n d i).
Proof. revert i. induction n as [|n IH]; intros; simpl; pres_tac. Qed.
#[export] Hint Resolve pres_map_kstacks : pres.

Lemma pres_setupkvm k l a : pres same_ctx (setupkvm k l a).
Proof. unfold setupkvm. pres_tac. Qed.
Lemma pres_check_va2pa d va : pres same_ctx (check_va2pa d va).
Proof. unfold check_va2pa. pres_tac. Qed.
Lemma pres_ptable_remove d : pres same_ctx (ptable_remove d).
Proof.
  unfold ptable_remove. generalize 1024%nat. intros n. generalize 0.
  induction n as [|n IH]; intros i; cbn [ptable_remove_loop]; pres_tac.
Qed.
Lemma pres_pgdir_remove d : pres same_ctx (pgdir_remove d).
Proof. unfold pgdir_remove. pres_tac. Qed.
#[export] Hint Resolve pres_setupkvm pres_check_va2pa pres_ptable_remove pres_pgdir_remove : pres.

Lemma pres_setupvm d st sz : pres same_ctx (setupvm d st sz).
Proof. unfold setupvm. pres_tac. Qed.
#[export] Hint Resolve pres_setupvm : pres.

(** ** Run queues *)

Definition live (q : Runqueue) : list Z := take (Z.to_nat (total q)) (runQueue q).

Record rq_ok (q : Runqueue) : Prop := {
  rq_length : length (runQueue q) = 32%nat;
  rq_total : 0 <= total q <= 32;
  rq_cur : 0 <= current_index q
}.

Lemma length_live q : rq_ok q -> Z.of_nat (length (live q)) = total q.
Proof. intros [Hl Ht Hci]. unfold live. rewrite length_take. lia. Qed.

Lemma live_lookup q i : rq_ok q -> 0 <= i < total q -> zget (runQueue q) i = live q !! Z.to_nat i.
Proof.
  intros [Hl Ht Hci] Hi. unfold zget, live. destruct (Z.leb_spec 0 i); [|lia].
  rewrite lookup_take_lt by lia. done.
Qed.

Lemma rq_push_spec pid q :
  rq_ok q -> total q < 32 ->
  exists q', rq_push pid q = Some q' /\ rq_ok q' /\ live q' = live q ++ [pid]
             /\ total q' = total q + 1.
Proof.
  intros [Hl Ht Hci] Hlt. unfold rq_push. rewrite zset_Some by lia. simpl.
  eexists. split; [done|]. split; [|split; [|done]].
  - split; simpl; [by rewrite length_insert|lia|done].
  - unfold live. simpl. rewrite Z2Nat.inj_add by lia. change (Z.to_nat 1) with 1%nat.
    rewrite Nat.add_1_r. rewrite (take_S_r _ _ pid) by (apply list_lookup_insert_eq; lia).
    by rewrite take_insert_ge by lia.
Qed.

(** Overwriting entry [i] with the last one and shortening the list removes it. *)
Lemma swap_remove_perm (l : list Z) t i x y :
  (i < t)%nat -> l !! i = Some x -> l !! (t - 1)%nat = Some y ->
  take t l ≡ₚ x :: take (t - 1) (<[i := y]> l).
Proof.
  intros Hi Hx Hy. replace t with (S (t - 1)) at 1 by lia.
  rewrite (take_S_r _ _ y Hy). destruct (decide (i = (t - 1)%nat)) as [->|Hne].
  - rewrite take_insert_ge by lia. simplify_eq. symmetry. apply Permutation_cons_append.
  - rewrite take_insert_lt by lia.
    assert (take (t - 1) l !! i = Some x) as Hx' by (rewrite lookup_take_lt by lia; done).
    rewrite <- (take_drop_middle _ _ _ Hx') at 1.
    apply lookup_lt_Some in Hx' as Hlt. rewrite insert_take_drop by done.
    rewrite <- app_assoc. simpl.
    etrans; [symmetry; apply Permutation_middle|]. apply perm_skip, Permutation_app_head.
    symmetry. apply Permutation_cons_append.
Qed.

Lemma rq_remove_loop_found n pid q i :
  rq_ok q -> 0 <= i -> i + Z.of_nat n = total q ->
  (forall k, 0 <= k < i -> live q !! Z.to_nat k <> Some pid) -> pid ∈ live q ->
  exists q', rq_remove_loop n i pid q = Some q' /\ rq_ok q' /\ live q ≡ₚ pid :: live q'
             /\ total q' = total q - 1 /\ current_index q' = current_index q.
Proof.
  intros Hq. revert i. induction n as [|n IH]; intros i Hi Hn Hbefore Hin.
  { apply list_elem_of_lookup in Hin as [k Hk]. exfalso.
    pose proof (lookup_lt_Some _ _ _ Hk). pose proof (length_live q Hq).
    apply (Hbefore (Z.of_nat k)); [lia|]. by rewrite Nat2Z.id. }
  cbn [rq_remove_loop]. pose proof Hq as [Hl Ht Hci].
  destruct (zget_is_Some (runQueue q) i) as [p Hp]; [lia|].
  rewrite Hp. simpl. destruct (Z.eqb_spec p pid) as [->|Hne].
  - destruct (zget_is_Some (runQueue q) (total q - 1)) as [y Hy]; [lia|].
    rewrite Hy. simpl. rewrite zset_Some by lia. simpl.
    eexists. split; [done|]. split; [split; simpl; [by rewrite length_insert|lia|done]|].
    split; [|done]. unfold live. simpl. unfold zget in Hp, Hy.
    destruct (Z.leb_spec 0 i); [|lia]. destruct (Z.leb_spec 0 (total q - 1)); [|lia].
    replace (Z.to_nat (total q - 1)) with (Z.to_nat (total q) - 1)%nat in * by lia.
    apply swap_remove_perm; [lia|done|done].
  - apply IH; [lia|lia| |done]. intros k Hk.
    destruct (Z.eq_dec k i) as [->|]; [|apply Hbefore; lia].
    rewrite <- live_lookup by (done || lia). rewrite Hp. congruence.
Qed.

Lemma rq_remove_found pid q :
  rq_ok q -> pid ∈ live q ->
  exists q', rq_remove pid q = Some q' /\ rq_ok q' /\ live q ≡ₚ pid :: live q'
             /\ total q' = total q - 1 /\ current_index q' = current_index q.
Proof.
  intros Hq Hin. pose proof Hq as [Hl Ht Hci]. apply rq_remove_loop_found; [done|lia|lia| |done].
  intros; lia.
Qed.

(** [min_cpu] finds a CPU with the fewest tasks among the first [n]. *)
Lemma min_cpu_loop n cs i m idx :
  0 <= i -> i + Z.of_nat n <= Z.of_nat (length cs) -> 0 <= idx < Z.of_nat (length cs) ->
  exists r, min_cpu n cs i m idx = Some r /\ 0 <= r < Z.of_nat (length cs)
    /\ (r = idx /\ (forall j c, i <= j < i + Z.of_nat n -> zget cs j = Some c ->
                                m <= total (cpu_rq c))
        \/ i <= r < i + Z.of_nat n
           /\ exists cr, zget cs r = Some cr /\ total (cpu_rq cr) < m
              /\ forall j c, i <= j < i + Z.of_nat n -> zget cs j = Some c ->
                             total (cpu_rq cr) <= total (cpu_rq c)).
Proof.
  revert i m idx. induction n as [|n IH]; intros i m idx Hi Hn Hidx; cbn [min_cpu].
  { exists idx. split; [done|]. split; [done|]. left. split; [done|]. intros; lia. }
  destruct (zget_is_Some cs i) as [c Hc]; [lia|]. rewrite Hc. simpl.
  destruct (Z.ltb_spec (total (cpu_rq c)) m) as [Hlt|Hge].
  - destruct (IH (i + 1) (total (cpu_rq c)) i) as (r & Hr & Hrr & H); [lia..|].
    exists r. split; [done|]. split; [done|]. right.
    destruct H as [[-> Hm]|[Hr2 (cr & Hcr & Hcm & Hm)]].
    + split; [lia|]. exists c. split; [done|]. split; [done|]. intros j c' Hj Hj'.
      destruct (Z.eq_dec j i) as [->|]; [simplify_eq; lia|]. apply (Hm j c'); [lia|done].
    + split; [lia|]. exists cr. split; [done|]. split; [lia|]. intros j c' Hj Hj'.
      destruct (Z.eq_dec j i) as [->|]; [simplify_eq; lia|]. apply (Hm j c'); [lia|done].
  - destruct (IH (i + 1) m idx) as (r & Hr & Hrr & H); [lia..|].
    exists r. split; [done|]. split; [done|].
    destruct H as [[-> Hm]|[Hr2 (cr & Hcr & Hcm & Hm)]].
    + left. split; [done|]. intros j c' Hj Hj'.
      destruct (Z.eq_dec j i) as [->|]; [simplify_eq; lia|]. apply (Hm j c'); [lia|done].
    + right. split; [lia|]. exists cr. split; [done|]. split; [lia|]. intros j c' Hj Hj'.
      destruct (Z.eq_dec j i) as [->|]; [simplify_eq; lia|]. apply (Hm j c'); [lia|done].
Qed.

(** ** The invariant *)

(** All queued tasks, CPU by CPU. *)
Definition all_live (s : tk_state) : list Z := cpus s ≫= (fun c => live (cpu_rq c)).

(** [x] is a task on its way into a queue: created, not yet dispatched. *)
Record sched_inv_x (x : option Z) (s : tk_state) : Prop := {
  si_tasks : length (tasks s) = 32%nat;
  si_rq : forall c, c ∈ cpus s -> rq_ok (cpu_rq c);
  si_nodup : NoDup (all_live s);
  si_live : forall p, p ∈ all_live s ->
    exists t, zget (tasks s) p = Some t /\ state t <> TASK_FREE /\ task_id t = p;
  si_queued : forall p t, zget (tasks s) p = Some t -> state t <> TASK_FREE ->
    p ∈ all_live s \/ x = Some p;
  si_cur : forall c p, c ∈ cpus s -> cpu_task c = Some p -> p ∈ live (cpu_rq c);
  si_extra : forall p, x = Some p -> (p ∉ all_live s) /\
    exists t, zget (tasks s) p = Some t /\ state t <> TASK_FREE /\ task_id t = p
}.

Definition sched_inv : tk_state -> Prop := sched_inv_x None.

(** Between two states no task, queue or CPU number changed. *)
Definition same_sched (s s' : tk_state) : Prop :=
  tasks s' = tasks s /\ cpus s' = cpus s /\ cpunum s' = cpunum s /\ ncpu s' = ncpu s.

#[global] Instance same_sched_preorder : PreOrder same_sched.
Proof. split; [done|]. intros ??? (?&?&?&?) (?&?&?&?). repeat split; congruence. Qed.

Lemma inv_ext x s s' : tasks s' = tasks s -> cpus s' = cpus s -> sched_inv_x x s -> sched_inv_x x s'.
Proof.
  intros Et Ec [I1 I2 I3 I4 I5 I6 I7].
  assert (all_live s' = all_live s) as El by (unfold all_live; by rewrite Ec).
  split; rewrite ?Et, ?Ec, ?El; done.
Qed.

Lemma inv_same x s s' : same_sched s s' -> sched_inv_x x s -> sched_inv_x x s'.
Proof. intros (Et & Ec & _). by apply inv_ext. Qed.

(** A task update that keeps its identity and whether it is free. *)
Lemma inv_upd_task x s i t t' ts' :
  sched_inv_x x s -> zget (tasks s) i = Some t -> zset (tasks s) i t' = Some ts' ->
  task_id t' = task_id t -> (state t' = TASK_FREE <-> state t = TASK_FREE) ->
  sched_inv_x x (set_tasks ts' s).
Proof.
  intros [I1 I2 I3 I4 I5 I6 I7] Hg Hs Hid Hst.
  assert (forall p, (exists t, zget (tasks s) p = Some t /\ state t <> TASK_FREE /\ task_id t = p) ->
            exists t, zget ts' p = Some t /\ state t <> TASK_FREE /\ task_id t = p) as Hx.
  { intros p (u & Hu & Hf & Hi). destruct (decide (i = p)) as [->|].
    - exists t'. rewrite (zget_zset_eq _ _ _ _ Hs). simplify_eq. rewrite Hid, Hst. done.
    - exists u. by rewrite (zget_zset_ne _ _ _ _ _ Hs). }
  split; try done; simpl.
  - by rewrite (zset_length _ _ _ _ Hs).
  - intros p Hp. apply Hx. by apply I4.
  - intros p u Hu Hf. destruct (decide (i = p)) as [->|].
    + rewrite (zget_zset_eq _ _ _ _ Hs) in Hu. simplify_eq. apply (I5 p t Hg).
      by rewrite <- Hst.
    + rewrite (zget_zset_ne _ _ _ _ _ Hs) in Hu by done. by apply (I5 p u).
  - intros p Hp. destruct (I7 p Hp) as [Hn He]. split; [done|]. by apply Hx.
Qed.

(** Replacing one CPU of the array. *)
Lemma zset_split {A} (l l' : list A) i x y :
  zget l i = Some x -> zset l i y = Some l' ->
  exists l1 l2, l = l1 ++ x :: l2 /\ l' = l1 ++ y :: l2 /\ Z.of_nat (length l1) = i.
Proof.
  intros Hg Hs. apply zset_inv in Hs as [Hr ->]. unfold zget in Hg.
  destruct (Z.leb_spec 0 i); [|done].
  exists (take (Z.to_nat i) l), (drop (S (Z.to_nat i)) l).
  rewrite take_drop_middle by done. split; [done|]. rewrite insert_take_drop by lia.
  split; [done|]. rewrite length_take. lia.
Qed.

Lemma all_live_split s l1 c l2 :
  cpus s = l1 ++ c :: l2 ->
  all_live s ≡ₚ live (cpu_rq c) ++ ((l1 ++ l2) ≫= (fun c => live (cpu_rq c))).
Proof.
  intros E. unfold all_live. rewrite E, !bind_app, bind_cons.
  rewrite !app_assoc. apply Permutation_app_tail. apply Permutation_app_comm.
Qed.

(** A CPU update that keeps the queue's entries, and whose task is one of them. *)
Lemma inv_upd_cpu x s i c c' cs' :
  sched_inv_x x s -> zget (cpus s) i = Some c -> zset (cpus s) i c' = Some cs' ->
  rq_ok (cpu_rq c') -> live (cpu_rq c') = live (cpu_rq c) ->
  (forall p, cpu_task c' = Some p -> p ∈ live (cpu_rq c')) ->
  sched_inv_x x (set_cpus cs' s).
Proof.
  intros [I1 I2 I3 I4 I5 I6 I7] Hg Hs Hq Hl Ht.
  destruct (zset_split _ _ _ _ _ Hg Hs) as (l1 & l2 & E1 & E2 & _).
  assert (all_live (set_cpus cs' s) = all_live s) as El.
  { unfold all_live. simpl. rewrite E1, E2, !bind_app, !bind_cons. by rewrite Hl. }
  split; rewrite ?El; try done; simpl; rewrite E2; rewrite E1 in I2, I6.
  - intros d [?|[->|?]%elem_of_cons]%elem_of_app; [|done|]; apply I2;
      rewrite elem_of_app, elem_of_cons; auto.
  - intros d p [?|[->|?]%elem_of_cons]%elem_of_app; [|by apply Ht|]; apply I6;
      rewrite ?elem_of_app, ?elem_of_cons; auto.
Qed.

(** ** Statements as equations *)

Lemma get_task_eq s i t : zget (tasks s) i = Some t -> get_task i s = Ret t s.
Proof. intros H. unfold get_task, gets, mbind, M_bind, need. by rewrite H. Qed.

Lemma upd_task_eq s i t f :
  zget (tasks s) i = Some t ->
  upd_task i f s = Ret tt (set_tasks (<[Z.to_nat i := f t]> (tasks s)) s).
Proof.
  intros H. unfold upd_task, mbind, M_bind. rewrite (get_task_eq _ _ _ H). simpl.
  rewrite zset_Some by (by eapply zget_Some_range). done.
Qed.

Lemma get_cpu_eq s i c : zget (cpus s) i = Some c -> get_cpu i s = Ret c s.
Proof. intros H. unfold get_cpu, gets, mbind, M_bind, need. by rewrite H. Qed.

Lemma upd_cpu_eq s i c f :
  zget (cpus s) i = Some c ->
  upd_cpu i f s = Ret tt (set_cpus (<[Z.to_nat i := f c]> (cpus s)) s).
Proof.
  intros H. unfold upd_cpu, mbind, M_bind. rewrite (get_cpu_eq _ _ _ H). simpl.
  rewrite zset_Some by (by eapply zget_Some_range). done.
Qed.

Lemma thiscpu_eq s c : zget (cpus s) (cpunum s) = Some c -> thiscpu s = Ret c s.
Proof. intros H. unfold thiscpu, mbind, M_bind, gets. by apply get_cpu_eq. Qed.

Lemma upd_thiscpu_eq s c f :
  zget (cpus s) (cpunum s) = Some c ->
  upd_thiscpu f s = Ret tt (set_cpus (<[Z.to_nat (cpunum s) := f c]> (cpus s)) s).
Proof. intros H. unfold upd_thiscpu, mbind, M_bind, gets. by apply upd_cpu_eq. Qed.

Lemma zget_insert_eq {A} (l : list A) i x y :
  zget l i = Some x -> zget (<[Z.to_nat i := y]> l) i = Some y.
Proof.
  intros H. eapply zget_zset_eq. apply zset_Some. by eapply zget_Some_range.
Qed.

Lemma zget_insert_ne {A} (l : list A) i j y :
  0 <= i -> i <> j -> zget (<[Z.to_nat i := y]> l) j = zget l j.
Proof.
  intros Hi Hne. unfold zget. destruct (Z.leb_spec 0 j); [|done].
  apply list_lookup_insert_ne. lia.
Qed.

(** ** The choice of [sched_yield] *)

Definition runnable (s : tk_state) (p : Z) : bool :=
  match zget (tasks s) p with
  | Some t => bool_decide (state t = TASK_RUNNABLE)
  | None => false
  end.

(** The entry at index [i] of the queue can run. *)
Definition can_run (s : tk_state) (q : Runqueue) (i : Z) : Prop :=
  exists p, zget (runQueue q) i = Some p /\ runnable s p = true.

#[global] Instance can_run_dec s q i : Decision (can_run s q i).
Proof.
  destruct (zget (runQueue q) i) as [p|] eqn:E; [|right; intros (p & Hp & _); congruence].
  destruct (runnable s p) eqn:R; [left; by exists p|].
  right. intros (p' & Hp & Hr). congruence.
Defined.

(** The [n] indices after [i], going round a queue of [m] tasks. *)
Definition round (i : Z) (n : nat) (m : Z) : list Z :=
  (fun k => (i + k) mod m) <$> seqZ 1 (Z.of_nat n).

Lemma round_S i n m :
  0 < m -> round i (S n) m = (i + 1) mod m :: round ((i + 1) mod m) n m.
Proof.
  intros Hm. unfold round. rewrite Nat2Z.inj_succ, <- Z.add_1_r.
  rewrite seqZ_cons by lia. rewrite fmap_cons. f_equal.
  replace (Z.pred (Z.of_nat n + 1)) with (Z.of_nat n) by lia.
  replace (Z.succ 1) with (1 + 1) by lia. rewrite <- (fmap_add_seqZ 1 1).
  rewrite <- list_fmap_compose. apply list_fmap_ext. intros k x _. simpl.
  rewrite Zplus_mod_idemp_l. f_equal. lia.
Qed.

(** The state in which CPU [me] has switched to task [p] at index [i]. *)
Definition switched (s : tk_state) (c : CpuInfo) (i p : Z) (t : Task) : tk_state :=
  set_mm (upd_cfg (set_cr3 (u32 (pgdir t - KERNBASE))) (mm s))
    (set_cpus (<[Z.to_nat (cpunum s) := mkCpu (cpu_id c) (cpu_status c) (Some p)
                   (mkRq (total (cpu_rq c)) i (runQueue (cpu_rq c))) (cpu_tss c)]> (cpus s))
      (set_tasks (<[Z.to_nat p := mkTask (task_id t) (parent_id t) (tf t) TIME_QUANT TASK_RUNNING
                                    (pgdir t)]> (tasks s)) s)).

(** What a turn of the scheduler's loop at index [i] does when it finds a
    runnable task. *)
Definition switch_outcome (s : tk_state) (c : CpuInfo) (i : Z) : outcome tk_state unit :=
  match zget (runQueue (cpu_rq c)) i with
  | Some p =>
      match zget (tasks s) p with
      | Some t =>
          if (pgdir t <? KERNBASE) then Stop (Panic "PADDR called with invalid kva %08lx")
          else Iret (tf t) (switched s c i p t)
      | None => Stop (Fault "tasks[] read")
      end
  | None => Stop (Fault "runQueue[] read")
  end.

Lemma sched_loop_eq n i s c :
  zget (cpus s) (cpunum s) = Some c -> rq_ok (cpu_rq c) -> 0 < total (cpu_rq c) ->
  (forall p, p ∈ live (cpu_rq c) -> is_Some (zget (tasks s) p)) -> 0 <= i ->
  sched_loop n i s
  = match list_find (can_run s (cpu_rq c)) (round i n (total (cpu_rq c))) with
    | None => Ret tt s
    | Some (_, idx) => switch_outcome s c idx
    end.
Proof.
  intros Hc Hq Ht Hlive. revert i. induction n as [|n IH]; intros i Hi; [done|].
  cbn [sched_loop]. unfold mbind at 1, M_bind at 1. rewrite (thiscpu_eq _ _ Hc). cbv zeta.
  rewrite round_S by done. rewrite Z.rem_mod_nonneg by lia.
  set (j := (i + 1) mod total (cpu_rq c)).
  assert (0 <= j < total (cpu_rq c)) as Hj by (apply Z.mod_pos_bound; lia).
  pose proof (rq_total _ Hq) as Htot. pose proof (rq_length _ Hq) as Hlen.
  destruct (zget_is_Some (runQueue (cpu_rq c)) j) as [p Hp]; [lia|].
  assert (p ∈ live (cpu_rq c)) as Hin.
  { apply list_elem_of_lookup. exists (Z.to_nat j). rewrite <- live_lookup by done. done. }
  destruct (Hlive p Hin) as [t Htk]. simpl list_find.
  unfold mbind at 1, M_bind at 1. rewrite Hp. cbn [need]. unfold mret at 1, M_ret at 1.
  unfold mbind at 1, M_bind at 1. rewrite (get_task_eq _ _ _ Htk).
  destruct (decide (state t = TASK_RUNNABLE)) as [E|E].
  - rewrite decide_True by (exists p; unfold runnable; rewrite Htk, bool_decide_eq_true_2; done).
    unfold switch_outcome. rewrite Hp, Htk. unfold mbind, M_bind.
    rewrite (upd_thiscpu_eq _ _ _ Hc). rewrite (upd_task_eq (set_cpus _ s) p t _ Htk).
    rewrite (upd_thiscpu_eq _ (c_set_task (Some p) c)) by (by apply (zget_insert_eq _ _ c)).
    unfold on_mm, zoom, PADDR, mbind, M_bind, lcr3, modify. cbn [mm set_cpus set_tasks].
    destruct (Z.ltb_spec (pgdir t) KERNBASE); [done|]. unfold mret, M_ret.
    rewrite (get_task_eq _ _ (t_set_ticks TIME_QUANT (t_set_state TASK_RUNNING t)))
      by (by apply (zget_insert_eq _ _ t)).
    unfold iret. f_equal. unfold switched. simpl. by rewrite list_insert_insert_eq.
  - rewrite decide_False.
    + rewrite IH by lia. fold j. destruct (list_find _ _) as [[? ?]|]; done.
    + intros (p' & Hp' & Hr). unfold runnable in Hr. simplify_eq. rewrite Htk in Hr.
      by apply bool_decide_eq_true in Hr.
Qed.

(** Where the search begins. *)
Definition sched_start (c : CpuInfo) : Z :=
  match cpu_task c with Some _ => current_index (cpu_rq c) | None => 0 end.

Lemma zget_elem_of {A} (l : list A) i x : zget l i = Some x -> x ∈ l.
Proof. unfold zget. destruct (0 <=? i); [|done]. apply list_elem_of_lookup_2. Qed.

Lemma live_in_all s c p : c ∈ cpus s -> p ∈ live (cpu_rq c) -> p ∈ all_live s.
Proof. intros Hc Hp. unfold all_live. apply list_elem_of_bind. eauto. Qed.

Lemma sched_yield_eq x s c :
  sched_inv_x x s -> zget (cpus s) (cpunum s) = Some c ->
  sched_yield s
  = match list_find (can_run s (cpu_rq c))
            (round (sched_start c) (Z.to_nat (total (cpu_rq c))) (total (cpu_rq c))) with
    | None => Ret tt s
    | Some (_, idx) => switch_outcome s c idx
    end.
Proof.
  intros I Hc. unfold sched_yield, mbind, M_bind. rewrite (thiscpu_eq _ _ Hc). cbv zeta.
  fold (sched_start c). pose proof (si_rq _ _ I c (zget_elem_of _ _ _ Hc)) as Hq.
  pose proof (rq_total _ Hq) as Ht. pose proof (rq_cur _ Hq).
  destruct (Z.eq_dec (total (cpu_rq c)) 0) as [E|]; [by rewrite E|].
  apply sched_loop_eq; [done|done|lia| |unfold sched_start; destruct (cpu_task c); lia].
  intros p Hp. destruct (si_live _ _ I p) as (t & Ht' & _); [|eauto].
  eapply live_in_all; [|done]. by eapply zget_elem_of.
Qed.

(** How many entries the search skips before it comes to index [j]. *)
Definition rr_dist (i j m : Z) : Z := (j - i - 1) mod m.

Lemma round_lookup i n m k :
  round i n m !! k = if decide (k < n)%nat then Some ((i + Z.of_nat k + 1) mod m) else None.
Proof.
  unfold round. rewrite list_lookup_fmap. destruct (decide (k < n)%nat) as [H|H].
  - rewrite lookup_seqZ_lt by lia. simpl. do 2 f_equal. lia.
  - rewrite lookup_seqZ_ge by lia. done.
Qed.

Lemma round_dist i j m : 0 <= j < m -> round i (Z.to_nat m) m !! Z.to_nat (rr_dist i j m) = Some j.
Proof.
  intros Hj. unfold rr_dist. pose proof (Z.mod_pos_bound (j - i - 1) m ltac:(lia)).
  rewrite round_lookup, decide_True by lia. f_equal.
  rewrite Z2Nat.id by lia. replace (i + (j - i - 1) mod m + 1) with ((j - i - 1) mod m + (i + 1)) by lia.
  rewrite Zplus_mod_idemp_l. replace (j - i - 1 + (i + 1)) with j by lia. by apply Z.mod_small.
Qed.

(** The index found is no further away than any other that can run. *)
Lemma round_first s q i m k idx j :
  0 <= i -> list_find (can_run s q) (round i (Z.to_nat m) m) = Some (k, idx) ->
  0 <= j < m -> can_run s q j ->
  0 <= idx < m /\ can_run s q idx /\ rr_dist i idx m <= rr_dist i j m
  /\ (idx = j \/ rr_dist idx j m < rr_dist i j m).
Proof.
  intros Hi Hf Hj Hr. apply list_find_Some in Hf as (Hk & Hrun & Hmin).
  rewrite round_lookup in Hk. destruct (decide _) as [Hlt|]; [|done]. injection Hk as <-.
  pose proof (Z.mod_pos_bound (i + Z.of_nat k + 1) m ltac:(lia)) as Hb.
  split; [done|]. split; [done|].
  assert (rr_dist i ((i + Z.of_nat k + 1) mod m) m = Z.of_nat k) as Ed.
  { unfold rr_dist. rewrite <- Z.sub_add_distr, Zminus_mod_idemp_l.
    replace (i + Z.of_nat k + 1 - (i + 1)) with (Z.of_nat k) by lia. apply Z.mod_small. lia. }
  assert (0 <= rr_dist i j m < m) as Hdj by (apply Z.mod_pos_bound; lia).
  assert (Z.of_nat k <= rr_dist i j m) as Hle.
  { destruct (Z.le_gt_cases (Z.of_nat k) (rr_dist i j m)) as [|Hgt]; [done|].
    exfalso. eapply (Hmin _ j); [by apply round_dist|lia|done]. }
  split; [lia|]. destruct (Z.eq_dec ((i + Z.of_nat k + 1) mod m) j) as [|Hne]; [by left|].
  right. destruct (Z.eq_dec (Z.of_nat k) (rr_dist i j m)) as [E|].
  { exfalso. apply Hne. pose proof (round_dist i j m Hj) as Hj'. rewrite <- E, Nat2Z.id in Hj'.
    rewrite round_lookup, decide_True in Hj' by done. congruence. }
  enough (rr_dist ((i + Z.of_nat k + 1) mod m) j m = rr_dist i j m - Z.of_nat k - 1) by lia.
  unfold rr_dist at 1. replace (j - (i + Z.of_nat k + 1) mod m - 1)
    with (j - 1 - (i + Z.of_nat k + 1) mod m) by lia.
  rewrite Zminus_mod_idemp_r. unfold rr_dist in *.
  replace (j - 1 - (i + Z.of_nat k + 1)) with ((j - i - 1) - (Z.of_nat k + 1)) by lia.
  rewrite <- Zminus_mod_idemp_l. rewrite Z.mod_small; lia.
Qed.

(** ** Every operation keeps the invariant *)

Lemma switched_inv x s c i p t :
  sched_inv_x x s -> zget (cpus s) (cpunum s) = Some c -> zget (tasks s) p = Some t ->
  state t <> TASK_FREE -> 0 <= i < total (cpu_rq c) -> zget (runQueue (cpu_rq c)) i = Some p ->
  sched_inv_x x (switched s c i p t).
Proof.
  intros I Hc Ht Hst Hi Hp. pose proof (si_rq _ _ I c (zget_elem_of _ _ _ Hc)) as Hq.
  set (t' := mkTask (task_id t) (parent_id t) (tf t) TIME_QUANT TASK_RUNNING (pgdir t)).
  set (c' := mkCpu (cpu_id c) (cpu_status c) (Some p) (mkRq (total (cpu_rq c)) i (runQueue (cpu_rq c))) (cpu_tss c)).
  assert (sched_inv_x x (set_tasks (<[Z.to_nat p := t']> (tasks s)) s)) as I1.
  { apply (inv_upd_task x s p t t'); [exact I|exact Ht| |done|split; done].
    apply zset_Some. by eapply zget_Some_range. }
  assert (sched_inv_x x (set_cpus (<[Z.to_nat (cpunum s) := c']> (cpus s))
            (set_tasks (<[Z.to_nat p := t']> (tasks s)) s))) as I2.
  { eapply (inv_upd_cpu x _ (cpunum s) c c'); [exact I1|exact Hc| |..].
    - apply zset_Some. by eapply zget_Some_range.
    - destruct Hq. split; [done|done|]. simpl. lia.
    - done.
    - intros q [= <-]. apply list_elem_of_lookup. exists (Z.to_nat i).
      change (live (cpu_rq c')) with (live (cpu_rq c)). by rewrite <- live_lookup. }
  eapply inv_same; [|exact I2]. done.
Qed.

Lemma can_run_task s q i :
  can_run s q i -> exists p t, zget (runQueue q) i = Some p /\ zget (tasks s) p = Some t
                               /\ state t = TASK_RUNNABLE.
Proof.
  intros (p & Hp & Hr). unfold runnable in Hr. destruct (zget (tasks s) p) as [t|] eqn:Ht; [|done].
  apply bool_decide_eq_true in Hr. eauto.
Qed.

Lemma round_range i m k idx :
  0 < m -> round i (Z.to_nat m) m !! k = Some idx -> 0 <= idx < m.
Proof.
  intros Hm. rewrite round_lookup. case_decide; [|done]. intros [= <-].
  apply Z.mod_pos_bound. lia.
Qed.

Lemma safe_sched_yield x s c :
  sched_inv_x x s -> zget (cpus s) (cpunum s) = Some c ->
  safe sched_yield s (fun _ s' => s' = s) (sched_inv_x x).
Proof.
  intros I Hc. unfold safe. rewrite (sched_yield_eq x s c I Hc).
  destruct (list_find _ _) as [[k idx]|] eqn:Hf; [|done].
  apply list_find_Some in Hf as (Hk & Hrun & _).
  pose proof (si_rq _ _ I c (zget_elem_of _ _ _ Hc)) as Hq. pose proof (rq_total _ Hq).
  assert (0 < total (cpu_rq c)) as Hpos.
  { destruct (Z.eq_dec (total (cpu_rq c)) 0) as [E|]; [|lia]. rewrite E in Hk.
    rewrite round_lookup in Hk. by rewrite decide_False in Hk by lia. }
  apply round_range in Hk; [|done].
  destruct (can_run_task _ _ _ Hrun) as (p & t & Hp & Ht & Hst).
  unfold switch_outcome. rewrite Hp, Ht. destruct (pgdir t <? KERNBASE); [done|].
  apply switched_inv; try done. congruence.
Qed.

(** Memory and lock operations. *)
Lemma pres_on_mm {A} (m : M mm_state A) : pres same_ctx m -> pres same_sched (on_mm m).
Proof.
  intros H. apply (pres_zoom _ _ _ _ same_ctx); [|done]. intros s t E.
  repeat split. unfold cpunum. simpl. by rewrite E.
Qed.

Lemma pres_tasks_lock f : returns f -> pres same_sched (on_tasks_lock f).
Proof.
  intros H. unfold on_tasks_lock, lock_with. pres_tac. by apply (pres_zoom _ _ _ _ (fun _ _ => True)).
Qed.

Lemma pres_cpus_lock f : returns f -> pres same_sched (on_cpus_lock f).
Proof.
  intros H. unfold on_cpus_lock, lock_with. pres_tac. by apply (pres_zoom _ _ _ _ (fun _ _ => True)).
Qed.

Lemma pres_get_task i : pres same_sched (get_task i).
Proof. unfold get_task. pres_tac. Qed.
Lemma pres_thiscpu : pres same_sched thiscpu.
Proof. unfold thiscpu, get_cpu. pres_tac. Qed.
Lemma pres_cur : pres same_sched cur.
Proof. unfold cur. pres_tac; apply pres_thiscpu. Qed.
#[export] Hint Resolve pres_tasks_lock pres_cpus_lock pres_get_task pres_thiscpu pres_cur : pres.

Ltac mm_tac := repeat first [apply pres_on_mm | pres_step].

Lemma pres_for_stack body : (forall va, pres same_sched (body va)) -> pres same_sched (for_stack body).
Proof.
  intros H. unfold for_stack. generalize (Z.to_nat (USR_STACK_SIZE / PGSIZE)) USTACKTOP.
  intros n. induction n as [|n IH]; intros va; simpl; pres_tac.
Qed.

Lemma pres_stack_page K pid va : pres same_sched (stack_page K pid va).
Proof. unfold stack_page. mm_tac. Qed.

Lemma pres_copy_stack_page pid va : pres same_sched (copy_stack_page pid va).
Proof. unfold copy_stack_page. mm_tac. Qed.

Lemma pres_setup_user_program K i : pres same_sched (setup_user_program K i).
Proof. unfold setup_user_program. mm_tac. Qed.

Lemma pres_task_free K pid : pres same_sched (task_free K pid).
Proof. unfold task_free. mm_tac. apply pres_for_stack. intros va. mm_tac. Qed.
#[export] Hint Resolve pres_stack_page pres_copy_stack_page pres_setup_user_program
  pres_task_free pres_for_stack : pres.

(** *** Rules for [safe] *)

Section Rules.
Context (I : tk_state -> Prop) (s : tk_state).

Lemma safe_get_task i Q :
  (forall t, zget (tasks s) i = Some t -> Q t s) -> safe (get_task i) s Q I.
Proof. intros H. unfold get_task. safe_steps. apply safe_need. auto. Qed.

Lemma safe_upd_task i f Q :
  (forall t, zget (tasks s) i = Some t ->
     Q tt (set_tasks (<[Z.to_nat i := f t]> (tasks s)) s)) -> safe (upd_task i f) s Q I.
Proof.
  intros H. unfold safe. destruct (zget (tasks s) i) as [t|] eqn:E.
  - rewrite (upd_task_eq _ _ _ _ E). auto.
  - unfold upd_task, get_task, gets, mbind, M_bind. by rewrite E.
Qed.

Lemma safe_thiscpu Q :
  (forall c, zget (cpus s) (cpunum s) = Some c -> Q c s) -> safe thiscpu s Q I.
Proof. intros H. unfold thiscpu, get_cpu. safe_steps. apply safe_need. auto. Qed.

Lemma safe_upd_cpu i f Q :
  (forall c, zget (cpus s) i = Some c ->
     Q tt (set_cpus (<[Z.to_nat i := f c]> (cpus s)) s)) -> safe (upd_cpu i f) s Q I.
Proof.
  intros H. unfold safe. destruct (zget (cpus s) i) as [c|] eqn:E.
  - rewrite (upd_cpu_eq _ _ _ _ E). auto.
  - unfold upd_cpu, get_cpu, gets, mbind, M_bind. by rewrite E.
Qed.

Lemma safe_upd_thiscpu f Q :
  (forall c, zget (cpus s) (cpunum s) = Some c ->
     Q tt (set_cpus (<[Z.to_nat (cpunum s) := f c]> (cpus s)) s)) -> safe (upd_thiscpu f) s Q I.
Proof. intros H. unfold upd_thiscpu. safe_steps. by apply safe_upd_cpu. Qed.

(** An update of a task that keeps its identity and whether it is free. *)
Lemma safe_upd_task_inv x i f (Q : unit -> tk_state -> Prop) :
  sched_inv_x x s ->
  (forall t, task_id (f t) = task_id t /\ (state (f t) = TASK_FREE <-> state t = TASK_FREE)) ->
  (forall s', sched_inv_x x s' -> cpus s' = cpus s -> cpunum s' = cpunum s -> ncpu s' = ncpu s ->
     Q tt s') ->
  safe (upd_task i f) s Q I.
Proof.
  intros Inv Hf HQ. apply safe_upd_task. intros t Ht. apply HQ; [|done..].
  destruct (Hf t) as [H1 H2].
  eapply inv_upd_task; [exact Inv|exact Ht| |exact H1|exact H2].
  apply zset_Some. by eapply zget_Some_range.
Qed.
End Rules.

Lemma safe_find_free I n i s :
  safe (find_free n i) s (fun r s' => s' = s /\ forall p, r = Some p ->
    exists t, zget (tasks s) p = Some t /\ state t = TASK_FREE) I.
Proof.
  revert i. induction n as [|n IH]; intros i; cbn [find_free]; [by safe_steps|].
  safe_step. apply safe_get_task. intros t Ht. destruct (decide _) as [E|E]; [|apply IH].
  safe_step. split; [done|]. intros p [= <-]. eauto.
Qed.

(** *** Creation *)

(** A free task that becomes runnable is the one task outside the queues. *)
Lemma inv_created s p t t' :
  sched_inv s -> zget (tasks s) p = Some t -> state t = TASK_FREE ->
  state t' <> TASK_FREE -> task_id t' = p ->
  sched_inv_x (Some p) (set_tasks (<[Z.to_nat p := t']> (tasks s)) s).
Proof.
  intros [I1 I2 I3 I4 I5 I6 I7] Ht Hf Hn Hid.
  assert (p ∉ all_live s) as Hout.
  { intros (u & Hu & Hfu & _)%I4. congruence. }
  pose proof (zget_Some_range _ _ _ Ht) as Hr.
  split; try done; simpl.
  - by rewrite length_insert.
  - intros q Hq. rewrite zget_insert_ne; [by apply I4|lia|]. by intros ->.
  - intros q u. destruct (decide (p = q)) as [->|]; [by right|].
    rewrite zget_insert_ne by (done || lia). intros Hu Hfu. left.
    by destruct (I5 q u Hu Hfu).
  - intros q [= <-]. split; [done|]. exists t'. split; [by eapply zget_insert_eq|done].
Qed.

Definition frame_cpus (s s' : tk_state) : Prop :=
  cpus s' = cpus s /\ cpunum s' = cpunum s /\ ncpu s' = ncpu s.

Lemma same_frame s s' : same_sched s s' -> frame_cpus s s'.
Proof. by intros (_ & ? & ? & ?). Qed.

#[global] Instance frame_cpus_preorder : PreOrder frame_cpus.
Proof. split; [done|]. intros ??? (?&?&?) (?&?&?). repeat split; congruence. Qed.

(** [s'] is [s] as far as the invariant goes, with task [pid] still free. *)
Definition reserved (pid : Z) (s s' : tk_state) : Prop :=
  sched_inv s' /\ frame_cpus s s'
  /\ exists t, zget (tasks s') pid = Some t /\ state t = TASK_FREE.

Lemma reserved_same pid s s1 s2 : reserved pid s s1 -> same_sched s1 s2 -> reserved pid s s2.
Proof.
  intros (I & F & t & Ht & Hf) E. split; [by eapply inv_same|].
  split; [etrans; [done|by apply same_frame]|]. exists t. by destruct E as [-> _].
Qed.

Lemma safe_reserved_upd pid s s1 f I (Q : unit -> tk_state -> Prop) :
  reserved pid s s1 -> (forall t, task_id (f t) = task_id t /\ state (f t) = state t) ->
  (forall s', reserved pid s s' -> Q tt s') -> safe (upd_task pid f) s1 Q I.
Proof.
  intros (Inv & F & t & Ht & Hf) Hk HQ. apply safe_upd_task. intros t' Ht'. simplify_eq.
  destruct (Hk t) as [Hid Hst]. apply HQ. split; [|split].
  - eapply inv_upd_task; [exact Inv|exact Ht| |exact Hid|by rewrite Hst].
    apply zset_Some. by eapply zget_Some_range.
  - etrans; [exact F|done].
  - exists (f t). split; [by eapply zget_insert_eq|congruence].
Qed.

(** Steps that change no task, queue or CPU. *)
Ltac safe_same a s' H :=
  apply (safe_pres same_sched); [by mm_tac | intros a s' H].

Lemma safe_task_create K I s :
  sched_inv s ->
  safe (task_create K) s (fun pid s' => frame_cpus s s' /\
    (pid = -1 /\ sched_inv s' \/ 0 <= pid /\ sched_inv_x (Some pid) s')) I.
Proof.
  intros Inv. unfold task_create. safe_step. safe_same u s1 E1. safe_step.
  eapply safe_mono; [apply safe_find_free|]. intros r s2 (-> & Hr).
  destruct r as [pid|]; cycle 1.
  { safe_step. safe_same u' s3 E3. safe_step. assert (same_sched s s3) as E by by etrans.
    split; [by apply same_frame|]. left. split; [done|by eapply inv_same]. }
  assert (reserved pid s s1) as R1.
  { split; [by eapply inv_same|]. split; [by apply same_frame|]. by apply Hr. }
  safe_step. safe_same pd s3 E3. safe_step.
  apply (safe_reserved_upd pid s); [by eapply reserved_same|done|]. intros s4 R4.
  safe_step. destruct (bool_decide _); cbn [when]; [by safe_step|]. safe_step. safe_step.
  safe_same ok s5 E5. pose proof (reserved_same _ _ _ _ R4 E5) as R5. destruct (negb ok).
  { safe_step. safe_same u' s6 E6. safe_step.
    destruct (reserved_same _ _ _ _ R5 E6) as (I6 & F6 & _). split; [done|]. by left. }
  safe_step. apply (safe_reserved_upd pid s); [done|done|]. intros s6 R6.
  safe_step. safe_same c s7 E7. safe_step. safe_same par st8 E8. safe_step.
  destruct (reserved_same _ _ _ _ (reserved_same _ _ _ _ R6 E7) E8) as (I8 & F8 & t & Ht & Hf).
  apply safe_upd_task. intros t' Ht'. simplify_eq.
  pose proof (inv_created st8 pid t (t_set_state TASK_RUNNABLE (t_set_ticks TIME_QUANT
    (t_set_ids pid par t))) I8 Ht Hf ltac:(done) eq_refl) as I9.
  safe_step. safe_same u' s9 E9. safe_step.
  split; [etrans; [exact F8|by apply (same_frame _ _ E9)]|]. right.
  split; [by apply zget_Some_range in Ht as [? _]|by eapply inv_same].
Qed.

(** *** Dispatch *)

Lemma inv_dispatch s pid i c q' :
  sched_inv_x (Some pid) s -> zget (cpus s) i = Some c -> rq_ok q' ->
  live q' = live (cpu_rq c) ++ [pid] ->
  sched_inv (set_cpus (<[Z.to_nat i := c_set_rq q' c]> (cpus s)) s).
Proof.
  intros [I1 I2 I3 I4 I5 I6 I7] Hc Hq Hl.
  destruct (zset_split _ _ i c (c_set_rq q' c) Hc (zset_Some _ _ _ (zget_Some_range _ _ _ Hc)))
    as (l1 & l2 & E1 & E2 & _).
  destruct (I7 pid eq_refl) as [Hout Hpid].
  assert (all_live (set_cpus (<[Z.to_nat i := c_set_rq q' c]> (cpus s)) s) ≡ₚ pid :: all_live s) as P.
  { rewrite (all_live_split _ l1 (c_set_rq q' c) l2) by (simpl; by rewrite E2).
    rewrite (all_live_split s l1 c l2) by done. simpl. rewrite Hl, <- app_assoc. simpl.
    symmetry. apply Permutation_middle. }
  split; try done.
  - intros d. simpl. rewrite E2. rewrite E1 in I2.
    intros [?|[->|?]%elem_of_cons]%elem_of_app; [|done|]; apply I2;
      rewrite elem_of_app, elem_of_cons; auto.
  - rewrite P. by constructor.
  - intros p. rewrite P. intros [->|?]%elem_of_cons; [done|by apply I4].
  - intros p t Ht Hf. left. rewrite P. apply elem_of_cons.
    destruct (I5 p t Ht Hf) as [?|[= ->]]; auto.
  - intros d p. simpl. rewrite E2. rewrite E1 in I6.
    intros [?|[->|?]%elem_of_cons]%elem_of_app Hp;
      [apply I6; [rewrite elem_of_app; auto|done]| |
       apply I6; [rewrite elem_of_app, elem_of_cons; auto|done]].
    simpl in *. rewrite Hl. apply elem_of_app. left.
    apply I6; [rewrite elem_of_app, elem_of_cons; auto|done].
Qed.

Lemma rq_push_inv pid q q' :
  rq_ok q -> rq_push pid q = Some q' ->
  rq_ok q' /\ live q' = live q ++ [pid] /\ total q' = total q + 1.
Proof.
  intros Hq E. assert (total q < 32) as Hlt.
  { unfold rq_push in E. destruct (zset (runQueue q) (total q) pid) eqn:Z; [|done].
    apply zset_inv in Z as [? _]. rewrite (rq_length _ Hq) in *. lia. }
  destruct (rq_push_spec pid q Hq Hlt) as (q2 & E2 & H2). rewrite E in E2. by injection E2 as <-.
Qed.

Lemma safe_dispatch I pid s :
  sched_inv_x (Some pid) s ->
  safe (dispatch pid) s (fun _ s' => sched_inv s' /\ cpunum s' = cpunum s) I.
Proof.
  intros Inv. unfold dispatch. safe_step. safe_step. safe_step. apply safe_need. intros idx Hidx.
  safe_step. unfold get_cpu. safe_steps. apply safe_need. intros c Hc.
  safe_step. apply safe_need. intros q Hq. apply safe_upd_cpu. intros c' Hc'. simplify_eq.
  destruct (rq_push_inv pid (cpu_rq c) q) as (Hok & Hl & _); [|done|].
  - apply (si_rq _ _ Inv). by eapply zget_elem_of.
  - split; [|done]. by apply (inv_dispatch s pid idx c q).
Qed.

(** *** fork *)

Lemma safe_sys_fork K I s :
  sched_inv s -> safe (sys_fork K) s (fun _ s' => sched_inv s' /\ cpunum s' = cpunum s) I.
Proof.
  intros Inv. unfold sys_fork. safe_step. eapply safe_mono; [by apply safe_task_create|].
  intros pid s1 ((_ & Hn1 & _) & H).
  destruct (Z.eqb_spec pid (-1)) as [->|Hne].
  { safe_step. destruct H as [[_ H]|[? _]]; [done|lia]. }
  destruct H as [[? _]|[_ Inv1]]; [done|]. safe_step. safe_same c s2 E2.
  assert (sched_inv_x (Some pid) s2 /\ cpunum s2 = cpunum s) as [Inv2 Hn2].
  { split; [by eapply inv_same|]. destruct E2 as (_ & _ & -> & _). done. }
  safe_step.
  eapply (safe_mono _ _ _ (fun _ s' => sched_inv_x (Some pid) s' /\ cpunum s' = cpunum s)).
  { destruct (cpu_task c) as [p|]; [|by safe_step].
    safe_step. apply safe_get_task. intros pt Hpt.
    safe_step. apply (safe_upd_task_inv _ _ (Some pid)); [done|done|]. intros s3 I3 _ N3 _.
    safe_step. safe_same b s4 E4. safe_step. safe_same b' s5 E5.
    assert (sched_inv_x (Some pid) s5) as I5 by (eapply inv_same; [|exact I3]; by etrans).
    safe_step. apply (safe_upd_task_inv _ _ (Some pid)); [done|done|]. intros s6 I6 _ N6 _.
    apply (safe_upd_task_inv _ _ (Some pid)); [done|done|]. intros s7 I7 _ N7 _.
    split; [done|]. destruct E4 as (_ & _ & E4 & _), E5 as (_ & _ & E5 & _). congruence. }
  intros _ s3 [Inv3 Hn3]. safe_step. safe_same u s4 E4. safe_step.
  eapply safe_mono; [apply safe_dispatch; by eapply inv_same|].
  intros _ s5 [Inv5 Hn5]. safe_step. safe_same u' s6 E6. safe_step.
  split; [by eapply inv_same|].
  destruct E4 as (_ & _ & E4 & _), E6 as (_ & _ & E6 & _). congruence.
Qed.

(** *** kill *)

(** The current task of CPU [c], taken out of its queue and freed. *)
Lemma inv_killed s i c p t q' :
  sched_inv s -> zget (cpus s) i = Some c -> cpu_task c = Some p ->
  zget (tasks s) p = Some t -> rq_ok q' -> live (cpu_rq c) ≡ₚ p :: live q' ->
  sched_inv (set_cpus (<[Z.to_nat i := c_set_task None (c_set_rq q' c)]> (cpus s))
              (set_tasks (<[Z.to_nat p := t_set_state TASK_FREE t]> (tasks s)) s)).
Proof.
  intros [I1 I2 I3 I4 I5 I6 I7] Hc Hcur Ht Hq Hl.
  set (c' := c_set_task None (c_set_rq q' c)).
  destruct (zset_split _ _ i c c' Hc (zset_Some _ _ _ (zget_Some_range _ _ _ Hc)))
    as (l1 & l2 & E1 & E2 & _).
  pose proof (zget_Some_range _ _ _ Ht) as Hr.
  set (s' := set_cpus _ _).
  assert (all_live s ≡ₚ p :: all_live s') as P.
  { rewrite (all_live_split s' l1 c' l2) by (simpl; by rewrite E2).
    rewrite (all_live_split s l1 c l2) by done. simpl. by rewrite Hl. }
  assert (NoDup (p :: all_live s')) as [Hp Hnd]%NoDup_cons by by rewrite <- P.
  assert (forall d, d ∈ l1 \/ d ∈ l2 -> d ∈ cpus s) as Hd
    by (intros d; rewrite E1, elem_of_app, elem_of_cons; tauto).
  split; try done.
  - simpl. by rewrite length_insert.
  - intros d. simpl. rewrite E2.
    intros [?|[->|?]%elem_of_cons]%elem_of_app; [|done|]; apply I2, Hd; auto.
  - intros q Hin. simpl. rewrite zget_insert_ne; [|lia|by intros ->].
    apply I4. rewrite P. by right.
  - intros q u. simpl. destruct (decide (p = q)) as [->|Hne].
    + rewrite (zget_insert_eq _ _ t) by done. by intros [= <-].
    + rewrite zget_insert_ne by (done || lia). intros Hu Hf. left.
      destruct (I5 q u Hu Hf) as [H|]; [|done]. rewrite P in H.
      by apply elem_of_cons in H as [->|].
  - intros d q. simpl. rewrite E2.
    intros [?|[->|?]%elem_of_cons]%elem_of_app Hq'; [|done|]; apply I6; auto.
Qed.

Lemma live_current x s c p :
  sched_inv_x x s -> zget (cpus s) (cpunum s) = Some c -> cpu_task c = Some p ->
  p ∈ live (cpu_rq c) /\ exists t, zget (tasks s) p = Some t /\ state t <> TASK_FREE /\ task_id t = p.
Proof.
  intros I Hc Hp. pose proof (zget_elem_of _ _ _ Hc) as Hin.
  pose proof (si_cur _ _ I c p Hin Hp) as Hl. split; [done|].
  apply (si_live _ _ I). by eapply live_in_all.
Qed.

Lemma safe_sys_kill K s c p :
  sched_inv s -> zget (cpus s) (cpunum s) = Some c -> cpu_task c = Some p ->
  safe (sys_kill K p) s (fun _ s' => sched_inv s' /\ cpunum s' = cpunum s) sched_inv.
Proof.
  intros Inv Hc Hp. destruct (live_current _ _ _ _ Inv Hc Hp) as (Hl & t & Ht & Hf & Hid).
  unfold sys_kill. destruct (_ && _); [|by safe_step].
  safe_step. eapply safe_eq; [by apply thiscpu_eq|]. cbv beta.
  destruct (total (cpu_rq c) >? 1); [|by safe_step].
  destruct (rq_remove_found p (cpu_rq c)) as (q & Eq & Hq & Hperm & _); [|done|].
  { apply (si_rq _ _ Inv). by eapply zget_elem_of. }
  rewrite Eq. cbn [need]. safe_step. safe_step. safe_step.
  eapply safe_eq; [by apply (upd_thiscpu_eq _ c)|]. cbv beta.
  safe_step. safe_same u s1 E1. safe_step. safe_same u1 s2 E2.
  destruct (transitivity E1 E2) as (Et & Ec & En & _). simpl in Et, Ec.
  assert (zget (tasks s2) p = Some t) as Ht2 by by rewrite Et.
  safe_step. eapply safe_eq; [by apply (upd_task_eq _ _ t)|]. cbv beta.
  safe_step. safe_same u2 s3 E3. destruct E3 as (Et3 & Ec3 & En3 & _). simpl in Et3, Ec3.
  change (cpunum (set_tasks _ s2)) with (cpunum s2) in En3.
  change (cpunum (set_cpus _ s)) with (cpunum s) in En.
  assert (zget (cpus s3) (cpunum s3) = Some (c_set_rq q c)) as Hc3.
  { rewrite Ec3, Ec, En3, En. by eapply zget_insert_eq. }
  safe_step. unfold cur. safe_step. eapply safe_eq; [by apply thiscpu_eq|]. cbn [cpu_task c_set_rq].
  rewrite Hp. cbn [need]. safe_step. safe_step.
  assert (zget (tasks s3) p = Some (t_set_state TASK_FREE t)) as Ht3.
  { rewrite Et3. by eapply zget_insert_eq. }
  eapply safe_eq; [by apply get_task_eq|]. cbn [task_id t_set_state].
  rewrite Hid, Z.eqb_refl. safe_step. eapply safe_eq; [by apply upd_thiscpu_eq|]. cbv beta.
  set (s4 := set_cpus _ s3).
  assert (sched_inv s4 /\ cpunum s4 = cpunum s) as [Inv4 En4].
  { split; [|change (cpunum s4) with (cpunum s3); congruence].
    pose proof (inv_killed s (cpunum s) c p t q Inv Hc Hp Ht Hq Hperm) as Inv'.
    destruct Inv' as [J1 J2 J3 J4 J5 J6 J7]. simpl in *.
    assert (cpus s4 = <[Z.to_nat (cpunum s) := c_set_task None (c_set_rq q c)]> (cpus s)) as Ec4.
    { simpl. rewrite Ec3, Ec, En3, En. by rewrite list_insert_insert_eq. }
    assert (tasks s4 = <[Z.to_nat p := t_set_state TASK_FREE t]> (tasks s)) as Et4.
    { simpl. by rewrite Et3, Et. }
    split; unfold all_live; rewrite ?Ec4, ?Et4; done. }
  eapply safe_mono; [eapply (safe_sched_yield None s4); [done|]|].
  - simpl. eapply zget_insert_eq. exact Hc3.
  - intros _ s5 ->. done.
Qed.

(** ** Dispatching *)

Lemma live_length_bound pid s c :
  sched_inv_x (Some pid) s -> c ∈ cpus s -> total (cpu_rq c) < 32.
Proof.
  intros I Hc. destruct (si_extra _ _ I pid eq_refl) as [Hn (t & Ht & _)].
  assert (Z.of_nat (length (pid :: all_live s)) <= 32) as Hlen.
  { apply NoDup_bounded_length; [lia|constructor; [done|apply I]|].
    intros p [->|Hp]%elem_of_cons.
    - apply zget_Some_range in Ht. rewrite (si_tasks _ _ I) in Ht. lia.
    - destruct (si_live _ _ I p Hp) as (u & Hu & _).
      apply zget_Some_range in Hu. rewrite (si_tasks _ _ I) in Hu. lia. }
  pose proof (length_live _ (si_rq _ _ I c Hc)) as El.
  apply list_elem_of_split in Hc as (l1 & l2 & E).
  pose proof (Permutation_length (all_live_split s l1 c l2 E)) as Hp.
  rewrite length_app in Hp. simpl in Hlen. lia.
Qed.

Lemma dispatch_total pid s :
  sched_inv_x (Some pid) s -> 0 < ncpu s <= Z.of_nat (length (cpus s)) ->
  exists i c q, 0 <= i < ncpu s /\ zget (cpus s) i = Some c
    /\ (forall j d, 0 <= j < ncpu s -> zget (cpus s) j = Some d ->
                    total (cpu_rq c) <= total (cpu_rq d))
    /\ rq_ok q /\ live q = live (cpu_rq c) ++ [pid] /\ total q = total (cpu_rq c) + 1
    /\ dispatch pid s = Ret tt (set_cpus (<[Z.to_nat i := c_set_rq q c]> (cpus s)) s).
Proof.
  intros I Hn.
  destruct (min_cpu_loop (Z.to_nat (ncpu s)) (cpus s) 0 NR_TASKS 0) as (i & Ei & Hi & H); [lia..|].
  destruct (zget_is_Some (cpus s) 0) as [c0 Hc0]; [lia|].
  pose proof (live_length_bound pid s c0 I (zget_elem_of _ _ _ Hc0)) as Hb.
  destruct H as [[-> H]|[Hr (c & Hc & _ & Hmin)]].
  { specialize (H 0 c0 ltac:(lia) Hc0). unfold NR_TASKS in H. lia. }
  pose proof (zget_elem_of _ _ _ Hc) as Hin.
  destruct (rq_push_spec pid (cpu_rq c)) as (q & Eq & Hq & Hl & Ht);
    [by apply (si_rq _ _ I)|by eapply live_length_bound|].
  exists i, c, q. split; [lia|]. split; [done|]. split; [intros j d Hj; apply Hmin; lia|].
  split; [done|]. split; [done|]. split; [done|].
  unfold dispatch, get, mbind, M_bind. rewrite Ei. cbn [need]. unfold mret, M_ret.
  rewrite (get_cpu_eq _ _ _ Hc), Eq. cbn [need]. unfold mret, M_ret.
  by apply (upd_cpu_eq _ _ c).
Qed.

(** ** A checker for the invariant *)

Definition rq_okb (q : Runqueue) : bool :=
  bool_decide (length (runQueue q) = 32%nat) && (0 <=? total q) && (total q <=? 32)
  && (0 <=? current_index q).

Definition live_okb (s : tk_state) (p : Z) : bool :=
  match zget (tasks s) p with
  | Some t => bool_decide (state t <> TASK_FREE) && (task_id t =? p)
  | None => false
  end.

Definition queued_okb (s : tk_state) (p : Z) : bool :=
  match zget (tasks s) p with
  | Some t => bool_decide (state t = TASK_FREE) || bool_decide (p ∈ all_live s)
  | None => true
  end.

Definition cur_okb (c : CpuInfo) : bool :=
  match cpu_task c with Some p => bool_decide (p ∈ live (cpu_rq c)) | None => true end.

Definition sched_invb (s : tk_state) : bool :=
  bool_decide (length (tasks s) = 32%nat) && forallb (fun c => rq_okb (cpu_rq c)) (cpus s)
  && bool_decide (NoDup (all_live s)) && forallb (live_okb s) (all_live s)
  && forallb (queued_okb s) (seqZ 0 32) && forallb cur_okb (cpus s).

Lemma forallb_elem {A} (f : A -> bool) l x : forallb f l = true -> x ∈ l -> f x = true.
Proof. rewrite forallb_forall. intros H Hx. apply H. by apply list_elem_of_In. Qed.

Lemma sched_invb_sound s : sched_invb s = true -> sched_inv s.
Proof.
  unfold sched_invb. rewrite !andb_true_iff. intros (((((H1 & H2) & H3) & H4) & H5) & H6).
  apply bool_decide_eq_true in H1, H3. split; try done.
  - intros c Hc. pose proof (forallb_elem _ _ _ H2 Hc) as H. unfold rq_okb in H.
    rewrite !andb_true_iff, bool_decide_eq_true in H. split; [apply H|lia|lia].
  - intros p Hp. pose proof (forallb_elem _ _ _ H4 Hp) as H. unfold live_okb in H.
    destruct (zget (tasks s) p) as [t|]; [|done].
    rewrite andb_true_iff, bool_decide_eq_true, Z.eqb_eq in H. eauto.
  - intros p t Ht Hf. left. pose proof (zget_Some_range _ _ _ Ht) as Hr.
    assert (p ∈ seqZ 0 32) as Hp by (apply elem_of_seqZ; lia).
    pose proof (forallb_elem _ _ _ H5 Hp) as H. unfold queued_okb in H. rewrite Ht in H.
    by rewrite orb_true_iff, !bool_decide_eq_true in H; destruct H.
  - intros c p Hc Hp. pose proof (forallb_elem _ _ _ H6 Hc) as H. unfold cur_okb in H.
    rewrite Hp in H. by apply bool_decide_eq_true in H.
Qed.

(** Whether [sched_yield] switches: it returns, with the state as before, when
    nothing in the queue is runnable, and resumes a runnable task of the queue
    otherwise. *)
Lemma yield_outcome s c :
  sched_inv s -> zget (cpus s) (cpunum s) = Some c ->
  match sched_yield s with
  | Ret _ s' => s' = s /\ forall r t, r ∈ live (cpu_rq c) -> zget (tasks s) r = Some t -> state t <> TASK_RUNNABLE
  | Iret f s' => exists i r t, s' = switched s c i r t /\ r ∈ live (cpu_rq c) /\ zget (tasks s) r = Some t
                   /\ state t = TASK_RUNNABLE /\ f = tf t
  | Stop _ => True
  end.
Proof.
  intros I Hc. rewrite (sched_yield_eq None s c I Hc).
  pose proof (si_rq _ _ I c (zget_elem_of _ _ _ Hc)) as Hq. pose proof (rq_total _ Hq) as Htot.
  destruct (list_find _ _) as [[k i]|] eqn:Hf.
  - apply list_find_Some in Hf as (Hk & Hr & _). destruct (can_run_task _ _ _ Hr) as (p & t & Hp & Ht & Hst).
    assert (0 < total (cpu_rq c)) as Hpos.
    { destruct (Z.eq_dec (total (cpu_rq c)) 0) as [E|]; [|lia]. rewrite E in Hk.
      rewrite round_lookup in Hk. by rewrite decide_False in Hk by lia. }
    apply round_range in Hk; [|done].
    unfold switch_outcome. rewrite Hp, Ht. destruct (pgdir t <? KERNBASE); [done|].
    exists i, p, t. split; [done|]. split; [|done]. rewrite live_lookup in Hp by done. by eapply list_elem_of_lookup_2.
  - split; [done|]. intros r t (j & Hj)%list_elem_of_lookup Ht Hst.
    pose proof (lookup_lt_Some _ _ _ Hj) as Hlt. pose proof (length_live _ Hq) as Hlen.
    rewrite list_find_None, Forall_forall in Hf. apply (Hf (Z.of_nat j)).
    + apply list_elem_of_lookup. eexists. apply round_dist. lia.
    + exists r. split; [rewrite live_lookup by (done || lia); by rewrite Nat2Z.id|].
      unfold runnable. rewrite Ht. by apply bool_decide_eq_true.
Qed.

(** ** Turns *)

(** Successive calls of [sched_yield] on one processor: each switches to a task,
    the tasks in order, and the entry at index [j] is runnable at each call.
    Between two calls the processor's record does not change. *)
Inductive turns (j : Z) : tk_state -> list Z -> Prop :=
| turns_nil s : turns j s []
| turns_cons s c f s1 c1 p s2 ps :
    sched_inv s -> zget (cpus s) (cpunum s) = Some c -> can_run s (cpu_rq c) j ->
    sched_yield s = Iret f s1 ->
    zget (cpus s1) (cpunum s1) = Some c1 -> cpu_task c1 = Some p ->
    zget (cpus s2) (cpunum s2) = Some c1 -> turns j s2 ps -> turns j s (p :: ps).

(** One turn: the scheduler switches to [j], or to an entry nearer to it. *)
Lemma yield_nearer s c j f s1 :
  sched_inv s -> zget (cpus s) (cpunum s) = Some c -> 0 <= j < total (cpu_rq c) ->
  can_run s (cpu_rq c) j -> sched_yield s = Iret f s1 ->
  exists i p t, s1 = switched s c i p t /\ zget (runQueue (cpu_rq c)) i = Some p
    /\ (i = j \/ rr_dist i j (total (cpu_rq c)) < rr_dist (sched_start c) j (total (cpu_rq c))).
Proof.
  intros I Hc Hj Hr. rewrite (sched_yield_eq None s c I Hc).
  pose proof (si_rq _ _ I c (zget_elem_of _ _ _ Hc)) as Hq. pose proof (rq_cur _ Hq).
  assert (0 <= sched_start c) as Hst by (unfold sched_start; destruct (cpu_task c); lia).
  destruct (list_find _ _) as [[k i]|] eqn:Hf; [|done].
  destruct (round_first _ _ _ _ _ _ _ Hst Hf Hj Hr) as (_ & H2 & _ & H3).
  destruct (can_run_task _ _ _ H2) as (p & t & Hp & Ht & _).
  unfold switch_outcome. rewrite Hp, Ht. destruct (pgdir t <? KERNBASE); [done|].
  intros [= _ <-]. eauto 6.
Qed.

Lemma turns_reach j s ps :
  turns j s ps -> forall c pid, zget (cpus s) (cpunum s) = Some c ->
  0 <= j < total (cpu_rq c) -> zget (runQueue (cpu_rq c)) j = Some pid ->
  rr_dist (sched_start c) j (total (cpu_rq c)) < Z.of_nat (length ps) ->
  pid ∈ take (S (Z.to_nat (rr_dist (sched_start c) j (total (cpu_rq c))))) ps.
Proof.
  induction 1 as [s|s c f s1 c1 p s2 ps I Hc Hr E Hc1 Hp Hc2 _ IH];
    intros c' pid Hc' Hj Hpid Hd.
  { simpl in Hd. pose proof (Z.mod_pos_bound (j - sched_start c' - 1) (total (cpu_rq c'))).
    unfold rr_dist in Hd. lia. }
  assert (c' = c) as -> by congruence.
  destruct (yield_nearer s c j f s1 I Hc Hj Hr E) as (i & q & t & -> & Hq & H).
  change (cpunum (switched s c i q t)) with (cpunum s) in Hc1.
  cbn [cpus switched set_mm set_cpus set_tasks] in Hc1.
  rewrite (zget_insert_eq _ _ _ _ Hc) in Hc1. injection Hc1 as <-. cbn in Hp. simplify_eq.
  cbn [take]. apply elem_of_cons. destruct H as [->|H]; [left; congruence|right].
  assert (0 <= rr_dist i j (total (cpu_rq c))) by (apply Z.mod_pos_bound; lia).
  specialize (IH _ pid Hc2 Hj Hpid). cbn in IH, Hd.
  change (sched_start _) with i in IH. rewrite Nat2Z.inj_succ in Hd.
  apply elem_of_take in IH as (k & Hk & Hlt); [|lia]. apply elem_of_take. exists k. split; [done|lia].
Qed.

(** ** Properties *)

(** C8: The scheduler is round robin.  [sched_yield] looks at the entries of its CPU's
    own queue, beginning after the current index (after index 0 when the CPU has no
    task) and going once round; it switches to the first runnable one, which becomes
    the CPU's running task with a full time quantum, its page directory in %cr3 and
    its frame popped, and nothing else changes (or PADDR panics, when that task's
    directory is not a kernel address).  When no entry is runnable it returns and the
    state is as before.  The idle task is an entry like any other and gets its
    turns while other tasks are ready, against the comment above the function. *)
Theorem sched_yield_round_robin s c :
  sched_inv s -> zget (cpus s) (cpunum s) = Some c ->
  let q := cpu_rq c in
  match list_find (can_run s q) (round (sched_start c) (Z.to_nat (total q)) (total q)) with
  | None => sched_yield s = Ret tt s
  | Some (_, i) => exists p t, zget (runQueue q) i = Some p /\ zget (tasks s) p = Some t
      /\ state t = TASK_RUNNABLE
      /\ sched_yield s = if (pgdir t <? KERNBASE)
                         then Stop (Panic "PADDR called with invalid kva %08lx")
                         else Iret (tf t) (switched s c i p t)
  end.
Proof.
  intros I Hc q. pose proof (sched_yield_eq None s c I Hc) as E. fold q in E.
  destruct (list_find _ _) as [[k i]|] eqn:Hf; [|done].
  apply list_find_Some in Hf as (_ & Hr & _).
  destruct (can_run_task _ _ _ Hr) as (p & t & Hp & Ht & Hst).
  exists p, t. split; [done|]. split; [done|]. split; [done|].
  rewrite E. unfold switch_outcome. fold q. by rewrite Hp, Ht.
Qed.

(** C9: every queued task gets its turn.  Let a processor give up its task again
    and again ([turns]): each call of [sched_yield] switches, and between two
    calls anything may happen that leaves this processor's record alone, so no
    task is forked onto its queue and none of its tasks is killed.  If the task at
    index [j] of the queue is ready at each of these calls, then it is among the
    tasks chosen, and at the latest by the call that follows as many others as
    there are entries between the starting index and [j]; that number is less
    than the number of entries in the queue. *)
Theorem sched_yield_bounded_wait s c j pid ps :
  zget (cpus s) (cpunum s) = Some c -> 0 <= j < total (cpu_rq c) ->
  zget (runQueue (cpu_rq c)) j = Some pid -> turns j s ps ->
  let d := rr_dist (sched_start c) j (total (cpu_rq c)) in
  0 <= d < total (cpu_rq c) /\ (d < Z.of_nat (length ps) -> pid ∈ take (S (Z.to_nat d)) ps).
Proof.
  intros Hc Hj Hpid Ht d. split; [apply Z.mod_pos_bound; lia|].
  by apply (turns_reach j s ps Ht c pid).
Qed.

(** C25: [sys_fork] puts the new task on a least loaded CPU: at the end of the
    queue of a CPU that no other of the [ncpu] CPUs has fewer tasks than, always
    inside the array, and the scheduler's invariant holds again. *)
Theorem dispatch_least_loaded pid s :
  sched_inv_x (Some pid) s -> 0 < ncpu s <= Z.of_nat (length (cpus s)) ->
  exists i c q, 0 <= i < ncpu s /\ zget (cpus s) i = Some c
    /\ (forall j d, 0 <= j < ncpu s -> zget (cpus s) j = Some d ->
                    total (cpu_rq c) <= total (cpu_rq d))
    /\ live q = live (cpu_rq c) ++ [pid]
    /\ wp (dispatch pid) s (fun _ s' =>
         s' = set_cpus (<[Z.to_nat i := c_set_rq q c]> (cpus s)) s /\ sched_inv s').
Proof.
  intros I Hn. destruct (dispatch_total pid s I Hn) as (i & c & q & Hi & Hc & Hm & Hq & Hl & _ & E).
  exists i, c, q. split; [done|]. split; [done|]. split; [done|]. split; [done|].
  eapply wp_eq; [exact E|]. split; [done|]. by eapply inv_dispatch.
Qed.

(** A task that is alone on its CPU cannot be killed: [sys_kill] returns and
    changes nothing. *)
Theorem sys_kill_last_task_ignored K s c p :
  zget (cpus s) (cpunum s) = Some c -> total (cpu_rq c) <= 1 ->
  sys_kill K p s = Ret tt s.
Proof.
  intros Hc Ht. unfold sys_kill. destruct (_ && _); [|done].
  unfold mbind, M_bind. rewrite (thiscpu_eq _ _ Hc).
  rewrite Z.gtb_ltb. by destruct (Z.ltb_spec 1 (total (cpu_rq c))); [lia|].
Qed.

(** ** A concrete machine for the witnesses *)

Definition demo_task (i : Z) (st : TaskState) : Task := mkTask i 0 tf0 TIME_QUANT st KERNBASE.

(** Two CPUs; the first one runs task 0 and has tasks 1 (asleep) and 2
    (runnable) in its queue, the second one has none. *)
Definition demo_cpu : CpuInfo :=
  mkCpu 0 1 (Some 0) (mkRq 3 0 ([0; 1; 2] ++ replicate 29 0)) tss0.
Definition demo_tk : tk_state :=
  TK (fresh_mm 4 0 0)
     ([demo_task 0 TASK_RUNNING; demo_task 1 TASK_SLEEP; demo_task 2 TASK_RUNNABLE]
      ++ replicate 29 task0)
     [demo_cpu; mkCpu 1 1 None rq0 tss0] 2 0
     (mkSpinlock 0 "&tasks_lock" None []) (mkSpinlock 0 "&cpus_lock" None []) gdt_init
     (0, 0, 0, 0) None.

Lemma demo_tk_inv : sched_inv demo_tk.
Proof. apply sched_invb_sound. by vm_compute. Qed.

(** The same machine with task 3 created and not yet queued. *)
Definition demo_forked : tk_state :=
  set_tasks (<[Z.to_nat 3 := demo_task 3 TASK_RUNNABLE]> (tasks demo_tk)) demo_tk.

Lemma demo_forked_inv : sched_inv_x (Some 3) demo_forked.
Proof. by apply (inv_created demo_tk 3 task0); [apply demo_tk_inv|..]. Qed.

Lemma sched_yield_round_robin_witness :
  sched_yield demo_tk = Iret tf0 (switched demo_tk demo_cpu 2 2 (demo_task 2 TASK_RUNNABLE)).
Proof.
  pose proof (sched_yield_round_robin demo_tk demo_cpu demo_tk_inv eq_refl) as H.
  assert (list_find (can_run demo_tk (cpu_rq demo_cpu)) (round (sched_start demo_cpu)
    (Z.to_nat (total (cpu_rq demo_cpu))) (total (cpu_rq demo_cpu))) = Some (1%nat, 2)) as E
    by by vm_compute.
  cbv zeta in H. rewrite E in H.
  destruct H as (p & t & Hp & Ht & _ & H). vm_compute in Hp. injection Hp as <-.
  vm_compute in Ht. injection Ht as <-. exact H.
Defined.

(** One processor whose four tasks are all ready, when the entry at index [i] is
    the current one. *)
Definition demo_ready (i : Z) : tk_state :=
  TK (fresh_mm 4 0 0)
     (((fun p => demo_task p TASK_RUNNABLE) <$> [0; 1; 2; 3]) ++ replicate 28 task0)
     [mkCpu 0 1 (Some i) (mkRq 4 i ([0; 1; 2; 3] ++ replicate 28 0)) tss0] 1 0
     (mkSpinlock 0 "&tasks_lock" None []) (mkSpinlock 0 "&cpus_lock" None []) gdt_init
     (0, 0, 0, 0) None.

Lemma demo_ready_turn i ps :
  0 <= i < 3 -> turns 3 (demo_ready (i + 1)) ps -> turns 3 (demo_ready i) (i + 1 :: ps).
Proof.
  intros Hi Ht. assert (i = 0 \/ i = 1 \/ i = 2) as [-> |[-> | ->]] by lia;
    (eapply turns_cons; [apply sched_invb_sound; by vm_compute|reflexivity|exists 3; by vm_compute
      |by vm_compute|by vm_compute|reflexivity| |exact Ht]; reflexivity).
Qed.

Lemma sched_yield_bounded_wait_witness : turns 3 (demo_ready 0) [1; 2; 3] /\ 3 ∈ [1; 2; 3].
Proof.
  assert (turns 3 (demo_ready 0) [1; 2; 3]) as Ht by
    (apply (demo_ready_turn 0), (demo_ready_turn 1), (demo_ready_turn 2), turns_nil; lia).
  split; [exact Ht|].
  destruct (sched_yield_bounded_wait (demo_ready 0)
    (mkCpu 0 1 (Some 0) (mkRq 4 0 ([0; 1; 2; 3] ++ replicate 28 0)) tss0) 3 3 [1; 2; 3])
    as [_ H]; [reflexivity|simpl; lia|reflexivity|exact Ht|].
  apply H. by vm_compute.
Defined.

Lemma dispatch_least_loaded_witness :
  exists i, 0 <= i < 2 /\ wp (dispatch 3) demo_forked (fun _ s' => sched_inv s').
Proof.
  destruct (dispatch_least_loaded 3 demo_forked demo_forked_inv) as (i & c & q & Hi & _ & _ & _ & H).
  - simpl. lia.
  - exists i. split; [done|]. eapply wp_mono; [exact H|]. by intros _ s' [_ ?].
Defined.

Lemma sys_kill_last_task_ignored_witness :
  sys_kill (mkKsyms 0 0 0 0 0 0 0 0 0 0 0 (fun _ => 0) 0 0 0 0) 3
    (set_cpus [c_set_rq (mkRq 1 0 (3 :: replicate 31 0)) demo_cpu] demo_tk)
  = Ret tt (set_cpus [c_set_rq (mkRq 1 0 (3 :: replicate 31 0)) demo_cpu] demo_tk).
Proof.
  apply (sys_kill_last_task_ignored _ _ (c_set_rq (mkRq 1 0 (3 :: replicate 31 0)) demo_cpu));
    [reflexivity|]. simpl. lia.
Defined.
