(* ===== verification/TaskInit.v ===== *)
(** * The start of scheduling

    [task_init] on the boot processor and [task_init_percpu] on each of the others
    (kernel/task.c) establish the scheduler's invariant of TaskInv.v: a processor
    that has not run a task yet gets its first task, which is the only one in its
    queue and is running. *)

From S2P Require Import Prelude.
From S2P Require Import Machine.
From S2P Require Import Kmonad.
From S2P Require Import Spinlock.
From S2P Require Import PageAlloc.
From S2P Require Import Paging.
From Stdlib Require Import ZArith Lia.
From stdpp Require Import base gmap list strings.
From S2P Require Import Task.
From S2P Require Import TaskInv.

Local Open Scope Z_scope.

(** A processor that has not been set up. *)
Definition unused (c : CpuInfo) : Prop := cpu_task c = None /\ rq_ok (cpu_rq c) /\ total (cpu_rq c) = 0.

Lemma unused_live c : unused c -> live (cpu_rq c) = [].
Proof. intros (_ & _ & E). unfold live. by rewrite E. Qed.

(** ** Between the creation of the first task and its way into the queue *)

(** [s] with the current task of the processor taken back satisfies the invariant
    with task [i] outside the queues. *)
Definition starting (i : Z) (s : tk_state) : Prop :=
  exists c, zget (cpus s) (cpunum s) = Some c /\ cpu_task c = Some i /\ live (cpu_rq c) = []
    /\ sched_inv_x (Some i) (set_cpus (<[Z.to_nat (cpunum s) := c_set_task None c]> (cpus s)) s).

Lemma starting_same i s s' : same_sched s s' -> starting i s -> starting i s'.
Proof.
  intros E (c & Hc & Ht & Hl & Inv). pose proof E as (Et & Ec & En & Em). exists c.
  rewrite En, Ec. split_and!; [done|done|done|]. eapply inv_same; [|exact Inv]. by split_and!.
Qed.

(** An update of a task that keeps its identity and that it is in use. *)
Lemma starting_upd_task i s s' p t t' :
  starting i s -> zget (tasks s) p = Some t -> task_id t' = task_id t ->
  (state t' = TASK_FREE <-> state t = TASK_FREE) ->
  s' = set_tasks (<[Z.to_nat p := t']> (tasks s)) s -> starting i s'.
Proof.
  intros (c & Hc & Ht & Hl & Inv) Hp Hid Hst ->. exists c. split_and!; [done|done|done|].
  eapply (inv_upd_task _ _ p t t') in Inv; [exact Inv|done| |done|done].
  apply zset_Some. by eapply zget_Some_range.
Qed.

Lemma live_singleton p q : zset (replicate 32 0) 0 p = Some q -> live (mkRq 1 0 q) = [p] /\ rq_ok (mkRq 1 0 q).
Proof.
  intros H. pose proof (zset_length _ _ _ _ H) as Hl. pose proof H as [_ ->]%zset_inv. split; [done|].
  split; simpl; [done|lia|lia].
Qed.

(** The last step: the task enters the queue of its processor. *)
Lemma started_inv i s c q :
  zget (cpus s) (cpunum s) = Some c -> starting i s -> rq_ok q -> live q = [i] ->
  sched_inv (set_cpus (<[Z.to_nat (cpunum s) := c_set_rq q c]> (cpus s)) s).
Proof.
  intros Hc (c' & Hc' & Ht & Hl & Inv) Hq Hlq. simplify_eq.
  set (me := cpunum s) in *. pose proof (zget_Some_range _ _ _ Hc) as Hr.
  assert (zget (cpus (set_cpus (<[Z.to_nat me := c_set_task None c]> (cpus s)) s)) me
          = Some (c_set_task None c)) as Hg by (simpl; by eapply zget_insert_eq).
  pose proof (inv_dispatch _ i me _ q Inv Hg Hq ltac:(simpl; by rewrite Hl, Hlq)) as Inv'.
  simpl in Inv'. rewrite list_insert_insert_eq in Inv'.
  eapply (inv_upd_cpu _ _ me (c_set_rq q (c_set_task None c)) (c_set_rq q c)
    (<[Z.to_nat me := c_set_rq q c]> (cpus s))) in Inv'.
  - exact Inv'.
  - simpl. by eapply zget_insert_eq.
  - rewrite zset_Some by (simpl; by rewrite length_insert). simpl. by rewrite list_insert_insert_eq.
  - done.
  - done.
  - simpl. intros p Hp. rewrite Hlq. simplify_eq. by left.
Qed.

(** ** One processor *)

Lemma pres_set_gdt_entry i d : pres same_sched (set_gdt_entry i d).
Proof. unfold set_gdt_entry. pres_tac. by apply pres_modify. Qed.

(** The task's first instruction and state, its place in the queue, the registers. *)
Lemma safe_start_task K I i id s slot :
  starting i s ->
  safe (_ ← setup_user_program K i;
        b ← gets bootcpu;
        bc ← get_cpu b;
        _ ← upd_task i (fun t => t_set_tf (tf_set_eip (tf t)
              (if (id =? cpu_id bc) then user_entry K else idle_entry K)) t);
        _ ← upd_task i (t_set_state TASK_RUNNING);
        q ← need (zset (replicate 32 0) 0 i) "runQueue[0]";
        _ ← upd_thiscpu (c_set_rq (mkRq 1 0 q));
        modify (set_seg_regs (gdt_addr K, 0, slot))) s
    (fun _ s' => sched_inv s' /\ cpunum s' = cpunum s /\ exists c t,
       zget (cpus s') (cpunum s') = Some c /\ cpu_task c = Some i /\ live (cpu_rq c) = [i]
       /\ zget (tasks s') i = Some t /\ state t = TASK_RUNNING) I.
Proof.
  intros St. safe_step. safe_same u s1 E1. pose proof (starting_same _ _ _ E1 St) as St1.
  safe_step. safe_step. safe_step. apply (safe_pres same_sched); [unfold get_cpu; pres_tac|].
  intros bc s2 E2. pose proof (starting_same _ _ _ E2 St1) as St2. safe_step.
  apply safe_upd_task. intros t2 Ht2. set (t3 := t_set_tf _ t2).
  set (s3 := set_tasks _ s2). assert (starting i s3) as St3 by by eapply (starting_upd_task i s2 s3 i t2 t3).
  assert (zget (tasks s3) i = Some t3) as Ht3 by by eapply zget_insert_eq.
  safe_step. apply safe_upd_task. intros t' Ht'. rewrite Ht3 in Ht'. injection Ht' as <-.
  set (s4 := set_tasks _ s3).
  pose proof St3 as (c0 & _ & _ & _ & Inv3).
  destruct (si_extra _ _ Inv3 i eq_refl) as (_ & t' & Ht' & Hnf & _).
  change (zget (tasks s3) i = Some t') in Ht'. rewrite Ht3 in Ht'. injection Ht' as <-.
  assert (starting i s4) as St4 by by eapply (starting_upd_task i s3 s4 i t3 (t_set_state TASK_RUNNING t3)).
  assert (zget (tasks s4) i = Some (t_set_state TASK_RUNNING t3)) as Ht4 by by eapply zget_insert_eq.
  safe_step. apply safe_need. intros q Hq. safe_step.
  apply safe_upd_thiscpu. intros c Hc. safe_step.
  destruct (live_singleton _ _ Hq) as [Hlq Hok].
  pose proof (started_inv i _ c _ Hc St4 Hok Hlq) as Inv5. split_and!.
  - eapply inv_same; [|exact Inv5]. by split_and!.
  - simpl. destruct E1 as (_ & _ & <- & _). by destruct E2 as (_ & _ & <- & _).
  - destruct St4 as (c4 & Hc4 & Hct & _). rewrite Hc in Hc4. injection Hc4 as <-.
    eexists _, _. split_and!; [simpl; by eapply zget_insert_eq|done|done|exact Ht4|done].
Qed.

(** [task_init_percpu] runs the processor's first task, and only that. *)
Definition first_task (s' : tk_state) : Prop :=
  exists i c t, zget (cpus s') (cpunum s') = Some c /\ cpu_task c = Some i /\ live (cpu_rq c) = [i]
    /\ zget (tasks s') i = Some t /\ state t = TASK_RUNNING.

(** The current task of a fresh processor is set before it is in the queue. *)
Lemma set_first_task i s c :
  sched_inv_x (Some i) s -> zget (cpus s) (cpunum s) = Some c -> unused c ->
  starting i (set_cpus (<[Z.to_nat (cpunum s) := c_set_task (Some i) c]> (cpus s)) s).
Proof.
  intros Inv Hc U. exists (c_set_task (Some i) c). split_and!; [by eapply zget_insert_eq|done|exact (unused_live c U)|].
  simpl. rewrite list_insert_insert_eq.
  eapply (inv_upd_cpu _ s (cpunum s) c (c_set_task None c)); [done|done| |by apply U|done|done].
  apply zset_Some. by eapply zget_Some_range.
Qed.

Lemma safe_task_init_percpu K I s c :
  sched_inv s -> zget (cpus s) (cpunum s) = Some c -> unused c ->
  safe (task_init_percpu K) s (fun _ s' => sched_inv s' /\ first_task s') I.
Proof.
  intros Inv Hc U. unfold task_init_percpu. do 3 safe_step. apply safe_thiscpu. intros c' Hc'. simplify_eq.
  cbv zeta. safe_step. apply safe_upd_thiscpu. intros c' Hc'. simplify_eq. set (c1 := c_set_tss _ c).
  set (s1 := set_cpus _ s).
  assert (sched_inv s1) as Inv1.
  { eapply (inv_upd_cpu _ s (cpunum s) c c1); [done|done| |by apply U|done|].
    - apply zset_Some. by eapply zget_Some_range.
    - intros p Hp. destruct U as [E _]. simpl in Hp. congruence. }
  assert (zget (cpus s1) (cpunum s1) = Some c1) as Hc1 by by eapply zget_insert_eq.
  safe_step. apply (safe_pres same_sched); [apply pres_set_gdt_entry|]. intros u s2 E2.
  pose proof (inv_same _ _ _ E2 Inv1) as Inv2. destruct E2 as (_ & Ec & En & _). rewrite <- Ec, <- En in Hc1.
  safe_step. eapply safe_mono; [by apply safe_task_create|].
  intros i s3 ((Ec3 & En3 & _) & Hi). rewrite <- Ec3, <- En3 in Hc1.
  safe_step. apply safe_upd_thiscpu. intros c' Hc'. rewrite Hc1 in Hc'. injection Hc' as <-.
  destruct Hi as [ [-> _]|[_ Inv3] ].
  - safe_step. unfold setup_user_program. safe_step. apply safe_get_task. intros t Ht.
    apply zget_Some_range in Ht. lia.
  - eapply safe_mono; [apply safe_start_task; by apply set_first_task|].
    intros v s' (Inv' & _ & c' & t & H). split; [done|]. by exists i, c', t.
Qed.

(** With no task and no queue entry the invariant holds. *)
Lemma inv_no_task s :
  tasks s = replicate 32 task0 -> Forall unused (cpus s) -> sched_inv s.
Proof.
  intros Ht Hc. rewrite Forall_forall in Hc.
  assert (all_live s = []) as El.
  { unfold all_live. revert Hc. generalize (cpus s). intros l Hl. induction l as [|c l IH]; [done|].
    rewrite bind_cons, IH by (intros; apply Hl; by right). by rewrite (unused_live c) by (apply Hl; by left). }
  split.
  - by rewrite Ht.
  - intros c Hin. by apply Hc.
  - rewrite El. constructor.
  - intros p Hp. rewrite El in Hp. by apply elem_of_nil in Hp.
  - intros p t Hp Hf. rewrite Ht in Hp. unfold zget in Hp. destruct (0 <=? p); [|done].
    apply lookup_replicate in Hp as [-> _]. done.
  - intros c p Hin Hp. destruct (Hc c Hin) as [E _]. congruence.
  - done.
Qed.

Lemma safe_task_init K I s c :
  Forall unused (cpus s) -> zget (cpus s) (cpunum s) = Some c ->
  safe (task_init K) s (fun _ s' => sched_inv s' /\ first_task s') I.
Proof.
  intros HF Hc. unfold task_init. do 8 safe_step.
  eapply safe_task_init_percpu; [by apply inv_no_task|exact Hc|].
  rewrite Forall_forall in HF. apply HF. by eapply zget_elem_of.
Qed.

(** Scheduling starts in order: when [task_init] returns on the boot processor,
    whatever the task table held, the scheduler's invariant is true and the boot
    processor runs its only task; and it never leaves the kernel. *)
Theorem task_init_establishes_inv K s c :
  Forall unused (cpus s) -> zget (cpus s) (cpunum s) = Some c ->
  safe (task_init K) s (fun _ s' => sched_inv s' /\ first_task s') (fun _ => False).
Proof. apply safe_task_init. Qed.

(** A processor that joins later: when [task_init_percpu] returns there, the
    invariant is still true and the processor runs its own first task. *)
Theorem task_init_percpu_keeps_inv K s c :
  sched_inv s -> zget (cpus s) (cpunum s) = Some c -> unused c ->
  safe (task_init_percpu K) s (fun _ s' => sched_inv s' /\ first_task s') (fun _ => False).
Proof. apply safe_task_init_percpu. Qed.

(** ** Witnesses *)

Definition start_ksyms : ksyms := mkKsyms 0 0 0 0 0 0 0 0 0 0 KERNBASE (fun _ => 0) 0 MMIOBASE 0 1.
(** Two processors that have not run a task, and a task table full of entries
    that are not free. *)
Definition start_tk : tk_state :=
  set_tasks (replicate 32 (demo_task 7 TASK_RUNNABLE))
    (set_cpus [mkCpu 0 1 None rq0 tss0; mkCpu 1 1 None rq0 tss0] demo_tk).

Lemma task_init_establishes_inv_witness :
  safe (task_init start_ksyms) start_tk (fun _ s' => sched_inv s' /\ first_task s') (fun _ => False).
Proof.
  apply (task_init_establishes_inv start_ksyms start_tk (mkCpu 0 1 None rq0 tss0)); [|reflexivity].
  repeat constructor; try lia; by vm_compute.
Defined.

Definition on_cpu1 (c : mm_cfg) : mm_cfg :=
  mkCfg (c_npages c) (c_npages_basemem c) (c_nextfree c) (c_kern_pgdir c) (c_pages_va c)
    (c_mmio_base c) (c_cr3 c) (c_cr0 c) (mkCtx 1 0 ∅) (c_invlpg c) (c_console c).

(** Processor 1 joins while processor 0 runs its tasks. *)
Lemma task_init_percpu_keeps_inv_witness :
  safe (task_init_percpu start_ksyms) (set_mm (upd_cfg on_cpu1 (mm demo_tk)) demo_tk)
    (fun _ s' => sched_inv s' /\ first_task s') (fun _ => False).
Proof.
  apply (task_init_percpu_keeps_inv start_ksyms _ (mkCpu 1 1 None rq0 tss0)); [|reflexivity|].
  - apply sched_invb_sound. by vm_compute.
  - repeat constructor; try lia; by vm_compute.
Defined.
