(* ===== verification/TaskSpace.v ===== *)
(** * Memory of the tasks

    Every task in use owns an address space: a directory, its tables and ten pages
    of user stack (Space.v).  [mem_inv] says that these belong to one task only
    and that none of them is free.  [task_create] builds such a space from the
    free list, [task_free] gives all of it back, [sys_fork] copies the stack of
    the parent into the frames of the child (kernel/task.c).  The [pool], the pages
    of all tasks together with the free ones, never changes. *)

From S2P Require Import Prelude.
From S2P Require Import Machine.
From S2P Require Import Kmonad.
From S2P Require Import Spinlock.
From S2P Require Import PageAlloc.
From S2P Require Import Paging.
From S2P Require Import Kvm.
From S2P Require Import Space.
From Stdlib Require Import ZArith Lia.
From stdpp Require Import base gmap list strings.
From S2P Require Import Task.
From S2P Require Import TaskInv.

Local Open Scope Z_scope.

(** ** The user stack *)

(** The page [k] below the top of the user stack. *)
Definition stack_va (k : Z) : Z := USTACKTOP - (k + 1) * 4096.
Definition stack_vas : list Z := stack_va <$> seqZ 0 10.

Lemma stack_va_range k : 0 <= k < 10 ->
  0 <= stack_va k < 4294967296 /\ PDX (stack_va k) = 954 /\ PTX (stack_va k) = 1021 - k.
Proof.
  intros Hk. assert (stack_va k = 954 * 4194304 + (1021 - k) * 4096) as E.
  { unfold stack_va. change USTACKTOP with (954 * 4194304 + 1022 * 4096). lia. }
  rewrite E. split; [lia|]. rewrite PDX_spec, PTX_spec by lia. Z.to_euclidean_division_equations. lia.
Qed.

Lemma stack_va_self k : 0 <= k < 10 -> PDX (stack_va k) <> SELF.
Proof. intros Hk. destruct (stack_va_range k Hk) as (_ & -> & _). by vm_compute. Qed.

Lemma stack_va_apart i j : 0 <= i < 10 -> 0 <= j < 10 -> i <> j -> same_page (stack_va i) (stack_va j) = false.
Proof.
  intros Hi Hj Hne. unfold same_page. destruct (stack_va_range i Hi) as (_ & _ & ->), (stack_va_range j Hj) as (_ & _ & ->).
  apply andb_false_intro2. apply Z.eqb_neq. lia.
Qed.

(** The loop over the stack: ten turns, from the top down. *)
Lemma wp_stack_loop (P : Z -> tk_state -> Prop) body n k s Q :
  k + Z.of_nat n = 10 -> 0 <= k -> P k s ->
  (forall k s, 0 <= k < 10 -> P k s -> wp (body (stack_va k + 4096)) s (fun ok s' => ok = true /\ P (k + 1) s')) ->
  (forall s', P 10 s' -> Q true s') ->
  wp (stack_loop n (stack_va k + 4096) body) s Q.
Proof.
  revert k s. induction n as [|n IH]; intros k s Hk H0 HP Hb HQ; cbn [stack_loop]; rewrite Z.gtb_ltb.
  - replace k with 10 in * by lia. by apply HQ.
  - destruct (Z.ltb_spec (USTACKTOP - USR_STACK_SIZE) (stack_va k + 4096)) as [_|Hc].
    + wp_step. eapply wp_mono; [apply Hb; [lia|exact HP]|]. intros ok s1 [-> HP1].
      replace (stack_va k + 4096 - PGSIZE) with (stack_va (k + 1) + 4096) by (unfold stack_va, PGSIZE; lia).
      apply IH; [lia|lia|exact HP1|exact Hb|exact HQ].
    + exfalso. unfold stack_va, USR_STACK_SIZE in Hc. lia.
Qed.

Lemma wp_for_stack (P : Z -> tk_state -> Prop) body s Q :
  P 0 s ->
  (forall k s, 0 <= k < 10 -> P k s -> wp (body (stack_va k + 4096)) s (fun ok s' => ok = true /\ P (k + 1) s')) ->
  (forall s', P 10 s' -> Q true s') -> wp (for_stack body) s Q.
Proof. intros. unfold for_stack. by apply (wp_stack_loop P body 10 0). Qed.

(** [setupkvm] leaves the user stack unmapped. *)
Section KvmSpace.
  Context (pk lapic la np pgs : Z) (H1 : MMIOBASE <= lapic) (H2 : lapic + 4096 <= MMIOLIM).

Lemma PGNUM_lapic : 958 * 1024 <= PGNUM lapic < 959 * 1024.
Proof.
  change MMIOBASE with (958 * 4194304) in H1. change MMIOLIM with (959 * 4194304) in H2.
  rewrite PGNUM_div. Z.to_euclidean_division_equations. lia.
Qed.

Lemma kvm_space_stack k : 0 <= k < 10 -> kvm_space pk lapic la np pgs (stack_va k) = None.
Proof.
  intros Hk. unfold kvm_space. pose proof PGNUM_lapic.
  assert (PGNUM (stack_va k) = 954 * 1024 + 1021 - k) as E.
  { replace (stack_va k) with ((954 * 1024 + 1021 - k) * 4096 + 0); [by apply PGNUM_page|].
    unfold stack_va. change USTACKTOP with ((954 * 1024 + 1022) * 4096). lia. }
  rewrite map_range_out by (rewrite E; lia). rewrite kstacks_space_out by (rewrite ?E; lia).
  rewrite !map_range_out; [done|rewrite E; left; by apply Z.lt_le_trans with (954 * 1024 + 1022); [lia|vm_compute]..|].
  rewrite E. right. change (PGNUM IOPHYSMEM) with 160. lia.
Qed.

(** Physical memory at KERNBASE. *)
Lemma kvm_space_kern va :
  KERNBASE <= va < 4294967296 ->
  kvm_space pk lapic la np pgs va = Some (Z.lor (Z.lor ((PGNUM va - 960 * 1024) * 4096) PTE_W) PTE_P).
Proof.
  intros Hva. unfold kvm_space. pose proof PGNUM_lapic.
  assert (960 * 1024 <= PGNUM va < 1024 * 1024) as E.
  { change KERNBASE with (960 * 4194304) in Hva. rewrite PGNUM_div. Z.to_euclidean_division_equations. lia. }
  rewrite map_range_out by lia. rewrite kstacks_space_out by lia.
  rewrite map_range_out by (change (PGNUM IOPHYSMEM) with 160; lia).
  unfold map_range at 1. change (PGNUM KERNBASE) with (960 * 1024).
  destruct (Z.leb_spec 0 (PGNUM va - 960 * 1024)), (Z.ltb_spec (PGNUM va - 960 * 1024) (Z.of_nat (Z.to_nat 65536)));
    rewrite ?Z2Nat.id in * by lia; try lia. done.
Qed.
End KvmSpace.

(** ** Building the stack *)

Definition zeroed (s : mm_state) (f : Z) : Prop :=
  forall o, 0 <= o < 4096 -> o mod 4 = 0 -> rd32 (ram s) (f * 4096 + o) = 0.

(** The space of [d], born in [s0], after [k] turns: [k] zeroed pages from the top
    of the stack down, enough free pages for the rest, no other mapping touched. *)
Definition growing (s0 : mm_state) (l0 : list Z) (d k : Z) (s : mm_state) (l : list Z) (fm : list (Z * Z)) : Prop :=
  evolve s0 l0 d [] s l fm
  /\ fm.*1 = reverse (stack_va <$> seqZ 0 k)
  /\ (missing_in (ram s) d [954%Z] + Z.to_nat (10 - k) <= length l)%nat
  /\ (forall f, f ∈ fm.*2 -> zeroed s f)
  /\ (forall va, 0 <= va < 4294967296 -> PDX va <> SELF ->
        (forall j, 0 <= j < k -> same_page (stack_va j) va = false) ->
        vm_lookup (ram s) d va = vm_lookup (ram s0) d va).

Lemma zeroed_words s s' f : same_words f s s' -> zeroed s f -> zeroed s' f.
Proof. intros H Hz o Ho Ho4. rewrite H by exact Ho. by apply Hz. Qed.

Lemma growing_start s l d :
  mm_wf s l -> space s l d [] -> (missing_in (ram s) d [954%Z] + 10 <= length l)%nat -> growing s l d 0 s l [].
Proof.
  intros W Sp Hm. split; [by apply evolve_refl|]. split; [done|]. split; [exact Hm|]. split; [|done].
  intros f Hf. by apply elem_of_nil in Hf.
Qed.

(** One turn. *)
Lemma wp_growing s0 l0 d k s l fm garbage :
  growing s0 l0 d k s l fm -> 0 <= k < 10 -> vm_lookup (ram s0) d (stack_va k) = None ->
  exists pp s1, page_alloc ALLOC_ZERO s = Ret (Some pp) s1 /\
    wp (page_insert garbage (dirp d) pp (stack_va k) PTE_UW) s1 (fun r s' =>
      r = 0 /\ exists l', growing s0 l0 d (k + 1) s' l' ((stack_va k, pp) :: fm)).
Proof.
  intros (E & Efm & Hm & Hz & Hlk) Hk Hv. destruct (stack_va_range k Hk) as (Hva & Hpdx & _).
  assert (vm_lookup (ram s) d (stack_va k) = None) as Hv'.
  { rewrite Hlk; [exact Hv|exact Hva|by apply stack_va_self|]. intros j Hj. apply stack_va_apart; lia. }
  pose proof (ev_wf _ _ _ _ _ _ _ E) as W. pose proof (ev_space _ _ _ _ _ _ _ E) as Sp.
  destruct l as [|pp l]; [simpl in Hm; lia|].
  destruct (page_alloc_cons s ALLOC_ZERO pp l W) as (pi & Hpi & Hr & Ea).
  exists pp, (after_alloc ALLOC_ZERO pp pi s). split; [exact Ea|]. cbn [length] in Hm.
  eapply wp_mono; [apply (evolve_add s pp pi l d fm (stack_va k) garbage W Hpi Hr Sp); rewrite ?Hpdx; try exact Hva; try exact Hv'; [lia|by vm_compute]|].
  rewrite Hpdx. intros r s' (-> & l' & E' & Hlen & Hm' & Hlk' & Hz' & Hw). split; [done|]. exists l'. split_and!.
  - by eapply evolve_trans.
  - rewrite fmap_cons, Efm, seqZ_app, fmap_app, reverse_app by lia. reflexivity.
  - rewrite Hm'. lia.
  - intros f [->|Hf]%elem_of_cons; [exact Hz'|]. eapply zeroed_words; [by apply Hw|by apply Hz].
  - intros va Hva' Hs Hj. rewrite Hlk'; [|exact Hva'|exact Hs|apply Hj; lia].
    apply Hlk; [exact Hva'|exact Hs|]. intros j Hj'. apply Hj. lia.
Qed.

(** ** What user mode can write *)

(** The entry of kernel address [va] with permissions [perm]. *)
Definition kentry (perm va : Z) : Z := Z.lor (Z.lor ((PGNUM va - 960 * 1024) * 4096) perm) PTE_P.

(** Address [va] is in one of the regions (start, size), to whole pages. *)
Definition in_regions (rs : list (Z * Z)) (va : Z) : bool :=
  existsb (fun r => (PGNUM (fst r) <=? PGNUM va) && (PGNUM va <? PGNUM (fst r) + (snd r + 4095) / 4096)) rs.

(** The kernel's window, with the regions open for the user. *)
Definition window (rs : list (Z * Z)) (s : mm_state) (d : Z) : Prop :=
  forall va, KERNBASE <= va < 4294967296 ->
    vm_lookup (ram s) d va = Some (kentry (if in_regions rs va then PTE_UW else PTE_W) va).

(** The entry lets user mode write. *)
Definition user_write (e : Z) : bool := truth (Z.land e PTE_U) && truth (Z.land e PTE_W).

(** Below the kernel, user mode can write the pages [fm] and nothing else. *)
Definition walled (s : mm_state) (d : Z) (fm : list (Z * Z)) : Prop :=
  forall va e, 0 <= va < KERNBASE -> vm_lookup (ram s) d va = Some e -> user_write e = true ->
    exists va' f, (va', f) ∈ fm /\ same_page va' va = true.

(** The addresses below the kernel have the same entries. *)
Definition same_low (d : Z) (s s' : mm_state) : Prop :=
  forall va, 0 <= va < KERNBASE -> vm_lookup (ram s') d va = vm_lookup (ram s) d va.

(** Below the kernel, the stack's ten pages apart, the address space is the one that
    [setupkvm] makes on machine [m0], neither more nor less. *)
Definition lower (K : ksyms) (m0 s : mm_state) (d : Z) : Prop :=
  forall va, 0 <= va < KERNBASE -> (forall j, 0 <= j < 10 -> same_page (stack_va j) va = false) ->
    vm_lookup (ram s) d va = kvm_space (Task.percpu_kstacks K) (k_lapic K) (k_lapicaddr K)
                               (npages m0) (c_pages_va (cfg m0) - KERNBASE) va.

Lemma lower_low K m0 s s' d : same_low d s s' -> lower K m0 s d -> lower K m0 s' d.
Proof. intros E H va Hva Hj. rewrite E by exact Hva. by apply H. Qed.

Lemma walled_low s s' d fm : same_low d s s' -> walled s d fm -> walled s' d fm.
Proof. intros E H va e Hva. rewrite E by exact Hva. by apply H. Qed.

Lemma window_same rs s s' d :
  (forall va, vm_lookup (ram s') d va = vm_lookup (ram s) d va) -> window rs s d -> window rs s' d.
Proof. intros E H va Hva. rewrite E. by apply H. Qed.

Lemma walled_same s s' d fm :
  (forall va, vm_lookup (ram s') d va = vm_lookup (ram s) d va) -> walled s d fm -> walled s' d fm.
Proof. intros E H va e Hva. rewrite E. by apply H. Qed.

(** ** The memory of all tasks *)

(** Task [tm_pid] with its directory, the frames of its stack, top down, and the
    regions above KERNBASE that are open to it. *)
Record tmem := mkTmem { tm_pid : Z; tm_dir : Z; tm_frames : list Z; tm_regions : list (Z * Z) }.
#[global] Instance tmem_eq_dec : EqDecision tmem.
Proof. solve_decision. Defined.

Definition tm_map (m : tmem) : list (Z * Z) := zip stack_vas (tm_frames m).
Definition tm_own (s : mm_state) (m : tmem) : list Z := own s (tm_dir m) (tm_map m).

(** The pages of all tasks and the free ones. *)
Definition pool (s : mm_state) (ms : list tmem) (l : list Z) : list Z := (ms ≫= tm_own s) ++ l.

Record tm_ok (s : tk_state) (l : list Z) (m : tmem) : Prop := {
  tm_len : length (tm_frames m) = 10%nat;
  tm_task : exists t, zget (tasks s) (tm_pid m) = Some t /\ state t <> TASK_FREE /\ pgdir t = dirp (tm_dir m);
  tm_space : space (mm s) l (tm_dir m) (tm_map m);
  tm_window : window (tm_regions m) (mm s) (tm_dir m);
  tm_walled : walled (mm s) (tm_dir m) (tm_map m)
}.

(** Where the array of pages and the kernel's directory are; the array begins on a
    page of its own. *)
Definition placed (s : mm_state) : Prop :=
  KERNBASE <= c_pages_va (cfg s) /\ c_pages_va (cfg s) + npages s * 8 <= 4294963200
  /\ KERNBASE <= kern_pgdir s < 4294967296 /\ c_pages_va (cfg s) mod 4096 = 0.

Lemma placed_layout s s' : (layout s').1 = (layout s).1 -> placed s -> placed s'.
Proof. unfold layout, placed. cbn [fst]. intros [= -> -> ->]. done. Qed.

(** Between two system calls: [ms] are the tasks in use, [l] the free pages; no
    page has two owners. *)
Record mem_inv (s : tk_state) (ms : list tmem) (l : list Z) : Prop := {
  mi_wf : mm_wf (mm s) l;
  mi_pool : NoDup (pool (mm s) ms l);
  mi_pids : NoDup (tm_pid <$> ms);
  mi_ok : forall m, m ∈ ms -> tm_ok s l m;
  mi_all : forall p t, zget (tasks s) p = Some t -> state t <> TASK_FREE -> exists m, m ∈ ms /\ tm_pid m = p;
  mi_placed : placed (mm s)
}.

(** The locks nobody holds. *)
Definition unlocked (s : tk_state) : Prop := lock_free (tasks_lock s) /\ lock_free (cpus_lock s).

Lemma pool_in s ms m q : m ∈ ms -> q ∈ tm_own s m -> q ∈ ms ≫= tm_own s.
Proof. intros Hm Hq. apply list_elem_of_bind. eauto. Qed.

Lemma pool_not_free s ms l m q : NoDup (pool s ms l) -> m ∈ ms -> q ∈ tm_own s m -> q ∉ l.
Proof. intros (_ & H & _)%NoDup_app Hm Hq. apply H. by eapply pool_in. Qed.

Lemma bind_ext {A B} (f g : A -> list B) (l : list A) : (forall x, x ∈ l -> f x = g x) -> (l ≫= f) = (l ≫= g).
Proof.
  induction l as [|x l IH]; intros H; [done|]. cbn. rewrite (H x) by (by left). f_equal. apply IH.
  intros y Hy. apply H. by right.
Qed.

(** Tasks whose pages are outside of what changed keep their spaces. *)
Lemma others_keep s s' ms l l' P :
  (forall m, m ∈ ms -> space s l (tm_dir m) (tm_map m)) -> outside P s s' -> npages s' = npages s ->
  (forall m q, m ∈ ms -> q ∈ tm_own s m -> (q ∉ P) /\ q ∉ l') ->
  (forall m, m ∈ ms -> space s' l' (tm_dir m) (tm_map m)
     /\ forall va, vm_lookup (ram s') (tm_dir m) va = vm_lookup (ram s) (tm_dir m) va)
  /\ (ms ≫= tm_own s') = (ms ≫= tm_own s).
Proof.
  intros Hs HO En HP.
  assert (forall m, m ∈ ms -> space s' l' (tm_dir m) (tm_map m) /\ tm_own s' m = tm_own s m) as H.
  { intros m Hm. apply (space_outside s l _ _ (Hs m Hm) P); [done|by intros; eapply HP..|done]. }
  split; [|apply bind_ext; intros m Hm; by apply H]. intros m Hm. split; [by apply H|].
  apply (outside_lookup s _ (tm_map m) P s' HO). intros q Hq. by apply (HP m).
Qed.

(** So they stay in order if their structures do. *)
Lemma tm_ok_keep s s' l l' m :
  tm_ok s l m -> space (mm s') l' (tm_dir m) (tm_map m) ->
  (forall va, vm_lookup (ram (mm s')) (tm_dir m) va = vm_lookup (ram (mm s)) (tm_dir m) va) ->
  (exists t, zget (tasks s') (tm_pid m) = Some t /\ state t <> TASK_FREE /\ pgdir t = dirp (tm_dir m)) -> tm_ok s' l' m.
Proof.
  intros [H1 _ _ H4 H5] Sp E Ht. split; [done|done|done|by eapply window_same|by eapply walled_same].
Qed.

(** A space made of free pages only. *)
Record created (s : mm_state) (l : list Z) (s' : mm_state) (l' : list Z) (d : Z) (fm : list (Z * Z)) : Prop := {
  cr_wf : mm_wf s' l';
  cr_space : space s' l' d fm;
  cr_acct : own s' d fm ++ l' ≡ₚ l;
  cr_out : outside l s s';
  cr_layout : layout s' = layout s
}.

Lemma mem_inv_add s ms l s' l' pid t t' d fs rs :
  mem_inv s ms l -> zget (tasks s) pid = Some t -> state t = TASK_FREE ->
  created (mm s) l (mm s') l' d (zip stack_vas fs) -> length fs = 10%nat ->
  window rs (mm s') d -> walled (mm s') d (zip stack_vas fs) ->
  tasks s' = <[Z.to_nat pid := t']> (tasks s) -> state t' <> TASK_FREE -> pgdir t' = dirp d ->
  mem_inv s' (mkTmem pid d fs rs :: ms) l'
  /\ pool (mm s') (mkTmem pid d fs rs :: ms) l' ≡ₚ pool (mm s) ms l.
Proof.
  intros [I1 I2 I3 I4 I5 I6] Ht Hf [C1 C2 C3 C4 C5] Hl Hw Hwa Et Hs' Hd. set (m0 := mkTmem pid d fs rs).
  assert (npages (mm s') = npages (mm s)) as En by (unfold layout in C5; by simplify_eq).
  destruct (others_keep (mm s) (mm s') ms l l' l) as [Hsp Eown]; [intros m Hm; by apply I4|done|done| |].
  { intros m q Hm Hq. pose proof (pool_not_free _ _ _ m q I2 Hm Hq) as Hnl. split; [done|].
    intros Hq'. apply Hnl. rewrite <- C3. apply elem_of_app. by right. }
  assert (pool (mm s') (m0 :: ms) l' ≡ₚ pool (mm s) ms l) as HP.
  { unfold pool. cbn [mbind list_bind]. change (list_bind _ _ (tm_own (mm s')) ms) with (ms ≫= tm_own (mm s')).
    rewrite Eown. change (tm_own (mm s') m0) with (own (mm s') d (zip stack_vas fs)).
    rewrite <- (assoc_L (++)), (comm (++) (ms ≫= _) l'), (assoc_L (++)), C3. by rewrite (comm (++)). }
  assert (forall m, m ∈ ms -> tm_pid m <> pid) as Hne.
  { intros m Hm E. destruct (tm_task _ _ _ (I4 m Hm)) as (u & Hu & Hfu & _). rewrite E in Hu. congruence. }
  pose proof (zget_Some_range _ _ _ Ht) as Hr. split; [|done]. split.
  - done.
  - by rewrite HP.
  - cbn. apply NoDup_cons. split; [|done]. intros (m & E & Hm)%list_elem_of_fmap. by apply (Hne m Hm).
  - intros m [->|Hm]%elem_of_cons.
    + split; [done| |done..]. exists t'. rewrite Et. split; [by eapply zget_insert_eq|done].
    + destruct (tm_task _ _ _ (I4 m Hm)) as (u & Hu & Hu'), (Hsp m Hm) as [Sp E]. eapply tm_ok_keep; [by apply I4|exact Sp|exact E|].
      exists u. rewrite Et, zget_insert_ne; [done|lia|]. intros E'. by apply (Hne m Hm).
  - intros p u. rewrite Et. destruct (decide (pid = p)) as [<-|Hp].
    + intros _ _. exists m0. split; [by left|done].
    + rewrite zget_insert_ne by (done || lia). intros Hu Hfu. destruct (I5 p u Hu Hfu) as (m & Hm & E).
      exists m. split; [by right|done].
  - eapply placed_layout; [|exact I6]. congruence.
Qed.

(** ** Rules for the statements of task.c *)

Lemma wp_get_task s i t (Q : Task -> tk_state -> Prop) : zget (tasks s) i = Some t -> Q t s -> wp (get_task i) s Q.
Proof. intros H HQ. eapply wp_eq; [by apply get_task_eq|done]. Qed.

Lemma wp_upd_task s i t f (Q : unit -> tk_state -> Prop) :
  zget (tasks s) i = Some t -> Q tt (set_tasks (<[Z.to_nat i := f t]> (tasks s)) s) -> wp (upd_task i f) s Q.
Proof. intros H HQ. eapply wp_eq; [by apply upd_task_eq|done]. Qed.

Lemma wp_thiscpu s c (Q : CpuInfo -> tk_state -> Prop) : zget (cpus s) (cpunum s) = Some c -> Q c s -> wp thiscpu s Q.
Proof. intros H HQ. eapply wp_eq; [by apply thiscpu_eq|done]. Qed.

(** A lock taken on the way in is free again on the way out. *)
Definition lock_held (c : cpu_ctx) (lk : spinlock) : Prop := locked lk = 1 /\ lk_cpu lk = Some (ctx_cpu c).

Lemma wp_spin_lock c lk (Q : unit -> spinlock -> Prop) :
  lock_free lk -> (forall lk', lock_held c lk' -> Q tt lk') -> wp (spin_lock c) lk Q.
Proof. intros H HQ. eapply wp_eq; [by apply spin_lock_free|]. by apply HQ. Qed.

Lemma wp_spin_unlock c lk (Q : unit -> spinlock -> Prop) :
  lock_held c lk -> (forall lk', lock_free lk' -> Q tt lk') -> wp (spin_unlock c) lk Q.
Proof.
  intros [Hl Hc] HQ. unfold spin_unlock, holding, wp, get, mbind, M_bind. rewrite Hl, Hc, bool_decide_eq_true_2 by done.
  by apply HQ.
Qed.

Lemma wp_lock_with view upd s f (Q : unit -> tk_state -> Prop) :
  wp (f (c_ctx (cfg (mm s)))) (view s) (fun u lk => Q u (upd lk s)) -> wp (lock_with view upd f) s Q.
Proof. intros H. unfold lock_with. wp_step. wp_step. by apply wp_zoom. Qed.

(** The first free task structure. *)
Lemma wp_find_free n i s (Q : option Z -> tk_state -> Prop) :
  0 <= i -> i + Z.of_nat n = Z.of_nat (length (tasks s)) ->
  (forall p t, zget (tasks s) p = Some t -> state t = TASK_FREE -> Q (Some p) s) ->
  ((forall p t, i <= p -> zget (tasks s) p = Some t -> state t <> TASK_FREE) -> Q None s) ->
  wp (find_free n i) s Q.
Proof.
  revert i. induction n as [|n IH]; intros i Hi Hn H1 H2; cbn [find_free].
  - wp_step. apply H2. intros p t Hp Ht. apply zget_Some_range in Ht. lia.
  - destruct (zget_is_Some (tasks s) i) as [t Ht]; [lia|]. wp_step. eapply wp_get_task; [exact Ht|].
    destruct (decide (state t = TASK_FREE)) as [E|E].
    + wp_step. by eapply H1.
    + apply IH; [lia|lia|exact H1|]. intros H. apply H2. intros p u Hp Hu.
      destruct (decide (p = i)) as [->|]; [congruence|]. apply (H p u); [lia|exact Hu].
Qed.

(** ** task_create *)

(** The addresses of the linked kernel, and the value of [page_remove]'s
    uninitialised variable with which it works. *)
Record linked (K : ksyms) : Prop := {
  lk_stacks : KERNBASE <= Task.percpu_kstacks K /\ Task.percpu_kstacks K + 8 * KSTKSIZE <= 4294967296;
  lk_lapic : MMIOBASE <= k_lapic K /\ k_lapic K + 4096 <= MMIOLIM;
  lk_lapicaddr : 0 <= k_lapicaddr K <= 4294963200;
  lk_aligned : Task.percpu_kstacks K mod 4096 = 0 /\ k_lapicaddr K mod 4096 = 0;
  lk_garbage : k_garbage K <> 0
}.

(** [s'] is [s] but for its memory. *)
Definition mem_only (s s' : tk_state) : Prop := s' = set_mm (mm s') s.

Lemma mem_only_set m s s' : mem_only s s' -> mem_only s (set_mm m s').
Proof. unfold mem_only. intros ->. done. Qed.

(** The loop that makes the stack. *)
Lemma wp_make_stack K pid s d l t :
  mm_wf (mm s) l -> space (mm s) l d [] -> (11 <= length l)%nat ->
  zget (tasks s) pid = Some t -> pgdir t = dirp d ->
  (forall k, 0 <= k < 10 -> vm_lookup (ram (mm s)) d (stack_va k) = None) ->
  wp (for_stack (stack_page K pid)) s (fun ok s' => ok = true /\ mem_only s s'
    /\ exists l' fm, growing (mm s) l d 10 (mm s') l' fm).
Proof.
  intros W Sp Hl Ht Hd Hv.
  apply (wp_for_stack (fun k s' => mem_only s s' /\ exists l' fm, growing (mm s) l d k (mm s') l' fm)).
  - split; [by destruct s|]. exists l, []. apply growing_start; [done|done|].
    assert (missing_in (ram (mm s)) d [954%Z] <= 1)%nat by (etrans; [apply length_filter|done]). lia.
  - intros k s1 Hk (Es1 & l1 & fm & G).
    destruct (wp_growing (mm s) l d k (mm s1) l1 fm (k_garbage K) G Hk (Hv k Hk)) as (pp & m2 & Ea & Hw).
    unfold stack_page. wp_step. apply wp_zoom. eapply wp_eq; [exact Ea|]. cbv beta iota. wp_step.
    eapply (wp_get_task _ _ t); [rewrite Es1; exact Ht|]. wp_step. apply wp_zoom. rewrite Hd.
    replace (stack_va k + 4096 - PGSIZE) with (stack_va k) by (unfold PGSIZE; lia).
    eapply wp_mono; [exact Hw|]. intros r m3 (-> & l3 & G3). wp_step. split; [done|].
    split; [by do 2 apply mem_only_set|]. eauto.
  - intros s' [? ?]. done.
Qed.

Lemma own_perm s d fm fm' : fm ≡ₚ fm' -> own s d fm ≡ₚ own s d fm'.
Proof. intros E. unfold own. by rewrite E. Qed.

Lemma zip_fst_snd {A B} (l : list (A * B)) : zip l.*1 l.*2 = l.
Proof. induction l as [|[a b] l IH]; [done|]. cbn. by f_equal. Qed.

(** A directory from [setupkvm] with a whole stack. *)
Lemma created_grown s0 l0 d s1 l1 s2 l2 fm :
  own s1 d [] ++ l1 ≡ₚ l0 -> outside l0 s0 s1 -> layout s1 = layout s0 ->
  growing s1 l1 d 10 s2 l2 fm ->
  exists fs, fm ≡ₚ zip stack_vas fs /\ length fs = 10%nat /\ created s0 l0 s2 l2 d (zip stack_vas fs).
Proof.
  intros Ha Ho Hl (E & Efm & _). exists (reverse fm).*2.
  assert (fm ≡ₚ zip stack_vas (reverse fm).*2) as P.
  { replace stack_vas with (reverse fm).*1; [by rewrite zip_fst_snd, reverse_Permutation|].
    by rewrite fmap_reverse, Efm, reverse_involutive. }
  assert (length fm = 10%nat) as Hlen by (by rewrite <- (length_fmap fst), Efm).
  split; [exact P|]. split; [by rewrite length_fmap, length_reverse|].
  destruct E as [E1 E2 E3 E4 E5]. split.
  - done.
  - by eapply space_perm.
  - rewrite <- (own_perm s2 d _ _ P), E3. exact Ha.
  - etrans; [exact Ho|]. eapply outside_mono; [|exact E4]. intros q. by rewrite Ha.
  - congruence.
Qed.

Lemma kern_va va : KERNBASE <= va < 4294967296 -> 0 <= va < 4294967296 /\ 960 <= PDX va < 1024.
Proof.
  change KERNBASE with (960 * 4194304). intros H. split; [lia|]. rewrite PDX_spec. Z.to_euclidean_division_equations. lia.
Qed.

Lemma kern_va_self va : KERNBASE <= va < 4294967296 -> PDX va <> SELF.
Proof. intros [_ H]%kern_va E. rewrite E in H. change SELF with 957 in H. lia. Qed.

(** The stack is elsewhere. *)
Lemma growing_window s0 l0 d s l fm : growing s0 l0 d 10 s l fm -> window [] s0 d -> window [] s d.
Proof.
  intros (_ & _ & _ & _ & Hlk) Hw va Hva. destruct (kern_va va Hva) as [H1 H2].
  rewrite Hlk; [by apply Hw|done|by apply kern_va_self|].
  intros j Hj. unfold same_page. destruct (stack_va_range j Hj) as (_ & -> & _).
  apply andb_false_intro1. apply Z.eqb_neq. lia.
Qed.

(** So the rest of the lower part is as [setupkvm] made it. *)
Lemma growing_lower K m0 s0 l0 d s l fm fm' :
  linked K -> growing s0 l0 d 10 s l fm -> space s l d fm' -> 0 <= npages m0 <= 65536 ->
  (forall va, 0 <= va < 4294967296 -> PDX va <> SELF -> vm_lookup (ram s0) d va
     = kvm_space (Task.percpu_kstacks K) (k_lapic K) (k_lapicaddr K) (npages m0) (c_pages_va (cfg m0) - KERNBASE) va) ->
  lower K m0 s d.
Proof.
  intros HK (_ & _ & _ & _ & Hlk) Sp Hn Hk va Hva Hj. unfold KERNBASE in Hva.
  destruct (decide (PDX va = SELF)) as [E|Hs].
  - rewrite kvm_space_self; [|lia|apply (lk_lapic K HK)|apply (lk_lapic K HK)|lia|exact E].
    unfold vm_lookup. by rewrite E, (sp_self _ _ _ _ Sp).
  - rewrite Hlk; [|lia|exact Hs|exact Hj]. apply Hk; [lia|exact Hs].
Qed.

(** [setupkvm] lets user mode write nowhere. *)
Lemma user_write_entry pa perm : pa mod 4096 = 0 -> user_write (Z.lor (Z.lor pa perm) PTE_P) = user_write perm.
Proof.
  intros Ha. unfold user_write. rewrite !Z.land_lor_distr_l. change (Z.land PTE_P PTE_U) with 0. change (Z.land PTE_P PTE_W) with 0.
  assert (forall k, 0 <= k < 12 -> Z.land pa (2 ^ k) = 0) as H.
  { intros k Hk. apply Z.bits_inj'. intros n Hn. rewrite Z.land_spec, Z.pow2_bits_eqb, Z.bits_0 by lia.
    destruct (Z.eqb_spec k n) as [<-|]; [|apply andb_false_r]. rewrite andb_true_r.
    replace pa with (pa / 4096 * 2 ^ 12) by (change (2 ^ 12) with 4096; Z.to_euclidean_division_equations; lia).
    apply Z.mul_pow2_bits_low. lia. }
  change PTE_U with (2 ^ 2) at 1. change PTE_W with (2 ^ 1) at 1. by rewrite !H, !Z.lor_0_l, !Z.lor_0_r by lia.
Qed.

Definition no_user_write (f : Z -> option Z) : Prop := forall va e, f va = Some e -> user_write e = false.

Lemma map_range_user va n pa perm f :
  pa mod 4096 = 0 -> user_write perm = false -> no_user_write f -> no_user_write (map_range va n pa perm f).
Proof.
  intros Ha Hp Hf va' e. unfold map_range. destruct (_ && _); [|apply Hf]. intros [= <-]. rewrite user_write_entry; [exact Hp|].
  rewrite Z.mod_add by done. exact Ha.
Qed.

Lemma kstacks_user pk n i f : pk mod 4096 = 0 -> no_user_write f -> no_user_write (kstacks_space pk n i f).
Proof.
  intros Hk. revert i f. induction n as [|n IH]; intros i f Hf; cbn [kstacks_space]; [exact Hf|].
  apply IH, map_range_user; [|done|exact Hf]. replace (kstack_pa pk i) with (pk + (8 * i - 960 * 1024) * 4096)
    by (unfold kstack_pa, KSTKSIZE, PGSIZE, KERNBASE; lia). by rewrite Z.mod_add.
Qed.

Lemma kvm_space_user pk lapic la np pgs :
  pk mod 4096 = 0 -> la mod 4096 = 0 -> pgs mod 4096 = 0 -> no_user_write (kvm_space pk lapic la np pgs).
Proof.
  intros H1 H2 H3. unfold kvm_space. apply map_range_user; [done|done|]. apply kstacks_user; [done|].
  do 3 (apply map_range_user; [done|done|]). done.
Qed.

(** The stack is all that user mode can write in a new space. *)
Lemma growing_walled s0 l0 d s l fm fm' :
  growing s0 l0 d 10 s l fm -> fm ≡ₚ fm' -> (forall va, 0 <= va < KERNBASE -> PDX va <> SELF ->
    forall e, vm_lookup (ram s0) d va = Some e -> user_write e = false) -> walled s d fm'.
Proof.
  intros (E & Efm & _ & _ & Hlk) P H va e Hva Hv Hu.
  assert (PDX va <> SELF) as Hs.
  { intros Es. unfold vm_lookup in Hv. by rewrite Es, (sp_self _ _ _ _ (ev_space _ _ _ _ _ _ _ E)) in Hv. }
  destruct (decide (Forall (fun j => same_page (stack_va j) va = false) (seqZ 0 10))) as [Hno|Hex].
  - rewrite Forall_forall in Hno. rewrite Hlk in Hv; [|unfold KERNBASE in Hva; lia|exact Hs|intros j Hj; apply Hno, elem_of_seqZ; lia].
    rewrite (H va Hva Hs e Hv) in Hu. done.
  - apply not_Forall_Exists in Hex; [|intros j; apply _]. apply Exists_exists in Hex as (j & Hj & Hp). cbv beta in Hp.
    assert (stack_va j ∈ fm.*1) as ([va' f] & E1 & Hin)%list_elem_of_fmap.
    { rewrite Efm. apply elem_of_reverse, list_elem_of_fmap. by exists j. }
    exists va', f. rewrite <- P. split; [exact Hin|]. cbn [fst] in E1. rewrite <- E1. apply not_false_is_true. exact Hp.
Qed.

(** The new task's structure. *)
Definition fresh_task (pid parent d : Z) (t : Task) : Task :=
  t_set_state TASK_RUNNABLE (t_set_ticks TIME_QUANT (t_set_ids pid parent (t_set_tf fresh_tf (t_set_pgdir d t)))).

(** The task structure [cpu_task] of this CPU points to. *)
Definition parent_of (s : tk_state) (c : CpuInfo) (p : Z) : Prop :=
  match cpu_task c with Some i => exists t, zget (tasks s) i = Some t /\ task_id t = p | None => p = 0 end.

Lemma parent_of_upd s s' c p i t t' :
  parent_of s c p -> zget (tasks s) i = Some t -> tasks s' = <[Z.to_nat i := t']> (tasks s) -> task_id t' = task_id t ->
  parent_of s' c p.
Proof.
  unfold parent_of. intros H Ht E Hid. destruct (cpu_task c) as [j|]; [|done]. destruct H as (u & Hu & Hj).
  rewrite E. destruct (decide (i = j)) as [<-|Hne].
  - exists t'. split; [by eapply zget_insert_eq|]. congruence.
  - exists u. apply zget_Some_range in Ht. rewrite zget_insert_ne by (lia || done). done.
Qed.

(** The last part of [task_create]. *)
Lemma wp_finish_create s pid t par c :
  zget (tasks s) pid = Some t -> zget (cpus s) (cpunum s) = Some c -> parent_of s c par ->
  lock_held (c_ctx (cfg (mm s))) (tasks_lock s) ->
  wp (_ ← upd_task pid (t_set_tf fresh_tf);
      c ← thiscpu;
      parent ← (match cpu_task c with Some p => pt ← get_task p; mret (task_id pt) | None => mret 0 end);
      _ ← upd_task pid (fun t => t_set_state TASK_RUNNABLE (t_set_ticks TIME_QUANT (t_set_ids pid parent t)));
      _ ← on_tasks_lock spin_unlock;
      mret pid) s (fun r s' => r = pid /\ exists lk, lock_free lk /\
    s' = set_tasks_lock lk (set_tasks (<[Z.to_nat pid := t_set_state TASK_RUNNABLE (t_set_ticks TIME_QUANT
           (t_set_ids pid par (t_set_tf fresh_tf t)))]> (tasks s)) s)).
Proof.
  intros Ht Hc Hpar Hlk. pose proof (zget_Some_range _ _ _ Ht) as Hr. wp_step. eapply wp_upd_task; [exact Ht|].
  set (t1 := t_set_tf fresh_tf t). set (s1 := set_tasks _ s). wp_step. eapply (wp_thiscpu s1); [exact Hc|].
  assert (zget (tasks s1) pid = Some t1) as Ht1 by (by eapply zget_insert_eq). wp_step.
  assert (wp (match cpu_task c with Some p => pt ← get_task p; mret (task_id pt) | None => mret 0 end) s1
    (fun r s' => r = par /\ s' = s1)) as Hp.
  { unfold parent_of in Hpar. destruct (cpu_task c) as [i|]; [|by wp_step]. destruct Hpar as (u & Hu & Hid). wp_step.
    destruct (decide (pid = i)) as [<-|Hne].
    - eapply wp_get_task; [exact Ht1|]. wp_step. split; [|done]. simpl. by simplify_eq.
    - eapply wp_get_task; [unfold s1; simpl; rewrite zget_insert_ne by (lia || done); exact Hu|]. by wp_step. }
  eapply wp_mono; [exact Hp|]. intros r s2 [-> ->]. wp_step. eapply wp_upd_task; [exact Ht1|]. wp_step.
  apply wp_lock_with, wp_spin_unlock; [exact Hlk|]. intros lk' Hlk'. wp_step. split; [done|]. exists lk'.
  split; [done|]. unfold s1. simpl. by rewrite list_insert_insert_eq.
Qed.

Section Create.
  Context (K : ksyms) (HK : linked K).

(** [task_create] with a free structure and eighty free pages. *)
Lemma wp_task_create s ms l c par :
  mem_inv s ms l -> unlocked s -> length (tasks s) = 32%nat -> (80 <= length l)%nat ->
  zget (cpus s) (cpunum s) = Some c -> parent_of s c par ->
  (exists p t, zget (tasks s) p = Some t /\ state t = TASK_FREE) ->
  wp (task_create K) s (fun pid s' => exists t d fs l',
    zget (tasks s) pid = Some t /\ state t = TASK_FREE
    /\ tasks s' = <[Z.to_nat pid := fresh_task pid par (dirp d) t]> (tasks s)
    /\ frame_cpus s s' /\ unlocked s' /\ user_sizes s' = user_sizes s
    /\ created (mm s) l (mm s') l' d (zip stack_vas fs) /\ length fs = 10%nat
    /\ window [] (mm s') d /\ walled (mm s') d (zip stack_vas fs) /\ (forall f, f ∈ fs -> zeroed (mm s') f) /\ bootcpu s' = bootcpu s /\ gdt s' = gdt s
    /\ lower K (mm s) (mm s') d).
Proof.
  intros I [U1 U2] Hlen Hl Hc Hpar Hfree. unfold task_create. wp_step. apply wp_lock_with, wp_spin_lock; [done|].
  intros lk Hlk. set (s1 := set_tasks_lock lk s). wp_step.
  apply wp_find_free; [lia|simpl; rewrite Hlen; done| |].
  2: { intros H. destruct Hfree as (p & t & Ht & Hf). destruct (H p t); [apply zget_Some_range in Ht; lia|done|done]. }
  intros pid t Ht Hf. cbv beta iota. wp_step. apply wp_zoom.
  destruct l as [|p l]; [simpl in Hl; lia|]. cbn [length] in Hl.
  destruct (mi_placed _ _ _ I) as (P1 & P2 & P3 & P4).
  eapply wp_mono; [apply (wp_setupkvm_space _ _ _ (proj1 (lk_stacks K HK)) (proj2 (lk_stacks K HK)) (proj1 (lk_lapic K HK))
    (proj2 (lk_lapic K HK)) (lk_lapicaddr K HK) (mm s1) p l (mi_wf _ _ _ I)); [lia|done|done]|].
  intros r m2 (-> & l2 & W2 & Sp2 & Ha2 & Ho2 & Hl2 & Hn2 & Hlk2). cbv beta. wp_step.
  eapply wp_upd_task; [exact Ht|]. cbn [default from_option id]. rewrite bool_decide_eq_false_2 by done. cbn [when].
  do 2 wp_step. wp_step. set (s2 := set_tasks _ _). pose proof (zget_Some_range _ _ _ Ht) as Hr.
  assert (zget (tasks s2) pid = Some (t_set_pgdir (dirp p) t)) as Ht2 by (by eapply zget_insert_eq).
  assert (forall k, 0 <= k < 10 -> vm_lookup (ram (mm s2)) p (stack_va k) = None) as Hstk.
  { intros k Hk. simpl. rewrite Hlk2; [|by apply stack_va_range|by apply stack_va_self].
    apply kvm_space_stack; [apply (lk_lapic K HK)|apply (lk_lapic K HK)|exact Hk]. }
  eapply wp_mono; [apply (wp_make_stack K pid s2 p l2 _ W2 Sp2 ltac:(lia) Ht2 eq_refl Hstk)|].
  intros ok s3 (-> & M3 & l3 & fm & G). cbn [negb].
  destruct (created_grown (mm s) (p :: l) p m2 l2 (mm s3) l3 fm Ha2 Ho2 Hl2 G) as (fs & Pfs & Hfs & C).
  assert (tasks s3 = <[Z.to_nat pid := t_set_pgdir (dirp p) t]> (tasks s) /\ cpus s3 = cpus s /\ tasks_lock s3 = lk
    /\ cpus_lock s3 = cpus_lock s /\ ncpu s3 = ncpu s /\ user_sizes s3 = user_sizes s) as (T3 & E3 & K3 & L3 & N3 & Z3)
    by (by rewrite M3).
  assert (c_ctx (cfg (mm s3)) = c_ctx (cfg (mm s))) as X3.
  { pose proof (cr_layout _ _ _ _ _ _ C) as HL. unfold layout in HL. by simplify_eq. }
  assert (cpunum s3 = cpunum s) as Y3 by (unfold cpunum; by rewrite X3).
  eapply wp_mono; [apply (wp_finish_create s3 pid (t_set_pgdir (dirp p) t) par c)|].
  - rewrite T3. exact Ht2.
  - by rewrite E3, Y3.
  - by apply (parent_of_upd s s3 c par pid t (t_set_pgdir (dirp p) t)).
  - by rewrite X3, K3.
  - intros r s4 (-> & lk' & Hlk' & ->). exists t, p, fs, l3. cbn [tasks mm cpus set_tasks_lock set_tasks user_sizes].
    rewrite T3, list_insert_insert_eq. split; [exact Ht|]. split; [exact Hf|]. split; [done|].
    split; [split; [exact E3|split; [exact Y3|exact N3] ]|]. split; [split; [done|by rewrite <- L3 in U2]|].
    split; [exact Z3|]. split; [exact C|]. split; [exact Hfs|]. split.
    + eapply growing_window; [exact G|]. intros va Hva. rewrite Hlk2; [|by apply kern_va|].
      * apply kvm_space_kern; [apply (lk_lapic K HK)|apply (lk_lapic K HK)|exact Hva].
      * by apply kern_va_self.
    + split; [|split; [|split; [by rewrite M3|split; [by rewrite M3|] ] ] ].
      { eapply growing_walled; [exact G|exact Pfs|]. intros va Hva Hs e. cbn [mm s2 set_tasks set_mm].
        rewrite Hlk2; [|unfold KERNBASE in Hva; lia|exact Hs]. apply kvm_space_user; [apply HK|apply HK|].
        rewrite <- Zminus_mod_idemp_l. change (mm s1) with (mm s). rewrite P4. reflexivity. } intros f Hf'. { apply G. rewrite Pfs. rewrite snd_zip by (by rewrite Hfs). done. }
      eapply growing_lower; [exact HK|exact G|apply C|exact (wf_npages _ _ (mi_wf _ _ _ I))|exact Hlk2].
Qed.
End Create.

(** ** task_free *)

Lemma zip_drop k (fs : list Z) f :
  0 <= k < 10 -> length fs = 10%nat -> fs !! Z.to_nat k = Some f ->
  drop (Z.to_nat k) (zip stack_vas fs) = (stack_va k, f) :: drop (Z.to_nat (k + 1)) (zip stack_vas fs).
Proof.
  intros Hk Hl Hf. replace (Z.to_nat (k + 1)) with (S (Z.to_nat k)) by lia. apply drop_S.
  apply lookup_zip_with_Some. exists (stack_va k), f. split_and!; [done| |done].
  unfold stack_vas. rewrite list_lookup_fmap, lookup_seqZ_lt by lia. simpl. do 2 f_equal. lia.
Qed.

Lemma zip_later k (fs : list Z) va f :
  0 <= k < 10 -> (va, f) ∈ drop (Z.to_nat (k + 1)) (zip stack_vas fs) -> same_page (stack_va k) va = false.
Proof.
  intros Hk (i & Hi)%list_elem_of_lookup. rewrite lookup_drop in Hi.
  apply lookup_zip_with_Some in Hi as (v & f' & [= -> ->] & Hv & _).
  unfold stack_vas in Hv. rewrite list_lookup_fmap in Hv.
  destruct (seqZ 0 10 !! (Z.to_nat (k + 1) + i)%nat) as [j|] eqn:E; [|done]. injection Hv as <-.
  apply lookup_seqZ in E as [-> Hj]. apply stack_va_apart; lia.
Qed.

(** The loop that takes the stack away. *)
Lemma wp_free_stack K pid s d l fs t :
  linked K -> mm_wf (mm s) l -> length fs = 10%nat -> space (mm s) l d (zip stack_vas fs) ->
  zget (tasks s) pid = Some t -> pgdir t = dirp d ->
  wp (for_stack (fun va => t ← get_task pid; _ ← on_mm (page_remove (k_garbage K) (pgdir t) (va - PGSIZE)); mret true)) s
    (fun _ s' => mem_only s s' /\ exists l', evolve (mm s) l d (zip stack_vas fs) (mm s') l' []).
Proof.
  intros HK W Hfs Sp Ht Hd. set (fm := zip stack_vas fs).
  assert (length fm = 10%nat) as Hfm by (unfold fm; rewrite length_zip_with, Hfs; done).
  apply (wp_for_stack (fun k s' => mem_only s s' /\ exists l', evolve (mm s) l d fm (mm s') l' (drop (Z.to_nat k) fm))).
  - split; [by destruct s|]. exists l. by apply evolve_refl.
  - intros k s1 Hk (M1 & l1 & E1). destruct (lookup_lt_is_Some_2 fs (Z.to_nat k)) as [f Hf]; [lia|].
    pose proof (zip_drop k fs f Hk Hfs Hf) as Ed. fold fm in Ed. rewrite Ed in E1. wp_step.
    eapply (wp_get_task _ _ t); [rewrite M1; exact Ht|]. wp_step. apply wp_zoom. rewrite Hd.
    replace (stack_va k + 4096 - PGSIZE) with (stack_va k) by (unfold PGSIZE; lia).
    eapply wp_mono; [eapply (evolve_remove (mm s1) l1 d (drop (Z.to_nat (k + 1)) fm) (stack_va k) f);
      [apply E1|apply E1|apply HK|intros va' f'; by apply zip_later]|].
    intros u m2 E2. wp_step. split; [done|]. split; [by apply mem_only_set|]. exists (f :: l1). by eapply evolve_trans.
  - intros s' (M' & l' & E'). split; [done|]. exists l'. rewrite drop_ge in E' by (by rewrite Hfm). done.
Qed.

Lemma wp_task_free K s l m :
  linked K -> mm_wf (mm s) l -> placed (mm s) -> tm_ok s l m ->
  wp (task_free K (tm_pid m)) s (fun _ s' => mem_only s s' /\ exists l',
    mm_wf (mm s') l' /\ l' ≡ₚ tm_own (mm s) m ++ l /\ outside (tm_own (mm s) m ++ l) (mm s) (mm s')
    /\ layout (mm s') = layout (mm s)).
Proof.
  intros HK W (_ & _ & Hpl & _) [Hfs (t & Ht & _ & Hd) Sp _ _]. unfold task_free. wp_step. apply wp_zoom.
  wp_step. wp_step. wp_step. apply wp_PADDR; [exact Hpl|]. unfold lcr3. wp_step. wp_step.
  set (m1 := upd_cfg _ (mm s)). set (s1 := set_mm m1 s).
  assert (mm_wf m1 l) as W1 by (by apply upd_cfg_wf).
  destruct (space_writes (mm s) m1 l (tm_dir m) (tm_map m) Sp) as (Sp1 & Eo & _); try done.
  eapply wp_mono; [apply (wp_free_stack K (tm_pid m) s1 (tm_dir m) l (tm_frames m) t HK W1 Hfs Sp1 Ht Hd)|].
  intros u s2 (M2 & l2 & E2). wp_step. eapply (wp_get_task _ _ t); [rewrite M2; exact Ht|]. rewrite Hd. wp_step.
  apply wp_zoom. destruct (wp_inv _ _ _ (wp_destroy (mm s2) l2 (tm_dir m) (ev_wf _ _ _ _ _ _ _ E2)
    (ev_space _ _ _ _ _ _ _ E2))) as (a & m4 & E & l' & W4 & Hl' & Ho & HL).
  apply bind_ret_inv in E as (u1 & m3 & E3 & E4). eapply wp_eq; [exact E3|]. apply wp_zoom.
  eapply wp_eq; [exact E4|]. split; [rewrite M2; done|]. exists l'. cbn [mm set_mm].
  assert (own (mm s2) (tm_dir m) [] ++ l2 ≡ₚ tm_own (mm s) m ++ l) as P.
  { rewrite (ev_acct _ _ _ _ _ _ _ E2). unfold tm_own. by rewrite <- Eo. }
  split; [done|]. split; [by rewrite Hl', P|]. split.
  - assert (outside (tm_own (mm s) m ++ l) (mm s) m1) as O1 by done.
    etrans; [exact O1|]. etrans; [eapply outside_mono; [|exact (ev_out _ _ _ _ _ _ _ E2)]|eapply outside_mono; [|exact Ho] ].
    + intros q. unfold tm_own. by rewrite <- Eo.
    + intros q Hq. rewrite <- P. apply elem_of_app. by left.
  - rewrite HL, (ev_layout _ _ _ _ _ _ _ E2). done.
Qed.

(** ** What the invariant looks at *)

(** A task structure, as far as memory goes. *)
Definition tview (t : Task) : Z * bool := (pgdir t, bool_decide (state t = TASK_FREE)).

Definition same_views (s s' : tk_state) : Prop :=
  forall p, tview <$> zget (tasks s') p = tview <$> zget (tasks s) p.

#[global] Instance same_views_preorder : PreOrder same_views.
Proof. split; [by intros s p|]. intros x y z H1 H2 p. by rewrite H2, H1. Qed.

Lemma tview_inv t u : tview t = tview u -> pgdir t = pgdir u /\ (state t = TASK_FREE <-> state u = TASK_FREE).
Proof.
  unfold tview. intros [= H1 H2]. split; [done|].
  by rewrite <- (bool_decide_eq_true (state t = TASK_FREE)), H2, bool_decide_eq_true.
Qed.

Lemma views_inv s s' p t :
  same_views s s' -> zget (tasks s') p = Some t ->
  exists u, zget (tasks s) p = Some u /\ pgdir t = pgdir u /\ (state t = TASK_FREE <-> state u = TASK_FREE).
Proof.
  intros H Ht. specialize (H p). rewrite Ht in H. simpl in H. symmetry in H.
  apply fmap_Some in H as (u & Hu & E). exists u. split; [done|]. by apply tview_inv.
Qed.

Lemma views_upd s s' i t t' :
  zget (tasks s) i = Some t -> tasks s' = <[Z.to_nat i := t']> (tasks s) -> tview t' = tview t -> same_views s s'.
Proof.
  intros Ht E Hv p. rewrite E. destruct (decide (i = p)) as [<-|Hne].
  - rewrite (zget_insert_eq _ _ t) by done. rewrite Ht. simpl. by rewrite Hv.
  - apply zget_Some_range in Ht. by rewrite zget_insert_ne by (lia || done).
Qed.

(** Memory with other settings of the machine. *)
Definition same_mem (s s' : mm_state) : Prop := exists g, s' = upd_cfg g s /\ (layout s').1 = (layout s).1.

Lemma same_mem_refl s : same_mem s s.
Proof. exists id. by destruct s. Qed.

Lemma same_mem_space s s' l d fm :
  same_mem s s' -> space s l d fm -> space s' l d fm /\ own s' d fm = own s d fm.
Proof.
  intros (g & -> & HL) Sp. destruct (space_writes s (upd_cfg g s) l d fm Sp) as (? & ? & _); try done.
  unfold layout in HL. cbn [fst] in HL. by simplify_eq.
Qed.

Lemma same_mem_wf s s' l : same_mem s s' -> mm_wf s l -> mm_wf s' l.
Proof. intros (g & -> & HL) W. apply upd_cfg_wf; [done|]. unfold layout in HL. by simplify_eq. Qed.

Lemma mem_inv_view s s' ms l :
  mem_inv s ms l -> same_mem (mm s) (mm s') -> same_views s s' ->
  mem_inv s' ms l /\ (ms ≫= tm_own (mm s')) = (ms ≫= tm_own (mm s)).
Proof.
  intros [I1 I2 I3 I4 I5 I6] HM HV.
  assert ((ms ≫= tm_own (mm s')) = (ms ≫= tm_own (mm s))) as Eo.
  { apply bind_ext. intros m Hm. eapply same_mem_space; [done|by apply I4]. }
  split; [|done]. split.
  - by eapply same_mem_wf.
  - unfold pool. by rewrite Eo.
  - done.
  - intros m Hm. destruct (I4 m Hm) as [L (t & Ht & Hf & Hd) Sp _ _].
    eapply tm_ok_keep; [by apply I4|by eapply same_mem_space|by destruct HM as (g & -> & _)|].
    pose proof (HV (tm_pid m)) as HVm. rewrite Ht in HVm. apply fmap_Some in HVm as (u & Hu & E).
    destruct (tview_inv _ _ E) as [E1 E2]. exists u. split; [done|]. split; [by rewrite <- E2|congruence].
  - intros p t Ht Hf. destruct (views_inv _ _ p t HV Ht) as (u & Hu & _ & E2). apply (I5 p u Hu). by rewrite <- E2.
  - destruct HM as (g & _ & HL). by eapply placed_layout; [exact HL|].
Qed.

(** ** Death of a task *)

Lemma mem_inv_drop s m ms l s' l' t :
  mem_inv s (m :: ms) l -> zget (tasks s) (tm_pid m) = Some t ->
  tasks s' = <[Z.to_nat (tm_pid m) := t_set_state TASK_FREE t]> (tasks s) ->
  mm_wf (mm s') l' -> l' ≡ₚ tm_own (mm s) m ++ l -> outside (tm_own (mm s) m ++ l) (mm s) (mm s') ->
  layout (mm s') = layout (mm s) ->
  mem_inv s' ms l' /\ pool (mm s') ms l' ≡ₚ pool (mm s) (m :: ms) l.
Proof.
  intros [I1 I2 I3 I4 I5 I6] Ht Et W Hl Ho HL.
  assert (npages (mm s') = npages (mm s)) as En by (unfold layout in HL; by simplify_eq).
  unfold pool in I2. cbn [mbind list_bind] in I2. change (list_bind _ _ (tm_own (mm s)) ms) with (ms ≫= tm_own (mm s)) in I2.
  destruct (others_keep (mm s) (mm s') ms l l' (tm_own (mm s) m ++ l)) as [Hsp Eo]; [|done|done| |].
  { intros m' Hm'. apply I4. by right. }
  { intros m' q Hm' Hq. rewrite Hl. assert (q ∉ tm_own (mm s) m ++ l); [|done].
    pose proof (pool_in _ _ m' q Hm' Hq) as Hin. rewrite elem_of_app. intros [Hq'|Hq'].
    - apply NoDup_app in I2 as [I2 _]. apply NoDup_app in I2 as (_ & H & _). by apply (H q).
    - apply NoDup_app in I2 as (_ & H & _). apply (H q); [|done]. apply elem_of_app. by right. }
  assert (pool (mm s') ms l' ≡ₚ pool (mm s) (m :: ms) l) as HP.
  { unfold pool. cbn [mbind list_bind]. change (list_bind _ _ (tm_own (mm s)) ms) with (ms ≫= tm_own (mm s)).
    rewrite Eo, Hl. rewrite (assoc_L (++)). f_equiv. by rewrite (comm (++)). }
  apply NoDup_cons in I3 as [Hpid Hnd].
  assert (forall m', m' ∈ ms -> tm_pid m <> tm_pid m') as Hne.
  { intros m' Hm' E. apply Hpid. apply list_elem_of_fmap. by exists m'. }
  pose proof (zget_Some_range _ _ _ Ht) as Hr. split; [|done]. split.
  - done.
  - rewrite HP. unfold pool. cbn [mbind list_bind]. exact I2.
  - done.
  - intros m' Hm'. destruct (tm_task _ _ _ (I4 m' ltac:(by right))) as (u & Hu), (Hsp m' Hm') as [Sp E].
    eapply tm_ok_keep; [by apply I4; right|exact Sp|exact E|].
    exists u. rewrite Et, zget_insert_ne; [done|lia|by apply Hne].
  - intros p u. rewrite Et. destruct (decide (tm_pid m = p)) as [<-|Hp].
    + rewrite (zget_insert_eq _ _ t) by done. by intros [= <-].
    + rewrite zget_insert_ne by (done || lia). intros Hu Hfu. destruct (I5 p u Hu Hfu) as (m' & [->|Hm']%elem_of_cons & E); [done|].
      by exists m'.
  - eapply placed_layout; [|exact I6]. congruence.
Qed.

Lemma pool_perm s ms ms' l : ms ≡ₚ ms' -> pool s ms l ≡ₚ pool s ms' l.
Proof. intros E. unfold pool. by rewrite E. Qed.

Lemma mem_inv_perm s ms ms' l : ms ≡ₚ ms' -> mem_inv s ms l -> mem_inv s ms' l.
Proof.
  intros E [I1 I2 I3 I4 I5 I6]. split; [done|by rewrite <- (pool_perm _ _ _ _ E)|by rewrite <- E| | |done].
  - intros m. rewrite <- E. by apply I4.
  - intros p t Ht Hf. destruct (I5 p t Ht Hf) as (m & Hm & Hp). exists m. by rewrite <- E.
Qed.

(** The task in use with number [p]. *)
Lemma mem_inv_find s ms l p t :
  mem_inv s ms l -> zget (tasks s) p = Some t -> state t <> TASK_FREE ->
  exists m ms', tm_pid m = p /\ ms ≡ₚ m :: ms' /\ mem_inv s (m :: ms') l.
Proof.
  intros I Ht Hf. destruct (mi_all _ _ _ I p t Ht Hf) as (m & Hm & Hp). apply list_elem_of_split in Hm as (l1 & l2 & ->).
  exists m, (l1 ++ l2). assert (l1 ++ m :: l2 ≡ₚ m :: l1 ++ l2) as P by (symmetry; apply Permutation_middle).
  split; [done|]. split; [done|]. by eapply mem_inv_perm.
Qed.

(** [m] neither panics, faults nor hangs, and in the state in which it returns or
    goes to user mode [I] holds. *)
Definition finishes {S A} (m : M S A) (s : S) (I : S -> Prop) : Prop :=
  match m s with Ret _ s' => I s' | Iret _ s' => I s' | Stop _ => False end.

Lemma finishes_bind {S A B} (m : M S A) (f : A -> M S B) s Q I :
  wp m s Q -> (forall a s', Q a s' -> finishes (f a) s' I) -> finishes (m ≫= f) s I.
Proof. intros Hw Hf. unfold finishes. apply (run_bind m f s Q); [exact Hw|exact Hf]. Qed.

Lemma finishes_step {S A B} (m : M S A) (f : A -> M S B) s a s' I :
  m s = Ret a s' -> finishes (f a) s' I -> finishes (m ≫= f) s I.
Proof. intros E Hf. unfold finishes. by rewrite (bind_ret _ _ _ _ _ E). Qed.

Lemma finishes_safe {S A} (m : M S A) s (I J : S -> Prop) (Q : A -> S -> Prop) :
  finishes m s I -> safe m s Q J -> (forall a s', Q a s' -> J s') -> finishes m s (fun s' => I s' /\ J s').
Proof. unfold finishes, safe. intros HI HS HQ. destruct (m s); [|done|done]. split; [done|]. by eapply HQ. Qed.

(** What no event changes. *)
Definition static (s s' : tk_state) : Prop :=
  ncpu s' = ncpu s /\ user_sizes s' = user_sizes s /\ length (cpus s') = length (cpus s).

#[global] Instance static_preorder : PreOrder static.
Proof. split; [done|]. intros x y z (?&?&?) (?&?&?). unfold static. split_and!; congruence. Qed.

(** The scheduler does not touch anybody's memory. *)
Lemma sched_yield_mem s ms l c :
  sched_inv s -> zget (cpus s) (cpunum s) = Some c -> mem_inv s ms l -> unlocked s ->
  finishes sched_yield s (fun s' => (mem_inv s' ms l /\ (ms ≫= tm_own (mm s')) = (ms ≫= tm_own (mm s)))
    /\ unlocked s' /\ static s s').
Proof.
  intros SI Hc I U. unfold finishes. rewrite (sched_yield_eq None s c SI Hc).
  destruct (list_find _ _) as [ [k idx]|] eqn:Hf; [|done]. apply list_find_Some in Hf as (_ & Hrun & _).
  destruct (can_run_task _ _ _ Hrun) as (p & t & Hp & Ht & Hst). unfold switch_outcome. rewrite Hp, Ht.
  assert (state t <> TASK_FREE) as Hnf by congruence. destruct (mi_all _ _ _ I p t Ht Hnf) as (m & Hm & Hpid).
  destruct (tm_task _ _ _ (mi_ok _ _ _ I m Hm)) as (u & Hu & _ & Hd). assert (u = t) as -> by congruence.
  pose proof (dw_dir _ _ _ (sp_dir _ _ _ _ (tm_space _ _ _ (mi_ok _ _ _ I m Hm)))) as Hdir.
  destruct (Z.ltb_spec (pgdir t) KERNBASE) as [Hlt|_]; [rewrite Hd in Hlt; unfold dirp in Hlt; lia|].
  split; [|split; [exact U|unfold static; simpl; by rewrite length_insert] ].
  apply (mem_inv_view s); [exact I|eexists; split; [reflexivity|reflexivity]|].
  eapply (views_upd s _ p t); [exact Ht|reflexivity|]. unfold tview. simpl. by rewrite !bool_decide_eq_false_2 by congruence.
Qed.

(** The last step of [sys_kill]: the task is gone, another one runs. *)
Lemma yield_after_kill s m ms l s' l' t c q :
  mem_inv s (m :: ms) l -> sched_inv s -> zget (cpus s) (cpunum s) = Some c -> cpu_task c = Some (tm_pid m) ->
  zget (tasks s) (tm_pid m) = Some t -> rq_ok q -> live (cpu_rq c) ≡ₚ tm_pid m :: live q ->
  cpus s' = <[Z.to_nat (cpunum s) := c_set_task None (c_set_rq q c)]> (cpus s) ->
  cpunum s' = cpunum s -> tasks s' = <[Z.to_nat (tm_pid m) := t_set_state TASK_FREE t]> (tasks s) ->
  mm_wf (mm s') l' -> l' ≡ₚ tm_own (mm s) m ++ l -> outside (tm_own (mm s) m ++ l) (mm s) (mm s') ->
  layout (mm s') = layout (mm s) -> unlocked s' -> static s s' ->
  finishes sched_yield s' (fun s2 => exists l', mem_inv s2 ms l' /\ l' ≡ₚ tm_own (mm s) m ++ l
    /\ pool (mm s2) ms l' ≡ₚ pool (mm s) (m :: ms) l /\ unlocked s2 /\ static s s2).
Proof.
  intros I SI Hc Hcur Ht Hq Hperm C N T W Hl Ho HL U St.
  destruct (mem_inv_drop s m ms l s' l' t I Ht T W Hl Ho HL) as [I' P].
  assert (sched_inv s') as SI'.
  { eapply (inv_ext None _ s'); [| |exact (inv_killed s (cpunum s) c (tm_pid m) t q SI Hc Hcur Ht Hq Hperm)]; [exact T|exact C]. }
  assert (zget (cpus s') (cpunum s') = Some (c_set_task None (c_set_rq q c))) as Hc'.
  { rewrite C, N. by eapply zget_insert_eq. }
  pose proof (sched_yield_mem s' ms l' _ SI' Hc' I' U) as HY. unfold finishes in *.
  destruct (sched_yield s') as [u s2|f s2|e]; [..|done]; destruct HY as ([I2 E2] & U2 & St2); exists l';
    (split; [exact I2|]; split; [exact Hl|]; split; [rewrite <- P; unfold pool; by rewrite E2|]; split; [exact U2|by etrans]).
Qed.

(** The current task [p] is killed: what is left when the scheduler is called. *)
Lemma kill_yields K s ms m l c t :
  linked K -> mem_inv s (m :: ms) l -> sched_inv s -> unlocked s ->
  zget (cpus s) (cpunum s) = Some c -> cpu_task c = Some (tm_pid m) -> 0 < tm_pid m -> 1 < total (cpu_rq c) ->
  zget (tasks s) (tm_pid m) = Some t ->
  comes_to (sys_kill K (tm_pid m)) sched_yield s (fun s' => exists q l',
    (rq_ok q /\ live (cpu_rq c) ≡ₚ tm_pid m :: live q)
    /\ cpus s' = <[Z.to_nat (cpunum s) := c_set_task None (c_set_rq q c)]> (cpus s)
    /\ cpunum s' = cpunum s /\ tasks s' = <[Z.to_nat (tm_pid m) := t_set_state TASK_FREE t]> (tasks s)
    /\ (mm_wf (mm s') l' /\ l' ≡ₚ tm_own (mm s) m ++ l) /\ outside (tm_own (mm s) m ++ l) (mm s) (mm s')
    /\ layout (mm s') = layout (mm s) /\ unlocked s' /\ static s s').
Proof.
  intros HK I SI [U1 U2] Hc Hcur Hpos Htot Ht. set (p := tm_pid m) in *.
  destruct (live_current _ _ _ _ SI Hc Hcur) as (Hlive & t0 & Ht0 & Hf & Hid). assert (t0 = t) as -> by congruence. pose proof (zget_Some_range _ _ _ Ht) as Hr.
  rewrite (si_tasks _ _ SI) in Hr. unfold sys_kill.
  destruct (Z.gtb_spec p 0), (Z.ltb_spec p NR_TASKS); unfold NR_TASKS in *; try lia. cbn [andb].
  eapply comes_step; [by apply thiscpu_eq|]. cbv beta. destruct (Z.gtb_spec (total (cpu_rq c)) 1); [|lia].
  destruct (rq_remove_found p (cpu_rq c)) as (q & Eq & Hq & Hperm & _); [apply (si_rq _ _ SI); by eapply zget_elem_of|done|].
  rewrite Eq. eapply comes_step; [reflexivity|]. eapply comes_step; [by apply (upd_thiscpu_eq _ c)|].
  set (s1 := set_cpus _ s). eapply (comes_bind _ _ _ s1 (fun _ s' => exists lk, lock_held (c_ctx (cfg (mm s))) lk /\ s' = set_tasks_lock lk s1)).
  { apply wp_lock_with, wp_spin_lock; [exact U1|]. intros lk Hlk. by exists lk. }
  intros _ s2 (lk & Hlk & ->). assert (tm_ok (set_tasks_lock lk s1) l m) as Hok.
  { destruct (mi_ok _ _ _ I m ltac:(by left)) as [L T Sp]. by split. }
  eapply comes_bind; [apply (wp_task_free K (set_tasks_lock lk s1) l m HK (mi_wf _ _ _ I) (mi_placed _ _ _ I) Hok)|].
  intros _ s3 (M3 & l' & W3 & Hl' & Ho & HL). cbn [mm set_tasks_lock set_cpus s1] in Hl', Ho, HL.
  assert (c_ctx (cfg (mm s3)) = c_ctx (cfg (mm s))) as X3 by (unfold layout in HL; by simplify_eq).
  assert (zget (tasks s3) p = Some t) as Ht3 by (rewrite M3; exact Ht).
  eapply comes_step; [by apply (upd_task_eq _ _ t)|]. set (s4 := set_tasks _ s3).
  eapply (comes_bind _ _ _ s4 (fun _ s' => exists lk, lock_free lk /\ s' = set_tasks_lock lk s4)).
  { apply wp_lock_with, wp_spin_unlock; [|by intros lk' ?; exists lk'].
    change (lock_held (c_ctx (cfg (mm s3))) (tasks_lock s3)). rewrite X3, M3. exact Hlk. }
  intros _ s5 (lk' & Hlk' & ->). set (s5 := set_tasks_lock lk' s4).
  assert (cpunum s5 = cpunum s) as N5 by (unfold cpunum; cbn [mm s5 s4 set_tasks set_tasks_lock]; by rewrite X3).
  assert (cpus s5 = cpus s1 /\ tasks s5 = <[Z.to_nat p := t_set_state TASK_FREE t]> (tasks s)) as [C5 T5].
  { split; cbn [cpus tasks s5 s4 set_tasks set_tasks_lock]; rewrite M3; done. }
  assert (zget (cpus s5) (cpunum s5) = Some (c_set_rq q c)) as Hc5.
  { rewrite C5, N5. by eapply zget_insert_eq. }
  eapply (comes_step _ _ _ s5 p s5).
  { unfold cur. rewrite (bind_ret _ _ _ _ _ (thiscpu_eq _ _ Hc5)). cbn [cpu_task c_set_rq]. by rewrite Hcur. }
  eapply comes_step; [apply get_task_eq; rewrite T5; by eapply zget_insert_eq|]. cbn [task_id t_set_state].
  rewrite Hid, Z.eqb_refl. eapply comes_step; [by apply upd_thiscpu_eq|]. eexists. split; [reflexivity|].
  exists q, l'. cbn [cpus set_cpus mm]. split; [done|]. split; [|split; [exact N5|split; [exact T5|split; [done|split; [done|split; [done|split] ] ] ] ] ].
  - cbn [cpus set_cpus]. rewrite C5, N5. cbn [s1 cpus set_cpus]. by rewrite list_insert_insert_eq.
  - split; [done|]. change (lock_free (cpus_lock s3)). rewrite M3. exact U2.
  - unfold static. cbn [cpus set_cpus]. rewrite length_insert, C5. cbn [s1 cpus set_cpus]. rewrite length_insert.
    split; [|split; [|done] ]; [change (ncpu s3 = ncpu s)|change (user_sizes s3 = user_sizes s)]; by rewrite M3.
Qed.

Lemma kill_mem K s ms m l c :
  linked K -> mem_inv s (m :: ms) l -> sched_inv s -> unlocked s ->
  zget (cpus s) (cpunum s) = Some c -> cpu_task c = Some (tm_pid m) -> 0 < tm_pid m -> 1 < total (cpu_rq c) ->
  finishes (sys_kill K (tm_pid m)) s (fun s' => exists l', mem_inv s' ms l' /\ l' ≡ₚ tm_own (mm s) m ++ l
    /\ pool (mm s') ms l' ≡ₚ pool (mm s) (m :: ms) l /\ unlocked s' /\ static s s').
Proof.
  intros HK I SI U Hc Hcur Hpos Htot. destruct (live_current _ _ _ _ SI Hc Hcur) as (_ & t & Ht & _).
  destruct (kill_yields K s ms m l c t HK I SI U Hc Hcur Hpos Htot Ht)
    as (s1 & E & q & l' & [Hq Hperm] & C & N & T & [W Hl] & Ho & HL & U1 & St).
  unfold finishes. rewrite E. by apply (yield_after_kill s m ms l s1 l' t c q).
Qed.
