(* ===== verification/TaskFork.v ===== *)
(** * fork and the life of tasks

    [sys_fork] (kernel/task.c) as a whole: the child has the parent's registers
    and a copy of its stack in frames of its own, the user program is mapped for
    it, and the two are told apart by what the call returns.  The theorems at the
    end combine this with TaskSpace.v: creation, fork and kill conserve pages. *)

From S2P Require Import Prelude.
From S2P Require Import Machine.
From S2P Require Import Kmonad.
From S2P Require Import Spinlock.
From S2P Require Import PageAlloc.
From S2P Require Import Paging.
From S2P Require Import Kvm.
From S2P Require Import Space.
From Stdlib Require Import ZArith Lia.
From stdpp Require Import base gmap list strings.
From S2P Require Import Task.
From S2P Require Import TaskInv.
From S2P Require Import TaskInit.
From S2P Require Import TaskSpace.

Local Open Scope Z_scope.

(** ** Copying a page *)

(** Words copied one by one between two ranges that do not meet. *)
Lemma copy_words_spec n d r m a :
  r + 4 * Z.of_nat n <= d \/ d + 4 * Z.of_nat n <= r ->
  rd32 (copy_words n d r m) a
  = if (0 <=? a - d) && (a - d <? 4 * Z.of_nat n) && ((a - d) mod 4 =? 0) then rd32 m (r + (a - d)) else rd32 m a.
Proof.
  revert d r m. induction n as [|n IH]; intros d r m Hd; cbn [copy_words].
  - destruct (Z.leb_spec 0 (a - d)), (Z.ltb_spec (a - d) (4 * Z.of_nat 0)); try done. lia.
  - rewrite IH by lia. rewrite !rd32_insert.
    assert ((a - (d + 4)) mod 4 = (a - d) mod 4) as -> by (Z.to_euclidean_division_equations; lia).
    destruct (Z.eqb_spec ((a - d) mod 4) 0) as [E|E]; rewrite ?andb_true_r, ?andb_false_r.
    + destruct (Z.leb_spec 0 (a - (d + 4))), (Z.ltb_spec (a - (d + 4)) (4 * Z.of_nat n)), (Z.leb_spec 0 (a - d)),
        (Z.ltb_spec (a - d) (4 * Z.of_nat (S n))); cbn [andb]; try lia;
        repeat case_bool_decide; try lia; try (f_equal; lia);
        exfalso; Z.to_euclidean_division_equations; lia.
    + case_bool_decide as H; [|done]. subst a. rewrite Z.sub_diag in E. done.
Qed.

Lemma copy_words_range n d r m :
  (forall a w, m !! a = Some w -> 0 <= w < 4294967296) ->
  forall a w, copy_words n d r m !! a = Some w -> 0 <= w < 4294967296.
Proof.
  revert d r m. induction n as [|n IH]; intros d r m Hm; cbn [copy_words]; [done|]. apply IH.
  intros a w. destruct (decide (d = a)) as [->|].
  - rewrite lookup_insert_eq. intros [= <-]. unfold rd32. destruct (m !! r) eqn:E; simpl; [by eapply Hm|lia].
  - rewrite lookup_insert_ne by done. apply Hm.
Qed.

(** Page [src] copied to page [dst]. *)
Definition copy_page (dst src : Z) (s : mm_state) : mm_state :=
  set_ram (copy_words 1024 (dst * 4096) (src * 4096) (ram s)) s.

Lemma set_ram_wf m s l :
  mm_wf s l -> (forall a w, m !! a = Some w -> 0 <= w < 4294967296) -> mm_wf (set_ram m s) l.
Proof. intros [w1 w2 w3 w4 w5 w6 w7] H. split; assumption. Qed.

Lemma copy_page_wf dst src s l : mm_wf s l -> mm_wf (copy_page dst src s) l.
Proof. intros W. apply set_ram_wf; [exact W|]. apply copy_words_range. exact (wf_ram s l W). Qed.

Lemma copy_page_words dst src s o :
  dst <> src -> 0 <= o < 4096 -> o mod 4 = 0 ->
  rd32 (ram (copy_page dst src s)) (dst * 4096 + o) = rd32 (ram s) (src * 4096 + o).
Proof.
  intros Hne Ho Ho4. cbn [ram copy_page set_ram]. rewrite copy_words_spec by lia.
  replace (dst * 4096 + o - dst * 4096) with o by lia. rewrite Ho4.
  destruct (Z.leb_spec 0 o), (Z.ltb_spec o (4 * Z.of_nat 1024)); try lia. done.
Qed.

Lemma copy_page_out dst src s q : dst <> src -> q <> dst -> same_words q s (copy_page dst src s).
Proof.
  intros Hne Hq o Ho. cbn [ram copy_page set_ram]. rewrite copy_words_spec by lia.
  destruct (Z.leb_spec 0 (q * 4096 + o - dst * 4096)), (Z.ltb_spec (q * 4096 + o - dst * 4096) (4 * Z.of_nat 1024)); try lia;
    done.
Qed.

#[local] Opaque copy_words.

(** ** Copying the stack *)

(** Walking to a page of the user stack. *)
Lemma space_walk s l d fm va f :
  mm_wf s l -> space s l d fm -> (va, f) ∈ fm ->
  exists a, pgdir_walk (dirp d) va 0 s = Ret (Some (a + KERNBASE)) s /\ word_ok s a = true
    /\ PTE_ADDR (rd32 (ram s) a) = f * 4096 /\ 0 <= f < npages s.
Proof.
  intros W Sp Hin. destruct (sp_vas _ _ _ _ Sp va f Hin) as [_ Hs]. pose proof (sp_dir _ _ _ _ Sp) as D.
  pose proof (frame_range _ _ _ _ _ W (sp_frame _ _ _ _ Sp va f Hin)) as Hf. pose proof (wf_npages s l W).
  destruct (vm_lookup_inv _ _ _ _ (sp_map _ _ _ _ Sp va f Hin)) as (t & Ht & He & _).
  destruct (dw_tab s l d D _ t (PDX_range va) Hs Ht) as (Htr & _).
  exists (t * 4096 + 4 * PTX va). split; [by apply (pgdir_walk_hit s l d W D)|]. split; [by apply pte_word_ok|].
  split; [|done]. rewrite He. unfold insert_entry. rewrite page2pa_spec, <- Z.lor_assoc by lia.
  apply pte_fields; [lia|by vm_compute].
Qed.

Lemma wp_copy_block s l d1 fm1 f1 d2 fm2 f2 va :
  mm_wf s l -> space s l d1 fm1 -> space s l d2 fm2 -> (va, f1) ∈ fm1 -> (va, f2) ∈ fm2 ->
  wp (rp ← pgdir_walk (dirp d1) va 0;
      rc ← pgdir_walk (dirp d2) va 0;
      pte_child ← need rc "sys_fork: *pte_child";
      ec ← load32 pte_child;
      dst ← KADDR (PTE_ADDR ec);
      pte_parent ← need rp "sys_fork: *pte_parent";
      ep ← load32 pte_parent;
      src ← KADDR (PTE_ADDR ep);
      memcpy dst src PGSIZE) s (fun _ s' => s' = copy_page f2 f1 s).
Proof.
  intros W S1 S2 H1 H2. destruct (space_walk s l d1 fm1 va f1 W S1 H1) as (a1 & E1 & Ha1 & Hp1 & Hf1).
  destruct (space_walk s l d2 fm2 va f2 W S2 H2) as (a2 & E2 & Ha2 & Hp2 & Hf2).
  wp_step. eapply wp_eq; [exact E1|]. wp_step. eapply wp_eq; [exact E2|]. wp_step. wp_step. wp_step.
  apply wp_load32; [exact Ha2|]. wp_step. rewrite Hp2. eapply wp_KADDR_page; [exact W|exact Hf2|]. wp_step. wp_step. wp_step.
  apply wp_load32; [exact Ha1|]. wp_step. rewrite Hp1. eapply wp_KADDR_page; [exact W|exact Hf1|].
  unfold memcpy. wp_step. wp_step.
  replace (f2 * 4096 + KERNBASE - KERNBASE) with (f2 * 4096 + 0) by lia.
  replace (f1 * 4096 + KERNBASE - KERNBASE) with (f1 * 4096 + 0) by lia.
  replace (f2 * 4096 + 0 + PGSIZE - 4) with (f2 * 4096 + 4092) by (unfold PGSIZE; lia).
  replace (f1 * 4096 + 0 + PGSIZE - 4) with (f1 * 4096 + 4092) by (unfold PGSIZE; lia).
  rewrite !word_ok_page by (done || lia). cbn [andb]. wp_step. unfold copy_page. rewrite !Z.add_0_r. reflexivity.
Qed.

(** After [k] turns the first [k] pages of the child's stack are the parent's, and
    nothing but the child's frames was written. *)
Record copied (s0 : mm_state) (l fs1 fs2 : list Z) (k : Z) (s : mm_state) : Prop := {
  cp_ram : s = set_ram (ram s) s0;
  cp_wf : mm_wf s l;
  cp_out : forall q, q ∉ fs2 -> same_words q s0 s;
  cp_done : forall j f1 f2 o, 0 <= j < k -> fs1 !! Z.to_nat j = Some f1 -> fs2 !! Z.to_nat j = Some f2 ->
    0 <= o < 4096 -> o mod 4 = 0 -> rd32 (ram s) (f2 * 4096 + o) = rd32 (ram s0) (f1 * 4096 + o)
}.

Lemma copied_turn s0 l fs1 fs2 k s f1 f2 :
  copied s0 l fs1 fs2 k s -> 0 <= k -> fs1 !! Z.to_nat k = Some f1 -> fs2 !! Z.to_nat k = Some f2 ->
  (forall f, f ∈ fs1 -> f ∉ fs2) -> NoDup fs2 -> copied s0 l fs1 fs2 (k + 1) (copy_page f2 f1 s).
Proof.
  intros [C1 C2 C3 C4] Hk H1 H2 Hd Hnd. assert (f1 ∉ fs2) as Hf1 by (apply Hd; by eapply list_elem_of_lookup_2).
  assert (f2 ∈ fs2) as Hf2 by (by eapply list_elem_of_lookup_2). assert (f2 <> f1) as Hne by (by intros ->). split.
  - rewrite C1 at 1. reflexivity.
  - by apply copy_page_wf.
  - intros q Hq o Ho. rewrite copy_page_out; [by apply C3|done|by intros ->|done].
  - intros j g1 g2 o Hj Hg1 Hg2 Ho Ho4. destruct (decide (j = k)) as [->|Hjk].
    + simplify_eq. rewrite copy_page_words by done. by apply C3.
    + rewrite copy_page_out; [apply (C4 j); [lia|done..]|done| |done].
      intros ->. pose proof (NoDup_lookup _ _ _ _ Hnd Hg2 H2). lia.
Qed.

(** Spaces whose directory and tables are not among the child's frames stay. *)
Lemma copied_space s0 l fs1 fs2 k s d fm :
  copied s0 l fs1 fs2 k s -> space s0 l d fm -> d ∉ fs2 -> (forall t, t ∈ tables (ram s0) d -> t ∉ fs2) ->
  space s l d fm /\ own s d fm = own s0 d fm /\ (forall va, vm_lookup (ram s) d va = vm_lookup (ram s0) d va).
Proof.
  intros [C1 C2 C3 C4] Sp Hd Ht. apply (space_writes s0); [done|by rewrite C1..|by apply C3|].
  intros t Hin. by apply C3, Ht.
Qed.

Lemma zip_elem k (fs : list Z) f : 0 <= k < 10 -> fs !! Z.to_nat k = Some f -> (stack_va k, f) ∈ zip stack_vas fs.
Proof.
  intros Hk Hf. apply (list_elem_of_lookup_2 _ (Z.to_nat k)). apply lookup_zip_with_Some.
  exists (stack_va k), f. split_and!; [done| |done].
  unfold stack_vas. rewrite list_lookup_fmap, lookup_seqZ_lt by lia. simpl. do 2 f_equal. lia.
Qed.

(** The two tasks of a fork: the child's frames are its own. *)
Definition apart (s : mm_state) (m1 m2 : tmem) : Prop :=
  NoDup (tm_own s m2) /\ forall q, q ∈ tm_own s m1 -> q ∉ tm_own s m2.

Lemma frames_own s m : length (tm_frames m) = 10%nat -> forall f, f ∈ tm_frames m -> f ∈ tm_own s m.
Proof.
  intros Hl f Hf. right. apply elem_of_app. right. unfold tm_map. rewrite snd_zip; [done|]. by rewrite Hl.
Qed.

Lemma child_tables s m : length (tm_frames m) = 10%nat -> NoDup (tm_own s m) ->
  NoDup (tm_frames m) /\ (tm_dir m ∉ tm_frames m) /\ forall t, t ∈ tables (ram s) (tm_dir m) -> t ∉ tm_frames m.
Proof.
  intros Hl Hnd. unfold tm_own, own, tm_map in Hnd. rewrite snd_zip in Hnd by (by rewrite Hl).
  apply NoDup_cons in Hnd as [Hd Hnd]. apply NoDup_app in Hnd as (_ & Ht & Hf). split; [done|]. split.
  - intros H. apply Hd. apply elem_of_app. by right.
  - intros t Hin. by apply Ht.
Qed.

Lemma apart_tables s m1 m2 : length (tm_frames m2) = 10%nat -> apart s m1 m2 ->
  (tm_dir m1 ∉ tm_frames m2) /\ (forall t, t ∈ tables (ram s) (tm_dir m1) -> t ∉ tm_frames m2)
  /\ (length (tm_frames m1) = 10%nat -> forall f, f ∈ tm_frames m1 -> f ∉ tm_frames m2).
Proof.
  intros Hl [_ Ha]. assert (forall q, q ∈ tm_own s m1 -> q ∉ tm_frames m2) as H.
  { intros q Hq Hin. apply (Ha q Hq). by apply frames_own. }
  split; [apply H; by left|]. split.
  - intros t Ht. apply H. right. apply elem_of_app. by left.
  - intros Hl1 f Hf. apply H. by apply frames_own.
Qed.

Lemma wp_copy_stack s l m1 m2 t1 t2 c :
  mm_wf (mm s) l -> space (mm s) l (tm_dir m1) (tm_map m1) -> space (mm s) l (tm_dir m2) (tm_map m2) ->
  length (tm_frames m1) = 10%nat -> length (tm_frames m2) = 10%nat -> apart (mm s) m1 m2 ->
  zget (tasks s) (tm_pid m1) = Some t1 -> pgdir t1 = dirp (tm_dir m1) ->
  zget (tasks s) (tm_pid m2) = Some t2 -> pgdir t2 = dirp (tm_dir m2) ->
  zget (cpus s) (cpunum s) = Some c -> cpu_task c = Some (tm_pid m1) ->
  wp (for_stack (copy_stack_page (tm_pid m2))) s (fun _ s' =>
    mem_only s s' /\ copied (mm s) l (tm_frames m1) (tm_frames m2) 10 (mm s')).
Proof.
  intros W S1 S2 L1 L2 Ha Ht1 Hd1 Ht2 Hd2 Hc Hcur.
  destruct (child_tables (mm s) m2 L2 (proj1 Ha)) as (Hnd & D2 & T2).
  destruct (apart_tables (mm s) m1 m2 L2 Ha) as (D1 & T1 & F1).
  apply (wp_for_stack (fun k s' => mem_only s s' /\ copied (mm s) l (tm_frames m1) (tm_frames m2) k (mm s'))).
  - split; [by destruct s|]. split; [by destruct (mm s)|done|by intros q _ o _|intros j f1 f2 o Hj; lia].
  - intros k s1 Hk [M1 C1].
    destruct (copied_space _ _ _ _ _ _ _ _ C1 S1 D1 T1) as (S1' & _), (copied_space _ _ _ _ _ _ _ _ C1 S2 D2 T2) as (S2' & _).
    destruct (lookup_lt_is_Some_2 (tm_frames m1) (Z.to_nat k)) as [f1 Hf1]; [lia|].
    destruct (lookup_lt_is_Some_2 (tm_frames m2) (Z.to_nat k)) as [f2 Hf2]; [lia|].
    assert (cpunum s1 = cpunum s) as N1 by (unfold cpunum; by rewrite (cp_ram _ _ _ _ _ _ C1)).
    unfold copy_stack_page. wp_step. apply (wp_eq _ _ (tm_pid m1) s1).
    { unfold cur. rewrite (bind_ret _ _ s1 c s1); [by rewrite Hcur|]. apply thiscpu_eq. rewrite N1, M1. exact Hc. }
    wp_step. eapply (wp_get_task _ _ t1); [rewrite M1; exact Ht1|]. wp_step.
    eapply (wp_get_task _ _ t2); [rewrite M1; exact Ht2|]. wp_step. apply wp_zoom. rewrite Hd1, Hd2.
    replace (stack_va k + 4096 - PGSIZE) with (stack_va k) by (unfold PGSIZE; lia).
    eapply wp_mono; [eapply (wp_copy_block (mm s1) l (tm_dir m1) (tm_map m1) f1 (tm_dir m2) (tm_map m2) f2 (stack_va k));
      [apply C1|exact S1'|exact S2'|by apply zip_elem|by apply zip_elem]|].
    intros u m3 ->. wp_step. split; [done|]. split; [by apply mem_only_set|]. cbn [mm set_mm].
    apply copied_turn; [done|lia|done|done|by apply F1|done].
  - intros s' H. exact H.
Qed.

(** ** The user program *)

(** A region of the program in the linked kernel. *)
Definition region_ok (r : Z * Z) : Prop :=
  KERNBASE <= fst r < 4294967296 /\ fst r mod 4096 = 0 /\ 0 <= snd r <= 4294963200 /\ fst r + (snd r + 4095) / 4096 * 4096 <= 4294967296.

Lemma window_slots rs s d : window rs s d -> missing_in (ram s) d (seqZ 960 64) = 0%nat.
Proof.
  intros Hw. unfold missing_in. assert (filter (fun i => tab (ram s) d i = None) (seqZ 960 64) = []) as ->; [|done].
  apply elem_of_nil_inv. intros i [Hn Hi%elem_of_seqZ]%list_elem_of_filter.
  assert (KERNBASE <= i * 4194304 < 4294967296) as Hva by (change KERNBASE with (960 * 4194304); lia).
  specialize (Hw _ Hva). unfold vm_lookup in Hw. rewrite PDX_spec, Z.div_mul, Z.mod_small, Hn in Hw by lia. done.
Qed.

Lemma kern_PGNUM va : KERNBASE <= va < 4294967296 -> 960 * 1024 <= PGNUM va < 1024 * 1024.
Proof.
  change KERNBASE with (960 * 4194304). intros Hva. rewrite PGNUM_div. Z.to_euclidean_division_equations. lia.
Qed.

(** Mapping a region over the window. *)
Lemma map_range_region rs st sz f va :
  region_ok (st, sz) -> KERNBASE <= va < 4294967296 ->
  f va = Some (kentry (if in_regions rs va then PTE_UW else PTE_W) va) ->
  map_range st (Z.to_nat ((sz + 4095) / 4096)) (st - KERNBASE) PTE_UW f va
  = Some (kentry (if in_regions ((st, sz) :: rs) va then PTE_UW else PTE_W) va).
Proof.
  intros (H1 & H2 & H3 & H4) Hva Hf. cbn [fst snd] in *. unfold map_range. cbn [in_regions existsb fst snd].
  fold (in_regions rs va). pose proof (kern_PGNUM va Hva) as Hp.
  assert (0 <= (sz + 4095) / 4096) by (Z.to_euclidean_division_equations; lia). rewrite Z2Nat.id by lia.
  set (n := (sz + 4095) / 4096) in *. assert (st - KERNBASE = (PGNUM st - 960 * 1024) * 4096) as Est.
  { change KERNBASE with (960 * 4194304). rewrite PGNUM_div. Z.to_euclidean_division_equations. lia. }
  destruct (Z.leb_spec 0 (PGNUM va - PGNUM st)), (Z.ltb_spec (PGNUM va - PGNUM st) n), (Z.leb_spec (PGNUM st) (PGNUM va)),
    (Z.ltb_spec (PGNUM va) (PGNUM st + n)); cbn [andb orb]; try lia; [|exact Hf..].
  unfold kentry. rewrite Est. do 3 f_equal. lia.
Qed.

Lemma kentry_addr perm va :
  KERNBASE <= va < 4294967296 -> va mod 4096 = 0 -> 0 <= perm < 4096 -> PTE_ADDR (kentry perm va) = va - KERNBASE.
Proof.
  intros Hva Hm Hp. pose proof (kern_PGNUM va Hva) as Hn. unfold kentry. rewrite entry_page; [|lia|by apply Z.mod_mul|exact Hp].
  change KERNBASE with (960 * 4194304) in *. rewrite PGNUM_div. Z.to_euclidean_division_equations. lia.
Qed.

(** [setupvm] on a space with that window. *)
Lemma wp_setupvm s l d fm rs st sz :
  mm_wf s l -> space s l d fm -> (forall va f, (va, f) ∈ fm -> va < KERNBASE) -> window rs s d -> region_ok (st, sz) ->
  wp (setupvm (dirp d) st sz) s (fun _ s' => exists l',
    evolve s l d fm s' l' fm /\ window ((st, sz) :: rs) s' d /\ (forall f, f ∈ fm.*2 -> same_words f s s')
    /\ same_low d s s').
Proof.
  intros W Sp Hfm Hw Hr. pose proof Hr as (H1 & H2 & H3 & H4). cbn [fst snd] in *. pose proof (sp_dir _ _ _ _ Sp) as D.
  assert (0 <= (sz + 4095) / 4096) as Hn0 by (Z.to_euclidean_division_equations; lia).
  set (n := Z.to_nat ((sz + 4095) / 4096)). assert (Z.of_nat n = (sz + 4095) / 4096) as En by (unfold n; lia).
  unfold setupvm. wp_step. apply wp_PADDR; [done|]. wp_step. rewrite ROUNDUP_spec by lia.
  eapply wp_mono; [apply (wp_boot_map_region d PTE_UW (seqZ 960 64) ltac:(by vm_compute) (slots_range 960 1023 ltac:(lia) ltac:(lia))
    s l st _ (st - KERNBASE) n W D)|].
  - apply (slots_in_range _ _ 960 1023); try (change KERNBASE with (960 * 4194304) in *; lia).
    + right. by vm_compute.
    + intros i Hi. apply elem_of_seqZ. lia.
  - rewrite Z.div_mul by lia. lia.
  - change KERNBASE with (960 * 4194304) in *. lia.
  - lia.
  - lia.
  - change KERNBASE with (960 * 4194304) in *. lia.
  - rewrite (window_slots rs s d Hw). lia.
  - intros u s' (l' & _ & S).
    assert (window ((st, sz) :: rs) s' d) as Hw'.
    { intros va Hva. rewrite (sv_lookup _ _ _ _ _ _ S); [|by apply kern_va|by apply kern_va_self].
      apply map_range_region; [exact Hr|exact Hva|by apply Hw]. }
    wp_step. eapply (wp_check_va2pa s' l' d st); [apply S|apply S|by apply kern_va_self|]. rewrite Hw' by done.
    wp_step. apply wp_PADDR; [exact H1|]. rewrite kentry_addr by (done || by destruct (in_regions _ _)). rewrite Z.eqb_refl.
    wp_step. exists l'. split; [|split; [exact Hw'|split] ].
    + apply (evolve_step s l d fm s' l' _ Sp S). intros va f Hin. apply map_range_out. left.
      pose proof (Hfm va f Hin) as Hlt. change KERNBASE with (960 * 4194304) in *. rewrite !PGNUM_div.
      Z.to_euclidean_division_equations. lia.
    + intros f ([va g] & -> & Hin)%list_elem_of_fmap. cbn [snd].
      eapply step_same_words; [exact S|exact (sp_frame _ _ _ _ Sp va g Hin)].
    + intros va Hva. destruct (decide (PDX va = SELF)) as [Es|Hs].
      { unfold vm_lookup. by rewrite Es, (sv_self _ _ _ _ _ _ S), (sp_self _ _ _ _ Sp). }
      rewrite (sv_lookup _ _ _ _ _ _ S); [|change KERNBASE with (960 * 4194304) in *; lia|exact Hs].
      apply map_range_out. left. change KERNBASE with (960 * 4194304) in *. rewrite !PGNUM_div.
      Z.to_euclidean_division_equations. lia.
Qed.

(** The parts of the user program, with the sizes [task_init] computed. *)
Definition user_regions (K : ksyms) (sz : Z * Z * Z * Z) : list (Z * Z) :=
  let '(text_sz, data_sz, bss_sz, rodata_sz) := sz in
  [(URODATA_start K, rodata_sz); (UBSS_start K, bss_sz); (UDATA_start K, data_sz); (UTEXT_start K, text_sz)].

Lemma wp_setup_user_program K s l i t d fm :
  Forall region_ok (user_regions K (user_sizes s)) ->
  mm_wf (mm s) l -> space (mm s) l d fm -> (forall va f, (va, f) ∈ fm -> va < KERNBASE) -> window [] (mm s) d ->
  zget (tasks s) i = Some t -> pgdir t = dirp d ->
  wp (setup_user_program K i) s (fun _ s' => mem_only s s' /\ exists l', evolve (mm s) l d fm (mm s') l' fm
    /\ window (user_regions K (user_sizes s)) (mm s') d /\ (forall f, f ∈ fm.*2 -> same_words f (mm s) (mm s'))
    /\ same_low d (mm s) (mm s')).
Proof.
  intros Hr W Sp Hfm Hw Ht Hd. unfold setup_user_program. wp_step. eapply wp_get_task; [exact Ht|]. wp_step. wp_step.
  destruct (user_sizes s) as [ [ [z1 z2] z3] z4]. cbn [user_regions] in *.
  rewrite !Forall_cons in Hr. destruct Hr as (R4 & R3 & R2 & R1 & _). apply wp_zoom. rewrite Hd.
  wp_step. eapply wp_mono; [by apply (wp_setupvm (mm s) l d fm [] (UTEXT_start K) z1)|].
  intros _ m1 (l1 & E1 & W1 & D1 & X1). cbv beta. wp_step.
  eapply wp_mono; [apply (wp_setupvm m1 l1 d fm _ (UDATA_start K) z2 (ev_wf _ _ _ _ _ _ _ E1) (ev_space _ _ _ _ _ _ _ E1) Hfm W1 R2)|].
  intros _ m2 (l2 & E2 & W2 & D2 & X2). cbv beta. wp_step.
  eapply wp_mono; [apply (wp_setupvm m2 l2 d fm _ (UBSS_start K) z3 (ev_wf _ _ _ _ _ _ _ E2) (ev_space _ _ _ _ _ _ _ E2) Hfm W2 R3)|].
  intros _ m3 (l3 & E3 & W3 & D3 & X3). cbv beta.
  eapply wp_mono; [apply (wp_setupvm m3 l3 d fm _ (URODATA_start K) z4 (ev_wf _ _ _ _ _ _ _ E3) (ev_space _ _ _ _ _ _ _ E3) Hfm W3 R4)|].
  intros _ m4 (l4 & E4 & W4 & D4 & X4). split; [done|]. exists l4. cbn [mm set_mm]. split; [|split; [exact W4|split] ].
  - do 3 (eapply evolve_trans; [eassumption|]). exact E4.
  - intros f Hf o Ho. rewrite (D4 f Hf o Ho), (D3 f Hf o Ho), (D2 f Hf o Ho). exact (D1 f Hf o Ho).
  - intros va Hva. rewrite (X4 va Hva), (X3 va Hva), (X2 va Hva). exact (X1 va Hva).
Qed.

(** ** New spaces, further on *)

Lemma created_evolve s l s1 l1 d fm s2 l2 fm2 :
  created s l s1 l1 d fm -> evolve s1 l1 d fm s2 l2 fm2 -> created s l s2 l2 d fm2.
Proof.
  intros [C1 C2 C3 C4 C5] [E1 E2 E3 E4 E5]. split; [done|done|by rewrite E3| |congruence].
  etrans; [exact C4|]. eapply outside_mono; [|exact E4]. intros q. by rewrite C3.
Qed.

Lemma created_copied s l s1 l1 d fm fs1 fs2 k s2 :
  created s l s1 l1 d fm -> copied s1 l1 fs1 fs2 k s2 -> fs2 = fm.*2 -> NoDup (own s1 d fm) ->
  created s l s2 l1 d fm.
Proof.
  intros [C1 C2 C3 C4 C5] Hcp -> Hnd. pose proof Hnd as [Hd (_ & Ht & Hf)%NoDup_app]%NoDup_cons.
  destruct (copied_space s1 l1 fs1 fm.*2 k s2 d fm Hcp C2) as (Sp & Eo & _).
  { intros H. apply Hd. apply elem_of_app. by right. }
  { exact Ht. }
  destruct Hcp as [P1 P2 P3 P4]. split; [done|done|by rewrite Eo| |by rewrite P1].
  intros q Hq. destruct (C4 q Hq) as [Hp Hw]. split; [by rewrite P1|]. intros o Ho. rewrite P3; [by apply Hw| |done].
  intros Hin. apply Hq. rewrite <- C3. apply elem_of_app. left. right. apply elem_of_app. by right.
Qed.

(** ** fork *)

(** The words of the ten frames [fs1] in [s] are those of [fs2] in [s']. *)
Definition stack_copy (s s' : mm_state) (fs1 fs2 : list Z) : Prop :=
  forall j f1 f2 o, 0 <= j < 10 -> fs1 !! Z.to_nat j = Some f1 -> fs2 !! Z.to_nat j = Some f2 ->
    0 <= o < 4096 -> o mod 4 = 0 -> rd32 (ram s') (f2 * 4096 + o) = rd32 (ram s) (f1 * 4096 + o).

Lemma stack_below_kern (fs : list Z) va f : (va, f) ∈ zip stack_vas fs -> va < KERNBASE.
Proof.
  intros H. apply elem_of_zip_l in H. unfold stack_vas in H. apply list_elem_of_fmap in H as (k & -> & Hk%elem_of_seqZ).
  destruct (stack_va_range k) as (H & _); [lia|]. unfold stack_va. change USTACKTOP with (954 * 4194304 + 1022 * 4096).
  change KERNBASE with (960 * 4194304). lia.
Qed.

(** What an old task keeps while a space is made of free pages. *)
Lemma old_keeps s ms l s1 l1 d fm m :
  mem_inv s ms l -> m ∈ ms -> created (mm s) l s1 l1 d fm ->
  space s1 l1 (tm_dir m) (tm_map m) /\ tm_own s1 m = tm_own (mm s) m
  /\ (forall q, q ∈ tm_own (mm s) m -> same_words q (mm s) s1)
  /\ (forall q, q ∈ tm_own (mm s) m -> q ∉ own s1 d fm).
Proof.
  intros I Hm [C1 C2 C3 C4 C5]. assert (forall q, q ∈ tm_own (mm s) m -> q ∉ l) as Hnl.
  { intros q Hq. by eapply pool_not_free; [apply I| |]. }
  destruct (space_outside (mm s) l _ _ (tm_space _ _ _ (mi_ok _ _ _ I m Hm)) l s1 l1 C4) as [Sp Eo].
  - exact Hnl.
  - intros q Hq Hin. apply (Hnl q Hq). rewrite <- C3. apply elem_of_app. by right.
  - unfold layout in C5. by simplify_eq.
  - split; [done|]. split; [exact Eo|]. split.
    + intros q Hq. destruct (C4 q (Hnl q Hq)) as [_ H]. exact H.
    + intros q Hq Hin. apply (Hnl q Hq). rewrite <- C3. apply elem_of_app. by left.
Qed.

(** What a new space is made of. *)
Lemma created_nodup s l s1 l1 d fm : NoDup l -> created s l s1 l1 d fm -> NoDup (own s1 d fm).
Proof. intros Hnd C. rewrite <- (cr_acct _ _ _ _ _ _ C) in Hnd. by apply NoDup_app in Hnd as [? _]. Qed.

Section ForkBody.
Context (K : ksyms) (s : tk_state) (ms : list tmem) (l l1 fs : list Z) (mp : tmem) (pid d : Z) (c : CpuInfo).
  Hypotheses (I : mem_inv s ms l) (Hmp : mp ∈ ms) (Hne : pid <> tm_pid mp) (Hfs : length fs = 10%nat)
             (Hcur : cpu_task c = Some (tm_pid mp)).

(** After [task_create]: the new space, and the two tasks' structures. *)
Record forking (s1 : tk_state) (tp t2 : Task) : Prop := {
  fk_created : created (mm s) l (mm s1) l1 d (zip stack_vas fs);
  fk_window : window [] (mm s1) d /\ walled (mm s1) d (zip stack_vas fs) /\ lower K (mm s) (mm s1) d;
  fk_parent : zget (tasks s1) (tm_pid mp) = Some tp /\ pgdir tp = dirp (tm_dir mp);
  fk_child : zget (tasks s1) pid = Some t2 /\ pgdir t2 = dirp d;
  fk_cpu : zget (cpus s1) (cpunum s1) = Some c
}.

Let child : tmem := mkTmem pid d fs [].

(** The copy of the stack. *)
Lemma wp_fork_copy s1 tp t2 :
  forking s1 tp t2 ->
  wp (for_stack (copy_stack_page pid)) s1 (fun _ s2 => mem_only s1 s2
    /\ created (mm s) l (mm s2) l1 d (zip stack_vas fs) /\ (window [] (mm s2) d /\ walled (mm s2) d (zip stack_vas fs) /\ lower K (mm s) (mm s2) d)
    /\ stack_copy (mm s) (mm s2) (tm_frames mp) fs).
Proof.
  intros [C1 (Hw & Hwa & Hlo) [Htp Hdp] [Ht2 Hd2] Hc]. destruct (old_keeps s ms l (mm s1) l1 d _ mp I Hmp C1) as (Sp & Eo & Hwd & Hnot).
  pose proof (created_nodup _ _ _ _ _ _ (wf_nodup _ _ (mi_wf _ _ _ I)) C1) as Hnd.
  assert (length (tm_frames mp) = 10%nat) as Lp by apply (mi_ok _ _ _ I mp Hmp).
  assert (apart (mm s1) mp child) as Ha.
  { split; [exact Hnd|]. intros q. rewrite Eo. apply Hnot. }
  eapply wp_mono; [apply (wp_copy_stack s1 l1 mp child tp t2 c (cr_wf _ _ _ _ _ _ C1) Sp (cr_space _ _ _ _ _ _ C1) Lp Hfs Ha);
    assumption|]. intros u s2 [M2 Hcp]. cbn [tm_frames child] in Hcp. split; [exact M2|].
  assert ((zip stack_vas fs).*2 = fs) as Ez by (apply snd_zip; by rewrite Hfs).
  split; [by eapply (created_copied _ _ _ _ _ _ (tm_frames mp) fs 10)|]. split.
  - destruct (child_tables (mm s1) child Hfs Hnd) as (_ & D2 & T2).
    destruct (copied_space _ _ _ _ _ _ d _ Hcp (cr_space _ _ _ _ _ _ C1) D2 T2) as (_ & _ & El).
    split; [by eapply window_same|split; [by eapply walled_same|] ]. eapply lower_low; [|exact Hlo]. intros va _. apply El.
  - intros j f1 f2 o Hj H1 H2 Ho Ho4. rewrite (cp_done _ _ _ _ _ _ Hcp j f1 f2) by done.
    apply Hwd; [|done]. apply frames_own; [exact Lp|]. by eapply list_elem_of_lookup_2.
Qed.

(** Everything that [sys_fork] does for a parent. *)
Lemma wp_fork_body s1 tp t2 :
  forking s1 tp t2 -> Forall region_ok (user_regions K (user_sizes s1)) ->
  wp (pt ← get_task (tm_pid mp);
      _ ← upd_task pid (t_set_tf (tf pt));
      _ ← for_stack (copy_stack_page pid);
      _ ← setup_user_program K pid;
      _ ← upd_task (tm_pid mp) (fun t => t_set_tf (tf_set_eax (tf t) (u32 pid)) t);
      upd_task pid (fun t => t_set_tf (tf_set_eax (tf t) 0) t)) s1 (fun _ s' => exists l',
    created (mm s) l (mm s') l' d (zip stack_vas fs)
    /\ (window (user_regions K (user_sizes s1)) (mm s') d /\ walled (mm s') d (zip stack_vas fs) /\ lower K (mm s) (mm s') d)
    /\ stack_copy (mm s) (mm s') (tm_frames mp) fs
    /\ s' = set_mm (mm s') (set_tasks (<[Z.to_nat pid := t_set_tf (tf_set_eax (tf tp) 0) t2]>
              (<[Z.to_nat (tm_pid mp) := t_set_tf (tf_set_eax (tf tp) (u32 pid)) tp]> (tasks s1))) s1)).
Proof.
  intros [C1 Hw [Htp Hdp] [Ht2 Hd2] Hc] Hreg. wp_step. eapply wp_get_task; [exact Htp|]. wp_step.
  eapply wp_upd_task; [exact Ht2|]. set (t3 := t_set_tf (tf tp) t2). set (s2 := set_tasks _ s1).
  pose proof (zget_Some_range _ _ _ Ht2) as Hr2. pose proof (zget_Some_range _ _ _ Htp) as Hrp.
  assert (zget (tasks s2) (tm_pid mp) = Some tp) as Htp2 by (cbn [tasks s2 set_tasks]; rewrite zget_insert_ne by (lia || done); done).
  assert (zget (tasks s2) pid = Some t3) as Ht3 by (by eapply zget_insert_eq).
  wp_step. eapply wp_mono; [apply (wp_fork_copy s2 tp t3); by split|]. intros _ s3 (M3 & C3 & (W3 & X3 & L3) & Hcp).
  assert (user_sizes s3 = user_sizes s1) as Ez by (by rewrite M3). rewrite <- Ez in Hreg |- *. wp_step.
  assert ((zip stack_vas fs).*2 = fs) as Es by (apply snd_zip; by rewrite Hfs).
  assert (tasks s3 = tasks s2) as T3 by (by rewrite M3).
  eapply wp_mono; [apply (wp_setup_user_program K s3 l1 pid t3 d (zip stack_vas fs) Hreg (cr_wf _ _ _ _ _ _ C3)
    (cr_space _ _ _ _ _ _ C3) (stack_below_kern fs) W3); [by rewrite T3|exact Hd2]|].
  intros _ s4 (M4 & l4 & E4 & W4 & Hw4 & X4). assert (tasks s4 = tasks s2) as T4 by (by rewrite M4, <- T3).
  wp_step. eapply wp_upd_task; [rewrite T4; exact Htp2|].
  eapply wp_upd_task; [cbn [tasks set_tasks]; rewrite zget_insert_ne by (lia || done); rewrite T4; exact Ht3|].
  exists l4. cbn [mm set_tasks]. split; [by eapply created_evolve|]. 
  split; [split; [done|split; [by eapply walled_low|by eapply lower_low] ]|]. split.
  - intros j f1 f2 o Hj H1 H2 Ho Ho4. rewrite Hw4; [by apply (Hcp j f1 f2)| |done].
    rewrite Es. by eapply list_elem_of_lookup_2.
  - cbn [tasks set_tasks]. rewrite T4. cbn [tasks s2 set_tasks].
    rewrite (list_insert_insert_ne (tasks s1) (Z.to_nat (tm_pid mp))) by lia. rewrite list_insert_insert_eq.
    rewrite M4. rewrite M3. reflexivity.
Qed.
End ForkBody.

(** What a successful fork leaves: [m] is the memory of the child [pid], [l'] the
    free pages; [mp] and [tp] are the parent's memory and task structure. *)
Record forked (K : ksyms) (s : tk_state) (ms : list tmem) (l : list Z) (mp : tmem) (tp : Task) (pid : Z)
    (s' : tk_state) (m : tmem) (l' : list Z) : Prop := {
  fo_pid : tm_pid m = pid /\ tm_regions m = user_regions K (user_sizes s);
  fo_mem : mem_inv s' (m :: ms) l';
  fo_pool : pool (mm s') (m :: ms) l' ≡ₚ pool (mm s) ms l;
  fo_sched : sched_inv s';
  fo_unlocked : unlocked s';
  fo_static : static s s';
  fo_child : exists t, zget (tasks s') pid = Some t /\ state t = TASK_RUNNABLE /\ task_id t = pid
    /\ parent_id t = task_id tp /\ remind_ticks t = TIME_QUANT /\ tf t = tf_set_eax (tf tp) 0;
  fo_parent : zget (tasks s') (tm_pid mp) = Some (t_set_tf (tf_set_eax (tf tp) (u32 pid)) tp);
  fo_others : forall p, p <> pid -> p <> tm_pid mp -> zget (tasks s') p = zget (tasks s) p;
  fo_stack : stack_copy (mm s) (mm s') (tm_frames mp) (tm_frames m);
  fo_window : window (user_regions K (user_sizes s)) (mm s') (tm_dir m);
  fo_lower : lower K (mm s) (mm s') (tm_dir m);
  fo_out : outside l (mm s) (mm s')
}.

(** The scheduler's invariant between creation and dispatch. *)
Lemma fork_sched s s' pid t p tp t' tp' :
  sched_inv s -> zget (tasks s) pid = Some t -> state t = TASK_FREE -> zget (tasks s) p = Some tp -> state tp <> TASK_FREE ->
  state t' <> TASK_FREE -> task_id t' = pid -> task_id tp' = task_id tp -> state tp' = state tp ->
  tasks s' = <[Z.to_nat p := tp']> (<[Z.to_nat pid := t']> (tasks s)) -> cpus s' = cpus s ->
  sched_inv_x (Some pid) s'.
Proof.
  intros SI Ht Hf Htp Hfp Hf' Hid Hidp Hstp Et Ec.
  assert (pid <> p) as Hne by (intros ->; congruence). pose proof (zget_Some_range _ _ _ Ht) as Hr.
  pose proof (inv_created s pid t t' SI Ht Hf Hf' Hid) as I1. set (s1 := set_tasks _ s) in I1.
  assert (zget (tasks s1) p = Some tp) as Htp1 by (cbn [tasks s1 set_tasks]; rewrite zget_insert_ne by (lia || done); done).
  apply (inv_ext _ (set_tasks (<[Z.to_nat p := tp']> (tasks s1)) s1)); [exact Et|exact Ec|].
  apply (inv_upd_task _ s1 p tp tp'); [exact I1|exact Htp1| |exact Hidp|by rewrite Hstp].
  apply zset_Some. by eapply zget_Some_range.
Qed.

(** The end of [sys_fork]: the new task joins a queue. *)
Lemma wp_fork_dispatch s pid :
  sched_inv_x (Some pid) s -> unlocked s -> 0 < ncpu s <= Z.of_nat (length (cpus s)) ->
  wp (_ ← on_cpus_lock spin_lock; _ ← dispatch pid; _ ← on_cpus_lock spin_unlock; mret pid) s (fun r s' =>
    r = pid /\ sched_inv s' /\ unlocked s' /\ mm s' = mm s /\ tasks s' = tasks s /\ static s s').
Proof.
  intros I [U1 U2] Hn. wp_step. apply wp_lock_with, wp_spin_lock; [exact U2|]. intros lk Hlk. set (s1 := set_cpus_lock lk s).
  assert (sched_inv_x (Some pid) s1) as I1 by (by eapply inv_ext; [..|exact I]).
  destruct (dispatch_total pid s1 I1 Hn) as (i & c & q & Hi & Hc & _ & Hq & Hl & _ & E). wp_step.
  eapply wp_eq; [exact E|]. wp_step. apply wp_lock_with, wp_spin_unlock; [exact Hlk|]. intros lk' Hlk'. wp_step.
  split; [done|]. split; [by eapply inv_ext; [..|exact (inv_dispatch s1 pid i c q I1 Hc Hq Hl)]|].
  split; [done|]. split; [done|]. split; [done|]. unfold static. simpl. by rewrite length_insert.
Qed.

(** All parts of the result together. *)
Lemma fork_final K s ms l mp tp t pid d fs l' s' :
  mem_inv s ms l -> mp ∈ ms -> zget (tasks s) (tm_pid mp) = Some tp -> zget (tasks s) pid = Some t -> state t = TASK_FREE ->
  pid <> tm_pid mp -> length fs = 10%nat ->
  tasks s' = <[Z.to_nat (tm_pid mp) := t_set_tf (tf_set_eax (tf tp) (u32 pid)) tp]>
    (<[Z.to_nat pid := t_set_tf (tf_set_eax (tf tp) 0) (fresh_task pid (task_id tp) (dirp d) t)]> (tasks s)) ->
  created (mm s) l (mm s') l' d (zip stack_vas fs) -> stack_copy (mm s) (mm s') (tm_frames mp) fs ->
  window (user_regions K (user_sizes s)) (mm s') d -> walled (mm s') d (zip stack_vas fs) -> lower K (mm s) (mm s') d ->
  sched_inv s' -> unlocked s' -> static s s' ->
  forked K s ms l mp tp pid s' (mkTmem pid d fs (user_regions K (user_sizes s))) l'.
Proof.
  intros I Hmp Htp Ht Hf Hne Hfs Et C Hcp Hw Hwa Hlo SI U St. pose proof (zget_Some_range _ _ _ Ht) as Hr.
  pose proof (zget_Some_range _ _ _ Htp) as Hrp. set (t2 := t_set_tf _ (fresh_task _ _ _ _)) in Et.
  set (s1 := set_tasks (<[Z.to_nat pid := t2]> (tasks s)) s').
  destruct (mem_inv_add s ms l s1 l' pid t t2 d fs _ I Ht Hf C Hfs Hw Hwa eq_refl ltac:(done) eq_refl) as [I1 P1].
  assert (zget (tasks s1) (tm_pid mp) = Some tp) as Htp1 by (cbn [tasks s1 set_tasks]; rewrite zget_insert_ne by (lia || done); done).
  destruct (mem_inv_view s1 s' _ l' I1 (same_mem_refl _)) as [I2 _]; [by eapply (views_upd s1 s' (tm_pid mp) tp)|].
  assert (forall p, p <> tm_pid mp -> zget (tasks s') p = zget (<[Z.to_nat pid := t2]> (tasks s)) p) as Hz.
  { intros p Hp. rewrite Et. apply zget_insert_ne; [lia|congruence]. }
  split.
  - done.
  - exact I2.
  - exact P1.
  - exact SI.
  - exact U.
  - exact St.
  - exists t2. split; [|done]. rewrite Hz by done. by eapply zget_insert_eq.
  - rewrite Et. by eapply zget_insert_eq.
  - intros p Hp1 Hp2. rewrite Hz by done. apply zget_insert_ne; [lia|congruence].
  - exact Hcp.
  - exact Hw.
  - exact Hlo.
  - apply C.
Qed.

Lemma wp_sys_fork K s ms l c p :
  linked K -> Forall region_ok (user_regions K (user_sizes s)) ->
  mem_inv s ms l -> sched_inv s -> unlocked s -> 0 < ncpu s <= Z.of_nat (length (cpus s)) -> (80 <= length l)%nat ->
  zget (cpus s) (cpunum s) = Some c -> cpu_task c = Some p ->
  (exists q t, zget (tasks s) q = Some t /\ state t = TASK_FREE) ->
  wp (sys_fork K) s (fun pid s' => exists mp tp m l', mp ∈ ms /\ tm_pid mp = p /\ zget (tasks s) p = Some tp
    /\ (exists t, zget (tasks s) pid = Some t /\ state t = TASK_FREE) /\ forked K s ms l mp tp pid s' m l').
Proof.
  intros HK Hreg I SI U Hn Hl Hc Hcur Hfree.
  destruct (live_current _ _ _ _ SI Hc Hcur) as (_ & tp & Htp & Hfp & Hidp).
  destruct (mi_all _ _ _ I p tp Htp Hfp) as (mp & Hmp & Hpid).
  destruct (tm_task _ _ _ (mi_ok _ _ _ I mp Hmp)) as (tp' & Htp' & _ & Hdp). rewrite Hpid in Htp'.
  assert (tp' = tp) as -> by congruence. clear Htp'. unfold sys_fork. wp_step.
  eapply wp_mono; [apply (wp_task_create K HK s ms l c p I U (si_tasks _ _ SI) Hl Hc); [|exact Hfree]|].
  { unfold parent_of. rewrite Hcur. exists tp. done. }
  intros pid s1 (t & d & fs & l1 & Ht & Hf & T1 & (F1 & F2 & F3) & U1 & Z1 & C1 & Hfs & W1 & X1 & _ & _ & _ & Lo1).
  pose proof (zget_Some_range _ _ _ Ht) as Hr. assert (pid <> p) as Hne by (intros ->; congruence).
  destruct (Z.eqb_spec pid (-1)); [lia|]. wp_step. eapply (wp_thiscpu s1 c); [by rewrite F1, F2|]. rewrite Hcur.
  rewrite <- Z1 in Hreg. rewrite <- Hpid in Hne, Htp, Hcur, T1 |- *. wp_step.
  eapply wp_mono; [apply (wp_fork_body K s ms l l1 fs mp pid d c I Hmp Hne Hfs Hcur s1 tp (fresh_task pid (tm_pid mp) (dirp d) t));
    [split|exact Hreg]|].
  - exact C1.
  - by split.
  - split; [|exact Hdp]. rewrite T1, zget_insert_ne by (lia || done). exact Htp.
  - split; [|done]. rewrite T1. by eapply zget_insert_eq.
  - by rewrite F1, F2.
  - intros u s2 (l2 & C2 & (W2 & X2 & Lo2) & Hcp & E2). rewrite Z1 in W2.
    assert (tasks s2 = <[Z.to_nat (tm_pid mp) := t_set_tf (tf_set_eax (tf tp) (u32 pid)) tp]>
      (<[Z.to_nat pid := t_set_tf (tf_set_eax (tf tp) 0) (fresh_task pid (task_id tp) (dirp d) t)]> (tasks s))) as T2.
    { rewrite E2. cbn [tasks set_tasks set_mm]. rewrite T1, Hidp, <- Hpid. pose proof (zget_Some_range _ _ _ Htp).
      rewrite (list_insert_insert_ne (<[Z.to_nat pid := _]> (tasks s)) (Z.to_nat pid)) by lia. by rewrite list_insert_insert_eq. }
    assert (cpus s2 = cpus s /\ ncpu s2 = ncpu s /\ unlocked s2 /\ user_sizes s2 = user_sizes s) as (E3 & E4 & U2 & E5).
    { rewrite E2. cbn [cpus ncpu set_tasks set_mm]. split; [exact F1|]. split; [exact F3|]. split; [exact U1|exact Z1]. }
    assert (static s s2) as St by (unfold static; by rewrite E3, E4, E5).
    eapply wp_mono; [apply (wp_fork_dispatch s2 pid); [|exact U2|by rewrite E3, E4]|].
    + by eapply (fork_sched s s2 pid t (tm_pid mp) tp); [..|exact T2|exact E3].
    + intros r s3 (-> & SI3 & U3 & M3 & T3 & St3). exists mp, tp, (mkTmem pid d fs (user_regions K (user_sizes s))), l2. split; [exact Hmp|]. split; [done|].
      split; [exact Htp|]. split; [by exists t|].
      apply (fork_final K s ms l mp tp t pid d fs l2 s3); rewrite ?M3, ?T3; try assumption. by etrans.
Qed.

(** With all task structures in use. *)
Lemma wp_fork_full K s :
  length (tasks s) = 32%nat -> lock_free (tasks_lock s) ->
  (forall p t, zget (tasks s) p = Some t -> state t <> TASK_FREE) ->
  wp (sys_fork K) s (fun r s' => r = -1 /\ exists lk, lock_free lk /\ s' = set_tasks_lock lk s).
Proof.
  intros Hlen U Hno. unfold sys_fork, task_create. wp_step. wp_step. apply wp_lock_with, wp_spin_lock; [done|]. intros lk Hlk.
  wp_step. apply wp_find_free; [lia|simpl; by rewrite Hlen| |].
  - intros p t Ht Hf. by destruct (Hno p t Ht).
  - intros _. cbv iota. wp_step. apply wp_lock_with, wp_spin_unlock; [exact Hlk|]. intros lk' Hlk'. wp_step.
    change (-1 =? -1) with true. cbv iota. wp_step. split; [done|]. by exists lk'.
Qed.

(** ** The first task of a processor *)

(** The processor's number finds its place in the descriptor table, and there is a
    boot processor. *)
Definition percpu_ok (s : tk_state) (c : CpuInfo) : Prop :=
  0 <= Z.shiftr GD_TSS0 3 + cpu_id c < Z.of_nat (length (gdt s)) /\ exists b, zget (cpus s) (bootcpu s) = Some b.

(** What the start-up code does once the first task is there. *)
Lemma wp_start_first K s i t d l fm c slot me :
  Forall region_ok (user_regions K (user_sizes s)) ->
  mm_wf (mm s) l -> space (mm s) l d fm -> (forall va f, (va, f) ∈ fm -> va < KERNBASE) -> window [] (mm s) d ->
  zget (tasks s) i = Some t -> pgdir t = dirp d -> state t <> TASK_FREE -> zget (cpus s) (cpunum s) = Some c ->
  (exists b, zget (cpus s) (bootcpu s) = Some b) ->
  wp (_ ← upd_thiscpu (c_set_task (Some i));
      _ ← setup_user_program K i;
      b ← gets bootcpu;
      bc ← get_cpu b;
      _ ← upd_task i (fun t => t_set_tf (tf_set_eip (tf t) (if (me =? cpu_id bc) then user_entry K else idle_entry K)) t);
      _ ← upd_task i (t_set_state TASK_RUNNING);
      q ← need (zset (replicate 32 0) 0 i) "runQueue[0]";
      _ ← upd_thiscpu (c_set_rq (mkRq 1 0 q));
      modify (set_seg_regs slot)) s (fun _ s' => exists l', evolve (mm s) l d fm (mm s') l' fm
    /\ window (user_regions K (user_sizes s)) (mm s') d /\ (walled (mm s) d fm -> walled (mm s') d fm)
    /\ same_views s s' /\ tasks_lock s' = tasks_lock s
    /\ cpus_lock s' = cpus_lock s /\ user_sizes s' = user_sizes s /\ ncpu s' = ncpu s /\ length (cpus s') = length (cpus s)
    /\ bootcpu s' = bootcpu s /\ gdt s' = gdt s).
Proof.
  intros Hreg W Sp Hfm Hw Ht Hd Hf Hc (b & Hb). wp_step. eapply wp_eq; [by apply upd_thiscpu_eq|]. set (s1 := set_cpus _ s).
  wp_step. eapply wp_mono; [by apply (wp_setup_user_program K s1 l i t d fm)|]. intros u s2 (M2 & l2 & E2 & W2 & _ & X2).
  assert (cpunum s2 = cpunum s) as N2.
  { unfold cpunum. rewrite (layout_ctx _ _ (ev_layout _ _ _ _ _ _ _ E2)). reflexivity. }
  wp_step. wp_step. assert (exists b', zget (cpus s2) (bootcpu s2) = Some b') as (b' & Hb').
  { rewrite M2. cbn [cpus bootcpu set_mm s1 set_cpus]. apply zget_is_Some. rewrite length_insert. by eapply zget_Some_range. }
  wp_step. eapply wp_eq; [by apply get_cpu_eq|]. wp_step.
  eapply wp_upd_task; [rewrite M2; exact Ht|]. set (t3 := t_set_tf _ t). set (s3 := set_tasks _ s2).
  assert (tasks s3 = <[Z.to_nat i := t3]> (tasks s)) as T3 by (cbn [tasks s3 set_tasks]; by rewrite M2).
  assert (zget (tasks s3) i = Some t3) as Ht3 by (rewrite T3; by eapply zget_insert_eq).
  wp_step. eapply wp_upd_task; [exact Ht3|]. set (s4 := set_tasks _ s3). wp_step.
  eapply wp_need; [apply zset_Some; done|]. wp_step.
  assert (zget (cpus s4) (cpunum s4) = Some (c_set_task (Some i) c)) as Hc4.
  { change (cpus s4) with (cpus s2). change (cpunum s4) with (cpunum s2). rewrite N2, M2. by eapply zget_insert_eq. }
  eapply wp_eq; [by apply upd_thiscpu_eq|]. wp_step. exists l2. cbn [mm set_seg_regs set_cpus s4 s3 set_tasks tasks].
  split; [exact E2|]. split; [exact W2|]. split; [exact (walled_low _ _ _ _ X2)|]. split.
  - eapply (views_upd s _ i t (t_set_state TASK_RUNNING t3)); [exact Ht| |].
    + change (<[Z.to_nat i := t_set_state TASK_RUNNING t3]> (tasks s3) = <[Z.to_nat i := t_set_state TASK_RUNNING t3]> (tasks s)).
      by rewrite T3, list_insert_insert_eq.
    + unfold tview. cbn [pgdir state t_set_state t_set_tf t3]. by rewrite !bool_decide_eq_false_2.
  - assert (tasks_lock s2 = tasks_lock s /\ cpus_lock s2 = cpus_lock s /\ user_sizes s2 = user_sizes s /\ ncpu s2 = ncpu s
      /\ length (cpus s2) = length (cpus s) /\ bootcpu s2 = bootcpu s /\ gdt s2 = gdt s) as (Y1 & Y2 & Y3 & Y4 & Y5 & Y6 & Y7).
    { rewrite M2. cbn [cpus set_mm s1 set_cpus]. by rewrite length_insert. }
    split_and!; [exact Y1|exact Y2|exact Y3|exact Y4|etrans; [apply length_insert|exact Y5]|exact Y6|exact Y7].
Qed.

(** What stays of the machine. *)
Definition same_board (s s' : tk_state) : Prop :=
  bootcpu s' = bootcpu s /\ length (gdt s') = length (gdt s) /\ layout (mm s') = layout (mm s).

(** [task_init_percpu]: one more task, in memory of its own. *)
Lemma wp_task_init_percpu K s ms l c :
  linked K -> Forall region_ok (user_regions K (user_sizes s)) ->
  mem_inv s ms l -> unlocked s -> length (tasks s) = 32%nat -> (80 <= length l)%nat ->
  zget (cpus s) (cpunum s) = Some c -> cpu_task c = None -> percpu_ok s c ->
  (exists q t, zget (tasks s) q = Some t /\ state t = TASK_FREE) ->
  wp (task_init_percpu K) s (fun _ s' => exists m l', mem_inv s' (m :: ms) l' /\ pool (mm s') (m :: ms) l' ≡ₚ pool (mm s) ms l
    /\ tm_regions m = user_regions K (user_sizes s) /\ unlocked s' /\ user_sizes s' = user_sizes s
    /\ ncpu s' = ncpu s /\ length (cpus s') = length (cpus s) /\ same_board s s').
Proof.
  intros HK Hreg I U Hlen Hl Hc Hno [Hslot Hb] Hfree. unfold task_init_percpu. wp_step. wp_step. wp_step.
  eapply wp_thiscpu; [exact Hc|]. cbv zeta. wp_step. eapply wp_eq; [by apply upd_thiscpu_eq|].
  set (c1 := c_set_tss _ c). set (s1 := set_cpus _ s).
  assert (zget (cpus s1) (cpunum s1) = Some c1) as Hc1 by (by eapply zget_insert_eq).
  wp_step. unfold set_gdt_entry. wp_step. wp_step. wp_step. eapply wp_need; [apply zset_Some; exact Hslot|]. wp_step.
  set (s2 := set_gdt _ s1). destruct (mem_inv_view s s2 ms l I (same_mem_refl _)) as [I2 _]; [done|].
  wp_step. eapply wp_mono; [apply (wp_task_create K HK s2 ms l c1 0 I2 U Hlen Hl Hc1); [|exact Hfree]|].
  { unfold parent_of. cbn [cpu_task c1 c_set_tss]. by rewrite Hno. }
  intros i s3 (t & d & fs & l3 & Ht & Hf & T3 & (F1 & F2 & F3) & U3 & Z3 & C3 & Hfs & W3 & X3 & _ & B3 & D3 & _).
  set (t3 := fresh_task i 0 (dirp d) t) in *.
  assert (zget (tasks s3) i = Some t3) as Ht3 by (rewrite T3; by eapply zget_insert_eq).
  assert (zget (cpus s3) (cpunum s3) = Some c1) as Hc3 by (by rewrite F1, F2).
  assert (exists b, zget (cpus s3) (bootcpu s3) = Some b) as Hb3.
  { rewrite F1, B3. destruct Hb as (b & Hb). apply zget_is_Some. cbn [cpus bootcpu s2 s1 set_gdt set_cpus].
    rewrite length_insert. by eapply zget_Some_range. }
  eapply wp_mono; [apply (wp_start_first K s3 i t3 d l3 (zip stack_vas fs) c1); try assumption|].
  - by rewrite Z3.
  - apply C3.
  - apply C3.
  - apply stack_below_kern.
  - done.
  - done.
  - intros u s4 (l4 & E4 & W4 & X4 & V4 & K4 & L4 & Z4 & N4 & G4 & B4 & D4).
    set (s5 := set_tasks (tasks s3) s4).
    destruct (mem_inv_add s2 ms l s5 l4 i t t3 d fs (user_regions K (user_sizes s3)) I2 Ht Hf) as [I5 P5];
      [by eapply created_evolve|done|exact W4|by apply X4|exact T3|done|done|].
    destruct (mem_inv_view s5 s4 _ l4 I5 (same_mem_refl _)) as [I4 _]; [exact V4|].
    exists (mkTmem i d fs (user_regions K (user_sizes s3))), l4. split; [exact I4|]. split; [exact P5|]. split; [by rewrite Z3|].
    split; [split; [rewrite K4; apply U3|rewrite L4; apply U3]|]. split; [by rewrite Z4, Z3|]. split; [by rewrite N4, F3|].
    split; [rewrite G4, F1; cbn [cpus s2 s1 set_gdt set_cpus]; by rewrite length_insert|].
    split; [by rewrite B4, B3|]. split; [rewrite D4, D3; apply length_insert|].
    rewrite (ev_layout _ _ _ _ _ _ _ E4). apply (cr_layout _ _ _ _ _ _ C3).
Qed.

(** ** The machine with its tasks *)

(** Between two events: queues, task memory and locks are in order. *)
Record machine_ok (K : ksyms) (s : tk_state) (ms : list tmem) (l : list Z) : Prop := {
  mk_sched : sched_inv s;
  mk_mem : mem_inv s ms l;
  mk_unlocked : unlocked s;
  mk_ncpu : 0 < ncpu s <= Z.of_nat (length (cpus s));
  mk_regions : Forall region_ok (user_regions K (user_sizes s));
  mk_open : forall m, m ∈ ms -> tm_regions m = user_regions K (user_sizes s)
}.

(** The sizes of the program's parts, as [task_init] computes them. *)
Definition program_sizes (K : ksyms) : Z * Z * Z * Z :=
  (u32 (UTEXT_end K - UTEXT_start K), u32 (UDATA_end K - UDATA_start K),
   u32 (UBSS_end K - UBSS_start K), u32 (URODATA_end K - URODATA_start K)).

Lemma wp_and_safe {S A} (m : M S A) s (Q R : A -> S -> Prop) I : wp m s Q -> safe m s R I -> wp m s (fun a s' => Q a s' /\ R a s').
Proof. unfold wp, safe. by destruct (m s). Qed.

Lemma no_task_mem s l :
  mm_wf (mm s) l -> placed (mm s) -> tasks s = replicate 32 task0 -> mem_inv s [] l.
Proof.
  intros W P Ht. split; [done|apply W|constructor|intros m Hm; by apply elem_of_nil in Hm| |done].
  intros p t Hp Hf. rewrite Ht in Hp. unfold zget in Hp. destruct (0 <=? p); [|done].
  apply lookup_replicate in Hp as [-> _]. done.
Qed.

Lemma wp_task_init K s l c :
  linked K -> Forall region_ok (user_regions K (program_sizes K)) -> mm_wf (mm s) l -> placed (mm s) -> (80 <= length l)%nat ->
  Forall unused (cpus s) -> zget (cpus s) (cpunum s) = Some c -> percpu_ok s c -> 0 < ncpu s <= Z.of_nat (length (cpus s)) ->
  wp (task_init K) s (fun _ s' => (exists m l', machine_ok K s' [m] l' /\ pool (mm s') [m] l' ≡ₚ l
    /\ window (user_regions K (program_sizes K)) (mm s') (tm_dir m)) /\ first_task s' /\ length (cpus s') = length (cpus s)
    /\ user_sizes s' = program_sizes K /\ same_board s s').
Proof.
  intros HK Hreg W P Hl HF Hc Hok Hn.
  assert (cpu_task c = None) as Hno by (rewrite Forall_forall in HF; apply (HF c); by eapply zget_elem_of).
  eapply wp_mono; [eapply (wp_and_safe _ _ _ _ (fun _ => True)); [|by apply (safe_task_init K _ s c)]|].
  - unfold task_init. wp_step. wp_step. wp_step. wp_step. wp_step. wp_step. wp_step. wp_step.
    set (s1 := set_tasks _ _).
    apply (wp_task_init_percpu K s1 [] l c HK Hreg); try assumption; try done.
    + by apply no_task_mem.
    + exists 0, task0. done.
  - intros u s' [(m & l' & I & HP & Er & U & Z & N & G & B) [SI HFt] ]. split; [|split; [exact HFt|split; [exact G|split; [exact Z|exact B] ] ] ]. exists m, l'. split; [|split; [exact HP|] ].
    2: { change (tm_regions m = user_regions K (program_sizes K)) in Er. rewrite <- Er. apply (tm_window s' l'). apply (mi_ok _ _ _ I). by left. }
    split; [exact SI|exact I|exact U| | |].
    + rewrite N, G. exact Hn.
    + rewrite Z. exact Hreg.
    + intros m' ->%list_elem_of_singleton. by rewrite Z.
Qed.
