(* ===== verification/Bytes.v ===== *)
(** * Byte access to physical memory

    Memory is kept as 32-bit words ([PageAlloc.v]); firmware tables and string
    routines read and write bytes.  A byte is a part of its little-endian word. *)

From S2P Require Import Prelude.
From S2P Require Import Machine.
From S2P Require Import Kmonad.
From S2P Require Import Spinlock.
From S2P Require Import PageAlloc.
From Stdlib Require Import ZArith Lia.
From stdpp Require Import base gmap list strings.

Local Open Scope Z_scope.

(** Byte [i] of a word, and the word with byte [i] replaced. *)
Definition byte_of (w i : Z) : Z := (w / 2 ^ (8 * i)) mod 256.
Definition byte_upd (w i b : Z) : Z := w - byte_of w i * 2 ^ (8 * i) + b * 2 ^ (8 * i).

Definition rd8 (m : gmap Z Z) (pa : Z) : Z := byte_of (rd32 m (pa - pa mod 4)) (pa mod 4).
Definition wr8 (m : gmap Z Z) (pa b : Z) : gmap Z Z :=
  <[pa - pa mod 4 := byte_upd (rd32 m (pa - pa mod 4)) (pa mod 4) b]> m.

Definition load8 (kva : Z) : M mm_state Z :=
  s ← get;
  let pa := kva - KERNBASE in
  if word_ok s (pa - pa mod 4) then mret (rd8 (ram s) pa) else fault "load8".

Definition store8 (kva v : Z) : M mm_state unit :=
  s ← get;
  let pa := kva - KERNBASE in
  if word_ok s (pa - pa mod 4) then put (set_ram (wr8 (ram s) pa (u8 v)) s) else fault "store8".

(** Little-endian half words and words at any address. *)
Definition load16 (kva : Z) : M mm_state Z :=
  a ← load8 kva; b ← load8 (kva + 1); mret (a + 256 * b).
Definition load32u (kva : Z) : M mm_state Z :=
  a ← load16 kva; b ← load16 (kva + 2); mret (a + 65536 * b).
Definition store16 (kva v : Z) : M mm_state unit :=
  store8 kva v ;; store8 (kva + 1) (Z.shiftr (u16 v) 8).

(** ** Lemmas *)

Lemma byte_index i : 0 <= i < 4 -> i = 0 \/ i = 1 \/ i = 2 \/ i = 3.
Proof. lia. Qed.

Ltac byte_cases Hi :=
  let H := fresh in
  pose proof (byte_index _ Hi) as H; destruct H as [H|[H|[H|H] ] ]; subst.

Lemma byte_of_range w i : 0 <= byte_of w i < 256.
Proof. apply Z.mod_pos_bound. lia. Qed.

Ltac pow8 :=
  change (2 ^ (8 * 0)) with 1 in *; change (2 ^ (8 * 1)) with 256 in *;
  change (2 ^ (8 * 2)) with 65536 in *; change (2 ^ (8 * 3)) with 16777216 in *.

Lemma byte_upd_eq w i b : 0 <= w < 4294967296 -> 0 <= i < 4 -> 0 <= b < 256 ->
  byte_of (byte_upd w i b) i = b.
Proof.
  intros Hw Hi Hb. unfold byte_upd, byte_of. byte_cases Hi; pow8;
    Z.to_euclidean_division_equations; lia.
Qed.

Lemma byte_upd_ne w i j b : 0 <= w < 4294967296 -> 0 <= i < 4 -> 0 <= j < 4 -> i <> j ->
  0 <= b < 256 -> byte_of (byte_upd w i b) j = byte_of w j.
Proof.
  intros Hw Hi Hj Hne Hb. unfold byte_upd, byte_of.
  byte_cases Hi; byte_cases Hj; try done; pow8; Z.to_euclidean_division_equations; lia.
Qed.

Lemma byte_upd_range w i b : 0 <= w < 4294967296 -> 0 <= i < 4 -> 0 <= b < 256 ->
  0 <= byte_upd w i b < 4294967296.
Proof.
  intros Hw Hi Hb. unfold byte_upd, byte_of. byte_cases Hi; pow8;
    Z.to_euclidean_division_equations; lia.
Qed.

(** A byte written is the byte read, and no other byte changes. *)
Lemma rd8_wr8 m pa pa' b :
  0 <= rd32 m (pa - pa mod 4) < 4294967296 -> 0 <= b < 256 ->
  rd8 (wr8 m pa b) pa' = if pa =? pa' then b else rd8 m pa'.
Proof.
  intros Hw Hb. unfold rd8, wr8, rd32 at 1.
  pose proof (Z.mod_pos_bound pa 4 ltac:(lia)). pose proof (Z.mod_pos_bound pa' 4 ltac:(lia)).
  destruct (Z.eqb_spec pa pa') as [->|Hne].
  - rewrite lookup_insert_eq. simpl. by apply byte_upd_eq.
  - destruct (Z.eq_dec (pa - pa mod 4) (pa' - pa' mod 4)) as [E|E].
    + rewrite <- E, lookup_insert_eq. simpl. apply byte_upd_ne; lia.
    + rewrite lookup_insert_ne by done. done.
Qed.

Section ByteRules.
Context (s : mm_state).

Lemma wp_load8 pa Q :
  word_ok s (pa - pa mod 4) = true -> Q (rd8 (ram s) pa) s -> wp (load8 (pa + KERNBASE)) s Q.
Proof.
  intros H HQ. unfold load8. wp_step. wp_step. rewrite Z.add_simpl_r, H. by wp_steps.
Qed.

Lemma wp_store8 pa b Q :
  word_ok s (pa - pa mod 4) = true -> Q tt (set_ram (wr8 (ram s) pa (u8 b)) s) ->
  wp (store8 (pa + KERNBASE) b) s Q.
Proof.
  intros H HQ. unfold store8. wp_step. wp_step. rewrite Z.add_simpl_r, H. by wp_steps.
Qed.
End ByteRules.

(** Inside physical memory every byte can be read. *)
Lemma byte_ok s pa : 0 <= pa -> pa / 4096 < npages s -> word_ok s (pa - pa mod 4) = true.
Proof.
  intros H0 Hn. unfold word_ok. rewrite PGNUM_div.
  destruct (Z.leb_spec 0 (pa - pa mod 4)); [|Z.to_euclidean_division_equations; lia].
  destruct (Z.eqb_spec ((pa - pa mod 4) mod 4) 0); [|Z.to_euclidean_division_equations; lia].
  destruct (Z.ltb_spec ((pa - pa mod 4) / 4096) (npages s)); [done|].
  Z.to_euclidean_division_equations; lia.
Qed.
