(* ===== verification/Ports.v ===== *)
(** * Ports and simple devices (inc/x86.h, kernel/kclock.c, kernel/picirq.c,
    the PIT of kernel/timer.c)

    What is behind an I/O port is hardware: a type [W] of machine states with an
    instance of the class [Ports], which gives [inb] and [outb].  The drivers are
    written against the class.  Two instances are given: [bus], which records the
    writes and answers reads from a table, and in [Kbd.v] a keyboard controller. *)

From S2P Require Import Prelude.
From S2P Require Import Machine.
From S2P Require Import Kmonad.
From Stdlib Require Import ZArith Lia.
From stdpp Require Import base gmap list strings.

Local Open Scope Z_scope.

(** ** Ports *)

Class Ports (W : Type) := {
  port_in : Z -> W -> Z * W;
  port_out : Z -> Z -> W -> W
}.

Section Io.
  Context {W : Type} `{!Ports W}.

(** [inb]: the value read is a byte. *)
Definition inb (port : Z) : M W Z := fun w =>
  let '(v, w') := port_in port w in Ret (u8 v) w'.

(** [outb]: a byte is written. *)
Definition outb (port data : Z) : M W unit := fun w => Ret tt (port_out port (u8 data) w).

(** ** The real-time clock (kernel/kclock.c) *)

Definition IO_RTC : Z := 0x070.
Definition MC_NVRAM_START : Z := 0xe.
Definition NVRAM_BASELO : Z := MC_NVRAM_START + 7.
Definition NVRAM_EXTLO : Z := MC_NVRAM_START + 9.

Definition mc146818_read (reg : Z) : M W Z :=
  outb IO_RTC reg ;; inb (IO_RTC + 1).

Definition mc146818_write (reg datum : Z) : M W unit :=
  outb IO_RTC reg ;; outb (IO_RTC + 1) datum.

(** ** The interval timer (kernel/timer.c) *)

Definition TIME_HZ : Z := 100.

(** [set_timer(hz)]: C division truncates; a zero [hz] would trap. *)
Definition set_timer (hz : Z) : M W unit :=
  if (hz =? 0) then fault "divide error"
  else
    let divisor := Z.quot 1193180 hz in
    outb 0x43 0x36 ;;
    outb 0x40 (Z.land divisor 0xFF) ;;
    outb 0x40 (Z.shiftr divisor 8).

(** ** The interrupt controllers (kernel/picirq.c) *)

Definition IO_PIC1 : Z := 0x20.
Definition IO_PIC2 : Z := 0xA0.
Definition IRQ_SLAVE : Z := 2.

(** The variables [irq_mask_8259A] and [didinit], beside the hardware. *)
Record pic_state := PIC { irq_mask_8259A : Z; didinit : bool }.

Definition pic0 : pic_state := PIC (Z.land 0xFFFF (lnot32 (Z.shiftl 1 IRQ_SLAVE))) false.

(** [(char) mask] and [(char) (mask >> 8)] are signed; [outb] takes the byte. *)
Definition irq_setmask_8259A (mask : Z) : M (pic_state * W) unit :=
  p ← gets fst;
  let m := u16 mask in
  _ ← modify (fun s => (PIC m (didinit (fst s)), snd s));
  if negb (didinit p) then mret tt
  else on_snd (outb (IO_PIC1 + 1) (s8 m) ;; outb (IO_PIC2 + 1) (s8 (Z.shiftr m 8))).

Definition pic_init : M (pic_state * W) unit :=
  _ ← modify (fun s => (PIC (irq_mask_8259A (fst s)) true, snd s));
  _ ← on_snd (
    outb (IO_PIC1 + 1) 0xFF ;;
    outb (IO_PIC2 + 1) 0xFF ;;
    outb IO_PIC1 0x11 ;;
    outb (IO_PIC1 + 1) IRQ_OFFSET ;;
    outb (IO_PIC1 + 1) (Z.shiftl 1 IRQ_SLAVE) ;;
    outb (IO_PIC1 + 1) 0x3 ;;
    outb IO_PIC2 0x11 ;;
    outb (IO_PIC2 + 1) (IRQ_OFFSET + 8) ;;
    outb (IO_PIC2 + 1) IRQ_SLAVE ;;
    outb (IO_PIC2 + 1) 0x01 ;;
    outb IO_PIC1 0x68 ;;
    outb IO_PIC1 0x0a ;;
    outb IO_PIC2 0x68 ;;
    outb IO_PIC2 0x0a);
  p ← gets fst;
  when (negb (irq_mask_8259A p =? 0xFFFF)) (irq_setmask_8259A (irq_mask_8259A p)).
End Io.

Lemma wp_outb {W} `{!Ports W} p v (w : W) Q : Q tt (port_out p (u8 v) w) -> wp (outb p v) w Q.
Proof. done. Qed.

(** ** Instances *)

(** Writes are recorded, newest first; reads come from a table. *)
Record bus := Bus { bus_in : gmap Z Z; bus_out : list (Z * Z) }.

#[global] Instance bus_ports : Ports bus := {|
  port_in p w := (default 0 (bus_in w !! p), w);
  port_out p v w := Bus (bus_in w) ((p, v) :: bus_out w)
|}.

(** The CMOS RAM behind ports 0x70 and 0x71: a write to 0x70 selects the byte
    that 0x71 reads and writes. *)
Record cmos := Cmos { cmos_sel : Z; cmos_ram : gmap Z Z }.

#[global] Instance cmos_ports : Ports cmos := {|
  port_in p w := (if (p =? 0x71) then default 0 (cmos_ram w !! cmos_sel w) else 0, w);
  port_out p v w :=
    if (p =? 0x70) then Cmos v (cmos_ram w)
    else if (p =? 0x71) then Cmos (cmos_sel w) (<[cmos_sel w := v]> (cmos_ram w))
    else w
|}.

(** The last byte written to port [p]. *)
Fixpoint last_write (p : Z) (l : list (Z * Z)) : option Z :=
  match l with
  | [] => None
  | (q, v) :: l' => if (q =? p) then Some v else last_write p l'
  end.

(** The controllers hold the mask the variable holds: low byte in the master,
    high byte in the slave. *)
Definition pic_sync (s : pic_state * bus) (m : Z) : Prop :=
  irq_mask_8259A (fst s) = m /\ didinit (fst s) = true
  /\ last_write (IO_PIC1 + 1) (bus_out (snd s)) = Some (m mod 256)
  /\ last_write (IO_PIC2 + 1) (bus_out (snd s)) = Some (m / 256).

Lemma u8_s8 x : u8 (s8 x) = u8 x.
Proof. unfold u8, s8. Z.to_euclidean_division_equations. lia. Qed.

Lemma setmask_sync s m :
  didinit (fst s) = true -> wp (irq_setmask_8259A m) s (fun _ s' => pic_sync s' (u16 m)).
Proof.
  intros Hd. destruct s as [p w]. unfold wp, irq_setmask_8259A, gets, modify, mbind, M_bind.
  simpl in Hd |- *. rewrite Hd. simpl. unfold on_snd, zoom, outb, mbind, M_bind. simpl.
  unfold pic_sync. simpl. rewrite !u8_s8. pose proof (u16_range m).
  split; [done|]. split; [done|]. split; [done|]. f_equal.
  rewrite shiftr_div by lia. change (2 ^ 8) with 256.
  unfold u8. rewrite Z.mod_small; [done|]. Z.to_euclidean_division_equations. lia.
Qed.

(** A sequence of mask changes. *)
Fixpoint set_masks (l : list Z) : M (pic_state * bus) unit :=
  match l with
  | [] => mret tt
  | m :: l' => irq_setmask_8259A m ;; set_masks l'
  end.

Lemma setmasks_sync masks s m :
  pic_sync s m ->
  wp (set_masks masks) s (fun _ s' =>
    pic_sync s' (default m (u16 <$> last masks))).
Proof.
  revert s m. induction masks as [|x l IH]; intros s m Hs; [done|].
  cbn [set_masks]. wp_step. eapply wp_mono; [apply setmask_sync, Hs|].
  intros u s1 H1.
  eapply wp_mono; [apply (IH s1 (u16 x) H1)|].
  intros y s2 H2. rewrite last_cons. by destruct (last l).
Qed.

Lemma pic_init_sync p w :
  irq_mask_8259A p <> 0xFFFF ->
  wp pic_init (p, w) (fun _ s => pic_sync s (u16 (irq_mask_8259A p))).
Proof.
  intros Hm. unfold pic_init. wp_step. wp_step. wp_step.
  eapply wp_mono; [by apply wp_zoom; instantiate (1 := fun _ s => didinit (fst s) = true
                     /\ irq_mask_8259A (fst s) = irq_mask_8259A p)|].
  intros _ s [Hd Em]. wp_step. wp_step. rewrite Em.
  destruct (Z.eqb_spec (irq_mask_8259A p) 0xFFFF); [done|]. simpl. by apply setmask_sync.
Qed.

(** ** Properties *)

(** A byte written to the clock's NVRAM is what a later read of the same
    register returns, and reads of other registers are not affected. *)
Theorem mc146818_roundtrip (w : cmos) reg reg' v :
  0 <= reg < 256 -> 0 <= reg' < 256 -> 0 <= v < 256 ->
  wp (mc146818_write reg v ;; mc146818_read reg') w (fun r w' =>
    r = (if reg =? reg' then v else u8 (default 0 (cmos_ram w !! reg')))
    /\ cmos_ram w' = <[reg := v]> (cmos_ram w)).
Proof.
  intros Hr Hr' Hv. unfold wp, mc146818_write, mc146818_read, inb, outb, mbind, M_bind. simpl.
  rewrite !(u8_small reg), !(u8_small reg'), (u8_small v) by lia. simpl. split; [|done].
  destruct (Z.eqb_spec reg reg') as [->|].
  - rewrite lookup_insert_eq. simpl. by apply u8_small.
  - by rewrite lookup_insert_ne.
Qed.

(** After [pic_init] and any sequence of mask changes, the two interrupt
    controllers hold exactly the 16 bits the variable [irq_mask_8259A] holds: low
    byte in the master, high byte in the slave. *)
Theorem pic_mask_in_sync p w masks :
  irq_mask_8259A p <> 0xFFFF ->
  wp (pic_init ;; set_masks masks) (p, w) (fun _ s =>
    pic_sync s (default (u16 (irq_mask_8259A p)) (u16 <$> last masks))).
Proof.
  intros Hm. wp_step. eapply wp_mono; [by apply pic_init_sync|].
  intros u s Hs. by apply setmasks_sync.
Qed.

(** [set_timer] programs the counter, in mode 3 and low byte first, with the
    divisor of the 1.193180 MHz clock for the rate asked for; the two bytes give
    the divisor back whenever it fits 16 bits. *)
Theorem set_timer_divisor (w : bus) hz :
  18 < hz <= 1193180 ->
  wp (set_timer hz) w (fun _ w' => exists lo hi,
    bus_out w' = (0x40, hi) :: (0x40, lo) :: (0x43, 0x36) :: bus_out w
    /\ lo + 256 * hi = 1193180 / hz).
Proof.
  intros Hh. unfold wp, set_timer, outb, mbind, M_bind.
  destruct (Z.eqb_spec hz 0); [lia|]. simpl. eexists _, _. split; [done|].
  rewrite Z.quot_div_nonneg by lia. set (d := 1193180 / hz).
  assert (0 <= d < 65536) as Hd by (subst d; Z.to_euclidean_division_equations; nia).
  rewrite shiftr_div by lia. change 255 with (2 ^ 8 - 1). rewrite (land_low d 8) by lia. change (2 ^ 8) with 256.
  rewrite !u8_small; Z.to_euclidean_division_equations; lia.
Qed.

Lemma mc146818_roundtrip_witness :
  wp (mc146818_write 14 7 ;; mc146818_read 14) (Cmos 0 ∅)
    (fun r w' => r = 7 /\ cmos_ram w' = {[14 := 7]}).
Proof. by apply (mc146818_roundtrip (Cmos 0 ∅) 14 14 7). Defined.

Lemma pic_mask_in_sync_witness :
  wp (pic_init ;; set_masks [0xFFFA; 0xFFF8]) (pic0, Bus ∅ [])
    (fun _ s => pic_sync s 0xFFF8).
Proof. by apply (pic_mask_in_sync pic0 (Bus ∅ []) [0xFFFA; 0xFFF8]). Defined.

Lemma set_timer_divisor_witness :
  wp (set_timer TIME_HZ) (Bus ∅ []) (fun _ w' => exists lo hi,
    bus_out w' = [(0x40, hi); (0x40, lo); (0x43, 0x36)] /\ lo + 256 * hi = 11931).
Proof. by apply (set_timer_divisor (Bus ∅ []) TIME_HZ). Defined.
