(* ===== verification/Lapic.v ===== *)
(** * The local APIC (kernel/lapic.c)

    The memory-mapped registers of the local APIC are hardware: the class
    [ApicRegs] gives a read and a write of register [i] (an index into the
    [uint32_t] array).  [lapic] is the mapped address, 0 before [lapic_init]. *)

From S2P Require Import Prelude.
From S2P Require Import Machine.
From S2P Require Import Kmonad.
From S2P Require Import Spinlock.
From S2P Require Import PageAlloc.
From S2P Require Import Paging.
From S2P Require Import Bytes.
From S2P Require Import Ports.
From Stdlib Require Import ZArith Lia.
From stdpp Require Import base gmap list strings.

Local Open Scope Z_scope.

Class ApicRegs (W : Type) := {
  apic_rd : Z -> W -> Z * W;
  apic_wr : Z -> Z -> W -> W
}.

Definition ID : Z := 0x0020 / 4.
Definition VER : Z := 0x0030 / 4.
Definition TPR : Z := 0x0080 / 4.
Definition EOI : Z := 0x00B0 / 4.
Definition SVR : Z := 0x00F0 / 4.
Definition ENABLE : Z := 0x00000100.
Definition ESR : Z := 0x0280 / 4.
Definition ICRLO : Z := 0x0300 / 4.
Definition INIT : Z := 0x00000500.
Definition STARTUP : Z := 0x00000600.
Definition DELIVS : Z := 0x00001000.
Definition ASSERT : Z := 0x00004000.
Definition LEVEL : Z := 0x00008000.
Definition BCAST : Z := 0x00080000.
Definition OTHERS : Z := 0x000C0000.
Definition FIXED : Z := 0x00000000.
Definition ICRHI : Z := 0x0310 / 4.
Definition TIMER : Z := 0x0320 / 4.
Definition X1 : Z := 0x0000000B.
Definition PERIODIC : Z := 0x00020000.
Definition PCINT : Z := 0x0340 / 4.
Definition LINT0 : Z := 0x0350 / 4.
Definition LINT1 : Z := 0x0360 / 4.
Definition ERROR : Z := 0x0370 / 4.
Definition MASKED : Z := 0x00010000.
Definition TICR : Z := 0x0380 / 4.
Definition TDCR : Z := 0x03E0 / 4.

(** [lapicaddr] and [lapic]. *)
Record lapic_vars := LV { lapicaddr : Z; lapic : Z }.

(** The variables, memory and the hardware. *)
Definition lstate (W : Type) : Type := lapic_vars * mm_state * W.

Section Lapic.
  Context {W : Type} `{!Ports W} `{!ApicRegs W}.

Definition vars : M (lstate W) lapic_vars := gets (fun s => fst (fst s)).
Definition hw {A} : M W A -> M (lstate W) A := on_snd.
Definition mem {A} (m : M mm_state A) : M (lstate W) A := on_fst (on_snd m).

(** [lapic[i]]: a null [lapic] is a fault. *)
Definition lapicr (i : Z) : M (lstate W) Z :=
  v ← vars;
  if (lapic v =? 0) then fault "lapic is null"
  else hw (fun w => let '(x, w') := apic_rd i w in Ret (u32 x) w').

Definition lapicw (index value : Z) : M (lstate W) unit :=
  v ← vars;
  if (lapic v =? 0) then fault "lapic is null"
  else
    hw (fun w => Ret tt (apic_wr index (u32 value) w)) ;;
    _ ← lapicr ID;
    mret tt.

Definition cpunum : M (lstate W) Z :=
  v ← vars;
  if negb (lapic v =? 0) then x ← lapicr ID; mret (Z.shiftr x 24) else mret 0.

Definition lapic_eoi : M (lstate W) unit :=
  v ← vars;
  if negb (lapic v =? 0) then lapicw EOI 0 else mret tt.

(** [while (lapic[ICRLO] & DELIVS);] *)
Fixpoint wait_delivered (fuel : nat) : M (lstate W) unit :=
  match fuel with
  | O => hang "lapic[ICRLO] & DELIVS"
  | S fuel' =>
      x ← lapicr ICRLO;
      if truth (Z.land x DELIVS) then wait_delivered fuel' else mret tt
  end.

(** [bootcpu] is the index of the boot CPU in [cpus]. *)
Definition lapic_init (fuel : nat) (bootcpu : Z) : M (lstate W) unit :=
  v ← vars;
  if (lapicaddr v =? 0) then mret tt
  else
    _ ← when (lapic v =? 0)
          (a ← mem (mmio_map_region (lapicaddr v) 4096);
           modify (fun s => (LV (lapicaddr v) a, snd (fst s), snd s)));
    lapicw SVR (Z.lor ENABLE (IRQ_OFFSET + IRQ_SPURIOUS)) ;;
    lapicw TDCR X1 ;;
    lapicw TIMER (Z.lor PERIODIC (IRQ_OFFSET + IRQ_TIMER)) ;;
    lapicw TICR 10000000 ;;
    me ← cpunum;
    when (negb (me =? bootcpu)) (lapicw LINT0 MASKED) ;;
    lapicw LINT1 MASKED ;;
    ver ← lapicr VER;
    when (Z.land (Z.shiftr ver 16) 0xFF >=? 4) (lapicw PCINT MASKED) ;;
    lapicw ERROR (IRQ_OFFSET + IRQ_ERROR) ;;
    lapicw ESR 0 ;;
    lapicw ESR 0 ;;
    lapicw EOI 0 ;;
    lapicw ICRHI 0 ;;
    lapicw ICRLO (Z.lor (Z.lor BCAST INIT) LEVEL) ;;
    wait_delivered fuel ;;
    lapicw TPR 0.

(** The two STARTUP messages. *)
Definition send_startup (apicid addr : Z) : M (lstate W) unit :=
  lapicw ICRHI (Z.shiftl apicid 24) ;;
  lapicw ICRLO (Z.lor STARTUP (Z.shiftr addr 12)).

Definition lapic_startap (apicid addr : Z) : M (lstate W) unit :=
  hw (outb IO_RTC 0xF ;; outb (IO_RTC + 1) 0x0A) ;;
  _ ← mem (wrv ← KADDR (Z.lor (Z.shiftl 0x40 4) 0x67);
           store16 wrv 0 ;;
           store16 (wrv + 2) (Z.shiftr (u32 addr) 4));
  lapicw ICRHI (Z.shiftl (u8 apicid) 24) ;;
  lapicw ICRLO (Z.lor (Z.lor INIT LEVEL) ASSERT) ;;
  lapicw ICRLO (Z.lor INIT LEVEL) ;;
  send_startup (u8 apicid) (u32 addr) ;;
  send_startup (u8 apicid) (u32 addr).

Definition lapic_ipi (fuel : nat) (vector : Z) : M (lstate W) unit :=
  lapicw ICRLO (Z.lor (Z.lor OTHERS FIXED) vector) ;;
  wait_delivered fuel.
End Lapic.

(** ** A machine that records what it is told *)

Record apicbus := AB {
  ab_regs : gmap Z Z;          (* register contents *)
  ab_log : list (Z * Z);       (* APIC writes, newest first *)
  ab_out : list (Z * Z)        (* port writes, newest first *)
}.

#[global] Instance apicbus_ports : Ports apicbus := {|
  port_in p w := (0, w);
  port_out p v w := AB (ab_regs w) (ab_log w) ((p, v) :: ab_out w)
|}.

#[global] Instance apicbus_apic : ApicRegs apicbus := {|
  apic_rd i w := (default 0 (ab_regs w !! i), w);
  apic_wr i v w := AB (ab_regs w) ((i, v) :: ab_log w) (ab_out w)
|}.

Definition ab_write (i v : Z) (w : apicbus) : apicbus :=
  AB (ab_regs w) ((i, v) :: ab_log w) (ab_out w).

Lemma wp_lapicw lv s w i v Q :
  lapic lv <> 0 -> 0 <= v < 4294967296 -> Q tt (lv, s, ab_write i v w) ->
  wp (lapicw (W := apicbus) i v) (lv, s, w) Q.
Proof.
  intros Hl Hv HQ. unfold lapicw, vars, lapicr, vars. wp_steps. cbn [fst snd].
  destruct (Z.eqb_spec (lapic lv) 0); [done|]. rewrite u32_small by done.
  unfold wp, hw, on_snd, zoom, gets, mbind, M_bind. cbn [fst snd].
  destruct (Z.eqb_spec (lapic lv) 0); [done|]. exact HQ.
Qed.

(** ** Storing a half word *)

Lemma wp_store16 s l pa v Q :
  mm_wf s l -> 0 <= pa -> (pa + 1) / 4096 < npages s -> 0 <= v < 65536 ->
  (forall m, (forall a, rd8 m a = if a =? pa then v mod 256 else if a =? pa + 1 then v / 256
                                else rd8 (ram s) a) ->
             mm_wf (set_ram m s) l -> Q tt (set_ram m s)) ->
  wp (store16 (pa + KERNBASE) v) s Q.
Proof.
  intros W Hp Hn Hv HQ. unfold store16.
  assert (pa / 4096 < npages s) by (Z.to_euclidean_division_equations; lia).
  assert (forall s0 b p, mm_wf s0 l -> 0 <= b < 256 -> mm_wf (set_ram (wr8 (ram s0) p b) s0) l) as Hw.
  { intros s0 b p W0 Hb. pose proof W0 as [w1 w2 w3 w4 w5 w6 w7]. split; try done.
    intros a x. simpl. unfold wr8. destruct (decide (p - p mod 4 = a)) as [<-|].
    - rewrite lookup_insert_eq. intros [= <-]. apply byte_upd_range; [|apply Z.mod_pos_bound; lia|done].
      by eapply rd32_range.
    - rewrite lookup_insert_ne by done. apply w7. }
  rewrite shiftr_div, u16_small by lia. change (2 ^ 8) with 256.
  wp_step. apply wp_store8; [by apply byte_ok|]. set (s1 := set_ram _ s).
  pose proof (Hw s (u8 v) pa W (u8_range v)) as W1. fold s1 in W1.
  replace (pa + KERNBASE + 1) with (pa + 1 + KERNBASE) by lia.
  apply wp_store8; [apply byte_ok; [lia|done]|].
  rewrite (u8_small (v / 256)) by (Z.to_euclidean_division_equations; lia).
  apply (HQ (wr8 (ram s1) (pa + 1) (v / 256))).
  - intros a. rewrite rd8_wr8; [|by eapply rd32_range|Z.to_euclidean_division_equations; lia].
    simpl. rewrite rd8_wr8; [|by eapply rd32_range|apply u8_range]. unfold u8.
    destruct (Z.eqb_spec (pa + 1) a), (Z.eqb_spec a pa), (Z.eqb_spec a (pa + 1)),
      (Z.eqb_spec pa a); lia || done.
  - apply (Hw s1); [done|]. Z.to_euclidean_division_equations; lia.
Qed.

(** ** Properties *)

(** Starting another processor.  [lapic_startap] stores the warm reset code
    in the clock's NVRAM and the entry segment in the warm reset vector at
    0x40:0x67, and then sends the processor with the given APIC number INIT,
    INIT de-assert and twice STARTUP with the page number of the entry code, in
    this order and nothing else. *)
Theorem lapic_startap_protocol lv s l w apicid addr :
  lapic lv <> 0 -> mm_wf s l -> 0 < npages s -> 0 <= apicid < 256 ->
  0 <= addr < 0x100000 -> addr mod 4096 = 0 ->
  wp (lapic_startap apicid addr) (lv, s, w) (fun _ r =>
    let dest := (ICRHI, apicid * 2 ^ 24) in
    let startup := (ICRLO, 0x600 + addr / 4096) in
    ab_log (snd r) = [startup; dest; startup; dest; (ICRLO, 0x8500); (ICRLO, 0xC500); dest]
                     ++ ab_log w
    /\ ab_out (snd r) = [(0x71, 0x0A); (0x70, 0xF)] ++ ab_out w
    /\ (let m := ram (snd (fst r)) in
        rd8 m 0x467 = 0 /\ rd8 m 0x468 = 0
        /\ rd8 m 0x469 + 256 * rd8 m 0x46A = addr / 16)).
Proof.
  intros Hl W Hn Hid Ha Hal. unfold lapic_startap. wp_step.
  eapply wp_eq; [reflexivity|]. cbv beta. wp_step.
  change (Z.lor (Z.shiftl 0x40 4) 0x67) with 0x467. unfold mem, on_fst, on_snd.
  apply wp_zoom. apply wp_zoom. cbn [fst snd]. wp_step.
  apply wp_KADDR; [lia|change (PGNUM 0x467) with 0; lia|]. wp_step.
  eapply (wp_store16 s l 0x467 0); [done|lia|change ((0x467 + 1) / 4096) with 0; lia|lia|].
  intros m1 Hm1 W1. rewrite u32_small by lia. rewrite shiftr_div by lia. change (2 ^ 4) with 16.
  change (0x467 + KERNBASE + 2) with (0x469 + KERNBASE).
  eapply (wp_store16 _ l 0x469); [done|lia|change ((0x469 + 1) / 4096) with 0; unfold npages in *; simpl; lia| |].
  { Z.to_euclidean_division_equations; lia. }
  intros m2 Hm2 W2. unfold send_startup. rewrite (u8_small apicid) by lia.
  rewrite Z.shiftl_mul_pow2, shiftr_div by lia. change (2 ^ 12) with 4096.
  change (Z.lor (Z.lor INIT LEVEL) ASSERT) with 0xC500. change (Z.lor INIT LEVEL) with 0x8500.
  assert (Z.lor STARTUP (addr / 4096) = 0x600 + addr / 4096) as ->.
  { apply (lor_aligned _ _ 8); [lia|done|].
    change (2 ^ 8) with 256. Z.to_euclidean_division_equations; lia. }
  assert (0 <= 0x600 + addr / 4096 < 4294967296) by (Z.to_euclidean_division_equations; lia).
  repeat (first [apply wp_bind | apply wp_lapicw; [done|lia|]]).
  cbn [fst snd ab_log ab_out ab_write ram set_ram]. split; [done|]. split; [done|].
  rewrite !Hm2. simpl. rewrite !Hm1. simpl. split; [done|]. split; [done|].
  Z.to_euclidean_division_equations; lia.
Qed.

Lemma lapic_startap_protocol_witness :
  wp (lapic_startap 1 0x7000) (LV 0xFEE00000 0xEF800000, fresh_mm 16 0 0, AB ∅ [] [])
     (fun _ r => length (ab_log (snd r)) = 7%nat).
Proof.
  eapply wp_mono; [apply (lapic_startap_protocol _ _ [] _ 1 0x7000)|].
  - done.
  - apply fresh_wf. lia.
  - unfold npages. simpl. lia.
  - lia.
  - lia.
  - done.
  - cbv zeta. intros u r (-> & _). done.
Defined.
