(* ===== verification/Screen.v ===== *)
(** * The text screen (kernel/screen.c)

    Video memory is the list of the 2000 character cells at 0xB8000 (character
    in the low byte, attribute in the high byte); [textmemptr] is null before
    [init_video].  A write outside the cells is a fault of the model: on the
    machine it would go to other memory. *)

From S2P Require Import Prelude.
From S2P Require Import Machine.
From S2P Require Import Kmonad.
From S2P Require Import Spinlock.
From S2P Require Import Ports.
From Stdlib Require Import ZArith Lia.
From stdpp Require Import base gmap list strings.

Local Open Scope Z_scope.

Record screen := SCR {
  textmemptr : Z;
  textmem : list Z;
  attrib : Z;
  csr_x : Z;
  csr_y : Z;
  screen_lock : spinlock
}.

Definition VIDEO : Z := 0xB8000.

Definition s_set_ptr v s := SCR v (textmem s) (attrib s) (csr_x s) (csr_y s) (screen_lock s).
Definition s_set_mem v s := SCR (textmemptr s) v (attrib s) (csr_x s) (csr_y s) (screen_lock s).
Definition s_set_attrib v s := SCR (textmemptr s) (textmem s) v (csr_x s) (csr_y s) (screen_lock s).
Definition s_set_csr x y s := SCR (textmemptr s) (textmem s) (attrib s) x y (screen_lock s).
Definition s_set_lock v s := SCR (textmemptr s) (textmem s) (attrib s) (csr_x s) (csr_y s) v.

Section Screen.
  Context {W : Type} `{!Ports W} (ctx : cpu_ctx).

Definition get_s : M (screen * W) screen := gets fst.
Definition mod_s (f : screen -> screen) : M (screen * W) unit :=
  modify (fun s => (f (fst s), snd s)).

(** [*(textmemptr + i) = v]. *)
Definition put_cell (i v : Z) : M (screen * W) unit :=
  s ← get_s;
  if negb (textmemptr s =? VIDEO) then fault "text memory"
  else l ← need (zset (textmem s) i v) "text memory"; mod_s (s_set_mem l).

(** [memset(textmemptr + i, c, 2 * n)]: the byte [c] in both halves of [n] cells. *)
Definition memset_cells (i c n : Z) : M (screen * W) unit :=
  s ← get_s;
  let b := Z.land c 0xFF in
  if negb ((textmemptr s =? VIDEO) && (0 <=? i) && (0 <=? n)
           && (i + n <=? Z.of_nat (length (textmem s))))
  then fault "text memory"
  else mod_s (s_set_mem (take (Z.to_nat i) (textmem s)
                         ++ replicate (Z.to_nat n) (Z.lor (Z.shiftl b 8) b)
                         ++ drop (Z.to_nat (i + n)) (textmem s))).

(** [memcpy(textmemptr, textmemptr + i, 2 * n)] towards the front: the cells go
    one after the other from the first to the last. *)
Definition memcpy_cells (i n : Z) : M (screen * W) unit :=
  s ← get_s;
  if negb ((textmemptr s =? VIDEO) && (0 <=? i) && (0 <=? n)
           && (i + n <=? Z.of_nat (length (textmem s))))
  then fault "text memory"
  else mod_s (s_set_mem (take (Z.to_nat n) (drop (Z.to_nat i) (textmem s))
                         ++ drop (Z.to_nat n) (textmem s))).

(** [blank] is an [unsigned short], but [memset] takes its low byte, 0. *)
Definition scroll : M (screen * W) unit :=
  s ← get_s;
  let blank := u16 (Z.lor 0x0 (Z.shiftl (attrib s) 8)) in
  if (csr_y s >=? 25) then
    let temp := u16 (csr_y s - 25 + 1) in
    memcpy_cells (temp * 80) ((25 - temp) * 80) ;;
    memset_cells ((25 - temp) * 80) blank 80 ;;
    mod_s (fun s => s_set_csr (csr_x s) (25 - 1) s)
  else mret tt.

Definition move_csr : M (screen * W) unit :=
  s ← get_s;
  let temp := u16 (csr_y s * 80 + csr_x s) in
  on_snd (outb 0x3D4 14 ;;
          outb 0x3D5 (Z.shiftr temp 8) ;;
          outb 0x3D4 15 ;;
          outb 0x3D5 temp).

(** The loop of [sys_cls], [n] rows left. *)
Fixpoint cls_loop (n : nat) (i blank : Z) : M (screen * W) unit :=
  match n with
  | O => mret tt
  | S n' => memset_cells (i * 80) blank 80 ;; cls_loop n' (i + 1) blank
  end.

Definition sys_cls : M (screen * W) unit :=
  s ← get_s;
  let blank := u16 (Z.lor 0x0 (Z.shiftl (attrib s) 8)) in
  cls_loop 25 0 blank ;;
  mod_s (s_set_csr 0 0) ;;
  move_csr.

Definition on_lock (f : cpu_ctx -> M spinlock unit) : M (screen * W) unit :=
  on_fst (zoom screen_lock s_set_lock (f ctx)).

(** The five cases of [k_putch] for the character [c]. *)
Definition put_char (c : Z) : M (screen * W) unit :=
  s ← get_s;
  let att := u16 (Z.shiftl (attrib s) 8) in
  if (c =? 0x08) then
    if negb (csr_x s =? 0) then
      put_cell (csr_y s * 80 + csr_x s - 1) (Z.lor 0x0 att) ;;
      mod_s (fun s => s_set_csr (csr_x s - 1) (csr_y s) s)
    else mret tt
  else if (c =? 0x09) then
    mod_s (fun s => s_set_csr (Z.land (csr_x s + 8) (Z.lnot (8 - 1))) (csr_y s) s)
  else if (c =? 13) then mod_s (fun s => s_set_csr 0 (csr_y s) s)
  else if (c =? 10) then mod_s (fun s => s_set_csr 0 (csr_y s + 1) s)
  else if (c >=? 32) then
    put_cell (csr_y s * 80 + csr_x s) (Z.lor c att) ;;
    mod_s (fun s => s_set_csr (csr_x s + 1) (csr_y s) s)
  else mret tt.

Definition k_putch (c : Z) : M (screen * W) unit :=
  on_lock spin_lock ;;
  put_char (u8 c) ;;
  s ← get_s;
  when (csr_x s >=? 80) (mod_s (fun s => s_set_csr 0 (csr_y s + 1) s)) ;;
  scroll ;;
  move_csr ;;
  on_lock spin_unlock.

(** [k_puts]: [text] is the string before its NUL. *)
Fixpoint k_puts (text : list Z) : M (screen * W) unit :=
  match text with
  | [] => mret tt
  | c :: text' => k_putch c ;; k_puts text'
  end.

Definition sys_settextcolor (forecolor backcolor : Z) : M (screen * W) unit :=
  mod_s (s_set_attrib (Z.lor (Z.shiftl (u8 backcolor) 4) (Z.land (u8 forecolor) 0x0F))).

Definition init_video : M (screen * W) unit :=
  mod_s (s_set_ptr VIDEO) ;;
  sys_cls ;;
  mod_s (fun s => s_set_lock (spin_initlock "&screen_lock" (screen_lock s)) s).
End Screen.

(** ** A reference terminal *)

(** The cells and the cursor. *)
Definition view : Type := list Z * Z * Z.
Definition view_of (s : screen) : view := (textmem s, csr_x s, csr_y s).

(** One character on a terminal 80 columns wide, before line wrap and scrolling.
    [att] is the attribute byte, shifted. *)
Definition tty_char (att c : Z) (v : view) : view :=
  let '(m, x, y) := v in
  let at_ k := Z.to_nat (y * 80 + k) in
  if c =? 8 then if x =? 0 then v else (<[at_ (x - 1) := att]> m, x - 1, y)
  else if c =? 9 then (m, (x / 8 + 1) * 8, y)
  else if c =? 13 then (m, 0, y)
  else if c =? 10 then (m, 0, y + 1)
  else if 32 <=? c then (<[at_ x := c + att]> m, x + 1, y)
  else v.

Definition tty_wrap (v : view) : view :=
  let '(m, x, y) := v in if 80 <=? x then (m, 0, y + 1) else v.

Definition tty_scroll (v : view) : view :=
  let '(m, x, y) := v in
  if 25 <=? y then (drop 80 m ++ replicate 80 0, x, 24) else v.

Definition tty (att c : Z) (v : view) : view := tty_scroll (tty_wrap (tty_char att c v)).

(** The writes that place the hardware cursor. *)
Definition cursor_out {W} `{!Ports W} (pos : Z) (w : W) : W :=
  port_out 0x3D5 (pos mod 256) (port_out 0x3D4 15
    (port_out 0x3D5 (pos / 256) (port_out 0x3D4 14 w))).

(** ** Well-formed screens *)

Definition cursor_ok (v : view) : Prop :=
  let '(m, x, y) := v in length m = 2000%nat /\ 0 <= x < 80 /\ 0 <= y < 25.

Record screen_wf (s : screen) : Prop := {
  sw_ptr : textmemptr s = VIDEO;
  sw_view : cursor_ok (view_of s);
  sw_lock : lock_free (screen_lock s)
}.

(** One row below the last one and one column to the right are reached in between. *)
Definition cursor_mid (v : view) : Prop :=
  let '(m, x, y) := v in length m = 2000%nat /\ 0 <= x <= 80 /\ 0 <= y <= 25 /\ (y = 25 -> x = 0).

Lemma tty_char_mid att c v : cursor_ok v -> cursor_mid (tty_char att c v).
Proof.
  destruct v as [[m x] y]. intros (Hl & Hx & Hy). unfold tty_char.
  repeat case_match_goal; simpl; rewrite ?length_insert; breflect;
    repeat split; try lia; Z.to_euclidean_division_equations; lia.
Qed.

Lemma tty_wrap_mid v : cursor_mid v -> cursor_mid (tty_wrap v) /\ (tty_wrap v).1.2 < 80.
Proof.
  destruct v as [[m x] y]. intros (Hl & Hx & Hy & H). unfold tty_wrap.
  case_match_goal; simpl; breflect; repeat split; lia.
Qed.

Lemma tty_ok att c v : cursor_ok v -> cursor_ok (tty att c v).
Proof.
  intros H. unfold tty. apply (tty_char_mid att c) in H.
  destruct (tty_wrap_mid _ H) as [Hm Hx]. destruct (tty_wrap _) as [[m x] y].
  destruct Hm as (Hl & Hx' & Hy & _). simpl in Hx. unfold tty_scroll.
  case_match_goal; unfold cursor_ok; breflect; rewrite ?length_app, ?length_drop, ?length_replicate;
    repeat split; lia.
Qed.

Lemma att_lor c a : 0 <= c < 256 -> Z.lor c (u16 (Z.shiftl a 8)) = c + u16 (Z.shiftl a 8).
Proof.
  intros Hc. rewrite Z.shiftl_mul_pow2 by lia. change (2 ^ 8) with 256. rewrite Z.lor_comm, Z.add_comm.
  apply (lor_aligned _ _ 8); unfold u16; change (2 ^ 8) with 256; Z.to_euclidean_division_equations; lia.
Qed.

Lemma tab_stop x : 0 <= x -> Z.land (x + 8) (Z.lnot (8 - 1)) = (x / 8 + 1) * 8.
Proof.
  intros. change (8 - 1) with (Z.ones 3). rewrite <- Z.ldiff_land, Z.ldiff_ones_r by lia.
  rewrite Z.shiftl_mul_pow2, Z.shiftr_div_pow2 by lia. change (2 ^ 3) with 8.
  replace (x + 8) with (x + 1 * 8) by lia. by rewrite Z.div_add by lia.
Qed.

Lemma blank_low a : Z.land (u16 (Z.lor 0 (Z.shiftl a 8))) 255 = 0.
Proof.
  change 255 with (2 ^ 8 - 1). rewrite land_low, Z.lor_0_l, Z.shiftl_mul_pow2 by lia.
  unfold u16. change (2 ^ 8) with 256. Z.to_euclidean_division_equations. lia.
Qed.

Section ScreenProofs.
Context {W : Type} `{!Ports W} (ctx : cpu_ctx).

Lemma wp_put_cell (s : screen) (w : W) i v Q :
  textmemptr s = VIDEO -> 0 <= i < Z.of_nat (length (textmem s)) ->
  Q tt (s_set_mem (<[Z.to_nat i := v]> (textmem s)) s, w) -> wp (put_cell i v) (s, w) Q.
Proof.
  intros Hp Hi HQ. unfold put_cell, get_s. wp_steps. simpl. rewrite Hp, Z.eqb_refl. simpl.
  wp_step. rewrite zset_Some by done. wp_step. unfold mod_s. by wp_steps.
Qed.

(** [put_char] is the reference terminal's step. *)
Lemma wp_put_char (s : screen) (w : W) c Q :
  textmemptr s = VIDEO -> cursor_ok (view_of s) -> 0 <= c < 256 ->
  (forall s', textmemptr s' = VIDEO -> attrib s' = attrib s -> screen_lock s' = screen_lock s ->
     view_of s' = tty_char (u16 (Z.shiftl (attrib s) 8)) c (view_of s) -> Q tt (s', w)) ->
  wp (put_char c) (s, w) Q.
Proof.
  intros Hp (Hl & Hx & Hy) Hc HQ. unfold put_char, get_s. wp_steps. simpl fst.
  unfold tty_char, view_of in HQ. simpl in Hl, Hx, Hy.
  destruct (Z.eqb_spec c 8).
  { destruct (Z.eqb_spec (csr_x s) 0) as [E|]; simpl; [wp_step; by apply HQ|].
    wp_step. apply wp_put_cell; [done|lia|]. unfold mod_s. wp_step. apply HQ; try done.
    unfold view_of. simpl. do 4 f_equal. lia. }
  destruct (Z.eqb_spec c 9).
  { unfold mod_s. wp_step. apply HQ; try done. unfold view_of. simpl textmem. simpl csr_x.
    simpl csr_y. rewrite tab_stop by lia. done. }
  destruct (Z.eqb_spec c 13); [unfold mod_s; wp_step; by apply HQ|].
  destruct (Z.eqb_spec c 10); [unfold mod_s; wp_step; by apply HQ|].
  rewrite Z.geb_leb. destruct (Z.leb_spec 32 c); [|wp_step; by apply HQ].
  wp_step. apply wp_put_cell; [done|lia|]. unfold mod_s. wp_step. apply HQ; try done.
  unfold view_of. simpl. by rewrite att_lor by lia.
Qed.

Lemma wp_scroll (s : screen) (w : W) Q :
  textmemptr s = VIDEO -> cursor_mid (view_of s) ->
  (forall s', textmemptr s' = VIDEO -> attrib s' = attrib s -> screen_lock s' = screen_lock s ->
     view_of s' = tty_scroll (view_of s) -> Q tt (s', w)) ->
  wp scroll (s, w) Q.
Proof.
  intros Hp (Hl & Hx & Hy & _) HQ. unfold scroll, get_s. wp_steps. simpl fst. simpl in Hl, Hx, Hy.
  unfold tty_scroll, view_of in HQ. rewrite Z.geb_leb.
  destruct (Z.leb_spec 25 (csr_y s)); [|wp_step; by apply HQ].
  assert (csr_y s = 25) as E by lia. rewrite E. change (u16 (25 - 25 + 1)) with 1.
  change (1 * 80) with 80. change ((25 - 1) * 80) with 1920.
  wp_step. unfold memcpy_cells, get_s. wp_steps. simpl fst. rewrite Hp, Hl. simpl negb. cbv iota.
  unfold mod_s. wp_step. wp_step. unfold memset_cells, get_s. wp_steps. simpl fst.
  cbn [textmemptr s_set_mem textmem]. rewrite Hp.
  assert (length (take (Z.to_nat 1920) (drop (Z.to_nat 80) (textmem s))
                  ++ drop (Z.to_nat 1920) (textmem s)) = 2000%nat) as Hl2
    by (rewrite length_app, length_take, !length_drop; lia).
  rewrite Hl2. simpl negb. cbv iota. unfold mod_s. wp_step. wp_step.
  apply HQ; try done. unfold view_of. cbn [textmem s_set_csr s_set_mem csr_x csr_y].
  f_equal. f_equal. rewrite take_app_le by (rewrite length_take, length_drop; lia).
  rewrite take_take, (drop_ge (take _ _ ++ _)) by (rewrite Hl2; lia). rewrite app_nil_r.
  rewrite (take_ge (drop _ _)) by (rewrite length_drop; lia).
  by rewrite blank_low.
Qed.

Lemma wp_move_csr (s : screen) (w : W) Q :
  cursor_ok (view_of s) -> Q tt (s, cursor_out (csr_y s * 80 + csr_x s) w) ->
  wp move_csr (s, w) Q.
Proof.
  intros (_ & Hx & Hy) HQ. simpl in Hx, Hy. unfold move_csr, get_s. wp_steps.
  unfold wp, on_snd, zoom, outb, mbind, M_bind. simpl fst. simpl snd. cbv beta zeta.
  rewrite u16_small by lia. unfold cursor_out in HQ.
  rewrite shiftr_div by lia. change (2 ^ 8) with 256.
  rewrite (u8_small (_ / 256)) by (Z.to_euclidean_division_equations; lia). exact HQ.
Qed.

(** [k_putch] between the lock operations. *)
Lemma wp_putch_body (s : screen) (w : W) c Q :
  textmemptr s = VIDEO -> cursor_ok (view_of s) -> 0 <= c < 256 ->
  (forall s', textmemptr s' = VIDEO -> attrib s' = attrib s -> screen_lock s' = screen_lock s ->
     view_of s' = tty (u16 (Z.shiftl (attrib s) 8)) c (view_of s) -> cursor_ok (view_of s') ->
     wp (on_lock ctx spin_unlock) (s', cursor_out (csr_y s' * 80 + csr_x s') w) Q) ->
  wp (put_char c ;; s ← get_s;
      when (csr_x s >=? 80) (mod_s (fun s => s_set_csr 0 (csr_y s + 1) s)) ;;
      scroll ;; move_csr ;; on_lock ctx spin_unlock) (s, w) Q.
Proof.
  intros Hp Hv Hc HQ. wp_step. apply wp_put_char; [done|done|done|].
  intros s2 Hp2 Ha2 Hk2 Hv2.
  pose proof (tty_char_mid (u16 (Z.shiftl (attrib s) 8)) c (view_of s) Hv) as Hm2.
  rewrite <- Hv2 in Hm2. wp_step. unfold get_s. wp_step. wp_step. simpl fst.
  set (s3 := if csr_x s2 >=? 80 then s_set_csr 0 (csr_y s2 + 1) s2 else s2).
  assert (view_of s3 = tty_wrap (view_of s2)) as Hv3.
  { unfold s3, tty_wrap, view_of. rewrite Z.geb_leb. by destruct (80 <=? csr_x s2). }
  eapply (wp_eq _ _ tt (s3, w)); [unfold s3; by destruct (csr_x s2 >=? 80)|]. cbv beta.
  assert (textmemptr s3 = VIDEO /\ attrib s3 = attrib s2 /\ screen_lock s3 = screen_lock s2)
    as (Hp3 & Ha3 & Hk3) by (unfold s3; destruct (csr_x s2 >=? 80); done).
  destruct (tty_wrap_mid _ Hm2) as [Hm3 _]. rewrite <- Hv3 in Hm3.
  wp_step. apply wp_scroll; [done|done|]. intros s4 Hp4 Ha4 Hk4 Hv4.
  assert (view_of s4 = tty (u16 (Z.shiftl (attrib s) 8)) c (view_of s)) as E
    by (unfold tty; by rewrite Hv4, Hv3, Hv2).
  pose proof (tty_ok (u16 (Z.shiftl (attrib s) 8)) c (view_of s) Hv) as Hok.
  rewrite <- E in Hok. wp_step. apply wp_move_csr; [done|]. apply HQ; (done || congruence).
Qed.

Lemma wp_k_putch (s : screen) (w : W) c :
  screen_wf s ->
  wp (k_putch ctx c) (s, w) (fun _ s' =>
    screen_wf (fst s') /\ attrib (fst s') = attrib s
    /\ view_of (fst s') = tty (u16 (Z.shiftl (attrib s) 8)) (u8 c) (view_of s)
    /\ snd s' = cursor_out (csr_y (fst s') * 80 + csr_x (fst s')) w).
Proof.
  intros [Hp Hv Hk]. unfold k_putch. wp_step.
  eapply wp_eq; [unfold on_lock, on_fst, zoom; simpl; by rewrite spin_lock_free|]. cbv beta.
  apply wp_putch_body; [done|done|apply u8_range|]. intros s' Hp' Ha' Hk' Hv' Hok.
  simpl in Hk'. unfold wp, on_lock, on_fst, zoom, spin_unlock, get, mbind, M_bind. simpl fst.
  unfold holding. simpl. rewrite Hk'. simpl. rewrite bool_decide_eq_true_2 by done. simpl.
  simpl in Ha'. split; [split; simpl; (done || congruence)|].
  split; [exact Ha'|]. split; [exact Hv'|done].
Qed.
End ScreenProofs.

(** ** Clearing *)

(** After [i] rows the first [80 * i] cells are zero. *)
Lemma wp_cls_loop {W} `{!Ports W} n i blank (s : screen) (w : W) Q :
  textmemptr s = VIDEO -> length (textmem s) = 2000%nat -> Z.land blank 255 = 0 ->
  (i + n = 25)%nat -> take (80 * i) (textmem s) = replicate (80 * i) 0 ->
  Q tt (s_set_mem (replicate 2000 0) s, w) ->
  wp (cls_loop n (Z.of_nat i) blank) (s, w) Q.
Proof.
  revert i s. induction n as [|n IH]; intros i s Hp Hl Hb Hn Ht HQ; cbn [cls_loop].
  - wp_step. replace (80 * i)%nat with 2000%nat in Ht by lia.
    rewrite take_ge in Ht by lia. destruct s as [p m a x y k]. simpl in *. by subst m.
  - wp_step. unfold memset_cells, get_s. wp_steps. simpl fst. rewrite Hp, Hb.
    destruct (Z.leb_spec 0 (Z.of_nat i * 80)); [|lia].
    destruct (Z.leb_spec (Z.of_nat i * 80 + 80) (Z.of_nat (length (textmem s)))); [|lia].
    simpl negb. cbv iota. unfold mod_s. wp_step. cbn [fst snd].
    change (Z.to_nat 80) with 80%nat. change (Z.lor (Z.shiftl 0 8) 0) with 0.
    replace (Z.to_nat (Z.of_nat i * 80)) with (80 * i)%nat by lia.
    replace (Z.to_nat (Z.of_nat i * 80 + 80)) with (80 * i + 80)%nat by lia.
    replace (Z.of_nat i + 1) with (Z.of_nat (S i)) by lia.
    apply IH; cbn [textmem textmemptr s_set_mem]; try done; try lia.
    + rewrite !length_app, length_take, length_replicate, length_drop. lia.
    + rewrite Ht, app_assoc, <- replicate_add.
      rewrite take_app_length' by (rewrite length_replicate; lia). f_equal. lia.
Qed.

Lemma sys_cls_clears {W} `{!Ports W} (s : screen) (w : W) :
  screen_wf s ->
  wp sys_cls (s, w) (fun _ s' =>
    textmem (fst s') = replicate 2000 0 /\ csr_x (fst s') = 0 /\ csr_y (fst s') = 0
    /\ attrib (fst s') = attrib s /\ screen_wf (fst s')).
Proof.
  intros [Hp Hv Hk]. unfold sys_cls, get_s. wp_step. wp_step. wp_step. cbn [fst].
  apply (wp_cls_loop 25 0); [done|apply Hv|apply blank_low|done|done|].
  wp_step. unfold mod_s. wp_step. cbn [fst snd]. apply wp_move_csr; [done|].
  cbn [fst]. split; [done|]. split; [done|]. split; [done|]. split; [done|].
  by split.
Qed.

Lemma sys_cls_ok {W} `{!Ports W} (s : screen) (w : W) : screen_wf s -> wp sys_cls (s, w) (fun _ s' => screen_wf (fst s')).
Proof. intros H. eapply wp_mono; [by apply sys_cls_clears|]. by intros u s' (_ & _ & _ & _ & ?). Qed.

(** ** Properties *)

(** C20: printing a string puts the screen in the state of the reference terminal
    after the same characters, whatever bytes they are: no access leaves the 2000
    cells, the cursor stays inside 80 by 25, lines wrap and scroll as the
    reference says, and the hardware cursor is last sent to where the software
    cursor is. *)
Theorem k_puts_refines_tty {W} `{!Ports W} ctx text (s : screen) (w : W) :
  screen_wf s -> text <> [] ->
  wp (k_puts ctx text) (s, w) (fun _ s' =>
    screen_wf (fst s') /\ attrib (fst s') = attrib s
    /\ view_of (fst s')
       = foldl (fun v c => tty (u16 (Z.shiftl (attrib s) 8)) (u8 c) v) (view_of s) text
    /\ exists w0, snd s' = cursor_out (csr_y (fst s') * 80 + csr_x (fst s')) w0).
Proof.
  intros Hs Hne. revert s w Hs. induction text as [|c text IH]; [done|]. intros s w Hs.
  cbn [k_puts]. wp_step. eapply wp_mono; [by apply wp_k_putch|].
  intros u [s1 w1] (Hs1 & Ha1 & Hv1 & Hw1). cbn [fst snd] in *. destruct text as [|c' text].
  - apply wp_ret. simpl. rewrite <- Hv1. eauto.
  - eapply wp_mono; [by apply (IH ltac:(done) s1 w1)|].
    intros u' [s2 w2] (Hs2 & Ha2 & Hv2 & Hw2). cbn [fst snd] in *.
    split; [done|]. split; [congruence|]. split; [|done]. rewrite Hv2, Ha1, Hv1. done.
Qed.

(** Clearing the screen leaves every cell zero and the cursor at the top
    left corner, whatever the text colour is: the blank that [sys_cls] and
    [scroll] build with the current attribute is cut to its low byte by
    [memset]. *)
Theorem sys_cls_ignores_colour {W} `{!Ports W} (s : screen) (w : W) :
  screen_wf s ->
  wp sys_cls (s, w) (fun _ s' =>
    textmem (fst s') = replicate 2000 0 /\ csr_x (fst s') = 0 /\ csr_y (fst s') = 0
    /\ attrib (fst s') = attrib s /\ screen_wf (fst s')).
Proof. apply sys_cls_clears. Qed.

Definition demo_screen : screen :=
  SCR VIDEO (replicate 2000 7) 0x0F 79 24 (mkSpinlock 0 "&screen_lock" None []).

Lemma demo_screen_wf : screen_wf demo_screen.
Proof. split; done. Qed.

Lemma k_puts_refines_tty_witness :
  wp (k_puts (mkCtx 0 0 ∅) [65; 10; 9]) (demo_screen, Bus ∅ [])
     (fun _ s' => csr_x (fst s') = 8 /\ csr_y (fst s') = 24).
Proof.
  eapply wp_mono; [apply (k_puts_refines_tty _ [65; 10; 9]); [apply demo_screen_wf|done]|].
  intros _ [s' w'] (_ & _ & Hv & _). cbn [fst].
  assert (forall v, view_of s' = v -> csr_x s' = v.1.2 /\ csr_y s' = v.2) as H by by intros v <-.
  apply H in Hv as [-> ->]. by vm_compute.
Defined.

Lemma sys_cls_ignores_colour_witness :
  wp sys_cls (demo_screen, Bus ∅ []) (fun _ s' => textmem (fst s') = replicate 2000 0).
Proof.
  eapply wp_mono; [apply (sys_cls_ignores_colour demo_screen (Bus ∅ [])), demo_screen_wf|].
  by intros _ s' [H _].
Defined.
