(* ===== verification/Kbd.v ===== *)
(** * The keyboard and the console buffer (kernel/kbd.c, inc/kbd.h)

    [kbd_proc_data] turns scan codes into characters; [cons_intr] and
    [cons_getc] are the two ends of the 512-byte ring buffer.  The keyboard
    controller is a [Ports] instance: how many bytes it will still deliver is the
    measure that bounds the loop of [cons_intr].  What a byte does is stated with a
    reference keyboard, whose modifiers are held keys and locks. *)

From S2P Require Import Prelude.
From S2P Require Import Machine.
From S2P Require Import Kmonad.
From S2P Require Import Ports.
From Stdlib Require Import ZArith Lia.
From stdpp Require Import base gmap list strings.

Local Open Scope Z_scope.

(** ** Constants and tables *)

Definition KEY_HOME : Z := 0xE0.
Definition KEY_END : Z := 0xE1.
Definition KEY_UP : Z := 0xE2.
Definition KEY_DN : Z := 0xE3.
Definition KEY_LF : Z := 0xE4.
Definition KEY_RT : Z := 0xE5.
Definition KEY_PGUP : Z := 0xE6.
Definition KEY_PGDN : Z := 0xE7.
Definition KEY_INS : Z := 0xE8.
Definition KEY_DEL : Z := 0xE9.
Definition KBSTATP : Z := 0x64.
Definition KBS_DIB : Z := 0x01.
Definition KBDATAP : Z := 0x60.

Definition NO : Z := 0.
Definition SHIFT : Z := Z.shiftl 1 0.
Definition CTL : Z := Z.shiftl 1 1.
Definition ALT : Z := Z.shiftl 1 2.
Definition CAPSLOCK : Z := Z.shiftl 1 3.
Definition NUMLOCK : Z := Z.shiftl 1 4.
Definition SCROLLLOCK : Z := Z.shiftl 1 5.

(** A 256-entry initialiser: the first entries in order, then the designated ones;
    the rest is 0. *)
Definition table (first : list Z) (designated : list (Z * Z)) : list Z :=
  foldl (fun t e => <[Z.to_nat (fst e) := u8 (snd e)]> t)
        ((u8 <$> first) ++ replicate (256 - length first) 0) designated.

Definition shiftcode : list Z :=
  table [] [(0x1D, CTL); (0x2A, SHIFT); (0x36, SHIFT); (0x38, ALT); (0x9D, CTL); (0xB8, ALT)].

Definition togglecode : list Z :=
  table [] [(0x3A, CAPSLOCK); (0x45, NUMLOCK); (0x46, SCROLLLOCK)].

(** The extended keys of [normalmap] and [shiftmap]. *)
Definition extended : list (Z * Z) :=
  [(0xC7, KEY_HOME); (0x9C, 10); (0xB5, 47); (0xC8, KEY_UP); (0xC9, KEY_PGUP); (0xCB, KEY_LF);
   (0xCD, KEY_RT); (0xCF, KEY_END); (0xD0, KEY_DN); (0xD1, KEY_PGDN); (0xD2, KEY_INS);
   (0xD3, KEY_DEL)].

Definition normalmap : list Z := table
  [NO; 0x1B; 49; 50; 51; 52; 53; 54;
   55; 56; 57; 48; 45; 61; 8; 9;
   113; 119; 101; 114; 116; 121; 117; 105;
   111; 112; 91; 93; 10; NO; 97; 115;
   100; 102; 103; 104; 106; 107; 108; 59;
   39; 96; NO; 92; 122; 120; 99; 118;
   98; 110; 109; 44; 46; 47; NO; 42;
   NO; 32; NO; NO; NO; NO; NO; NO;
   NO; NO; NO; NO; NO; NO; NO; 55;
   56; 57; 45; 52; 53; 54; 43; 49;
   50; 51; 48; 46; NO; NO; NO; NO] extended.

Definition shiftmap : list Z := table
  [NO; 27; 33; 64; 35; 36; 37; 94;
   38; 42; 40; 41; 95; 43; 8; 9;
   81; 87; 69; 82; 84; 89; 85; 73;
   79; 80; 123; 125; 10; NO; 65; 83;
   68; 70; 71; 72; 74; 75; 76; 58;
   34; 126; NO; 124; 90; 88; 67; 86;
   66; 78; 77; 60; 62; 63; NO; 42;
   NO; 32; NO; NO; NO; NO; NO; NO;
   NO; NO; NO; NO; NO; NO; NO; 55;
   56; 57; 45; 52; 53; 54; 43; 49;
   50; 51; 48; 46; NO; NO; NO; NO] extended.

(** [C(x)], control keys. *)
Definition C (x : Z) : Z := x - 64.

Definition ctlmap : list Z := table
  [NO; NO; NO; NO; NO; NO; NO; NO;
   NO; NO; NO; NO; NO; NO; NO; NO;
   C 81; C 87; C 69; C 82; C 84; C 89; C 85; C 73;
   C 79; C 80; NO; NO; 13; NO; C 65; C 83;
   C 68; C 70; C 71; C 72; C 74; C 75; C 76; NO;
   NO; NO; NO; C 92; C 90; C 88; C 67; C 86;
   C 66; C 78; C 77; NO; NO; C 47; NO; NO]
  [(0x97, KEY_HOME); (0xB5, C 47); (0xC8, KEY_UP); (0xC9, KEY_PGUP); (0xCB, KEY_LF);
   (0xCD, KEY_RT); (0xCF, KEY_END); (0xD0, KEY_DN); (0xD1, KEY_PGDN); (0xD2, KEY_INS);
   (0xD3, KEY_DEL)].

Definition charcode : list (list Z) := [normalmap; shiftmap; ctlmap; ctlmap].

Definition tab_get (t : list Z) (i : Z) : Z := default 0 (zget t i).

(** ** State *)

Definition CONSBUFSIZE : Z := 512.

(** The static [shift] of [kbd_proc_data], the ring buffer [cons] and the
    messages printed. *)
Record kbd := KBD { shift : Z; buf : list Z; rpos : Z; wpos : Z; kbd_log : list string }.

Definition kbd0 : kbd := KBD 0 (replicate 512 0) 0 0 [].

(** ** Decoding *)

(** The effect of scan code [data] on [shift]. *)
Definition shift_update (sh data : Z) : Z :=
  Z.lxor (Z.lor sh (tab_get shiftcode data)) (tab_get togglecode data).

(** Caps Lock exchanges upper and lower case. *)
Definition caps (sh c : Z) : Z :=
  if truth (Z.land sh CAPSLOCK) then
    if (97 <=? c) && (c <=? 122) then c + (65 - 97)
    else if (65 <=? c) && (c <=? 90) then c + (97 - 65)
    else c
  else c.

(** The character of scan code [data] under the modifiers [sh]. *)
Definition decode (sh data : Z) : Z :=
  caps sh (tab_get (default [] (zget charcode (Z.land sh (Z.lor CTL SHIFT)))) data).

Section Keyboard.
  Context {W : Type} `{!Ports W}.

Definition get_k : M (kbd * W) kbd := gets fst.
Definition mod_k (f : kbd -> kbd) : M (kbd * W) unit := modify (fun s => (f (fst s), snd s)).
Definition set_shift v k := KBD v (buf k) (rpos k) (wpos k) (kbd_log k).

(** The last part of [kbd_proc_data], for a key press.  An index outside a table is
    a fault. *)
Definition kbd_press (data : Z) : M (kbd * W) Z :=
  k ← get_k;
  a ← need (zget shiftcode data) "shiftcode[]";
  b ← need (zget togglecode data) "togglecode[]";
  let sh := Z.lxor (Z.lor (shift k) a) b in
  _ ← mod_k (set_shift sh);
  t ← need (zget charcode (Z.land sh (Z.lor CTL SHIFT))) "charcode[]";
  x ← need (zget t data) "charcode[][]";
  let c := caps sh x in
  _ ← when (negb (truth (Z.land (lnot32 sh) (Z.lor CTL ALT))) && (c =? KEY_DEL))
        (mod_k (fun k => KBD (shift k) (buf k) (rpos k) (wpos k) ("Rebooting!"%string :: kbd_log k)) ;;
         on_snd (outb 0x92 0x3));
  mret c.

Definition kbd_proc_data : M (kbd * W) Z :=
  st ← on_snd (inb KBSTATP);
  if (Z.land st KBS_DIB =? 0) then mret (-1)
  else
    data ← on_snd (inb KBDATAP);
    if (data =? 0xE0) then
      data ← on_snd (inb KBDATAP);
      if truth (Z.land data 0x80) then mret 0
      else kbd_press (Z.lor data 0x80)
    else if truth (Z.land data 0x80) then
      let data := Z.land data 0x7F in
      a ← need (zget shiftcode data) "shiftcode[]";
      _ ← mod_k (fun k => set_shift (Z.land (shift k) (lnot32 a)) k);
      mret 0
    else kbd_press data.

(** ** The ring buffer *)

Definition wrap_pos (p : Z) : Z := if (p =? CONSBUFSIZE) then 0 else p.

(** [cons.buf[cons.wpos++] = c; if (cons.wpos == CONSBUFSIZE) cons.wpos = 0]. *)
Definition cons_put (c : Z) : M (kbd * W) unit :=
  k ← get_k;
  b ← need (zset (buf k) (wpos k) (u8 c)) "cons.buf[]";
  mod_k (fun k => KBD (shift k) b (rpos k) (wrap_pos (u32 (wpos k + 1))) (kbd_log k)).

(** [cons_intr(kbd_proc_data)]; [fuel] bounds the turns of the loop. *)
Fixpoint cons_intr (fuel : nat) : M (kbd * W) unit :=
  match fuel with
  | O => hang "cons_intr: out of fuel"
  | S fuel' =>
      c ← kbd_proc_data;
      if (c =? -1) then mret tt
      else if (c =? 0) then cons_intr fuel'
      else cons_put c
  end.

Definition cons_getc : M (kbd * W) Z :=
  k ← get_k;
  if negb (rpos k =? wpos k) then
    c ← need (zget (buf k) (rpos k)) "cons.buf[]";
    _ ← mod_k (fun k => KBD (shift k) (buf k) (wrap_pos (u32 (rpos k + 1))) (wpos k) (kbd_log k));
    mret c
  else mret 0.

Definition kbd_intr (fuel : nat) : M (kbd * W) unit := cons_intr fuel.

Definition k_getc : M (kbd * W) Z := cons_getc.
End Keyboard.

(** ** The ring buffer as a queue *)

(** The buffer holds [q], oldest first. *)
Record ring (k : kbd) (q : list Z) : Prop := {
  ri_buf : length (buf k) = 512%nat;
  ri_rpos : 0 <= rpos k < 512;
  ri_wpos : 0 <= wpos k < 512;
  ri_len : Z.of_nat (length q) = (wpos k - rpos k) mod 512;
  ri_get : forall i, (i < length q)%nat ->
             zget (buf k) ((rpos k + Z.of_nat i) mod 512) = q !! i
}.

(** A queue of capacity 511: one more byte empties it, because the two positions
    meet. *)
Definition q_put (c : Z) (q : list Z) : list Z :=
  if decide (length q = 511%nat) then [] else q ++ [u8 c].
Definition q_get (q : list Z) : Z * list Z :=
  match q with [] => (0, []) | c :: q' => (c, q') end.

Lemma wrap_pos_mod p : 0 <= p < 512 -> wrap_pos (u32 (p + 1)) = (p + 1) mod 512.
Proof.
  intros. unfold wrap_pos, CONSBUFSIZE. rewrite u32_small by lia.
  destruct (Z.eqb_spec (p + 1) 512) as [->|]; [done|]. by rewrite Z.mod_small by lia.
Qed.

Section RingProofs.
Context {W : Type} `{!Ports W}.

Lemma wp_cons_put (k : kbd) (w : W) q c :
  ring k q ->
  wp (cons_put c) (k, w) (fun _ s' => ring (fst s') (q_put c q) /\ snd s' = w
                                      /\ shift (fst s') = shift k).
Proof.
  intros [Hb Hr Hw Hl Hg]. unfold cons_put, get_k. wp_steps. cbn [fst].
  rewrite zset_Some by lia. wp_step. unfold mod_k. wp_step. cbn [fst snd].
  split; [|done]. rewrite wrap_pos_mod by lia.
  unfold q_put. destruct (decide (length q = 511%nat)) as [E|E].
  - split; simpl; try done.
    + by rewrite length_insert.
    + apply Z.mod_pos_bound. lia.
    + rewrite E in Hl. rewrite Zminus_mod_idemp_l. Z.to_euclidean_division_equations. lia.
    + intros i Hi. simpl in Hi. lia.
  - split; simpl; try done.
    + by rewrite length_insert.
    + apply Z.mod_pos_bound. lia.
    + rewrite length_app. simpl. rewrite Zminus_mod_idemp_l.
      Z.to_euclidean_division_equations. lia.
    + intros i Hi. rewrite length_app in Hi. simpl in Hi.
      destruct (decide (i = length q)) as [->|Hne].
      * rewrite list_lookup_middle by done.
        replace ((rpos k + Z.of_nat (length q)) mod 512) with (wpos k)
          by (rewrite Hl, Zplus_mod_idemp_r; replace (rpos k + (wpos k - rpos k)) with (wpos k) by lia;
              by rewrite Z.mod_small).
        apply (zget_zset_eq (buf k)). apply zset_Some. lia.
      * rewrite lookup_app_l by lia. rewrite <- Hg by lia.
        apply (zget_zset_ne (buf k) _ (wpos k) _ (u8 c)); [apply zset_Some; lia|].
        Z.to_euclidean_division_equations. lia.
Qed.

Lemma wp_cons_getc (k : kbd) (w : W) q :
  ring k q ->
  wp cons_getc (k, w) (fun c s' => c = fst (q_get q) /\ ring (fst s') (snd (q_get q))
                                   /\ snd s' = w /\ shift (fst s') = shift k).
Proof.
  intros R. pose proof R as [Hb Hr Hw Hl Hg]. unfold cons_getc, get_k. wp_steps. cbn [fst].
  destruct q as [|c q].
  - assert (rpos k = wpos k) as -> by (simpl in Hl; Z.to_euclidean_division_equations; lia).
    rewrite Z.eqb_refl. simpl. wp_step. done.
  - simpl in Hl. destruct (Z.eqb_spec (rpos k) (wpos k)) as [E|E].
    { rewrite E, Z.sub_diag in Hl. change (0 mod 512) with 0 in Hl. lia. }
    simpl negb. cbv iota.
    assert (zget (buf k) (rpos k) = Some c) as Hc.
    { specialize (Hg 0%nat ltac:(simpl; lia)). simpl in Hg.
      rewrite Z.add_0_r, Z.mod_small in Hg by lia. done. }
    wp_step. rewrite Hc. wp_step. unfold mod_k. wp_step. wp_step. wp_step. cbn [fst snd q_get].
    split; [done|]. split; [|done]. rewrite wrap_pos_mod by lia. split; simpl; try done.
    + apply Z.mod_pos_bound. lia.
    + rewrite Zminus_mod_idemp_r. Z.to_euclidean_division_equations. lia.
    + intros i Hi. specialize (Hg (S i) ltac:(simpl; lia)). simpl in Hg. rewrite <- Hg.
      rewrite Zplus_mod_idemp_l. do 2 f_equal. lia.
Qed.
End RingProofs.

(** Operations on the buffer, in the order the interrupts and the readers do
    them. *)
Inductive ring_op := Put (c : Z) | Get.

Fixpoint run_ring {W} (ops : list ring_op) : M (kbd * W) (list Z) :=
  match ops with
  | [] => mret []
  | Put c :: ops' => cons_put c ;; run_ring ops'
  | Get :: ops' => c ← cons_getc; cs ← run_ring ops'; mret (c :: cs)
  end.

Fixpoint run_queue (ops : list ring_op) (q : list Z) : list Z * list Z :=
  match ops with
  | [] => ([], q)
  | Put c :: ops' => run_queue ops' (q_put c q)
  | Get :: ops' =>
      let '(c, q') := q_get q in
      let '(cs, q'') := run_queue ops' q' in (c :: cs, q'')
  end.

(** ** Keyboard controllers *)

(** What the driver relies on: the status port says truly whether a byte is
    waiting and reading it changes nothing the driver waits for; a read of the
    data port takes at least one byte from what the controller will deliver. *)
Class KbdLaws (W : Type) `{!Ports W} := {
  kb_pending : W -> nat;
  kb_status : forall w, kb_pending (snd (port_in KBSTATP w)) = kb_pending w
    /\ (Z.land (u8 (fst (port_in KBSTATP w))) KBS_DIB <> 0 -> (0 < kb_pending w)%nat);
  kb_data : forall w, (kb_pending (snd (port_in KBDATAP w)) <= pred (kb_pending w))%nat
}.

(** A controller with the given bytes waiting. *)
Record kbdc := Kbdc { kb_bytes : list Z; kb_writes : list (Z * Z) }.

#[global] Instance kbdc_ports : Ports kbdc := {|
  port_in p w :=
    if (p =? KBSTATP) then (match kb_bytes w with [] => 0 | _ => 1 end, w)
    else if (p =? KBDATAP) then
      match kb_bytes w with
      | [] => (0, w)
      | b :: l => (b, Kbdc l (kb_writes w))
      end
    else (0, w);
  port_out p v w := Kbdc (kb_bytes w) ((p, v) :: kb_writes w)
|}.

#[global] Program Instance kbdc_laws : KbdLaws kbdc :=
  {| kb_pending w := length (kb_bytes w) |}.
Next Obligation. intros [[|b l] o]; simpl; (split; [done|]); [done|lia]. Qed.
Next Obligation. intros [[|b l] o]; simpl; lia. Qed.

(** The buffer and its positions are the same. *)
Definition same_ring (k k' : kbd) : Prop := buf k' = buf k /\ rpos k' = rpos k /\ wpos k' = wpos k.

Lemma ring_same k k' q : same_ring k k' -> ring k q -> ring k' q.
Proof. intros (E1 & E2 & E3) []. by split; rewrite ?E1, ?E2, ?E3. Qed.

(** *** The tables *)

Lemma tab_read t i : length t = 256%nat -> 0 <= i < 256 -> zget t i = Some (tab_get t i).
Proof. intros Ht Hi. unfold tab_get. destruct (zget_is_Some t i) as [x ->]; [lia|done]. Qed.

Lemma low_two sh : 0 <= Z.land sh (Z.lor CTL SHIFT) < 4.
Proof. change (Z.lor CTL SHIFT) with (Z.ones 2). rewrite Z.land_ones by lia. apply Z.mod_pos_bound. lia. Qed.

Lemma charcode_read sh data : 0 <= data < 256 ->
  exists t, zget charcode (Z.land sh (Z.lor CTL SHIFT)) = Some t /\ zget t data = Some (tab_get t data)
    /\ caps sh (tab_get t data) = decode sh data.
Proof.
  intros Hd. pose proof (low_two sh) as Hs. unfold decode.
  destruct (zget_is_Some charcode (Z.land sh (Z.lor CTL SHIFT))) as [t Ht]; [simpl; lia|]. exists t. rewrite Ht.
  split; [done|]. split; [|done]. apply tab_read; [|done].
  assert (Forall (fun t => length t = 256%nat) charcode) as H by (by repeat constructor).
  rewrite Forall_forall in H. apply H. unfold zget in Ht. destruct (0 <=? _); [|done]. by eapply list_elem_of_lookup_2.
Qed.

Lemma high_byte b : 0 <= b < 256 -> 0 <= Z.lor b 0x80 < 256.
Proof.
  intros Hb. split; [apply Z.lor_nonneg; lia|]. change 256 with (2 ^ 8).
  destruct (Z.eq_dec b 0) as [->|]; [by vm_compute|]. apply Z.log2_lt_cancel. rewrite Z.log2_lor by lia.
  change (Z.log2 (2 ^ 8)) with 8. apply Z.max_lub_lt; [|by vm_compute]. apply Z.log2_lt_pow2; lia.
Qed.

Lemma low_byte b : 0 <= Z.land b 0x7F < 256.
Proof. change 0x7F with (Z.ones 7). rewrite Z.land_ones by lia. pose proof (Z.mod_pos_bound b (2 ^ 7)). lia. Qed.

(** The rest of a key press, once the tables have been read. *)
Lemma wp_press_reads {W} `{!Ports W} data (k : kbd) (w : W) (Q : Z -> kbd * W -> Prop) :
  0 <= data < 256 ->
  (let sh := shift_update (shift k) data in let c := decode sh data in
   wp (_ ← when (negb (truth (Z.land (lnot32 sh) (Z.lor CTL ALT))) && (c =? KEY_DEL))
        (mod_k (fun k => KBD (shift k) (buf k) (rpos k) (wpos k) ("Rebooting!"%string :: kbd_log k)) ;;
         on_snd (outb 0x92 0x3));
      mret c) (set_shift sh k, w) Q) -> wp (kbd_press data) (k, w) Q.
Proof.
  intros Hd H. unfold kbd_press, get_k. wp_step. wp_step. wp_step. eapply wp_need; [by apply tab_read|].
  wp_step. eapply wp_need; [by apply tab_read|]. cbv zeta. wp_step. unfold mod_k at 1. wp_step. cbn [fst snd].
  destruct (charcode_read (shift_update (shift k) data) data Hd) as (t & Ht & Hx & Hc).
  wp_step. eapply wp_need; [exact Ht|]. wp_step. eapply wp_need; [exact Hx|]. cbv zeta in H. fold (shift_update (shift k) data).
  rewrite Hc. exact H.
Qed.

Section Loop.
Context {W : Type} `{!Ports W} `{!KbdLaws W}.

(** A key press touches the hardware only to reboot. *)
Lemma wp_kbd_press data (k : kbd) (w : W) :
  0 <= data < 256 ->
  wp (kbd_press data) (k, w) (fun c s' =>
    c = decode (shift_update (shift k) data) data /\ same_ring k (fst s')
    /\ shift (fst s') = shift_update (shift k) data
    /\ (c <> KEY_DEL -> s' = (set_shift (shift_update (shift k) data) k, w))).
Proof.
  intros Hd. apply wp_press_reads; [done|]. cbv zeta. unfold mod_k.
  destruct (Z.eqb_spec (decode (shift_update (shift k) data) data) KEY_DEL) as [E|E].
  - destruct (negb _); cbn [andb when]; [|by wp_steps]. wp_step. wp_step.
    unfold wp, on_snd, zoom, outb. simpl. split; [done|]. split; [done|]. split; [done|]. by intros [].
  - rewrite andb_false_r. cbn [when]. by wp_steps.
Qed.

(** One call finds nothing, finds a character, or takes at least one byte. *)
Lemma kbd_proc_data_progress (k : kbd) (w : W) :
  wp kbd_proc_data (k, w) (fun c s' => same_ring k (fst s') /\
    (c = -1 \/ c <> 0 \/ (kb_pending (snd s') < kb_pending w)%nat)).
Proof.
  assert (forall data w', 0 <= data < 256 -> (kb_pending w' < kb_pending w)%nat ->
            wp (kbd_press data) (k, w') (fun c s' => same_ring k (fst s') /\
              (c = -1 \/ c <> 0 \/ (kb_pending (snd s') < kb_pending w)%nat))) as Hpress.
  { intros data w' Hd Hlt. eapply wp_mono; [by apply wp_kbd_press|].
    intros c s' (_ & Hr & _ & H). split; [done|]. destruct (Z.eq_dec c 0) as [->|]; [|by auto].
    rewrite H by done. auto. }
  unfold kbd_proc_data. wp_step. unfold wp at 1, on_snd, zoom, inb. cbn [snd].
  destruct (kb_status w) as [Hs Hp].
  destruct (port_in KBSTATP w) as [st w1]. cbn [fst snd] in *.
  destruct (Z.eqb_spec (Z.land (u8 st) KBS_DIB) 0) as [|Hne]; [wp_step; split; [done|by left]|].
  specialize (Hp Hne). wp_step. unfold wp at 1. cbn [snd].
  pose proof (kb_data w1) as H1. destruct (port_in KBDATAP w1) as [b w2]. cbn [fst snd] in *.
  destruct (u8 b =? 0xE0).
  - wp_step. unfold wp at 1. cbn [snd]. pose proof (kb_data w2) as H2.
    destruct (port_in KBDATAP w2) as [b2 w3]. cbn [fst snd] in *.
    destruct (truth _); [wp_step; cbn [snd]; split; [done|lia]|]. apply Hpress; [apply high_byte, u8_range|lia].
  - destruct (truth _); [|apply Hpress; [apply u8_range|lia] ]. cbv zeta. wp_step.
    eapply wp_need; [apply tab_read; [done|apply low_byte]|]. unfold mod_k. wp_steps. cbn [snd]. split; [done|lia].
Qed.

Lemma wp_cons_intr fuel (k : kbd) (w : W) q :
  ring k q -> (kb_pending w < fuel)%nat ->
  wp (cons_intr fuel) (k, w) (fun _ s' =>
    ring (fst s') q \/ exists c, c <> 0 /\ ring (fst s') (q_put c q)).
Proof.
  revert k w. induction fuel as [|fuel IH]; intros k w R Hf; [lia|].
  cbn [cons_intr]. wp_step. eapply wp_mono; [apply kbd_proc_data_progress|].
  intros c [k1 w1] (Hr & H). cbn [fst snd] in *.
  pose proof (ring_same _ _ _ Hr R) as R1.
  destruct (Z.eqb_spec c (-1)); [wp_step; by left|].
  destruct (Z.eqb_spec c 0) as [->|].
  - apply IH; [done|]. destruct H as [?|[?|?]]; [done|done|lia].
  - eapply wp_mono; [by apply wp_cons_put|]. intros u s' (R' & _). right. eauto.
Qed.
End Loop.

(** ** Properties *)

(** C21: the console buffer is a first-in first-out queue.  For any order of
    stores by the keyboard interrupt and reads by [cons_getc], the characters
    read are those of a queue of capacity 511, and 0 when it is empty; storing a
    512th unread character loses all of them (the write position meets the read
    position, which means empty). *)
Theorem cons_buffer_is_queue {W} `{!Ports W} ops (k : kbd) (w : W) q :
  ring k q ->
  wp (run_ring ops) (k, w) (fun cs s' =>
    cs = fst (run_queue ops q) /\ ring (fst s') (snd (run_queue ops q)) /\ snd s' = w).
Proof.
  revert k q. induction ops as [|[c|] ops IH]; intros k q R; cbn [run_ring run_queue].
  - by wp_step.
  - wp_step. eapply wp_mono; [by apply wp_cons_put|].
    intros u [k1 w1] (R1 & Hw & _). cbn [fst snd] in *. subst w1. by apply IH.
  - wp_step. eapply wp_mono; [by apply (wp_cons_getc k w q)|].
    intros c [k1 w1] (-> & R1 & Hw & _). cbn [fst snd] in *. subst w1.
    destruct (q_get q) as [c q1]. cbn [fst snd] in *. wp_step.
    eapply wp_mono; [by apply IH|]. intros cs [k2 w2] (-> & R2 & Hw2). wp_step.
    by destruct (run_queue ops q1).
Qed.

(** The interrupt handler terminates on a keyboard controller that keeps its
    contract: with more fuel than there are bytes to come, [kbd_intr] returns,
    having stored at most one character. *)
Theorem kbd_intr_terminates {W} `{!Ports W} `{!KbdLaws W} fuel (k : kbd) (w : W) q :
  ring k q -> (kb_pending w < fuel)%nat ->
  wp (kbd_intr fuel) (k, w) (fun _ s' =>
    ring (fst s') q \/ exists c, c <> 0 /\ ring (fst s') (q_put c q)).
Proof. apply wp_cons_intr. Qed.

(** The scan codes of the letter keys. *)
Definition letter_keys : list Z :=
  seqZ 16 10 ++ seqZ 30 9 ++ seqZ 44 7.

(** Letters follow Shift and Caps Lock: a letter key gives the lower case
    letter, the upper case letter when exactly one of the two is on, and the
    control character with Ctrl. *)
Theorem decode_letters sc :
  sc ∈ letter_keys ->
  let lower := decode 0 sc in
  97 <= lower <= 122
  /\ decode SHIFT sc = lower - 32
  /\ decode CAPSLOCK sc = lower - 32
  /\ decode (Z.lor SHIFT CAPSLOCK) sc = lower
  /\ decode CTL sc = lower - 96.
Proof.
  intros Hin. cbv zeta.
  assert (forallb (fun sc => let lower := decode 0 sc in
    (97 <=? lower) && (lower <=? 122) && (decode SHIFT sc =? lower - 32)
    && (decode CAPSLOCK sc =? lower - 32) && (decode (Z.lor SHIFT CAPSLOCK) sc =? lower)
    && (decode CTL sc =? lower - 96)) letter_keys = true) as H by by vm_compute.
  rewrite forallb_forall in H. specialize (H sc (proj1 (list_elem_of_In _ _) Hin)).
  cbv zeta in H. rewrite !andb_true_iff, !Z.eqb_eq, !Z.leb_le in H. tauto.
Qed.

(** ** Ranges *)

(** An entry of a table of bytes, and of the tables of modifiers. *)
Lemma tab_get_Forall (P : Z -> Prop) t i : Forall P t -> P 0 -> P (tab_get t i).
Proof.
  intros Ht H0. unfold tab_get. destruct (zget t i) as [x|] eqn:E; [|done]. simpl.
  unfold zget in E. destruct (0 <=? i); [|done]. by eapply Forall_lookup_1.
Qed.

Lemma shiftcode_values i : tab_get shiftcode i ∈ [0; SHIFT; CTL; ALT].
Proof. apply (tab_get_Forall (fun x => x ∈ [0; SHIFT; CTL; ALT])); [|by left]. apply (bool_decide_unpack _). by vm_compute. Qed.
Lemma togglecode_values i : tab_get togglecode i ∈ [0; CAPSLOCK; NUMLOCK; SCROLLLOCK].
Proof.
  apply (tab_get_Forall (fun x => x ∈ [0; CAPSLOCK; NUMLOCK; SCROLLLOCK])); [|by left].
  apply (bool_decide_unpack _). by vm_compute.
Qed.

(** Six modifier bits. *)
Lemma mods_range (P : Z -> Prop) `{!forall x, Decision (P x)} sh :
  bool_decide (Forall P (seqZ 0 64)) = true -> 0 <= sh < 64 -> P sh.
Proof. intros HF%bool_decide_eq_true Hs. rewrite Forall_forall in HF. apply HF. apply elem_of_seqZ. lia. Qed.

Lemma shift_update_range sh data : 0 <= sh < 64 -> 0 <= shift_update sh data < 64.
Proof.
  intros Hs. unfold shift_update.
  pose proof (shiftcode_values data) as Ha. pose proof (togglecode_values data) as Hb.
  revert Hb. generalize (tab_get togglecode data). revert Ha. generalize (tab_get shiftcode data).
  intros a Ha b Hb. apply (mods_range (fun sh => 0 <= Z.lxor (Z.lor sh a) b < 64)); [|done].
  rewrite !elem_of_cons, elem_of_nil in Ha, Hb. by destruct_or! Ha; destruct_or! Hb; subst; vm_compute.
Qed.

Lemma shift_release_range sh data : 0 <= sh < 64 -> 0 <= Z.land sh (lnot32 (tab_get shiftcode data)) < 64.
Proof.
  intros Hs. pose proof (shiftcode_values data) as Ha. revert Ha. generalize (tab_get shiftcode data).
  intros a Ha. apply (mods_range (fun sh => 0 <= Z.land sh (lnot32 a) < 64)); [|done].
  rewrite !elem_of_cons, elem_of_nil in Ha. by destruct_or! Ha; subst; vm_compute.
Qed.
(** Every table entry is a byte. *)
Lemma charcode_byte t i : t ∈ charcode -> 0 <= tab_get t i < 256.
Proof.
  intros Ht. apply (tab_get_Forall (fun x => 0 <= x < 256)); [|lia].
  assert (Forall (Forall (fun x => 0 <= x < 256)) charcode) as H by (apply (bool_decide_unpack _); by vm_compute).
  rewrite Forall_forall in H. by apply H.
Qed.

Lemma decode_range sh data : 0 <= sh < 64 -> 0 <= decode sh data < 256.
Proof.
  intros Hs. assert (exists t, zget charcode (Z.land sh (Z.lor CTL SHIFT)) = Some t) as [t Ht].
  { apply zget_is_Some. apply (mods_range (fun sh => 0 <= Z.land sh (Z.lor CTL SHIFT) < Z.of_nat (length charcode)));
      [|done]. by vm_compute. }
  unfold decode. rewrite Ht. cbn [default from_option id]. unfold caps.
  assert (t ∈ charcode) as Hin.
  { unfold zget in Ht. destruct (0 <=? _); [|done]. by eapply list_elem_of_lookup_2. }
  pose proof (charcode_byte t data Hin) as Hb. destruct (truth _); [|lia].
  destruct (Z.leb_spec 97 (tab_get t data)); destruct (Z.leb_spec (tab_get t data) 122); simpl; [lia|..];
    destruct (Z.leb_spec 65 (tab_get t data)); destruct (Z.leb_spec (tab_get t data) 90); simpl; lia.
Qed.

(** ** Key events *)

(** Key [key_code] of the keyboard; [key_ext] for the keys with an 0xE0 prefix. *)
Record key := Key { key_ext : bool; key_code : Z }.
Inductive key_event := Press (k : key) | Release (k : key).

Definition event_key (e : key_event) : key := match e with Press k | Release k => k end.

(** The code 0x60 would make its release the prefix itself; no keyboard has it. *)
Definition key_ok (k : key) : Prop := 0 <= key_code k < 128 /\ key_code k <> 0x60.

(** The bytes the keyboard sends. *)
Definition encode (e : key_event) : list Z :=
  (if key_ext (event_key e) then [0xE0] else [])
  ++ [match e with Press k => key_code k | Release k => key_code k + 128 end].

(** Where the tables have the key. *)
Definition index (k : key) : Z := if key_ext k then key_code k + 128 else key_code k.

(** ** Keyboard controllers, by the bytes they deliver *)

Class KbdBytes (W : Type) `{!Ports W} := {
  kb_wait : W -> list Z;
  kb_byte : forall w b, b ∈ kb_wait w -> 0 <= b < 256;
  kb_state : forall w, let '(st, w') := port_in KBSTATP w in
    kb_wait w' = kb_wait w /\ (Z.land (u8 st) KBS_DIB = 0 <-> kb_wait w = []);
  kb_read : forall w b l, kb_wait w = b :: l -> exists v w', port_in KBDATAP w = (v, w') /\ u8 v = b /\ kb_wait w' = l;
  kb_reset : forall w v, kb_wait (port_out 0x92 v w) = kb_wait w
}.

(** A fact about all key codes. *)
Lemma code_range (P : Z -> Prop) `{!forall x, Decision (P x)} c :
  bool_decide (Forall (fun c => c = 0x60 \/ P c) (seqZ 0 128)) = true -> 0 <= c < 128 -> c <> 0x60 -> P c.
Proof.
  intros HF%bool_decide_eq_true Hc Hne. rewrite Forall_forall in HF. destruct (HF c); [apply elem_of_seqZ; lia|done|done].
Qed.

Lemma press_byte c : 0 <= c < 128 -> c <> 0x60 ->
  (c =? 0xE0) = false /\ truth (Z.land c 0x80) = false /\ Z.lor c 0x80 = c + 128.
Proof. by apply (code_range (fun c => (c =? 0xE0) = false /\ truth (Z.land c 0x80) = false /\ Z.lor c 0x80 = c + 128)). Qed.

Lemma release_byte c : 0 <= c < 128 -> c <> 0x60 ->
  (c + 128 =? 0xE0) = false /\ truth (Z.land (c + 128) 0x80) = true /\ Z.land (c + 128) 0x7F = c.
Proof. by apply (code_range (fun c => (c + 128 =? 0xE0) = false /\ truth (Z.land (c + 128) 0x80) = true /\ Z.land (c + 128) 0x7F = c)). Qed.

Lemma wp_press_key {W} `{!Ports W} `{!KbdBytes W} i (k : kbd) (w : W) :
  0 <= i < 256 ->
  wp (kbd_press i) (k, w) (fun c s' => (shift (fst s'), c) = (shift_update (shift k) i, decode (shift_update (shift k) i) i)
    /\ same_ring k (fst s') /\ kb_wait (snd s') = kb_wait w).
Proof.
  intros Hi. apply wp_press_reads; [done|]. cbv zeta. unfold mod_k. destruct (_ && _); cbn [when]; [|by wp_steps].
  wp_step. wp_step. unfold wp, on_snd, zoom, outb. cbn. split; [done|]. split; [done|]. apply kb_reset.
Qed.

(** ** A reference keyboard *)

(** The six modifiers, and where the driver keeps them. *)
Record mods := Mods { m_shift : bool; m_ctl : bool; m_alt : bool; m_caps : bool; m_num : bool; m_scroll : bool }.

Definition bits (m : mods) : Z :=
  Z.b2z (m_shift m) + 2 * Z.b2z (m_ctl m) + 4 * Z.b2z (m_alt m) + 8 * Z.b2z (m_caps m)
  + 16 * Z.b2z (m_num m) + 32 * Z.b2z (m_scroll m).

(** Holding a Shift, Ctrl or Alt key turns the modifier on, each press of a lock key
    turns its lock over; the right Ctrl and Alt keys are extended keys. *)
Definition press_key (i : Z) '(Mods a b c d e f : mods) : mods :=
  if (i =? 0x2A) || (i =? 0x36) then Mods true b c d e f
  else if (i =? 0x1D) || (i =? 0x80 + 0x1D) then Mods a true c d e f
  else if (i =? 0x38) || (i =? 0x80 + 0x38) then Mods a b true d e f
  else if i =? 0x3A then Mods a b c (negb d) e f
  else if i =? 0x45 then Mods a b c d (negb e) f
  else if i =? 0x46 then Mods a b c d e (negb f)
  else Mods a b c d e f.

Definition release_key (i : Z) '(Mods a b c d e f : mods) : mods :=
  if (i =? 0x2A) || (i =? 0x36) then Mods false b c d e f
  else if i =? 0x1D then Mods a false c d e f
  else if i =? 0x38 then Mods a b false d e f
  else Mods a b c d e f.

(** The character of a key: from the control map with Ctrl, whether Shift is held or
    not, else from the map of Shift or the plain one, a letter in the other case
    with Caps Lock. *)
Definition char_of (m : mods) (i : Z) : Z :=
  let c := tab_get (if m_ctl m then ctlmap else if m_shift m then shiftmap else normalmap) i in
  if negb (m_caps m) then c
  else if (97 <=? c) && (c <=? 122) then c - 32 else if (65 <=? c) && (c <=? 90) then c + 32 else c.

(** What one call of [kbd_proc_data] makes of a key event: the release of an extended
    key is dropped. *)
Definition key_step (m : mods) (e : key_event) : mods * Z :=
  match e with
  | Press k => let m' := press_key (index k) m in (m', char_of m' (index k))
  | Release k => (if key_ext k then m else release_key (key_code k) m, 0)
  end.

(** A fact about all bytes. *)
Lemma byte_range (P : Z -> Prop) `{!forall x, Decision (P x)} i :
  bool_decide (Forall P (seqZ 0 256)) = true -> 0 <= i < 256 -> P i.
Proof. intros HF%bool_decide_eq_true Hi. rewrite Forall_forall in HF. apply HF. apply elem_of_seqZ. lia. Qed.

Lemma press_bits m i : 0 <= i < 256 -> shift_update (bits m) i = bits (press_key i m).
Proof.
  apply (byte_range (fun i => shift_update (bits m) i = bits (press_key i m))).
  destruct m as [ [] [] [] [] [] [] ]; by vm_compute.
Qed.

Lemma char_bits m i : 0 <= i < 256 -> decode (bits m) i = char_of m i.
Proof.
  apply (byte_range (fun i => decode (bits m) i = char_of m i)).
  destruct m as [ [] [] [] [] [] [] ]; by vm_compute.
Qed.

Lemma release_bits m c : 0 <= c < 128 -> Z.land (bits m) (lnot32 (tab_get shiftcode c)) = bits (release_key c m).
Proof.
  intros Hc. apply (byte_range (fun c => c < 128 -> Z.land (bits m) (lnot32 (tab_get shiftcode c)) = bits (release_key c m)));
    [|lia|lia]. destruct m as [ [] [] [] [] [] [] ]; by vm_compute.
Qed.

Lemma wp_proc_none {W} `{!Ports W} `{!KbdBytes W} (k : kbd) (w : W) :
  kb_wait w = [] -> wp kbd_proc_data (k, w) (fun c s' => c = -1 /\ fst s' = k /\ kb_wait (snd s') = []).
Proof.
  intros Hw. unfold kbd_proc_data. wp_step. unfold wp at 1, on_snd, zoom, inb. cbn [snd]. pose proof (kb_state w) as H.
  destruct (port_in KBSTATP w) as [st w1]. destruct H as [H1 H]. cbn [fst].
  destruct (Z.eqb_spec (Z.land (u8 st) KBS_DIB) 0) as [_|Hne]; [|by destruct Hne; apply H]. wp_step. split; [done|]. split; [done|]. cbn [snd]. congruence.
Qed.

Lemma wp_proc_waits {W} `{!Ports W} `{!KbdBytes W} (k : kbd) (w : W) b l (Q : Z -> kbd * W -> Prop) :
  kb_wait w = b :: l ->
  (forall w', kb_wait w' = l -> wp (if (b =? 0xE0) then
      data ← on_snd (inb KBDATAP);
      if truth (Z.land data 0x80) then mret 0 else kbd_press (Z.lor data 0x80)
    else if truth (Z.land b 0x80) then
      let data := Z.land b 0x7F in
      a ← need (zget shiftcode data) "shiftcode[]";
      _ ← mod_k (fun k => set_shift (Z.land (shift k) (lnot32 a)) k);
      mret 0
    else kbd_press b) (k, w') Q) -> wp kbd_proc_data (k, w) Q.
Proof.
  intros Hw H. unfold kbd_proc_data. wp_step. unfold wp at 1, on_snd, zoom, inb. cbn [snd]. pose proof (kb_state w) as Hst.
  destruct (port_in KBSTATP w) as [st w1]. destruct Hst as [H1 H2]. cbn [fst].
  destruct (Z.eqb_spec (Z.land (u8 st) KBS_DIB) 0) as [E|_]; [apply H2 in E; congruence|].
  wp_step. unfold wp at 1. cbn [snd]. destruct (kb_read w1 b l) as (v & w2 & -> & -> & H3); [congruence|].
  cbn [fst snd]. by apply H.
Qed.

(** C35: One call of [kbd_proc_data], against a reference keyboard with six named
    modifiers.  With nothing waiting at the controller it returns -1 and changes
    nothing.  With the bytes of a key press or release waiting first, whatever the
    modifiers are, it takes exactly these bytes, no table is read outside its bounds,
    the modifiers are the reference's, the result is the character of a press under
    them or 0, and the console buffer is untouched.  The reference drops the release
    of an extended key, as the driver does, so that the right Ctrl and Alt keys stay
    on. *)
Theorem kbd_proc_data_reads_key {W} `{!Ports W} `{!KbdBytes W} (k : kbd) (w : W) m :
  shift k = bits m ->
  (kb_wait w = [] -> wp kbd_proc_data (k, w) (fun c s' => c = -1 /\ fst s' = k /\ kb_wait (snd s') = []))
  /\ forall e rest, key_ok (event_key e) -> kb_wait w = encode e ++ rest ->
       wp kbd_proc_data (k, w) (fun c s' => c = (key_step m e).2 /\ shift (fst s') = bits (key_step m e).1
         /\ same_ring k (fst s') /\ kb_wait (snd s') = rest).
Proof.
  intros Hm. split; [by apply wp_proc_none|]. intros e rest [Hc Hne] Hw.
  destruct e as [ [ext c]|[ext c] ]; unfold encode in Hw; cbn [event_key key_code key_ext key_step fst snd] in *.
  - destruct (press_byte c Hc Hne) as (P1 & P2 & P3).
    assert (forall i w', 0 <= i < 256 -> kb_wait w' = rest -> wp (kbd_press i) (k, w') (fun r s' =>
      r = char_of (press_key i m) i /\ shift (fst s') = bits (press_key i m) /\ same_ring k (fst s') /\ kb_wait (snd s') = rest)) as Hp.
    { intros i w' Hi Hw'. eapply wp_mono; [by apply wp_press_key|]. intros r s' (E & R & E'). injection E as E1 E2.
      rewrite E2, E1, Hm, press_bits, char_bits by done. split_and!; [done|done|done|congruence]. }
    unfold index. cbn [key_ext key_code]. destruct ext; cbn [app] in Hw; eapply wp_proc_waits; [exact Hw| |exact Hw|].
    + intros w1 Hw1. rewrite Z.eqb_refl. wp_step. unfold wp at 1, on_snd, zoom, inb. cbn [snd].
      destruct (kb_read w1 c rest Hw1) as (v & w2 & -> & -> & H3). cbn [fst snd]. rewrite P2, P3. apply Hp; [lia|done].
    + intros w1 Hw1. rewrite P1, P2. apply Hp; [lia|done].
  - destruct (release_byte c Hc Hne) as (P1 & P2 & P3). destruct ext; cbn [app] in Hw; eapply wp_proc_waits; [exact Hw| |exact Hw|].
    + intros w1 Hw1. rewrite Z.eqb_refl. wp_step. unfold wp at 1, on_snd, zoom, inb. cbn [snd].
      destruct (kb_read w1 _ rest Hw1) as (v & w2 & -> & -> & H3). cbn [fst snd]. rewrite P2. wp_step. done.
    + intros w1 Hw1. rewrite P1, P2, P3. cbv zeta. wp_step. eapply wp_need; [apply tab_read; [done|lia]|].
      unfold mod_k. wp_steps. cbn [fst snd shift set_shift]. rewrite Hm, release_bits by done. done.
Qed.

(** Pressing and releasing the right Ctrl key leaves Ctrl on.  The press
    (E0 1D) sets the modifier, the release (E0 9D) is dropped before the modifier
    is cleared, so the next letter comes out as a control character; the left
    Ctrl key (1D, then 9D) behaves. *)
Theorem right_ctrl_sticks (out : list (Z * Z)) :
  wp (kbd_proc_data ;; kbd_proc_data ;; kbd_proc_data)
     (kbd0, Kbdc [0xE0; 0x1D; 0xE0; 0x9D; 0x1E] out) (fun c _ => c = 1)
  /\ wp (kbd_proc_data ;; kbd_proc_data ;; kbd_proc_data)
       (kbd0, Kbdc [0x1D; 0x9D; 0x1E] out) (fun c _ => c = 97).
Proof. by vm_compute. Qed.

Lemma kbd0_ring : ring kbd0 [].
Proof. split; simpl; try done; lia. Qed.

#[global] Program Instance kbdc_bytes : KbdBytes kbdc := {| kb_wait w := u8 <$> kb_bytes w |}.
Next Obligation. intros w b (x & -> & _)%list_elem_of_fmap. apply u8_range. Qed.
Next Obligation. intros [ [|b l] o]; simpl; (split; [done|]); split; done. Qed.
Next Obligation. intros [ [|x l'] o] b l; simpl; [done|]. intros [= <- <-]. by exists x, (Kbdc l' o). Qed.
Next Obligation. done. Qed.

Lemma cons_buffer_is_queue_witness :
  wp (run_ring [Put 104; Put 105; Get; Get; Get]) (kbd0, Kbdc [] []) (fun cs _ => cs = [104; 105; 0]).
Proof.
  eapply wp_mono; [apply (cons_buffer_is_queue _ kbd0 (Kbdc [] []) [] kbd0_ring)|].
  by intros cs s' [-> _].
Defined.

Lemma kbd_intr_terminates_witness :
  wp (kbd_intr 3) (kbd0, Kbdc [0x2A; 0x1E] []) (fun _ s' =>
    ring (fst s') [] \/ exists c, c <> 0 /\ ring (fst s') (q_put c [])).
Proof. apply (kbd_intr_terminates 3 kbd0 (Kbdc [0x2A; 0x1E] []) [] kbd0_ring). simpl. lia. Defined.

Lemma decode_letters_witness : decode CTL 0x2E = 3.
Proof.
  destruct (decode_letters 0x2E) as (_ & _ & _ & _ & H); [by apply (bool_decide_unpack _); vm_compute|].
  exact H.
Defined.

Lemma kbd_proc_data_reads_key_witness :
  wp kbd_proc_data (KBD (bits (Mods true false false true false false)) (replicate 512 0) 0 0 [], Kbdc [0x1E; 0x9E] [])
    (fun c s' => c = 97 /\ kb_wait (snd s') = [0x9E]).
Proof.
  destruct (kbd_proc_data_reads_key (KBD (bits (Mods true false false true false false)) (replicate 512 0) 0 0 []) (Kbdc [0x1E; 0x9E] [])
    (Mods true false false true false false) eq_refl) as [_ H].
  eapply wp_mono; [apply (H (Press (Key false 0x1E)) [0x9E]); [by split|reflexivity]|]. intros c s' (-> & _ & _ & E).
  split; [reflexivity|exact E].
Defined.
