(* ===== verification/Lab3Kbd.v ===== *)
(** * The keyboard driver of lab 3 (src/lab3/nctuos/kernel/kbd.c)

    The tables and the ring buffer are those of Kbd.v, but the driver is another
    one: an 0xE0 byte is remembered in the bit E0ESC of [shift] until the next
    byte, so that the release of an extended key is seen; and the interrupt
    handler takes every waiting byte instead of stopping at the first character.

    What the driver does is stated over key events: pressing and releasing keys,
    some of which send the 0xE0 prefix. *)

From S2P Require Import Prelude.
From S2P Require Import Machine.
From S2P Require Import Kmonad.
From S2P Require Import Ports.
From Stdlib Require Import ZArith Lia.
From stdpp Require Import base gmap list strings.
From S2P Require Import Kbd.

Local Open Scope Z_scope.

Definition E0ESC : Z := Z.shiftl 1 6.

Section Driver.
  Context {W : Type} `{!Ports W}.

Definition kbd_proc_data : M (kbd * W) Z :=
  st ← on_snd (inb KBSTATP);
  if (Z.land st KBS_DIB =? 0) then mret (-1)
  else
    data ← on_snd (inb KBDATAP);
    k ← get_k;
    if (data =? 0xE0) then
      _ ← mod_k (set_shift (Z.lor (shift k) E0ESC));
      mret 0
    else if truth (Z.land data 0x80) then
      let data := if truth (Z.land (shift k) E0ESC) then data else Z.land data 0x7F in
      a ← need (zget shiftcode data) "shiftcode[]";
      _ ← mod_k (set_shift (Z.land (shift k) (lnot32 (Z.lor a E0ESC))));
      mret 0
    else if truth (Z.land (shift k) E0ESC) then
      _ ← mod_k (set_shift (Z.land (shift k) (lnot32 E0ESC)));
      kbd_press (Z.lor data 0x80)
    else kbd_press data.

(** [cons_intr(kbd_proc_data)]: until no byte is waiting. *)
Fixpoint cons_intr (fuel : nat) : M (kbd * W) unit :=
  match fuel with
  | O => hang "cons_intr: out of fuel"
  | S fuel' =>
      c ← kbd_proc_data;
      if (c =? -1) then mret tt
      else if (c =? 0) then cons_intr fuel'
      else cons_put c ;; cons_intr fuel'
  end.

Definition kbd_intr (fuel : nat) : M (kbd * W) unit := cons_intr fuel.

(** [kbd_init] before the interrupt mask is set. *)
Definition kbd_drain (fuel : nat) : M (kbd * W) unit :=
  _ ← mod_k (fun k => KBD (shift k) (buf k) 0 (wpos k) (kbd_log k));
  _ ← mod_k (fun k => KBD (shift k) (buf k) (rpos k) 0 (kbd_log k));
  kbd_intr fuel.

(** [while ((c = cons_getc()) == 0);] *)
Fixpoint getc (fuel : nat) : M (kbd * W) Z :=
  match fuel with
  | O => hang "getc"
  | S fuel' => c ← cons_getc; if (c =? 0) then getc fuel' else mret c
  end.
End Driver.

(** ** Key events *)

(** The modifiers after the event, and the character it gives, 0 for none. *)
Definition event_step (sh : Z) (e : key_event) : Z * Z :=
  match e with
  | Press k => let sh' := shift_update sh (index k) in (sh', decode sh' (index k))
  | Release k => (Z.land sh (lnot32 (tab_get shiftcode (index k))), 0)
  end.

(** The queue of characters after some events. *)
Fixpoint type_events (es : list key_event) (sh : Z) (q : list Z) : Z * list Z :=
  match es with
  | [] => (sh, q)
  | e :: es' =>
      let '(sh', c) := event_step sh e in
      type_events es' sh' (if c =? 0 then q else q_put c q)
  end.

(** ** Bytes *)

(** What the driver makes of byte [b]. *)
Definition byte_step (sh b : Z) : Z * Z :=
  if b =? 0xE0 then (Z.lor sh E0ESC, 0)
  else if truth (Z.land b 0x80) then
    (Z.land sh (lnot32 (Z.lor (tab_get shiftcode (if truth (Z.land sh E0ESC) then b else Z.land b 0x7F)) E0ESC)), 0)
  else
    let '(sh1, i) := if truth (Z.land sh E0ESC) then (Z.land sh (lnot32 E0ESC), Z.lor b 0x80) else (sh, b) in
    (shift_update sh1 i, decode (shift_update sh1 i) i).

Fixpoint type_bytes (bs : list Z) (sh : Z) (q : list Z) : Z * list Z :=
  match bs with
  | [] => (sh, q)
  | b :: bs' =>
      let '(sh', c) := byte_step sh b in
      type_bytes bs' sh' (if c =? 0 then q else q_put c q)
  end.

(** Six modifier bits and E0ESC. *)
Lemma esc_range (P : Z -> Prop) `{!forall x, Decision (P x)} sh :
  bool_decide (Forall P (seqZ 0 128)) = true -> 0 <= sh < 128 -> P sh.
Proof. intros HF%bool_decide_eq_true Hs. rewrite Forall_forall in HF. apply HF. apply elem_of_seqZ. lia. Qed.

Lemma esc_clear sh : 0 <= sh < 128 -> 0 <= Z.land sh (lnot32 E0ESC) < 64.
Proof. intros Hs. by apply (esc_range (fun sh => 0 <= Z.land sh (lnot32 E0ESC) < 64)). Qed.

Lemma esc_unset sh : 0 <= sh < 128 -> truth (Z.land sh E0ESC) = false -> sh < 64.
Proof. intros Hs. by apply (esc_range (fun sh => truth (Z.land sh E0ESC) = false -> sh < 64)). Qed.

Lemma esc_release sh i : 0 <= sh < 128 -> 0 <= Z.land sh (lnot32 (Z.lor (tab_get shiftcode i) E0ESC)) < 64.
Proof.
  intros Hs. pose proof (shiftcode_values i) as Ha. revert Ha. generalize (tab_get shiftcode i). intros a Ha.
  apply (esc_range (fun sh => 0 <= Z.land sh (lnot32 (Z.lor a E0ESC)) < 64)); [|done].
  rewrite !elem_of_cons, elem_of_nil in Ha. by destruct_or! Ha; subst; vm_compute.
Qed.

Lemma byte_step_range sh b : 0 <= sh < 128 -> 0 <= (byte_step sh b).1 < 128 /\ 0 <= (byte_step sh b).2 < 256.
Proof.
  intros Hs. unfold byte_step. destruct (b =? 0xE0).
  { split; [|done]. by apply (esc_range (fun sh => 0 <= Z.lor sh E0ESC < 128)). }
  destruct (truth (Z.land b 0x80)).
  { pose proof (esc_release sh (if truth (Z.land sh E0ESC) then b else Z.land b 0x7F) Hs). simpl. lia. }
  assert (forall sh1 i, 0 <= sh1 < 64 ->
    0 <= (shift_update sh1 i, decode (shift_update sh1 i) i).1 < 128
    /\ 0 <= (shift_update sh1 i, decode (shift_update sh1 i) i).2 < 256) as H.
  { intros sh1 i H1. pose proof (shift_update_range sh1 i H1). pose proof (decode_range _ i H). simpl. lia. }
  destruct (truth (Z.land sh E0ESC)) eqn:E; apply H; [by apply esc_clear|]. pose proof (esc_unset sh Hs E). lia.
Qed.

(** ** The driver, byte by byte *)

Section Proofs.
Context {W : Type} `{!Ports W} `{!KbdBytes W}.

Lemma wp_proc3_none (k : kbd) (w : W) : kb_wait w = [] -> wp kbd_proc_data (k, w) (fun c s' => c = -1 /\ fst s' = k /\ kb_wait (snd s') = []).
Proof.
  intros Hw. unfold kbd_proc_data. wp_step. unfold wp at 1, on_snd, zoom, inb. cbn [snd]. pose proof (kb_state w) as H.
  destruct (port_in KBSTATP w) as [st w1]. destruct H as [H1 H]. cbn [fst].
  destruct (Z.eqb_spec (Z.land (u8 st) KBS_DIB) 0) as [_|Hne]; [|by destruct Hne; apply H]. wp_step. split; [done|]. split; [done|]. cbn [snd]. congruence.
Qed.

Lemma wp_proc_byte (k : kbd) (w : W) b l :
  kb_wait w = b :: l ->
  wp kbd_proc_data (k, w) (fun c s' => (shift (fst s'), c) = byte_step (shift k) b /\ same_ring k (fst s') /\ kb_wait (snd s') = l).
Proof.
  intros Hw. unfold kbd_proc_data. wp_step. unfold wp at 1, on_snd, zoom, inb. cbn [snd]. pose proof (kb_state w) as H.
  destruct (port_in KBSTATP w) as [st w1]. destruct H as [H1 H2]. cbn [fst].
  destruct (Z.eqb_spec (Z.land (u8 st) KBS_DIB) 0) as [E|_]; [apply H2 in E; congruence|].
  wp_step. unfold wp at 1. cbn [snd]. destruct (kb_read w1 b l) as (v & w2 & -> & -> & H3); [congruence|]. cbn [fst].
  unfold get_k, mod_k, byte_step. wp_step. wp_step. cbn [fst]. destruct (b =? 0xE0); [by wp_steps|].
  assert (0 <= b < 256) as Hb by (apply (kb_byte w b); rewrite Hw; by left).
  destruct (truth (Z.land b 0x80)).
  { wp_step. eapply wp_need; [apply tab_read; [done|destruct (truth _); [exact Hb|by apply low_byte]]|]. by wp_steps. }
  destruct (truth (Z.land (shift k) E0ESC)).
  - wp_step. wp_step. cbn [fst snd]. eapply wp_mono; [by apply wp_press_key, high_byte|]. intros c [k' w'] (E & R & Hw'). cbn [fst snd shift set_shift] in *.
    split; [exact E|]. split; [exact R|congruence].
  - eapply wp_mono; [by apply wp_press_key|]. intros c s' (E & R & Hw'). split; [exact E|]. split; [exact R|congruence].
Qed.

Lemma wp_intr_bytes fuel bs (k : kbd) (w : W) q :
  kb_wait w = bs -> (length bs < fuel)%nat -> 0 <= shift k < 128 -> ring k q ->
  wp (cons_intr fuel) (k, w) (fun _ s' => shift (fst s') = (type_bytes bs (shift k) q).1
    /\ ring (fst s') (type_bytes bs (shift k) q).2 /\ kb_wait (snd s') = []).
Proof.
  revert bs k w q. induction fuel as [|fuel IH]; intros bs k w q Hw Hf Hs R; [lia|]. cbn [cons_intr]. wp_step.
  destruct bs as [|b bs].
  - eapply wp_mono; [by apply wp_proc3_none|]. intros c s' (-> & <- & Hw'). rewrite Z.eqb_refl. by wp_step.
  - pose proof (byte_step_range (shift k) b Hs) as [Hr1 Hr2]. cbn [type_bytes].
    eapply wp_mono; [by apply wp_proc_byte|]. intros c [k1 w1] (E & R1 & Hw1). cbn [fst snd] in *.
    destruct (byte_step (shift k) b) as [sh' c']. injection E as E1 E2. subst c' sh'. cbn [fst snd] in Hr1, Hr2.
    pose proof (ring_same _ _ _ R1 R) as R2. cbn [length] in Hf. destruct (Z.eqb_spec c (-1)); [lia|].
    destruct (Z.eqb_spec c 0) as [->|]; [apply IH; [done|lia|done|done]|]. wp_step.
    eapply wp_mono; [by apply wp_cons_put|]. intros u [k2 w2] (R3 & Hw2 & E2). cbn [fst snd] in *. rewrite <- E2.
    apply IH; [congruence|lia|by rewrite E2|done].
Qed.
End Proofs.

(** ** Events and bytes *)

Lemma esc_bit sh : 0 <= sh < 64 ->
  truth (Z.land sh E0ESC) = false /\ truth (Z.land (Z.lor sh E0ESC) E0ESC) = true /\ Z.land (Z.lor sh E0ESC) (lnot32 E0ESC) = sh.
Proof.
  by apply (mods_range (fun sh => truth (Z.land sh E0ESC) = false /\ truth (Z.land (Z.lor sh E0ESC) E0ESC) = true
    /\ Z.land (Z.lor sh E0ESC) (lnot32 E0ESC) = sh)).
Qed.

Lemma esc_cleared sh i : 0 <= sh < 64 ->
  Z.land sh (lnot32 (Z.lor (tab_get shiftcode i) E0ESC)) = Z.land sh (lnot32 (tab_get shiftcode i))
  /\ Z.land (Z.lor sh E0ESC) (lnot32 (Z.lor (tab_get shiftcode i) E0ESC)) = Z.land sh (lnot32 (tab_get shiftcode i)).
Proof.
  intros Hs. pose proof (shiftcode_values i) as Ha. revert Ha. generalize (tab_get shiftcode i). intros a Ha.
  apply (mods_range (fun sh => Z.land sh (lnot32 (Z.lor a E0ESC)) = Z.land sh (lnot32 a)
    /\ Z.land (Z.lor sh E0ESC) (lnot32 (Z.lor a E0ESC)) = Z.land sh (lnot32 a))); [|done].
  rewrite !elem_of_cons, elem_of_nil in Ha. by destruct_or! Ha; subst; vm_compute.
Qed.

Lemma event_step_range sh e : 0 <= sh < 64 -> 0 <= (event_step sh e).1 < 64.
Proof. intros Hs. destruct e as [k|k]; simpl; [by apply shift_update_range|by apply shift_release_range]. Qed.

(** The bytes of one event are that event. *)
Lemma encode_step e bs sh q :
  key_ok (event_key e) -> 0 <= sh < 64 ->
  type_bytes (encode e ++ bs) sh q
  = type_bytes bs (event_step sh e).1 (if (event_step sh e).2 =? 0 then q else q_put (event_step sh e).2 q).
Proof.
  intros [Hc Hne] Hs. destruct (esc_bit sh Hs) as (B1 & B2 & B3).
  destruct e as [ [ext c]|[ext c] ]; unfold encode; cbn [event_key key_code key_ext event_step] in *.
  - destruct (press_byte c Hc Hne) as (P1 & P2 & P3). destruct ext; cbn [app type_bytes]; unfold byte_step, index; cbn [key_ext key_code].
    + rewrite Z.eqb_refl. cbv iota beta zeta. rewrite P1, P2, B2, B3, P3. done.
    + rewrite P1, P2, B1. done.
  - destruct (release_byte c Hc Hne) as (P1 & P2 & P3). destruct ext; cbn [app type_bytes]; unfold byte_step, index; cbn [key_ext key_code].
    + rewrite Z.eqb_refl. cbv iota beta zeta. rewrite P1, P2, B2. rewrite (proj2 (esc_cleared sh _ Hs)). done.
    + rewrite P1, P2, B1, P3. rewrite (proj1 (esc_cleared sh _ Hs)). done.
Qed.

Lemma encode_events es sh q :
  Forall (fun e => key_ok (event_key e)) es -> 0 <= sh < 64 -> type_bytes (es ≫= encode) sh q = type_events es sh q.
Proof.
  intros Hes. revert sh q. induction Hes as [|e es He _ IH]; intros sh q Hs; [done|]. cbn [mbind list_bind].
  change (list_bind _ _ encode es) with (es ≫= encode). rewrite encode_step by done. cbn [type_events].
  pose proof (event_step_range sh e Hs) as Hr. destruct (event_step sh e) as [sh' c]. by apply IH.
Qed.

(** ** Properties *)

(** C22: The interrupt handler of lab 3 refines key events: when the bytes of any
    sequence of key presses and releases are waiting, [kbd_intr] returns with all of
    them taken, the modifiers are those of the events (so every modifier key that
    was released is off, the right Ctrl and Alt keys included), and the characters
    of the presses are in the console queue in the order typed. *)
Theorem kbd_intr_types_events {W} `{!Ports W} `{!KbdBytes W} fuel es (k : kbd) (w : W) q :
  Forall (fun e => key_ok (event_key e)) es -> kb_wait w = es ≫= encode -> (length (es ≫= encode) < fuel)%nat ->
  0 <= shift k < 64 -> ring k q ->
  wp (kbd_intr fuel) (k, w) (fun _ s' => shift (fst s') = (type_events es (shift k) q).1
    /\ ring (fst s') (type_events es (shift k) q).2 /\ kb_wait (snd s') = []).
Proof.
  intros Hes Hw Hf Hs R. unfold kbd_intr. eapply wp_mono; [apply (wp_intr_bytes fuel _ k w q Hw Hf ltac:(lia) R)|].
  intros u s'. by rewrite encode_events.
Qed.

(** A modifier key that is pressed and released is off, whatever the others are. *)
Theorem modifiers_release (k : key) sh q :
  key_ok k -> 0 <= sh < 64 -> Z.land (type_events [Press k; Release k] sh q).1 (tab_get shiftcode (index k)) = 0.
Proof.
  intros _ Hs. cbn [type_events event_step fst]. pose proof (shift_update_range sh (index k) Hs) as Hu. revert Hu.
  generalize (shift_update sh (index k)). intros sh' Hu. pose proof (shiftcode_values (index k)) as Ha. revert Ha.
  generalize (tab_get shiftcode (index k)). intros a Ha.
  apply (mods_range (fun sh => Z.land (Z.land sh (lnot32 a)) a = 0)); [|done].
  rewrite !elem_of_cons, elem_of_nil in Ha. by destruct_or! Ha; subst; vm_compute.
Qed.

(** ** Witnesses *)

(** Right Ctrl down and up, then A. *)
Definition demo_events : list key_event :=
  [Press (Key true 0x1D); Release (Key true 0x1D); Press (Key false 0x1E); Release (Key false 0x1E)].

Lemma kbd_intr_types_events_witness :
  wp (kbd_intr 8) (kbd0, Kbdc [0xE0; 0x1D; 0xE0; 0x9D; 0x1E; 0x9E] []) (fun _ s' => shift (fst s') = 0 /\ ring (fst s') [97]).
Proof.
  eapply wp_mono; [apply (kbd_intr_types_events 8 demo_events kbd0 (Kbdc [0xE0; 0x1D; 0xE0; 0x9D; 0x1E; 0x9E] []) [])|].
  - by repeat constructor.
  - by vm_compute.
  - by vm_compute; lia.
  - by vm_compute.
  - apply kbd0_ring.
  - intros u s' (H1 & H2 & _). split; [rewrite H1; by vm_compute|]. revert H2. by vm_compute (type_events _ _ _).2.
Defined.

Lemma modifiers_release_witness : Z.land (type_events [Press (Key true 0x1D); Release (Key true 0x1D)] 5 []).1 CTL = 0.
Proof. apply (modifiers_release (Key true 0x1D) 5 []); [by repeat split|by vm_compute]. Defined.
