(* ===== verification/MpConfig.v ===== *)
(** * The multiprocessor tables (kernel/mpconfig.c)

    The search for the floating pointer, the checks of the configuration table
    and [mp_init], which counts the processors.  The tables are bytes of
    physical memory; a pointer to one is its kernel address.  [ismp] and
    [lapicaddr] are the variables that [mp_init] sets beside the CPU array. *)

From S2P Require Import Prelude.
From S2P Require Import Machine.
From S2P Require Import Kmonad.
From S2P Require Import Spinlock.
From S2P Require Import PageAlloc.
From S2P Require Import Paging.
From S2P Require Import Bytes.
From S2P Require Import Ports.
From Stdlib Require Import ZArith Lia.
From stdpp Require Import base gmap list strings.
From S2P Require Import Task.

Local Open Scope Z_scope.

(** ** Layout of the tables *)

Definition sizeof_mp : Z := 16.
Definition mp_physaddr (mp : Z) : M mm_state Z := load32u (mp + 4).
Definition mp_type (mp : Z) : M mm_state Z := load8 (mp + 11).
Definition mp_imcrp (mp : Z) : M mm_state Z := load8 (mp + 12).

Definition conf_length (conf : Z) : M mm_state Z := load16 (conf + 4).
Definition conf_version (conf : Z) : M mm_state Z := load8 (conf + 6).
Definition conf_entry (conf : Z) : M mm_state Z := load16 (conf + 34).
Definition conf_lapicaddr (conf : Z) : M mm_state Z := load32u (conf + 36).
Definition conf_xlength (conf : Z) : M mm_state Z := load16 (conf + 40).
Definition conf_xchecksum (conf : Z) : M mm_state Z := load8 (conf + 42).
Definition conf_entries (conf : Z) : Z := conf + 44.

Definition sizeof_mpproc : Z := 20.
Definition MPPROC_BOOT : Z := 0x02.
Definition MPPROC : Z := 0x00.
Definition MPLINTR : Z := 0x04.
Definition CPU_UNUSED : Z := 0.
Definition CPU_STARTED : Z := 1.
Definition CPU_HALTED : Z := 2.

(** ** Search *)

(** [sum]: the bytes are added up in an [int], returned as [uint8_t]. *)
Fixpoint sum_loop (n : nat) (addr acc : Z) : M mm_state Z :=
  match n with
  | O => mret acc
  | S n' => b ← load8 addr; sum_loop n' (addr + 1) (s32 (acc + b))
  end.

Definition sum (addr len : Z) : M mm_state Z :=
  x ← sum_loop (Z.to_nat len) addr 0; mret (u8 x).

(** [memcmp(p, sig, 4) == 0]; the comparison ends at the first difference. *)
Fixpoint same_bytes (p : Z) (l : list Z) : M mm_state bool :=
  match l with
  | [] => mret true
  | b :: l' => x ← load8 p; if (x =? b) then same_bytes (p + 1) l' else mret false
  end.

Definition SIG_MP : list Z := [95; 77; 80; 95].
Definition SIG_PCMP : list Z := [80; 67; 77; 80].

Fixpoint mpsearch1_loop (fuel : nat) (mp end_ : Z) : M mm_state (option Z) :=
  if (mp <? end_) then
    match fuel with
    | O => hang "mpsearch1: out of fuel"
    | S fuel' =>
        same ← same_bytes mp SIG_MP;
        if (same : bool) then
          x ← sum mp sizeof_mp;
          if (x =? 0) then mret (Some mp) else mpsearch1_loop fuel' (mp + sizeof_mp) end_
        else mpsearch1_loop fuel' (mp + sizeof_mp) end_
    end
  else mret None.

(** Each turn moves on by 16 bytes: [(end - mp) / 16 + 1] turns are enough. *)
Definition mpsearch1 (a len : Z) : M mm_state (option Z) :=
  mp ← KADDR a;
  end_ ← KADDR (u32 (a + len));
  mpsearch1_loop (Z.to_nat ((end_ - mp) / sizeof_mp + 1)) mp end_.

Definition mpsearch : M mm_state (option Z) :=
  bda ← KADDR (Z.shiftl 0x40 4);
  p ← load16 (bda + 0x0E);
  r ← (if negb (p =? 0) then mpsearch1 (Z.shiftl p 4) 1024
       else
         p2 ← load16 (bda + 0x13);
         mpsearch1 (u32 (p2 * 1024 - 1024)) 1024);
  match r with
  | Some mp => mret (Some mp)
  | None => mpsearch1 0xF0000 0x10000
  end.

(** [mpconfig(&mp)]: the table and the floating pointer. *)
Definition mpconfig : M mm_state (option (Z * Z)) :=
  r ← mpsearch;
  match r with
  | None => mret None
  | Some mp =>
      pa ← mp_physaddr mp;
      ty ← (if (pa =? 0) then mret 1 else mp_type mp);
      if (pa =? 0) || negb (ty =? 0) then
        printk "SMP: Default configurations not implemented" [] ;; mret None
      else
        conf ← KADDR pa;
        sig ← same_bytes conf SIG_PCMP;
        if negb sig then
          printk "SMP: Incorrect MP configuration table signature" [] ;; mret None
        else
          len ← conf_length conf;
          x ← sum conf len;
          if negb (x =? 0) then printk "SMP: Bad MP configuration checksum" [] ;; mret None
          else
            ver ← conf_version conf;
            if negb (ver =? 1) && negb (ver =? 4) then
              printk "SMP: Unsupported MP version %d" [ver] ;; mret None
            else
              xlen ← conf_xlength conf;
              xs ← sum (conf + len) xlen;
              xc ← conf_xchecksum conf;
              if negb (xs =? xc) then
                printk "SMP: Bad MP configuration extended checksum" [] ;; mret None
              else mret (Some (conf, mp))
  end.

(** ** Counting the processors *)

Record mpvars := MPV { ismp : Z; mp_lapicaddr : Z }.

Section Mp.
  Context {W : Type} `{!Ports W}.

Definition mpstate : Type := tk_state * mpvars * W.
Definition tk {A} (m : M tk_state A) : M mpstate A := on_fst (on_fst m).
Definition mod_v (f : mpvars -> mpvars) : M mpstate unit :=
  modify (fun s => (fst (fst s), f (snd (fst s)), snd s)).

Definition set_ncpu (n : Z) (s : tk_state) : tk_state :=
  TK (mm s) (tasks s) (cpus s) n (bootcpu s) (tasks_lock s) (cpus_lock s) (gdt s)
     (user_sizes s) (seg_regs s).
Definition set_bootcpu (b : Z) (s : tk_state) : tk_state :=
  TK (mm s) (tasks s) (cpus s) (ncpu s) b (tasks_lock s) (cpus_lock s) (gdt s)
     (user_sizes s) (seg_regs s).

(** One processor entry at [p]. *)
Definition mp_proc (p : Z) : M tk_state unit :=
  flags ← on_mm (load8 (p + 3));
  n ← gets ncpu;
  _ ← when (truth (Z.land flags MPPROC_BOOT)) (modify (set_bootcpu n));
  if (n <? NCPU) then
    _ ← upd_cpu n (fun c => mkCpu (u8 n) (cpu_status c) (cpu_task c) (cpu_rq c) (cpu_tss c));
    modify (set_ncpu (n + 1))
  else
    apicid ← on_mm (load8 (p + 1));
    on_mm (printk "SMP: too many CPUs, CPU %d disabled" [apicid]).

(** The [for] loop: [n] entries left, the next one at [p].  An unknown type sets
    [ismp] to 0 and ends the loop. *)
Fixpoint mp_loop (n : nat) (p : Z) : M mpstate unit :=
  match n with
  | O => mret tt
  | S n' =>
      ty ← tk (on_mm (load8 p));
      if (ty =? MPPROC) then tk (mp_proc p) ;; mp_loop n' (p + sizeof_mpproc)
      else if (ty <=? MPLINTR) then mp_loop n' (p + 8)
      else
        tk (on_mm (printk "mpinit: unknown config type %x" [ty])) ;;
        mod_v (fun v => MPV 0 (mp_lapicaddr v))
  end.

Definition mp_init : M mpstate unit :=
  _ ← tk (modify (set_bootcpu 0));
  r ← tk (on_mm mpconfig);
  match r with
  | None => mret tt
  | Some (conf, mp) =>
      la ← tk (on_mm (conf_lapicaddr conf));
      _ ← mod_v (fun v => MPV 1 la);
      cnt ← tk (on_mm (conf_entry conf));
      _ ← mp_loop (Z.to_nat cnt) (conf_entries conf);
      b ← tk (gets bootcpu);
      _ ← tk (upd_cpu b (c_set_status CPU_STARTED));
      v ← gets (fun s => snd (fst s));
      if (ismp v =? 0) then
        _ ← tk (modify (set_ncpu 1));
        _ ← mod_v (fun v => MPV (ismp v) 0);
        tk (on_mm (printk "SMP: configuration not found, SMP disabled" []))
      else
        bc ← tk (get_cpu b);
        n ← tk (gets ncpu);
        _ ← tk (on_mm (printk "SMP: CPU %d found %d CPU(s)" [cpu_id bc; n]));
        im ← tk (on_mm (mp_imcrp mp));
        when (negb (im =? 0))
          (tk (on_mm (printk "SMP: Setting IMCR to switch from PIC mode to symmetric I/O mode" [])) ;;
           on_snd (outb 0x22 0x70) ;;
           x ← on_snd (inb 0x23);
           on_snd (outb 0x23 (Z.lor x 1)))
  end.
End Mp.

(** ** What the loop computes *)

(** An entry of the table: a processor with its flags, or an entry that is
    skipped. *)
Inductive mpentry := Proc (flags : Z) | Skip (ty : Z).

Definition entry_size (e : mpentry) : Z := match e with Proc _ => 20 | Skip _ => 8 end.

(** The entries [es] lie in memory from physical address [pa] on. *)
Fixpoint entries_at (s : mm_state) (pa : Z) (es : list mpentry) : Prop :=
  match es with
  | [] => True
  | e :: es' =>
      0 <= pa /\ (pa + entry_size e) / 4096 < npages s
      /\ match e with
         | Proc f => rd8 (ram s) pa = MPPROC /\ rd8 (ram s) (pa + 3) = f
         | Skip ty => rd8 (ram s) pa = ty /\ 0 < ty <= MPLINTR
         end
      /\ entries_at s (pa + entry_size e) es'
  end.

(** Number of CPUs and index of the boot CPU after the entries [es]. *)
Fixpoint scan (es : list mpentry) (n b : Z) : Z * Z :=
  match es with
  | [] => (n, b)
  | Proc f :: es' =>
      scan es' (if n <? NCPU then n + 1 else n) (if truth (Z.land f MPPROC_BOOT) then n else b)
  | Skip _ :: es' => scan es' n b
  end.

(** The first [n] CPUs are numbered by their place. *)
Definition numbered (cs : list CpuInfo) (n : Z) : Prop :=
  forall i, 0 <= i < n -> exists c, zget cs i = Some c /\ cpu_id c = i.

(** The same marks on the processors. *)
Definition same_status (cs cs' : list CpuInfo) : Prop :=
  forall i, cpu_status <$> zget cs' i = cpu_status <$> zget cs i.

(** The same memory, up to the messages printed. *)
Definition set_console (log : list (string * list Z)) (c : mm_cfg) : mm_cfg :=
  mkCfg (c_npages c) (c_npages_basemem c) (c_nextfree c) (c_kern_pgdir c) (c_pages_va c) (c_mmio_base c)
        (c_cr3 c) (c_cr0 c) (c_ctx c) (c_invlpg c) log.
Definition printed (s s' : mm_state) : Prop := exists log, s' = upd_cfg (set_console log) s.

Lemma printed_refl s : printed s s.
Proof. exists (c_console (cfg s)). by destruct s as [ [] ]. Qed.

Lemma printed_trans s s1 s2 : printed s s1 -> printed s1 s2 -> printed s s2.
Proof. intros (l1 & ->) (l2 & ->). by exists l2. Qed.

Lemma printed_log s x : printed s (upd_cfg (log_console x) s).
Proof. by exists (x :: c_console (cfg s)). Qed.

Lemma entries_at_same s s' pa es : printed s s' -> entries_at s pa es -> entries_at s' pa es.
Proof.
  intros (log & ->). revert pa. induction es as [|e es IH]; intros pa; [done|].
  simpl. intros (H1 & H2 & H3 & H4). auto.
Qed.

Lemma wp_on_mm_load8 (t : tk_state) pa Q :
  0 <= pa -> pa / 4096 < npages (mm t) -> Q (rd8 (ram (mm t)) pa) t ->
  wp (on_mm (load8 (pa + KERNBASE))) t Q.
Proof.
  intros H0 Hn HQ. apply wp_zoom. apply wp_load8; [by apply byte_ok|].
  replace (set_mm (mm t) t) with t by by destruct t. done.
Qed.

Section Loop.
Context (t : tk_state) (p f : Z).
  Hypotheses (Hp : 0 <= p) (Hin : (p + 20) / 4096 < npages (mm t)) (Hf : rd8 (ram (mm t)) (p + 3) = f)
             (Hlen : length (cpus t) = 8%nat) (Hn : 0 <= ncpu t <= 8) (Hid : numbered (cpus t) (ncpu t)).

Lemma wp_mp_proc :
  wp (mp_proc (p + KERNBASE)) t (fun _ t' =>
    printed (mm t) (mm t') /\ length (cpus t') = 8%nat
    /\ ncpu t' = (if ncpu t <? NCPU then ncpu t + 1 else ncpu t)
    /\ bootcpu t' = (if truth (Z.land f MPPROC_BOOT) then ncpu t else bootcpu t)
    /\ numbered (cpus t') (ncpu t') /\ 0 <= ncpu t' <= 8 /\ same_status (cpus t) (cpus t') /\ gdt t' = gdt t).
Proof.
  unfold mp_proc. wp_step. replace (p + KERNBASE + 3) with (p + 3 + KERNBASE) by lia.
  apply wp_on_mm_load8; [lia|Z.to_euclidean_division_equations; lia|]. rewrite Hf.
  wp_step. wp_step. wp_step.
  set (t1 := if truth (Z.land f MPPROC_BOOT) then set_bootcpu (ncpu t) t else t).
  eapply (wp_eq _ _ tt t1); [unfold t1; by destruct (truth _)|]. cbv beta.
  assert (mm t1 = mm t /\ cpus t1 = cpus t /\ ncpu t1 = ncpu t) as (Em & Ec & En)
    by (unfold t1; destruct (truth _); done).
  assert (bootcpu t1 = if truth (Z.land f MPPROC_BOOT) then ncpu t else bootcpu t) as Eb
    by (unfold t1; destruct (truth _); done).
  unfold NCPU. destruct (Z.ltb_spec (ncpu t) 8) as [Hlt|Hge].
  - destruct (zget_is_Some (cpus t) (ncpu t)) as [c Hc]; [lia|].
    assert (zget (cpus t1) (ncpu t) = Some c) as Hc1 by by rewrite Ec.
    wp_step. unfold wp at 1, upd_cpu, get_cpu, gets, mbind, M_bind. rewrite Hc1. simpl.
    rewrite zset_Some by (rewrite Ec; lia). simpl. wp_step. simpl. rewrite Em, Ec.
    split; [apply printed_refl|]. rewrite length_insert. split; [done|]. split; [done|]. split; [done|].
    split; [|split; [lia|split; [|unfold t1; by destruct (truth _)] ] ].
    2: { intros i. destruct (Z.eq_dec i (ncpu t)) as [->|]; [|f_equal; eapply (zget_zset_ne (cpus t)); [apply zset_Some; lia|lia] ].
         erewrite (zget_zset_eq (cpus t)) by (apply zset_Some; lia). by rewrite Hc. }
    intros i Hi. destruct (Z.eq_dec i (ncpu t)) as [->|].
    + eexists. split; [by eapply zget_zset_eq, zset_Some; lia|]. simpl. apply u8_small. lia.
    + destruct (Hid i ltac:(lia)) as (d & Hd & Hdi). exists d. split; [|done].
      rewrite <- Hd. eapply (zget_zset_ne (cpus t)); [apply zset_Some; lia|lia].
  - wp_step. replace (p + KERNBASE + 1) with (p + 1 + KERNBASE) by lia.
    apply wp_on_mm_load8; [lia|rewrite Em; Z.to_euclidean_division_equations; lia|].
    unfold on_mm. apply wp_zoom. unfold printk. wp_step. simpl.
    simpl. rewrite Em, Ec, En, Eb. split; [apply printed_log|]. split_and!; try done; try lia. unfold t1. by destruct (truth _).
Qed.
End Loop.

Lemma wp_tk {W A} (m : M tk_state A) t v (w : W) Q :
  wp m t (fun a t' => Q a (t', v, w)) -> wp (tk (W := W) m) (t, v, w) Q.
Proof. intros H. unfold tk, on_fst. apply wp_zoom, wp_zoom. exact H. Qed.

(** The loop on a table with entries [es]. *)
Lemma wp_mp_loop {W} es pa (t : tk_state) (v : mpvars) (w : W) :
  entries_at (mm t) pa es -> length (cpus t) = 8%nat -> 0 <= ncpu t <= 8 ->
  numbered (cpus t) (ncpu t) ->
  wp (mp_loop (length es) (pa + KERNBASE)) (t, v, w) (fun _ r => exists t', r = (t', v, w)
    /\ (ncpu t', bootcpu t') = scan es (ncpu t) (bootcpu t)
    /\ numbered (cpus t') (ncpu t') /\ 0 <= ncpu t' <= 8 /\ printed (mm t) (mm t') /\ length (cpus t') = 8%nat
    /\ same_status (cpus t) (cpus t') /\ gdt t' = gdt t).
Proof.
  revert pa t. induction es as [|e es IH]; intros pa t He Hl Hn Hid; cbn [length mp_loop].
  { wp_step. exists t. split_and!; try done; [lia..|apply printed_refl]. }
  destruct He as (Hp & Hin & Hty & He). wp_step. apply wp_tk. destruct e as [f|ty]; simpl in *.
  - destruct Hty as [Ht Hf].
    apply wp_on_mm_load8; [lia|Z.to_euclidean_division_equations; lia|]. rewrite Ht.
    change (MPPROC =? MPPROC) with true. cbv iota. wp_step. apply wp_tk.
    eapply wp_mono; [by apply (wp_mp_proc t pa f)|].
    intros u t1 (Hm & Hl1 & En & Eb & Hid1 & Hn1 & Hs1 & Hg1). rewrite <- En, <- Eb.
    replace (pa + KERNBASE + sizeof_mpproc) with (pa + 20 + KERNBASE)
      by (unfold sizeof_mpproc; lia).
    eapply wp_mono; [apply IH; try done; by eapply entries_at_same|].
    intros u2 r (t2 & -> & H1 & H2 & H3 & H4 & H5 & H6 & H7). exists t2.
    split_and!; try done; [lia..|by eapply printed_trans| |by rewrite H7]. intros i. by rewrite H6, Hs1.
  - destruct Hty as [Ht Hr].
    apply wp_on_mm_load8; [lia|Z.to_euclidean_division_equations; lia|]. rewrite Ht.
    unfold MPPROC, MPLINTR in *. destruct (Z.eqb_spec ty 0); [lia|].
    destruct (Z.leb_spec ty 4); [|lia].
    replace (pa + KERNBASE + 8) with (pa + 8 + KERNBASE) by lia. by apply IH.
Qed.

(** ** Properties *)

(** The loop over the configuration table counts the processors.  On a table
    with entries [es] it ends with the number of CPUs and the boot CPU that
    [scan] gives: at most NCPU processors are counted, each is numbered by its
    place in [cpus], and the boot CPU is the one at whose place the flag was
    seen last, which for a ninth processor is one past the array. *)
Theorem mp_loop_counts {W} es pa (t : tk_state) (v : mpvars) (w : W) :
  entries_at (mm t) pa es -> length (cpus t) = 8%nat -> 0 <= ncpu t <= 8 ->
  numbered (cpus t) (ncpu t) ->
  wp (mp_loop (length es) (pa + KERNBASE)) (t, v, w) (fun _ r =>
    let t' := fst (fst r) in
    (ncpu t', bootcpu t') = scan es (ncpu t) (bootcpu t)
    /\ numbered (cpus t') (ncpu t') /\ 0 <= ncpu t' <= 8 /\ snd (fst r) = v /\ snd r = w).
Proof.
  intros He Hl Hn Hid. eapply wp_mono; [by apply (wp_mp_loop es pa t v w)|]. cbv zeta. intros u r (t' & -> & H1 & H2 & H3 & _). done.
Qed.

(** ** A concrete table *)

(** Eight processors and a ninth one with the boot flag, at physical address 0:
    type and flags share the first word of an entry of 20 bytes. *)
Definition demo_table : gmap Z Z := <[160 := 0x02000000]> ∅.
Definition demo_mp : tk_state :=
  TK (set_ram demo_table (fresh_mm 4 0 0)) [] (replicate 8 cpu0) 0 0
     (mkSpinlock 0 "&tasks_lock" None []) (mkSpinlock 0 "&cpus_lock" None []) gdt_init
     (0, 0, 0, 0) None.

Lemma mp_loop_counts_witness :
  wp (mp_loop 9 KERNBASE) (demo_mp, MPV 1 0, Bus ∅ []) (fun _ r =>
    ncpu (fst (fst r)) = 8 /\ bootcpu (fst (fst r)) = NCPU).
Proof.
  eapply wp_mono;
    [apply (mp_loop_counts (replicate 8 (Proc 0) ++ [Proc 2]) 0 demo_mp (MPV 1 0) (Bus ∅ []))|].
  - vm_compute. intuition congruence.
  - done.
  - simpl. lia.
  - intros i Hi. simpl in Hi. lia.
  - cbv zeta. intros u r (H & _).
    assert (scan (replicate 8 (Proc 0) ++ [Proc 2]) (ncpu demo_mp) (bootcpu demo_mp) = (8, 8)) as E
      by by vm_compute.
    rewrite E in H. by injection H as -> ->.
Defined.
