(* ===== verification/Firmware.v ===== *)
(** * What the firmware leaves in memory (kernel/mpconfig.c)

    The multiprocessor tables as bytes of the first page and of the memory between
    base memory and one megabyte, which the kernel never hands out.  On tables as the
    MP specification wants them [mp_init] finds the floating pointer, accepts the
    configuration and counts the processors. *)

From S2P Require Import Prelude.
From S2P Require Import Machine.
From S2P Require Import Kmonad.
From S2P Require Import Spinlock.
From S2P Require Import PageAlloc.
From S2P Require Import Paging.
From S2P Require Import Bytes.
From S2P Require Import Ports.
From Stdlib Require Import ZArith Lia.
From stdpp Require Import base gmap list strings.
From S2P Require Import Task.
From S2P Require Import MpConfig.

Local Open Scope Z_scope.

Section Rom.
(** The bytes, and the number of pages of base memory. *)
Context (rom : Z -> Z) (nb : Z) (Hnb : 0 < nb <= 240).

(** The [n] bytes from [a] on are the firmware's. *)
Definition span (a n : Z) : Prop := (0 <= a /\ a + n <= 4096) \/ (nb * 4096 <= a /\ a + n <= 1048576).

Definition shows (s : mm_state) : Prop := 256 < npages s /\ forall a, span a 1 -> rd8 (ram s) a = rom a.

Lemma span_in a n b m : span a n -> a <= b -> b + m <= a + n -> span b m.
Proof. unfold span. lia. Qed.

Lemma span_range a n : span a n -> 0 <= a /\ a + n <= 1048576.
Proof. unfold span. lia. Qed.

(** ** Reading it *)

Definition rom16 (a : Z) : Z := rom a + 256 * rom (a + 1).
Definition rom32 (a : Z) : Z := rom16 a + 65536 * rom16 (a + 2).

Section Read.
Context (s : mm_state) (S : shows s).

Lemma wp_rom8 a v (Q : Z -> mm_state -> Prop) : span a 1 -> v = a + KERNBASE -> Q (rom a) s -> wp (load8 v) s Q.
Proof.
  intros Ha -> HQ. destruct S as [Hn Hr]. pose proof (span_range _ _ Ha).
  apply wp_load8; [apply byte_ok; [lia|Z.to_euclidean_division_equations; lia]|]. by rewrite Hr.
Qed.

Lemma wp_rom16 a v (Q : Z -> mm_state -> Prop) : span a 2 -> v = a + KERNBASE -> Q (rom16 a) s -> wp (load16 v) s Q.
Proof.
  intros Ha -> HQ. unfold load16. wp_step. apply (wp_rom8 a); [by eapply span_in; [exact Ha|lia..]|done|]. wp_step.
  apply (wp_rom8 (a + 1)); [by eapply span_in; [exact Ha|lia..]|lia|]. by wp_step.
Qed.

Lemma wp_rom32 a v (Q : Z -> mm_state -> Prop) : span a 4 -> v = a + KERNBASE -> Q (rom32 a) s -> wp (load32u v) s Q.
Proof.
  intros Ha -> HQ. unfold load32u. wp_step. apply (wp_rom16 a); [by eapply span_in; [exact Ha|lia..]|done|]. wp_step.
  apply (wp_rom16 (a + 2)); [by eapply span_in; [exact Ha|lia..]|lia|]. by wp_step.
Qed.

Lemma wp_rom_KADDR a (Q : Z -> mm_state -> Prop) : 0 <= a <= 1048576 -> Q (a + KERNBASE) s -> wp (KADDR a) s Q.
Proof.
  intros Ha HQ. destruct S as [Hn _]. apply wp_KADDR; [lia| |exact HQ]. rewrite PGNUM_div. Z.to_euclidean_division_equations. lia.
Qed.

(** Sums and signatures. *)
Fixpoint rom_sum (n : nat) (a acc : Z) : Z :=
  match n with O => acc | Datatypes.S n' => rom_sum n' (a + 1) (s32 (acc + rom a)) end.

Definition rom_check (a n : Z) : Z := u8 (rom_sum (Z.to_nat n) a 0).

Lemma wp_rom_sum a n v (Q : Z -> mm_state -> Prop) :
  0 <= n -> span a n -> v = a + KERNBASE -> Q (rom_check a n) s -> wp (sum v n) s Q.
Proof.
  intros H0 Ha -> HQ. unfold sum. wp_step.
  assert (forall k b acc (R : Z -> mm_state -> Prop), span b (Z.of_nat k) -> R (rom_sum k b acc) s -> wp (sum_loop k (b + KERNBASE) acc) s R) as H.
  { induction k as [|k IH]; intros b acc R Hb HR; cbn [sum_loop]; [by wp_step|]. wp_step.
    apply (wp_rom8 b); [by eapply span_in; [exact Hb|lia..]|done|]. replace (b + KERNBASE + 1) with (b + 1 + KERNBASE) by lia.
    apply IH; [|exact HR]. eapply span_in; [exact Hb|lia..]. }
  apply H; [by rewrite Z2Nat.id|]. by wp_step.
Qed.

Fixpoint rom_has (a : Z) (l : list Z) : bool :=
  match l with [] => true | b :: l' => (rom a =? b) && rom_has (a + 1) l' end.

Lemma wp_rom_has a l v (Q : bool -> mm_state -> Prop) :
  span a (Z.of_nat (length l)) -> v = a + KERNBASE -> Q (rom_has a l) s -> wp (same_bytes v l) s Q.
Proof.
  intros Ha -> . revert a Ha. induction l as [|b l IH]; intros a Ha HQ; cbn [same_bytes]; [by wp_step|]. cbn [length] in Ha.
  wp_step. apply (wp_rom8 a); [by eapply span_in; [exact Ha|lia..]|done|]. cbn [rom_has] in HQ.
  destruct (rom a =? b); [|by wp_step]. replace (a + KERNBASE + 1) with (a + 1 + KERNBASE) by lia. apply IH; [|exact HQ].
  eapply span_in; [exact Ha|lia..].
Qed.

(** ** The search *)

(** A floating pointer at [a]. *)
Definition is_mp (a : Z) : bool := rom_has a SIG_MP && (rom_check a sizeof_mp =? 0).

(** The first one in [n] paragraphs. *)
Fixpoint rom_find (n : nat) (a : Z) : option Z :=
  match n with O => None | Datatypes.S n' => if is_mp a then Some a else rom_find n' (a + 16) end.

Lemma rom_find_turn n a :
  rom_find (Datatypes.S n) a
  = if rom_has a SIG_MP then if rom_check a sizeof_mp =? 0 then Some a else rom_find n (a + 16) else rom_find n (a + 16).
Proof. cbn [rom_find]. unfold is_mp. by destruct (rom_has a SIG_MP). Qed.

#[local] Opaque rom_check.

Lemma mpsearch1_end fuel a : mpsearch1_loop fuel a a = mret None.
Proof. destruct fuel; cbn [mpsearch1_loop]; by rewrite Z.ltb_irrefl. Qed.

Lemma mpsearch1_turn fuel a e :
  a < e -> mpsearch1_loop (Datatypes.S fuel) a e
  = (same ← same_bytes a SIG_MP;
     if (same : bool) then
       x ← sum a sizeof_mp; if (x =? 0) then mret (Some a) else mpsearch1_loop fuel (a + sizeof_mp) e
     else mpsearch1_loop fuel (a + sizeof_mp) e).
Proof. intros H. cbn [mpsearch1_loop]. by rewrite (proj2 (Z.ltb_lt a e) H). Qed.

Lemma wp_mpsearch1_loop n a fuel (Q : option Z -> mm_state -> Prop) :
  span a (16 * Z.of_nat n) -> (n < fuel)%nat -> Q ((fun x => x + KERNBASE) <$> rom_find n a) s ->
  wp (mpsearch1_loop fuel (a + KERNBASE) (a + 16 * Z.of_nat n + KERNBASE)) s Q.
Proof.
  revert a fuel. induction n as [|n IH]; intros a fuel Ha Hf HQ.
  - replace (a + 16 * Z.of_nat 0 + KERNBASE) with (a + KERNBASE) by lia. rewrite mpsearch1_end. by wp_step.
  - destruct fuel as [|fuel]; [lia|]. rewrite mpsearch1_turn by lia.
    assert (Q ((fun x => x + KERNBASE) <$> rom_find n (a + 16)) s ->
      wp (mpsearch1_loop fuel (a + 16 + KERNBASE) (a + 16 + 16 * Z.of_nat n + KERNBASE)) s Q) as Hnext.
    { intros HQ'. apply IH; [by eapply span_in; [exact Ha|lia..]|lia|exact HQ']. }
    replace (a + KERNBASE + sizeof_mp) with (a + 16 + KERNBASE) by (unfold sizeof_mp; lia).
    replace (a + 16 * Z.of_nat (Datatypes.S n) + KERNBASE) with (a + 16 + 16 * Z.of_nat n + KERNBASE) by lia.
    wp_step. apply (wp_rom_has a); [by eapply span_in; [exact Ha|change (Z.of_nat (length SIG_MP)) with 4; lia..]|reflexivity|].
    rewrite rom_find_turn in HQ. destruct (rom_has a SIG_MP); [|exact (Hnext HQ)].
    wp_step. apply (wp_rom_sum a); [done|by eapply span_in; [exact Ha|unfold sizeof_mp; lia..]|reflexivity|].
    destruct (rom_check a sizeof_mp =? 0); [by wp_step|exact (Hnext HQ)].
Qed.

Lemma wp_mpsearch1 a n (Q : option Z -> mm_state -> Prop) :
  span a (16 * Z.of_nat n) -> Q ((fun x => x + KERNBASE) <$> rom_find n a) s -> wp (mpsearch1 a (16 * Z.of_nat n)) s Q.
Proof.
  intros Ha HQ. pose proof (span_range _ _ Ha). unfold mpsearch1. wp_step. apply wp_rom_KADDR; [lia|]. wp_step.
  rewrite u32_small by lia. apply wp_rom_KADDR; [lia|]. apply wp_mpsearch1_loop; [exact Ha| |exact HQ].
  replace (a + 16 * Z.of_nat n + KERNBASE - (a + KERNBASE)) with (Z.of_nat n * 16) by lia. unfold sizeof_mp. rewrite Z.div_mul by lia. lia.
Qed.

(** The area the firmware names in its data area, else the last kilobyte of base
    memory. *)
Definition ebda : Z := if rom16 0x40E =? 0 then u32 (rom16 0x413 * 1024 - 1024) else rom16 0x40E * 16.

Lemma wp_mpsearch (Q : option Z -> mm_state -> Prop) :
  span ebda 1024 ->
  Q ((fun x => x + KERNBASE) <$> match rom_find 64 ebda with Some x => Some x | None => rom_find 4096 0xF0000 end) s ->
  wp mpsearch s Q.
Proof.
  intros He HQ. assert (forall a n, 0 <= a -> a + n <= 4096 -> span a n) as H0 by (intros; by left).
  unfold mpsearch. wp_step. change (Z.shiftl 0x40 4) with 0x400. apply wp_rom_KADDR; [lia|]. wp_step.
  apply (wp_rom16 0x40E); [by apply H0|unfold KERNBASE; lia|]. wp_step.
  assert (wp (mpsearch1 ebda (16 * Z.of_nat 64)) s (fun r s' => s' = s /\ r = (fun x => x + KERNBASE) <$> rom_find 64 ebda)) as H1
    by (by apply wp_mpsearch1).
  assert (wp (if negb (rom16 0x40E =? 0) then mpsearch1 (Z.shiftl (rom16 0x40E) 4) 1024
       else p2 ← load16 (0x400 + KERNBASE + 0x13); mpsearch1 (u32 (p2 * 1024 - 1024)) 1024) s
       (fun r s' => s' = s /\ r = (fun x => x + KERNBASE) <$> rom_find 64 ebda)) as H2.
  { unfold ebda in *. destruct (rom16 0x40E =? 0); cbn [negb].
    - wp_step. apply (wp_rom16 0x413); [by apply H0|unfold KERNBASE; lia|exact H1].
    - rewrite Z.shiftl_mul_pow2 by lia. exact H1. }
  eapply wp_mono; [exact H2|]. intros r s' [-> ->]. destruct (rom_find 64 ebda) as [x|]; cbn [fmap option_fmap option_map] in *; [by wp_step|].
  apply (wp_mpsearch1 0xF0000 4096); [right; lia|exact HQ].
Qed.
End Read.

(** ** The configuration *)

Fixpoint entries_in (a : Z) (es : list mpentry) : Prop :=
  match es with
  | [] => True
  | e :: es' =>
      span a (entry_size e)
      /\ match e with
         | Proc f => rom a = MPPROC /\ rom (a + 3) = f
         | Skip ty => rom a = ty /\ 0 < ty <= MPLINTR
         end
      /\ entries_in (a + entry_size e) es'
  end.

(** The tables of the MP specification: the floating pointer [mp], the configuration
    [conf] with local APICs at [la], and its entries [es]. *)
Record mp_tables (mp conf la : Z) (es : list mpentry) : Prop := {
  mt_ebda : span ebda 1024;
  mt_find : match rom_find 64 ebda with Some x => Some x | None => rom_find 4096 0xF0000 end = Some mp;
  mt_mp : span mp 16;
  mt_type : rom (mp + 11) = 0;
  mt_conf : rom32 (mp + 4) = conf /\ conf <> 0;
  mt_span : span conf (rom16 (conf + 4) + rom16 (conf + 40)) /\ 44 <= rom16 (conf + 4);
  mt_sig : rom_has conf SIG_PCMP = true;
  mt_sum : rom_check conf (rom16 (conf + 4)) = 0;
  mt_version : rom (conf + 6) = 1 \/ rom (conf + 6) = 4;
  mt_ext : 0 <= rom16 (conf + 40) /\ rom_check (conf + rom16 (conf + 4)) (rom16 (conf + 40)) = rom (conf + 42);
  mt_lapic : rom32 (conf + 36) = la;
  mt_count : rom16 (conf + 34) = Z.of_nat (length es);
  mt_entries : entries_in (conf + 44) es
}.

Lemma entries_in_at s a es : shows s -> entries_in a es -> entries_at s a es.
Proof.
  intros [Hn Hr]. revert a. induction es as [|e es IH]; intros a; [done|]. cbn [entries_in entries_at]. intros (Hs & He & H).
  pose proof (span_range _ _ Hs). assert (8 <= entry_size e) by (by destruct e).
  split; [lia|]. split; [Z.to_euclidean_division_equations; lia|]. split; [|by apply IH].
  destruct e as [f|ty]; rewrite !Hr; [done|by eapply span_in; [exact Hs|cbn; lia..]..|done|by eapply span_in; [exact Hs|cbn; lia..] ].
Qed.

Section Found.
Context (mp conf la : Z) (es : list mpentry) (T : mp_tables mp conf la es).

Lemma conf_in a n : conf <= a -> a + n <= conf + 44 -> span a n.
Proof. intros H1 H2. destruct (mt_span _ _ _ _ T) as [Hs Hl]. destruct (mt_ext _ _ _ _ T). eapply span_in; [exact Hs|lia..]. Qed.

Lemma wp_mpconfig s (Q : option (Z * Z) -> mm_state -> Prop) :
  shows s -> Q (Some (conf + KERNBASE, mp + KERNBASE)) s -> wp mpconfig s Q.
Proof.
  intros S HQ. destruct T as [T1 T2 T3 T4 [T5 T5'] [T6 T6'] T7 T8 T9 [T10 T10'] T11 T12 T13]. unfold mpconfig. wp_step.
  apply (wp_mpsearch s S); [exact T1|]. rewrite T2. cbn [fmap option_fmap option_map]. wp_step.
  apply (wp_rom32 s S (mp + 4)); [by eapply span_in; [exact T3|lia..]|lia|]. rewrite T5. destruct (Z.eqb_spec conf 0); [done|]. wp_step.
  apply (wp_rom8 s S (mp + 11)); [by eapply span_in; [exact T3|lia..]|lia|]. rewrite T4. cbn [orb negb Z.eqb]. wp_step.
  pose proof (conf_in conf 44 ltac:(lia) ltac:(lia)) as Hc. pose proof (span_range _ _ Hc).
  apply (wp_rom_KADDR s S); [lia|]. wp_step. apply (wp_rom_has s S conf); [apply conf_in; change (Z.of_nat (length SIG_PCMP)) with 4; lia|reflexivity|]. rewrite T7. cbn [negb]. wp_step.
  apply (wp_rom16 s S (conf + 4)); [by apply conf_in; lia|lia|]. wp_step.
  apply (wp_rom_sum s S conf); [lia|by eapply span_in; [exact T6|lia..]|reflexivity|]. rewrite T8. cbn [negb Z.eqb]. wp_step.
  apply (wp_rom8 s S (conf + 6)); [by apply conf_in; lia|lia|].
  replace (negb (rom (conf + 6) =? 1) && negb (rom (conf + 6) =? 4)) with false by (by destruct T9 as [-> | ->]). wp_step.
  apply (wp_rom16 s S (conf + 40)); [by apply conf_in; lia|lia|]. wp_step.
  apply (wp_rom_sum s S (conf + rom16 (conf + 4))); [lia|by eapply span_in; [exact T6|lia..]|lia|]. wp_step.
  apply (wp_rom8 s S (conf + 42)); [by apply conf_in; lia|lia|]. rewrite T10', Z.eqb_refl. cbn [negb]. by wp_step.
Qed.

(** ** [mp_init] *)

Lemma shows_printed s s' : printed s s' -> shows s -> shows s'.
Proof. intros (log & ->). done. Qed.

(** The interrupt mode register, when the floating pointer says there is one. *)
Definition imcr_set {W} `{!Ports W} (w : W) : W :=
  if rom (mp + 12) =? 0 then w
  else let '(x, w') := port_in 0x23 (port_out 0x22 0x70 w) in port_out 0x23 (u8 (Z.lor (u8 x) 1)) w'.

(** What [mp_init] leaves: the processors of the table, the boot processor running,
    the address of the local APICs. *)
Record mp_found {W} `{!Ports W} (t : tk_state) (w : W) (r : mpstate (W := W)) : Prop := {
  mf_tables : snd (fst r) = MPV 1 la;
  mf_count : (ncpu (fst (fst r)), bootcpu (fst (fst r))) = scan es 0 0;
  mf_cpus : length (cpus (fst (fst r))) = 8%nat /\ numbered (cpus (fst (fst r))) (ncpu (fst (fst r)));
  mf_boot : exists c, zget (cpus (fst (fst r))) (bootcpu (fst (fst r))) = Some c /\ cpu_status c = CPU_STARTED;
  mf_others : forall i, i <> bootcpu (fst (fst r)) -> cpu_status <$> zget (cpus (fst (fst r))) i = cpu_status <$> zget (cpus t) i;
  mf_gdt : gdt (fst (fst r)) = gdt t;
  mf_ram : printed (mm t) (mm (fst (fst r)));
  mf_world : snd r = imcr_set w
}.

Lemma wp_imcr {W} `{!Ports W} (t : tk_state) v (w : W) (Q : unit -> mpstate (W := W) -> Prop) :
  (forall t', printed (mm t) (mm t') -> cpus t' = cpus t -> ncpu t' = ncpu t -> bootcpu t' = bootcpu t -> gdt t' = gdt t -> Q tt (t', v, imcr_set w)) ->
  wp (when (negb (rom (mp + 12) =? 0))
        (tk (on_mm (printk "SMP: Setting IMCR to switch from PIC mode to symmetric I/O mode" [])) ;;
         on_snd (outb 0x22 0x70) ;; x ← on_snd (inb 0x23); on_snd (outb 0x23 (Z.lor x 1)))) (t, v, w) Q.
Proof.
  intros H. unfold imcr_set in H. destruct (rom (mp + 12) =? 0); cbn [negb when].
  { wp_step. apply H; try done. apply printed_refl. }
  wp_step. apply wp_tk, wp_zoom. unfold printk. wp_step. wp_step. apply wp_zoom. unfold outb at 1, wp at 1. cbn.
  wp_step. apply wp_zoom. unfold inb, wp at 1. cbn. destruct (port_in 0x23 (port_out 0x22 _ w)) as [x w'].
  apply H; try done. apply printed_log.
Qed.

(** A read of the tables by [mp_init]. *)
Lemma wp_mp_read {W} `{!Ports W} {X} (m : M mm_state X) t v (w : W) x (Q : X -> mpstate (W := W) -> Prop) :
  wp m (mm t) (fun y s => y = x /\ s = mm t) -> Q x (t, v, w) -> wp (tk (on_mm m)) (t, v, w) Q.
Proof.
  intros H HQ. apply wp_tk, wp_zoom. eapply wp_mono; [exact H|]. intros y s [-> ->]. by destruct t.
Qed.

(** After the loop. *)
Definition mp_tail {W} `{!Ports W} : M (mpstate (W := W)) unit :=
  b ← tk (gets bootcpu);
  _ ← tk (upd_cpu b (c_set_status CPU_STARTED));
  v ← gets (fun s => snd (fst s));
  if (ismp v =? 0) then
    _ ← tk (modify (set_ncpu 1));
    _ ← mod_v (fun v => MPV (ismp v) 0);
    tk (on_mm (printk "SMP: configuration not found, SMP disabled" []))
  else
    bc ← tk (get_cpu b);
    n ← tk (gets ncpu);
    _ ← tk (on_mm (printk "SMP: CPU %d found %d CPU(s)" [cpu_id bc; n]));
    im ← tk (on_mm (mp_imcrp (mp + KERNBASE)));
    when (negb (im =? 0))
      (tk (on_mm (printk "SMP: Setting IMCR to switch from PIC mode to symmetric I/O mode" [])) ;;
       on_snd (outb 0x22 0x70) ;; x ← on_snd (inb 0x23); on_snd (outb 0x23 (Z.lor x 1))).

Lemma scan_boot l n b : 0 <= n -> 0 <= b -> 0 <= snd (scan l n b).
Proof.
  revert n b. induction l as [|[f|ty] l IH]; intros n b Hn Hb; cbn [scan]; [done| |by apply IH].
  apply IH; [destruct (n <? NCPU); lia|by destruct (truth _)].
Qed.

Lemma wp_mp_tail {W} `{!Ports W} (t2 : tk_state) (w : W) :
  shows (mm t2) -> length (cpus t2) = 8%nat -> numbered (cpus t2) (ncpu t2) -> 0 <= bootcpu t2 < NCPU ->
  wp mp_tail (t2, MPV 1 la, w) (fun _ r => snd (fst r) = MPV 1 la
    /\ ncpu (fst (fst r)) = ncpu t2 /\ bootcpu (fst (fst r)) = bootcpu t2
    /\ (length (cpus (fst (fst r))) = 8%nat /\ numbered (cpus (fst (fst r))) (ncpu t2))
    /\ (exists c, zget (cpus (fst (fst r))) (bootcpu t2) = Some c /\ cpu_status c = CPU_STARTED)
    /\ printed (mm t2) (mm (fst (fst r))) /\ snd r = imcr_set w
    /\ (forall i, i <> bootcpu t2 -> zget (cpus (fst (fst r))) i = zget (cpus t2) i) /\ gdt (fst (fst r)) = gdt t2).
Proof.
  intros S Hl Hid Hb. unfold mp_tail. wp_step. apply wp_tk. wp_step. wp_step. apply wp_tk.
  destruct (zget_is_Some (cpus t2) (bootcpu t2)) as [c Hc]; [unfold NCPU in Hb; lia|].
  pose proof (zset_Some (cpus t2) (bootcpu t2) (c_set_status CPU_STARTED c) ltac:(unfold NCPU in Hb; lia)) as Hz.
  set (cs := <[Z.to_nat (bootcpu t2) := c_set_status CPU_STARTED c]> (cpus t2)) in *.
  unfold upd_cpu, get_cpu at 1. wp_step. wp_step. wp_step. rewrite Hc. wp_step. wp_step. wp_step. wp_step. rewrite Hz. wp_step. wp_step.
  wp_step. wp_step. cbn [fst snd ismp Z.eqb]. wp_step. apply wp_tk. unfold get_cpu. wp_step. wp_step.
  cbn [cpus set_cpus]. rewrite (zget_zset_eq _ _ _ _ Hz). wp_step. wp_step. apply wp_tk. wp_step. wp_step. apply wp_tk, wp_zoom.
  unfold printk at 1. wp_step. wp_step. eapply wp_mp_read;
    [refine (wp_rom8 _ _ (mp + 12) _ _ _ _ _); [exact S|eapply span_in; [exact (mt_mp _ _ _ _ T)|lia..]|lia|done]|].
  apply wp_imcr. intros t3 H1 H2 H3 H4 H5. cbn [fst snd]. rewrite H2, H3, H4. split_and!; try done.
  - change (length cs = 8%nat). unfold cs. by rewrite length_insert.
  - intros i Hi. cbn in Hi. destruct (Z.eq_dec i (bootcpu t2)) as [->|Hne].
    + destruct (Hid _ Hi) as (d & Hd & Hdi). rewrite Hc in Hd. injection Hd as <-. exists (c_set_status CPU_STARTED c).
      split; [exact (zget_zset_eq _ _ _ _ Hz)|exact Hdi].
    + destruct (Hid i Hi) as (d & Hd & Hdi). exists d. split; [|done]. rewrite <- Hd. by apply (zget_zset_ne _ _ _ _ _ Hz).
  - exists (c_set_status CPU_STARTED c). by split; [apply (zget_zset_eq _ _ _ _ Hz)|].
  - intros i Hi. by apply (zget_zset_ne _ _ _ _ _ Hz).
Qed.

Lemma wp_mp_init {W} `{!Ports W} (t : tk_state) v (w : W) :
  shows (mm t) -> length (cpus t) = 8%nat -> ncpu t = 0 -> snd (scan es 0 0) < NCPU ->
  wp mp_init (t, v, w) (fun _ r => mp_found t w r).
Proof.
  intros S Hl Hn Hb. unfold mp_init. wp_step. apply wp_tk. wp_step. wp_step.
  set (t1 := set_bootcpu 0 t). assert (shows (mm t1)) as S1 by exact S. pose proof (conf_in conf 44 ltac:(lia) ltac:(lia)) as Hc.
  eapply wp_mp_read; [by apply wp_mpconfig|]. cbv iota beta. wp_step.
  eapply wp_mp_read; [apply (wp_rom32 (mm t1) S1 (conf + 36)); [by apply conf_in; lia|lia|done]|].
  rewrite (mt_lapic _ _ _ _ T). wp_step. unfold mod_v at 1. wp_step. cbn [fst snd]. wp_step.
  eapply wp_mp_read; [apply (wp_rom16 (mm t1) S1 (conf + 34)); [by apply conf_in; lia|lia|done]|].
  rewrite (mt_count _ _ _ _ T), Nat2Z.id. wp_step.
  replace (conf_entries (conf + KERNBASE)) with (conf + 44 + KERNBASE) by (unfold conf_entries; lia).
  eapply wp_mono; [apply (wp_mp_loop es); [apply entries_in_at; [done|apply (mt_entries _ _ _ _ T)]|done|change (ncpu t1) with (ncpu t); lia|]|].
  { change (ncpu t1) with (ncpu t). intros i Hi. lia. }
  intros u r (t2 & -> & Hc2 & Hid & Hr & Hp & Hl2 & Hst & Hgd). change (ncpu t1) with (ncpu t) in Hc2. change (bootcpu t1) with 0 in Hc2.
  rewrite Hn in Hc2. pose proof (scan_boot es 0 0 ltac:(lia) ltac:(lia)) as Hb0. rewrite <- Hc2 in Hb, Hb0. cbn [snd] in Hb, Hb0.
  eapply wp_mono; [apply (wp_mp_tail t2 w); [by eapply shows_printed|done..]|].
  intros [] [ [t3 v3] w3] (H1 & H2 & H3 & [H4 H5] & H6 & H7 & H8 & H9 & H10). cbn [fst snd] in *. constructor; cbn [fst snd]; try done.
  - by rewrite H2, H3.
  - by rewrite H2.
  - by rewrite H3.
  - rewrite H3. intros i Hi. by rewrite H9, Hst.
  - by rewrite H10, Hgd.
  - by eapply printed_trans.
Qed.
End Found.
End Rom.

(** ** Properties *)

(** C33: [mp_init] finds the processors.  The firmware left its tables outside the
    memory the kernel gives out, in page 0 or between page [nb] (at most 240) and one
    megabyte, and where the code looks: the first floating pointer, with signature
    and checksum, in the first kilobyte of the extended BIOS data area or, without
    one, in the last kilobyte of base memory, else between 0xF0000 and 0xFFFFF (not
    from 0xE0000, which the comment names); a configuration table, not a default one,
    of version 1.1 or 1.4 with both checksums; processor entries and entries of the
    other known types; the last processor with the boot flag among the first eight.
    Then [mp_init] ends without a fault, with [ismp] set, [lapicaddr] the table's
    address, the first eight processors of the table numbered by their places, the
    boot processor marked as started, memory as it was up to the messages, and the
    interrupt mode register written exactly when the floating pointer asks for it. *)
Theorem mp_init_finds_processors {W} `{!Ports W} rom nb mp conf la es (t : tk_state) v (w : W) :
  0 < nb <= 240 -> mp_tables rom nb mp conf la es -> shows rom nb (mm t) ->
  length (cpus t) = 8%nat -> ncpu t = 0 -> snd (scan es 0 0) < NCPU ->
  wp mp_init (t, v, w) (fun _ r => mp_found rom mp la es t w r).
Proof. intros Hnb T. exact (wp_mp_init rom nb Hnb mp conf la es T t v w). Qed.

(** Two processors, the first of them the boot processor, and a bus; the floating
    pointer in the system ROM asks for the interrupt mode register. *)
Definition demo_rom : gmap Z Z := list_to_map
  [(0x410, 0x7F000000); (0x414, 0x2); (0xF0010, 0x5F504D5F); (0xF0014, 0xF0100); (0xF0018, 0x100401); (0xF001C, 0x80);
   (0xF0100, 0x504D4350); (0xF0104, 0x6104005C); (0xF0120, 0x30000); (0xF0124, 0xFEE00000); (0xF012C, 0x3140000);
   (0xF0140, 0x1140100); (0xF0154, 0x1)].

Definition demo_boot : tk_state := set_mm (set_ram demo_rom (fresh_mm 300 0 0)) demo_mp.

Lemma demo_tables : mp_tables (rd8 demo_rom) 159 0xF0010 0xF0100 0xFEE00000 [Proc 3; Proc 1; Skip 1].
Proof.
  split; try (vm_compute; done); try (vm_compute; right; split; discriminate).
  - vm_compute. split; [right; split; discriminate|discriminate].
  - cbn [entries_in]. unfold span. vm_compute. intuition congruence.
Qed.

Lemma mp_init_finds_processors_witness :
  wp mp_init (demo_boot, MPV 0 0, Bus ∅ []) (fun _ r =>
    ncpu (fst (fst r)) = 2 /\ bootcpu (fst (fst r)) = 0 /\ snd (fst r) = MPV 1 0xFEE00000 /\ bus_out (snd r) = [(0x23, 1); (0x22, 0x70)]).
Proof.
  eapply wp_mono; [apply (mp_init_finds_processors (rd8 demo_rom) 159 0xF0010 0xF0100 0xFEE00000 [Proc 3; Proc 1; Skip 1])|].
  - lia.
  - exact demo_tables.
  - split; [done|]. intros a _. reflexivity.
  - reflexivity.
  - reflexivity.
  - reflexivity.
  - intros u r [H1 H2 _ _ _ _ _ H6]. change (scan _ 0 0) with (2, 0) in H2. injection H2 as -> ->.
    rewrite H1, H6. by vm_compute.
Defined.
