(* ===== verification/Trap.v ===== *)
(** * Traps, the timer and system calls (kernel/trap.c, kernel/timer.c,
    kernel/syscall.c)

    The whole kernel state is [kern]: tasks and memory, the devices' variables,
    the interrupt table and the hardware [k_w].  A [struct Trapframe *] is
    either the frame the entry code pushed on the kernel stack ([OnStack]) or the
    [tf] field of a task ([OfTask]), so that a handler that writes through the
    pointer writes where the code writes.  Function pointers in [trap_hnd] are
    the four handlers the kernel registers. *)

From S2P Require Import Prelude.
From S2P Require Import Machine.
From S2P Require Import Kmonad.
From S2P Require Import Spinlock.
From S2P Require Import PageAlloc.
From S2P Require Import Paging.
From S2P Require Import Bytes.
From S2P Require Import Ports.
From S2P Require Import Lapic.
From S2P Require Import Screen.
From S2P Require Import Kbd.
From Stdlib Require Import ZArith Lia.
From stdpp Require Import base gmap list strings.
From S2P Require Import Task.

Local Open Scope Z_scope.

(** ** State *)

Inductive tfref := OnStack | OfTask (p : Z).

#[global] Instance tfref_eq : EqDecision tfref.
Proof. solve_decision. Defined.

Inductive handler := H_page_fault | H_timer | H_kbd | H_syscall.

#[global] Instance handler_eq : EqDecision handler.
Proof. solve_decision. Defined.

Record kern (W : Type) := Kern {
  k_tk : tk_state;
  k_scr : screen;
  k_kbd : kbd;
  k_pic : pic_state;
  k_lv : lapic_vars;
  idt : list Gatedesc;
  trap_hnd : list (option handler);
  idtr : option Z;
  jiffies : Z;
  stack_tf : Trapframe;
  last_tf : option tfref;
  cr2 : Z;
  eflags_if : bool;
  k_w : W
}.
Arguments Kern {W}.
Arguments k_tk {W}. Arguments k_scr {W}. Arguments k_kbd {W}. Arguments k_pic {W}.
Arguments k_lv {W}. Arguments idt {W}. Arguments trap_hnd {W}. Arguments idtr {W}.
Arguments jiffies {W}. Arguments stack_tf {W}. Arguments last_tf {W}. Arguments cr2 {W}.
Arguments eflags_if {W}. Arguments k_w {W}.

(** The addresses of the entry stubs of kernel/trap_entry.S and of [idt]. *)
Record isrs := mkIsrs {
  Default_ISR : Z; GPFLT : Z; STACK_ISR : Z; PGFLT : Z;
  TIM_ISR : Z; KBD_Input : Z; SYSCALL : Z; idt_pd : Z
}.

(** ** System call numbers (inc/syscall.h) *)

Definition SYS_puts : Z := 0.
Definition SYS_getc : Z := 1.
Definition SYS_getpid : Z := 2.
Definition SYS_getcid : Z := 3.
Definition SYS_fork : Z := 4.
Definition SYS_kill : Z := 5.
Definition SYS_sleep : Z := 6.
Definition SYS_get_num_used_page : Z := 7.
Definition SYS_get_num_free_page : Z := 8.
Definition SYS_get_ticks : Z := 9.
Definition SYS_settextcolor : Z := 10.
Definition SYS_cls : Z := 11.

Section Trap.
Context {W : Type} `{!Ports W} `{!ApicRegs W}.
Context (K : ksyms) (A : isrs) (fuel : nat).
#[local] Abbreviation kern := (kern W).

Definition set_tk (v : tk_state) (s : kern) : kern :=
  Kern v (k_scr s) (k_kbd s) (k_pic s) (k_lv s) (idt s) (trap_hnd s) (idtr s) (jiffies s)
       (stack_tf s) (last_tf s) (cr2 s) (eflags_if s) (k_w s).
Definition set_scr_w (v : screen * W) (s : kern) : kern :=
  Kern (k_tk s) (fst v) (k_kbd s) (k_pic s) (k_lv s) (idt s) (trap_hnd s) (idtr s) (jiffies s)
       (stack_tf s) (last_tf s) (cr2 s) (eflags_if s) (snd v).
Definition set_kbd_w (v : kbd * W) (s : kern) : kern :=
  Kern (k_tk s) (k_scr s) (fst v) (k_pic s) (k_lv s) (idt s) (trap_hnd s) (idtr s) (jiffies s)
       (stack_tf s) (last_tf s) (cr2 s) (eflags_if s) (snd v).
Definition set_pic_w (v : pic_state * W) (s : kern) : kern :=
  Kern (k_tk s) (k_scr s) (k_kbd s) (fst v) (k_lv s) (idt s) (trap_hnd s) (idtr s) (jiffies s)
       (stack_tf s) (last_tf s) (cr2 s) (eflags_if s) (snd v).
Definition set_lap (v : lstate W) (s : kern) : kern :=
  Kern (set_mm (snd (fst v)) (k_tk s)) (k_scr s) (k_kbd s) (k_pic s) (fst (fst v)) (idt s)
       (trap_hnd s) (idtr s) (jiffies s) (stack_tf s) (last_tf s) (cr2 s) (eflags_if s) (snd v).
Definition set_w (v : W) (s : kern) : kern :=
  Kern (k_tk s) (k_scr s) (k_kbd s) (k_pic s) (k_lv s) (idt s) (trap_hnd s) (idtr s) (jiffies s)
       (stack_tf s) (last_tf s) (cr2 s) (eflags_if s) v.
Definition set_traps (i : list Gatedesc) (h : list (option handler)) (s : kern) : kern :=
  Kern (k_tk s) (k_scr s) (k_kbd s) (k_pic s) (k_lv s) i h (idtr s) (jiffies s)
       (stack_tf s) (last_tf s) (cr2 s) (eflags_if s) (k_w s).
Definition set_idtr (v : Z) (s : kern) : kern :=
  Kern (k_tk s) (k_scr s) (k_kbd s) (k_pic s) (k_lv s) (idt s) (trap_hnd s) (Some v) (jiffies s)
       (stack_tf s) (last_tf s) (cr2 s) (eflags_if s) (k_w s).
Definition set_jiffies (v : Z) (s : kern) : kern :=
  Kern (k_tk s) (k_scr s) (k_kbd s) (k_pic s) (k_lv s) (idt s) (trap_hnd s) (idtr s) v
       (stack_tf s) (last_tf s) (cr2 s) (eflags_if s) (k_w s).
Definition set_stack_tf (v : Trapframe) (s : kern) : kern :=
  Kern (k_tk s) (k_scr s) (k_kbd s) (k_pic s) (k_lv s) (idt s) (trap_hnd s) (idtr s) (jiffies s)
       v (last_tf s) (cr2 s) (eflags_if s) (k_w s).
Definition set_last_tf (v : tfref) (s : kern) : kern :=
  Kern (k_tk s) (k_scr s) (k_kbd s) (k_pic s) (k_lv s) (idt s) (trap_hnd s) (idtr s) (jiffies s)
       (stack_tf s) (Some v) (cr2 s) (eflags_if s) (k_w s).
Definition set_if (b : bool) (s : kern) : kern :=
  Kern (k_tk s) (k_scr s) (k_kbd s) (k_pic s) (k_lv s) (idt s) (trap_hnd s) (idtr s) (jiffies s)
       (stack_tf s) (last_tf s) (cr2 s) b (k_w s).

(** ** The components inside the kernel *)

Definition on_tk {X} : M tk_state X -> M kern X := zoom k_tk set_tk.
Definition on_kmm {X} (m : M mm_state X) : M kern X := on_tk (on_mm m).
Definition on_scr {X} : M (screen * W) X -> M kern X := zoom (fun s => (k_scr s, k_w s)) set_scr_w.
Definition on_kbd {X} : M (kbd * W) X -> M kern X := zoom (fun s => (k_kbd s, k_w s)) set_kbd_w.
Definition on_pic {X} : M (pic_state * W) X -> M kern X := zoom (fun s => (k_pic s, k_w s)) set_pic_w.
Definition on_lap {X} : M (lstate W) X -> M kern X :=
  zoom (fun s => (k_lv s, mm (k_tk s), k_w s)) set_lap.
Definition on_w {X} : M W X -> M kern X := zoom k_w set_w.
Definition kprintk (fmt : string) (args : list Z) : M kern unit := on_kmm (printk fmt args).

(** Reading and writing a frame through its pointer. *)
Definition get_tf (r : tfref) : M kern Trapframe :=
  match r with
  | OnStack => gets stack_tf
  | OfTask p => t ← on_tk (get_task p); mret (tf t)
  end.
Definition put_tf (r : tfref) (f : Trapframe) : M kern unit :=
  match r with
  | OnStack => modify (set_stack_tf f)
  | OfTask p => on_tk (upd_task p (t_set_tf f))
  end.

(** The byte at virtual address [va] in the current address space; an address
  that is not mapped is a page fault, which the kernel does not survive. *)
Definition read_virt (va : Z) : M kern Z :=
  s ← gets (fun s => mm (k_tk s));
  let d := c_cr3 (cfg s) / 4096 in
  match vm_lookup (ram s) d (u32 va) with
  | Some e =>
      let pa := PTE_ADDR e + PGOFF (u32 va) in
      if (PGNUM pa <? npages s) then mret (rd8 (ram s) pa) else fault "physical address"
  | None => fault "page fault"
  end.

(** ** trap.c: printing *)

Definition excnames : list string :=
  ["Divide error"; "Debug"; "Non-Maskable Interrupt"; "Breakpoint"; "Overflow";
   "BOUND Range Exceeded"; "Invalid Opcode"; "Device Not Available"; "Double Fault";
   "Coprocessor Segment Overrun"; "Invalid TSS"; "Segment Not Present"; "Stack Fault";
   "General Protection"; "Page Fault"; "(unknown trap)"; "x87 FPU Floating-Point Error";
   "Alignment Check"; "Machine-Check"; "SIMD Floating-Point Exception"]%string.

(** [trapno < sizeof(...)]: the comparison is unsigned. *)
Definition trapname (trapno : Z) : string :=
  match zget excnames (u32 trapno) with
  | Some n => n
  | None =>
      if (trapno =? T_SYSCALL) then "System call"%string
      else if (trapno >=? IRQ_OFFSET) && (trapno <? IRQ_OFFSET + 16) then "Hardware Interrupt"%string
      else "(unknown trap)"%string
  end.

Definition print_regs (regs : PushRegs) : M kern unit :=
  kprintk "  edi  0x%08x" [reg_edi regs] ;;
  kprintk "  esi  0x%08x" [reg_esi regs] ;;
  kprintk "  ebp  0x%08x" [reg_ebp regs] ;;
  kprintk "  oesp 0x%08x" [reg_oesp regs] ;;
  kprintk "  ebx  0x%08x" [reg_ebx regs] ;;
  kprintk "  edx  0x%08x" [reg_edx regs] ;;
  kprintk "  ecx  0x%08x" [reg_ecx regs] ;;
  kprintk "  eax  0x%08x" [reg_eax regs].

(** The address of the frame itself is not printed in the model. *)
Definition print_trapframe (r : tfref) : M kern unit :=
  f ← get_tf r;
  kprintk "TRAP frame at %p " [] ;;
  print_regs (tf_regs f) ;;
  kprintk "  es   0x----%04x" [tf_es f] ;;
  kprintk "  ds   0x----%04x" [tf_ds f] ;;
  kprintk ("  trap 0x%08x " +:+ trapname (s32 (tf_trapno f))) [tf_trapno f] ;;
  s ← get;
  when (bool_decide (last_tf s = Some r) && (tf_trapno f =? T_PGFLT))
    (kprintk "  cr2  0x%08x" [cr2 s]) ;;
  kprintk "  err  0x%08x" [tf_err f] ;;
  (if (tf_trapno f =? T_PGFLT) then
     kprintk (" [" +:+ (if truth (Z.land (tf_err f) 4) then "user" else "kernel")
              +:+ ", " +:+ (if truth (Z.land (tf_err f) 2) then "write" else "read")
              +:+ ", " +:+ (if truth (Z.land (tf_err f) 1) then "protection" else "not-present")
              +:+ "]") []
   else kprintk EmptyString []) ;;
  kprintk "  eip  0x%08x" [tf_eip f] ;;
  kprintk "  cs   0x----%04x" [tf_cs f] ;;
  kprintk "  flag 0x%08x" [tf_eflags f] ;;
  when (negb (Z.land (tf_cs f) 3 =? 0))
    (kprintk "  esp  0x%08x" [tf_esp f] ;; kprintk "  ss   0x----%04x" [tf_ss f]).

(** ** trap.c: the interrupt table *)

Definition set_gate (i : Z) (g : Gatedesc) : M kern unit :=
  s ← get;
  l ← need (zset (idt s) i g) "idt[] write";
  modify (set_traps l (trap_hnd s)).

Definition set_hnd (i : Z) (h : option handler) : M kern unit :=
  s ← get;
  l ← need (zset (trap_hnd s) i h) "trap_hnd[] write";
  modify (set_traps (idt s) l).

Definition register_handler (trapno : Z) (hnd : handler) (trap_entry isTrap dpl : Z)
  : M kern unit :=
  if (trapno >=? 0) && (trapno <? 256) && negb (trap_entry =? 0) then
    set_hnd trapno (Some hnd) ;;
    set_gate trapno (SETGATE isTrap GD_KT trap_entry dpl)
  else mret tt.

(** The loop of [trap_init], [n] gates left. *)
Fixpoint trap_init_loop (n : nat) (i : Z) : M kern unit :=
  match n with
  | O => mret tt
  | S n' =>
      set_gate i (SETGATE 1 GD_KT (Default_ISR A) 0) ;;
      set_hnd i None ;;
      trap_init_loop n' (i + 1)
  end.

Definition trap_init : M kern unit :=
  trap_init_loop 256 0 ;;
  set_gate T_GPFLT (SETGATE 1 GD_KT (GPFLT A) 0) ;;
  set_gate T_STACK (SETGATE 1 GD_KT (STACK_ISR A) 0) ;;
  register_handler T_PGFLT H_page_fault (PGFLT A) 1 0 ;;
  modify (set_idtr (idt_pd A)).

Definition page_fault_handler (r : tfref) : M kern unit :=
  v ← gets cr2;
  kprintk "Page fault @ %p" [v] ;;
  hang "page_fault_handler: while (1)".

(** [env_pop_tf]. *)
Definition env_pop_tf (r : tfref) : M kern unit := f ← get_tf r; iret f.

(** ** timer.c *)

(** One entry of the queue: a sleeping task gets one tick closer to waking up. *)
Definition tick_task (t : Task) : Task :=
  if decide (state t = TASK_SLEEP) then
    let t' := t_set_ticks (s32 (remind_ticks t - 1)) t in
    if (remind_ticks t' <=? 0) then t_set_state TASK_RUNNABLE t' else t'
  else t.

(** The [for] loop over the CPU's queue, [n] entries left. *)
Fixpoint tick_loop (n : nat) (i : Z) : M tk_state unit :=
  match n with
  | O => mret tt
  | S n' =>
      c ← thiscpu;
      p ← need (zget (runQueue (cpu_rq c)) i) "runQueue[] read";
      upd_task p tick_task ;;
      tick_loop n' (i + 1)
  end.

(** The part of [timer_handler] that works on tasks. *)
Definition timer_tasks : M tk_state unit :=
  c ← thiscpu;
  match cpu_task c with
  | None => mret tt
  | Some p =>
      tick_loop (Z.to_nat (total (cpu_rq c))) 0 ;;
      upd_task p (fun t => t_set_ticks (s32 (remind_ticks t - 1)) t) ;;
      t ← get_task p;
      if (remind_ticks t <=? 0) then
        upd_task p (t_set_state TASK_RUNNABLE) ;;
        sched_yield
      else mret tt
  end.

Definition timer_handler (r : tfref) : M kern unit :=
  modify (fun s => set_jiffies (u32 (jiffies s + 1)) s) ;;
  on_lap lapic_eoi ;;
  on_tk timer_tasks.

Definition sys_get_ticks : M kern Z := gets jiffies.

(** ** kbd.c: the interrupt handler *)

Definition kbd_handler (r : tfref) : M kern unit := on_kbd (kbd_intr fuel).

(** ** syscall.c *)

Definition ctx_of (s : kern) : cpu_ctx := c_ctx (cfg (mm (k_tk s))).

(** The loop of [do_puts], [n] characters left. *)
Fixpoint do_puts_loop (n : nat) (str : Z) : M kern unit :=
  match n with
  | O => mret tt
  | S n' =>
      c ← read_virt str;
      ctx ← gets ctx_of;
      on_scr (k_putch ctx c) ;;
      do_puts_loop n' (str + 1)
  end.

Definition do_puts (str len : Z) : M kern unit := do_puts_loop (Z.to_nat (u32 len)) str.

Definition do_getc : M kern Z := on_kbd k_getc.

(** SYS_sleep. *)
Definition sys_sleep (ticks : Z) : M tk_state unit :=
  p ← cur;
  upd_task p (t_set_ticks (s32 ticks)) ;;
  p' ← cur;
  upd_task p' (t_set_state TASK_SLEEP) ;;
  sched_yield.

(** SYS_kill: the task kills itself. *)
Definition kill_self : M tk_state unit :=
  p ← cur;
  t ← get_task p;
  sys_kill K (task_id t).

Definition do_syscall (syscallno a1 a2 a3 a4 a5 : Z) : M kern Z :=
  if (syscallno =? SYS_fork) then on_tk (sys_fork K)
  else if (syscallno =? SYS_getc) then do_getc
  else if (syscallno =? SYS_puts) then do_puts a1 a2 ;; mret 0
  else if (syscallno =? SYS_getpid) then
    on_tk (p ← cur; t ← get_task p; mret (task_id t))
  else if (syscallno =? SYS_getcid) then on_tk (c ← thiscpu; mret (cpu_id c))
  else if (syscallno =? SYS_sleep) then on_tk (sys_sleep a1) ;; mret 0
  else if (syscallno =? SYS_kill) then on_tk kill_self ;; mret 0
  else if (syscallno =? SYS_get_num_free_page) then on_kmm sys_get_num_free_page
  else if (syscallno =? SYS_get_num_used_page) then on_kmm sys_get_num_used_page
  else if (syscallno =? SYS_get_ticks) then v ← sys_get_ticks; mret (s32 v)
  else if (syscallno =? SYS_settextcolor) then on_scr (sys_settextcolor a1 a2) ;; mret 0
  else if (syscallno =? SYS_cls) then on_scr sys_cls ;; mret 0
  else mret (-1).

Definition syscall_handler (r : tfref) : M kern unit :=
  f ← get_tf r;
  let g := tf_regs f in
  v ← do_syscall (reg_eax g) (reg_edx g) (reg_ecx g) (reg_ebx g) (reg_edi g) (reg_esi g);
  f' ← get_tf r;
  put_tf r (tf_set_eax f' (u32 v)).

Definition call_handler (h : handler) (r : tfref) : M kern unit :=
  match h with
  | H_page_fault => page_fault_handler r
  | H_timer => timer_handler r
  | H_kbd => kbd_handler r
  | H_syscall => syscall_handler r
  end.

(** ** trap.c: dispatch *)

Definition trap_dispatch (r : tfref) : M kern unit :=
  f ← get_tf r;
  if (tf_trapno f =? IRQ_OFFSET + IRQ_SPURIOUS) then
    kprintk "Spurious interrupt on irq 7" [] ;;
    print_trapframe r
  else
    modify (set_last_tf r) ;;
    hnds ← gets trap_hnd;
    h ← need (zget hnds (tf_trapno f)) "trap_hnd[] read";
    match h with
    | Some _ =>
        r' ← (if (Z.land (tf_cs f) 3 =? 3) then
                modify (set_if false) ;;
                p ← on_tk cur;
                on_tk (upd_task p (t_set_tf f)) ;;
                mret (OfTask p)
              else mret r);
        f' ← get_tf r';
        hnds' ← gets trap_hnd;
        h' ← need (zget hnds' (tf_trapno f')) "trap_hnd[] read";
        h'' ← need h' "call through a null pointer";
        call_handler h'' r' ;;
        env_pop_tf r'
    | None =>
        print_trapframe r ;;
        panic "Unexpected trap!"
    end.

Definition default_trap_handler (r : tfref) : M kern unit :=
  modify (set_last_tf r) ;;
  trap_dispatch r.

(** ** Initialisation *)

Definition timer_init : M kern unit :=
  on_w (set_timer TIME_HZ) ;;
  s ← get;
  on_pic (irq_setmask_8259A (Z.land (irq_mask_8259A (k_pic s)) (Z.lnot (Z.shiftl 1 IRQ_TIMER)))) ;;
  register_handler (IRQ_OFFSET + IRQ_TIMER) H_timer (TIM_ISR A) 0 0.

Definition kbd_init : M kern unit :=
  on_kbd (kbd_intr fuel) ;;
  s ← get;
  on_pic (irq_setmask_8259A (Z.land (irq_mask_8259A (k_pic s)) (Z.lnot (Z.shiftl 1 IRQ_KBD)))) ;;
  register_handler (IRQ_OFFSET + IRQ_KBD) H_kbd (KBD_Input A) 0 0.

Definition syscall_init : M kern unit :=
  register_handler T_SYSCALL H_syscall (SYSCALL A) 1 3.
End Trap.
