(* ===== verification/TrapProofs.v ===== *)
(** * Behaviour of traps, ticks and system calls

    Proofs about [Trap.v]: the scheduler's invariant along every run of the
    machine (all CPUs, any order of system calls and timer ticks), the timing of
    sleep and of the time quantum, the interrupt table after initialisation, and
    the path of a system call through [trap_dispatch]. *)

From S2P Require Import Prelude.
From S2P Require Import Machine.
From S2P Require Import Kmonad.
From S2P Require Import Spinlock.
From S2P Require Import PageAlloc.
From S2P Require Import Paging.
From S2P Require Import Bytes.
From S2P Require Import Ports.
From S2P Require Import Lapic.
From S2P Require Import Screen.
From S2P Require Import Kbd.
From Stdlib Require Import ZArith Lia.
From stdpp Require Import base gmap list strings.
From S2P Require Import Task.
From S2P Require Import TaskInv.
From S2P Require Import Trap.

Local Open Scope Z_scope.

(** ** Ticks keep the invariant *)

Lemma tick_task_id t : task_id (tick_task t) = task_id t.
Proof. unfold tick_task. by repeat case_match. Qed.

Lemma tick_task_free t : state (tick_task t) = TASK_FREE <-> state t = TASK_FREE.
Proof.
  unfold tick_task. destruct (decide _) as [E|E]; [|done]. cbv zeta.
  destruct (_ <=? 0); simpl; rewrite E; split; done.
Qed.

Lemma safe_tick_loop I x n i s (Q : unit -> tk_state -> Prop) :
  sched_inv_x x s ->
  (forall s', sched_inv_x x s' -> cpus s' = cpus s -> cpunum s' = cpunum s -> Q tt s') ->
  safe (tick_loop n i) s Q I.
Proof.
  revert i s. induction n as [|n IH]; intros i s Inv HQ; cbn [tick_loop]; [safe_step; auto|].
  safe_step. apply safe_thiscpu. intros c Hc. safe_step. apply safe_need. intros p Hp.
  safe_step. apply (safe_upd_task_inv _ _ x); [done| |].
  - intros t. split; [apply tick_task_id|apply tick_task_free].
  - intros s1 I1 Ec En _. apply IH; [done|]. intros s2 I2 Ec2 En2. apply HQ; congruence.
Qed.

Lemma safe_upd_keep I x i f s (Q : unit -> tk_state -> Prop) :
  sched_inv_x x s -> (forall t, task_id (f t) = task_id t /\ state (f t) = state t) ->
  (forall s', sched_inv_x x s' -> cpus s' = cpus s -> cpunum s' = cpunum s -> Q tt s') ->
  safe (upd_task i f) s Q I.
Proof.
  intros Inv Hf HQ. apply (safe_upd_task_inv _ _ x); [done| |].
  - intros t. destruct (Hf t) as [H1 H2]. by rewrite H2.
  - intros s' I' Ec En _. auto.
Qed.

(** Changing the state of the current task, which is not free, to one that is not
    free either. *)
Lemma safe_set_state I x c p st s (Q : unit -> tk_state -> Prop) :
  sched_inv_x x s -> zget (cpus s) (cpunum s) = Some c -> cpu_task c = Some p ->
  st <> TASK_FREE ->
  (forall s', sched_inv_x x s' -> cpus s' = cpus s -> cpunum s' = cpunum s -> Q tt s') ->
  safe (upd_task p (t_set_state st)) s Q I.
Proof.
  intros Inv Hc Hp Hst HQ. destruct (live_current _ _ _ _ Inv Hc Hp) as (_ & t & Ht & Hf & _).
  apply safe_upd_task. intros t' Ht'. simplify_eq. apply HQ; [|done..].
  apply (inv_upd_task x s p t (t_set_state st t)); [exact Inv|exact Ht| |done|].
  - apply zset_Some. by eapply zget_Some_range.
  - simpl. split; intros; done.
Qed.

Lemma safe_timer_tasks s :
  sched_inv s -> safe timer_tasks s (fun _ s' => sched_inv s' /\ cpunum s' = cpunum s) sched_inv.
Proof.
  intros Inv. unfold timer_tasks. safe_step. apply safe_thiscpu. intros c Hc.
  destruct (cpu_task c) as [p|] eqn:Hp; [|by safe_step].
  safe_step. apply (safe_tick_loop _ None); [done|]. intros s1 I1 Ec1 En1.
  safe_step. apply (safe_upd_keep _ None); [done|done|]. intros s2 I2 Ec2 En2.
  safe_step. apply safe_get_task. intros t Ht. destruct (_ <=? 0); [|safe_step; split; [done|congruence]].
  assert (zget (cpus s2) (cpunum s2) = Some c) as Hc2 by congruence.
  safe_step. apply (safe_set_state _ None c p); [done|done|done|done|]. intros s3 I3 Ec3 En3.
  eapply safe_mono; [apply (safe_sched_yield None s3 c); [done|congruence]|].
  intros u s4 ->. split; [done|congruence].
Qed.

Lemma safe_sys_sleep n s :
  sched_inv s -> safe (sys_sleep n) s (fun _ s' => sched_inv s' /\ cpunum s' = cpunum s) sched_inv.
Proof.
  intros Inv. unfold sys_sleep. safe_step. unfold cur. safe_step. apply safe_thiscpu.
  intros c Hc. apply safe_need. intros p Hp. safe_step.
  apply (safe_upd_keep _ None); [done|done|]. intros s1 I1 Ec1 En1.
  assert (zget (cpus s1) (cpunum s1) = Some c) as Hc1 by congruence.
  safe_step. safe_step. eapply safe_eq; [by apply thiscpu_eq|]. cbv beta.
  apply safe_need. intros p' Hp'. simplify_eq. safe_step.
  apply (safe_set_state _ None c p); [done|done|done|done|]. intros s2 I2 Ec2 En2.
  eapply safe_mono; [apply (safe_sched_yield None s2 c); [done|congruence]|].
  intros u s3 ->. split; [done|congruence].
Qed.

Lemma safe_kill_self K s :
  sched_inv s -> safe (kill_self K) s (fun _ s' => sched_inv s' /\ cpunum s' = cpunum s) sched_inv.
Proof.
  intros Inv. unfold kill_self. safe_step. unfold cur. safe_step. apply safe_thiscpu.
  intros c Hc. apply safe_need. intros p Hp. safe_step.
  destruct (live_current _ _ _ _ Inv Hc Hp) as (_ & t & Ht & _ & Hid).
  eapply safe_eq; [by apply get_task_eq|]. rewrite Hid. by apply (safe_sys_kill K s c p).
Qed.

(** ** Runs of the machine *)

(** CPU [i] runs. *)
Definition with_cpu (i : Z) (s : tk_state) : tk_state :=
  let c := cfg (mm s) in
  set_mm (upd_cfg (fun c => mkCfg (c_npages c) (c_npages_basemem c) (c_nextfree c)
            (c_kern_pgdir c) (c_pages_va c) (c_mmio_base c) (c_cr3 c) (c_cr0 c)
            (mkCtx i (ctx_ebp (c_ctx c)) (ctx_stack (c_ctx c))) (c_invlpg c) (c_console c))
          (mm s)) s.

(** What a CPU can be asked to do. *)
Inductive event := EvFork | EvKill | EvSleep (n : Z) | EvTick | EvYield.

Definition run_event (K : ksyms) (e : event) : M tk_state unit :=
  match e with
  | EvFork => sys_fork K ;; mret tt
  | EvKill => kill_self K
  | EvSleep n => sys_sleep n
  | EvTick => timer_tasks
  | EvYield => sched_yield
  end.

(** One CPU handles one event, which returns to the interrupted task or switches
    to another one. *)
Inductive mstep (K : ksyms) (s : tk_state) : tk_state -> Prop :=
| mstep_ret i e s' : run_event K e (with_cpu i s) = Ret tt s' -> mstep K s s'
| mstep_iret i e f s' : run_event K e (with_cpu i s) = Iret f s' -> mstep K s s'.

Lemma with_cpu_inv x i s : sched_inv_x x s -> sched_inv_x x (with_cpu i s).
Proof. intros []. split; done. Qed.

Lemma safe_event K e s :
  sched_inv s -> safe (run_event K e) s (fun _ s' => sched_inv s') sched_inv.
Proof.
  intros Inv. destruct e as [| |n| |]; cbn [run_event].
  - safe_step. eapply safe_mono; [by apply safe_sys_fork|]. intros a s' [H _]. by safe_step.
  - eapply safe_mono; [by apply safe_kill_self|]. by intros a s' [H _].
  - eapply safe_mono; [by apply safe_sys_sleep|]. by intros a s' [H _].
  - eapply safe_mono; [by apply safe_timer_tasks|]. by intros a s' [H _].
  - destruct (zget (cpus s) (cpunum s)) as [c|] eqn:Hc.
    + eapply safe_mono; [by apply (safe_sched_yield None s c)|]. by intros a s' ->.
    + unfold safe, sched_yield, thiscpu, get_cpu, gets, mbind, M_bind. by rewrite Hc.
Qed.

Lemma mstep_inv K s s' : sched_inv s -> mstep K s s' -> sched_inv s'.
Proof.
  intros Inv [i e s1 E|i e f s1 E];
    pose proof (safe_event K e _ (with_cpu_inv None i s Inv)) as H;
    unfold safe in H; by rewrite E in H.
Qed.

(** ** Timing *)

(** Ticking a duplicate-free list of tasks: each once. *)
Lemma wp_tick_loop n i s c Q :
  zget (cpus s) (cpunum s) = Some c -> rq_ok (cpu_rq c) -> NoDup (live (cpu_rq c)) ->
  0 <= i -> i + Z.of_nat n = total (cpu_rq c) ->
  (forall p, p ∈ live (cpu_rq c) -> is_Some (zget (tasks s) p)) ->
  (forall ts', length ts' = length (tasks s) ->
     (forall p t, zget (tasks s) p = Some t ->
        zget ts' p = Some (if bool_decide (p ∈ drop (Z.to_nat i) (live (cpu_rq c)))
                           then tick_task t else t)) -> Q tt (set_tasks ts' s)) ->
  wp (tick_loop n i) s Q.
Proof.
  intros Hc Hq Hnd. revert i s Hc. induction n as [|n IH]; intros i s Hc Hi Hn Hlive HQ;
    cbn [tick_loop].
  - wp_step. replace s with (set_tasks (tasks s) s) by by destruct s. apply HQ; [done|].
    intros p t Ht. rewrite drop_ge by (pose proof (length_live _ Hq); lia).
    by rewrite bool_decide_eq_false_2 by apply not_elem_of_nil.
  - wp_step. eapply wp_eq; [by apply thiscpu_eq|]. cbv beta.
    assert (0 <= i < total (cpu_rq c)) as Hr by lia. pose proof (rq_total _ Hq).
    destruct (zget_is_Some (runQueue (cpu_rq c)) i) as [p Hp]; [rewrite (rq_length _ Hq); lia|].
    assert (live (cpu_rq c) !! Z.to_nat i = Some p) as Hlk by (by rewrite <- live_lookup).
    destruct (Hlive p) as [t Ht]; [by eapply list_elem_of_lookup_2|].
    wp_step. eapply wp_need; [exact Hp|]. wp_step. eapply wp_eq; [by apply (upd_task_eq _ p t)|].
    cbv beta. set (s1 := set_tasks _ s).
    apply (IH (i + 1) s1); [done|lia|lia| |].
    { intros q Hq'. destruct (decide (p = q)) as [->|Hne].
      - eexists. by apply (zget_insert_eq _ _ t).
      - simpl. rewrite zget_insert_ne; [by apply Hlive|apply zget_Some_range in Ht; lia|done]. }
    intros ts' Hl Hts'. apply (HQ ts'); [by rewrite Hl; simpl; rewrite length_insert|].
    rewrite (drop_S _ _ _ Hlk) in *. intros q u Hu.
    replace (Z.to_nat (i + 1)) with (S (Z.to_nat i)) in Hts' by lia.
    assert (p ∉ drop (S (Z.to_nat i)) (live (cpu_rq c))) as Hout.
    { assert (NoDup (drop (Z.to_nat i) (live (cpu_rq c)))) as Hd
        by (eapply sublist_NoDup; [exact Hnd|apply sublist_drop]).
      rewrite (drop_S _ _ _ Hlk) in Hd. by apply NoDup_cons in Hd as [? _]. }
    destruct (decide (p = q)) as [->|Hne].
    + simplify_eq. rewrite (bool_decide_eq_true_2 (q ∈ q :: _)) by by left.
      rewrite (Hts' q (tick_task t)) by (by apply (zget_insert_eq _ _ t)).
      by rewrite bool_decide_eq_false_2.
    + rewrite (Hts' q u).
      * case_bool_decide as H1; case_bool_decide as H2; try done.
        -- destruct H2. by right.
        -- apply elem_of_cons in H2 as [->|?]; done.
      * simpl. rewrite zget_insert_ne; [done|apply zget_Some_range in Ht; lia|done].
Qed.

(** What one tick does to task [q] of a CPU that runs [p]: the tasks of its queue
    get one tick, and the running task loses one more. *)
Definition after_tick (c : CpuInfo) (p q : Z) (t : Task) : Task :=
  let t' := if bool_decide (q ∈ live (cpu_rq c)) then tick_task t else t in
  if q =? p then t_set_ticks (s32 (remind_ticks t' - 1)) t' else t'.

Lemma timer_tasks_eq s c p t :
  sched_inv s -> zget (cpus s) (cpunum s) = Some c -> cpu_task c = Some p ->
  zget (tasks s) p = Some t ->
  exists ts', length ts' = length (tasks s)
    /\ (forall q u, zget (tasks s) q = Some u -> zget ts' q = Some (after_tick c p q u))
    /\ timer_tasks s
       = let s1 := set_tasks ts' s in
         if remind_ticks (after_tick c p p t) <=? 0
         then sched_yield (set_tasks (<[Z.to_nat p := t_set_state TASK_RUNNABLE
                                         (after_tick c p p t)]> ts') s1)
         else Ret tt s1.
Proof.
  intros Inv Hc Hp Ht. pose proof (zget_elem_of _ _ _ Hc) as Hin.
  pose proof (si_rq _ _ Inv c Hin) as Hq. pose proof (rq_total _ Hq) as Htot.
  assert (NoDup (live (cpu_rq c))) as Hnd.
  { destruct (list_elem_of_split _ _ Hin) as (l1 & l2 & E).
    pose proof (si_nodup _ _ Inv) as H. rewrite (all_live_split s l1 c l2 E) in H.
    by apply NoDup_app in H as [? _]. }
  destruct (wp_inv (tick_loop (Z.to_nat (total (cpu_rq c))) 0) s (fun _ s' => exists ts',
      s' = set_tasks ts' s /\ length ts' = length (tasks s) /\
      forall q u, zget (tasks s) q = Some u ->
        zget ts' q = Some (if bool_decide (q ∈ live (cpu_rq c)) then tick_task u else u)))
    as ([] & s1 & E & ts1 & -> & Hl1 & Hts1).
  { apply (wp_tick_loop _ _ s c); [done|done|done|lia|lia| |].
    - intros q Hq'. destruct (si_live _ _ Inv q) as (u & Hu & _); [|eauto].
      by eapply live_in_all.
    - intros ts' Hl' Hts'. change (Z.to_nat 0) with 0%nat in Hts'. rewrite drop_0 in Hts'. eauto. }
  pose proof (Hts1 p t Ht) as Hp1. set (t1 := if bool_decide (p ∈ _) then _ else t) in Hp1.
  set (t2 := t_set_ticks (s32 (remind_ticks t1 - 1)) t1).
  assert (after_tick c p p t = t2) as Ea by (unfold after_tick; by rewrite Z.eqb_refl).
  pose proof (zget_Some_range _ _ _ Hp1) as Hr.
  exists (<[Z.to_nat p := t2]> ts1). split; [by rewrite length_insert|]. split.
  - intros q u Hu. unfold after_tick. destruct (Z.eqb_spec q p) as [->|Hne].
    + simplify_eq. by eapply zget_insert_eq.
    + rewrite zget_insert_ne by lia. by apply Hts1.
  - rewrite Ea. unfold timer_tasks, mbind, M_bind. rewrite (thiscpu_eq _ _ Hc), Hp, E.
    rewrite (upd_task_eq (set_tasks ts1 s) p t1 _ Hp1). cbn [tasks set_tasks].
    rewrite (get_task_eq _ p t2) by (by eapply zget_insert_eq). fold t2.
    cbv zeta. destruct (remind_ticks t2 <=? 0); [|done].
    rewrite (upd_task_eq _ p t2) by (by eapply zget_insert_eq). done.
Qed.

(** What one tick means for a task [t], which becomes [t']: [queued] tells whether
    it is in the queue of the ticking processor, [running] whether that processor
    runs it.  A queued sleeper has one tick less to sleep and is ready again when
    none is left; the running task has one tick less of its quantum (both, if it
    is a sleeper that still runs).  The rest of the task stays. *)
Record ticked (queued running : bool) (t t' : Task) : Prop := {
  td_id : task_id t' = task_id t;
  td_parent : parent_id t' = parent_id t;
  td_tf : tf t' = tf t;
  td_pgdir : pgdir t' = pgdir t;
  td_state : state t' = if queued && bool_decide (state t = TASK_SLEEP)
                           && (s32 (remind_ticks t - 1) <=? 0)
                        then TASK_RUNNABLE else state t;
  td_left : remind_ticks t' =
    let n := (if queued && bool_decide (state t = TASK_SLEEP) then 1 else 0)
             + (if running then 1 else 0) in
    if n =? 0 then remind_ticks t else s32 (remind_ticks t - n)
}.

Lemma s32_pred_pred x : s32 (s32 (x - 1) - 1) = s32 (x - 2).
Proof. wrap_lia. Qed.

Lemma after_tick_ticked c p q t :
  ticked (bool_decide (q ∈ live (cpu_rq c))) (q =? p) t (after_tick c p q t).
Proof.
  unfold after_tick, tick_task.
  destruct (bool_decide (q ∈ _)), (q =? p), (decide (state t = TASK_SLEEP)) as [E|E];
    cbn [t_set_ticks t_set_state remind_ticks];
    try (destruct (Z.leb_spec (s32 (remind_ticks t - 1)) 0)); split;
    cbn [t_set_ticks t_set_state remind_ticks state task_id parent_id tf pgdir andb];
    rewrite ?(bool_decide_eq_true_2 _ E), ?(bool_decide_eq_false_2 _ E); cbn [andb];
    rewrite ?s32_pred_pred; try done;
    by destruct (Z.leb_spec (s32 (remind_ticks t - 1)) 0); try lia.
Qed.

(** ** Sleeping *)

(** What [sched_yield] does to the tasks: it returns and changes nothing, or one
    runnable task becomes the running one. *)
Lemma safe_yield_tasks s :
  safe sched_yield s (fun _ s1 => s1 = s) (fun s1 => exists p t,
    zget (tasks s) p = Some t /\ state t = TASK_RUNNABLE
    /\ tasks s1 = <[Z.to_nat p := t_set_ticks TIME_QUANT (t_set_state TASK_RUNNING t)]> (tasks s)).
Proof.
  unfold sched_yield. safe_step. apply safe_thiscpu. intros c0 _. cbv zeta.
  generalize (Z.to_nat (total (cpu_rq c0))). intros n.
  generalize (match cpu_task c0 with Some _ => current_index (cpu_rq c0) | None => 0 end).
  induction n as [|n IH]; intros i; cbn [sched_loop]; [by safe_step|].
  safe_step. apply safe_thiscpu. intros c _. safe_step. apply safe_need. intros p _.
  safe_step. apply safe_get_task. intros t Ht. destruct (decide _) as [E|_]; [|apply IH].
  safe_step. apply safe_upd_thiscpu. intros c1 _. cbv beta.
  safe_step. apply safe_upd_task. intros t1 Ht1. cbn in Ht1. simplify_eq.
  safe_step. apply safe_upd_thiscpu. intros c2 _. cbv beta.
  safe_step. apply (safe_pres same_sched); [apply pres_on_mm; pres_tac|].
  intros _ s4 (E4 & _). safe_step. apply safe_get_task. intros t4 _.
  unfold safe, iret. exists p, t. split; [done|]. split; [done|]. by rewrite E4.
Qed.

(** A task that sleeps stays the same when the scheduler switches. *)
Lemma yield_keeps_sleeper s p t :
  zget (tasks s) p = Some t -> state t <> TASK_RUNNABLE ->
  safe sched_yield s (fun _ s1 => zget (tasks s1) p = Some t) (fun s1 => zget (tasks s1) p = Some t).
Proof.
  intros Ht Hs. eapply safe_weaken; [apply safe_yield_tasks|by intros _ s1 ->|].
  intros s1 (q & u & Hu & Hr & ->). rewrite zget_insert_ne; [done|apply zget_Some_range in Hu; lia|].
  intros ->. congruence.
Qed.

(** Ticks of the timer of processor [me] that pass while task [p] is in its queue
    and another task runs there.  Between two ticks anything may happen that does
    not touch the record of [p]. *)
Inductive ticks_pass (me p : Z) : nat -> tk_state -> tk_state -> Prop :=
| ticks_none s : ticks_pass me p 0 s s
| ticks_other k s s1 s' :
    zget (tasks s1) p = zget (tasks s) p -> ticks_pass me p k s1 s' -> ticks_pass me p k s s'
| ticks_one k s c q s1 s' :
    sched_inv s -> cpunum s = me -> zget (cpus s) me = Some c -> cpu_task c = Some q -> q <> p ->
    p ∈ live (cpu_rq c) -> (timer_tasks s = Ret tt s1 \/ exists f, timer_tasks s = Iret f s1) ->
    ticks_pass me p k s1 s' -> ticks_pass me p (S k) s s'.

(** A tick and a task that sleeps in the queue of the processor. *)
Lemma tick_sleeper s c p q t :
  sched_inv s -> zget (cpus s) (cpunum s) = Some c -> cpu_task c = Some q -> q <> p ->
  p ∈ live (cpu_rq c) -> zget (tasks s) p = Some t -> state t = TASK_SLEEP ->
  0 < remind_ticks t <= 2147483647 ->
  let R s1 := exists t', zget (tasks s1) p = Some t' /\
    if 1 <? remind_ticks t then state t' = TASK_SLEEP /\ remind_ticks t' = remind_ticks t - 1
    else state t' = TASK_RUNNABLE \/ state t' = TASK_RUNNING in
  safe timer_tasks s (fun _ => R) R.
Proof.
  intros Inv Hc Hq Hne Hin Ht Hs Hr R.
  destruct (live_current _ _ _ _ Inv Hc Hq) as (_ & u & Hu & _ & _).
  destruct (timer_tasks_eq s c q u Inv Hc Hq Hu) as (ts' & _ & Hts & E).
  pose proof (Hts p t Ht) as Hp. pose proof (after_tick_ticked c q p t) as [_ _ _ _ Est El].
  rewrite (bool_decide_eq_true_2 _ Hin), (bool_decide_eq_true_2 _ Hs) in Est, El.
  destruct (Z.eqb_spec p q) as [->|_]; [done|]. cbn [andb] in Est, El.
  rewrite s32_small in Est, El by lia. cbn in El. set (t1 := after_tick c q p t) in *.
  assert (forall s1, zget (tasks s1) p = Some t1 -> R s1) as HR.
  { intros s1 H1. exists t1. split; [done|]. destruct (Z.ltb_spec 1 (remind_ticks t)).
    - destruct (Z.leb_spec (remind_ticks t - 1) 0); [lia|]. by rewrite Est.
    - destruct (Z.leb_spec (remind_ticks t - 1) 0); [|lia]. by left. }
  unfold safe. rewrite E. cbv zeta. destruct (_ <=? 0); [|by apply HR].
  set (s2 := set_tasks (<[_ := _]> _) _).
  assert (zget (tasks s2) p = Some t1) as Hp2.
  { cbn. rewrite zget_insert_ne; [done|apply zget_Some_range in Hu; lia|done]. }
  apply (safe_weaken _ _ _ _ _ _ (safe_yield_tasks s2)); [intros _ s1 ->; by apply HR|].
  intros s1 (r & v & Hv & Hrun & Ets). destruct (decide (r = p)) as [->|Hrp].
  - simplify_eq. eexists. split; [rewrite Ets; by eapply zget_insert_eq|].
    destruct (Z.ltb_spec 1 (remind_ticks t)); [|by right].
    destruct (Z.leb_spec (remind_ticks t - 1) 0); [lia|]. congruence.
  - apply HR. rewrite Ets, zget_insert_ne; [done|apply zget_Some_range in Hv; lia|done].
Qed.

Lemma ticks_zero me p k s s' :
  ticks_pass me p k s s' -> k = 0%nat -> zget (tasks s') p = zget (tasks s) p.
Proof. induction 1; [done| |done]. intros ->. rewrite IHticks_pass by done. done. Qed.

Lemma ticks_pass_asleep me p k s s' :
  ticks_pass me p k s s' -> forall t, zget (tasks s) p = Some t -> state t = TASK_SLEEP ->
  0 < remind_ticks t <= 2147483647 -> Z.of_nat k <= remind_ticks t ->
  exists t', zget (tasks s') p = Some t' /\
    if Z.of_nat k <? remind_ticks t
    then state t' = TASK_SLEEP /\ remind_ticks t' = remind_ticks t - Z.of_nat k
    else state t' = TASK_RUNNABLE \/ state t' = TASK_RUNNING.
Proof.
  induction 1 as [s|k s s1 s' E _ IH|k s c q s1 s' Inv <- Hc Hq Hne Hin E Hrun IH];
    intros t Ht Hs Hr Hk.
  - exists t. split; [done|]. destruct (Z.ltb_spec (Z.of_nat 0) (remind_ticks t)); [|lia].
    split; [done|lia].
  - apply IH; [congruence|done..].
  - pose proof (tick_sleeper s c p q t Inv Hc Hq Hne Hin Ht Hs Hr) as H. unfold safe in H.
    assert (exists t1, zget (tasks s1) p = Some t1 /\
      if 1 <? remind_ticks t then state t1 = TASK_SLEEP /\ remind_ticks t1 = remind_ticks t - 1
      else state t1 = TASK_RUNNABLE \/ state t1 = TASK_RUNNING) as (t1 & H1 & H2)
      by (by destruct E as [E|[f E]]; rewrite E in H).
    rewrite Nat2Z.inj_succ. destruct (Z.ltb_spec 1 (remind_ticks t)) as [Hlt|Hlt].
    + destruct H2 as [Hs1 El]. destruct (IH t1 H1 Hs1) as (t' & H' & H2); [lia|lia|].
      exists t'. split; [done|]. rewrite El in H2.
      destruct (Z.ltb_spec (Z.of_nat k) (remind_ticks t - 1)),
        (Z.ltb_spec (Z.succ (Z.of_nat k)) (remind_ticks t)); try lia; [|done].
      split; [apply H2|lia].
    + assert (k = 0%nat) as -> by lia. exists t1. rewrite (ticks_zero _ _ _ _ _ Hrun eq_refl).
      split; [done|]. by destruct (Z.ltb_spec (Z.succ (Z.of_nat 0)) (remind_ticks t)); [lia|].
Qed.

(** What [sys_sleep] leaves of the task that calls it. *)
Lemma sleep_puts_to_sleep s c p t n :
  zget (cpus s) (cpunum s) = Some c -> cpu_task c = Some p -> zget (tasks s) p = Some t ->
  0 < n <= 2147483647 ->
  let R s1 := zget (tasks s1) p = Some (t_set_state TASK_SLEEP (t_set_ticks n t)) in
  safe (sys_sleep n) s (fun _ => R) R.
Proof.
  intros Hc Hp Ht Hn R. unfold sys_sleep. safe_step. unfold cur. safe_step.
  eapply safe_eq; [by apply thiscpu_eq|]. apply safe_need. intros q Hq. simplify_eq.
  safe_step. apply safe_upd_task. intros u Hu. simplify_eq. cbv beta.
  safe_step. safe_step. eapply safe_eq; [by apply thiscpu_eq|]. apply safe_need.
  intros q Hq. simplify_eq. safe_step. apply safe_upd_task. intros v Hv. cbv beta.
  cbn in Hv. rewrite (zget_insert_eq _ _ _ _ Ht) in Hv. injection Hv as <-.
  rewrite s32_small by lia. apply yield_keeps_sleeper; [|done].
  cbn. rewrite list_insert_insert_eq. by eapply zget_insert_eq.
Qed.

(** ** Properties of the scheduler in the running machine *)

(** Along every run of the machine, whatever CPUs handle whatever system
    calls and timer ticks in whatever order, the scheduler's invariant holds: the
    run queues hold every existing task exactly once and nothing else, within
    their bounds, and each CPU runs a task of its own queue. *)
Theorem sched_inv_reachable K s s' :
  sched_inv s -> star (mstep K) s s' -> sched_inv s'.
Proof.
  apply (star_invariant (mstep K) sched_inv). intros a b Ha Hab. by eapply mstep_inv.
Qed.

(** C19: one timer tick on a processor that runs a task [p].  Each task of the
    kernel becomes what [ticked] says, by whether it is in the processor's queue
    and whether it is [p]: a queued sleeper gets one tick closer to waking up and
    is ready when none is left, the running task loses one tick of its quantum,
    no other task changes.  When [p] has no tick left it becomes runnable and the
    scheduler is called, otherwise the handler's work on tasks is done. *)
Theorem timer_tick_spec s c p t :
  sched_inv s -> zget (cpus s) (cpunum s) = Some c -> cpu_task c = Some p ->
  zget (tasks s) p = Some t ->
  exists ts' t', length ts' = length (tasks s) /\ zget ts' p = Some t'
    /\ (forall q u, zget (tasks s) q = Some u -> exists u', zget ts' q = Some u'
          /\ ticked (bool_decide (q ∈ live (cpu_rq c))) (q =? p) u u')
    /\ timer_tasks s
       = if remind_ticks t' <=? 0
         then sched_yield (set_tasks (<[Z.to_nat p := mkTask (task_id t') (parent_id t') (tf t')
                                          (remind_ticks t') TASK_RUNNABLE (pgdir t')]> ts') s)
         else Ret tt (set_tasks ts' s).
Proof.
  intros Inv Hc Hp Ht. destruct (timer_tasks_eq s c p t Inv Hc Hp Ht) as (ts' & Hl & Hts & E).
  exists ts', (after_tick c p p t). split; [done|]. split; [by apply Hts|]. split; [|exact E].
  intros q u Hu. exists (after_tick c p q u). split; [by apply Hts|apply after_tick_ticked].
Qed.

(** C32: a task that calls sleep for [n] ticks and is switched away from sleeps for
    exactly [n] ticks of its processor's timer, counted while that processor runs
    another task ([ticks_pass]): after fewer it is asleep with the rest of the
    ticks left, after [n] it is ready, or already running because the same tick
    ended the other task's quantum.  Between the ticks anything may happen that
    does not touch the record of the sleeping task.  (A sleeper for whom no other
    task could take over stays the current task and is counted down twice per
    tick: [sleeping_current_ticks_twice].) *)
Theorem sleep_lasts_n_ticks s c p t n f s0 k s' :
  sched_inv s -> zget (cpus s) (cpunum s) = Some c -> cpu_task c = Some p ->
  zget (tasks s) p = Some t -> 0 < n <= 2147483647 ->
  sys_sleep n s = Iret f s0 -> ticks_pass (cpunum s) p k s0 s' -> Z.of_nat k <= n ->
  exists t', zget (tasks s') p = Some t' /\
    if Z.of_nat k <? n then state t' = TASK_SLEEP /\ remind_ticks t' = n - Z.of_nat k
    else state t' = TASK_RUNNABLE \/ state t' = TASK_RUNNING.
Proof.
  intros Inv Hc Hp Ht Hn E Hrun Hk.
  set (t1 := t_set_state TASK_SLEEP (t_set_ticks n t)).
  assert (zget (tasks s0) p = Some t1) as H0.
  { pose proof (sleep_puts_to_sleep s c p t n Hc Hp Ht Hn) as H. unfold safe in H.
    by rewrite E in H. }
  by apply (ticks_pass_asleep _ _ _ _ _ Hrun t1).
Qed.

(** A task that called sleep while no other task of its CPU could run keeps
    running ([sched_yield] returned), and then every timer tick counts twice for
    it. *)
Theorem sleeping_current_ticks_twice s c p t :
  sched_inv s -> zget (cpus s) (cpunum s) = Some c -> cpu_task c = Some p ->
  zget (tasks s) p = Some t -> state t = TASK_SLEEP -> 2 < remind_ticks t <= 2147483647 ->
  wp timer_tasks s (fun _ s' => exists t', zget (tasks s') p = Some t'
    /\ state t' = TASK_SLEEP /\ remind_ticks t' = remind_ticks t - 2).
Proof.
  intros Inv Hc Hp Ht Hs Hr.
  destruct (timer_tasks_eq s c p t Inv Hc Hp Ht) as (ts' & _ & Hts & E).
  destruct (live_current _ _ _ _ Inv Hc Hp) as (Hl & _).
  assert (state (after_tick c p p t) = TASK_SLEEP
          /\ remind_ticks (after_tick c p p t) = remind_ticks t - 2) as [E1 E2].
  { unfold after_tick. rewrite Z.eqb_refl, bool_decide_eq_true_2 by done.
    unfold tick_task. rewrite decide_True by done. simpl.
    rewrite (s32_small (remind_ticks t - 1)) by lia.
    destruct (Z.leb_spec (remind_ticks t - 1) 0); [lia|]. simpl. rewrite s32_small by lia.
    split; [done|lia]. }
  rewrite E2 in E. destruct (Z.leb_spec (remind_ticks t - 2) 0); [lia|].
  eapply wp_eq; [exact E|]. exists (after_tick c p p t). split; [by apply Hts|done].
Qed.

(** ** The interrupt table *)

Section Table.
Context {W : Type} `{!Ports W} `{!ApicRegs W} `{!KbdLaws W}.
Context (K : ksyms) (A : isrs) (fuel : nat).

(** The tables as functions of the vector. *)
Definition idt_fun (s : kern W) (f : Z -> Gatedesc) (h : Z -> option handler) : Prop :=
  length (idt s) = 256%nat /\ length (trap_hnd s) = 256%nat
  /\ forall i, 0 <= i < 256 -> zget (idt s) i = Some (f i) /\ zget (trap_hnd s) i = Some (h i).

Definition upd {B} (f : Z -> B) (i : Z) (v : B) : Z -> B := fun j => if j =? i then v else f j.

Lemma wp_set_gate i g s f h Q :
  idt_fun s f h -> 0 <= i < 256 ->
  (forall l, idt_fun (set_traps l (trap_hnd s) s) (upd f i g) h ->
             Q tt (set_traps l (trap_hnd s) s)) ->
  wp (set_gate i g) s Q.
Proof.
  intros (L1 & L2 & H) Hi HQ. unfold set_gate. wp_steps. rewrite zset_Some by lia. wp_steps.
  apply HQ. split; [simpl; by rewrite length_insert|]. split; [done|]. intros j Hj.
  destruct (H j Hj) as [Hg Hh]. split; [|done]. simpl. unfold upd.
  destruct (Z.eqb_spec j i) as [->|]; [by eapply zget_insert_eq|].
  rewrite zget_insert_ne by lia. done.
Qed.

Lemma wp_set_hnd i v s f h Q :
  idt_fun s f h -> 0 <= i < 256 ->
  (forall l, idt_fun (set_traps (idt s) l s) f (upd h i v) ->
             Q tt (set_traps (idt s) l s)) ->
  wp (set_hnd i v) s Q.
Proof.
  intros (L1 & L2 & H) Hi HQ. unfold set_hnd. wp_steps. rewrite zset_Some by lia. wp_steps.
  apply HQ. split; [done|]. split; [simpl; by rewrite length_insert|]. intros j Hj.
  destruct (H j Hj) as [Hg Hh]. split; [done|]. simpl. unfold upd.
  destruct (Z.eqb_spec j i) as [->|]; [by eapply zget_insert_eq|].
  rewrite zget_insert_ne by lia. done.
Qed.

(** Only the tables change. *)
Definition only_traps (s s' : kern W) : Prop := exists l h, s' = set_traps l h s.

Lemma only_traps_trans s s1 s2 : only_traps s s1 -> only_traps s1 s2 -> only_traps s s2.
Proof. intros (l1 & h1 & ->) (l2 & h2 & ->). by exists l2, h2. Qed.

Lemma only_traps_set s l h : only_traps s (set_traps l h s).
Proof. by exists l, h. Qed.

Lemma wp_register trapno hnd entry isTrap dpl s f h :
  idt_fun s f h -> 0 <= trapno < 256 -> entry <> 0 ->
  wp (register_handler trapno hnd entry isTrap dpl) s (fun _ s' => only_traps s s' /\
    idt_fun s' (upd f trapno (SETGATE isTrap GD_KT entry dpl)) (upd h trapno (Some hnd))).
Proof.
  intros H Hi He. unfold register_handler.
  destruct (Z.geb_spec trapno 0); [|lia]. destruct (Z.ltb_spec trapno 256); [|lia].
  destruct (Z.eqb_spec entry 0); [done|]. cbn [andb negb].
  wp_step. eapply wp_set_hnd; [done|done|]. intros l1 T1.
  eapply wp_set_gate; [done|done|]. intros l2 T2. split; [|done].
  eapply only_traps_trans; apply only_traps_set.
Qed.

Definition default_gate : Gatedesc := SETGATE 1 GD_KT (Default_ISR A) 0.

Lemma wp_trap_init_loop n i s :
  length (idt s) = 256%nat -> length (trap_hnd s) = 256%nat -> 0 <= i ->
  i + Z.of_nat n = 256 ->
  (forall j, 0 <= j < i -> zget (idt s) j = Some default_gate /\ zget (trap_hnd s) j = Some None) ->
  wp (trap_init_loop A n i) s (fun _ s' => only_traps s s' /\
    idt_fun s' (fun _ => default_gate) (fun _ => None)).
Proof.
  revert i s. induction n as [|n IH]; intros i s L1 L2 Hi Hn H; cbn [trap_init_loop].
  - wp_step. split; [exists (idt s), (trap_hnd s); by destruct s|]. split; [done|]. split; [done|].
    intros j Hj. apply H. lia.
  - wp_step. unfold set_gate. wp_steps. rewrite zset_Some by lia. wp_step. wp_step.
    wp_step. unfold set_hnd. wp_steps. cbn [trap_hnd set_traps].
    rewrite zset_Some by lia. wp_step. wp_step. set (s2 := set_traps _ _ _).
    eapply wp_mono; [apply (IH (i + 1) s2); [by simpl; rewrite length_insert..|lia|lia|]|].
    + intros j Hj. simpl. destruct (Z.eq_dec i j) as [->|].
      * destruct (zget_is_Some (idt s) j) as [g Hg]; [lia|].
        destruct (zget_is_Some (trap_hnd s) j) as [h Hh]; [lia|].
        split; by eapply zget_insert_eq.
      * rewrite !zget_insert_ne by lia. apply H. lia.
    + intros u s3 [O H3]. split; [|done]. eapply only_traps_trans; [|exact O].
      eexists _, _. reflexivity.
Qed.

Definition init_traps : M (kern W) unit :=
  trap_init A ;; kbd_init A fuel ;; timer_init A ;; syscall_init A.

(** The entry point and the handler the kernel wants for vector [i]. *)
Definition entry_of (i : Z) : Z :=
  if i =? T_SYSCALL then SYSCALL A else if i =? 32 then TIM_ISR A else if i =? 33 then KBD_Input A
  else if i =? T_PGFLT then PGFLT A else if i =? T_STACK then STACK_ISR A
  else if i =? T_GPFLT then GPFLT A else Default_ISR A.
Definition handler_of (i : Z) : option handler :=
  if i =? T_SYSCALL then Some H_syscall else if i =? 32 then Some H_timer
  else if i =? 33 then Some H_kbd else if i =? T_PGFLT then Some H_page_fault else None.

Lemma idt_fun_ext s f g h k :
  (forall i, 0 <= i < 256 -> f i = g i /\ h i = k i) -> idt_fun s f h -> idt_fun s g k.
Proof.
  intros E (L1 & L2 & H). split; [done|]. split; [done|]. intros i Hi.
  destruct (H i Hi), (E i Hi). split; congruence.
Qed.

Lemma wp_trap_init s :
  length (idt s) = 256%nat -> length (trap_hnd s) = 256%nat -> PGFLT A <> 0 ->
  wp (trap_init A) s (fun _ s' => k_kbd s' = k_kbd s /\ k_w s' = k_w s /\
    idt_fun s' (upd (upd (upd (fun _ => default_gate) T_GPFLT (SETGATE 1 GD_KT (GPFLT A) 0))
                         T_STACK (SETGATE 1 GD_KT (STACK_ISR A) 0))
                    T_PGFLT (SETGATE 1 GD_KT (PGFLT A) 0))
               (upd (fun _ => None) T_PGFLT (Some H_page_fault))).
Proof.
  intros L1 L2 Hpg. unfold trap_init. wp_step.
  eapply wp_mono; [apply (wp_trap_init_loop 256 0 s L1 L2); [lia|lia|intros; lia]|].
  intros u s1 [(l1 & h1 & ->) T1]. wp_step. eapply wp_set_gate; [done|done|]. intros l2 T2.
  wp_step. eapply wp_set_gate; [done|done|]. intros l3 T3. wp_step.
  eapply wp_mono; [by apply wp_register|]. intros u' s2 [(l4 & h4 & ->) T4]. wp_step.
  split; [done|]. split; [done|]. exact T4.
Qed.

(** Programming the interrupt controllers leaves the tables alone. *)
Lemma wp_on_pic m s f h (Q : unit -> kern W -> Prop) :
  idt_fun s f h -> (forall s', idt_fun s' f h -> Q tt s') ->
  wp (on_pic (irq_setmask_8259A m)) s Q.
Proof.
  intros H HQ. apply wp_zoom. unfold irq_setmask_8259A. wp_steps.
  destruct (negb _); [wp_step; by apply HQ|]. unfold wp, on_snd, zoom, outb, mbind, M_bind.
  by apply HQ.
Qed.
End Table.

(** ** Properties of the trap code *)

(** C24: the interrupt table after initialisation.  Every one of the 256 gates is
    present, enters the kernel's code segment at the stub meant for its vector
    and, but for the system call gate, cannot be called from user mode; handlers
    are registered for the page fault, the timer, the keyboard and the system
    call only. *)
Theorem idt_after_init {W} `{!Ports W} `{!KbdLaws W} A fuel (s : kern W) q :
  length (idt s) = 256%nat -> length (trap_hnd s) = 256%nat ->
  ring (k_kbd s) q -> (kb_pending (k_w s) < fuel)%nat ->
  Forall (fun a => 0 < a < 4294967296)
    [Default_ISR A; GPFLT A; STACK_ISR A; PGFLT A; TIM_ISR A; KBD_Input A; SYSCALL A] ->
  wp (init_traps A fuel) s (fun _ s' => forall i, 0 <= i < 256 ->
    exists g, zget (idt s') i = Some g /\ gd_p g = 1 /\ gd_sel g = GD_KT
      /\ gate_offset g = entry_of A i
      /\ gd_dpl g = (if i =? T_SYSCALL then 3 else 0)
      /\ zget (trap_hnd s') i = Some (handler_of i)).
Proof.
  intros L1 L2 R Hf HA. rewrite !Forall_cons in HA. destruct HA as (a1 & a2 & a3 & a4 & a5 & a6 & a7 & _).
  unfold init_traps. wp_step. eapply wp_mono; [apply wp_trap_init; [done|done|lia]|].
  intros u s1 (Ek & Ew & T1). wp_step. unfold kbd_init. wp_step. apply wp_zoom. rewrite Ek, Ew.
  eapply wp_mono; [by apply (wp_cons_intr fuel (k_kbd s) (k_w s) q)|]. intros u1 [kb w1] _.
  wp_steps. eapply wp_on_pic; [exact T1|]. intros s2 T2.
  eapply wp_mono; [apply wp_register; [exact T2|done|lia]|]. intros u2 s3 [_ T3].
  wp_step. unfold timer_init. wp_step. unfold on_w. apply wp_zoom.
  unfold set_timer. change (TIME_HZ =? 0) with false. cbv iota zeta.
  wp_step. apply wp_outb. wp_step. apply wp_outb. apply wp_outb. wp_steps.
  eapply wp_on_pic; [exact T3|]. intros s4 T4.
  eapply wp_mono; [apply wp_register; [exact T4|done|lia]|]. intros u3 s5 [_ T5].
  unfold syscall_init. eapply wp_mono; [apply wp_register; [exact T5|done|lia]|].
  intros u4 s6 [_ (_ & _ & T6)] i Hi. destruct (T6 i Hi) as [Hg Hh]. eexists. split; [exact Hg|].
  rewrite Hh. unfold upd, entry_of, handler_of, default_gate, T_SYSCALL, T_PGFLT, T_STACK, T_GPFLT.
  change (IRQ_OFFSET + IRQ_TIMER) with 32. change (IRQ_OFFSET + IRQ_KBD) with 33.
  repeat (destruct (_ =? _); [rewrite SETGATE_offset by lia; repeat split; done|]).
  rewrite SETGATE_offset by lia. done.
Qed.

(** An interrupt without an entry of its own is not survived.  The default
    stub pushes trap number 500, which the dispatcher uses as an index into the
    256 handlers. *)
Theorem default_trap_out_of_bounds {W} `{!Ports W} `{!ApicRegs W} K fuel (s : kern W) :
  tf_trapno (stack_tf s) = T_DEFAULT -> length (trap_hnd s) = 256%nat ->
  default_trap_handler K fuel OnStack s = Stop (Fault "trap_hnd[] read").
Proof.
  intros Ht Hl. assert (zget (trap_hnd s) T_DEFAULT = None) as E.
  { unfold zget, T_DEFAULT. simpl. apply lookup_ge_None. lia. }
  unfold default_trap_handler, trap_dispatch, get_tf, modify, gets, mbind, M_bind.
  cbn [stack_tf set_last_tf trap_hnd]. rewrite Ht.
  change (T_DEFAULT =? IRQ_OFFSET + IRQ_SPURIOUS) with false. cbv iota beta.
  cbn [stack_tf set_last_tf trap_hnd]. by rewrite E.
Qed.

(** The state in which the handler of a trap from user mode runs: interrupts off,
    the frame saved in the task. *)
Definition trapped {W} (s : kern W) (p : Z) (t : Task) : kern W :=
  set_tk (set_tasks (<[Z.to_nat p := t_set_tf (stack_tf s) t]> (tasks (k_tk s))) (k_tk s))
    (set_if false (set_last_tf OnStack s)).

Lemma trap_dispatch_user {W} `{!Ports W} `{!ApicRegs W} K fuel (s : kern W) c p t h :
  let f := stack_tf s in
  tf_trapno f <> IRQ_OFFSET + IRQ_SPURIOUS -> Z.land (tf_cs f) 3 = 3 ->
  zget (trap_hnd s) (tf_trapno f) = Some (Some h) ->
  zget (cpus (k_tk s)) (Task.cpunum (k_tk s)) = Some c -> cpu_task c = Some p ->
  zget (tasks (k_tk s)) p = Some t ->
  trap_dispatch K fuel OnStack s
  = (call_handler K fuel h (OfTask p) ;; env_pop_tf (OfTask p)) (trapped s p t).
Proof.
  intros f. unfold f. clear f. intros Hsp Hcs Hh Hc Hp Ht.
  unfold trap_dispatch, gets, modify, mbind, M_bind.
  change (get_tf OnStack s) with (@Ret (kern W) Trapframe (stack_tf s) s). cbv iota beta.
  destruct (Z.eqb_spec (tf_trapno (stack_tf s)) (IRQ_OFFSET + IRQ_SPURIOUS)); [done|].
  cbv beta. cbn [trap_hnd set_last_tf]. rewrite Hh. cbn [need mret M_ret].
  rewrite Hcs. change (3 =? 3) with true. cbv iota. unfold mret, M_ret.
  unfold on_tk at 1, zoom. cbn [k_tk set_if set_last_tf].
  unfold cur, mbind, M_bind. rewrite (thiscpu_eq _ _ Hc). rewrite Hp. cbn [need mret M_ret].
  unfold mret, M_ret. unfold on_tk, zoom. cbn [k_tk set_if set_last_tf set_tk].
  rewrite (upd_task_eq _ p t _ Ht). cbn [k_tk set_if set_last_tf set_tk].
  assert (zget (<[Z.to_nat p := t_set_tf (stack_tf s) t]> (tasks (k_tk s))) p = Some (t_set_tf (stack_tf s) t)) as Ht'
    by by eapply zget_insert_eq.
  unfold get_tf, on_tk, zoom, mbind, M_bind. cbn [k_tk set_tk].
  rewrite (get_task_eq _ p (t_set_tf (stack_tf s) t)) by done. cbn [tf t_set_tf]. unfold mret, M_ret.
  cbn [trap_hnd set_tk set_if set_last_tf]. rewrite Hh. cbn [need mret M_ret].
  unfold mret, M_ret. done.
Qed.

(** ** A concrete kernel for the witnesses *)

Definition demo_isrs : isrs := mkIsrs 1 2 3 4 5 6 7 8.
Definition demo_ksyms : ksyms := mkKsyms 0 0 0 0 0 0 0 0 0 0 0 (fun _ => 0) 0 0 0 1.

(** Task 0 has called getpid. *)
Definition demo_frame : Trapframe :=
  mkTrapframe (regs_set_eax regs0 SYS_getpid) 0 0 0 0 T_SYSCALL 0 0x1000 0x1B 0 0 0x2000 0x23 0.

Definition demo_kern {W} (w : W) : kern W :=
  Kern demo_tk (SCR VIDEO [] 15 0 0 (mkSpinlock 0 "&screen_lock" None [])) kbd0 pic0 (LV 0 0)
    (replicate 256 gate0) (<[48%nat := Some H_syscall]> (replicate 256 None)) None 0
    demo_frame None 0 true w.

Lemma sched_inv_reachable_witness :
  sched_inv (switched demo_tk demo_cpu 2 2 (demo_task 2 TASK_RUNNABLE)).
Proof.
  apply (sched_inv_reachable demo_ksyms demo_tk); [apply demo_tk_inv|].
  apply star_one. apply (mstep_iret _ _ 0 EvYield tf0). by vm_compute.
Defined.

Lemma timer_tick_spec_witness :
  exists ts' t1, length ts' = 32%nat
    /\ zget ts' 1 = Some t1 /\ state t1 = TASK_SLEEP /\ remind_ticks t1 = 99
    /\ timer_tasks demo_tk = Ret tt (set_tasks ts' demo_tk).
Proof.
  destruct (timer_tick_spec demo_tk demo_cpu 0 (demo_task 0 TASK_RUNNING) demo_tk_inv)
    as (ts' & t' & Hl & Ht' & Hts & E); [reflexivity..|].
  destruct (Hts 1 (demo_task 1 TASK_SLEEP) eq_refl) as (t1 & H1 & [_ _ _ _ Hs Hr]).
  destruct (Hts 0 (demo_task 0 TASK_RUNNING) eq_refl) as (t0 & H0 & [_ _ _ _ _ Hr0]).
  assert (t' = t0) as -> by congruence.
  exists ts', t1. split; [exact Hl|]. split; [done|]. split; [exact Hs|]. split; [exact Hr|].
  rewrite E, Hr0. reflexivity.
Defined.

(** Task 0 sleeps for two ticks, and task 2 runs during them. *)
Definition next_state (m : M Task.tk_state unit) (s : Task.tk_state) : Task.tk_state :=
  match m s with Ret _ s' | Iret _ s' => s' | Stop _ => s end.
Definition demo_slept (k : nat) : Task.tk_state :=
  Nat.iter k (next_state timer_tasks) (next_state (sys_sleep 2) demo_tk).

Lemma demo_ticks : ticks_pass 0 0 2 (demo_slept 0) (demo_slept 2).
Proof.
  eapply (ticks_one _ _ _ _ (default demo_cpu (zget (cpus (demo_slept 0)) 0)) 2 (demo_slept 1));
    [apply sched_invb_sound; by vm_compute|reflexivity|by vm_compute|by vm_compute|done
    |apply (bool_decide_unpack _); by vm_compute|left; by vm_compute|].
  eapply (ticks_one _ _ _ _ (default demo_cpu (zget (cpus (demo_slept 1)) 0)) 2 (demo_slept 2));
    [apply sched_invb_sound; by vm_compute|reflexivity|by vm_compute|by vm_compute|done
    |apply (bool_decide_unpack _); by vm_compute|left; by vm_compute|constructor].
Qed.

Lemma sleep_lasts_n_ticks_witness :
  exists t', zget (tasks (demo_slept 2)) 0 = Some t'
    /\ (state t' = TASK_RUNNABLE \/ state t' = TASK_RUNNING).
Proof.
  apply (sleep_lasts_n_ticks demo_tk demo_cpu 0 (demo_task 0 TASK_RUNNING) 2 tf0 (demo_slept 0) 2
    (demo_slept 2) demo_tk_inv); [reflexivity|reflexivity|reflexivity|lia|by vm_compute
    |exact demo_ticks|lia].
Defined.

(** The first CPU's task 0, asleep. *)
Definition demo_asleep : tk_state :=
  set_tasks (<[0%nat := demo_task 0 TASK_SLEEP]> (tasks demo_tk)) demo_tk.

Lemma sleeping_current_ticks_twice_witness :
  wp timer_tasks demo_asleep (fun _ s' => exists t', zget (tasks s') 0 = Some t'
    /\ state t' = TASK_SLEEP /\ remind_ticks t' = 98).
Proof.
  apply (sleeping_current_ticks_twice demo_asleep demo_cpu 0 (demo_task 0 TASK_SLEEP));
    [apply sched_invb_sound; by vm_compute|reflexivity..|].
  simpl. unfold TIME_QUANT. lia.
Defined.

Lemma idt_after_init_witness :
  wp (init_traps demo_isrs 1) (demo_kern (Kbdc [] [])) (fun _ s' =>
    exists g, zget (idt s') 48 = Some g /\ gate_offset g = 7 /\ gd_dpl g = 3).
Proof.
  eapply wp_mono; [apply (idt_after_init demo_isrs 1 (demo_kern (Kbdc [] [])) [])|].
  - reflexivity.
  - reflexivity.
  - apply kbd0_ring.
  - simpl. lia.
  - repeat constructor.
  - intros u s' H. destruct (H 48 ltac:(lia)) as (g & H1 & _ & _ & H2 & H3 & _). eauto.
Defined.

Lemma default_trap_out_of_bounds_witness :
  default_trap_handler demo_ksyms 1 OnStack
    (set_stack_tf (mkTrapframe regs0 0 0 0 0 T_DEFAULT 0 0 8 0 0 0 0 0) (demo_kern (AB ∅ [] [])))
  = Stop (Fault "trap_hnd[] read").
Proof. apply default_trap_out_of_bounds; reflexivity. Defined.
