(* ===== verification/System.v ===== *)
(** * The running system

    Queues, tasks and memory together.  Every event of the machine (a system call
    of the running task, a timer tick, a call of the scheduler; TrapProofs.v), on
    any processor, ends without panic, fault or endless loop, keeps the
    invariants of queues (TaskInv.v) and of task memory (TaskSpace.v), and loses
    no page. *)

From S2P Require Import Prelude.
From S2P Require Import Machine.
From S2P Require Import Kmonad.
From S2P Require Import Spinlock.
From S2P Require Import PageAlloc.
From S2P Require Import Paging.
From S2P Require Import Kvm.
From S2P Require Import Space.
From Stdlib Require Import ZArith Lia.
From stdpp Require Import base gmap list strings.
From S2P Require Import Task.
From S2P Require Import TaskInv.
From S2P Require Import TaskInit.
From S2P Require Import TaskSpace.
From S2P Require Import TaskFork.
From S2P Require Import Trap.
From S2P Require Import TrapProofs.

Local Open Scope Z_scope.

(** From [s] to [s'] with other tasks and free pages, no page lost; a new task has
    the program open to it. *)
Definition conserves (K : ksyms) (s : tk_state) (ms : list tmem) (l : list Z) (s' : tk_state) : Prop :=
  exists ms' l', mem_inv s' ms' l' /\ pool (mm s') ms' l' ≡ₚ pool (mm s) ms l /\ unlocked s' /\ static s s'
    /\ forall m, m ∈ ms' -> m ∈ ms \/ tm_regions m = user_regions K (user_sizes s).

Lemma machine_ok_next K s ms l s' :
  machine_ok K s ms l -> conserves K s ms l s' -> sched_inv s' ->
  exists ms' l', machine_ok K s' ms' l' /\ pool (mm s') ms' l' ≡ₚ pool (mm s) ms l.
Proof.
  intros [M1 M2 M3 M4 M5 M6] (ms' & l' & I & P & U & (S1 & S2 & S3) & Hr) SI. exists ms', l'. split; [|exact P].
  split; [exact SI|exact I|exact U|by rewrite S1, S3|by rewrite S2|]. intros m Hm. rewrite S2. destruct (Hr m Hm); auto.
Qed.

(** The scheduler as the last step of an event that changed task structures only. *)
Lemma yield_conserves K s ms l s1 c :
  mem_inv s ms l -> sched_inv s1 -> zget (cpus s1) (cpunum s1) = Some c -> unlocked s1 -> static s s1 -> mm s1 = mm s ->
  same_views s s1 -> finishes sched_yield s1 (conserves K s ms l).
Proof.
  intros I SI Hc U St Em V. destruct (mem_inv_view s s1 ms l I) as [I1 E1]; [rewrite Em; apply same_mem_refl|exact V|].
  pose proof (sched_yield_mem s1 ms l c SI Hc I1 U) as H. unfold finishes in *.
  destruct (sched_yield s1) as [u s2|f s2|e]; [..|done]; destruct H as ([I2 E2] & U2 & St2); exists ms, l;
    (split; [exact I2|]; split; [unfold pool; by rewrite E2, E1|]; split; [exact U2|split; [by etrans|auto] ]).
Qed.

Lemma conserves_same K s ms l s' :
  mem_inv s ms l -> unlocked s' -> static s s' -> mm s' = mm s -> same_views s s' -> conserves K s ms l s'.
Proof.
  intros I U St Em V. destruct (mem_inv_view s s' ms l I) as [I1 E1]; [rewrite Em; apply same_mem_refl|exact V|].
  exists ms, l. split; [exact I1|]. split; [unfold pool; by rewrite E1|]. split; [done|]. split; [done|auto].
Qed.

(** Task structures that keep their numbers and whether they are free. *)
Definition kept (s : tk_state) (ts : list Task) : Prop :=
  length ts = length (tasks s) /\ forall p u, zget (tasks s) p = Some u ->
    exists u', zget ts p = Some u' /\ task_id u' = task_id u /\ tview u' = tview u.

Lemma kept_back s ts p u' : kept s ts -> zget ts p = Some u' ->
  exists u, zget (tasks s) p = Some u /\ task_id u' = task_id u /\ tview u' = tview u.
Proof.
  intros [Hl H] Hu'. apply zget_Some_range in Hu' as Hr. rewrite Hl in Hr. destruct (zget_is_Some _ _ Hr) as [u Hu].
  destruct (H p u Hu) as (v & Hv & H1). exists u. by simplify_eq.
Qed.

Lemma kept_inv s ts : sched_inv s -> kept s ts -> sched_inv (set_tasks ts s).
Proof.
  intros [I1 I2 I3 I4 I5 I6 I7] Hk. pose proof Hk as [Hl H]. split; try done.
  - by rewrite <- I1.
  - intros p Hp. destruct (I4 p Hp) as (t & Ht & Hf & Hid). destruct (H p t Ht) as (u & Hu & E1 & [_ E2]%tview_inv).
    exists u. split; [exact Hu|]. split; [by rewrite E2|congruence].
  - intros p u Hu Hf. destruct (kept_back s ts p u Hk Hu) as (t & Ht & _ & [_ E2]%tview_inv).
    apply (I5 p t Ht). by rewrite <- E2.
Qed.

Lemma kept_views s s' : kept s (tasks s') -> same_views s s'.
Proof.
  intros Hk p. destruct (zget (tasks s) p) as [u|] eqn:E.
  - destruct Hk as [_ H]. destruct (H p u E) as (u' & -> & _ & Ev). simpl. by rewrite Ev.
  - destruct (zget (tasks s') p) as [u'|] eqn:E'; [|done]. destruct (kept_back _ _ _ _ Hk E') as (u & Hu & _). congruence.
Qed.

Lemma kept_upd s ts p u u' :
  kept s ts -> zget ts p = Some u -> task_id u' = task_id u -> tview u' = tview u -> kept s (<[Z.to_nat p := u']> ts).
Proof.
  intros [Hl H] Hu H1 H2. split; [by rewrite length_insert|]. intros q v Hv. destruct (H q v Hv) as (w & Hw & Hw1 & Hw2).
  destruct (decide (p = q)) as [<-|Hne].
  - exists u'. split; [by eapply zget_insert_eq|]. split; congruence.
  - exists w. apply zget_Some_range in Hu. by rewrite zget_insert_ne by (lia || done).
Qed.

Lemma kept_refl s : kept s (tasks s).
Proof. split; [done|]. intros p u Hu. by exists u. Qed.

(** Calling the scheduler after such a change. *)
Lemma yield_kept K s ms l ts c :
  machine_ok K s ms l -> kept s ts -> zget (cpus s) (cpunum s) = Some c ->
  finishes sched_yield (set_tasks ts s) (conserves K s ms l).
Proof.
  intros [SI I U _ _ _] Hk Hc. apply (yield_conserves K s ms l _ c); try done; [by apply kept_inv|].
  by apply (kept_views s (set_tasks ts s)).
Qed.

(** Either there is a free task structure or there is none. *)
Lemma free_task_dec s :
  (exists q t, zget (tasks s) q = Some t /\ state t = TASK_FREE) \/ (forall q t, zget (tasks s) q = Some t -> state t <> TASK_FREE).
Proof.
  destruct (decide (Exists (fun t => state t = TASK_FREE) (tasks s))) as [Hex|Hno].
  - left. apply Exists_exists in Hex as (t & Hin & Hf). apply list_elem_of_lookup in Hin as (k & Hk). exists (Z.of_nat k), t.
    split; [|exact Hf]. unfold zget. destruct (Z.leb_spec 0 (Z.of_nat k)); [|lia]. by rewrite Nat2Z.id.
  - right. rewrite <- Forall_Exists_neg, Forall_forall in Hno. intros q t Hq. apply Hno. by eapply zget_elem_of.
Qed.

Section Events.
Context (K : ksyms) (HK : linked K) (s : tk_state) (ms : list tmem) (l : list Z) (Hok : machine_ok K s ms l).
Context (c : CpuInfo) (Hc : zget (cpus s) (cpunum s) = Some c).

Lemma tick_view t : tview (tick_task t) = tview t.
Proof.
  unfold tview, tick_task. destruct (decide (state t = TASK_SLEEP)) as [E|]; [|done]. cbv zeta.
  destruct (_ <=? 0); cbn [state pgdir t_set_state t_set_ticks]; rewrite ?E; done.
Qed.

Lemma after_tick_keeps d p q t : task_id (after_tick d p q t) = task_id t /\ tview (after_tick d p q t) = tview t.
Proof.
  unfold after_tick. set (t' := if bool_decide _ then _ else t).
  assert (task_id t' = task_id t /\ tview t' = tview t) as [H1 H2].
  { unfold t'. destruct (bool_decide _); [|done]. split; [apply tick_task_id|apply tick_view]. }
  destruct (q =? p); [|done]. split; [exact H1|]. rewrite <- H2. done.
Qed.

Lemma tick_finishes : finishes timer_tasks s (conserves K s ms l).
Proof.
  destruct Hok as [SI I U _ _ _]. destruct (cpu_task c) as [p|] eqn:Hp; cycle 1.
  { unfold timer_tasks, finishes. rewrite (bind_ret _ _ _ _ _ (thiscpu_eq _ _ Hc)), Hp. by apply conserves_same. }
  destruct (live_current _ _ _ _ SI Hc Hp) as (_ & t & Ht & Hf & _).
  destruct (timer_tasks_eq s c p t SI Hc Hp Ht) as (ts & Hlen & Hts & E).
  assert (kept s ts) as Hk.
  { split; [exact Hlen|]. intros q u Hu. exists (after_tick c p q u). split; [by apply Hts|]. apply after_tick_keeps. }
  unfold finishes. rewrite E. cbv zeta. destruct (_ <=? 0).
  - change (set_tasks ?a (set_tasks ts s)) with (set_tasks a s). apply (yield_kept K s ms l _ c Hok); [|exact Hc].
    eapply kept_upd; [exact Hk|by apply Hts|done|]. unfold tview. cbn [pgdir state t_set_state].
    rewrite !bool_decide_eq_false_2; [done| |done]. intros Hfr. apply Hf.
    destruct (after_tick_keeps c p p t) as [_ [_ Hv]%tview_inv]. by apply Hv.
  - apply conserves_same; [exact I|exact U|unfold static; done|done|]. by apply (kept_views s (set_tasks ts s)).
Qed.

Lemma cur_eq p : cpu_task c = Some p -> cur s = Ret p s.
Proof. intros Hp. unfold cur. rewrite (bind_ret _ _ _ _ _ (thiscpu_eq _ _ Hc)). by rewrite Hp. Qed.

Lemma sleep_finishes n p : cpu_task c = Some p -> finishes (sys_sleep n) s (conserves K s ms l).
Proof.
  intros Hp. destruct (live_current _ _ _ _ (mk_sched _ _ _ _ Hok) Hc Hp) as (_ & t & Ht & Hf & _).
  unfold sys_sleep. eapply finishes_step; [by apply cur_eq|]. eapply finishes_step; [by apply (upd_task_eq _ _ t)|].
  set (t1 := t_set_ticks (s32 n) t). set (s1 := set_tasks _ s).
  assert (zget (tasks s1) p = Some t1) as Ht1 by (by eapply zget_insert_eq).
  eapply (finishes_step _ _ s1 p s1).
  { unfold cur. rewrite (bind_ret _ _ s1 c s1); [by rewrite Hp|by apply thiscpu_eq]. }
  eapply finishes_step; [by apply (upd_task_eq _ _ t1)|]. cbn [tasks s1 set_tasks]. rewrite list_insert_insert_eq.
  change (set_tasks ?a (set_tasks ?b s)) with (set_tasks a s). apply (yield_kept K s ms l _ c Hok); [|exact Hc].
  eapply kept_upd; [apply kept_refl|exact Ht|done|]. unfold tview. cbn [pgdir state t_set_state t_set_ticks t1].
  by rewrite !bool_decide_eq_false_2.
Qed.

Lemma kill_finishes p : cpu_task c = Some p -> finishes (kill_self K) s (conserves K s ms l).
Proof.
  intros Hp. pose proof Hok as [SI I U _ _ _]. destruct (live_current _ _ _ _ SI Hc Hp) as (_ & t & Ht & Hf & Hid).
  unfold kill_self. eapply finishes_step; [by apply cur_eq|]. eapply finishes_step; [by apply get_task_eq|]. rewrite Hid.
  destruct (decide (0 < p /\ 1 < total (cpu_rq c))) as [ [H1 H2]|Hno].
  - destruct (mem_inv_find s ms l p t I Ht Hf) as (m & ms' & Em & P & I'). rewrite <- Em in Hp, H1 |- *.
    pose proof (kill_mem K s ms' m l c HK I' SI U Hc Hp H1 H2) as H. unfold finishes in *.
    destruct (sys_kill K (tm_pid m) s) as [u s2|f s2|e]; [..|done]; destruct H as (l' & I2 & _ & P2 & U2 & St2); exists ms', l';
      (split; [exact I2|]; split; [rewrite P2; by apply pool_perm|]; split; [done|]; split; [done|]; intros m' Hm'; left; rewrite P; by right).
  - assert (sys_kill K p s = Ret tt s) as E.
    { unfold sys_kill. destruct (_ && _) eqn:Hg; [|done]. apply andb_prop in Hg as [Hg _]. apply Z.gtb_lt in Hg.
      rewrite (bind_ret _ _ _ _ _ (thiscpu_eq _ _ Hc)). destruct (Z.gtb_spec (total (cpu_rq c)) 1); [|done].
      exfalso. apply Hno. lia. }
    unfold finishes. rewrite E. by apply conserves_same.
Qed.

Lemma fork_finishes p :
  cpu_task c = Some p ->
  ((80 <= length l)%nat \/ forall q t, zget (tasks s) q = Some t -> state t <> TASK_FREE) ->
  finishes (sys_fork K) s (conserves K s ms l).
Proof.
  intros Hp Hl. pose proof Hok as [SI I U Hn Hreg Hop]. destruct (free_task_dec s) as [Hfree|Hno].
  - destruct Hl as [Hl|Hall]; [|destruct Hfree as (q & t & Hz & Hf); by destruct (Hall _ _ Hz)].
    pose proof (wp_sys_fork K s ms l c p HK Hreg I SI U Hn Hl Hc Hp Hfree) as H.
    unfold wp, finishes in *. destruct (sys_fork K s) as [pid s2|f s2|e]; [|done|done].
    destruct H as (mp & tp & m & l' & _ & _ & _ & _ & [ [_ F1] F2 F3 F4 F5 F6 F7 F8 F9 F10 F11 F12 F13]). exists (m :: ms), l'.
    split; [done|]. split; [done|]. split; [done|]. split; [done|]. intros m' [->|Hm']%elem_of_cons; [by right|by left].
  - pose proof (wp_fork_full K s (si_tasks _ _ SI) (proj1 U) Hno) as H. unfold wp, finishes in *.
    destruct (sys_fork K s) as [pid s2|f s2|e]; [|done|done].
    destruct H as (_ & lk & Hlk & ->). apply conserves_same; try done. split; [done|apply U].
Qed.
End Events.

(** ** Runs *)

Lemma with_cpu_ok K i s ms l : machine_ok K s ms l ->
  machine_ok K (with_cpu i s) ms l /\ pool (mm (with_cpu i s)) ms l = pool (mm s) ms l.
Proof.
  intros [SI I U N R O]. destruct (mem_inv_view s (with_cpu i s) ms l I) as [I' E]; [eexists; by split|done|].
  split; [|unfold pool; by rewrite E]. split; [by apply with_cpu_inv|done..].
Qed.

(** The processor runs a task. *)
Definition busy (s : tk_state) : Prop := exists c p, zget (cpus s) (cpunum s) = Some c /\ cpu_task c = Some p.

(** System calls come from a task; a fork needs eighty free pages, or fails because
    all task structures are in use. *)
Definition allowed (e : event) (s : tk_state) : Prop :=
  match e with
  | EvFork => busy s /\ (80 <= num_free_pages (mm s) \/ forall q t, zget (tasks s) q = Some t -> state t <> TASK_FREE)
  | EvKill | EvSleep _ => busy s
  | EvTick | EvYield => True
  end.

Lemma finishes_seq {S A} (m : M S A) s (I : S -> Prop) : finishes m s I -> finishes (m ;; mret tt) s I.
Proof. unfold finishes, mbind, M_bind. by destruct (m s). Qed.

Lemma finishes_mono {S A} (m : M S A) s (I J : S -> Prop) : finishes m s I -> (forall s', I s' -> J s') -> finishes m s J.
Proof. unfold finishes. destruct (m s); auto. Qed.

Lemma event_conserves K e s ms l c :
  linked K -> machine_ok K s ms l -> zget (cpus s) (cpunum s) = Some c -> allowed e s ->
  finishes (run_event K e) s (conserves K s ms l).
Proof.
  intros HK Hok Hc Ha. destruct e as [| |n| |]; cbn [run_event allowed] in *.
  - destruct Ha as ((c' & p & Hc' & Hp) & Hl). simplify_eq. apply finishes_seq. eapply fork_finishes; [done..|].
    destruct Hl as [Hl|Hl]; [left|by right]. rewrite (wf_count _ _ (mi_wf _ _ _ (mk_mem _ _ _ _ Hok))) in Hl. lia.
  - destruct Ha as (c' & p & Hc' & Hp). simplify_eq. by eapply kill_finishes.
  - destruct Ha as (c' & p & Hc' & Hp). simplify_eq. by eapply sleep_finishes.
  - by eapply tick_finishes.
  - destruct Hok as [SI I U _ _ _]. by apply (yield_conserves K s ms l s c).
Qed.

Lemma event_step K e i s ms l :
  linked K -> machine_ok K s ms l -> 0 <= i < Z.of_nat (length (cpus s)) -> allowed e (with_cpu i s) ->
  finishes (run_event K e) (with_cpu i s) (fun s' => exists ms' l', machine_ok K s' ms' l'
    /\ pool (mm s') ms' l' ≡ₚ pool (mm s) ms l).
Proof.
  intros HK Hok Hi Ha. destruct (with_cpu_ok K i s ms l Hok) as [Hok' E].
  destruct (zget_is_Some (cpus s) i Hi) as [c Hc].
  eapply finishes_mono; [eapply finishes_safe; [by apply (event_conserves K e _ ms l c)|apply (safe_event K e), Hok'|auto]|].
  intros s' [Hcs SI]. rewrite <- E. by eapply machine_ok_next.
Qed.

(** A processor of the machine handles an event it can be asked to handle. *)
Inductive run_step (K : ksyms) (s : tk_state) : tk_state -> Prop :=
| run_ret i e s' : 0 <= i < Z.of_nat (length (cpus s)) -> allowed e (with_cpu i s) ->
    run_event K e (with_cpu i s) = Ret tt s' -> run_step K s s'
| run_iret i e f s' : 0 <= i < Z.of_nat (length (cpus s)) -> allowed e (with_cpu i s) ->
    run_event K e (with_cpu i s) = Iret f s' -> run_step K s s'.

Lemma run_step_ok K s ms l s' :
  linked K -> machine_ok K s ms l -> run_step K s s' ->
  exists ms' l', machine_ok K s' ms' l' /\ pool (mm s') ms' l' ≡ₚ pool (mm s) ms l.
Proof.
  intros HK Hok [i e s1 Hi Ha E|i e f s1 Hi Ha E]; pose proof (event_step K e i s ms l HK Hok Hi Ha) as H;
    unfold finishes in H; by rewrite E in H.
Qed.

Lemma run_ok K s ms l s' :
  linked K -> machine_ok K s ms l -> star (run_step K) s s' ->
  exists ms' l', machine_ok K s' ms' l' /\ pool (mm s') ms' l' ≡ₚ pool (mm s) ms l.
Proof.
  intros HK Hok HS. revert ms l Hok. induction HS as [s|s s1 s2 Hs HS IH]; intros ms l Hok; [by exists ms, l|].
  destruct (run_step_ok K s ms l s1 HK Hok Hs) as (ms1 & l1 & Hok1 & P1). destruct (IH ms1 l1 Hok1) as (ms2 & l2 & Hok2 & P2).
  exists ms2, l2. split; [exact Hok2|]. by rewrite P2.
Qed.

(** ** The machine after start-up, and what its tasks can reach *)

(** The frame that [va] maps to in directory [d]. *)
Definition phys (s : mm_state) (d va : Z) : option Z := vm_page (ram s) d va.

Lemma stack_phys s l m k f :
  mm_wf s l -> space s l (tm_dir m) (tm_map m) -> 0 <= k < 10 -> tm_frames m !! Z.to_nat k = Some f ->
  phys s (tm_dir m) (stack_va k) = Some f.
Proof.
  intros W Sp Hk Hf. pose proof (zip_elem k (tm_frames m) f Hk Hf) as Hin.
  pose proof (frame_range _ _ _ _ _ W (sp_frame _ _ _ _ Sp _ _ Hin)). pose proof (wf_npages s l W).
  unfold phys, vm_page. rewrite (sp_map _ _ _ _ Sp _ _ Hin). simpl. f_equal.
  unfold insert_entry. rewrite page2pa_spec, <- Z.lor_assoc by lia.
  destruct (pte_fields f (Z.lor PTE_UW PTE_P)) as [_ ->]; [lia|by vm_compute|]. by apply Z.div_mul.
Qed.

Lemma pool_apart s ms l m1 m2 q :
  NoDup (pool s ms l) -> m1 ∈ ms -> m2 ∈ ms -> m1 <> m2 -> q ∈ tm_own s m1 -> q ∉ tm_own s m2.
Proof.
  intros (Hnd & _ & _)%NoDup_app H1 H2 Hne Hq1 Hq2. revert Hnd H1 H2. induction ms as [|m ms IH]; [intros _ H; by apply elem_of_nil in H|].
  cbn [mbind list_bind]. change (list_bind _ _ (tm_own s) ms) with (ms ≫= tm_own s). intros (_ & Hd & Hnd)%NoDup_app.
  intros [->|H1]%elem_of_cons [->|H2]%elem_of_cons.
  - done.
  - apply (Hd q Hq1). by eapply pool_in.
  - apply (Hd q Hq2). by eapply pool_in.
  - by apply IH.
Qed.

(** The other tasks of the queue, when one is killed. *)
Lemma killed_others s s1 c p t t' q :
  sched_inv s -> zget (cpus s) (cpunum s) = Some c -> zget (tasks s) p = Some t ->
  live (cpu_rq c) ≡ₚ p :: live q -> tasks s1 = <[Z.to_nat p := t']> (tasks s) ->
  forall r, r ∈ live q -> zget (tasks s1) r = zget (tasks s) r.
Proof.
  intros SI Hc Ht Hperm T r Hr. apply zget_Some_range in Ht as Hrp. rewrite T, zget_insert_ne; [done|lia|].
  intros ->. destruct (list_elem_of_split _ _ (zget_elem_of _ _ _ Hc)) as (l1 & l2 & E).
  pose proof (si_nodup _ _ SI) as Hnd. rewrite (all_live_split s l1 c l2 E) in Hnd. apply NoDup_app in Hnd as [Hnd _].
  rewrite Hperm in Hnd. by apply NoDup_cons in Hnd as [? _].
Qed.

(** ** Properties *)

(** Every event of the machine comes to an end: whichever processor handles
    whichever system call, tick or call of the scheduler, with eighty free pages
    for a fork (or all task structures in use), the kernel neither panics nor
    accesses memory out of bounds nor loops or deadlocks; it returns or resumes a
    task, with queues, task memory and locks in order again, and the pages of all
    tasks and the free ones are together the same as before. *)
Theorem event_never_stops K e i s ms l :
  linked K -> machine_ok K s ms l -> 0 <= i < Z.of_nat (length (cpus s)) -> allowed e (with_cpu i s) ->
  finishes (run_event K e) (with_cpu i s) (fun s' => exists ms' l', machine_ok K s' ms' l'
    /\ pool (mm s') ms' l' ≡ₚ pool (mm s) ms l).
Proof. apply event_step. Qed.

(** Along every run of the machine no page is lost and none is used twice: each
    page is free or belongs to exactly one task, whatever tasks were created and
    killed in between. *)
Theorem run_conserves_pages K s ms l s' :
  linked K -> machine_ok K s ms l -> star (run_step K) s s' ->
  exists ms' l', machine_ok K s' ms' l' /\ NoDup (pool (mm s') ms' l') /\ pool (mm s') ms' l' ≡ₚ pool (mm s) ms l.
Proof.
  intros HK Hok HS. destruct (run_ok K s ms l s' HK Hok HS) as (ms' & l' & Hok' & P). exists ms', l'.
  split; [exact Hok'|]. split; [|exact P]. exact (mi_pool _ _ _ (mk_mem _ _ _ _ Hok')).
Qed.

(** C7: Tasks cannot reach each other's stacks: along every run of [run_step], whatever
    pages of their stacks two tasks use, the MMU takes them to frames, and to
    different ones.  In such a run the processors handle system calls, ticks and
    calls of the scheduler in any order, each to its end before the next begins; a
    fork comes when eighty pages are free, or when it fails because all task
    structures are in use (with less memory task_create can miss that page_insert
    failed and leave a page of the stack unmapped); the uninitialised local of
    page_remove is not zero ([linked]). *)
Theorem stacks_isolated K s ms l s' p q tp tq i j :
  linked K -> machine_ok K s ms l -> star (run_step K) s s' ->
  p <> q -> zget (tasks s') p = Some tp -> state tp <> TASK_FREE -> zget (tasks s') q = Some tq -> state tq <> TASK_FREE ->
  0 <= i < 10 -> 0 <= j < 10 ->
  exists dp dq f g, pgdir tp = dirp dp /\ pgdir tq = dirp dq
    /\ phys (mm s') dp (stack_va i) = Some f /\ phys (mm s') dq (stack_va j) = Some g /\ f <> g.
Proof.
  intros HK Hok HS Hpq Htp Hfp Htq Hfq Hi Hj. destruct (run_ok K s ms l s' HK Hok HS) as (ms' & l' & Hok' & _).
  pose proof (mk_mem _ _ _ _ Hok') as I. destruct (mi_all _ _ _ I p tp Htp Hfp) as (mp & Hmp & Ep), (mi_all _ _ _ I q tq Htq Hfq) as (mq & Hmq & Eq).
  destruct (mi_ok _ _ _ I mp Hmp) as [Lp (tp' & Htp' & _ & Dp) Sp], (mi_ok _ _ _ I mq Hmq) as [Lq (tq' & Htq' & _ & Dq) Sq].
  rewrite Ep in Htp'. rewrite Eq in Htq'. assert (tp' = tp) as -> by congruence. assert (tq' = tq) as -> by congruence.
  destruct (lookup_lt_is_Some_2 (tm_frames mp) (Z.to_nat i)) as [f Hf]; [lia|].
  destruct (lookup_lt_is_Some_2 (tm_frames mq) (Z.to_nat j)) as [g Hg]; [lia|].
  exists (tm_dir mp), (tm_dir mq), f, g. split; [exact Dp|]. split; [exact Dq|]. pose proof (mi_wf _ _ _ I) as W.
  split; [by eapply stack_phys|]. split; [by eapply stack_phys|]. intros ->.
  eapply (pool_apart (mm s') ms' l' mp mq g (mi_pool _ _ _ I) Hmp Hmq); [congruence| |].
  - apply frames_own; [exact Lp|]. by eapply list_elem_of_lookup_2.
  - apply frames_own; [exact Lq|]. by eapply list_elem_of_lookup_2.
Qed.

(** C13: Start-up on the boot processor, with eighty free pages: [task_init] comes to
    an end, the processor runs its first task, whose address space holds a stack
    and the user program, and the machine is in order: every run from here on has
    the properties above. *)
Theorem task_init_starts_machine K s l c :
  linked K -> Forall region_ok (user_regions K (program_sizes K)) -> mm_wf (mm s) l -> placed (mm s) -> (80 <= length l)%nat ->
  Forall unused (cpus s) -> zget (cpus s) (cpunum s) = Some c -> percpu_ok s c -> 0 < ncpu s <= Z.of_nat (length (cpus s)) ->
  wp (task_init K) s (fun _ s' => (exists m l', machine_ok K s' [m] l' /\ pool (mm s') [m] l' ≡ₚ l
    /\ window (user_regions K (program_sizes K)) (mm s') (tm_dir m)) /\ first_task s' /\ length (cpus s') = length (cpus s)
    /\ user_sizes s' = program_sizes K).
Proof.
  intros HK Hreg W P Hl HF Hc Hok Hn. eapply wp_mono; [by apply (wp_task_init K s l c)|].
  intros u s' (H1 & H2 & H3 & H4 & _). done.
Qed.

(** C5: [sys_fork] by a running task, with eighty free pages (and the uninitialised
    local of page_remove not zero).  With all task structures in use it returns -1
    and changes neither tasks nor memory.  Otherwise the new task has the parent's
    registers, with 0 as result of the call, and the parent gets the child's number;
    the ten pages of the child's stack hold what the parent's hold, in frames of its
    own; above KERNBASE physical memory is mapped for the kernel, and the program's
    pages for user mode too; below it, but for the stack, the child's address space
    is exactly the one setupkvm makes: the array of pages, the I/O hole, the kernel
    stacks, the local APIC; no page that was in use is changed, and pages are
    conserved. *)
Theorem sys_fork_copies_parent K s ms l c p :
  linked K -> machine_ok K s ms l -> (80 <= length l)%nat -> zget (cpus s) (cpunum s) = Some c -> cpu_task c = Some p ->
  wp (sys_fork K) s (fun pid s' =>
    (pid = -1 /\ (forall q t, zget (tasks s) q = Some t -> state t <> TASK_FREE)
       /\ tasks s' = tasks s /\ cpus s' = cpus s /\ mm s' = mm s)
    \/ (exists mp tp m l', mp ∈ ms /\ tm_pid mp = p /\ zget (tasks s) p = Some tp
         /\ (exists t, zget (tasks s) pid = Some t /\ state t = TASK_FREE) /\ forked K s ms l mp tp pid s' m l')).
Proof.
  intros HK [SI I U Hn Hreg Hop] Hl Hc Hp. destruct (free_task_dec s) as [Hfree|Hno].
  - eapply wp_mono; [by apply (wp_sys_fork K s ms l c p)|]. intros pid s' H. by right.
  - eapply wp_mono; [by apply (wp_fork_full K s (si_tasks _ _ SI) (proj1 U))|]. intros pid s' (-> & lk & _ & ->). by left.
Qed.


(** ** A concrete machine for the witnesses *)

(** One thousand four hundred pages, the first thousand three hundred free; the
    array of pages, the kernel's directory, the program and the kernel stacks are
    above them. *)
Definition demo_boot_mm : mm_state :=
  free_up 1300 (upd_cfg (fun c => mkCfg (c_npages c) 0 0 (KERNBASE + 1320 * 4096) (KERNBASE + 1310 * 4096) MMIOBASE 0 0 (c_ctx c) [] [])
                 (fresh_mm 1400 0 0)).

(** One processor, no task. *)
Definition demo_boot : tk_state :=
  TK demo_boot_mm [] [mkCpu 0 1 None rq0 tss0] 1 0 (mkSpinlock 0 "&tasks_lock" None []) (mkSpinlock 0 "&cpus_lock" None [])
     gdt_init (0, 0, 0, 0) None.

(** A program of two pages of text and one page each for the rest. *)
Definition demo_K : ksyms :=
  mkKsyms (KERNBASE + 0x532000) (KERNBASE + 0x533800) (KERNBASE + 0x534000) (KERNBASE + 0x534800)
    (KERNBASE + 0x535000) (KERNBASE + 0x535010) (KERNBASE + 0x536000) (KERNBASE + 0x536400)
    (KERNBASE + 0x532000) (KERNBASE + 0x532100) (KERNBASE + 0x538000) (fun _ => 0) 0 MMIOBASE 0xFEE00000 1.

Lemma demo_K_linked : linked demo_K.
Proof. split; [by vm_compute..|done]. Qed.

Lemma demo_K_regions : Forall region_ok (user_regions demo_K (program_sizes demo_K)).
Proof. repeat constructor; by vm_compute. Qed.

Lemma demo_boot_wf : mm_wf demo_boot_mm (down_from 1300).
Proof.
  apply free_up_wf.
  - by apply upd_cfg_wf; [by apply fresh_wf|].
  - intros p Hp. cbn [pages upd_cfg fresh_mm]. rewrite lookup_zero_pages. by rewrite bool_decide_true by lia.
Qed.

Lemma down_from_length n : length (down_from n) = n.
Proof. induction n as [|n IH]; [done|]. cbn [down_from length]. by rewrite IH. Qed.

Lemma demo_boot_free : (80 <= length (down_from 1300))%nat.
Proof. rewrite down_from_length. lia. Qed.

Lemma free_up_cfg n s : cfg (free_up n s) = cfg s.
Proof. induction n as [|n IH]; [done|]. exact IH. Qed.

Lemma demo_boot_placed : placed demo_boot_mm.
Proof. unfold placed, npages, kern_pgdir, demo_boot_mm. rewrite free_up_cfg. by vm_compute. Qed.

Lemma demo_boot_unused : Forall unused (cpus demo_boot).
Proof. repeat constructor; try lia; by vm_compute. Qed.

Lemma demo_boot_cpu : zget (cpus demo_boot) (cpunum demo_boot) = Some (mkCpu 0 1 None rq0 tss0).
Proof.
  unfold cpunum, demo_boot. cbn [mm]. unfold demo_boot_mm. rewrite free_up_cfg. reflexivity.
Qed.

Lemma demo_boot_percpu : percpu_ok demo_boot (mkCpu 0 1 None rq0 tss0).
Proof. split; [by vm_compute|]. eexists. reflexivity. Qed.

(** After start-up that machine has a running task and room for more. *)
Lemma demo_started : exists s m l, machine_ok demo_K s [m] l /\ (80 <= length l)%nat /\ busy (with_cpu (cpunum s) s)
  /\ 0 <= cpunum s < Z.of_nat (length (cpus s)) /\ length (cpus s) = 1%nat
  /\ user_sizes s = program_sizes demo_K /\ pool (mm s) [m] l ≡ₚ down_from 1300.
Proof.
  assert (0 < ncpu demo_boot <= Z.of_nat (length (cpus demo_boot))) as Hn by by vm_compute.
  destruct (wp_inv _ _ _ (wp_task_init demo_K demo_boot (down_from 1300) _ demo_K_linked demo_K_regions demo_boot_wf demo_boot_placed
    demo_boot_free demo_boot_unused demo_boot_cpu demo_boot_percpu Hn)) as (u & s & _ & (m & l & Hok & HP & _) & (i & c & t & Hc & Hi & _) & Hlc & Hz & _).
  exists s, m, l. split; [exact Hok|]. split; [|split; [by exists c, i|split; [by eapply zget_Some_range|by split; [|split] ] ] ].
  pose proof (Permutation_length HP) as Hlen. rewrite down_from_length in Hlen. unfold pool in Hlen.
  rewrite length_app in Hlen. cbn [mbind list_bind] in Hlen. rewrite app_nil_r in Hlen.
  unfold tm_own, own in Hlen. cbn [length] in Hlen. rewrite length_app, length_fmap in Hlen.
  pose proof (tables_length (ram (mm s)) (tm_dir m)).
  assert (length (tm_map m) <= 10)%nat by (unfold tm_map; rewrite length_zip_with; apply Nat.le_min_l). lia.
Qed.

Lemma event_never_stops_witness :
  exists s i ms l, machine_ok demo_K s ms l /\
    finishes (run_event demo_K EvFork) (with_cpu i s) (fun s' => exists ms' l', machine_ok demo_K s' ms' l'
      /\ pool (mm s') ms' l' ≡ₚ pool (mm s) ms l).
Proof.
  destruct demo_started as (s & m & l & Hok & Hl & Hb & Hr & _). exists s, (cpunum s), [m], l. split; [exact Hok|].
  apply (event_never_stops demo_K EvFork (cpunum s) s [m] l demo_K_linked Hok Hr). split; [exact Hb|]. left.
  change (num_free_pages (mm (with_cpu (cpunum s) s))) with (num_free_pages (mm s)).
  rewrite (wf_count _ _ (mi_wf _ _ _ (mk_mem _ _ _ _ Hok))). lia.
Defined.

(** One fork later there are two tasks. *)
Lemma demo_forked_once : exists s m l s' p q tp tq, machine_ok demo_K s [m] l /\ star (run_step demo_K) s s' /\ p <> q
  /\ zget (tasks s') p = Some tp /\ state tp <> TASK_FREE /\ zget (tasks s') q = Some tq /\ state tq <> TASK_FREE
  /\ length (cpus s') = 1%nat.
Proof.
  destruct demo_started as (s & m & l & Hok & Hl & Hb & Hr & Hlc & _). pose proof Hb as (c & p & Hc & Hp). set (s0 := with_cpu (cpunum s) s) in *.
  destruct (with_cpu_ok demo_K (cpunum s) s [m] l Hok) as [Hok0 _]. fold s0 in Hok0. pose proof Hok0 as [SI I U Hn Hreg Hop].
  destruct (live_current _ _ _ _ SI Hc Hp) as (_ & tp & Htp & Hf & _).
  assert (exists q t, zget (tasks s0) q = Some t /\ state t = TASK_FREE) as Hfree.
  { destruct (zget_is_Some (tasks s0) (if p =? 0 then 1 else 0)) as [t Ht]; [rewrite (si_tasks _ _ SI); destruct (p =? 0); lia|].
    exists (if p =? 0 then 1 else 0), t. split; [exact Ht|]. destruct (decide (state t = TASK_FREE)) as [|Hne]; [done|].
    destruct (mi_all _ _ _ I _ t Ht Hne) as (m1 & ->%list_elem_of_singleton & E1).
    destruct (mi_all _ _ _ I p tp Htp Hf) as (m2 & ->%list_elem_of_singleton & E2). exfalso.
    destruct (Z.eqb_spec p 0); lia. }
  destruct (wp_inv _ _ _ (wp_sys_fork demo_K s0 [m] l c p demo_K_linked Hreg I SI U Hn Hl Hc Hp Hfree))
    as (pid & s' & E & mp & tp' & mc & l' & _ & Emp & Htp' & (t & Ht & Hft) & F). assert (tp' = tp) as -> by congruence.
  destruct (fo_child _ _ _ _ _ _ _ _ _ _ F) as (tc & Htc & Hst & _).
  exists s, m, l, s', p, pid, (t_set_tf (tf_set_eax (tf tp) (u32 pid)) tp), tc. split; [exact Hok|]. split_and!.
  - apply star_one. apply (run_ret demo_K s (cpunum s) EvFork); [exact Hr| |].
    + split; [exact Hb|]. left. fold s0. rewrite (wf_count _ _ (mi_wf _ _ _ I)). lia.
    + cbn [run_event]. fold s0. unfold mbind, M_bind. by rewrite E.
  - intros ->. congruence.
  - rewrite <- Emp. exact (fo_parent _ _ _ _ _ _ _ _ _ _ F).
  - exact Hf.
  - exact Htc.
  - congruence.
  - destruct (fo_static _ _ _ _ _ _ _ _ _ _ F) as (_ & _ & ->). exact Hlc.
Qed.

Lemma run_conserves_pages_witness :
  exists s s' ms l, machine_ok demo_K s ms l /\ s <> s' /\
    exists ms' l', machine_ok demo_K s' ms' l' /\ NoDup (pool (mm s') ms' l') /\ pool (mm s') ms' l' ≡ₚ pool (mm s) ms l.
Proof.
  destruct demo_forked_once as (s & m & l & s' & p & q & tp & tq & Hok & HS & Hpq & Htp & Hfp & Htq & Hfq & _).
  exists s, s', [m], l. split; [exact Hok|]. split.
  - intros ->. destruct (mi_all _ _ _ (mk_mem _ _ _ _ Hok) p tp Htp Hfp) as (m1 & ->%list_elem_of_singleton & E1).
    destruct (mi_all _ _ _ (mk_mem _ _ _ _ Hok) q tq Htq Hfq) as (m2 & ->%list_elem_of_singleton & E2). congruence.
  - exact (run_conserves_pages demo_K s [m] l s' demo_K_linked Hok HS).
Defined.

Lemma stacks_isolated_witness :
  exists s tp tq, zget (tasks s) 0 <> None /\ pgdir tp <> pgdir tq /\ exists dp dq f g, pgdir tp = dirp dp /\ pgdir tq = dirp dq
    /\ phys (mm s) dp (stack_va 3) = Some f /\ phys (mm s) dq (stack_va 3) = Some g /\ f <> g.
Proof.
  destruct demo_forked_once as (s & m & l & s' & p & q & tp & tq & Hok & HS & Hpq & Htp & Hfp & Htq & Hfq & _).
  destruct (stacks_isolated demo_K s [m] l s' p q tp tq 3 3 demo_K_linked Hok HS Hpq Htp Hfp Htq Hfq ltac:(lia) ltac:(lia))
    as (dp & dq & f & g & E1 & E2 & H1 & H2 & Hne).
  exists s', tp, tq. split; [|split].
  - destruct (run_ok demo_K s [m] l s' demo_K_linked Hok HS) as (ms' & l' & Hok' & _).
    destruct (zget_is_Some (tasks s') 0) as [t ->]; [rewrite (si_tasks _ _ (mk_sched _ _ _ _ Hok')); lia|done].
  - rewrite E1, E2. unfold dirp. intros E. assert (dp = dq) as -> by lia. congruence.
  - by exists dp, dq, f, g.
Defined.

Lemma task_init_starts_machine_witness :
  wp (task_init demo_K) demo_boot (fun _ s' => (exists m l', machine_ok demo_K s' [m] l' /\ pool (mm s') [m] l' ≡ₚ down_from 1300
    /\ window (user_regions demo_K (program_sizes demo_K)) (mm s') (tm_dir m)) /\ first_task s' /\ length (cpus s') = 1%nat
    /\ user_sizes s' = program_sizes demo_K).
Proof.
  apply (task_init_starts_machine demo_K demo_boot (down_from 1300) (mkCpu 0 1 None rq0 tss0) demo_K_linked demo_K_regions demo_boot_wf
    demo_boot_placed demo_boot_free demo_boot_unused demo_boot_cpu demo_boot_percpu). by vm_compute.
Defined.

Lemma sys_fork_copies_parent_witness :
  exists s ms l p, machine_ok demo_K s ms l /\ wp (sys_fork demo_K) s (fun pid s' =>
    (pid = -1 /\ (forall q t, zget (tasks s) q = Some t -> state t <> TASK_FREE)
       /\ tasks s' = tasks s /\ cpus s' = cpus s /\ mm s' = mm s)
    \/ (exists mp tp m l', mp ∈ ms /\ tm_pid mp = p /\ zget (tasks s) p = Some tp
         /\ (exists t, zget (tasks s) pid = Some t /\ state t = TASK_FREE) /\ forked demo_K s ms l mp tp pid s' m l')).
Proof.
  destruct demo_started as (s & m & l & Hok & Hl & (c & p & Hc & Hp) & Hr & _).
  destruct (with_cpu_ok demo_K (cpunum s) s [m] l Hok) as [Hok0 _]. exists (with_cpu (cpunum s) s), [m], l, p. split; [exact Hok0|].
  exact (sys_fork_copies_parent demo_K (with_cpu (cpunum s) s) [m] l c p demo_K_linked Hok0 Hl Hc Hp).
Defined.

(** On a machine with one processor all tasks are in its queue; let it run [p]. *)
Lemma run_on_only_cpu K s ms l p q tp tq :
  machine_ok K s ms l -> length (cpus s) = 1%nat -> p <> q -> zget (tasks s) p = Some tp -> state tp <> TASK_FREE ->
  zget (tasks s) q = Some tq -> state tq <> TASK_FREE ->
  exists s' c, machine_ok K s' ms l /\ zget (cpus s') (cpunum s') = Some c /\ cpu_task c = Some p /\ 1 < total (cpu_rq c).
Proof.
  intros Hok H1 Hpq Htp Hfp Htq Hfq. destruct (with_cpu_ok K 0 s ms l Hok) as [Hok0 _]. set (s0 := with_cpu 0 s) in *.
  destruct Hok0 as [SI I U Hn Hreg Hop]. change (cpus s) with (cpus s0) in H1.
  destruct (cpus s0) as [|c [|? ?] ] eqn:Ec; [done| |done].
  assert (forall r, r ∈ all_live s0 -> r ∈ live (cpu_rq c)) as Hlive.
  { intros r. unfold all_live. rewrite Ec. cbn. by rewrite app_nil_r. }
  assert (p ∈ live (cpu_rq c)) as Hp by (apply Hlive; by destruct (si_queued _ _ SI p tp Htp Hfp)).
  assert (q ∈ live (cpu_rq c)) as Hq by (apply Hlive; by destruct (si_queued _ _ SI q tq Htq Hfq)).
  assert (zget (cpus s0) 0 = Some c) as Hc by (by rewrite Ec).
  pose proof (si_rq _ _ SI c (zget_elem_of _ _ _ Hc)) as Hrq.
  exists (set_cpus (<[Z.to_nat 0 := c_set_task (Some p) c]> (cpus s0)) s0), (c_set_task (Some p) c). split_and!.
  - split; [| |done| |done|done].
    + eapply (inv_upd_cpu None s0 0 c); [exact SI|exact Hc|by apply zset_Some; rewrite Ec|exact Hrq|done|by intros r [= <-] ].
    + destruct (mem_inv_view s0 (set_cpus (<[Z.to_nat 0 := c_set_task (Some p) c]> (cpus s0)) s0) ms l I) as [H _];
        [apply same_mem_refl|done|exact H].
    + cbn [ncpu cpus set_cpus]. rewrite length_insert, Ec. exact Hn.
  - change (zget (<[Z.to_nat 0 := c_set_task (Some p) c]> (cpus s0)) 0 = Some (c_set_task (Some p) c)). by eapply zget_insert_eq.
  - done.
  - cbn [cpu_rq c_set_task]. rewrite <- (length_live _ Hrq). apply list_elem_of_lookup in Hp as (i & Hi), Hq as (j & Hj).
    apply lookup_lt_Some in Hi as Hi', Hj as Hj'. assert (i <> j) by (intros ->; congruence). lia.
Qed.

