(* ===== verification/UserMode.v ===== *)
(** * What user code can do to memory

    A task in user mode stores a byte wherever the MMU lets it: where an entry of
    its address space has both PTE_U and PTE_W.  Such a store hits a page of its
    own stack or a page of the program, which all tasks share; page tables,
    kernel data, free pages and other tasks' stacks stay as they are.  BootRun.v
    states this of every state the booted kernel gets into. *)

From S2P Require Import Prelude.
From S2P Require Import Machine.
From S2P Require Import Kmonad.
From S2P Require Import Spinlock.
From S2P Require Import PageAlloc.
From S2P Require Import Paging.
From S2P Require Import Kvm.
From S2P Require Import Space.
From S2P Require Import Bytes.
From Stdlib Require Import ZArith Lia.
From stdpp Require Import base gmap list strings.
From S2P Require Import Task.
From S2P Require Import TaskInv.
From S2P Require Import TaskInit.
From S2P Require Import TaskSpace.
From S2P Require Import TaskFork.
From S2P Require Import TrapProofs.
From S2P Require Import System.

Local Open Scope Z_scope.

(** The byte [b] is stored at [va] in the address space of directory page [d];
    [None] is a page fault. *)
Definition user_store (d va b : Z) (s : mm_state) : option mm_state :=
  match vm_lookup (ram s) d va with
  | Some e => if user_write e then Some (set_ram (wr8 (ram s) (PTE_ADDR e + PGOFF va) (u8 b)) s) else None
  | None => None
  end.

(** Frame [f] holds a page of the user program. *)
Definition image (K : ksyms) (sz : Z * Z * Z * Z) (f : Z) : Prop :=
  exists va, KERNBASE <= va < 4294967296 /\ in_regions (user_regions K sz) va = true /\ f = PGNUM va - 960 * 1024.

(** ** Writes into one frame *)

Lemma wr8_wf s l pa b : mm_wf s l -> mm_wf (set_ram (wr8 (ram s) pa (u8 b)) s) l.
Proof.
  intros W. apply set_ram_wf; [exact W|]. intros a x. unfold wr8. destruct (decide (pa - pa mod 4 = a)) as [<-|].
  - rewrite lookup_insert_eq. intros [= <-]. apply byte_upd_range; [by eapply rd32_range|apply Z.mod_pos_bound; lia|apply u8_range].
  - rewrite lookup_insert_ne by done. apply (wf_ram s l W).
Qed.

Lemma wr8_outside s f o b : 0 <= o < 4096 -> outside [f] s (set_ram (wr8 (ram s) (f * 4096 + o) b) s).
Proof.
  intros Ho q Hq. split; [done|]. intros o' Ho'. cbn [ram set_ram]. unfold wr8, rd32. rewrite lookup_insert_ne; [done|].
  intros E. apply Hq. apply list_elem_of_singleton. Z.to_euclidean_division_equations. lia.
Qed.

(** Memory that changes in a frame which holds nobody's directory or tables. *)
Lemma mem_inv_writes s m' ms l f :
  mem_inv s ms l -> mm_wf m' l -> pages m' = pages (mm s) -> cfg m' = cfg (mm s) -> outside [f] (mm s) m' ->
  (forall m, m ∈ ms -> f <> tm_dir m /\ f ∉ tables (ram (mm s)) (tm_dir m)) ->
  mem_inv (set_mm m' s) ms l /\ (ms ≫= tm_own m') = (ms ≫= tm_own (mm s)).
Proof.
  intros [I1 I2 I3 I4 I5 I6] W Ep Ec HO Hf.
  assert (forall q, q <> f -> same_words q (mm s) m') as Hsw.
  { intros q Hq. destruct (HO q) as [_ H]; [by intros ?%list_elem_of_singleton|exact H]. }
  assert (forall m, m ∈ ms -> space m' l (tm_dir m) (tm_map m) /\ tm_own m' m = tm_own (mm s) m
    /\ (forall va, vm_lookup (ram m') (tm_dir m) va = vm_lookup (ram (mm s)) (tm_dir m) va)) as H.
  { intros m Hm. destruct (Hf m Hm) as [H1 H2]. apply space_writes; [apply I4, Hm|exact Ep|unfold npages; by rewrite Ec|by apply Hsw|].
    intros t Ht. apply Hsw. by intros ->. }
  assert ((ms ≫= tm_own m') = (ms ≫= tm_own (mm s))) as Eo by (apply bind_ext; intros m Hm; by apply H).
  split; [|exact Eo]. split; [exact W|unfold pool; cbn [mm set_mm]; by rewrite Eo|exact I3| |exact I5|].
  - intros m Hm. destruct (H m Hm) as (Sp & _ & El). eapply tm_ok_keep; [by apply I4|exact Sp|exact El|apply I4, Hm].
  - eapply placed_layout; [|exact I6]. unfold layout, npages, kern_pgdir. cbn [mm set_mm]. by rewrite Ec.
Qed.

(** ** Where an entry leads *)

Lemma entry_addr f perm : 0 <= f < 65536 -> 0 <= Z.lor perm PTE_P < 4096 -> PTE_ADDR (Z.lor (Z.lor (f * 4096) perm) PTE_P) = f * 4096.
Proof. intros Hf Hp. rewrite <- Z.lor_assoc. by apply pte_fields. Qed.

Section Store.
Context (K : ksyms) (s : tk_state) (ms : list tmem) (l : list Z) (Hok : machine_ok K s ms l).
Context (m : tmem) (Hm : m ∈ ms) (va : Z) (Hva : 0 <= va < 4294967296).

(** A page of the task's own stack, or of the program. *)
Lemma write_target e :
  vm_lookup (ram (mm s)) (tm_dir m) va = Some e -> user_write e = true ->
  exists f, PTE_ADDR e = f * 4096 /\ (f ∈ tm_frames m \/ image K (user_sizes s) f).
Proof.
  intros He Hu. pose proof Hok as [_ I _ _ _ Hop]. pose proof (mi_ok _ _ _ I m Hm) as [Hl _ Sp Hw Hwa].
  destruct (decide (va < KERNBASE)) as [Hlt|Hge].
  - destruct (Hwa va e ltac:(lia) He Hu) as (va' & f & Hin & Hp). exists f.
    rewrite (same_page_lookup _ _ _ _ Hp), (sp_map _ _ _ _ Sp va' f Hin) in He. injection He as <-.
    pose proof (frame_range _ _ _ _ _ (mi_wf _ _ _ I) (sp_frame _ _ _ _ Sp _ _ Hin)). pose proof (wf_npages _ _ (mi_wf _ _ _ I)).
    split; [unfold insert_entry; rewrite page2pa_spec by lia; apply entry_addr; [lia|by vm_compute]|].
    left. unfold tm_map in Hin. by apply elem_of_zip_r in Hin.
  - assert (KERNBASE <= va < 4294967296) as Hk by lia. pose proof (kern_PGNUM va Hk). rewrite (Hw va Hk) in He. injection He as <-.
    unfold kentry in *. destruct (in_regions (tm_regions m) va) eqn:Er.
    + exists (PGNUM va - 960 * 1024). split; [apply entry_addr; [lia|by vm_compute]|]. right. exists va. by rewrite <- (Hop m Hm).
    + rewrite user_write_entry in Hu by (by apply Z.mod_mul). by vm_compute in Hu.
Qed.

(** Neither holds tables. *)
Lemma target_apart f :
  (f ∈ tm_frames m \/ image K (user_sizes s) f) -> (forall q, image K (user_sizes s) q -> q ∉ pool (mm s) ms l) ->
  forall m', m' ∈ ms -> f <> tm_dir m' /\ f ∉ tables (ram (mm s)) (tm_dir m').
Proof.
  intros Hf Himg m' Hm'. pose proof (mk_mem _ _ _ _ Hok) as I. pose proof (mi_ok _ _ _ I m Hm) as [Hl _ Sp _ _].
  assert (forall q, q = tm_dir m' \/ q ∈ tables (ram (mm s)) (tm_dir m') -> q ∈ tm_own (mm s) m') as Hown.
  { intros q [->|Hq]; [by left|]. right. apply elem_of_app. by left. }
  assert (forall q, q ∈ tm_own (mm s) m' -> q ∈ pool (mm s) ms l) as Hpool.
  { intros q Hq. apply elem_of_app. left. by eapply pool_in. }
  cut (f = tm_dir m' \/ f ∈ tables (ram (mm s)) (tm_dir m') -> False); [tauto|]. intros Hin. destruct Hf as [Hf|Hf].
  - destruct (decide (m' = m)) as [->|Hne].
    + pose proof (own_nodup (mm s) l _ _ (mi_wf _ _ _ I) Sp) as (Hnd & _ & _)%NoDup_app.
      destruct (child_tables (mm s) m Hl Hnd) as (_ & H1 & H2). destruct Hin as [->|Hin]; [done|]. by apply (H2 f).
    + apply (pool_apart (mm s) ms l m m' f (mi_pool _ _ _ I) Hm Hm' ltac:(done)); [by apply frames_own|by apply Hown].
  - by apply (Himg f Hf), Hpool, Hown.
Qed.

Lemma store_ok b m' :
  (forall q, image K (user_sizes s) q -> q ∉ pool (mm s) ms l) -> user_store (tm_dir m) va b (mm s) = Some m' ->
  machine_ok K (set_mm m' s) ms l /\ pool m' ms l = pool (mm s) ms l /\
  exists f, (f ∈ tm_frames m \/ image K (user_sizes s) f) /\ outside [f] (mm s) m'.
Proof.
  intros Himg. unfold user_store. destruct (vm_lookup _ _ va) as [e|] eqn:He; [|done].
  destruct (user_write e) eqn:Hu; [|done]. intros [= <-]. destruct (write_target e He Hu) as (f & Ef & Hf). rewrite Ef.
  set (m' := set_ram _ _). pose proof Hok as [SI I U Hn Hr Hop].
  assert (outside [f] (mm s) m') as HO by (apply wr8_outside; rewrite PGOFF_spec; apply Z.mod_pos_bound; lia).
  destruct (mem_inv_writes s m' ms l f I (wr8_wf _ _ _ _ (mi_wf _ _ _ I)) eq_refl eq_refl HO (target_apart f Hf Himg)) as [I' Eo].
  split; [split; [by eapply inv_ext; [..|exact SI]|exact I'|exact U|exact Hn|exact Hr|exact Hop]|].
  split; [unfold pool; by rewrite Eo|]. by exists f.
Qed.
End Store.

(** ** Where a store of a task goes *)

Lemma store_confined K s ms l p t d va b m' :
  machine_ok K s ms l -> (forall f, image K (user_sizes s) f -> f ∉ pool (mm s) ms l) ->
  zget (tasks s) p = Some t -> state t <> TASK_FREE -> pgdir t = dirp d -> 0 <= va < 4294967296 ->
  user_store d va b (mm s) = Some m' ->
  machine_ok K (set_mm m' s) ms l /\ pool m' ms l = pool (mm s) ms l
  /\ exists f, outside [f] (mm s) m'
       /\ ((exists k, 0 <= k < 10 /\ phys (mm s) d (stack_va k) = Some f) \/ image K (user_sizes s) f).
Proof.
  intros Hok Himg Ht Hf Hd Hva Hs. pose proof (mk_mem _ _ _ _ Hok) as I. destruct (mi_all _ _ _ I p t Ht Hf) as (m & Hm & Hp).
  pose proof (mi_ok _ _ _ I m Hm) as [Hl (u & Hu & _ & Hdu) Sp _ _]. rewrite Hp in Hu. assert (u = t) as -> by congruence.
  assert (d = tm_dir m) as -> by (unfold dirp in *; lia).
  destruct (store_ok K s ms l Hok m Hm va Hva b m' Himg Hs) as (Hok' & HP & f & Hfr & HO).
  split; [exact Hok'|]. split; [exact HP|]. exists f. split; [exact HO|]. destruct Hfr as [Hfr|Hi]; [left|by right].
  apply list_elem_of_lookup in Hfr as (k & Hk). exists (Z.of_nat k). apply lookup_lt_Some in Hk as Hk'. split; [lia|].
  eapply stack_phys; [apply I|exact Sp|lia|]. by rewrite Nat2Z.id.
Qed.

(** ** The frames of a concrete program *)

Lemma demo_image f : image demo_K (program_sizes demo_K) f -> 1330 <= f.
Proof.
  intros (va & _ & Hr & ->). unfold in_regions in Hr. apply existsb_exists in Hr as (r & Hin & Hr). apply andb_prop in Hr as [Hr _].
  apply Z.leb_le in Hr. cut (960 * 1024 + 1330 <= PGNUM (fst r)); [lia|].
  cbn in Hin. destruct Hin as [<-|[<-|[<-|[<-|[] ] ] ] ]; by vm_compute.
Qed.
