(* ===== verification/Str.v ===== *)
(** * String routines (lib/string.c)

    Memory is a map from addresses to bytes; reading or writing an address that
    is not in the map is a fault, so a routine that runs past the end of a buffer
    does not return.  Loops without a bound of their own get [S (size m)] turns:
    they move one address up per turn, so they meet a fault before that. *)

From S2P Require Import Prelude.
From S2P Require Import Machine.
From S2P Require Import Kmonad.
From Stdlib Require Import ZArith Lia.
From stdpp Require Import base gmap list strings.

Local Open Scope Z_scope.

Abbreviation bmem := (gmap Z Z).

Definition ld (a : Z) : M bmem Z := m ← get; need (m !! a) "read".
Definition st (a v : Z) : M bmem unit :=
  m ← get; _ ← need (m !! a) "write"; put (<[a := u8 v]> m).

Definition fuel_of (m : bmem) : nat := S (size m).

(** ** Length *)

Fixpoint strlen_loop (fuel : nat) (s n : Z) : M bmem Z :=
  match fuel with
  | O => hang "strlen"
  | S fuel' => c ← ld s; if negb (c =? 0) then strlen_loop fuel' (s + 1) (n + 1) else mret n
  end.

Definition strlen (s : Z) : M bmem Z := f ← gets fuel_of; strlen_loop f s 0.

Fixpoint strnlen_loop (size : nat) (s n : Z) : M bmem Z :=
  match size with
  | O => mret n
  | S size' => c ← ld s; if negb (c =? 0) then strnlen_loop size' (s + 1) (n + 1) else mret n
  end.

(** [size] is often [(size_t) -1]; the bound on the turns is cut to what memory
    can hold, which no run reaches. *)
Definition strnlen (s size : Z) : M bmem Z :=
  f ← gets fuel_of; strnlen_loop (Z.to_nat (Z.min size (Z.of_nat f))) s 0.

(** ** Copying *)

Fixpoint strcpy_loop (fuel : nat) (dst src : Z) : M bmem unit :=
  match fuel with
  | O => hang "strcpy"
  | S fuel' =>
      c ← ld src;
      st dst c ;;
      if negb (c =? 0) then strcpy_loop fuel' (dst + 1) (src + 1) else mret tt
  end.

Definition strcpy (dst src : Z) : M bmem Z :=
  f ← gets fuel_of; strcpy_loop f dst src ;; mret dst.

Definition strcat (dst src : Z) : M bmem Z :=
  len ← strlen dst; _ ← strcpy (dst + len) src; mret dst.

Fixpoint strncpy_loop (size : nat) (dst src : Z) : M bmem unit :=
  match size with
  | O => mret tt
  | S size' =>
      c ← ld src;
      st dst c ;;
      c' ← ld src;
      strncpy_loop size' (dst + 1) (if negb (c' =? 0) then src + 1 else src)
  end.

Definition strncpy (dst src size : Z) : M bmem Z :=
  strncpy_loop (Z.to_nat size) dst src ;; mret dst.

(** [n] is [size - 1] on entry: the turns left; the result is the final [dst]. *)
Fixpoint strlcpy_loop (n : nat) (dst src : Z) : M bmem Z :=
  match n with
  | O => st dst 0 ;; mret dst
  | S n' =>
      c ← ld src;
      if negb (c =? 0) then st dst c ;; strlcpy_loop n' (dst + 1) (src + 1)
      else st dst 0 ;; mret dst
  end.

Definition strlcpy (dst src size : Z) : M bmem Z :=
  if (size >? 0) then d ← strlcpy_loop (Z.to_nat (size - 1)) dst src; mret (d - dst)
  else mret 0.

(** ** Comparing and searching *)

Fixpoint strcmp_loop (fuel : nat) (p q : Z) : M bmem Z :=
  match fuel with
  | O => hang "strcmp"
  | S fuel' =>
      a ← ld p;
      if (a =? 0) then b ← ld q; mret (a - b)
      else b ← ld q; if (a =? b) then strcmp_loop fuel' (p + 1) (q + 1) else mret (a - b)
  end.

Definition strcmp (p q : Z) : M bmem Z := f ← gets fuel_of; strcmp_loop f p q.

Fixpoint strncmp_loop (n : nat) (p q : Z) : M bmem Z :=
  match n with
  | O => mret 0
  | S n' =>
      a ← ld p;
      if (a =? 0) then b ← ld q; mret (a - b)
      else b ← ld q; if (a =? b) then strncmp_loop n' (p + 1) (q + 1) else mret (a - b)
  end.

Definition strncmp (p q n : Z) : M bmem Z := strncmp_loop (Z.to_nat n) p q.

(** [strchr] and [strfind] differ in what they return at the end of the string. *)
Fixpoint strchr_loop (fuel : nat) (s c : Z) : M bmem (Z * bool) :=
  match fuel with
  | O => hang "strchr"
  | S fuel' =>
      x ← ld s;
      if (x =? 0) then mret (s, false)
      else if (x =? u8 c) then mret (s, true) else strchr_loop fuel' (s + 1) c
  end.

Definition strchr (s c : Z) : M bmem Z :=
  f ← gets fuel_of; r ← strchr_loop f s c; mret (if (snd r : bool) then fst r else 0).

Definition strfind (s c : Z) : M bmem Z :=
  f ← gets fuel_of; r ← strchr_loop f s c; mret (fst r).

(** ** Blocks *)

(** [rep stosb]. *)
Fixpoint stosb (n : nat) (d c : Z) : M bmem unit :=
  match n with
  | O => mret tt
  | S n' => st d c ;; stosb n' (d + 1) c
  end.

(** [rep stosl]: the four bytes of [c], low byte first. *)
Fixpoint stosl (n : nat) (d c : Z) : M bmem unit :=
  match n with
  | O => mret tt
  | S n' =>
      st d c ;; st (d + 1) (Z.shiftr c 8) ;; st (d + 2) (Z.shiftr c 16) ;;
      st (d + 3) (Z.shiftr c 24) ;; stosl n' (d + 4) c
  end.

Definition memset (v c n : Z) : M bmem Z :=
  if (n =? 0) then mret v
  else if (v mod 4 =? 0) && (n mod 4 =? 0) then
    let b := Z.land c 0xFF in
    let w := Z.lor (Z.lor (Z.lor (Z.shiftl b 24) (Z.shiftl b 16)) (Z.shiftl b 8)) b in
    stosl (Z.to_nat (n / 4)) v w ;; mret v
  else stosb (Z.to_nat n) v c ;; mret v.

(** [rep movsb] / [rep movsl] upwards and downwards; [k] is the unit.  A unit is
    read as a whole before it is written. *)
Fixpoint ld_unit (k : nat) (a : Z) : M bmem (list Z) :=
  match k with
  | O => mret []
  | S k' => x ← ld a; xs ← ld_unit k' (a + 1); mret (x :: xs)
  end.

Fixpoint st_unit (l : list Z) (a : Z) : M bmem unit :=
  match l with
  | [] => mret tt
  | x :: l' => st a x ;; st_unit l' (a + 1)
  end.

Fixpoint movs_up (n k : nat) (d s : Z) : M bmem unit :=
  match n with
  | O => mret tt
  | S n' => l ← ld_unit k s; st_unit l d ;; movs_up n' k (d + Z.of_nat k) (s + Z.of_nat k)
  end.

Fixpoint movs_down (n k : nat) (d s : Z) : M bmem unit :=
  match n with
  | O => mret tt
  | S n' => l ← ld_unit k s; st_unit l d ;; movs_down n' k (d - Z.of_nat k) (s - Z.of_nat k)
  end.

Definition memmove (dst src n : Z) : M bmem Z :=
  (if (src <? dst) && (src + n >? dst) then
     let s := src + n in
     let d := dst + n in
     if (s mod 4 =? 0) && (d mod 4 =? 0) && (n mod 4 =? 0)
     then movs_down (Z.to_nat (n / 4)) 4 (d - 4) (s - 4)
     else movs_down (Z.to_nat n) 1 (d - 1) (s - 1)
   else if (src mod 4 =? 0) && (dst mod 4 =? 0) && (n mod 4 =? 0)
   then movs_up (Z.to_nat (n / 4)) 4 dst src
   else movs_up (Z.to_nat n) 1 dst src) ;;
  mret dst.

Definition memcpy (dst src n : Z) : M bmem Z := memmove dst src n.

Fixpoint memcmp_loop (n : nat) (s1 s2 : Z) : M bmem Z :=
  match n with
  | O => mret 0
  | S n' =>
      a ← ld s1; b ← ld s2;
      if negb (a =? b) then mret (a - b) else memcmp_loop n' (s1 + 1) (s2 + 1)
  end.

Definition memcmp (v1 v2 n : Z) : M bmem Z := memcmp_loop (Z.to_nat n) v1 v2.

Fixpoint memfind_loop (n : nat) (s c : Z) : M bmem Z :=
  match n with
  | O => mret s
  | S n' => x ← ld s; if (x =? u8 c) then mret s else memfind_loop n' (s + 1) c
  end.

Definition memfind (s c n : Z) : M bmem Z := memfind_loop (Z.to_nat n) s c.

(** ** Numbers *)

Fixpoint skip_blanks (fuel : nat) (s : Z) : M bmem Z :=
  match fuel with
  | O => hang "strtol"
  | S fuel' => c ← ld s; if (c =? 32) || (c =? 9) then skip_blanks fuel' (s + 1) else mret s
  end.

(** The digit a character stands for; [char] is signed. *)
Definition digit (c : Z) : option Z :=
  let c := s8 c in
  if (48 <=? c) && (c <=? 57) then Some (c - 48)
  else if (97 <=? c) && (c <=? 122) then Some (c - 97 + 10)
  else if (65 <=? c) && (c <=? 90) then Some (c - 65 + 10)
  else None.

(** [long] has 32 bits; overflow wraps. *)
Fixpoint digits_loop (fuel : nat) (s base val : Z) : M bmem (Z * Z) :=
  match fuel with
  | O => hang "strtol"
  | S fuel' =>
      c ← ld s;
      match digit c with
      | None => mret (s, val)
      | Some dig =>
          if (dig >=? base) then mret (s, val)
          else digits_loop fuel' (s + 1) base (s32 (val * base + dig))
      end
  end.

(** The value and [*endptr]. *)
Definition strtol (s base : Z) : M bmem (Z * Z) :=
  f ← gets fuel_of;
  s1 ← skip_blanks f s;
  c ← ld s1;
  let neg := (c =? 45) in
  let s2 := if (c =? 43) || (c =? 45) then s1 + 1 else s1 in
  c0 ← ld s2;
  hex ← (if ((base =? 0) || (base =? 16)) && (c0 =? 48) then c1 ← ld (s2 + 1); mret (c1 =? 120)
         else mret false);
  let '(s3, b) := if (hex : bool) then (s2 + 2, 16)
                  else if (base =? 0) && (c0 =? 48) then (s2 + 1, 8)
                  else if (base =? 0) then (s2, 10) else (s2, base) in
  r ← digits_loop f s3 b 0;
  mret (if neg then s32 (- snd r) else snd r, fst r).

(** ** Blocks: proofs *)

(** The [n] bytes from [a] on are there. *)
Definition present (m : bmem) (a n : Z) : Prop :=
  forall x, a <= x < a + n -> exists b, m !! x = Some b /\ 0 <= b < 256.

(** [m'] is [m] with the [n] bytes from [s] on copied to [d], as if all were read
    before any is written. *)
Definition copied (m m' : bmem) (d s n : Z) : Prop :=
  forall x, m' !! x = if bool_decide (d <= x < d + n) then m !! (s + (x - d)) else m !! x.

(** [n] zero bytes at [a]. *)
Definition zeros (a n : Z) : bmem := gset_to_gmap 0 (list_to_set (seqZ a n)).

Lemma zeros_lookup a n x : a <= x < a + n -> zeros a n !! x = Some 0.
Proof.
  intros Hx. apply lookup_gset_to_gmap_Some. split; [|done].
  apply elem_of_list_to_set, elem_of_seqZ. lia.
Qed.

Lemma zeros_None a n x : ~ (a <= x < a + n) -> zeros a n !! x = None.
Proof.
  intros Hx. apply eq_None_not_Some. intros (y & Hy%lookup_gset_to_gmap_Some).
  destruct Hy as [Hy%elem_of_list_to_set%elem_of_seqZ _]. lia.
Qed.

Lemma zeros_present a n : present (zeros a n) a n.
Proof. intros x Hx. exists 0. split; [by apply zeros_lookup|lia]. Qed.

Lemma present_sub m a n b k : present m a n -> a <= b -> b + k <= a + n -> present m b k.
Proof. intros H ?? x Hx. apply H. lia. Qed.

Lemma wp_ld (m : bmem) a b Q : m !! a = Some b -> Q b m -> wp (ld a) m Q.
Proof. intros H HQ. unfold ld. wp_steps. by eapply wp_need. Qed.

Lemma wp_st (m : bmem) a b v Q : m !! a = Some b -> Q tt (<[a := u8 v]> m) -> wp (st a v) m Q.
Proof. intros H HQ. unfold st. wp_steps. eapply wp_need; [done|]. by wp_steps. Qed.

Lemma wp_ld_unit k a (m : bmem) Q :
  present m a (Z.of_nat k) ->
  (forall l, length l = k -> Forall (fun b => 0 <= b < 256) l ->
     (forall i, (i < k)%nat -> l !! i = m !! (a + Z.of_nat i)) -> Q l m) ->
  wp (ld_unit k a) m Q.
Proof.
  revert a Q. induction k as [|k IH]; intros a Q Hp HQ; cbn [ld_unit].
  - wp_step. apply HQ; [done|done|lia].
  - destruct (Hp a ltac:(lia)) as (b & Hb & Hr). wp_step. eapply wp_ld; [done|]. wp_step.
    apply IH; [eapply present_sub; [exact Hp|lia|lia]|]. intros l Hl Hf Hi. wp_step.
    apply HQ; [simpl; lia|by constructor|]. intros [|i] H; [by rewrite Z.add_0_r|].
    simpl. rewrite Hi by lia. f_equal. lia.
Qed.

Lemma wp_st_unit l a (m : bmem) Q :
  present m a (Z.of_nat (length l)) -> Forall (fun b => 0 <= b < 256) l ->
  (forall m', (forall x, m' !! x = if bool_decide (a <= x < a + Z.of_nat (length l))
                                   then l !! Z.to_nat (x - a) else m !! x) -> Q tt m') ->
  wp (st_unit l a) m Q.
Proof.
  revert a m. induction l as [|b l IH]; intros a m Hp Hf HQ; cbn [st_unit].
  - wp_step. apply HQ. intros x. rewrite bool_decide_eq_false_2; [done|simpl; lia].
  - apply Forall_cons in Hf as [Hb Hf]. simpl in Hp.
    destruct (Hp a ltac:(lia)) as (b0 & Hb0 & _). wp_step. eapply wp_st; [done|].
    rewrite u8_small by done. apply IH; [|done|].
    + intros x Hx. destruct (Hp x ltac:(lia)) as (b' & Hb' & Hr'). exists b'.
      by rewrite lookup_insert_ne by lia.
    + intros m' Hm'. apply HQ. intros x. rewrite Hm'.
      case_bool_decide as H1; case_bool_decide as H2; simpl in H2; try lia.
      * replace (Z.to_nat (x - a)) with (S (Z.to_nat (x - (a + 1)))) by lia. done.
      * assert (x = a) as -> by lia. by rewrite lookup_insert_eq, Z.sub_diag.
      * by rewrite lookup_insert_ne by lia.
Qed.

(** One unit. *)
Lemma wp_move_unit k d s (m : bmem) Q :
  present m s (Z.of_nat k) -> present m d (Z.of_nat k) ->
  (forall m', copied m m' d s (Z.of_nat k) -> Q tt m') ->
  wp (l ← ld_unit k s; st_unit l d) m Q.
Proof.
  intros Hs Hd HQ. wp_step. apply wp_ld_unit; [done|]. intros l Hl Hf Hi.
  apply wp_st_unit; [by rewrite Hl|done|]. intros m' Hm'. apply HQ. intros x. rewrite Hm', Hl.
  case_bool_decide; [|done]. rewrite Hi by lia. f_equal. lia.
Qed.

Lemma copied_present m m' d s n a k :
  copied m m' d s n -> present m s n -> present m a k -> present m' a k.
Proof.
  intros C Hs Ha x Hx. rewrite (C x). case_bool_decide; [apply Hs; lia|by apply Ha].
Qed.

Lemma wp_unit_then k d s (m : bmem) (rest : M bmem unit) Q :
  present m s (Z.of_nat k) -> present m d (Z.of_nat k) ->
  (forall m', copied m m' d s (Z.of_nat k) -> wp rest m' Q) ->
  wp (l ← ld_unit k s; st_unit l d ;; rest) m Q.
Proof.
  intros Hs Hd HQ. pose proof (wp_move_unit k d s m (fun _ m' => wp rest m' Q) Hs Hd HQ) as H.
  apply wp_inv in H as ([] & m' & (l & m1 & E1 & E2)%bind_ret_inv & H).
  wp_step. eapply wp_eq; [exact E1|]. wp_step. eapply wp_eq; [exact E2|]. exact H.
Qed.

Lemma wp_movs_up n k d s (m : bmem) :
  let len := Z.of_nat n * Z.of_nat k in
  d <= s \/ s + len <= d -> present m s len -> present m d len ->
  wp (movs_up n k d s) m (fun _ m' => copied m m' d s len).
Proof.
  revert d s m. induction n as [|n IH]; intros d s m len Hov Hs Hd; cbn [movs_up].
  - wp_step. intros x. rewrite bool_decide_eq_false_2; [done|subst len; lia].
  - assert (len = Z.of_nat k + Z.of_nat n * Z.of_nat k) as El by (subst len; nia).
    assert (0 <= Z.of_nat n * Z.of_nat k) by lia. clearbody len. subst len.
    apply wp_unit_then; [eapply present_sub; [exact Hs|lia|lia]|
                         eapply present_sub; [exact Hd|lia|lia]|].
    intros m1 C1. assert (present m s (Z.of_nat k)) by (eapply present_sub; [exact Hs|lia|lia]).
    eapply wp_mono; [apply IH; [lia| |]|].
    + eapply copied_present; [exact C1|done|]. eapply present_sub; [exact Hs|lia|lia].
    + eapply copied_present; [exact C1|done|]. eapply present_sub; [exact Hd|lia|lia].
    + intros u m' C2 x. rewrite (C2 x). case_bool_decide as H1.
      * rewrite (C1 _), bool_decide_eq_false_2 by lia. rewrite bool_decide_eq_true_2 by lia.
        f_equal. lia.
      * rewrite (C1 x). case_bool_decide; case_bool_decide; try lia; done.
Qed.

Lemma wp_movs_down n k d s (m : bmem) :
  let len := Z.of_nat n * Z.of_nat k in
  let back := (Z.of_nat n - 1) * Z.of_nat k in
  s <= d -> present m (s - back) len -> present m (d - back) len ->
  wp (movs_down n k d s) m (fun _ m' => copied m m' (d - back) (s - back) len).
Proof.
  revert d s m. induction n as [|n IH]; intros d s m len back Hov Hs Hd; cbn [movs_down].
  - wp_step. intros x. rewrite bool_decide_eq_false_2; [done|subst len; lia].
  - assert (len = Z.of_nat k + Z.of_nat n * Z.of_nat k) as El by (subst len; nia).
    assert (back = Z.of_nat n * Z.of_nat k) as Eb by (subst back; nia).
    set (N := Z.of_nat n * Z.of_nat k) in *. assert (0 <= N) by (subst N; lia).
    clearbody len back. subst len back.
    assert (present m s (Z.of_nat k)) as Hs1 by (eapply present_sub; [exact Hs|lia|lia]).
    apply wp_unit_then; [done|eapply present_sub; [exact Hd|lia|lia]|]. intros m1 C1.
    assert (forall y, y - Z.of_nat k - (Z.of_nat n - 1) * Z.of_nat k = y - N) as Ey
      by (intros y; subst N; nia).
    eapply wp_mono; [apply IH; [lia| |]|]; rewrite ?Ey; fold N.
    + eapply copied_present; [exact C1|done|]. eapply present_sub; [exact Hs|lia|lia].
    + eapply copied_present; [exact C1|done|]. eapply present_sub; [exact Hd|lia|lia].
    + intros u m' C2 x. rewrite (C2 x). case_bool_decide as H1.
      * rewrite (C1 _), bool_decide_eq_false_2 by lia. rewrite bool_decide_eq_true_2 by lia. done.
      * rewrite (C1 x). case_bool_decide; case_bool_decide; try lia; [|done].
        f_equal. lia.
Qed.

(** ** Strings: proofs *)

(** The characters [l] and a final NUL lie from [a] on. *)
Fixpoint str_at (m : bmem) (a : Z) (l : list Z) : Prop :=
  match l with
  | [] => m !! a = Some 0
  | c :: l' => m !! a = Some c /\ 0 < c < 256 /\ str_at m (a + 1) l'
  end.

Lemma str_at_keys m a l x :
  str_at m a l -> a <= x <= a + Z.of_nat (length l) -> is_Some (m !! x).
Proof.
  revert a. induction l as [|c l IH]; intros a; simpl.
  - intros H Hx. replace x with a by lia. eauto.
  - intros (H & _ & Hl) Hx. destruct (Z.eq_dec x a) as [->|]; [eauto|]. apply (IH (a + 1)); [done|lia].
Qed.

(** The bound on the number of turns is large enough. *)
Lemma str_at_fuel m a l : str_at m a l -> (length l < fuel_of m)%nat.
Proof.
  intros H. unfold fuel_of. rewrite <- size_dom.
  assert (list_to_set (seqZ a (Z.of_nat (length l) + 1)) ⊆ dom m) as Hs.
  { intros x Hx. apply elem_of_list_to_set, elem_of_seqZ in Hx. apply elem_of_dom.
    eapply str_at_keys; [done|lia]. }
  apply subseteq_size in Hs. rewrite size_list_to_set in Hs by apply NoDup_seqZ.
  rewrite length_seqZ in Hs. lia.
Qed.

Lemma wp_strlen_loop fuel a n (m : bmem) l :
  str_at m a l -> (length l < fuel)%nat ->
  strlen_loop fuel a n m = Ret (n + Z.of_nat (length l)) m.
Proof.
  revert a n fuel. induction l as [|c l IH]; intros a n [|fuel] H Hf; simpl in Hf; try lia;
    cbn [strlen_loop]; unfold ld, get, mbind, M_bind.
  - simpl in H. rewrite H. simpl. f_equal. lia.
  - destruct H as (H & Hc & Hl). rewrite H. simpl. destruct (Z.eqb_spec c 0); [lia|]. simpl.
    rewrite IH by (done || lia). f_equal. lia.
Qed.

Lemma strlen_eq a (m : bmem) l : str_at m a l -> strlen a m = Ret (Z.of_nat (length l)) m.
Proof.
  intros H. unfold strlen, gets, mbind, M_bind.
  rewrite (wp_strlen_loop _ _ _ _ l H (str_at_fuel _ _ _ H)). f_equal.
Qed.

(** The comparison [strcmp] makes, on the characters. *)
Fixpoint list_cmp (l1 l2 : list Z) : Z :=
  match l1, l2 with
  | [], [] => 0
  | [], b :: _ => - b
  | a :: _, [] => a
  | a :: l1', b :: l2' => if a =? b then list_cmp l1' l2' else a - b
  end.

Lemma list_cmp_eq l1 l2 :
  Forall (fun c => 0 < c < 256) l1 -> Forall (fun c => 0 < c < 256) l2 ->
  list_cmp l1 l2 = 0 <-> l1 = l2.
Proof.
  intros H1. revert l2. induction H1 as [|a l1 Ha H1 IH]; intros [|b l2] H2; simpl.
  - done.
  - apply Forall_cons in H2 as [Hb _]. split; [lia|done].
  - split; [lia|done].
  - apply Forall_cons in H2 as [Hb H2]. destruct (Z.eqb_spec a b) as [->|Hne].
    + rewrite IH by done. split; [by intros ->|by intros [= ->]].
    + split; [lia|]. intros [= ->]. done.
Qed.

Lemma str_at_chars m a l : str_at m a l -> Forall (fun c => 0 < c < 256) l.
Proof.
  revert a. induction l as [|c l IH]; intros a; [constructor|].
  intros (_ & Hc & Hl). constructor; eauto.
Qed.

Lemma strcmp_loop_eq fuel p q (m : bmem) l1 l2 :
  str_at m p l1 -> str_at m q l2 -> (length l1 < fuel)%nat ->
  strcmp_loop fuel p q m = Ret (list_cmp l1 l2) m.
Proof.
  revert p q l2 fuel. induction l1 as [|a l1 IH]; intros p q l2 [|fuel] H1 H2 Hf;
    simpl in Hf; try lia; cbn [strcmp_loop]; unfold ld, get, mbind, M_bind; simpl in H1.
  - rewrite H1. simpl. destruct l2 as [|b l2]; simpl in H2.
    + rewrite H2. done.
    + destruct H2 as (-> & _). done.
  - destruct H1 as (-> & Ha & H1). simpl. destruct (Z.eqb_spec a 0); [lia|].
    destruct l2 as [|b l2]; simpl in H2.
    + rewrite H2. simpl. destruct (Z.eqb_spec a 0); [lia|]. unfold mret, M_ret. f_equal. lia.
    + destruct H2 as (-> & Hb & H2). simpl. destruct (Z.eqb_spec a b) as [->|]; [|done].
      apply IH; (done || lia).
Qed.

Lemma str_at_ext m m' a l :
  (forall x, a <= x <= a + Z.of_nat (length l) -> m' !! x = m !! x) -> str_at m a l -> str_at m' a l.
Proof.
  revert a. induction l as [|c l IH]; intros a E; simpl in *.
  - intros <-. apply E. lia.
  - intros (H & Hc & Hl). split; [rewrite E by lia; done|]. split; [done|].
    apply IH; [intros x Hx; apply E; lia|done].
Qed.

(** [strlcpy] with [n] characters of room before the NUL. *)
Lemma wp_strlcpy_loop n dst src (m : bmem) l :
  str_at m src l -> present m dst (Z.of_nat n + 1) ->
  (forall x, dst <= x < dst + Z.of_nat n + 1 -> ~ (src <= x <= src + Z.of_nat (length l))) ->
  wp (strlcpy_loop n dst src) m (fun d m' =>
    d = dst + Z.of_nat (length (take n l)) /\ str_at m' dst (take n l)
    /\ forall x, ~ (dst <= x < dst + Z.of_nat n + 1) -> m' !! x = m !! x).
Proof.
  revert dst src m l. induction n as [|n IH]; intros dst src m l Hs Hp Hd; cbn [strlcpy_loop].
  - destruct (Hp dst ltac:(lia)) as (b & Hb & _). wp_step. eapply wp_st; [done|]. wp_step.
    rewrite take_0. simpl. rewrite lookup_insert_eq. split; [lia|]. split; [done|].
    intros x Hx. rewrite lookup_insert_ne by lia. done.
  - destruct (Hp dst ltac:(lia)) as (b & Hb & _). destruct l as [|c l].
    + simpl in Hs. wp_step. eapply wp_ld; [done|]. simpl negb. cbv iota.
      wp_step. eapply wp_st; [done|]. wp_step. simpl. rewrite lookup_insert_eq.
      split; [lia|]. split; [done|]. intros x Hx. rewrite lookup_insert_ne by lia. done.
    + destruct Hs as (Hc & Hcr & Hl). wp_step. eapply wp_ld; [done|].
      destruct (Z.eqb_spec c 0); [lia|]. simpl negb. cbv iota. wp_step. eapply wp_st; [done|].
      rewrite u8_small by lia. simpl length in Hd.
      eapply wp_mono; [apply (IH (dst + 1) (src + 1) _ l)|].
      * eapply str_at_ext; [|exact Hl]. intros x Hx. rewrite lookup_insert_ne; [done|].
        intros <-. apply (Hd dst); lia.
      * intros x Hx. destruct (Hp x ltac:(lia)) as (b' & Hb' & Hr'). exists b'.
        by rewrite lookup_insert_ne by lia.
      * intros x Hx H. apply (Hd x); lia.
      * intros d m' (-> & Hstr & Hout). simpl. split; [lia|]. split.
        -- split; [|done]. rewrite Hout by lia. apply lookup_insert_eq.
        -- intros x Hx. rewrite Hout by lia. rewrite lookup_insert_ne by lia. done.
Qed.

(** ** Properties *)

(** C23: [memmove] copies correctly whatever the overlap, alignment and length:
    afterwards the destination holds what the source held before, and no other
    byte has changed, on the word-wise and the byte-wise path and in both
    directions. *)
Theorem memmove_overlap_safe (m : bmem) dst src n :
  0 <= n -> present m src n -> present m dst n ->
  wp (memmove dst src n) m (fun r m' => r = dst /\ copied m m' dst src n).
Proof.
  intros Hn Hs Hd. unfold memmove. wp_step.
  eapply (wp_mono _ _ (fun _ m' => copied m m' dst src n)); [|intros u m' C; by wp_step].
  assert (forall c k, Z.of_nat c * Z.of_nat k = n -> dst <= src \/ src + n <= dst ->
            wp (movs_up c k dst src) m (fun _ m' => copied m m' dst src n)) as Hup
    by (intros c k <-; intros; by apply wp_movs_up).
  assert (forall c k, Z.of_nat c * Z.of_nat k = n -> src <= dst ->
            wp (movs_down c k (dst + n - Z.of_nat k) (src + n - Z.of_nat k)) m
               (fun _ m' => copied m m' dst src n)) as Hdown.
  { intros c k E Hle. pose proof (wp_movs_down c k (dst + n - Z.of_nat k) (src + n - Z.of_nat k) m) as H.
    cbv zeta in H. rewrite E in H.
    replace (dst + n - Z.of_nat k - (Z.of_nat c - 1) * Z.of_nat k) with dst in H by lia.
    replace (src + n - Z.of_nat k - (Z.of_nat c - 1) * Z.of_nat k) with src in H by lia.
    apply H; [lia|done|done]. }
  assert (n mod 4 = 0 -> Z.of_nat (Z.to_nat (n / 4)) * Z.of_nat 4 = n) as E4
    by (intros; Z.to_euclidean_division_equations; lia).
  rewrite Z.gtb_ltb. destruct (Z.ltb_spec src dst), (Z.ltb_spec dst (src + n)); cbn [andb];
    cbv zeta; destruct (_ && _) eqn:B; breflect;
    first [apply (Hdown _ 4%nat) | apply (Hdown _ 1%nat) | apply Hup]; try lia; by apply E4.
Qed.

(** [strcmp] compares as unsigned characters up to the first difference, and
    is zero exactly on equal strings; it terminates on strings that end. *)
Theorem strcmp_lexicographic (m : bmem) p q l1 l2 :
  str_at m p l1 -> str_at m q l2 ->
  wp (strcmp p q) m (fun r m' => r = list_cmp l1 l2 /\ (r = 0 <-> l1 = l2) /\ m' = m).
Proof.
  intros H1 H2. eapply wp_eq.
  - unfold strcmp, gets, mbind, M_bind. apply (strcmp_loop_eq _ _ _ _ l1 l2 H1 H2).
    by eapply str_at_fuel.
  - split; [done|]. split; [|done]. apply list_cmp_eq; by eapply str_at_chars.
Qed.

(** [strlcpy] never writes outside the [size] bytes of the destination, and
    leaves there the longest prefix of the source that fits with its final NUL;
    it returns the number of characters copied. *)
Theorem strlcpy_bounded (m : bmem) dst src size l :
  0 < size -> str_at m src l -> present m dst size ->
  (forall x, dst <= x < dst + size -> ~ (src <= x <= src + Z.of_nat (length l))) ->
  wp (strlcpy dst src size) m (fun r m' =>
    let l' := take (Z.to_nat (size - 1)) l in
    r = Z.of_nat (length l') /\ str_at m' dst l'
    /\ forall x, ~ (dst <= x < dst + size) -> m' !! x = m !! x).
Proof.
  intros Hsz Hs Hp Hd. unfold strlcpy. rewrite Z.gtb_ltb. destruct (Z.ltb_spec 0 size); [|lia].
  wp_step. replace size with (Z.of_nat (Z.to_nat (size - 1)) + 1) in Hp, Hd by lia.
  eapply wp_mono; [apply (wp_strlcpy_loop _ _ _ _ l Hs Hp)|].
  - intros x Hx. apply Hd. lia.
  - intros d m' (-> & H1 & H2). wp_step. split; [lia|]. split; [done|].
    intros x Hx. apply H2. lia.
Qed.

(** ** Witnesses *)

(** Ten bytes from address 100: a string, then room. *)
Definition demo_bytes : bmem := list_to_map (zip (seqZ 100 10) [104; 105; 33; 0; 1; 2; 3; 4; 5; 6]).

Lemma demo_present a n : 100 <= a -> a + n <= 110 -> present demo_bytes a n.
Proof.
  intros Ha Hn x Hx.
  assert (forallb (fun x => match demo_bytes !! x with
                            | Some b => (0 <=? b) && (b <? 256) | None => false end)
            (seqZ 100 10) = true) as H by by vm_compute.
  rewrite forallb_forall in H. specialize (H x).
  destruct (demo_bytes !! x) as [b|]; [exists b; split; [done|]|exfalso].
  - assert (((0 <=? b) && (b <? 256)) = true) as H'; [|breflect; lia].
    apply H, list_elem_of_In, elem_of_seqZ. lia.
  - assert (false = true); [|done]. apply H, list_elem_of_In, elem_of_seqZ. lia.
Qed.

Lemma memmove_overlap_safe_witness :
  wp (memmove 102 100 4) demo_bytes (fun r m' => r = 102 /\ m' !! 105 = Some 0).
Proof.
  eapply wp_mono; [apply (memmove_overlap_safe demo_bytes 102 100 4);
                   [lia|apply demo_present; lia|apply demo_present; lia]|].
  intros r m' [-> C]. split; [done|]. by rewrite (C 105).
Defined.

Lemma strcmp_lexicographic_witness :
  wp (strcmp 100 101) demo_bytes (fun r _ => r = -1).
Proof.
  eapply wp_mono; [apply (strcmp_lexicographic demo_bytes 100 101 [104; 105; 33] [105; 33]);
                   by vm_compute|].
  by intros r m' [-> _].
Defined.

Lemma strlcpy_bounded_witness :
  wp (strlcpy 104 100 3) demo_bytes (fun r m' => r = 2 /\ m' !! 106 = Some 0 /\ m' !! 107 = Some 4).
Proof.
  eapply wp_mono; [apply (strlcpy_bounded demo_bytes 104 100 3 [104; 105; 33]);
                   [lia|by vm_compute|apply demo_present; lia|simpl; lia]|].
  intros r m' (-> & (_ & _ & _ & _ & H) & H2). split; [done|]. split; [exact H|].
  rewrite (H2 107) by lia. by vm_compute.
Defined.
