(* ===== verification/Printfmt.v ===== *)
(** * Formatted output (lib/printfmt.c, lib/printf.c, kernel/printf.c)

    The formatter is polymorphic in the state its [putch] works on, as the C code
    is in [putdat]: the same definitions print to the screen, into a buffer and
    into the buffer of the user library.  The format is the list of its bytes
    before the NUL, the variable arguments are the 32-bit words on the stack, and
    strings named by [%s] lie in a byte memory that printing does not change (for
    [vsnprintf], the memory outside its buffer).  Widths and counts are [int]s and wrap
    around.
    Formatting with the recording [putch] gives the output as a list, and every
    other [putch] is shown to receive exactly that list.

    Loops get as many turns as the format or the memory is long, [printnum] 64
    levels (a 64-bit number has at most 64 digits in any base from two up);
    [vprintfmt_terminates] shows that this is enough, and names the faults. *)

From S2P Require Import Prelude.
From S2P Require Import Machine.
From S2P Require Import Kmonad.
From S2P Require Import Spinlock.
From S2P Require Import Ports.
From S2P Require Import Screen.
From S2P Require Import Str.
From Stdlib Require Import ZArith Lia Ascii.
From stdpp Require Import base gmap list strings.

Local Open Scope Z_scope.

(** [error_string]; entry 0 is a null pointer. *)
Definition error_string : list (option string) :=
  [None; Some "unspecified error"; Some "bad environment"; Some "invalid parameter";
   Some "out of memory"; Some "out of environments"; Some "segmentation fault";
   Some "env is not recving"; Some "unexpected end of file"]%string.

(** A string constant lies at address 1 of a memory of its own. *)
Definition literal (l : list Z) : bmem := list_to_map (zip (seqZ 1 (Z.of_nat (length l) + 1)) (l ++ [0])).

(** A conversion after its flags: the conversion character, the flags, the rest
    of the format and the arguments left. *)
Record spec := Spec {
  sp_ch : Z; sp_padc : Z; sp_width : Z; sp_precision : Z; sp_lflag : Z; sp_altflag : Z;
  sp_fmt : list Z; sp_ap : list Z
}.

(** ** Reading the format *)

(** [for (precision = 0; ; ++fmt) { ... }], entered with the first digit in [ch]. *)
Fixpoint width_digits (fmt : list Z) (precision ch : Z) : Z * list Z :=
  let precision := s32 (precision * 10 + ch - chr "0") in
  match fmt with
  | [] => (precision, [])
  | c :: fmt' =>
      if (s8 c <? chr "0") || (s8 c >? chr "9") then (precision, fmt)
      else width_digits fmt' precision c
  end.

Definition process_precision (width precision : Z) : Z * Z :=
  if width <? 0 then (precision, -1) else (width, precision).

Section Fmt.
Context {S : Type} (putch : Z -> M S unit).

(** A read-only use of the string routines. *)
Definition reading {A} (m : bmem) (c : M bmem A) : M S A :=
  match c m with
  | Ret a _ => mret a
  | Iret _ _ => fault "iret in a string routine"
  | Stop e => stop_with e
  end.

(** [va_arg] of a 32-bit type. *)
Definition va_arg (ap : list Z) : M S (Z * list Z) :=
  match ap with
  | [] => fault "va_arg: no argument left"
  | w :: ap' => mret (u32 w, ap')
  end.

(** [va_arg] of a 64-bit type. *)
Definition va_arg64 (ap : list Z) : M S (Z * list Z) :=
  lo ← va_arg ap; hi ← va_arg (snd lo); mret (fst lo + fst hi * 4294967296, snd hi).

Definition getuint (ap : list Z) (lflag : Z) : M S (Z * list Z) :=
  if lflag >=? 2 then va_arg64 ap else va_arg ap.

(** The result is converted to [unsigned long long] by the caller. *)
Definition getint (ap : list Z) (lflag : Z) : M S (Z * list Z) :=
  if lflag >=? 2 then r ← va_arg64 ap; mret (s64 (fst r), snd r)
  else r ← va_arg ap; mret (s32 (fst r), snd r).

Fixpoint reswitch (fuel : nat) (fmt ap : list Z) (padc width precision lflag altflag : Z)
  : M S spec :=
  match fuel with
  | O => hang "reswitch"
  | Datatypes.S fuel' =>
      let ch := match fmt with [] => 0 | c :: _ => c end in
      let fmt' := tail fmt in
      if ch =? chr "-" then reswitch fuel' fmt' ap (chr "-") width precision lflag altflag
      else if ch =? chr "0" then reswitch fuel' fmt' ap (chr "0") width precision lflag altflag
      else if (chr "1" <=? ch) && (ch <=? chr "9") then
        let '(p, fmt2) := width_digits fmt' 0 ch in
        let '(w, p') := process_precision width p in
        reswitch fuel' fmt2 ap padc w p' lflag altflag
      else if ch =? chr "*" then
        r ← va_arg ap;
        let '(w, p') := process_precision width (s32 (fst r)) in
        reswitch fuel' fmt' (snd r) padc w p' lflag altflag
      else if ch =? chr "." then
        reswitch fuel' fmt' ap padc (if width <? 0 then 0 else width) precision lflag altflag
      else if ch =? chr "#" then reswitch fuel' fmt' ap padc width precision lflag 1
      else if ch =? chr "l" then
        reswitch fuel' fmt' ap padc width precision (s32 (lflag + 1)) altflag
      else mret (Spec ch padc width precision lflag altflag fmt' ap)
  end.

(** ** The conversions *)

(** [putch(c, putdat)], [n] times. *)
Fixpoint pad (n : nat) (c : Z) : M S unit :=
  match n with O => mret tt | Datatypes.S n' => putch c ;; pad n' c end.

Definition digit_char (d : Z) : Z := default 0 (zget (bytes "0123456789abcdef") d).

Fixpoint printnum (fuel : nat) (num base width padc : Z) : M S unit :=
  match fuel with
  | O => hang "printnum"
  | Datatypes.S fuel' =>
      (if num >=? base then printnum fuel' (num / base) base (s32 (width - 1)) padc
       else pad (Z.to_nat (s32 (width - 1))) padc) ;;
      putch (digit_char (num mod base))
  end.

(** The loop over the characters of [%s]; the result is the width left. *)
Fixpoint string_loop (fuel : nat) (m : bmem) (p width precision altflag : Z) : M S Z :=
  match fuel with
  | O => hang "vprintfmt: string"
  | Datatypes.S fuel' =>
      c ← need (m !! p) "vprintfmt: string read";
      let ch := s8 c in
      if ch =? 0 then mret width
      else
        let precision' := if precision <? 0 then precision else precision - 1 in
        if (precision <? 0) || (precision' >=? 0) then
          putch (if truth altflag && ((ch <? chr " ") || (ch >? chr "~")) then chr "?" else ch) ;;
          string_loop fuel' m (p + 1) (s32 (width - 1)) precision' altflag
        else mret width
  end.

Definition print_string (m : bmem) (p width precision altflag padc : Z) : M S unit :=
  w ← (if (width >? 0) && negb (padc =? chr "-") then
         n ← reading m (strnlen p (u32 precision));
         pad (Z.to_nat (s32 (width - n))) padc ;; mret (Z.min (s32 (width - n)) 0)
       else mret width);
  w' ← string_loop (fuel_of m) m p w precision altflag;
  pad (Z.to_nat w') (chr " ").

(** The nested [printfmt] of the conversion [%e]. *)
Context (printfmt' : bmem -> list Z -> list Z -> M S unit).

Definition print_error (err : Z) : M S unit :=
  let err := if err <? 0 then s32 (- err) else err in
  if err >=? MAXERROR then printfmt' ∅ (bytes "error %d") [err]
  else
    o ← need (zget error_string err) "error_string[]";
    match o with
    | None => printfmt' ∅ (bytes "error %d") [err]
    | Some msg => printfmt' (literal (bytes msg)) (bytes "%s") [1]
    end.

Definition number (sp : spec) (num base : Z) (ap : list Z) : M S (list Z * list Z) :=
  printnum 64 (u64 num) base (sp_width sp) (sp_padc sp) ;; mret (sp_fmt sp, ap).

(** The cases of the switch that end a conversion; [mark] is the format after the
    percent sign, where an unknown conversion goes on.  The result is the format
    and the arguments left. *)
Definition conversion (m : bmem) (sp : spec) (mark : list Z) : M S (list Z * list Z) :=
  let ch := sp_ch sp in
  let ap := sp_ap sp in
  if ch =? chr "c" then
    r ← va_arg ap; putch (s32 (fst r)) ;; mret (sp_fmt sp, snd r)
  else if ch =? chr "e" then
    r ← va_arg ap; print_error (s32 (fst r)) ;; mret (sp_fmt sp, snd r)
  else if ch =? chr "s" then
    r ← va_arg ap;
    (if fst r =? 0
     then print_string (literal (bytes "(null)")) 1 (sp_width sp) (sp_precision sp)
            (sp_altflag sp) (sp_padc sp)
     else print_string m (fst r) (sp_width sp) (sp_precision sp) (sp_altflag sp) (sp_padc sp)) ;;
    mret (sp_fmt sp, snd r)
  else if ch =? chr "d" then
    r ← getint ap (sp_lflag sp);
    (if fst r <? 0 then putch (chr "-") ;; number sp (- fst r) 10 (snd r)
     else number sp (fst r) 10 (snd r))
  else if ch =? chr "u" then
    r ← getuint ap (sp_lflag sp); number sp (fst r) 10 (snd r)
  else if ch =? chr "o" then
    putch (chr "X") ;; putch (chr "X") ;; putch (chr "X") ;; mret (sp_fmt sp, ap)
  else if ch =? chr "p" then
    putch (chr "0") ;; putch (chr "x") ;;
    r ← va_arg ap; number sp (fst r) 16 (snd r)
  else if ch =? chr "x" then
    r ← getuint ap (sp_lflag sp); number sp (fst r) 16 (snd r)
  else if ch =? chr "%" then putch ch ;; mret (sp_fmt sp, ap)
  else putch (chr "%") ;; mret (mark, ap).

Fixpoint fmt_loop (fuel : nat) (m : bmem) (fmt ap : list Z) : M S unit :=
  match fuel with
  | O => hang "vprintfmt"
  | Datatypes.S fuel' =>
      match fmt with
      | [] => mret tt
      | ch :: rest =>
          if negb (ch =? chr "%") then putch ch ;; fmt_loop fuel' m rest ap
          else
            sp ← reswitch (Datatypes.S (length rest)) rest ap (chr " ") (-1) (-1) 0 0;
            r ← conversion m sp rest;
            fmt_loop fuel' m (fst r) (snd r)
      end
  end.
End Fmt.

(** The [printfmt] inside [%e], whose formats have no [%e] themselves. *)
Definition printfmt_inner {S} (putch : Z -> M S unit) (m : bmem) (fmt ap : list Z) : M S unit :=
  fmt_loop putch (fun _ _ _ => fault "nested error message") (Datatypes.S (length fmt)) m fmt ap.

Definition vprintfmt {S} (putch : Z -> M S unit) (m : bmem) (fmt ap : list Z) : M S unit :=
  fmt_loop putch (printfmt_inner putch) (Datatypes.S (length fmt)) m fmt ap.

(** [printfmt(putch, putdat, fmt, ...)]. *)
Definition printfmt {S} (putch : Z -> M S unit) (m : bmem) (fmt args : list Z) : M S unit :=
  vprintfmt putch m fmt args.

(** ** Sinks *)

(** Records what is printed, last character first. *)
Definition log_putch (c : Z) : M (list Z) unit := modify (cons c).

(** The output of a format. *)
Definition output (m : bmem) (fmt ap : list Z) : option (list Z) :=
  match vprintfmt log_putch m fmt ap [] with
  | Ret _ out => Some (reverse out)
  | _ => None
  end.

Example output_1 :
  output ∅ (bytes "%d|%5d|%05d|%x|%u|%p|%c|%%|%o|%q") [-42; 42; 42; 255; -1; 4096; 65]
  = Some (bytes "-42|   42|00042|ff|4294967295|0x1000|A|%|XXX|%q").
Proof. by vm_compute. Qed.

Example output_2 :
  output (literal (bytes "hello")) (bytes "[%8s][%-8s][%.3s][%s][%e][%e][%lld]")
    [1; 1; 1; 0; -4; 99; -1; -1]
  = Some (bytes "[   hello][hello   ][hel][(null)][out of memory][error 99][-1]").
Proof. by vm_compute. Qed.

(** [struct sprintbuf] beside the memory it points into. *)
Record sprintbuf := SprintBuf { b_buf : Z; b_ebuf : Z; b_cnt : Z }.

Definition sprintputch (ch : Z) : M (bmem * sprintbuf) unit :=
  b ← gets snd;
  on_snd (put (SprintBuf (b_buf b) (b_ebuf b) (s32 (b_cnt b + 1)))) ;;
  when (b_buf b <? b_ebuf b)
    (on_fst (st (b_buf b) ch) ;;
     on_snd (put (SprintBuf (b_buf b + 1) (b_ebuf b) (s32 (b_cnt b + 1))))).

(** The memory without the [n] bytes from [buf] on. *)
Definition apart (buf n : Z) (m : bmem) : bmem := filter (fun kv => ~ (buf <= kv.1 < buf + n)) m.

(** [vsnprintf]; what the conversions [%s] read lies apart from the buffer, which
    the printing overwrites: a string that reaches into the buffer is a fault. *)
Definition vsnprintf (buf n : Z) (fmt ap : list Z) : M bmem Z :=
  if (buf =? 0) || (n <? 1) then mret (- E_INVAL)
  else
    m ← get;
    b ← (fun m0 => match vprintfmt sprintputch (apart buf n m) fmt ap (m0, SprintBuf buf (buf + n - 1) 0) with
                   | Ret _ s => Ret (snd s) (fst s)
                   | Iret f s => Iret f (fst s)
                   | Stop e => Stop e
                   end);
    st (b_buf b) 0 ;;
    mret (b_cnt b).

Definition snprintf (buf n : Z) (fmt args : list Z) : M bmem Z := vsnprintf buf n fmt args.

(** kernel/printf.c: the characters go to the screen, [cnt] counts them. *)
Section Printk.
Context {W : Type} `{!Ports W} (ctx : cpu_ctx).

Definition k_print_putch (ch : Z) : M ((screen * W) * Z) unit :=
  on_fst (k_putch ctx ch) ;; on_snd (modify (fun cnt => s32 (cnt + 1))).

Definition vprintk (m : bmem) (fmt ap : list Z) : M (screen * W) Z := fun s =>
  match vprintfmt k_print_putch m fmt ap (s, 0) with
  | Ret _ s' => Ret (snd s') (fst s')
  | Iret f s' => Iret f (fst s')
  | Stop e => Stop e
  end.

Definition printk (m : bmem) (fmt args : list Z) : M (screen * W) Z := vprintk m fmt args.
End Printk.

(** lib/printf.c: [struct printbuf]; [puts] is the system call. *)
Record printbuf := PrintBuf { pb_idx : Z; pb_cnt : Z; pb_buf : list Z }.

Section Cprintf.
Context {U : Type} (puts : list Z -> M U unit).

(** [puts(b->buf, b->idx)]. *)
Definition flush : M (U * printbuf) unit :=
  b ← gets snd; on_fst (puts (take (Z.to_nat (pb_idx b)) (pb_buf b))).

Definition u_putch (ch : Z) : M (U * printbuf) unit :=
  b ← gets snd;
  l ← need (zset (pb_buf b) (pb_idx b) (u8 ch)) "b->buf[]";
  on_snd (put (PrintBuf (pb_idx b + 1) (pb_cnt b) l)) ;;
  when (pb_idx b + 1 =? 256 - 1)
    (flush ;; on_snd (modify (fun b => PrintBuf 0 (pb_cnt b) (pb_buf b)))) ;;
  on_snd (modify (fun b => PrintBuf (pb_idx b) (s32 (pb_cnt b + 1)) (pb_buf b))).

(** [stack] is what the uninitialised buffer holds. *)
Definition vcprintf (stack : list Z) (m : bmem) (fmt ap : list Z) : M U Z := fun u =>
  match (vprintfmt u_putch m fmt ap ;; flush ;; gets (fun s => pb_cnt (snd s)))
          (u, PrintBuf 0 0 stack) with
  | Ret r s => Ret r (fst s)
  | Iret f s => Iret f (fst s)
  | Stop e => Stop e
  end.

Definition cprintf (stack : list Z) (m : bmem) (fmt args : list Z) : M U Z :=
  vcprintf stack m fmt args.
End Cprintf.

(** ** Printing is sending the output to [putch] *)

Fixpoint emit {S} (putch : Z -> M S unit) (l : list Z) : M S unit :=
  match l with [] => mret tt | c :: l' => putch c ;; emit putch l' end.

Lemma emit_app {S} (putch : Z -> M S unit) l1 l2 s :
  emit putch (l1 ++ l2) s = (emit putch l1 ;; emit putch l2) s.
Proof.
  revert s. induction l1 as [|c l1 IH]; intros s; [done|]. cbn [emit app].
  unfold mbind, M_bind in *. destruct (putch c s) as [x s1|f s1|e]; [|done|done].
  by rewrite IH.
Qed.

Section Sim.
Context {S : Type} (putch : Z -> M S unit).

(** When the recording run [a] returns, [b] sends what it recorded to [putch] and
    returns the same value. *)
Definition sim {A} (a : M (list Z) A) (b : M S A) : Prop :=
  forall l x l1, a l = Ret x l1 ->
    exists out, l1 = reverse out ++ l /\ forall s, b s = (emit putch out ;; mret x) s.

Lemma sim_ret {A} (x : A) : sim (mret x) (mret x).
Proof. intros l y l1 [= <- <-]. by exists []. Qed.

Lemma sim_stop {A} e (b : M S A) : sim (stop_with e) b.
Proof. by intros l y l1. Qed.

Lemma sim_putch c : sim (log_putch c) (putch c).
Proof.
  intros l [] l1 [= <-]. exists [c]. split; [done|]. intros s. cbn [emit].
  unfold mbind, M_bind. by destruct (putch c s) as [[]| |].
Qed.

Lemma sim_bind {A B} a b (f : A -> M (list Z) B) g :
  sim a b -> (forall x, sim (f x) (g x)) -> sim (a ≫= f) (b ≫= g).
Proof.
  intros Hab Hfg l x l2 (y & l1 & H1 & H2)%bind_ret_inv.
  destruct (Hab _ _ _ H1) as (o1 & -> & E1). destruct (Hfg _ _ _ _ H2) as (o2 & -> & E2).
  exists (o1 ++ o2). split; [by rewrite reverse_app, (assoc_L (++))|]. intros s.
  unfold mbind, M_bind in *. rewrite E1, emit_app. unfold mbind, M_bind.
  destruct (emit putch o1 s) as [u s1|t s1|e]; [|done|done].
  unfold mret, M_ret at 1. rewrite E2. done.
Qed.

Lemma sim_need {A} (o : option A) what : sim (need o what) (need o what).
Proof. destruct o; [apply sim_ret|apply sim_stop]. Qed.

Lemma sim_reading {A} m (c : M bmem A) : sim (reading m c) (reading m c).
Proof. unfold reading. destruct (c m); [apply sim_ret|apply sim_stop|apply sim_stop]. Qed.
End Sim.

Create HintDb sim.
#[export] Hint Resolve sim_ret sim_stop sim_putch sim_need sim_reading : sim.

(** Runs through two copies of the same code. *)
Ltac sim_step :=
  first
    [ assumption
    | solve [eauto 2 with sim nocore]
    | lazymatch goal with
      | |- forall _, _ => intro
      | |- sim _ (_ ≫= _) (_ ≫= _) => apply sim_bind
      | |- sim _ (fault _) _ => apply sim_stop
      | |- sim _ (hang _) _ => apply sim_stop
      | |- sim _ (if ?b then _ else _) _ => destruct b
      | |- sim _ (match ?x with _ => _ end) _ => destruct x
      | |- sim _ (let _ := _ in _) _ => cbv zeta
      end ].
Ltac sim_tac := repeat sim_step.

Section SimFmt.
Context {S : Type} (putch : Z -> M S unit).

Lemma sim_va_arg ap : sim putch (va_arg ap) (va_arg ap).
Proof. unfold va_arg. sim_tac. Qed.
Hint Resolve sim_va_arg : sim.

Lemma sim_va_arg64 ap : sim putch (va_arg64 ap) (va_arg64 ap).
Proof. unfold va_arg64. sim_tac. Qed.
Hint Resolve sim_va_arg64 : sim.

Lemma sim_getuint ap lflag : sim putch (getuint ap lflag) (getuint ap lflag).
Proof. unfold getuint. sim_tac. Qed.

Lemma sim_getint ap lflag : sim putch (getint ap lflag) (getint ap lflag).
Proof. unfold getint. sim_tac. Qed.

Lemma sim_reswitch fuel fmt ap pc w p lf af :
  sim putch (reswitch fuel fmt ap pc w p lf af) (reswitch fuel fmt ap pc w p lf af).
Proof.
  revert fmt ap pc w p lf af.
  induction fuel as [|fuel IH]; intros fmt ap pc w p lf af; cbn [reswitch]; sim_tac.
Qed.

Lemma sim_pad n c : sim putch (pad log_putch n c) (pad putch n c).
Proof. induction n as [|n IH]; cbn [pad]; sim_tac. Qed.
Hint Resolve sim_getuint sim_getint sim_reswitch sim_pad : sim.

Lemma sim_printnum fuel num base w pc :
  sim putch (printnum log_putch fuel num base w pc) (printnum putch fuel num base w pc).
Proof. revert num w. induction fuel as [|fuel IH]; intros num w; cbn [printnum]; sim_tac. Qed.

Lemma sim_string_loop fuel m p w pr af :
  sim putch (string_loop log_putch fuel m p w pr af) (string_loop putch fuel m p w pr af).
Proof.
  revert p w pr. induction fuel as [|fuel IH]; intros p w pr; cbn [string_loop]; sim_tac.
Qed.
Hint Resolve sim_printnum sim_string_loop : sim.

Lemma sim_print_string m p w pr af pc :
  sim putch (print_string log_putch m p w pr af pc) (print_string putch m p w pr af pc).
Proof. unfold print_string. sim_tac. Qed.
Hint Resolve sim_print_string : sim.

Lemma sim_fmt_loop r1 r2 fuel m fmt ap :
  (forall m fmt ap, sim putch (r1 m fmt ap) (r2 m fmt ap)) ->
  sim putch (fmt_loop log_putch r1 fuel m fmt ap) (fmt_loop putch r2 fuel m fmt ap).
Proof.
  intros Hr. revert fmt ap.
  induction fuel as [|fuel IH]; intros fmt ap; cbn [fmt_loop]; unfold conversion, print_error, number;
    sim_tac.
Qed.

(** The output is all that [putch] sees. *)
Lemma vprintfmt_emit m fmt ap out s :
  output m fmt ap = Some out -> vprintfmt putch m fmt ap s = emit putch out s.
Proof.
  unfold output. destruct (vprintfmt log_putch m fmt ap []) as [[] l| |] eqn:E; [|done|done].
  intros [= <-].
  assert (sim putch (vprintfmt log_putch m fmt ap) (vprintfmt putch m fmt ap)) as H.
  { apply sim_fmt_loop. intros. apply sim_fmt_loop. intros. apply sim_stop. }
  destruct (H _ _ _ E) as (o & -> & Ho). rewrite app_nil_r, reverse_involutive, Ho.
  unfold mbind, M_bind. by destruct (emit putch o s) as [[]| |].
Qed.
End SimFmt.

(** ** The three sinks *)

Lemma s32_add_l a b : s32 (s32 a + b) = s32 (a + b).
Proof. wrap_lia. Qed.

(** Every character of [out] reaches the screen and is counted. *)
Lemma wp_emit_k {W} `{!Ports W} ctx out (s : screen) (w : W) n :
  screen_wf s ->
  wp (emit (k_print_putch ctx) out) (s, w, n) (fun _ r =>
    let s' := fst (fst r) in
    screen_wf s' /\ attrib s' = attrib s
    /\ view_of s' = foldl (fun v c => tty (u16 (Z.shiftl (attrib s) 8)) (u8 c) v) (view_of s) out
    /\ s32 (snd r) = s32 (n + Z.of_nat (length out)) /\ (s32 n = n -> s32 (snd r) = snd r)).
Proof.
  revert s w n. induction out as [|c out IH]; intros s w n Hs; cbn [emit].
  { wp_step. simpl. rewrite Z.add_0_r. done. }
  wp_step. unfold k_print_putch. wp_step. unfold on_fst. apply wp_zoom. cbn [fst].
  eapply wp_mono; [by apply wp_k_putch|]. intros u [s1 w1] (Hs1 & Ha1 & Hv1 & _).
  unfold on_snd. apply wp_zoom. wp_step. cbn [fst snd].
  eapply wp_mono; [by apply IH|].
  intros u' [[s2 w2] n2] (Hs2 & Ha2 & Hv2 & Hn & Hr). cbn [fst snd foldl length] in *.
  split_and!; [done|congruence|by rewrite Hv2, Ha1, Hv1| |].
  - rewrite Hn, s32_add_l. f_equal. lia.
  - intros _. apply Hr. wrap_lia.
Qed.

(** [sprintputch] stores while there is room, and counts always. *)
Lemma wp_sprintputch c (m : bmem) buf ebuf cnt Q :
  (buf < ebuf -> is_Some (m !! buf)) ->
  (ebuf <= buf -> Q tt (m, SprintBuf buf ebuf (s32 (cnt + 1)))) ->
  (buf < ebuf -> Q tt (<[buf := u8 c]> m, SprintBuf (buf + 1) ebuf (s32 (cnt + 1)))) ->
  wp (sprintputch c) (m, SprintBuf buf ebuf cnt) Q.
Proof.
  intros Hm H0 H1. unfold sprintputch, on_snd, on_fst. wp_steps. cbn [snd b_buf b_ebuf b_cnt].
  apply wp_zoom. wp_step. cbn [fst snd]. unfold when. destruct (Z.ltb_spec buf ebuf).
  - destruct (Hm ltac:(done)) as [b Hb]. wp_step. apply wp_zoom. cbn [fst].
    eapply wp_st; [done|]. cbn [snd]. apply wp_zoom. wp_step. cbn [fst snd]. auto.
  - wp_step. auto.
Qed.

(** The same for every character of [out], with [room] characters of room. *)
Lemma wp_emit_sprint out (m : bmem) buf room cnt :
  present m buf (Z.of_nat room) ->
  let l := take room out in
  wp (emit sprintputch out) (m, SprintBuf buf (buf + Z.of_nat room) cnt) (fun _ r =>
    b_buf (snd r) = buf + Z.of_nat (length l)
    /\ s32 (b_cnt (snd r)) = s32 (cnt + Z.of_nat (length out))
    /\ (s32 cnt = cnt -> s32 (b_cnt (snd r)) = b_cnt (snd r))
    /\ (forall i, (i < length l)%nat -> fst r !! (buf + Z.of_nat i) = u8 <$> l !! i)
    /\ forall x, ~ (buf <= x < buf + Z.of_nat (length l)) -> fst r !! x = m !! x).
Proof.
  revert m buf room cnt. induction out as [|c out IH]; intros m buf room cnt Hp; cbn [emit].
  { wp_step. rewrite take_nil. simpl. rewrite !Z.add_0_r. split_and!; try done. intros; lia. }
  wp_step. apply wp_sprintputch.
  - intros ?. destruct (Hp buf ltac:(lia)) as (b & -> & _). eauto.
  - intros ?. assert (room = O) as -> by lia.
    eapply wp_mono; [apply (IH m buf O); intros x ?; lia|].
    intros u [m' b'] (Hb & Hn & Hr & Hi & Ho). cbn [fst snd take length] in *.
    split_and!; [done| | |intros; lia|done].
    + rewrite Hn, s32_add_l. f_equal. lia.
    + intros _. apply Hr. wrap_lia.
  - intros ?. destruct room as [|room]; [lia|].
    replace (buf + Z.of_nat (S room)) with (buf + 1 + Z.of_nat room) by lia.
    eapply wp_mono; [apply (IH _ (buf + 1) room)|].
    { intros x Hx. destruct (Hp x ltac:(lia)) as (b' & ? & ?). exists b'.
      by rewrite lookup_insert_ne by lia. }
    intros u [m' b'] (Hb & Hn & Hr & Hi & Ho). cbn [fst snd take length] in *.
    split_and!; [lia| | | |].
    + rewrite Hn, s32_add_l. f_equal. lia.
    + intros _. apply Hr. wrap_lia.
    + intros [|i] Hl; simpl.
      * rewrite Z.add_0_r, Ho by lia. by rewrite lookup_insert_eq.
      * rewrite <- Hi by lia. f_equal. lia.
    + intros x Hx. rewrite Ho by lia. by rewrite lookup_insert_ne by lia.
Qed.

(** The [puts] that records its calls. *)
Definition log_puts (l : list Z) : M (list (list Z)) unit := modify (cons l).

(** Buffered output, for any [puts] that returns: [feed l u] is the state after
    [puts] of [l]. *)
Section Pieces.
Context {U : Type} (puts : list Z -> M U unit) (feed : list Z -> U -> U).
Context (puts_feeds : forall l u, (length l <= 255)%nat -> puts l u = Ret tt (feed l u)).

Definition feeds (pieces : list (list Z)) (u : U) : U := foldl (fun u l => feed l u) u pieces.

(** One character into the buffer of the user library. *)
Lemma wp_u_putch c (u : U) (b : printbuf) Q :
  0 <= pb_idx b < 255 -> length (pb_buf b) = 256%nat ->
  (forall l, length l = 256%nat -> pb_idx b + 1 < 255 ->
     take (Z.to_nat (pb_idx b + 1)) l = take (Z.to_nat (pb_idx b)) (pb_buf b) ++ [u8 c] ->
     Q tt (u, PrintBuf (pb_idx b + 1) (s32 (pb_cnt b + 1)) l)) ->
  (forall l chunk, length l = 256%nat -> length chunk = 255%nat ->
     chunk = take (Z.to_nat (pb_idx b)) (pb_buf b) ++ [u8 c] ->
     Q tt (feed chunk u, PrintBuf 0 (s32 (pb_cnt b + 1)) l)) ->
  wp (u_putch puts c) (u, b) Q.
Proof.
  intros Hi Hb Hstay Hflush. unfold u_putch, on_snd. wp_steps. cbn [snd].
  rewrite zset_Some by lia. wp_steps. apply wp_zoom. wp_step. cbn [fst snd].
  set (l := <[Z.to_nat (pb_idx b) := u8 c]> (pb_buf b)).
  assert (length l = 256%nat) as Hl by (subst l; by rewrite length_insert).
  assert (take (Z.to_nat (pb_idx b + 1)) l
          = take (Z.to_nat (pb_idx b)) (pb_buf b) ++ [u8 c]) as Ht.
  { replace (Z.to_nat (pb_idx b + 1)) with (S (Z.to_nat (pb_idx b))) by lia.
    rewrite (take_S_r _ _ (u8 c)) by (subst l; apply list_lookup_insert_eq; lia).
    subst l. by rewrite take_insert_ge by lia. }
  unfold when. destruct (Z.eqb_spec (pb_idx b + 1) (256 - 1)) as [E|E].
  - wp_step. unfold flush, on_fst. wp_steps. apply wp_zoom.
    eapply wp_eq; [apply puts_feeds; rewrite length_take; cbn [pb_idx snd]; lia|]. cbn [fst snd pb_idx pb_buf]. apply wp_zoom. wp_step. cbn [fst snd]. apply wp_zoom. wp_step.
    cbn [fst snd pb_idx pb_cnt pb_buf]. apply Hflush; [done| |done].
    rewrite length_take. lia.
  - wp_step. apply wp_zoom. wp_step. cbn [fst snd pb_idx pb_cnt pb_buf]. apply Hstay; (done || lia).
Qed.

Lemma wp_emit_u out (u : U) (b : printbuf) :
  0 <= pb_idx b < 255 -> length (pb_buf b) = 256%nat ->
  wp (emit (u_putch puts) out) (u, b) (fun _ r => exists chunks,
    let b' := snd r in
    fst r = feeds chunks u
    /\ concat chunks ++ take (Z.to_nat (pb_idx b')) (pb_buf b')
       = take (Z.to_nat (pb_idx b)) (pb_buf b) ++ (u8 <$> out)
    /\ Forall (fun ch => length ch = 255%nat) chunks
    /\ 0 <= pb_idx b' < 255 /\ length (pb_buf b') = 256%nat
    /\ s32 (pb_cnt b') = s32 (pb_cnt b + Z.of_nat (length out))
    /\ (s32 (pb_cnt b) = pb_cnt b -> s32 (pb_cnt b') = pb_cnt b')).
Proof.
  revert u b. induction out as [|c out IH]; intros u b Hi Hb; cbn [emit].
  { wp_step. exists []. simpl. rewrite app_nil_r, Z.add_0_r. done. }
  wp_step. apply wp_u_putch; [done|done| |].
  - intros l Hl Hlt Ht. eapply wp_mono; [apply IH; simpl; (done || lia)|].
    intros x [u' b'] (chunks & -> & Hc & Hf & Hi' & Hb' & Hn & Hr).
    cbn [fst snd pb_idx pb_cnt pb_buf] in *. exists chunks.
    split_and!; try done; try lia.
    + rewrite Hc, Ht, <- (assoc_L (++)). done.
    + rewrite Hn, s32_add_l. f_equal. cbn [length]. lia.
    + intros _. apply Hr. wrap_lia.
  - intros l chunk Hl Hlc ->. eapply wp_mono; [apply IH; simpl; (done || lia)|].
    intros x [u' b'] (chunks & -> & Hc & Hf & Hi' & Hb' & Hn & Hr).
    cbn [fst snd pb_idx pb_cnt pb_buf] in *.
    exists ((take (Z.to_nat (pb_idx b)) (pb_buf b) ++ [u8 c]) :: chunks).
    split_and!; try done; try lia.
    + cbn [concat]. rewrite <- (assoc_L (++)), Hc. simpl. rewrite <- (assoc_L (++)). done.
    + by constructor.
    + rewrite Hn, s32_add_l. f_equal. cbn [length]. lia.
    + intros _. apply Hr. wrap_lia.
Qed.

(** The pieces handed to [puts] are the output. *)
Lemma cprintf_feeds stack m fmt args out u :
  length stack = 256%nat -> output m fmt args = Some out ->
  wp (cprintf puts stack m fmt args) u (fun r u' => exists pieces,
    u' = feeds pieces u /\ concat pieces = (u8 <$> out)
    /\ Forall (fun p => length p <= 255)%nat pieces /\ r = s32 (Z.of_nat (length out))).
Proof.
  intros Hst Ho. unfold cprintf, vcprintf, wp.
  destruct (wp_inv _ _ _ (wp_emit_u out u (PrintBuf 0 0 stack) ltac:(simpl; lia) Hst))
    as ([] & [u1 b1] & E & chunks & Hu & Hc & Hf & Hi & Hb & Hn & Hr). cbn [fst snd] in *.
  rewrite (bind_ret _ _ _ tt (u1, b1)) by (by rewrite (vprintfmt_emit _ _ _ _ out)).
  rewrite (bind_ret _ _ _ tt (feed (take (Z.to_nat (pb_idx b1)) (pb_buf b1)) u1, b1))
    by (unfold flush, on_fst, zoom, mbind, M_bind; simpl;
        rewrite puts_feeds by (rewrite length_take; lia); done).
  simpl. exists (chunks ++ [take (Z.to_nat (pb_idx b1)) (pb_buf b1)]). split_and!.
  - unfold feeds. rewrite foldl_app. by rewrite Hu.
  - rewrite concat_app. simpl. by rewrite app_nil_r, Hc.
  - apply Forall_app. split; [eapply Forall_impl; [exact Hf|]; simpl; lia|].
    constructor; [|constructor]. rewrite length_take. lia.
  - rewrite <- Hr, Hn by done. done.
Qed.
End Pieces.

Lemma feeds_cons pieces u : feeds cons pieces u = reverse pieces ++ u.
Proof.
  revert u. induction pieces as [|l pieces IH]; intros u; [done|].
  change (feeds cons (l :: pieces) u) with (feeds cons pieces (l :: u)).
  by rewrite IH, reverse_cons, <- (assoc_L (++)).
Qed.

(** ** Termination *)

(** From [p] on memory holds no NUL before it ends. *)
Definition runs_off (m : bmem) (p : Z) : Prop := exists q, p <= q /\ m !! q = None /\
  forall x, p <= x < q -> exists c, m !! x = Some c /\ c <> 0.

(** The faults of a run with the arguments [ap]: an argument is missing, a [%s]
    is given an address from which no string can be read, or [%e] the one error
    number that is still negative when its sign is changed. *)
Inductive fmt_fault (m : bmem) (ap : list Z) : string -> Prop :=
| ff_arg : fmt_fault m ap "va_arg: no argument left"
| ff_string p what : p ∈ ap -> u32 p <> 0 -> runs_off m (u32 p) ->
    what = "read"%string \/ what = "vprintfmt: string read"%string -> fmt_fault m ap what
| ff_error e : e ∈ ap -> s32 (u32 e) = -2147483648 -> fmt_fault m ap "error_string[]".

Lemma str_at_runs_on m p l : str_at m p l -> ~ runs_off m p.
Proof.
  revert p. induction l as [|c l IH]; intros p Hs (q & Hq & Hn & Hx); simpl in Hs.
  - destruct (Z.eq_dec q p) as [->|]; [congruence|].
    destruct (Hx p ltac:(lia)) as (c & Hc & Hc0). congruence.
  - destruct Hs as (Hc & _ & Hs). apply (IH _ Hs). exists q.
    destruct (Z.eq_dec q p) as [->|]; [congruence|]. split_and!; [lia|done|]. intros. apply Hx. lia.
Qed.

(** [m] ends from [s]: it returns a value that satisfies [Q], or has a fault in [F]. *)
Definition ends {S A} (F : string -> Prop) (m : M S A) (s : S) (Q : A -> Prop) : Prop :=
  match m s with Ret a _ => Q a | Iret _ _ => False | Stop e => exists w, e = Fault w /\ F w end.

Section Ends.
Context {S : Type} (F : string -> Prop).

Lemma ends_ret {A} (a : A) (s : S) (Q : A -> Prop) : Q a -> ends F (mret a) s Q.
Proof. done. Qed.

Lemma ends_bind {A B} (m : M S A) (f : A -> M S B) s (P : A -> Prop) Q :
  ends F m s P -> (forall a s', P a -> ends F (f a) s' Q) -> ends F (m ≫= f) s Q.
Proof.
  unfold ends at 1 3, mbind, M_bind. intros Hm Hf. destruct (m s) as [a s1|t s1|e]; [|done|done].
  by apply Hf.
Qed.

Lemma ends_mono {A} (m : M S A) s (P Q : A -> Prop) :
  ends F m s P -> (forall a, P a -> Q a) -> ends F m s Q.
Proof. unfold ends. intros H HPQ. destruct (m s); [by apply HPQ|done|done]. Qed.

Lemma ends_need {A} (o : option A) w (s : S) (Q : A -> Prop) :
  (forall a, o = Some a -> Q a) -> (o = None -> F w) -> ends F (need o w) s Q.
Proof. intros H HF. destruct o; [by apply H|exists w; auto]. Qed.

Context (putch : Z -> M S unit).
Context (putch_ends : forall c s, exists s', putch c s = Ret tt s').

Lemma ends_putch c s : ends F (putch c) s (fun _ => True).
Proof. unfold ends. by destruct (putch_ends c s) as [s' ->]. Qed.

Lemma ends_emit l s : ends F (emit putch l) s (fun _ => True).
Proof.
  revert s. induction l as [|c l IH]; intros s; cbn [emit]; [by apply ends_ret|].
  eapply ends_bind; [apply ends_putch|]. intros u s' _. apply IH.
Qed.

Lemma ends_pad n c s : ends F (pad putch n c) s (fun _ => True).
Proof.
  revert s. induction n as [|n IH]; intros s; cbn [pad]; [by apply ends_ret|].
  eapply ends_bind; [apply ends_putch|]. intros u s' _. apply IH.
Qed.

(** 64 levels are enough for a number below 2^64 in base 2 or more. *)
Lemma ends_printnum fuel num base w pc s :
  2 <= base -> 0 <= num < 2 ^ Z.of_nat fuel -> (0 < fuel)%nat ->
  ends F (printnum putch fuel num base w pc) s (fun _ => True).
Proof.
  intros Hb. revert num w s. induction fuel as [|fuel IH]; intros num w s Hn Hf; [lia|].
  cbn [printnum]. apply (ends_bind _ _ _ (fun _ => True)); [|intros; apply ends_putch].
  destruct (Z.geb_spec num base); [|apply ends_pad].
  rewrite Nat2Z.inj_succ, Z.pow_succ_r in Hn by lia.
  assert (0 <= num / base < 2 ^ Z.of_nat fuel).
  { split; [apply Z.div_pos; lia|]. apply Z.div_lt_upper_bound; nia. }
  apply IH; [done|]. destruct fuel; [|lia]. simpl in Hn. lia.
Qed.

(** A string ends before memory does, or is none. *)
Section Str.
Context (m : bmem) (p0 : Z).
Context (HF : forall w, runs_off m p0 ->
  w = "read"%string \/ w = "vprintfmt: string read"%string -> F w).

Definition scanned (p : Z) : Prop :=
  p0 <= p /\ forall x, p0 <= x < p -> exists c, m !! x = Some c /\ c <> 0.

Lemma scanned_next p c : scanned p -> m !! p = Some c -> c <> 0 -> scanned (p + 1).
Proof.
  intros (Hp & Hx) Hc Hc0. split; [lia|]. intros x ?.
  destruct (Z.eq_dec x p) as [->|]; [eauto|apply Hx; lia].
Qed.

Lemma scanned_off p w : scanned p -> m !! p = None ->
  w = "read"%string \/ w = "vprintfmt: string read"%string -> F w.
Proof. intros (Hp & Hx) Hn Hw. apply HF; [by exists p|done]. Qed.

Lemma ends_string_loop p fuel w pr af s :
  scanned p -> Z.of_nat fuel + (p - p0) = Z.of_nat (fuel_of m) ->
  ends F (string_loop putch fuel m p w pr af) s (fun _ => True).
Proof.
  revert p w pr s. induction fuel as [|fuel IH]; intros p w pr s Hp Hf; cbn [string_loop].
  - exfalso. unfold fuel_of in Hf. rewrite <- size_dom in Hf. destruct Hp as (Hp & Hk).
    assert (list_to_set (seqZ p0 (p - p0)) ⊆ dom m) as Hs.
    { intros x Hx. apply elem_of_list_to_set, elem_of_seqZ in Hx. apply elem_of_dom.
      destruct (Hk x ltac:(lia)) as (c & -> & _). eauto. }
    apply subseteq_size in Hs. rewrite size_list_to_set in Hs by apply NoDup_seqZ.
    rewrite length_seqZ in Hs. lia.
  - eapply ends_bind; [apply (ends_need _ _ _ (fun c => m !! p = Some c)); [done|]|].
    { intros Hn. eapply scanned_off; eauto. }
    intros c s' Hc. cbv beta in Hc. cbv zeta.
    destruct (Z.eqb_spec (s8 c) 0) as [|Hc0]; [by apply ends_ret|].
    destruct (_ || _); [|by apply ends_ret].
    eapply ends_bind; [apply ends_putch|]. intros u s'' _. apply IH; [|lia].
    eapply scanned_next; [done|done|]. intros ->. by apply Hc0.
Qed.

Lemma ends_strnlen_loop k p i (s : S) :
  scanned p -> ends F (reading m (strnlen_loop k p i)) s (fun _ => True).
Proof.
  revert p i. induction k as [|k IH]; intros p i Hp; [done|].
  specialize (IH (p + 1) (i + 1)). revert IH. unfold reading. cbn [strnlen_loop].
  unfold ld, get, need, mbind, M_bind. destruct (m !! p) as [c|] eqn:Hc; intros IH.
  - unfold mret at 1, M_ret at 1. destruct (Z.eqb_spec c 0); [done|]. cbn [negb].
    apply IH. by eapply scanned_next.
  - eexists. split; [done|]. eapply scanned_off; eauto.
Qed.

Lemma ends_strnlen n (s : S) : ends F (reading m (strnlen p0 n)) s (fun _ => True).
Proof. apply (ends_strnlen_loop _ p0 0). split; [lia|intros; lia]. Qed.

Lemma ends_print_string w pr af pc s :
  ends F (print_string putch m p0 w pr af pc) s (fun _ => True).
Proof.
  unfold print_string. apply (ends_bind _ _ _ (fun _ => True)).
  - destruct (_ && _); [|by apply ends_ret].
    eapply ends_bind; [apply ends_strnlen|]. intros n s' _.
    eapply ends_bind; [apply ends_pad|]. intros u s'' _. by apply ends_ret.
  - intros n s' _. eapply ends_bind; [apply ends_string_loop; [split; [lia|intros; lia]|lia]|].
    intros w' s'' _. apply ends_pad.
Qed.
End Str.

Lemma ends_number sp num base ap s :
  2 <= base -> ends F (number putch sp num base ap) s (fun r => r = (sp_fmt sp, ap)).
Proof.
  intros Hb. unfold number. eapply ends_bind; [apply ends_printnum; [done| |lia]|].
  - change (2 ^ Z.of_nat 64) with 18446744073709551616. unfold u64. apply Z.mod_pos_bound. lia.
  - intros u s' _. by apply ends_ret.
Qed.
End Ends.

Lemma width_digits_length fmt pr ch : (length (snd (width_digits fmt pr ch)) <= length fmt)%nat.
Proof.
  revert pr ch. induction fmt as [|c fmt IH]; intros pr ch; cbn [width_digits]; [done|].
  destruct (_ || _); [done|]. etrans; [apply IH|]. simpl. lia.
Qed.

(** The formats inside [%e] have the argument they ask for. *)
Section Inner.
Context {S : Type} (putch : Z -> M S unit).
Context (putch_ends : forall c s, exists s', putch c s = Ret tt s').

Lemma inner_ends F m fmt ap l s :
  printfmt_inner log_putch m fmt ap [] = Ret tt l ->
  ends F (printfmt_inner putch m fmt ap) s (fun _ => True).
Proof.
  intros E.
  assert (sim putch (printfmt_inner log_putch m fmt ap) (printfmt_inner putch m fmt ap)) as H.
  { apply sim_fmt_loop. intros. apply sim_stop. }
  destruct (H _ _ _ E) as (o & _ & Ho). unfold ends. rewrite Ho. unfold mbind, M_bind.
  pose proof (ends_emit F putch putch_ends o s) as He. unfold ends in He.
  by destruct (emit putch o s).
Qed.

Lemma inner_number_ends F err s :
  ends F (printfmt_inner putch ∅ (bytes "error %d") [err]) s (fun _ => True).
Proof.
  set (sp := Spec (chr "d") (chr " ") (-1) (-1) 0 0 [] [err]).
  assert (forall n l, exists l', number log_putch sp n 10 [] l = Ret ([], []) l') as Hn.
  { intros n l. pose proof (ends_number (fun _ => False) log_putch
      ltac:(intros c k; by exists (c :: k)) sp n 10 [] l ltac:(lia)) as H. unfold ends in H.
    destruct (number _ _ _ _ _ _) as [r l'| |e]; [subst r; by exists l'|done|by destruct H as (? & _ & [])]. }
  assert (exists l, printfmt_inner log_putch ∅ (bytes "error %d") [err] [] = Ret tt l) as [l E];
    [|by apply (inner_ends _ _ _ _ l)].
  assert (printfmt_inner log_putch ∅ (bytes "error %d") [err] []
    = ((if s32 (u32 err) <? 0 then log_putch (chr "-") ;; number log_putch sp (- s32 (u32 err)) 10 []
        else number log_putch sp (s32 (u32 err)) 10 [])
       ≫= fun r => fmt_loop log_putch (fun _ _ _ => fault "nested error message") 2 ∅ (fst r) (snd r))
      (reverse (bytes "error "))) as -> by reflexivity.
  unfold mbind, M_bind. destruct (_ <? _).
  - unfold log_putch at 1, modify.
    destruct (Hn (- s32 (u32 err)) (chr "-" :: reverse (bytes "error "))) as [l ->]. by exists l.
  - destruct (Hn (s32 (u32 err)) (reverse (bytes "error "))) as [l ->]. by exists l.
Qed.

Lemma inner_message_ends F msg s :
  Some msg ∈ error_string ->
  ends F (printfmt_inner putch (literal (bytes msg)) (bytes "%s") [1]) s (fun _ => True).
Proof.
  intros H.
  assert (Forall (fun o => match o with None => True | Some msg => exists l,
    printfmt_inner log_putch (literal (bytes msg)) (bytes "%s") [1] [] = Ret tt l end) error_string) as Ha
    by (repeat constructor; eexists; by vm_compute).
  rewrite Forall_forall in Ha. destruct (Ha _ H) as [l E]. by apply (inner_ends _ _ _ _ l).
Qed.

(** [%e] faults only on the error number without a positive counterpart. *)
Lemma ends_print_error (F : string -> Prop) err s :
  -2147483648 <= err < 2147483648 -> (err = -2147483648 -> F "error_string[]"%string) ->
  ends F (print_error (printfmt_inner putch) err) s (fun _ => True).
Proof.
  intros Hr HF. unfold print_error. cbv zeta.
  set (e := if err <? 0 then s32 (- err) else err).
  destruct (Z.geb_spec e MAXERROR) as [|Hlt]; [apply inner_number_ends|].
  eapply ends_bind; [apply (ends_need _ _ _ _ (fun o => o ∈ error_string))|].
  - intros o Ho. unfold zget in Ho. destruct (0 <=? e); [|done]. by eapply list_elem_of_lookup_2.
  - intros Hn. apply HF. unfold zget in Hn. destruct (Z.leb_spec 0 e).
    + apply lookup_ge_None in Hn. simpl in Hn. unfold MAXERROR in *. lia.
    + subst e. destruct (Z.ltb_spec err 0); [|lia].
      destruct (Z.eq_dec err (-2147483648)); [done|]. revert H. wrap_lia.
  - intros [msg|] s' Ho; [by apply inner_message_ends|apply inner_number_ends].
Qed.
End Inner.

Section EndsFmt.
Context {S : Type} (putch : Z -> M S unit) (m : bmem) (args : list Z).
Context (putch_ends : forall c s, exists s', putch c s = Ret tt s').

Definition fits (sp : spec) (n : nat) : Prop := (length (sp_fmt sp) <= n)%nat /\ sp_ap sp ⊆ args.

(** A word taken from the arguments, and those left. *)
Lemma ends_va_arg ap (s : S) :
  ap ⊆ args -> ends (fmt_fault m args) (va_arg ap) s (fun r => snd r ⊆ args /\ exists w, w ∈ args /\ fst r = u32 w).
Proof.
  intros Ha. destruct ap as [|w ap]; [eexists; split; [done|constructor]|].
  apply ends_ret. cbn [fst snd]. split; [set_solver|]. exists w. split; [set_solver|done].
Qed.

Lemma ends_va_arg64 ap (s : S) : ap ⊆ args -> ends (fmt_fault m args) (va_arg64 ap) s (fun r => snd r ⊆ args).
Proof.
  intros Ha. unfold va_arg64. eapply ends_bind; [by apply ends_va_arg|]. intros r s' (Hr & _).
  eapply ends_bind; [by apply ends_va_arg|]. intros r' s'' (Hr' & _). by apply ends_ret.
Qed.

Lemma ends_getuint ap lf (s : S) : ap ⊆ args -> ends (fmt_fault m args) (getuint ap lf) s (fun r => snd r ⊆ args).
Proof.
  intros Ha. unfold getuint. case_match_goal; [by apply ends_va_arg64|].
  eapply ends_mono; [by apply ends_va_arg|]. by intros r (? & _).
Qed.

Lemma ends_getint ap lf (s : S) : ap ⊆ args -> ends (fmt_fault m args) (getint ap lf) s (fun r => snd r ⊆ args).
Proof.
  intros Ha. unfold getint. case_match_goal.
  - eapply ends_bind; [by apply ends_va_arg64|]. intros r s' Hr. by apply ends_ret.
  - eapply ends_bind; [by apply ends_va_arg|]. intros r s' (Hr & _). by apply ends_ret.
Qed.

Lemma ends_reswitch fuel fmt ap pc w pr lf af (s : S) :
  (length fmt < fuel)%nat -> ap ⊆ args ->
  ends (fmt_fault m args) (reswitch fuel fmt ap pc w pr lf af) s (fun sp => fits sp (length fmt)).
Proof.
  revert fmt ap pc w pr lf af s.
  induction fuel as [|fuel IH]; intros fmt ap pc w pr lf af s Hf Ha; [lia|].
  assert (forall fmt' ap pc w pr lf af (s : S), ap ⊆ args ->
    fmt <> [] -> (length fmt' <= length (tail fmt))%nat ->
    ends (fmt_fault m args) (reswitch fuel fmt' ap pc w pr lf af) s (fun sp => fits sp (length fmt))) as Hgo.
  { intros fmt' ap' pc' w' pr' lf' af' s' Ha' Hne Hl. destruct fmt as [|c fmt]; [done|]. simpl in *.
    eapply ends_mono; [apply IH; [lia|done]|]. intros sp (? & ?). split; [lia|done]. }
  cbn [reswitch]. destruct fmt as [|c fmt].
  { by apply ends_ret. }
  cbv zeta iota. simpl tail in *. pose proof (width_digits_length fmt 0 c) as Hw.
  repeat match goal with
  | |- ends _ (if ?b then _ else _) _ _ => destruct b
  | |- ends _ (reswitch _ _ _ _ _ _ _ _) _ _ => apply Hgo; [done|done|simpl in *; lia]
  | |- ends _ (va_arg _ ≫= _) _ _ => eapply ends_bind; [by apply ends_va_arg|intros ? ? (? & _)]
  | |- ends _ (let '(_, _) := ?x in _) _ _ => destruct x
  | |- ends _ (mret _) _ _ => apply ends_ret; split; simpl; [lia|done]
  end.
Qed.

Lemma ends_string_arg p w pr af pc s :
  (exists a, a ∈ args /\ p = u32 a) ->
  ends (fmt_fault m args) (if p =? 0 then print_string putch (literal (bytes "(null)")) 1 w pr af pc
          else print_string putch m p w pr af pc) s (fun _ => True).
Proof.
  intros (a & Ha & ->). destruct (Z.eqb_spec (u32 a) 0).
  - apply ends_print_string; [done|]. intros what Hoff _. exfalso. revert Hoff.
    apply (str_at_runs_on _ _ (bytes "(null)")). vm_compute. split_and!; reflexivity.
  - apply ends_print_string; [done|]. intros what Hoff Hw. by apply (ff_string _ _ a).
Qed.

(** The format left after a conversion is no longer than the one after the percent sign. *)
Lemma ends_conversion sp mark s :
  fits sp (length mark) ->
  ends (fmt_fault m args) (conversion putch (printfmt_inner putch) m sp mark) s
    (fun r => (length (fst r) <= length mark)%nat /\ snd r ⊆ args).
Proof.
  intros (Hl & Ha). unfold conversion.
  assert (forall num base ap s, 2 <= base -> ap ⊆ args ->
    ends (fmt_fault m args) (number putch sp num base ap) s
      (fun r => (length (fst r) <= length mark)%nat /\ snd r ⊆ args)) as Hnum.
  { intros num base ap s' Hb Hap. eapply ends_mono; [by apply ends_number|].
    by intros r ->. }
  cbv zeta.
  repeat first
    [ apply Hnum; [lia|done]
    | by apply ends_ret
    | match goal with
      | |- ends _ (va_arg _ ≫= _) _ _ =>
          eapply ends_bind; [by apply ends_va_arg|intros r ? (? & ?)]
      | |- ends _ (getuint _ _ ≫= _) _ _ => eapply ends_bind; [by apply ends_getuint|intros r ? ?]
      | |- ends _ (getint _ _ ≫= _) _ _ => eapply ends_bind; [by apply ends_getint|intros r ? ?]
      | |- ends _ (putch _ ≫= _) _ _ => eapply ends_bind; [by apply ends_putch|intros ? ? _]
      | |- ends _ ((if _ =? 0 then _ else _) ≫= _) _ _ =>
          eapply ends_bind; [by apply ends_string_arg|intros ? ? _]
      | H : exists w, w ∈ args /\ _ |- ends _ (print_error _ _ ≫= _) _ _ =>
          destruct H as (e & He & ->); eapply ends_bind;
          [apply ends_print_error; [done|wrap_lia|by intros; eapply ff_error]|intros ? ? _]
      | |- ends _ (if ?b then _ else _) _ _ => destruct b
      end ].
Qed.

Lemma ends_fmt_loop fuel fmt ap s :
  (length fmt < fuel)%nat -> ap ⊆ args ->
  ends (fmt_fault m args) (fmt_loop putch (printfmt_inner putch) fuel m fmt ap) s (fun _ => True).
Proof.
  revert fmt ap s. induction fuel as [|fuel IH]; intros fmt ap s Hf Ha; [lia|].
  cbn [fmt_loop]. destruct fmt as [|c fmt]; [by apply ends_ret|]. simpl in Hf.
  destruct (negb _).
  - eapply ends_bind; [by apply ends_putch|]. intros u s' _. apply IH; [lia|done].
  - eapply ends_bind; [apply ends_reswitch; [lia|done]|]. intros sp s' Hsp.
    eapply ends_bind; [by apply ends_conversion|]. intros r s'' (Hr & Hr').
    apply IH; [lia|done].
Qed.
End EndsFmt.

(** ** Numbers *)

(** The digits of [num], most significant first. *)
Fixpoint digits (fuel : nat) (base num : Z) : list Z :=
  match fuel with
  | O => []
  | S fuel' => (if num >=? base then digits fuel' base (num / base) else []) ++ [num mod base]
  end.

Definition undigits (base : Z) : list Z -> Z -> Z := fold_left (fun v d => v * base + d).

Lemma pad_log n c l : pad log_putch n c l = Ret tt (replicate n c ++ l).
Proof.
  revert l. induction n as [|n IH]; intros l; cbn [pad]; [done|].
  unfold log_putch, modify, mbind, M_bind. rewrite IH. f_equal.
  rewrite replicate_S_end, <- (assoc_L (++)). done.
Qed.

Lemma printnum_log fuel num base w pc l :
  2 <= base -> 0 <= num < 2 ^ Z.of_nat fuel -> (0 < fuel)%nat ->
  -2147483648 + Z.of_nat fuel <= w < 2147483648 ->
  let ds := digits fuel base num in
  printnum log_putch fuel num base w pc l
  = Ret tt (reverse (replicate (Z.to_nat (w - Z.of_nat (length ds))) pc ++ (digit_char <$> ds)) ++ l).
Proof.
  intros Hb. revert num w l. induction fuel as [|fuel IH]; intros num w l Hn Hf Hw; [lia|].
  cbn [printnum digits]. replace (s32 (w - 1)) with (w - 1) by wrap_lia. rewrite Nat2Z.inj_succ, Z.pow_succ_r in Hn by lia.
  unfold mbind at 1, M_bind at 1. destruct (Z.geb_spec num base) as [Hge|Hlt].
  - assert (0 <= num / base < 2 ^ Z.of_nat fuel).
    { split; [apply Z.div_pos; lia|]. apply Z.div_lt_upper_bound; nia. }
    rewrite IH by (done || lia || (destruct fuel; simpl in Hn; lia)).
    unfold log_putch, modify. f_equal. rewrite length_app, fmap_app, (assoc_L (++)), !reverse_app.
    simpl. do 5 f_equal. lia.
  - rewrite pad_log. unfold log_putch, modify. f_equal. simpl.
    rewrite reverse_app, reverse_replicate. simpl. rewrite (Z.mod_small num) by lia.
    do 2 f_equal.
Qed.

Lemma digits_range fuel base num :
  2 <= base -> Forall (fun d => 0 <= d < base) (digits fuel base num).
Proof.
  intros Hb. revert num. induction fuel as [|fuel IH]; intros num; cbn [digits]; [constructor|].
  apply Forall_app. split; [destruct (_ >=? _); [apply IH|constructor]|].
  constructor; [apply Z.mod_pos_bound; lia|constructor].
Qed.

Lemma digits_ne fuel base num : digits (S fuel) base num <> [].
Proof. cbn [digits]. intros [_ [=]]%app_nil. Qed.

Lemma undigits_digits fuel base num :
  2 <= base -> 0 <= num < 2 ^ Z.of_nat fuel -> (0 < fuel)%nat ->
  undigits base (digits fuel base num) 0 = num.
Proof.
  intros Hb. revert num. induction fuel as [|fuel IH]; intros num Hn Hf; [lia|].
  cbn [digits]. unfold undigits in *. rewrite fold_left_app. simpl.
  rewrite Nat2Z.inj_succ, Z.pow_succ_r in Hn by lia.
  destruct (Z.geb_spec num base) as [Hge|Hlt].
  - assert (0 <= num / base < 2 ^ Z.of_nat fuel).
    { split; [apply Z.div_pos; lia|]. apply Z.div_lt_upper_bound; nia. }
    rewrite IH by (done || (destruct fuel; simpl in Hn; lia)).
    pose proof (Z.div_mod num base). lia.
  - simpl. rewrite Z.mod_small by lia. done.
Qed.

(** [digit] of string.c reads what [printnum] writes. *)
Lemma digit_digit_char d : 0 <= d < 16 -> digit (digit_char d) = Some d.
Proof.
  intros Hd. assert (d ∈ seqZ 0 16) as H by (apply elem_of_seqZ; lia).
  assert (forallb (fun d => bool_decide (digit (digit_char d) = Some d)) (seqZ 0 16) = true) as Hall
    by by vm_compute.
  rewrite forallb_forall in Hall. apply list_elem_of_In, Hall, bool_decide_eq_true_1 in H. done.
Qed.

Lemma digits_loop_eq fuel (m : bmem) s base ds v v0 :
  2 <= base <= 16 -> Forall (fun d => 0 <= d < base) ds -> (length ds < fuel)%nat ->
  str_at m s (digit_char <$> ds) -> v = s32 v0 ->
  digits_loop fuel s base v m = Ret (s + Z.of_nat (length ds), s32 (undigits base ds v0)) m.
Proof.
  intros Hb Hds. revert fuel s v v0. induction Hds as [|d ds Hd Hds IH]; intros fuel s v v0 Hf Hs ->;
    (destruct fuel as [|fuel]; [simpl in Hf; lia|]); cbn [digits_loop];
    unfold ld, get, need, mbind at 1 2, M_bind at 1 2; simpl in Hs.
  - rewrite Hs. cbn. by rewrite Z.add_0_r.
  - destruct Hs as (-> & _ & Hs). unfold mret at 1, M_ret at 1.
    rewrite digit_digit_char by lia. destruct (Z.geb_spec d base); [lia|].
    rewrite (IH fuel (s + 1) _ (v0 * base + d)); [|simpl in Hf; lia|done|wrap_lia].
    replace (s + Z.of_nat (length (d :: ds))) with (s + 1 + Z.of_nat (length ds))
      by (simpl length; lia). done.
Qed.

Lemma number_log sp num l :
  sp_width sp = -1 ->
  number log_putch sp num 10 [] l
  = Ret (sp_fmt sp, []) (reverse (digit_char <$> digits 64 10 (u64 num)) ++ l).
Proof.
  intros Hw. unfold number, mbind, M_bind. rewrite printnum_log; [|lia| |lia|rewrite Hw; lia].
  - rewrite Hw, Z2Nat.nonpos by lia. done.
  - change (2 ^ Z.of_nat 64) with 18446744073709551616. apply Z.mod_pos_bound. lia.
Qed.

(** What [%d] prints. *)
Lemma output_d m v :
  -2147483648 <= v <= 2147483647 ->
  output m (bytes "%d") [v]
  = Some ((if v <? 0 then [chr "-"] else []) ++ (digit_char <$> digits 64 10 (Z.abs v))).
Proof.
  intros Hv. unfold output.
  set (sp := Spec (chr "d") (chr " ") (-1) (-1) 0 0 [] [v]).
  assert (vprintfmt log_putch m (bytes "%d") [v] []
    = ((if s32 (u32 v) <? 0 then log_putch (chr "-") ;; number log_putch sp (- s32 (u32 v)) 10 []
        else number log_putch sp (s32 (u32 v)) 10 [])
       ≫= fun r => fmt_loop log_putch (printfmt_inner log_putch) 2 m (fst r) (snd r)) [])
    as -> by reflexivity.
  replace (s32 (u32 v)) with v by wrap_lia.
  assert (u64 (Z.abs v) = Z.abs v) as Hu by (apply Z.mod_small; lia).
  destruct (Z.ltb_spec v 0).
  - rewrite (bind_ret _ _ _ ([], []) (reverse (digit_char <$> digits 64 10 (Z.abs v)) ++ [chr "-"])).
    + cbn [fst fmt_loop]. unfold mret, M_ret. by rewrite reverse_app, reverse_involutive.
    + rewrite (bind_ret _ _ _ tt [chr "-"]) by done. rewrite number_log by done.
      replace (- v) with (Z.abs v) by lia. by rewrite Hu.
  - rewrite (bind_ret _ _ _ ([], []) (reverse (digit_char <$> digits 64 10 (Z.abs v)) ++ [])).
    + cbn [fst fmt_loop]. unfold mret, M_ret. by rewrite app_nil_r, reverse_involutive.
    + rewrite number_log by done. replace (u64 v) with (Z.abs v) by (rewrite <- Hu; f_equal; lia).
      done.
Qed.

(** The digit characters, and their distance from blanks and signs. *)
Lemma digit_char_range d : 0 <= d < 10 -> 48 <= digit_char d <= 57.
Proof.
  intros Hd. assert (d ∈ seqZ 0 10) as H by (apply elem_of_seqZ; lia).
  assert (forallb (fun d => (48 <=? digit_char d) && (digit_char d <=? 57)) (seqZ 0 10) = true) as Hall
    by by vm_compute.
  rewrite forallb_forall in Hall. apply list_elem_of_In, Hall in H. breflect. lia.
Qed.

(** [strtol] in base ten on an optional minus sign and digits. *)
Lemma strtol_decimal (m : bmem) p (neg : bool) ds :
  Forall (fun d => 0 <= d < 10) ds -> ds <> [] ->
  str_at m p ((if neg then [chr "-"] else []) ++ (digit_char <$> ds)) ->
  let v := s32 (undigits 10 ds 0) in
  strtol p 10 m
  = Ret (if neg then s32 (- v) else v,
         p + (if neg then 1 else 0) + Z.of_nat (length ds)) m.
Proof.
  intros Hds Hne Hs. destruct ds as [|d ds]; [done|].
  pose proof (str_at_fuel _ _ _ Hs) as Hf. rewrite length_app, length_fmap in Hf.
  pose proof (Forall_inv Hds) as Hd. apply digit_char_range in Hd.
  set (q := p + (if neg then 1 else 0)).
  assert (str_at m q (digit_char <$> d :: ds)) as Hq.
  { subst q. destruct neg; [apply Hs|by rewrite Z.add_0_r]. }
  destruct (fuel_of m) as [|f] eqn:Ef; [lia|].
  assert (exists c, m !! p = Some c /\ (c =? 32) || (c =? 9) = false /\ (c =? 45) = neg
    /\ (c =? 43) || (c =? 45) = neg) as (c & Hc & Hb & Hn & Hm).
  { destruct neg; simpl in Hs; destruct Hs as (Hc & _); eexists; (split; [exact Hc|]); [done|].
    destruct (Z.eqb_spec (digit_char d) 32), (Z.eqb_spec (digit_char d) 9),
      (Z.eqb_spec (digit_char d) 43), (Z.eqb_spec (digit_char d) 45); try lia; done. }
  assert (m !! q = Some (digit_char d)) as Hc0 by apply Hq.
  unfold strtol, gets, mbind at 1, M_bind at 1. rewrite Ef. cbn [skip_blanks].
  unfold ld, get, need, mbind, M_bind. rewrite Hc. unfold mret, M_ret. rewrite Hb, Hc, Hm, Hn.
  replace (if neg then p + 1 else p) with q by (subst q; destruct neg; lia). rewrite Hc0.
  cbn [orb andb Z.eqb Pos.eqb]. 
  rewrite (digits_loop_eq _ _ _ _ (d :: ds) _ 0); [by destruct neg|lia|done| |done|done].
  simpl length in *. lia.
Qed.

(** ** Properties *)

(** C36: Formatting always ends: for every format, every list of arguments and
    every memory, and whatever [putch] does with the characters as long as it
    returns, [vprintfmt] returns, never running out of turns, so the loops of the
    C code end too.  It stops without returning only in three kinds of case: the
    format asks for more arguments than there are; a [%s] is given a non-null
    address from which memory holds no NUL before it ends; or a [%e] is given the
    error number -2147483648, which stays negative when its sign is changed and is
    then used as an index into [error_string]. *)
Theorem vprintfmt_terminates {S} (putch : Z -> M S unit) m fmt ap s :
  (forall c s, exists s', putch c s = Ret tt s') ->
  (exists s', vprintfmt putch m fmt ap s = Ret tt s')
  \/ (exists what, vprintfmt putch m fmt ap s = Stop (Fault what) /\ fmt_fault m ap what).
Proof.
  intros Hp.
  assert (ends (fmt_fault m ap) (vprintfmt putch m fmt ap) s (fun _ => True)) as H
    by (apply ends_fmt_loop; [done|lia|done]).
  unfold ends in H. destruct (vprintfmt putch m fmt ap s) as [[] s'|f s'|e]; [eauto|done|].
  destruct H as (w & -> & Hw). eauto.
Qed.

Lemma vprintfmt_terminates_witness :
  ((exists s', vprintfmt log_putch ∅ (bytes "%5d %") [42] [] = Ret tt s')
   \/ (exists what, vprintfmt log_putch ∅ (bytes "%5d %") [42] [] = Stop (Fault what)
       /\ fmt_fault ∅ [42] what))
  /\ vprintfmt log_putch ∅ (bytes "%5d %") [42] [] = Ret tt (reverse (bytes "   42 %"))
  /\ vprintfmt log_putch ∅ (bytes "%e") [-2147483648] [] = Stop (Fault "error_string[]").
Proof.
  split_and!; [|by vm_compute|by vm_compute].
  apply vprintfmt_terminates. intros c s. by exists (c :: s).
Defined.

(** C37: [strtol] reads back what [%d] prints, for every [int], INT_MIN included:
    the output is followed up to its NUL and the value is the number printed. *)
Theorem printf_strtol_roundtrip m v :
  -2147483648 <= v <= 2147483647 ->
  exists out, output m (bytes "%d") [v] = Some out /\
  forall mem p, str_at mem p out ->
    strtol p 10 mem = Ret (v, p + Z.of_nat (length out)) mem.
Proof.
  intros Hv. rewrite output_d by done. eexists. split; [done|]. intros mem p Hs.
  assert (0 <= Z.abs v < 2 ^ Z.of_nat 64).
  { change (2 ^ Z.of_nat 64) with 18446744073709551616. lia. }
  pose proof (undigits_digits 64 10 (Z.abs v) ltac:(lia) ltac:(done) ltac:(lia)) as Hu.
  set (ds := digits 64 10 (Z.abs v)) in *.
  assert (ds <> []) as Hne by apply digits_ne.
  rewrite (strtol_decimal _ _ (v <? 0) ds); [|by apply digits_range|done|done].
  rewrite Hu, length_app, length_fmap. f_equal. f_equal.
  - destruct (Z.ltb_spec v 0); wrap_lia.
  - destruct (Z.ltb_spec v 0); simpl; lia.
Qed.

Lemma printf_strtol_roundtrip_witness :
  exists out, output ∅ (bytes "%d") [-2147483648] = Some out /\
  forall mem p, str_at mem p out ->
    strtol p 10 mem = Ret (-2147483648, p + Z.of_nat (length out)) mem.
Proof. apply printf_strtol_roundtrip. lia. Defined.

(** C38: [vsnprintf] never writes outside its buffer. For a format
    that can be printed, its [%s] strings lying outside the buffer of [n >= 1]
    bytes, it leaves in the buffer the first [n - 1] characters of the output and
    a NUL, changes no other byte, and returns the length of the whole output, as
    an [int], whether or not it was cut. *)
Theorem vsnprintf_truncates (m : bmem) buf n fmt ap out :
  buf <> 0 -> 1 <= n -> present m buf n -> output (apart buf n m) fmt ap = Some out ->
  let l := take (Z.to_nat (n - 1)) out in
  wp (vsnprintf buf n fmt ap) m (fun r m' =>
    r = s32 (Z.of_nat (length out))
    /\ (forall i, (i < length l)%nat -> m' !! (buf + Z.of_nat i) = u8 <$> l !! i)
    /\ m' !! (buf + Z.of_nat (length l)) = Some 0
    /\ forall x, ~ (buf <= x <= buf + Z.of_nat (length l)) -> m' !! x = m !! x).
Proof.
  intros Hbuf Hn Hp Ho l. unfold vsnprintf.
  destruct (Z.eqb_spec buf 0); [done|]. destruct (Z.ltb_spec n 1); [lia|]. cbn [orb].
  wp_step. wp_step. wp_step.
  destruct (wp_inv _ _ _ (wp_emit_sprint out m buf (Z.to_nat (n - 1)) 0
    ltac:(intros x ?; apply Hp; lia))) as (u & [m1 b1] & E & Hb & Hc & Hr & Hi & Hout).
  cbn [fst snd] in *. fold l in Hb, Hi, Hout.
  eapply wp_eq.
  { rewrite (vprintfmt_emit _ _ _ _ out) by done.
    replace (buf + n - 1) with (buf + Z.of_nat (Z.to_nat (n - 1))) by lia. by rewrite E. }
  cbn [fst snd]. wp_step.
  assert (length l <= Z.to_nat (n - 1))%nat as Hlen by (subst l; rewrite length_take; lia).
  destruct (Hp (buf + Z.of_nat (length l)) ltac:(lia)) as (b & Hb0 & _).
  rewrite Hb. eapply wp_st; [by rewrite Hout by lia|]. wp_step. split_and!.
  - rewrite <- Hr, Hc by done. done.
  - intros i Hl. rewrite lookup_insert_ne by lia. by apply Hi.
  - by rewrite lookup_insert_eq.
  - intros x Hx. rewrite lookup_insert_ne by lia. apply Hout. lia.
Qed.

Lemma vsnprintf_truncates_witness :
  wp (vsnprintf 100 4 (bytes "%d") [-12345]) demo_bytes (fun r m' =>
    r = 6 /\ m' !! 102 = Some (chr "2") /\ m' !! 103 = Some 0 /\ m' !! 104 = Some 1).
Proof.
  eapply wp_mono; [apply (vsnprintf_truncates demo_bytes 100 4 (bytes "%d") [-12345] (bytes "-12345"));
    [lia|lia|apply demo_present; lia|by vm_compute]|].
  intros r m' (-> & Hi & H0 & Hx). split_and!; [done| |exact H0|].
  - change 102 with (100 + Z.of_nat 2). by rewrite Hi by (simpl; lia).
  - rewrite (Hx 104) by (simpl; lia). done.
Defined.

(** C39: The buffering of the user library loses nothing: the pieces [cprintf] hands
    to the system call [puts], put together, are exactly the output, each has at
    most 255 characters, no store leaves the 256-byte buffer, and the result is
    the number of characters. *)
Theorem cprintf_output_in_pieces stack m fmt args out u :
  length stack = 256%nat -> output m fmt args = Some out ->
  wp (cprintf log_puts stack m fmt args) u (fun r u' => exists pieces,
    u' = reverse pieces ++ u /\ concat pieces = (u8 <$> out)
    /\ Forall (fun p => length p <= 255)%nat pieces /\ r = s32 (Z.of_nat (length out))).
Proof.
  intros Hst Ho. eapply wp_mono; [by apply (cprintf_feeds log_puts cons)|].
  intros r u' (pieces & -> & H). exists pieces. by rewrite feeds_cons.
Qed.

Lemma cprintf_output_in_pieces_witness :
  wp (cprintf log_puts (replicate 256 0) ∅ (bytes "%300d") [7]) [] (fun r u' => exists pieces,
    u' = reverse pieces ++ [] /\ concat pieces = (u8 <$> replicate 299 (chr " ") ++ bytes "7")
    /\ Forall (fun p => length p <= 255)%nat pieces /\ r = s32 (Z.of_nat 300)).
Proof.
  apply (cprintf_output_in_pieces _ _ _ _ (replicate 299 (chr " ") ++ bytes "7"));
    [done|by vm_compute].
Defined.

Lemma wp_vprintk {W} `{!Ports W} ctx m fmt ap out (s : screen) (w : W) :
  screen_wf s -> output m fmt ap = Some out ->
  wp (vprintk ctx m fmt ap) (s, w) (fun r s' =>
    screen_wf (fst s') /\ attrib (fst s') = attrib s
    /\ view_of (fst s')
       = foldl (fun v c => tty (u16 (Z.shiftl (attrib s) 8)) (u8 c) v) (view_of s) out
    /\ r = s32 (Z.of_nat (length out))).
Proof.
  intros Hs Ho. unfold vprintk, wp. rewrite (vprintfmt_emit _ _ _ _ out) by done.
  destruct (wp_inv _ _ _ (wp_emit_k ctx out s w 0 Hs)) as (u & [[s1 w1] n1] & -> & H).
  cbn [fst snd] in *. destruct H as (Hs1 & Ha & Hv & Hn & Hr). split_and!; [done|done|done|].
  rewrite <- Hr, Hn by done. done.
Qed.

(** C40: [vprintk] shows exactly the output of the format: the screen is afterwards
    in the state of the reference terminal fed with the output's characters, the
    screen's invariant holds again, and the result counts the characters. *)
Theorem vprintk_shows_output {W} `{!Ports W} ctx m fmt ap out (s : screen) (w : W) :
  screen_wf s -> output m fmt ap = Some out ->
  wp (vprintk ctx m fmt ap) (s, w) (fun r s' =>
    screen_wf (fst s')
    /\ view_of (fst s')
       = foldl (fun v c => tty (u16 (Z.shiftl (attrib s) 8)) (u8 c) v) (view_of s) out
    /\ r = s32 (Z.of_nat (length out))).
Proof.
  intros Hs Ho. eapply wp_mono; [by apply (wp_vprintk ctx m fmt ap out)|]. by intros r s' (? & _ & ? & ?).
Qed.

Lemma vprintk_shows_output_witness :
  wp (vprintk (mkCtx 0 0 ∅) ∅ (bytes "%x") [255]) (demo_screen, Bus ∅ []) (fun r s' =>
    screen_wf (fst s') /\ r = 2).
Proof.
  eapply wp_mono; [apply (vprintk_shows_output _ _ _ _ (bytes "ff"));
    [apply demo_screen_wf|by vm_compute]|].
  by intros r s' (H & _ & ->).
Defined.
