(* ===== verification/Assert.v ===== *)
(** * Panics and warnings (kernel/assert.c)

    [_panic] and [_warn] with the variable [panicstr], on the screen and the
    interrupt flag.  A format and its arguments are as in Printfmt.v; [file] is a
    pointer into the memory [m].  [_panic] ends in [while(1);]: [panic_message] is
    the part before the label [dead]. *)

From S2P Require Import Prelude.
From S2P Require Import Machine.
From S2P Require Import Kmonad.
From S2P Require Import Spinlock.
From S2P Require Import Ports.
From S2P Require Import Screen.
From S2P Require Import Str.
From S2P Require Import Printfmt.
From Stdlib Require Import ZArith Lia.
From stdpp Require Import base gmap list strings.

Local Open Scope Z_scope.

(** [panicstr] (the format of the first panic, or null), the interrupt flag and the
    direction flag, and the screen with the ports. *)
Record astate (W : Type) := AS { panicstr : option (list Z); a_if : bool; a_df : bool; a_scr : screen * W }.
Arguments AS {W}. Arguments panicstr {W}. Arguments a_if {W}. Arguments a_df {W}. Arguments a_scr {W}.

Section Assert.
  Context {W : Type} `{!Ports W} (ctx : cpu_ctx) (m : bmem).

Definition on_a {X} : M (screen * W) X -> M (astate W) X :=
  zoom a_scr (fun v s => AS (panicstr s) (a_if s) (a_df s) v).

(** [printk(head, file, line); vprintk(fmt, ap); printk("\n")]. *)
Definition message (head : list Z) (file line : Z) (fmt ap : list Z) : M (astate W) unit :=
  _ ← on_a (printk ctx m head [file; line]);
  _ ← on_a (vprintk ctx m fmt ap);
  _ ← on_a (printk ctx m [10] []);
  mret tt.

Definition panic_message (file line : Z) (fmt ap : list Z) : M (astate W) unit :=
  p ← gets panicstr;
  match p with
  | Some _ => mret tt
  | None =>
      modify (fun s => AS (Some fmt) (a_if s) (a_df s) (a_scr s)) ;;
      modify (fun s => AS (panicstr s) false false (a_scr s)) ;;
      message (bytes "kernel panic at %s:%d: ") file line fmt ap
  end.

Definition _panic (file line : Z) (fmt ap : list Z) : M (astate W) unit :=
  panic_message file line fmt ap ;; hang "_panic: while (1)".

Definition _warn (file line : Z) (fmt ap : list Z) : M (astate W) unit :=
  message (bytes "kernel warning at %s:%d: ") file line fmt ap.

(** ** What is shown *)

Definition show (s : screen) (out : list Z) : view :=
  foldl (fun v c => tty (u16 (Z.shiftl (attrib s) 8)) (u8 c) v) (view_of s) out.

Lemma wp_on_vprintk fmt ap out (s : astate W) (Q : Z -> astate W -> Prop) :
  screen_wf (fst (a_scr s)) -> output m fmt ap = Some out ->
  (forall r scr, screen_wf (fst scr) -> attrib (fst scr) = attrib (fst (a_scr s)) ->
     view_of (fst scr) = show (fst (a_scr s)) out -> Q r (AS (panicstr s) (a_if s) (a_df s) scr)) ->
  wp (on_a (vprintk ctx m fmt ap)) s Q.
Proof.
  intros Hs Ho HQ. destruct s as [p f d [scr w] ]. apply wp_zoom. simpl.
  eapply wp_mono; [by apply (wp_vprintk ctx m fmt ap out)|]. intros r scr' (Hw & Ha & Hv & _). by apply HQ.
Qed.

Lemma wp_message head file line fmt ap out1 out2 (s : astate W) :
  screen_wf (fst (a_scr s)) -> output m head [file; line] = Some out1 -> output m fmt ap = Some out2 ->
  wp (message head file line fmt ap) s (fun _ s' => screen_wf (fst (a_scr s'))
    /\ view_of (fst (a_scr s')) = show (fst (a_scr s)) (out1 ++ out2 ++ [10])
    /\ panicstr s' = panicstr s /\ a_if s' = a_if s /\ a_df s' = a_df s).
Proof.
  intros Hs H1 H2. unfold message. wp_step. apply (wp_on_vprintk _ _ out1); [done|done|].
  intros r1 scr1 Hs1 Ha1 Hv1. wp_step. apply (wp_on_vprintk _ _ out2); [done|done|].
  intros r2 scr2 Hs2 Ha2 Hv2. wp_step. apply (wp_on_vprintk _ _ [10]); [done|done|].
  intros r3 scr3 Hs3 Ha3 Hv3. wp_step. split; [done|]. split; [|done]. simpl in *.
  rewrite Hv3. unfold show in *. rewrite Hv2, Hv1, Ha2, Ha1. by rewrite !foldl_app.
Qed.

(** The first panic is the one that is reported: it shows file, line and message
    and a newline, stores the format and turns interrupts off; a panic after that
    changes nothing at all.  (Both then spin at [dead].) *)
Theorem panic_reports_first file line fmt ap out1 out2 (s : astate W) :
  screen_wf (fst (a_scr s)) -> panicstr s = None ->
  output m (bytes "kernel panic at %s:%d: ") [file; line] = Some out1 -> output m fmt ap = Some out2 ->
  wp (panic_message file line fmt ap) s (fun _ s' =>
    view_of (fst (a_scr s')) = show (fst (a_scr s)) (out1 ++ out2 ++ [10])
    /\ panicstr s' = Some fmt /\ a_if s' = false
    /\ forall file' line' fmt' ap', panic_message file' line' fmt' ap' s' = Ret tt s').
Proof.
  intros Hs Hp H1 H2. unfold panic_message. wp_step. wp_step. rewrite Hp. do 4 wp_step.
  eapply wp_mono; [by apply (wp_message _ file line fmt ap out1 out2)|].
  intros u s' (_ & Hv & Hp' & Hi & _). simpl in *. split_and!; [done|done|done|]. intros.
  unfold gets, mbind, M_bind. by rewrite Hp'.
Qed.
End Assert.

Lemma panic_reports_first_witness :
  wp (panic_message (W := bus) (mkCtx 0 0 ∅) (list_to_map [(100, 109); (101, 0)]) 100 7 (bytes "%x") [255])
    (AS None true false (demo_screen, Bus ∅ []))
    (fun _ s' => panicstr s' = Some (bytes "%x") /\ a_if s' = false).
Proof.
  eapply wp_mono; [apply (panic_reports_first _ _ 100 7 (bytes "%x") [255] (bytes "kernel panic at m:7: ") (bytes "ff"))|].
  - by apply demo_screen_wf.
  - reflexivity.
  - by vm_compute.
  - by vm_compute.
  - intros u s' (_ & H1 & H2 & _). by split.
Defined.
