(* ===== verification/MemInit.v ===== *)
(** * Memory start-up and its self tests (kernel/mem.c)

    Memory detection through the clock's NVRAM, the checks the kernel runs on its
    own allocator and page tables while it boots, and [mem_init], which puts the
    parts of PageAlloc.v and Paging.v together.  A [struct PageInfo *] that is
    tested or compared is an [option Z]; the pointers to pointers with which
    [check_page_free_list] re-links the free list are values of [ppref].

    The model has one direct map of physical memory at KERNBASE for the whole of
    the start-up, where the hardware has only the first four megabytes of it until
    [kern_pgdir] is loaded. *)

From S2P Require Import Prelude.
From S2P Require Import Machine.
From S2P Require Import Kmonad.
From S2P Require Import Spinlock.
From S2P Require Import PageAlloc.
From S2P Require Import Paging.
From S2P Require Import Bytes.
From S2P Require Import Ports.
From Stdlib Require Import ZArith Lia.
From stdpp Require Import base gmap list strings.

Local Open Scope Z_scope.

(** ** Detecting memory *)

Definition nvram_read {W} `{!Ports W} (r : Z) : M W Z :=
  lo ← mc146818_read r; hi ← mc146818_read (r + 1); mret (Z.lor lo (Z.shiftl hi 8)).

Definition set_npages (n base : Z) (c : mm_cfg) : mm_cfg :=
  mkCfg n base (c_nextfree c) (c_kern_pgdir c) (c_pages_va c) (c_mmio_base c)
        (c_cr3 c) (c_cr0 c) (c_ctx c) (c_invlpg c) (c_console c).
Definition set_kern_pgdir (v : Z) (c : mm_cfg) : mm_cfg :=
  mkCfg (c_npages c) (c_npages_basemem c) (c_nextfree c) v (c_pages_va c) (c_mmio_base c)
        (c_cr3 c) (c_cr0 c) (c_ctx c) (c_invlpg c) (c_console c).
Definition set_pages_va (v : Z) (c : mm_cfg) : mm_cfg :=
  mkCfg (c_npages c) (c_npages_basemem c) (c_nextfree c) (c_kern_pgdir c) v (c_mmio_base c)
        (c_cr3 c) (c_cr0 c) (c_ctx c) (c_invlpg c) (c_console c).
Definition set_crs (cr3 cr0 : Z) (c : mm_cfg) : mm_cfg :=
  mkCfg (c_npages c) (c_npages_basemem c) (c_nextfree c) (c_kern_pgdir c) (c_pages_va c)
        (c_mmio_base c) cr3 cr0 (c_ctx c) (c_invlpg c) (c_console c).

Definition i386_detect_memory {W} `{!Ports W} : M (mm_state * W) unit :=
  base ← on_snd (nvram_read NVRAM_BASELO);
  let npages_basemem := Z.quot (base * 1024) PGSIZE in
  ext ← on_snd (nvram_read NVRAM_EXTLO);
  let npages_extmem := Z.quot (ext * 1024) PGSIZE in
  let npages := if truth npages_extmem then EXTPHYSMEM / PGSIZE + npages_extmem
                else npages_basemem in
  on_fst (modify (upd_cfg (set_npages npages npages_basemem)) ;;
          printk "Physical memory: %uK available, base = %uK, extended = %uK"
            [u32 (npages * PGSIZE) / 1024; u32 (npages_basemem * PGSIZE) / 1024;
             u32 (npages_extmem * PGSIZE) / 1024]).

(** ** Walking the free list *)

(** [for (pp = head; pp; pp = pp->pp_link) body(pp)]. *)
Fixpoint each_free (fuel : nat) (pp : option Z) (body : Z -> M mm_state unit) : M mm_state unit :=
  match pp with
  | None => mret tt
  | Some p =>
      match fuel with
      | O => hang "free list"
      | S fuel' => body p ;; pi ← page_get p; each_free fuel' (pp_link pi) body
      end
  end.

(** The loop starts at [page_free_list]; a list of pages is no longer than the
    array of pages. *)
Definition for_free_list (body : Z -> M mm_state unit) : M mm_state unit :=
  s ← get; each_free (S (size (pages s))) (page_free_list s) body.

(** A [struct PageInfo **]: one of the locals [pp1] and [pp2], or a link field. *)
Inductive ppref := Pp1 | Pp2 | LinkOf (p : Z).

(** The locals of the re-linking loop: [pp1], [pp2], [tp[0]], [tp[1]]. *)
Record relink := Relink { r_pp1 : option Z; r_pp2 : option Z; r_tp0 : ppref; r_tp1 : ppref }.

(** [*t = v]. *)
Definition store_ref (t : ppref) (v : option Z) (r : relink) : M mm_state relink :=
  match t with
  | Pp1 => mret (Relink v (r_pp2 r) (r_tp0 r) (r_tp1 r))
  | Pp2 => mret (Relink (r_pp1 r) v (r_tp0 r) (r_tp1 r))
  | LinkOf p => set_pp_link p v ;; mret r
  end.

Definition pagetype (pdx_limit p : Z) : bool := PDX (page2pa p) >=? pdx_limit.

(** One turn of the loop: [*tp[pagetype] = pp; tp[pagetype] = &pp->pp_link]. *)
Definition relink_step (pdx_limit p : Z) (r : relink) : M mm_state relink :=
  if pagetype pdx_limit p then
    r' ← store_ref (r_tp1 r) (Some p) r;
    mret (Relink (r_pp1 r') (r_pp2 r') (r_tp0 r') (LinkOf p))
  else
    r' ← store_ref (r_tp0 r) (Some p) r;
    mret (Relink (r_pp1 r') (r_pp2 r') (LinkOf p) (r_tp1 r')).

Fixpoint relink_loop (fuel : nat) (pdx_limit : Z) (pp : option Z) (r : relink)
  : M mm_state relink :=
  match pp with
  | None => mret r
  | Some p =>
      match fuel with
      | O => hang "free list"
      | S fuel' =>
          r' ← relink_step pdx_limit p r;
          pi ← page_get p;
          relink_loop fuel' pdx_limit (pp_link pi) r'
      end
  end.

(** The block under [if (only_low_memory)]. *)
Definition low_pages_first (pdx_limit : Z) : M mm_state unit :=
  s ← get;
  r ← relink_loop (S (size (pages s))) pdx_limit (page_free_list s) (Relink None None Pp1 Pp2);
  r ← store_ref (r_tp1 r) None r;
  r ← store_ref (r_tp0 r) (r_pp2 r) r;
  modify (set_page_free_list (r_pp1 r)).

Section Checks.
  (** The linker's symbol [end], the kernel stacks, and what the uninitialised
      local of [page_remove] holds. *)
  Context (end_va percpu_kstacks garbage : Z).

(** The assertions on one page of the free list; [n] counts low and high pages. *)
Definition check_free_page (first_free_page p : Z) : M mm_state unit :=
  s ← get;
  let pa := page2pa p in
  kassert (0 <=? p) "pp >= pages" ;;
  kassert (p <? npages s) "pp < pages + npages" ;;
  kassert ((sizeof_PageInfo * p) mod sizeof_PageInfo =? 0)
    "((char *) pp - (char *) pages) % sizeof(*pp) == 0" ;;
  kassert (negb (pa =? 0)) "page2pa(pp) != 0" ;;
  kassert (negb (pa =? IOPHYSMEM)) "page2pa(pp) != IOPHYSMEM" ;;
  kassert (negb (pa =? EXTPHYSMEM - PGSIZE)) "page2pa(pp) != EXTPHYSMEM - PGSIZE" ;;
  kassert (negb (pa =? EXTPHYSMEM)) "page2pa(pp) != EXTPHYSMEM" ;;
  (if pa <? EXTPHYSMEM then mret tt
   else kva ← page2kva p; kassert (kva >=? first_free_page) "page2kva(pp) >= first_free_page") ;;
  kassert (negb (pa =? MPENTRY_PADDR)) "page2pa(pp) != MPENTRY_PADDR".

(** The last loop; the result counts the pages below and above EXTPHYSMEM. *)
Fixpoint check_free_loop (fuel : nat) (first_free_page : Z) (pp : option Z) (base ext : Z)
  : M mm_state (Z * Z) :=
  match pp with
  | None => mret (base, ext)
  | Some p =>
      match fuel with
      | O => hang "free list"
      | S fuel' =>
          check_free_page first_free_page p ;;
          pi ← page_get p;
          if page2pa p <? EXTPHYSMEM
          then check_free_loop fuel' first_free_page (pp_link pi) (base + 1) ext
          else check_free_loop fuel' first_free_page (pp_link pi) base (ext + 1)
      end
  end.

Definition check_page_free_list (only_low_memory : bool) : M mm_state unit :=
  let pdx_limit := if only_low_memory then 1 else NPDENTRIES in
  h ← gets page_free_list;
  (if bool_decide (h = None) then panic "'page_free_list' is a null pointer!" else mret tt) ;;
  when only_low_memory (low_pages_first pdx_limit) ;;
  for_free_list (fun p =>
    when (PDX (page2pa p) <? pdx_limit) (kva ← page2kva p; memset kva 0x97 128)) ;;
  first ← boot_alloc end_va 0;
  s ← get;
  n ← check_free_loop (S (size (pages s))) first (page_free_list s) 0 0;
  kassert (fst n >? 0) "nfree_basemem > 0" ;;
  kassert (snd n >? 0) "nfree_extmem > 0" ;;
  printk "check_page_free_list() succeeded!" [].

(** ** The allocator's test *)

(** [assert((pp = page_alloc(flags)))]. *)
Definition must_alloc (flags : Z) : M mm_state Z :=
  r ← page_alloc flags;
  match r with Some p => mret p | None => panic "assertion failed: page_alloc()" end.

(** [assert(!page_alloc(0))]. *)
Definition no_free_page : M mm_state unit :=
  r ← page_alloc 0; kassert (bool_decide (r = None)) "!page_alloc(0)".

(** The number of pages on the free list. *)
Fixpoint count_free (fuel : nat) (pp : option Z) (n : Z) : M mm_state Z :=
  match pp with
  | None => mret n
  | Some p =>
      match fuel with
      | O => hang "free list"
      | S fuel' => pi ← page_get p; count_free fuel' (pp_link pi) (n + 1)
      end
  end.
Definition free_list_length : M mm_state Z :=
  s ← get; count_free (S (size (pages s))) (page_free_list s) 0.

(** [for (i = 0; i < n; i++) assert(c[i] == 0)]. *)
Fixpoint assert_zero_bytes (n : nat) (c : Z) : M mm_state unit :=
  match n with
  | O => mret tt
  | S n' => b ← load8 c; kassert (b =? 0) "c[i] == 0" ;; assert_zero_bytes n' (c + 1)
  end.

Definition distinct3 (pp0 pp1 pp2 : Z) : M mm_state unit :=
  kassert (negb (pp1 =? pp0)) "pp1 && pp1 != pp0" ;;
  kassert (negb (pp2 =? pp1) && negb (pp2 =? pp0)) "pp2 && pp2 != pp1 && pp2 != pp0".

(** Without the rest of the free list (lines 843-866): the pages are given back and
    taken again. *)
Definition check_realloc (pp0 pp1 pp2 : Z) : M mm_state (Z * Z * Z) :=
  no_free_page ;;
  page_free pp0 ;;
  page_free pp1 ;;
  page_free pp2 ;;
  pp0 ← must_alloc 0;
  pp1 ← must_alloc 0;
  pp2 ← must_alloc 0;
  distinct3 pp0 pp1 pp2 ;;
  no_free_page ;;
  kva ← page2kva pp0;
  memset kva 1 PGSIZE ;;
  page_free pp0 ;;
  pp ← must_alloc ALLOC_ZERO;
  kassert (pp0 =? pp) "pp && pp0 == pp" ;;
  c ← page2kva pp;
  assert_zero_bytes (Z.to_nat PGSIZE) c ;;
  mret (pp0, pp1, pp2).

Definition check_page_alloc : M mm_state unit :=
  pgs ← gets (fun s => c_pages_va (cfg s));
  (if pgs =? 0 then panic "'pages' is a null pointer!" else mret tt) ;;
  nfree ← free_list_length;
  pp0 ← must_alloc 0;
  pp1 ← must_alloc 0;
  pp2 ← must_alloc 0;
  distinct3 pp0 pp1 pp2 ;;
  n ← gets npages;
  kassert (page2pa pp0 <? u32 (n * PGSIZE)) "page2pa(pp0) < npages*PGSIZE" ;;
  kassert (page2pa pp1 <? u32 (n * PGSIZE)) "page2pa(pp1) < npages*PGSIZE" ;;
  kassert (page2pa pp2 <? u32 (n * PGSIZE)) "page2pa(pp2) < npages*PGSIZE" ;;
  fl ← gets page_free_list;
  modify (set_page_free_list None) ;;
  r ← check_realloc pp0 pp1 pp2;
  let '(pp0, pp1, pp2) := r in
  modify (set_page_free_list fl) ;;
  page_free pp0 ;;
  page_free pp1 ;;
  page_free pp2 ;;
  nfree' ← free_list_length;
  kassert (nfree - nfree' =? 0) "nfree == 0" ;;
  printk "check_page_alloc() succeeded!" [].

(** ** The page tables' test *)

(** [assert(check_va2pa(kern_pgdir, va) == pa)]. *)
Definition maps_to (pgdir va pa : Z) : M mm_state unit :=
  r ← check_va2pa pgdir va; kassert (r =? pa) "check_va2pa(pgdir, va) == pa".

(** [assert(pp->pp_ref == n)]. *)
Definition ref_is (pp n : Z) : M mm_state unit :=
  pi ← page_get pp; kassert (pp_ref pi =? n) "pp->pp_ref == n".

(** [assert(page_insert(kern_pgdir, pp, va, perm) == 0)], and with [< 0]. *)
Definition inserts (kpd pp va perm : Z) : M mm_state unit :=
  r ← page_insert garbage kpd pp va perm; kassert (r =? 0) "page_insert() == 0".
Definition insert_fails (kpd pp va perm : Z) : M mm_state unit :=
  r ← page_insert garbage kpd pp va perm; kassert (r <? 0) "page_insert() < 0".

(** [*pgdir_walk(kern_pgdir, va, 0)], read and assigned. *)
Definition walk_load (kpd va : Z) : M mm_state Z :=
  r ← pgdir_walk kpd va 0; pte ← need r "*pgdir_walk()"; load32 pte.
Definition walk_store (kpd va v : Z) : M mm_state unit :=
  r ← pgdir_walk kpd va 0; pte ← need r "*pgdir_walk()"; store32 pte v.

(** [for (i = 0; i < n; i++) assert((ptep[i] & PTE_P) == 0)]. *)
Fixpoint assert_not_present (n : nat) (ptep : Z) : M mm_state unit :=
  match n with
  | O => mret tt
  | S n' =>
      e ← load32 ptep;
      kassert (Z.land e PTE_P =? 0) "(ptep[i] & PTE_P) == 0" ;;
      assert_not_present n' (ptep + 4)
  end.

(** The insertions (lines 991-1053). *)
Definition check_page_insert (kpd pp0 pp1 pp2 : Z) : M mm_state unit :=
  no_free_page ;;
  l ← page_lookup kpd 0x0 garbage;
  kassert (bool_decide (fst l = None)) "page_lookup(kern_pgdir, (void *) 0x0, &ptep) == NULL" ;;
  insert_fails kpd pp1 0x0 PTE_W ;;
  page_free pp0 ;;
  inserts kpd pp1 0x0 PTE_W ;;
  e ← load32 kpd;
  kassert (PTE_ADDR e =? page2pa pp0) "PTE_ADDR(kern_pgdir[0]) == page2pa(pp0)" ;;
  maps_to kpd 0x0 (page2pa pp1) ;;
  ref_is pp1 1 ;;
  ref_is pp0 1 ;;
  inserts kpd pp2 PGSIZE PTE_W ;;
  maps_to kpd PGSIZE (page2pa pp2) ;;
  ref_is pp2 1 ;;
  no_free_page ;;
  inserts kpd pp2 PGSIZE PTE_W ;;
  maps_to kpd PGSIZE (page2pa pp2) ;;
  ref_is pp2 1 ;;
  no_free_page ;;
  e ← load32 (kpd + 4 * PDX PGSIZE);
  ptep ← KADDR (PTE_ADDR e);
  w ← pgdir_walk kpd PGSIZE 0;
  kassert (bool_decide (w = Some (ptep + 4 * PTX PGSIZE)))
    "pgdir_walk(kern_pgdir, (void*)PGSIZE, 0) == ptep+PTX(PGSIZE)" ;;
  inserts kpd pp2 PGSIZE (Z.lor PTE_W PTE_U) ;;
  maps_to kpd PGSIZE (page2pa pp2) ;;
  ref_is pp2 1 ;;
  e ← walk_load kpd PGSIZE;
  kassert (truth (Z.land e PTE_U)) "*pgdir_walk(kern_pgdir, (void*) PGSIZE, 0) & PTE_U" ;;
  e ← load32 kpd;
  kassert (truth (Z.land e PTE_U)) "kern_pgdir[0] & PTE_U" ;;
  inserts kpd pp2 PGSIZE PTE_W ;;
  e ← walk_load kpd PGSIZE;
  kassert (truth (Z.land e PTE_W)) "*pgdir_walk(kern_pgdir, (void*) PGSIZE, 0) & PTE_W" ;;
  e ← walk_load kpd PGSIZE;
  kassert (negb (truth (Z.land e PTE_U))) "!(*pgdir_walk(kern_pgdir, (void*) PGSIZE, 0) & PTE_U)" ;;
  insert_fails kpd pp0 PTSIZE PTE_W ;;
  inserts kpd pp1 PGSIZE PTE_W ;;
  e ← walk_load kpd PGSIZE;
  kassert (negb (truth (Z.land e PTE_U))) "!(*pgdir_walk(kern_pgdir, (void*) PGSIZE, 0) & PTE_U)" ;;
  maps_to kpd 0 (page2pa pp1) ;;
  maps_to kpd PGSIZE (page2pa pp1) ;;
  ref_is pp1 2 ;;
  ref_is pp2 0.

(** The removals (lines 1055-1087). *)
Definition check_page_remove (kpd pp0 pp1 pp2 : Z) : M mm_state unit :=
  pp ← must_alloc 0;
  kassert (pp =? pp2) "(pp = page_alloc(0)) && pp == pp2" ;;
  page_remove garbage kpd 0x0 ;;
  maps_to kpd 0x0 (lnot32 0) ;;
  maps_to kpd PGSIZE (page2pa pp1) ;;
  ref_is pp1 1 ;;
  ref_is pp2 0 ;;
  inserts kpd pp1 PGSIZE 0 ;;
  pi ← page_get pp1;
  kassert (truth (pp_ref pi)) "pp1->pp_ref" ;;
  kassert (bool_decide (pp_link pi = None)) "pp1->pp_link == NULL" ;;
  page_remove garbage kpd PGSIZE ;;
  maps_to kpd 0x0 (lnot32 0) ;;
  maps_to kpd PGSIZE (lnot32 0) ;;
  ref_is pp1 0 ;;
  ref_is pp2 0 ;;
  pp ← must_alloc 0;
  kassert (pp =? pp1) "(pp = page_alloc(0)) && pp == pp1" ;;
  no_free_page ;;
  e ← load32 kpd;
  kassert (PTE_ADDR e =? page2pa pp0) "PTE_ADDR(kern_pgdir[0]) == page2pa(pp0)" ;;
  store32 kpd 0 ;;
  ref_is pp0 1 ;;
  set_pp_ref pp0 0.

(** [pgdir_walk] returns a pointer into the new table (lines 1091-1096). *)
Definition check_walk_pointer (kpd pp0 : Z) : M mm_state unit :=
  let va := PGSIZE * NPDENTRIES + PGSIZE in
  ptep ← pgdir_walk kpd va 1;
  e ← load32 (kpd + 4 * PDX va);
  ptep1 ← KADDR (PTE_ADDR e);
  kassert (bool_decide (ptep = Some (ptep1 + 4 * PTX va))) "ptep == ptep1 + PTX(va)" ;;
  store32 (kpd + 4 * PDX va) 0 ;;
  set_pp_ref pp0 0.

(** A new table is clear although its page was not (lines 1098-1106). *)
Definition check_walk_clears (kpd pp0 : Z) : M mm_state unit :=
  kva ← page2kva pp0;
  memset kva 0xFF PGSIZE ;;
  page_free pp0 ;;
  _ ← pgdir_walk kpd 0x0 1;
  ptep ← page2kva pp0;
  assert_not_present (Z.to_nat NPTENTRIES) ptep ;;
  store32 kpd 0 ;;
  set_pp_ref pp0 0.

(** The test of [mmio_map_region] (lines 1116-1138). *)
Definition check_mmio (kpd : Z) : M mm_state unit :=
  mm1 ← mmio_map_region 0 4097;
  mm2 ← mmio_map_region 0 4096;
  kassert ((mm1 >=? MMIOBASE) && (u32 (mm1 + 8192) <? MMIOLIM))
    "mm1 >= MMIOBASE && mm1 + 8192 < MMIOLIM" ;;
  kassert ((mm2 >=? MMIOBASE) && (u32 (mm2 + 4096) <? MMIOLIM))
    "mm2 >= MMIOBASE && mm2 + 4096 < MMIOLIM" ;;
  kassert ((mm1 mod PGSIZE =? 0) && (mm2 mod PGSIZE =? 0)) "mm1 % PGSIZE == 0 && mm2 % PGSIZE == 0" ;;
  kassert (u32 (mm1 + 8192) <=? mm2) "mm1 + 8192 <= mm2" ;;
  maps_to kpd mm1 0 ;;
  maps_to kpd (u32 (mm1 + PGSIZE)) PGSIZE ;;
  maps_to kpd mm2 0 ;;
  maps_to kpd (u32 (mm2 + PGSIZE)) (lnot32 0) ;;
  e ← walk_load kpd mm1;
  kassert (truth (Z.land e (Z.lor (Z.lor PTE_W PTE_PWT) PTE_PCD)))
    "*pgdir_walk(kern_pgdir, (void*) mm1, 0) & (PTE_W|PTE_PWT|PTE_PCD)" ;;
  e ← walk_load kpd mm1;
  kassert (negb (truth (Z.land e PTE_U))) "!(*pgdir_walk(kern_pgdir, (void*) mm1, 0) & PTE_U)" ;;
  walk_store kpd mm1 0 ;;
  walk_store kpd (u32 (mm1 + PGSIZE)) 0 ;;
  walk_store kpd mm2 0.

Definition check_page : M mm_state unit :=
  kpd ← gets kern_pgdir;
  pp0 ← must_alloc 0;
  pp1 ← must_alloc 0;
  pp2 ← must_alloc 0;
  distinct3 pp0 pp1 pp2 ;;
  fl ← gets page_free_list;
  modify (set_page_free_list None) ;;
  check_page_insert kpd pp0 pp1 pp2 ;;
  check_page_remove kpd pp0 pp1 pp2 ;;
  page_free pp0 ;;
  check_walk_pointer kpd pp0 ;;
  check_walk_clears kpd pp0 ;;
  modify (set_page_free_list fl) ;;
  page_free pp0 ;;
  page_free pp1 ;;
  page_free pp2 ;;
  check_mmio kpd ;;
  printk "check_page() succeeded!" [].

(** ** The kernel's address space *)

(** [for (; i < hi; i += PGSIZE) assert(check_va2pa(pgdir, va + i) == pa + i)],
    [n] turns left. *)
Fixpoint assert_mapped (n : nat) (pgdir va pa : Z) : M mm_state unit :=
  match n with
  | O => mret tt
  | S n' => maps_to pgdir va pa ;; assert_mapped n' pgdir (u32 (va + PGSIZE)) (u32 (pa + PGSIZE))
  end.

(** [for (i = 0; i < KSTKGAP; i += PGSIZE) assert(check_va2pa(pgdir, base + i) == ~0)]. *)
Fixpoint assert_unmapped (n : nat) (pgdir va : Z) : M mm_state unit :=
  match n with
  | O => mret tt
  | S n' => maps_to pgdir va (lnot32 0) ;; assert_unmapped n' pgdir (u32 (va + PGSIZE))
  end.

(** The loop over the kernel stacks, [k] left. *)
Fixpoint check_kstacks (k : nat) (pgdir n : Z) : M mm_state unit :=
  match k with
  | O => mret tt
  | S k' =>
      let base := u32 (KSTACKTOP - (KSTKSIZE + KSTKGAP) * (n + 1)) in
      pa ← PADDR (percpu_kstacks + n * KSTKSIZE);
      assert_mapped (Z.to_nat (KSTKSIZE / PGSIZE)) pgdir (u32 (base + KSTKGAP)) pa ;;
      assert_unmapped (Z.to_nat (KSTKGAP / PGSIZE)) pgdir base ;;
      check_kstacks k' pgdir (n + 1)
  end.

(** The loop over the directory's entries, [k] left. *)
Fixpoint check_pdes (k : nat) (pgdir i : Z) : M mm_state unit :=
  match k with
  | O => mret tt
  | S k' =>
      e ← load32 (pgdir + 4 * i);
      (if bool_decide (i ∈ [PDX IOPHYSMEM; PDX UVPT; PDX (KSTACKTOP - 1); PDX UPAGES; PDX MMIOBASE])
       then kassert (truth (Z.land e PTE_P)) "pgdir[i] & PTE_P"
       else if i >=? PDX KERNBASE then
         kassert (truth (Z.land e PTE_P)) "pgdir[i] & PTE_P" ;;
         kassert (truth (Z.land e PTE_W)) "pgdir[i] & PTE_W"
       else kassert (e =? 0) "pgdir[i] == 0") ;;
      check_pdes k' pgdir (i + 1)
  end.

Definition check_kern_pgdir : M mm_state unit :=
  pgdir ← gets kern_pgdir;
  assert_mapped (Z.to_nat ((ROUNDUP EXTPHYSMEM PGSIZE - IOPHYSMEM) / PGSIZE)) pgdir
    IOPHYSMEM IOPHYSMEM ;;
  np ← gets npages;
  pgs ← gets (fun s => c_pages_va (cfg s));
  pgs_pa ← PADDR pgs;
  let n := ROUNDUP (u32 (np * sizeof_PageInfo)) PGSIZE in
  assert_mapped (Z.to_nat (n / PGSIZE)) pgdir UPAGES pgs_pa ;;
  assert_mapped (Z.to_nat (u32 (np * PGSIZE) / PGSIZE)) pgdir KERNBASE 0 ;;
  check_kstacks (Z.to_nat NCPU) pgdir 0 ;;
  check_pdes (Z.to_nat NPDENTRIES) pgdir 0 ;;
  printk "check_kern_pgdir() succeeded!" [].

(** A word at a virtual address, through the address space in %cr3. *)
Definition virt_word (va : Z) : M mm_state Z :=
  s ← get;
  match vm_lookup (ram s) (c_cr3 (cfg s) / 4096) va with
  | Some e => mret (PTE_ADDR e + PGOFF va)
  | None => fault "page fault"
  end.
Definition load_virt (va : Z) : M mm_state Z := pa ← virt_word va; load32 (pa + KERNBASE).
Definition store_virt (va v : Z) : M mm_state unit :=
  pa ← virt_word va; store32 (pa + KERNBASE) v.

(** Lines 1156-1168: map [pp1], then [pp2] over it, and use the mapping. *)
Definition check_installed_use (kpd pp1 pp2 : Z) : M mm_state unit :=
  k1 ← page2kva pp1;
  memset k1 1 PGSIZE ;;
  k2 ← page2kva pp2;
  memset k2 2 PGSIZE ;;
  _ ← page_insert garbage kpd pp1 EXTPHYSMEM PTE_W;
  ref_is pp1 1 ;;
  w ← load_virt EXTPHYSMEM;
  kassert (w =? 0x01010101) "*(uint32_t *)EXTPHYSMEM == 0x01010101U" ;;
  _ ← page_insert garbage kpd pp2 EXTPHYSMEM PTE_W;
  w ← load_virt EXTPHYSMEM;
  kassert (w =? 0x02020202) "*(uint32_t *)EXTPHYSMEM == 0x02020202U" ;;
  ref_is pp2 1 ;;
  ref_is pp1 0 ;;
  store_virt EXTPHYSMEM 0x03030303 ;;
  k2 ← page2kva pp2;
  w ← load32 k2;
  kassert (w =? 0x03030303) "*(uint32_t *)page2kva(pp2) == 0x03030303U" ;;
  page_remove garbage kpd EXTPHYSMEM ;;
  ref_is pp2 0.

Definition check_page_installed_pgdir : M mm_state unit :=
  kpd ← gets kern_pgdir;
  pp0 ← must_alloc 0;
  pp1 ← must_alloc 0;
  pp2 ← must_alloc 0;
  page_free pp0 ;;
  check_installed_use kpd pp1 pp2 ;;
  printk "check_page_installed_pgdir() succeeded!" [].

(** ** mem_init *)

(** Lines 136-167: the directory, the array of pages and the free list. *)
Definition mem_init_alloc : M mm_state unit :=
  kpd ← boot_alloc end_va PGSIZE;
  modify (upd_cfg (set_kern_pgdir kpd)) ;;
  memset kpd 0 PGSIZE ;;
  pa ← PADDR kpd;
  store32 (kpd + 4 * PDX UVPT) (Z.lor (Z.lor pa PTE_U) PTE_P) ;;
  np ← gets npages;
  let sz := u32 (sizeof_PageInfo * np) in
  pgs ← boot_alloc end_va sz;
  modify (upd_cfg (set_pages_va pgs)) ;;
  memset pgs 0 sz ;;
  modify (set_pages (zero_pages (Z.to_nat np))) ;;
  page_init end_va.

(** Lines 173-218: the kernel's part of the address space. *)
Definition mem_init_map : M mm_state unit :=
  kpd ← gets kern_pgdir;
  np ← gets npages;
  pgs ← gets (fun s => c_pages_va (cfg s));
  pgs_pa ← PADDR pgs;
  boot_map_region kpd UPAGES (ROUNDUP (u32 (sizeof_PageInfo * np)) PGSIZE) pgs_pa (Z.lor PTE_U PTE_P) ;;
  boot_map_region kpd KERNBASE KERN_MAP_SIZE 0 PTE_W ;;
  boot_map_region kpd IOPHYSMEM (ROUNDUP (EXTPHYSMEM - IOPHYSMEM) PGSIZE) IOPHYSMEM
    (Z.lor PTE_W PTE_P) ;;
  mem_init_mp percpu_kstacks.

(** Lines 231-240: load %cr3, check again, set %cr0. *)
Definition mem_init_paging : M mm_state unit :=
  kpd ← gets kern_pgdir;
  pa ← PADDR kpd;
  cr0 ← gets (fun s => c_cr0 (cfg s));
  modify (upd_cfg (set_crs pa cr0)) ;;
  check_page_free_list false ;;
  let cr0 := Z.lor cr0 (Z.lor (Z.lor (Z.lor (Z.lor (Z.lor CR0_PE CR0_PG) CR0_AM) CR0_WP) CR0_NE)
                          CR0_MP) in
  let cr0 := Z.land cr0 (lnot32 (Z.lor CR0_TS CR0_EM)) in
  modify (upd_cfg (set_crs pa cr0)).

Definition mem_init {W} `{!Ports W} : M (mm_state * W) unit :=
  on_fst (zoom page_free_list_lock set_lock (modify (spin_initlock "&page_free_list_lock")) ;;
          modify (upd_cfg (set_nextfree 0)) ;;
          modify (set_page_free_list None)) ;;
  i386_detect_memory ;;
  on_fst (
    mem_init_alloc ;;
    check_page_free_list true ;;
    check_page_alloc ;;
    check_page ;;
    mem_init_map ;;
    check_kern_pgdir ;;
    mem_init_paging ;;
    check_page_installed_pgdir).
End Checks.

(** ** Re-linking the free list *)

(** From [i] on the links go through [l]; the link of the last one is left open. *)
Fixpoint linked (pg : gmap Z PageInfo) (i : Z) (l : list Z) : Prop :=
  match l with
  | [] => True
  | j :: l' => (exists pi, pg !! i = Some pi /\ pp_link pi = Some j) /\ linked pg j l'
  end.

(** The part [l] of a list built so far: [h] is its head and [t] the place where
    the next element goes, [root] as long as it is empty. *)
Definition chain (pg : gmap Z PageInfo) (root : ppref) (h : option Z) (l : list Z) (t : ppref) : Prop :=
  match l with
  | [] => t = root
  | i :: l' => h = Some i /\ linked pg i l' /\ t = LinkOf (default i (last l'))
  end.

Lemma linked_insert pg i l x pi :
  x ∉ i :: l \/ (NoDup (i :: l) /\ x = default i (last l)) ->
  linked pg i l -> linked (<[x := pi]> pg) i l.
Proof.
  revert i. induction l as [|j l IH]; intros i Hx; [done|]. intros [(pj & Hj & Hl) H].
  assert (x <> i) as Hne.
  { destruct Hx as [Hx|[Hnd ->]]; [by apply not_elem_of_cons in Hx as [? _]|].
    apply NoDup_cons in Hnd as [Hi _]. intros E. apply Hi. rewrite <- E.
    rewrite last_cons. destruct (last l) eqn:L; simpl; [|by left]. right.
    by eapply last_Some_elem_of. }
  split; [exists pj; by rewrite lookup_insert_ne|]. apply IH; [|done].
  destruct Hx as [Hx|[Hnd ->]]; [left; by apply not_elem_of_cons in Hx as [_ ?]|right].
  split; [by apply NoDup_cons in Hnd as [_ ?]|]. rewrite last_cons. by destruct (last l).
Qed.

(** Closing the chain with a list that is already there. *)
Lemma linked_flist pg i l h l2 pi :
  linked pg i l -> pg !! default i (last l) = Some pi -> pp_link pi = h -> flist pg h l2 ->
  (forall j pj, j ∈ i :: l -> pg !! j = Some pj -> pp_ref pj = 0) ->
  flist pg (Some i) (i :: l ++ l2).
Proof.
  revert i. induction l as [|j l IH]; intros i Hl Hp Hh H2 Hr.
  - simpl. split; [done|]. exists pi. simpl in Hp. subst h. split_and!; [done| |done].
    eapply Hr; [by left|done].
  - destruct Hl as [(pj & Hj & Hlj) Hl]. split; [done|]. exists pj. rewrite Hlj.
    split_and!; [done|eapply Hr; [by left|done]|].
    apply IH; [done| |done|done|].
    + rewrite last_cons in Hp. by destruct (last l).
    + intros k pk Hk. apply Hr. by right.
Qed.

(** The state of the loop: [lo] and [hi] are sorted out, [rest] is to come. *)
Record relinking (s0 s : mm_state) (r : relink) (lo hi rest : list Z) (h : option Z) : Prop := {
  rl_lo : chain (pages s) Pp1 (r_pp1 r) lo (r_tp0 r);
  rl_hi : chain (pages s) Pp2 (r_pp2 r) hi (r_tp1 r);
  rl_rest : flist (pages s) h rest;
  rl_nodup : NoDup (lo ++ hi ++ rest);
  rl_refs : forall i, pp_ref <$> pages s !! i = pp_ref <$> pages s0 !! i;
  rl_out : forall i, i ∉ lo ++ hi ++ rest -> pages s !! i = pages s0 !! i;
  rl_same : s = set_pages (pages s) s0
}.

(** [*t = v] for the place at the end of a chain; [b] chooses which. *)
Lemma wp_store_ref s0 s r lo hi rest h (b : bool) v Q :
  relinking s0 s r lo hi rest h ->
  (forall i, i ∈ lo ++ hi -> is_Some (pages s !! i)) ->
  (forall s' r', r_tp0 r' = r_tp0 r -> r_tp1 r' = r_tp1 r ->
     s' = set_pages (pages s') s0 ->
     (forall i, pp_ref <$> pages s' !! i = pp_ref <$> pages s0 !! i) ->
     flist (pages s') h rest ->
     (forall i, i ∉ (if b then hi else lo) -> pages s' !! i = pages s !! i) ->
     (let l := if b then hi else lo in
      let h' := if b then r_pp2 r' else r_pp1 r' in
      match l with
      | [] => h' = v /\ pages s' = pages s
      | i :: l' => h' = Some i /\ linked (pages s') i l'
                   /\ exists pi, pages s' !! default i (last l') = Some pi /\ pp_link pi = v
      end) ->
     chain (pages s') (if b then Pp1 else Pp2) (if b then r_pp1 r' else r_pp2 r')
       (if b then lo else hi) (if b then r_tp0 r' else r_tp1 r') ->
     Q r' s') ->
  wp (store_ref (if b then r_tp1 r else r_tp0 r) v r) s Q.
Proof.
  intros [Hlo Hhi Hrest Hnd Hrefs _ Hs] Hdom HQ.
  apply NoDup_app in Hnd as (Hndl & Hdl & Hnd). apply NoDup_app in Hnd as (Hndh & Hdh & _).
  set (l := if b then hi else lo).
  destruct l as [|i l'] eqn:El.
  - assert (store_ref (if b then r_tp1 r else r_tp0 r) v r
      = mret (if b then Relink (r_pp1 r) v (r_tp0 r) (r_tp1 r)
              else Relink v (r_pp2 r) (r_tp0 r) (r_tp1 r))) as ->.
    { subst l. destruct b; cbn in El; subst; destruct r; simpl in *; by subst. }
    subst l. wp_step. apply HQ; destruct b; cbn in El; subst; done.
  - set (x := default i (last l')).
    assert (store_ref (if b then r_tp1 r else r_tp0 r) v r = (set_pp_link x v ;; mret r)) as ->.
    { subst l. destruct b; cbn in El; subst; simpl in Hlo, Hhi; [destruct Hhi as (_ & _ & ->)|destruct Hlo as (_ & _ & ->)]; done. }
    assert (x ∈ l) as Hx.
    { rewrite El. subst x. destruct (last l') eqn:L; simpl; [right; by eapply last_Some_elem_of|by left]. }
    assert (x ∈ lo ++ hi) as Hxx by (apply elem_of_app; subst l; destruct b; auto).
    destruct (Hdom x Hxx) as [px Hpx]. wp_step. eapply wp_set_pp_link; [done|]. wp_step.
    assert (x ∉ rest) as Hxr.
    { intros Hr. apply elem_of_app in Hxx as [H|H]; [eapply Hdl; [exact H|apply elem_of_app; by right]|by eapply Hdh]. }
    apply HQ; try done.
    + by rewrite Hs.
    + intros j. rewrite <- Hrefs. simpl. destruct (decide (x = j)) as [<-|].
      * by rewrite lookup_insert_eq, Hpx.
      * by rewrite lookup_insert_ne.
    + simpl. by apply flist_insert.
    + intros j Hj. simpl. rewrite lookup_insert_ne; [done|]. intros <-. done.
    + subst l. rewrite El. simpl. assert (NoDup (i :: l')) as Hn by (destruct b; by rewrite <- El).
      split; [destruct b; cbn in El; subst; simpl in *; tauto|]. split.
      * apply linked_insert; [by right|]. destruct b; cbn in El; subst; simpl in *; tauto.
      * exists (mkPage v (pp_ref px)). by rewrite lookup_insert_eq.
    + simpl. assert (x ∉ (if b then lo else hi)) as Hno.
      { subst l. destruct b; intros H; [eapply (Hdl x); [exact H|apply elem_of_app; by left]|
          eapply (Hdl x); [exact Hx|apply elem_of_app; by left]]. }
      destruct b; [destruct lo as [|a lo]|destruct hi as [|a hi]]; simpl in *; try done;
        (split_and!; [tauto|apply linked_insert; [by left|tauto]|tauto]).
Qed.

Definition low_high (lim : Z) (l : list Z) : list Z :=
  filter (fun p => pagetype lim p = false) l ++ filter (fun p => pagetype lim p = true) l.

(** A chain grows by one page. *)
Lemma chain_snoc pg root h l t p :
  match l with
  | [] => h = Some p
  | i :: l' => h = Some i /\ linked pg i l'
               /\ exists pi, pg !! default i (last l') = Some pi /\ pp_link pi = Some p
  end ->
  t = LinkOf p -> chain pg root h (l ++ [p]) t.
Proof.
  intros H ->. destruct l as [|i l]; [by simpl|]. destruct H as (-> & Hl & Hp). simpl.
  split; [done|]. rewrite last_snoc. split; [|done].
  revert i Hl Hp. induction l as [|j l IH]; intros i Hl Hp; simpl.
  - by split.
  - destruct Hl as [Hj Hl]. split; [done|]. apply IH; [done|].
    rewrite last_cons in Hp. by destruct (last l).
Qed.

Lemma relink_step_ok s0 s r lo hi p rest h lim :
  relinking s0 s r lo hi (p :: rest) h ->
  (forall i, i ∈ lo ++ hi ++ p :: rest -> is_Some (pages s !! i)) ->
  wp (relink_step lim p r) s (fun r' s' => exists pi h',
    pages s' !! p = Some pi /\ pp_link pi = h' /\
    if pagetype lim p then relinking s0 s' r' lo (hi ++ [p]) rest h'
    else relinking s0 s' r' (lo ++ [p]) hi rest h').
Proof.
  intros R Hdom. pose proof (rl_nodup _ _ _ _ _ _ _ R) as Hnd. pose proof (rl_out _ _ _ _ _ _ _ R) as Hout.
  assert (forall i, i ∈ lo ++ hi -> is_Some (pages s !! i)) as Hd.
  { intros i Hi. apply Hdom. rewrite (assoc_L (++)). apply elem_of_app. by left. }
  unfold relink_step. destruct (pagetype lim p) eqn:T; wp_step.
  - eapply (wp_store_ref _ _ _ _ _ _ _ true); [done|done|].
    intros s' r' E0 E1 Hs' Hrefs (-> & pi & Hpi & Hr & Hfl) Hkept Hc Hother. wp_step.
    exists pi, (pp_link pi). split_and!; [done|done|]. split; simpl; try done.
    + apply chain_snoc; [|done]. destruct hi; simpl in *; tauto.
    + rewrite <- (assoc_L (++)). done.
    + intros i Hi. rewrite <- (assoc_L (++)) in Hi. rewrite Hkept; [by apply Hout|]. simpl. rewrite !elem_of_app in Hi. tauto.
  - eapply (wp_store_ref _ _ _ _ _ _ _ false); [done|done|].
    intros s' r' E0 E1 Hs' Hrefs (-> & pi & Hpi & Hr & Hfl) Hkept Hc Hother. wp_step.
    exists pi, (pp_link pi). split_and!; [done|done|]. split; simpl; try done.
    + apply chain_snoc; [|done]. destruct lo; simpl in *; tauto.
    + rewrite <- (assoc_L (++)). eapply NoDup_Permutation_proper; [|exact Hnd].
      simpl. by rewrite <- (Permutation_middle hi rest p).
    + intros i Hi. rewrite Hkept; [apply Hout|simpl]; rewrite ?elem_of_app, ?elem_of_cons, ?elem_of_nil in *; tauto.
Qed.

Lemma relinking_dom s0 s r lo hi rest h i :
  relinking s0 s r lo hi rest h -> is_Some (pages s0 !! i) -> is_Some (pages s !! i).
Proof.
  intros R H. pose proof (rl_refs _ _ _ _ _ _ _ R i) as E. destruct H as [pi Hp].
  rewrite Hp in E. destruct (pages s !! i); [eauto|done].
Qed.

Lemma relink_loop_ok lim fuel s0 s r lo hi rest h :
  relinking s0 s r lo hi rest h ->
  (forall i, i ∈ lo ++ hi ++ rest -> is_Some (pages s0 !! i)) -> (length rest <= fuel)%nat ->
  wp (relink_loop fuel lim h r) s (fun r' s' =>
    relinking s0 s' r' (lo ++ filter (fun p => pagetype lim p = false) rest)
      (hi ++ filter (fun p => pagetype lim p = true) rest) [] None).
Proof.
  revert s r lo hi h fuel. induction rest as [|p rest IH]; intros s r lo hi h fuel R Hdom Hf.
  - pose proof (rl_rest _ _ _ _ _ _ _ R) as E. simpl in E. subst h. destruct fuel; cbn [relink_loop];
      wp_step; by rewrite !filter_nil, !app_nil_r.
  - pose proof (rl_rest _ _ _ _ _ _ _ R) as (E & _). subst h.
    destruct fuel as [|fuel]; [simpl in Hf; lia|]. cbn [relink_loop]. wp_step.
    eapply wp_mono; [eapply relink_step_ok; [done|]|].
    { intros i Hi. eapply relinking_dom; [done|by apply Hdom]. }
    intros r' s' (pi & h' & Hpi & <- & R'). wp_step. eapply wp_page_get; [done|].
    rewrite !filter_cons. destruct (pagetype lim p).
    + rewrite decide_False by done. rewrite decide_True by done.
      eapply wp_mono; [eapply IH; [done| |simpl in Hf; lia]|].
      * intros i Hi. apply Hdom. rewrite !elem_of_app in Hi. rewrite !elem_of_app, elem_of_cons.
        rewrite list_elem_of_singleton in Hi. tauto.
      * intros r2 s2. rewrite <- (assoc_L (++)). done.
    + rewrite decide_True by done. rewrite decide_False by done.
      eapply wp_mono; [eapply IH; [done| |simpl in Hf; lia]|].
      * intros i Hi. apply Hdom. rewrite !elem_of_app in Hi. rewrite !elem_of_app, elem_of_cons.
        rewrite list_elem_of_singleton in Hi. tauto.
      * intros r2 s2. rewrite <- (assoc_L (++)). done.
Qed.

Lemma wf_size s l : mm_wf s l -> (length l <= size (pages s))%nat.
Proof.
  intros W. assert (list_to_set l ⊆ dom (pages s)) as Hs.
  { intros i Hi. apply elem_of_list_to_set in Hi. apply elem_of_dom. eapply flist_dom; [apply W|done]. }
  apply subseteq_size in Hs. rewrite size_list_to_set in Hs by apply W. by rewrite size_dom in Hs.
Qed.

(** Changing links so that they go through a permutation of the free pages. *)
Lemma relinked_wf s s' l l' h :
  mm_wf s l -> s' = set_page_free_list h (set_pages (pages s') s) ->
  (forall i, pp_ref <$> pages s' !! i = pp_ref <$> pages s !! i) ->
  flist (pages s') h l' -> l' ≡ₚ l -> mm_wf s' l'.
Proof.
  intros W -> Hr Hl Hp. split; simpl in *; try apply W; try done.
  - rewrite Hp. apply W.
  - rewrite Hp. apply W.
  - intros i. rewrite <- (wf_dom _ _ W). specialize (Hr i). simpl in Hr.
    split; intros [pi E]; rewrite E in Hr; [destruct (pages s !! i)|destruct (pages s' !! i)]; eauto; done.
Qed.

Lemma low_high_perm lim l : low_high lim l ≡ₚ l.
Proof.
  unfold low_high. induction l as [|p l IH]; [done|]. rewrite !filter_cons.
  destruct (pagetype lim p).
  - rewrite decide_False by done. rewrite decide_True by done. by rewrite <- Permutation_middle, IH.
  - rewrite decide_True by done. rewrite decide_False by done. simpl. by rewrite IH.
Qed.

Lemma chain_flist pg root h lo t h2 l2 :
  chain pg root h lo t ->
  match lo with
  | [] => h = h2
  | i :: l' => exists pi, pg !! default i (last l') = Some pi /\ pp_link pi = h2
  end ->
  flist pg h2 l2 -> (forall j pj, j ∈ lo -> pg !! j = Some pj -> pp_ref pj = 0) ->
  flist pg h (lo ++ l2).
Proof.
  destruct lo as [|i lo]; simpl; [by intros _ ->|]. intros (-> & Hl & _) (pi & Hp & E) H2 Hr.
  by eapply linked_flist.
Qed.

Lemma flist_ext pg pg' h l :
  (forall i, i ∈ l -> pg' !! i = pg !! i) -> flist pg h l -> flist pg' h l.
Proof.
  revert h. induction l as [|i l IH]; intros h E; [done|]. intros (-> & pi & Hp & Hr & Hl).
  split; [done|]. exists pi. rewrite E by by left. split_and!; [done|done|].
  apply IH; [|done]. intros j Hj. apply E. by right.
Qed.

(** With the reference counts kept, the pages of the list are there and unused. *)
Lemma refs_kept s s' l l' :
  mm_wf s l -> l' ≡ₚ l -> (forall i, pp_ref <$> pages s' !! i = pp_ref <$> pages s !! i) ->
  (forall i, i ∈ l' -> is_Some (pages s' !! i))
  /\ forall j pj, j ∈ l' -> pages s' !! j = Some pj -> pp_ref pj = 0.
Proof.
  intros W Hp Hr. split.
  - intros i Hi. rewrite Hp in Hi. eapply flist_dom in Hi as [pi E]; [|apply W].
    specialize (Hr i). rewrite E in Hr. destruct (pages s' !! i); [eauto|done].
  - intros j pj Hj E. rewrite Hp in Hj. specialize (Hr j). rewrite E in Hr.
    destruct (pages s !! j) as [pi|] eqn:Ej; [|done]. injection Hr as ->.
    eapply flist_ref; [apply W|done|done].
Qed.

Lemma low_pages_first_ok lim s l :
  mm_wf s l ->
  wp (low_pages_first lim) s (fun _ s' => mm_wf s' (low_high lim l) /\ only_pages s s'
    /\ forall i, i ∉ l -> pages s' !! i = pages s !! i).
Proof.
  intros W. unfold low_pages_first. wp_step. wp_step. wp_step.
  eapply wp_mono; [eapply (relink_loop_ok lim _ s s _ [] [] l)|].
  { split; simpl; try done; [apply W|apply W|by destruct s]. }
  { intros i Hi. simpl in Hi. eapply flist_dom; [apply W|done]. }
  { pose proof (wf_size s l W). lia. }
  intros r s1 R. simpl app in R.
  pose proof (low_high_perm lim l) as Hp. unfold low_high in *.
  set (lo := filter (fun p => pagetype lim p = false) l) in *.
  set (hi := filter (fun p => pagetype lim p = true) l) in *.
  pose proof (fun s' => refs_kept s s' l (lo ++ hi) W Hp) as Hall.
  pose proof (rl_nodup _ _ _ _ _ _ _ R) as Hnd. rewrite app_nil_r in Hnd.
  wp_step. eapply (wp_store_ref _ _ _ _ _ _ _ true _ _ R).
  { apply Hall, R. }
  intros s2 r2 E0 E1 Hs2 Hrefs2 _ Hout2 Hhi Hlo.
  assert (forall i, i ∉ l -> i ∉ lo ++ hi) as Hlh by (intros i; by rewrite Hp).
  assert (forall i, i ∉ lo ++ hi -> pages s2 !! i = pages s !! i) as Hs2o.
  { intros i Hi. rewrite Hout2; [apply R; by rewrite app_nil_r|]. rewrite elem_of_app in Hi. tauto. }
  assert (flist (pages s2) (r_pp2 r2) hi) as Hfl.
  { rewrite <- (app_nil_r hi). apply (chain_flist _ Pp2 _ _ (r_tp1 r2) None).
    - rewrite E1. pose proof (rl_hi _ _ _ _ _ _ _ R) as C. destruct hi; simpl in *; tauto.
    - destruct hi; simpl in *; tauto.
    - done.
    - intros j pj Hj. apply (Hall s2); [done|]. apply elem_of_app. by right. }
  wp_step. eapply (wp_store_ref s s2 r2 lo hi [] None false).
  { split; try done; [|by rewrite app_nil_r|by rewrite app_nil_r].
    rewrite E1. pose proof (rl_hi _ _ _ _ _ _ _ R) as C. destruct hi; simpl in *; tauto. }
  { by apply Hall. }
  intros s3 r3 E2 E3 Hs3 Hrefs3 _ Hout Hlo3 Hhi3. wp_step. split_and!.
  - eapply (relinked_wf s _ l); [done| |done| |done].
    + simpl. rewrite Hs3 at 1. done.
    + apply (chain_flist _ Pp1 _ _ (r_tp0 r3) (r_pp2 r2)).
      * rewrite E2, E0. pose proof (rl_lo _ _ _ _ _ _ _ R) as C. rewrite E0 in Hlo.
        destruct lo; simpl in *; tauto.
      * simpl. destruct lo; simpl in *; tauto.
      * simpl. eapply flist_ext; [|exact Hfl]. intros i Hi. apply Hout. simpl.
        apply NoDup_app in Hnd as (_ & Hd & _). intros Hl. by apply (Hd i).
      * intros j pj Hj. apply (Hall s3); [done|]. apply elem_of_app. by left.
  - rewrite Hs3. done.
  - intros i Hi%Hlh. simpl. rewrite Hout; [by apply Hs2o|]. rewrite elem_of_app in Hi. tauto.
Qed.

(** ** The check as a whole *)

(** [memset(page2kva(pp), 0x97, 128)] keeps the allocator well formed and writes
    the first 128 bytes of the page only. *)
Lemma wp_poison s l p Q :
  mm_wf s l -> 0 <= p < npages s ->
  (forall m, mm_wf (set_ram m s) l ->
     (forall a, ~ (p * 4096 <= a < p * 4096 + 128) -> m !! a = ram s !! a) -> Q tt (set_ram m s)) ->
  wp (memset (p * 4096 + KERNBASE) 0x97 128) s Q.
Proof.
  intros W Hp HQ. unfold memset.
  assert ((p * 4096 + KERNBASE) mod 4 = 0) as E.
  { unfold KERNBASE. Z.to_euclidean_division_equations. lia. }
  rewrite E. change (negb ((0 =? 0) && (128 mod 4 =? 0))) with false.
  change (128 =? 0) with false. cbv iota zeta. wp_steps. rewrite Z.add_simpl_r.
  replace (p * 4096 + 128 - 4) with (p * 4096 + 124) by lia.
  replace (word_ok s (p * 4096)) with true
    by (rewrite <- (Z.add_0_r (p * 4096)); by rewrite word_ok_page by (done || lia)).
  rewrite word_ok_page by (done || lia). cbn [andb].
  apply wp_put, HQ.
  - destruct W as [w1 w2 w3 w4 w5 w6 w7]. split; try done. intros pa w. simpl. rewrite lookup_fill.
    case_bool_decide; [|apply w7]. by intros [= <-].
  - intros a Ha. rewrite lookup_fill, bool_decide_eq_false_2; [done|].
    change (Z.to_nat (128 / 4)) with 32%nat. lia.
Qed.

(** A loop over the free list that keeps the page records and an invariant. *)
Lemma each_free_inv (I : mm_state -> Prop) pg body l :
  (forall s, I s -> pages s = pg) ->
  (forall s p, I s -> p ∈ l -> wp (body p) s (fun _ s' => I s')) ->
  forall fuel h s, flist pg h l -> (length l <= fuel)%nat -> I s ->
  wp (each_free fuel h body) s (fun _ s' => I s').
Proof.
  intros Hpg. induction l as [|p l IH]; intros Hb fuel h s Hl Hf HI.
  - simpl in Hl. subst h. destruct fuel; cbn [each_free]; by wp_step.
  - destruct Hl as (-> & pi & Hp & _ & Hl). destruct fuel as [|fuel]; [simpl in Hf; lia|].
    cbn [each_free]. wp_step. eapply wp_mono; [by apply Hb; [|left]|].
    intros u s' HI'. cbv beta in HI'. wp_step. eapply wp_page_get; [by rewrite Hpg|].
    apply IH; [|done|simpl in Hf; lia|done]. intros s2 q H2 Hq. apply Hb; [done|by right].
Qed.

(** What the assertions ask of a free page, with the boot-time allocations ending
    at [nf]. *)
Definition good_free (nf p : Z) : Prop :=
  p <> 0 /\ p <> 7 /\ p <> 160 /\ p <> 255 /\ p <> 256 /\ (p < 256 \/ nf <= p * 4096 + KERNBASE).

Lemma check_free_page_ok s l nf p :
  mm_wf s l -> p ∈ l -> good_free nf p ->
  wp (check_free_page nf p) s (fun _ s' => s' = s).
Proof.
  intros W Hl (H0 & H7 & H160 & H255 & H256 & Hnf).
  pose proof (wf_range s l p W Hl) as Hr. pose proof (wf_npages s l W).
  unfold check_free_page. wp_step. wp_step. rewrite page2pa_spec by lia. cbv zeta.
  unfold IOPHYSMEM, EXTPHYSMEM, MPENTRY_PADDR, PGSIZE, sizeof_PageInfo.
  assert (forall b what Q, b = true -> Q tt s -> wp (kassert b what) s Q) as Hk by (intros; by apply wp_assert).
  repeat (wp_step; apply Hk; [first [apply Z.leb_le; lia | apply Z.ltb_lt; lia
    | apply negb_true_iff, Z.eqb_neq; lia
    | apply Z.eqb_eq; rewrite Z.mul_comm; by apply Z.mod_mul ] |]).
  wp_step. apply (wp_mono _ _ (fun _ s' => s' = s)).
  - destruct (Z.ltb_spec (p * 4096) 1048576); [by wp_step|]. wp_step.
    apply wp_page2kva; [lia|lia|]. apply Hk; [|done]. rewrite Z.geb_leb. apply Z.leb_le. lia.
  - intros _ s' ->. apply Hk; [|done]. apply negb_true_iff, Z.eqb_neq. lia.
Qed.

Lemma check_free_loop_ok s l nf fuel h l2 base ext :
  mm_wf s l -> flist (pages s) h l2 -> (forall p, p ∈ l2 -> p ∈ l /\ good_free nf p) ->
  (length l2 <= fuel)%nat ->
  wp (check_free_loop fuel nf h base ext) s (fun n s' => s' = s
    /\ fst n = base + Z.of_nat (length (filter (fun p => p < 256) l2))
    /\ snd n = ext + Z.of_nat (length (filter (fun p => ~ p < 256) l2))).
Proof.
  intros W. revert fuel h base ext.
  induction l2 as [|p l2 IH]; intros fuel h base ext Hl Hg Hf.
  - simpl in Hl. subst h. destruct fuel; cbn [check_free_loop]; wp_step; simpl; split_and!; done || lia.
  - destruct Hl as (-> & pi & Hp & _ & Hl). destruct fuel as [|fuel]; [simpl in Hf; lia|].
    cbn [check_free_loop]. wp_step. destruct (Hg p ltac:(by left)) as [Hin Hgood].
    eapply wp_mono; [by eapply check_free_page_ok|]. intros _ s' ->. wp_step.
    eapply wp_page_get; [done|]. pose proof (wf_range s l p W Hin). pose proof (wf_npages s l W).
    rewrite page2pa_spec by lia. unfold EXTPHYSMEM. rewrite !filter_cons.
    assert (forall q, q ∈ l2 -> q ∈ l /\ good_free nf q) as Hg' by (intros q Hq; apply Hg; by right).
    destruct (Z.ltb_spec (p * 4096) 0x100000).
    + rewrite (decide_True (P := p < 256)) by lia. rewrite (decide_False (P := ~ p < 256)) by lia.
      eapply wp_mono; [apply IH; [done|done|simpl in Hf; lia]|].
      intros n s' (-> & -> & ->). simpl length. split_and!; done || lia.
    + rewrite (decide_False (P := p < 256)) by lia. rewrite (decide_True (P := ~ p < 256)) by lia.
      eapply wp_mono; [apply IH; [done|done|simpl in Hf; lia]|].
      intros n s' (-> & -> & ->). simpl length. split_and!; done || lia.
Qed.

(** The poisoning loop: the free list stays, and only the first bytes of free
    pages below [lim] change. *)
Lemma poison_loop_ok lim s l :
  mm_wf s l ->
  wp (for_free_list (fun p => when (PDX (page2pa p) <? lim) (kva ← page2kva p; memset kva 0x97 128)))
     s (fun _ s' => mm_wf s' l /\ cfg s' = cfg s /\ pages s' = pages s
        /\ page_free_list s' = page_free_list s
        /\ forall a, (forall p, p ∈ l -> PDX (page2pa p) < lim ->
             ~ (p * 4096 <= a < p * 4096 + 128)) -> ram s' !! a = ram s !! a).
Proof.
  intros W. unfold for_free_list. wp_step. wp_step.
  eapply (each_free_inv _ (pages s) _ l);
    [|intros s1 p I Hp|apply W|pose proof (wf_size s l W); lia|done].
  { by intros s1 (_ & _ & ? & _). }
  pose proof I as (W1 & Hc & Hpg & Hfl & Hr).
  pose proof (wf_range s1 l p W1 Hp). pose proof (wf_npages s1 l W1).
  unfold when. destruct (Z.ltb_spec (PDX (page2pa p)) lim) as [Hlim|]; [|by wp_step].
  wp_step. apply wp_page2kva; [lia|lia|]. apply (wp_poison s1 l); [done|lia|].
  intros m Wm Hm. split_and!; [done|done|done|done|].
  intros a Ha. simpl. rewrite Hm by by apply Ha. by apply Hr.
Qed.

(** The part of the check after the re-linking. *)
Lemma check_free_list_tail e s l lim :
  mm_wf s l -> nextfree s <> 0 -> (forall p, p ∈ l -> good_free (nextfree s) p) ->
  (exists p, p ∈ l /\ p < 256) -> (exists p, p ∈ l /\ ~ p < 256) ->
  wp (for_free_list (fun p => when (PDX (page2pa p) <? lim) (kva ← page2kva p; memset kva 0x97 128)) ;;
      first ← boot_alloc e 0;
      s ← get;
      n ← check_free_loop (S (size (pages s))) first (page_free_list s) 0 0;
      kassert (fst n >? 0) "nfree_basemem > 0" ;;
      kassert (snd n >? 0) "nfree_extmem > 0" ;;
      printk "check_page_free_list() succeeded!" [])
     s (fun _ s' => mm_wf s' l /\ (exists log, cfg s' = log_console log (cfg s)) /\ pages s' = pages s
        /\ forall a, (forall p, p ∈ l -> PDX (page2pa p) < lim ->
             ~ (p * 4096 <= a < p * 4096 + 128)) -> ram s' !! a = ram s !! a).
Proof.
  intros W Hnf Hg (p1 & Hp1 & Hlo) (p2 & Hp2 & Hhi). wp_step.
  eapply wp_mono; [by apply poison_loop_ok|]. intros _ s1 (W1 & Hc & Hpg & Hfl & Hr).
  assert (nextfree s1 = nextfree s) as En by (unfold nextfree; by rewrite Hc).
  wp_step. unfold boot_alloc. wp_steps. rewrite En. unfold when.
  destruct (Z.eqb_spec (nextfree s) 0); [done|]. wp_steps. simpl (0 =? 0). cbv iota. wp_steps.
  eapply wp_mono; [eapply (check_free_loop_ok s1 l _ _ _ l); [done|apply W1| |]|].
  { intros p Hp. split; [done|]. rewrite En. by apply Hg. }
  { pose proof (wf_size s1 l W1). lia. }
  intros cnt s2 (-> & Hn1 & Hn2).
  assert (forall (P : Z -> Prop) `{!forall x, Decision (P x)} p, p ∈ l -> P p ->
    (0 < length (filter P l))%nat) as Hpos.
  { intros P HD p Hp HP. assert (p ∈ filter P l) as H by by apply list_elem_of_filter.
    destruct (filter P l); [by apply elem_of_nil in H|simpl; lia]. }
  pose proof (Hpos (fun p => p < 256) _ p1 Hp1 Hlo).
  pose proof (Hpos (fun p => ~ p < 256) _ p2 Hp2 Hhi).
  wp_step. apply wp_assert; [rewrite Z.gtb_ltb; apply Z.ltb_lt; lia|].
  wp_step. apply wp_assert; [rewrite Z.gtb_ltb; apply Z.ltb_lt; lia|].
  unfold printk. wp_step. split_and!; [by apply upd_cfg_wf|eexists; simpl; by rewrite Hc|done|done].
Qed.

(** The boot-time check of the free list accepts every list [page_init] can
    build and does not lose or invent a page: with the free pages as the kernel
    wants them (not page 0, the AP entry page, the edges of the I/O hole or a page
    below the end of the boot-time allocations, and some below and some above one
    megabyte) all its assertions hold; the pages below four megabytes come first
    afterwards, both groups in their old order, and memory changes only in the
    first 128 bytes of free pages below four megabytes. *)
Theorem check_page_free_list_reorders e s l :
  mm_wf s l -> nextfree s <> 0 -> (forall p, p ∈ l -> good_free (nextfree s) p) ->
  (exists p, p ∈ l /\ p < 256) -> (exists p, p ∈ l /\ ~ p < 256) ->
  wp (check_page_free_list e true) s (fun _ s' =>
    mm_wf s' (low_high 1 l) /\ low_high 1 l ≡ₚ l /\ npages s' = npages s
    /\ forall a, (forall p, p ∈ l -> PDX (page2pa p) < 1 -> ~ (p * 4096 <= a < p * 4096 + 128)) ->
         ram s' !! a = ram s !! a).
Proof.
  intros W Hnf Hg Hlo Hhi. unfold check_page_free_list. wp_steps.
  destruct Hlo as (p1 & Hp1 & Hlo). destruct Hhi as (p2 & Hp2 & Hhi).
  rewrite bool_decide_eq_false_2.
  2:{ intros E. pose proof (wf_list s l W) as H. rewrite E in H. destruct l; [by apply elem_of_nil in Hp1|].
      by destruct H as [? _]. }
  wp_steps. cbn [when]. eapply wp_mono; [by apply low_pages_first_ok|]. intros _ s1 (W1 & (Hc & Hr) & _).
  pose proof (low_high_perm 1 l) as Hp.
  assert (nextfree s1 = nextfree s) as En by (unfold nextfree; by rewrite Hc).
  eapply wp_mono; [eapply (check_free_list_tail e s1 (low_high 1 l) 1); [done|congruence| | |]|].
  - intros p Hpl. rewrite Hp in Hpl. rewrite En. by apply Hg.
  - exists p1. by rewrite Hp.
  - exists p2. by rewrite Hp.
  - intros u s2 (W2 & (log & Hn) & _ & Hm). split_and!; [done|done|unfold npages; by rewrite Hn, Hc|].
    intros a Ha. rewrite Hm; [by rewrite Hr|]. intros p Hpl. rewrite Hp in Hpl. by apply Ha.
Qed.

(** What is behind the ports of the real-time clock: a write to 0x70 selects the byte
    that 0x71 reads, and the bytes change by writes to 0x71 only. *)
Class Nvram (W : Type) `{!Ports W} := {
  nv_get : W -> Z -> Z;
  nv_range w r : 0 <= nv_get w r < 256;
  nv_read w r : 0 <= r < 256 -> u8 (fst (port_in (IO_RTC + 1) (port_out IO_RTC r w))) = nv_get w r;
  nv_in p w r : nv_get (snd (port_in p w)) r = nv_get w r;
  nv_out p v w r : p <> IO_RTC + 1 -> nv_get (port_out p v w) r = nv_get w r
}.

#[global, program] Instance cmos_nvram : Nvram cmos := {| nv_get w r := u8 (default 0 (cmos_ram w !! r)) |}.
Next Obligation. intros w r. apply u8_range. Qed.
Next Obligation. intros w r Hr. reflexivity. Qed.
Next Obligation. done. Qed.
Next Obligation.
  intros p v w r Hp. cbn. destruct (p =? 112); [done|]. destruct (Z.eqb_spec p 113) as [->|]; [by destruct Hp|done].
Qed.

(** A 16-bit little-endian number. *)
Definition nv_word {W} `{!Ports W} `{!Nvram W} (w : W) (r : Z) : Z := nv_get w r + 256 * nv_get w (r + 1).

Section NvramRead.
Context {W : Type} `{!Ports W} `{!Nvram W}.

Lemma nv_word_range (w : W) r : 0 <= nv_word w r < 65536.
Proof. unfold nv_word. pose proof (nv_range w r). pose proof (nv_range w (r + 1)). lia. Qed.

Lemma wp_mc146818_read r (w : W) Q :
  0 <= r < 256 -> (forall w', (forall x, nv_get w' x = nv_get w x) -> Q (nv_get w r) w') -> wp (mc146818_read r) w Q.
Proof.
  intros Hr HQ. unfold mc146818_read. wp_step. apply wp_outb. rewrite u8_small by lia.
  pose proof (nv_read w r Hr) as E. pose proof (nv_in (IO_RTC + 1) (port_out IO_RTC r w)) as H.
  unfold wp, inb. destruct (port_in _ _) as [v w']. cbn in E, H. rewrite E. apply HQ.
  intros x. rewrite H. by apply nv_out.
Qed.

Lemma wp_nvram_read r (w : W) Q :
  0 <= r < 255 -> (forall w', (forall x, nv_get w' x = nv_get w x) -> Q (nv_word w r) w') -> wp (nvram_read r) w Q.
Proof.
  intros Hr HQ. unfold nvram_read. wp_step. apply wp_mc146818_read; [lia|]. intros w1 E1. wp_step.
  apply wp_mc146818_read; [lia|]. intros w2 E2. wp_step. rewrite E1. pose proof (nv_range w r). pose proof (nv_range w (r + 1)).
  rewrite Z.lor_comm, Z.shiftl_mul_pow2 by lia.
  rewrite (lor_aligned (nv_get w (r + 1) * 2 ^ 8) (nv_get w r) 8); [|lia|by apply Z.mod_mul|done].
  replace (nv_get w (r + 1) * 2 ^ 8 + nv_get w r) with (nv_word w r) by (unfold nv_word; lia).
  apply HQ. intros x. by rewrite E2.
Qed.

(** Memory detection: the pages of extended memory start at one megabyte, and with
    no extended memory the base memory is all there is. *)
Lemma wp_detect_memory s (w : W) (Q : unit -> mm_state * W -> Prop) :
  let base := nv_word w NVRAM_BASELO in
  let ext := nv_word w NVRAM_EXTLO in
  (forall log w',
     Q tt (upd_cfg (fun c => log_console log (set_npages (if ext / 4 =? 0 then base / 4 else 256 + ext / 4) (base / 4) c)) s, w')) ->
  wp i386_detect_memory (s, w) Q.
Proof.
  intros base ext HQ.
  assert (forall a, 0 <= a < 65536 -> Z.quot (a * 1024) PGSIZE = a / 4) as Hq.
  { intros a Ha. unfold PGSIZE. rewrite Z.quot_div_nonneg by lia. Z.to_euclidean_division_equations. lia. }
  unfold i386_detect_memory, on_snd, on_fst. wp_step. apply wp_zoom. cbn [snd].
  apply wp_nvram_read; [done|]. intros w1 E1. wp_step. apply wp_zoom. cbn [fst snd].
  apply wp_nvram_read; [done|]. intros w2 E2. apply wp_zoom. cbn [fst snd]. wp_steps. unfold printk. wp_step. cbn [fst snd].
  assert (nv_word w1 NVRAM_EXTLO = ext) as -> by (unfold nv_word; by rewrite !E1).
  rewrite !Hq by apply nv_word_range. unfold truth. rewrite if_negb. apply HQ.
Qed.
End NvramRead.

(** ** Witnesses *)

(** A machine with [n] pages of which 8, 300, 1100 and 9 are free, in this order. *)
Definition demo_free (n : Z) : mm_state :=
  after_free 8 (mkPage None 0) (after_free 300 (mkPage None 0) (after_free 1100 (mkPage None 0)
    (after_free 9 (mkPage None 0) (fresh_mm n 160 (KERNBASE + 300 * 4096))))).

Lemma demo_free_wf n : 1101 <= n <= 65536 -> mm_wf (demo_free n) [8; 300; 1100; 9].
Proof.
  intros Hn. unfold demo_free.
  assert (forall i, 0 <= i < n -> zero_pages (Z.to_nat n) !! i = Some (mkPage None 0)) as Hz.
  { intros i Hi. rewrite lookup_zero_pages, bool_decide_eq_true_2; [done|lia]. }
  repeat (apply after_free_wf;
    [|cbn [pages after_free fresh_mm]; rewrite !lookup_insert_ne by done; by rewrite Hz by lia
     |done|by rewrite !elem_of_cons, elem_of_nil; lia]).
  apply after_free_wf; [apply fresh_wf; lia| |done|apply not_elem_of_nil].
  cbn [pages fresh_mm]. by rewrite Hz by lia.
Qed.

Lemma check_page_free_list_reorders_witness :
  wp (check_page_free_list 0 true) (demo_free 1101) (fun _ s' => mm_wf s' [8; 300; 9; 1100]).
Proof.
  eapply wp_mono; [apply (check_page_free_list_reorders 0 (demo_free 1101) [8; 300; 1100; 9])|].
  - apply demo_free_wf. lia.
  - done.
  - change (nextfree (demo_free 1101)) with (KERNBASE + 300 * 4096). unfold good_free.
    intros p Hp. rewrite !elem_of_cons, elem_of_nil in Hp. unfold KERNBASE. lia.
  - exists 8. split; [by left|done].
  - exists 300. split; [by right; left|done].
  - intros _ s' (W & _). exact W.
Defined.
