(* ===== verification/MemCheck.v ===== *)
(** * The self tests of the page tables (kernel/mem.c)

    [check_page_alloc], [check_page] and [check_page_installed_pgdir] of MemInit.v
    run to their end, all assertions included.  The tests put the free list aside
    and work with three pages of their own; what they do with them is followed in a
    small abstract machine ([sandbox]) that holds one page table, two entries and a
    free list of at most three pages, and that the real page tables simulate.

    While the free list is put aside the counter of free pages is not the length of
    the list any more.  No code of the allocator decides on the counter, so a run
    with another count is the same run ([counts]). *)

From S2P Require Import Prelude.
From S2P Require Import Machine.
From S2P Require Import Kmonad.
From S2P Require Import Spinlock.
From S2P Require Import PageAlloc.
From S2P Require Import Paging.
From S2P Require Import Bytes.
From S2P Require Import MemInit.
From Stdlib Require Import ZArith Lia.
From stdpp Require Import base gmap list strings.

Local Open Scope Z_scope.

(** ** Runs with another count of free pages *)

Definition bump (k : Z) (s : mm_state) : mm_state := set_num_free_pages (u32 (num_free_pages s + k)) s.

Definition out_map {S A} (f : S -> S) (o : outcome S A) : outcome S A :=
  match o with Ret a s => Ret a (f s) | Iret t s => Iret t (f s) | Stop e => Stop e end.

(** [m] does the same whatever the count is, and moves it by the same amount. *)
Definition counts {A} (m : M mm_state A) : Prop := forall k s, m (bump k s) = out_map (bump k) (m s).

Lemma wp_bump {A} (m : M mm_state A) k s Q : counts m -> wp m s (fun a s' => Q a (bump k s')) -> wp m (bump k s) Q.
Proof. intros H. unfold wp. rewrite H. by destruct (m s). Qed.

Lemma counts_ret {A} (a : A) : counts (mret a).
Proof. done. Qed.

Lemma counts_bind {A B} (m : M mm_state A) (f : A -> M mm_state B) :
  counts m -> (forall a, counts (f a)) -> counts (m ≫= f).
Proof. intros Hm Hf k s. unfold mbind, M_bind. rewrite Hm. destruct (m s); simpl; [apply Hf|done|done]. Qed.

Lemma counts_gets {A} (f : mm_state -> A) : (forall k s, f (bump k s) = f s) -> counts (gets f).
Proof. intros H k s. unfold gets. by rewrite H. Qed.

Lemma counts_modify f : (forall k s, f (bump k s) = bump k (f s)) -> counts (modify f).
Proof. intros H k s. unfold modify. by rewrite H. Qed.

Lemma counts_stop {A} e : counts (stop_with e : M mm_state A).
Proof. done. Qed.

Lemma counts_need {A} (o : option A) what : counts (need o what).
Proof. by destruct o. Qed.

Lemma counts_assert b what : counts (kassert b what).
Proof. by destruct b. Qed.

Lemma counts_when b m : counts m -> counts (when b m).
Proof. by destruct b. Qed.

(** Code that looks at the state but not at the count. *)
Lemma counts_get {A} (f : mm_state -> M mm_state A) :
  (forall k s, f (bump k s) (bump k s) = out_map (bump k) (f s s)) -> counts (s ← get; f s).
Proof. intros H k s. apply H. Qed.

Create HintDb counts.

Ltac counts_step :=
  first
    [ solve [eauto 2 with counts nocore]
    | lazymatch goal with
      | |- forall _, _ => intro
      | |- counts (_ ≫= _) => apply counts_bind
      | |- counts (mret _) => apply counts_ret
      | |- counts (gets _) => apply counts_gets; reflexivity
      | |- counts (modify _) => apply counts_modify; reflexivity
      | |- counts (need _ _) => apply counts_need
      | |- counts (kassert _ _) => apply counts_assert
      | |- counts (when _ _) => apply counts_when
      | |- counts (panic _) => apply counts_stop
      | |- counts (fault _) => apply counts_stop
      | |- counts (hang _) => apply counts_stop
      | |- counts (if ?b then _ else _) => destruct b
      | |- counts (match ?x with _ => _ end) => destruct x
      | |- counts (let _ := _ in _) => cbv zeta
      end ].
Ltac counts_tac := repeat counts_step.

Lemma u32_shift a b c : u32 (u32 (a + b) + c) = u32 (u32 (a + c) + b).
Proof. unfold u32. rewrite !Zplus_mod_idemp_l. f_equal. lia. Qed.

Lemma counts_num j : counts (n ← gets num_free_pages; modify (set_num_free_pages (u32 (n + j)))).
Proof. intros k s. unfold mbind, M_bind, gets, modify, bump, set_num_free_pages. simpl. by rewrite u32_shift. Qed.

Lemma counts_num_bind {A} j (m : M mm_state A) :
  counts m -> counts (n ← gets num_free_pages; modify (set_num_free_pages (u32 (n + j))) ;; m).
Proof.
  intros Hm. pose proof (counts_bind _ _ (counts_num j) (fun _ => Hm)) as H. intros k s. specialize (H k s).
  by rewrite !M_assoc in H.
Qed.

Lemma counts_lock f : counts (with_lock f).
Proof. intros k s. unfold with_lock, gets, mbind, M_bind, zoom. simpl. by destruct (f _ _). Qed.

Lemma counts_load32 a : counts (load32 a).
Proof. apply counts_get. intros k s. change (word_ok (bump k s)) with (word_ok s). by destruct (word_ok _ _). Qed.

Lemma counts_store32 a v : counts (store32 a v).
Proof. apply counts_get. intros k s. change (word_ok (bump k s)) with (word_ok s). by destruct (word_ok _ _). Qed.

Lemma counts_load8 a : counts (load8 a).
Proof. apply counts_get. intros k s. change (word_ok (bump k s)) with (word_ok s). by destruct (word_ok _ _). Qed.

Lemma counts_memset v c n : counts (memset v c n).
Proof.
  unfold memset. destruct (n =? 0); [counts_tac|]. destruct (negb _); [counts_tac|]. apply counts_get. intros k s. cbv zeta. change (word_ok (bump k s)) with (word_ok s).
  by destruct (andb _ _).
Qed.

Lemma counts_page_get p : counts (page_get p).
Proof. unfold page_get. counts_tac. Qed.
Lemma counts_page_put p pi : counts (page_put p pi).
Proof. unfold page_put. counts_tac. Qed.
#[export] Hint Resolve counts_lock counts_load32 counts_store32 counts_load8 counts_memset counts_page_get counts_page_put : counts.
Lemma counts_set_pp_link p l : counts (set_pp_link p l).
Proof. unfold set_pp_link. counts_tac. Qed.
Lemma counts_set_pp_ref p r : counts (set_pp_ref p r).
Proof. unfold set_pp_ref. counts_tac. Qed.
Lemma counts_KADDR pa : counts (KADDR pa).
Proof. unfold KADDR. counts_tac. Qed.
Lemma counts_PADDR va : counts (PADDR va).
Proof. unfold PADDR. counts_tac. Qed.
Lemma counts_pa2page pa : counts (pa2page pa).
Proof. unfold pa2page. counts_tac. Qed.
Lemma counts_page2kva pp : counts (page2kva pp).
Proof. apply counts_KADDR. Qed.
#[export] Hint Resolve counts_set_pp_link counts_set_pp_ref counts_KADDR counts_PADDR counts_pa2page counts_page2kva : counts.

Lemma counts_page_alloc flags : counts (page_alloc flags).
Proof.
  unfold page_alloc. counts_step; [counts_tac|]. intros _. counts_step; [counts_tac|]. intros [pp|]; [|counts_tac].
  do 4 (counts_step; [counts_tac|]; intros ?). apply (counts_num_bind (-1)). counts_tac.
Qed.

Lemma counts_page_free pp : counts (page_free pp).
Proof.
  unfold page_free. counts_step; [counts_tac|]. intros pi. destruct (negb _); [counts_tac|].
  destruct (bool_decide _); [counts_tac|]. do 4 (counts_step; [counts_tac|]; intros ?). apply (counts_num_bind 1). counts_tac.
Qed.
#[export] Hint Resolve counts_page_alloc counts_page_free : counts.
Lemma counts_page_decref pp : counts (page_decref pp).
Proof. unfold page_decref. counts_tac. Qed.
#[export] Hint Resolve counts_page_decref : counts.
Lemma counts_pgdir_walk d va c : counts (pgdir_walk d va c).
Proof. unfold pgdir_walk. counts_tac. Qed.
#[export] Hint Resolve counts_pgdir_walk : counts.
Lemma counts_page_lookup d va g : counts (page_lookup d va g).
Proof. unfold page_lookup. counts_tac. Qed.
#[export] Hint Resolve counts_page_lookup : counts.
Lemma counts_page_remove g d va : counts (page_remove g d va).
Proof. unfold page_remove, tlb_invalidate. counts_tac. Qed.
#[export] Hint Resolve counts_page_remove : counts.
Lemma counts_page_insert g d pp va perm : counts (page_insert g d pp va perm).
Proof. unfold page_insert, tlb_invalidate. counts_tac. Qed.
Lemma counts_check_va2pa d va : counts (check_va2pa d va).
Proof. unfold check_va2pa. counts_tac. Qed.
#[export] Hint Resolve counts_page_insert counts_check_va2pa : counts.

(** ** Exact effects *)

(** The set-up variables, without the record of what was invalidated and printed. *)
Definition core_cfg (c : mm_cfg) : mm_cfg :=
  mkCfg (c_npages c) (c_npages_basemem c) (c_nextfree c) (c_kern_pgdir c) (c_pages_va c) (c_mmio_base c)
        (c_cr3 c) (c_cr0 c) (c_ctx c) [] [].
Definition same_cfg (s s' : mm_state) : Prop := core_cfg (cfg s') = core_cfg (cfg s).

Lemma same_cfg_npages s s' : same_cfg s s' -> npages s' = npages s.
Proof. intros E. exact (f_equal c_npages E). Qed.

Definition after_decref (p r : Z) (s : mm_state) : mm_state :=
  let s1 := set_pages (<[p := mkPage None (r - 1)]> (pages s)) s in
  if r =? 1 then after_free p (mkPage None 0) s1 else s1.

Section Decref.
Context (s : mm_state) (l : list Z) (p r : Z).
Context (W : mm_wf s l) (Hp : pages s !! p = Some (mkPage None r)) (Hl : p ∉ l) (Hr : 1 <= r < 65536).

Lemma page_decref_eq : page_decref p s = Ret tt (after_decref p r s).
Proof.
  cut (wp (page_decref p) s (fun _ s' => s' = after_decref p r s)).
  { intros ([] & s' & -> & ->)%wp_inv. done. }
  unfold page_decref, after_decref. wp_step. eapply wp_page_get; [done|]. cbn [pp_ref]. rewrite u16_small by lia.
  wp_step. eapply wp_set_pp_ref; [done|]. cbn [pp_link]. replace (r - 1 =? 0) with (r =? 1) by lia.
  destruct (Z.eqb_spec r 1) as [->|]; [|by wp_step].
  eapply wp_eq; [|done]. eapply (page_free_eq _ l); [by eapply set_pages_wf|cbn; by rewrite lookup_insert_eq|done|done].
Qed.

Lemma after_decref_wf : mm_wf (after_decref p r s) (if r =? 1 then p :: l else l).
Proof.
  unfold after_decref. assert (mm_wf (set_pages (<[p := mkPage None (r - 1)]> (pages s)) s) l) as W1 by by eapply set_pages_wf.
  destruct (Z.eqb_spec r 1) as [->|]; [|done].
  apply after_free_wf; [done|cbn; by rewrite lookup_insert_eq|done|done].
Qed.

Lemma after_decref_pages q : q <> p -> pages (after_decref p r s) !! q = pages s !! q.
Proof. intros Hq. unfold after_decref. destruct (r =? 1); cbn; by rewrite ?lookup_insert_ne. Qed.

Lemma after_decref_ref : r <> 1 -> pages (after_decref p r s) !! p = Some (mkPage None (r - 1)).
Proof. intros Hr1. unfold after_decref. destruct (Z.eqb_spec r 1); [done|]. cbn. by rewrite lookup_insert_eq. Qed.
End Decref.

Lemma after_decref_cfg p r s : cfg (after_decref p r s) = cfg s.
Proof. unfold after_decref. by destruct (r =? 1). Qed.
Lemma after_decref_ram p r s : ram (after_decref p r s) = ram s.
Proof. unfold after_decref. by destruct (r =? 1). Qed.

Lemma page_remove_eq s l d va e t p r g :
  mm_wf s l -> dir_wf s l d -> PDX va <> SELF -> tab (ram s) d (PDX va) = Some t ->
  vm_lookup (ram s) d va = Some e -> PTE_ADDR e = p * 4096 -> frame s l d p r -> 1 <= r < 65536 -> g <> 0 ->
  page_remove g (dirp d) va s = Ret tt (upd_cfg (log_invlpg va) (set_pte (after_decref p r s) va t 0)).
Proof.
  intros W D Hs Ht Hv Hp F Hr Hg. pose proof (frame_range _ _ _ _ _ W F) as Hpn.
  destruct (dw_tab s l d D _ t (PDX_range va) Hs Ht) as (Htr & _).
  cut (wp (page_remove g (dirp d) va) s (fun _ s' => s' = upd_cfg (log_invlpg va) (set_pte (after_decref p r s) va t 0))).
  { intros ([] & s' & -> & ->)%wp_inv. done. }
  unfold page_remove. wp_step. eapply wp_eq; [by eapply page_lookup_some|]. cbv beta iota.
  unfold truth. destruct (Z.eqb_spec g 0); [done|]. cbn [negb].
  wp_step. eapply wp_eq; [apply (page_decref_eq s l); [done|apply F|apply F|done]|]. wp_step.
  destruct (Z.eqb_spec (t * 4096 + 4 * PTX va + KERNBASE) 0) as [E0|].
  { pose proof (PTX_range va). unfold KERNBASE in E0. lia. }
  apply wp_store32.
  - rewrite (word_ok_cfg s) by apply after_decref_cfg. by apply pte_word_ok.
  - unfold tlb_invalidate. by wp_step.
Qed.

(** [memset(page2kva(pp), c, PGSIZE)]. *)
Lemma wp_memset_page s l p c Q :
  mm_wf s l -> 0 <= p < npages s -> 0 <= c < 256 ->
  (forall m, (forall q o, q <> p -> 0 <= o < 4096 -> rd32 m (q * 4096 + o) = rd32 (ram s) (q * 4096 + o)) ->
     (forall o, 0 <= o < 4096 -> o mod 4 = 0 -> rd32 m (p * 4096 + o) = c * 16843009) ->
     mm_wf (set_ram m s) l -> Q tt (set_ram m s)) ->
  wp (memset (p * 4096 + KERNBASE) c PGSIZE) s Q.
Proof.
  intros W Hp Hc HQ. unfold memset, PGSIZE. change (4096 =? 0) with false. cbv iota.
  assert ((p * 4096 + KERNBASE) mod 4 = 0) as -> by (unfold KERNBASE; Z.to_euclidean_division_equations; lia).
  change (negb ((0 =? 0) && (4096 mod 4 =? 0))) with false. cbv iota zeta. wp_steps. rewrite Z.add_simpl_r.
  assert (Z.land c 255 = c) as -> by (change 255 with (Z.ones 8); rewrite Z.land_ones by lia; apply Z.mod_small; lia).
  assert (Z.lor (Z.lor (Z.lor (Z.shiftl c 24) (Z.shiftl c 16)) (Z.shiftl c 8)) c = c * 16843009) as ->.
  { rewrite <- !Z.lor_assoc. rewrite !Z.shiftl_mul_pow2 by lia.
    rewrite (lor_aligned (c * 2 ^ 8) c 8); [|lia|by apply Z.mod_mul|lia].
    rewrite (lor_aligned (c * 2 ^ 16) _ 16); [|lia|by apply Z.mod_mul|change (2 ^ 8) with 256; change (2 ^ 16) with 65536; lia].
    rewrite (lor_aligned (c * 2 ^ 24) _ 24); [|lia|by apply Z.mod_mul|
      change (2 ^ 8) with 256; change (2 ^ 16) with 65536; change (2 ^ 24) with 16777216; lia].
    change (2 ^ 8) with 256. change (2 ^ 16) with 65536. change (2 ^ 24) with 16777216. lia. }
  replace (p * 4096 + 4096 - 4) with (p * 4096 + 4092) by lia.
  replace (word_ok s (p * 4096)) with true by (rewrite <- (Z.add_0_r (p * 4096)); by rewrite word_ok_page).
  rewrite word_ok_page by done. cbn [andb]. change (Z.to_nat (4096 / 4)) with 1024%nat. apply wp_put, HQ.
  - intros q o Hq Ho. unfold rd32. rewrite lookup_fill, bool_decide_eq_false_2; [done|]. lia.
  - intros o Ho Hm. unfold rd32. rewrite lookup_fill, bool_decide_eq_true_2; [done|]. split; [lia|].
    replace (p * 4096 + o - p * 4096) with o by lia. done.
  - destruct W as [w1 w2 w3 w4 w5 w6 w7]. split; try assumption. intros pa w. cbn [ram set_ram]. rewrite lookup_fill.
    case_bool_decide; [|apply w7]. intros [= <-]. lia.
Qed.

(** ** The abstract machine of the tests *)

(** The three pages a test works with. *)
Inductive pg := PA | PB | PC.
#[global] Instance pg_eq_dec : EqDecision pg.
Proof. solve_decision. Defined.

(** Whether page [PA] is the table in the slot under test, the first two entries with
    their permissions, and the free list. *)
Record sandbox := Sandbox {
  sb_tab : bool;
  sb_e0 : option (pg * Z);
  sb_e1 : option (pg * Z);
  sb_free : list pg
}.

(** The machine at the start and at the end of a test. *)
Definition idle : sandbox := Sandbox false None None [].

(** Which of the two entries: [false] for the first, [true] for the second. *)
Definition get_e (T : sandbox) (v : bool) : option (pg * Z) := if v then sb_e1 T else sb_e0 T.
Definition set_e (T : sandbox) (v : bool) (e : option (pg * Z)) : sandbox :=
  if v then Sandbox (sb_tab T) (sb_e0 T) e (sb_free T) else Sandbox (sb_tab T) e (sb_e1 T) (sb_free T).
Definition set_free (T : sandbox) (l : list pg) : sandbox := Sandbox (sb_tab T) (sb_e0 T) (sb_e1 T) l.
Definition set_tab (T : sandbox) (b : bool) : sandbox := Sandbox b (sb_e0 T) (sb_e1 T) (sb_free T).

Definition names (e : option (pg * Z)) (x : pg) : bool := match e with Some (y, _) => bool_decide (y = x) | None => false end.

(** The reference count a page should have. *)
Definition ref (T : sandbox) (x : pg) : Z :=
  Z.b2z (names (sb_e0 T) x) + Z.b2z (names (sb_e1 T) x) + Z.b2z (sb_tab T && bool_decide (x = PA)).

Definition entry_ok (T : sandbox) (e : option (pg * Z)) : bool :=
  match e with
  | None => true
  | Some (x, perm) => sb_tab T && bool_decide (x <> PA) && (bool_decide (x ∉ sb_free T)) && (0 <=? perm) && (perm <? 4096)
  end.
Definition sb_ok (T : sandbox) : bool :=
  entry_ok T (sb_e0 T) && entry_ok T (sb_e1 T) && negb (sb_tab T && bool_decide (PA ∈ sb_free T)).

(** Unmapping gives a page back with its last reference. *)
Definition sb_unmap (T : sandbox) (v : bool) : sandbox :=
  match get_e T v with
  | None => T
  | Some (y, _) => let T1 := set_e T v None in if ref T1 y =? 0 then set_free T1 (y :: sb_free T1) else T1
  end.
Definition sb_map (T : sandbox) (v : bool) (x : pg) (perm : Z) : sandbox :=
  if names (get_e T v) x then set_e T v (Some (x, perm)) else set_e (sb_unmap T v) v (Some (x, perm)).

Lemma ref_bounds T x : 0 <= ref T x <= 3.
Proof. unfold ref. destruct (names _ _), (names _ _), (sb_tab T && _); simpl; lia. Qed.

Lemma ref_set_e T v e x : ref (set_e T v e) x = ref T x - Z.b2z (names (get_e T v) x) + Z.b2z (names e x).
Proof. unfold ref. destruct v; simpl; lia. Qed.

Lemma get_set_e T v e u : get_e (set_e T v e) u = if bool_decide (u = v) then e else get_e T u.
Proof. by destruct u, v. Qed.
Lemma free_set_e T v e : sb_free (set_e T v e) = sb_free T.
Proof. by destruct v. Qed.
Lemma tab_set_e T v e : sb_tab (set_e T v e) = sb_tab T.
Proof. by destruct v. Qed.

Lemma sb_ok_entry T v : sb_ok T = true -> entry_ok T (get_e T v) = true.
Proof. unfold sb_ok. intros [[H1 H2]%andb_prop _]%andb_prop. by destruct v. Qed.

Lemma entry_ok_inv T x perm :
  entry_ok T (Some (x, perm)) = true -> sb_tab T = true /\ x <> PA /\ (x ∉ sb_free T) /\ 0 <= perm < 4096.
Proof.
  cbn [entry_ok]. intros [[[[H1 H2%bool_decide_eq_true]%andb_prop H3%bool_decide_eq_true]%andb_prop H4]%andb_prop H5]%andb_prop.
  split_and!; done || lia.
Qed.

Lemma sb_ok_set_e T v e : sb_ok T = true -> entry_ok T e = true -> sb_ok (set_e T v e) = true.
Proof.
  unfold sb_ok. intros [[H1 H2]%andb_prop H3]%andb_prop He.
  destruct v; simpl; rewrite ?H1, ?H2, ?H3; unfold entry_ok in *; simpl; rewrite ?He, ?H1, ?H2; done.
Qed.

Lemma sb_ok_push T x : sb_ok T = true -> ref T x = 0 -> sb_ok (set_free T (x :: sb_free T)) = true.
Proof.
  unfold sb_ok, ref. intros [[H1 H2]%andb_prop H3]%andb_prop Hr.
  assert (forall e, names e x = false -> entry_ok T e = true -> entry_ok (set_free T (x :: sb_free T)) e = true) as He.
  { intros [[y perm]|]; [|done]. cbn [names entry_ok]. intros Hn%bool_decide_eq_false.
    intros (Ht & Hy & Hf & Hp)%entry_ok_inv. cbn. rewrite Ht. rewrite !bool_decide_eq_true_2; [|by apply not_elem_of_cons|done]. cbn. lia. }
  destruct (names (sb_e0 T) x) eqn:E0, (names (sb_e1 T) x) eqn:E1; simpl in Hr;
    destruct (sb_tab T && bool_decide (x = PA)) eqn:Et; simpl in Hr; try lia.
  rewrite !He by done. cbn. destruct (sb_tab T); [|done]. cbn in *. apply negb_true_iff, bool_decide_eq_false in H3.
  apply bool_decide_eq_false in Et. rewrite bool_decide_eq_false_2; [done|]. apply not_elem_of_cons. by split.
Qed.

Lemma sb_unmap_ok T v : sb_ok T = true -> sb_ok (sb_unmap T v) = true.
Proof.
  intros H. unfold sb_unmap. destruct (get_e T v) as [[y perm]|] eqn:E; [|done]. cbv zeta.
  assert (sb_ok (set_e T v None) = true) as H1 by by apply sb_ok_set_e.
  destruct (Z.eqb_spec (ref (set_e T v None) y) 0); [by apply sb_ok_push|done].
Qed.

(** ** The simulation *)

Section Sandbox.
(** The state the test starts from, the directory, the pages it was given, and the
    slot: it is empty and the pages are used for nothing. *)
Context (s0 : mm_state) (d : Z) (addr : pg -> Z) (k : Z).
Context (Hinj : forall x y, addr x = addr y -> x = y) (Hd : forall x, addr x <> d).
Context (D0 : dir_wf s0 [] d) (Hk : 0 <= k < 1024) (Hks : k <> SELF).
Context (Htabs : forall i x, 0 <= i < 1024 -> tab (ram s0) d i <> Some (addr x)).

Definition va_of (v : bool) : Z := k * 4194304 + if v then 4096 else 0.
Definition enc (e : option (pg * Z)) : Z := match e with Some (x, perm) => insert_entry (addr x) perm | None => 0 end.

Record sim (T : sandbox) (s : mm_state) : Prop := {
  sm_ok : sb_ok T = true;
  sm_wf : mm_wf s (addr <$> sb_free T);
  sm_cfg : same_cfg s0 s;
  sm_pages : forall q, (forall x, q <> addr x) -> pages s !! q = pages s0 !! q;
  sm_recs : forall x, x ∉ sb_free T -> pages s !! addr x = Some (mkPage None (ref T x));
  sm_ram : forall q o, (forall x, q <> addr x) -> q <> d \/ o <> 4 * k -> 0 <= o < 4096 ->
             rd32 (ram s) (q * 4096 + o) = rd32 (ram s0) (q * 4096 + o);
  sm_slot : rd32 (ram s) (d * 4096 + 4 * k) = if sb_tab T then addr PA * 4096 + 7 else 0;
  sm_ent : sb_tab T = true -> forall v, rd32 (ram s) (addr PA * 4096 + 4 * PTX (va_of v)) = enc (get_e T v)
}.

Lemma addr_in x (l : list pg) : addr x ∈ (addr <$> l) <-> x ∈ l.
Proof.
  rewrite list_elem_of_fmap. split.
  - intros (y & E%Hinj & Hy). by subst.
  - intros Hx. by exists x.
Qed.

Lemma va_PDX v : PDX (va_of v) = k.
Proof. rewrite PDX_spec. unfold va_of. destruct v; Z.to_euclidean_division_equations; lia. Qed.

Lemma va_PTX v : PTX (va_of v) = if v then 1 else 0.
Proof. rewrite PTX_spec. unfold va_of. destruct v; Z.to_euclidean_division_equations; lia. Qed.

Lemma va_slot v : PDX (va_of v) <> SELF.
Proof. by rewrite va_PDX. Qed.

Section Facts.
Context (T : sandbox) (s : mm_state) (S : sim T s).

Lemma sim_npages : npages s = npages s0.
Proof. apply same_cfg_npages, S. Qed.

Lemma sim_addr x : 0 <= addr x < npages s.
Proof.
  destruct (decide (x ∈ sb_free T)) as [H|H].
  - eapply wf_range; [apply S|by apply addr_in].
  - apply (wf_dom _ _ (sm_wf _ _ S)). rewrite (sm_recs _ _ S) by done. eauto.
Qed.

Lemma sim_tab i : 0 <= i < 1024 -> i <> k -> tab (ram s) d i = tab (ram s0) d i.
Proof.
  intros Hi H0. unfold tab. rewrite (sm_ram _ _ S); [done| |lia|lia]. intros x E. by apply (Hd x).
Qed.

Lemma sim_tab0 : tab (ram s) d k = if sb_tab T then Some (addr PA) else None.
Proof.
  unfold tab. rewrite (sm_slot _ _ S). destruct (sb_tab T); [|done].
  pose proof (sim_addr PA). pose proof (wf_npages _ _ (sm_wf _ _ S)).
  rewrite present_odd, Z.odd_add, Z.odd_mul, andb_false_r. simpl xorb. cbv iota.
  rewrite PTE_ADDR_spec by lia. f_equal. Z.to_euclidean_division_equations. lia.
Qed.

Lemma sim_dir : dir_wf s (addr <$> sb_free T) d.
Proof.
  assert (sb_tab T = true -> PA ∉ sb_free T) as HA.
  { intros Ht. pose proof (sm_ok _ _ S) as H. unfold sb_ok in H. rewrite Ht in H. apply andb_prop in H as [_ H].
    by apply negb_true_iff, bool_decide_eq_false in H. }
  assert (forall i t, 0 <= i < 1024 -> tab (ram s) d i = Some t ->
    (i = k /\ t = addr PA /\ sb_tab T = true) \/ (i <> k /\ tab (ram s0) d i = Some t)) as Ht.
  { intros i t Hi. destruct (decide (i = k)) as [->|H0].
    - rewrite sim_tab0. destruct (sb_tab T); [|done]. intros [= <-]. by left.
    - rewrite sim_tab by done. by right. }
  split.
  - rewrite sim_npages. apply D0.
  - intros (x & E & _)%list_elem_of_fmap. by apply (Hd x).
  - intros i t Hi Hs E. destruct (Ht i t Hi E) as [(-> & -> & Htab)|[_ E0]].
    + split; [apply sim_addr|]. split; [rewrite addr_in; by apply HA|apply Hd].
    + destruct (dw_tab _ _ _ D0 i t Hi Hs E0) as (Hr & _ & Hne). rewrite sim_npages. split; [done|]. split; [|done].
      intros (x & -> & _)%list_elem_of_fmap. by apply (Htabs i x).
  - intros i j t Hi Hj Hsi Hsj Ei Ej. destruct (Ht i t Hi Ei) as [(-> & -> & _)|[Hi0 Ei0]], (Ht j _ Hj Ej) as [(-> & Et & _)|[Hj0 Ej0]].
    + done.
    + by destruct (Htabs j PA Hj).
    + subst t. by destruct (Htabs i PA Hi).
    + by apply (dw_inj _ _ _ D0 i j t).
Qed.

Lemma sim_frame x : x ∉ sb_free T -> x <> PA \/ sb_tab T = false -> frame s (addr <$> sb_free T) d (addr x) (ref T x).
Proof.
  intros Hf Hx. split; [by apply S|by rewrite addr_in|apply Hd|]. intros i Hi. destruct (decide (i = k)) as [->|].
  - rewrite sim_tab0. destruct (sb_tab T) eqn:Et; [|done]. intros [= E%Hinj]. destruct Hx; [by subst|done].
  - rewrite sim_tab by done. by apply Htabs.
Qed.

Lemma enc_present v : present (enc (get_e T v)) = bool_decide (is_Some (get_e T v)).
Proof. unfold enc. destruct (get_e T v) as [[x perm]|]; [|done]. unfold insert_entry. by rewrite present_lor. Qed.

Lemma sim_lookup v :
  vm_lookup (ram s) d (va_of v) = (fun '(x, perm) => insert_entry (addr x) perm) <$> get_e T v.
Proof.
  unfold vm_lookup. rewrite va_PDX, sim_tab0. pose proof (sb_ok_entry T v (sm_ok _ _ S)) as Ho.
  destruct (sb_tab T) eqn:Et.
  - rewrite (sm_ent _ _ S Et). rewrite enc_present. by destruct (get_e T v) as [[x perm]|].
  - destruct (get_e T v) as [[x perm]|]; [|done]. apply entry_ok_inv in Ho as (H & _). congruence.
Qed.

Lemma sb_entry_addr x perm : 0 <= perm < 4096 -> PTE_ADDR (insert_entry (addr x) perm) = addr x * 4096.
Proof.
  intros Hp. pose proof (sim_addr x). pose proof (wf_npages _ _ (sm_wf _ _ S)). unfold insert_entry.
  rewrite page2pa_spec by lia. apply entry_page; [lia|by apply Z.mod_mul|exact Hp].
Qed.
End Facts.

(** One entry is rewritten and the page records follow. *)
Lemma sim_change T s T' s' v e :
  sim T s -> sb_tab T = true -> sb_ok T' = true -> sb_tab T' = true ->
  (forall u, get_e T' u = if bool_decide (u = v) then e else get_e T u) ->
  mm_wf s' (addr <$> sb_free T') -> same_cfg s s' ->
  (forall q, (forall x, q <> addr x) -> pages s' !! q = pages s !! q) ->
  (forall x, x ∉ sb_free T' -> pages s' !! addr x = Some (mkPage None (ref T' x))) ->
  ram s' = <[addr PA * 4096 + 4 * PTX (va_of v) := enc e]> (ram s) -> sim T' s'.
Proof.
  intros S Ht Ho Ht' He W Hc Hp Hr Em.
  assert (forall q o, q <> addr PA -> 0 <= o < 4096 -> rd32 (ram s') (q * 4096 + o) = rd32 (ram s) (q * 4096 + o)) as Hm.
  { intros q o Hq Hoo. rewrite Em. pose proof (PTX_range (va_of v)). apply rd32_insert_ne. intros ?%page_off_inj; lia. }
  split; try done.
  - unfold same_cfg in *. rewrite Hc. apply S.
  - intros q Hq. rewrite Hp by done. by apply S.
  - intros q o Hq Hqo Hoo. rewrite Hm by (done || apply Hq). by apply S.
  - rewrite Ht', Hm by (lia || apply not_eq_sym, Hd). rewrite (sm_slot _ _ S). by rewrite Ht.
  - intros _ u. rewrite Em, He. rewrite rd32_insert. destruct (decide (u = v)) as [->|Hne].
    + by rewrite !bool_decide_eq_true_2.
    + rewrite !bool_decide_eq_false_2; [by apply S|done|]. rewrite !va_PTX. destruct u, v; done || lia.
Qed.

Lemma enc_range T s e : sim T s -> entry_ok T e = true -> 0 <= enc e < 4294967296.
Proof.
  intros S He. destruct e as [[x perm]|]; [|done]. apply entry_ok_inv in He as (_ & _ & _ & Hp).
  pose proof (sim_addr _ _ S x). pose proof (wf_npages _ _ (sm_wf _ _ S)). apply lor3_range; [|done].
  rewrite page2pa_spec by lia. lia.
Qed.

Section Ops.
Context (g : Z) (Hg : g <> 0).

(** [page_remove] of a mapped address. *)
Lemma sim_remove T s v y perm :
  sim T s -> get_e T v = Some (y, perm) ->
  wp (page_remove g (dirp d) (va_of v)) s (fun _ s' => sim (sb_unmap T v) s').
Proof.
  intros S He. pose proof (sb_ok_entry T v (sm_ok _ _ S)) as Ho. rewrite He in Ho.
  apply entry_ok_inv in Ho as (Ht & Hy & Hf & Hp).
  assert (ref (set_e T v None) y = ref T y - 1) as Er.
  { rewrite ref_set_e, He. cbn [names]. rewrite bool_decide_eq_true_2 by done. simpl. lia. }
  pose proof (ref_bounds T y). pose proof (ref_bounds (set_e T v None) y). assert (1 <= ref T y < 65536) as Hr by lia.
  pose proof (sim_frame _ _ S y Hf ltac:(by left)) as F.
  eapply wp_eq.
  { eapply (page_remove_eq s (addr <$> sb_free T)); [apply S|by apply sim_dir|apply va_slot| |by rewrite (sim_lookup _ _ S), He| |exact F|done|done].
    - by rewrite va_PDX, (sim_tab0 _ _ S), Ht.
    - by apply (sb_entry_addr _ _ S). }
  pose proof (after_decref_wf s _ _ _ (sm_wf _ _ S) (fr_page _ _ _ _ _ F) (fr_used _ _ _ _ _ F) Hr) as W1.
  assert (sb_tab (sb_unmap T v) = true /\ (forall u, get_e (sb_unmap T v) u = if bool_decide (u = v) then None else get_e T u)
    /\ sb_free (sb_unmap T v) = (if ref T y =? 1 then y :: sb_free T else sb_free T)
    /\ forall x, ref (sb_unmap T v) x = ref (set_e T v None) x) as (U1 & U2 & U3 & U4).
  { unfold sb_unmap. rewrite He. cbv zeta. rewrite Er. replace (ref T y - 1 =? 0) with (ref T y =? 1) by lia.
    destruct (ref T y =? 1); cbn [sb_tab sb_free set_free]; rewrite ?tab_set_e, ?free_set_e; (split; [done|split; [|done]]);
      intros u; rewrite <- (get_set_e T v None u); by destruct u. }
  eapply (sim_change T s _ _ v None S Ht); try done.
  - apply sb_unmap_ok, S.
  - rewrite U3. apply upd_cfg_wf; [|done]. apply set_pte_wf; [|lia]. by destruct (ref T y =? 1).
  - unfold same_cfg. cbn [cfg upd_cfg set_pte set_ram]. by rewrite after_decref_cfg.
  - intros q Hq. cbn. apply after_decref_pages, Hq.
  - intros x. rewrite U3, U4. cbn [pages upd_cfg set_pte set_ram]. rewrite ref_set_e, He. cbn [names]. destruct (decide (x = y)) as [->|Hxy].
    + rewrite bool_decide_eq_true_2 by done. destruct (Z.eqb_spec (ref T y) 1) as [|Hne]; [by intros []%not_elem_of_cons|]. intros _.
      rewrite after_decref_ref by done. do 3 f_equal. simpl. lia.
    + intros Hx. rewrite bool_decide_eq_false_2 by done. rewrite after_decref_pages by by intros E%Hinj.
      replace (ref T x - Z.b2z false + Z.b2z false) with (ref T x) by (simpl; lia). apply S.
      destruct (ref T y =? 1); [by apply not_elem_of_cons in Hx as [_ ?]|done].
  - cbn. by rewrite after_decref_ram.
Qed.

(** The end of [page_insert] for an entry that is not present. *)
Lemma sim_insert_tail T s v x perm :
  sim T s -> sb_tab T = true -> get_e T v = None -> entry_ok T (Some (x, perm)) = true ->
  wp (pi ← page_get (addr x);
      set_pp_ref (addr x) (u16 (pp_ref pi + 1)) ;;
      tlb_invalidate (dirp d) (va_of v) ;;
      store32 (addr PA * 4096 + 4 * PTX (va_of v) + KERNBASE) (insert_entry (addr x) perm) ;;
      mret 0) s (fun r s' => r = 0 /\ sim (set_e T v (Some (x, perm))) s').
Proof.
  intros S Ht He Ho. pose proof (enc_range _ _ _ S Ho) as Hv. apply entry_ok_inv in Ho as Hx. destruct Hx as (_ & Hx & Hf & _).
  pose proof (sim_frame _ _ S x Hf ltac:(by left)) as F. pose proof (sim_addr _ _ S PA) as HA. pose proof (ref_bounds T x).
  wp_step. eapply wp_page_get; [apply F|]. cbn [pp_ref]. rewrite u16_small by lia.
  wp_step. eapply wp_set_pp_ref; [apply F|]. cbn [pp_link]. wp_step. unfold tlb_invalidate. wp_step.
  set (s2 := upd_cfg _ _).
  assert (mm_wf s2 (addr <$> sb_free T)) as W2.
  { apply upd_cfg_wf; [|done]. eapply set_pages_wf; [apply S|apply F|apply F]. }
  wp_step. apply wp_store32; [by apply pte_word_ok|]. wp_step. split; [done|].
  eapply (sim_change T s _ _ v (Some (x, perm)) S Ht).
  - apply sb_ok_set_e; [apply S|done].
  - by rewrite tab_set_e.
  - apply get_set_e.
  - rewrite free_set_e. by apply set_ram_insert_wf.
  - done.
  - intros q Hq. cbn. by rewrite lookup_insert_ne.
  - intros z. rewrite free_set_e, ref_set_e, He. cbn [names pages set_ram]. intros Hz. cbn. destruct (decide (x = z)) as [->|Hne].
    + rewrite lookup_insert_eq, bool_decide_eq_true_2 by done. do 3 f_equal. simpl. lia.
    + rewrite lookup_insert_ne by by intros E%Hinj. rewrite (sm_recs _ _ S) by done. rewrite bool_decide_eq_false_2 by done.
      do 3 f_equal. simpl. lia.
  - done.
Qed.

Lemma sim_insert T s v x perm :
  sim T s -> entry_ok T (Some (x, perm)) = true ->
  wp (page_insert g (dirp d) (addr x) (va_of v) perm) s (fun r s' => r = 0 /\ sim (sb_map T v x perm) s').
Proof.
  intros S Ho. pose proof (enc_range _ _ _ S Ho) as Hv. apply entry_ok_inv in Ho as Hx. destruct Hx as (Ht & Hx & Hf & Hp).
  pose proof (sim_frame _ _ S x Hf ltac:(by left)) as F. pose proof (ref_bounds T x). pose proof (sim_addr _ _ S PA) as HA.
  eapply (wp_insert_prefix s (addr <$> sb_free T) d _ (addr PA) _ (ref T x));
    [apply S|by apply sim_dir|apply va_slot|by rewrite va_PDX, (sim_tab0 _ _ S), Ht|exact F|].
  cbv zeta. rewrite (sm_ent _ _ S Ht), (enc_present T). unfold sb_map.
  destruct (get_e T v) as [[y py]|] eqn:He.
  - pose proof (sb_ok_entry T v (sm_ok _ _ S)) as Hoy. rewrite He in Hoy. apply entry_ok_inv in Hoy as Hy. destruct Hy as (_ & Hy & Hfy & Hpy).
    rewrite bool_decide_eq_true_2 by eauto. cbn [andb enc names when]. rewrite (sb_entry_addr _ _ S) by done.
    case_bool_decide as E.
    + subst y. rewrite Z.eqb_refl. wp_step. apply wp_store32; [by apply pte_word_ok|]. wp_step. split; [done|].
      eapply (sim_change T s _ _ v (Some (x, perm)) S Ht); try done.
      * apply sb_ok_set_e; [apply S|done].
      * by rewrite tab_set_e.
      * apply get_set_e.
      * rewrite free_set_e. apply set_ram_insert_wf; [apply S|done].
      * intros z. rewrite free_set_e, ref_set_e, He. intros Hz. cbn [pages set_ram]. rewrite (sm_recs _ _ S) by done.
        do 2 f_equal. cbn [names]. lia.
    + destruct (Z.eqb_spec (addr y * 4096) (addr x * 4096)) as [E'|]; [destruct E; apply Hinj; lia|]. wp_step.
      eapply wp_mono; [by eapply sim_remove|]. intros u s1 S1. cbv beta in S1.
      assert (sb_tab (sb_unmap T v) = true /\ get_e (sb_unmap T v) v = None /\ entry_ok (sb_unmap T v) (Some (x, perm)) = true) as (U1 & U2 & U3).
      { unfold sb_unmap. rewrite He. cbv zeta. cbn [entry_ok] in *. destruct (_ =? 0); cbn [sb_tab set_free sb_free]; rewrite ?tab_set_e, ?free_set_e;
          (split; [done|]); (split; [by destruct v|]); rewrite ?Ht in *; [|done].
        rewrite (bool_decide_eq_true_2 (x ∉ y :: _)) by (apply not_elem_of_cons; split; [congruence|done]).
        rewrite (bool_decide_eq_true_2 (x ∉ _)) in Ho by done. done. }
      by apply sim_insert_tail.
  - rewrite bool_decide_eq_false_2 by by intros [??]. cbn [andb when names]. wp_step. wp_step.
    assert (sb_unmap T v = T) as -> by (unfold sb_unmap; by rewrite He). by apply sim_insert_tail.
Qed.
End Ops.

(** ** Allocation inside the tests *)

Lemma ref_free T x : sb_ok T = true -> x ∈ sb_free T -> ref T x = 0.
Proof.
  unfold sb_ok, ref. intros [[H1 H2]%andb_prop H3]%andb_prop Hx.
  assert (forall e, entry_ok T e = true -> names e x = false) as He.
  { intros [[y perm]|]; [|done]. intros (_ & _ & Hf & _)%entry_ok_inv. apply bool_decide_eq_false. by intros ->. }
  rewrite !He by done. destruct (sb_tab T); [|done]. cbn in *. apply negb_true_iff, bool_decide_eq_false in H3.
  rewrite bool_decide_eq_false_2; [done|]. by intros ->.
Qed.

Lemma sb_ok_sub T l : sb_ok T = true -> l ⊆ sb_free T -> sb_ok (set_free T l) = true.
Proof.
  unfold sb_ok. intros [[H1 H2]%andb_prop H3]%andb_prop Hl.
  assert (forall e, entry_ok T e = true -> entry_ok (set_free T l) e = true) as He.
  { intros [[y perm]|]; [|done]. intros (Ht & Hy & Hf & Hp)%entry_ok_inv. cbn. rewrite Ht.
    rewrite !bool_decide_eq_true_2; [cbn; lia|by intros ?%Hl|done]. }
  cbn [set_free sb_e0 sb_e1 sb_tab sb_free] in *. rewrite !He by done. cbn. destruct (sb_tab T); [|done]. cbn in *.
  apply negb_true_iff, bool_decide_eq_false in H3. by rewrite bool_decide_eq_false_2 by by intros ?%Hl.
Qed.

(** A change inside one page that is not the table, and in the records of the three pages. *)
Lemma sim_data T s T' s' x :
  sim T s -> sb_ok T' = true -> sb_tab T' = sb_tab T -> (forall u, get_e T' u = get_e T u) ->
  (sb_tab T = true -> x <> PA) ->
  mm_wf s' (addr <$> sb_free T') -> same_cfg s s' ->
  (forall q, (forall x, q <> addr x) -> pages s' !! q = pages s !! q) ->
  (forall x, x ∉ sb_free T' -> pages s' !! addr x = Some (mkPage None (ref T' x))) ->
  (forall q o, q <> addr x -> 0 <= o < 4096 -> rd32 (ram s') (q * 4096 + o) = rd32 (ram s) (q * 4096 + o)) ->
  sim T' s'.
Proof.
  intros S Ho Et Ee Hx W Hc Hp Hr Hm. split; try done.
  - unfold same_cfg in *. rewrite Hc. apply S.
  - intros q Hq. rewrite Hp by done. by apply S.
  - intros q o Hq Hqo Hoo. rewrite Hm by (done || apply Hq). by apply S.
  - rewrite Hm by (lia || apply not_eq_sym, Hd). by rewrite Et, (sm_slot _ _ S).
  - rewrite Et. intros Ht v. rewrite Ee. pose proof (PTX_range (va_of v)).
    rewrite Hm by (lia || (intros E%Hinj; by apply (Hx Ht))). by apply (sm_ent _ _ S).
Qed.

Lemma sim_alloc_none T s flags :
  sim T s -> sb_free T = [] -> wp (page_alloc flags) s (fun r s' => r = None /\ sim T s').
Proof.
  intros S Hf. pose proof (sm_wf _ _ S) as W. rewrite Hf in W. eapply wp_eq; [by apply page_alloc_nil|]. split; [done|].
  eapply (sim_data T s T _ PB S); try done; [apply S|rewrite Hf; by destruct W|]. intros x Hx. by apply S.
Qed.

Lemma sim_alloc T s flags x f :
  sim T s -> sb_free T = x :: f ->
  wp (page_alloc flags) s (fun r s' => r = Some (addr x) /\ sim (set_free T f) s'
    /\ (truth (Z.land flags ALLOC_ZERO) = true -> forall o, 0 <= o < 4096 -> o mod 4 = 0 -> rd32 (ram s') (addr x * 4096 + o) = 0)).
Proof.
  intros S Hf. pose proof (sm_wf _ _ S) as W. rewrite Hf in W. cbn in W.
  destruct (page_alloc_cons s flags _ _ W) as (pi & Hpi & Hr & E). eapply wp_eq; [exact E|]. split; [done|].
  pose proof (ref_free T x (sm_ok _ _ S) ltac:(rewrite Hf; by left)) as Hr0. split.
  - eapply (sim_data T s _ _ x S); try done.
    + apply sb_ok_sub; [apply S|]. rewrite Hf. by right.
    + intros Ht ->. unfold ref in Hr0. rewrite Ht, bool_decide_eq_true_2 in Hr0 by done.
      destruct (names (sb_e0 T) PA), (names (sb_e1 T) PA); simpl in Hr0; lia.
    + by eapply after_alloc_wf.
    + intros q Hq. cbn. by rewrite lookup_insert_ne.
    + intros y Hy. cbn in Hy |- *. destruct (decide (x = y)) as [<-|Hne].
      * rewrite lookup_insert_eq, Hr. change (ref (set_free T f) x) with (ref T x). by rewrite Hr0.
      * rewrite lookup_insert_ne by by intros ?%Hinj. apply (sm_recs _ _ S). rewrite Hf. apply not_elem_of_cons. by split.
    + intros q o Hq Ho. cbn. destruct (truth _); [|done]. by apply rd32_zero_page_out.
  - intros Hz o Ho Hm. cbn. rewrite Hz. apply rd32_zero_page_in; [lia|]. Z.to_euclidean_division_equations. lia.
Qed.

Lemma sim_free T s x :
  sim T s -> x ∉ sb_free T -> ref T x = 0 -> wp (page_free (addr x)) s (fun _ s' => sim (set_free T (x :: sb_free T)) s').
Proof.
  intros S Hx Hr. pose proof (sm_recs _ _ S x Hx) as Hp. rewrite Hr in Hp.
  eapply wp_eq; [by eapply page_free_eq; [apply S|..]|].
  eapply (sim_data T s _ _ PB S); try done.
  - apply sb_ok_push; [apply S|done].
  - cbn. apply after_free_wf; [apply S|done|done|by rewrite addr_in].
  - intros q Hq. cbn. by rewrite lookup_insert_ne.
  - intros y [Hy1 Hy2]%not_elem_of_cons. cbn. rewrite lookup_insert_ne by by intros E%Hinj. by apply S.
Qed.

(** [memset(page2kva(pp), c, PGSIZE)] of a page that is not the table. *)
Lemma sim_memset T s x c :
  sim T s -> (sb_tab T = true -> x <> PA) -> 0 <= c < 256 ->
  wp (memset (addr x * 4096 + KERNBASE) c PGSIZE) s (fun _ s' => sim T s'
    /\ forall o, 0 <= o < 4096 -> o mod 4 = 0 -> rd32 (ram s') (addr x * 4096 + o) = c * 16843009).
Proof.
  intros S Hx Hc. apply (wp_memset_page s (addr <$> sb_free T)); [apply S|by apply (sim_addr T)|done|].
  intros m Hm Hv W. split; [|done]. eapply (sim_data T s T _ x S); try done; [apply S|]. intros y Hy. by apply S.
Qed.

Lemma tab_false_entries T : sb_ok T = true -> sb_tab T = false -> forall v, get_e T v = None.
Proof.
  intros Ho Ht v. pose proof (sb_ok_entry T v Ho) as He. destruct (get_e T v) as [[x perm]|]; [|done].
  apply entry_ok_inv in He as (H & _). congruence.
Qed.

Lemma tab_false_ref T x : sb_ok T = true -> sb_tab T = false -> ref T x = 0.
Proof.
  intros Ho Ht. pose proof (tab_false_entries T Ho Ht false) as H0. pose proof (tab_false_entries T Ho Ht true) as H1.
  unfold ref. simpl in H0, H1. by rewrite H0, H1, Ht.
Qed.

(** The first walk makes [PA] the table. *)
Definition sb_table (T : sandbox) (f : list pg) : sandbox := set_tab (set_free T f) true.

Lemma sim_walk T s v f :
  sim T s -> sb_tab T = false -> sb_free T = PA :: f ->
  wp (pgdir_walk (dirp d) (va_of v) 1) s (fun r s' =>
    r = Some (addr PA * 4096 + 4 * PTX (va_of v) + KERNBASE) /\ sim (sb_table T f) s'
    /\ forall o, 0 <= o < 4096 -> o mod 4 = 0 -> rd32 (ram s') (addr PA * 4096 + o) = 0).
Proof.
  intros S Ht Hf. pose proof (sm_wf _ _ S) as W. pose proof (sim_dir _ _ S) as D. rewrite Hf in W, D. cbn in W, D.
  assert (tab (ram s) d (PDX (va_of v)) = None) as Hn by (by rewrite va_PDX, (sim_tab0 _ _ S), Ht).
  destruct (pgdir_walk_create s _ _ d (va_of v) W D Hn) as (pi & Hpi & E). eapply wp_eq; [exact E|]. split; [done|].
  pose proof (tab_false_entries T (sm_ok _ _ S) Ht) as He.
  assert (NoDup (PA :: f)) as [HA _]%NoDup_cons. { eapply NoDup_fmap_1. rewrite <- Hf. apply S. }
  pose proof (after_walk_empty s (addr PA) pi _ d (va_of v) W D Hpi) as Hz.
  pose proof (after_walk_ram s (addr PA) pi d (va_of v)) as Hq. split; [|exact Hz]. split.
  - unfold sb_ok, sb_table. pose proof (He false) as E0. pose proof (He true) as E1. simpl in *. rewrite E0, E1. cbn [entry_ok andb].
    by rewrite bool_decide_eq_false_2.
  - by eapply after_walk_wf.
  - apply S.
  - intros q Hqa. cbn. rewrite !lookup_insert_ne by apply not_eq_sym, Hqa. by apply S.
  - intros x Hx. cbn in Hx |- *. destruct (decide (x = PA)) as [->|Hne].
    + rewrite lookup_insert_eq. pose proof (tab_false_ref T PA (sm_ok _ _ S) Ht) as Hr. unfold ref in Hr |- *. cbn. rewrite Ht in Hr.
      rewrite bool_decide_eq_true_2 by done. simpl in Hr |- *. do 2 f_equal. lia.
    + rewrite !lookup_insert_ne by by intros ?%Hinj. rewrite (sm_recs _ _ S) by (rewrite Hf; by apply not_elem_of_cons).
      unfold ref. cbn. rewrite Ht, bool_decide_eq_false_2 by done. done.
  - intros q o Hqa Hqo Ho. destruct (decide (q = d)) as [->|Hqd]; [|rewrite Hq by (done || apply Hqa); by apply S].
    unfold after_walk. cbn [ram set_ram set_pages pages after_alloc]. change (truth (Z.land ALLOC_ZERO ALLOC_ZERO)) with true.
    rewrite va_PDX, rd32_insert_ne by lia. rewrite rd32_zero_page_out by (done || apply Hqa). by apply S.
  - cbn. rewrite va_PDX. by rewrite rd32_insert_eq.
  - intros _ u. rewrite Hz; [|pose proof (PTX_range (va_of u)); lia|apply word_off_mod].
    change (get_e (sb_table T f) u) with (get_e T u). by rewrite He.
Qed.

Lemma sim_relock T s : sim T s -> sim T (set_lock (lock_cycled s) s).
Proof.
  intros S. eapply (sim_data T s T _ PB S); try done; [apply S|by destruct (sm_wf _ _ S)|]. intros x Hx. by apply S.
Qed.

(** The first insertion makes the table. *)
Lemma sim_insert_new g T s v x perm f :
  g <> 0 -> sim T s -> sb_tab T = false -> sb_free T = PA :: f -> entry_ok (sb_table T f) (Some (x, perm)) = true ->
  wp (page_insert g (dirp d) (addr x) (va_of v) perm) s (fun r s' => r = 0 /\ sim (sb_map (sb_table T f) v x perm) s').
Proof.
  intros Hg S Ht Hf Ho. destruct (wp_inv _ _ _ (sim_walk T s v f S Ht Hf)) as (a & s1 & E & -> & S1 & _).
  unfold wp. rewrite (page_insert_after_walk g s s1 _ d (va_of v) (addr PA) _ _ (sm_wf _ _ S1) (sim_dir _ _ S1) (va_slot v)
    ltac:(by rewrite va_PDX, (sim_tab0 _ _ S1)) E).
  by apply sim_insert.
Qed.

(** Without a table and without a page to make one of. *)
Lemma sim_insert_fails g T s va pp perm :
  sim T s -> sb_free T = [] -> tab (ram s) d (PDX va) = None ->
  wp (page_insert g (dirp d) pp va perm) s (fun r s' => r = - E_NO_MEM /\ sim T s').
Proof.
  intros S Hf Ht. pose proof (sim_dir _ _ S) as D. pose proof (sm_wf _ _ S) as W. rewrite Hf in W.
  unfold page_insert, pgdir_walk. wp_step. wp_step. rewrite dirp_slot. apply wp_load32; [by eapply pde_word_ok|].
  unfold tab in Ht. destruct (present _) eqn:Hp; [done|]. unfold present in Hp. rewrite Hp. cbn [negb truth Z.eqb].
  wp_step. eapply wp_eq; [by apply page_alloc_nil|]. cbv beta iota. wp_step. wp_step. split; [done|]. by apply sim_relock.
Qed.

(** The test takes the table out of the directory by hand. *)
Lemma sim_drop_table T s :
  sim T s -> sb_tab T = true -> sb_e0 T = None -> sb_e1 T = None ->
  sim (set_tab T false) (set_pages (<[addr PA := mkPage None 0]> (pages s)) (set_ram (<[d * 4096 + 4 * k := 0]> (ram s)) s)).
Proof.
  intros S Ht E0 E1.
  assert (PA ∉ sb_free T) as HA.
  { pose proof (sm_ok _ _ S) as H. unfold sb_ok in H. rewrite Ht in H. apply andb_prop in H as [_ H].
    by apply negb_true_iff, bool_decide_eq_false in H. }
  assert (sb_ok (set_tab T false) = true) as Ho by (unfold sb_ok; cbn; by rewrite E0, E1). split.
  - done.
  - cbn [sb_free set_tab]. eapply (set_pages_wf (set_ram _ s)); [|by rewrite addr_in|cbn; by apply S].
    apply set_ram_insert_wf; [apply S|lia].
  - apply S.
  - intros q Hq. cbn. rewrite lookup_insert_ne by done. by apply S.
  - intros x Hx. cbn. cbn in Hx. rewrite (tab_false_ref (set_tab T false) x Ho eq_refl). destruct (decide (PA = x)) as [<-|Hne].
    + by rewrite lookup_insert_eq.
    + rewrite lookup_insert_ne by by intros ?%Hinj. rewrite (sm_recs _ _ S) by done. unfold ref. rewrite E0, E1, Ht. cbn [names].
      by rewrite bool_decide_eq_false_2 by congruence.
  - intros q o Hq Hqo Ho'. cbn. rewrite rd32_insert_ne; [by apply S|]. intros ?%page_off_inj; lia.
  - cbn. by rewrite rd32_insert_eq.
  - done.
Qed.

(** ** The statements of the tests *)

(** The simulation with [n] free pages put aside. *)
Definition aside (n : Z) (T : sandbox) (s : mm_state) : Prop := exists s1, s = bump n s1 /\ sim T s1.

Lemma aside_run {A} (m : M mm_state A) n T T' s (P : A -> Prop) (Q : A -> mm_state -> Prop) :
  aside n T s -> counts m -> (forall s1, sim T s1 -> wp m s1 (fun a s2 => P a /\ sim T' s2)) ->
  (forall a s', P a -> aside n T' s' -> Q a s') -> wp m s Q.
Proof.
  intros (s1 & -> & S) Hc Hm HQ. apply wp_bump; [done|]. eapply wp_mono; [by apply Hm|]. intros a s2 [Ha S2].
  apply HQ; [done|]. by exists s2.
Qed.

Section Statements.
Context (n g : Z) (Hg : g <> 0).

Section Unchanged.
Context (T : sandbox) (s : mm_state) (A : aside n T s).

Lemma st_no_free (Q : unit -> mm_state -> Prop) :
  sb_free T = [] -> (forall s', aside n T s' -> Q tt s') -> wp no_free_page s Q.
Proof.
  intros Hf HQ. unfold no_free_page. wp_step.
  eapply (aside_run _ n T T s (fun r => r = None)); [done|counts_tac|intros; by apply sim_alloc_none|].
  intros r s' -> A'. rewrite bool_decide_eq_true_2 by done. wp_step. by apply HQ.
Qed.

Lemma st_lookup_none va (Q : option Z * Z -> mm_state -> Prop) v :
  va = va_of v -> get_e T v = None -> (forall s', aside n T s' -> Q (None, g) s') -> wp (page_lookup (dirp d) va g) s Q.
Proof.
  intros -> He HQ. eapply (aside_run _ n T T s (fun r => r = (None, g))); [done|counts_tac| |by intros r s' -> A'; apply HQ].
  intros s1 S. eapply wp_eq; [eapply page_lookup_none; [apply S|by apply sim_dir|apply va_slot|by rewrite (sim_lookup _ _ S), He]|done].
Qed.

Definition pa_of (e : option (pg * Z)) : Z := match e with Some (x, _) => addr x * 4096 | None => lnot32 0 end.

Lemma st_va2pa va v (Q : Z -> mm_state -> Prop) :
  va = va_of v -> (forall s', aside n T s' -> Q (pa_of (get_e T v)) s') -> wp (check_va2pa (dirp d) va) s Q.
Proof.
  intros -> HQ. eapply (aside_run _ n T T s (fun r => r = pa_of (get_e T v))); [done|counts_tac| |by intros r s' -> A'; apply HQ].
  intros s1 S. eapply wp_check_va2pa; [apply S|by apply sim_dir|apply va_slot|]. split; [|done]. rewrite (sim_lookup _ _ S).
  pose proof (sb_ok_entry T v (sm_ok _ _ S)) as Ho. destruct (get_e T v) as [[x perm]|]; [|done].
  apply entry_ok_inv in Ho as (_ & _ & _ & Hp). cbn. by apply (sb_entry_addr _ _ S).
Qed.

Lemma aside_page2pa x : page2pa (addr x) = addr x * 4096.
Proof.
  destruct A as (s1 & _ & S). pose proof (sim_addr _ _ S x). pose proof (wf_npages _ _ (sm_wf _ _ S)). apply page2pa_spec. lia.
Qed.

Lemma st_maps va v x perm (Q : unit -> mm_state -> Prop) :
  va = va_of v -> get_e T v = Some (x, perm) -> (forall s', aside n T s' -> Q tt s') ->
  wp (maps_to (dirp d) va (page2pa (addr x))) s Q.
Proof.
  intros E He HQ. unfold maps_to. wp_step. eapply st_va2pa; [done|]. intros s' A'. rewrite He, aside_page2pa. cbn [pa_of].
  rewrite Z.eqb_refl. wp_step. by apply HQ.
Qed.

Lemma st_unmapped va v (Q : unit -> mm_state -> Prop) :
  va = va_of v -> get_e T v = None -> (forall s', aside n T s' -> Q tt s') -> wp (maps_to (dirp d) va (lnot32 0)) s Q.
Proof.
  intros E He HQ. unfold maps_to. wp_step. eapply st_va2pa; [done|]. intros s' A'. rewrite He. cbn [pa_of].
  rewrite Z.eqb_refl. wp_step. by apply HQ.
Qed.

Lemma st_page_get x (Q : PageInfo -> mm_state -> Prop) :
  x ∉ sb_free T -> (forall s', aside n T s' -> Q (mkPage None (ref T x)) s') -> wp (page_get (addr x)) s Q.
Proof.
  intros Hx HQ. eapply (aside_run _ n T T s (fun r => r = mkPage None (ref T x))); [done|counts_tac| |by intros r s' -> A'; apply HQ].
  intros s1 S. eapply wp_page_get; [by apply S|done].
Qed.

(** A page on the free list has no reference either. *)
Lemma st_ref x r (Q : unit -> mm_state -> Prop) :
  ref T x = r -> (forall s', aside n T s' -> Q tt s') -> wp (ref_is (addr x) r) s Q.
Proof.
  intros <- HQ. unfold ref_is. wp_step.
  eapply (aside_run _ n T T s (fun pi => pp_ref pi = ref T x)); [done|counts_tac| |].
  - intros s1 S. destruct (decide (x ∈ sb_free T)) as [Hx|Hx]; [|eapply wp_page_get; [by apply S|done] ].
    rewrite (ref_free T x (sm_ok _ _ S) Hx). apply addr_in in Hx.
    destruct (flist_dom _ _ _ _ (wf_list _ _ (sm_wf _ _ S)) Hx) as [pi Hpi]. eapply wp_page_get; [done|]. split; [|done].
    eapply flist_ref; [apply S|done|done].
  - intros pi s' -> A'. rewrite Z.eqb_refl. wp_step. by apply HQ.
Qed.

(** The slot of the directory. *)
Lemma st_load_slot a (Q : Z -> mm_state -> Prop) :
  a = dirp d + 4 * k -> (forall s', aside n T s' -> Q (if sb_tab T then addr PA * 4096 + 7 else 0) s') -> wp (load32 a) s Q.
Proof.
  intros -> HQ. eapply (aside_run _ n T T s (fun e => e = if sb_tab T then addr PA * 4096 + 7 else 0)); [done|counts_tac| |by intros r s' -> A'; apply HQ].
  intros s1 S. rewrite dirp_slot. apply wp_load32; [|by rewrite (sm_slot _ _ S)].
  rewrite <- (va_PDX false). eapply pde_word_ok. by apply sim_dir.
Qed.

Lemma table_addr : PTE_ADDR (addr PA * 4096 + 7) = addr PA * 4096.
Proof.
  destruct A as (s1 & _ & S). pose proof (sim_addr _ _ S PA). pose proof (wf_npages _ _ (sm_wf _ _ S)).
  rewrite PTE_ADDR_spec by lia. Z.to_euclidean_division_equations. lia.
Qed.

Lemma st_KADDR x (Q : Z -> mm_state -> Prop) :
  (forall s', aside n T s' -> Q (addr x * 4096 + KERNBASE) s') -> wp (KADDR (addr x * 4096)) s Q.
Proof.
  intros HQ. eapply (aside_run _ n T T s (fun r => r = addr x * 4096 + KERNBASE)); [done|counts_tac| |by intros r s' -> A'; apply HQ].
  intros s1 S. eapply wp_KADDR_page; [apply S|by apply (sim_addr T)|done].
Qed.

Lemma st_walk va v c (Q : option Z -> mm_state -> Prop) :
  va = va_of v -> sb_tab T = true ->
  (forall s', aside n T s' -> Q (Some (addr PA * 4096 + 4 * PTX (va_of v) + KERNBASE)) s') -> wp (pgdir_walk (dirp d) va c) s Q.
Proof.
  intros -> Ht HQ. eapply (aside_run _ n T T s (fun r => r = Some (addr PA * 4096 + 4 * PTX (va_of v) + KERNBASE)));
    [done|counts_tac| |by intros r s' -> A'; apply HQ].
  intros s1 S. eapply wp_eq; [eapply pgdir_walk_hit; [apply S|by apply sim_dir|apply va_slot|]|done].
  by rewrite va_PDX, (sim_tab0 _ _ S), Ht.
Qed.

Lemma st_walk_load va v (Q : Z -> mm_state -> Prop) :
  va = va_of v -> sb_tab T = true -> (forall s', aside n T s' -> Q (enc (get_e T v)) s') -> wp (walk_load (dirp d) va) s Q.
Proof.
  intros -> Ht HQ. eapply (aside_run _ n T T s (fun r => r = enc (get_e T v))); [done|unfold walk_load; counts_tac| |by intros r s' -> A'; apply HQ].
  intros s1 S. unfold walk_load. wp_step. eapply wp_eq.
  { eapply pgdir_walk_hit; [apply S|by apply sim_dir|apply va_slot|by rewrite va_PDX, (sim_tab0 _ _ S), Ht]. }
  wp_step. eapply wp_need; [done|]. apply wp_load32; [apply pte_word_ok; by apply (sim_addr T)|]. by rewrite (sm_ent _ _ S Ht).
Qed.
End Unchanged.


Lemma st_inserts T T' s va v x perm (Q : unit -> mm_state -> Prop) :
  aside n T s -> va = va_of v -> entry_ok T (Some (x, perm)) = true -> sb_map T v x perm = T' ->
  (forall s', aside n T' s' -> Q tt s') -> wp (inserts g (dirp d) (addr x) va perm) s Q.
Proof.
  intros A -> Ho <- HQ. unfold inserts. wp_step.
  eapply (aside_run _ n T _ s (fun r => r = 0)); [done|counts_tac|intros s1 S; by apply sim_insert|].
  intros r s' -> A'. apply wp_assert; [done|]. by apply HQ.
Qed.

Lemma st_inserts_new T T' s va v x perm f (Q : unit -> mm_state -> Prop) :
  aside n T s -> va = va_of v -> sb_tab T = false -> sb_free T = PA :: f -> entry_ok (sb_table T f) (Some (x, perm)) = true ->
  sb_map (sb_table T f) v x perm = T' -> (forall s', aside n T' s' -> Q tt s') -> wp (inserts g (dirp d) (addr x) va perm) s Q.
Proof.
  intros A -> Ht Hf Ho <- HQ. unfold inserts. wp_step.
  eapply (aside_run _ n T _ s (fun r => r = 0)); [done|counts_tac|intros s1 S; by apply sim_insert_new|].
  intros r s' -> A'. apply wp_assert; [done|]. by apply HQ.
Qed.

Lemma st_insert_fails T s va pp perm (Q : unit -> mm_state -> Prop) :
  aside n T s -> sb_free T = [] -> (if PDX va =? k then sb_tab T = false else tab (ram s0) d (PDX va) = None) ->
  (forall s', aside n T s' -> Q tt s') -> wp (insert_fails g (dirp d) pp va perm) s Q.
Proof.
  intros A Hf Ht HQ. unfold insert_fails. wp_step.
  eapply (aside_run _ n T T s (fun r => r = - E_NO_MEM)); [exact A|apply counts_page_insert| |].
  - intros s1 S. apply sim_insert_fails; [exact S|exact Hf|]. destruct (Z.eqb_spec (PDX va) k) as [->|Hne].
    + rewrite (sim_tab0 _ _ S), Ht. reflexivity.
    + rewrite (sim_tab _ _ S); [exact Ht|apply PDX_range|exact Hne].
  - intros r s' -> A'. apply wp_assert; [reflexivity|]. apply HQ, A'.
Qed.

Lemma st_free T s x (Q : unit -> mm_state -> Prop) :
  aside n T s -> x ∉ sb_free T -> ref T x = 0 -> (forall s', aside n (set_free T (x :: sb_free T)) s' -> Q tt s') ->
  wp (page_free (addr x)) s Q.
Proof.
  intros A Hx Hr HQ. eapply (aside_run _ n T _ s (fun _ => True)); [done|counts_tac| |by intros [] s' _ A'; apply HQ].
  intros s1 S. eapply wp_mono; [by apply sim_free|]. by intros [] s2 S2.
Qed.

Lemma st_alloc T s x f (Q : Z -> mm_state -> Prop) :
  aside n T s -> sb_free T = x :: f -> (forall s', aside n (set_free T f) s' -> Q (addr x) s') -> wp (must_alloc 0) s Q.
Proof.
  intros A Hf HQ. unfold must_alloc. wp_step.
  eapply (aside_run _ n T _ s (fun r => r = Some (addr x))); [done|counts_tac| |].
  - intros s1 S. eapply wp_mono; [by apply (sim_alloc T s1 0 x f)|]. by intros r s2 (-> & S2 & _).
  - intros r s' -> A'. wp_step. by apply HQ.
Qed.

Lemma st_alloc_zero T s x f (Q : Z -> mm_state -> Prop) :
  aside n T s -> sb_free T = x :: f ->
  (forall s', aside n (set_free T f) s' -> (forall o, 0 <= o < 4096 -> o mod 4 = 0 -> rd32 (ram s') (addr x * 4096 + o) = 0) ->
     Q (addr x) s') -> wp (must_alloc ALLOC_ZERO) s Q.
Proof.
  intros (s1 & -> & S) Hf HQ. unfold must_alloc. wp_step. apply wp_bump; [counts_tac|].
  eapply wp_mono; [by apply (sim_alloc T s1 ALLOC_ZERO x f)|]. intros r s2 (-> & S2 & Hz). cbv beta iota. wp_step.
  apply HQ; [by exists s2|]. by apply Hz.
Qed.

Lemma st_remove T s va v y perm (Q : unit -> mm_state -> Prop) :
  aside n T s -> va = va_of v -> get_e T v = Some (y, perm) -> (forall s', aside n (sb_unmap T v) s' -> Q tt s') ->
  wp (page_remove g (dirp d) va) s Q.
Proof.
  intros A -> He HQ. eapply (aside_run _ n T _ s (fun _ => True)); [done|counts_tac| |by intros [] s' _ A'; apply HQ].
  intros s1 S. eapply wp_mono; [by eapply sim_remove|]. by intros [] s2 S2.
Qed.

(** Between [kern_pgdir[slot] = 0] and [pp->pp_ref = 0]. *)
Definition half_dropped (T : sandbox) (s : mm_state) : Prop :=
  exists s1, s = bump n (set_ram (<[d * 4096 + 4 * k := 0]> (ram s1)) s1) /\ sim T s1
             /\ sb_tab T = true /\ sb_e0 T = None /\ sb_e1 T = None.

Lemma st_clear_slot T s a (Q : unit -> mm_state -> Prop) :
  aside n T s -> sb_tab T = true -> sb_e0 T = None -> sb_e1 T = None -> a = dirp d + 4 * k ->
  (forall s', half_dropped T s' -> Q tt s') -> wp (store32 a 0) s Q.
Proof.
  intros (s1 & -> & S) Ht E0 E1 -> HQ. apply wp_bump; [counts_tac|]. rewrite dirp_slot. apply wp_store32.
  - rewrite <- (va_PDX false). eapply pde_word_ok. by apply sim_dir.
  - apply HQ. by exists s1.
Qed.

Lemma half_page T s : half_dropped T s -> pages s !! addr PA = Some (mkPage None 1).
Proof.
  intros (s1 & -> & S & Ht & E0 & E1). cbn. rewrite (sm_recs _ _ S).
  - unfold ref. by rewrite Ht, E0, E1.
  - pose proof (sm_ok _ _ S) as H. unfold sb_ok in H. rewrite Ht in H. apply andb_prop in H as [_ H].
    by apply negb_true_iff, bool_decide_eq_false in H.
Qed.

Lemma st_half_ref T s (Q : unit -> mm_state -> Prop) : half_dropped T s -> Q tt s -> wp (ref_is (addr PA) 1) s Q.
Proof. intros H HQ. unfold ref_is. wp_step. eapply wp_page_get; [by eapply half_page|]. cbn [pp_ref]. by apply wp_assert. Qed.

Lemma st_unref T s (Q : unit -> mm_state -> Prop) :
  half_dropped T s -> (forall s', aside n (set_tab T false) s' -> Q tt s') -> wp (set_pp_ref (addr PA) 0) s Q.
Proof.
  intros H HQ. eapply wp_set_pp_ref; [by eapply half_page|]. apply HQ. destruct H as (s1 & -> & S & Ht & E0 & E1).
  eexists. split; [|exact (sim_drop_table T s1 S Ht E0 E1)]. done.
Qed.

(** A walk that makes the table. *)
Lemma st_walk_new T s va v f (Q : option Z -> mm_state -> Prop) :
  aside n T s -> va = va_of v -> sb_tab T = false -> sb_free T = PA :: f ->
  (forall s', aside n (sb_table T f) s' -> (forall o, 0 <= o < 4096 -> o mod 4 = 0 -> rd32 (ram s') (addr PA * 4096 + o) = 0) ->
     Q (Some (addr PA * 4096 + 4 * PTX (va_of v) + KERNBASE)) s') -> wp (pgdir_walk (dirp d) va 1) s Q.
Proof.
  intros (s1 & -> & S) -> Ht Hf HQ. apply wp_bump; [counts_tac|]. eapply wp_mono; [by apply sim_walk|].
  intros r s2 (-> & S2 & Hz). apply HQ; [by exists s2|done].
Qed.

Lemma st_page2kva T s x (Q : Z -> mm_state -> Prop) :
  aside n T s -> Q (addr x * 4096 + KERNBASE) s -> wp (page2kva (addr x)) s Q.
Proof.
  intros (s1 & -> & S) HQ. apply wp_bump; [counts_tac|]. pose proof (wf_npages _ _ (sm_wf _ _ S)).
  apply wp_page2kva; [lia|by apply (sim_addr T)|done].
Qed.

Lemma st_memset T s x c (Q : unit -> mm_state -> Prop) :
  aside n T s -> (sb_tab T = true -> x <> PA) -> 0 <= c < 256 -> (forall s', aside n T s' -> Q tt s') ->
  wp (memset (addr x * 4096 + KERNBASE) c PGSIZE) s Q.
Proof.
  intros (s1 & -> & S) Hx Hc HQ. apply wp_bump; [counts_tac|]. eapply wp_mono; [by apply (sim_memset T)|].
  intros [] s2 [S2 _]. apply HQ. by exists s2.
Qed.

(** ** The tests on the kernel's directory, slot 0 *)

Section Page.
Context (K0 : k = 0) (H1 : tab (ram s0) d 1 = None).

Lemma va_first : va_of false = 0.
Proof. unfold va_of. by rewrite K0. Qed.
Lemma va_second : va_of true = PGSIZE.
Proof. unfold va_of. by rewrite K0. Qed.

Lemma dirp_first : dirp d = dirp d + 4 * k.
Proof. rewrite K0. lia. Qed.
Lemma dirp_first' : dirp d + 4 * PDX PGSIZE = dirp d + 4 * k.
Proof. by rewrite K0. Qed.

(** Flags of an entry and of the table's slot. *)
Lemma entry_flag T s x perm b :
  aside n T s -> 0 < b < 12 -> truth (Z.land (insert_entry (addr x) perm) (2 ^ b)) = Z.testbit perm b.
Proof.
  intros A Hb. rewrite land_bit_truth by lia. unfold insert_entry. rewrite (aside_page2pa _ _ A).
  rewrite !Z.lor_spec. rewrite (Z.mul_comm _ 4096). change 4096 with (2 ^ 12). rewrite Z.mul_comm, Z.mul_pow2_bits_low by lia.
  change PTE_P with (2 ^ 0). rewrite Z.pow2_bits_false by lia. by rewrite orb_false_r.
Qed.

Lemma table_user x : truth (Z.land (addr x * 4096 + 7) PTE_U) = true.
Proof.
  change PTE_U with (2 ^ 2). rewrite land_bit_truth by lia. apply Z.testbit_true; [lia|].
  change (2 ^ 2) with 4. Z.to_euclidean_division_equations. lia.
Qed.

Ltac st_side := solve [ exact (eq_sym va_first) | exact (eq_sym va_second) | exact dirp_first | exact dirp_first' | vm_compute; reflexivity
                      | apply not_elem_of_nil | apply (bool_decide_unpack _); vm_compute; reflexivity ].
Ltac st lem :=
  lazymatch goal with
  | A : aside n _ ?s |- wp _ ?s _ => first [wp_step; eapply lem | eapply lem]; [exact A|st_side..|]; clear A; intros ? A
  end.
Ltac st_fails tac :=
  lazymatch goal with
  | A : aside n _ ?s |- wp _ ?s _ => wp_step; eapply st_insert_fails; [exact A|reflexivity|rewrite K0; tac|]; clear A; intros ? A
  end.

Lemma st_check_page_insert s :
  aside n idle s ->
  wp (check_page_insert g (dirp d) (addr PA) (addr PB) (addr PC)) s
     (fun _ s' => aside n (Sandbox true (Some (PB, PTE_W)) (Some (PB, PTE_W)) [PC]) s').
Proof.
  intros A. unfold check_page_insert.
  st st_no_free. st st_lookup_none. wp_step. apply wp_assert; [done|]. st_fails ltac:(reflexivity). st st_free. st st_inserts_new.
  st st_load_slot. wp_step. apply wp_assert; [cbn [sb_tab]; by rewrite (table_addr _ _ A), (aside_page2pa _ _ A), Z.eqb_refl|].
  st st_maps. st st_ref. st st_ref. st st_inserts. st st_maps. st st_ref. st st_no_free. st st_inserts. st st_maps. st st_ref. st st_no_free.
  st st_load_slot. cbn [sb_tab]. rewrite (table_addr _ _ A). st st_KADDR. st st_walk. wp_step. apply wp_assert.
  { apply bool_decide_eq_true_2. rewrite va_second. f_equal. lia. }
  st st_inserts. st st_maps. st st_ref. st st_walk_load. wp_step. apply wp_assert; [exact (entry_flag _ _ PC 6 2 A ltac:(lia))|].
  st st_load_slot. wp_step. apply wp_assert; [apply table_user|].
  st st_inserts. st st_walk_load. wp_step. apply wp_assert; [exact (entry_flag _ _ PC 2 1 A ltac:(lia))|].
  st st_walk_load. wp_step. apply wp_assert; [apply negb_true_iff; exact (entry_flag _ _ PC 2 2 A ltac:(lia))|].
  st_fails ltac:(exact H1). st st_inserts. st st_walk_load.
  wp_step. apply wp_assert; [apply negb_true_iff; exact (entry_flag _ _ PB 2 2 A ltac:(lia))|].
  st st_maps. st st_maps. st st_ref. st st_ref. exact A.
Qed.

Lemma st_check_page_remove s :
  aside n (Sandbox true (Some (PB, PTE_W)) (Some (PB, PTE_W)) [PC]) s ->
  wp (check_page_remove g (dirp d) (addr PA) (addr PB) (addr PC)) s (fun _ s' => aside n idle s').
Proof.
  intros A. unfold check_page_remove.
  st st_alloc. wp_step. apply wp_assert; [apply Z.eqb_refl|]. st st_remove. st st_unmapped. st st_maps. st st_ref. st st_ref.
  st st_inserts. st st_page_get. wp_step. apply wp_assert; [done|]. wp_step. apply wp_assert; [done|].
  st st_remove. st st_unmapped. st st_unmapped. st st_ref. st st_ref. st st_alloc. wp_step. apply wp_assert; [apply Z.eqb_refl|].
  st st_no_free. st st_load_slot. wp_step. apply wp_assert.
  { change ((PTE_ADDR (addr PA * 4096 + 7) =? page2pa (addr PA)) = true). by rewrite (table_addr _ _ A), (aside_page2pa _ _ A), Z.eqb_refl. }
  wp_step. eapply st_clear_slot; [exact A|st_side..|]. intros s1 Hh. wp_step. eapply st_half_ref; [exact Hh|].
  eapply st_unref; [exact Hh|]. intros s2 A2. exact A2.
Qed.
End Page.
End Statements.
End Sandbox.

(** With no table the slot does not matter. *)
Lemma aside_slot s0 d addr k k' n T s :
  (forall x, addr x <> d) -> 0 <= k < 1024 -> 0 <= k' < 1024 ->
  rd32 (ram s0) (d * 4096 + 4 * k) = 0 -> rd32 (ram s0) (d * 4096 + 4 * k') = 0 -> sb_tab T = false ->
  aside s0 d addr k n T s -> aside s0 d addr k' n T s.
Proof.
  intros Hd Hk Hk' Z0 Z1 Ht (s1 & -> & S). exists s1. split; [done|].
  assert (forall q o, (forall x, q <> addr x) -> 0 <= o < 4096 -> rd32 (ram s1) (q * 4096 + o) = rd32 (ram s0) (q * 4096 + o)) as Hm.
  { intros q o Hq Ho. destruct (decide (q = d /\ o = 4 * k)) as [[-> ->]|Hne]; [|apply S; [done|lia|done] ].
    by rewrite (sm_slot _ _ _ _ _ _ S), Ht, Z0. }
  destruct S as [S1 S2 S3 S4 S5 S6 S7 S8]. split; try done.
  - intros q o Hq _ Ho. by apply Hm.
  - rewrite Ht. rewrite Hm; [done|intros x; by apply not_eq_sym|lia].
  - congruence.
Qed.

(** ** Borrowing three pages *)

Lemma wp_must_alloc s p l (Q : Z -> mm_state -> Prop) :
  mm_wf s (p :: l) ->
  (forall s', mm_wf s' l -> pages s' = <[p := mkPage None 0]> (pages s) -> cfg s' = cfg s -> ram s' = ram s -> Q p s') ->
  wp (must_alloc 0) s Q.
Proof.
  intros W HQ. destruct (page_alloc_cons s 0 p l W) as (pi & Hpi & Hr & E). unfold must_alloc. wp_step.
  eapply wp_eq; [exact E|]. cbv beta iota. wp_step. apply HQ; [by eapply after_alloc_wf|cbn; by rewrite Hr|done|done].
Qed.

Lemma wp_page_free s l p (Q : unit -> mm_state -> Prop) :
  mm_wf s l -> pages s !! p = Some (mkPage None 0) -> p ∉ l ->
  (forall s', mm_wf s' (p :: l) -> (forall q, q <> p -> pages s' !! q = pages s !! q) -> cfg s' = cfg s -> ram s' = ram s -> Q tt s') ->
  wp (page_free p) s Q.
Proof.
  intros W Hp Hl HQ. eapply wp_eq; [by eapply page_free_eq|]. apply HQ; [by apply after_free_wf| |done|done].
  intros q Hq. cbn. by rewrite lookup_insert_ne.
Qed.

(** What a test leaves: the same free pages in another order, and everything that
    is not on the free list as it was. *)
Record undisturbed (s : mm_state) (l : list Z) (s' : mm_state) (l' : list Z) : Prop := {
  ud_wf : mm_wf s' l';
  ud_list : l' ≡ₚ l;
  ud_cfg : same_cfg s s';
  ud_pages : forall q, q ∉ l -> pages s' !! q = pages s !! q;
  ud_ram : forall q o, q ∉ l -> 0 <= o < 4096 -> rd32 (ram s') (q * 4096 + o) = rd32 (ram s) (q * 4096 + o)
}.

Lemma undisturbed_trans s l s1 l1 s2 l2 : undisturbed s l s1 l1 -> undisturbed s1 l1 s2 l2 -> undisturbed s l s2 l2.
Proof.
  intros [A1 A2 A3 A4 A5] [B1 B2 B3 B4 B5]. assert (forall q, q ∉ l -> q ∉ l1) as Hq by (intros q; by rewrite A2).
  split; [done|by rewrite B2|unfold same_cfg in *; congruence| |].
  - intros q H. rewrite B4 by by apply Hq. by apply A4.
  - intros q o H Ho. rewrite B5 by auto. by apply A5.
Qed.

Lemma undisturbed_tab s l s' l' d i : undisturbed s l s' l' -> d ∉ l -> 0 <= i < 1024 -> tab (ram s') d i = tab (ram s) d i.
Proof. intros U Hd Hi. unfold tab. rewrite (ud_ram _ _ _ _ U); [done|done|lia]. Qed.

Lemma undisturbed_dir s l s' l' d : undisturbed s l s' l' -> dir_wf s l d -> dir_wf s' l' d.
Proof.
  intros U D. eapply dir_wf_ext; [exact D|apply same_cfg_npages, U|by intros i; rewrite (ud_list _ _ _ _ U)|].
  intros i Hi. eapply undisturbed_tab; [done|apply D|done].
Qed.

Lemma undisturbed_lookup s l s' l' d va :
  undisturbed s l s' l' -> dir_wf s l d -> PDX va <> SELF -> vm_lookup (ram s') d va = vm_lookup (ram s) d va.
Proof.
  intros U D Hs. apply vm_lookup_ext; [eapply undisturbed_tab; [done|apply D|apply PDX_range]|].
  intros t Ht. destruct (dw_tab _ _ _ D _ t (PDX_range va) Hs Ht) as (_ & Hl & _). pose proof (PTX_range va).
  apply (ud_ram _ _ _ _ U); [done|lia].
Qed.

Definition addr3 (a b c : Z) (x : pg) : Z := match x with PA => a | PB => b | PC => c end.

(** The state with the free list put aside and counted out. *)
Definition emptied (s : mm_state) : mm_state := set_num_free_pages 0 (set_page_free_list None s).

Section Borrow.
Context (s s3 : mm_state) (a b c : Z) (l : list Z) (d : Z).
Context (W : mm_wf s (a :: b :: c :: l)) (D : dir_wf s (a :: b :: c :: l) d).
Context (Hself : forall t, tab (ram s) d SELF = Some t -> t = d).
(** [s3] is the state after the three allocations. *)
Context (W3 : mm_wf s3 l) (Ec : cfg s3 = cfg s) (Em : ram s3 = ram s).
Context (Ep : pages s3 = <[c := mkPage None 0]> (<[b := mkPage None 0]> (<[a := mkPage None 0]> (pages s)))).

Lemma borrow_distinct : a <> b /\ a <> c /\ b <> c /\ (a ∉ l) /\ (b ∉ l) /\ (c ∉ l).
Proof.
  pose proof (wf_nodup _ _ W) as Hnd. rewrite !NoDup_cons, !not_elem_of_cons in Hnd. intuition congruence.
Qed.

Lemma addr3_inj x y : addr3 a b c x = addr3 a b c y -> x = y.
Proof. destruct borrow_distinct as (H1 & H2 & H3 & _). destruct x, y; cbn; congruence. Qed.

Lemma addr3_in x : addr3 a b c x ∈ a :: b :: c :: l.
Proof. destruct x; cbn; rewrite !elem_of_cons; auto. Qed.

Lemma addr3_dir x : addr3 a b c x <> d.
Proof. intros E. apply (dw_live _ _ _ D). rewrite <- E. apply addr3_in. Qed.

Lemma addr3_free x : addr3 a b c x ∉ l.
Proof. destruct borrow_distinct as (_ & _ & _ & H1 & H2 & H3). by destruct x. Qed.

Lemma addr3_tabs i x : 0 <= i < 1024 -> tab (ram (emptied s3)) d i <> Some (addr3 a b c x).
Proof.
  intros Hi E. cbn [ram emptied set_num_free_pages set_page_free_list] in E. rewrite Em in E. destruct (decide (i = SELF)) as [->|Hs].
  - by apply Hself, addr3_dir in E.
  - destruct (dw_tab _ _ _ D i _ Hi Hs E) as (_ & Hn & _). apply Hn, addr3_in.
Qed.

Lemma borrow_dir : dir_wf (emptied s3) [] d.
Proof.
  eapply dir_wf_ext; [exact D| |by intros i ?%elem_of_nil|].
  - unfold npages. cbn. by rewrite Ec.
  - intros i Hi. cbn. by rewrite Em.
Qed.

Lemma borrow_open k :
  rd32 (ram s) (d * 4096 + 4 * k) = 0 ->
  aside (emptied s3) d (addr3 a b c) k (Z.of_nat (length l)) idle (set_page_free_list None s3).
Proof.
  intros Hk. exists (emptied s3). split.
  - unfold bump, emptied, set_num_free_pages, set_page_free_list. cbn. f_equal. rewrite u32_small; [apply W3|].
    pose proof (wf_length _ _ W3). pose proof (wf_npages _ _ W3). lia.
  - split; try done.
    + destruct W3 as [w1 w2 w3 w4 w5 w6 w7]. split; try done. constructor.
    + intros x _. destruct borrow_distinct as (H1 & H2 & H3 & _). cbn [pages emptied set_num_free_pages set_page_free_list]. rewrite Ep.
      destruct x; cbn [addr3]; repeat (rewrite lookup_insert_eq || rewrite lookup_insert_ne by congruence); done.
    + cbn. by rewrite Em.
Qed.

(** Everything of [s] is back, except that the three pages are in use. *)
Record returned (s' : mm_state) (l' : list Z) (held : list pg) : Prop := {
  rt_wf : mm_wf s' l';
  rt_cfg : same_cfg s s';
  rt_held : forall x, x ∈ held -> pages s' !! addr3 a b c x = Some (mkPage None 0) /\ addr3 a b c x ∉ l';
  rt_pages : forall q, q ∉ a :: b :: c :: l -> pages s' !! q = pages s !! q;
  rt_ram : forall q o, q ∉ a :: b :: c :: l -> 0 <= o < 4096 -> rd32 (ram s') (q * 4096 + o) = rd32 (ram s) (q * 4096 + o)
}.

Lemma borrow_close k s' :
  0 <= k < 1024 -> rd32 (ram s) (d * 4096 + 4 * k) = 0 -> aside (emptied s3) d (addr3 a b c) k (Z.of_nat (length l)) idle s' ->
  returned (set_page_free_list (page_free_list s3) s') l [PA; PB; PC].
Proof.
  intros Hk Hz (s1 & -> & S). pose proof (wf_length _ _ W3). pose proof (wf_npages _ _ W3).
  assert (forall q, q ∈ l -> forall x, q <> addr3 a b c x) as Hl.
  { intros q Hq x ->. by apply (addr3_free x). }
  assert (forall q, q ∉ a :: b :: c :: l -> forall x, q <> addr3 a b c x) as Hq by (intros q Hq x ->; apply Hq, addr3_in).
  pose proof (sm_wf _ _ _ _ _ _ S) as W1. split.
  - destruct W1 as [w1 w2 w3 w4 w5 w6 w7]. split; try done.
    + cbn. eapply flist_ext; [|apply W3]. intros q Hin. by rewrite (sm_pages _ _ _ _ _ _ S) by by apply Hl.
    + apply W3.
    + cbn. cbn in w3. rewrite w3. rewrite u32_small; lia.
  - unfold same_cfg. transitivity (core_cfg (cfg s3)); [apply (sm_cfg _ _ _ _ _ _ S)|by rewrite Ec].
  - intros x _. split; [|apply addr3_free]. cbn. rewrite (sm_recs _ _ _ _ _ _ S) by apply not_elem_of_nil. done.
  - intros q Hin. cbn. rewrite (sm_pages _ _ _ _ _ _ S) by by apply Hq. cbn. rewrite Ep.
    rewrite !lookup_insert_ne; [done|..]; apply not_eq_sym; [apply (Hq q Hin PA)|apply (Hq q Hin PB)|apply (Hq q Hin PC)].
  - intros q o Hin Ho. cbn. destruct (decide (q = d /\ o = 4 * k)) as [[-> ->]|Hne].
    + rewrite (sm_slot _ _ _ _ _ _ S). by rewrite Hz.
    + rewrite (sm_ram _ _ _ _ _ _ S); [cbn; by rewrite Em|by apply Hq|lia|done].
Qed.

Lemma wp_give_back s' l' x held (Q : unit -> mm_state -> Prop) :
  returned s' l' (x :: held) -> x ∉ held -> (forall s2, returned s2 (addr3 a b c x :: l') held -> Q tt s2) ->
  wp (page_free (addr3 a b c x)) s' Q.
Proof.
  intros [R1 R2 R3 R4 R5] Hx HQ. destruct (R3 x ltac:(by left)) as [Hp Hl]. eapply wp_page_free; [done|done|done|].
  intros s2 W2 Hpg Hc Hm. apply HQ. split; [done|unfold same_cfg in *; by rewrite Hc| | |].
  - intros y Hy. assert (addr3 a b c y <> addr3 a b c x) as Hne by (intros E%addr3_inj; by subst).
    destruct (R3 y ltac:(by right)) as [Hpy Hly]. rewrite Hpg by done. split; [done|]. by apply not_elem_of_cons.
  - intros q Hq. rewrite Hpg; [by apply R4|]. intros ->. apply Hq, addr3_in.
  - intros q o Hq Ho. rewrite Hm. by apply R5.
Qed.

Lemma returned_all s' l' : returned s' l' [] -> l' ≡ₚ a :: b :: c :: l -> undisturbed s (a :: b :: c :: l) s' l'.
Proof. intros [] Hp. by split. Qed.
End Borrow.

(** ** The test of [pgdir_walk] *)

Lemma wp_not_present s p m i (Q : unit -> mm_state -> Prop) :
  0 <= p < npages s -> 0 <= i -> i + Z.of_nat m <= 1024 ->
  (forall o, 0 <= o < 4096 -> o mod 4 = 0 -> rd32 (ram s) (p * 4096 + o) = 0) -> Q tt s ->
  wp (assert_not_present m (p * 4096 + 4 * i + KERNBASE)) s Q.
Proof.
  intros Hp. revert i. induction m as [|m IH]; intros i Hi Hm Hz HQ; cbn [assert_not_present]; [by wp_step|].
  wp_step. apply wp_load32; [apply word_ok_page; [done|lia|apply word_off_mod]|]. rewrite Hz by (lia || apply word_off_mod).
  wp_step. apply wp_assert; [done|]. replace (p * 4096 + 4 * i + KERNBASE + 4) with (p * 4096 + 4 * (i + 1) + KERNBASE) by lia.
  apply IH; [lia|lia|done|done].
Qed.

Section Walk.
Context (s0 : mm_state) (d : Z) (addr : pg -> Z) (n : Z).
Context (Hinj : forall x y, addr x = addr y -> x = y) (Hd : forall x, addr x <> d) (D0 : dir_wf s0 [] d).
Context (Htabs : forall i x, 0 <= i < 1024 -> tab (ram s0) d i <> Some (addr x)).
Context (Z0 : rd32 (ram s0) (d * 4096 + 4 * 0) = 0) (Z1 : rd32 (ram s0) (d * 4096 + 4 * 1) = 0).

Lemma slot_0_ok : 0 <= 0 < 1024.
Proof. lia. Qed.
Lemma slot_1_ok : 0 <= 1 < 1024.
Proof. lia. Qed.

(** In slot 1: the walk makes a table, and the test takes it back. *)
Lemma st_walk_slot1 s :
  aside s0 d addr 0 n (Sandbox false None None [PA]) s ->
  wp (check_walk_pointer (dirp d) (addr PA)) s (fun _ s' => aside s0 d addr 0 n idle s').
Proof.
  intros A. unfold check_walk_pointer. set (va := PGSIZE * NPDENTRIES + PGSIZE). cbv zeta. apply (aside_slot s0 d addr 0 1) in A; [|done..]. wp_step.
  eapply (st_walk_new s0 d addr 1 Hinj Hd D0 slot_1_ok Htabs n _ _ _ true []); [exact A|done..|]. intros s1 A1 _. wp_step.
  eapply (st_load_slot s0 d addr 1 Hinj Hd D0 slot_1_ok Htabs n); [exact A1|done|]. intros s2 A2. wp_step.
  cbn [sb_tab sb_table set_tab]. rewrite (table_addr s0 d addr 1 Hinj slot_1_ok n _ _ A2).
  eapply (st_KADDR s0 d addr 1 Hinj n); [exact A2|]. intros s3 A3. wp_step. apply wp_assert.
  { apply bool_decide_eq_true_2. f_equal. change (va_of 1 true) with va. lia. }
  wp_step. eapply (st_clear_slot s0 d addr 1 Hinj Hd D0 slot_1_ok Htabs n); [exact A3|done..|]. intros s4 Hh.
  eapply (st_unref s0 d addr 1 Hinj slot_1_ok n); [exact Hh|]. intros s5 A5. by apply (aside_slot s0 d addr 1 0) in A5.
Qed.

(** In slot 0: the new table is clear although its page was not. *)
Lemma st_walk_slot0 s :
  aside s0 d addr 0 n idle s ->
  wp (check_walk_clears (dirp d) (addr PA)) s (fun _ s' => aside s0 d addr 0 n idle s').
Proof.
  intros A. unfold check_walk_clears. wp_step. eapply (st_page2kva s0 d addr 0 Hinj n); [exact A|].
  wp_step. eapply (st_memset s0 d addr 0 Hinj Hd slot_0_ok n); [exact A|done|lia|]. intros s1 A1.
  wp_step. eapply (st_free s0 d addr 0 Hinj Hd slot_0_ok n); [exact A1|apply not_elem_of_nil|done|]. intros s2 A2.
  wp_step. eapply (st_walk_new s0 d addr 0 Hinj Hd D0 slot_0_ok Htabs n _ _ _ false []); [exact A2|done..|]. intros s3 A3 Hz.
  wp_step. eapply (st_page2kva s0 d addr 0 Hinj n); [exact A3|]. wp_step.
  replace (addr PA * 4096 + KERNBASE) with (addr PA * 4096 + 4 * 0 + KERNBASE) by lia.
  assert (0 <= addr PA < npages s3) as Hr by (destruct A3 as (x & -> & Sx); exact (sim_addr _ _ _ _ Hinj _ _ Sx PA)).
  apply wp_not_present; [exact Hr|lia|by vm_compute|exact Hz|].
  wp_step. eapply (st_clear_slot s0 d addr 0 Hinj Hd D0 slot_0_ok Htabs n); [exact A3|done..|lia|]. intros s4 Hh.
  eapply (st_unref s0 d addr 0 Hinj slot_0_ok n); [exact Hh|]. intros s5 A5. exact A5.
Qed.

End Walk.
