(* ===== verification/MemBoot.v ===== *)
(** * The start of memory management, from the NVRAM to paging (kernel/mem.c)

    [mem_init] of MemInit.v returns: every assertion of its five self tests holds,
    the kernel's directory maps what it should, and no page is lost.  The tests on
    the page tables come from MemCheck.v, the mappings from Kvm.v. *)

From S2P Require Import Prelude.
From S2P Require Import Machine.
From S2P Require Import Kmonad.
From S2P Require Import Spinlock.
From S2P Require Import PageAlloc.
From S2P Require Import Paging.
From S2P Require Import Kvm.
From S2P Require Import TaskSpace.
From S2P Require Import Bytes.
From S2P Require Import Ports.
From S2P Require Import MemInit.
From S2P Require Import MemCheck.
From Stdlib Require Import ZArith Lia.
From stdpp Require Import base gmap list strings.

Local Open Scope Z_scope.

(** ** Steps and set-up variables *)

(** A step does not look at the other set-up variables. *)
Lemma step_vm_cfg g s l d s' l' f :
  c_npages (g (cfg s)) = npages s -> step_vm s l d s' l' f -> step_vm (upd_cfg g s) l d (upd_cfg g s') l' f.
Proof.
  intros Hn S. assert (c_npages (g (cfg s')) = npages s') as Hn' by (rewrite (sv_cfg _ _ _ _ _ _ S), Hn; unfold npages; by rewrite (sv_cfg _ _ _ _ _ _ S)).
  destruct S as [S1 S2 S3 S4 S5 S6 S7 S8 S9 S10 S11 S12]. split; try assumption.
  - by apply upd_cfg_wf.
  - destruct S2 as [D1 D2 D3 D4]. split; try assumption; unfold npages; cbn; by rewrite Hn'.
  - cbn. by rewrite S3.
Qed.

Lemma set_pte_spends sl s l d va t v :
  dir_wf s l d -> PDX va <> SELF -> tab (ram s) d (PDX va) = Some t -> slots sl -> spends sl d s l (set_pte s va t v) l.
Proof.
  intros D Hs Ht Hsl. split.
  - f_equal. unfold missing_in. erewrite filter_iff_on; [done|]. intros i Hi%(slots_elem _ _ Hsl). cbv beta.
    by rewrite (set_pte_tab s l d va t v D Hs Ht i Hi).
  - intros i Hi. left. apply set_pte_ram; [|lia]. by destruct (dw_tab s l d D _ t (PDX_range va) Hs Ht) as (_ & _ & ?%not_eq_sym).
Qed.

(** ** mmio_map_region *)

Definition MMIO_SLOT : Z := PDX MMIOBASE.
Definition MMIO_PERM : Z := Z.lor (Z.lor PTE_W PTE_PCD) PTE_PWT.

Lemma mmio_slots : slots [MMIO_SLOT].
Proof. split; [apply NoDup_singleton|]. by apply Forall_singleton. Qed.

Lemma wp_mmio_map s l d pa sz n :
  mm_wf s l -> dir_wf s l d -> kern_pgdir s = dirp d ->
  MMIOBASE <= c_mmio_base (cfg s) -> c_mmio_base (cfg s) + Z.of_nat n * 4096 <= MMIOLIM ->
  0 < sz -> (sz + 4095) / 4096 = Z.of_nat n -> 0 <= pa -> pa + Z.of_nat n * 4096 <= 4294967296 ->
  (missing_in (ram s) d [MMIO_SLOT] <= length l)%nat ->
  wp (mmio_map_region pa sz) s (fun r s' => r = c_mmio_base (cfg s) /\ exists l',
    step_vm (upd_cfg (set_mmio_base (c_mmio_base (cfg s) + Z.of_nat n * 4096)) s) l d s' l'
      (map_range (c_mmio_base (cfg s)) n pa MMIO_PERM (vm_lookup (ram s) d))
    /\ spends [MMIO_SLOT] d s l s' l').
Proof.
  intros W D Hk Hb Hb' Hsz Hn Hpa Hpa' Hm. unfold mmio_map_region. set (base := c_mmio_base (cfg s)) in *.
  change MMIOBASE with (958 * 4194304) in *. change MMIOLIM with (959 * 4194304) in *.
  assert (sz <= Z.of_nat n * 4096) as Hsz' by (rewrite <- Hn; Z.to_euclidean_division_equations; lia).
  wp_step. wp_step. fold base. rewrite u32_small by lia. rewrite Z.gtb_ltb. destruct (Z.ltb_spec (959 * 4194304) (base + sz)); [lia|].
  wp_step. wp_step. rewrite Hk, ROUNDUP_spec, Hn by lia. wp_step.
  eapply wp_mono; [apply (wp_boot_map_region d MMIO_PERM [MMIO_SLOT] ltac:(by vm_compute) mmio_slots s l base _ pa n W D)|].
  - apply (slots_in_range _ _ 958 958); try lia.
    + right. by vm_compute.
    + intros i Hi. assert (i = 958) as -> by lia. by left.
  - by apply Z.div_mul.
  - lia.
  - lia.
  - lia.
  - lia.
  - exact Hm.
  - intros u s' (l' & Sp & S). wp_step. wp_step. wp_step. rewrite u32_small by lia. split; [done|]. exists l'. split; [|exact Sp].
    by apply step_vm_cfg.
Qed.

Lemma wp_walk_load s l d va e (Q : Z -> mm_state -> Prop) :
  mm_wf s l -> dir_wf s l d -> PDX va <> SELF -> vm_lookup (ram s) d va = Some e -> Q e s -> wp (walk_load (dirp d) va) s Q.
Proof.
  intros W D Hs Hv HQ. destruct (vm_lookup_inv _ _ _ _ Hv) as (t & Ht & He & _).
  destruct (dw_tab s l d D _ t (PDX_range va) Hs Ht) as (Htr & _). unfold walk_load. wp_step.
  eapply wp_eq; [by eapply pgdir_walk_hit|]. wp_step. eapply wp_need; [done|]. apply wp_load32; [by apply pte_word_ok|]. by rewrite He.
Qed.

(** [*pgdir_walk(kern_pgdir, va, 0) = 0]. *)
Lemma wp_walk_clear s0 l0 d s l f va (Q : unit -> mm_state -> Prop) :
  step_vm s0 l0 d s l f -> PDX va <> SELF -> tab (ram s) d (PDX va) <> None ->
  (forall s', step_vm s0 l0 d s' l (fun x => if same_page va x then None else f x) -> spends [MMIO_SLOT] d s l s' l ->
     (forall i, 0 <= i < 1024 -> tab (ram s') d i = tab (ram s) d i) -> Q tt s') ->
  wp (walk_store (dirp d) va 0) s Q.
Proof.
  intros S Hs Htn HQ. destruct (tab (ram s) d (PDX va)) as [t|] eqn:Ht; [|done].
  pose proof (sv_wf _ _ _ _ _ _ S) as W. pose proof (sv_dir _ _ _ _ _ _ S) as D.
  destruct (dw_tab s l d D _ t (PDX_range va) Hs Ht) as (Htr & _). unfold walk_store. wp_step.
  eapply wp_eq; [by eapply pgdir_walk_hit|]. wp_step. eapply wp_need; [done|]. apply wp_store32; [by apply pte_word_ok|]. apply HQ.
  - eapply step_vm_ext; [|eapply step_vm_trans; [exact S|apply (set_pte_step s l d va t 0 W D Hs Ht ltac:(lia))] ].
    intros x Hx Hxs. cbv beta. destruct (same_page va x); [done|]. by apply (sv_lookup _ _ _ _ _ _ S).
  - by apply (set_pte_spends [MMIO_SLOT] s l d va t 0 D Hs Ht mmio_slots).
  - intros i Hi. exact (set_pte_tab s l d va t 0 D Hs Ht i Hi).
Qed.

(** The window of the two test mappings. *)
Definition mmio_pages (f : Z -> option Z) : Z -> option Z :=
  map_range (MMIOBASE + 8192) 1 0 MMIO_PERM (map_range MMIOBASE 2 0 MMIO_PERM f).

Definition mmio_va (j : Z) : Z := MMIOBASE + j * 4096.

(** Taking the three pages out again leaves what was there. *)
Lemma mmio_cleared (f : Z -> option Z) x :
  0 <= x < 4294967296 -> (forall y, PDX y = MMIO_SLOT -> 0 <= y < 4294967296 -> f y = None) ->
  (if same_page (mmio_va 2) x then None else if same_page (mmio_va 1) x then None else if same_page (mmio_va 0) x then None
   else mmio_pages f x) = f x.
Proof.
  intros Hx Hf. rewrite !same_page_spec by (lia || done).
  assert (PGNUM (mmio_va 0) = 980992 /\ PGNUM (mmio_va 1) = 980993 /\ PGNUM (mmio_va 2) = 980994) as (-> & -> & ->) by done.
  assert (980992 <= PGNUM x <= 980994 -> f x = None) as Hn.
  { intros Hp. apply Hf; [|done]. change MMIO_SLOT with 958. rewrite PDX_spec. rewrite PGNUM_div in Hp. Z.to_euclidean_division_equations. lia. }
  destruct (Z.eqb_spec 980994 (PGNUM x)); [symmetry; apply Hn; lia|]. destruct (Z.eqb_spec 980993 (PGNUM x)); [symmetry; apply Hn; lia|].
  destruct (Z.eqb_spec 980992 (PGNUM x)); [symmetry; apply Hn; lia|]. unfold mmio_pages.
  rewrite !map_range_out; [done|..]; change (PGNUM MMIOBASE) with 980992; change (PGNUM (MMIOBASE + 8192)) with 980994; lia.
Qed.

Section Mmio.
Context (s : mm_state) (l : list Z) (d : Z).
Context (W : mm_wf s l) (D : dir_wf s l d) (Hk : kern_pgdir s = dirp d) (Hb : c_mmio_base (cfg s) = MMIOBASE).
Context (Hempty : forall va, PDX va = MMIO_SLOT -> 0 <= va < 4294967296 -> vm_lookup (ram s) d va = None).
Context (Hm : (missing_in (ram s) d [MMIO_SLOT] <= length l)%nat).

(** What the test of [mmio_map_region] leaves: the window is used up to its third
    page, its table is there, and the address space is what it was. *)
Definition mmio_tested (s' : mm_state) (l' : list Z) : Prop :=
  step_vm (upd_cfg (set_mmio_base (mmio_va 3)) s) l d s' l' (vm_lookup (ram s) d)
  /\ spends [MMIO_SLOT] d s l s' l' /\ tab (ram s') d MMIO_SLOT <> None.

Lemma wp_mmio_twice (Q : Z -> mm_state -> Prop) :
  (forall s2 l2, step_vm (upd_cfg (set_mmio_base (mmio_va 3)) s) l d s2 l2 (mmio_pages (vm_lookup (ram s) d)) ->
     spends [MMIO_SLOT] d s l s2 l2 -> Q (mmio_va 2) s2) ->
  wp (mmio_map_region 0 4097) s (fun r s1 => r = mmio_va 0 /\ wp (mmio_map_region 0 4096) s1 Q).
Proof.
  intros HQ. eapply wp_mono; [apply (wp_mmio_map s l d 0 4097 2 W D Hk);
    [rewrite Hb; lia|rewrite Hb; by vm_compute|lia|reflexivity|lia|lia|exact Hm]|].
  intros r s1 (-> & l1 & S1 & P1). rewrite Hb in S1 |- *. split; [done|].
  assert (cfg s1 = set_mmio_base (mmio_va 2) (cfg s)) as E1 by exact (sv_cfg _ _ _ _ _ _ S1).
  eapply wp_mono; [apply (wp_mmio_map s1 l1 d 0 4096 1 (sv_wf _ _ _ _ _ _ S1) (sv_dir _ _ _ _ _ _ S1))|].
  - unfold kern_pgdir. rewrite E1. exact Hk.
  - rewrite E1. by vm_compute.
  - rewrite E1. by vm_compute.
  - lia.
  - reflexivity.
  - lia.
  - lia.
  - destruct P1 as [P1 _]. lia.
  - intros r s2 (-> & l2 & S2 & P2). rewrite E1 in S2 |- *. apply (HQ s2 l2); [|by eapply spends_trans].
    eapply step_vm_ext; [|eapply step_vm_trans; [|exact S2] ].
    + intros x Hx Hxs. cbv beta. unfold mmio_pages. apply map_range_ext. by apply (sv_lookup _ _ _ _ _ _ S1).
    + exact (step_vm_cfg (set_mmio_base (mmio_va 3)) _ _ _ _ _ _ eq_refl S1).
Qed.

Lemma mmio_va_slot j : 0 <= j < 4 -> PDX (mmio_va j) = MMIO_SLOT /\ PDX (mmio_va j) <> SELF /\ 0 <= mmio_va j < 4294967296.
Proof. intros Hj. assert (j = 0 \/ j = 1 \/ j = 2 \/ j = 3) as [-> | [-> | [-> | ->]]] by lia; by vm_compute. Qed.

(** The entries of the window while it is mapped. *)
Lemma mmio_pages_entry j :
  0 <= j < 3 -> mmio_pages (vm_lookup (ram s) d) (mmio_va j) = Some (Z.lor (Z.lor (if j =? 1 then 4096 else 0) MMIO_PERM) PTE_P).
Proof. intros Hj. assert (j = 0 \/ j = 1 \/ j = 2) as [-> | [-> | ->]] by lia; reflexivity. Qed.

Lemma mmio_pages_end : mmio_pages (vm_lookup (ram s) d) (mmio_va 3) = None.
Proof.
  unfold mmio_pages. rewrite !map_range_out; [apply Hempty; by vm_compute|right; by vm_compute..].
Qed.

Lemma wp_check_mmio : wp (check_mmio (dirp d)) s (fun _ s' => exists l', mmio_tested s' l').
Proof.
  unfold check_mmio. wp_step.
  eapply wp_mono; [apply (wp_mmio_twice (fun r s2 => r = mmio_va 2 /\ exists l2,
    step_vm (upd_cfg (set_mmio_base (mmio_va 3)) s) l d s2 l2 (mmio_pages (vm_lookup (ram s) d)) /\ spends [MMIO_SLOT] d s l s2 l2))|].
  { intros s2 l2 S2 P2. split; [done|]. by exists l2. }
  intros r s1 [-> H]. wp_step. eapply wp_mono; [exact H|]. intros r s2 (-> & l2 & S2 & P2). clear H.
  assert (forall j (Q : unit -> mm_state -> Prop), 0 <= j < 3 -> Q tt s2 -> wp (maps_to (dirp d) (mmio_va j) (if j =? 1 then 4096 else 0)) s2 Q) as Hmap.
  { intros j Q Hj HQ. destruct (mmio_va_slot j ltac:(lia)) as (_ & Hs & Hr). unfold maps_to. wp_step.
    eapply wp_check_va2pa; [apply S2|apply S2|exact Hs|]. rewrite (sv_lookup _ _ _ _ _ _ S2 _ Hr Hs), mmio_pages_entry by done.
    apply wp_assert; [|done]. by destruct (j =? 1). }
  assert (forall (Q : Z -> mm_state -> Prop), Q (Z.lor (Z.lor 0 MMIO_PERM) PTE_P) s2 -> wp (walk_load (dirp d) (mmio_va 0)) s2 Q) as Hld.
  { intros Q HQ. eapply wp_walk_load; [apply S2|apply S2|by vm_compute| |exact HQ].
    rewrite (sv_lookup _ _ _ _ _ _ S2) by by vm_compute. by apply (mmio_pages_entry 0). }
  do 4 (wp_step; apply wp_assert; [reflexivity|]).
  wp_step. apply (Hmap 0); [lia|]. wp_step. apply (Hmap 1); [lia|]. wp_step. apply (Hmap 2); [lia|].
  wp_step. unfold maps_to. wp_step. change (u32 (mmio_va 2 + PGSIZE)) with (mmio_va 3).
  eapply wp_check_va2pa; [apply S2|apply S2|by vm_compute|]. rewrite (sv_lookup _ _ _ _ _ _ S2) by by vm_compute.
  rewrite mmio_pages_end. apply wp_assert; [reflexivity|].
  wp_step. apply Hld. wp_step. apply wp_assert; [reflexivity|]. wp_step. apply Hld. wp_step. apply wp_assert; [reflexivity|].
  assert (tab (ram s2) d MMIO_SLOT <> None) as Ht.
  { intros E. pose proof (sv_lookup _ _ _ _ _ _ S2 (mmio_va 0) ltac:(by vm_compute) ltac:(by vm_compute)) as E2.
    rewrite (mmio_pages_entry 0) in E2 by lia. unfold vm_lookup in E2. change (PDX (mmio_va 0)) with MMIO_SLOT in E2. by rewrite E in E2. }
  wp_step. eapply wp_walk_clear; [exact S2|by vm_compute|exact Ht|]. intros s3 S3 P3 T3.
  wp_step. eapply wp_walk_clear; [exact S3|by vm_compute|rewrite T3; [exact Ht|by vm_compute]|]. intros s4 S4 P4 T4.
  eapply wp_walk_clear; [exact S4|by vm_compute|rewrite T4, T3; [exact Ht|by vm_compute|by vm_compute]|]. intros s5 S5 P5 T5.
  exists l2. split; [|split].
  - eapply step_vm_ext; [|exact S5]. intros x Hx Hxs. by apply mmio_cleared.
  - eapply spends_trans; [exact P2|]. eapply spends_trans; [exact P3|]. by eapply spends_trans.
  - rewrite T5, T4, T3 by by vm_compute. exact Ht.
Qed.
End Mmio.

(** ** check_page *)

Lemma wp_distinct3 (s : mm_state) a b c (Q : unit -> mm_state -> Prop) :
  a <> b -> a <> c -> b <> c -> Q tt s -> wp (distinct3 a b c) s Q.
Proof.
  intros H1 H2 H3 HQ. unfold distinct3. wp_step. apply wp_assert; [apply negb_true_iff, Z.eqb_neq; congruence|].
  apply wp_assert; [|done]. apply andb_true_intro. split; apply negb_true_iff, Z.eqb_neq; congruence.
Qed.

(** A directory before anything is mapped: only the self map and, perhaps, the table
    of the MMIO window. *)
Record bare (s : mm_state) (l : list Z) (d : Z) : Prop := {
  br_wf : mm_wf s l;
  br_dir : dir_wf s l d;
  br_kern : kern_pgdir s = dirp d;
  br_self : tab (ram s) d SELF = Some d;
  br_slots : forall i, 0 <= i < 1024 -> i <> SELF -> i <> MMIO_SLOT -> rd32 (ram s) (d * 4096 + 4 * i) = 0;
  br_unmapped : forall va, 0 <= va < 4294967296 -> PDX va <> SELF -> vm_lookup (ram s) d va = None
}.

Lemma undisturbed_bare s l s' l' d : undisturbed s l s' l' -> bare s l d -> bare s' l' d.
Proof.
  intros U [W D Hk Hs Hz Hn]. pose proof (dw_live _ _ _ D) as Hl. split.
  - apply U.
  - by eapply undisturbed_dir.
  - rewrite <- Hk. unfold kern_pgdir. exact (f_equal c_kern_pgdir (ud_cfg _ _ _ _ U)).
  - rewrite <- Hs. eapply undisturbed_tab; [exact U|exact Hl|by vm_compute].
  - intros i Hi H1 H2. rewrite (ud_ram _ _ _ _ U) by (exact Hl || lia). by apply Hz.
  - intros va Hva Hvs. rewrite (undisturbed_lookup _ _ _ _ _ _ U D Hvs). by apply Hn.
Qed.

(** The three allocations at the start of a test. *)
Lemma wp_borrow {X} s a b c l (F : Z -> Z -> Z -> M mm_state X) (Q : X -> mm_state -> Prop) :
  mm_wf s (a :: b :: c :: l) ->
  (forall s3, mm_wf s3 l -> cfg s3 = cfg s -> ram s3 = ram s ->
     pages s3 = <[c := mkPage None 0]> (<[b := mkPage None 0]> (<[a := mkPage None 0]> (pages s))) -> wp (F a b c) s3 Q) ->
  wp (pp0 ← must_alloc 0; pp1 ← must_alloc 0; pp2 ← must_alloc 0; F pp0 pp1 pp2) s Q.
Proof.
  intros W HQ. wp_step. eapply wp_must_alloc; [exact W|]. intros s1 W1 P1 C1 R1. wp_step. eapply wp_must_alloc; [exact W1|].
  intros s2 W2 P2 C2 R2. wp_step. eapply wp_must_alloc; [exact W2|]. intros s3 W3 P3 C3 R3. apply HQ; [exact W3|congruence..].
Qed.

Section CheckPage.
Context (s : mm_state) (a b c : Z) (l : list Z) (d g : Z) (Hg : g <> 0).
Context (B : bare s (a :: b :: c :: l) d).

Lemma bare_self_inv t : tab (ram s) d SELF = Some t -> t = d.
Proof. intros E. pose proof (br_self _ _ _ B). congruence. Qed.

Lemma wp_check_tables {X} (F : M mm_state X) (Q : X -> mm_state -> Prop) :
  (forall s' l', undisturbed s (a :: b :: c :: l) s' l' -> wp F s' Q) ->
  wp (pp0 ← must_alloc 0; pp1 ← must_alloc 0; pp2 ← must_alloc 0;
      distinct3 pp0 pp1 pp2 ;;
      fl ← gets page_free_list;
      modify (set_page_free_list None) ;;
      check_page_insert g (dirp d) pp0 pp1 pp2 ;;
      check_page_remove g (dirp d) pp0 pp1 pp2 ;;
      page_free pp0 ;;
      check_walk_pointer (dirp d) pp0 ;;
      check_walk_clears (dirp d) pp0 ;;
      modify (set_page_free_list fl) ;;
      page_free pp0 ;; page_free pp1 ;; page_free pp2 ;; F) s Q.
Proof.
  intros HQ. pose proof (br_wf _ _ _ B) as W. pose proof (br_dir _ _ _ B) as D.
  apply (wp_borrow s a b c l _ _ W). intros s3 W3 C3 R3 P3.
  destruct (borrow_distinct s a b c l W) as (N1 & N2 & N3 & _). wp_step. apply wp_distinct3; [done..|]. wp_step. wp_step. wp_step. wp_step.
  pose proof (addr3_inj s a b c l W) as Hinj. pose proof (addr3_dir s a b c l d D) as Hd.
  pose proof (borrow_dir s s3 a b c l d D C3 R3) as D3. pose proof (addr3_tabs s s3 a b c l d D bare_self_inv R3) as Htabs.
  assert (forall i, i = 0 \/ i = 1 -> rd32 (ram s) (d * 4096 + 4 * i) = 0) as Hz.
  { intros i Hi. apply (br_slots _ _ _ B); [lia|by destruct Hi; subst; vm_compute..]. }
  assert (forall i, i = 0 \/ i = 1 -> rd32 (ram (emptied s3)) (d * 4096 + 4 * i) = 0) as Hz3 by (intros i Hi; cbn; rewrite R3; by apply Hz).
  pose proof (borrow_open s s3 a b c l d W W3 R3 P3 0 ltac:(apply Hz; lia)) as A.
  assert (tab (ram (emptied s3)) d 1 = None) as H1 by (unfold tab; rewrite Hz3 by lia; reflexivity).
  wp_step. eapply wp_mono; [apply (st_check_page_insert _ d (addr3 a b c) 0 Hinj Hd D3 slot_0_ok ltac:(by vm_compute) Htabs _ g Hg eq_refl H1 _ A)|].
  intros u1 s4 A4. cbv beta in A4.
  wp_step. eapply wp_mono; [apply (st_check_page_remove _ d (addr3 a b c) 0 Hinj Hd D3 slot_0_ok ltac:(by vm_compute) Htabs _ g Hg eq_refl _ A4)|].
  intros u2 s5 A5. cbv beta in A5. wp_step.
  eapply (st_free _ d (addr3 a b c) 0 Hinj Hd slot_0_ok _ _ _ PA); [exact A5|apply not_elem_of_nil|done|]. intros s6 A6.
  wp_step. eapply wp_mono; [apply (st_walk_slot1 _ d (addr3 a b c) _ Hinj Hd D3 Htabs (Hz3 0 ltac:(lia)) (Hz3 1 ltac:(lia)) _ A6)|].
  intros u3 s7 A7. cbv beta in A7.
  wp_step. eapply wp_mono; [apply (st_walk_slot0 _ d (addr3 a b c) _ Hinj Hd D3 Htabs _ A7)|].
  intros u4 s8 A8. cbv beta in A8. wp_step. wp_step.
  pose proof (borrow_close s s3 a b c l d W W3 C3 R3 P3 0 s8 slot_0_ok (Hz 0 ltac:(lia)) A8) as R.
  wp_step. eapply (wp_give_back s a b c l W _ _ PA); [exact R|apply (bool_decide_unpack _); by vm_compute|]. intros s9 R9.
  wp_step. eapply (wp_give_back s a b c l W _ _ PB); [exact R9|apply (bool_decide_unpack _); by vm_compute|]. intros s10 R10.
  wp_step. eapply (wp_give_back s a b c l W _ _ PC); [exact R10|apply (bool_decide_unpack _); by vm_compute|]. intros s11 R11.
  eapply HQ. apply returned_all; [exact R11|]. cbn. by rewrite (Permutation_swap c b), (Permutation_swap c a), (Permutation_swap b a).
Qed.
End CheckPage.

(** No page is lost: it is free or a table of the directory; and what is neither,
    nor the directory, holds what it held. *)
Definition conserved (d : Z) (s : mm_state) (l : list Z) (s' : mm_state) (l' : list Z) : Prop :=
  tables (ram s') d ++ l' ≡ₚ tables (ram s) d ++ l
  /\ forall q o, q <> d -> q ∉ tables (ram s) d ++ l -> 0 <= o < 4096 -> rd32 (ram s') (q * 4096 + o) = rd32 (ram s) (q * 4096 + o).

Lemma conserved_trans d s l s1 l1 s2 l2 : conserved d s l s1 l1 -> conserved d s1 l1 s2 l2 -> conserved d s l s2 l2.
Proof.
  intros [P1 F1] [P2 F2]. split; [by etrans|]. intros q o Hd Hq Ho. rewrite F2; [by apply F1|done|by rewrite P1|done].
Qed.

Lemma undisturbed_conserved s l s' l' d : undisturbed s l s' l' -> d ∉ l -> conserved d s l s' l'.
Proof.
  intros U Hd. split.
  - rewrite (ud_list _ _ _ _ U). f_equiv. rewrite (tables_ext (ram s)); [done|]. intros i Hi. by eapply undisturbed_tab.
  - intros q o _ [_ Hq]%not_elem_of_app Ho. by apply (ud_ram _ _ _ _ U).
Qed.

Lemma step_conserved s l d s' l' f : step_vm s l d s' l' f -> conserved d s l s' l'.
Proof.
  intros S. split; [apply S|]. intros q o Hd [Ht Hl]%not_elem_of_app Ho. apply (sv_frame _ _ _ _ _ _ S); [done|done| |done].
  intros i Hi E. apply Ht, tables_elem. eauto.
Qed.

Lemma bare_cfg g s l d :
  bare s l d -> c_npages (g (cfg s)) = npages s -> c_kern_pgdir (g (cfg s)) = kern_pgdir s -> bare (upd_cfg g s) l d.
Proof.
  intros [W D Hk Hs Hz Hn] Hnp Hkp. split; try done.
  - by apply upd_cfg_wf.
  - destruct D as [D1 D2 D3 D4]. split; try done; unfold npages; cbn; rewrite Hnp; done.
  - unfold kern_pgdir. cbn. by rewrite Hkp.
Qed.

(** At most [k] pages of the free list [l] were used up. *)
Definition shrinks (k : nat) (l l' : list Z) : Prop := (forall q, q ∈ l' -> q ∈ l) /\ (length l <= length l' + k)%nat.

Lemma shrinks_trans k1 k2 l l1 l2 : shrinks k1 l l1 -> shrinks k2 l1 l2 -> shrinks (k1 + k2) l l2.
Proof. intros [A1 A2] [B1 B2]. split; [auto|lia]. Qed.

Lemma shrinks_perm l l' : l' ≡ₚ l -> shrinks 0 l l'.
Proof. intros E. split; [intros q; by rewrite E|rewrite E; lia]. Qed.

(** Some page of a sort that has more than [k] is left. *)
Lemma shrinks_keeps (P : Z -> Prop) `{!forall x, Decision (P x)} k l l' :
  NoDup l' -> shrinks k l l' -> (k < length (filter P l))%nat -> exists p, p ∈ l' /\ P p.
Proof.
  intros Hnd [Hs Hk] HP. apply NoDup_submseteq in Hs as Hsub; [|exact Hnd]. apply submseteq_Permutation in Hsub as (used & E).
  pose proof (Permutation_length E) as El. rewrite length_app in El.
  assert (length (filter P l) = length (filter P l') + length (filter P used))%nat as Ef by (by rewrite E, filter_app, length_app).
  pose proof (length_filter P used). destruct (filter P l') as [|p r] eqn:Ep; [cbn [length] in Ef; lia|].
  exists p. assert (p ∈ filter P l') as [Hp Hin]%list_elem_of_filter by (rewrite Ep; by left). done.
Qed.

(** What the test of the page tables leaves. *)
Record page_tested (s : mm_state) (l : list Z) (d : Z) (s' : mm_state) (l' : list Z) : Prop := {
  pt_bare : bare s' l' d;
  pt_cons : conserved d s l s' l';
  pt_cfg : core_cfg (cfg s') = set_mmio_base (mmio_va 3) (core_cfg (cfg s));
  pt_mmio : tab (ram s') d MMIO_SLOT <> None;
  pt_free : shrinks 1 l l'
}.

Lemma mmio_tested_bare s l d s' l' : bare s l d -> mmio_tested s l d s' l' -> page_tested s l d s' l'.
Proof.
  intros B (S & [Hm Hsl] & Ht). split.
  - split.
    + apply S.
    + apply S.
    + unfold kern_pgdir. rewrite (sv_cfg _ _ _ _ _ _ S). apply B.
    + rewrite (sv_self _ _ _ _ _ _ S). apply B.
    + intros i Hi H1 H2. destruct (Hsl i Hi) as [->|[?%list_elem_of_singleton _] ]; [by apply (br_slots _ _ _ B)|done].
    + intros va Hva Hs. rewrite (sv_lookup _ _ _ _ _ _ S) by done. by apply B.
  - exact (step_conserved _ _ _ _ _ _ S).
  - by rewrite (sv_cfg _ _ _ _ _ _ S).
  - done.
  - split; [apply S|]. pose proof (length_filter (fun i => tab (ram s) d i = None) [MMIO_SLOT]) as H. unfold missing_in in Hm. cbn [length] in H. lia.
Qed.

Lemma wp_check_page s a b c l d g :
  g <> 0 -> bare s (a :: b :: c :: l) d -> c_mmio_base (cfg s) = MMIOBASE ->
  wp (check_page g) s (fun _ s' => exists l', page_tested s (a :: b :: c :: l) d s' l').
Proof.
  intros Hg B Hb. unfold check_page. wp_step. wp_step. rewrite (br_kern _ _ _ B).
  apply (wp_check_tables s a b c l d g Hg B). intros s1 l1 U. pose proof (undisturbed_bare _ _ _ _ _ U B) as B1. wp_step.
  pose proof (Permutation_length (ud_list _ _ _ _ U)) as Hlen. cbn [length] in Hlen.
  eapply wp_mono; [apply (wp_check_mmio s1 l1 d (br_wf _ _ _ B1) (br_dir _ _ _ B1) (br_kern _ _ _ B1))|].
  - rewrite <- Hb. exact (f_equal c_mmio_base (ud_cfg _ _ _ _ U)).
  - intros va Hp Hva. apply B1; [exact Hva|rewrite Hp; by vm_compute].
  - etrans; [apply length_filter|]. cbn [length]. lia.
  - intros u s2 (l2 & T). unfold printk. wp_step. exists l2.
    pose proof (mmio_tested_bare _ _ _ _ _ B1 T) as [P1 P2 P3 P4 P5]. split.
    + by apply bare_cfg.
    + eapply conserved_trans; [exact (undisturbed_conserved _ _ _ _ d U (dw_live _ _ _ (br_dir _ _ _ B)))|exact P2].
    + transitivity (core_cfg (cfg s2)); [reflexivity|]. rewrite P3. by rewrite (ud_cfg _ _ _ _ U).
    + exact P4.
    + apply (shrinks_trans 0 1 _ l1); [apply shrinks_perm, U|exact P5].
Qed.

(** ** check_page_alloc *)

Lemma wp_count_free s h l fuel n :
  flist (pages s) h l -> (length l <= fuel)%nat ->
  wp (count_free fuel h n) s (fun r s' => r = n + Z.of_nat (length l) /\ s' = s).
Proof.
  revert h fuel n. induction l as [|p l IH]; intros h fuel n Hl Hf.
  - simpl in Hl. subst h. destruct fuel; cbn [count_free]; wp_step; split; done || (simpl; lia).
  - destruct Hl as (-> & pi & Hp & _ & Hl). destruct fuel as [|fuel]; [simpl in Hf; lia|]. cbn [count_free]. wp_step.
    eapply wp_page_get; [exact Hp|]. eapply wp_mono; [apply (IH _ fuel (n + 1) Hl); simpl in Hf; lia|].
    intros r s' [-> ->]. split; [simpl length; lia|done].
Qed.

Lemma wp_free_length s l (Q : Z -> mm_state -> Prop) : mm_wf s l -> Q (Z.of_nat (length l)) s -> wp free_list_length s Q.
Proof.
  intros W HQ. unfold free_list_length. wp_step. wp_step. eapply wp_mono.
  - apply (wp_count_free s _ l); [apply W|]. pose proof (wf_size s l W). lia.
  - by intros r s' [-> ->].
Qed.

Lemma wp_zero_bytes s p m i (Q : unit -> mm_state -> Prop) :
  0 <= p < npages s -> 0 <= i -> i + Z.of_nat m <= 4096 ->
  (forall o, 0 <= o < 4096 -> o mod 4 = 0 -> rd32 (ram s) (p * 4096 + o) = 0) -> Q tt s ->
  wp (assert_zero_bytes m (p * 4096 + i + KERNBASE)) s Q.
Proof.
  intros Hp. revert i. induction m as [|m IH]; intros i Hi Hm Hz HQ; cbn [assert_zero_bytes]; [by wp_step|].
  assert (p * 4096 + i - (p * 4096 + i) mod 4 = p * 4096 + (i - i mod 4)) as E by (Z.to_euclidean_division_equations; lia).
  assert (0 <= i - i mod 4 < 4096 /\ (i - i mod 4) mod 4 = 0) as [H1 H2] by (Z.to_euclidean_division_equations; lia).
  wp_step. apply wp_load8; [rewrite E; by apply word_ok_page|]. unfold rd8, byte_of. rewrite E, (Hz _ H1 H2), Zdiv_0_l.
  wp_step. apply wp_assert; [reflexivity|]. replace (p * 4096 + i + KERNBASE + 1) with (p * 4096 + (i + 1) + KERNBASE) by lia.
  apply IH; [lia|lia|exact Hz|exact HQ].
Qed.

Section Realloc.
Context (s0 : mm_state) (d : Z) (addr : pg -> Z) (n : Z).
Context (Hinj : forall x y, addr x = addr y -> x = y) (Hd : forall x, addr x <> d).

Lemma st_check_realloc s :
  aside s0 d addr 0 n idle s ->
  wp (check_realloc (addr PA) (addr PB) (addr PC)) s (fun r s' => r = (addr PC, addr PB, addr PA) /\ aside s0 d addr 0 n idle s').
Proof.
  intros A. unfold check_realloc. assert (forall x y, x <> y -> addr x <> addr y) as Hne by (intros x y H E; by apply H, Hinj).
  wp_step. eapply (st_no_free s0 d addr 0 Hinj Hd slot_0_ok n); [exact A|done|]. intros s1 A1.
  wp_step. eapply (st_free s0 d addr 0 Hinj Hd slot_0_ok n); [exact A1|apply not_elem_of_nil|done|]. intros s2 A2.
  wp_step. eapply (st_free s0 d addr 0 Hinj Hd slot_0_ok n); [exact A2|apply (bool_decide_unpack _); by vm_compute|done|]. intros s3 A3.
  wp_step. eapply (st_free s0 d addr 0 Hinj Hd slot_0_ok n); [exact A3|apply (bool_decide_unpack _); by vm_compute|done|]. intros s4 A4.
  wp_step. eapply (st_alloc s0 d addr 0 Hinj Hd slot_0_ok n); [exact A4|reflexivity|]. intros s5 A5.
  wp_step. eapply (st_alloc s0 d addr 0 Hinj Hd slot_0_ok n); [exact A5|reflexivity|]. intros s6 A6.
  wp_step. eapply (st_alloc s0 d addr 0 Hinj Hd slot_0_ok n); [exact A6|reflexivity|]. intros s7 A7.
  wp_step. apply wp_distinct3; [by apply Hne..|].
  wp_step. eapply (st_no_free s0 d addr 0 Hinj Hd slot_0_ok n); [exact A7|done|]. intros s8 A8.
  wp_step. eapply (st_page2kva s0 d addr 0 Hinj n); [exact A8|].
  wp_step. eapply (st_memset s0 d addr 0 Hinj Hd slot_0_ok n); [exact A8|done|lia|]. intros s9 A9.
  wp_step. eapply (st_free s0 d addr 0 Hinj Hd slot_0_ok n); [exact A9|apply not_elem_of_nil|done|]. intros s10 A10.
  wp_step. eapply (st_alloc_zero s0 d addr 0 Hinj Hd slot_0_ok n); [exact A10|reflexivity|]. intros s11 A11 Hz.
  wp_step. apply wp_assert; [apply Z.eqb_refl|]. wp_step. eapply (st_page2kva s0 d addr 0 Hinj n); [exact A11|].
  assert (0 <= addr PC < npages s11) as Hr by (destruct A11 as (x & -> & Sx); exact (sim_addr _ _ _ _ Hinj _ _ Sx PC)).
  wp_step. replace (addr PC * 4096 + KERNBASE) with (addr PC * 4096 + 0 + KERNBASE) by lia.
  apply wp_zero_bytes; [exact Hr|lia|by vm_compute|exact Hz|]. wp_step. split; [done|exact A11].
Qed.
End Realloc.

Section CheckAlloc.
Context (s : mm_state) (a b c : Z) (l : list Z) (d : Z).
Context (B : bare s (a :: b :: c :: l) d).

Lemma alloc_below_end s' p what (Q : unit -> mm_state -> Prop) :
  npages s' = npages s -> p ∈ a :: b :: c :: l -> Q tt s' -> wp (kassert (page2pa p <? u32 (npages s' * PGSIZE)) what) s' Q.
Proof.
  intros En Hp HQ. pose proof (wf_range _ _ _ (br_wf _ _ _ B) Hp). pose proof (wf_npages _ _ (br_wf _ _ _ B)).
  apply wp_assert; [|done]. rewrite En, page2pa_spec by lia. unfold PGSIZE. rewrite u32_small by lia. lia.
Qed.

Lemma wp_check_alloc :
  c_pages_va (cfg s) <> 0 ->
  wp check_page_alloc s (fun _ s' => exists l', undisturbed s (a :: b :: c :: l) s' l').
Proof.
  intros Hpg. pose proof (br_wf _ _ _ B) as W. pose proof (br_dir _ _ _ B) as D. unfold check_page_alloc. wp_step. wp_step.
  destruct (Z.eqb_spec (c_pages_va (cfg s)) 0); [done|]. wp_step. wp_step. wp_step. eapply wp_free_length; [exact W|].
  apply (wp_borrow s a b c l _ _ W). intros s3 W3 C3 R3 P3.
  destruct (borrow_distinct s a b c l W) as (N1 & N2 & N3 & _). wp_step. apply wp_distinct3; [done..|]. wp_step. wp_step.
  assert (npages s3 = npages s) as En by (unfold npages; by rewrite C3).
  do 3 (wp_step; apply alloc_below_end; [done|rewrite !elem_of_cons; auto|]). wp_step. wp_step. wp_step. wp_step.
  pose proof (addr3_inj s a b c l W) as Hinj. pose proof (addr3_dir s a b c l d D) as Hd.
  assert (rd32 (ram s) (d * 4096 + 4 * 0) = 0) as Hz by (apply (br_slots _ _ _ B); by vm_compute).
  pose proof (borrow_open s s3 a b c l d W W3 R3 P3 0 Hz) as A.
  wp_step. eapply wp_mono; [apply (st_check_realloc _ d (addr3 a b c) _ Hinj Hd _ A)|]. intros r s4 [-> A4].
  wp_step. wp_step. pose proof (borrow_close s s3 a b c l d W W3 C3 R3 P3 0 s4 slot_0_ok Hz A4) as R.
  assert (returned s a b c l (set_page_free_list (page_free_list s3) s4) l [PC; PB; PA]) as R'.
  { destruct R as [R1 R2 R3' R4 R5]. split; try done. intros x _. apply R3'. destruct x; rewrite !elem_of_cons; auto. }
  wp_step. eapply (wp_give_back s a b c l W _ _ PC); [exact R'|apply (bool_decide_unpack _); by vm_compute|]. intros s5 R5.
  wp_step. eapply (wp_give_back s a b c l W _ _ PB); [exact R5|apply (bool_decide_unpack _); by vm_compute|]. intros s6 R6.
  wp_step. eapply (wp_give_back s a b c l W _ _ PA); [exact R6|apply (bool_decide_unpack _); by vm_compute|]. intros s7 R7.
  pose proof (returned_all _ _ _ _ _ _ _ R7 (reflexivity _)) as U. wp_step. eapply wp_free_length; [apply U|].
  wp_step. apply wp_assert; [cbn [length addr3]; apply Z.eqb_eq; lia|]. unfold printk. wp_step. eexists.
  destruct U as [U1 U2 U3 U4 U5]. split; try done. by apply upd_cfg_wf.
Qed.
End CheckAlloc.

(** ** The kernel's mappings *)

(** The address space [mem_init] builds, for [np] pages and the array of pages at
    physical address [pgs_pa]. *)
Definition kern_space (percpu_kstacks np pgs_pa : Z) : Z -> option Z :=
  kstacks_space percpu_kstacks 8 0
    (map_range IOPHYSMEM 96 IOPHYSMEM (Z.lor PTE_W PTE_P)
      (map_range KERNBASE (Z.to_nat 65536) 0 PTE_W
        (map_range UPAGES (Z.to_nat ((np * 8 + 4095) / 4096)) pgs_pa (Z.lor PTE_U PTE_P) (fun _ => None)))).

(** The kernel's directory when everything is mapped. *)
Record kern_mapped (pk : Z) (s : mm_state) (l : list Z) (d : Z) : Prop := {
  km_wf : mm_wf s l;
  km_dir : dir_wf s l d;
  km_kern : kern_pgdir s = dirp d;
  km_self : tab (ram s) d SELF = Some d;
  km_lookup : forall va, 0 <= va < 4294967296 -> PDX va <> SELF ->
    vm_lookup (ram s) d va = kern_space pk (npages s) (c_pages_va (cfg s) - KERNBASE) va;
  km_slots : forall i, 0 <= i < 1024 -> i <> SELF -> i <> MMIO_SLOT ->
    rd32 (ram s) (d * 4096 + 4 * i) = 0 \/ (i ∈ kvm_slots /\ exists t, rd32 (ram s) (d * 4096 + 4 * i) = t * 4096 + 7);
  km_mmio : tab (ram s) d MMIO_SLOT <> None
}.

Lemma wp_mem_init_map s l d pk :
  bare s l d -> tab (ram s) d MMIO_SLOT <> None -> (68 <= length l)%nat ->
  KERNBASE <= pk -> pk + 8 * KSTKSIZE <= 4294967296 ->
  KERNBASE <= c_pages_va (cfg s) -> c_pages_va (cfg s) + npages s * 8 <= 4294963200 ->
  wp (mem_init_map pk) s (fun _ s' => exists l', kern_mapped pk s' l' d /\ conserved d s l s' l' /\ cfg s' = cfg s
    /\ shrinks 68 l l').
Proof.
  intros B Hmm Hl Hk Hk' Hp Hp'. pose proof (br_wf _ _ _ B) as W. pose proof (wf_npages _ _ W).
  assert (missing_in (ram s) d kvm_slots <= 68)%nat as Hms by (etrans; [apply length_filter|]; by vm_compute).
  assert (mapping s l d s (fun _ => None)) as M0.
  { exists l. split; [|split; [lia|apply spends_refl] ]. eapply step_vm_ext; [|apply step_vm_refl; apply B].
    intros va Hva Hs. by apply B. }
  unfold mem_init_map. wp_step. wp_step. rewrite (br_kern _ _ _ B). wp_step. wp_step. wp_step. wp_step. wp_step.
  apply wp_PADDR; [unfold KERNBASE in *; lia|]. wp_step.
  eapply wp_mono; [apply (wp_map_upages s l d s _ M0); [by vm_compute|unfold KERNBASE in *; lia..]|]. intros u1 s1 M1. cbv beta in M1. wp_step.
  eapply wp_mono; [apply (wp_map_kern s l d s1 _ M1)|]. intros u2 s2 M2. cbv beta in M2. wp_step.
  eapply wp_mono; [apply (wp_map_io s l d s2 _ M2); by vm_compute|]. intros u3 s3 M3. cbv beta in M3.
  unfold mem_init_mp. wp_step. wp_step.
  assert (kern_pgdir s3 = dirp d) as ->.
  { destruct M3 as (l3 & S3 & _). unfold kern_pgdir. rewrite (sv_cfg _ _ _ _ _ _ S3). apply B. }
  eapply wp_mono; [apply (wp_map_kstacks pk Hk Hk' s l d (Z.to_nat NCPU) 0 s3 _ M3); done|].
  intros u4 s4 (l4 & S & Hm4 & Hsp & Hsl). exists l4. split; [|split; [exact (step_conserved _ _ _ _ _ _ S)|split; [apply S|split; [apply S|lia] ] ] ].
  pose proof (sv_cfg _ _ _ _ _ _ S) as Ec. split.
  - apply S.
  - apply S.
  - unfold kern_pgdir. rewrite Ec. apply B.
  - rewrite (sv_self _ _ _ _ _ _ S). apply B.
  - unfold npages. rewrite Ec. exact (sv_lookup _ _ _ _ _ _ S).
  - intros i Hi H1 H2. destruct (Hsl i Hi) as [->|]; [left; by apply (br_slots _ _ _ B)|by right].
  - destruct (tab (ram s) d MMIO_SLOT) as [t|] eqn:E; [|done]. rewrite (sv_tab _ _ _ _ _ _ S MMIO_SLOT t); [discriminate|by vm_compute|exact E].
Qed.

(** ** check_kern_pgdir *)

(** The kernel's address space region by region. *)
Section KernSpace.
Context (pk np pgs_pa : Z) (Hnp : 0 <= np <= 65536).

Lemma kern_space_low x :
  PGNUM x < 959 * 1024 ->
  kern_space pk np pgs_pa x
  = map_range IOPHYSMEM 96 IOPHYSMEM (Z.lor PTE_W PTE_P)
      (map_range UPAGES (Z.to_nat ((np * 8 + 4095) / 4096)) pgs_pa (Z.lor PTE_U PTE_P) (fun _ => None)) x.
Proof.
  intros Hx. unfold kern_space. rewrite kstacks_space_out; [|lia|lia|lia]. apply map_range_ext, map_range_out.
  left. change (PGNUM KERNBASE) with 983040. lia.
Qed.

Lemma kern_space_io k :
  0 <= k < 96 -> kern_space pk np pgs_pa (IOPHYSMEM + k * 4096) = Some (Z.lor (Z.lor (IOPHYSMEM + k * 4096) (Z.lor PTE_W PTE_P)) PTE_P).
Proof.
  intros Hk. rewrite kern_space_low; [by apply map_range_in|]. rewrite PGNUM_div, Z.div_add by lia. change (IOPHYSMEM / 4096) with 160. lia.
Qed.

Lemma kern_space_upages k :
  0 <= k < (np * 8 + 4095) / 4096 ->
  kern_space pk np pgs_pa (UPAGES + k * 4096) = Some (Z.lor (Z.lor (pgs_pa + k * 4096) (Z.lor PTE_U PTE_P)) PTE_P).
Proof.
  intros Hk. assert ((np * 8 + 4095) / 4096 <= 128) by (Z.to_euclidean_division_equations; lia).
  assert (PGNUM (UPAGES + k * 4096) = 978944 + k) as E by (rewrite PGNUM_div, Z.div_add by lia; reflexivity).
  rewrite kern_space_low by lia. rewrite map_range_out by (right; rewrite E; change (PGNUM IOPHYSMEM) with 160; lia).
  apply map_range_in. lia.
Qed.

Lemma kern_space_kern k :
  0 <= k < 65536 -> kern_space pk np pgs_pa (KERNBASE + k * 4096) = Some (Z.lor (Z.lor (0 + k * 4096) PTE_W) PTE_P).
Proof.
  intros Hk. assert (PGNUM (KERNBASE + k * 4096) = 983040 + k) as E by (rewrite PGNUM_div, Z.div_add by lia; reflexivity).
  unfold kern_space. rewrite kstacks_space_out; [|lia|lia|lia]. rewrite map_range_out by (right; rewrite E; change (PGNUM IOPHYSMEM) with 160; lia).
  apply map_range_in. lia.
Qed.

(** The first page of the stack of processor [j]. *)
Lemma kstack_PGNUM j k : PGNUM (kstack_va j + k * 4096) = 983032 - 16 * j + k.
Proof.
  unfold kstack_va. replace (_ - _ - _ + k * 4096) with ((983032 - 16 * j + k) * 4096) by (unfold KSTACKTOP, KSTKSIZE, KSTKGAP, PGSIZE, KERNBASE; lia).
  rewrite PGNUM_div. apply Z.div_mul. lia.
Qed.

Lemma kstacks_skip n i f x :
  (forall j, i <= j < i + Z.of_nat n -> ~ (983032 - 16 * j <= PGNUM x < 983040 - 16 * j)) -> kstacks_space pk n i f x = f x.
Proof.
  revert i f. induction n as [|n IH]; intros i f H; cbn [kstacks_space]; [done|]. rewrite IH by (intros j Hj; apply H; lia).
  apply map_range_out. specialize (H i ltac:(lia)). pose proof (kstack_PGNUM i 0) as E. rewrite Z.mul_0_l, Z.add_0_r in E. rewrite E. lia.
Qed.

Lemma kstacks_in n i j k f :
  i <= j < i + Z.of_nat n -> 0 <= k < 8 ->
  kstacks_space pk n i f (kstack_va j + k * 4096) = Some (Z.lor (Z.lor (kstack_pa pk j + k * 4096) PTE_W) PTE_P).
Proof.
  revert i f. induction n as [|n IH]; intros i f Hj Hk; [lia|]. cbn [kstacks_space]. destruct (decide (j = i)) as [->|].
  - rewrite kstacks_skip; [by apply map_range_in|]. intros j' Hj'. rewrite kstack_PGNUM. lia.
  - apply IH; lia.
Qed.

Lemma kern_space_gap j k :
  0 <= j < 8 -> 0 <= k < 8 -> kern_space pk np pgs_pa (kstack_va j - 32768 + k * 4096) = None.
Proof.
  intros Hj Hk. replace (kstack_va j - 32768 + k * 4096) with (kstack_va j + (k - 8) * 4096) by lia.
  pose proof (kstack_PGNUM j (k - 8)) as E. assert ((np * 8 + 4095) / 4096 <= 128) by (Z.to_euclidean_division_equations; lia).
  unfold kern_space. rewrite kstacks_skip by (intros j' Hj'; rewrite E; lia).
  rewrite !map_range_out; [done|right; rewrite E; change (PGNUM UPAGES) with 978944; lia|left; rewrite E; change (PGNUM KERNBASE) with 983040; lia|
    right; rewrite E; change (PGNUM IOPHYSMEM) with 160; lia].
Qed.
End KernSpace.

Section CheckKern.
Context (s : mm_state) (l : list Z) (d pk : Z) (K : kern_mapped pk s l d).

(** A loop of assertions on consecutive pages. *)
Lemma wp_assert_mapped n va pa perm (Q : unit -> mm_state -> Prop) :
  0 <= va -> va + Z.of_nat n * 4096 <= 4294967296 -> 0 <= pa -> pa + Z.of_nat n * 4096 <= 4294967296 -> pa mod 4096 = 0 -> 0 <= perm < 4096 ->
  (forall k, 0 <= k < Z.of_nat n -> PDX (va + k * 4096) <> SELF
     /\ vm_lookup (ram s) d (va + k * 4096) = Some (Z.lor (Z.lor (pa + k * 4096) perm) PTE_P)) ->
  Q tt s -> wp (assert_mapped n (dirp d) va pa) s Q.
Proof.
  revert va pa. induction n as [|n IH]; intros va pa H1 H2 H3 H4 H5 H6 Hv HQ; cbn [assert_mapped]; [by wp_step|].
  wp_step. unfold maps_to. wp_step. destruct (Hv 0 ltac:(lia)) as [Hs He]. rewrite Z.mul_0_l, Z.add_0_r in Hs. rewrite Z.mul_0_l, !Z.add_0_r in He.
  eapply wp_check_va2pa; [apply K|apply K|exact Hs|]. rewrite He, entry_page by (done || lia). apply wp_assert; [apply Z.eqb_refl|].
  unfold PGSIZE. destruct n as [|n]; [cbn [assert_mapped]; by wp_step|]. rewrite !u32_small by lia. apply IH; [lia..| | | |exact HQ].
  - rewrite Z.add_mod, H5 by lia. done.
  - exact H6.
  - intros k Hk. replace (va + 4096 + k * 4096) with (va + (k + 1) * 4096) by lia.
    replace (pa + 4096 + k * 4096) with (pa + (k + 1) * 4096) by lia. apply Hv. lia.
Qed.

Lemma wp_assert_unmapped n va (Q : unit -> mm_state -> Prop) :
  0 <= va -> va + Z.of_nat n * 4096 < 4294967296 ->
  (forall k, 0 <= k < Z.of_nat n -> PDX (va + k * 4096) <> SELF /\ vm_lookup (ram s) d (va + k * 4096) = None) ->
  Q tt s -> wp (assert_unmapped n (dirp d) va) s Q.
Proof.
  revert va. induction n as [|n IH]; intros va H1 H2 Hv HQ; cbn [assert_unmapped]; [by wp_step|].
  wp_step. unfold maps_to. wp_step. destruct (Hv 0 ltac:(lia)) as [Hs He]. rewrite Z.mul_0_l, Z.add_0_r in Hs, He.
  eapply wp_check_va2pa; [apply K|apply K|exact Hs|]. rewrite He. apply wp_assert; [reflexivity|].
  unfold PGSIZE. rewrite u32_small by lia. apply IH; [lia..| |exact HQ].
  intros k Hk. replace (va + 4096 + k * 4096) with (va + (k + 1) * 4096) by lia. apply Hv. lia.
Qed.

Context (Hk : KERNBASE <= pk) (Hk' : pk + 8 * KSTKSIZE <= 4294967296) (Hka : pk mod 4096 = 0).

(** The stacks of the processors are mapped, with nothing below each. *)
Lemma wp_check_kstacks n i (Q : unit -> mm_state -> Prop) :
  0 <= i -> i + Z.of_nat n = 8 -> Q tt s -> wp (check_kstacks pk n (dirp d) i) s Q.
Proof.
  pose proof (wf_npages _ _ (km_wf _ _ _ _ K)) as Hnp. revert i. induction n as [|n IH]; intros i H1 H2 HQ; cbn [check_kstacks]; [by wp_step|].
  change KERNBASE with 4026531840 in Hk. change KSTKSIZE with 32768 in *.
  wp_step. apply wp_PADDR; [change KERNBASE with 4026531840; lia|].
  assert (u32 (KSTACKTOP - (32768 + KSTKGAP) * (i + 1)) = kstack_va i - 32768) as ->.
  { change KSTACKTOP with 4026531840. change KSTKGAP with 32768. unfold kstack_va. change KSTACKTOP with 4026531840.
    change KSTKGAP with 32768. change KSTKSIZE with 32768. rewrite u32_small by lia. lia. }
  assert (kstack_va i = 4026499072 - 65536 * i) as Ev
    by (unfold kstack_va; change KSTACKTOP with 4026531840; change KSTKGAP with 32768; change KSTKSIZE with 32768; lia).
  assert (forall k, -8 <= k < 8 -> PDX (kstack_va i + k * 4096) <> SELF) as Hself.
  { intros k Hk8. rewrite PDX_spec, Ev. change SELF with 957. Z.to_euclidean_division_equations; lia. }
  replace (u32 (kstack_va i - 32768 + KSTKGAP)) with (kstack_va i) by (change KSTKGAP with 32768; rewrite u32_small by lia; lia).
  wp_step. change (Z.to_nat (32768 / PGSIZE)) with 8%nat. change (Z.to_nat (KSTKGAP / PGSIZE)) with 8%nat.
  change KERNBASE with 4026531840 in *.
  apply (wp_assert_mapped _ _ _ PTE_W); [lia|lia|lia|lia| |done| |].
  - replace (pk + i * 32768 - 4026531840) with (pk + (i * 8 - 983040) * 4096) by lia. by rewrite Z.mod_add.
  - intros k Hk8. split; [apply Hself; lia|]. rewrite (km_lookup _ _ _ _ K); [|lia|apply Hself; lia].
    unfold kern_space. rewrite kstacks_in by lia. reflexivity.
  - wp_step. apply wp_assert_unmapped; [lia|lia| |apply IH; [lia|lia|exact HQ] ].
    intros k Hk8. assert (kstack_va i - 32768 + k * 4096 = kstack_va i + (k - 8) * 4096) as E by lia. rewrite E at 1.
    split; [apply Hself; lia|]. rewrite (km_lookup _ _ _ _ K); [apply kern_space_gap; lia|lia|rewrite E; apply Hself; lia].
Qed.

(** The entry of a slot that maps something. *)
Lemma km_entry va e :
  0 <= va < 4294967296 -> PDX va <> SELF -> PDX va <> MMIO_SLOT ->
  kern_space pk (npages s) (c_pages_va (cfg s) - KERNBASE) va = Some e -> exists t, rd32 (ram s) (d * 4096 + 4 * PDX va) = t * 4096 + 7.
Proof.
  intros Hv H1 H2 He. rewrite <- (km_lookup _ _ _ _ K va Hv H1) in He. destruct (km_slots _ _ _ _ K (PDX va) (PDX_range va) H1 H2) as [E|[_ Ht] ]; [|done].
  unfold vm_lookup, tab in He. rewrite E in He. done.
Qed.

Lemma entry_bit t k : 0 <= k < 3 -> truth (Z.land (t * 4096 + 7) (2 ^ k)) = true.
Proof.
  intros Hk3. rewrite land_bit_truth by lia. apply Z.testbit_true; [lia|].
  assert (k = 0 \/ k = 1 \/ k = 2) as [-> | [-> | ->] ] by lia; Z.to_euclidean_division_equations; lia.
Qed.

Lemma tab_present i : tab (ram s) d i <> None -> truth (Z.land (rd32 (ram s) (d * 4096 + 4 * i)) PTE_P) = true.
Proof. unfold tab, present. by destruct (truth _). Qed.

(** The slots the check names are present, the ones from KERNBASE on are also
    writable, and nothing else is set. *)
Lemma km_named i :
  0 < npages s -> i ∈ [PDX IOPHYSMEM; PDX UVPT; PDX (KSTACKTOP - 1); PDX UPAGES; PDX MMIOBASE] ->
  truth (Z.land (rd32 (ram s) (d * 4096 + 4 * i)) PTE_P) = true.
Proof.
  intros Hn Hi. pose proof (wf_npages _ _ (km_wf _ _ _ _ K)) as Hnp. repeat (apply elem_of_cons in Hi as [-> |Hi]); [..|by apply elem_of_nil in Hi].
  - destruct (km_entry IOPHYSMEM _ ltac:(done) ltac:(done) ltac:(done) (kern_space_io pk (npages s) _ 0 ltac:(lia))) as (t & ->).
    by apply (entry_bit t 0).
  - apply tab_present. change (PDX UVPT) with SELF. by rewrite (km_self _ _ _ _ K).
  - pose proof (kstacks_in pk 8 0 0 7) as E. change (kstack_va 0 + 7 * 4096) with (KSTACKTOP - 4096) in E.
    destruct (km_entry (KSTACKTOP - 4096) _ ltac:(done) ltac:(done) ltac:(done) (E _ ltac:(lia) ltac:(lia))) as (t & Et).
    change (PDX (KSTACKTOP - 1)) with (PDX (KSTACKTOP - 4096)). rewrite Et. by apply (entry_bit t 0).
  - assert (0 < (npages s * 8 + 4095) / 4096) by (Z.to_euclidean_division_equations; lia).
    destruct (km_entry UPAGES _ ltac:(done) ltac:(done) ltac:(done) (kern_space_upages pk (npages s) _ Hnp 0 ltac:(lia))) as (t & ->).
    by apply (entry_bit t 0).
  - apply tab_present. change (PDX MMIOBASE) with MMIO_SLOT. apply K.
Qed.

Lemma km_high i : 960 <= i < 1024 -> exists t, rd32 (ram s) (d * 4096 + 4 * i) = t * 4096 + 7.
Proof.
  intros Hi. pose proof (wf_npages _ _ (km_wf _ _ _ _ K)) as Hnp. assert (PDX (KERNBASE + (i - 960) * 1024 * 4096) = i) as E.
  { rewrite PDX_spec. replace (KERNBASE + _) with (i * 4194304) by (change KERNBASE with 4026531840; lia). rewrite Z.div_mul by lia. apply Z.mod_small. lia. }
  rewrite <- E. eapply km_entry; [change KERNBASE with 4026531840; lia|rewrite E; change SELF with 957; lia|rewrite E; change MMIO_SLOT with 958; lia|].
  apply kern_space_kern; lia.
Qed.

Lemma wp_check_pdes n i (Q : unit -> mm_state -> Prop) :
  0 < npages s -> 0 <= i -> i + Z.of_nat n = 1024 -> Q tt s -> wp (check_pdes n (dirp d) i) s Q.
Proof.
  intros Hn. revert i. induction n as [|n IH]; intros i H1 H2 HQ; cbn [check_pdes]; [by wp_step|].
  wp_step. unfold dirp. replace (d * 4096 + KERNBASE + 4 * i) with (d * 4096 + 4 * i + KERNBASE) by lia.
  apply wp_load32; [apply word_ok_page; [apply (km_dir _ _ _ _ K)|lia|apply word_off_mod]|].
  wp_step. assert (wp (check_pdes n (d * 4096 + KERNBASE) (i + 1)) s Q) as Hnext by (apply IH; [lia|lia|exact HQ]).
  case_bool_decide as Hi; [apply wp_assert; [by apply km_named|exact Hnext]|].
  destruct (Z.geb_spec i (PDX KERNBASE)) as [Hh|Hh]; change (PDX KERNBASE) with 960 in Hh.
  - destruct (km_high i ltac:(lia)) as (t & ->). wp_step.
    apply wp_assert; [by apply (entry_bit t 0)|]. apply wp_assert; [by apply (entry_bit t 1)|exact Hnext].
  - apply wp_assert; [|exact Hnext]. apply Z.eqb_eq.
    rewrite !not_elem_of_cons in Hi. change (PDX UVPT) with SELF in Hi. change (PDX MMIOBASE) with MMIO_SLOT in Hi.
    destruct (km_slots _ _ _ _ K i) as [E|[Hs _] ]; [lia|tauto|tauto|exact E|].
    exfalso. apply elem_of_app in Hs as [Hs|Hs%elem_of_seqZ]; [|lia].
    rewrite !elem_of_cons, elem_of_nil in Hs. change (PDX MMIOBASE) with MMIO_SLOT in Hs. tauto.
Qed.
End CheckKern.

Lemma kern_mapped_cfg pk g s l d :
  kern_mapped pk s l d -> c_npages (g (cfg s)) = npages s -> c_kern_pgdir (g (cfg s)) = kern_pgdir s ->
  c_pages_va (g (cfg s)) = c_pages_va (cfg s) -> kern_mapped pk (upd_cfg g s) l d.
Proof.
  intros [W D Hk Hs Hv Hz Hm] Hnp Hkp Hpv. split; try done.
  - by apply upd_cfg_wf.
  - destruct D as [D1 D2 D3 D4]. split; try done; unfold npages; cbn; rewrite Hnp; done.
  - unfold kern_pgdir. cbn. by rewrite Hkp.
  - unfold npages. cbn. by rewrite Hnp, Hpv.
Qed.

Lemma undisturbed_mapped pk s l s' l' d : undisturbed s l s' l' -> kern_mapped pk s l d -> kern_mapped pk s' l' d.
Proof.
  intros U [W D Hk Hs Hv Hz Hm]. pose proof (dw_live _ _ _ D) as Hl.
  pose proof (fun f : mm_cfg -> Z => f_equal f (ud_cfg _ _ _ _ U)) as Ec. split.
  - apply U.
  - by eapply undisturbed_dir.
  - rewrite <- Hk. exact (Ec c_kern_pgdir).
  - rewrite (undisturbed_tab _ _ _ _ _ _ U); [done|done|by vm_compute].
  - intros va H1 H2. rewrite (undisturbed_lookup _ _ _ _ _ _ U D H2).
    rewrite (same_cfg_npages _ _ (ud_cfg _ _ _ _ U)), (Ec c_pages_va : c_pages_va (cfg s') = c_pages_va (cfg s)). by apply Hv.
  - intros i H1 H2 H3. rewrite (ud_ram _ _ _ _ U) by (done || lia). by apply Hz.
  - rewrite (undisturbed_tab _ _ _ _ _ _ U); [done|done|by vm_compute].
Qed.

(** All the assertions on the kernel's address space hold, and nothing changes. *)
Lemma wp_check_kern_pgdir pk s l d :
  kern_mapped pk s l d -> 0 < npages s -> KERNBASE <= pk -> pk + 8 * KSTKSIZE <= 4294967296 -> pk mod 4096 = 0 ->
  KERNBASE <= c_pages_va (cfg s) -> c_pages_va (cfg s) + npages s * 8 <= 4294963200 -> c_pages_va (cfg s) mod 4096 = 0 ->
  wp (check_kern_pgdir pk) s (fun _ s' => undisturbed s l s' l).
Proof.
  intros K Hn Hk Hk' Hka Hp Hp' Hpa. pose proof (wf_npages _ _ (km_wf _ _ _ _ K)) as Hnp.
  unfold check_kern_pgdir. wp_step. wp_step. rewrite (km_kern _ _ _ _ K). wp_step.
  apply (wp_assert_mapped s l d pk K _ _ _ (Z.lor PTE_W PTE_P)); [by vm_compute..| |].
  { change (Z.of_nat _) with 96. intros k Hk96. assert (PDX (IOPHYSMEM + k * 4096) <> SELF) as Hs.
    { rewrite PDX_spec. change IOPHYSMEM with 655360. change SELF with 957. Z.to_euclidean_division_equations. lia. }
    split; [exact Hs|]. rewrite (km_lookup _ _ _ _ K); [by apply kern_space_io|change IOPHYSMEM with 655360; lia|exact Hs]. }
  wp_step. wp_step. wp_step. wp_step. wp_step. apply wp_PADDR; [unfold KERNBASE in *; lia|]. wp_step. cbv zeta.
  assert (0 <= (npages s * 8 + 4095) / 4096 <= 128 /\ (npages s * 8 + 4095) / 4096 * 4096 <= npages s * 8 + 4095) as [Hu Hu']
    by (Z.to_euclidean_division_equations; lia).
  assert (ROUNDUP (u32 (npages s * sizeof_PageInfo)) PGSIZE / PGSIZE = (npages s * 8 + 4095) / 4096) as ->
    by (unfold sizeof_PageInfo; rewrite u32_small, ROUNDUP_spec by lia; by apply Z.div_mul).
  set (nu := (npages s * 8 + 4095) / 4096) in *.
  apply (wp_assert_mapped s l d pk K _ _ _ (Z.lor PTE_U PTE_P)); rewrite ?Z2Nat.id by lia.
  1-4: change UPAGES with 4009754624; change KERNBASE with 4026531840 in *; lia.
  { change KERNBASE with (983040 * 4096). by rewrite Zminus_mod, Z.mod_mul, Z.sub_0_r, Hpa. }
  { by vm_compute. }
  { intros k Hku. assert (PDX (UPAGES + k * 4096) <> SELF) as Hs.
    { rewrite PDX_spec. change UPAGES with 4009754624. change SELF with 957. Z.to_euclidean_division_equations. lia. }
    split; [exact Hs|]. rewrite (km_lookup _ _ _ _ K); [by apply kern_space_upages|change UPAGES with 4009754624; lia|exact Hs]. }
  wp_step. replace (u32 (npages s * PGSIZE) / PGSIZE) with (npages s) by (unfold PGSIZE; rewrite u32_small, Z.div_mul by lia; lia).
  apply (wp_assert_mapped s l d pk K _ _ _ PTE_W); rewrite ?Z2Nat.id by lia.
  1-4: change KERNBASE with 4026531840; lia.
  1-2: done.
  { intros k Hkn. assert (PDX (KERNBASE + k * 4096) <> SELF) as Hs.
    { rewrite PDX_spec. change KERNBASE with 4026531840. change SELF with 957. Z.to_euclidean_division_equations. lia. }
    split; [exact Hs|]. rewrite (km_lookup _ _ _ _ K); [apply kern_space_kern; lia|change KERNBASE with 4026531840; lia|exact Hs]. }
  wp_step. apply (wp_check_kstacks s l d pk K Hk Hk' Hka); [lia|done|].
  wp_step. apply (wp_check_pdes s l d pk K); [exact Hn|lia|done|]. unfold printk. wp_step.
  split; [apply upd_cfg_wf; [apply K|done]|done|done|done|done].
Qed.

(** ** check_page_free_list *)

(** The free pages are as the check wants them. *)
Record free_ok (s : mm_state) (l : list Z) : Prop := {
  fo_next : nextfree s <> 0;
  fo_good : forall p, p ∈ l -> good_free (nextfree s) p;
  fo_low : exists p, p ∈ l /\ p < 256;
  fo_high : exists p, p ∈ l /\ ~ p < 256
}.

Lemma free_ok_perm s l s' l' : free_ok s l -> l' ≡ₚ l -> nextfree s' = nextfree s -> free_ok s' l'.
Proof.
  intros [F1 F2 (p & Hp & Hlo) (q & Hq & Hhi)] E En. split; rewrite ?En.
  - done.
  - intros x. rewrite E. apply F2.
  - exists p. by rewrite E.
  - exists q. by rewrite E.
Qed.

(** With or without moving the low pages to the front, the check passes and writes
    to free pages only. *)
Lemma wp_check_free_list e b s l :
  mm_wf s l -> free_ok s l -> wp (check_page_free_list e b) s (fun _ s' => exists l', undisturbed s l s' l').
Proof.
  intros W F. unfold check_page_free_list. wp_step. wp_step. rewrite bool_decide_eq_false_2.
  2:{ intros E. pose proof (wf_list s l W) as H. destruct (fo_low _ _ F) as (p & Hp & _). rewrite E in H.
      destruct l; [by apply elem_of_nil in Hp|]. by destruct H as [? _]. }
  wp_step. wp_step. wp_step.
  assert (wp (when b (low_pages_first (if b then 1 else NPDENTRIES))) s
    (fun _ s1 => exists l1, l1 ≡ₚ l /\ mm_wf s1 l1 /\ cfg s1 = cfg s /\ ram s1 = ram s /\ forall i, i ∉ l -> pages s1 !! i = pages s !! i)) as H.
  { destruct b; unfold when; [|wp_step; by exists l]. eapply wp_mono; [by apply low_pages_first_ok|].
    intros u s1 (W1 & (Hc & Hr) & Hp). exists (low_high 1 l). split_and!; [apply low_high_perm|done..]. }
  eapply wp_mono; [exact H|]. clear H. intros u s1 (l1 & Hp & W1 & Hc & Hr & Hpg). cbv beta.
  destruct (free_ok_perm s l s1 l1 F Hp ltac:(unfold nextfree; by rewrite Hc)) as [F1 F2 F3 F4].
  eapply wp_mono; [eapply (check_free_list_tail e s1 l1); eassumption|].
  intros v s2 (W2 & (log & Hc2) & Hpg2 & Hm). exists l1. split.
  - done.
  - done.
  - unfold same_cfg. by rewrite Hc2, Hc.
  - intros q Hq. rewrite Hpg2. by apply Hpg.
  - intros q o Hq Ho. unfold rd32. rewrite Hm, Hr; [done|]. intros p Hpl _ Hin. apply Hq. rewrite <- Hp.
    assert (p = q) as <- by lia. done.
Qed.

(** ** check_page_installed_pgdir *)

(** Nothing of the kernel is at one megabyte. *)
Lemma kern_space_ext pk np pgs_pa va : PGNUM EXTPHYSMEM = PGNUM va -> kern_space pk np pgs_pa va = None.
Proof.
  change (PGNUM EXTPHYSMEM) with 256. intros E. rewrite kern_space_low by lia. rewrite !map_range_out; [done|..].
  - left. change (PGNUM UPAGES) with 978944. lia.
  - right. change (PGNUM IOPHYSMEM) with 160. lia.
Qed.

Section Installed.
Context (s : mm_state) (a b c : Z) (l : list Z) (d pk t g : Z) (Hg : g <> 0).
Context (K : kern_mapped pk s (a :: b :: c :: l) d) (Ht : tab (ram s) d 0 = Some t) (Hcr : c_cr3 (cfg s) = d * 4096).

#[local] Abbreviation L := (a :: b :: c :: l).

(** The word of the entry for the test's address. *)
#[local] Abbreviation ent := (t * 4096 + 4 * PTX EXTPHYSMEM).

(** A state of the test: [f] are the free pages and [e] is the entry. *)
Record held (s1 : mm_state) (f : list Z) (e : Z) : Prop := {
  hd_wf : mm_wf s1 f;
  hd_sub : forall q, q ∈ f -> q ∈ L;
  hd_cfg : same_cfg s s1;
  hd_ram : forall q o, q ∉ L -> 0 <= o < 4096 -> q * 4096 + o <> ent -> rd32 (ram s1) (q * 4096 + o) = rd32 (ram s) (q * 4096 + o);
  hd_ent : rd32 (ram s1) ent = e
}.

Lemma inst_table : 0 <= t < npages s /\ (t ∉ L) /\ t <> d.
Proof. apply (dw_tab _ _ _ (km_dir _ _ _ _ K) 0); [lia|done|exact Ht]. Qed.

Section Held.
Context (s1 : mm_state) (f : list Z) (e : Z) (H : held s1 f e).

Lemma held_npages : npages s1 = npages s.
Proof. apply same_cfg_npages, H. Qed.

Lemma held_slot i : 0 <= i < 1024 -> rd32 (ram s1) (d * 4096 + 4 * i) = rd32 (ram s) (d * 4096 + 4 * i).
Proof.
  intros Hi. destruct inst_table as (_ & _ & Hne). apply (hd_ram _ _ _ H); [apply K|lia|].
  pose proof (PTX_range EXTPHYSMEM). intros ?%page_off_inj; lia.
Qed.

Lemma held_tab i : 0 <= i < 1024 -> tab (ram s1) d i = tab (ram s) d i.
Proof. intros Hi. unfold tab. by rewrite held_slot. Qed.

Lemma held_dir : dir_wf s1 f d.
Proof. eapply dir_wf_ext; [apply K|apply held_npages|apply H|apply held_tab]. Qed.

Lemma held_lookup va :
  PDX va <> SELF ->
  vm_lookup (ram s1) d va = if same_page EXTPHYSMEM va then (if present e then Some e else None) else vm_lookup (ram s) d va.
Proof.
  intros Hs. destruct (same_page EXTPHYSMEM va) eqn:E.
  - unfold same_page in E. apply andb_true_iff in E as [E1%Z.eqb_eq E2%Z.eqb_eq]. unfold vm_lookup.
    rewrite held_tab by apply PDX_range. rewrite <- E1, <- E2. change (PDX EXTPHYSMEM) with 0. rewrite Ht.  by rewrite (hd_ent _ _ _ H).
  - apply vm_lookup_ext; [apply held_tab, PDX_range|]. intros t' Ht'. pose proof (PTX_range va). pose proof (PTX_range EXTPHYSMEM).
    destruct (dw_tab _ _ _ (km_dir _ _ _ _ K) _ t' (PDX_range va) Hs Ht') as (_ & Hl & _).
    apply (hd_ram _ _ _ H); [exact Hl|lia|]. intros [-> E2]%page_off_inj; [|lia..].
    assert (PDX va = 0) as E1 by (eapply (dw_inj _ _ _ (km_dir _ _ _ _ K)); [apply PDX_range|lia|exact Hs|done|exact Ht'|exact Ht]).
    unfold same_page in E. change (PDX EXTPHYSMEM) with 0 in E. rewrite E1 in E. replace (PTX va) with (PTX EXTPHYSMEM) in E by lia.
    by rewrite !Z.eqb_refl in E.
Qed.

Lemma held_frame x r : x ∈ L -> x ∉ f -> pages s1 !! x = Some (mkPage None r) -> frame s1 f d x r.
Proof.
  intros Hx Hf Hp. split; [done|done| |].
  - intros ->. by apply (dw_live _ _ _ (km_dir _ _ _ _ K)).
  - intros i Hi E. rewrite held_tab in E by done. destruct (decide (i = SELF)) as [->|Hs].
    + rewrite (km_self _ _ _ _ K) in E. injection E as ->. by apply (dw_live _ _ _ (km_dir _ _ _ _ K)).
    + by destruct (dw_tab _ _ _ (km_dir _ _ _ _ K) i x Hi Hs E) as (_ & Hn & _).
Qed.

Lemma held_ent_ok : word_ok s1 ent = true.
Proof.
  pose proof (PTX_range EXTPHYSMEM). destruct inst_table as (Hr & _). apply word_ok_page; [rewrite held_npages; exact Hr|lia|apply word_off_mod].
Qed.

(** A word of another page, written from outside. *)
Lemma held_data m x :
  x ∈ L -> mm_wf (set_ram m s1) f -> (forall q o, q <> x -> 0 <= o < 4096 -> rd32 m (q * 4096 + o) = rd32 (ram s1) (q * 4096 + o)) ->
  held (set_ram m s1) f e.
Proof.
  intros Hx W Hm. destruct H as [H1 H2 H3 H4 H5]. split; try done.
  - intros q o Hq Ho He. cbn [ram set_ram]. rewrite Hm; [by apply H4|by intros ->|done].
  - destruct inst_table as (_ & Hl & _). pose proof (PTX_range EXTPHYSMEM). cbn [ram set_ram]. rewrite Hm; [exact H5|by intros ->|lia].
Qed.
End Held.

Lemma ext_slot : PDX EXTPHYSMEM <> SELF.
Proof. done. Qed.

(** Another page on the free list, and another entry. *)
Lemma held_step s1 f e s2 f2 e2 :
  held s1 f e -> mm_wf s2 f2 -> (forall q, q ∈ f2 -> q ∈ L) -> same_cfg s1 s2 ->
  (forall x, x <> ent -> rd32 (ram s2) x = rd32 (ram s1) x) -> rd32 (ram s2) ent = e2 -> held s2 f2 e2.
Proof.
  intros [H1 H2 H3 H4 H5] W Hs Hc Hm He. split; try done.
  - unfold same_cfg in *. congruence.
  - intros q o Hq Ho Hx. rewrite Hm by done. by apply H4.
Qed.

Lemma inst_entry_addr s1 f e q r : held s1 f e -> frame s1 f d q r -> PTE_ADDR (insert_entry q PTE_W) = q * 4096.
Proof.
  intros H F. pose proof (frame_range _ _ _ _ _ (hd_wf _ _ _ H) F). pose proof (wf_npages _ _ (hd_wf _ _ _ H)).
  unfold insert_entry. rewrite page2pa_spec by lia. apply entry_page; [lia|by apply Z.mod_mul|done].
Qed.

Lemma wp_inst_remove s1 f q :
  held s1 f (insert_entry q PTE_W) -> frame s1 f d q 1 -> q ∈ L ->
  wp (page_remove g (dirp d) EXTPHYSMEM) s1 (fun _ s2 => held s2 (q :: f) 0 /\ (forall x, x <> q -> pages s2 !! x = pages s1 !! x)
    /\ forall x, x <> ent -> rd32 (ram s2) x = rd32 (ram s1) x).
Proof.
  intros H F Hq. pose proof (hd_wf _ _ _ H) as W. pose proof (held_dir _ _ _ H) as D.
  assert (tab (ram s1) d (PDX EXTPHYSMEM) = Some t) as Ht1 by (rewrite (held_tab _ _ _ H) by apply PDX_range; exact Ht).
  assert (vm_lookup (ram s1) d EXTPHYSMEM = Some (insert_entry q PTE_W)) as Hv.
  { rewrite (held_lookup _ _ _ H) by done. unfold same_page. rewrite !Z.eqb_refl. cbn [andb]. unfold insert_entry. by rewrite present_lor. }
  eapply wp_eq; [by eapply (page_remove_eq s1 f d EXTPHYSMEM); [..|eapply inst_entry_addr|exact F|lia|exact Hg]|].
  assert (forall x, x <> ent -> rd32 (ram (set_pte (after_decref q 1 s1) EXTPHYSMEM t 0)) x = rd32 (ram s1) x) as Hm.
  { intros x Hx. cbn [ram set_pte set_ram]. rewrite rd32_insert_ne by (by apply not_eq_sym). by rewrite after_decref_ram. }
  split; [|split; [|exact Hm] ].
  - eapply (held_step s1 f); [exact H| | | |exact Hm|].
    + apply upd_cfg_wf; [|done]. apply set_pte_wf; [|lia]. by apply (after_decref_wf s1 f q 1 W); [apply F|apply F|lia].
    + intros x [->|Hx]%elem_of_cons; [exact Hq|by apply H].
    + unfold same_cfg. cbn [cfg upd_cfg set_pte set_ram]. by rewrite after_decref_cfg.
    + cbn [ram upd_cfg set_pte set_ram]. by rewrite rd32_insert_eq.
  - intros x Hx. cbn [pages upd_cfg set_pte set_ram]. by apply after_decref_pages.
Qed.

(** The end of [page_insert], for a page with no reference. *)
Lemma wp_inst_tail s1 f e q :
  held s1 f e -> frame s1 f d q 0 ->
  wp (pi ← page_get q;
      set_pp_ref q (u16 (pp_ref pi + 1)) ;;
      tlb_invalidate (dirp d) EXTPHYSMEM ;;
      store32 (ent + KERNBASE) (insert_entry q PTE_W) ;;
      mret 0) s1 (fun _ s2 => held s2 f (insert_entry q PTE_W) /\ pages s2 = <[q := mkPage None 1]> (pages s1)
        /\ forall x, x <> ent -> rd32 (ram s2) x = rd32 (ram s1) x).
Proof.
  intros H F. pose proof (hd_wf _ _ _ H) as W. pose proof (held_dir _ _ _ H) as D.
  assert (tab (ram s1) d (PDX EXTPHYSMEM) = Some t) as Ht1 by (rewrite (held_tab _ _ _ H) by apply PDX_range; exact Ht).
  eapply wp_mono; [apply (wp_insert_tail s1 f d EXTPHYSMEM t q 0 PTE_W W D ext_slot Ht1 F); done|].
  intros r s2 (_ & W2 & _ & Ec & Ep & _ & Er).
  assert (forall x, x <> ent -> rd32 (ram s2) x = rd32 (ram s1) x) as Hm.
  { intros x Hx. rewrite Er. cbn [ram set_pte set_ram]. by rewrite rd32_insert_ne by (by apply not_eq_sym). }
  split; [|done]. eapply (held_step s1 f); [exact H|exact W2|apply H| |exact Hm|].
  - unfold same_cfg. by rewrite Ec.
  - rewrite Er. cbn [ram set_pte set_ram]. by rewrite rd32_insert_eq.
Qed.

(** [page_insert] where nothing is mapped, and over another page. *)
Lemma wp_inst_new s1 f e q :
  held s1 f e -> present e = false -> frame s1 f d q 0 ->
  wp (page_insert g (dirp d) q EXTPHYSMEM PTE_W) s1 (fun _ s2 => held s2 f (insert_entry q PTE_W)
    /\ pages s2 = <[q := mkPage None 1]> (pages s1) /\ forall x, x <> ent -> rd32 (ram s2) x = rd32 (ram s1) x).
Proof.
  intros H Hp F. assert (tab (ram s1) d (PDX EXTPHYSMEM) = Some t) as Ht1 by (rewrite (held_tab _ _ _ H) by apply PDX_range; exact Ht).
  apply (wp_insert_prefix s1 f d EXTPHYSMEM t q 0 PTE_W g (hd_wf _ _ _ H) (held_dir _ _ _ H) ext_slot Ht1 F).
  cbv zeta. rewrite (hd_ent _ _ _ H), Hp. cbn [andb when]. wp_step. wp_step. by apply (wp_inst_tail s1 f e).
Qed.

Lemma wp_inst_over s1 f p q :
  held s1 f (insert_entry p PTE_W) -> frame s1 f d p 1 -> p ∈ L -> frame s1 f d q 0 -> q ∈ L -> p <> q ->
  wp (page_insert g (dirp d) q EXTPHYSMEM PTE_W) s1 (fun _ s2 => held s2 (p :: f) (insert_entry q PTE_W)
    /\ pages s2 !! q = Some (mkPage None 1) /\ forall x, x <> ent -> rd32 (ram s2) x = rd32 (ram s1) x).
Proof.
  intros H Fp HpL Fq HqL Hne. assert (tab (ram s1) d (PDX EXTPHYSMEM) = Some t) as Ht1 by (rewrite (held_tab _ _ _ H) by apply PDX_range; exact Ht).
  apply (wp_insert_prefix s1 f d EXTPHYSMEM t q 0 PTE_W g (hd_wf _ _ _ H) (held_dir _ _ _ H) ext_slot Ht1 Fq).
  cbv zeta. rewrite (hd_ent _ _ _ H), (inst_entry_addr s1 f _ p 1 H Fp). unfold insert_entry at 1. rewrite present_lor.
  destruct (Z.eqb_spec (p * 4096) (q * 4096)); [lia|]. cbn [andb].
  replace (present (insert_entry p PTE_W)) with true by (unfold insert_entry; by rewrite present_lor). cbn [when]. wp_step.
  eapply wp_mono; [by apply (wp_inst_remove s1 f p)|]. intros u s2 (H2 & Hp2 & Hm2). cbv beta.
  eapply wp_mono; [apply (wp_inst_tail s2 (p :: f) 0 q H2)|].
  - apply (held_frame s2 (p :: f) 0 H2); [exact HqL|apply not_elem_of_cons; split; [congruence|apply Fq]|].
    rewrite Hp2 by congruence. apply Fq.
  - intros r s3 (H3 & Hp3 & Hm3). split; [exact H3|]. split; [rewrite Hp3; by rewrite lookup_insert_eq|].
    intros x Hx. by rewrite Hm3, Hm2.
Qed.

(** A word through the address space in %cr3. *)
Lemma wp_inst_virt s1 f q r (Q : Z -> mm_state -> Prop) :
  held s1 f (insert_entry q PTE_W) -> frame s1 f d q r -> Q (q * 4096) s1 -> wp (virt_word EXTPHYSMEM) s1 Q.
Proof.
  intros H F HQ. unfold virt_word. wp_step. wp_step.
  assert (c_cr3 (cfg s1) = d * 4096) as -> by (rewrite <- Hcr; exact (f_equal c_cr3 (hd_cfg _ _ _ H))). rewrite Z.div_mul by lia.
  rewrite (held_lookup _ _ _ H) by done. unfold same_page. rewrite !Z.eqb_refl. cbn [andb].
  replace (present (insert_entry q PTE_W)) with true by (unfold insert_entry; by rewrite present_lor).
  wp_step. rewrite (inst_entry_addr s1 f _ q r H F). change (PGOFF EXTPHYSMEM) with 0. by rewrite Z.add_0_r.
Qed.

Lemma inst_word_ok s1 f e q r : held s1 f e -> frame s1 f d q r -> word_ok s1 (q * 4096) = true.
Proof.
  intros H F. rewrite <- (Z.add_0_r (q * 4096)). apply word_ok_page; [|lia|done]. exact (frame_range _ _ _ _ _ (hd_wf _ _ _ H) F).
Qed.

Lemma inst_free s1 f e q : held s1 f e -> q ∈ f -> exists pi, pages s1 !! q = Some pi /\ pp_ref pi = 0.
Proof.
  intros H Hq. pose proof (hd_wf _ _ _ H) as W. destruct (flist_dom _ _ _ _ (wf_list _ _ W) Hq) as [pi E].
  exists pi. split; [exact E|]. exact (flist_ref _ _ _ _ _ (wf_list _ _ W) Hq E).
Qed.

Lemma wp_ref_is q r pi s1 (Q : unit -> mm_state -> Prop) :
  pages s1 !! q = Some pi -> pp_ref pi = r -> Q tt s1 -> wp (ref_is q r) s1 Q.
Proof. intros Hp Hr HQ. unfold ref_is. wp_step. eapply wp_page_get; [exact Hp|]. apply wp_assert; [by apply Z.eqb_eq|exact HQ]. Qed.

(** With nothing mapped and every page back, the kernel's directory is as before. *)
Lemma held_mapped s1 f e : held s1 f e -> present e = false -> f ≡ₚ L -> kern_mapped pk s1 f d /\ conserved d s L s1 f.
Proof.
  intros H Hp Hf. split.
  - split.
    + apply H.
    + by eapply held_dir.
    + rewrite <- (km_kern _ _ _ _ K). exact (f_equal c_kern_pgdir (hd_cfg _ _ _ H)).
    + rewrite (held_tab _ _ _ H) by by vm_compute. apply K.
    + intros va Hva Hs. rewrite (held_lookup _ _ _ H va Hs), Hp, (held_npages _ _ _ H).
      assert (c_pages_va (cfg s1) = c_pages_va (cfg s)) as -> by exact (f_equal c_pages_va (hd_cfg _ _ _ H)).
      destruct (same_page EXTPHYSMEM va) eqn:E; [|by apply K].
      rewrite same_page_spec in E by done. apply Z.eqb_eq in E. by rewrite kern_space_ext.
    + intros i Hi. rewrite (held_slot _ _ _ H i Hi). by apply K.
    + rewrite (held_tab _ _ _ H) by by vm_compute. apply K.
  - split; [rewrite Hf; f_equiv; rewrite (tables_ext (ram s)); [done|]; intros i Hi; exact (held_tab _ _ _ H i Hi)|].
    intros q o _ [Hq Hl]%not_elem_of_app Ho. apply (hd_ram _ _ _ H); [exact Hl|exact Ho|]. pose proof (PTX_range EXTPHYSMEM).
    intros [-> _]%page_off_inj; [|lia..]. apply Hq, tables_elem. exists 0. split; [lia|exact Ht].
Qed.

Lemma inst_range q : q ∈ L -> 0 <= q < npages s.
Proof. intros Hq. apply (wf_dom _ _ (km_wf _ _ _ _ K)). eapply flist_dom; [apply K|exact Hq]. Qed.

(** [memset(page2kva(pp), v, PGSIZE)] of a page of the test. *)
Lemma wp_inst_memset {X} s1 f e q v (F : M mm_state X) (Q : X -> mm_state -> Prop) :
  held s1 f e -> q ∈ L -> 0 <= v < 256 ->
  (forall s2, held s2 f e -> pages s2 = pages s1 -> rd32 (ram s2) (q * 4096) = v * 16843009 ->
     (forall x, x <> q -> rd32 (ram s2) (x * 4096) = rd32 (ram s1) (x * 4096)) -> wp F s2 Q) ->
  wp (k ← page2kva q; memset k v PGSIZE ;; F) s1 Q.
Proof.
  intros H Hq Hv HQ. pose proof (inst_range q Hq) as Hr. pose proof (wf_npages _ _ (km_wf _ _ _ _ K)). pose proof (held_npages _ _ _ H) as En.
  wp_step. apply wp_page2kva; [lia|lia|]. wp_step. apply (wp_memset_page s1 f); [apply H|lia|exact Hv|].
  intros m Hout Hin W. apply HQ; [by apply (held_data s1 f e H m q)|done| |].
  - cbn [ram set_ram]. rewrite <- (Z.add_0_r (q * 4096)). by apply Hin.
  - intros x Hx. cbn [ram set_ram]. rewrite <- (Z.add_0_r (x * 4096)). by apply Hout.
Qed.

Lemma inst_off x : x ∈ L -> x * 4096 <> ent.
Proof.
  intros Hx E. destruct inst_table as (_ & Hl & _). pose proof (PTX_range EXTPHYSMEM). assert (x = t) as -> by lia. done.
Qed.

Lemma wp_inst_load s1 f q r (Q : Z -> mm_state -> Prop) :
  held s1 f (insert_entry q PTE_W) -> frame s1 f d q r -> Q (rd32 (ram s1) (q * 4096)) s1 -> wp (load_virt EXTPHYSMEM) s1 Q.
Proof.
  intros H F HQ. unfold load_virt. wp_step. eapply wp_inst_virt; [exact H|exact F|]. apply wp_load32; [by eapply inst_word_ok|exact HQ].
Qed.

Lemma wp_inst_store s1 f q r v (Q : unit -> mm_state -> Prop) :
  held s1 f (insert_entry q PTE_W) -> frame s1 f d q r -> q ∈ L -> 0 <= v < 4294967296 ->
  (forall s2, held s2 f (insert_entry q PTE_W) -> pages s2 = pages s1 -> rd32 (ram s2) (q * 4096) = v -> Q tt s2) ->
  wp (store_virt EXTPHYSMEM v) s1 Q.
Proof.
  intros H F Hq Hv HQ. unfold store_virt. wp_step. eapply wp_inst_virt; [exact H|exact F|].
  apply wp_store32; [by eapply inst_word_ok|]. apply HQ; [|done|cbn [ram set_ram]; by rewrite rd32_insert_eq].
  apply (held_data s1 f _ H _ q Hq); [apply set_ram_insert_wf; [apply H|exact Hv]|].
  intros x o Hx Ho. rewrite rd32_insert_ne; [done|]. lia.
Qed.

Lemma wp_inst_use s1 f e :
  held s1 f e -> present e = false -> b <> c -> b ∉ f -> c ∉ f ->
  pages s1 !! b = Some (mkPage None 0) -> pages s1 !! c = Some (mkPage None 0) ->
  wp (check_installed_use g (dirp d) b c) s1 (fun _ s2 => held s2 (c :: b :: f) 0).
Proof.
  intros H He N Hb Hc Pb Pc. assert (b ∈ L /\ c ∈ L) as [Lb Lc] by (rewrite !elem_of_cons; tauto).
  pose proof (wf_npages _ _ (km_wf _ _ _ _ K)). unfold check_installed_use.
  apply (wp_inst_memset s1 f e b 1); [exact H|exact Lb|lia|]. intros s2 H2 P2 Vb2 _.
  apply (wp_inst_memset s2 f e c 2); [exact H2|exact Lc|lia|]. intros s3 H3 P3 Vc3 V3.
  assert (frame s3 f d b 0) as Fb by (apply (held_frame s3 f e H3); [exact Lb|exact Hb|by rewrite P3, P2]).
  wp_step. eapply wp_mono; [by apply (wp_inst_new s3 f e b)|]. intros r4 s4 (H4 & P4 & V4). cbv beta.
  assert (pages s4 !! b = Some (mkPage None 1)) as Pb4 by (rewrite P4; apply lookup_insert_eq).
  assert (pages s4 !! c = Some (mkPage None 0)) as Pc4 by (by rewrite P4, lookup_insert_ne, P3, P2 by congruence).
  wp_step. eapply wp_ref_is; [exact Pb4|done|].
  pose proof (held_frame s4 f _ H4 b 1 Lb Hb Pb4) as Fb4. pose proof (held_frame s4 f _ H4 c 0 Lc Hc Pc4) as Fc4.
  wp_step. eapply wp_inst_load; [exact H4|exact Fb4|]. wp_step. apply wp_assert.
  { rewrite V4 by by apply inst_off. rewrite V3 by congruence. by rewrite Vb2. }
  wp_step. eapply wp_mono; [by apply (wp_inst_over s4 f b c)|]. intros r5 s5 (H5 & Pc5 & V5). cbv beta.
  assert (c ∉ b :: f) as Hc5 by (apply not_elem_of_cons; split; [congruence|exact Hc]).
  pose proof (held_frame s5 (b :: f) _ H5 c 1 Lc Hc5 Pc5) as Fc5.
  wp_step. eapply wp_inst_load; [exact H5|exact Fc5|]. wp_step. apply wp_assert.
  { rewrite V5, V4 by by apply inst_off. by rewrite Vc3. }
  wp_step. eapply wp_ref_is; [exact Pc5|done|].
  destruct (inst_free s5 _ _ b H5 ltac:(by left)) as (pb & Pb5 & Rb5). wp_step. eapply wp_ref_is; [exact Pb5|exact Rb5|].
  wp_step. eapply wp_inst_store; [exact H5|exact Fc5|exact Lc|lia|]. intros s6 H6 P6 V6.
  rewrite <- P6 in Pc5. pose proof (held_frame s6 (b :: f) _ H6 c 1 Lc Hc5 Pc5) as Fc6.
  pose proof (inst_range c Lc). pose proof (held_npages _ _ _ H6) as En. wp_step. apply wp_page2kva; [lia|lia|].
  wp_step. apply wp_load32; [by eapply inst_word_ok|]. wp_step. apply wp_assert; [by rewrite V6|].
  wp_step. eapply wp_mono; [by apply (wp_inst_remove s6 (b :: f) c)|]. intros u s7 (H7 & _ & _). cbv beta.
  destruct (inst_free s7 _ _ c H7 ltac:(by left)) as (pc & Pc7 & Rc7). eapply wp_ref_is; [exact Pc7|exact Rc7|exact H7].
Qed.

Lemma wp_check_installed :
  wp (check_page_installed_pgdir g) s (fun _ s' => exists l', kern_mapped pk s' l' d /\ conserved d s L s' l' /\ l' ≡ₚ L /\ same_cfg s s').
Proof.
  pose proof (km_wf _ _ _ _ K) as W. destruct (borrow_distinct s a b c l W) as (N1 & N2 & N3 & La & Lb & Lc).
  unfold check_page_installed_pgdir. wp_step. wp_step. rewrite (km_kern _ _ _ _ K).
  apply (wp_borrow s a b c l _ _ W). intros s3 W3 C3 R3 P3. wp_step.
  eapply wp_page_free; [exact W3| |exact La|].
  { rewrite P3, !lookup_insert_ne by congruence. apply lookup_insert_eq. }
  intros s4 W4 P4 C4 R4.
  assert (held s4 (a :: l) (rd32 (ram s) ent)) as H4.
  { split; [exact W4|intros q; rewrite !elem_of_cons; tauto|unfold same_cfg; by rewrite C4, C3|by rewrite R4, R3..]. }
  assert (present (rd32 (ram s) ent) = false) as Hn.
  { pose proof (km_lookup _ _ _ _ K EXTPHYSMEM ltac:(done) ext_slot) as Hv. rewrite kern_space_ext in Hv by done.
    unfold vm_lookup in Hv. change (PDX EXTPHYSMEM) with 0 in Hv. rewrite Ht in Hv. by destruct (present _). }
  wp_step. eapply wp_mono; [apply (wp_inst_use s4 (a :: l) _ H4 Hn N3)|].
  - by apply not_elem_of_cons.
  - by apply not_elem_of_cons.
  - rewrite P4, P3, lookup_insert_ne by congruence. apply lookup_insert_eq.
  - rewrite P4, P3 by congruence. apply lookup_insert_eq.
  - intros u s5 H5. cbv beta in H5. unfold printk. wp_step. exists (c :: b :: a :: l).
    assert (c :: b :: a :: l ≡ₚ L) as Hp by (by rewrite (Permutation_swap b a), (Permutation_swap c a), (Permutation_swap c b)).
    destruct (held_mapped s5 _ 0 H5 eq_refl Hp) as [K5 C5]. split; [by apply kern_mapped_cfg|]. split; [exact C5|]. split; [exact Hp|apply H5].
Qed.
End Installed.

(** The first slot has a table, for the I/O hole. *)
Lemma km_io_table pk s l d : kern_mapped pk s l d -> exists t, tab (ram s) d 0 = Some t.
Proof.
  intros K. pose proof (dw_dir _ _ _ (km_dir _ _ _ _ K)). pose proof (km_named s l d pk K (PDX IOPHYSMEM) ltac:(lia) ltac:(by left)) as E.
  change (PDX IOPHYSMEM) with 0 in E. unfold tab, present. rewrite E. eauto.
Qed.

(** ** Loading %cr3 and turning paging on *)

Lemma kern_mapped_dir pk s l d : kern_mapped pk s l d -> 0 <= d < 65536.
Proof. intros K. pose proof (dw_dir _ _ _ (km_dir _ _ _ _ K)). pose proof (wf_npages _ _ (km_wf _ _ _ _ K)). lia. Qed.

Lemma wp_mem_init_paging e pk s l d :
  kern_mapped pk s l d -> free_ok s l ->
  wp (mem_init_paging e) s (fun _ s' => exists l' cr0, kern_mapped pk s' l' d /\ conserved d s l s' l' /\ l' ≡ₚ l
    /\ core_cfg (cfg s') = set_crs (d * 4096) cr0 (core_cfg (cfg s))
    /\ truth (Z.land cr0 CR0_PG) = true /\ truth (Z.land cr0 CR0_WP) = true).
Proof.
  intros K F. pose proof (kern_mapped_dir _ _ _ _ K) as Hd. unfold mem_init_paging. wp_step. wp_step. rewrite (km_kern _ _ _ _ K).
  wp_step. unfold dirp. apply wp_PADDR; [unfold KERNBASE; lia|]. rewrite Z.add_simpl_r. wp_step. wp_step. wp_step. wp_step. wp_step.
  set (s1 := upd_cfg _ s). assert (kern_mapped pk s1 l d) as K1 by (by apply kern_mapped_cfg).
  eapply wp_mono; [apply (wp_check_free_list e false s1 l); [apply K1|]|].
  { by apply (free_ok_perm s l). }
  intros u s2 (l2 & U). cbv zeta. wp_step. pose proof (undisturbed_mapped _ _ _ _ _ _ U K1) as K2.
  exists l2. eexists. split; [by apply kern_mapped_cfg|].
  split; [exact (undisturbed_conserved _ _ _ _ d U (dw_live _ _ _ (km_dir _ _ _ _ K1)))|]. split; [apply U|].
  split; [transitivity (set_crs (d * 4096) (Z.land (Z.lor (c_cr0 (cfg s)) (Z.lor (Z.lor (Z.lor (Z.lor (Z.lor CR0_PE CR0_PG) CR0_AM) CR0_WP) CR0_NE) CR0_MP)) (lnot32 (Z.lor CR0_TS CR0_EM))) (core_cfg (cfg s2))); [done|]|].
  { rewrite (ud_cfg _ _ _ _ U). done. }
  change CR0_PG with (2 ^ 31). change CR0_WP with (2 ^ 16). rewrite !land_bit_truth by lia. split.
  - rewrite Z.land_spec, Z.lor_spec. rewrite (orb_comm (Z.testbit (c_cr0 _) _)). by vm_compute.
  - rewrite Z.land_spec, Z.lor_spec. rewrite (orb_comm (Z.testbit (c_cr0 _) _)). by vm_compute.
Qed.

(** ** The tests and mappings in a row *)

(** The state [mem_init_alloc] leaves: the directory holds the self map only, and
    there are pages to spare on both sides of the I/O hole. *)
Record booted (s : mm_state) (l : list Z) (d : Z) : Prop := {
  bt_bare : bare s l d;
  bt_mmio : c_mmio_base (cfg s) = MMIOBASE;
  bt_next : nextfree s <> 0;
  bt_good : forall p, p ∈ l -> good_free (nextfree s) p;
  bt_low : 69 < Z.of_nat (length (filter (fun p => p < 256) l));
  bt_high : 79 < Z.of_nat (length (filter (fun p => ~ p < 256) l));
  bt_placed : placed s
}.

Lemma booted_free s l d k s' l' :
  booted s l d -> (k <= 69)%nat -> NoDup l' -> shrinks k l l' -> nextfree s' = nextfree s -> free_ok s' l'.
Proof.
  intros B Hk Hnd Hs En. split; rewrite ?En.
  - apply B.
  - intros p Hp. apply (bt_good _ _ _ B). by apply Hs.
  - eapply shrinks_keeps; [exact Hnd|exact Hs|]. pose proof (bt_low _ _ _ B). lia.
  - eapply shrinks_keeps; [exact Hnd|exact Hs|]. pose proof (bt_high _ _ _ B). lia.
Qed.

Lemma booted_length s l d : booted s l d -> (150 <= length l)%nat.
Proof.
  intros B. pose proof (bt_low _ _ _ B) as H1. pose proof (bt_high _ _ _ B) as H2.
  rewrite <- (filter_app_complement (fun p : Z => p < 256) l), length_app. lia.
Qed.

Section Tests.
Context (e pk g : Z) (Hg : g <> 0) (Hk : KERNBASE <= pk) (Hk' : pk + 8 * KSTKSIZE <= 4294967296) (Hka : pk mod 4096 = 0).

(** The same variables, up to %cr3, %cr0, the MMIO pointer and the messages. *)
Definition cfg_kept (c c' : mm_cfg) : Prop :=
  c_npages c' = c_npages c /\ c_nextfree c' = c_nextfree c /\ c_kern_pgdir c' = c_kern_pgdir c /\ c_pages_va c' = c_pages_va c.

(** What [mem_init] leaves, [l] being the free pages before the tests. *)
Record mem_ready (s : mm_state) (l : list Z) (d : Z) (s' : mm_state) (l' : list Z) : Prop := {
  mr_mapped : kern_mapped pk s' l' d;
  mr_conserved : conserved d s l s' l';
  mr_free : shrinks 69 l l';
  mr_kept : cfg_kept (cfg s) (cfg s');
  mr_mmio : c_mmio_base (cfg s') = mmio_va 3;
  mr_cr3 : c_cr3 (cfg s') = d * 4096;
  mr_cr0 : truth (Z.land (c_cr0 (cfg s')) CR0_PG) = true /\ truth (Z.land (c_cr0 (cfg s')) CR0_WP) = true
}.

Lemma cfg_kept_core c c' : core_cfg c' = core_cfg c -> cfg_kept c c'.
Proof.
  intros E. split_and!; [exact (f_equal c_npages E)|exact (f_equal c_nextfree E)|exact (f_equal c_kern_pgdir E)|exact (f_equal c_pages_va E)].
Qed.

Lemma cfg_kept_trans c1 c2 c3 : cfg_kept c1 c2 -> cfg_kept c2 c3 -> cfg_kept c1 c3.
Proof. unfold cfg_kept. intuition congruence. Qed.

Lemma cfg_kept_placed s s' : cfg_kept (cfg s) (cfg s') -> placed s -> placed s'.
Proof. intros (E1 & E2 & E3 & E4). unfold placed, npages, kern_pgdir. by rewrite E1, E3, E4. Qed.

(** Before the mappings: the list, the allocator and the page tables are tested. *)
Lemma wp_tests_before {X} s l d (F : M mm_state X) (Q : X -> mm_state -> Prop) :
  booted s l d ->
  (forall s' l', bare s' l' d -> tab (ram s') d MMIO_SLOT <> None -> conserved d s l s' l' -> shrinks 1 l l' ->
     cfg_kept (cfg s) (cfg s') -> c_mmio_base (cfg s') = mmio_va 3 -> wp F s' Q) ->
  wp (check_page_free_list e true ;; check_page_alloc ;; check_page g ;; F) s Q.
Proof.
  intros B HQ. pose proof (booted_length _ _ _ B) as Hl. pose proof (bt_bare _ _ _ B) as Br. wp_step.
  eapply wp_mono; [apply (wp_check_free_list e true s l); [apply Br|]|].
  { eapply (booted_free s l d 0); [exact B|lia|apply Br|by apply shrinks_perm|done]. }
  intros u1 s1 (l1 & U1). cbv beta. pose proof (undisturbed_bare _ _ _ _ _ U1 Br) as B1. wp_step.
  pose proof (Permutation_length (ud_list _ _ _ _ U1)) as E1. destruct l1 as [|a1 [|b1 [|c1 l1] ] ]; [cbn [length] in E1; lia..|].
  eapply wp_mono; [apply (wp_check_alloc s1 a1 b1 c1 l1 d B1)|].
  { destruct (bt_placed _ _ _ B) as (P1 & _). pose proof (f_equal c_pages_va (ud_cfg _ _ _ _ U1)) as E. cbn in E. rewrite E. unfold KERNBASE in P1. lia. }
  intros u2 s2 (l2 & U2). cbv beta. pose proof (undisturbed_bare _ _ _ _ _ U2 B1) as B2.
  pose proof (undisturbed_trans _ _ _ _ _ _ U1 U2) as U. pose proof (Permutation_length (ud_list _ _ _ _ U)) as E2.
  destruct l2 as [|a2 [|b2 [|c2 l2] ] ]; [cbn [length] in E2; lia..|].
  wp_step. eapply wp_mono; [apply (wp_check_page s2 a2 b2 c2 l2 d g Hg B2)|].
  { rewrite <- (bt_mmio _ _ _ B). exact (f_equal c_mmio_base (ud_cfg _ _ _ _ U)). }
  intros u3 s3 (l3 & [T1 T2 T3 T4 T5]). apply (HQ s3 l3); [exact T1|exact T4| | | |exact (f_equal c_mmio_base T3)].
  - eapply conserved_trans; [exact (undisturbed_conserved _ _ _ _ d U (dw_live _ _ _ (br_dir _ _ _ Br)))|exact T2].
  - apply (shrinks_trans 0 1 _ (a2 :: b2 :: c2 :: l2)); [apply shrinks_perm, U|exact T5].
  - eapply cfg_kept_trans; [apply cfg_kept_core, U|]. unfold cfg_kept.
    pose proof (fun f : mm_cfg -> Z => f_equal f T3) as E. split_and!; [exact (E c_npages)|exact (E c_nextfree)|exact (E c_kern_pgdir)|exact (E c_pages_va)].
Qed.

(** All the tests pass, and the kernel's address space is in place. *)
Lemma wp_mem_tests s l d :
  booted s l d ->
  wp (check_page_free_list e true ;; check_page_alloc ;; check_page g ;; mem_init_map pk ;; check_kern_pgdir pk ;;
      mem_init_paging e ;; check_page_installed_pgdir g) s (fun _ s' => exists l', mem_ready s l d s' l').
Proof.
  intros B. pose proof (booted_length _ _ _ B) as Hl. apply (wp_tests_before s l d _ _ B). intros s1 l1 B1 Hmm C1 S1 E1 Hmb. wp_step.
  pose proof (cfg_kept_placed _ _ E1 (bt_placed _ _ _ B)) as (P1 & P2 & P3 & P4). pose proof (wf_npages _ _ (br_wf _ _ _ B1)).
  eapply wp_mono; [apply (wp_mem_init_map s1 l1 d pk B1 Hmm); [destruct S1; lia|assumption..]|].
  intros u2 s2 (l2 & K2 & C2 & Ec2 & S2). wp_step. assert (npages s2 = npages s1) as En by (unfold npages; by rewrite Ec2).
  pose proof (dw_dir _ _ _ (km_dir _ _ _ _ K2)) as Hd.
  eapply wp_mono; [apply (wp_check_kern_pgdir pk s2 l2 d K2); rewrite ?Ec2, ?En; [lia|assumption..]|].
  intros u3 s3 U3. cbv beta in U3. pose proof (undisturbed_mapped _ _ _ _ _ _ U3 K2) as K3. wp_step.
  pose proof (shrinks_trans 1 68 _ _ _ S1 S2) as S12.
  eapply wp_mono; [apply (wp_mem_init_paging e pk s3 l2 d K3)|].
  { eapply (booted_free s l d 69); [exact B|lia|apply K2|exact S12|].
    transitivity (nextfree s2); [exact (f_equal c_nextfree (ud_cfg _ _ _ _ U3))|]. unfold nextfree. rewrite Ec2. apply E1. }
  intros u4 s4 (l4 & cr0 & K4 & C4 & L4 & E4 & G1 & G2). cbv beta.
  pose proof (shrinks_trans 69 0 _ _ _ S12 (shrinks_perm _ _ L4)) as S4. pose proof (proj2 S4) as Hl4.
  destruct l4 as [|a4 [|b4 [|c4 l4] ] ]; [cbn [length] in Hl4; lia..|].
  destruct (km_io_table _ _ _ _ K4) as (t & Et).
  eapply wp_mono; [apply (wp_check_installed s4 a4 b4 c4 l4 d pk t g Hg K4 Et)|].
  { exact (f_equal c_cr3 E4). }
  intros u5 s5 (l5 & K5 & C5 & L5 & E5). exists l5. split.
  - exact K5.
  - eapply conserved_trans; [|exact C5]. eapply conserved_trans; [|exact C4]. eapply conserved_trans; [exact C1|].
    eapply conserved_trans; [exact C2|]. apply (undisturbed_conserved _ _ _ _ d U3), (dw_live _ _ _ (km_dir _ _ _ _ K2)).
  - apply (shrinks_trans 69 0 _ _ _ S4), shrinks_perm, L5.
  - apply (cfg_kept_trans _ (cfg s3)).
    + apply (cfg_kept_trans _ _ _ E1), cfg_kept_core. rewrite (ud_cfg _ _ _ _ U3). by rewrite Ec2.
    + apply (cfg_kept_trans _ (cfg s4)); [|by apply cfg_kept_core].
      pose proof (fun f : mm_cfg -> Z => f_equal f E4) as E.
      split_and!; [exact (E c_npages)|exact (E c_nextfree)|exact (E c_kern_pgdir)|exact (E c_pages_va)].
  - rewrite <- Hmb, <- Ec2. transitivity (c_mmio_base (cfg s4)); [exact (f_equal c_mmio_base E5)|].
    transitivity (c_mmio_base (cfg s3)); [exact (f_equal c_mmio_base E4)|exact (f_equal c_mmio_base (ud_cfg _ _ _ _ U3))].
  - transitivity (c_cr3 (cfg s4)); [exact (f_equal c_cr3 E5)|exact (f_equal c_cr3 E4)].
  - assert (c_cr0 (cfg s5) = cr0) as ->; [|done].
    transitivity (c_cr0 (cfg s4)); [exact (f_equal c_cr0 E5)|exact (f_equal c_cr0 E4)].
Qed.
End Tests.

(** ** The first allocations *)

(** The page behind the kernel's image, which becomes the directory, and the first
    page that stays free when the machine has [np] pages. *)
Definition image_end (e : Z) : Z := (e - KERNBASE + 4095) / 4096.
Definition first_free (e np : Z) : Z := image_end e + 1 + (np * 8 + 4095) / 4096.

(** Before [mem_init] the variables of the allocator hold what the linker put there. *)
Record cold (s : mm_state) : Prop := {
  cd_count : num_free_pages s = 0;
  cd_mmio : c_mmio_base (cfg s) = MMIOBASE;
  cd_ram : forall pa w, ram s !! pa = Some w -> 0 <= w < 4294967296
}.

Lemma wp_memset_zero s p n (Q : unit -> mm_state -> Prop) :
  0 <= p -> 0 < n -> n mod 4 = 0 -> p * 4096 + n <= npages s * 4096 ->
  Q tt (set_ram (fill (Z.to_nat (n / 4)) (p * 4096) 0 (ram s)) s) -> wp (memset (p * 4096 + KERNBASE) 0 n) s Q.
Proof.
  intros Hp Hn H4 Hb HQ. unfold memset. destruct (Z.eqb_spec n 0); [lia|].
  assert ((p * 4096 + KERNBASE) mod 4 = 0) as -> by (unfold KERNBASE; Z.to_euclidean_division_equations; lia).
  rewrite H4. change (negb ((0 =? 0) && (0 =? 0))) with false. cbv iota zeta. wp_step. wp_step. rewrite Z.add_simpl_r.
  assert (word_ok s (p * 4096) = true) as ->.
  { unfold word_ok. rewrite PGNUM_div. apply andb_true_iff. split; [apply andb_true_iff; split|]; [lia| |];
      [apply Z.eqb_eq|apply Z.ltb_lt]; Z.to_euclidean_division_equations; lia. }
  assert (word_ok s (p * 4096 + n - 4) = true) as ->; [|cbn [andb]; by apply wp_put].
  unfold word_ok. rewrite PGNUM_div. apply andb_true_iff. split; [apply andb_true_iff; split|];
    [apply Z.leb_le|apply Z.eqb_eq|apply Z.ltb_lt]; Z.to_euclidean_division_equations; lia.
Qed.

Lemma rd32_fill_out n pa m a : a < pa \/ pa + 4 * Z.of_nat n <= a -> rd32 (fill n pa 0 m) a = rd32 m a.
Proof. intros H. unfold rd32. rewrite lookup_fill, bool_decide_eq_false_2; [done|lia]. Qed.

Lemma rd32_fill_in n pa m i : 0 <= i < Z.of_nat n -> rd32 (fill n pa 0 m) (pa + 4 * i) = 0.
Proof.
  intros H. unfold rd32. rewrite lookup_fill, bool_decide_eq_true_2; [done|]. split; [lia|].
  replace (pa + 4 * i - pa) with (4 * i) by lia. apply word_off_mod.
Qed.

Lemma fill_range n pa m :
  (forall a w, m !! a = Some w -> 0 <= w < 4294967296) -> forall a w, fill n pa 0 m !! a = Some w -> 0 <= w < 4294967296.
Proof. intros H a w. rewrite lookup_fill. case_bool_decide; [intros [= <-]; lia|apply H]. Qed.

(** The self map. *)
Lemma self_entry d : 0 <= d < 65536 -> Z.lor (Z.lor (d * 4096) PTE_U) PTE_P = d * 4096 + 5.
Proof.
  intros Hd. rewrite <- Z.lor_assoc. change (Z.lor PTE_U PTE_P) with 5. rewrite lor_pte; [done|by apply Z.mod_mul|lia].
Qed.

(** Memory once the directory and the array of pages are cleared. *)
Definition cleared (d np : Z) (m : gmap Z Z) : gmap Z Z :=
  fill (Z.to_nat (np * 8 / 4)) ((d + 1) * 4096) 0 (<[d * 4096 + 4 * SELF := d * 4096 + 5]> (fill 1024 (d * 4096) 0 m)).

Lemma cleared_slot d np m i :
  0 <= i < 1024 -> rd32 (cleared d np m) (d * 4096 + 4 * i) = if decide (i = SELF) then d * 4096 + 5 else 0.
Proof.
  intros Hi. unfold cleared. rewrite rd32_fill_out by lia. destruct (decide (i = SELF)) as [->|Hne].
  - apply rd32_insert_eq.
  - rewrite rd32_insert_ne by lia. by apply rd32_fill_in.
Qed.

Lemma cleared_tab d np m i : 0 <= d < 65536 -> 0 <= i < 1024 -> tab (cleared d np m) d i = if decide (i = SELF) then Some d else None.
Proof.
  intros Hd Hi. unfold tab. rewrite cleared_slot by done. rewrite present_odd. destruct (decide (i = SELF)); [|done].
  replace (Z.odd (d * 4096 + 5)) with true by (rewrite Z.odd_add, Z.odd_mul, andb_false_r; done).
  rewrite PTE_ADDR_spec by lia. f_equal. Z.to_euclidean_division_equations. lia.
Qed.

Lemma cleared_range d np m :
  0 <= d < 65536 -> (forall a w, m !! a = Some w -> 0 <= w < 4294967296) -> forall a w, cleared d np m !! a = Some w -> 0 <= w < 4294967296.
Proof.
  intros Hd Hm. apply fill_range. intros a w. destruct (decide (d * 4096 + 4 * SELF = a)) as [<-|Hne].
  - rewrite lookup_insert_eq. intros [= <-]. lia.
  - rewrite lookup_insert_ne by done. by apply fill_range.
Qed.

Lemma wp_boot_alloc e n s nf (Q : Z -> mm_state -> Prop) :
  n <> 0 -> nf = (if nextfree s =? 0 then ROUNDUP e PGSIZE else nextfree s) ->
  Q nf (upd_cfg (set_nextfree (u32 (nf + ROUNDUP n PGSIZE))) s) -> wp (boot_alloc e n) s Q.
Proof.
  intros Hn -> HQ. unfold boot_alloc. wp_step. wp_step. destruct (Z.eqb_spec n 0); [done|].
  destruct (nextfree s =? 0); cbn [when]; wp_step; wp_step; wp_step; wp_step; wp_step; wp_step; wp_step; exact HQ.
Qed.

Lemma cleared_tables d np m : 0 <= d < 65536 -> tables (cleared d np m) d ≡ₚ [d].
Proof.
  intros Hd. apply NoDup_Permutation.
  - apply tables_inj. intros i j t Hi Hj. rewrite !cleared_tab by done. by destruct (decide (i = SELF)), (decide (j = SELF)); subst.
  - apply NoDup_singleton.
  - intros t. rewrite tables_elem, list_elem_of_singleton. split.
    + intros (i & Hi & Ht). rewrite cleared_tab in Ht by done. destruct (decide (i = SELF)); congruence.
    + intros ->. exists SELF. split; [by vm_compute|]. rewrite cleared_tab by (done || by vm_compute). by rewrite decide_True.
Qed.

Section Alloc.
Context (e nb np : Z) (s : mm_state) (C : cold s).
Context (Hnp : npages s = np) (Hnb : npages_basemem s = nb) (Hnf : nextfree s = 0).
Context (Hlist : page_free_list s = None) (Hlock : lock_free (page_free_list_lock s)).
Context (He : KERNBASE + 256 * 4096 <= e) (Hlow : 78 <= nb <= 160) (Hfit : first_free e np + 80 <= np <= 65536).

#[local] Abbreviation d := (image_end e).

Lemma alloc_bounds :
  256 <= d /\ d + 1 < first_free e np /\ first_free e np + 80 <= np <= 65536 /\ e <= KERNBASE + d * 4096 < 4294967296
  /\ 0 < (np * 8 + 4095) / 4096 <= 128 /\ np * 8 <= (np * 8 + 4095) / 4096 * 4096.
Proof.
  unfold first_free in *. unfold image_end in *. unfold KERNBASE in *. set (u := (np * 8 + 4095) / 4096) in *.
  assert (u = (np * 8 + 4095) / 4096) as Eu by done. clearbody u.
  assert (0 <= np) by (Z.to_euclidean_division_equations; lia). Z.to_euclidean_division_equations. lia.
Qed.

(** The allocator's variables when [page_init] starts. *)
Definition allocated : mm_state :=
  set_pages (zero_pages (Z.to_nat np)) (set_ram (cleared d np (ram s))
    (upd_cfg (fun c => set_pages_va ((d + 1) * 4096 + KERNBASE) (set_nextfree (first_free e np * 4096 + KERNBASE)
                         (set_kern_pgdir (dirp d) c))) s)).

Lemma wp_alloc_prefix (F : M mm_state unit) (Q : unit -> mm_state -> Prop) :
  wp F allocated Q ->
  wp (kpd ← boot_alloc e PGSIZE;
      modify (upd_cfg (set_kern_pgdir kpd)) ;;
      memset kpd 0 PGSIZE ;;
      pa ← PADDR kpd;
      store32 (kpd + 4 * PDX UVPT) (Z.lor (Z.lor pa PTE_U) PTE_P) ;;
      np ← gets npages;
      let sz := u32 (sizeof_PageInfo * np) in
      pgs ← boot_alloc e sz;
      modify (upd_cfg (set_pages_va pgs)) ;;
      memset pgs 0 sz ;;
      modify (set_pages (zero_pages (Z.to_nat np))) ;; F) s Q.
Proof.
  intros HQ. destruct alloc_bounds as (B1 & B2 & B3 & B4 & B5 & B6).
  assert (ROUNDUP e PGSIZE = d * 4096 + KERNBASE) as Er.
  { rewrite ROUNDUP_spec by (unfold KERNBASE in *; lia). unfold image_end, KERNBASE. Z.to_euclidean_division_equations. lia. }
  wp_step. apply (wp_boot_alloc e _ s (d * 4096 + KERNBASE)); [done|by rewrite Hnf|]. change (ROUNDUP PGSIZE PGSIZE) with 4096.
  rewrite u32_small by (unfold KERNBASE in *; lia). wp_step. wp_step. set (s1 := upd_cfg _ _). assert (npages s1 = np) as N1 by exact Hnp.
  wp_step. apply wp_memset_zero; [lia|done|done|rewrite N1; unfold PGSIZE; lia|]. change (Z.to_nat (PGSIZE / 4)) with 1024%nat.
  wp_step. apply wp_PADDR; [unfold KERNBASE in *; lia|]. rewrite Z.add_simpl_r, self_entry by lia. wp_step. change (PDX UVPT) with SELF.
  replace (d * 4096 + KERNBASE + 4 * SELF) with (d * 4096 + 4 * SELF + KERNBASE) by lia.
  apply wp_store32; [apply word_ok_page; [unfold npages in *; cbn; lia|by vm_compute|apply word_off_mod]|].
  set (s2 := set_ram _ _). assert (npages s2 = np) as N2 by exact Hnp.
  wp_step. wp_step. rewrite N2. cbv zeta. replace (sizeof_PageInfo * np) with (np * 8) by (unfold sizeof_PageInfo; lia). rewrite (u32_small (np * 8)) by lia.
  wp_step. apply (wp_boot_alloc e _ s2 ((d + 1) * 4096 + KERNBASE)); [lia| |].
  { assert (nextfree s2 = (d + 1) * 4096 + KERNBASE) as -> by (change (nextfree s2) with (d * 4096 + KERNBASE + 4096); lia).
    destruct (Z.eqb_spec ((d + 1) * 4096 + KERNBASE) 0); [unfold KERNBASE in *; lia|reflexivity]. }
  rewrite ROUNDUP_spec, u32_small by (unfold first_free, KERNBASE in *; lia). wp_step. wp_step. wp_step.
  apply wp_memset_zero; [lia|lia|Z.to_euclidean_division_equations; lia|unfold npages in *; cbn; unfold first_free in *; lia|].
  wp_step. wp_step.
  replace ((d + 1) * 4096 + KERNBASE + (np * 8 + 4095) / 4096 * 4096) with (first_free e np * 4096 + KERNBASE) by (unfold first_free; lia).
  exact HQ.
Qed.

Lemma allocated_wf : mm_wf allocated [].
Proof.
  destruct alloc_bounds as (B1 & B2 & B3 & _). split.
  - exact Hlist.
  - constructor.
  - apply (cd_count _ C).
  - intros i. cbn [pages allocated set_pages]. rewrite lookup_zero_pages. change (npages allocated) with (npages s). rewrite Hnp.
    case_bool_decide; split; intros; try lia; [eauto|]. by destruct H0.
  - change (npages allocated) with (npages s). lia.
  - exact Hlock.
  - apply (cleared_range d np); [lia|]. apply (cd_ram _ C).
Qed.

(** The pages [page_init] leaves free. *)
Definition usable (i : Z) : Prop := 1 <= i < 7 \/ 7 < i < nb \/ first_free e np <= i < np.

(** The directory holds its self map only. *)
Lemma allocated_bare s' l :
  mm_wf s' l -> cfg s' = cfg allocated -> ram s' = ram allocated -> d ∉ l -> bare s' l d.
Proof.
  intros W Ec Er Hl. destruct alloc_bounds as (B1 & B2 & B3 & _).
  assert (forall i, 0 <= i < 1024 -> tab (ram s') d i = if decide (i = SELF) then Some d else None) as Ht.
  { intros i Hi. rewrite Er. apply cleared_tab; lia. }
  assert (forall i, 0 <= i < 1024 -> i <> SELF -> tab (ram s') d i = None) as Hn by (intros i Hi Hs; by rewrite Ht, decide_False).
  assert (npages s' = np) as N by (unfold npages; rewrite Ec; exact Hnp). split.
  - exact W.
  - split; [rewrite N; lia|exact Hl| |]; intros; rewrite Hn in * by done; done.
  - unfold kern_pgdir. rewrite Ec. reflexivity.
  - rewrite Ht by by vm_compute. by rewrite decide_True.
  - intros i Hi Hs _. rewrite Er. cbn [ram allocated set_pages set_ram]. rewrite cleared_slot by done. by rewrite decide_False.
  - intros va _ Hs. unfold vm_lookup. by rewrite Hn by (apply PDX_range || done).
Qed.

(** Enough pages on each side. *)
Lemma usable_count (P : Z -> Prop) `{!forall x, Decision (P x)} l k a n :
  NoDup l -> (forall i, a <= i < a + n -> i ∈ l /\ P i) -> k < n -> k < Z.of_nat (length (filter P l)).
Proof.
  intros Hnd Hin Hn. assert (seqZ a n ⊆+ filter P l) as Hs%submseteq_length.
  { apply NoDup_submseteq; [apply NoDup_seqZ|]. intros i Hi%elem_of_seqZ. apply list_elem_of_filter. by destruct (Hin i Hi). }
  rewrite length_seqZ in Hs. lia.
Qed.

Lemma wp_mem_init_alloc :
  wp (mem_init_alloc e) s (fun _ s' => exists l, booted s' l d /\ npages s' = np /\ (forall i, i ∈ l <-> usable i)
    /\ ram s' = cleared d np (ram s)).
Proof.
  destruct alloc_bounds as (B1 & B2 & B3 & B4 & B5 & B6). unfold mem_init_alloc. apply wp_alloc_prefix.
  assert (nextfree allocated = first_free e np * 4096 + KERNBASE) as En by reflexivity.
  assert ((nextfree allocated - KERNBASE) / 4096 = first_free e np) as EF by (rewrite En, Z.add_simpl_r; by apply Z.div_mul).
  destruct (page_init_wf e allocated allocated_wf) as (l & Hw & Hl).
  { change (npages_basemem allocated) with (npages_basemem s). lia. }
  { rewrite En. unfold KERNBASE. lia. }
  { rewrite EF. change (npages allocated) with (npages s). lia. }
  rewrite EF in Hl. change (npages_basemem allocated) with (npages_basemem s) in Hl. change (npages allocated) with (npages s) in Hl.
  rewrite Hnb, Hnp in Hl. fold (usable) in Hl.
  eapply wp_mono; [exact Hw|]. intros u s' (W & Ec & Er). exists l.
  split; [|split; [unfold npages; rewrite Ec; exact Hnp|split; [exact Hl|exact Er] ] ].
  assert (nextfree s' = first_free e np * 4096 + KERNBASE) as En' by (unfold nextfree; by rewrite Ec). split.
  - apply allocated_bare; [done..|]. rewrite Hl. unfold usable. lia.
  - rewrite Ec. apply (cd_mmio _ C).
  - rewrite En'. unfold KERNBASE. lia.
  - intros p Hp%Hl. rewrite En'. unfold good_free, usable, KERNBASE in *. lia.
  - apply (usable_count _ l 69 8 (nb - 8)); [apply W| |lia]. intros i Hi. rewrite Hl. unfold usable. lia.
  - apply (usable_count _ l 79 (first_free e np) (np - first_free e np)); [apply W| |lia]. intros i Hi. rewrite Hl. unfold usable. lia.
  - unfold placed, npages, kern_pgdir. rewrite Ec. cbn. fold (npages s). rewrite Hnp. unfold dirp, KERNBASE, first_free in *.
    split_and!; [lia|lia|lia|lia|]. Z.to_euclidean_division_equations. lia.
Qed.
End Alloc.

(** ** mem_init *)

(** What the caller of [mem_init] finds, on a machine with [nb] pages below and [np]
    pages up to the end of memory and a kernel image that ends at [e]; [m] is what
    memory held before. *)
Record mem_started (e pk nb np : Z) (m : gmap Z Z) (s : mm_state) (l : list Z) : Prop := {
  ms_npages : npages s = np;
  ms_mapped : kern_mapped pk s l (image_end e);
  ms_pages : exists free, NoDup free /\ (forall i, i ∈ free <-> usable e nb np i)
               /\ tables (ram s) (image_end e) ++ l ≡ₚ image_end e :: free;
  ms_free : (80 <= length l)%nat;
  ms_rest : forall q o, ~ usable e nb np q -> ~ (image_end e <= q < first_free e np) -> 0 <= o < 4096 ->
              rd32 (ram s) (q * 4096 + o) = rd32 m (q * 4096 + o);
  ms_placed : placed s;
  ms_mmio : c_mmio_base (cfg s) = mmio_va 3;
  ms_cr3 : c_cr3 (cfg s) = image_end e * 4096;
  ms_cr0 : truth (Z.land (c_cr0 (cfg s)) CR0_PG) = true /\ truth (Z.land (c_cr0 (cfg s)) CR0_WP) = true
}.

(** Clearing the directory and the array touches these pages only. *)
Lemma cleared_rest e np m q o :
  0 <= np -> ~ (image_end e <= q < first_free e np) -> 0 <= o < 4096 ->
  rd32 (cleared (image_end e) np m) (q * 4096 + o) = rd32 m (q * 4096 + o).
Proof.
  intros Hn Hq Ho. unfold first_free in Hq. unfold cleared. set (d := image_end e) in *.
  assert (0 <= np * 8 / 4 * 4 <= np * 8) by (Z.to_euclidean_division_equations; lia).
  assert (np * 8 <= (np * 8 + 4095) / 4096 * 4096) by (Z.to_euclidean_division_equations; lia).
  rewrite rd32_fill_out by lia. assert (0 <= 4 * SELF < 4096) by (by vm_compute). rewrite rd32_insert_ne by lia. apply rd32_fill_out. lia.
Qed.

Lemma mem_ready_started e pk nb np m s l s' l' :
  booted s l (image_end e) -> npages s = np -> (forall i, i ∈ l <-> usable e nb np i) ->
  ram s = cleared (image_end e) np m -> mem_ready pk s l (image_end e) s' l' -> mem_started e pk nb np m s' l'.
Proof.
  intros B Hn Hl Em [R1 [R2 F2] R3 R4 R5 R6 R7]. pose proof (booted_length _ _ _ B).
  pose proof (dw_dir _ _ _ (br_dir _ _ _ (bt_bare _ _ _ B))). pose proof (wf_npages _ _ (br_wf _ _ _ (bt_bare _ _ _ B))).
  assert (tables (ram s) (image_end e) ≡ₚ [image_end e]) as Ht by (rewrite Em; apply cleared_tables; lia). split; try done.
  - rewrite <- Hn. apply R4.
  - exists l. split; [apply (bt_bare _ _ _ B)|]. split; [exact Hl|]. etrans; [exact R2|]. by rewrite Ht.
  - destruct R3. lia.
  - intros q o Hq Ha Ho. assert (q <> image_end e) as Hne by (unfold first_free in Ha; Z.to_euclidean_division_equations; lia).
    rewrite F2; [rewrite Em; apply cleared_rest; [lia|done|done]|exact Hne| |exact Ho]. rewrite Ht. apply not_elem_of_cons. split; [exact Hne|]. by rewrite Hl.
  - exact (cfg_kept_placed _ _ R4 (bt_placed _ _ _ B)).
Qed.

Lemma wp_mem_init {W} `{!Ports W} `{!Nvram W} e pk g s (w : W) :
  let base := nv_word w NVRAM_BASELO in
  let ext := nv_word w NVRAM_EXTLO in
  g <> 0 -> KERNBASE <= pk -> pk + 8 * KSTKSIZE <= 4294967296 -> pk mod 4096 = 0 ->
  cold s -> 78 <= base / 4 <= 160 -> 0 < ext / 4 ->
  KERNBASE + 256 * 4096 <= e -> first_free e (256 + ext / 4) + 80 <= 256 + ext / 4 ->
  wp (mem_init e pk g) (s, w) (fun _ r => exists l, mem_started e pk (base / 4) (256 + ext / 4) (ram s) (fst r) l).
Proof.
  cbv zeta. intros Hg Hk Hk' Hka C Hb Hx He Hf. unfold mem_init. wp_step. apply wp_zoom. wp_step. apply wp_zoom. wp_step. wp_step. wp_step. wp_step.
  cbn [fst snd]. wp_step. apply wp_detect_memory. intros log w'. apply wp_zoom. cbn [fst snd].
  pose proof (nv_word_range w NVRAM_EXTLO) as Hr. set (base := nv_word w NVRAM_BASELO) in *. set (ext := nv_word w NVRAM_EXTLO) in *.
  destruct (Z.eqb_spec (ext / 4) 0); [lia|]. wp_step. set (s1 := upd_cfg _ _).
  eapply wp_mono; [apply (wp_mem_init_alloc e (base / 4) (256 + ext / 4) s1)|]; try done.
  - split; [apply (cd_count _ C)|apply (cd_mmio _ C)|apply (cd_ram _ C)].
  - split; [exact Hf|]. Z.to_euclidean_division_equations. lia.
  - intros u s2 (l & B & En & Hl & Ht). cbv beta. eapply wp_mono; [by apply (wp_mem_tests e pk g Hg Hk Hk' Hka s2 l _ B)|].
    intros v s3 (l3 & R). exists l3. by eapply (mem_ready_started _ _ _ _ _ s2 l).
Qed.

(** C12: Memory start-up succeeds, on every machine whose NVRAM reports between 312 and
    640 kilobytes of base memory and room for the kernel, its array of pages and
    eighty more pages above one megabyte, the kernel's stacks being aligned and above
    KERNBASE, when the uninitialised local of page_remove (called by the self tests)
    does not hold zero: [mem_init] returns, so every assertion of its self tests
    holds.  Outside its self map the kernel's directory maps the kernel, the stacks,
    the array of pages and the I/O hole and nothing else, %cr3 points to it and
    paging is on; each page that [page_init] found usable is free or one of the
    directory's tables, none is lost and none is there twice, and at least eighty are
    free, with memory in order as [task_init] needs it. *)
Theorem mem_init_succeeds {W} `{!Ports W} `{!Nvram W} e pk g s (w : W) :
  let base := nv_word w NVRAM_BASELO in
  let ext := nv_word w NVRAM_EXTLO in
  g <> 0 -> KERNBASE <= pk -> pk + 8 * KSTKSIZE <= 4294967296 -> pk mod 4096 = 0 ->
  cold s -> 78 <= base / 4 <= 160 -> 0 < ext / 4 ->
  KERNBASE + 256 * 4096 <= e -> first_free e (256 + ext / 4) + 80 <= 256 + ext / 4 ->
  wp (mem_init e pk g) (s, w) (fun _ r => exists l, mem_started e pk (base / 4) (256 + ext / 4) (ram s) (fst r) l).
Proof. apply wp_mem_init. Qed.

(** ** Witness *)

(** A machine with 640K of base and 15M of extended memory, at power on. *)
Definition demo_cmos : cmos := Cmos 0 (list_to_map [(0x15, 128); (0x16, 2); (0x17, 0); (0x18, 60)]).
Definition demo_cold : mm_state := fresh_mm 0 0 0.

Lemma mem_init_succeeds_witness :
  wp (mem_init 0xf0160000 0xf0150000 1) (demo_cold, demo_cmos) (fun _ r => exists l, mem_started 0xf0160000 0xf0150000 160 4096 ∅ (fst r) l).
Proof.
  eapply wp_mono; [apply (mem_init_succeeds 0xf0160000 0xf0150000 1 demo_cold demo_cmos)|].
  - lia.
  - by vm_compute.
  - by vm_compute.
  - reflexivity.
  - split; [reflexivity|reflexivity|]. intros pa v. change (ram demo_cold) with (∅ : gmap Z Z). by rewrite lookup_empty.
  - by vm_compute.
  - by vm_compute.
  - by vm_compute.
  - by vm_compute.
  - intros u r H. exact H.
Defined.
