(* ===== verification/Boot.v ===== *)
(** * The boot loader (boot/main.c, inc/elf.h)

    [bootmain] reads the kernel image from the first IDE disk and jumps to its
    entry point.  It runs without paging: memory is a map from physical addresses
    to bytes, and an access to an address that is not in the map is a fault.  The
    disk controller is hardware behind ports: the loader is written against the
    classes [Ports] and [WidePorts], and the theorems use the instance [ide], a
    controller that reads sectors in programmed I/O mode (ATA command 0x20).  The
    loaded kernel is a parameter, [call_entry].

    [waitdisk] polls with a bound; [ide] answers within [ide_latency] polls.  The
    loop of [readseg] gets one turn per sector, the loop over the program headers
    one turn per header. *)

From S2P Require Import Prelude.
From S2P Require Import Machine.
From S2P Require Import Kmonad.
From S2P Require Import Ports.
From S2P Require Import Str.
From Stdlib Require Import ZArith Lia.
From stdpp Require Import base gmap list strings.

Local Open Scope Z_scope.

(** The 32-bit input and 16-bit output instructions. *)
Class WidePorts (W : Type) := {
  port_in32 : Z -> W -> Z * W;
  port_out16 : Z -> Z -> W -> W
}.

Definition SECTSIZE : Z := 512.
Definition ELFHDR : Z := 0x10000.
Definition ELF_MAGIC : Z := 0x464C457F.

(** ** Memory in half words and words *)

Definition le (l : list Z) : Z := foldr (fun b acc => b + 256 * acc) 0 l.
Definition ld16 (a : Z) : M bmem Z := l ← ld_unit 2 a; mret (le l).
Definition ld32 (a : Z) : M bmem Z := l ← ld_unit 4 a; mret (le l).
Definition le4 (v : Z) : list Z := [u8 v; u8 (v / 256); u8 (v / 65536); u8 (v / 16777216)].

(** Fields of [struct Elf] and [struct Proghdr], at their offsets. *)
Definition e_magic : M bmem Z := ld32 (ELFHDR + 0).
Definition e_entry : M bmem Z := ld32 (ELFHDR + 24).
Definition e_phoff : M bmem Z := ld32 (ELFHDR + 28).
Definition e_phnum : M bmem Z := ld16 (ELFHDR + 44).
Definition sizeof_Proghdr : Z := 32.
Definition p_offset (ph : Z) : M bmem Z := ld32 (ph + 4).
Definition p_pa (ph : Z) : M bmem Z := ld32 (ph + 12).
Definition p_filesz (ph : Z) : M bmem Z := ld32 (ph + 16).

Section Loader.
  Context {W : Type} `{!Ports W} `{!WidePorts W}.
  (** Polls of the status register before the model gives up. *)
  Context (polls : nat).

Definition inl (port : Z) : M W Z := fun w =>
  let '(v, w') := port_in32 port w in Ret (u32 v) w'.
Definition outw (port data : Z) : M W unit := fun w => Ret tt (port_out16 port (u16 data) w).

(** [rep insl]: [cnt] words to [addr]. *)
Fixpoint insl (port addr : Z) (cnt : nat) : M (bmem * W) unit :=
  match cnt with
  | O => mret tt
  | S cnt' =>
      v ← on_snd (inl port);
      on_fst (st_unit (le4 v) addr) ;;
      insl port (u32 (addr + 4)) cnt'
  end.

Fixpoint waitdisk (fuel : nat) : M W unit :=
  match fuel with
  | O => hang "waitdisk"
  | S fuel' =>
      v ← inb 0x1F7;
      if negb (Z.land v 0xC0 =? 0x40) then waitdisk fuel' else mret tt
  end.

Definition readsect (dst offset : Z) : M (bmem * W) unit :=
  on_snd (
    waitdisk polls ;;
    outb 0x1F2 1 ;;
    outb 0x1F3 offset ;;
    outb 0x1F4 (Z.shiftr offset 8) ;;
    outb 0x1F5 (Z.shiftr offset 16) ;;
    outb 0x1F6 (Z.lor (Z.shiftr offset 24) 0xE0) ;;
    outb 0x1F7 0x20 ;;
    waitdisk polls) ;;
  insl 0x1F0 dst (Z.to_nat (SECTSIZE / 4)).

(** [while (pa < end_pa)]: without a wrap of [pa] it takes no more than [fuel]
    turns; with a wrap it does not end. *)
Fixpoint readseg_loop (fuel : nat) (pa end_pa offset : Z) : M (bmem * W) unit :=
  if pa <? end_pa then
    match fuel with
    | O => hang "readseg"
    | S fuel' =>
        readsect pa offset ;;
        readseg_loop fuel' (u32 (pa + SECTSIZE)) end_pa (u32 (offset + 1))
    end
  else mret tt.

Definition readseg (pa count offset : Z) : M (bmem * W) unit :=
  let end_pa := u32 (pa + count) in
  let pa := Z.land pa (lnot32 (SECTSIZE - 1)) in
  let offset := u32 (offset / SECTSIZE + 1) in
  readseg_loop (Z.to_nat ((end_pa - pa + SECTSIZE - 1) / SECTSIZE)) pa end_pa offset.

(** [for (; ph < eph; ph++) readseg(...)]. *)
Fixpoint load_segments (fuel : nat) (ph eph : Z) : M (bmem * W) unit :=
  if ph <? eph then
    match fuel with
    | O => hang "bootmain"
    | S fuel' =>
        pa ← on_fst (p_pa ph);
        filesz ← on_fst (p_filesz ph);
        offset ← on_fst (p_offset ph);
        readseg pa filesz offset ;;
        load_segments fuel' (u32 (ph + sizeof_Proghdr)) eph
    end
  else mret tt.

(** The label [bad]. *)
Definition bad : M (bmem * W) unit :=
  on_snd (outw 0x8A00 0x8A00 ;; outw 0x8A00 0x8E00) ;; hang "bootmain: bad".

(** [call_entry] is the code at [e_entry]; should it return, the loader goes on
    at [bad]. *)
Definition bootmain (call_entry : Z -> M (bmem * W) unit) : M (bmem * W) unit :=
  readseg ELFHDR (SECTSIZE * 8) 0 ;;
  magic ← on_fst e_magic;
  if negb (magic =? ELF_MAGIC) then bad
  else
    phoff ← on_fst e_phoff;
    phnum ← on_fst e_phnum;
    let ph := u32 (ELFHDR + phoff) in
    let eph := u32 (ph + sizeof_Proghdr * phnum) in
    load_segments (Z.to_nat phnum) ph eph ;;
    entry ← on_fst e_entry;
    call_entry entry ;;
    bad.
End Loader.

(** ** An IDE controller *)

(** [ide_img] is the disk, byte by byte; [ide_busy] the polls until it is ready,
    [ide_buf] the words waiting at the data port, [ide_log] the 16-bit writes. *)
Record ide := Ide {
  ide_img : Z -> Z; ide_latency : nat; ide_busy : nat;
  ide_lba0 : Z; ide_lba1 : Z; ide_lba2 : Z; ide_dev : Z;
  ide_buf : list Z; ide_log : list (Z * Z)
}.

(** The words of a piece of the disk. *)
Fixpoint disk_words (img : Z -> Z) (off : Z) (n : nat) : list Z :=
  match n with
  | O => []
  | S n' => le [img off; img (off + 1); img (off + 2); img (off + 3)]
            :: disk_words img (off + 4) n'
  end.

Definition ide_lba (w : ide) : Z :=
  ide_lba0 w + 256 * ide_lba1 w + 65536 * ide_lba2 w + 16777216 * (ide_dev w mod 16).

Definition ide_set_busy (n : nat) (w : ide) : ide :=
  Ide (ide_img w) (ide_latency w) n (ide_lba0 w) (ide_lba1 w) (ide_lba2 w) (ide_dev w)
      (ide_buf w) (ide_log w).
Definition ide_set_buf (l : list Z) (w : ide) : ide :=
  Ide (ide_img w) (ide_latency w) (ide_busy w) (ide_lba0 w) (ide_lba1 w) (ide_lba2 w) (ide_dev w)
      l (ide_log w).

(** Status: busy (0x80) or ready (0x50). *)
Definition ide_in (p : Z) (w : ide) : Z * ide :=
  if p =? 0x1F7 then
    match ide_busy w with O => (0x50, w) | S n => (0x80, ide_set_busy n w) end
  else (0, w).

Definition ide_out (p v : Z) (w : ide) : ide :=
  let '(Ide i l b a0 a1 a2 d q g) := w in
  if p =? 0x1F3 then Ide i l b v a1 a2 d q g
  else if p =? 0x1F4 then Ide i l b a0 v a2 d q g
  else if p =? 0x1F5 then Ide i l b a0 a1 v d q g
  else if p =? 0x1F6 then Ide i l b a0 a1 a2 v q g
  else if (p =? 0x1F7) && (v =? 0x20) then
    Ide i l l a0 a1 a2 d (disk_words i (512 * ide_lba w) 128) g
  else w.

(** The data port gives nothing while the controller is busy. *)
Definition ide_in32 (p : Z) (w : ide) : Z * ide :=
  match ide_busy w, ide_buf w with
  | O, v :: q => if p =? 0x1F0 then (v, ide_set_buf q w) else (0, w)
  | _, _ => (0, w)
  end.

#[global] Instance ide_ports : Ports ide := {| port_in := ide_in; port_out := ide_out |}.
#[global] Instance ide_wide : WidePorts ide := {|
  port_in32 := ide_in32;
  port_out16 p v w :=
    let '(Ide i l b a0 a1 a2 d q g) := w in Ide i l b a0 a1 a2 d q ((p, v) :: g)
|}.

(** ** Reading sectors *)

(** [m'] is [m] with [n] bytes of the disk, from [off] on, at [d]. *)
Definition disk_at (img : Z -> Z) (m m' : bmem) (d off n : Z) : Prop :=
  forall x, m' !! x = if bool_decide (d <= x < d + n) then Some (img (off + (x - d))) else m !! x.

Definition img_ok (img : Z -> Z) : Prop := forall a, 0 <= img a < 256.

Lemma disk_at_app img m1 m2 m3 d off n k :
  0 <= n -> 0 <= k -> disk_at img m1 m2 d off n -> disk_at img m2 m3 (d + n) (off + n) k ->
  disk_at img m1 m3 d off (n + k).
Proof.
  intros Hn Hk H1 H2 x. rewrite H2, H1. repeat case_bool_decide; try lia; try done.
  do 2 f_equal. lia.
Qed.

Lemma disk_at_present img m m' d off n a k :
  img_ok img -> disk_at img m m' d off n -> present m a k -> present m' a k.
Proof.
  intros Hi H Hp x Hx. rewrite H. case_bool_decide; [|by apply Hp]. eexists. by split.
Qed.

Lemma le4_le b0 b1 b2 b3 :
  0 <= b0 < 256 -> 0 <= b1 < 256 -> 0 <= b2 < 256 -> 0 <= b3 < 256 ->
  0 <= le [b0; b1; b2; b3] < 4294967296 /\ le4 (le [b0; b1; b2; b3]) = [b0; b1; b2; b3].
Proof.
  intros. unfold le4, le. cbn [foldr]. split; [lia|].
  repeat f_equal; unfold u8; Z.to_euclidean_division_equations; lia.
Qed.

Lemma wp_waitdisk fuel (w : ide) Q :
  (ide_busy w < fuel)%nat -> Q tt (ide_set_busy 0 w) -> wp (waitdisk fuel) w Q.
Proof.
  remember (ide_busy w) as b eqn:E. revert fuel w E Q.
  induction b as [|b IH]; intros fuel w E Q Hf HQ; (destruct fuel as [|fuel]; [lia|]);
    cbn [waitdisk]; wp_step; unfold inb, wp at 1; simpl port_in; unfold ide_in; rewrite <- E; simpl.
  - destruct w; simpl in *. by subst.
  - eapply IH; [done|lia|]. by destruct w.
Qed.

Lemma wp_inl (w : ide) v q Q :
  ide_busy w = O -> ide_buf w = v :: q -> 0 <= v < 4294967296 -> Q v (ide_set_buf q w) ->
  wp (inl 0x1F0) w Q.
Proof.
  intros Hb Hq Hv HQ. unfold inl, wp. simpl. unfold ide_in32. rewrite Hb, Hq. simpl.
  by rewrite u32_small.
Qed.

Lemma wp_insl n d off (m : bmem) (w : ide) :
  img_ok (ide_img w) -> ide_busy w = O -> ide_buf w = disk_words (ide_img w) off n ->
  present m d (4 * Z.of_nat n) -> 0 <= d -> d + 4 * Z.of_nat n <= 4294967296 ->
  wp (insl 0x1F0 d n) (m, w) (fun _ s =>
    disk_at (ide_img w) m (fst s) d off (4 * Z.of_nat n) /\ snd s = ide_set_buf [] w).
Proof.
  intros Hi. revert d off m w Hi.
  induction n as [|n IH]; intros d off m w Hi Hb Hq Hp Hd Hw; cbn [insl].
  - wp_step. cbn [fst snd]. split; [|by destruct w; simpl in *; subst].
    intros x. rewrite bool_decide_eq_false_2; [done|lia].
  - cbn [disk_words] in Hq. wp_step. unfold on_snd. apply wp_zoom. cbn [snd].
    destruct (le4_le (ide_img w off) (ide_img w (off + 1)) (ide_img w (off + 2)) (ide_img w (off + 3)))
      as [Hr Hl]; [done|done|done|done|].
    eapply wp_inl; [done|exact Hq|done|]. cbn [fst snd]. wp_step. unfold on_fst. apply wp_zoom. cbn [fst snd]. rewrite Hl.
    apply wp_st_unit; [eapply present_sub; [exact Hp|lia|simpl; lia]|by repeat (apply Forall_cons; split; [apply Hi|])|].
    intros m' Hm'. cbn [fst snd].
    assert (disk_at (ide_img w) m m' d off 4) as Hone.
    { intros x. rewrite Hm'. simpl. repeat case_bool_decide; try (done || lia).
      assert (exists k, x = d + k /\ (k = 0 \/ k = 1 \/ k = 2 \/ k = 3)) as (k & -> & Hk)
        by (exists (x - d); lia).
      rewrite Z.add_simpl_l. destruct Hk as [->|[->|[->| ->] ] ]; simpl; by rewrite ?Z.add_0_r. }
    destruct n as [|n'].
    + cbn [insl]. wp_step. cbn [fst snd]. split; [|by destruct w; simpl in *; subst].
      by replace (4 * Z.of_nat 1) with 4 by lia.
    + rewrite u32_small by lia.
      eapply wp_mono; [apply (IH _ (off + 4) _ (ide_set_buf (disk_words (ide_img w) (off + 4) (S n')) w));
        [done|done|done| |lia|lia]|].
      * eapply disk_at_present; [done|exact Hone|]. eapply present_sub; [exact Hp|lia|lia].
      * intros u s' [H1 H2]. cbn [ide_img ide_set_buf] in *. split.
        -- replace (4 * Z.of_nat (S (S n'))) with (4 + 4 * Z.of_nat (S n')) by lia.
           eapply disk_at_app; [lia|lia|exact Hone|exact H1].
        -- by rewrite H2.
Qed.

(** A controller with the disk [img] that answers within [polls] polls. *)
Definition ready (polls : nat) (img : Z -> Z) (w : ide) : Prop :=
  img_ok img /\ ide_img w = img /\ (ide_busy w < polls)%nat /\ (ide_latency w < polls)%nat.

(** The sector number, as the four registers carry it. *)
Lemma lba_registers n :
  0 <= n < 268435456 ->
  u8 n + 256 * u8 (Z.shiftr n 8) + 65536 * u8 (Z.shiftr n 16)
    + 16777216 * (u8 (Z.lor (Z.shiftr n 24) 0xE0) mod 16) = n.
Proof.
  intros Hn. rewrite !Z.shiftr_div_pow2 by lia. rewrite Z.lor_comm.
  rewrite (lor_aligned 0xE0 (n / 2 ^ 24) 4); [|lia|done|split; [apply Z.div_pos; lia|]].
  - unfold u8. change (2 ^ 8) with 256. change (2 ^ 16) with 65536. change (2 ^ 24) with 16777216.
    Z.to_euclidean_division_equations. lia.
  - apply Z.div_lt_upper_bound; lia.
Qed.

Lemma wp_readsect polls img d lba (m : bmem) (w : ide) :
  ready polls img w -> 0 <= lba < 268435456 ->
  present m d 512 -> 0 <= d -> d + 512 <= 4294967296 ->
  wp (readsect polls d lba) (m, w) (fun _ s =>
    disk_at img m (fst s) d (512 * lba) 512 /\ ready polls img (snd s)
    /\ ide_log (snd s) = ide_log w).
Proof.
  intros (Hi & Himg & Hb & Hl) Hlba Hp Hd Hw. unfold readsect, on_snd. wp_step. apply wp_zoom.
  cbn [snd]. wp_step. apply wp_waitdisk; [done|].
  do 6 (wp_step; apply wp_outb). change (u8 0x20) with 0x20. destruct w as [i l b a0 a1 a2 dv q g].
  cbn in Himg, Hb, Hl. subst i. cbn -[u8 Z.lor Z.shiftr disk_words Z.mul Z.modulo].
  apply wp_waitdisk; [done|]. cbn -[u8 Z.lor Z.shiftr disk_words Z.mul Z.modulo].
  eapply wp_mono; [eapply (wp_insl 128 d (512 * lba))|]; [done|done| |done|done|done|].
  - cbn -[u8 Z.lor Z.shiftr disk_words Z.mul Z.modulo Z.add]. unfold ide_lba.
    cbn -[u8 Z.lor Z.shiftr disk_words Z.mul Z.modulo Z.add]. by rewrite lba_registers.
  - intros u s' [H1 H2]. rewrite H2. unfold ready. cbn in *. split_and!; done || lia.
Qed.

(** ** Reading a segment *)

Lemma wp_readseg_loop polls img k pa end_pa lba (m : bmem) (w : ide) :
  ready polls img w -> 0 <= pa -> 0 <= lba -> lba + Z.of_nat k <= 268435456 ->
  end_pa <= pa + 512 * Z.of_nat k -> pa + 512 * Z.of_nat k < end_pa + 512 ->
  pa + 512 * Z.of_nat k < 4294967296 -> present m pa (512 * Z.of_nat k) ->
  wp (readseg_loop polls k pa end_pa lba) (m, w) (fun _ s =>
    disk_at img m (fst s) pa (512 * lba) (512 * Z.of_nat k) /\ ready polls img (snd s)
    /\ ide_log (snd s) = ide_log w).
Proof.
  revert pa lba m w. induction k as [|k IH]; intros pa lba m w R Hpa Hl Hlk He He' Hw Hp;
    cbn [readseg_loop].
  - destruct (Z.ltb_spec pa end_pa); [lia|]. wp_step. cbn [fst snd]. split_and!; [|done|done].
    intros x. rewrite bool_decide_eq_false_2; [done|lia].
  - destruct (Z.ltb_spec pa end_pa); [|lia]. wp_step.
    eapply wp_mono; [apply (wp_readsect polls img); [done|lia| |done|lia]|].
    { eapply present_sub; [exact Hp|lia|lia]. }
    intros u [m1 w1] (D1 & R1 & G1). cbn [fst snd] in *. unfold SECTSIZE.
    rewrite !u32_small by lia.
    eapply wp_mono; [apply IH; [done|lia|lia|lia|lia|lia|lia|]|].
    + eapply disk_at_present; [by apply R|exact D1|]. eapply present_sub; [exact Hp|lia|lia].
    + intros u2 [m2 w2] (D2 & R2 & G2). cbn [fst snd] in *. split_and!; [|done|congruence].
      replace (512 * Z.of_nat (S k)) with (512 + 512 * Z.of_nat k) by lia.
      eapply disk_at_app; [lia|lia|exact D1|]. by replace (512 * lba + 512) with (512 * (lba + 1)) by lia.
Qed.

(** The sectors a segment of [n] bytes at [pa] covers. *)
Definition span_lo (pa : Z) : Z := pa - pa mod 512.
Definition span_len (pa n : Z) : Z := 512 * ((pa + n - span_lo pa + 511) / 512).

Lemma span_bounds pa n : 0 <= pa -> 0 <= n ->
  0 <= span_lo pa <= pa /\ pa < span_lo pa + 512 /\ 0 <= span_len pa n
  /\ pa + n <= span_lo pa + span_len pa n < pa + n + 512.
Proof.
  intros. unfold span_len, span_lo. pose proof (Z.mod_pos_bound pa 512 ltac:(lia)).
  set (q := pa mod 512) in *. assert (pa mod 512 <= pa) by (apply Z.mod_le; lia).
  Z.to_euclidean_division_equations. lia.
Qed.

(** The bytes of the image file: it starts at sector 1. *)
Definition file (img : Z -> Z) (k : Z) : Z := img (512 + k).

Lemma wp_readseg polls img pa n off (m : bmem) (w : ide) :
  ready polls img w -> 0 <= pa -> 0 <= n -> pa + n <= 4294966784 -> 0 <= off < 4294967296 ->
  present m (span_lo pa) (span_len pa n) ->
  wp (readseg polls pa n off) (m, w) (fun _ s =>
    disk_at (file img) m (fst s) (span_lo pa) (off - off mod 512) (span_len pa n)
    /\ ready polls img (snd s) /\ ide_log (snd s) = ide_log w).
Proof.
  intros R Hpa Hn Hw Hoff Hp. pose proof (span_bounds pa n Hpa Hn) as (B1 & B2 & B3 & B4).
  unfold readseg. cbv zeta. rewrite (u32_small (pa + n)) by lia.
  assert (Z.land pa (lnot32 (SECTSIZE - 1)) = span_lo pa) as ->.
  { unfold lnot32, u32, SECTSIZE, span_lo. apply (land_high pa 9 32); lia. }
  assert (0 <= off / 512 < 8388608) by (Z.to_euclidean_division_equations; lia).
  unfold SECTSIZE. rewrite u32_small by lia.
  replace (pa + n - span_lo pa + 512 - 1) with (pa + n - span_lo pa + 511) by lia.
  assert (0 <= (pa + n - span_lo pa + 511) / 512) by (apply Z.div_pos; lia).
  unfold span_len in *. set (k := (pa + n - span_lo pa + 511) / 512) in *.
  eapply wp_mono; [apply (wp_readseg_loop polls img); rewrite ?Z2Nat.id by lia;
    [done|lia|lia|lia|lia|lia|lia|done]|].
  intros u [m' w'] (D & R' & G). rewrite Z2Nat.id in D by lia. split_and!; [|done|done].
  intros x. rewrite D. case_bool_decide; [|done]. unfold file. do 2 f_equal.
  Z.to_euclidean_division_equations. lia.
Qed.

(** ** Loading the image *)

(** Numbers in the image file. *)
Definition file16 (img : Z -> Z) (k : Z) : Z := le [file img k; file img (k + 1)].
Definition file32 (img : Z -> Z) (k : Z) : Z :=
  le [file img k; file img (k + 1); file img (k + 2); file img (k + 3)].

(** What the loader reads of a program header. *)
Record seg := Seg { sg_pa : Z; sg_filesz : Z; sg_offset : Z }.

Definition phdr (img : Z -> Z) (i : Z) : seg :=
  let k := file32 img 28 + 32 * i in
  Seg (file32 img (k + 12)) (file32 img (k + 16)) (file32 img (k + 4)).

Definition phdrs (img : Z -> Z) (i : Z) (n : nat) : list seg := phdr img <$> seqZ i (Z.of_nat n).

Definition in_span (g : seg) (x : Z) : Prop :=
  span_lo (sg_pa g) <= x < span_lo (sg_pa g) + span_len (sg_pa g) (sg_filesz g).
Definition in_header (x : Z) : Prop := 0x10000 <= x < 0x11000.

(** The bytes of the segment are where its header wants them. *)
Definition seg_at (img : Z -> Z) (m : bmem) (g : seg) : Prop :=
  forall i, 0 <= i < sg_filesz g -> m !! (sg_pa g + i) = Some (file img (sg_offset g + i)).

(** What the linker script guarantees of a segment: address and file offset agree
    within a sector, its sectors are memory, below the last sector of the address
    space, and away from the header's page. *)
Definition seg_ok (m : bmem) (g : seg) : Prop :=
  sg_pa g + sg_filesz g <= 4294966784 /\ sg_offset g mod 512 = sg_pa g mod 512
  /\ present m (span_lo (sg_pa g)) (span_len (sg_pa g) (sg_filesz g))
  /\ forall x, in_span g x -> ~ in_header x.

Fixpoint separate (l : list seg) : Prop :=
  match l with
  | [] => True
  | g :: l' => Forall (fun h => forall x, in_span g x -> ~ in_span h x) l' /\ separate l'
  end.

Definition header_loaded (img : Z -> Z) (m : bmem) : Prop :=
  forall k, 0 <= k < 4096 -> m !! (0x10000 + k) = Some (file img k).

Lemma file_ok img : img_ok img -> img_ok (file img).
Proof. intros H a. apply H. Qed.

Lemma file32_range img k : img_ok img -> 0 <= file32 img k < 4294967296.
Proof.
  intros H. unfold file32. by destruct (le4_le (file img k) (file img (k + 1)) (file img (k + 2))
    (file img (k + 3))) as [? _]; try apply H.
Qed.

Lemma file16_range img k : img_ok img -> 0 <= file16 img k < 65536.
Proof.
  intros H. pose proof (H (512 + k)). pose proof (H (512 + (k + 1))).
  unfold file16, le, file. cbn [foldr]. lia.
Qed.

Lemma wp_ld_header img (m : bmem) a k Q :
  header_loaded img m -> a = 0x10000 + k -> 0 <= k < 4096 -> Q (file img k) m -> wp (ld a) m Q.
Proof. intros H -> Hk HQ. eapply wp_ld; [by apply H|done]. Qed.

Lemma wp_ld32 {W} img (m : bmem) (w : W) k Q :
  header_loaded img m -> 0 <= k -> k + 4 <= 4096 -> Q (file32 img k) (m, w) ->
  wp (on_fst (ld32 (0x10000 + k))) (m, w) Q.
Proof.
  intros H Hk Hn HQ. unfold on_fst, ld32, ld_unit. apply wp_zoom. cbn [fst].
  wp_step; wp_step; eapply (wp_ld_header img m _ k); [done|lia|lia|].
  wp_step; wp_step; eapply (wp_ld_header img m _ (k + 1)); [done|lia|lia|].
  wp_step; wp_step; eapply (wp_ld_header img m _ (k + 2)); [done|lia|lia|].
  wp_step; wp_step; eapply (wp_ld_header img m _ (k + 3)); [done|lia|lia|].
  wp_steps. exact HQ.
Qed.

Lemma wp_ld16 {W} img (m : bmem) (w : W) k Q :
  header_loaded img m -> 0 <= k -> k + 2 <= 4096 -> Q (file16 img k) (m, w) ->
  wp (on_fst (ld16 (0x10000 + k))) (m, w) Q.
Proof.
  intros H Hk Hn HQ. unfold on_fst, ld16, ld_unit. apply wp_zoom. cbn [fst].
  wp_step; wp_step; eapply (wp_ld_header img m _ k); [done|lia|lia|].
  wp_step; wp_step; eapply (wp_ld_header img m _ (k + 1)); [done|lia|lia|].
  wp_steps. exact HQ.
Qed.

(** A segment read from the disk is in place; everything else is as it was. *)
Lemma seg_loaded img m m' g :
  0 <= sg_pa g -> 0 <= sg_filesz g -> sg_offset g mod 512 = sg_pa g mod 512 ->
  disk_at (file img) m m' (span_lo (sg_pa g)) (sg_offset g - sg_offset g mod 512)
    (span_len (sg_pa g) (sg_filesz g)) ->
  seg_at img m' g /\ forall x, ~ in_span g x -> m' !! x = m !! x.
Proof.
  intros Hpa Hn Hal D. pose proof (span_bounds _ _ Hpa Hn) as (B1 & B2 & B3 & B4). split.
  - intros i Hi. rewrite D, bool_decide_eq_true_2 by lia. do 2 f_equal. rewrite Hal.
    unfold span_lo. lia.
  - intros x Hx. rewrite D. by rewrite bool_decide_eq_false_2.
Qed.

Lemma seg_ok_keep img m m' d off n g :
  img_ok img -> disk_at (file img) m m' d off n -> seg_ok m g -> seg_ok m' g.
Proof.
  intros Hi D (H1 & H2 & H3 & H4). split_and!; try done.
  eapply disk_at_present; [by apply file_ok|exact D|done].
Qed.

Definition loaded (img : Z -> Z) (m m' : bmem) (l : list seg) : Prop :=
  Forall (seg_at img m') l /\ forall x, Forall (fun g => ~ in_span g x) l -> m' !! x = m !! x.

Lemma loaded_cons img m m1 m2 g l :
  seg_at img m1 g -> (forall x, ~ in_span g x -> m1 !! x = m !! x) ->
  0 <= sg_pa g -> 0 <= sg_filesz g ->
  Forall (fun h => forall x, in_span g x -> ~ in_span h x) l -> loaded img m1 m2 l ->
  loaded img m m2 (g :: l).
Proof.
  intros Hg Hout Hpa Hn Hsep [L1 L2]. pose proof (span_bounds _ _ Hpa Hn) as (B1 & B2 & B3 & B4). split.
  - constructor; [|done]. intros i Hi. rewrite L2; [by apply Hg|].
    eapply Forall_impl; [exact Hsep|]. intros h Hh. apply Hh. unfold in_span. lia.
  - intros x Hx. apply Forall_cons in Hx as [Hx1 Hx2]. rewrite L2 by done. by apply Hout.
Qed.

Lemma phdrs_S img i n : phdrs img i (S n) = phdr img i :: phdrs img (i + 1) n.
Proof.
  unfold phdrs. rewrite seqZ_cons by lia. cbn. do 2 f_equal. f_equal; lia.
Qed.

Lemma header_keep img m m' d off n :
  header_loaded img m -> disk_at (file img) m m' d off n ->
  (forall x, d <= x < d + n -> ~ in_header x) -> header_loaded img m'.
Proof.
  intros H D Ho k Hk. rewrite D, bool_decide_eq_false_2; [by apply H|].
  intros Hx. apply (Ho _ Hx). unfold in_header. lia.
Qed.

Lemma wp_load_segments polls img n i (m : bmem) (w : ide) :
  let ph := 0x10000 + file32 img 28 in
  ready polls img w -> header_loaded img m -> 0 <= i ->
  file32 img 28 + 32 * (i + Z.of_nat n) <= 4096 ->
  Forall (seg_ok m) (phdrs img i n) -> separate (phdrs img i n) ->
  wp (load_segments polls n (ph + 32 * i) (ph + 32 * (i + Z.of_nat n))) (m, w) (fun _ s =>
    header_loaded img (fst s) /\ ready polls img (snd s) /\ ide_log (snd s) = ide_log w
    /\ loaded img m (fst s) (phdrs img i n)).
Proof.
  cbv zeta. revert i m w. induction n as [|n IH]; intros i m w R Hh Hi Hend Hok Hsep;
    pose proof (file32_range img 28 ltac:(apply R)) as Hr; cbn [load_segments].
  - destruct (Z.ltb_spec (65536 + file32 img 28 + 32 * i) (65536 + file32 img 28 + 32 * (i + Z.of_nat 0)));
      [lia|]. wp_step. cbn [fst snd]. split_and!; try done.
  - destruct (Z.ltb_spec (65536 + file32 img 28 + 32 * i) (65536 + file32 img 28 + 32 * (i + Z.of_nat (S n))));
      [|lia].
    rewrite phdrs_S in Hok, Hsep |- *. apply Forall_cons in Hok as [Hg Hok]. destruct Hsep as [Hs1 Hs2].
    pose proof Hg as (G1 & G2 & G3 & G4). set (k := file32 img 28 + 32 * i) in *.
    assert (phdr img i = Seg (file32 img (k + 12)) (file32 img (k + 16)) (file32 img (k + 4))) as Eg by done.
    unfold p_pa, p_filesz, p_offset.
    replace (65536 + file32 img 28 + 32 * i + 12) with (65536 + (k + 12)) by lia.
    replace (65536 + file32 img 28 + 32 * i + 16) with (65536 + (k + 16)) by lia.
    replace (65536 + file32 img 28 + 32 * i + 4) with (65536 + (k + 4)) by lia.
    wp_step; apply (wp_ld32 img); [done|lia|lia|]. wp_step; apply (wp_ld32 img); [done|lia|lia|].
    wp_step; apply (wp_ld32 img); [done|lia|lia|]. wp_step.
    pose proof (file32_range img (k + 12) ltac:(apply R)). pose proof (file32_range img (k + 16) ltac:(apply R)).
    rewrite Eg in G1, G2, G3, G4. cbn [sg_pa sg_filesz sg_offset] in *.
    eapply wp_mono; [apply (wp_readseg polls img); [done|lia|lia|lia|by apply file32_range, R|done]|].
    intros u [m1 w1] (D & R1 & L1). cbn [fst snd] in *.
    rewrite u32_small by (unfold sizeof_Proghdr; lia).
    replace (65536 + file32 img 28 + 32 * i + sizeof_Proghdr) with (65536 + file32 img 28 + 32 * (i + 1))
      by (unfold sizeof_Proghdr; lia).
    replace (i + Z.of_nat (S n)) with (i + 1 + Z.of_nat n) by lia.
    eapply wp_mono; [apply IH; [done|by eapply header_keep|lia|lia| |done]|].
    + eapply Forall_impl; [exact Hok|]. intros g Hg'. eapply seg_ok_keep; [apply R|exact D|done].
    + intros u2 [m2 w2] (H2 & R2 & L2 & Hl). cbn [fst snd] in *. split_and!; [done|done|congruence|].
      destruct (seg_loaded img m m1 (phdr img i)) as [S1 S2]; [rewrite Eg; simpl; lia|rewrite Eg; simpl; lia|by rewrite Eg|by rewrite Eg|].
      eapply loaded_cons; [exact S1|exact S2|rewrite Eg; simpl; lia|rewrite Eg; simpl; lia|done|done].
Qed.

(** C26: The loader loads the kernel: the disk answers within the polls, the page of
    the header is memory, and the image has the ELF magic number, its program
    headers in the first 4096 bytes, and segments whose physical address and file
    offset agree modulo 512, whose sectors are memory below the last sector of the
    address space, apart from the header's page at 0x10000 and from each other's.
    Then the loader calls the entry point of the header with every segment's bytes
    at the segment's physical address, and nothing else in memory has changed but
    the page of the header and the rest of the segments' sectors. *)
Theorem bootmain_loads_kernel polls img (m : bmem) (w : ide) call_entry :
  let n := Z.to_nat (file16 img 44) in
  ready polls img w -> present m 0x10000 4096 ->
  file32 img 0 = ELF_MAGIC -> file32 img 28 + 32 * file16 img 44 <= 4096 ->
  Forall (seg_ok m) (phdrs img 0 n) -> separate (phdrs img 0 n) ->
  exists m' w',
    bootmain polls call_entry (m, w) = (call_entry (file32 img 24) ;; bad) (m', w')
    /\ Forall (seg_at img m') (phdrs img 0 n)
    /\ forall x, ~ in_header x -> Forall (fun g => ~ in_span g x) (phdrs img 0 n) -> m' !! x = m !! x.
Proof.
  intros n R Hp Hm Hend Hok Hsep. unfold bootmain.
  pose proof (file32_range img 28 ltac:(apply R)). pose proof (file16_range img 44 ltac:(apply R)).
  eapply run_bind; [apply (wp_readseg polls img); [done|done|done|done|done|exact Hp]|].
  intros u [m1 w1] (D & R1 & L1). cbn [fst snd] in *.
  change (span_lo ELFHDR) with 65536 in D. change (span_len ELFHDR (SECTSIZE * 8)) with 4096 in D.
  assert (header_loaded img m1) as Hh.
  { intros k Hk. rewrite D, bool_decide_eq_true_2 by lia. do 2 f_equal. rewrite Zmod_0_l. lia. }
  assert (forall k (Q : Z -> bmem * ide -> Prop), 0 <= k -> k + 4 <= 4096 -> Q (file32 img k) (m1, w1) ->
    wp (on_fst (ld32 (ELFHDR + k))) (m1, w1) Q) as Hld by (intros; by apply (wp_ld32 img)).
  eapply run_bind; [apply (Hld 0 (fun v s => v = file32 img 0 /\ s = (m1, w1))); done || lia|].
  intros v s' [-> ->]. rewrite Hm, Z.eqb_refl. cbn [negb].
  eapply run_bind; [apply (Hld 28 (fun v s => v = file32 img 28 /\ s = (m1, w1))); done || lia|].
  intros v s' [-> ->].
  eapply run_bind; [apply (wp_ld16 img _ _ 44 (fun v s => v = file16 img 44 /\ s = (m1, w1))); done || lia|].
  intros v s' [-> ->]. cbv zeta. unfold ELFHDR, sizeof_Proghdr. rewrite !u32_small by lia.
  eapply run_bind.
  { pose proof (wp_load_segments polls img n 0 m1 w1) as H'. cbv zeta in H'.
    rewrite Z.mul_0_r, Z.add_0_r, Z.add_0_l in H'. unfold n in H'. rewrite Z2Nat.id in H' by lia.
    apply H'; [done|done|done|lia| |done]. eapply Forall_impl; [exact Hok|]. intros g Hg.
    eapply seg_ok_keep; [apply R|exact D|done]. }
  intros u2 [m2 w2] (H2 & R2 & L2 & [S1 S2]). cbn [fst snd] in *.
  eapply run_bind; [apply (wp_ld32 img _ _ 24 (fun v s => v = file32 img 24 /\ s = (m2, w2))); done || lia|].
  intros v s' [-> ->]. exists m2, w2. split_and!; [done|done|].
  intros x Hx Hf. rewrite S2 by done. rewrite D, bool_decide_eq_false_2; [done|]. unfold in_header in Hx. lia.
Qed.

(** An image without the magic number is not started, whatever is in it: the
    loader reads the header's page and ends in its endless loop, and the kernel's
    entry point is never called. *)
Theorem bootmain_rejects_bad_magic polls img (m : bmem) (w : ide) call_entry :
  ready polls img w -> present m 0x10000 4096 -> file32 img 0 <> ELF_MAGIC ->
  bootmain polls call_entry (m, w) = Stop (Hang "bootmain: bad").
Proof.
  intros R Hp Hm. unfold bootmain.
  eapply run_bind; [apply (wp_readseg polls img); [done|done|done|done|done|exact Hp]|].
  intros u [m1 w1] (D & R1 & L1). cbn [fst snd] in *.
  change (span_lo ELFHDR) with 65536 in D. change (span_len ELFHDR (SECTSIZE * 8)) with 4096 in D.
  eapply run_bind; [apply (wp_ld32 img _ _ 0 (fun v s => v = file32 img 0 /\ s = (m1, w1))); try done|].
  - intros k Hk. rewrite D, bool_decide_eq_true_2 by lia. do 2 f_equal. rewrite Zmod_0_l. lia.
  - intros v s' [-> ->]. destruct (Z.eqb_spec (file32 img 0) ELF_MAGIC); [done|]. by destruct w1.
Qed.

(** ** Witnesses *)

(** An image with one segment: four bytes at file offset 4096, to be loaded at
    one megabyte; entry point 0x10000c. *)
Definition demo_img (a : Z) : Z :=
  default 0 ((list_to_map (zip (seqZ 512 72)
    ([0x7F; 0x45; 0x4C; 0x46] ++ replicate 20 0 ++ [0x0C; 0; 0x10; 0] ++ [52; 0; 0; 0]
     ++ replicate 12 0 ++ [1; 0] ++ replicate 10 0 ++ [0; 16; 0; 0] ++ replicate 4 0
     ++ [0; 0; 16; 0] ++ [4; 0; 0; 0])) ∪ list_to_map (zip (seqZ 4608 4) [0xDE; 0xAD; 0xBE; 0xEF])
     : bmem) !! a).

Lemma demo_img_ok : img_ok demo_img.
Proof.
  intros a. unfold demo_img. set (t := _ ∪ _).
  assert (map_Forall (fun _ b => 0 <= b < 256) t) as H by (apply (bool_decide_unpack _); by vm_compute).
  destruct (t !! a) as [b|] eqn:E; [exact (H a b E)|simpl; lia].
Qed.

Definition demo_ide : ide := Ide demo_img 3 1 0 0 0 0 [] [].
Definition demo_ram : bmem := zeros 0x10000 4096 ∪ zeros 0x100000 512.

Lemma demo_ram_present a n :
  (0x10000 <= a /\ a + n <= 0x11000) \/ (0x100000 <= a /\ a + n <= 0x100200) -> present demo_ram a n.
Proof.
  intros H x Hx. exists 0. split; [|lia]. unfold demo_ram. destruct H.
  - apply lookup_union_Some_l, zeros_lookup. lia.
  - rewrite lookup_union_r; [apply zeros_lookup; lia|].
    apply zeros_None. lia.
Qed.

Lemma demo_phdrs : phdrs demo_img 0 (Z.to_nat (file16 demo_img 44)) = [Seg 0x100000 4 4096].
Proof. by vm_compute. Qed.

Lemma bootmain_loads_kernel_witness :
  exists m' w',
    bootmain 5 (fun _ => mret tt) (demo_ram, demo_ide) = bad (m', w')
    /\ m' !! 0x100001 = Some 0xAD.
Proof.
  destruct (bootmain_loads_kernel 5 demo_img demo_ram demo_ide (fun _ => mret tt))
    as (m' & w' & E & H & _).
  - split_and!; [apply demo_img_ok|done|simpl; lia|simpl; lia].
  - apply demo_ram_present. lia.
  - by vm_compute.
  - by vm_compute.
  - rewrite demo_phdrs. apply Forall_singleton. split_and!; [by vm_compute|by vm_compute| |].
    + apply demo_ram_present. right. by vm_compute.
    + intros x. unfold in_span, in_header. simpl.
      change (span_lo 0x100000) with 0x100000. change (span_len 0x100000 4) with 512. lia.
  - rewrite demo_phdrs. simpl. by split.
  - exists m', w'. split; [exact E|]. rewrite demo_phdrs, Forall_singleton in H.
    change 0x100001 with (0x100000 + 1). etrans; [apply (H 1); simpl; lia|by vm_compute].
Defined.

Lemma bootmain_rejects_bad_magic_witness :
  bootmain 5 (fun _ => mret tt) (demo_ram, Ide (fun _ => 0) 3 1 0 0 0 0 [] [])
  = Stop (Hang "bootmain: bad").
Proof.
  apply (bootmain_rejects_bad_magic 5 (fun _ => 0)).
  - split_and!; [intros a; lia|done|simpl; lia|simpl; lia].
  - apply demo_ram_present. lia.
  - by vm_compute.
Defined.
