(* ===== verification/User.v ===== *)
(** * The user program (lib/syscall.c, lib/console.c, lib/readline.c, user/shell.c,
    user/main.c)

    The user program talks to the kernel through one instruction, [int
    $T_SYSCALL]: the class [SysInt] gives its effect on the kernel's state [K]
    from the registers and from the memory a pointer argument leads to.  The
    program's own state, [user], holds its global variables and its memory; the
    line buffer, the history and the commands' names lie in that memory at
    addresses the linker chose, which are parameters.

    [getchar] and the endless loops of [readline] and [shell] take fuel: the polls
    of the keyboard, the keys of a line, the lines of a session.  The theorems say
    how much is enough for a given input. *)

From S2P Require Import Prelude.
From S2P Require Import Machine.
From S2P Require Import Kmonad.
From S2P Require Import Kbd.
From S2P Require Import Trap.
From S2P Require Import Str.
From S2P Require Import Printfmt.
From Stdlib Require Import ZArith Lia Ascii.
From stdpp Require Import base gmap list strings.

Local Open Scope Z_scope.

(** The kernel behind [int $T_SYSCALL]: the registers are [eax], [edx], [ecx],
    [ebx], [edi], [esi] in the order the kernel reads them. *)
Class SysInt (K : Type) := {
  int_syscall : bmem -> Z -> Z -> Z -> Z -> Z -> Z -> M K Z
}.

Definition SHELL_HIST_MAX : Z := 10.
Definition BUF_LEN : Z := 1024.
Definition BUFLEN : Z := 1024.
Definition MAXARGS : Z := 16.

(** [struct Command]: the addresses of its strings; [func] is [command_func]. *)
Record Command := Cmd { cmd_name : Z; cmd_desc : Z }.

(** The memory, the data segment registers and the globals of lib/readline.c and
    user/shell.c. *)
Record user := User {
  u_mem : bmem; u_segs : Z;
  tab_idx : Z; is_tab : Z; is_found : Z;
  hist_head : Z; hist_tail : Z; hist_curr : Z
}.

Definition set_mem (m : bmem) (u : user) : user :=
  User m (u_segs u) (tab_idx u) (is_tab u) (is_found u) (hist_head u) (hist_tail u) (hist_curr u).
Definition set_segs (v : Z) (u : user) : user :=
  User (u_mem u) v (tab_idx u) (is_tab u) (is_found u) (hist_head u) (hist_tail u) (hist_curr u).
Definition set_tab (idx tab found : Z) (u : user) : user :=
  User (u_mem u) (u_segs u) idx tab found (hist_head u) (hist_tail u) (hist_curr u).
Definition set_hist (head tl curr : Z) (u : user) : user :=
  User (u_mem u) (u_segs u) (tab_idx u) (is_tab u) (is_found u) head tl curr.

Section Lib.
  Context {K : Type} `{!SysInt K}.
  (** The stack buffer of [cprintf]: its address and what it holds. *)
  Context (stk : Z) (stack : list Z).
  (** Polls of the keyboard in [getchar]. *)
  Context (spins : nat).

(** ** System calls (lib/syscall.c) *)

Definition syscall (m : bmem) (num a1 a2 a3 a4 a5 : Z) : M K Z :=
  ret ← int_syscall m (u32 num) (u32 a1) (u32 a2) (u32 a3) (u32 a4) (u32 a5);
  mret (s32 ret).

(** SYSCALL_NOARG. *)
Definition syscall_noarg (num : Z) : M K Z := syscall ∅ num 0 0 0 0 0.

Definition getc : M K Z := syscall_noarg SYS_getc.
Definition getcid : M K Z := syscall_noarg SYS_getcid.
Definition puts (m : bmem) (s len : Z) : M K unit := _ ← syscall m SYS_puts s len 0 0 0; mret tt.
Definition getpid : M K Z := syscall_noarg SYS_getpid.
Definition fork : M K Z := syscall_noarg SYS_fork.
Definition kill_self : M K unit := _ ← syscall ∅ SYS_kill 0 0 0 0 0; mret tt.
Definition sleep (ticks : Z) : M K unit := _ ← syscall ∅ SYS_sleep ticks 0 0 0 0; mret tt.
Definition get_num_used_page : M K Z := syscall_noarg SYS_get_num_used_page.
Definition get_num_free_page : M K Z := syscall_noarg SYS_get_num_free_page.
Definition get_ticks : M K Z := r ← syscall_noarg SYS_get_ticks; mret (u32 r).
Definition settextcolor (forecolor backcolor : Z) : M K unit :=
  _ ← syscall ∅ SYS_settextcolor (u8 forecolor) (u8 backcolor) 0 0 0; mret tt.
Definition cls : M K Z := syscall_noarg SYS_cls.

(** [puts] of a buffer on the stack. *)
Definition puts_buf (l : list Z) : M K unit :=
  puts (list_to_map (zip (seqZ stk (Z.of_nat (length l))) l)) stk (Z.of_nat (length l)).

(** ** Console (lib/console.c) *)

Definition cputchar (ch : Z) : M K unit := puts_buf [u8 ch].

(** [while ((r = getc()) == 0);] *)
Fixpoint getchar_loop (fuel : nat) : M K Z :=
  match fuel with
  | O => hang "getchar"
  | S fuel' => r ← getc; if r =? 0 then getchar_loop fuel' else mret r
  end.
Definition getchar : M K Z := getchar_loop spins.

(** ** The program's state *)

Definition vars : M (user * K) user := gets fst.
Definition on_mem {A} (c : M bmem A) : M (user * K) A :=
  on_fst (zoom u_mem set_mem c).
Definition upd (f : user -> user) : M (user * K) unit := on_fst (modify f).

(** [cprintf] with arguments that point into the program's memory. *)
Definition say (fmt args : list Z) : M (user * K) unit :=
  u ← vars; _ ← on_snd (cprintf puts_buf stack (u_mem u) fmt args); mret tt.
(** [cprintf(fmt, s, ..., s)] with a string constant [s], at address 1. *)
Definition say_const (fmt s args : list Z) : M (user * K) unit :=
  _ ← on_snd (cprintf puts_buf stack (literal s) fmt args); mret tt.

Definition nl : list Z := [10].

(** ** Reading a line (lib/readline.c) *)

Section Readline.
  Context (buf_at hist_at : Z) (commands : list Command).
  (** Keys read before the model gives up. *)
  Context (keys : nat).

Definition NCOMMANDS : Z := Z.of_nat (length commands).
Definition hist_row (i : Z) : Z := hist_at + i * BUF_LEN.
Definition command_name (i : Z) : M (user * K) Z :=
  c ← need (zget commands i) "commands[]"; mret (cmd_name c).

(** What a key does: the loop goes on with a new [i], or [readline] returns. *)
Inductive key_result := Go (i : Z) | Done (r : option Z).

(** [cprintf] of a backspace, [n] times. *)
Fixpoint backspaces (n : nat) : M (user * K) unit :=
  match n with O => mret tt | S n' => say [8] [] ;; backspaces n' end.

(** Fill the found command into the buffer. *)
Definition fill_found (c i : Z) : M (user * K) Z :=
  u ← vars;
  if truth (is_tab u) && truth (is_found u) && negb (c =? 9) then
    name ← command_name (tab_idx u);
    _ ← on_mem (strcpy buf_at name);
    i ← on_mem (strlen buf_at);
    upd (set_tab 0 0 0) ;;
    mret i
  else mret i.

(** [for (; curr_idx < NCOMMANDS; curr_idx++) if (match) { ...; break; }]; the
    result is the final [curr_idx]. *)
Fixpoint tab_search (fuel : nat) (curr_idx i : Z) : M (user * K) Z :=
  if curr_idx <? NCOMMANDS then
    match fuel with
    | O => hang "readline: tab"
    | S fuel' =>
        name ← command_name curr_idx;
        r ← on_mem (strncmp name buf_at i);
        if r =? 0 then
          say (bytes "%s") [name + i] ;;
          upd (set_tab curr_idx 1 1) ;;
          mret curr_idx
        else tab_search fuel' (curr_idx + 1) i
    end
  else mret curr_idx.

Definition tab_key (i : Z) : M (user * K) unit :=
  u ← vars;
  let curr_idx := if truth (is_found u) then tab_idx u + 1 else 0 in
  when (truth (is_found u))
    (name ← command_name (tab_idx u);
     len ← on_mem (strlen name);
     backspaces (Z.to_nat (len - i))) ;;
  curr_idx ← tab_search (length commands) curr_idx i;
  when (curr_idx =? NCOMMANDS) (upd (fun u => set_tab (tab_idx u) (is_tab u) 0 u)).

(** [for (i = 0; hist[hist_curr][i]; i++) { buf[i] = ...; cprintf("%c", buf[i]); }] *)
Fixpoint hist_copy (fuel : nat) (i : Z) : M (user * K) Z :=
  match fuel with
  | O => hang "readline: history"
  | S fuel' =>
      u ← vars;
      c ← on_mem (ld (hist_row (hist_curr u) + i));
      if negb (c =? 0) then
        on_mem (st (buf_at + i) c) ;;
        say (bytes "%c") [s8 c] ;;
        hist_copy fuel' (i + 1)
      else mret i
  end.

Definition show_hist (i : Z) : M (user * K) Z :=
  backspaces (Z.to_nat i) ;;
  u ← vars;
  hist_copy (fuel_of (u_mem u)) 0.

Definition key_up (i : Z) : M (user * K) Z :=
  u ← vars;
  when (negb (hist_curr u =? hist_head u))
    (upd (set_hist (hist_head u) (hist_tail u)
       (if hist_curr u =? 0 then SHELL_HIST_MAX - 1 else hist_curr u - 1))) ;;
  show_hist i.

Definition key_down (i : Z) : M (user * K) Z :=
  u ← vars;
  when (negb (hist_curr u =? hist_tail u))
    (upd (set_hist (hist_head u) (hist_tail u)
       (if hist_curr u =? SHELL_HIST_MAX - 1 then 0 else hist_curr u + 1))) ;;
  show_hist i.

(** The body of the loop after [getchar]. *)
Definition readline_key (prompt : option (list Z)) (c i : Z) : M (user * K) key_result :=
  i ← fill_found c i;
  if c <? 0 then
    say (bytes "read error: %e" ++ nl) [c] ;; mret (Done None)
  else if ((c =? 8) || (c =? 0x7f)) && (i >? 0) then
    say [8] [] ;; mret (Go (i - 1))
  else if (c >=? chr " ") && (c <=? 0x7E) && (i <? BUFLEN - 1) then
    say (bytes "%c") [c] ;; on_mem (st (buf_at + i) c) ;; mret (Go (i + 1))
  else if (c =? 10) || (c =? 13) then
    say nl [] ;; on_mem (st (buf_at + i) 0) ;; mret (Done (Some buf_at))
  else if c =? 0xc then
    _ ← on_snd cls;
    match prompt with
    | Some p => say_const (bytes "%s") p [1]
    | None => say (bytes "%s") [0]
    end ;;
    mret (Go i)
  else if c =? 9 then tab_key i ;; mret (Go i)
  else if c >=? 0x80 then
    if c =? KEY_UP then i ← key_up i; mret (Go i)
    else if c =? KEY_DN then i ← key_down i; mret (Go i)
    else mret (Go i)
  else mret (Go i).

Fixpoint readline_loop (fuel : nat) (prompt : option (list Z)) (i : Z) : M (user * K) (option Z) :=
  match fuel with
  | O => hang "readline"
  | S fuel' =>
      c ← on_snd getchar;
      r ← readline_key prompt c i;
      match r with
      | Go i' => readline_loop fuel' prompt i'
      | Done r => mret r
      end
  end.

Definition readline (prompt : option (list Z)) : M (user * K) (option Z) :=
  match prompt with
  | Some p => say_const (bytes "%s") p [1]
  | None => mret tt
  end ;;
  readline_loop keys prompt 0.
End Readline.
End Lib.

(** ** A kernel with a terminal *)

(** Keys waiting, characters shown, and the screen clears so far. *)
Record term := Term { t_in : list Z; t_out : list Z; t_cls : Z }.

Definition t_print (l : list Z) (k : term) : term := Term (t_in k) (t_out k ++ l) (t_cls k).

(** The interface the theorems on the user side are proved against: SYS_getc gives the
    next key or 0, SYS_puts shows the bytes in memory, SYS_cls counts, the other
    calls return 0.  Terminal.v shows that the kernel's SYS_getc and SYS_puts do the
    same. *)
#[global] Instance term_sys : SysInt term := {|
  int_syscall m num edx ecx ebx edi esi :=
    if num =? SYS_getc then
      k ← get;
      match t_in k with
      | [] => mret 0
      | c :: l => put (Term l (t_out k) (t_cls k)) ;; mret (u32 c)
      end
    else if num =? SYS_puts then
      l ← need (mapM (fun a => m !! a) (seqZ edx ecx)) "puts";
      modify (t_print l) ;; mret 0
    else if num =? SYS_cls then
      modify (fun k => Term (t_in k) (t_out k) (t_cls k + 1)) ;; mret 0
    else mret 0
|}.

Lemma mapM_zip (l : list Z) a :
  mapM (fun x => (list_to_map (zip (seqZ a (Z.of_nat (length l))) l) : bmem) !! x)
    (seqZ a (Z.of_nat (length l))) = Some l.
Proof.
  apply mapM_Some. apply Forall2_same_length_lookup. split; [rewrite length_seqZ; lia|].
  intros i x y Hx Hy. apply lookup_seqZ in Hx as [-> Hi].
  apply elem_of_list_to_map_1.
  - rewrite fst_zip by (rewrite length_seqZ; lia). apply NoDup_seqZ.
  - apply list_elem_of_lookup. exists i. rewrite lookup_zip_with_Some.
    eexists _, _. split_and!; [done| |done]. by apply lookup_seqZ.
Qed.

Section Term.
Context (stk : Z) (stack : list Z).
Context (Hstk : 0 <= stk < 4294967296) (Hstack : length stack = 256%nat).

Lemma puts_buf_prints l k : (length l <= 255)%nat -> puts_buf stk l k = Ret tt (t_print l k).
Proof.
  intros Hl. unfold puts_buf, puts, syscall. rewrite !u32_small by (done || lia).
  unfold int_syscall, term_sys. change (SYS_puts =? SYS_getc) with false.
  change (SYS_puts =? SYS_puts) with true. cbv iota. rewrite mapM_zip. done.
Qed.

Lemma feeds_print pieces (k : term) : feeds t_print pieces k = t_print (concat pieces) k.
Proof.
  revert k. induction pieces as [|l pieces IH]; intros k.
  - destruct k. unfold t_print. simpl. by rewrite app_nil_r.
  - change (feeds t_print (l :: pieces) k) with (feeds t_print pieces (t_print l k)). rewrite IH.
    unfold t_print. simpl. by rewrite <- (assoc_L (++)).
Qed.

Lemma wp_cprintf_term m fmt args out (k : term) (Q : Z -> term -> Prop) :
  output m fmt args = Some out -> (forall r, Q r (t_print (u8 <$> out) k)) ->
  wp (cprintf (puts_buf stk) stack m fmt args) k Q.
Proof.
  intros Ho HQ.
  eapply wp_mono; [apply (cprintf_feeds (puts_buf stk) t_print); [apply puts_buf_prints|done|exact Ho]|].
  intros r k' (pieces & -> & Hc & _). rewrite feeds_print, Hc. apply HQ.
Qed.

Lemma wp_say fmt args out (u : user) (k : term) Q :
  output (u_mem u) fmt args = Some out -> Q tt (u, t_print (u8 <$> out) k) ->
  wp (say stk stack fmt args) (u, k) Q.
Proof.
  intros Ho HQ. unfold say, vars, on_snd. wp_steps. apply wp_zoom. cbn [fst snd].
  eapply wp_cprintf_term; [exact Ho|]. intros r. by wp_step.
Qed.

Lemma wp_say_const fmt s args out (u : user) (k : term) Q :
  output (literal s) fmt args = Some out -> Q tt (u, t_print (u8 <$> out) k) ->
  wp (say_const stk stack fmt s args) (u, k) Q.
Proof.
  intros Ho HQ. unfold say_const, on_snd. wp_step. apply wp_zoom. cbn [fst snd].
  eapply wp_cprintf_term; [exact Ho|]. intros r. by wp_step.
Qed.
End Term.

(** ** Outputs of the formats the library uses *)

Lemma string_loop_log fuel m p l w acc :
  str_at m p l -> (length l < fuel)%nat -> -2147483648 + Z.of_nat (length l) <= w < 2147483648 ->
  string_loop log_putch fuel m p w (-1) 0 acc
  = Ret (w - Z.of_nat (length l)) (reverse (s8 <$> l) ++ acc).
Proof.
  revert fuel p w acc. induction l as [|c l IH]; intros [|fuel] p w acc H Hf Hw;
    simpl in Hf; try lia;
    cbn [string_loop]; unfold mbind, M_bind.
  - simpl in H. rewrite H. simpl. f_equal. lia.
  - destruct H as (H & Hc & Hl). rewrite H. cbn [need mret M_ret].
    assert (s8 c <> 0) as Hc0 by wrap_lia. apply Z.eqb_neq in Hc0. rewrite Hc0.
    unfold log_putch at 1, modify. cbn -[s8 s32 Z.sub].
    simpl length in Hw. replace (s32 (w - 1)) with (w - 1) by wrap_lia. rewrite IH by (done || lia).
    f_equal; [lia|]. change (rev_append (s8 <$> l) [s8 c]) with (reverse (s8 c :: (s8 <$> l))).
    by rewrite reverse_cons, <- (assoc_L (++)).
Qed.

Lemma print_string_log m p l acc :
  str_at m p l -> Z.of_nat (length l) < 2147483648 ->
  print_string log_putch m p (-1) (-1) 0 (chr " ") acc = Ret tt (reverse (s8 <$> l) ++ acc).
Proof.
  intros H Hl. unfold print_string. rewrite (bind_ret _ _ _ (-1) acc) by done.
  rewrite (bind_ret _ _ _ (-1 - Z.of_nat (length l)) (reverse (s8 <$> l) ++ acc)).
  - by replace (Z.to_nat (-1 - Z.of_nat (length l))) with O by lia.
  - by rewrite (string_loop_log _ _ _ l) by (done || lia || by eapply str_at_fuel).
Qed.

(** [cprintf("%s", s)] prints the string. *)
Lemma output_s m p l :
  str_at m p l -> 0 < p < 4294967296 -> Z.of_nat (length l) < 2147483648 ->
  output m (bytes "%s") [p] = Some (s8 <$> l).
Proof.
  intros H Hp Hl. unfold output.
  assert (vprintfmt log_putch m (bytes "%s") [p] []
    = (((if u32 p =? 0 then print_string log_putch (literal (bytes "(null)")) 1 (-1) (-1) 0 (chr " ")
         else print_string log_putch m (u32 p) (-1) (-1) 0 (chr " ")) ;; mret ([], []))
       ≫= fun r => fmt_loop log_putch (printfmt_inner log_putch) 2 m (fst r) (snd r)) [])
    as -> by reflexivity.
  rewrite u32_small by lia. destruct (Z.eqb_spec p 0); [lia|].
  rewrite (bind_ret _ _ _ ([], []) (reverse (s8 <$> l))).
  - cbn [fst snd fmt_loop mret M_ret]. by rewrite reverse_involutive.
  - rewrite (bind_ret _ _ _ tt (reverse (s8 <$> l))); [done|].
    by rewrite (print_string_log _ _ l), app_nil_r.
Qed.

Lemma output_c m c : -2147483648 <= c < 2147483648 -> output m (bytes "%c") [c] = Some [c].
Proof.
  intros Hc. unfold output.
  assert (vprintfmt log_putch m (bytes "%c") [c] [] = Ret tt [s32 (u32 c)]) as -> by reflexivity.
  assert (s32 (u32 c) = c) as -> by wrap_lia. done.
Qed.

Lemma literal_lookup l (i : nat) c :
  (l ++ [0]) !! i = Some c -> literal l !! (1 + Z.of_nat i) = Some c.
Proof.
  intros Hi. unfold literal. apply elem_of_list_to_map_1.
  - rewrite fst_zip by (rewrite length_seqZ, length_app; simpl; lia). apply NoDup_seqZ.
  - apply list_elem_of_lookup. exists i. rewrite lookup_zip_with_Some. eexists _, _.
    split_and!; [done| |done]. apply lookup_seqZ. split; [done|].
    apply lookup_lt_Some in Hi. rewrite length_app in Hi. simpl in Hi. lia.
Qed.

Lemma literal_str l : Forall (fun c => 0 < c < 256) l -> str_at (literal l) 1 l.
Proof.
  intros Hl. assert (forall k l1 l2, l = l1 ++ l2 -> k = 1 + Z.of_nat (length l1) ->
    Forall (fun c => 0 < c < 256) l2 -> str_at (literal l) k l2) as H; [|by apply (H 1 [])].
  intros k l1 l2. revert k l1. induction l2 as [|c l2 IH]; intros k l1 -> -> Hf; simpl.
  - apply literal_lookup. rewrite app_nil_r. apply list_lookup_middle. done.
  - apply Forall_cons in Hf as [Hc Hf]. split_and!; [|lia|lia|].
    + apply literal_lookup. rewrite <- (assoc_L (++)). apply list_lookup_middle. done.
    + apply (IH _ (l1 ++ [c])); [by rewrite <- (assoc_L (++))|rewrite length_app; simpl; lia|done].
Qed.

Lemma u8_s8_list l : Forall (fun c => 0 < c < 256) l -> u8 <$> (s8 <$> l) = l.
Proof.
  intros H. rewrite <- list_fmap_compose. induction H as [|c l Hc H IH]; [done|].
  cbn [fmap list_fmap]. rewrite IH. f_equal. simpl. wrap_lia.
Qed.

(** ** Line editing *)

Definition printable (c : Z) : bool := (c >=? chr " ") && (c <=? 0x7E).
Definition erase (c : Z) : bool := (c =? 8) || (c =? 0x7f).

(** The line after a key, and what the key shows. *)
Definition edit (l : list Z) (c : Z) : list Z :=
  if erase c then take (pred (length l)) l
  else if printable c && (Z.of_nat (length l) <? 1023) then l ++ [c] else l.

Definition echo (prompt l : list Z) (c : Z) : list Z :=
  if erase c then (if bool_decide (l = []) then [] else [8])
  else if printable c && (Z.of_nat (length l) <? 1023) then [c]
  else if c =? 0xc then prompt else [].

Fixpoint echoes (prompt l ks : list Z) : list Z :=
  match ks with [] => [] | c :: ks' => echo prompt l c ++ echoes prompt (edit l c) ks' end.

(** Keys that edit the line: no Tab, no end of line, no cursor key. *)
Definition plain (c : Z) : Prop := 0 < c < 128 /\ c <> 9 /\ c <> 10 /\ c <> 13.

(** The line is in the buffer; the rest of memory is that of [m0]. *)
Record line_in (buf_at : Z) (m0 m : bmem) (l : list Z) : Prop := {
  li_chars : forall j c, l !! j = Some c -> m !! (buf_at + Z.of_nat j) = Some c;
  li_range : Forall (fun c => 0 < c < 256) l;
  li_len : Z.of_nat (length l) <= 1023;
  li_room : present m buf_at 1024;
  li_frame : forall x, ~ (buf_at <= x < buf_at + 1024) -> m !! x = m0 !! x
}.

Lemma line_in_push b m0 m l c :
  line_in b m0 m l -> 0 < c < 256 -> Z.of_nat (length l) < 1023 ->
  line_in b m0 (<[b + Z.of_nat (length l) := c]> m) (l ++ [c]).
Proof.
  intros [H1 H2 H3 H4 H5] Hc Hl. split.
  - intros j d Hj. apply lookup_app_Some in Hj as [Hj|[Hge Hj] ].
    + pose proof (lookup_lt_Some _ _ _ Hj). rewrite lookup_insert_ne by lia. by apply H1.
    + apply list_lookup_singleton_Some in Hj as [E <-]. replace j with (length l) by lia.
      by rewrite lookup_insert_eq.
  - by apply Forall_app_2; [|apply Forall_singleton].
  - rewrite length_app. simpl. lia.
  - intros x Hx. destruct (Z.eq_dec x (b + Z.of_nat (length l))) as [->|].
    + exists c. rewrite lookup_insert_eq. split; [done|lia].
    + rewrite lookup_insert_ne by done. by apply H4.
  - intros x Hx. rewrite lookup_insert_ne by lia. by apply H5.
Qed.

Lemma line_in_take b m0 m l n : line_in b m0 m l -> line_in b m0 m (take n l).
Proof.
  intros [H1 H2 H3 H4 H5]. split; [|by apply Forall_take| |done|done].
  - intros j c Hj. apply lookup_take_Some in Hj as [Hj _]. by apply H1.
  - rewrite length_take. lia.
Qed.

(** A buffer with the line's characters and a NUL after them is a C string. *)
Lemma str_at_intro m a l :
  (forall (j : nat) c, l !! j = Some c -> m !! (a + Z.of_nat j) = Some c) ->
  Forall (fun c => 0 < c < 256) l -> m !! (a + Z.of_nat (length l)) = Some 0 -> str_at m a l.
Proof.
  revert a. induction l as [|c l IH]; intros a H Hf H0; simpl.
  - by rewrite Z.add_0_r in H0.
  - apply Forall_cons in Hf as [Hc Hf]. split_and!; [|lia|lia|].
    + rewrite <- (Z.add_0_r a). by apply (H O).
    + apply IH; [|done|].
      * intros j d Hj. replace (a + 1 + Z.of_nat j) with (a + Z.of_nat (S j)) by lia. by apply H.
      * rewrite <- H0. f_equal. simpl. lia.
Qed.

(** What a prompt may be: characters that are not NUL, few enough for the [int] that
    counts them in [vprintfmt]. *)
Definition c_string (l : list Z) : Prop :=
  Forall (fun c => 0 < c < 256) l /\ Z.of_nat (length l) < 2147483648.

Section ReadlineProof.
Context (stk : Z) (stack : list Z) (spins : nat).
Context (Hstk : 0 <= stk < 4294967296) (Hstack : length stack = 256%nat) (Hspins : (0 < spins)%nat).
Context (buf_at hist_at : Z) (commands : list Command) (prompt : list Z).
Context (Hprompt : c_string prompt).

Lemma wp_getchar c l out n Q :
  0 < c < 256 -> Q c (Term l out n) -> wp (getchar spins) (Term (c :: l) out n) Q.
Proof.
  intros Hc HQ. unfold getchar. destruct spins as [|sp]; [lia|]. cbn [getchar_loop]. wp_step.
  eapply (wp_eq _ _ c (Term l out n)).
  - unfold getc, syscall_noarg, syscall, int_syscall, term_sys, mbind, M_bind. cbn.
    do 2 f_equal. wrap_lia.
  - destruct (Z.eqb_spec c 0); [lia|]. by wp_step.
Qed.

Lemma wp_on_mem {A} (c : M bmem A) (u : user) (k : term) Q :
  wp c (u_mem u) (fun a m => Q a (set_mem m u, k)) -> wp (on_mem c) (u, k) Q.
Proof. intros H. unfold on_mem, on_fst. apply wp_zoom. cbn [fst]. by apply wp_zoom. Qed.

Lemma wp_fill_found c i (u : user) (k : term) Q :
  truth (is_tab u) && truth (is_found u) = false -> Q i (u, k) ->
  wp (fill_found buf_at commands c i) (u, k) Q.
Proof. intros H HQ. unfold fill_found, vars. wp_steps. cbn [fst]. rewrite H. cbn [andb]. by wp_step. Qed.

Lemma wp_prompt (u : user) (k : term) Q :
  Q tt (u, t_print prompt k) -> wp (say_const stk stack (bytes "%s") prompt [1]) (u, k) Q.
Proof.
  intros HQ. eapply wp_say_const; [done|done| |].
  - destruct Hprompt. apply output_s; [by apply literal_str|lia|done].
  - destruct Hprompt. by rewrite u8_s8_list.
Qed.

(** The remaining tests of a key that is neither the end of the line nor Tab nor a
    cursor key. *)
Ltac other_key :=
  rewrite ?(proj2 (Z.eqb_neq _ 10)), ?(proj2 (Z.eqb_neq _ 13)), ?(proj2 (Z.eqb_neq _ 12)),
    ?(proj2 (Z.eqb_neq _ 9)) by done;
  replace (_ >=? 0x80) with false by lia; cbn [orb].

(** A key that edits the line. *)
Lemma wp_plain_key c l m0 (u : user) (k : term) :
  plain c -> line_in buf_at m0 (u_mem u) l -> truth (is_tab u) && truth (is_found u) = false ->
  wp (readline_key stk stack buf_at hist_at commands (Some prompt) c (Z.of_nat (length l))) (u, k)
    (fun r s => r = Go (Z.of_nat (length (edit l c))) /\ t_in (snd s) = t_in k
       /\ t_out (snd s) = t_out k ++ echo prompt l c
       /\ exists m, fst s = set_mem m u /\ line_in buf_at m0 m (edit l c)).
Proof.
  intros (Hc & H9 & H10 & H13) L Ht. unfold readline_key, edit, echo. wp_step.
  apply wp_fill_found; [done|].
  assert (exists m, u = set_mem m u /\ line_in buf_at m0 m l) as Hkeep
    by (exists (u_mem u); split; [by destruct u|done]).
  destruct (Z.ltb_spec c 0); [lia|]. fold (erase c) (printable c).
  destruct (erase c) eqn:He.
  - destruct l as [|x l]; cbn [length].
    + change (Z.of_nat 0 >? 0) with false. rewrite andb_false_r.
      assert (printable c = false) as ->
        by (unfold erase, printable in *; change (chr " ") with 32 in *; lia).
      cbn [andb]. assert (c <> 12) by (unfold erase in He; lia). other_key. wp_step. cbn [fst snd]. rewrite app_nil_r. done.
    + destruct (Z.gtb_spec (Z.of_nat (S (length l))) 0); [|lia]. cbn [andb]. wp_step.
      eapply wp_say; [done|done|by vm_compute|]. wp_step. cbn [fst snd t_in t_out t_print].
      split_and!; [|done|done|].
      * f_equal. rewrite length_take. simpl. lia.
      * destruct Hkeep as (m & E & Hm). exists m. split; [done|]. by apply line_in_take.
  - cbn [andb]. destruct (printable c) eqn:Hp; cbn [andb].
    + change (BUFLEN - 1) with 1023. destruct (Z.ltb_spec (Z.of_nat (length l)) 1023) as [Hl|Hl].
      * wp_step. eapply wp_say; [done|done|apply output_c; lia|]. wp_step. apply wp_on_mem.
        pose proof (li_room _ _ _ _ L) as Hr.
        destruct (Hr (buf_at + Z.of_nat (length l)) ltac:(lia)) as (b & Hb & _).
        eapply wp_st; [exact Hb|]. wp_step. cbn [fst snd t_in t_out t_print fmap list_fmap].
        rewrite u8_small by lia. split_and!; [|done|done|].
        -- f_equal. rewrite length_app. simpl. lia.
        -- eexists. split; [done|]. apply line_in_push; [done|lia|done].
      * assert (c <> 12) by (unfold printable in Hp; change (chr " ") with 32 in Hp; lia).
        other_key. wp_step. cbn [fst snd]. rewrite app_nil_r. done.
    + destruct (Z.eqb_spec c 10); [done|]. destruct (Z.eqb_spec c 13); [done|]. cbn [orb].
      destruct (Z.eqb_spec c 0xc) as [->|].
      * wp_step. unfold on_snd. apply wp_zoom. cbn [snd].
        eapply (wp_eq _ _ 0 (Term (t_in k) (t_out k) (t_cls k + 1))); [done|]. cbn [fst].
        wp_step. apply wp_prompt. wp_step. cbn [fst snd t_in t_out t_print]. done.
      * destruct (Z.eqb_spec c 9); [done|]. replace (c >=? 0x80) with false by lia. wp_step.
        cbn [fst snd]. rewrite app_nil_r. done.
Qed.

Lemma set_mem_set m1 m2 u : set_mem m2 (set_mem m1 u) = set_mem m2 u.
Proof. done. Qed.

Lemma wp_readline_loop ks last rest l fuel m0 (u : user) (k : term) :
  Forall plain ks -> last = 10 \/ last = 13 -> (length ks < fuel)%nat ->
  t_in k = ks ++ last :: rest -> line_in buf_at m0 (u_mem u) l ->
  truth (is_tab u) && truth (is_found u) = false ->
  wp (readline_loop stk stack spins buf_at hist_at commands fuel (Some prompt) (Z.of_nat (length l)))
    (u, k) (fun r s => r = Some buf_at /\ t_in (snd s) = rest
      /\ t_out (snd s) = t_out k ++ echoes prompt l ks ++ [10]
      /\ exists m, fst s = set_mem m u /\ str_at m buf_at (foldl edit l ks)
         /\ forall x, ~ (buf_at <= x < buf_at + 1024) -> m !! x = m0 !! x).
Proof.
  intros Hks Hlast. revert l fuel u k.
  induction Hks as [|c ks Hc Hks IH]; intros l [|fuel] u [kin kout kn] Hf Hin L Ht; simpl in Hf; try lia;
    cbn [readline_loop t_in t_out] in *; subst kin; wp_step; unfold on_snd; apply wp_zoom; cbn [snd app].
  - apply wp_getchar; [lia|]. cbn [fst]. unfold readline_key. repeat wp_step.
    apply wp_fill_found; [done|].
    assert ((last <? 0) = false) as -> by lia. assert ((last =? 8) = false) as -> by lia.
    assert ((last =? 127) = false) as -> by lia.
    assert ((last >=? chr " ") = false) as -> by (change (chr " ") with 32; lia).
    assert ((last =? 10) || (last =? 13) = true) as -> by lia. cbn [orb andb].
    wp_step. eapply wp_say; [done|done|by vm_compute|]. wp_step. apply wp_on_mem.
    destruct L as [L1 L2 L3 L4 L5].
    destruct (L4 (buf_at + Z.of_nat (length l)) ltac:(lia)) as (b & Hb & _).
    eapply wp_st; [exact Hb|]. wp_steps. cbn [fst snd t_in t_out t_print echoes foldl app].
    split_and!; [done|done|done|]. eexists. split_and!; [done| |].
    + apply str_at_intro; [|done|by rewrite lookup_insert_eq].
      intros j c Hj. pose proof (lookup_lt_Some _ _ _ Hj). rewrite lookup_insert_ne by lia. by apply L1.
    + intros x Hx. rewrite lookup_insert_ne by lia. by apply L5.
  - apply wp_getchar; [destruct Hc as [? _]; lia|]. cbn [fst]. wp_step.
    eapply wp_mono; [by apply (wp_plain_key c l m0)|].
    intros r [u1 k1] (-> & Hi1 & Ho1 & m1 & Eu & L1). cbn [fst snd] in *. subst u1.
    eapply wp_mono; [apply IH; [lia|by rewrite Hi1|exact L1|done]|].
    intros r [u2 k2] (-> & Hi2 & Ho2 & m2 & Eu2 & Hs & Hx). cbn [fst snd] in *.
    split_and!; [done|done| |].
    + rewrite Ho2, Ho1. cbn [echoes t_out]. by rewrite <- !(assoc_L (++)).
    + exists m2. by rewrite Eu2.
Qed.
End ReadlineProof.

(** C29: The line editor: for keys below 128 other than Tab (which starts command
    completion and is not covered), with no completion in progress ([is_tab] and
    [is_found] not both set) and a prompt that is a C string, [readline] given any
    sequence of printable characters, erasures (8, 127) and other control keys and
    then an end of line shows the prompt and returns the buffer with the edited
    line as a C string: a printable character is appended while there are fewer
    than 1023 and then echoed, an erasure removes the last character and sends a
    backspace, or does nothing on an empty line, Ctrl-L shows the prompt again
    without changing the line, and the remaining control keys and what does not
    fit any more change and echo nothing.  No store leaves the 1024-byte buffer,
    and the keys after the end of the line are left for the next call. *)
Theorem readline_edits stk stack spins buf_at hist_at commands keys prompt ks last rest
    (u : user) out n :
  0 <= stk < 4294967296 -> length stack = 256%nat -> (0 < spins)%nat ->
  c_string prompt -> Forall plain ks -> last = 10 \/ last = 13 ->
  (length ks < keys)%nat -> present (u_mem u) buf_at 1024 ->
  truth (is_tab u) && truth (is_found u) = false ->
  wp (readline stk stack spins buf_at hist_at commands keys (Some prompt))
    (u, Term (ks ++ last :: rest) out n) (fun r s =>
      r = Some buf_at /\ t_in (snd s) = rest
      /\ t_out (snd s) = out ++ prompt ++ echoes prompt [] ks ++ [10]
      /\ exists m, fst s = set_mem m u /\ str_at m buf_at (foldl edit [] ks)
         /\ forall x, ~ (buf_at <= x < buf_at + 1024) -> m !! x = u_mem u !! x).
Proof.
  intros Hstk Hst Hsp Hp Hks Hlast Hk Hbuf Ht. unfold readline. wp_step.
  apply (wp_prompt stk stack spins); [done|done|done|done|].
  eapply wp_mono; [eapply (wp_readline_loop stk stack spins Hstk Hst Hsp buf_at hist_at commands prompt Hp
    ks last rest [] keys (u_mem u)); [done|done|done|done| |done]|].
  - split; [done|done|simpl; lia|done|done].
  - intros r s (-> & Hi & Ho & Hm). split_and!; [done|done| |done].
    rewrite Ho. cbn [t_out t_print]. by rewrite <- (assoc_L (++)).
Qed.

(** ** Witnesses *)

Definition demo_user : user := User (zeros 4096 1024) 0 0 0 0 0 0 0.

Lemma readline_edits_witness :
  wp (readline 0 (replicate 256 0) 1 4096 8192 [] 5 (Some (bytes "> ")))
    (demo_user, Term (bytes "hax" ++ [8] ++ [13; 65]) [] 0) (fun r s =>
      r = Some 4096 /\ t_in (snd s) = [65] /\ t_out (snd s) = bytes "> hax" ++ [8; 10]
      /\ exists m, fst s = set_mem m demo_user /\ str_at m 4096 (bytes "ha")).
Proof.
  eapply wp_mono; [apply (readline_edits 0 (replicate 256 0) 1 4096 8192 [] 5 (bytes "> ")
    (bytes "hax" ++ [8]) 13 [65] demo_user [] 0)|].
  - lia.
  - done.
  - lia.
  - by repeat constructor.
  - by repeat constructor.
  - by right.
  - simpl. lia.
  - apply zeros_present.
  - done.
  - intros r s (-> & Hi & Ho & m & E & Hs & _). split_and!; [done|done|done|]. by exists m.
Defined.
