(* ===== verification/Shell.v ===== *)
(** * The shell (user/shell.c, user/main.c)

    Commands, the parser of command lines, the history of lines and the loop of
    the shell, on top of the user library of User.v.  The parser works on the
    bytes of the line buffer, as the code does: it writes NULs over white space
    and collects the addresses of the arguments. *)

From S2P Require Import Prelude.
From S2P Require Import Machine.
From S2P Require Import Kmonad.
From S2P Require Import Str.
From S2P Require Import Printfmt.
From S2P Require Import User.
From Stdlib Require Import ZArith Lia Ascii.
From stdpp Require Import base gmap list strings.

Local Open Scope Z_scope.

(** ** The parser *)

(** WHITESPACE. *)
Definition WHITESPACE : list Z := [9; 13; 10; 32].

(** [strchr(WHITESPACE, c)]. *)
Definition is_white (c : Z) : M bmem bool :=
  p ← reading (literal WHITESPACE) (strchr 1 c); mret (truth p).

(** [while ( *buf && strchr(WHITESPACE, *buf)) *buf++ = 0;] *)
Fixpoint gobble (fuel : nat) (buf : Z) : M bmem Z :=
  match fuel with
  | O => hang "runcmd: gobble"
  | S fuel' =>
      c ← ld buf;
      if c =? 0 then mret buf
      else w ← is_white c; if (w : bool) then st buf 0 ;; gobble fuel' (buf + 1) else mret buf
  end.

(** [while ( *buf && !strchr(WHITESPACE, *buf)) buf++;] *)
Fixpoint scan (fuel : nat) (buf : Z) : M bmem Z :=
  match fuel with
  | O => hang "runcmd: scan"
  | S fuel' =>
      c ← ld buf;
      if c =? 0 then mret buf
      else w ← is_white c; if (w : bool) then mret buf else scan fuel' (buf + 1)
  end.

(** The parsing loop: [Some argv], or [None] for too many arguments. *)
Fixpoint parse_args (fuel : nat) (buf : Z) (argv : list Z) : M bmem (option (list Z)) :=
  match fuel with
  | O => hang "runcmd: parse"
  | S fuel' =>
      f ← gets fuel_of;
      buf ← gobble f buf;
      c ← ld buf;
      if c =? 0 then mret (Some argv)
      else if Z.of_nat (length argv) =? MAXARGS - 1 then mret None
      else
        buf' ← scan f buf;
        parse_args fuel' buf' (argv ++ [buf])
  end.

(** ** Commands *)

Section Shell.
  Context {K : Type} `{!SysInt K}.
  Context (stk : Z) (stack : list Z) (spins : nat).
  (** Addresses: the line buffer, the history, and the strings of [commands]. *)
  Context (buf_at hist_at : Z) (name_at desc_at : Z -> Z).
  Context (keys lines : nat).

Definition commands : list Command := (fun i => Cmd (name_at i) (desc_at i)) <$> seqZ 0 6.

(** What the strings of [commands] are. *)
Definition command_strings : list (string * string) :=
  [("help", "Display this list of commands");
   ("mem_stat", "Show current usage of physical memory");
   ("print_tick", "Display system tick");
   ("chgcolor", "Change screen text color");
   ("forktest", "Test functionality of fork()");
   ("spinlocktest", "Test spinlock")]%string.

Abbreviation say := (say stk stack).
Abbreviation say_const := (say_const stk stack).

Definition mem_stat (argv : list Z) : M (user * K) Z :=
  say_const (bytes "%-10s MEM_STAT %10s" ++ nl) (bytes "--------") [1; 1] ;;
  used ← on_snd get_num_used_page;
  say (bytes "Used: %18d pages" ++ nl) [used] ;;
  free ← on_snd get_num_free_page;
  say (bytes "Free: %18d pages" ++ nl) [free] ;;
  mret 0.

Fixpoint help_loop (cs : list Command) : M (user * K) unit :=
  match cs with
  | [] => mret tt
  | c :: cs' => say (bytes "%s - %s" ++ nl) [cmd_name c; cmd_desc c] ;; help_loop cs'
  end.
Definition mon_help (argv : list Z) : M (user * K) Z := help_loop commands ;; mret 0.

Definition print_tick (argv : list Z) : M (user * K) Z :=
  t ← on_snd get_ticks; say (bytes "Now tick = %d" ++ nl) [t] ;; mret 0.

Definition chgcolor (argv : list Z) : M (user * K) Z :=
  match argv with
  | _ :: arg :: _ =>
      c ← on_mem (ld arg);
      let fore := s8 (s8 c - chr "0") in
      on_snd (settextcolor fore 0) ;;
      say (bytes "Change color %d!" ++ nl) [fore] ;;
      mret 0
  | _ => say (bytes "No input text color!" ++ nl) [] ;; mret 0
  end.

(** [for (i = 0; i < 10; i++)], [n] turns left. *)
Fixpoint task_job_loop (n : nat) (pid cid i : Z) : M (user * K) unit :=
  match n with
  | O => mret tt
  | S n' =>
      say (bytes "Pid=%d, Cid=%d, now=%d" ++ nl) [pid; cid; i] ;;
      on_snd (sleep 100) ;;
      task_job_loop n' pid cid (i + 1)
  end.
Definition task_job : M (user * K) unit :=
  pid ← on_snd getpid; cid ← on_snd getcid; task_job_loop 10 pid cid 0.

Definition forktest (argv : list Z) : M (user * K) Z :=
  p ← on_snd fork;
  (if p =? 0 then
     task_job ;;
     p1 ← on_snd fork;
     (if truth p1 then task_job
      else
        p2 ← on_snd fork;
        if truth p2 then task_job
        else
          p3 ← on_snd fork;
          if truth p3 then task_job else task_job) ;;
     on_snd kill_self
   else mret tt) ;;
  mret 0.

Definition spinlocktest (argv : list Z) : M (user * K) Z :=
  p ← on_snd fork;
  (if p =? 0 then
     _ ← on_snd fork;
     _ ← on_snd fork;
     _ ← on_snd fork;
     on_snd (sleep 500) ;;
     pid ← on_snd getpid;
     cid ← on_snd getcid;
     say (bytes "Pid=%d, Cid=%d" ++ nl) [pid; cid] ;;
     on_snd kill_self
   else mret tt) ;;
  mret 0.

(** [commands[i].func(argc, argv)]. *)
Definition command_func (i : Z) (argv : list Z) : M (user * K) Z :=
  f ← need (zget [mon_help; mem_stat; print_tick; chgcolor; forktest; spinlocktest] i) "commands[]";
  f argv.

(** The search for the command, from index [i] on. *)
Fixpoint lookup_cmd (cs : list Command) (i arg0 : Z) : M (user * K) (option Z) :=
  match cs with
  | [] => mret None
  | c :: cs' =>
      r ← on_mem (strcmp arg0 (cmd_name c));
      if r =? 0 then mret (Some i) else lookup_cmd cs' (i + 1) arg0
  end.

Definition runcmd (buf : Z) : M (user * K) Z :=
  u ← vars;
  r ← on_mem (parse_args (fuel_of (u_mem u)) buf []);
  match r with
  | None => say (bytes "Too many arguments (max %d)" ++ nl) [MAXARGS] ;; mret 0
  | Some [] => mret 0
  | Some ((arg0 :: _) as argv) =>
      o ← lookup_cmd commands 0 arg0;
      match o with
      | Some i => command_func i argv
      | None => say (bytes "Unknown command '%s'" ++ nl) [arg0] ;; mret 0
      end
  end.

(** ** The loop *)

(** The line goes to the history. *)
Definition hist_push (buf : Z) : M (user * K) unit :=
  u ← vars;
  _ ← on_mem (strcpy (hist_row hist_at (hist_tail u)) buf);
  let tail' := Z.rem (hist_tail u + 1) SHELL_HIST_MAX in
  (if hist_head u =? tail' then
     upd (set_hist (Z.rem (hist_head u + 1) SHELL_HIST_MAX) tail' (hist_curr u)) ;;
     on_mem (st (hist_row hist_at tail') 0)
   else upd (set_hist (hist_head u) tail' (hist_curr u))) ;;
  upd (fun u => set_hist (hist_head u) (hist_tail u) (hist_tail u) u).

Fixpoint shell_loop (fuel : nat) : M (user * K) unit :=
  match fuel with
  | O => hang "shell"
  | S fuel' =>
      r ← readline stk stack spins buf_at hist_at commands keys (Some (bytes "OSDI> "));
      match r with
      | Some buf =>
          hist_push buf ;;
          r ← runcmd buf;
          if r <? 0 then mret tt else shell_loop fuel'
      | None => shell_loop fuel'
      end
  end.

Definition shell : M (user * K) unit :=
  upd (set_hist 0 0 0) ;;
  say (bytes "Welcome to the OSDI course!" ++ nl) [] ;;
  say (bytes "Type 'help' for a list of commands." ++ nl) [] ;;
  shell_loop lines.

(** ** Entry points (user/main.c) *)

Definition user_entry : M (user * K) unit :=
  upd (set_segs (Z.lor 0x20 0x03)) ;;
  say (bytes "Welcome to User Land, cheers!" ++ nl) [] ;;
  shell ;;
  hang "user_entry: for(;;)".

Definition idle_entry : M (user * K) unit :=
  upd (set_segs (Z.lor 0x20 0x03)) ;; hang "idle_entry: for(;;)".
End Shell.

(** ** Splitting a line into words *)

Definition white (c : Z) : Prop := c ∈ WHITESPACE.
#[global] Instance white_dec c : Decision (white c) := _.

(** The reference: words are the longest runs of characters that are not white
    space; [cur] is the word being read. *)
Fixpoint words_from (cur l : list Z) : list (list Z) :=
  match l with
  | [] => if bool_decide (cur = []) then [] else [cur]
  | c :: l' =>
      if bool_decide (white c) then
        (if bool_decide (cur = []) then words_from [] l' else cur :: words_from [] l')
      else words_from (cur ++ [c]) l'
  end.
Definition words (l : list Z) : list (list Z) := words_from [] l.

Lemma words_white ws l : Forall white ws -> words (ws ++ l) = words l.
Proof.
  unfold words. induction 1 as [|c ws Hc _ IH]; [done|]. cbn [app words_from].
  by rewrite bool_decide_eq_true_2.
Qed.

(** No word goes on over the start of [l]. *)
Definition fresh_start (l : list Z) : Prop := match l with [] => True | c :: _ => white c end.

Lemma words_token tok l :
  Forall (fun c => ~ white c) tok -> tok <> [] -> fresh_start l -> words (tok ++ l) = tok :: words l.
Proof.
  intros Ht Hne Hl. unfold words.
  assert (forall cur, cur ++ tok <> [] -> words_from cur (tok ++ l) = (cur ++ tok) :: words_from [] l) as H;
    [|by apply (H [])].
  clear Hne. induction Ht as [|c tok Hc _ IH]; intros cur Hne.
  - rewrite app_nil_r in *. destruct l as [|c l]; cbn [app words_from].
    + by rewrite bool_decide_eq_false_2.
    + simpl in Hl. rewrite !(bool_decide_eq_true_2 (white c)) by done.
      rewrite bool_decide_eq_false_2 by done. by rewrite (bool_decide_eq_true_2 ([] = [])).
  - cbn [app words_from]. rewrite bool_decide_eq_false_2 by done.
    rewrite IH; [by rewrite <- (assoc_L (++))|]. by rewrite <- (assoc_L (++)).
Qed.

(** ** The parser's loops *)

Lemma is_white_eq c (m : bmem) : 0 < c < 256 -> is_white c m = Ret (bool_decide (white c)) m.
Proof.
  intros Hc. unfold is_white, reading.
  assert (strchr 1 c (literal WHITESPACE)
    = Ret (if 9 =? c then 1 else if 13 =? c then 2 else if 10 =? c then 3 else if 32 =? c then 4 else 0)
          (literal WHITESPACE)) as ->.
  { unfold strchr. assert (fuel_of (literal WHITESPACE) = 6%nat) as E by by vm_compute.
    unfold gets, mbind, M_bind. rewrite E. cbn [strchr_loop].
    rewrite u8_small by lia.
    assert (forall i x, literal WHITESPACE !! i = Some x -> ld i (literal WHITESPACE) = Ret x (literal WHITESPACE))
      as Hld by (intros i x H; unfold ld, get, mbind, M_bind; by rewrite H).
    unfold mbind, M_bind.
    rewrite (Hld 1 9) by done. cbn -[literal ld Z.add Z.eqb]; change (9 =? 0) with false; cbn -[literal ld Z.add Z.eqb]. destruct (9 =? c); [done|].
    rewrite (Hld (1 + 1) 13) by done. cbn -[literal ld Z.add Z.eqb]; change (13 =? 0) with false; cbn -[literal ld Z.add Z.eqb]. destruct (13 =? c); [done|].
    rewrite (Hld (1 + 1 + 1) 10) by done. cbn -[literal ld Z.add Z.eqb]; change (10 =? 0) with false; cbn -[literal ld Z.add Z.eqb]. destruct (10 =? c); [done|].
    rewrite (Hld (1 + 1 + 1 + 1) 32) by done. cbn -[literal ld Z.add Z.eqb]; change (32 =? 0) with false; cbn -[literal ld Z.add Z.eqb]. destruct (32 =? c); [done|].
    by rewrite (Hld (1 + 1 + 1 + 1 + 1) 0). }
  unfold mbind, M_bind, mret, M_ret. f_equal. unfold white, WHITESPACE.
  destruct (Z.eqb_spec 9 c); [subst; done|]. destruct (Z.eqb_spec 13 c); [subst; done|].
  destruct (Z.eqb_spec 10 c); [subst; done|]. destruct (Z.eqb_spec 32 c); [subst; done|].
  rewrite bool_decide_eq_false_2; [done|]. rewrite !elem_of_cons, elem_of_nil. lia.
Qed.

Lemma str_at_app m a l1 l2 : str_at m a (l1 ++ l2) -> str_at m (a + Z.of_nat (length l1)) l2.
Proof.
  revert a. induction l1 as [|c l1 IH]; intros a H; [by rewrite Z.add_0_r|].
  destruct H as (_ & _ & H). apply IH in H. cbn [length].
  by replace (a + Z.of_nat (S (length l1))) with (a + 1 + Z.of_nat (length l1)) by lia.
Qed.

Lemma wp_gobble fuel b l (m : bmem) :
  str_at m b l -> (length l < fuel)%nat ->
  wp (gobble fuel b) m (fun b' m' => exists ws l1, l = ws ++ l1 /\ Forall white ws
    /\ b' = b + Z.of_nat (length ws) /\ (match l1 with [] => True | c :: _ => ~ white c end)
    /\ forall x, m' !! x = if bool_decide (b <= x < b') then Some 0 else m !! x).
Proof.
  revert b m fuel. induction l as [|c l IH]; intros b m [|fuel] H Hf; simpl in Hf; try lia;
    cbn [gobble]; wp_step.
  - simpl in H. eapply wp_ld; [done|]. change (0 =? 0) with true. cbv iota. wp_step. exists [], []. split_and!; try done; [simpl; lia|].
    intros x. rewrite bool_decide_eq_false_2; [done|lia].
  - destruct H as (H & Hc & Hl). eapply wp_ld; [done|]. destruct (Z.eqb_spec c 0); [lia|].
    wp_step. eapply wp_eq; [by apply is_white_eq|]. case_bool_decide as Hw.
    + wp_step. eapply wp_st; [done|]. eapply wp_mono; [apply IH; [|lia]|].
      { eapply str_at_ext; [|exact Hl]. intros x Hx. rewrite lookup_insert_ne by lia. done. }
      intros b' m' (ws & l1 & -> & Hws & -> & Hh & Hm). exists (c :: ws), l1.
      split_and!; try done; [by constructor|simpl; lia|].
      intros x. rewrite Hm. repeat case_bool_decide; try lia; try done.
      * assert (x = b) as -> by lia. by rewrite lookup_insert_eq.
      * by rewrite lookup_insert_ne by lia.
    + wp_step. exists [], (c :: l). split_and!; try done; [simpl; lia|].
      intros x. rewrite bool_decide_eq_false_2; [done|lia].
Qed.

Lemma wp_scan fuel b l (m : bmem) :
  str_at m b l -> (length l < fuel)%nat ->
  wp (scan fuel b) m (fun b' m' => m' = m /\ exists tok l2, l = tok ++ l2
    /\ Forall (fun c => ~ white c) tok /\ b' = b + Z.of_nat (length tok) /\ fresh_start l2).
Proof.
  revert b fuel. induction l as [|c l IH]; intros b [|fuel] H Hf; simpl in Hf; try lia;
    cbn [scan]; wp_step.
  - simpl in H. eapply wp_ld; [done|]. change (0 =? 0) with true. cbv iota. wp_step. split; [done|]. exists [], [].
    split_and!; try done. simpl. lia.
  - destruct H as (H & Hc & Hl). eapply wp_ld; [done|]. destruct (Z.eqb_spec c 0); [lia|].
    wp_step. eapply wp_eq; [by apply is_white_eq|]. case_bool_decide as Hw.
    + wp_step. split; [done|]. exists [], (c :: l). split_and!; try done. simpl. lia.
    + eapply wp_mono; [apply IH; [done|lia]|]. intros b' m' (-> & tok & l2 & -> & Ht & -> & Hs).
      split; [done|]. exists (c :: tok), l2. split_and!; try done; [by constructor|simpl; lia].
Qed.

(** An argument read so far: its characters are in place, and it ends in a NUL or
    right where the parser stands. *)
Definition arg_at (m : bmem) (b a : Z) (w : list Z) : Prop :=
  (forall (j : nat) c, w !! j = Some c -> m !! (a + Z.of_nat j) = Some c)
  /\ Forall (fun c => 0 < c < 256) w
  /\ a + Z.of_nat (length w) <= b
  /\ (a + Z.of_nat (length w) = b \/ m !! (a + Z.of_nat (length w)) = Some 0).

(** White space turned into NULs ends the last argument. *)
Lemma arg_at_gobbled m m' b b' a w :
  arg_at m b a w -> b <= b' -> (b' = b -> m !! b = Some 0) ->
  (forall x, m' !! x = if bool_decide (b <= x < b') then Some 0 else m !! x) ->
  arg_at m' b' a w /\ str_at m' a w.
Proof.
  intros (H1 & H2 & H3 & H4) Hb H0 Hm.
  assert (forall (j : nat) c, w !! j = Some c -> m' !! (a + Z.of_nat j) = Some c) as H1'.
  { intros j c Hj. pose proof (lookup_lt_Some _ _ _ Hj). rewrite Hm, bool_decide_eq_false_2 by lia.
    by apply H1. }
  assert (m' !! (a + Z.of_nat (length w)) = Some 0) as H0'.
  { rewrite Hm. case_bool_decide; [done|]. destruct H4 as [E|]; [|done]. rewrite E. apply H0. lia. }
  split; [|by apply str_at_intro]. split_and!; [done|done|lia|by right].
Qed.

Lemma arg_at_token m b tok l : str_at m b (tok ++ l) -> arg_at m (b + Z.of_nat (length tok)) b tok.
Proof.
  intros H. split_and!; [| |lia|by left].
  - intros j c Hj. revert b j c Hj H. induction tok as [|d tok IH]; intros b j c Hj H; [done|].
    destruct H as (Hd & _ & Hl). destruct j as [|j]; [simpl in Hj; simplify_eq; by rewrite Z.add_0_r|].
    replace (b + Z.of_nat (S j)) with (b + 1 + Z.of_nat j) by lia. by eapply IH.
  - apply str_at_chars in H. by apply Forall_app in H as [? _].
Qed.

(** The parser's result for the words of a line between [lo] and [hi]. *)
Definition parsed (lo hi : Z) (ws : list (list Z)) (r : option (list Z)) (m' : bmem) : Prop :=
  if bool_decide (length ws <= 15)%nat
  then exists argv, r = Some argv /\ Forall2 (str_at m') argv ws /\ Forall (fun a => lo <= a < hi) argv
  else r = None.

Lemma words_from_ne cur l : cur <> [] -> words_from cur l <> [].
Proof.
  revert cur. induction l as [|c l IH]; intros cur Hne; cbn [words_from].
  - by rewrite bool_decide_eq_false_2.
  - case_bool_decide; [by rewrite bool_decide_eq_false_2|]. apply IH. by destruct cur.
Qed.

Lemma words_length cur l w ws :
  words_from cur l = w :: ws -> (length w <= length cur + length l)%nat.
Proof.
  revert cur. induction l as [|c l IH]; intros cur; cbn [words_from length].
  - destruct (bool_decide _); [done|]. intros [= <- <-]. lia.
  - destruct (bool_decide (white c)).
    + destruct (bool_decide (cur = [])); [intros H; apply IH in H; simpl in H; lia|].
      intros [= <- _]. lia.
    + intros H. apply IH in H. rewrite length_app in H. simpl in H. lia.
Qed.

Lemma words_ne c l : ~ white c -> words (c :: l) <> [].
Proof.
  intros H. unfold words. cbn [words_from]. rewrite bool_decide_eq_false_2 by done.
  by apply words_from_ne.
Qed.

(** All arguments read so far, after the white space behind them is gone. *)
Lemma args_gobbled m m1 b argv ws sp l1 :
  str_at m b (sp ++ l1) -> Forall2 (arg_at m b) argv ws -> argv = [] \/ fresh_start (sp ++ l1) ->
  (match l1 with [] => True | c :: _ => ~ white c end) ->
  (forall x, m1 !! x = if bool_decide (b <= x < b + Z.of_nat (length sp)) then Some 0 else m !! x) ->
  Forall2 (fun a w => arg_at m1 (b + Z.of_nat (length sp)) a w /\ str_at m1 a w) argv ws.
Proof.
  intros H Ha Hs Hh Hm1. destruct Hs as [->|Hs]; [by inversion Ha|].
  eapply Forall2_impl; [exact Ha|]. intros a w Haw. eapply arg_at_gobbled; [exact Haw|lia| |done].
  intros E. assert (sp = []) as -> by (apply length_zero_iff_nil; lia).
  destruct l1 as [|c l1]; [exact H|done].
Qed.

Lemma arg_at_closed m b b' a w : arg_at m b a w -> str_at m a w -> b <= b' -> arg_at m b' a w.
Proof.
  intros (A1 & A2 & A3 & _) A5 Hb. split_and!; [done|done|lia|]. right.
  apply str_at_app with (l2 := []). by rewrite app_nil_r.
Qed.

Lemma wp_parse_args lo hi fuel b l argv ws (m : bmem) :
  str_at m b l -> (length l < fuel)%nat -> (length argv <= 15)%nat ->
  lo <= b -> b + Z.of_nat (length l) <= hi -> Forall (fun a => lo <= a < hi) argv ->
  Forall2 (arg_at m b) argv ws -> argv = [] \/ fresh_start l ->
  wp (parse_args fuel b argv) m (fun r m' => parsed lo hi (ws ++ words l) r m'
    /\ forall x, ~ (b <= x < b + Z.of_nat (length l)) -> m' !! x = m !! x).
Proof.
  revert b l argv ws m. induction fuel as [|fuel IH]; intros b l argv ws m H Hf Hlen Hlo Hhi Hb Ha Hs; [lia|].
  cbn [parse_args]. do 3 wp_step.
  eapply wp_mono; [apply (wp_gobble _ _ l); [done|by eapply str_at_fuel]|].
  intros b' m1 (sp & l1 & -> & Hsp & -> & Hh & Hm1).
  pose proof (Forall2_length _ _ _ Ha) as Hwl. rewrite words_white by done.
  pose proof (args_gobbled m m1 b argv ws sp l1 H Ha Hs Hh Hm1) as Hargs.
  assert (str_at m1 (b + Z.of_nat (length sp)) l1) as Hl1.
  { apply str_at_app in H. eapply str_at_ext; [|exact H]. intros x Hx. rewrite Hm1.
    by rewrite bool_decide_eq_false_2 by lia. }
  assert (forall x, ~ (b <= x < b + Z.of_nat (length (sp ++ l1))) -> m1 !! x = m !! x) as Hfr.
  { intros x Hx. rewrite length_app in Hx. rewrite Hm1, bool_decide_eq_false_2; [done|lia]. }
  wp_step. destruct l1 as [|c l1].
  { eapply wp_ld; [exact Hl1|]. change (0 =? 0) with true. cbv iota. wp_step. split; [|done].
    change (words []) with ([] : list (list Z)). rewrite app_nil_r.
    unfold parsed. rewrite bool_decide_eq_true_2 by lia. exists argv. split_and!; [done| |done].
    eapply Forall2_impl; [exact Hargs|]. by intros a w [_ ?]. }
  pose proof Hl1 as (Hc & Hcr & _). eapply wp_ld; [exact Hc|]. destruct (Z.eqb_spec c 0); [lia|].
  change (MAXARGS - 1) with 15. destruct (Z.eqb_spec (Z.of_nat (length argv)) 15) as [E15|N15].
  { wp_step. split; [|done]. unfold parsed. rewrite bool_decide_eq_false_2; [done|]. rewrite length_app.
    pose proof (words_ne c l1 Hh). destruct (words (c :: l1)); [done|simpl; lia]. }
  wp_step. eapply wp_mono; [apply (wp_scan _ _ (c :: l1)); [done|]|].
  { pose proof (str_at_fuel _ _ _ H). rewrite length_app in *. simpl in *. lia. }
  intros b2 m2 (-> & tok & l2 & E & Ht & -> & Hf2). rewrite E in Hl1, Hf, Hhi, Hfr |- *.
  assert (tok <> []) as Hne by (intros ->; simpl in E; subst l2; simpl in Hf2; done).
  rewrite words_token by done. rewrite !length_app in *.
  assert (0 < length tok)%nat by (destruct tok; [done|simpl; lia]).
  eapply wp_mono; [apply (IH _ l2 (argv ++ [b + Z.of_nat (length sp)]) (ws ++ [tok]))|].
  - by apply str_at_app in Hl1.
  - lia.
  - rewrite length_app. simpl. lia.
  - lia.
  - lia.
  - apply Forall_app_2; [done|]. apply Forall_singleton. lia.
  - apply Forall2_app; [|constructor; [by eapply arg_at_token|constructor] ].
    eapply Forall2_impl; [exact Hargs|]. intros a w [A1 A2]. eapply arg_at_closed; [done|done|lia].
  - by right.
  - intros r m3 [Hp Hx]. rewrite <- (assoc_L (++)) in Hp. split; [exact Hp|].
    intros x Hxx. rewrite Hx by lia. apply Hfr. lia.
Qed.

(** ** Running a command *)

(** The index of a command's name. *)
Fixpoint find_name (names : list (list Z)) (w : list Z) (i : Z) : option Z :=
  match names with
  | [] => None
  | n :: names' => if bool_decide (w = n) then Some i else find_name names' w (i + 1)
  end.
Definition command_names : list (list Z) := (fun s => bytes (fst s)) <$> command_strings.

Definition unknown_msg (w : list Z) : list Z := bytes "Unknown command '" ++ w ++ bytes "'" ++ nl.

Lemma output_unknown m p w :
  str_at m p w -> 0 < p < 4294967296 -> Z.of_nat (length w) < 2147483648 ->
  output m (bytes "Unknown command '%s'" ++ nl) [p]
  = Some (bytes "Unknown command '" ++ (s8 <$> w) ++ bytes "'" ++ nl).
Proof.
  intros H Hp Hl. unfold output.
  assert (vprintfmt log_putch m (bytes "Unknown command '%s'" ++ nl) [p] []
    = (((if u32 p =? 0 then print_string log_putch (literal (bytes "(null)")) 1 (-1) (-1) 0 (chr " ")
         else print_string log_putch m (u32 p) (-1) (-1) 0 (chr " ")) ;; mret (bytes "'" ++ nl, []))
       ≫= fun r => fmt_loop log_putch (printfmt_inner log_putch) 4 m (fst r) (snd r))
      (reverse (bytes "Unknown command '"))) as -> by reflexivity.
  rewrite u32_small by lia. destruct (Z.eqb_spec p 0); [lia|].
  rewrite (bind_ret _ _ _ (bytes "'" ++ nl, []) (reverse (s8 <$> w) ++ reverse (bytes "Unknown command '"))).
  - cbn [fst snd fmt_loop]. unfold mret, M_ret, mbind, M_bind, log_putch, modify. cbn -[reverse bytes].
    f_equal. rewrite !reverse_cons, reverse_app, !reverse_involutive, <- !(assoc_L (++)). done.
  - rewrite (bind_ret _ _ _ tt (reverse (s8 <$> w) ++ reverse (bytes "Unknown command '"))); [done|].
    by apply print_string_log.
Qed.

Lemma strcmp_eq p q (m : bmem) l1 l2 :
  str_at m p l1 -> str_at m q l2 -> exists r, strcmp p q m = Ret r m /\ (r = 0 <-> l1 = l2).
Proof.
  intros H1 H2. exists (list_cmp l1 l2). split.
  - unfold strcmp, gets, mbind, M_bind. apply strcmp_loop_eq; [done|done|by eapply str_at_fuel].
  - apply list_cmp_eq; [by eapply str_at_chars|by eapply str_at_chars].
Qed.

Section Run.
Context (stk : Z) (stack : list Z) (name_at desc_at : Z -> Z).
Context (Hstk : 0 <= stk < 4294967296) (Hstack : length stack = 256%nat).

(** The commands' names are in memory. *)
Definition names_in (m : bmem) : Prop :=
  Forall2 (fun c n => str_at m (cmd_name c) n) (commands name_at desc_at) command_names.

(** The names do not overlap [n] bytes at [b]. *)
Definition names_off (b n : Z) : Prop :=
  Forall2 (fun c s => forall x, cmd_name c <= x <= cmd_name c + Z.of_nat (length s) -> ~ (b <= x < b + n))
    (commands name_at desc_at) command_names.

Lemma names_keep m m' b n :
  names_in m -> names_off b n -> (forall x, ~ (b <= x < b + n) -> m' !! x = m !! x) -> names_in m'.
Proof.
  intros H Ho Hx. unfold names_in, names_off in *. revert H Ho.
  generalize (commands name_at desc_at) command_names. intros cs ns H.
  induction H as [|c s cs ns Hc H IH]; intros Ho; [constructor|].
  apply Forall2_cons in Ho as [Ho1 Ho]. constructor; [|by apply IH].
  eapply str_at_ext; [|exact Hc]. intros x Hxx. by apply Hx, Ho1.
Qed.

Lemma lookup_cmd_eq cs names i arg0 w (u : user) (k : term) :
  Forall2 (fun c n => str_at (u_mem u) (cmd_name c) n) cs names -> str_at (u_mem u) arg0 w ->
  lookup_cmd cs i arg0 (u, k) = Ret (find_name names w i) (u, k).
Proof.
  intros H Hw. revert i. induction H as [|c n cs names Hc H IH]; intros i; [done|].
  cbn [lookup_cmd find_name]. destruct (strcmp_eq arg0 (cmd_name c) (u_mem u) w n Hw Hc) as (r & E & Hr).
  rewrite (bind_ret _ _ _ r (u, k)).
  - destruct (Z.eqb_spec r 0) as [->|Hne].
    + by rewrite bool_decide_eq_true_2 by by apply Hr.
    + rewrite bool_decide_eq_false_2 by (intros Hx; by apply Hne, Hr). apply IH.
  - unfold on_mem, on_fst, zoom. cbn [fst]. rewrite E. cbn. by destruct u.
Qed.

(** C27: A command line, of less than 2^31 characters, is split at white space and dispatched on its first word: an
    empty line does nothing, more than fifteen words are refused, an unknown first
    word is reported, and a command's name runs that command with the words as
    NUL-terminated arguments.  Memory outside the line is unchanged when the
    command starts. *)
Theorem runcmd_dispatch b l (u : user) (k : term) :
  str_at (u_mem u) b l -> 0 < b -> b + Z.of_nat (length l) < 4294967296 ->
  Z.of_nat (length l) < 2147483648 ->
  names_in (u_mem u) -> names_off b (Z.of_nat (length l)) ->
  exists m,
    (forall x, ~ (b <= x < b + Z.of_nat (length l)) -> m !! x = u_mem u !! x)
    /\ let run := runcmd stk stack name_at desc_at b (u, k) in
       match words l with
       | [] => run = Ret 0 (set_mem m u, k)
       | w :: ws =>
           if bool_decide (14 < length ws)%nat
           then run = Ret 0 (set_mem m u, t_print (bytes "Too many arguments (max 16)" ++ nl) k)
           else exists arg0 argv, Forall2 (str_at m) (arg0 :: argv) (w :: ws)
             /\ run = match find_name command_names w 0 with
                      | Some i => command_func stk stack name_at desc_at i (arg0 :: argv) (set_mem m u, k)
                      | None => Ret 0 (set_mem m u, t_print (unknown_msg w) k)
                      end
       end.
Proof.
  intros H Hb Hbl Hll Hn Hoff.
  destruct (wp_inv _ _ _ (wp_parse_args b (b + Z.of_nat (length l)) (fuel_of (u_mem u)) b l [] []
    (u_mem u) H (str_at_fuel _ _ _ H) ltac:(simpl; lia) ltac:(lia) ltac:(lia) ltac:(constructor)
    ltac:(constructor) ltac:(by left))) as (r & m & E & Hp & Hx).
  exists m. split; [done|]. cbv zeta. unfold runcmd.
  rewrite (bind_ret _ _ _ u (u, k)) by done.
  rewrite (bind_ret _ _ _ r (set_mem m u, k))
    by (unfold on_mem, on_fst, zoom; cbn [fst]; by rewrite E).
  cbn [app] in Hp. unfold parsed in Hp. destruct (words l) as [|w ws] eqn:Ew.
  { rewrite bool_decide_eq_true_2 in Hp by (simpl; lia). destruct Hp as (argv & -> & Hf & _).
    by apply Forall2_nil_inv_r in Hf as ->. }
  cbn [length] in Hp. destruct (decide (14 < length ws)%nat) as [Hlen|Hlen].
  { rewrite bool_decide_eq_false_2 in Hp by lia. rewrite bool_decide_eq_true_2 by done. subst r.
    destruct (wp_inv _ _ _ (wp_say stk stack Hstk Hstack (bytes "Too many arguments (max %d)" ++ nl) [MAXARGS]
      (bytes "Too many arguments (max 16)" ++ nl) (set_mem m u) k
      (fun _ s => s = (set_mem m u, t_print (bytes "Too many arguments (max 16)" ++ nl) k))
      ltac:(by vm_compute) ltac:(done))) as ([] & s' & E' & ->).
    by rewrite (bind_ret _ _ _ _ _ E'). }
  rewrite bool_decide_eq_true_2 in Hp by lia. rewrite bool_decide_eq_false_2 by done.
  destruct Hp as (argv & -> & Hf & Hr).
  destruct argv as [|arg0 argv]; [by inversion Hf|]. exists arg0, argv. split; [done|].
  apply Forall2_cons in Hf as [Hw _]. apply Forall_cons in Hr as [Hr _].
  rewrite (bind_ret _ _ _ _ _ (lookup_cmd_eq _ command_names 0 arg0 w (set_mem m u) k
    (names_keep _ _ _ _ Hn Hoff Hx) Hw)).
  destruct (find_name command_names w 0) as [i|]; [done|].
  destruct (wp_inv _ _ _ (wp_say stk stack Hstk Hstack _ [arg0] _ (set_mem m u) k
    (fun _ s => s = (set_mem m u, t_print (unknown_msg w) k))
    (output_unknown m arg0 w Hw ltac:(lia) ltac:(apply words_length in Ew; simpl in Ew; lia))
    ltac:(by rewrite !fmap_app, u8_s8_list by by eapply str_at_chars))) as ([] & s' & E' & ->).
  by rewrite (bind_ret _ _ _ _ _ E').
Qed.
End Run.

(** ** History *)

Lemma wp_strcpy_loop fuel dst src l (m : bmem) :
  str_at m src l -> (length l < fuel)%nat -> present m dst (Z.of_nat (length l) + 1) ->
  (dst + Z.of_nat (length l) < src \/ src + Z.of_nat (length l) < dst) ->
  wp (strcpy_loop fuel dst src) m (fun _ m' =>
    forall x, m' !! x = if bool_decide (dst <= x <= dst + Z.of_nat (length l))
                        then (l ++ [0]) !! Z.to_nat (x - dst) else m !! x).
Proof.
  revert dst src fuel m. induction l as [|c l IH]; intros dst src [|fuel] m H Hf Hp Hd; simpl in Hf; try lia;
    cbn [strcpy_loop]; wp_step; destruct (Hp dst ltac:(lia)) as (b & Hb & _).
  - simpl in H. eapply wp_ld; [done|]. wp_step. eapply wp_st; [done|].
    change (negb (0 =? 0)) with false. cbv iota. wp_step. intros x. case_bool_decide as Hx.
    + assert (x = dst) as -> by (simpl in Hx; lia). by rewrite lookup_insert_eq, Z.sub_diag.
    + rewrite lookup_insert_ne; [done|simpl in Hx; lia].
  - destruct H as (H & Hc & Hl). cbn [length] in *. eapply wp_ld; [done|]. wp_step. eapply wp_st; [done|].
    destruct (Z.eqb_spec c 0); [lia|]. cbn [negb]. rewrite u8_small by lia.
    eapply wp_mono; [apply IH; [|lia| |lia]|].
    + eapply str_at_ext; [|exact Hl]. intros x Hx. rewrite lookup_insert_ne by lia. done.
    + intros x Hx. destruct (Hp x ltac:(lia)) as (b' & Hb' & Hr). exists b'. by rewrite lookup_insert_ne by lia.
    + intros u m' Hm'. cbv beta in Hm'. intros x. rewrite Hm'. repeat case_bool_decide; try lia.
      * replace (Z.to_nat (x - dst)) with (S (Z.to_nat (x - (dst + 1)))) by lia. done.
      * assert (x = dst) as -> by lia. rewrite lookup_insert_eq, Z.sub_diag. done.
      * rewrite lookup_insert_ne; [done|lia].
Qed.

Lemma wp_strcpy dst src l (m : bmem) Q :
  str_at m src l -> present m dst (Z.of_nat (length l) + 1) ->
  (dst + Z.of_nat (length l) < src \/ src + Z.of_nat (length l) < dst) ->
  (forall m', str_at m' dst l ->
     (forall x, ~ (dst <= x <= dst + Z.of_nat (length l)) -> m' !! x = m !! x) ->
     (forall a n, present m a n -> present m' a n) -> Q dst m') ->
  wp (strcpy dst src) m Q.
Proof.
  intros H Hp Hd HQ. unfold strcpy. wp_steps.
  eapply wp_mono; [apply (wp_strcpy_loop _ _ _ l); [done|by eapply str_at_fuel|done|done]|].
  intros u m' Hm. cbv beta in Hm. wp_step. pose proof (str_at_chars _ _ _ H) as Hc. apply HQ.
  - apply str_at_intro; [|done|].
    + intros j c Hj. pose proof (lookup_lt_Some _ _ _ Hj). rewrite Hm, bool_decide_eq_true_2 by lia.
      rewrite Z.add_simpl_l, Nat2Z.id. by apply lookup_app_l_Some.
    + rewrite Hm, bool_decide_eq_true_2 by lia. rewrite Z.add_simpl_l, Nat2Z.id. by apply list_lookup_middle.
  - intros x Hx. rewrite Hm. by rewrite bool_decide_eq_false_2.
  - intros a n Ha x Hx. rewrite Hm. case_bool_decide; [|by apply Ha].
    destruct ((l ++ [0]) !! Z.to_nat (x - dst)) as [c|] eqn:E.
    + exists c. split; [done|]. apply lookup_app_Some in E as [E|[_ E] ].
      * pose proof (Forall_lookup_1 _ _ _ _ Hc E) as Hr. simpl in Hr. lia.
      * apply list_lookup_singleton_Some in E as [_ <-]. lia.
    + apply lookup_ge_None in E. rewrite length_app in E. simpl in E. lia.
Qed.

Section Hist.
Context (hist_at : Z).

(** The history as the user sees it: the last nine lines, oldest first. *)
Definition push_line (h : list (list Z)) (l : list Z) : list (list Z) :=
  (if bool_decide (length h < 9)%nat then h else tail h) ++ [l].

(** The ring: the lines lie from [hist_head] on, the other rows are empty. *)
Record hist_rep (m : bmem) (u : user) (h : list (list Z)) : Prop := {
  hr_head : 0 <= hist_head u < 10;
  hr_len : Z.of_nat (length h) <= 9;
  hr_tail : hist_tail u = (hist_head u + Z.of_nat (length h)) mod 10;
  hr_room : present m hist_at 10240;
  hr_line : forall i l, h !! i = Some l ->
    str_at m (hist_row hist_at ((hist_head u + Z.of_nat i) mod 10)) l /\ Z.of_nat (length l) < 1024;
  hr_free : forall i, Z.of_nat (length h) <= i < 10 ->
    m !! hist_row hist_at ((hist_head u + i) mod 10) = Some 0
}.

(** Rows are apart and inside the array. *)
Lemma row_range i : 0 <= i < 10 ->
  hist_at <= hist_row hist_at i /\ hist_row hist_at i + 1024 <= hist_at + 10240.
Proof. intros. unfold hist_row, BUF_LEN. lia. Qed.

Lemma row_apart i j x : 0 <= i < 10 -> 0 <= j < 10 -> i <> j ->
  hist_row hist_at i <= x < hist_row hist_at i + 1024 ->
  ~ (hist_row hist_at j <= x < hist_row hist_at j + 1024).
Proof. intros. unfold hist_row, BUF_LEN in *. lia. Qed.

Lemma ring_ne h i j : 0 <= i < 10 -> 0 <= j < 10 -> i <> j -> (h + i) mod 10 <> (h + j) mod 10.
Proof. intros. Z.to_euclidean_division_equations. lia. Qed.

Lemma hist_row_ext m m' a l i j :
  0 <= i < 10 -> 0 <= j < 10 -> (a + i) mod 10 <> (a + j) mod 10 ->
  (forall x, ~ (hist_row hist_at ((a + j) mod 10) <= x < hist_row hist_at ((a + j) mod 10) + 1024) ->
     m' !! x = m !! x) ->
  Z.of_nat (length l) < 1024 ->
  str_at m (hist_row hist_at ((a + i) mod 10)) l -> str_at m' (hist_row hist_at ((a + i) mod 10)) l.
Proof.
  intros Hi Hj Hne Hm Hl. apply str_at_ext. intros x Hx. apply Hm.
  apply (row_apart ((a + i) mod 10)); [apply Z.mod_pos_bound; lia|apply Z.mod_pos_bound; lia|done|lia].
Qed.

(** The ring depends on the memory and the two indices only. *)
Lemma rep_vars m u u' h :
  hist_rep m u h -> hist_head u' = hist_head u -> hist_tail u' = hist_tail u -> hist_rep m u' h.
Proof. intros [R1 R2 R3 R4 R5 R6] E1 E2. split; rewrite ?E1, ?E2; done. Qed.

(** The new line in the row at the tail, the other rows as before. *)
Definition row_written (m m1 : bmem) (u : user) (l : list Z) : Prop :=
  str_at m1 (hist_row hist_at (hist_tail u)) l /\ present m1 hist_at 10240
  /\ (forall x, ~ (hist_row hist_at (hist_tail u) <= x < hist_row hist_at (hist_tail u) + 1024) ->
       m1 !! x = m !! x).

(** A ring with room: the line is appended. *)
Lemma rep_append m m1 u h l curr :
  hist_rep m u h -> (length h < 9)%nat -> row_written m m1 u l -> Z.of_nat (length l) < 1024 ->
  hist_rep m1 (set_hist (hist_head u) ((hist_tail u + 1) mod 10) curr u) (h ++ [l]).
Proof.
  intros [R1 R2 R3 R4 R5 R6] Hn (W1 & W2 & W3) Hl. rewrite R3 in W1, W3 |- *.
  split; cbn [hist_head hist_tail set_hist]; rewrite ?length_app; cbn [length]; try done; try lia.
  - Z.to_euclidean_division_equations. lia.
  - intros i l' Hi. apply lookup_app_Some in Hi as [Hi|[Hge Hi] ].
    + pose proof (lookup_lt_Some _ _ _ Hi). destruct (R5 i l' Hi) as [Hs Hll]. split; [|done].
      eapply (hist_row_ext m m1 _ _ _ (Z.of_nat (length h))); [lia|lia|apply ring_ne; lia|done|done|done].
    + apply list_lookup_singleton_Some in Hi as [E <-]. replace i with (length h) by lia. done.
  - intros i Hi. rewrite W3; [apply R6; lia|]. intros Hx.
    eapply (row_apart ((hist_head u + i) mod 10) ((hist_head u + Z.of_nat (length h)) mod 10));
      [apply Z.mod_pos_bound; lia|apply Z.mod_pos_bound; lia|apply ring_ne; lia| |exact Hx]. lia.
Qed.

(** A full ring: the oldest line goes, its row becomes the empty row. *)
Lemma rep_rotate m m1 u h l curr :
  hist_rep m u h -> length h = 9%nat -> row_written m m1 u l -> Z.of_nat (length l) < 1024 ->
  hist_rep (<[hist_row hist_at (hist_head u) := 0]> m1)
    (set_hist ((hist_head u + 1) mod 10) (hist_head u) curr u) (tail h ++ [l]).
Proof.
  intros [R1 R2 R3 R4 R5 R6] Hn (W1 & W2 & W3) Hl. rewrite Hn in *. rewrite R3 in W1, W3.
  destruct h as [|l0 h]; [done|]. injection Hn as Hn. cbn [tail].
  set (a := hist_head u) in *. assert (a = (a + 0) mod 10) as Ea by (rewrite Z.add_0_r; by rewrite Z.mod_small).
  assert (forall i, ((a + 1) mod 10 + i) mod 10 = (a + (i + 1)) mod 10) as Em
    by (intros i; rewrite Zplus_mod_idemp_l; f_equal; lia).
  assert (forall i l', 0 < i < 10 -> Z.of_nat (length l') < 1024 ->
    str_at m1 (hist_row hist_at ((a + i) mod 10)) l' ->
    str_at (<[hist_row hist_at a := 0]> m1) (hist_row hist_at ((a + i) mod 10)) l') as Hkeep.
  { intros i l' Hi Hl' Hs. apply (hist_row_ext m1 _ _ _ _ 0); [lia|lia|apply ring_ne; lia| |done|done].
    intros x Hx. rewrite <- Ea in Hx. rewrite lookup_insert_ne; [done|]. intros <-. apply Hx. lia. }
  split; cbn [hist_head hist_tail set_hist]; rewrite ?length_app, ?Hn; cbn [length]; try done; try lia.
  - apply Z.mod_pos_bound. lia.
  - rewrite Em. replace (Z.of_nat (8 + 1) + 1) with 10 by lia. Z.to_euclidean_division_equations. lia.
  - intros x Hx. destruct (Z.eq_dec x (hist_row hist_at a)) as [->|].
    + exists 0. rewrite lookup_insert_eq. split; [done|lia].
    + rewrite lookup_insert_ne by done. by apply W2.
  - intros i l' Hi. rewrite Em. apply lookup_app_Some in Hi as [Hi|[Hge Hi] ].
    + pose proof (lookup_lt_Some _ _ _ Hi). destruct (R5 (S i) l' Hi) as [Hs Hll]. split; [|done].
      apply Hkeep; [lia|done|].
      apply (hist_row_ext m m1 _ _ _ 9); [lia|lia|apply ring_ne; lia|done|done|].
      by replace (Z.of_nat i + 1) with (Z.of_nat (S i)) by lia.
    + apply list_lookup_singleton_Some in Hi as [E <-]. replace (Z.of_nat i + 1) with 9 by lia.
      split; [|done]. by apply Hkeep; [lia| |].
  - intros i Hi. rewrite Em. assert (i = 9) as -> by lia.
    replace ((a + (9 + 1)) mod 10) with a by (Z.to_euclidean_division_equations; lia).
    by rewrite lookup_insert_eq.
Qed.

(** C28: The history is the queue of the last nine lines: entering a line appends it
    and, when nine lines are kept, forgets the oldest; browsing starts again at
    the empty row behind the newest line.  The rest of the program's memory and the
    terminal are untouched. *)
Theorem hist_push_keeps_last_nine (u : user) (k : term) h buf l :
  hist_rep (u_mem u) u h -> str_at (u_mem u) buf l -> Z.of_nat (length l) < 1024 ->
  (buf + Z.of_nat (length l) < hist_at \/ hist_at + 10240 <= buf) ->
  wp (hist_push hist_at buf) (u, k) (fun _ s =>
    hist_rep (u_mem (fst s)) (fst s) (push_line h l)
    /\ hist_curr (fst s) = hist_tail (fst s) /\ snd s = k
    /\ forall x, ~ (hist_at <= x < hist_at + 10240) -> u_mem (fst s) !! x = u_mem u !! x).
Proof.
  intros R Hs Hl Hoff. unfold hist_push, vars. wp_steps. cbn [fst]. apply wp_on_mem.
  pose proof (hr_head _ _ _ R). pose proof (hr_len _ _ _ R).
  assert (0 <= hist_tail u < 10) as Ht by (rewrite (hr_tail _ _ _ R); apply Z.mod_pos_bound; lia).
  pose proof (row_range _ Ht) as Hrow.
  apply (wp_strcpy _ _ l); [done| |lia|].
  { eapply present_sub; [apply (hr_room _ _ _ R)|lia|lia]. }
  intros m1 Hm1 Hfr Hpr. change SHELL_HIST_MAX with 10. rewrite !Z.rem_mod_nonneg by lia. wp_step.
  assert (row_written (u_mem u) m1 u l) as Hw.
  { split_and!; [done|by apply Hpr, (hr_room _ _ _ R)|]. intros x Hx. apply Hfr. lia. }
  assert (forall x, ~ (hist_at <= x < hist_at + 10240) -> m1 !! x = u_mem u !! x) as Hout
    by (intros x Hx; apply Hfr; lia).
  unfold push_line, upd, on_fst. destruct (decide (length h < 9)%nat) as [Hn|Hn].
  - rewrite bool_decide_eq_true_2 by done.
    assert (hist_head u <> (hist_tail u + 1) mod 10) as Hne.
    { rewrite (hr_tail _ _ _ R). Z.to_euclidean_division_equations. lia. }
    destruct (Z.eqb_spec (hist_head u) ((hist_tail u + 1) mod 10)); [done|].
    apply wp_zoom. wp_step. apply wp_zoom. wp_step. cbn [fst snd]. split_and!; [|done|done|done].
    eapply rep_vars; [by apply (rep_append _ m1 _ _ l 0) in R|done|done].
  - rewrite bool_decide_eq_false_2 by done. assert (length h = 9%nat) as Hn9 by lia.
    assert ((hist_tail u + 1) mod 10 = hist_head u) as ->.
    { rewrite (hr_tail _ _ _ R), Hn9. Z.to_euclidean_division_equations. lia. }
    rewrite Z.eqb_refl. wp_step. apply wp_zoom. wp_step.
    pose proof (row_range (hist_head u) ltac:(lia)) as Hrow2.
    destruct Hw as (W1 & W2 & W3). destruct (W2 (hist_row hist_at (hist_head u)) ltac:(lia)) as (b & Hb & _).
    cbn [fst snd]. apply wp_on_mem. cbn [u_mem set_hist set_mem]. eapply wp_st; [exact Hb|].
    apply wp_zoom. wp_step. cbn [fst snd]. split_and!; [|done|done|].
    + eapply rep_vars; [by apply (rep_rotate _ m1 _ _ l 0) in R|done|done].
    + intros x Hx. cbn. rewrite lookup_insert_ne by lia. by apply Hout.
Qed.
End Hist.

(** ** Browsing the history *)

Section Browse.
Context (stk : Z) (stack : list Z) (buf_at hist_at : Z).
Context (Hstk : 0 <= stk < 4294967296) (Hstack : length stack = 256%nat).

Lemma wp_backspaces n (u : user) (k : term) Q :
  Q tt (u, t_print (replicate n 8) k) -> wp (backspaces stk stack n) (u, k) Q.
Proof.
  revert k. induction n as [|n IH]; intros k HQ; cbn [backspaces].
  - wp_step. destruct k. unfold t_print in HQ. simpl in HQ. by rewrite app_nil_r in HQ.
  - wp_step. eapply wp_say; [done|done|by vm_compute|]. apply IH.
    unfold t_print in *. simpl in *. by rewrite <- (assoc_L (++)).
Qed.

Lemma wp_hist_copy fuel l1 l2 m0 (u : user) (k : term) :
  line_in buf_at m0 (u_mem u) l1 -> str_at m0 (hist_row hist_at (hist_curr u)) (l1 ++ l2) ->
  Z.of_nat (length (l1 ++ l2)) < 1024 -> (length l2 < fuel)%nat ->
  (forall x, hist_row hist_at (hist_curr u) <= x < hist_row hist_at (hist_curr u) + 1024 ->
     ~ (buf_at <= x < buf_at + 1024)) ->
  wp (hist_copy stk stack buf_at hist_at fuel (Z.of_nat (length l1))) (u, k) (fun r s =>
    r = Z.of_nat (length (l1 ++ l2)) /\ snd s = t_print l2 k
    /\ exists m, fst s = set_mem m u /\ line_in buf_at m0 m (l1 ++ l2)).
Proof.
  revert l1 fuel u k. induction l2 as [|c l2 IH]; intros l1 [|fuel] u k L Hs Hl Hf Hoff; simpl in Hf; try lia;
    cbn [hist_copy]; unfold vars; wp_steps; cbn [fst]; apply wp_on_mem.
  - rewrite app_nil_r in *. eapply wp_ld.
    { rewrite (li_frame _ _ _ _ L); [|apply Hoff; lia]. apply (str_at_app _ _ l1 []).
      by rewrite app_nil_r. }
    change (negb (0 =? 0)) with false. cbv iota. wp_step. cbn [fst snd]. split_and!; [done| |].
    + destruct k. unfold t_print. simpl. by rewrite app_nil_r.
    + exists (u_mem u). split; [done|done].
  - rewrite length_app in Hl. simpl in Hl. pose proof (str_at_app _ _ _ _ Hs) as (Hc & Hcr & _).
    eapply wp_ld; [rewrite (li_frame _ _ _ _ L); [exact Hc|apply Hoff; lia]|].
    destruct (Z.eqb_spec c 0); [lia|]. cbn [negb]. wp_step. apply wp_on_mem.
    destruct (li_room _ _ _ _ L (buf_at + Z.of_nat (length l1)) ltac:(lia)) as (b & Hb & _).
    eapply wp_st; [exact Hb|]. wp_step.
    eapply wp_say; [done|done|apply output_c; wrap_lia|]. rewrite u8_small by lia.
    replace (u8 <$> [s8 c]) with [c] by (simpl; f_equal; wrap_lia).
    replace (Z.of_nat (length l1) + 1) with (Z.of_nat (length (l1 ++ [c]))) by (rewrite length_app; simpl; lia).
    eapply wp_mono; [apply (IH (l1 ++ [c]) fuel)|].
    + cbn [u_mem set_mem]. apply line_in_push; [done|lia|lia].
    + by rewrite <- (assoc_L (++)).
    + rewrite !length_app. simpl. lia.
    + lia.
    + done.
    + intros r [u2 k2] (-> & -> & m & -> & Hm). rewrite <- (assoc_L (++)) in *. cbn [fst snd] in *.
      split_and!; [done| |by exists m]. unfold t_print. simpl. by rewrite <- (assoc_L (++)).
Qed.

(** The line at position [j] of the history; the position behind the last is the
    empty line. *)
Definition line_at (h : list (list Z)) (j : Z) : list Z := default [] (zget h j).

Lemma rep_line m u h j :
  hist_rep hist_at m u h -> 0 <= j <= Z.of_nat (length h) ->
  str_at m (hist_row hist_at ((hist_head u + j) mod 10)) (line_at h j)
  /\ Z.of_nat (length (line_at h j)) < 1024.
Proof.
  intros R Hj. unfold line_at. pose proof (hr_len _ _ _ _ R).
  destruct (decide (j = Z.of_nat (length h))) as [->|Hne].
  - destruct (zget h (Z.of_nat (length h))) eqn:E; [apply zget_Some_range in E; lia|].
    simpl. split; [|lia]. apply (hr_free _ _ _ _ R). lia.
  - destruct (zget_is_Some h j ltac:(lia)) as [l E]. rewrite E. simpl.
    assert (h !! Z.to_nat j = Some l) as E' by (unfold zget in E; by destruct (0 <=? j)).
    pose proof (hr_line _ _ _ _ R _ _ E') as H'. by rewrite Z2Nat.id in H' by lia.
Qed.

(** Showing the history line at the current position. *)
Lemma wp_show_hist i j h (u : user) (k : term) :
  hist_rep hist_at (u_mem u) u h -> present (u_mem u) buf_at 1024 ->
  (buf_at + 1024 <= hist_at \/ hist_at + 10240 <= buf_at) ->
  0 <= j <= Z.of_nat (length h) -> hist_curr u = (hist_head u + j) mod 10 ->
  wp (show_hist stk stack buf_at hist_at i) (u, k) (fun r s =>
    r = Z.of_nat (length (line_at h j)) /\ snd s = t_print (replicate (Z.to_nat i) 8 ++ line_at h j) k
    /\ exists m, fst s = set_mem m u /\ line_in buf_at (u_mem u) m (line_at h j)).
Proof.
  intros R Hb Hoff Hj Hc. unfold show_hist, vars. wp_step. apply wp_backspaces. wp_steps. cbn [fst].
  destruct (rep_line _ _ _ _ R Hj) as [Hs Hl].
  pose proof (row_range hist_at (hist_curr u) ltac:(rewrite Hc; apply Z.mod_pos_bound; lia)) as Hr.
  eapply wp_mono; [eapply (wp_hist_copy _ [] (line_at h j) (u_mem u))|].
  - split; [done|done|simpl; lia|done|done].
  - by rewrite Hc.
  - done.
  - by eapply str_at_fuel.
  - intros x Hx. lia.
  - intros r s (-> & -> & Hm). split_and!; [done| |done].
    unfold t_print. simpl. by rewrite <- (assoc_L (++)).
Qed.

(** Writing the line buffer does not touch the history. *)
Lemma rep_frame m m' u u' h l :
  hist_rep hist_at m u h -> hist_head u' = hist_head u -> hist_tail u' = hist_tail u ->
  line_in buf_at m m' l -> (buf_at + 1024 <= hist_at \/ hist_at + 10240 <= buf_at) ->
  hist_rep hist_at m' u' h.
Proof.
  intros R E1 E2 L Hoff.
  assert (forall x, hist_at <= x < hist_at + 10240 -> m' !! x = m !! x) as Hm
    by (intros x Hx; apply (li_frame _ _ _ _ L); lia).
  assert (forall i, 0 <= (hist_head u + i) mod 10 < 10) as Hi by (intros; apply Z.mod_pos_bound; lia).
  destruct R as [R1 R2 R3 R4 R5 R6]. split; rewrite ?E1, ?E2; try done.
  - intros x Hx. rewrite Hm by done. by apply R4.
  - intros i l' Hl'. destruct (R5 i l' Hl') as [Hs Hlen]. split; [|done].
    eapply str_at_ext; [|exact Hs]. intros x Hx. apply Hm.
    pose proof (row_range hist_at _ (Hi (Z.of_nat i))). lia.
  - intros i Hx. rewrite Hm; [by apply R6|]. pose proof (row_range hist_at _ (Hi i)). lia.
Qed.

Lemma ring_pred a j : 0 <= a < 10 -> 0 < j < 10 ->
  (if (a + j) mod 10 =? 0 then 10 - 1 else (a + j) mod 10 - 1) = (a + (j - 1)) mod 10.
Proof. intros. destruct (Z.eqb_spec ((a + j) mod 10) 0); Z.to_euclidean_division_equations; lia. Qed.

Lemma ring_succ a j : 0 <= a < 10 -> 0 <= j < 9 ->
  (if (a + j) mod 10 =? 10 - 1 then 0 else (a + j) mod 10 + 1) = (a + (j + 1)) mod 10.
Proof. intros. destruct (Z.eqb_spec ((a + j) mod 10) (10 - 1)); Z.to_euclidean_division_equations; lia. Qed.

(** The cursor keys browse the history: from position [j], up goes to the line
    before (and stays at the oldest), down to the line after (and stays at the empty
    line behind the newest).  The old line is wiped from the screen, the chosen one
    is shown and is in the line buffer; the history itself does not change. *)
Theorem history_browse i j h (u : user) (k : term) (up : bool) :
  let j' := if up then Z.max 0 (j - 1) else Z.min (Z.of_nat (length h)) (j + 1) in
  hist_rep hist_at (u_mem u) u h -> present (u_mem u) buf_at 1024 ->
  (buf_at + 1024 <= hist_at \/ hist_at + 10240 <= buf_at) ->
  0 <= j <= Z.of_nat (length h) -> hist_curr u = (hist_head u + j) mod 10 ->
  wp ((if up then key_up else key_down) stk stack buf_at hist_at i) (u, k) (fun r s =>
    r = Z.of_nat (length (line_at h j'))
    /\ snd s = t_print (replicate (Z.to_nat i) 8 ++ line_at h j') k
    /\ hist_curr (fst s) = (hist_head u + j') mod 10
    /\ line_in buf_at (u_mem u) (u_mem (fst s)) (line_at h j')
    /\ hist_rep hist_at (u_mem (fst s)) (fst s) h).
Proof.
  intros j' R Hb Hoff Hj Hc. pose proof (hr_head _ _ _ _ R). pose proof (hr_len _ _ _ _ R).
  assert (wp (show_hist stk stack buf_at hist_at i) (set_hist (hist_head u) (hist_tail u) ((hist_head u + j') mod 10) u, k)
    (fun r s => r = Z.of_nat (length (line_at h j'))
      /\ snd s = t_print (replicate (Z.to_nat i) 8 ++ line_at h j') k
      /\ hist_curr (fst s) = (hist_head u + j') mod 10
      /\ line_in buf_at (u_mem u) (u_mem (fst s)) (line_at h j')
      /\ hist_rep hist_at (u_mem (fst s)) (fst s) h)) as Hshow.
  { eapply wp_mono; [apply (wp_show_hist i j' h); [by eapply rep_vars|done|done| |done]|].
    { unfold j'. destruct up; lia. }
    intros r s (-> & -> & m & -> & L). split_and!; try done. cbn.
    eapply rep_frame; [exact R|done|done|exact L|lia]. }
  assert (hist_curr u = (hist_head u + j') mod 10 ->
    u = set_hist (hist_head u) (hist_tail u) ((hist_head u + j') mod 10) u)
    as Hstay by (intros <-; by destruct u).
  unfold key_up, key_down, upd, on_fst, when.
  destruct up; unfold vars; wp_steps; cbn [fst snd]; change SHELL_HIST_MAX with 10.
  - assert (hist_head u = (hist_head u + 0) mod 10) as E0 by (rewrite Z.add_0_r, Z.mod_small; lia).
    destruct (decide (j = 0)) as [->|Hne].
    + rewrite Hc, <- E0, Z.eqb_refl. cbn [negb]. wp_step. rewrite Hstay by done. exact Hshow.
    + destruct (Z.eqb_spec (hist_curr u) (hist_head u)) as [E|_].
      { exfalso. rewrite Hc in E. rewrite E0 in E at 2. revert E. apply ring_ne; lia. }
      cbn [negb]. apply wp_zoom. wp_step. cbn [fst snd]. rewrite Hc, ring_pred by lia.
      replace (j - 1) with j' by (unfold j'; lia). exact Hshow.
  - destruct (decide (j = Z.of_nat (length h))) as [->|Hne].
    + rewrite Hc, (hr_tail _ _ _ _ R), Z.eqb_refl. cbn [negb]. wp_step.
      rewrite Hstay by (unfold j'; rewrite Hc; f_equal; lia). exact Hshow.
    + destruct (Z.eqb_spec (hist_curr u) (hist_tail u)) as [E|_].
      { exfalso. rewrite Hc, (hr_tail _ _ _ _ R) in E. revert E. apply ring_ne; lia. }
      cbn [negb]. apply wp_zoom. wp_step. cbn [fst snd]. rewrite Hc, ring_succ by lia.
      replace (j + 1) with j' by (unfold j'; lia). exact Hshow.
Qed.
End Browse.

(** ** Witnesses *)

Fixpoint put_strings (l : list (Z * list Z)) : bmem :=
  match l with
  | [] => ∅
  | (a, s) :: l' => list_to_map (zip (seqZ a (Z.of_nat (length s) + 1)) (s ++ [0])) ∪ put_strings l'
  end.

(** The names from 20000 on, and a line at 4096. *)
Definition demo_line : list Z := bytes " nosuch  x".
Definition demo_shell : user :=
  User (put_strings ((4096, demo_line) :: zip ((fun i => 20000 + 32 * i) <$> seqZ 0 6) command_names))
    0 0 0 0 0 0 0.

Lemma demo_names (P : Command -> list Z -> Prop) :
  P (Cmd 20000 0) (bytes "help") -> P (Cmd 20032 0) (bytes "mem_stat") ->
  P (Cmd 20064 0) (bytes "print_tick") -> P (Cmd 20096 0) (bytes "chgcolor") ->
  P (Cmd 20128 0) (bytes "forktest") -> P (Cmd 20160 0) (bytes "spinlocktest") ->
  Forall2 P (commands (fun i => 20000 + 32 * i) (fun _ => 0)) command_names.
Proof.
  intros. change (commands (fun i => 20000 + 32 * i) (fun _ => 0))
    with [Cmd 20000 0; Cmd 20032 0; Cmd 20064 0; Cmd 20096 0; Cmd 20128 0; Cmd 20160 0].
  unfold command_names, command_strings. cbn [fmap list_fmap fst].
  repeat (apply Forall2_cons; split; [done|]). constructor.
Qed.

Lemma runcmd_dispatch_witness :
  exists m, runcmd 0 (replicate 256 0) (fun i => 20000 + 32 * i) (fun i => 0) 4096 (demo_shell, Term [] [] 0)
    = Ret 0 (set_mem m demo_shell, t_print (unknown_msg (bytes "nosuch")) (Term [] [] 0)).
Proof.
  destruct (runcmd_dispatch 0 (replicate 256 0) (fun i => 20000 + 32 * i) (fun i => 0) ltac:(lia) ltac:(done)
    4096 demo_line demo_shell (Term [] [] 0)) as (m & _ & H).
  - by vm_compute.
  - lia.
  - by vm_compute.
  - by vm_compute.
  - apply demo_names; by vm_compute.
  - apply demo_names; intros x; simpl; lia.
  - exists m. cbv zeta in H. change (words demo_line) with [bytes "nosuch"; bytes "x"] in H.
    cbv iota in H. rewrite bool_decide_eq_false_2 in H by (simpl; lia).
    destruct H as (arg0 & argv & _ & H). exact H.
Defined.

(** An empty history at 8192 and the line [ls] at 4096. *)
Definition demo_hist : user :=
  User (put_strings [(4096, bytes "ls")] ∪ zeros 8192 10240) 0 0 0 0 0 0 0.

Lemma demo_hist_zero x : 8192 <= x < 18432 -> u_mem demo_hist !! x = Some 0.
Proof.
  intros Hx. unfold demo_hist. cbn [u_mem]. rewrite lookup_union_r; [apply zeros_lookup; lia|].
  destruct (put_strings [(4096, bytes "ls")] !! x) as [b|] eqn:E; [|done]. exfalso.
  assert (map_Forall (fun y _ => y < 8192) (put_strings [(4096, bytes "ls")])) as H
    by (apply (bool_decide_unpack _); by vm_compute).
  specialize (H x b E). simpl in H. lia.
Qed.

Lemma demo_hist_rep : hist_rep 8192 (u_mem demo_hist) demo_hist [].
Proof.
  split; change (hist_head demo_hist) with 0; change (hist_tail demo_hist) with 0; cbn [length].
  - lia.
  - lia.
  - reflexivity.
  - intros x Hx. exists 0. split; [apply demo_hist_zero; lia|lia].
  - intros i l Hi. inversion Hi.
  - intros i Hi. apply demo_hist_zero. unfold hist_row, BUF_LEN. pose proof (Z.mod_pos_bound (0 + i) 10 ltac:(lia)). lia.
Qed.

Lemma hist_push_keeps_last_nine_witness :
  wp (hist_push 8192 4096) (demo_hist, Term [] [] 0) (fun _ s =>
    hist_rep 8192 (u_mem (fst s)) (fst s) [bytes "ls"]).
Proof.
  eapply wp_mono; [apply (hist_push_keeps_last_nine 8192 demo_hist (Term [] [] 0) [] 4096 (bytes "ls"))|].
  - apply demo_hist_rep.
  - assert (str_at (put_strings [(4096, bytes "ls")]) 4096 (bytes "ls")) as H by by vm_compute.
    cbn [str_at bytes] in *. unfold demo_hist. cbn [u_mem]. destruct H as (H1 & ? & H2 & ? & H3).
    split_and!; try lia; apply lookup_union_Some_l; assumption.
  - simpl. lia.
  - simpl. lia.
  - intros u s (H & _). exact H.
Defined.

(** A history with the line [ls] in row 0, the position behind it, and a line buffer
    at 4096. *)
Definition demo_browse : user :=
  User (put_strings [(8192, bytes "ls")] ∪ (zeros 4096 1024 ∪ zeros 8192 10240)) 0 0 0 0 0 1 1.

Lemma demo_browse_str : str_at (u_mem demo_browse) 8192 (bytes "ls").
Proof.
  assert (str_at (put_strings [(8192, bytes "ls")]) 8192 (bytes "ls")) as H by by vm_compute.
  cbn [str_at bytes] in *. unfold demo_browse. cbn [u_mem]. destruct H as (H1 & ? & H2 & ? & H3).
  split_and!; try lia; apply lookup_union_Some_l; assumption.
Qed.

Lemma demo_browse_zero x :
  4096 <= x < 5120 \/ 8195 <= x < 18432 -> u_mem demo_browse !! x = Some 0.
Proof.
  intros Hx. unfold demo_browse. cbn [u_mem]. rewrite lookup_union_r.
  - destruct Hx; [by apply lookup_union_Some_l, zeros_lookup; lia|].
    rewrite lookup_union_r; [apply zeros_lookup; lia|apply zeros_None; lia].
  - destruct (put_strings [(8192, bytes "ls")] !! x) as [b|] eqn:E; [|done]. exfalso.
    assert (map_Forall (fun y _ => 8192 <= y < 8195) (put_strings [(8192, bytes "ls")])) as H
      by (apply (bool_decide_unpack _); by vm_compute).
    specialize (H x b E). simpl in H. lia.
Qed.

Lemma demo_browse_rep : hist_rep 8192 (u_mem demo_browse) demo_browse [bytes "ls"].
Proof.
  pose proof demo_browse_str as Hs.
  split; change (hist_head demo_browse) with 0; change (hist_tail demo_browse) with 1;
    change (length [bytes "ls"]) with 1%nat.
  - lia.
  - lia.
  - reflexivity.
  - intros x Hx. destruct (decide (x < 8195)); [|exists 0; split; [apply demo_browse_zero; lia|lia] ].
    cbn [str_at bytes] in Hs. destruct Hs as (H1 & ? & H2 & ? & H3).
    assert (x = 8192 \/ x = 8192 + 1 \/ x = 8192 + 1 + 1) as [->|[->| ->] ] by lia;
      [rewrite H1|rewrite H2|rewrite H3]; eexists; (split; [reflexivity|lia]).
  - intros i l Hi. apply list_lookup_singleton_Some in Hi as [-> <-]. split; [exact Hs|simpl; lia].
  - intros i Hi. apply demo_browse_zero. unfold hist_row, BUF_LEN. rewrite Z.mod_small by lia. lia.
Qed.

Lemma history_browse_witness :
  wp (key_up 0 (replicate 256 0) 4096 8192 3) (demo_browse, Term [] [] 0) (fun r s =>
    r = 2 /\ snd s = t_print ([8; 8; 8] ++ bytes "ls") (Term [] [] 0) /\ hist_curr (fst s) = 0).
Proof.
  eapply wp_mono; [apply (history_browse 0 (replicate 256 0) 4096 8192 ltac:(lia) ltac:(done)
    3 1 [bytes "ls"] demo_browse (Term [] [] 0) true)|].
  - apply demo_browse_rep.
  - intros x Hx. exists 0. split; [apply demo_browse_zero; lia|lia].
  - lia.
  - simpl. lia.
  - reflexivity.
  - intros r s (-> & -> & -> & _). done.
Defined.
