(* ===== verification/Terminal.v ===== *)
(** * The kernel behind the user library's terminal

    The user side (User.v, Shell.v) is proved against [term_sys], a terminal with a
    queue of keys and the characters shown.  Here the kernel's own system calls
    (kernel/syscall.c) are shown to behave like it: the queue is the console buffer
    of Kbd.v, and what is shown is on the screen of Screen.v, in the state of the
    reference terminal.  SYS_cls is not compared: [term_sys] only counts it. *)

From S2P Require Import Prelude.
From S2P Require Import Machine.
From S2P Require Import Kmonad.
From S2P Require Import Spinlock.
From S2P Require Import PageAlloc.
From S2P Require Import Paging.
From S2P Require Import Bytes.
From S2P Require Import Ports.
From S2P Require Import Lapic.
From S2P Require Import Screen.
From S2P Require Import Kbd.
From S2P Require Import Task.
From S2P Require Import Trap.
From S2P Require Import Str.
From S2P Require Import Printfmt.
From S2P Require Import User.
From Stdlib Require Import ZArith Lia.
From stdpp Require Import base gmap list strings.

Local Open Scope Z_scope.

Section Terminal.
Context {W : Type} `{!Ports W} `{!ApicRegs W}.
Context (K : ksyms).
#[local] Abbreviation kern := (kern W).

(** The terminal [k] as the kernel keeps it, from the view [v0] and in one colour. *)
Record terminal (colour : Z) (v0 : view) (s : kern) (k : term) : Prop := {
  tl_keys : ring (k_kbd s) (t_in k);
  tl_screen : screen_wf (k_scr s) /\ attrib (k_scr s) = colour;
  tl_shown : view_of (k_scr s) = foldl (fun v c => tty (u16 (Z.shiftl colour 8)) (u8 c) v) v0 (t_out k)
}.

(** The byte the processor reads at [va] in the current address space. *)
Definition virt_byte (s : mm_state) (va : Z) : option Z :=
  match vm_lookup (ram s) (c_cr3 (cfg s) / 4096) (u32 va) with
  | Some e =>
      let pa := PTE_ADDR e + PGOFF (u32 va) in
      if PGNUM pa <? npages s then Some (rd8 (ram s) pa) else None
  | None => None
  end.

Lemma wp_read_byte (s : kern) va c Q : virt_byte (mm (k_tk s)) va = Some c -> Q c s -> wp (read_virt va) s Q.
Proof.
  unfold virt_byte. intros Hv HQ. unfold read_virt. wp_steps. cbv zeta in *.
  destruct (vm_lookup _ _ _) as [e|]; [|done]. destruct (_ <? _); [|done]. injection Hv as ->. by wp_step.
Qed.

Lemma puts_shows colour v0 l str (s : kern) k :
  terminal colour v0 s k -> (forall i c, l !! i = Some c -> virt_byte (mm (k_tk s)) (str + Z.of_nat i) = Some c) ->
  wp (do_puts_loop (length l) str) s (fun _ s' => terminal colour v0 s' (t_print l k) /\ k_tk s' = k_tk s).
Proof.
  revert str s k. induction l as [|c l IH]; intros str s k T Hm; cbn [do_puts_loop length].
  { wp_step. split; [|done]. destruct k. unfold t_print. cbn. by rewrite app_nil_r. }
  wp_step. apply (wp_read_byte s str c); [rewrite <- (Z.add_0_r str); by apply (Hm O)|]. wp_steps. apply wp_zoom.
  destruct T as [T1 [T2 T3] T4].
  eapply wp_mono; [by apply (wp_k_putch _ (k_scr s) (k_w s))|]. intros u [sc w] (Hs & Ha & Hv & _). cbn [fst] in *.
  eapply wp_mono; [apply (IH (str + 1) (set_scr_w (sc, w) s) (t_print [c] k))|].
  - split; [exact T1|split; [done|cbn; congruence]|]. cbn [k_scr set_scr_w t_print t_out] in *.
    rewrite foldl_app, <- T4. simpl. by rewrite Hv, T3.
  - intros i d Hi. replace (str + 1 + Z.of_nat i) with (str + Z.of_nat (S i)) by lia. by apply (Hm (S i)).
  - intros u' s' [T' E]. split; [|exact E]. unfold t_print in *. cbn [t_in t_out t_cls] in *.
    by rewrite <- (assoc_L (++)) in T'.
Qed.

(** What [term_sys] does on SYS_getc and SYS_puts the kernel does: given a string
    that the task's address space maps to the bytes of [m], the call returns the same
    value and leaves the terminal the same. *)
Lemma term_sys_simulated colour v0 (s : kern) k m num a1 a2 a3 a4 a5 v k' :
  terminal colour v0 s k -> num = SYS_getc \/ num = SYS_puts -> 0 <= a2 < 4294967296 ->
  (forall x c, a1 <= x < a1 + a2 -> m !! x = Some c -> virt_byte (mm (k_tk s)) x = Some c) ->
  int_syscall m num a1 a2 a3 a4 a5 k = Ret v k' ->
  wp (do_syscall K num a1 a2 a3 a4 a5) s (fun r s' => u32 r = v /\ terminal colour v0 s' k' /\ k_tk s' = k_tk s).
Proof.
  intros T [->| ->] Ha2 Hm E; unfold do_syscall; cbn [int_syscall term_sys] in E.
  - change (SYS_getc =? SYS_fork) with false. change (SYS_getc =? SYS_getc) with true in *. cbv iota in *.
    destruct T as [T1 T2 T3]. unfold do_getc. apply wp_zoom.
    eapply wp_mono; [by apply (wp_cons_getc (k_kbd s) (k_w s) (t_in k))|]. intros c [kb w] (-> & R & _).
    unfold mbind, M_bind, get, put in E. destruct k as [ [|c q] o n]; cbn in E; injection E as <- <-; by split.
  - change (SYS_puts =? SYS_fork) with false. change (SYS_puts =? SYS_getc) with false in *.
    change (SYS_puts =? SYS_puts) with true in *. cbv iota in *. unfold mbind at 1, M_bind at 1 in E.
    destruct (mapM _ _) as [l|] eqn:El; [|done]. injection E as <- <-. apply mapM_Some in El.
    pose proof (Forall2_length _ _ _ El) as Hl. rewrite length_seqZ in Hl. wp_step. unfold do_puts. rewrite (u32_small a2) by done.
    rewrite Hl. eapply wp_mono; [apply (puts_shows colour v0 l a1 s k T)|].
    + intros i c Hi. destruct (Forall2_lookup_r _ _ _ _ _ El Hi) as (x & Hx & Hc). apply lookup_seqZ in Hx as [-> Hx]. by apply Hm; [lia|].
    + intros u s' [T' Et]. by wp_step.
Qed.
End Terminal.
