(* ===== verification/Lab3.v ===== *)
(** * The kernel of lab 3 (src/lab3/nctuos)

    The stage of the kernel with interrupts and a monitor shell but without tasks:
    kernel/screen.c, kernel/printf.c, kernel/timer.c, kernel/trap.c,
    lib/readline.c, kernel/shell.c and kernel/main.c; the keyboard driver is in
    Lab3Kbd.v.  The string and formatting code is that of lab 6 (Str.v,
    Printfmt.v), and so are the parts of screen.c that did not change (Screen.v).

    The monitor runs with interrupts on and polls the console buffer; a loop that
    waits for a key or reads keys has fuel, and its theorem says how much is
    enough for what is in the buffer. *)

From S2P Require Import Prelude.
From S2P Require Import Machine.
From S2P Require Import Kmonad.
From S2P Require Import Ports.
From S2P Require Import Screen.
From S2P Require Import Str.
From S2P Require Import Printfmt.
From S2P Require Import User.
From S2P Require Import Shell.
From S2P Require Import Trap.
From Stdlib Require Import ZArith Lia Ascii.
From stdpp Require Import base gmap list strings.
From S2P Require Import Kbd.
From S2P Require Import Lab3Kbd.

Local Open Scope Z_scope.

(** ** The screen (kernel/screen.c) *)

Section Screen3.
  Context {W : Type} `{!Ports W}.

(** The last [memset] clears 80 bytes, half of the row. *)
Definition scroll : M (screen * W) unit :=
  s ← get_s;
  let blank := u16 (Z.lor 0x0 (Z.shiftl (attrib s) 8)) in
  if (csr_y s >=? 25) then
    let temp := u16 (csr_y s - 25 + 1) in
    memcpy_cells (temp * 80) ((25 - temp) * 80) ;;
    memset_cells ((25 - temp) * 80) blank 40 ;;
    mod_s (fun s => s_set_csr (csr_x s) (25 - 1) s)
  else mret tt.

(** The loop of [cls], [n] rows left: 80 bytes of each. *)
Fixpoint cls_rows (n : nat) (i blank : Z) : M (screen * W) unit :=
  match n with
  | O => mret tt
  | S n' => memset_cells (i * 80) blank 40 ;; cls_rows n' (i + 1) blank
  end.

Definition cls : M (screen * W) unit :=
  s ← get_s;
  let blank := u16 (Z.lor 0x0 (Z.shiftl (attrib s) 8)) in
  cls_rows 25 0 blank ;;
  mod_s (s_set_csr 0 0) ;;
  move_csr.

Definition putch (c : Z) : M (screen * W) unit :=
  put_char (u8 c) ;;
  s ← get_s;
  when (csr_x s >=? 80) (mod_s (fun s => s_set_csr 0 (csr_y s + 1) s)) ;;
  scroll ;;
  move_csr.

Fixpoint puts (text : list Z) : M (screen * W) unit :=
  match text with
  | [] => mret tt
  | c :: text' => putch c ;; puts text'
  end.

Definition settextcolor (forecolor backcolor : Z) : M (screen * W) unit :=
  mod_s (s_set_attrib (Z.lor (Z.shiftl (u8 backcolor) 4) (Z.land (u8 forecolor) 0x0F))).

Definition init_video : M (screen * W) unit := mod_s (s_set_ptr VIDEO) ;; cls.

(** ** Formatted output (kernel/printf.c): nobody counts. *)

Definition vcprintf (m : bmem) (fmt ap : list Z) : M (screen * W) Z :=
  vprintfmt putch m fmt ap ;; mret 0.
Definition cprintf (m : bmem) (fmt args : list Z) : M (screen * W) Z := vcprintf m fmt args.
End Screen3.

(** ** State *)

(** Memory, devices, the clock and the interrupt table; [m_tf] is the frame of the
    interrupt being handled and [m_last] says whether [last_tf] points to it. *)
Record mon (W : Type) := Mon {
  m_mem : bmem; m_scr : screen; m_kbd : kbd; m_pic : pic_state; m_jiffies : Z;
  m_idt : list Gatedesc; m_idtr : option Z; m_tf : Trapframe; m_last : bool; m_cr2 : Z; m_if : bool; m_w : W
}.
Arguments Mon {W}.
Arguments m_mem {W}. Arguments m_scr {W}. Arguments m_kbd {W}. Arguments m_pic {W}. Arguments m_jiffies {W}.
Arguments m_idt {W}. Arguments m_idtr {W}. Arguments m_tf {W}. Arguments m_last {W}. Arguments m_cr2 {W}.
Arguments m_if {W}. Arguments m_w {W}.

(** What the linker knows: symbols of kern.ld and entry points of trap_entry.S, the
    address of [idt_pd], the line buffer, and the strings of [commands]; the value a
    missing argument of [cprintf] has, and what is in [eax] when [print_tick] ends
    without a value. *)
Record labels := Labels {
  kernel_load_addr : Z; etext : Z; sdata : Z; end_ : Z;
  irq_kbd : Z; irq_timer : Z; idt_pd3 : Z;
  buf_at : Z; name_at : Z -> Z; desc_at : Z -> Z; stray_arg : Z; stray_eax : Z
}.

Section Kernel.
  Context {W : Type} `{!Ports W}.
  Context (A : labels) (polls keys lines drain : nat).
  #[local] Abbreviation mon := (mon W).

Definition set_m_mem (v : bmem) (s : mon) : mon :=
  Mon v (m_scr s) (m_kbd s) (m_pic s) (m_jiffies s) (m_idt s) (m_idtr s) (m_tf s) (m_last s) (m_cr2 s) (m_if s) (m_w s).
Definition set_m_scr (v : screen * W) (s : mon) : mon :=
  Mon (m_mem s) (fst v) (m_kbd s) (m_pic s) (m_jiffies s) (m_idt s) (m_idtr s) (m_tf s) (m_last s) (m_cr2 s) (m_if s) (snd v).
Definition set_m_kbd (v : kbd * W) (s : mon) : mon :=
  Mon (m_mem s) (m_scr s) (fst v) (m_pic s) (m_jiffies s) (m_idt s) (m_idtr s) (m_tf s) (m_last s) (m_cr2 s) (m_if s) (snd v).
Definition set_m_pic (v : pic_state * W) (s : mon) : mon :=
  Mon (m_mem s) (m_scr s) (m_kbd s) (fst v) (m_jiffies s) (m_idt s) (m_idtr s) (m_tf s) (m_last s) (m_cr2 s) (m_if s) (snd v).
Definition set_m_w (v : W) (s : mon) : mon :=
  Mon (m_mem s) (m_scr s) (m_kbd s) (m_pic s) (m_jiffies s) (m_idt s) (m_idtr s) (m_tf s) (m_last s) (m_cr2 s) (m_if s) v.
Definition set_m_jiffies (v : Z) (s : mon) : mon :=
  Mon (m_mem s) (m_scr s) (m_kbd s) (m_pic s) v (m_idt s) (m_idtr s) (m_tf s) (m_last s) (m_cr2 s) (m_if s) (m_w s).
Definition set_m_idt (l : list Gatedesc) (s : mon) : mon :=
  Mon (m_mem s) (m_scr s) (m_kbd s) (m_pic s) (m_jiffies s) l (m_idtr s) (m_tf s) (m_last s) (m_cr2 s) (m_if s) (m_w s).
Definition set_m_idtr (v : Z) (s : mon) : mon :=
  Mon (m_mem s) (m_scr s) (m_kbd s) (m_pic s) (m_jiffies s) (m_idt s) (Some v) (m_tf s) (m_last s) (m_cr2 s) (m_if s) (m_w s).
Definition set_m_last (v : bool) (s : mon) : mon :=
  Mon (m_mem s) (m_scr s) (m_kbd s) (m_pic s) (m_jiffies s) (m_idt s) (m_idtr s) (m_tf s) v (m_cr2 s) (m_if s) (m_w s).
Definition set_m_if (v : bool) (s : mon) : mon :=
  Mon (m_mem s) (m_scr s) (m_kbd s) (m_pic s) (m_jiffies s) (m_idt s) (m_idtr s) (m_tf s) (m_last s) (m_cr2 s) v (m_w s).

Definition on_m {X} : M bmem X -> M mon X := zoom m_mem set_m_mem.
Definition on_screen {X} : M (screen * W) X -> M mon X := zoom (fun s => (m_scr s, m_w s)) set_m_scr.
Definition on_keys {X} : M (kbd * W) X -> M mon X := zoom (fun s => (m_kbd s, m_w s)) set_m_kbd.
Definition on_mask {X} : M (pic_state * W) X -> M mon X := zoom (fun s => (m_pic s, m_w s)) set_m_pic.
Definition on_bus {X} : M W X -> M mon X := zoom m_w set_m_w.

(** [cprintf] with pointers into memory, and with string constants [l], the first at
    address 1. *)
Definition print (fmt args : list Z) : M mon unit := m ← gets m_mem; _ ← on_screen (cprintf m fmt args); mret tt.
Definition print_const (l fmt args : list Z) : M mon unit := _ ← on_screen (cprintf (literal l) fmt args); mret tt.

(** ** The clock (kernel/timer.c) *)

Definition timer_handler : M mon unit := modify (fun s => set_m_jiffies (u32 (m_jiffies s + 1)) s).
Definition get_tick : M mon Z := gets m_jiffies.
Definition timer_init : M mon unit :=
  on_bus (set_timer 100) ;;
  p ← gets m_pic;
  on_mask (irq_setmask_8259A (Z.land (irq_mask_8259A p) (Z.lnot (Z.shiftl 1 IRQ_TIMER)))).

(** [kbd_init] (kernel/kbd.c). *)
Definition kbd_init : M mon unit :=
  on_keys (kbd_drain drain) ;;
  p ← gets m_pic;
  on_mask (irq_setmask_8259A (Z.land (irq_mask_8259A p) (Z.lnot (Z.shiftl 1 IRQ_KBD)))).

(** ** Traps (kernel/trap.c) *)

Definition print_regs (r : PushRegs) : M mon unit :=
  print (bytes "  edi  0x%08x" ++ nl) [reg_edi r] ;;
  print (bytes "  esi  0x%08x" ++ nl) [reg_esi r] ;;
  print (bytes "  ebp  0x%08x" ++ nl) [reg_ebp r] ;;
  print (bytes "  oesp 0x%08x" ++ nl) [reg_oesp r] ;;
  print (bytes "  ebx  0x%08x" ++ nl) [reg_ebx r] ;;
  print (bytes "  edx  0x%08x" ++ nl) [reg_edx r] ;;
  print (bytes "  ecx  0x%08x" ++ nl) [reg_ecx r] ;;
  print (bytes "  eax  0x%08x" ++ nl) [reg_eax r].

(** Three string constants, one after the other. *)
Definition three (a b c : list Z) : list Z := a ++ [0] ++ b ++ [0] ++ c.

Definition print_trapframe : M mon unit :=
  f ← gets m_tf;
  last ← gets m_last;
  cr2 ← gets m_cr2;
  print (bytes "TRAP frame at %p " ++ nl) [stray_arg A] ;;
  print_regs (tf_regs f) ;;
  print (bytes "  es   0x----%04x" ++ nl) [tf_es f] ;;
  print (bytes "  ds   0x----%04x" ++ nl) [tf_ds f] ;;
  print_const (bytes (trapname (s32 (tf_trapno f)))) (bytes "  trap 0x%08x %s" ++ nl) [tf_trapno f; 1] ;;
  when ((last : bool) && (tf_trapno f =? T_PGFLT)) (print (bytes "  cr2  0x%08x" ++ nl) [cr2]) ;;
  print (bytes "  err  0x%08x") [tf_err f] ;;
  (if (tf_trapno f =? T_PGFLT) then
     let a := bytes (if truth (Z.land (tf_err f) 4) then "user" else "kernel") in
     let b := bytes (if truth (Z.land (tf_err f) 2) then "write" else "read") in
     let c := bytes (if truth (Z.land (tf_err f) 1) then "protection" else "not-present") in
     print_const (three a b c) (bytes " [%s, %s, %s]" ++ nl)
       [1; 2 + Z.of_nat (length a); 3 + Z.of_nat (length a) + Z.of_nat (length b)]
   else print nl []) ;;
  print (bytes "  eip  0x%08x" ++ nl) [tf_eip f] ;;
  print (bytes "  cs   0x----%04x" ++ nl) [tf_cs f] ;;
  print (bytes "  flag 0x%08x" ++ nl) [tf_eflags f] ;;
  when (negb (Z.land (tf_cs f) 3 =? 0))
    (print (bytes "  esp  0x%08x" ++ nl) [tf_esp f] ;; print (bytes "  ss   0x----%04x" ++ nl) [tf_ss f]).

Definition trap_dispatch : M mon unit :=
  f ← gets m_tf;
  if (tf_trapno f =? IRQ_OFFSET + IRQ_TIMER) then timer_handler
  else if (tf_trapno f =? IRQ_OFFSET + IRQ_KBD) then on_keys (kbd_intr drain)
  else print_trapframe.

Definition default_trap_handler : M mon unit := modify (set_m_last true) ;; trap_dispatch.

Definition set_idt (i : Z) (g : Gatedesc) : M mon unit :=
  s ← get; l ← need (zset (m_idt s) i g) "idt[]"; modify (set_m_idt l).

Definition trap_init : M mon unit :=
  set_idt (IRQ_OFFSET + IRQ_KBD) (SETGATE 0 GD_KT (irq_kbd A) 0) ;;
  set_idt (IRQ_OFFSET + IRQ_TIMER) (SETGATE 0 GD_KT (irq_timer A) 0) ;;
  modify (set_m_idtr (idt_pd3 A)).

(** ** Reading a line (lib/readline.c) *)

(** The loop; [None] is a read error. *)
Fixpoint readline_loop (fuel : nat) (i : Z) : M mon (option Z) :=
  match fuel with
  | O => hang "readline"
  | S fuel' =>
      c ← on_keys (getc polls);
      if (c <? 0) then print (bytes "read error: %e" ++ nl) [c] ;; mret None
      else if ((c =? 8) || (c =? 0x7f)) && (i >? 0) then
        on_screen (putch 8) ;; readline_loop fuel' (i - 1)
      else if (c >=? chr " ") && (i <? BUFLEN - 1) then
        on_screen (putch c) ;;
        on_m (st (buf_at A + i) c) ;;
        readline_loop fuel' (i + 1)
      else if (c =? 10) || (c =? 13) then
        on_screen (putch 10) ;;
        on_m (st (buf_at A + i) 0) ;;
        mret (Some (buf_at A))
      else readline_loop fuel' i
  end.

Definition readline (prompt : option (list Z)) : M mon (option Z) :=
  match prompt with Some p => print_const p (bytes "%s") [1] | None => mret tt end ;;
  readline_loop keys 0.

(** ** The monitor (kernel/shell.c) *)

Definition commands : list Command := (fun i => Cmd (name_at A i) (desc_at A i)) <$> seqZ 0 4.

Definition command_strings : list (string * string) :=
  [("help", "Display this list of commands");
   ("kerninfo", "Display information about the kernel");
   ("print_tick", "Display system tick");
   ("chgcolor", "Change text color")]%string.

Fixpoint help_loop (cs : list Command) : M mon unit :=
  match cs with
  | [] => mret tt
  | c :: cs' => print (bytes "%s - %s" ++ nl) [cmd_name c; cmd_desc c] ;; help_loop cs'
  end.
Definition mon_help (argv : list Z) : M mon Z := help_loop commands ;; mret 0.

Definition mon_kerninfo (argv : list Z) : M mon Z :=
  print (bytes "kernel code base start=0x%08x size=%d" ++ nl) [kernel_load_addr A; u32 (etext A - kernel_load_addr A)] ;;
  print (bytes "kernel data base start=0x%08x size=%d" ++ nl) [sdata A; u32 (end_ A - sdata A)] ;;
  print (bytes "kernel executable memory footprint: %dKB" ++ nl) [Z.shiftr (u32 (end_ A - kernel_load_addr A)) 10] ;;
  mret 0.

(** There is no [return]. *)
Definition print_tick (argv : list Z) : M mon Z :=
  t ← get_tick;
  print (bytes "Now tick = %d" ++ nl) [t] ;;
  mret (stray_eax A).

Definition chg_color (argv : list Z) : M mon Z :=
  match argv with
  | [_] => print (bytes "No input text color!" ++ nl) [] ;; mret 1
  | [_; arg] =>
      c ← on_m (ld arg);
      on_screen (settextcolor (s8 c - chr "0") 0) ;;
      c' ← on_m (ld arg);
      print (bytes "Change color %d!" ++ nl) [s8 c' - chr "0"] ;;
      mret 0
  | _ => mret 0
  end.

Definition command_func (i : Z) (argv : list Z) : M mon Z :=
  f ← need (zget [mon_help; mon_kerninfo; print_tick; chg_color] i) "commands[]"; f argv.

Fixpoint lookup_cmd (cs : list Command) (i arg0 : Z) : M mon (option Z) :=
  match cs with
  | [] => mret None
  | c :: cs' =>
      r ← on_m (strcmp arg0 (cmd_name c));
      if r =? 0 then mret (Some i) else lookup_cmd cs' (i + 1) arg0
  end.

(** The parsing loop is that of user/shell.c. *)
Definition runcmd (buf : Z) : M mon Z :=
  m ← gets m_mem;
  r ← on_m (parse_args (fuel_of m) buf []);
  match r with
  | None => print (bytes "Too many arguments (max %d)" ++ nl) [MAXARGS] ;; mret 0
  | Some [] => mret 0
  | Some ((arg0 :: _) as argv) =>
      o ← lookup_cmd commands 0 arg0;
      match o with
      | Some i => command_func i argv
      | None => print (bytes "Unknown command '%s'" ++ nl) [arg0] ;; mret 0
      end
  end.

Fixpoint shell_loop (fuel : nat) : M mon unit :=
  match fuel with
  | O => hang "shell"
  | S fuel' =>
      r ← readline (Some (bytes "OSDI> "));
      match r with
      | Some buf => v ← runcmd buf; if v <? 0 then mret tt else shell_loop fuel'
      | None => shell_loop fuel'
      end
  end.

Definition shell : M mon unit :=
  print (bytes "Welcome to the OSDI course!" ++ nl) [] ;;
  print (bytes "Type 'help' for a list of commands." ++ nl) [] ;;
  shell_loop lines.

(** ** kernel/main.c *)

Definition kernel_main : M mon unit :=
  on_screen init_video ;;
  on_mask pic_init ;;
  kbd_init ;;
  timer_init ;;
  trap_init ;;
  modify (set_m_if true) ;;
  shell.
End Kernel.

(** ** The reference terminal *)

(** A scroll clears the left half of the new line; the right half keeps what was
    there before. *)
Definition tty3_scroll (v : view) : view :=
  let '(m, x, y) := v in
  if 25 <=? y then (drop 80 m ++ replicate 40 0 ++ drop 1960 m, x, 24) else v.
Definition tty3 (att c : Z) (v : view) : view := tty3_scroll (tty_wrap (tty_char att c v)).

(** The screen of lab 3 is in order; there is no lock. *)
Definition screen3_ok (s : screen) : Prop := textmemptr s = VIDEO /\ cursor_ok (view_of s).

Lemma tty3_ok att c v : cursor_ok v -> cursor_ok (tty3 att c v).
Proof.
  intros H. unfold tty3. apply (tty_char_mid att c) in H.
  destruct (tty_wrap_mid _ H) as [Hm Hx]. destruct (tty_wrap _) as [ [m x] y].
  destruct Hm as (Hl & Hx' & Hy & _). simpl in Hx. unfold tty3_scroll.
  case_match_goal; unfold cursor_ok; breflect; rewrite ?length_app, ?length_drop, ?length_replicate;
    repeat split; lia.
Qed.

Section ScreenProofs3.
Context {W : Type} `{!Ports W}.

Lemma wp_scroll3 (s : screen) (w : W) Q :
  textmemptr s = VIDEO -> cursor_mid (view_of s) ->
  (forall s', textmemptr s' = VIDEO -> attrib s' = attrib s -> view_of s' = tty3_scroll (view_of s) -> Q tt (s', w)) ->
  wp scroll (s, w) Q.
Proof.
  intros Hp (Hl & Hx & Hy & _) HQ. unfold scroll, get_s. wp_steps. simpl fst. simpl in Hl, Hx, Hy.
  unfold tty3_scroll, view_of in HQ. rewrite Z.geb_leb.
  destruct (Z.leb_spec 25 (csr_y s)); [|wp_step; by apply HQ].
  assert (csr_y s = 25) as E by lia. rewrite E. change (u16 (25 - 25 + 1)) with 1.
  change (1 * 80) with 80. change ((25 - 1) * 80) with 1920.
  wp_step. unfold memcpy_cells, get_s. wp_steps. simpl fst. rewrite Hp, Hl. simpl negb. cbv iota.
  unfold mod_s. wp_step. wp_step. unfold memset_cells, get_s. wp_steps. simpl fst.
  cbn [textmemptr s_set_mem textmem]. rewrite Hp.
  assert (length (take (Z.to_nat 1920) (drop (Z.to_nat 80) (textmem s))
                  ++ drop (Z.to_nat 1920) (textmem s)) = 2000%nat) as Hl2
    by (rewrite length_app, length_take, !length_drop; lia).
  rewrite Hl2. simpl negb. cbv iota. unfold mod_s. wp_step. wp_step.
  apply HQ; try done. unfold view_of. cbn [textmem s_set_csr s_set_mem csr_x csr_y].
  f_equal. f_equal. rewrite take_app_le by (rewrite length_take, length_drop; lia).
  rewrite take_take, (take_ge (drop _ _)) by (rewrite length_drop; lia). rewrite blank_low. f_equal. f_equal.
  rewrite drop_app_ge by (rewrite length_take, length_drop; lia).
  rewrite drop_drop, length_take, length_drop, Hl. f_equal.
Qed.

Lemma wp_putch (s : screen) (w : W) c :
  screen3_ok s ->
  wp (putch c) (s, w) (fun _ s' => screen3_ok (fst s') /\ attrib (fst s') = attrib s
    /\ view_of (fst s') = tty3 (u16 (Z.shiftl (attrib s) 8)) (u8 c) (view_of s)).
Proof.
  intros [Hp Hv]. unfold putch. wp_step. apply wp_put_char; [done|done|apply u8_range|].
  intros s2 Hp2 Ha2 _ Hv2. pose proof (tty_char_mid (u16 (Z.shiftl (attrib s) 8)) (u8 c) (view_of s) Hv) as Hm2.
  rewrite <- Hv2 in Hm2. wp_step. unfold get_s. wp_step. wp_step. simpl fst.
  set (s3 := if csr_x s2 >=? 80 then s_set_csr 0 (csr_y s2 + 1) s2 else s2).
  assert (view_of s3 = tty_wrap (view_of s2)) as Hv3.
  { unfold s3, tty_wrap, view_of. rewrite Z.geb_leb. by destruct (80 <=? csr_x s2). }
  eapply (wp_eq _ _ tt (s3, w)); [unfold s3; by destruct (csr_x s2 >=? 80)|]. cbv beta.
  assert (textmemptr s3 = VIDEO /\ attrib s3 = attrib s2) as (Hp3 & Ha3) by (unfold s3; destruct (csr_x s2 >=? 80); done).
  destruct (tty_wrap_mid _ Hm2) as [Hm3 _]. rewrite <- Hv3 in Hm3.
  wp_step. apply wp_scroll3; [done|done|]. intros s4 Hp4 Ha4 Hv4.
  assert (view_of s4 = tty3 (u16 (Z.shiftl (attrib s) 8)) (u8 c) (view_of s)) as E by (unfold tty3; by rewrite Hv4, Hv3, Hv2).
  pose proof (tty3_ok (u16 (Z.shiftl (attrib s) 8)) (u8 c) (view_of s) Hv) as Hok.
  rewrite <- E in Hok. apply wp_move_csr; [done|]. cbn [fst]. split; [by split|]. split; [congruence|done].
Qed.
End ScreenProofs3.

(** ** The line editor *)

(** The line after key [c]; everything from the blank on is a character, DEL on an
    empty line and the cursor keys too. *)
Definition edit3 (l : list Z) (c : Z) : list Z :=
  if ((c =? 8) || (c =? 0x7f)) && negb (bool_decide (l = [])) then take (length l - 1) l
  else if (chr " " <=? c) && (Z.of_nat (length l) <? 1023) then l ++ [c]
  else l.

(** What is shown for it. *)
Definition echo3 (l : list Z) (c : Z) : list Z :=
  if ((c =? 8) || (c =? 0x7f)) && negb (bool_decide (l = [])) then [8]
  else if (chr " " <=? c) && (Z.of_nat (length l) <? 1023) then [c]
  else [].

Fixpoint echoes3 (l ks : list Z) : list Z :=
  match ks with [] => [] | c :: ks' => echo3 l c ++ echoes3 (edit3 l c) ks' end.

(** The screen after some characters. *)
Definition shown (s : screen) (out : list Z) : view := foldl (fun v c => tty3 (u16 (Z.shiftl (attrib s) 8)) c v) (view_of s) out.

Section LineProofs.
Context {W : Type} `{!Ports W} (A : labels) (polls : nat) (Hpolls : (0 < polls)%nat).

Lemma wp_emit3 out (s : screen) (w : W) :
  screen3_ok s -> wp (emit putch out) (s, w) (fun _ s' => screen3_ok (fst s') /\ attrib (fst s') = attrib s
    /\ view_of (fst s') = shown s (u8 <$> out)).
Proof.
  revert s w. induction out as [|c out IH]; intros s w Hs; cbn [emit]; [by wp_step|]. wp_step.
  eapply wp_mono; [by apply wp_putch|]. intros u [s1 w1] (H1 & Ha & Hv). cbn [fst] in *.
  eapply wp_mono; [by apply IH|]. intros u2 [s2 w2] (H2 & Ha2 & Hv2). cbn [fst] in *.
  split; [done|]. split; [congruence|]. unfold shown in *. rewrite Hv2, Ha, Hv. done.
Qed.

(** The state with another screen, buffer, memory. *)
Record seen (s : mon W) (out : list Z) (s' : mon W) : Prop := {
  sn_ok : screen3_ok (m_scr s');
  sn_attrib : attrib (m_scr s') = attrib (m_scr s);
  sn_view : view_of (m_scr s') = shown (m_scr s) out
}.

Lemma seen_trans s o1 s1 o2 s2 : seen s o1 s1 -> seen s1 o2 s2 -> seen s (o1 ++ o2) s2.
Proof.
  intros [A1 A2 A3] [B1 B2 B3]. split; [done|congruence|]. rewrite B3. unfold shown. rewrite foldl_app. fold (shown (m_scr s) o1).
  by rewrite A2, A3.
Qed.

Lemma wp_show c (s : mon W) (Q : unit -> mon W -> Prop) :
  0 <= c < 256 -> screen3_ok (m_scr s) ->
  (forall v, seen s [c] (set_m_scr v s) -> Q tt (set_m_scr v s)) -> wp (on_screen (putch c)) s Q.
Proof.
  intros Hc Hs HQ. apply wp_zoom. eapply wp_mono; [by apply (wp_putch (m_scr s) (m_w s))|].
  intros [] v (H1 & H2 & H3). apply HQ. rewrite u8_small in H3 by done. by split.
Qed.

Lemma wp_getc3 q c (s : mon W) (Q : Z -> mon W -> Prop) :
  ring (m_kbd s) (c :: q) -> 0 < c < 256 ->
  (forall v, ring (fst v) q -> Q c (set_m_kbd v s)) -> wp (on_keys (getc polls)) s Q.
Proof.
  intros R Hc HQ. apply wp_zoom. destruct polls as [|p]; [lia|]. cbn [getc]. wp_step.
  eapply wp_mono; [by apply (wp_cons_getc (m_kbd s) (m_w s))|]. intros c' v (-> & R' & _). cbn [q_get fst snd] in *.
  destruct (Z.eqb_spec c 0); [lia|]. wp_step. by apply HQ.
Qed.

(** One key that does not end the line. *)
Lemma wp_key3 c q l fuel m0 (s : mon W) Q :
  0 < c < 256 /\ c <> 10 /\ c <> 13 -> ring (m_kbd s) (c :: q) -> line_in (buf_at A) m0 (m_mem s) l -> screen3_ok (m_scr s) ->
  (forall s', ring (m_kbd s') q -> seen s (echo3 l c) s' -> line_in (buf_at A) m0 (m_mem s') (edit3 l c) ->
     wp (readline_loop A polls fuel (Z.of_nat (length (edit3 l c)))) s' Q) ->
  wp (readline_loop A polls (S fuel) (Z.of_nat (length l))) s Q.
Proof.
  intros (Hc & H10 & H13) R L Hs HQ. cbn [readline_loop]. wp_step. eapply wp_getc3; [exact R|done|]. intros v Rv.
  unfold edit3, echo3 in HQ. destruct (Z.ltb_spec c 0); [lia|].
  assert ((Z.of_nat (length l) >? 0) = negb (bool_decide (l = []))) as -> by (by destruct l).
  destruct (((c =? 8) || (c =? 127)) && negb (bool_decide (l = []))) eqn:E1.
  - assert (l <> []) as Hl by (intros ->; by rewrite andb_false_r in E1).
    wp_step. apply wp_show; [lia|done|]. intros v2 Hv2.
    replace (Z.of_nat (length l) - 1) with (Z.of_nat (length (take (length l - 1) l)))
      by (rewrite length_take; destruct l; [done|cbn [length]; lia]).
    apply HQ; [exact Rv|destruct Hv2; by split|by apply line_in_take].
  - rewrite Z.geb_leb. change (BUFLEN - 1) with 1023.
    destruct ((chr " " <=? c) && (Z.of_nat (length l) <? 1023)) eqn:E2.
    + apply andb_prop in E2 as [_ E2%Z.ltb_lt]. wp_step. apply wp_show; [lia|done|]. intros v2 Hv2. wp_step. apply wp_zoom.
      pose proof L as [L1 L2 L3 L4 L5]. destruct (L4 (buf_at A + Z.of_nat (length l)) ltac:(lia)) as (b & Hb & _).
      eapply wp_st; [exact Hb|]. rewrite u8_small by lia.
      replace (Z.of_nat (length l) + 1) with (Z.of_nat (length (l ++ [c]))) by (rewrite length_app; simpl; lia).
      apply HQ; [exact Rv|destruct Hv2; by split|by apply line_in_push].
    + destruct (Z.eqb_spec c 10), (Z.eqb_spec c 13); [done..|]. cbn [orb]. apply HQ; [exact Rv|by split|exact L].
Qed.

Lemma wp_readline_loop3 ks last rest l fuel m0 (s : mon W) :
  Forall (fun c => 0 < c < 256 /\ c <> 10 /\ c <> 13) ks -> last = 10 \/ last = 13 -> (length ks < fuel)%nat ->
  ring (m_kbd s) (ks ++ last :: rest) -> line_in (buf_at A) m0 (m_mem s) l -> screen3_ok (m_scr s) ->
  wp (readline_loop A polls fuel (Z.of_nat (length l))) s (fun r s' =>
    r = Some (buf_at A) /\ ring (m_kbd s') rest /\ seen s (echoes3 l ks ++ [10]) s'
    /\ str_at (m_mem s') (buf_at A) (foldl edit3 l ks)
    /\ forall x, ~ (buf_at A <= x < buf_at A + 1024) -> m_mem s' !! x = m0 !! x).
Proof.
  intros Hks Hlast. revert l fuel s. induction Hks as [|c ks Hc Hks IH]; intros l [|fuel] s Hf R L Hs; simpl in Hf; try lia.
  - cbn [readline_loop]. wp_step. eapply wp_getc3; [exact R|lia|]. intros v Rv. assert ((last <? 0) = false) as -> by lia.
    assert ((last =? 8) || (last =? 127) = false) as -> by lia. cbn [andb].
    assert ((last >=? chr " ") = false) as -> by (change (chr " ") with 32; lia). cbn [andb].
    assert ((last =? 10) || (last =? 13) = true) as -> by lia. wp_step. apply wp_show; [lia|done|]. intros v2 Hv2. wp_step.
    apply wp_zoom. destruct L as [L1 L2 L3 L4 L5]. destruct (L4 (buf_at A + Z.of_nat (length l)) ltac:(lia)) as (b & Hb & _).
    eapply wp_st; [exact Hb|]. wp_step. cbn [m_mem m_kbd m_scr set_m_mem set_m_scr set_m_kbd foldl echoes3 app].
    split; [done|]. split; [exact Rv|]. split; [destruct Hv2; by split|]. split.
    + apply str_at_intro; [|done|by rewrite lookup_insert_eq]. intros j d Hj. pose proof (lookup_lt_Some _ _ _ Hj).
      rewrite lookup_insert_ne by lia. by apply L1.
    + intros x Hx. rewrite lookup_insert_ne by lia. by apply L5.
  - eapply wp_key3; [exact Hc|exact R|exact L|exact Hs|]. intros s1 R1 S1 L1.
    eapply wp_mono; [apply (IH (edit3 l c) fuel s1); [lia|exact R1|exact L1|apply S1]|].
    intros r s2 (-> & R2 & S2 & Hstr & Hfr). split; [done|]. split; [exact R2|]. split; [|by split].
    cbn [echoes3]. rewrite <- (assoc_L (++)). by eapply seen_trans.
Qed.

Lemma wp_prompt3 prompt (s : mon W) (Q : unit -> mon W -> Prop) :
  c_string prompt -> screen3_ok (m_scr s) ->
  (forall v, seen s prompt (set_m_scr v s) -> Q tt (set_m_scr v s)) -> wp (print_const prompt (bytes "%s") [1]) s Q.
Proof.
  intros (Hp & Hpl) Hs HQ. unfold print_const. wp_step. apply wp_zoom. unfold cprintf, vcprintf. wp_step.
  unfold wp. rewrite (vprintfmt_emit putch (literal prompt) (bytes "%s") [1] (s8 <$> prompt))
    by (apply output_s; [by apply literal_str|lia|done]).
  fold (wp (emit putch (s8 <$> prompt)) (m_scr s, m_w s)).
  eapply wp_mono; [by apply wp_emit3|]. intros [] v (H1 & H2 & H3). change (Q tt (set_m_scr v s)). apply HQ.
  rewrite u8_s8_list in H3 by done. by split.
Qed.

Lemma wp_readline3 keys prompt ks last rest (s : mon W) :
  c_string prompt ->
  Forall (fun c => 0 < c < 256 /\ c <> 10 /\ c <> 13) ks -> last = 10 \/ last = 13 -> (length ks < keys)%nat ->
  ring (m_kbd s) (ks ++ last :: rest) -> present (m_mem s) (buf_at A) 1024 -> screen3_ok (m_scr s) ->
  wp (readline A polls keys (Some prompt)) s (fun r s' =>
    r = Some (buf_at A) /\ ring (m_kbd s') rest /\ seen s (prompt ++ echoes3 [] ks ++ [10]) s'
    /\ str_at (m_mem s') (buf_at A) (foldl edit3 [] ks)
    /\ forall x, ~ (buf_at A <= x < buf_at A + 1024) -> m_mem s' !! x = m_mem s !! x).
Proof.
  intros Hp Hks Hlast Hk R Hb Hs. unfold readline. wp_step. apply wp_prompt3; [done|done|]. intros v Sv.
  eapply wp_mono; [apply (wp_readline_loop3 ks last rest [] keys (m_mem s)); [done|done|done|exact R| |apply Sv]|].
  - split; [done|done|simpl; lia|done|done].
  - intros r s' (-> & R' & S' & Hstr & Hfr). split; [done|]. split; [done|]. split; [by eapply seen_trans|by split].
Qed.
End LineProofs.

(** ** Properties *)

(** C30: From keys to line, with the console queue empty before: when the bytes of a
    sequence of key presses and releases are waiting at the keyboard controller,
    the characters these keys put into the queue hold a line (characters that do
    not end one, then a line feed or carriage return, then anything), and the
    keyboard interrupt arrives, then the handler returns and [readline] called
    next shows the prompt, which is a C string, and returns the buffer with the
    line as a C string: 8 and 127 take the last character off a line that is not
    empty and echo a backspace, any other character from the space up is appended
    to a line of fewer than 1023 and echoed (127 on an empty line among them), and
    the rest change and echo nothing.  No
    store leaves the buffer, the screen is the reference terminal's after the
    prompt, the echo and a line feed, and the characters after the end of the line
    stay for the next call. *)
Theorem typed_line_is_read {W} `{!Ports W} `{!KbdBytes W} (A : labels) drain polls keys prompt es ks last rest (s : mon W) :
  Forall (fun e => key_ok (event_key e)) es -> kb_wait (m_w s) = es ≫= encode -> (length (es ≫= encode) < drain)%nat ->
  0 <= shift (m_kbd s) < 64 -> ring (m_kbd s) [] -> tf_trapno (m_tf s) = IRQ_OFFSET + IRQ_KBD ->
  (type_events es (shift (m_kbd s)) []).2 = ks ++ last :: rest ->
  Forall (fun c => 0 < c < 256 /\ c <> 10 /\ c <> 13) ks -> last = 10 \/ last = 13 ->
  (0 < polls)%nat -> (length ks < keys)%nat -> c_string prompt ->
  present (m_mem s) (buf_at A) 1024 -> screen3_ok (m_scr s) ->
  wp (default_trap_handler A drain ;; readline A polls keys (Some prompt)) s (fun r s' =>
    r = Some (buf_at A) /\ ring (m_kbd s') rest /\ seen s (prompt ++ echoes3 [] ks ++ [10]) s'
    /\ str_at (m_mem s') (buf_at A) (foldl edit3 [] ks)
    /\ forall x, ~ (buf_at A <= x < buf_at A + 1024) -> m_mem s' !! x = m_mem s !! x).
Proof.
  intros He Hw Hd Hs R Ht Hq Hks Hlast Hpo Hk Hp Hb Hsc. wp_step. unfold default_trap_handler, trap_dispatch. wp_steps.
  cbn [m_tf set_m_last]. rewrite Ht. change (_ =? IRQ_OFFSET + IRQ_TIMER) with false. rewrite Z.eqb_refl. cbv iota.
  apply wp_zoom. unfold kbd_intr.
  eapply wp_mono; [apply (wp_intr_bytes drain _ (m_kbd s) (m_w s) [] Hw Hd ltac:(lia) R)|].
  rewrite encode_events by done. intros u [kb w] (_ & R' & _). cbn [fst] in R'. rewrite Hq in R'.
  eapply wp_mono; [by apply (wp_readline3 A polls Hpo keys prompt ks last rest)|].
  intros r s' (-> & R2 & S2 & Hstr & Hfr). split; [done|]. split; [exact R2|]. split; [destruct S2; by split|by split].
Qed.

(** A timer interrupt counts a tick, records the frame and does nothing else. *)
Theorem timer_counts_tick {W} `{!Ports W} (A : labels) drain (s : mon W) :
  tf_trapno (m_tf s) = IRQ_OFFSET + IRQ_TIMER ->
  default_trap_handler A drain s = Ret tt (set_m_jiffies (u32 (m_jiffies s + 1)) (set_m_last true s)).
Proof.
  intros Ht. unfold default_trap_handler, trap_dispatch, mbind, M_bind, modify, gets. cbn [m_tf set_m_last]. rewrite Ht.
  reflexivity.
Qed.

(** ** Witnesses *)

Definition demo_labels : labels := Labels 0x100000 0x101000 0x102000 0x103000 1 2 3 4096 (fun _ => 0) (fun _ => 0) 0 0.

(** The keys h, i, x, backspace, Enter are waiting. *)
Definition demo_typed : list key_event :=
  [Press (Key false 0x23); Release (Key false 0x23); Press (Key false 0x17); Press (Key false 0x2D); Press (Key false 0x0E);
   Press (Key false 0x1C)].
Definition demo_mon : mon kbdc :=
  Mon (zeros 4096 1024) demo_screen kbd0 pic0 0 [] None
    (mkTrapframe regs0 0 0 0 0 33 0 0 8 0 0 0 0 0) false 0 true (Kbdc (demo_typed ≫= encode) []).

Lemma typed_line_is_read_witness :
  wp (default_trap_handler demo_labels 7 ;; readline demo_labels 1 5 (Some (bytes "> "))) demo_mon (fun r s' =>
    r = Some 4096 /\ str_at (m_mem s') 4096 (bytes "hi")).
Proof.
  eapply wp_mono; [apply (typed_line_is_read demo_labels 7 1 5 (bytes "> ") demo_typed (bytes "hix" ++ [8]) 10 [] demo_mon)|].
  - by repeat constructor.
  - by vm_compute.
  - by vm_compute; lia.
  - by vm_compute.
  - apply kbd0_ring.
  - done.
  - by vm_compute.
  - by repeat constructor.
  - by left.
  - lia.
  - by vm_compute; lia.
  - by repeat constructor.
  - apply zeros_present.
  - split; [done|apply demo_screen_wf].
  - intros r s' (-> & _ & _ & H & _). by split.
Defined.

Lemma timer_counts_tick_witness :
  default_trap_handler demo_labels 7
    (Mon ∅ demo_screen kbd0 pic0 41 [] None (mkTrapframe regs0 0 0 0 0 32 0 0 8 0 0 0 0 0) false 0 true (Kbdc [] []))
  = Ret tt (Mon ∅ demo_screen kbd0 pic0 42 [] None (mkTrapframe regs0 0 0 0 0 32 0 0 8 0 0 0 0 0) true 0 true (Kbdc [] [])).
Proof. apply (timer_counts_tick demo_labels 7). reflexivity. Defined.
