(* ===== verification/Main.v ===== *)
(** * Start of the kernel and of the other processors (kernel/main.c, kernel/assert.c)

    [kernel_main] puts the components together in the order of the code, on the
    state [kern] of Trap.v and the variables only start-up uses.  The variables
    [lapic] and [lapicaddr] that [setupkvm] reads are those of the state at the
    time of the call.

    The other processors: a processor has its own registers ([cpu_regs]) and its
    own view of the local APIC, which is at the same address for all of them
    ([CpuView]).  While the boot processor spins on [cpu_status] it changes
    nothing, so the set-up the other processor does meanwhile is one step,
    [ap_run].  What is in the general registers and in EFLAGS when the kernel
    leaves for user mode is up to the compiler: the parameters [regs_now] and
    [eflags_now]. *)

From S2P Require Import Prelude.
From S2P Require Import Machine.
From S2P Require Import Kmonad.
From S2P Require Import Spinlock.
From S2P Require Import PageAlloc.
From S2P Require Import Paging.
From S2P Require Import Bytes.
From S2P Require Import Ports.
From S2P Require Import Lapic.
From S2P Require Import Screen.
From S2P Require Import Kbd.
From S2P Require Import MemInit.
From Stdlib Require Import ZArith Lia.
From stdpp Require Import base gmap list strings.
From S2P Require Import Task.
From S2P Require Import TaskInv.
From S2P Require Import MpConfig.
From S2P Require Import Trap.

Local Open Scope Z_scope.

(** The devices as seen from a processor. *)
Class CpuView (W : Type) := { view_cpu : Z -> W -> W }.

(** Symbols of the linker script, beside those of [ksyms]. *)
Record links := Links {
  stext : Z; etext : Z; rdata_end : Z; data_start : Z; end_va : Z;
  mpentry_start : Z; mpentry_end : Z
}.

(** What belongs to one processor. *)
Record cpu_regs := CpuRegs {
  r_cr3 : Z; r_cr0 : Z; r_ctx : cpu_ctx; r_idtr : option Z; r_seg : option (Z * Z * Z); r_if : bool
}.

(** [memmove] in kernel memory, byte by byte; the direction is the code's. *)
Fixpoint kmove_up (n : nat) (dst src : Z) : M mm_state unit :=
  match n with
  | O => mret tt
  | S n' => b ← load8 src; store8 dst b ;; kmove_up n' (dst + 1) (src + 1)
  end.
Fixpoint kmove_down (n : nat) (dst src : Z) : M mm_state unit :=
  match n with
  | O => mret tt
  | S n' => b ← load8 (src + Z.of_nat n'); store8 (dst + Z.of_nat n') b ;; kmove_down n' dst src
  end.
Definition kmemmove (dst src n : Z) : M mm_state unit :=
  if (src <? dst) && (src + n >? dst) then kmove_down (Z.to_nat n) dst src
  else kmove_up (Z.to_nat n) dst src.

Section Main.
  Context {W : Type} `{!Ports W} `{!ApicRegs W} `{!CpuView W}.
  Context (K : ksyms) (A : isrs) (L : links) (fuel : nat).
  Context (regs_now : PushRegs) (eflags_now : Z).
#[local] Abbreviation kern := (kern W).

(** [ismp] of kernel/mpconfig.c and [mpentry_kstack] beside the kernel's state. *)
Record bstate := BState { bk : kern; b_ismp : Z; mpentry_kstack : Z }.

Definition on_k {X} : M kern X -> M bstate X :=
  zoom bk (fun k s => BState k (b_ismp s) (mpentry_kstack s)).

(** [mem_init] and [mp_init] on the kernel's state. *)
Definition on_mm_w {X} : M (mm_state * W) X -> M kern X :=
  zoom (fun s => (mm (k_tk s), k_w s)) (fun v s => set_w (snd v) (set_tk (set_mm (fst v) (k_tk s)) s)).

Definition set_lv (v : lapic_vars) (s : kern) : kern :=
  Kern (k_tk s) (k_scr s) (k_kbd s) (k_pic s) v (idt s) (trap_hnd s) (idtr s) (jiffies s)
       (stack_tf s) (last_tf s) (cr2 s) (eflags_if s) (k_w s).

Definition on_mp {X} : M (mpstate (W := W)) X -> M bstate X :=
  zoom (fun s => (k_tk (bk s), MPV (b_ismp s) (lapicaddr (k_lv (bk s))), k_w (bk s)))
       (fun v s => let k := bk s in
          BState (set_w (snd v) (set_lv (LV (mp_lapicaddr (snd (fst v))) (lapic (k_lv k)))
                    (set_tk (fst (fst v)) k))) (ismp (snd (fst v))) (mpentry_kstack s)).

(** The symbols with the current values of [lapic] and [lapicaddr]. *)
Definition ksyms_at (v : lapic_vars) : ksyms :=
  mkKsyms (UTEXT_start K) (UTEXT_end K) (UDATA_start K) (UDATA_end K) (UBSS_start K) (UBSS_end K)
    (URODATA_start K) (URODATA_end K) (user_entry K) (idle_entry K) (percpu_kstacks K)
    (cpu_tss_addr K) (gdt_addr K) (lapic v) (lapicaddr v) (k_garbage K).

Definition k_lapic_init : M kern unit :=
  b ← on_tk (gets bootcpu); on_lap (lapic_init fuel b).
Definition k_task_init : M kern unit :=
  v ← gets k_lv; on_tk (task_init (ksyms_at v)).
Definition k_task_init_percpu : M kern unit :=
  v ← gets k_lv; on_tk (task_init_percpu (ksyms_at v)).

(** ** Leaving for user mode *)

(** [sti], [lcr3(PADDR(thiscpu->cpu_task->pgdir))] and [iret] to the task's
    [tf_eip] on the user stack. *)
Definition enter_user : M kern unit :=
  modify (set_if true) ;;
  c ← on_tk thiscpu;
  p ← need (cpu_task c) "thiscpu->cpu_task";
  t ← on_tk (get_task p);
  pa ← on_kmm (PADDR (pgdir t));
  on_kmm (lcr3 pa) ;;
  iret (mkTrapframe regs_now 0 0 0 0 0 0 (tf_eip (tf t)) (Z.lor GD_UT 0x03) 0 eflags_now
          (tf_esp (tf t)) (Z.lor GD_UD 0x03) 0).

(** ** The other processors *)

(** [xchg] on [cpu_status]: the old value is the result. *)
Definition xchg_status (v : Z) : M tk_state Z :=
  c ← thiscpu; upd_thiscpu (c_set_status v) ;; mret (cpu_status c).

(** [mp_main] up to the point where the boot processor is told. *)
Definition mp_setup : M kern unit :=
  kpd ← on_kmm (gets kern_pgdir);
  pa ← on_kmm (PADDR kpd);
  on_kmm (lcr3 pa) ;;
  me ← on_lap Lapic.cpunum;
  kprintk "SMP: CPU %d starting" [me] ;;
  k_lapic_init ;;
  k_task_init_percpu ;;
  modify (set_idtr (idt_pd A)) ;;
  _ ← on_tk (xchg_status CPU_STARTED);
  mret tt.

Definition mp_main : M kern unit := mp_setup ;; enter_user.

(** A processor's registers, and a computation on another processor. *)
Definition save_regs (s : kern) : cpu_regs :=
  let c := cfg (mm (k_tk s)) in
  CpuRegs (c_cr3 c) (c_cr0 c) (c_ctx c) (idtr s) (seg_regs (k_tk s)) (eflags_if s).

Definition load_regs (r : cpu_regs) (s : kern) : kern :=
  let t := k_tk s in
  let m := mm t in
  let c := cfg m in
  let c' := mkCfg (c_npages c) (c_npages_basemem c) (c_nextfree c) (c_kern_pgdir c) (c_pages_va c)
              (c_mmio_base c) (r_cr3 r) (r_cr0 r) (r_ctx r) (c_invlpg c) (c_console c) in
  let t' := TK (upd_cfg (fun _ => c') m) (tasks t) (cpus t) (ncpu t) (bootcpu t) (tasks_lock t)
              (cpus_lock t) (gdt t) (user_sizes t) (r_seg r) in
  Kern t' (k_scr s) (k_kbd s) (k_pic s) (k_lv s) (idt s) (trap_hnd s) (r_idtr r) (jiffies s)
       (stack_tf s) (last_tf s) (cr2 s) (r_if r) (k_w s).

Definition as_cpu (r : cpu_regs) (m : M kern unit) : M kern unit :=
  s0 ← get;
  let mine := save_regs s0 in
  modify (fun s => load_regs r (set_w (view_cpu (ctx_cpu (r_ctx r)) (k_w s)) s)) ;;
  m ;;
  modify (fun s => load_regs mine (set_w (view_cpu (ctx_cpu (r_ctx mine)) (k_w s)) s)).

Section Aps.
  (** What processor [i] does after its start-up message. *)
  Context (ap_run : Z -> M kern unit).

(** [while (cpus[i].cpu_status != CPU_STARTED);] *)
Definition wait_started (i : Z) : M kern unit :=
  c ← on_tk (get_cpu i);
  if cpu_status c =? CPU_STARTED then mret tt
  else
    ap_run i ;;
    c ← on_tk (get_cpu i);
    if cpu_status c =? CPU_STARTED then mret tt else hang "boot_aps".

(** One turn of the loop. *)
Definition boot_ap (i : Z) : M bstate unit :=
  c ← on_k (on_tk (get_cpu i));
  me ← on_k (on_lap Lapic.cpunum);
  if cpu_id c =? me then mret tt
  else
    modify (fun s => BState (bk s) (b_ismp s) (percpu_kstacks K + i * KSTKSIZE + KSTKSIZE)) ;;
    on_k (on_lap (lapic_startap (cpu_id c) MPENTRY_PADDR)) ;;
    on_k (wait_started i).

(** [for (i = 0; i < ncpu; i++)], [n] turns left. *)
Fixpoint boot_aps_loop (n : nat) (i : Z) : M bstate unit :=
  match n with O => mret tt | S n' => boot_ap i ;; boot_aps_loop n' (i + 1) end.

Definition boot_aps : M bstate unit :=
  on_k (on_kmm (dst ← KADDR MPENTRY_PADDR;
                kmemmove dst (mpentry_start L) (mpentry_end L - mpentry_start L))) ;;
  n ← on_k (on_tk (gets ncpu));
  boot_aps_loop (Z.to_nat n) 0.

Definition kernel_main_with : M bstate unit :=
  on_k (on_scr init_video) ;;
  on_k (on_mm_w (mem_init (end_va L) (percpu_kstacks K) (k_garbage K))) ;;
  on_mp mp_init ;;
  on_k k_lapic_init ;;
  on_k k_task_init ;;
  on_k (trap_init A) ;;
  on_k (on_pic pic_init) ;;
  on_k (kbd_init A fuel) ;;
  on_k (timer_init A) ;;
  on_k (syscall_init A) ;;
  boot_aps ;;
  on_k (
    kprintk "Kernel code base start=0x%08x to = 0x%08x" [stext L; etext L] ;;
    kprintk "Readonly data start=0x%08x to = 0x%08x" [etext L; rdata_end L] ;;
    kprintk "Kernel data base start=0x%08x to = 0x%08x" [data_start L; end_va L] ;;
    enter_user).
End Aps.

(** [ap_regs i] are the registers with which kernel/mpentry.S enters [mp_main]. *)
Definition kernel_main (ap_regs : Z -> cpu_regs) : M bstate unit :=
  kernel_main_with (fun i => as_cpu (ap_regs i) mp_setup).
End Main.
