(* ===== verification/StartFrame.v ===== *)
(** * What start-up leaves alone

    The code that runs before scheduling (memory set-up and its self tests, the
    search for the multiprocessor tables, the local APIC) stays on its processor and
    never leaves the kernel.  These frame lemmas are what MainInv.v needs of it.

    The device laws in [ApicView] say what the local APIC's manual says: the ID
    register of a processor's own APIC holds the processor's number, and no other
    access changes that. *)

From S2P Require Import Prelude.
From S2P Require Import Machine.
From S2P Require Import Kmonad.
From S2P Require Import Spinlock.
From S2P Require Import PageAlloc.
From S2P Require Import Paging.
From S2P Require Import Bytes.
From S2P Require Import Ports.
From S2P Require Import Lapic.
From S2P Require Import Screen.
From S2P Require Import Kbd.
From S2P Require Import MemInit.
From Stdlib Require Import ZArith Lia.
From stdpp Require Import base gmap list strings.
From S2P Require Import Task.
From S2P Require Import TaskInv.
From S2P Require Import TaskInit.
From S2P Require Import MpConfig.
From S2P Require Import Trap.
From S2P Require Import TrapProofs.
From S2P Require Import Main.

Local Open Scope Z_scope.

(** ** Memory start-up runs on one processor *)

Ltac ctx_tac := repeat first [pres_step | by apply pres_modify].

Lemma pres_printk f a : pres same_ctx (printk f a).
Proof. by apply pres_modify. Qed.
Lemma pres_load8 a : pres same_ctx (load8 a).
Proof. unfold load8. ctx_tac. Qed.
Lemma pres_store8 a v : pres same_ctx (store8 a v).
Proof. intros s. unfold store8, get, put, mbind, M_bind. cbv zeta. by destruct (word_ok _ _). Qed.
#[export] Hint Resolve pres_printk pres_load8 pres_store8 : pres.
Lemma pres_load16 a : pres same_ctx (load16 a).
Proof. unfold load16. ctx_tac. Qed.
Lemma pres_store16 a v : pres same_ctx (store16 a v).
Proof. unfold store16. ctx_tac. Qed.
#[export] Hint Resolve pres_load16 pres_store16 : pres.
Lemma pres_load32u a : pres same_ctx (load32u a).
Proof. unfold load32u. ctx_tac. Qed.
Lemma pres_boot_alloc e n : pres same_ctx (boot_alloc e n).
Proof. unfold boot_alloc. ctx_tac. Qed.
Lemma pres_mmio_map pa n : pres same_ctx (mmio_map_region pa n).
Proof. unfold mmio_map_region. ctx_tac. Qed.
#[export] Hint Resolve pres_load32u pres_boot_alloc pres_mmio_map : pres.

Lemma pres_kmove_up n d r : pres same_ctx (kmove_up n d r).
Proof. revert d r. induction n as [|n IH]; intros; simpl; ctx_tac. Qed.
Lemma pres_kmove_down n d r : pres same_ctx (kmove_down n d r).
Proof. revert d r. induction n as [|n IH]; intros; cbn [kmove_down]; ctx_tac. Qed.
#[export] Hint Resolve pres_kmove_up pres_kmove_down : pres.
Lemma pres_kmemmove d r n : pres same_ctx (kmemmove d r n).
Proof. unfold kmemmove. ctx_tac. Qed.
#[export] Hint Resolve pres_kmemmove : pres.

(** The self tests. *)
Lemma pres_each_free n pp body : (forall p, pres same_ctx (body p)) -> pres same_ctx (each_free n pp body).
Proof. intros H. revert pp. induction n as [|n IH]; intros [p|]; cbn [each_free]; ctx_tac. Qed.
Lemma pres_for_free_list body : (forall p, pres same_ctx (body p)) -> pres same_ctx (for_free_list body).
Proof. intros H. unfold for_free_list. ctx_tac. by apply pres_each_free. Qed.
Lemma pres_store_ref t v r : pres same_ctx (store_ref t v r).
Proof. unfold store_ref. ctx_tac. Qed.
#[export] Hint Resolve pres_store_ref : pres.
Lemma pres_relink_step lim p r : pres same_ctx (relink_step lim p r).
Proof. unfold relink_step. ctx_tac. Qed.
#[export] Hint Resolve pres_relink_step : pres.
Lemma pres_relink_loop n lim pp r : pres same_ctx (relink_loop n lim pp r).
Proof. revert pp r. induction n as [|n IH]; intros [p|] r; cbn [relink_loop]; ctx_tac. Qed.
#[export] Hint Resolve pres_relink_loop : pres.
Lemma pres_low_pages_first lim : pres same_ctx (low_pages_first lim).
Proof. unfold low_pages_first. ctx_tac. Qed.
Lemma pres_check_free_page f p : pres same_ctx (check_free_page f p).
Proof. unfold check_free_page. ctx_tac. Qed.
#[export] Hint Resolve pres_check_free_page : pres.
Lemma pres_check_free_loop n f pp b e : pres same_ctx (check_free_loop n f pp b e).
Proof.
  revert pp b e. induction n as [|n IH]; intros [p|] b e; cbn [check_free_loop]; ctx_tac.
Qed.
#[export] Hint Resolve pres_low_pages_first pres_check_free_loop : pres.
Lemma pres_check_page_free_list e b : pres same_ctx (check_page_free_list e b).
Proof. unfold check_page_free_list. ctx_tac. apply pres_for_free_list. intros. ctx_tac. Qed.
Lemma pres_must_alloc f : pres same_ctx (must_alloc f).
Proof. unfold must_alloc. ctx_tac. Qed.
Lemma pres_no_free_page : pres same_ctx no_free_page.
Proof. unfold no_free_page. ctx_tac. Qed.
Lemma pres_count_free n pp k : pres same_ctx (count_free n pp k).
Proof. revert pp k. induction n as [|n IH]; intros [p|] k; cbn [count_free]; ctx_tac. Qed.
#[export] Hint Resolve pres_check_page_free_list pres_must_alloc pres_no_free_page pres_count_free : pres.
Lemma pres_zero_bytes n c : pres same_ctx (assert_zero_bytes n c).
Proof. revert c. induction n as [|n IH]; intros; simpl; ctx_tac. Qed.
Lemma pres_free_list_length : pres same_ctx free_list_length.
Proof. unfold free_list_length. ctx_tac. Qed.
#[export] Hint Resolve pres_zero_bytes pres_free_list_length : pres.
Lemma pres_check_page_alloc : pres same_ctx check_page_alloc.
Proof. unfold check_page_alloc, check_realloc, distinct3. ctx_tac. Qed.
#[export] Hint Resolve pres_check_page_alloc : pres.

Lemma pres_maps_to d va pa : pres same_ctx (maps_to d va pa).
Proof. unfold maps_to. ctx_tac. Qed.
Lemma pres_walk_load d va : pres same_ctx (walk_load d va).
Proof. unfold walk_load. ctx_tac. Qed.
Lemma pres_walk_store d va v : pres same_ctx (walk_store d va v).
Proof. unfold walk_store. ctx_tac. Qed.
Lemma pres_not_present n p : pres same_ctx (assert_not_present n p).
Proof. revert p. induction n as [|n IH]; intros; simpl; ctx_tac. Qed.
Lemma pres_inserts g k pp va p : pres same_ctx (inserts g k pp va p).
Proof. unfold inserts. ctx_tac. Qed.
Lemma pres_insert_fails g k pp va p : pres same_ctx (insert_fails g k pp va p).
Proof. unfold insert_fails. ctx_tac. Qed.
Lemma pres_ref_is pp n : pres same_ctx (ref_is pp n).
Proof. unfold ref_is. ctx_tac. Qed.
#[export] Hint Resolve pres_maps_to pres_walk_load pres_walk_store pres_not_present pres_inserts
  pres_insert_fails pres_ref_is : pres.
Lemma pres_check_page g : pres same_ctx (check_page g).
Proof. unfold check_page, check_page_insert, check_page_remove, check_walk_pointer, check_walk_clears, check_mmio, distinct3. ctx_tac. Qed.
Lemma pres_assert_mapped n d va pa : pres same_ctx (assert_mapped n d va pa).
Proof. revert va pa. induction n as [|n IH]; intros; simpl; ctx_tac. Qed.
Lemma pres_assert_unmapped n d va : pres same_ctx (assert_unmapped n d va).
Proof. revert va. induction n as [|n IH]; intros; simpl; ctx_tac. Qed.
#[export] Hint Resolve pres_check_page pres_assert_mapped pres_assert_unmapped : pres.
Lemma pres_check_kstacks k n d i : pres same_ctx (check_kstacks k n d i).
Proof. revert i. induction n as [|n IH]; intros; cbn [check_kstacks]; ctx_tac. Qed.
Lemma pres_check_pdes n d i : pres same_ctx (check_pdes n d i).
Proof. revert i. induction n as [|n IH]; intros; cbn [check_pdes]; ctx_tac. Qed.
#[export] Hint Resolve pres_check_kstacks pres_check_pdes : pres.
Lemma pres_check_kern_pgdir k : pres same_ctx (check_kern_pgdir k).
Proof. unfold check_kern_pgdir. ctx_tac. Qed.
Lemma pres_check_installed g : pres same_ctx (check_page_installed_pgdir g).
Proof. unfold check_page_installed_pgdir, check_installed_use, load_virt, store_virt, virt_word. ctx_tac. Qed.
Lemma pres_for_below i hi body :
  pres same_ctx hi -> (forall j, pres same_ctx (body j)) -> pres same_ctx (for_below i hi body).
Proof.
  intros Hh Hb. unfold for_below. ctx_tac. generalize (Z.to_nat (a - i)). intros n. revert i.
  induction n as [|n IH]; intros i; cbn [for_loop]; ctx_tac.
Qed.
Lemma pres_page_init_free i : pres same_ctx (page_init_free i).
Proof. unfold page_init_free. ctx_tac. Qed.
Lemma pres_first_free e : pres same_ctx (first_free_page_number e).
Proof. unfold first_free_page_number. ctx_tac. Qed.
#[export] Hint Resolve pres_page_init_free pres_first_free : pres.
Lemma pres_page_init e : pres same_ctx (page_init e).
Proof. unfold page_init. ctx_tac; apply pres_for_below; intros; ctx_tac. Qed.
Lemma pres_mem_init_alloc e : pres same_ctx (mem_init_alloc e).
Proof. unfold mem_init_alloc. ctx_tac; apply pres_page_init. Qed.
Lemma pres_mem_init_map k : pres same_ctx (mem_init_map k).
Proof. unfold mem_init_map, mem_init_mp. ctx_tac. Qed.
Lemma pres_mem_init_paging e : pres same_ctx (mem_init_paging e).
Proof. unfold mem_init_paging. ctx_tac. Qed.
#[export] Hint Resolve pres_check_kern_pgdir pres_check_installed pres_mem_init_alloc pres_mem_init_map
  pres_mem_init_paging : pres.

(** The search for the multiprocessor tables. *)
Lemma pres_sum a n : pres same_ctx (sum a n).
Proof.
  unfold sum. ctx_tac. generalize (Z.to_nat n) 0. intros k. revert a.
  induction k as [|k IH]; intros a acc; simpl; ctx_tac.
Qed.
Lemma pres_same_bytes p l : pres same_ctx (same_bytes p l).
Proof. revert p. induction l as [|b l IH]; intros p; cbn [same_bytes]; ctx_tac. Qed.
#[export] Hint Resolve pres_sum pres_same_bytes : pres.
Lemma pres_mpsearch1_loop n mp e : pres same_ctx (mpsearch1_loop n mp e).
Proof. revert mp. induction n as [|n IH]; intros mp; cbn [mpsearch1_loop]; ctx_tac. Qed.
#[export] Hint Resolve pres_mpsearch1_loop : pres.
Lemma pres_mpsearch : pres same_ctx mpsearch.
Proof. unfold mpsearch, mpsearch1. ctx_tac. Qed.
#[export] Hint Resolve pres_mpsearch : pres.
Lemma pres_mpconfig : pres same_ctx mpconfig.
Proof.
  unfold mpconfig, mp_physaddr, mp_type, conf_length, conf_version, conf_xlength, conf_xchecksum. ctx_tac.
Qed.
#[export] Hint Resolve pres_mpconfig : pres.

(** ** The devices *)

(** The device that is looked at is the one of processor [av_cpu]. *)
Class ApicView (W : Type) `{!Ports W} `{!ApicRegs W} `{!CpuView W} := {
  av_cpu : W -> Z;
  av_view i w : 0 <= i < 256 -> av_cpu (view_cpu i w) = i;
  av_in p w : av_cpu (snd (port_in p w)) = av_cpu w;
  av_out p v w : av_cpu (port_out p v w) = av_cpu w;
  av_rd r w : av_cpu (snd (apic_rd r w)) = av_cpu w;
  av_wr r v w : av_cpu (apic_wr r v w) = av_cpu w;
  av_id w : Z.shiftr (u32 (fst (apic_rd ID w))) 24 = av_cpu w
}.

Section View.
Context {W : Type} `{!Ports W} `{!ApicRegs W} `{!CpuView W} `{!ApicView W}.

Definition same_view (w w' : W) : Prop := av_cpu w' = av_cpu w.
#[global] Instance same_view_preorder : PreOrder same_view.
Proof. split; [done|]. intros ???. unfold same_view. congruence. Qed.

Lemma pres_inb p : pres same_view (inb p).
Proof. intros w. unfold inb. pose proof (av_in p w). by destruct (port_in p w). Qed.
Lemma pres_outb p v : pres same_view (outb p v).
Proof. intros w. apply av_out. Qed.

(** The variables of the memory code and of the local APIC beside the device. *)
Definition same_mw (s s' : mm_state * W) : Prop := same_ctx (fst s) (fst s') /\ same_view (snd s) (snd s').
Definition same_lap (s s' : lstate W) : Prop :=
  same_ctx (snd (fst s)) (snd (fst s')) /\ same_view (snd s) (snd s')
  /\ (lapic (fst (fst s)) <> 0 -> fst (fst s') = fst (fst s)).
#[global] Instance same_mw_preorder : PreOrder same_mw.
Proof. split; [by split|]. intros ??? [] []. split; by etrans. Qed.
#[global] Instance same_lap_preorder : PreOrder same_lap.
Proof.
  split; [by split|]. intros x y z (H1 & H2 & H3) (H4 & H5 & H6). split; [by etrans|]. split; [by etrans|].
  intros H. specialize (H3 H). rewrite <- H3. apply H6. by rewrite H3.
Qed.

Lemma pres_mem_init e k g : pres same_mw (mem_init e k g).
Proof.
  assert (forall X (m : M mm_state X), pres same_ctx m -> pres same_mw (on_fst m)) as Hm.
  { intros X m. apply pres_zoom. intros s t E. by split. }
  assert (forall X (m : M W X), pres same_view m -> pres same_mw (on_snd m)) as Hw.
  { intros X m. apply pres_zoom. intros s t E. by split. }
  unfold mem_init, i386_detect_memory, nvram_read, mc146818_read.
  repeat first [apply Hm; by ctx_tac | apply Hw; by repeat first [apply pres_inb | apply pres_outb | pres_step] | pres_step].
Qed.

(** *** The local APIC *)

Lemma pres_lap_mem {X} (m : M mm_state X) : pres same_ctx m -> pres same_lap (mem m).
Proof. intros H [ [v m0] w]. specialize (H m0). unfold mem, on_fst, on_snd, zoom. simpl. by destruct (m m0). Qed.
Lemma pres_lap_hw {X} (m : M W X) : pres same_view m -> pres same_lap (hw m).
Proof. intros H [ [v m0] w]. specialize (H w). unfold hw, on_snd, zoom. simpl. by destruct (m w). Qed.

Lemma pres_lapicr i : pres same_lap (lapicr i).
Proof.
  unfold lapicr, vars. pres_tac. apply pres_lap_hw. intros w. pose proof (av_rd i w).
  by destruct (apic_rd i w).
Qed.
Lemma pres_lapicw i v : pres same_lap (lapicw i v).
Proof.
  unfold lapicw, vars. pres_tac; [|apply pres_lapicr]. apply pres_lap_hw. intros w. apply av_wr.
Qed.
#[local] Hint Resolve pres_lapicr pres_lapicw : pres.
Lemma pres_lap_cpunum : pres same_lap Lapic.cpunum.
Proof. unfold Lapic.cpunum, vars. pres_tac. Qed.
Lemma pres_wait_delivered n : pres same_lap (wait_delivered n).
Proof. induction n as [|n IH]; cbn [wait_delivered]; pres_tac. Qed.
#[local] Hint Resolve pres_lap_cpunum pres_wait_delivered : pres.

Lemma pres_lapic_init n b : pres same_lap (lapic_init n b).
Proof.
  apply pres_safe. intros s. unfold lapic_init, vars. do 2 safe_step.
  destruct (lapicaddr _ =? 0); [by safe_step|]. safe_step.
  apply (safe_mono _ _ _ (fun _ s' => same_lap s s')).
  - destruct (Z.eqb_spec (lapic (fst (fst s))) 0) as [E|E]; cbn [when]; [|by safe_step].
    safe_step. apply (safe_pres same_lap); [apply pres_lap_mem, pres_mmio_map|].
    intros a s' (H1 & H2 & _). safe_step. by split.
  - intros u s1 H1. cbv beta in H1. apply (safe_pres same_lap); [pres_tac|]. intros v s2 H2. by etrans.
Qed.

Lemma pres_startap_ports : pres same_view (outb IO_RTC 0xF ;; outb (IO_RTC + 1) 0x0A).
Proof. pres_tac; apply pres_outb. Qed.
Lemma pres_startap_vector addr :
  pres same_ctx (wrv ← KADDR (Z.lor (Z.shiftl 0x40 4) 0x67);
                 store16 wrv 0 ;; store16 (wrv + 2) (Z.shiftr (u32 addr) 4)).
Proof. ctx_tac. Qed.
#[local] Hint Resolve pres_startap_ports pres_startap_vector pres_lap_hw pres_lap_mem : pres.

Lemma pres_lapic_startap a addr : pres same_lap (lapic_startap a addr).
Proof. unfold lapic_startap, send_startup. pres_tac. Qed.

(** The start-up message needs the APIC's registers. *)
Lemma startap_lapic a addr s I :
  safe (lapic_startap a addr) s (fun _ s' => same_lap s s' /\ lapic (fst (fst s)) <> 0) I.
Proof.
  destruct (Z.eq_dec (lapic (fst (fst s))) 0) as [E|E].
  - unfold lapic_startap. safe_step. destruct s as [ [v m] w]. apply safe_zoom. simpl.
    apply (safe_pres same_view); [apply pres_startap_ports|]. intros u w1 _. safe_step.
    apply safe_zoom. simpl. apply safe_zoom. simpl.
    apply (safe_pres same_ctx); [apply pres_startap_vector|]. intros u1 m1 _.
    safe_step. unfold lapicw, vars. do 2 safe_step. simpl in *. by rewrite E.
  - apply (safe_pres same_lap); [apply pres_lapic_startap|done].
Qed.

(** [cpunum()] is the number of the processor. *)
Lemma safe_lap_cpunum s I :
  safe Lapic.cpunum s (fun r s' => same_lap s s' /\ fst (fst s') = fst (fst s)
    /\ (lapic (fst (fst s)) <> 0 -> r = av_cpu (snd s))) I.
Proof.
  unfold Lapic.cpunum, vars. do 2 safe_step. destruct (Z.eqb_spec (lapic (fst (fst s))) 0) as [E|E]; simpl.
  - safe_step. by split.
  - safe_step. unfold lapicr, vars. do 2 safe_step. destruct (Z.eqb_spec (lapic (fst (fst s))) 0); [done|].
    apply safe_zoom. simpl. unfold safe. pose proof (av_rd ID (snd s)) as Hv. pose proof (av_id (snd s)) as Hi.
    destruct (apic_rd ID (snd s)) as [x w] eqn:Er. simpl in *. split; [by split|]. by split; [|intros _].
Qed.
(** *** The other devices *)

Definition snd_view {T} (s s' : T * W) : Prop := same_view (snd s) (snd s').
#[global] Instance snd_view_preorder T : PreOrder (@snd_view T).
Proof. split; [done|]. intros ???. unfold snd_view. apply transitivity. Qed.

Lemma pres_on_snd {T X} (m : M W X) : pres same_view m -> pres (@snd_view T) (on_snd m).
Proof. by apply pres_zoom. Qed.
Lemma pres_fst_modify {T} (f : T * W -> T * W) :
  (forall s, snd (f s) = snd s) -> pres (@snd_view T) (modify f).
Proof. intros H. apply pres_modify. intros s. unfold snd_view, same_view. by rewrite H. Qed.

Ltac dev_tac :=
  repeat first [pres_step | apply pres_inb | apply pres_outb | apply pres_on_snd | by apply pres_fst_modify].

Lemma pres_cls_loop n i c : pres (@snd_view screen) (cls_loop n i c).
Proof. revert i. induction n as [|n IH]; intros i; cbn [cls_loop]; unfold memset_cells, get_s, mod_s; dev_tac. Qed.
Lemma pres_init_video : pres (@snd_view screen) init_video.
Proof. unfold init_video, sys_cls, move_csr, get_s, mod_s. dev_tac; apply pres_cls_loop. Qed.

Lemma pres_kbd_press d : pres (@snd_view kbd) (kbd_press d).
Proof. unfold kbd_press, get_k, mod_k. dev_tac. Qed.
#[local] Hint Resolve pres_kbd_press : pres.
Lemma pres_kbd_intr n : pres (@snd_view kbd) (kbd_intr n).
Proof.
  unfold kbd_intr. induction n as [|n IH]; cbn [cons_intr]; [done|].
  unfold kbd_proc_data, cons_put, get_k, mod_k. dev_tac.
Qed.

Lemma pres_setmask m : pres (@snd_view pic_state) (irq_setmask_8259A m).
Proof. unfold irq_setmask_8259A. dev_tac. Qed.
#[local] Hint Resolve pres_setmask : pres.
Lemma pres_pic_init : pres (@snd_view pic_state) pic_init.
Proof. unfold pic_init. dev_tac. Qed.
Lemma pres_set_timer hz : pres same_view (set_timer hz).
Proof. unfold set_timer. dev_tac. Qed.
End View.
#[export] Hint Resolve pres_inb pres_outb pres_lap_cpunum pres_lapic_init pres_lapic_startap pres_init_video
  pres_kbd_intr pres_setmask pres_pic_init pres_set_timer : pres.
