(* ===== verification/MainInv.v ===== *)
(** * From power-on to scheduling

    Proofs about Main.v.  [boot_aps] starts every processor that is not the boot
    processor, and [kernel_main], whenever it leaves for user mode, has brought the
    machine into a state in which the scheduler's invariant of TaskInv.v holds. *)

From S2P Require Import Prelude.
From S2P Require Import Machine.
From S2P Require Import Kmonad.
From S2P Require Import Spinlock.
From S2P Require Import PageAlloc.
From S2P Require Import Paging.
From S2P Require Import Bytes.
From S2P Require Import Ports.
From S2P Require Import Lapic.
From S2P Require Import Screen.
From S2P Require Import Kbd.
From S2P Require Import MemInit.
From Stdlib Require Import ZArith Lia.
From stdpp Require Import base gmap list strings.
From S2P Require Import Task.
From S2P Require Import TaskInv.
From S2P Require Import TaskInit.
From S2P Require Import MpConfig.
From S2P Require Import Trap.
From S2P Require Import TrapProofs.
From S2P Require Import Main.
From S2P Require Import StartFrame.

Local Open Scope Z_scope.

(** ** One processor changes its own record only *)

Definition own_cpu (s s' : tk_state) : Prop :=
  cpunum s' = cpunum s /\ ncpu s' = ncpu s
  /\ (forall j, j <> cpunum s -> zget (cpus s') j = zget (cpus s) j)
  /\ forall c, zget (cpus s) (cpunum s) = Some c ->
       exists c', zget (cpus s') (cpunum s) = Some c' /\ cpu_id c' = cpu_id c.

#[global] Instance own_cpu_preorder : PreOrder own_cpu.
Proof.
  split.
  - intros s. split_and!; [done|done|done|]. eauto.
  - intros x y z (Ey & Ny & Oy & Iy) (Ez & Nz & Oz & Iz). rewrite Ey in *. split_and!; [done|congruence| |].
    + intros j Hj. rewrite Oz by done. auto.
    + intros c Hc. destruct (Iy c Hc) as (c1 & H1 & E1). destruct (Iz c1 H1) as (c2 & H2 & E2).
      exists c2. split; [done|congruence].
Qed.

Lemma own_same s s' : same_sched s s' -> own_cpu s s'.
Proof. intros (_ & Ec & En & Em). split_and!; [done|done|by rewrite Ec|]. rewrite Ec. eauto. Qed.

Lemma own_of_same {X} (m : M tk_state X) : pres same_sched m -> pres own_cpu m.
Proof. apply pres_mono, own_same. Qed.

Lemma own_upd_thiscpu f : (forall c, cpu_id (f c) = cpu_id c) -> pres own_cpu (upd_thiscpu f).
Proof.
  intros Hf. apply pres_safe. intros s. apply safe_upd_thiscpu. intros c Hc.
  pose proof (zget_Some_range _ _ _ Hc) as Hr. split_and!; [done|done| |].
  - intros j Hj. simpl. apply zget_insert_ne; [lia|done].
  - intros c' Hc'. simplify_eq. exists (f c). split; [simpl; by eapply zget_insert_eq|apply Hf].
Qed.

Lemma own_upd_task i f : pres own_cpu (upd_task i f).
Proof.
  apply pres_safe. intros s. apply safe_upd_task. intros t Ht. split_and!; [done|done|done|].
  intros c Hc. by exists c.
Qed.

Lemma own_find_free n i : pres own_cpu (find_free n i).
Proof. revert i. induction n as [|n IH]; intros i; cbn [find_free]; pres_tac. by apply own_of_same, pres_get_task. Qed.
#[export] Hint Resolve own_upd_thiscpu own_upd_task own_find_free : pres.

Ltac own_tac := repeat first [pres_step | solve [apply own_of_same; mm_tac] | apply own_upd_thiscpu; done].

Lemma own_task_create K : pres own_cpu (task_create K).
Proof. unfold task_create. own_tac. Qed.
#[export] Hint Resolve own_task_create : pres.

Lemma own_task_init_percpu K : pres own_cpu (task_init_percpu K).
Proof.
  unfold task_init_percpu, get_cpu. own_tac; apply own_of_same; [apply pres_set_gdt_entry|by apply pres_modify].
Qed.
#[export] Hint Resolve own_task_init_percpu : pres.

(** ** The kernel's state *)

Section Kernel.
Context {W : Type} `{!Ports W} `{!ApicRegs W} `{!CpuView W} `{!ApicView W}.
Context (K : ksyms) (A : isrs) (L : links) (fuel : nat).
#[local] Abbreviation kern := (kern W).

(** The same processor, and [lapic] once it is set. *)
Definition same_dev (s s' : kern) : Prop :=
  same_view (k_w s) (k_w s') /\ (lapic (k_lv s) <> 0 -> k_lv s' = k_lv s).
(** No task, queue or processor record changed; and only the processor's own did. *)
Definition same_kern (s s' : kern) : Prop := same_sched (k_tk s) (k_tk s') /\ same_dev s s'.
Definition own_kern (s s' : kern) : Prop := own_cpu (k_tk s) (k_tk s') /\ same_dev s s'.

#[global] Instance same_dev_preorder : PreOrder same_dev.
Proof.
  split; [by split|]. intros x y z (H2 & H3) (H5 & H6). split; [by etrans|].
  intros H. specialize (H3 H). rewrite <- H3. apply H6. by rewrite H3.
Qed.
#[global] Instance same_kern_preorder : PreOrder same_kern.
Proof. split; [by split|]. intros ??? [] []. split; by etrans. Qed.
#[global] Instance own_kern_preorder : PreOrder own_kern.
Proof. split; [by split|]. intros ??? [] []. split; by etrans. Qed.

Lemma own_of_same_kern {X} (m : M kern X) : pres same_kern m -> pres own_kern m.
Proof. apply pres_mono. intros s s' [H1 H2]. split; [by apply own_same|done]. Qed.

Lemma kpres_tk {X} (m : M tk_state X) : pres same_sched m -> pres same_kern (on_tk m).
Proof. apply pres_zoom. intros s t H. by split. Qed.
Lemma kpres_tk_own {X} (m : M tk_state X) : pres own_cpu m -> pres own_kern (on_tk m).
Proof. apply pres_zoom. intros s t H. by split. Qed.
Lemma kpres_mm {X} (m : M mm_state X) : pres same_ctx m -> pres same_kern (on_kmm m).
Proof. intros H. by apply kpres_tk, pres_on_mm. Qed.
Lemma same_set_lap (s : kern) (v : lstate W) :
  same_lap (k_lv s, mm (k_tk s), k_w s) v -> same_kern s (set_lap v s).
Proof.
  intros (H1 & H2 & H3). split; [|by split].
  split_and!; [done|done| |done]. unfold cpunum. simpl. by rewrite H1.
Qed.
Lemma kpres_lap {X} (m : M (lstate W) X) : pres same_lap m -> pres same_kern (on_lap m).
Proof. apply pres_zoom. intros s v. apply same_set_lap. Qed.
#[local] Hint Resolve kpres_tk kpres_mm kpres_lap : pres.

Ltac k_tac :=
  repeat first [pres_step | solve [apply kpres_mm; ctx_tac] | solve [apply kpres_tk; mm_tac] | solve [apply kpres_lap; pres_tac]].

(** *** Another processor sets itself up *)

Lemma kpres_lapic_init : pres same_kern (k_lapic_init (W := W) fuel).
Proof. unfold k_lapic_init. k_tac. Qed.

Lemma own_mp_setup : pres own_kern (mp_setup (W := W) K A fuel).
Proof.
  unfold mp_setup, k_task_init_percpu.
  repeat first [pres_step | solve [apply own_of_same_kern; k_tac]].
  - apply own_of_same_kern, kpres_lapic_init.
  - apply kpres_tk_own, own_task_init_percpu.
  - apply pres_modify. intros s. by split.
  - apply kpres_tk_own. unfold xchg_status. own_tac.
Qed.

(** A processor that runs a task of its own. *)
Definition ready (c : CpuInfo) : Prop := cpu_status c = CPU_STARTED /\ exists p, cpu_task c = Some p.

(** [cpu_status] is not part of the scheduler's state. *)
Lemma inv_set_status s i c v :
  sched_inv s -> zget (cpus s) i = Some c ->
  sched_inv (set_cpus (<[Z.to_nat i := c_set_status v c]> (cpus s)) s).
Proof.
  intros Inv Hc. eapply (inv_upd_cpu _ s i c (c_set_status v c)); [done|done| | |done|].
  - apply zset_Some. by eapply zget_Some_range.
  - apply (si_rq _ _ Inv c). by eapply zget_elem_of.
  - intros p Hp. apply (si_cur _ _ Inv c); [by eapply zget_elem_of|done].
Qed.

Lemma safe_mp_setup s c :
  sched_inv (k_tk s) -> zget (cpus (k_tk s)) (cpunum (k_tk s)) = Some c -> unused c ->
  safe (mp_setup K A fuel) s (fun _ s' => own_kern s s' /\ sched_inv (k_tk s') /\
    exists c', zget (cpus (k_tk s')) (cpunum (k_tk s')) = Some c' /\ ready c') (fun _ => False).
Proof.
  intros Inv Hc U. eapply safe_mono; [apply (safe_both own_kern); [|apply own_mp_setup]|].
  2:{ intros u s' [H1 H2]. split; [exact H2|exact H1]. }
  unfold mp_setup, k_task_init_percpu. assert (same_kern s s) as E by done.
  do 5 (eapply (safe_frame same_kern); [k_tac|exact E|]; clear E; intros ? ? E).
  eapply (safe_frame same_kern); [apply kpres_lapic_init|exact E|]. clear E. intros u sL [E _].
  pose proof (inv_same _ _ _ E Inv) as Inv1. destruct E as (_ & Ec & En & _). rewrite <- Ec, <- En in Hc.
  do 3 safe_step. apply safe_zoom.
  apply (safe_mono _ _ _ (fun _ t => sched_inv t /\ first_task t)).
  { pose proof (safe_task_init_percpu (ksyms_at K (k_lv sL)) (fun _ => False) (k_tk sL) c Inv1 Hc U) as H.
    exact H. }
  intros v t (Inv2 & i & c2 & t2 & Hc2 & Hi & _). do 3 safe_step. apply safe_zoom. simpl.
  unfold xchg_status. safe_step. eapply safe_eq; [by apply thiscpu_eq|]. safe_step.
  apply safe_upd_thiscpu. intros c3 Hc3. simplify_eq. do 2 safe_step. simpl. split.
  - by apply inv_set_status.
  - eexists. split; [by eapply zget_insert_eq|]. by split; [|exists i].
Qed.
(** *** The boot processor between two turns *)

(** Processor [b] runs; a processor [cpus[i]] has number [i], and one that has not
    been started has not been set up. *)
Record up (b : Z) (s : kern) : Prop := {
  up_inv : sched_inv (k_tk s);
  up_me : cpunum (k_tk s) = b;
  up_range : 0 <= b < 256;
  up_view : av_cpu (k_w s) = b;
  up_id : forall i c, 0 <= i < ncpu (k_tk s) -> zget (cpus (k_tk s)) i = Some c -> cpu_id c = i;
  up_unused : forall i c, i <> b -> zget (cpus (k_tk s)) i = Some c -> cpu_status c <> CPU_STARTED ->
                          unused c
}.

Lemma up_same b s s' : same_kern s s' -> up b s -> up b s'.
Proof.
  intros [E [V _] ] [U1 U2 U0 U3 U4 U5]. pose proof E as (_ & Ec & En & Em). split.
  - by eapply inv_same.
  - by rewrite En.
  - done.
  - by rewrite V.
  - rewrite Ec, Em. exact U4.
  - rewrite Ec. exact U5.
Qed.

Context (ap_regs : Z -> cpu_regs) (Hap : forall i, ctx_cpu (r_ctx (ap_regs i)) = i).
#[local] Abbreviation ap_run := (fun i => as_cpu (ap_regs i) (mp_setup K A fuel)).

(** Only [cpus[i]] changed. *)
Definition other_cpus (i : Z) (s s' : kern) : Prop :=
  ncpu (k_tk s') = ncpu (k_tk s) /\ (lapic (k_lv s) <> 0 -> k_lv s' = k_lv s)
  /\ forall j, j <> i -> zget (cpus (k_tk s')) j = zget (cpus (k_tk s)) j.

Lemma safe_ap_run b i s c :
  up b s -> i <> b -> zget (cpus (k_tk s)) i = Some c -> unused c ->
  safe (ap_run i) s (fun _ s' => up b s' /\ other_cpus i s s' /\
    exists c', zget (cpus (k_tk s')) i = Some c' /\ ready c') (fun _ => False).
Proof.
  intros [U1 U2 U0 U3 U4 U5] Hne Hc Un. unfold as_cpu. do 4 safe_step.
  set (s1 := load_regs (ap_regs i) _).
  assert (cpunum (k_tk s1) = i) as En by apply Hap.
  safe_step. eapply safe_mono; [apply (safe_mp_setup s1 c); [|by rewrite En|done]|].
  { by apply (inv_ext _ (k_tk s)). }
  intros u s2 ([ (E1 & E2 & E3 & E4) [V2 L2] ] & Inv2 & c' & Hc' & R). safe_step.
  assert (cpunum (k_tk s2) = i) as En2 by congruence. rewrite En in *.
  change (cpus (k_tk s1)) with (cpus (k_tk s)) in *. change (ncpu (k_tk s1)) with (ncpu (k_tk s)) in *.
  rewrite En2 in Hc'. split; [split|].
  - by apply (inv_ext _ (k_tk s2)).
  - exact U2.
  - done.
  - simpl. rewrite av_view; [exact U2|]. unfold cpunum in U2. by rewrite U2.
  - simpl. rewrite E2. intros j cj Hj Hcj. destruct (Z.eq_dec j i) as [->|].
    + destruct (E4 c Hc) as (c2 & Hc2 & Hid). rewrite Hc2 in Hcj. injection Hcj as <-. rewrite Hid. by apply U4.
    + rewrite E3 in Hcj by done. by apply U4.
  - simpl. intros j cj Hj Hcj Hst. destruct (Z.eq_dec j i) as [->|].
    + rewrite Hc' in Hcj. injection Hcj as <-. by destruct R.
    + rewrite E3 in Hcj by done. by apply (U5 j).
  - split; [by split|]. simpl. by exists c'.
Qed.

(** Processor [i] is started, and it runs a task of its own if it was not before. *)
Definition cpu_up (i : Z) (s s' : kern) : Prop :=
  exists c c', zget (cpus (k_tk s)) i = Some c /\ zget (cpus (k_tk s')) i = Some c'
    /\ cpu_status c' = CPU_STARTED /\ (cpu_status c <> CPU_STARTED -> ready c').

Lemma safe_wait_started b i s :
  up b s -> i <> b ->
  safe (wait_started ap_run i) s (fun _ s' => up b s' /\ other_cpus i s s' /\ cpu_up i s s') (fun _ => False).
Proof.
  intros U Hne. unfold wait_started. safe_step. apply safe_zoom. unfold get_cpu. do 2 safe_step.
  apply safe_need. intros c Hc. replace (set_tk (k_tk s) s) with s by by destruct s.
  destruct (Z.eqb_spec (cpu_status c) CPU_STARTED) as [Est|Est].
  - safe_step. split; [done|]. split; [done|]. exists c, c. by split_and!.
  - safe_step. eapply safe_mono; [apply (safe_ap_run b i s c); [done|done|done|by apply (up_unused b s U i)]|].
    intros u s1 (U1 & O1 & c1 & Hc1 & R1). safe_step. apply safe_zoom. do 2 safe_step.
    apply safe_need. intros c2 Hc2. replace (set_tk (k_tk s1) s1) with s1 by by destruct s1. simplify_eq.
    pose proof R1 as [-> _]. rewrite Z.eqb_refl. safe_step. split; [done|]. split; [done|].
    exists c, c1. pose proof R1 as [Hst _]. by split_and!.
Qed.

Lemma other_same i s s1 s' : same_kern s s1 -> other_cpus i s1 s' -> other_cpus i s s'.
Proof.
  intros [ (_ & Ec & _ & Em) [_ L1] ] (N2 & L2 & O2). split; [congruence|]. split; [|by rewrite <- Ec].
  intros H. specialize (L1 H). rewrite <- L1. apply L2. by rewrite L1.
Qed.
Lemma cpu_up_same i s s1 s' : same_kern s s1 -> cpu_up i s1 s' -> cpu_up i s s'.
Proof. intros [ (_ & Ec & _) _]. unfold cpu_up. by rewrite Ec. Qed.

(** One turn of the loop. *)
Lemma safe_boot_ap b i s :
  up b (bk s) -> 0 <= i < ncpu (k_tk (bk s)) ->
  safe (boot_ap K ap_run i) s (fun _ s' => up b (bk s') /\ other_cpus i (bk s) (bk s') /\
    (lapic (k_lv (bk s)) <> 0 -> i <> b -> cpu_up i (bk s) (bk s'))) (fun _ => False).
Proof.
  intros U Hi. unfold boot_ap. safe_step. apply safe_zoom, safe_zoom. unfold get_cpu. do 2 safe_step.
  apply safe_need. intros c Hc. replace (set_tk (k_tk (bk s)) (bk s)) with (bk s) by by destruct (bk s).
  pose proof (up_id b _ U i c Hi Hc) as Hid. safe_step. apply safe_zoom, safe_zoom. simpl.
  eapply safe_mono; [apply safe_lap_cpunum|]. intros me v (Sl & Ev & Hme). simpl in Ev, Hme. cbn [bk].
  set (k1 := set_lap v (bk s)). assert (same_kern (bk s) k1) as E1 by by apply same_set_lap.
  destruct (Z.eqb_spec (cpu_id c) me) as [Eid|Eid].
  - safe_step. cbn [bk]. split; [by eapply up_same|]. split; [by apply (other_same i _ k1)|].
    intros Hl Hb. specialize (Hme Hl). rewrite (up_view b _ U) in Hme. congruence.
  - do 2 safe_step. safe_step. apply safe_zoom, safe_zoom. simpl.
    eapply safe_mono; [apply startap_lapic|]. intros u v2 [Sl2 Hl]. cbn [bk]. simpl in Hl.
    assert (same_kern (bk s) (set_lap v2 k1)) as E2 by (etrans; [exact E1|by apply same_set_lap]).
    apply safe_zoom. simpl. rewrite Ev in Hl. specialize (Hme Hl). rewrite (up_view b _ U) in Hme.
    eapply safe_mono; [apply (safe_wait_started b i); [by eapply up_same|congruence]|].
    intros w s' (U' & O' & C'). split; [done|]. split; [by eapply other_same|].
    intros _ _. by eapply cpu_up_same.
Qed.

(** The rest of the loop: the processors from [i] on are started, the others stay
    as they are. *)
Lemma safe_boot_aps_loop b n i s :
  up b (bk s) -> 0 <= i -> i + Z.of_nat n <= ncpu (k_tk (bk s)) ->
  safe (boot_aps_loop K ap_run n i) s (fun _ s' => up b (bk s')
    /\ ncpu (k_tk (bk s')) = ncpu (k_tk (bk s))
    /\ (forall j, j < i -> zget (cpus (k_tk (bk s'))) j = zget (cpus (k_tk (bk s))) j)
    /\ (lapic (k_lv (bk s)) <> 0 -> forall j, i <= j < i + Z.of_nat n -> j <> b ->
         cpu_up j (bk s) (bk s'))) (fun _ => False).
Proof.
  revert i s. induction n as [|n IH]; intros i s U Hi Hn; cbn [boot_aps_loop].
  - safe_step. split_and!; [done|done|done|]. intros _ j Hj. lia.
  - safe_step. eapply safe_mono; [apply safe_boot_ap; [exact U|lia]|].
    intros u s1 (U1 & (N1 & L1 & O1) & C1).
    eapply safe_mono; [apply IH; [exact U1|lia|lia]|]. intros w s2 (U2 & N2 & O2 & C2).
    split_and!; [done|congruence| |].
    + intros j Hj. rewrite O2, O1 by lia. done.
    + intros Hl j Hj Hb. destruct (Z.eq_dec j i) as [->|Hne].
      * destruct (C1 Hl Hb) as (c & c' & Hc & Hc' & H). exists c, c'. rewrite O2 by lia. done.
      * rewrite <- (L1 Hl) in Hl. destruct (C2 Hl j ltac:(lia) Hb) as (c & c' & Hc & H).
        exists c, c'. by rewrite <- (O1 j Hne).
Qed.

Lemma kpres_mpentry (s : bstate) (Q : unit -> bstate -> Prop) I :
  (forall s', same_kern (bk s) (bk s') -> Q tt s') ->
  safe (on_k (on_kmm (dst ← KADDR MPENTRY_PADDR;
                kmemmove dst (mpentry_start L) (mpentry_end L - mpentry_start L)))) s Q I.
Proof.
  intros HQ. apply safe_zoom. apply (safe_pres same_kern); [apply kpres_mm; ctx_tac|].
  intros [] s' E. by apply HQ.
Qed.

Lemma safe_boot_aps b s :
  up b (bk s) -> 0 <= ncpu (k_tk (bk s)) ->
  safe (boot_aps K L ap_run) s (fun _ s' => up b (bk s') /\ ncpu (k_tk (bk s')) = ncpu (k_tk (bk s))
    /\ (lapic (k_lv (bk s)) <> 0 -> forall j, 0 <= j < ncpu (k_tk (bk s')) -> j <> b ->
         cpu_up j (bk s) (bk s'))) (fun _ => False).
Proof.
  intros U Hn. unfold boot_aps. safe_step. apply kpres_mpentry. intros s1 E1.
  pose proof (up_same b _ _ E1 U) as U1. pose proof E1 as [ (_ & _ & _ & N1) [_ L1] ].
  safe_step. apply safe_zoom, safe_zoom. safe_step.
  eapply safe_mono; [apply (safe_boot_aps_loop b); [by destruct s1 as [ [] ]|lia|simpl; lia]|].
  intros u s2 (U2 & N2 & _ & C2). simpl in N2. split; [done|]. split; [congruence|]. intros Hl j Hj Hb.
  eapply cpu_up_same; [exact E1|]. specialize (L1 Hl).
  destruct (C2 ltac:(simpl; by rewrite L1) j ltac:(simpl; lia) Hb) as (c & c' & H). by exists c, c'.
Qed.
(** *** The other steps of [kernel_main] *)

Lemma kpres_w {X} (m : M W X) : pres same_view m -> pres same_kern (on_w m).
Proof. apply pres_zoom. intros s t H. split; [done|by split]. Qed.
Lemma kpres_scr {X} (m : M (screen * W) X) : pres snd_view m -> pres same_kern (on_scr m).
Proof. apply pres_zoom. intros s t H. split; [done|by split]. Qed.
Lemma kpres_kbd {X} (m : M (kbd * W) X) : pres snd_view m -> pres same_kern (on_kbd m).
Proof. apply pres_zoom. intros s t H. split; [done|by split]. Qed.
Lemma kpres_pic {X} (m : M (pic_state * W) X) : pres snd_view m -> pres same_kern (on_pic m).
Proof. apply pres_zoom. intros s t H. split; [done|by split]. Qed.
Lemma kpres_mm_w {X} (m : M (mm_state * W) X) : pres same_mw m -> pres same_kern (on_mm_w m).
Proof.
  apply pres_zoom. intros s t [H1 H2]. split; [|by split]. split_and!; [done|done| |done].
  unfold cpunum. simpl. by rewrite H1.
Qed.
#[local] Hint Resolve kpres_w kpres_scr kpres_kbd kpres_pic kpres_mm_w : pres.

Lemma kpres_set_gate i g : pres same_kern (set_gate (W := W) i g).
Proof. unfold set_gate. pres_tac. by apply pres_modify. Qed.
Lemma kpres_set_hnd i h : pres same_kern (set_hnd (W := W) i h).
Proof. unfold set_hnd. pres_tac. by apply pres_modify. Qed.
#[local] Hint Resolve kpres_set_gate kpres_set_hnd : pres.
Lemma kpres_register n h e t d : pres same_kern (register_handler (W := W) n h e t d).
Proof. unfold register_handler. pres_tac. Qed.
Lemma kpres_trap_loop n i : pres same_kern (trap_init_loop (W := W) A n i).
Proof. revert i. induction n as [|n IH]; intros i; cbn [trap_init_loop]; pres_tac. Qed.
#[local] Hint Resolve kpres_register kpres_trap_loop : pres.
Lemma kpres_trap_init : pres same_kern (trap_init (W := W) A).
Proof. unfold trap_init. pres_tac. by apply pres_modify. Qed.
Lemma kpres_kbd_init : pres same_kern (kbd_init (W := W) A fuel).
Proof. unfold kbd_init. pres_tac. Qed.
Lemma kpres_timer_init : pres same_kern (timer_init (W := W) A).
Proof. unfold timer_init. pres_tac. Qed.
Lemma kpres_syscall_init : pres same_kern (syscall_init (W := W) A).
Proof. unfold syscall_init. pres_tac. Qed.
(** *** Counting the processors *)

(** Processor [b] runs, no processor has a task, and the counted ones have their
    numbers. *)
Record counted (b : Z) (t : tk_state) : Prop := {
  ct_unused : Forall unused (cpus t);
  ct_me : cpunum t = b;
  ct_ncpu : 0 <= ncpu t;
  ct_id : forall i c, 0 <= i < Z.max 1 (ncpu t) -> zget (cpus t) i = Some c -> cpu_id c = i;
  ct_len : length (cpus t) = 8%nat
}.

Lemma counted_same b t t' : same_sched t t' -> counted b t -> counted b t'.
Proof. intros (_ & Ec & En & Em) []. split; by rewrite ?Ec, ?En, ?Em. Qed.

(** A record is rewritten, but for its run queue and task. *)
Lemma counted_upd b t i c c' :
  counted b t -> zget (cpus t) i = Some c -> unused c' ->
  (0 <= i < Z.max 1 (ncpu t) -> cpu_id c' = i) ->
  counted b (set_cpus (<[Z.to_nat i := c']> (cpus t)) t).
Proof.
  intros [C1 C2 C3 C4 C5] Hc Hu Hid. pose proof (zget_Some_range _ _ _ Hc) as Hr.
  split; [by apply Forall_insert|done|done| |simpl; by rewrite length_insert].
  intros j cj Hj Hcj. simpl in *. destruct (Z.eq_dec i j) as [->|Hne].
  - erewrite zget_insert_eq in Hcj by exact Hc. injection Hcj as <-. auto.
  - rewrite zget_insert_ne in Hcj by (done || lia). by apply C4.
Qed.

Lemma counted_unused b t i c : counted b t -> zget (cpus t) i = Some c -> unused c.
Proof. intros C Hc. eapply Forall_forall; [apply (ct_unused b t C)|by eapply zget_elem_of]. Qed.

Lemma safe_mp_proc b p t : counted b t -> safe (mp_proc p) t (fun _ t' => counted b t') (fun _ => False).
Proof.
  intros C. unfold mp_proc. safe_step. safe_same f t1 E1. pose proof (counted_same b _ _ E1 C) as C1.
  do 3 safe_step. apply (safe_mono _ _ _ (fun _ t2 => counted b t2 /\ ncpu t2 = ncpu t1)).
  { destruct (truth _); cbn [when]; safe_step; (split; [|done]); [|done]. by destruct C1. }
  intros u t2 [C2 <-]. destruct (Z.ltb_spec (ncpu t2) NCPU) as [Hn|Hn].
  - pose proof (ct_ncpu b t2 C2) as H0. safe_step. apply safe_upd_cpu. intros c Hc. safe_step.
    set (c' := mkCpu _ _ _ _ _). set (t3 := set_cpus _ t2).
    assert (cpu_id c' = ncpu t2) as Hid by (unfold NCPU in Hn; apply u8_small; lia).
    assert (counted b t3) as [D1 D2 D3 D4 D5].
    { eapply counted_upd; [done|done|exact (counted_unused _ _ _ _ C2 Hc)|]. lia. }
    split; [done|done|simpl; lia| |done]. simpl. intros j cj Hj Hcj.
    destruct (Z.eq_dec j (ncpu t2)) as [->|Hne]; [|apply D4; [simpl; lia|done] ].
    erewrite zget_insert_eq in Hcj by exact Hc. by injection Hcj as <-.
  - safe_step. safe_same a t3 E3. pose proof (counted_same b _ _ E3 C2) as C3.
    safe_same w t4 E4. by eapply counted_same.
Qed.

(** Processor [b]'s devices beside the counted processors. *)
Definition mcounted (b : Z) (s : mpstate (W := W)) : Prop := counted b (fst (fst s)) /\ av_cpu (snd s) = b.
Definition keeps {X} (b : Z) (m : M (mpstate (W := W)) X) : Prop :=
  forall s, mcounted b s -> safe m s (fun _ s' => mcounted b s') (fun _ => False).

Section Keeps.
Context (b : Z).

Lemma keeps_bind {X Y} (m : M mpstate X) (f : X -> M mpstate Y) :
  keeps b m -> (forall x, keeps b (f x)) -> keeps b (m ≫= f).
Proof. intros Hm Hf s C. safe_step. eapply safe_mono; [by apply Hm|]. intros x s1 C1. by apply Hf. Qed.
Lemma keeps_ret {X} (x : X) : keeps b (mret x).
Proof. by intros s C. Qed.
Lemma keeps_gets {X} (f : mpstate -> X) : keeps b (gets f).
Proof. by intros s C. Qed.
Lemma keeps_when c m : keeps b m -> keeps b (when c m).
Proof. intros H. destruct c; [done|apply keeps_ret]. Qed.
Lemma keeps_tk {X} (m : M tk_state X) :
  (forall t, counted b t -> safe m t (fun _ t' => counted b t') (fun _ => False)) -> keeps b (tk m).
Proof.
  intros H s [C V]. unfold tk. apply safe_zoom, safe_zoom. eapply safe_mono; [by apply H|]. intros x t C'. by split.
Qed.
Lemma keeps_same {X} (m : M tk_state X) : pres same_sched m -> keeps b (tk m).
Proof.
  intros H. apply keeps_tk. intros t C. apply (safe_pres same_sched); [done|]. intros a t' E. by eapply counted_same.
Qed.
Lemma keeps_v f : keeps b (mod_v f).
Proof. by intros s C. Qed.
Lemma keeps_w {X} (m : M W X) : pres same_view m -> keeps b (on_snd m).
Proof.
  intros H s [C V]. apply safe_zoom. apply (safe_pres same_view); [done|]. intros a w E. split; [done|].
  simpl. congruence.
Qed.
End Keeps.

Ltac keeps_tac :=
  repeat match goal with
  | |- forall _, _ => intro
  | |- keeps _ (_ ≫= _) => apply keeps_bind
  | |- keeps _ (mret _) => apply keeps_ret
  | |- keeps _ (gets _) => apply keeps_gets
  | |- keeps _ (when _ _) => apply keeps_when
  | |- keeps _ (mod_v _) => apply keeps_v
  | |- keeps _ (on_snd _) => apply keeps_w; pres_tac
  | |- keeps _ (tk _) => apply keeps_same; by mm_tac
  | |- keeps _ (if ?c then _ else _) => destruct c
  end.

Lemma keeps_mp_loop b n p : keeps b (mp_loop n p).
Proof.
  revert p. induction n as [|n IH]; intros p; cbn [mp_loop]; keeps_tac; try apply IH.
  apply keeps_tk. intros t. apply safe_mp_proc.
Qed.

Lemma keeps_mp_init b : keeps b mp_init.
Proof.
  unfold mp_init. apply keeps_bind.
  { apply keeps_tk. intros t [] . by split. }
  intros _. apply keeps_bind; [by keeps_tac|]. intros [ [conf mp]|]; [|keeps_tac].
  unfold conf_lapicaddr, conf_entry, get_cpu, mp_imcrp. keeps_tac.
  - apply keeps_mp_loop.
  - apply keeps_tk. intros t C. apply safe_upd_cpu. intros c Hc.
    eapply counted_upd; [done|done|exact (counted_unused _ _ _ _ C Hc)|]. intros Hi. by apply (ct_id b t C _ c).
  - apply keeps_tk. intros t [C1 C2 C3 C4 C5]. safe_step. split; [done|done|done| |done]. intros i c Hi. simpl in *.
    apply C4. lia.
Qed.
(** *** The first task of the boot processor *)

Lemma own_task_init K' : pres own_cpu (task_init K').
Proof.
  unfold task_init. own_tac; apply pres_modify; intros s; (split_and!; [done|done|done|]; intros c Hc; by exists c).
Qed.

Lemma safe_k_task_init b s c :
  counted b (k_tk s) -> 0 <= b < 256 -> av_cpu (k_w s) = b -> zget (cpus (k_tk s)) b = Some c ->
  safe (k_task_init K) s (fun _ s' => up b s' /\ 0 <= ncpu (k_tk s')) (fun _ => False).
Proof.
  intros C Hb V Hc. unfold k_task_init. do 2 safe_step. apply safe_zoom.
  eapply safe_mono; [apply (safe_both own_cpu); [|apply own_task_init]|].
  { apply (safe_task_init _ _ _ c); [apply C|]. by rewrite (ct_me b _ C). }
  intros u t ((Inv & _) & E1 & E2 & E3 & E4). rewrite (ct_me b _ C) in *. split; [split|]; simpl; try done.
  - rewrite E2. intros i ci Hi Hci. destruct (Z.eq_dec i b) as [->|Hne].
    + destruct (E4 c Hc) as (c' & Hc' & Hid). rewrite Hc' in Hci. injection Hci as <-. rewrite Hid.
      apply (ct_id b _ C b c); [lia|done].
    + rewrite E3 in Hci by done. apply (ct_id b _ C i ci); [lia|done].
  - intros i ci Hne Hci _. rewrite E3 in Hci by done. by eapply counted_unused.
  - rewrite E2. apply C.
Qed.
(** *** Leaving for user mode *)

(** Interrupts are on, and the address space is that of the current task. *)
Definition in_user (s : kern) : Prop :=
  eflags_if s = true /\ exists c p t,
    zget (cpus (k_tk s)) (cpunum (k_tk s)) = Some c /\ cpu_task c = Some p
    /\ zget (tasks (k_tk s)) p = Some t /\ c_cr3 (cfg (mm (k_tk s))) = u32 (pgdir t - KERNBASE).

Context (regs_now : PushRegs) (eflags_now : Z).

Lemma safe_enter_user s :
  safe (enter_user regs_now eflags_now) s (fun _ _ => False)
    (fun s' => same_sched (k_tk s) (k_tk s') /\ in_user s').
Proof.
  unfold enter_user. do 3 safe_step. apply safe_zoom, safe_thiscpu. intros c Hc.
  safe_step. apply safe_need. intros p Hp. safe_step. apply safe_zoom, safe_get_task. intros t Ht.
  safe_step. apply safe_zoom, safe_zoom. unfold PADDR. destruct (_ <? _); [done|]. safe_step.
  safe_step. apply safe_zoom, safe_zoom. unfold lcr3. safe_step. split; [done|]. split; [done|].
  by exists c, p, t.
Qed.

(** *** All of it *)

Lemma safe_on_k {X} (m : M kern X) s (Q : X -> bstate -> Prop) I :
  safe m (bk s) (fun x k => forall s', bk s' = k -> Q x s') (fun k => forall s', bk s' = k -> I s') ->
  safe (on_k m) s Q I.
Proof.
  intros H. apply safe_zoom. unfold safe in *. destruct (m (bk s)); [by apply H|by apply H|done].
Qed.

Lemma safe_on_k_same {X} (m : M kern X) s (Q : X -> bstate -> Prop) I :
  pres same_kern m -> (forall x s', same_kern (bk s) (bk s') -> Q x s') -> safe (on_k m) s Q I.
Proof.
  intros Hm HQ. apply safe_on_k, (safe_pres same_kern); [done|]. intros x k E s' <-. by apply HQ.
Qed.

(** After [mp_init]. *)
Definition kcounted (b : Z) (s : kern) : Prop := counted b (k_tk s) /\ av_cpu (k_w s) = b.

Lemma kcounted_same b s s' : same_kern s s' -> kcounted b s -> kcounted b s'.
Proof. intros [E [V _] ] [C A1]. split; [by eapply counted_same|]. by rewrite V. Qed.

Lemma safe_on_mp_init b s (Q : unit -> bstate -> Prop) I :
  kcounted b (bk s) -> (forall s', kcounted b (bk s') -> Q tt s') -> safe (on_mp mp_init) s Q I.
Proof.
  intros C HQ. apply safe_zoom.
  pose proof (keeps_mp_init b (k_tk (bk s), MPV (b_ismp s) (lapicaddr (k_lv (bk s))), k_w (bk s)) C) as H.
  unfold safe in *. destruct (mp_init _) as [ [] v|f v|e]; [|done|done]. by apply HQ.
Qed.

(** The tables and devices between the first task and the other processors. *)
Lemma up_step {X Y} b (m : M kern X) (f : X -> M bstate Y) s Q I :
  pres same_kern m -> up b (bk s) /\ 0 <= ncpu (k_tk (bk s)) ->
  (forall x s', up b (bk s') /\ 0 <= ncpu (k_tk (bk s')) -> safe (f x) s' Q I) -> safe (on_k m ≫= f) s Q I.
Proof.
  intros Hm [U N] HQ. safe_step. apply safe_on_k_same; [done|]. intros x s' E. apply HQ.
  split; [by eapply up_same|]. by destruct E as [ (_ & _ & _ & ->) _].
Qed.

Lemma kcounted_step {X Y} b (m : M kern X) (f : X -> M bstate Y) s Q I :
  pres same_kern m -> kcounted b (bk s) ->
  (forall x s', kcounted b (bk s') -> safe (f x) s' Q I) -> safe (on_k m ≫= f) s Q I.
Proof.
  intros Hm C HQ. safe_step. apply safe_on_k_same; [done|]. intros x s' E. apply HQ. by eapply kcounted_same.
Qed.

Lemma safe_kernel_main b s :
  kcounted b (bk s) -> 0 <= b < 8 ->
  safe (kernel_main K A L fuel regs_now eflags_now ap_regs) s (fun _ _ => False)
    (fun s' => sched_inv (k_tk (bk s')) /\ in_user (bk s')).
Proof.
  intros C Hb. unfold kernel_main, kernel_main_with.
  apply (kcounted_step b); [apply kpres_scr, pres_init_video|done|]. intros _ s1 C1.
  apply (kcounted_step b); [apply kpres_mm_w, pres_mem_init|done|]. intros _ s2 C2.
  safe_step. apply (safe_on_mp_init b); [done|]. intros s3 C3.
  apply (kcounted_step b); [apply kpres_lapic_init|done|]. intros _ s4 [C4 V4].
  destruct (zget_is_Some (cpus (k_tk (bk s4))) b) as [c Hc]; [rewrite (ct_len b _ C4); lia|].
  safe_step. apply safe_on_k. eapply safe_weaken; [apply (safe_k_task_init b _ c); [done|lia|done|done]|..]; [|done].
  intros _ k U5 s5 <-.
  apply (up_step b); [apply kpres_trap_init|done|]. intros _ s6 U6.
  apply (up_step b); [apply kpres_pic, pres_pic_init|done|]. intros _ s7 U7.
  apply (up_step b); [apply kpres_kbd_init|done|]. intros _ s8 U8.
  apply (up_step b); [apply kpres_timer_init|done|]. intros _ s9 U9.
  apply (up_step b); [apply kpres_syscall_init|done|]. intros _ s10 [U10 N10].
  safe_step. eapply safe_weaken; [by apply (safe_boot_aps b)|..]; [|done]. intros _ s11 [U11 _].
  apply safe_on_k. do 3 (eapply (safe_frame same_kern); [by k_tac|reflexivity|]; intros _ ? ?).
  eapply safe_weaken; [apply safe_enter_user|done|]. intros k [E In] s' <-. split; [|done].
  eapply inv_same; [exact E|]. repeat (eapply inv_same; [by match goal with H : same_kern _ ?x |- same_sched _ (k_tk ?x) => apply H end|]).
  apply U11.
Qed.

Lemma safe_power_on s :
  cpus (k_tk (bk s)) = replicate 8 cpu0 -> ncpu (k_tk (bk s)) = 0 ->
  0 <= cpunum (k_tk (bk s)) < 8 -> av_cpu (k_w (bk s)) = cpunum (k_tk (bk s)) ->
  safe (kernel_main K A L fuel regs_now eflags_now ap_regs) s (fun _ _ => False)
    (fun s' => sched_inv (k_tk (bk s')) /\ in_user (bk s')).
Proof.
  intros Hc Hn Hb Hv. apply (safe_kernel_main (cpunum (k_tk (bk s)))); [|done]. split; [|done].
  split; [|done|lia| |by rewrite Hc].
  - rewrite Hc. apply Forall_replicate. split_and!; [done|split; simpl; lia|done].
  - rewrite Hc, Hn. intros i c Hi Hci. assert (i = 0) as -> by lia. by injection Hci as <-.
Qed.

(** The way out: with a current task whose directory is a kernel address,
    [enter_user] leaves through [iret] at the task's instruction and stack pointer,
    with the user code and data selectors at privilege level 3, interrupts on and the
    task's address space loaded; tasks, queues and devices are as before. *)
Theorem enter_user_leaves s c p t :
  zget (cpus (k_tk s)) (cpunum (k_tk s)) = Some c -> cpu_task c = Some p ->
  zget (tasks (k_tk s)) p = Some t -> KERNBASE <= pgdir t ->
  exists f s', enter_user regs_now eflags_now s = Iret f s'
    /\ tf_cs f = 0x1B /\ tf_ss f = 0x23 /\ tf_eip f = tf_eip (tf t) /\ tf_esp f = tf_esp (tf t)
    /\ in_user s' /\ same_kern s s'.
Proof.
  intros Hc Hp Ht Hd. unfold enter_user.
  eexists _, _. split.
  - erewrite bind_ret by reflexivity.
    erewrite bind_ret by (unfold on_tk, zoom; by erewrite thiscpu_eq by exact Hc).
    erewrite bind_ret by (by rewrite Hp).
    erewrite bind_ret by (unfold on_tk, zoom; by erewrite get_task_eq by exact Ht).
    erewrite bind_ret by (unfold on_kmm, on_tk, on_mm, zoom, PADDR; by destruct (Z.ltb_spec (pgdir t) KERNBASE); [lia|]).
    erewrite bind_ret by reflexivity. reflexivity.
  - split; [done|]. split; [done|]. split; [done|]. split; [done|]. split; [|done].
    split; [done|]. by exists c, p, t.
Qed.
End Kernel.

(** ** Witnesses *)

(** A machine that only knows which processor looks at it. *)
Record bench := Bench { at_cpu : Z }.
#[global] Instance bench_ports : Ports bench := {| port_in p w := (0, w); port_out p v w := w |}.
#[global] Instance bench_apic : ApicRegs bench := {|
  apic_rd r w := (if r =? ID then Z.shiftl (at_cpu w) 24 else 0, w);
  apic_wr r v w := w
|}.
#[global] Instance bench_cpu : CpuView bench := {| view_cpu i w := Bench i |}.
#[global, program] Instance bench_view : ApicView bench := {| av_cpu w := at_cpu w mod 256 |}.
Next Obligation. intros i w Hi. by apply Z.mod_small. Qed.
Next Obligation. done. Qed.
Next Obligation. done. Qed.
Next Obligation. done. Qed.
Next Obligation. done. Qed.
Next Obligation.
  intros [c]. simpl. unfold u32. rewrite Z.shiftl_mul_pow2, Z.shiftr_div_pow2 by lia.
  change (2 ^ 24) with 16777216. Z.to_euclidean_division_equations. lia.
Qed.

Definition demo_ap_regs (i : Z) : cpu_regs := CpuRegs 0 0 (mkCtx i 0 ∅) None None false.

Lemma enter_user_leaves_witness :
  exists f s', enter_user regs0 0x202 (demo_kern (Bench 0)) = Iret f s' /\ tf_cs f = 0x1B /\ tf_ss f = 0x23.
Proof.
  destruct (enter_user_leaves regs0 0x202 (demo_kern (Bench 0)) demo_cpu 0 (demo_task 0 TASK_RUNNING))
    as (f & s' & H1 & H2 & H3 & _); [reflexivity|reflexivity|reflexivity|by vm_compute|].
  by exists f, s'.
Defined.
