(* ===== verification/TrapRun.v ===== *)
(** * From power-on through every trap

    The scheduler's invariant at the level of the whole kernel: the dispatcher of
    kernel/trap.c, with whatever vector and registers a trap arrives, on whatever
    processor, keeps it; so it holds in every state the machine can get into, by
    traps that are handled one after the other, after [kernel_main] (kernel/main.c)
    has left for user mode. *)

From S2P Require Import Prelude.
From S2P Require Import Machine.
From S2P Require Import Kmonad.
From S2P Require Import Spinlock.
From S2P Require Import PageAlloc.
From S2P Require Import Paging.
From S2P Require Import Bytes.
From S2P Require Import Ports.
From S2P Require Import Lapic.
From S2P Require Import Screen.
From S2P Require Import Kbd.
From S2P Require Import MemInit.
From Stdlib Require Import ZArith Lia.
From stdpp Require Import base gmap list strings.
From S2P Require Import Task.
From S2P Require Import TaskInv.
From S2P Require Import TaskInit.
From S2P Require Import MpConfig.
From S2P Require Import Trap.
From S2P Require Import TrapProofs.
From S2P Require Import Main.
From S2P Require Import StartFrame.
From S2P Require Import MainInv.

Local Open Scope Z_scope.

(** ** Device code *)

(** Code that returns or stops, whatever it does to its state. *)
Definition anyhow {S} (_ _ : S) : Prop := True.
#[global] Instance anyhow_preorder S : PreOrder (@anyhow S).
Proof. by split. Qed.

Lemma any_modify {S} (f : S -> S) : pres anyhow (modify f).
Proof. done. Qed.
Lemma any_put {S} (s : S) : pres anyhow (put s).
Proof. done. Qed.
Lemma any_zoom {S T X} (v : S -> T) u (m : M T X) : pres anyhow m -> pres anyhow (zoom v u m).
Proof. by apply pres_zoom. Qed.
Lemma any_returns {S} (f : cpu_ctx -> M S unit) c : returns f -> pres anyhow (f c).
Proof. intros H. apply H. Qed.

Section Devices.
Context {W : Type} `{!Ports W} `{!ApicRegs W}.

Lemma any_inb p : pres anyhow (inb (W := W) p).
Proof. intros w. unfold inb. by destruct (port_in p w). Qed.
Lemma any_outb p v : pres anyhow (outb (W := W) p v).
Proof. done. Qed.

Ltac any_tac :=
  repeat first [apply any_modify | apply any_inb | apply any_outb | apply any_put | apply any_zoom
               | apply any_returns; first [apply returns_lock | apply returns_unlock] | pres_step].

Lemma any_cls_loop n i c : pres anyhow (cls_loop (W := W) n i c).
Proof. revert i. induction n as [|n IH]; intros i; cbn [cls_loop]; unfold memset_cells, get_s, mod_s; any_tac. Qed.
Lemma any_sys_cls : pres anyhow (sys_cls (W := W)).
Proof. unfold sys_cls, move_csr, get_s, mod_s. any_tac. apply any_cls_loop. Qed.
Lemma any_settextcolor f b : pres anyhow (sys_settextcolor (W := W) f b).
Proof. apply any_modify. Qed.
Lemma any_k_putch ctx c : pres anyhow (k_putch (W := W) ctx c).
Proof.
  unfold k_putch, put_char, put_cell, scroll, memcpy_cells, memset_cells, move_csr, on_lock, get_s, mod_s. any_tac.
Qed.
Lemma any_k_getc : pres anyhow (k_getc (W := W)).
Proof. unfold k_getc, cons_getc, get_k, mod_k. any_tac. Qed.
Lemma any_kbd_press d : pres anyhow (kbd_press (W := W) d).
Proof. unfold kbd_press, get_k, mod_k. any_tac. Qed.
Lemma any_kbd_intr n : pres anyhow (kbd_intr (W := W) n).
Proof.
  unfold kbd_intr. induction n as [|n IH]; cbn [cons_intr]; [done|].
  unfold kbd_proc_data, cons_put, get_k, mod_k. any_tac; apply any_kbd_press.
Qed.
End Devices.

(** ** The kernel *)

Section Traps.
Context {W : Type} `{!Ports W} `{!ApicRegs W}.
Context (K : ksyms) (fuel : nat).
#[local] Abbreviation kern := (kern W).

(** Tasks and queues are left alone. *)
Definition calm (s s' : kern) : Prop := same_sched (k_tk s) (k_tk s').
#[local] Instance calm_preorder : PreOrder calm.
Proof. split; [intros s; unfold calm; reflexivity|]. intros ???. unfold calm. apply transitivity. Qed.

Lemma calm_tk {X} (m : M tk_state X) : pres same_sched m -> pres calm (on_tk m).
Proof. by apply pres_zoom. Qed.
Lemma calm_mm {X} (m : M mm_state X) : pres same_ctx m -> pres calm (on_kmm m).
Proof. intros H. by apply calm_tk, pres_on_mm. Qed.
Lemma calm_scr {X} (m : M (screen * W) X) : pres anyhow m -> pres calm (on_scr m).
Proof. by apply pres_zoom. Qed.
Lemma calm_kbd {X} (m : M (kbd * W) X) : pres anyhow m -> pres calm (on_kbd m).
Proof. by apply pres_zoom. Qed.
Lemma calm_modify f : (forall s, k_tk (f s) = k_tk s) -> pres calm (modify f).
Proof. intros H. apply pres_modify. intros s. unfold calm. rewrite H. reflexivity. Qed.

(** The memory of the kernel beside the local APIC. *)
Definition same_lmm (s s' : lstate W) : Prop := snd (fst s') = snd (fst s).
#[local] Instance same_lmm_preorder : PreOrder same_lmm.
Proof. split; [done|]. intros ???. unfold same_lmm. congruence. Qed.

Lemma calm_eoi : pres calm (on_lap lapic_eoi).
Proof.
  apply (pres_zoom _ _ _ _ same_lmm).
  - intros s v E. unfold same_lmm in E. simpl in E. unfold calm, same_sched, cpunum. simpl. by rewrite E.
  - unfold lapic_eoi, lapicw, lapicr, vars, hw. pres_tac; unfold on_snd; (apply (pres_zoom _ _ _ _ anyhow); [done|]); intros w;
      [done|]. by destruct (apic_rd _ w).
Qed.

Lemma calm_kprintk f a : pres calm (kprintk f a).
Proof. apply calm_mm, pres_printk. Qed.
Lemma calm_get_tf r : pres calm (get_tf r).
Proof. destruct r as [|p]; cbn [get_tf]; pres_tac. by apply calm_tk, pres_get_task. Qed.
Lemma calm_read_virt va : pres calm (read_virt va).
Proof. unfold read_virt. pres_tac. Qed.
#[local] Hint Resolve calm_kprintk calm_get_tf calm_read_virt calm_eoi : pres.

Lemma calm_print_trapframe r : pres calm (print_trapframe r).
Proof. unfold print_trapframe, print_regs. pres_tac. Qed.
Lemma calm_do_puts str len : pres calm (do_puts str len).
Proof.
  unfold do_puts. generalize (Z.to_nat (u32 len)). intros n. revert str.
  induction n as [|n IH]; intros str; cbn [do_puts_loop]; pres_tac. apply calm_scr, any_k_putch.
Qed.
#[local] Hint Resolve calm_print_trapframe calm_do_puts : pres.

(** ** Keeping the invariant *)

Definition sinv (s : kern) : Prop := sched_inv (k_tk s).

(** Code that keeps the invariant, whether it returns or resumes a task. *)
Definition keeps_inv {X} (m : M kern X) : Prop := forall s, sinv s -> safe m s (fun _ s' => sinv s') sinv.

Lemma ki_bind {X Y} (m : M kern X) (f : X -> M kern Y) : keeps_inv m -> (forall x, keeps_inv (f x)) -> keeps_inv (m ≫= f).
Proof. intros Hm Hf s Hs. safe_step. eapply safe_mono; [by apply Hm|]. intros x s' Hs'. by apply Hf. Qed.
Lemma ki_calm {X} (m : M kern X) : pres calm m -> keeps_inv m.
Proof. intros Hm s Hs. apply (safe_pres calm); [done|]. intros x s' E. by eapply inv_same. Qed.
Lemma ki_tk {X} (m : M tk_state X) :
  (forall t, sched_inv t -> safe m t (fun _ t' => sched_inv t') sched_inv) -> keeps_inv (on_tk m).
Proof. intros Hm s Hs. apply safe_zoom. by apply Hm. Qed.
Lemma ki_stop {X} e : keeps_inv (stop_with e : M kern X).
Proof. done. Qed.

Lemma ki_put_tf r f : keeps_inv (put_tf r f).
Proof.
  destruct r as [|p]; cbn [put_tf]; [by apply ki_calm, calm_modify|]. apply ki_tk. intros t Ht.
  by apply (safe_upd_task_inv _ _ None).
Qed.

Lemma ki_do_syscall n a1 a2 a3 a4 a5 : keeps_inv (do_syscall K n a1 a2 a3 a4 a5).
Proof.
  unfold do_syscall. repeat match goal with |- keeps_inv (if ?b then _ else _) => destruct b end.
  - apply ki_tk. intros t Ht. eapply safe_mono; [by apply safe_sys_fork|]. by intros a t' [? _].
  - apply ki_calm, calm_kbd, any_k_getc.
  - apply ki_calm. pres_tac.
  - apply ki_calm, calm_tk. mm_tac.
  - apply ki_calm, calm_tk. mm_tac.
  - apply ki_bind; [|intros; by apply ki_calm; pres_tac]. apply ki_tk. intros t Ht.
    eapply safe_mono; [by apply safe_sys_sleep|]. by intros a t' [? _].
  - apply ki_bind; [|intros; by apply ki_calm; pres_tac]. apply ki_tk. intros t Ht.
    eapply safe_mono; [by apply safe_kill_self|]. by intros a t' [? _].
  - apply ki_calm, calm_mm. unfold sys_get_num_free_page. pres_tac.
  - apply ki_calm, calm_mm. unfold sys_get_num_used_page. pres_tac.
  - apply ki_calm. unfold sys_get_ticks. pres_tac.
  - apply ki_calm. pres_tac. apply calm_scr, any_settextcolor.
  - apply ki_calm. pres_tac. apply calm_scr, any_sys_cls.
  - apply ki_calm. pres_tac.
Qed.

Lemma ki_call_handler h r : keeps_inv (call_handler K fuel h r).
Proof.
  destruct h; cbn [call_handler].
  - apply ki_calm. unfold page_fault_handler. pres_tac.
  - unfold timer_handler. apply ki_bind; [by apply ki_calm, calm_modify|intros _].
    apply ki_bind; [apply ki_calm, calm_eoi|intros _]. apply ki_tk. intros t Ht.
    eapply safe_mono; [by apply safe_timer_tasks|]. by intros a t' [? _].
  - apply ki_calm, calm_kbd, any_kbd_intr.
  - unfold syscall_handler. apply ki_bind; [apply ki_calm, calm_get_tf|intros f]. cbv zeta.
    apply ki_bind; [apply ki_do_syscall|intros v]. apply ki_bind; [apply ki_calm, calm_get_tf|intros f']. apply ki_put_tf.
Qed.

Lemma ki_env_pop r : keeps_inv (env_pop_tf r).
Proof. unfold env_pop_tf. apply ki_bind; [apply ki_calm, calm_get_tf|]. intros f s Hs. exact Hs. Qed.

Lemma ki_trap_dispatch r : keeps_inv (trap_dispatch K fuel r).
Proof.
  unfold trap_dispatch. apply ki_bind; [apply ki_calm, calm_get_tf|intros f]. destruct (_ =? _).
  { apply ki_calm. pres_tac. }
  apply ki_bind; [by apply ki_calm, calm_modify|intros _]. apply ki_bind; [apply ki_calm; pres_tac|intros hnds].
  apply ki_bind; [apply ki_calm; pres_tac|intros [h|] ]; [|apply ki_calm; pres_tac].
  apply ki_bind.
  { destruct (_ =? _); [|apply ki_calm; pres_tac]. apply ki_bind; [by apply ki_calm, calm_modify|intros _].
    apply ki_bind; [apply ki_calm, calm_tk, pres_cur|intros p]. apply ki_bind; [|intros _; apply ki_calm; pres_tac].
    apply (ki_put_tf (OfTask p) f). }
  intros r'. apply ki_bind; [apply ki_calm, calm_get_tf|intros f']. apply ki_bind; [apply ki_calm; pres_tac|intros hnds'].
  apply ki_bind; [apply ki_calm; pres_tac|intros h']. apply ki_bind; [apply ki_calm; pres_tac|intros h''].
  apply ki_bind; [apply ki_call_handler|intros _; apply ki_env_pop].
Qed.

Lemma ki_default_trap_handler r : keeps_inv (default_trap_handler K fuel r).
Proof. unfold default_trap_handler. apply ki_bind; [by apply ki_calm, calm_modify|intros _; apply ki_trap_dispatch]. Qed.

(** ** Runs *)

(** A trap arrives on processor [i]: the entry code has put frame [f] on the stack,
    the processor has loaded the faulting address and cleared the interrupt flag. *)
Definition trapped_on (i : Z) (f : Trapframe) (fault_va : Z) (s : kern) : kern :=
  Kern (with_cpu i (k_tk s)) (k_scr s) (k_kbd s) (k_pic s) (k_lv s) (idt s) (trap_hnd s) (idtr s) (jiffies s) f (last_tf s)
    fault_va false (k_w s).

(** Between two traps user code and devices change what they can reach, which are
    neither the tasks nor the processors' records; a trap runs to its end. *)
Inductive kstep (s : kern) : kern -> Prop :=
| ks_user s' : tasks (k_tk s') = tasks (k_tk s) -> cpus (k_tk s') = cpus (k_tk s) -> kstep s s'
| ks_trap_ret i f va s' : default_trap_handler K fuel OnStack (trapped_on i f va s) = Ret tt s' -> kstep s s'
| ks_trap_iret i f va g s' : default_trap_handler K fuel OnStack (trapped_on i f va s) = Iret g s' -> kstep s s'.

Lemma kstep_inv s s' : sinv s -> kstep s s' -> sinv s'.
Proof.
  intros Hs [s1 Et Ec|i f va s1 E|i f va g s1 E]; [by eapply inv_ext|..];
    pose proof (ki_default_trap_handler OnStack (trapped_on i f va s) (with_cpu_inv None i _ Hs)) as H;
    unfold safe in H; by rewrite E in H.
Qed.

Lemma kruns_inv s s' : sinv s -> star kstep s s' -> sinv s'.
Proof. apply (star_invariant kstep sinv). intros a b Ha Hab. by eapply kstep_inv. Qed.
End Traps.

(** ** Properties *)

Section PowerOn.
Context {W : Type} `{!Ports W} `{!ApicRegs W} `{!CpuView W} `{!ApicView W}.
Context (K : ksyms) (A : isrs) (L : links) (fuel : nat).
Context (ap_regs : Z -> cpu_regs) (Hap : forall i, ctx_cpu (r_ctx (ap_regs i)) = i).
Context (regs_now : PushRegs) (eflags_now : Z).

(** C2: The scheduler's invariant from power-on: [kernel_main], started on a machine
    whose processor records are zero, does not return; and once it has left for user
    mode, let traps arrive on any processors, one after the other, each handled to
    its end before the next begins ([kstep]; traps in several processors at once,
    which the comment above mp_main allows, are not covered), with any vector, any
    registers and any system call and arguments, and let user code and devices
    change in between anything but the tasks and the processors' records.  As
    long as no handler stops the machine, the run queues hold every existing task
    exactly once and nothing else, within their bounds, and each processor's
    current task is in its own queue. *)
Theorem kernel_inv_from_power_on (s : bstate (W := W)) :
  cpus (k_tk (bk s)) = replicate 8 cpu0 -> ncpu (k_tk (bk s)) = 0 ->
  0 <= cpunum (k_tk (bk s)) < 8 -> av_cpu (k_w (bk s)) = cpunum (k_tk (bk s)) ->
  safe (kernel_main K A L fuel regs_now eflags_now ap_regs) s (fun _ _ => False)
    (fun s1 => forall s2, star (kstep K fuel) (bk s1) s2 -> sched_inv (k_tk s2)).
Proof.
  intros Hc Hn Hb Hv. eapply safe_weaken; [by apply (safe_power_on K A L fuel ap_regs Hap regs_now eflags_now s)|done|].
  intros s1 [Hs _] s2 HS. by eapply (kruns_inv K fuel (bk s1)).
Qed.
End PowerOn.
