(* ===== verification/KernelRun.v ===== *)
(** * Traps of the running kernel

    Traps that arrive from user mode (a timer tick, a key, a system call: see
    [trap_ok]), one after the other, through the dispatcher of kernel/trap.c down
    to the code of tasks, memory and devices: the handler leaves for user mode
    again, with everything in order. *)

From S2P Require Import Prelude.
From S2P Require Import Machine.
From S2P Require Import Kmonad.
From S2P Require Import Spinlock.
From S2P Require Import PageAlloc.
From S2P Require Import Paging.
From S2P Require Import Kvm.
From S2P Require Import Space.
From S2P Require Import Bytes.
From S2P Require Import Ports.
From S2P Require Import Lapic.
From S2P Require Import Screen.
From S2P Require Import Kbd.
From Stdlib Require Import ZArith Lia.
From stdpp Require Import base gmap list strings.
From S2P Require Import Task.
From S2P Require Import TaskInv.
From S2P Require Import TaskInit.
From S2P Require Import TaskSpace.
From S2P Require Import TaskFork.
From S2P Require Import Trap.
From S2P Require Import TrapProofs.
From S2P Require Import System.
From S2P Require Import UserMode.
From S2P Require Import TrapRun.

Local Open Scope Z_scope.

(** Code in the middle of which the kernel may already leave for user mode. *)
Lemma finishes_then {S A B} (m : M S A) (f : A -> M S B) s (J : S -> Prop) :
  finishes m s J -> (forall a s', J s' -> finishes (f a) s' J) -> finishes (m ≫= f) s J.
Proof. unfold finishes, mbind, M_bind. intros Hm Hf. destruct (m s) as [a s'|g s'|e]; [by apply Hf|done..]. Qed.

Lemma finishes_zoom {S T A} (v : S -> T) u (m : M T A) s (J : S -> Prop) :
  finishes m (v s) (fun t => J (u t s)) -> finishes (zoom v u m) s J.
Proof. unfold finishes, zoom. by destruct (m (v s)). Qed.

Lemma wp_finishes {S A} (m : M S A) s (J : S -> Prop) : wp m s (fun _ s' => J s') -> finishes m s J.
Proof. unfold wp, finishes. by destruct (m s). Qed.

Section Traps.
Context {W : Type} `{!Ports W} `{!ApicRegs W} `{!KbdLaws W}.
Context (K : ksyms) (HK : linked K) (fuel : nat).
#[local] Abbreviation kern := (kern W).

(** The kernel between two traps. *)
Record kernel_ok (s : kern) (ms : list tmem) (l : list Z) : Prop := {
  ko_machine : machine_ok K (k_tk s) ms l;
  ko_screen : screen_wf (k_scr s);
  ko_kbd : exists q, ring (k_kbd s) q;
  ko_handlers : forall i, 0 <= i < 256 -> zget (trap_hnd s) i = Some (handler_of i)
}.

(** In order, with the given pages in use or free, and the given program. *)
Definition pages_sizes : Type := list Z * (Z * Z * Z * Z).
Definition good (P : pages_sizes) (s : kern) : Prop :=
  exists ms l, kernel_ok s ms l /\ pool (mm (k_tk s)) ms l ≡ₚ P.1 /\ user_sizes (k_tk s) = P.2.

Lemma good_other P (s s' : kern) :
  good P s -> k_tk s' = k_tk s -> trap_hnd s' = trap_hnd s -> screen_wf (k_scr s') -> (exists q, ring (k_kbd s') q) -> good P s'.
Proof.
  intros (ms & l & [H1 H2 H3 H4] & HP) E1 E2 Hs Hk. exists ms, l. rewrite E1. split; [|exact HP]. split; [by rewrite E1|done|done|].
  by rewrite E2.
Qed.

Lemma good_screen P s : good P s -> screen_wf (k_scr s).
Proof. by intros (ms & l & [] & _). Qed.
Lemma good_kbd P s : good P s -> exists q, ring (k_kbd s) q.
Proof. by intros (ms & l & [] & _). Qed.
Lemma good_sched P s : good P s -> sched_inv (k_tk s).
Proof. intros (ms & l & [ [] ] & _). done. Qed.

(** Code on tasks that keeps the machine in order. *)
Lemma good_tk {X} P (m : M tk_state X) s :
  good P s ->
  (forall ms l, machine_ok K (k_tk s) ms l ->
     finishes m (k_tk s) (fun t => exists ms' l', machine_ok K t ms' l' /\ pool (mm t) ms' l' ≡ₚ pool (mm (k_tk s)) ms l
       /\ user_sizes t = user_sizes (k_tk s))) ->
  finishes (on_tk m) s (good P).
Proof.
  intros (ms & l & [H1 H2 H3 H4] & HP & Hz) Hm. apply finishes_zoom. eapply finishes_mono; [by apply (Hm ms l)|].
  intros t (ms' & l' & Hok & HP' & Hz'). exists ms', l'. split; [by split|]. cbn [k_tk set_tk]. by rewrite HP', Hz'.
Qed.

(** Frames of tasks. *)
Lemma good_get_tf P s p : good P s -> 0 <= p < 32 -> exists f, get_tf (OfTask p) s = Ret f s.
Proof.
  intros Hg Hp. pose proof (good_sched _ _ Hg) as SI. destruct (zget_is_Some (tasks (k_tk s)) p) as [t Ht]; [rewrite (si_tasks _ _ SI); lia|].
  exists (tf t). cbn [get_tf]. unfold on_tk, zoom, mbind, M_bind. rewrite (get_task_eq _ _ _ Ht). destruct s. reflexivity.
Qed.

Lemma good_put_tf P s p f : good P s -> 0 <= p < 32 -> wp (put_tf (OfTask p) f) s (fun _ s' => good P s').
Proof.
  intros (ms & l & [H1 H2 H3 H4] & HP & Hz) Hp. pose proof H1 as [SI I U Hn Hr].
  destruct (zget_is_Some (tasks (k_tk s)) p) as [t Ht]; [rewrite (si_tasks _ _ SI); lia|].
  cbn [put_tf]. apply wp_zoom. eapply wp_eq; [by apply (upd_task_eq _ _ t)|]. set (ts := <[_ := _]> _).
  assert (kept (k_tk s) ts) as Hk by (by eapply kept_upd; [apply kept_refl| | |]).
  destruct (machine_ok_next K (k_tk s) ms l (set_tasks ts (k_tk s)) H1) as (ms' & l' & Hok & HP').
  - apply conserves_same; [exact I|exact U|done|done|]. by apply (kept_views _ (set_tasks ts (k_tk s))).
  - by apply kept_inv.
  - exists ms', l'. split; [by split|]. cbn [k_tk set_tk]. by rewrite HP'.
Qed.

(** ** System calls *)

Lemma good_event P e s c :
  good P s -> zget (cpus (k_tk s)) (Task.cpunum (k_tk s)) = Some c -> allowed e (k_tk s) ->
  finishes (on_tk (run_event K e)) s (good P).
Proof.
  intros Hg Hc Ha. apply good_tk; [exact Hg|]. intros ms l Hok.
  eapply finishes_mono; [eapply finishes_safe; [by apply (event_conserves K e _ ms l c)|apply (safe_event K e), Hok|auto]|].
  intros t [Hcs SI]. destruct (machine_ok_next K _ ms l t Hok Hcs SI) as (ms' & l' & Hok' & HP). exists ms', l'.
  split; [exact Hok'|]. split; [exact HP|]. by destruct Hcs as (? & ? & _ & _ & _ & (_ & ? & _) & _).
Qed.

(** The string that SYS_puts is given can be read. *)
Definition readable (s : mm_state) (va : Z) : Prop :=
  exists e, vm_lookup (ram s) (c_cr3 (cfg s) / 4096) (u32 va) = Some e /\ PGNUM (PTE_ADDR e + PGOFF (u32 va)) < npages s.

Lemma wp_read_virt (s : kern) va Q :
  readable (mm (k_tk s)) va -> (forall v, Q v s) -> wp (read_virt va) s Q.
Proof.
  intros (e & He & Hp) HQ. unfold read_virt. wp_steps. cbv zeta. rewrite He.
  destruct (Z.ltb_spec (PGNUM (PTE_ADDR e + PGOFF (u32 va))) (npages (mm (k_tk s)))); [|lia]. wp_step. apply HQ.
Qed.

Lemma good_puts P n str s :
  good P s -> (forall k, 0 <= k < Z.of_nat n -> readable (mm (k_tk s)) (str + k)) ->
  wp (do_puts_loop n str) s (fun _ s' => good P s' /\ k_tk s' = k_tk s).
Proof.
  revert str s. induction n as [|n IH]; intros str s Hg Hr; cbn [do_puts_loop]; [by wp_step|].
  wp_step. apply wp_read_virt; [replace str with (str + 0) by lia; apply Hr; lia|]. intros c. wp_steps.
  apply wp_zoom. eapply wp_mono; [apply (wp_k_putch _ (k_scr s) (k_w s)), (good_screen _ _ Hg)|]. intros u [sc w] (Hs & _).
  apply (IH (str + 1) (set_scr_w (sc, w) s)).
  - eapply good_other; [exact Hg|done|done|exact Hs|]. exact (good_kbd _ _ Hg).
  - intros k Hk. replace (str + 1 + k) with (str + (k + 1)) by lia. apply (Hr (k + 1)). lia.
Qed.

Lemma good_getc P s q :
  good P s -> ring (k_kbd s) q -> wp do_getc s (fun v s' => v = fst (q_get q) /\ good P s' /\ k_tk s' = k_tk s).
Proof.
  intros Hg R. apply wp_zoom. eapply wp_mono; [by apply (wp_cons_getc (k_kbd s) (k_w s) q)|].
  intros c [kb w] (-> & R' & _). split; [done|]. split; [|done]. eapply good_other; [exact Hg|done|done|exact (good_screen _ _ Hg)|by eexists].
Qed.

Lemma good_cls P s : good P s -> wp (on_scr sys_cls) s (fun _ s' => good P s' /\ k_tk s' = k_tk s).
Proof.
  intros Hg. apply wp_zoom. eapply wp_mono; [apply (sys_cls_ok (k_scr s) (k_w s)), (good_screen _ _ Hg)|]. intros u [sc w] Hs.
  split; [|done]. eapply good_other; [exact Hg|done|done|exact Hs|exact (good_kbd _ _ Hg)].
Qed.

Lemma good_colour P a b s : good P s -> wp (on_scr (sys_settextcolor a b)) s (fun _ s' => good P s' /\ k_tk s' = k_tk s).
Proof.
  intros Hg. apply wp_zoom. unfold sys_settextcolor, mod_s. wp_step.
  split; [|done]. eapply good_other; [exact Hg|done|done| |exact (good_kbd _ _ Hg)]. destruct (good_screen _ _ Hg). by split.
Qed.

(** What a system call needs: memory for a fork (unless all task structures are in
    use), a readable string for SYS_puts. *)
Definition call_ok (g : PushRegs) (s : tk_state) : Prop :=
  (reg_eax g = SYS_fork -> 80 <= num_free_pages (mm s) \/ forall q t, zget (tasks s) q = Some t -> state t <> TASK_FREE)
  /\ (reg_eax g = SYS_puts -> forall k, 0 <= k < u32 (reg_ecx g) -> readable (mm s) (reg_edx g + k)).

Lemma finishes_inner {S A} (m : M S A) s (I : S -> Prop) : finishes (m ;; mret tt) s I -> finishes m s I.
Proof. unfold finishes, mbind, M_bind. by destruct (m s). Qed.

Lemma good_same {X} P (m : M tk_state X) s v : good P s -> m (k_tk s) = Ret v (k_tk s) -> finishes (on_tk m) s (good P).
Proof.
  intros Hg E. apply finishes_zoom. unfold finishes. rewrite E. destruct Hg as (ms & l & [H1 H2 H3 H4] & HP). exists ms, l. by split.
Qed.

Lemma good_ret {X} P (x : X) s : good P s -> finishes (mret x) s (good P).
Proof. done. Qed.

Lemma good_mm {X} P (m : M mm_state X) s v : good P s -> m (mm (k_tk s)) = Ret v (mm (k_tk s)) -> finishes (on_kmm m) s (good P).
Proof.
  intros Hg E. eapply good_same; [exact Hg|]. unfold on_mm, zoom. rewrite E. by destruct (k_tk s).
Qed.

Lemma good_syscall P g s :
  good P s -> busy (k_tk s) -> call_ok g (k_tk s) ->
  finishes (do_syscall K (reg_eax g) (reg_edx g) (reg_ecx g) (reg_ebx g) (reg_edi g) (reg_esi g)) s (good P).
Proof.
  intros Hg Hb [Hfork Hputs]. pose proof Hb as (c & p & Hc & Hp).
  destruct (live_current _ _ _ _ (good_sched _ _ Hg) Hc Hp) as (_ & t & Ht & _).
  unfold do_syscall. repeat match goal with |- finishes (if ?b then _ else _) _ _ => destruct b eqn:? end; breflect.
  - pose proof (good_event P EvFork s c Hg Hc (conj Hb (Hfork ltac:(done)))) as H.
    apply finishes_zoom. apply finishes_inner. unfold on_tk, zoom, finishes in H. unfold finishes. cbn [run_event] in H.
    by destruct ((sys_fork K ;; mret tt) (k_tk s)).
  - destruct (good_kbd _ _ Hg) as (q & R). apply wp_finishes. eapply wp_mono; [by apply (good_getc P s q)|]. by intros v s' (_ & ? & _).
  - apply finishes_then; [|intros; by apply good_ret]. apply wp_finishes. eapply wp_mono; [apply good_puts; [exact Hg|]|by intros u s' [? _] ].
    intros k Hk. apply Hputs; [done|]. pose proof (u32_range (reg_ecx g)). lia.
  - eapply good_same; [exact Hg|]. rewrite (bind_ret _ _ _ _ _ (cur_eq _ c Hc p Hp)). by rewrite (bind_ret _ _ _ _ _ (get_task_eq _ _ _ Ht)).
  - eapply good_same; [exact Hg|]. by rewrite (bind_ret _ _ _ _ _ (thiscpu_eq _ _ Hc)).
  - apply finishes_then; [|intros; by apply good_ret]. by apply (good_event P (EvSleep (reg_edx g)) s c).
  - apply finishes_then; [|intros; by apply good_ret]. by apply (good_event P EvKill s c).
  - by eapply good_mm.
  - by eapply good_mm.
  - exact Hg.
  - apply finishes_then; [|intros; by apply good_ret]. apply wp_finishes. eapply wp_mono; [by apply good_colour|by intros u s' [? _] ].
  - apply finishes_then; [|intros; by apply good_ret]. apply wp_finishes. eapply wp_mono; [by apply good_cls|by intros u s' [? _] ].
  - exact Hg.
Qed.

(** ** Handlers *)

Lemma good_eoi P s : good P s -> wp (on_lap lapic_eoi) s (fun _ s' => good P s' /\ k_tk s' = k_tk s).
Proof.
  intros Hg. assert (exists w, on_lap lapic_eoi s = Ret tt (set_lap (k_lv s, mm (k_tk s), w) s)) as (w & E).
  { unfold on_lap, lapic_eoi, lapicw, lapicr, vars, hw, on_snd, zoom, gets, mbind, M_bind. cbn [fst snd].
    destruct (lapic (k_lv s) =? 0) eqn:E0; simpl; [by eexists|]. rewrite E0. simpl. rewrite E0. simpl.
    match goal with |- context [apic_rd ?i ?w] => destruct (apic_rd i w) as [x w1] end. by eexists. }
  eapply wp_eq; [exact E|]. assert (k_tk (set_lap (k_lv s, mm (k_tk s), w) s) = k_tk s) as Et by (cbn; by destruct (k_tk s)).
  split; [|exact Et]. eapply good_other; [exact Hg|exact Et|done|exact (good_screen _ _ Hg)|exact (good_kbd _ _ Hg)].
Qed.

(** A trap from user mode that the kernel handles. *)
Definition trap_ok (f : Trapframe) (s : kern) : Prop :=
  Z.land (tf_cs f) 3 = 3 /\ busy (k_tk s) /\
  (tf_trapno f = IRQ_OFFSET + IRQ_TIMER
   \/ (tf_trapno f = IRQ_OFFSET + IRQ_KBD /\ (kb_pending (k_w s) < fuel)%nat)
   \/ (tf_trapno f = T_SYSCALL /\ call_ok (tf_regs f) (k_tk s))).

Lemma good_timer P r s : good P s -> busy (k_tk s) -> finishes (timer_handler r) s (good P).
Proof.
  intros Hg (c & p & Hc & Hp). unfold timer_handler. eapply finishes_step; [done|]. set (s1 := set_jiffies _ s).
  assert (good P s1) as Hg1 by (eapply good_other; [exact Hg|done|done|exact (good_screen _ _ Hg)|exact (good_kbd _ _ Hg)]).
  eapply finishes_bind; [by apply (good_eoi P s1)|]. intros u s2 [Hg2 E]. apply (good_event P EvTick s2 c Hg2); [|done]. by rewrite E.
Qed.

Lemma good_kbd_handler P r s : good P s -> (kb_pending (k_w s) < fuel)%nat -> finishes (kbd_handler fuel r) s (good P).
Proof.
  intros Hg Hf. destruct (good_kbd _ _ Hg) as (q & R). apply wp_finishes, wp_zoom. unfold kbd_intr.
  eapply wp_mono; [by apply (wp_cons_intr fuel (k_kbd s) (k_w s) q)|]. intros u [kb w] H.
  eapply good_other; [exact Hg|done|done|exact (good_screen _ _ Hg)|]. destruct H as [H|(c & _ & H)]; by eexists.
Qed.

Lemma good_syscall_handler P p s t :
  good P s -> busy (k_tk s) -> 0 <= p < 32 -> zget (tasks (k_tk s)) p = Some t -> call_ok (tf_regs (tf t)) (k_tk s) ->
  finishes (syscall_handler K (OfTask p)) s (good P).
Proof.
  intros Hg Hb Hp Ht Hok. unfold syscall_handler. eapply (finishes_step _ _ s (tf t) s).
  { cbn [get_tf]. unfold on_tk, zoom, mbind, M_bind. rewrite (get_task_eq _ _ _ Ht). destruct s. reflexivity. }
  cbv zeta. apply finishes_then; [by apply good_syscall|]. intros v s1 Hg1.
  destruct (good_get_tf P s1 p Hg1 Hp) as (f & E). eapply finishes_step; [exact E|]. by apply wp_finishes, good_put_tf.
Qed.

Lemma good_call_handler P f s p t h :
  good P s -> trap_ok f s -> handler_of (tf_trapno f) = Some h -> 0 <= p < 32 -> zget (tasks (k_tk s)) p = Some t -> tf t = f ->
  finishes (call_handler K fuel h (OfTask p)) s (good P).
Proof.
  intros Hg (_ & Hb & Hv) Hh Hp Ht Ef. destruct Hv as [E|[ [E Hf]|[E Hok] ] ]; rewrite E in Hh; injection Hh as <-; cbn [call_handler].
  - by apply good_timer.
  - by apply good_kbd_handler.
  - eapply good_syscall_handler; [done..|]. by rewrite Ef.
Qed.

(** ** Leaving for user mode *)

Definition leaves {S A} (m : M S A) (s : S) (I : S -> Prop) : Prop :=
  match m s with Iret _ s' => I s' | _ => False end.

Lemma leaves_step {S A B} (m : M S A) (f : A -> M S B) s a s' I : m s = Ret a s' -> leaves (f a) s' I -> leaves (m ≫= f) s I.
Proof. intros E Hf. unfold leaves. by rewrite (bind_ret _ _ _ _ _ E). Qed.

Lemma leaves_then {S A B} (m : M S A) (f : A -> M S B) s (J : S -> Prop) :
  finishes m s J -> (forall a s', J s' -> leaves (f a) s' J) -> leaves (m ≫= f) s J.
Proof. unfold finishes, leaves, mbind, M_bind. intros Hm Hf. destruct (m s) as [a s'|g s'|e]; [by apply Hf|done..]. Qed.

Lemma trap_ok_vector f s : trap_ok f s ->
  0 <= tf_trapno f < 256 /\ (tf_trapno f =? IRQ_OFFSET + IRQ_SPURIOUS) = false /\ exists h, handler_of (tf_trapno f) = Some h.
Proof. intros (_ & _ & [->|[ [-> _]|[-> _] ] ]); (split; [by vm_compute|]; split; [done|]; by eexists). Qed.

(** The state in which the handler of a trap from user mode is called: the frame has
    been copied into the current task. *)
Definition entered (f : Trapframe) (p : Z) (ts : list Task) (s : kern) : kern :=
  set_tk (set_tasks ts (k_tk s)) (set_if false (set_last_tf OnStack s)).

Lemma good_entered P f s p t :
  good P s -> zget (tasks (k_tk s)) p = Some t -> good P (entered f p (<[Z.to_nat p := t_set_tf f t]> (tasks (k_tk s))) s).
Proof.
  intros Hg Ht. pose proof (si_tasks _ _ (good_sched _ _ Hg)) as Hl. apply zget_Some_range in Ht as Hr. rewrite Hl in Hr.
  assert (good P (set_if false (set_last_tf OnStack s))) as Hg1
    by (eapply good_other; [exact Hg|done|done|exact (good_screen _ _ Hg)|exact (good_kbd _ _ Hg)]).
  destruct (wp_inv _ _ _ (good_put_tf P _ p f Hg1 Hr)) as (u & s' & E & Hg').
  cbn [put_tf] in E. unfold on_tk, zoom in E. change (k_tk (set_if false (set_last_tf OnStack s))) with (k_tk s) in E.
  rewrite (upd_task_eq _ p t) in E by exact Ht. injection E as _ <-. exact Hg'.
Qed.

Lemma trap_ok_entered f s p t :
  zget (tasks (k_tk s)) p = Some t -> trap_ok f s -> trap_ok f (entered f p (<[Z.to_nat p := t_set_tf f t]> (tasks (k_tk s))) s).
Proof.
  intros Ht (H1 & H2 & H3). split; [exact H1|]. split; [exact H2|]. destruct H3 as [H3|[H3|[E [Hfork Hputs] ] ] ]; [by left|by right; left|].
  right; right. split; [exact E|]. split; [|exact Hputs]. intros Ee. destruct (Hfork Ee) as [Hl|Hall]; [by left|right].
  intros q u Hu. cbn [k_tk entered set_tk tasks set_tasks] in Hu. destruct (decide (p = q)) as [<-|Hne].
  - rewrite (zget_insert_eq _ _ _ _ Ht) in Hu. injection Hu as <-. by apply (Hall p t).
  - apply zget_Some_range in Ht. rewrite zget_insert_ne in Hu by (lia || done). by eapply Hall.
Qed.

Lemma dispatch_leaves P f s :
  good P s -> stack_tf s = f -> trap_ok f s -> leaves (default_trap_handler K fuel OnStack) s (good P).
Proof.
  intros Hg Ef Hok. destruct (trap_ok_vector f s Hok) as (Hv & Hsp & h & Hh). pose proof Hok as (Hcs & (c & p & Hc & Hp) & _).
  destruct (live_current _ _ _ _ (good_sched _ _ Hg) Hc Hp) as (_ & t & Ht & _).
  assert (0 <= p < 32) as Hr by (apply zget_Some_range in Ht; by rewrite (si_tasks _ _ (good_sched _ _ Hg)) in Ht).
  assert (zget (trap_hnd s) (tf_trapno f) = Some (Some h)) as Hz by (destruct Hg as (ms & l & [_ _ _ H] & _); by rewrite (H _ Hv), Hh).
  set (ts := <[Z.to_nat p := t_set_tf f t]> (tasks (k_tk s))). pose proof (good_entered P f s p t Hg Ht) as Hg'. fold ts in Hg'.
  assert (zget ts p = Some (t_set_tf f t)) as Ht' by (by eapply zget_insert_eq).
  unfold default_trap_handler, trap_dispatch. eapply leaves_step; [done|]. eapply leaves_step; [done|].
  cbn [stack_tf set_last_tf]. rewrite Ef, Hsp. eapply leaves_step; [done|]. eapply leaves_step; [done|].
  cbn [trap_hnd set_last_tf]. rewrite Hz. eapply leaves_step; [done|]. rewrite Hcs. cbn [Z.eqb Pos.eqb].
  eapply (leaves_step _ _ _ (OfTask p) (entered f p ts s)).
  { unfold on_tk, zoom, mbind, M_bind, modify. cbn [k_tk set_if set_last_tf]. rewrite (cur_eq _ c Hc p Hp). cbn [k_tk set_tk].
    rewrite (upd_task_eq _ p t) by exact Ht. done. }
  eapply (leaves_step _ _ _ f).
  { cbn [get_tf]. unfold on_tk, zoom, mbind, M_bind. rewrite (get_task_eq _ p (t_set_tf f t)) by exact Ht'. done. }
  eapply leaves_step; [done|]. cbn [trap_hnd entered set_tk set_if set_last_tf]. rewrite Hz. eapply leaves_step; [done|].
  eapply leaves_step; [done|]. apply leaves_then.
  - eapply good_call_handler; [exact Hg'| |exact Hh|exact Hr|exact Ht'|done]. exact (trap_ok_entered f s p t Ht Hok).
  - intros u s1 Hg1. destruct (good_get_tf P s1 p Hg1 Hr) as (g & E). unfold env_pop_tf. by eapply leaves_step.
Qed.

(** ** Results of system calls *)

(** What a system call returns, when it comes back to its caller at once: [p] is
    the task that calls, [c] its processor, [q] the characters typed and not yet
    read.  Fork, sleep and kill have no such result. *)
Definition syscall_value (s : kern) (c : CpuInfo) (p : Z) (q : list Z) (n : Z) : option Z :=
  if (n =? SYS_fork) || (n =? SYS_sleep) || (n =? SYS_kill) then None
  else if n =? SYS_getc then Some (match q with [] => 0 | ch :: _ => ch end)
  else if (n =? SYS_puts) || (n =? SYS_settextcolor) || (n =? SYS_cls) then Some 0
  else if n =? SYS_getpid then Some p
  else if n =? SYS_getcid then Some (cpu_id c)
  else if n =? SYS_get_num_free_page then Some (s32 (num_free_pages (mm (k_tk s))))
  else if n =? SYS_get_num_used_page then Some (s32 (u32 (npages (mm (k_tk s)) - num_free_pages (mm (k_tk s)))))
  else if n =? SYS_get_ticks then Some (s32 (jiffies s))
  else Some (-1).

Lemma syscall_returns P g s c p q v :
  good P s -> zget (cpus (k_tk s)) (Task.cpunum (k_tk s)) = Some c -> cpu_task c = Some p -> ring (k_kbd s) q ->
  call_ok g (k_tk s) -> syscall_value s c p q (reg_eax g) = Some v ->
  wp (do_syscall K (reg_eax g) (reg_edx g) (reg_ecx g) (reg_ebx g) (reg_edi g) (reg_esi g)) s
    (fun r s' => r = v /\ k_tk s' = k_tk s).
Proof.
  intros Hg Hc Hp R [_ Hputs] Hv. destruct (live_current _ _ _ _ (good_sched _ _ Hg) Hc Hp) as (_ & t & Ht & _ & Hid).
  unfold syscall_value in Hv. unfold do_syscall.
  destruct (reg_eax g =? SYS_fork) eqn:E1; [done|]. destruct (reg_eax g =? SYS_getc) eqn:E2.
  { apply Z.eqb_eq in E2. rewrite E2 in Hv. injection Hv as <-. eapply wp_mono; [by apply (good_getc P s q)|].
    intros r s' (-> & _ & E). split; [by destruct q|exact E]. }
  destruct (reg_eax g =? SYS_puts) eqn:E3.
  { apply Z.eqb_eq in E3. rewrite E3 in Hv. injection Hv as <-. wp_step. eapply wp_mono; [apply (good_puts P); [exact Hg|]|].
    - intros k Hk. apply Hputs; [done|]. pose proof (u32_range (reg_ecx g)). lia.
    - intros u s' [_ E]. by wp_step. }
  destruct (reg_eax g =? SYS_getpid) eqn:E4.
  { apply Z.eqb_eq in E4. rewrite E4 in Hv. injection Hv as <-. apply wp_zoom. apply (wp_eq _ _ (task_id t) (k_tk s)); [|done].
    rewrite (bind_ret _ _ _ _ _ (cur_eq _ c Hc p Hp)). by rewrite (bind_ret _ _ _ _ _ (get_task_eq _ _ _ Ht)). }
  destruct (reg_eax g =? SYS_getcid) eqn:E5.
  { apply Z.eqb_eq in E5. rewrite E5 in Hv. injection Hv as <-. apply wp_zoom. apply (wp_eq _ _ (cpu_id c) (k_tk s)); [|done].
    by rewrite (bind_ret _ _ _ _ _ (thiscpu_eq _ _ Hc)). }
  destruct (reg_eax g =? SYS_sleep) eqn:E6; [done|]. destruct (reg_eax g =? SYS_kill) eqn:E7; [done|].
  cbn [orb] in Hv. destruct (reg_eax g =? SYS_get_num_free_page) eqn:E8.
  { apply Z.eqb_eq in E8. rewrite E8 in Hv. injection Hv as <-. split; [done|]. by destruct (k_tk s). }
  destruct (reg_eax g =? SYS_get_num_used_page) eqn:E9.
  { apply Z.eqb_eq in E9. rewrite E9 in Hv. injection Hv as <-. split; [done|]. by destruct (k_tk s). }
  destruct (reg_eax g =? SYS_get_ticks) eqn:E10.
  { apply Z.eqb_eq in E10. rewrite E10 in Hv. injection Hv as <-. done. }
  destruct (reg_eax g =? SYS_settextcolor); [injection Hv as <-; wp_step; eapply wp_mono; [by apply (good_colour P)|]; intros u s' [_ E]; by wp_step|].
  destruct (reg_eax g =? SYS_cls); [injection Hv as <-; wp_step; eapply wp_mono; [by apply (good_cls P)|]; intros u s' [_ E]; by wp_step|].
  cbn [orb] in Hv. by injection Hv as <-.
Qed.

(** The rest of the way: the result goes into the saved frame, which is popped. *)
Lemma handler_returns s s1 p t t1 v :
  zget (tasks (k_tk s)) p = Some t ->
  do_syscall K (reg_eax (tf_regs (tf t))) (reg_edx (tf_regs (tf t))) (reg_ecx (tf_regs (tf t))) (reg_ebx (tf_regs (tf t)))
    (reg_edi (tf_regs (tf t))) (reg_esi (tf_regs (tf t))) s = Ret v s1 ->
  zget (tasks (k_tk s1)) p = Some t1 ->
  (syscall_handler K (OfTask p) ;; env_pop_tf (OfTask p)) s
  = Iret (tf_set_eax (tf t1) (u32 v))
      (set_tk (set_tasks (<[Z.to_nat p := t_set_tf (tf_set_eax (tf t1) (u32 v)) t1]> (tasks (k_tk s1))) (k_tk s1)) s1).
Proof.
  intros Ht E Ht1.
  assert (forall (s : kern) u, zget (tasks (k_tk s)) p = Some u -> get_tf (OfTask p) s = Ret (tf u) s) as Hget.
  { intros s2 u Hu. cbn [get_tf]. unfold on_tk, zoom, mbind, M_bind. rewrite (get_task_eq _ _ _ Hu). by destruct s2. }
  set (s2 := set_tk _ s1).
  assert (syscall_handler K (OfTask p) s = Ret tt s2) as Es.
  { unfold syscall_handler. rewrite (bind_ret _ _ _ _ _ (Hget s t Ht)). cbv zeta. rewrite (bind_ret _ _ _ _ _ E).
    rewrite (bind_ret _ _ _ _ _ (Hget s1 t1 Ht1)). cbn [put_tf]. unfold on_tk, zoom. by rewrite (upd_task_eq _ p t1). }
  rewrite (bind_ret _ _ _ _ _ Es). unfold env_pop_tf.
  rewrite (bind_ret _ _ _ _ _ (Hget s2 (t_set_tf (tf_set_eax (tf t1) (u32 v)) t1) ltac:(by eapply zget_insert_eq))). done.
Qed.

(** The dispatcher, for a system call from user mode. *)
Lemma syscall_enters P s c p t :
  good P s -> Z.land (tf_cs (stack_tf s)) 3 = 3 -> tf_trapno (stack_tf s) = T_SYSCALL ->
  zget (cpus (k_tk s)) (Task.cpunum (k_tk s)) = Some c -> cpu_task c = Some p -> zget (tasks (k_tk s)) p = Some t ->
  default_trap_handler K fuel OnStack s
  = (syscall_handler K (OfTask p) ;; env_pop_tf (OfTask p))
      (entered (stack_tf s) p (<[Z.to_nat p := t_set_tf (stack_tf s) t]> (tasks (k_tk s))) s).
Proof.
  intros Hg Hcs Hv Hc Hp Ht. unfold default_trap_handler.
  rewrite (bind_ret _ _ s tt (set_last_tf OnStack s) eq_refl).
  apply (trap_dispatch_user K fuel (set_last_tf OnStack s) c p t H_syscall); cbn [stack_tf set_last_tf k_tk]; try done; [by rewrite Hv|].
  cbn [trap_hnd set_last_tf]. destruct Hg as (ms & l & [_ _ _ H] & _). rewrite Hv. by apply (H T_SYSCALL).
Qed.

(** Fork, called by task [p]. *)
Lemma fork_returns P s c p t :
  good P s -> zget (cpus (k_tk s)) (Task.cpunum (k_tk s)) = Some c -> cpu_task c = Some p ->
  zget (tasks (k_tk s)) p = Some t ->
  (80 <= num_free_pages (mm (k_tk s)) \/ forall q u, zget (tasks (k_tk s)) q = Some u -> state u <> TASK_FREE) ->
  wp (on_tk (sys_fork K)) s (fun pid s1 => exists t1, zget (tasks (k_tk s1)) p = Some t1
    /\ tf_set_eax (tf t1) (u32 pid) = tf_set_eax (tf t) (u32 pid)
    /\ (pid = -1 \/ pid <> p /\ exists t', zget (tasks (k_tk s1)) pid = Some t' /\ state t' = TASK_RUNNABLE
          /\ parent_id t' = p /\ tf t' = tf_set_eax (tf t) 0)).
Proof.
  intros (ms & l & [ [SI I U Hn Hreg Hop] _ _ _] & _) Hc Hp Ht Hl. apply wp_zoom. cbn [k_tk set_tk].
  destruct (live_current _ _ _ _ SI Hc Hp) as (_ & t0 & Ht0 & Hf & Hid). assert (t0 = t) as -> by congruence.
  destruct (free_task_dec (k_tk s)) as [Hfree|Hno].
  - assert (80 <= length l)%nat as Hl'.
    { destruct Hl as [Hl|Hall]; [rewrite (wf_count _ _ (mi_wf _ _ _ I)) in Hl; lia|].
      destruct Hfree as (q & u & Hq & Hu). by destruct (Hall q u Hq). }
    eapply wp_mono; [by apply (wp_sys_fork K (k_tk s) ms l c p)|].
    intros pid s1 (mp & tp & m & l' & _ & Epid & Htp & (u & Hu & Hfu) & F). assert (tp = t) as -> by congruence.
    pose proof (fo_parent _ _ _ _ _ _ _ _ _ _ F) as Hpar. rewrite Epid in Hpar. eexists. split; [exact Hpar|].
    split; [done|]. right. split; [congruence|].
    destruct (fo_child _ _ _ _ _ _ _ _ _ _ F) as (t' & H1 & H2 & _ & H4 & _ & H6). exists t'. rewrite <- Hid. done.
  - eapply wp_mono; [by apply (wp_fork_full K (k_tk s) (si_tasks _ _ SI) (proj1 U))|].
    intros pid s1 (-> & lk & _ & ->). exists t. by split; [|split; [|left] ].
Qed.

(** ** Runs *)

(** What happens while the kernel is not running, and a trap. *)
Inductive kernel_step (s : kern) : kern -> Prop :=
| step_store i c p t d va b m' :
    zget (cpus (k_tk s)) i = Some c -> cpu_task c = Some p -> zget (tasks (k_tk s)) p = Some t -> pgdir t = dirp d ->
    0 <= va < 4294967296 -> user_store d va b (mm (k_tk s)) = Some m' -> kernel_step s (set_tk (set_mm m' (k_tk s)) s)
| step_device w : kernel_step s (set_w w s)
| step_trap i f va g s' :
    trap_ok f (trapped_on i f va s) -> default_trap_handler K fuel OnStack (trapped_on i f va s) = Iret g s' -> kernel_step s s'.

Lemma good_trapped P i f va s : good P s -> good P (trapped_on i f va s).
Proof.
  intros (ms & l & [H1 H2 H3 H4] & HP & Hz). destruct (with_cpu_ok K i (k_tk s) ms l H1) as [Hok E]. exists ms, l.
  split; [by split|]. split; [|exact Hz]. cbn [k_tk trapped_on]. by rewrite E.
Qed.

Lemma kernel_step_good P s s' : (forall f, image K P.2 f -> f ∉ P.1) -> good P s -> kernel_step s s' -> good P s'.
Proof.
  intros Himg Hg [i c p t d va b m' Hc Hp Ht Hd Hva Hs|w|i f va g s1 Ht E].
  - destruct Hg as (ms & l & [H1 H2 H3 H4] & HP & Hz). pose proof (mk_mem _ _ _ _ H1) as I.
    destruct (live_current _ (with_cpu i (k_tk s)) c p (with_cpu_inv None i _ (mk_sched _ _ _ _ H1)) Hc Hp) as (_ & u & Hu & Hf & _).
    assert (u = t) as -> by (cbn in Hu; congruence). destruct (mi_all _ _ _ I p t Ht Hf) as (m & Hm & Ep).
    destruct (tm_task _ _ _ (mi_ok _ _ _ I m Hm)) as (u & Hu' & _ & Hdu). rewrite Ep in Hu'. assert (u = t) as -> by congruence.
    assert (d = tm_dir m) as -> by (unfold dirp in *; lia).
    destruct (store_ok K (k_tk s) ms l H1 m Hm va Hva b m') as (Hok' & HP' & _); [|exact Hs|].
    { intros q Hq. rewrite HP. apply Himg. by rewrite <- Hz. }
    exists ms, l. split; [by split|]. split; [|exact Hz]. cbn [k_tk set_tk mm set_mm]. by rewrite HP'.
  - eapply good_other; [exact Hg|done|done|exact (good_screen _ _ Hg)|exact (good_kbd _ _ Hg)].
  - pose proof (dispatch_leaves P f _ (good_trapped P i f va s Hg) eq_refl Ht) as H. unfold leaves in H. by rewrite E in H.
Qed.

Lemma stays_good s ms l s' :
  kernel_ok s ms l -> (forall f, image K (user_sizes (k_tk s)) f -> f ∉ pool (mm (k_tk s)) ms l) ->
  star kernel_step s s' -> good (pool (mm (k_tk s)) ms l, user_sizes (k_tk s)) s'.
Proof.
  intros Hok Himg HS. set (P := (pool (mm (k_tk s)) ms l, user_sizes (k_tk s))).
  apply (star_invariant kernel_step (good P)) with (s := s) (s' := s'); [|by exists ms, l|exact HS]. intros a b. by apply kernel_step_good.
Qed.

(** From a state in order on, for ever. *)
Lemma keeps_running s ms l s' :
  kernel_ok s ms l -> (forall f, image K (user_sizes (k_tk s)) f -> f ∉ pool (mm (k_tk s)) ms l) ->
  star kernel_step s s' ->
  (exists ms' l', kernel_ok s' ms' l' /\ pool (mm (k_tk s')) ms' l' ≡ₚ pool (mm (k_tk s)) ms l)
  /\ forall i f va, trap_ok f (trapped_on i f va s') ->
       exists g s'', default_trap_handler K fuel OnStack (trapped_on i f va s') = Iret g s''.
Proof.
  intros Hok Himg HS. set (P := (pool (mm (k_tk s)) ms l, user_sizes (k_tk s))).
  pose proof (stays_good s ms l s' Hok Himg HS) as Hg. fold P in Hg.
  split; [by destruct Hg as (ms' & l' & Hk & HP & _); exists ms', l'|]. intros i f va Ht.
  pose proof (dispatch_leaves P f _ (good_trapped P i f va s' Hg) eq_refl Ht) as H. unfold leaves in H.
  destruct (default_trap_handler _ _ _ _) as [| g s''|]; [done|by exists g, s''|done].
Qed.

(** ** Properties *)


(** C16: Results of system calls.  The kernel is in order and a task makes a system
    call from user mode (with a readable string for SYS_puts, and eighty free pages
    for a fork or no free task structure).  A call that comes back at once (all but
    fork, sleep and kill) resumes the same task with the registers it had, but for
    eax, which holds the call's value: the oldest character typed or 0, the task's
    or the processor's number, the pages free or used, the ticks counted, 0 after
    output, -1 for an unknown number; tasks and memory are otherwise unchanged.  A
    fork resumes the caller with the child's number, or -1, in eax, and the child
    waits with the same registers and 0 in eax.  Sleep and kill, which switch to
    another task, are the subject of other properties. *)
Theorem syscall_result_in_eax s ms l c p q :
  kernel_ok s ms l -> Z.land (tf_cs (stack_tf s)) 3 = 3 -> tf_trapno (stack_tf s) = T_SYSCALL ->
  zget (cpus (k_tk s)) (Task.cpunum (k_tk s)) = Some c -> cpu_task c = Some p -> ring (k_kbd s) q ->
  call_ok (tf_regs (stack_tf s)) (k_tk s) ->
  let f := stack_tf s in let n := reg_eax (tf_regs f) in
  (forall v, syscall_value s c p q n = Some v -> exists t s',
     default_trap_handler K fuel OnStack s = Iret (tf_set_eax f (u32 v)) s' /\ zget (tasks (k_tk s)) p = Some t
     /\ k_tk s' = set_tasks (<[Z.to_nat p := t_set_tf (tf_set_eax f (u32 v)) t]> (tasks (k_tk s))) (k_tk s))
  /\ (n = SYS_fork -> exists pid s', default_trap_handler K fuel OnStack s = Iret (tf_set_eax f (u32 pid)) s'
       /\ (pid = -1 \/ exists t', zget (tasks (k_tk s')) pid = Some t' /\ state t' = TASK_RUNNABLE
             /\ parent_id t' = p /\ tf t' = tf_set_eax f 0)).
Proof.
  intros Hk Hcs Hv Hc Hp R Hok f n. set (P := (pool (mm (k_tk s)) ms l, user_sizes (k_tk s))).
  assert (good P s) as Hg by (by exists ms, l).
  destruct (live_current _ _ _ _ (good_sched _ _ Hg) Hc Hp) as (_ & t & Ht & _).
  assert (trap_ok f s) as Htr by (split; [exact Hcs|]; split; [by exists c, p|]; by right; right).
  rewrite (syscall_enters P s c p t Hg Hcs Hv Hc Hp Ht). fold f. pose proof (good_entered P f s p t Hg Ht) as Hg'.
  pose proof (trap_ok_entered f s p t Ht Htr) as (_ & _ & [Hb|[ [Hb _]|[_ Hok'] ] ]); [by unfold f in Hb; rewrite Hv in Hb..|].
  set (ts := <[Z.to_nat p := t_set_tf f t]> (tasks (k_tk s))) in *. set (se := entered f p ts s) in *.
  assert (zget (tasks (k_tk se)) p = Some (t_set_tf f t)) as Hte by (by eapply zget_insert_eq). split.
  - intros v Hval.
    destruct (wp_inv _ _ _ (syscall_returns P (tf_regs f) se c p q v Hg' Hc Hp R Hok' Hval)) as (r & s1 & E & -> & Es).
    exists t. rewrite (handler_returns se s1 p (t_set_tf f t) (t_set_tf f t) v Hte E) by (by rewrite Es).
    eexists. split; [reflexivity|]. split; [exact Ht|]. cbn [k_tk set_tk]. rewrite Es. cbn [k_tk se entered set_tk tasks set_tasks].
    unfold ts. by rewrite list_insert_insert_eq.
  - intros En. assert (forall a b d e g, do_syscall K n a b d e g se = on_tk (sys_fork K) se) as Ed by (intros; by rewrite En).
    destruct Hok' as [Hfk _].
    destruct (wp_inv _ _ _ (fork_returns P se c p (t_set_tf f t) Hg' Hc Hp Hte (Hfk En))) as (pid & s1 & E & t1 & Ht1 & Ef & Hch).
    rewrite <- (Ed (reg_edx (tf_regs f)) (reg_ecx (tf_regs f)) (reg_ebx (tf_regs f)) (reg_edi (tf_regs f)) (reg_esi (tf_regs f))) in E.
    exists pid. rewrite (handler_returns se s1 p (t_set_tf f t) t1 pid Hte E Ht1). cbn [tf t_set_tf] in Ef, Hch. rewrite Ef.
    eexists. split; [reflexivity|]. destruct Hch as [?|(Hne & t' & Ht' & H')]; [by left|right]. exists t'. split; [|exact H'].
    cbn [k_tk set_tk tasks set_tasks]. apply zget_Some_range in Ht1. rewrite zget_insert_ne by (lia || done). exact Ht'.
Qed.
End Traps.

(** ** Witness *)

(** A keyboard beside a local APIC whose registers read as zero. *)
#[global] Instance kbdc_apic : ApicRegs kbdc := {| apic_rd _ w := (0, w); apic_wr _ _ w := w |}.

Definition demo_table : list (option handler) := handler_of <$> seqZ 0 256.

(** The machine of System.v with its devices, nothing typed. *)
Definition demo_running (s : tk_state) : kern kbdc :=
  Kern s demo_screen kbd0 pic0 (LV 0xFEE00000 MMIOBASE) (replicate 256 gate0) demo_table None 0 demo_frame None 0 true (Kbdc [] []).

Lemma demo_table_ok i : 0 <= i < 256 -> zget demo_table i = Some (handler_of i).
Proof.
  intros Hi. unfold zget, demo_table. destruct (Z.leb_spec 0 i); [|lia]. rewrite list_lookup_fmap, lookup_seqZ_lt by lia. simpl. do 2 f_equal. lia.
Qed.

(** A tick, and a fork. *)
Definition demo_trap (v : Z) : Trapframe := mkTrapframe (regs_set_eax regs0 SYS_fork) 0 0 0 0 v 0 0x1000 0x1B 0 0 0x2000 0x23 0.


(** The first task asks for its number, and then forks. *)
Lemma syscall_result_in_eax_witness :
  exists (s : kern kbdc) p s' , default_trap_handler demo_K 1 OnStack s = Iret (tf_set_eax demo_frame (u32 p)) s'
    /\ exists pid s2, default_trap_handler demo_K 1 OnStack (set_stack_tf (demo_trap T_SYSCALL) s)
                      = Iret (tf_set_eax (demo_trap T_SYSCALL) (u32 pid)) s2.
Proof.
  destruct demo_started as (t & m & l & Hok & Hl & (c & p & Hc & Hp) & _). set (s := demo_running t).
  assert (forall g, kernel_ok demo_K (set_stack_tf g s) [m] l) as Hk
    by (intros g; split; [exact Hok|exact demo_screen_wf|by exists []; apply kbd0_ring|apply demo_table_ok]).
  destruct (syscall_result_in_eax demo_K demo_K_linked 1 (set_stack_tf demo_frame s) [m] l c p [] (Hk _)) as [H _];
    [reflexivity|reflexivity|exact Hc|exact Hp|exact kbd0_ring|by split|].
  destruct (H p eq_refl) as (u & s' & E & _). exists (set_stack_tf demo_frame s), p, s'. split; [exact E|].
  destruct (syscall_result_in_eax demo_K demo_K_linked 1 (set_stack_tf (demo_trap T_SYSCALL) s) [m] l c p [] (Hk _)) as [_ H2];
    [reflexivity|reflexivity|exact Hc|exact Hp|exact kbd0_ring| |].
  - split; [|done]. intros _. left. change (80 <= num_free_pages (mm t)). rewrite (wf_count _ _ (mi_wf _ _ _ (mk_mem _ _ _ _ Hok))). lia.
  - destruct (H2 eq_refl) as (pid & s2 & E2 & _). by exists pid, s2.
Defined.
