(* ===== verification/StartUp.v ===== *)
(** * The devices come up

    The steps of [kernel_main] that set up the screen, the local APIC, the trap table
    and the interrupt controllers, as total statements: on devices that answer, each of
    them returns, and this file says what it leaves. *)

From S2P Require Import Prelude.
From S2P Require Import Machine.
From S2P Require Import Kmonad.
From S2P Require Import Spinlock.
From S2P Require Import PageAlloc.
From S2P Require Import Paging.
From S2P Require Import Kvm.
From S2P Require Import Space.
From S2P Require Import Bytes.
From S2P Require Import Ports.
From S2P Require Import Lapic.
From S2P Require Import Screen.
From S2P Require Import Kbd.
From S2P Require Import MemInit.
From S2P Require Import MemBoot.
From Stdlib Require Import ZArith Lia.
From stdpp Require Import base gmap list strings.
From S2P Require Import Task.
From S2P Require Import TaskInv.
From S2P Require Import TaskInit.
From S2P Require Import TaskSpace.
From S2P Require Import TaskFork.
From S2P Require Import MpConfig.
From S2P Require Import Trap.
From S2P Require Import TrapProofs.
From S2P Require Import Main.
From S2P Require Import StartFrame.
From S2P Require Import System.
From S2P Require Import TrapRun.
From S2P Require Import KernelRun.

Local Open Scope Z_scope.

(** Code that returns, and what it keeps whenever it does. *)
Lemma wp_pres {S A} (R : S -> S -> Prop) (m : M S A) s (Q : A -> S -> Prop) :
  pres R m -> wp m s Q -> wp m s (fun a s' => Q a s' /\ R s s').
Proof. intros Hm. specialize (Hm s). unfold wp. by destruct (m s). Qed.

(** A local APIC delivers its messages: while ICRLO shows one that is pending, polling
    comes nearer to the end. *)
Class ApicDelivers (W : Type) `{!ApicRegs W} := {
  ad_left : W -> nat;
  ad_poll w : truth (Z.land (u32 (fst (apic_rd ICRLO w))) DELIVS) = true -> (ad_left (snd (apic_rd ICRLO w)) < ad_left w)%nat
}.

Section Up.
Context {W : Type} `{!Ports W} `{!ApicRegs W} `{!CpuView W} `{!ApicView W} `{!KbdLaws W} `{!Nvram W} `{!ApicDelivers W}.
#[local] Abbreviation kern := (kern W).

(** ** The screen *)

Definition same_nv {T} (s s' : T * W) : Prop := forall r, nv_get (snd s') r = nv_get (snd s) r.
#[local] Instance same_nv_preorder T : PreOrder (@same_nv T).
Proof. split; [done|]. intros x y z H1 H2 r. by rewrite H2. Qed.

Lemma nv_fst_modify {T} (f : T * W -> T * W) : (forall s, snd (f s) = snd s) -> pres same_nv (modify f).
Proof. intros H. apply pres_modify. intros s r. by rewrite H. Qed.
Definition nv_kept (w w' : W) : Prop := forall r, nv_get w' r = nv_get w r.
#[local] Instance nv_kept_preorder : PreOrder nv_kept.
Proof. split; [done|]. intros x y z H1 H2 r. by rewrite H2. Qed.
Lemma nv_on_snd {T X} (m : M W X) : pres nv_kept m -> pres (@same_nv T) (on_snd m).
Proof. by apply pres_zoom. Qed.
Lemma nv_outb p v : p <> IO_RTC + 1 -> pres nv_kept (outb p v).
Proof. intros Hp w r. by apply nv_out. Qed.

Lemma nv_cls_loop n i c : pres (@same_nv screen) (cls_loop n i c).
Proof.
  revert i. induction n as [|n IH]; intros i; cbn [cls_loop]; unfold memset_cells, get_s, mod_s;
    repeat first [pres_step | by apply nv_fst_modify].
Qed.

Lemma nv_init_video : pres (@same_nv screen) init_video.
Proof.
  unfold init_video, sys_cls, move_csr, get_s, mod_s.
  repeat first [pres_step | by apply nv_fst_modify | apply nv_cls_loop | apply nv_on_snd | by apply nv_outb].
Qed.

Lemma wp_init_video (s : screen) (w : W) :
  cursor_ok (view_of s) -> lock_free (screen_lock s) ->
  wp init_video (s, w) (fun _ r => screen_wf (fst r) /\ forall x, nv_get (snd r) x = nv_get w x).
Proof.
  intros Hv Hl. eapply wp_mono; [apply (wp_pres same_nv _ _ (fun _ r => screen_wf (fst r))); [apply nv_init_video|]|].
  - unfold init_video, mod_s. wp_step. wp_step. cbn [fst snd]. wp_step. eapply wp_mono; [apply sys_cls_ok; by split|].
    intros u [s1 w1] [H1 H2 H3]. wp_step. by split.
  - by intros u [s1 w1] [].
Qed.

(** ** The local APIC *)

Section Regs.
Context (v : lapic_vars) (Hv : lapic v <> 0) (m : mm_state).

(** The registers change the device only. *)
Lemma wp_reg_read i (w : W) (Q : Z -> lstate W -> Prop) :
  Q (u32 (fst (apic_rd i w))) (v, m, snd (apic_rd i w)) -> wp (lapicr i) (v, m, w) Q.
Proof.
  intros HQ. unfold lapicr, vars. wp_step. wp_step. cbn [fst]. destruct (Z.eqb_spec (lapic v) 0); [done|].
  apply wp_zoom. unfold wp. cbn. by destruct (apic_rd i w).
Qed.

Lemma wp_reg_write i x (w : W) (Q : unit -> lstate W -> Prop) : (forall w', Q tt (v, m, w')) -> wp (lapicw i x) (v, m, w) Q.
Proof.
  intros HQ. unfold lapicw, vars. wp_step. wp_step. cbn [fst]. destruct (Z.eqb_spec (lapic v) 0); [done|].
  wp_step. apply wp_zoom. unfold wp at 1. cbn. wp_step. apply wp_reg_read. by wp_step.
Qed.

Lemma wp_lap_cpunum (w : W) (Q : Z -> lstate W -> Prop) :
  (forall w', av_cpu w' = av_cpu w -> Q (av_cpu w) (v, m, w')) -> wp Lapic.cpunum (v, m, w) Q.
Proof.
  intros HQ. unfold Lapic.cpunum, vars. wp_step. wp_step. cbn [fst]. destruct (Z.eqb_spec (lapic v) 0); [done|]. cbn [negb].
  wp_step. apply wp_reg_read. wp_step. rewrite av_id. apply HQ, av_rd.
Qed.

Lemma wp_wait_delivered fuel (w : W) (Q : unit -> lstate W -> Prop) :
  (ad_left w < fuel)%nat -> (forall w', Q tt (v, m, w')) -> wp (wait_delivered fuel) (v, m, w) Q.
Proof.
  revert w. induction fuel as [|fuel IH]; intros w Hf HQ; [lia|]. cbn [wait_delivered]. wp_step. apply wp_reg_read.
  pose proof (ad_poll w) as Hp. destruct (truth _); [|by wp_step]. apply IH; [specialize (Hp eq_refl); lia|done].
Qed.

Ltac reg_step :=
  first [ wp_step | apply wp_reg_write; intros ? | apply wp_reg_read | apply wp_lap_cpunum; intros ? ?
        | match goal with |- wp (when ?b _) _ _ => destruct b; cbn [when] end ].

(** The rest of [lapic_init], once the registers are mapped. *)
Definition lapic_rest (fuel : nat) (b : Z) : M (lstate W) unit :=
  lapicw SVR (Z.lor ENABLE (IRQ_OFFSET + IRQ_SPURIOUS)) ;;
  lapicw TDCR X1 ;;
  lapicw TIMER (Z.lor PERIODIC (IRQ_OFFSET + IRQ_TIMER)) ;;
  lapicw TICR 10000000 ;;
  me ← Lapic.cpunum;
  when (negb (me =? b)) (lapicw LINT0 MASKED) ;;
  lapicw LINT1 MASKED ;;
  ver ← lapicr VER;
  when (Z.land (Z.shiftr ver 16) 0xFF >=? 4) (lapicw PCINT MASKED) ;;
  lapicw ERROR (IRQ_OFFSET + IRQ_ERROR) ;;
  lapicw ESR 0 ;;
  lapicw ESR 0 ;;
  lapicw EOI 0 ;;
  lapicw ICRHI 0 ;;
  lapicw ICRLO (Z.lor (Z.lor BCAST INIT) LEVEL) ;;
  wait_delivered fuel ;;
  lapicw TPR 0.

Lemma wp_lapic_rest fuel b (w : W) (Q : unit -> lstate W -> Prop) :
  (forall w, (ad_left w < fuel)%nat) -> (forall w', Q tt (v, m, w')) -> wp (lapic_rest fuel b) (v, m, w) Q.
Proof.
  intros Hf HQ. unfold lapic_rest. repeat reg_step; (apply wp_wait_delivered; [apply Hf|]; intros ?; by apply wp_reg_write).
Qed.
End Regs.

(** The registers are mapped on the first call. *)
Lemma wp_lapic_init fuel b v m (w : W) (Q : unit -> lstate W -> Prop) :
  lapicaddr v <> 0 -> (forall w, (ad_left w < fuel)%nat) ->
  (if lapic v =? 0
   then wp (mmio_map_region (lapicaddr v) 4096) m (fun x m' => x <> 0 /\ forall w', Q tt (LV (lapicaddr v) x, m', w'))
   else forall w', Q tt (v, m, w')) ->
  wp (lapic_init fuel b) (v, m, w) Q.
Proof.
  intros Ha Hf HQ. change (lapic_init fuel b) with (v0 ← vars; if (lapicaddr v0 =? 0) then mret tt
    else _ ← when (lapic v0 =? 0) (a ← mem (mmio_map_region (lapicaddr v0) 4096);
           modify (fun s : lstate W => (LV (lapicaddr v0) a, snd (fst s), snd s))); lapic_rest fuel b).
  unfold vars. wp_step. wp_step. cbn [fst]. destruct (Z.eqb_spec (lapicaddr v) 0); [done|]. destruct (Z.eqb_spec (lapic v) 0); cbn [when].
  - wp_step. wp_step. unfold mem. apply wp_zoom, wp_zoom. eapply wp_mono; [exact HQ|]. intros x m' [Hx HQ']. wp_step.
    by apply wp_lapic_rest.
  - wp_step. wp_step. by apply wp_lapic_rest.
Qed.

(** The page of registers goes where [mem_init] stopped in the I/O hole; the directory
    has the table, so no page is needed. *)
Lemma wp_mmio_lapic pk s l d la :
  kern_mapped pk s l d -> c_mmio_base (cfg s) = mmio_va 3 -> 0 <= la <= 4294963200 ->
  wp (mmio_map_region la 4096) s (fun x s' => x = mmio_va 3 /\ exists l', mm_wf s' l' /\ layout s' = layout s
    /\ (forall q, q ∈ l' -> q ∈ l) /\ (length l <= length l')%nat).
Proof.
  intros [K1 K2 K3 K4 K5 K6 K7] Hb Hla.
  assert (missing_in (ram s) d [MMIO_SLOT] = 0%nat) as Hm by (unfold missing_in; rewrite filter_cons_False, filter_nil; done).
  eapply wp_mono; [apply (wp_mmio_map s l d la 4096 1); try done; try lia; rewrite Hb; by vm_compute|].
  intros x s' (-> & l' & S & Hs & _). split; [exact Hb|]. exists l'. split; [apply S|]. split; [|split; [apply (sv_free _ _ _ _ _ _ S)|]].
  - unfold layout, npages, kern_pgdir. by rewrite (sv_cfg _ _ _ _ _ _ S).
  - cbn [ram upd_cfg] in Hs. rewrite Hm in Hs. lia.
Qed.

(** ** Traps and interrupts *)

(** The tables and the keyboard's buffer are the same, and so is the rest. *)
Definition only_pic (s s' : kern) : Prop := exists p w, s' = set_pic_w (p, w) s.

Lemma wp_pic {X} (m : M (pic_state * W) X) (s : kern) (Q : X -> kern -> Prop) :
  wp m (k_pic s, k_w s) (fun _ _ => True) -> (forall x s', only_pic s s' -> Q x s') -> wp (on_pic m) s Q.
Proof.
  intros H HQ. apply wp_zoom. eapply wp_mono; [exact H|]. intros x [p w] _. apply HQ. by exists p, w.
Qed.

Lemma wp_irq_setmask x p (w : W) : wp (irq_setmask_8259A x) (p, w) (fun _ _ => True).
Proof. unfold irq_setmask_8259A. wp_steps. by destruct (negb _). Qed.

Lemma wp_pic_init p (w : W) : wp pic_init (p, w) (fun _ _ => True).
Proof. unfold pic_init. wp_steps. apply wp_zoom. repeat first [apply wp_outb | wp_step]. by destruct (negb _); [apply wp_irq_setmask|]. Qed.

Lemma idt_fun_pic s s' f h : only_pic s s' -> idt_fun s f h -> idt_fun s' f h.
Proof. by intros (p & w & ->). Qed.

Section Traps.
Context (A : isrs) (fuel : nat) (Hfuel : forall w : W, (kb_pending w < fuel)%nat).
Context (HA : Forall (fun a => 0 < a < 4294967296)
                [Default_ISR A; GPFLT A; STACK_ISR A; PGFLT A; TIM_ISR A; KBD_Input A; SYSCALL A]).

(** What the five calls leave alone. *)
Definition kept (s s' : kern) : Prop := k_tk s' = k_tk s /\ k_scr s' = k_scr s /\ k_lv s' = k_lv s.
#[local] Instance kept_preorder : PreOrder kept.
Proof. split; [done|]. intros x y z (H1 & H2 & H3) (H4 & H5 & H6). split_and!; congruence. Qed.

Lemma kept_gate i g : pres kept (set_gate (W := W) i g).
Proof. unfold set_gate. pres_tac. by apply pres_modify. Qed.
Lemma kept_hnd i h : pres kept (set_hnd (W := W) i h).
Proof. unfold set_hnd. pres_tac. by apply pres_modify. Qed.
#[local] Hint Resolve kept_gate kept_hnd : pres.
Lemma kept_register n h e t d : pres kept (register_handler (W := W) n h e t d).
Proof. unfold register_handler. pres_tac. Qed.
Lemma kept_trap_loop n i : pres kept (trap_init_loop (W := W) A n i).
Proof. revert i. induction n as [|n IH]; intros i; cbn [trap_init_loop]; pres_tac. Qed.
Lemma kept_trap_init : pres kept (trap_init (W := W) A).
Proof. unfold trap_init. repeat first [pres_step | apply kept_trap_loop | apply kept_register]. by apply pres_modify. Qed.

(** The handlers after each step. *)
Definition wired (h : Z -> option handler) (s s' : kern) : Prop :=
  kept s s' /\ (exists f, idt_fun s' f h) /\ exists q, ring (k_kbd s') q.

Lemma wp_wire_traps s q :
  length (idt s) = 256%nat -> length (trap_hnd s) = 256%nat -> ring (k_kbd s) q ->
  wp (trap_init A) s (fun _ s' => wired (upd (fun _ => None) T_PGFLT (Some H_page_fault)) s s').
Proof.
  intros L1 L2 R. rewrite !Forall_cons in HA. eapply wp_mono; [apply (wp_pres kept); [apply kept_trap_init|apply wp_trap_init; [done|done|lia]]|].
  intros u s' [(E1 & E2 & T) Hk]. split; [exact Hk|]. split; [by eexists|]. exists q. by rewrite E1.
Qed.

Lemma wp_wire_pic h s s1 : wired h s s1 -> wp (on_pic pic_init) s1 (fun _ s' => wired h s s').
Proof.
  intros (Hk & (f & Hf) & Hr). apply wp_pic; [apply wp_pic_init|]. intros [] s' (p & w & ->). split; [done|]. split; [by exists f|done].
Qed.

(** A line of the interrupt controller is opened and its handler registered. *)
Lemma wp_wire_irq h s s1 (g : kern -> Z) n hnd e :
  wired h s s1 -> 0 <= n < 256 -> e <> 0 ->
  wp (s ← get; on_pic (irq_setmask_8259A (g s)) ;; register_handler n hnd e 0 0) s1 (fun _ s' => wired (upd h n (Some hnd)) s s').
Proof.
  intros (Hk & (f & Hf) & Hr) Hn He. wp_step. wp_step. wp_step. apply wp_pic; [apply wp_irq_setmask|]. intros [] s2 P2.
  pose proof (idt_fun_pic _ _ _ _ P2 Hf) as F2. eapply wp_mono; [by apply wp_register|]. intros u s3 [(l & h3 & ->) F3].
  destruct P2 as (p & w & ->). split; [done|]. split; [by eexists|done].
Qed.

Lemma wp_wire_kbd h s s1 : wired h s s1 -> wp (kbd_init A fuel) s1 (fun _ s' => wired (upd h (IRQ_OFFSET + IRQ_KBD) (Some H_kbd)) s s').
Proof.
  intros (Hk & (f & Hf) & (q & Hr)). rewrite !Forall_cons in HA. unfold kbd_init. wp_step. apply wp_zoom.
  eapply wp_mono; [apply (wp_cons_intr fuel (k_kbd s1) (k_w s1) q Hr (Hfuel _))|]. intros u [kb w] R.
  apply (wp_wire_irq h s (set_kbd_w (kb, w) s1) (fun s => Z.land (irq_mask_8259A (k_pic s)) (Z.lnot (Z.shiftl 1 IRQ_KBD)))); [|done|lia].
  split; [done|]. split; [by exists f|]. destruct R as [R|(c & _ & R)]; by eexists.
Qed.

Lemma wp_wire_timer h s s1 : wired h s s1 -> wp (timer_init A) s1 (fun _ s' => wired (upd h (IRQ_OFFSET + IRQ_TIMER) (Some H_timer)) s s').
Proof.
  intros (Hk & Hf & Hr). rewrite !Forall_cons in HA. unfold timer_init. wp_step. apply wp_zoom.
  unfold set_timer. change (TIME_HZ =? 0) with false. cbv iota zeta. wp_step. apply wp_outb. wp_step. apply wp_outb. apply wp_outb.
  set (s2 := set_w _ s1).
  apply (wp_wire_irq h s s2 (fun s => Z.land (irq_mask_8259A (k_pic s)) (Z.lnot (Z.shiftl 1 IRQ_TIMER)))); [done|done|lia].
Qed.

Lemma wp_wire_syscall h s s1 : wired h s s1 -> wp (syscall_init A) s1 (fun _ s' => wired (upd h T_SYSCALL (Some H_syscall)) s s').
Proof.
  intros (Hk & (f & Hf) & Hr). rewrite !Forall_cons in HA. unfold syscall_init.
  eapply wp_mono; [apply wp_register; [exact Hf|done|lia]|]. intros u s3 [(l & h3 & ->) F3]. split; [done|]. split; [by eexists|done].
Qed.

(** All five. *)
Lemma wired_all s s' :
  wired (upd (upd (upd (upd (fun _ => None) T_PGFLT (Some H_page_fault)) (IRQ_OFFSET + IRQ_KBD) (Some H_kbd))
                       (IRQ_OFFSET + IRQ_TIMER) (Some H_timer)) T_SYSCALL (Some H_syscall)) s s' ->
  forall i, 0 <= i < 256 -> zget (trap_hnd s') i = Some (handler_of i).
Proof.
  intros (_ & (f & _ & _ & F) & _) i Hi. destruct (F i Hi) as [_ ->]. unfold upd, handler_of.
  change (IRQ_OFFSET + IRQ_TIMER) with 32. change (IRQ_OFFSET + IRQ_KBD) with 33. done.
Qed.
End Traps.
End Up.
