(* ===== verification/BootRun.v ===== *)
(** * The machine boots

    [kernel_main] from a cold machine with the firmware's tables and devices that
    answer, as a total statement: it leaves for user mode on the boot processor, with
    every processor of the table started and running a task of its own, and the machine
    in the state from which the traps of KernelRun.v are handled.  From this follow the
    start of the other processors and the confinement of user code. *)

From S2P Require Import Prelude.
From S2P Require Import Machine.
From S2P Require Import Kmonad.
From S2P Require Import Spinlock.
From S2P Require Import PageAlloc.
From S2P Require Import Paging.
From S2P Require Import Kvm.
From S2P Require Import Space.
From S2P Require Import Bytes.
From S2P Require Import Ports.
From S2P Require Import Lapic.
From S2P Require Import Screen.
From S2P Require Import Kbd.
From S2P Require Import MemInit.
From S2P Require Import MemBoot.
From Stdlib Require Import ZArith Lia.
From stdpp Require Import base gmap list strings.
From S2P Require Import Task.
From S2P Require Import TaskInv.
From S2P Require Import TaskInit.
From S2P Require Import TaskSpace.
From S2P Require Import TaskFork.
From S2P Require Import MpConfig.
From S2P Require Import Firmware.
From S2P Require Import Trap.
From S2P Require Import TrapProofs.
From S2P Require Import System.
From S2P Require Import UserMode.
From S2P Require Import Main.
From S2P Require Import StartFrame.
From S2P Require Import MainInv.
From S2P Require Import TrapRun.
From S2P Require Import KernelRun.
From S2P Require Import StartUp.

Local Open Scope Z_scope.

(** ** Stores into a page that nobody owns *)

(** Only page [f] of memory changed. *)
Definition scribbled (f : Z) (s s' : mm_state) : Prop :=
  cfg s' = cfg s /\ pages s' = pages s /\ outside [f] s s' /\ forall l, mm_wf s l -> mm_wf s' l.

#[global] Instance scribbled_preorder f : PreOrder (scribbled f).
Proof.
  split; [by intros s|]. intros x y z (A1 & A2 & A3 & A4) (B1 & B2 & B3 & B4). split_and!; [congruence|congruence|by etrans|auto].
Qed.

Lemma wp_scribble8 f o v b s (Q : unit -> mm_state -> Prop) :
  0 <= f < npages s -> 0 <= o < 4096 -> v = f * 4096 + o + KERNBASE ->
  (forall s', scribbled f s s' -> Q tt s') -> wp (store8 v b) s Q.
Proof.
  intros Hf Ho -> HQ. apply wp_store8; [apply byte_ok; Z.to_euclidean_division_equations; lia|]. apply HQ.
  split_and!; [done|done|by apply wr8_outside|]. intros l. apply wr8_wf.
Qed.

Lemma wp_scribble16 f o v x s (Q : unit -> mm_state -> Prop) :
  0 <= f < npages s -> 0 <= o < 4095 -> v = f * 4096 + o + KERNBASE ->
  (forall s', scribbled f s s' -> Q tt s') -> wp (store16 v x) s Q.
Proof.
  intros Hf Ho -> HQ. unfold store16. wp_step. apply (wp_scribble8 f o); [done|lia|done|]. intros s1 S1.
  apply (wp_scribble8 f (o + 1)); [unfold npages; by rewrite (proj1 S1)|lia|lia|]. intros s2 S2. apply HQ. by etrans.
Qed.

(** The copy goes up: its source lies above. *)
Lemma wp_scribble_move f n o src s (Q : unit -> mm_state -> Prop) :
  0 <= f < npages s -> 0 <= o -> o + Z.of_nat n <= 4096 -> KERNBASE <= src -> src + Z.of_nat n <= KERNBASE + npages s * 4096 ->
  (forall s', scribbled f s s' -> Q tt s') -> wp (kmove_up n (f * 4096 + o + KERNBASE) src) s Q.
Proof.
  revert o src s. induction n as [|n IH]; intros o src s Hf Ho Hn Hs Hs' HQ; cbn [kmove_up]; [wp_step; by apply HQ|]. wp_step.
  replace src with (src - KERNBASE + KERNBASE) at 1 by lia. apply wp_load8; [apply byte_ok; Z.to_euclidean_division_equations; lia|].
  wp_step. apply (wp_scribble8 f o); [done|lia|done|]. intros s1 S1.
  assert (npages s1 = npages s) as En by (unfold npages; by rewrite (proj1 S1)).
  replace (f * 4096 + o + KERNBASE + 1) with (f * 4096 + (o + 1) + KERNBASE) by lia.
  apply IH; rewrite ?En; try lia. intros s2 S2. apply HQ. by etrans.
Qed.

(** The machine does not notice. *)
Lemma machine_scribbled K t ms l f m' :
  machine_ok K t ms l -> scribbled f (mm t) m' -> f ∉ pool (mm t) ms l ->
  machine_ok K (set_mm m' t) ms l /\ pool m' ms l = pool (mm t) ms l.
Proof.
  intros [SI I U Hn Hr Hop] (S1 & S2 & S3 & S4) Hf.
  destruct (mem_inv_writes t m' ms l f I (S4 _ (mi_wf _ _ _ I)) S2 S1 S3) as [I' Eo].
  - intros m Hm. assert (forall q, q ∈ tm_own (mm t) m -> q <> f) as H.
    { intros q Hq ->. apply Hf, elem_of_app. left. by eapply pool_in. }
    split; [intros ->; by apply (H (tm_dir m)); [left|]|]. intros Hq. apply (H f); [|done]. right. apply elem_of_app. by left.
  - split; [|unfold pool; by rewrite Eo]. split; [by eapply inv_ext; [..|exact SI]|exact I'|exact U|exact Hn|exact Hr|exact Hop].
Qed.

(** ** Registers and messages *)

(** Tasks and memory do not notice what is in a processor's registers, what has been
    printed, and which processors are marked as started. *)
Lemma machine_view K t t' ms l :
  machine_ok K t ms l -> same_mem (mm t) (mm t') -> tasks t' = tasks t -> sched_inv t' -> unlocked t' ->
  ncpu t' = ncpu t -> length (cpus t') = length (cpus t) -> user_sizes t' = user_sizes t ->
  machine_ok K t' ms l /\ pool (mm t') ms l = pool (mm t) ms l.
Proof.
  intros [SI I U N R O] HM Et SI' U' En El Ez. destruct (mem_inv_view t t' ms l I HM) as [I' E]; [intros p; by rewrite Et|].
  split; [|unfold pool; by rewrite E]. split; [done|done|done|by rewrite En, El|by rewrite Ez|by rewrite Ez].
Qed.

(** Each task has a directory, at most 1024 tables and ten pages of stack. *)
Definition TASK_PAGES : nat := 1035.

Lemma own_length s m : (length (tm_own s m) <= TASK_PAGES)%nat.
Proof.
  unfold tm_own, own. cbn [length]. rewrite length_app, length_fmap. pose proof (tables_length (ram s) (tm_dir m)).
  assert (length (tm_map m) <= 10)%nat by (unfold tm_map; rewrite length_zip_with; apply Nat.le_min_l). unfold TASK_PAGES. lia.
Qed.

Lemma pool_length s ms l : (length (pool s ms l) <= TASK_PAGES * length ms + length l)%nat.
Proof.
  unfold pool. rewrite length_app. assert (length (ms ≫= tm_own s) <= TASK_PAGES * length ms)%nat; [|lia].
  induction ms as [|m ms IH]; [cbn; lia|]. cbn [mbind list_bind]. rewrite length_app. cbn [length]. pose proof (own_length s m).
  change (list_bind _ _ (tm_own s) ms) with (ms ≫= tm_own s). lia.
Qed.

(** With fewer than 32 tasks a task structure is free. *)
Lemma free_slot t ms l :
  mem_inv t ms l -> length (tasks t) = 32%nat -> (length ms < 32)%nat -> exists q u, zget (tasks t) q = Some u /\ state u = TASK_FREE.
Proof.
  intros I Hl Hm. destruct (free_task_dec t) as [H|H]; [exact H|]. exfalso.
  assert (seqZ 0 32 ⊆+ tm_pid <$> ms) as Hs%submseteq_length.
  { apply NoDup_submseteq; [apply NoDup_seqZ|]. intros i Hi%elem_of_seqZ. destruct (zget_is_Some (tasks t) i) as [u Hu]; [lia|].
    destruct (mi_all _ _ _ I i u Hu (H i u Hu)) as (m & Hin & <-). apply list_elem_of_fmap. by exists m. }
  rewrite length_seqZ, length_fmap in Hs. lia.
Qed.

(** A processor has looked at its devices, printed and loaded %cr3. *)
Section Near.
Context {W : Type} `{!Ports W}.
#[local] Abbreviation kern := (kern W).

Definition near (s s' : kern) : Prop :=
  exists m w g, s' = set_lap (k_lv s, m, w) s /\ m = upd_cfg g (mm (k_tk s)) /\ layout m = layout (mm (k_tk s)).

Lemma near_refl s : near s s.
Proof. exists (mm (k_tk s)), (k_w s), id. by destruct s as [ [ [ [] ] ] ]. Qed.

Lemma near_trans s s1 s2 : near s s1 -> near s1 s2 -> near s s2.
Proof.
  intros (m1 & w1 & g1 & -> & -> & L1) (m2 & w2 & g2 & -> & -> & L2). exists (upd_cfg (fun c => g2 (g1 c)) (mm (k_tk s))), w2, (fun c => g2 (g1 c)).
  split; [done|]. split; [done|]. etrans; [exact L2|exact L1].
Qed.

(** The code that does so. *)
Lemma wp_near_cfg g s (Q : unit -> kern -> Prop) :
  layout (upd_cfg g (mm (k_tk s))) = layout (mm (k_tk s)) ->
  (forall s', near s s' -> Q tt s') -> wp (on_kmm (modify (upd_cfg g))) s Q.
Proof.
  intros Hg HQ. apply wp_zoom, wp_zoom. wp_step. apply HQ. exists (upd_cfg g (mm (k_tk s))), (k_w s), g. by destruct s.
Qed.

Lemma wp_near_kprintk f a s (Q : unit -> kern -> Prop) : (forall s', near s s' -> Q tt s') -> wp (kprintk f a) s Q.
Proof. apply (wp_near_cfg (log_console (f, a))). done. Qed.

Lemma near_machine K s s' ms l :
  near s s' -> machine_ok K (k_tk s) ms l -> machine_ok K (k_tk s') ms l /\ pool (mm (k_tk s')) ms l = pool (mm (k_tk s)) ms l.
Proof.
  intros (m & w & g & -> & -> & HL) Hok. apply machine_view; try done; [|by eapply inv_ext; [..|apply Hok]|apply Hok].
  exists g. split; [done|]. by rewrite <- HL.
Qed.

Lemma near_cpunum s s' : near s s' -> cpunum (k_tk s') = cpunum (k_tk s).
Proof. intros (m & w & g & -> & _ & HL). unfold cpunum. cbn. by rewrite (layout_ctx _ _ HL). Qed.
End Near.

(** ** Another processor *)

Section Boot.
Context {W : Type} `{!Ports W} `{!ApicRegs W} `{!CpuView W} `{!ApicView W} `{!KbdLaws W} `{!Nvram W} `{!ApicDelivers W}.
Context (K : ksyms) (A : isrs) (L : links) (fuel : nat).
Context (Hleft : forall w : W, (ad_left w < fuel)%nat).
#[local] Abbreviation kern := (kern W).

Section Aps.
(** The local APIC is mapped. *)
Context (lv : lapic_vars) (Hlv : lapic lv <> 0) (Hla : lapicaddr lv <> 0) (HK : linked (ksyms_at K lv)).
#[local] Abbreviation K' := (ksyms_at K lv).

Lemma wp_near_lapic_init s (Q : unit -> kern -> Prop) :
  k_lv s = lv -> (forall s', near s s' -> Q tt s') -> wp (k_lapic_init fuel) s Q.
Proof.
  intros Hk HQ. unfold k_lapic_init. wp_step. apply wp_zoom. wp_step. apply wp_zoom. cbn [k_lv set_tk k_tk k_w]. rewrite Hk.
  apply wp_lapic_init; [exact Hla|exact Hleft|]. destruct (Z.eqb_spec (lapic lv) 0); [done|]. intros w'. apply HQ.
  exists (mm (k_tk s)), w', id. split; [rewrite Hk; by destruct s as [ [ [ [] ] ] ]|]. split; [by destruct s as [ [ [ [] ] ] ]|done].
Qed.

Lemma wp_near_cpunum s (Q : Z -> kern -> Prop) :
  k_lv s = lv -> (forall s', near s s' -> av_cpu (k_w s') = av_cpu (k_w s) -> Q (av_cpu (k_w s)) s') -> wp (on_lap Lapic.cpunum) s Q.
Proof.
  intros Hk HQ. apply wp_zoom. rewrite Hk. apply wp_lap_cpunum; [exact Hlv|]. intros w' Hw. apply HQ; [|exact Hw].
  exists (mm (k_tk s)), w', id. split; [rewrite Hk; by destruct s as [ [ [ [] ] ] ]|]. split; [by destruct s as [ [ [ [] ] ] ]|done].
Qed.

(** One more task, and nothing else. *)
Record grown (s : kern) (ms : list tmem) (l : list Z) (s' : kern) (m : tmem) (l' : list Z) : Prop := {
  gr_mem : mem_inv (k_tk s') (m :: ms) l';
  gr_pool : pool (mm (k_tk s')) (m :: ms) l' ≡ₚ pool (mm (k_tk s)) ms l;
  gr_regions : tm_regions m = user_regions K' (user_sizes (k_tk s));
  gr_unlocked : unlocked (k_tk s');
  gr_sizes : user_sizes (k_tk s') = user_sizes (k_tk s);
  gr_cpus : ncpu (k_tk s') = ncpu (k_tk s) /\ length (cpus (k_tk s')) = length (cpus (k_tk s));
  gr_board : same_board (k_tk s) (k_tk s');
  gr_dev : k_lv s' = k_lv s /\ k_scr s' = k_scr s /\ k_kbd s' = k_kbd s /\ trap_hnd s' = trap_hnd s
}.

Lemma wp_mp_setup s ms l c :
  k_lv s = lv -> machine_ok K' (k_tk s) ms l -> (80 <= length l)%nat -> (length ms < 32)%nat ->
  zget (cpus (k_tk s)) (cpunum (k_tk s)) = Some c -> cpu_task c = None -> percpu_ok (k_tk s) c ->
  wp (mp_setup K A fuel) s (fun _ s' => exists m l', grown s ms l s' m l').
Proof.
  intros Hk Hok Hl Hm Hc Hno Hpc. destruct (mi_placed _ _ _ (mk_mem _ _ _ _ Hok)) as (_ & _ & P3 & _).
  unfold mp_setup. wp_step. apply wp_zoom, wp_zoom. wp_step. wp_step. apply wp_zoom, wp_zoom. apply wp_PADDR; [exact P3|].
  replace (set_tk _ _) with s by (by destruct s as [ [] ]). wp_step. unfold lcr3. apply wp_near_cfg; [done|]. intros s1 N1.
  wp_step. apply wp_near_cpunum; [by destruct N1 as (? & ? & ? & -> & _)|]. intros s2 N2 _.
  wp_step. apply wp_near_kprintk. intros s3 N3. pose proof (near_trans _ _ _ (near_trans _ _ _ N1 N2) N3) as N. clear s1 s2 N1 N2 N3.
  wp_step. apply wp_near_lapic_init; [by destruct N as (? & ? & ? & -> & _)|]. intros s4 N4. pose proof (near_trans _ _ _ N N4) as N5. clear s3 N N4.
  destruct (near_machine K' _ _ _ _ N5 Hok) as [Hok5 E5]. pose proof (near_cpunum _ _ N5) as C5.
  destruct N5 as (m5 & w5 & g5 & -> & Em5 & HL5). set (s5 := set_lap _ s) in *. unfold k_task_init_percpu. wp_step. wp_step. wp_step. apply wp_zoom.
  change (k_lv s5) with (k_lv s). rewrite Hk. change (cpus (k_tk s)) with (cpus (k_tk s5)) in Hc. rewrite <- C5 in Hc.
  pose proof Hok5 as [SI5 I5 U5 N5 R5 O5].
  eapply wp_mono; [apply (wp_task_init_percpu K' (k_tk s5) ms l c HK R5 I5 U5 (si_tasks _ _ SI5) Hl Hc Hno Hpc)|].
  { apply (free_slot _ ms l I5); [apply SI5|exact Hm]. }
  intros u t (m & l' & I6 & HP6 & Hr6 & U6 & Z6 & N6 & G6 & B6). wp_step. wp_step. wp_step. apply wp_zoom. cbn [k_tk set_idtr set_tk].
  assert (exists c', zget (cpus t) (cpunum t) = Some c') as (c' & Hc').
  { apply zget_is_Some. rewrite G6. unfold cpunum at 1 2. rewrite (layout_ctx _ _ (proj2 (proj2 B6))). exact (zget_Some_range _ _ _ Hc). }
  unfold xchg_status. wp_step. eapply wp_thiscpu; [exact Hc'|]. wp_step. eapply wp_eq; [by apply upd_thiscpu_eq|]. wp_step. wp_step.
  set (t' := set_cpus _ t). destruct (mem_inv_view t t' (m :: ms) l' I6 (same_mem_refl _)) as [I7 E7]; [done|]. exists m, l'. split; try done.
  - change (pool (mm t') (m :: ms) l') with (pool (mm t) (m :: ms) l'). etrans; [exact HP6|]. by rewrite E5.
  - split; [exact N6|]. etrans; [apply length_insert|exact G6].
  - destruct B6 as (B1 & B2 & B3). split_and!; [exact B1|exact B2|]. etrans; [exact B3|exact HL5].
Qed.

(** On the other processor's registers, and back on ours. *)
Lemma load_same_mem r (s : kern) : same_mem (mm (k_tk s)) (mm (k_tk (load_regs r s))).
Proof. eexists. split; [reflexivity|]. by destruct s as [ [ [ [] ] ] ]. Qed.

Lemma load_machine r (s : kern) ms l :
  machine_ok K' (k_tk s) ms l ->
  machine_ok K' (k_tk (load_regs r s)) ms l /\ pool (mm (k_tk (load_regs r s))) ms l = pool (mm (k_tk s)) ms l.
Proof.
  intros Hok. apply (machine_view K' (k_tk s)); try done; [apply load_same_mem|by eapply inv_ext; [..|apply Hok]|apply Hok].
Qed.

Lemma load_grown (s : kern) r w w2 ms l s2 m l' :
  grown (load_regs r (set_w w s)) ms l s2 m l' ->
  pool (mm (k_tk (load_regs r (set_w w s)))) ms l = pool (mm (k_tk s)) ms l ->
  grown s ms l (load_regs (save_regs s) (set_w w2 s2)) m l'.
Proof.
  intros [G1 G2 G3 G4 G5 G6 G7 G8] Ep. set (s3 := load_regs _ (set_w w2 s2)).
  destruct (mem_inv_view (k_tk s2) (k_tk s3) (m :: ms) l' G1 (load_same_mem (save_regs s) (set_w w2 s2))) as [I3 _]; [done|].
  split; try done. destruct G7 as (B1 & B2 & B3). split_and!; [exact B1|exact B2|]. unfold layout in *. cbn [fst snd] in *.
  injection B3 as H1 H2 H3 _. f_equal; f_equal; [f_equal; assumption|assumption].
Qed.

Lemma wp_ap_grown r s ms l c :
  k_lv s = lv -> machine_ok K' (k_tk s) ms l -> (80 <= length l)%nat -> (length ms < 32)%nat ->
  zget (cpus (k_tk s)) (ctx_cpu (r_ctx r)) = Some c -> cpu_task c = None -> percpu_ok (k_tk s) c ->
  wp (as_cpu r (mp_setup K A fuel)) s (fun _ s' => exists m l', grown s ms l s' m l').
Proof.
  intros Hk Hok Hl Hm Hc Hno Hpc. unfold as_cpu. wp_step. wp_step. wp_step. wp_step.
  set (w1 := view_cpu _ _). destruct (load_machine r (set_w w1 s) ms l Hok) as [Hok1 E1]. wp_step.
  eapply wp_mono; [by apply (wp_mp_setup _ ms l c)|]. intros u s2 (m & l' & G). wp_step. exists m, l'.
  by eapply load_grown.
Qed.

(** *** The processors that are up *)

Context (b np : Z) (P : list Z).

(** The kernel in order with at most [n] tasks, which share the pages [P] with the free
    list; the boot processor [b] has its task. *)
Record fleet (n : nat) (s : kern) : Prop := {
  fl_ok : exists ms l, kernel_ok K' s ms l /\ pool (mm (k_tk s)) ms l ≡ₚ P /\ (length ms <= n)%nat;
  fl_sizes : user_sizes (k_tk s) = program_sizes K';
  fl_lv : k_lv s = lv;
  fl_len : length (cpus (k_tk s)) = 8%nat;
  fl_boot : exists b, zget (cpus (k_tk s)) (bootcpu (k_tk s)) = Some b;
  fl_gdt : Z.shiftr GD_TSS0 3 + 8 <= Z.of_nat (length (gdt (k_tk s)));
  fl_pages : npages (mm (k_tk s)) = np;
  fl_me : exists c p, zget (cpus (k_tk s)) b = Some c /\ cpu_task c = Some p
}.

Lemma fleet_more n n' s : (n <= n')%nat -> fleet n s -> fleet n' s.
Proof. intros Hn [ (ms & l & H1 & H2 & H3) ? ? ? ? ? ? ?]. split; try done. exists ms, l. split_and!; [done|done|lia]. Qed.

Lemma near_fleet n s s' : near s s' -> fleet n s -> fleet n s'.
Proof.
  intros N [ (ms & l & [O1 O2 O3 O4] & H2 & H3) F2 F3 F4 F5 F6 F7 F8]. destruct (near_machine K' _ _ _ _ N O1) as [O1' E].
  destruct N as (m & w & g & -> & -> & HL). split; try done.
  - exists ms, l. split; [by split|]. by rewrite E.
  - rewrite <- F7. unfold layout in HL. by injection HL.
Qed.

Lemma scribbled_fleet n f m w s :
  fleet n s -> scribbled f (mm (k_tk s)) m -> f ∉ P -> fleet n (set_lap (lv, m, w) s).
Proof.
  intros [ (ms & l & [O1 O2 O3 O4] & H2 & H3) F2 F3 F4 F5 F6 F7 F8] S Hf. destruct (machine_scribbled K' _ ms l f m O1 S) as [O1' E].
  { by rewrite H2. }
  split; try done.
  - exists ms, l. split; [by split|]. split; [|exact H3]. change (pool m ms l ≡ₚ P). by rewrite E.
  - unfold npages. cbn. rewrite (proj1 S). exact F7.
Qed.

Lemma grown_fleet n s ms l s' m l' :
  fleet n s -> kernel_ok K' s ms l -> pool (mm (k_tk s)) ms l ≡ₚ P -> (length ms <= n)%nat ->
  grown s ms l s' m l' -> sched_inv (k_tk s') -> zget (cpus (k_tk s')) b = zget (cpus (k_tk s)) b -> fleet (S n) s'.
Proof.
  intros [_ F2 F3 F4 F5 F6 F7 F8] [ [O1 O2 O3 O4 O5 O6] S1 S2 S3] HP Hn [G1 G2 G3 G4 G5 [G6 G6'] (B1 & B2 & B3) (D1 & D2 & D3 & D4)] SI Eb.
  split; try congruence.
  - exists (m :: ms), l'. split; [|split; [by rewrite G2|cbn [length]; lia] ]. split; [|by rewrite D2|by rewrite D3|by rewrite D4].
    split; [done|done|done|by rewrite G6, G6'|by rewrite G5|]. rewrite G5. intros m' [->|Hm]%elem_of_cons; [exact G3|by apply O6].
  - rewrite B1. destruct F5 as (c & Hc). apply zget_is_Some. rewrite G6'. by eapply zget_Some_range.
  - rewrite <- F7. unfold layout in B3. by injection B3.
  - by rewrite Eb.
Qed.

Context (ap_regs : Z -> cpu_regs) (Hap : forall i, ctx_cpu (r_ctx (ap_regs i)) = i).
#[local] Abbreviation ap_run := (fun i => as_cpu (ap_regs i) (mp_setup K A fuel)).

Lemma wp_fleet_ap i n s c :
  up b s -> fleet n s -> i <> b -> 0 <= i < ncpu (k_tk s) -> zget (cpus (k_tk s)) i = Some c -> unused c ->
  (TASK_PAGES * n + 80 <= length P)%nat -> (n < 32)%nat ->
  wp (ap_run i) s (fun _ s' => fleet (S n) s' /\ up b s' /\ other_cpus i s s'
    /\ exists c', zget (cpus (k_tk s')) i = Some c' /\ ready c').
Proof.
  intros U F Hne Hi Hc Un Hroom Hn. pose proof F as [ (ms & l & Hok & HP & Hms) F2 F3 F4 F5 F6 F7 F8].
  pose proof (pool_length (mm (k_tk s)) ms l) as Hlen. rewrite HP in Hlen. pose proof (zget_Some_range _ _ _ Hc) as Hr.
  eapply wp_mono; [eapply (wp_and_safe _ _ _ _ (fun _ => False)); [apply (wp_ap_grown (ap_regs i) s ms l c F3)|by apply (safe_ap_run K A fuel ap_regs Hap b i s c)]|].
  - apply Hok.
  - unfold TASK_PAGES in *. nia.
  - lia.
  - by rewrite Hap.
  - apply Un.
  - split; [|exact F5]. rewrite (up_id b s U i c Hi Hc). assert (0 <= Z.shiftr GD_TSS0 3) by done. lia.
  - intros u s' [(m & l' & G) (U' & O & H)]. split; [|by split]. eapply grown_fleet; [exact F|exact Hok|exact HP|exact Hms|exact G|apply U'|].
    destruct O as (_ & _ & O). apply O. by intros ->.
Qed.

Definition room (n : nat) : Prop := (TASK_PAGES * n + 80 <= length P)%nat /\ (n < 32)%nat.

Lemma wp_wait_started i n s :
  up b s -> fleet n s -> i <> b -> 0 <= i < ncpu (k_tk s) -> room n ->
  wp (wait_started ap_run i) s (fun _ s' => fleet (S n) s' /\ up b s').
Proof.
  intros U F Hne Hi [Hr Hn]. pose proof F as [ (ms & l & Hok & _) _ _ _ _ _ _ _].
  pose proof (mk_ncpu _ _ _ _ (ko_machine _ _ _ _ Hok)) as HN. destruct (zget_is_Some (cpus (k_tk s)) i) as [c Hc]; [lia|].
  unfold wait_started. wp_step. apply wp_zoom. eapply wp_eq; [by apply get_cpu_eq|]. replace (set_tk _ _) with s by (by destruct s).
  destruct (Z.eqb_spec (cpu_status c) CPU_STARTED) as [E|E].
  - wp_step. split; [|exact U]. apply (fleet_more n); [lia|exact F].
  - wp_step. eapply wp_mono; [apply (wp_fleet_ap i n s c); try done; by apply (up_unused b s U i)|].
    intros u s' (F' & U' & _ & c' & Hc' & [Hst _]). wp_step. apply wp_zoom. eapply wp_eq; [by apply get_cpu_eq|].
    replace (set_tk _ _) with s' by (by destruct s'). rewrite Hst, Z.eqb_refl. by wp_step.
Qed.

(** The warm start vector and the messages. *)
Lemma wp_startap n s a x (Q : unit -> kern -> Prop) :
  fleet n s -> 0 < np -> 0 ∉ P -> (forall s', fleet n s' -> Q tt s') -> wp (on_lap (lapic_startap a x)) s Q.
Proof.
  intros F Hp H0 HQ. assert (npages (mm (k_tk s)) = np) as Hn by apply F. apply wp_zoom. rewrite (fl_lv _ _ F).
  unfold lapic_startap. wp_step. apply wp_zoom. wp_step. apply wp_outb. apply wp_outb. wp_step. apply wp_zoom, wp_zoom. cbn [fst snd].
  wp_step. change (Z.lor (Z.shiftl 0x40 4) 0x67) with 0x467. apply wp_KADDR; [lia|rewrite PGNUM_div; change (0x467 / 4096) with 0; lia|].
  wp_step. apply (wp_scribble16 0 0x467); [lia|lia|lia|]. intros m1 S1.
  apply (wp_scribble16 0 0x469); [unfold npages; rewrite (proj1 S1); unfold npages in Hn; lia|lia|lia|]. intros m2 S2.
  assert (scribbled 0 (mm (k_tk s)) m2) as S by (by etrans). cbn [fst snd]. unfold send_startup.
  repeat first [wp_step | apply wp_reg_write; [exact Hlv|]; intros ?]. apply HQ. by eapply scribbled_fleet.
Qed.

Lemma wp_boot_ap i n s :
  up b (bk s) -> fleet n (bk s) -> 0 <= i < ncpu (k_tk (bk s)) -> room n -> 0 < np -> 0 ∉ P ->
  wp (boot_ap K ap_run i) s (fun _ s' => fleet (S n) (bk s') /\ up b (bk s') /\ ncpu (k_tk (bk s')) = ncpu (k_tk (bk s))).
Proof.
  intros U F Hi Hr Hp H0. pose proof F as [ (ms & l & Hok & _) _ F3 _ _ _ _ _].
  pose proof (mk_ncpu _ _ _ _ (ko_machine _ _ _ _ Hok)) as HN. destruct (zget_is_Some (cpus (k_tk (bk s))) i) as [c Hc]; [lia|].
  eapply wp_mono; [eapply (wp_and_safe _ _ (fun _ s' => fleet (S n) (bk s')) _ (fun _ => False)); [|by apply (safe_boot_ap K A fuel ap_regs Hap b i s)]|].
  2: { intros u s' (F' & U' & (N' & _) & _). done. }
  unfold boot_ap. wp_step. apply wp_zoom, wp_zoom. eapply wp_eq; [by apply get_cpu_eq|]. cbn [bk].
  replace (set_tk _ (bk s)) with (bk s) by (by destruct (bk s)). replace (BState _ _ _) with s by (by destruct s).
  wp_step. apply wp_zoom. apply wp_near_cpunum; [exact F3|]. intros k1 N1 V1. pose proof (near_fleet _ _ _ N1 F) as F1.
  assert (same_kern (bk s) k1) as E1.
  { destruct N1 as (m1 & w1 & g1 & -> & _ & HL). apply same_set_lap. split; [|split; [exact V1|done] ]. cbn. exact (layout_ctx _ _ HL). }
  destruct (Z.eqb_spec (cpu_id c) (av_cpu (k_w (bk s)))) as [Eq|Ne]; [wp_step; apply (fleet_more n); [lia|exact F1]|].
  rewrite (up_id b _ U i c Hi Hc), (up_view b _ U) in Ne. wp_step. wp_step. wp_step. apply wp_zoom. cbn [bk b_ismp mpentry_kstack].
  eapply wp_mono; [apply (wp_pres same_kern); [apply kpres_lap, pres_lapic_startap|]; by eapply (wp_startap n k1 _ _ (fun _ s' => fleet n s')); eauto|].
  intros v k2 [F2 E2]. cbn [bk b_ismp mpentry_kstack]. apply wp_zoom. cbn [bk]. assert (same_kern (bk s) k2) as E by (by etrans).
  eapply wp_mono; [apply (wp_wait_started i n k2); [by eapply up_same|done|done| |done]|by intros u k3 []].
  by destruct E as [ (_ & _ & _ & ->) _].
Qed.

Lemma wp_boot_aps_loop j i n s :
  up b (bk s) -> fleet n (bk s) -> 0 <= i -> i + Z.of_nat j = ncpu (k_tk (bk s)) -> room (n + j) -> 0 < np -> 0 ∉ P ->
  wp (boot_aps_loop K ap_run j i) s (fun _ s' => fleet (n + j) (bk s')).
Proof.
  revert i n s. induction j as [|j IH]; intros i n s U F Hi Hj Hr Hp H0; cbn [boot_aps_loop]; [wp_step; by rewrite Nat.add_0_r|].
  wp_step. eapply wp_mono; [apply (wp_boot_ap i n s); try done; [lia|unfold room in *; nia]|]. intros u s' (F' & U' & N').
  replace (n + S j)%nat with (S n + j)%nat by lia. apply IH; try done; [lia|rewrite N'; lia|]. by replace (S n + j)%nat with (n + S j)%nat by lia.
Qed.

(** The start-up code of the other processors is part of the kernel and fits in its
    page. *)
Definition entry_fits : Prop :=
  KERNBASE + MPENTRY_PADDR <= mpentry_start L <= mpentry_end L /\ mpentry_end L - mpentry_start L <= 4096
  /\ mpentry_end L <= KERNBASE + np * 4096.

Lemma wp_boot_aps n s :
  up b (bk s) -> fleet n (bk s) -> entry_fits -> room (n + Z.to_nat (ncpu (k_tk (bk s)))) -> 7 < np -> 0 ∉ P -> 7 ∉ P ->
  wp (boot_aps K L ap_run) s (fun _ s' => fleet (n + Z.to_nat (ncpu (k_tk (bk s)))) (bk s')).
Proof.
  intros U F (E1 & E2 & E3) Hr Hp H0 H7. assert (npages (mm (k_tk (bk s))) = np) as Hn by apply F. pose proof F as [ (ms & l & Hok & _) _ F3 _ _ _ _ _].
  pose proof (mk_ncpu _ _ _ _ (ko_machine _ _ _ _ Hok)) as HN. unfold boot_aps. wp_step. apply wp_zoom.
  eapply wp_mono; [apply (wp_pres same_kern _ _ (fun _ k => fleet n k)); [apply kpres_mm; by ctx_tac|]|].
  - apply wp_zoom, wp_zoom. wp_step. change MPENTRY_PADDR with (7 * 4096 + 0) in *.
    apply wp_KADDR; [lia|rewrite PGNUM_div; change ((7 * 4096 + 0) / 4096) with 7; lia|]. unfold kmemmove.
    destruct (Z.ltb_spec (mpentry_start L) (7 * 4096 + 0 + KERNBASE)); [lia|]. cbn [andb].
    apply wp_scribble_move; [lia|lia|lia|unfold KERNBASE in *; lia|lia|]. intros m S.
    replace (set_tk _ (bk s)) with (set_lap (lv, m, k_w (bk s)) (bk s)) by (rewrite <- F3; by destruct (bk s)). by eapply scribbled_fleet.
  - intros u k [F1 E]. pose proof (up_same b _ _ E U) as U1. destruct E as [ (_ & _ & _ & EN) _]. wp_step. apply wp_zoom, wp_zoom. wp_step.
    cbn [bk]. replace (set_tk _ k) with k by (by destruct k). rewrite EN. cbn [b_ismp mpentry_kstack].
    apply wp_boot_aps_loop; try done; [cbn [bk]; rewrite EN; lia|lia].
Qed.
End Aps.

(** ** Stage by stage *)

Lemma leaves_wp {S X Y} (m : M S X) (f : X -> M S Y) s (R : X -> S -> Prop) (I : S -> Prop) :
  wp m s R -> (forall x s', R x s' -> leaves (f x) s' I) -> leaves (m ≫= f) s I.
Proof. unfold wp, leaves, mbind, M_bind. intros Hm Hf. destruct (m s) as [a s'|g s'|e]; [by apply Hf|done..]. Qed.

Lemma leaves_on_k {X Y} (m : M kern X) (f : X -> M bstate Y) s (R : X -> kern -> Prop) (I : bstate -> Prop) :
  wp m (bk s) R -> (forall x s', R x (bk s') -> leaves (f x) s' I) -> leaves (on_k m ≫= f) s I.
Proof. intros Hm Hf. apply (leaves_wp _ _ _ (fun x s' => R x (bk s'))); [apply wp_zoom; exact Hm|]. intros x s' H. by apply Hf. Qed.

Lemma comes_on_k {X Y} (m : M kern X) (f : X -> M bstate Y) m' s (R : X -> kern -> Prop) (I : bstate -> Prop) :
  wp m (bk s) R -> (forall x s', R x (bk s') -> comes_to (f x) m' s' I) -> comes_to (on_k m ≫= f) m' s I.
Proof. intros Hm Hf. apply (comes_bind _ _ _ _ (fun x s' => R x (bk s'))); [apply wp_zoom; exact Hm|]. intros x s' H. by apply Hf. Qed.

(** *** Memory and processors are known *)

(** What does not concern memory. *)
Record devices_cold (s : kern) : Prop := {
  dc_gdt : Z.shiftr GD_TSS0 3 + 8 <= Z.of_nat (length (gdt (k_tk s)));
  dc_traps : length (idt s) = 256%nat /\ length (trap_hnd s) = 256%nat;
  dc_kbd : exists q, ring (k_kbd s) q;
  dc_lapic : lapic (k_lv s) = 0
}.

Section Stages.
Context (rom : Z -> Z) (mp conf la : Z) (es : list mpentry) (n b nb np : Z) (ram0 : gmap Z Z).
Context (Hnb : 78 <= nb <= 160) (T : mp_tables rom nb mp conf la es) (Hscan : scan es 0 0 = (n, b)) (Hb : 0 <= b < 8)
        (Hbn : b < n).
Context (Hrom : forall a, span nb a 1 -> rd8 ram0 a = rom a).
#[local] Abbreviation e := (end_va L).
#[local] Abbreviation pk := (percpu_kstacks K).

(** After [mem_init]. *)
Record mem_up (s : kern) (l : list Z) : Prop := {
  mu_mem : mem_started e pk nb np ram0 (mm (k_tk s)) l;
  mu_counted : kcounted b s;
  mu_cpus : cpus (k_tk s) = replicate 8 cpu0 /\ ncpu (k_tk s) = 0;
  mu_dev : devices_cold s;
  mu_scr : screen_wf (k_scr s)
}.

(** The firmware's pages are as it left them. *)
Lemma started_shows s l : 256 < np -> KERNBASE + 256 * 4096 <= e -> mem_started e pk nb np ram0 s l -> shows rom nb s.
Proof.
  intros Hn He [M1 _ _ _ M5 _ _ _ _]. split; [by rewrite M1|]. intros a Ha. rewrite <- Hrom by done. unfold rd8. f_equal.
  assert (a - a mod 4 = a / 4096 * 4096 + (a mod 4096 - a mod 4)) as -> by (Z.to_euclidean_division_equations; lia).
  assert (a / 4096 = 0 \/ nb <= a / 4096 < 256) as Hq by (unfold span in Ha; Z.to_euclidean_division_equations; lia).
  assert (256 <= image_end e) as Hi by (unfold image_end; Z.to_euclidean_division_equations; lia).
  assert (image_end e < first_free e np) as Hf by (unfold first_free; Z.to_euclidean_division_equations; lia).
  apply M5; [unfold usable; lia|lia|]. Z.to_euclidean_division_equations; lia.
Qed.

Lemma printed_mapped s s' l d : printed s s' -> kern_mapped pk s l d -> kern_mapped pk s' l d.
Proof.
  intros (log & ->) [K1 K2 K3 K4 K5 K6 K7]. split; try done.
  - destruct K1. by split.
  - destruct K2. by split.
Qed.

(** [mem_init]. *)
Lemma wp_stage_mem (s : kern) :
  kcounted b s -> cpus (k_tk s) = replicate 8 cpu0 -> ncpu (k_tk s) = 0 -> devices_cold s -> screen_wf (k_scr s) ->
  cold (mm (k_tk s)) -> ram (mm (k_tk s)) = ram0 -> nb = nv_word (k_w s) NVRAM_BASELO / 4 ->
  np = 256 + nv_word (k_w s) NVRAM_EXTLO / 4 -> 256 < np ->
  k_garbage K <> 0 -> KERNBASE <= pk -> pk + 8 * KSTKSIZE <= 4294967296 -> pk mod 4096 = 0 ->
  KERNBASE + 256 * 4096 <= e -> first_free e np + 80 <= np ->
  wp (on_mm_w (mem_init e pk (k_garbage K))) s (fun _ s' => exists l, mem_up s' l).
Proof.
  intros C Hc Hn D Sc Cold Er Eb En Hnp Hg Hk Hk' Hka He Hf.
  eapply wp_mono; [apply (wp_pres same_kern _ _ (fun _ s' => exists m w l, s' = set_w w (set_tk (set_mm m (k_tk s)) s) /\ mem_started e pk nb np ram0 m l));
    [apply kpres_mm_w, pres_mem_init|]|].
  - apply wp_zoom. subst nb np. rewrite <- Er. eapply wp_mono; [apply (wp_mem_init e pk (k_garbage K) (mm (k_tk s)) (k_w s)); try done; lia|].
    intros u [m w] (l & M). by exists m, w, l.
  - intros u s' [(m & w & l & -> & M) E]. exists l. split; [exact M|by eapply kcounted_same|done| |done].
    destruct D as [D1 D2 D3 D4]. by split.
Qed.

(** After [mp_init]. *)
Record probed (s : kern) (l : list Z) : Prop := {
  pb_mem : exists m, mem_started e pk nb np ram0 m l /\ printed m (mm (k_tk s));
  pb_counted : kcounted b s;
  pb_ncpu : ncpu (k_tk s) = n /\ bootcpu (k_tk s) = b;
  pb_others : forall i c, i <> b -> zget (cpus (k_tk s)) i = Some c -> cpu_status c <> CPU_STARTED;
  pb_dev : devices_cold s;
  pb_lv : k_lv s = LV la 0;
  pb_scr : screen_wf (k_scr s)
}.

Lemma wp_stage_mp (s : bstate) l :
  256 < np -> KERNBASE + 256 * 4096 <= e -> mem_up (bk s) l -> wp (on_mp mp_init) s (fun _ s' => probed (bk s') l).
Proof.
  intros Hn He [M C [Hc Hz] D Sc]. pose proof (started_shows _ _ Hn He M) as Sh. apply wp_zoom.
  eapply wp_mono; [eapply (wp_and_safe _ _ _ _ (fun _ => False)); [apply (wp_mp_init rom nb ltac:(lia) mp conf la es T); try done|by apply (keeps_mp_init b)]|].
  - by rewrite Hc.
  - rewrite Hscan. cbn. unfold NCPU. lia.
  - intros u [ [t v] w] [[F1 F2 F3 F4 F5 F6 F7 F8] C']. cbn [fst snd] in *. rewrite Hscan in F2. injection F2 as En Eb. subst v.
    split; cbn [bk k_tk k_lv set_w set_lv set_tk lapic lapicaddr mp_lapicaddr]; try done.
    + by exists (mm (k_tk (bk s))).
    + rewrite Eb in F5. intros i c Hi Hci Hst. specialize (F5 i Hi). rewrite Hci, Hc in F5.
      destruct (zget (replicate 8 cpu0) i) as [c0|] eqn:E0; [|discriminate F5]. apply zget_elem_of, elem_of_replicate in E0 as [-> _].
      injection F5 as F5. rewrite Hst in F5. discriminate F5.
    + destruct D as [D1 D2 D3 D4]. split; [cbn; by rewrite F6|done|done|done].
    + by rewrite (dc_lapic _ D).
Qed.

(** After [lapic_init]: the free list [l'] is part of the list [l] from before. *)
Definition lv : lapic_vars := LV la (mmio_va 3).

Record apic_up (s : kern) (l l' : list Z) : Prop := {
  au_wf : mm_wf (mm (k_tk s)) l';
  au_placed : placed (mm (k_tk s));
  au_pages : npages (mm (k_tk s)) = np;
  au_list : (forall q, q ∈ l' -> q ∈ l) /\ (length l <= length l')%nat;
  au_counted : kcounted b s;
  au_ncpu : ncpu (k_tk s) = n /\ bootcpu (k_tk s) = b;
  au_others : forall i c, i <> b -> zget (cpus (k_tk s)) i = Some c -> cpu_status c <> CPU_STARTED;
  au_gdt : Z.shiftr GD_TSS0 3 + 8 <= Z.of_nat (length (gdt (k_tk s)));
  au_traps : length (idt s) = 256%nat /\ length (trap_hnd s) = 256%nat;
  au_kbd : exists q, ring (k_kbd s) q;
  au_lv : k_lv s = lv;
  au_scr : screen_wf (k_scr s)
}.

Lemma wp_stage_lapic s l : 0 < la <= 4294963200 -> probed s l -> wp (k_lapic_init fuel) s (fun _ s' => exists l', apic_up s' l l').
Proof.
  intros Hla [ (m0 & M & Pr) C N O D Hl Sc]. pose proof D as [D1 D2 D3 D4].
  eapply wp_mono; [apply (wp_pres same_kern _ _ (fun _ s' => exists m w l', s' = set_lap (lv, m, w) s /\ mm_wf m l' /\ layout m = layout (mm (k_tk s))
    /\ (forall q, q ∈ l' -> q ∈ l) /\ (length l <= length l')%nat)); [apply kpres_lapic_init|]|].
  - unfold k_lapic_init. wp_step. apply wp_zoom. wp_step. apply wp_zoom. replace (set_tk _ s) with s by (by destruct s). rewrite Hl.
    apply wp_lapic_init; [cbn; lia|exact Hleft|]. change (lapic (LV la 0) =? 0) with true. cbv iota. cbn [lapicaddr].
    eapply wp_mono; [apply (wp_mmio_lapic pk (mm (k_tk s)) l (image_end e)); [exact (printed_mapped _ _ _ _ Pr (ms_mapped _ _ _ _ _ _ _ M))| |lia]|].
    { destruct Pr as (log & ->). exact (ms_mmio _ _ _ _ _ _ _ M). }
    intros x m (-> & l' & H). split; [by vm_compute|]. intros w'. by exists m, w', l'.
  - intros u s' [(m & w & l' & -> & H1 & H2 & H3 & H4) E]. exists l'. split; try done.
    + apply (placed_layout (mm (k_tk s))); [exact (f_equal fst H2)|]. destruct Pr as (log & Ep). rewrite Ep. exact (ms_placed _ _ _ _ _ _ _ M).
    + cbn. transitivity (npages (mm (k_tk s))); [unfold layout in H2; by injection H2|]. destruct Pr as (log & Ep). rewrite Ep. exact (ms_npages _ _ _ _ _ _ _ M).
    + by eapply kcounted_same.
Qed.

(** After [task_init]: the free pages [P] are shared with the first task. *)
#[local] Abbreviation K' := (ksyms_at K lv).

Record tasked (P : list Z) (s : kern) : Prop := {
  ts_ok : exists m l, machine_ok K' (k_tk s) [m] l /\ pool (mm (k_tk s)) [m] l ≡ₚ P;
  ts_sizes : user_sizes (k_tk s) = program_sizes K';
  ts_up : up b s;
  ts_ncpu : ncpu (k_tk s) = n;
  ts_len : length (cpus (k_tk s)) = 8%nat;
  ts_boot : exists c, zget (cpus (k_tk s)) (bootcpu (k_tk s)) = Some c;
  ts_gdt : Z.shiftr GD_TSS0 3 + 8 <= Z.of_nat (length (gdt (k_tk s)));
  ts_pages : npages (mm (k_tk s)) = np;
  ts_me : exists c p, zget (cpus (k_tk s)) b = Some c /\ cpu_task c = Some p;
  ts_others : forall i c, i <> b -> zget (cpus (k_tk s)) i = Some c -> cpu_status c <> CPU_STARTED;
  ts_traps : length (idt s) = 256%nat /\ length (trap_hnd s) = 256%nat;
  ts_kbd : exists q, ring (k_kbd s) q;
  ts_lv : k_lv s = lv;
  ts_scr : screen_wf (k_scr s)
}.

Lemma scan_at_most : n <= NCPU.
Proof.
  assert (forall l m c, m <= NCPU -> fst (scan l m c) <= NCPU) as H.
  { induction l as [|[f|ty] l IH]; intros m c Hm; cbn [scan]; [done| |by apply IH]. apply IH.
    destruct (Z.ltb_spec m NCPU); [lia|done]. }
  specialize (H es 0 0 ltac:(done)). by rewrite Hscan in H.
Qed.

Lemma own_k_task_init : pres own_kern (k_task_init (W := W) K).
Proof. unfold k_task_init. apply pres_bind; [typeclasses eauto|by pres_tac|]. intros v. apply kpres_tk_own, own_task_init. Qed.

Lemma wp_stage_task s l P :
  linked K' -> Forall region_ok (user_regions K' (program_sizes K')) -> (80 <= length l)%nat ->
  apic_up s l P -> wp (k_task_init K) s (fun _ s' => tasked P s').
Proof.
  intros HK HR Hl [A1 A2 A3 [A4 A5] [C V] [N1 N2] O G T' Kb Hlv Sc]. pose proof scan_at_most as Hn8. unfold NCPU in Hn8.
  pose proof C as [C1 C2 C3 C4 C5]. destruct (zget_is_Some (cpus (k_tk s)) b) as [c Hc]; [lia|].
  assert (cpu_id c = b) as Hid by (apply C4; [lia|exact Hc]). assert (0 <= Z.shiftr GD_TSS0 3) by done.
  eapply wp_mono; [eapply (wp_and_safe _ _ _ _ (fun _ => False)); [apply (wp_pres own_kern _ _ (fun _ s' => exists t, s' = set_tk t s
    /\ ((exists m l', machine_ok K' t [m] l' /\ pool (mm t) [m] l' ≡ₚ P /\ window (user_regions K' (program_sizes K')) (mm t) (tm_dir m)) /\ first_task t
    /\ length (cpus t) = length (cpus (k_tk s)) /\ user_sizes t = program_sizes K' /\ same_board (k_tk s) t))); [apply own_k_task_init|]|]|].
  - unfold k_task_init. wp_step. wp_step. apply wp_zoom. rewrite Hlv. eapply wp_mono; [apply (wp_task_init K' (k_tk s) P c HK HR A1 A2); try done|].
    + lia.
    + by rewrite C2.
    + split; [rewrite Hid; lia|]. exists c. by rewrite N2.
    + lia.
    + intros u t H'. by exists t.
  - apply (safe_k_task_init K b s c C); [lia|exact V|exact Hc].
  - intros u s' [ [ (t & -> & (m & l' & M & HP & _) & (i & ci & ti & Hci & Hi & _) & Hlen & Hsz & B1 & B2 & B3) [ (E1 & E2 & E3 & E4) _] ] [U _] ].
    cbn [k_tk set_tk] in *. rewrite C2 in *. split; cbn [k_tk set_tk k_lv k_scr k_kbd idt trap_hnd]; try done.
    + by exists m, l'.
    + by rewrite E2.
    + by rewrite Hlen.
    + rewrite B1, N2. destruct (E4 c Hc) as (c' & Hc' & _). by exists c'.
    + by rewrite B2.
    + rewrite <- A3. unfold layout in B3. by injection B3.
    + exists ci, i. split; [|exact Hi]. by rewrite <- E1.
    + intros j cj Hj Hcj. rewrite E3 in Hcj by done. by apply (O j).
Qed.

(** After the trap table and the interrupt controllers. *)
Lemma tasked_fleet P s s' : tasked P s -> kept s s' -> (exists q, ring (k_kbd s') q) ->
  (forall i, 0 <= i < 256 -> zget (trap_hnd s') i = Some (handler_of i)) -> fleet lv b np P 1 s'.
Proof.
  intros [ (m & l & M & HP) T2 _ T4 T5 T6 T7 T8 T9 _ _ _ T13 T14] (E1 & E2 & E3) Hk Hh. split; rewrite ?E1; try done; [|congruence].
  exists [m], l. split; [|done]. split; [by rewrite E1|by rewrite E2|done|done].
Qed.

(** After [boot_aps]. *)
Record all_up (P : list Z) (k : nat) (s : kern) : Prop := {
  al_fleet : fleet lv b np P k s;
  al_me : cpunum (k_tk s) = b;
  al_ncpu : ncpu (k_tk s) = n;
  al_others : forall j, 0 <= j < n -> j <> b -> exists c, zget (cpus (k_tk s)) j = Some c /\ ready c
}.

Lemma near_all_up P k s s' : near s s' -> all_up P k s -> all_up P k s'.
Proof.
  intros N [F M C O]. pose proof (near_cpunum _ _ N) as E. pose proof (near_fleet lv b np P k _ _ N F) as F'.
  destruct N as (m & w & g & -> & _). split; [exact F'|by rewrite E|exact C|exact O].
Qed.

(** The boot processor's task has a directory. *)
Lemma all_up_task P k s : all_up P k s ->
  exists c p t, zget (cpus (k_tk s)) (cpunum (k_tk s)) = Some c /\ cpu_task c = Some p /\ zget (tasks (k_tk s)) p = Some t /\ KERNBASE <= pgdir t.
Proof.
  intros [F M C O]. destruct F as [ (ms & l & Hok & HP & Hk) _ _ _ _ _ _ (c & p & Hc & Hp)]. rewrite <- M in Hc.
  pose proof (ko_machine _ _ _ _ Hok) as Hm. pose proof (mk_mem _ _ _ _ Hm) as I.
  destruct (live_current _ (k_tk s) c p (mk_sched _ _ _ _ Hm) Hc Hp) as (_ & t & Ht & Hf & _).
  destruct (mi_all _ _ _ I p t Ht Hf) as (m & Hin & Ep). destruct (mi_ok _ _ _ I m Hin) as [_ (t' & Ht' & _ & Hd) Sp _ _].
  rewrite Ep in Ht'. assert (t' = t) as -> by congruence. exists c, p, t. split_and!; [exact Hc|exact Hp|exact Ht|].
  rewrite Hd. pose proof (dw_dir _ _ _ (sp_dir _ _ _ _ Sp)). unfold dirp, KERNBASE. lia.
Qed.

Lemma leaves_enter regs ef P k s : all_up P k s -> leaves (enter_user regs ef) s (fun s' => all_up P k s' /\ in_user s').
Proof.
  intros H. destruct (all_up_task P k s H) as (c & p & t & Hc & Hp & Ht & Hd). set (s0 := set_if true s).
  assert (all_up P k s0) as H0.
  { destruct H as [ [ (ms & l & [O1 O2 O3 O4] & H2) F2 F3 F4 F5 F6 F7 F8] M C O]. split; try done. split; try done. exists ms, l. by split. }
  set (s1 := set_lap (k_lv s0, upd_cfg (set_cr3 (u32 (pgdir t - KERNBASE))) (mm (k_tk s0)), k_w s0) s0).
  assert (near s0 s1) as N by (by eexists _, _, _). unfold enter_user.
  eapply leaves_step; [done|]. eapply leaves_step; [unfold on_tk, zoom; by erewrite thiscpu_eq by exact Hc|].
  eapply leaves_step; [by rewrite Hp|]. eapply leaves_step; [unfold on_tk, zoom; by erewrite get_task_eq by exact Ht|].
  eapply leaves_step; [unfold on_kmm, on_tk, on_mm, zoom, PADDR; by destruct (Z.ltb_spec (pgdir t) KERNBASE); [lia|]|].
  eapply (leaves_step _ _ _ tt s1); [by destruct s as [ [] ]|]. split; [by eapply near_all_up|]. split; [done|]. by exists c, p, t.
Qed.

(** *** From the first task to user mode *)

Context (ap_regs : Z -> cpu_regs) (Hap : forall i, ctx_cpu (r_ctx (ap_regs i)) = i) (regs_now : PushRegs) (eflags_now : Z).
Context (Hkb : forall w : W, (kb_pending w < fuel)%nat).
Context (HA : Forall (fun a => 0 < a < 4294967296) [Default_ISR A; GPFLT A; STACK_ISR A; PGFLT A; TIM_ISR A; KBD_Input A; SYSCALL A]).
#[local] Abbreviation ap_run := (fun i => as_cpu (ap_regs i) (mp_setup K A fuel)).

Lemma wp_same_kern {X} (m : M kern X) s0 s (Q : X -> kern -> Prop) :
  pres same_kern m -> same_kern s0 s -> wp m s Q -> wp m s (fun x s' => Q x s' /\ same_kern s0 s').
Proof. intros Hm E H. eapply wp_mono; [by apply (wp_pres same_kern)|]. intros x s' [H1 H2]. split; [exact H1|by etrans]. Qed.

Lemma wp_stage_aps P s0 s :
  tasked P s0 -> same_kern s0 (bk s) -> fleet lv b np P 1 (bk s) ->
  lapicaddr lv <> 0 -> linked K' -> entry_fits np -> room P (1 + Z.to_nat n) -> 7 < np -> 0 ∉ P -> 7 ∉ P ->
  wp (boot_aps K L ap_run) s (fun _ s' => all_up P (1 + Z.to_nat n) (bk s')).
Proof.
  intros T0 E F Hla HK He Hr Hp H0 H7. pose proof (up_same b _ _ E (ts_up _ _ T0)) as U. pose proof E as [ (_ & Ec & _ & En) _].
  assert (ncpu (k_tk (bk s)) = n) as Hn by (rewrite En; apply T0).
  assert (lapic lv <> 0) as Hl by discriminate.
  eapply wp_mono; [eapply (wp_and_safe _ _ _ _ (fun _ => False)); [eapply (wp_boot_aps lv Hl Hla HK b np P ap_regs Hap 1); try done; by rewrite Hn|
    apply (safe_boot_aps K A L fuel ap_regs Hap b s); [exact U|lia]]|].
  rewrite Hn. intros u s' [F' (U' & N' & C')]. split; [exact F'|apply U'|by rewrite N'|]. intros j Hj Hjb.
  destruct (C' ltac:(rewrite (fl_lv _ _ _ _ _ _ F); exact Hl) j ltac:(lia) Hjb) as (c & c' & Hc & Hc' & _ & R). exists c'. split; [exact Hc'|].
  apply R. rewrite Ec in Hc. by apply (ts_others _ _ T0 j).
Qed.

(** The messages and [enter_user]. *)
Lemma leaves_last P k s :
  all_up P k s ->
  leaves (kprintk "Kernel code base start=0x%08x to = 0x%08x" [stext L; etext L] ;;
          kprintk "Readonly data start=0x%08x to = 0x%08x" [etext L; rdata_end L] ;;
          kprintk "Kernel data base start=0x%08x to = 0x%08x" [data_start L; end_va L] ;;
          enter_user regs_now eflags_now) s (fun s' => all_up P k s' /\ in_user s').
Proof.
  intros H. do 3 (apply (leaves_wp _ _ _ (fun _ s' => all_up P k s')); [apply wp_near_kprintk; intros ? N; by eapply near_all_up|];
    clear H; intros _ ? H). by apply leaves_enter.
Qed.

Lemma leaves_zoom {S S' X} (v : S -> S') u (m : M S' X) s (I : S -> Prop) : leaves m (v s) (fun t => I (u t s)) -> leaves (zoom v u m) s I.
Proof. unfold leaves, zoom. by destruct (m (v s)). Qed.

(** The state in which [boot_aps] is called: [s0] is the state after [task_init]. *)
Definition before_aps (P : list Z) (s0 s : kern) : Prop :=
  tasked P s0 /\ same_kern s0 s /\ fleet lv b np P 1 s.

Lemma comes_wired {X} (m : M bstate X) P s :
  tasked P (bk s) ->
  comes_to (on_k (trap_init A) ;; on_k (on_pic pic_init) ;; on_k (kbd_init A fuel) ;; on_k (timer_init A) ;; on_k (syscall_init A) ;; m)
    m s (fun s1 => before_aps P (bk s) (bk s1)).
Proof.
  intros T0. pose proof T0 as [_ _ _ _ _ _ _ _ _ _ [L1 L2] (q & R) _ _].
  eapply comes_on_k; [apply wp_same_kern; [apply kpres_trap_init|reflexivity|by apply (wp_wire_traps A HA (bk s) q)]|]. intros _ s1 [W1 E1].
  eapply comes_on_k; [eapply wp_same_kern; [apply kpres_pic, pres_pic_init|exact E1|by eapply wp_wire_pic]|]. intros _ s2 [W2 E2].
  eapply comes_on_k; [eapply wp_same_kern; [apply kpres_kbd_init|exact E2|by eapply wp_wire_kbd]|]. intros _ s3 [W3 E3].
  eapply comes_on_k; [eapply wp_same_kern; [apply kpres_timer_init|exact E3|by eapply wp_wire_timer]|]. intros _ s4 [W4 E4].
  eapply comes_on_k; [eapply wp_same_kern; [apply kpres_syscall_init|exact E4|by eapply wp_wire_syscall]|]. intros _ s5 [W5 E5].
  pose proof (wired_all _ _ W5) as Hh. destruct W5 as (Kp & _ & Kb). exists s5. split; [done|]. split; [done|]. split; [done|].
  exact (tasked_fleet P _ _ T0 Kp Kb Hh).
Qed.

(** *** The free list after [mem_init] *)

Lemma started_usable s l q : mem_started e pk nb np ram0 s l -> q ∈ l -> usable e nb np q.
Proof.
  intros [_ M2 (free & _ & Hf & HP) _ _ _ _ _ _] Hq. assert (q ∈ image_end e :: free) as [->|H]%elem_of_cons.
  - rewrite <- HP. apply elem_of_app. by right.
  - by destruct (dw_live _ _ _ (km_dir _ _ _ _ M2)).
  - by apply Hf.
Qed.

Lemma started_length s l : mem_started e pk nb np ram0 s l -> np - first_free e np <= 1023 + Z.of_nat (length l).
Proof.
  intros [_ M2 (free & Hnd & Hf & HP) _ _ _ _ _ _]. apply Permutation_length in HP. rewrite length_app in HP. cbn [length] in HP.
  pose proof (tables_length (ram s) (image_end e)). assert (np - first_free e np <= Z.of_nat (length free)); [|lia].
  destruct (Z.le_gt_cases np (first_free e np)); [lia|].
  assert (seqZ (first_free e np) (np - first_free e np) ⊆+ free) as Hs%submseteq_length.
  { apply NoDup_submseteq; [apply NoDup_seqZ|]. intros i Hi%elem_of_seqZ. apply Hf. unfold usable. lia. }
  rewrite length_seqZ in Hs. lia.
Qed.

(** ** The kernel's image, and power-on *)

(** What the linker promises. *)
Record kernel_image : Prop := {
  ki_stacks : KERNBASE <= pk /\ pk + 8 * KSTKSIZE <= 4294967296 /\ pk mod 4096 = 0;
  ki_garbage : k_garbage K <> 0;
  ki_regions : Forall region_ok (user_regions K (program_sizes K));
  ki_program : forall f, image K (program_sizes K) f -> 256 <= f < image_end e;
  ki_entry : entry_fits np;
  ki_end : KERNBASE + 256 * 4096 <= e
}.

(** The machine when [kernel_main] starts, with room for the kernel, its tables and
    the tasks of all processors. *)
Record power_on (s : kern) : Prop := {
  po_cold : cold (mm (k_tk s));
  po_ram : ram (mm (k_tk s)) = ram0;
  po_base : nb = nv_word (k_w s) NVRAM_BASELO / 4;
  po_size : np = 256 + nv_word (k_w s) NVRAM_EXTLO / 4;
  po_room : first_free e np + 1035 * (n + 2) + 80 <= np;
  po_cpus : cpus (k_tk s) = replicate 8 cpu0 /\ ncpu (k_tk s) = 0;
  po_me : cpunum (k_tk s) = b /\ av_cpu (k_w s) = b;
  po_dev : devices_cold s;
  po_scr : cursor_ok (view_of (k_scr s)) /\ lock_free (screen_lock (k_scr s))
}.

Lemma power_on_counted s : power_on s -> kcounted b s.
Proof.
  intros [_ _ _ _ _ [Hc Hn] [H1 H2] _ _]. split; [|exact H2]. split; [|done|lia| |by rewrite Hc].
  - rewrite Hc. apply Forall_replicate. split_and!; [done|split; simpl; lia|done].
  - rewrite Hc, Hn. intros i c Hi Hci. assert (i = 0) as -> by lia. by injection Hci as <-.
Qed.

Lemma wp_stage_video s : power_on s -> wp (on_scr init_video) s (fun _ s' => exists scr w, s' = set_scr_w (scr, w) s
  /\ screen_wf scr /\ (forall r, nv_get w r = nv_get (k_w s) r) /\ kcounted b s').
Proof.
  intros H. pose proof (power_on_counted s H) as C. destruct H as [_ _ _ _ _ _ _ _ [V1 V2] ].
  eapply wp_mono; [apply (wp_pres same_kern _ _ (fun _ s' => exists scr w, s' = set_scr_w (scr, w) s /\ screen_wf scr
    /\ (forall r, nv_get w r = nv_get (k_w s) r))); [apply kpres_scr, pres_init_video|]|].
  - apply wp_zoom. eapply wp_mono; [by apply wp_init_video|]. intros u [scr w] [H1 H2]. by exists scr, w.
  - intros u s' [(scr & w & -> & H1 & H2) E]. exists scr, w. split_and!; [done|done|done|by eapply kcounted_same].
Qed.

Context (KI : kernel_image) (Hla : 0 < la <= 4294963200) (Haligned : la mod 4096 = 0).

Lemma image_linked : linked K'.
Proof.
  destruct KI as [ (S1 & S2 & S3) G _ _ _ _]. split; cbn; [done|by vm_compute|lia|done|exact G].
Qed.

(** What [kernel_main] does once the other processors have been started. *)
Definition after_aps : M (bstate (W := W)) unit :=
  on_k (kprintk "Kernel code base start=0x%08x to = 0x%08x" [stext L; etext L] ;;
        kprintk "Readonly data start=0x%08x to = 0x%08x" [etext L; rdata_end L] ;;
        kprintk "Kernel data base start=0x%08x to = 0x%08x" [data_start L; end_va L] ;;
        enter_user regs_now eflags_now).

(** [kernel_main] gets as far as [boot_aps], with pages [P] for tasks. *)
Lemma comes_to_aps s :
  power_on (bk s) ->
  comes_to (kernel_main K A L fuel regs_now eflags_now ap_regs) (boot_aps K L ap_run ;; after_aps) s (fun s1 => exists P s0,
    before_aps P s0 (bk s1) /\ room P (1 + Z.to_nat n) /\ 7 < np /\ forall q, q ∈ P -> usable e nb np q).
Proof.
  intros H. pose proof KI as [ (S1 & S2 & S3) G Rg _ En He]. pose proof scan_at_most as Hn8. unfold NCPU in Hn8.
  unfold kernel_main, kernel_main_with. eapply comes_on_k; [by apply wp_stage_video|]. intros _ s1 (scr & w & Es1 & Sc & Nv & C1).
  destruct H as [Cold Er Eb Es Hroom [Hc Hz] _ D _].
  assert (256 < np) as Hnp.
  { assert (256 <= image_end e) by (unfold image_end; Z.to_euclidean_division_equations; lia).
    assert (image_end e < first_free e np) by (unfold first_free; rewrite Es; pose proof (nv_word_range (k_w (bk s)) NVRAM_EXTLO);
      Z.to_euclidean_division_equations; lia). lia. }
  eapply comes_on_k; [apply wp_stage_mem; try done; rewrite ?Es1; try done; [destruct D as [D1 D2 D3 D4]; by split|..]|].
  { cbn [k_w set_scr_w snd]. unfold nv_word. by rewrite !Nv. }
  { cbn [k_w set_scr_w snd]. unfold nv_word. by rewrite !Nv. }
  { lia. }
  intros _ s2 (l & M2). eapply comes_bind; [by apply (wp_stage_mp s2 l)|]. intros [] s3 M3. pose proof (mu_mem _ _ M2) as Mst.
  pose proof (started_length _ _ Mst) as Hlen.
  eapply comes_on_k; [by apply (wp_stage_lapic (bk s3) l)|]. intros _ s4 (P & M4). destruct (au_list _ _ _ M4) as [Hsub Hlen4].
  eapply comes_on_k; [apply (wp_stage_task (bk s4) l P); [exact image_linked|exact Rg|lia|exact M4]|]. intros [] s5 M5.
  assert (forall q, q ∈ P -> usable e nb np q) as HP by (intros q Hq; eapply started_usable; [exact Mst|by apply Hsub]).
  destruct (comes_wired (boot_aps K L ap_run ;; after_aps) P s5 M5) as (s6 & E6 & B6). exists s6. split; [exact E6|].
  exists P, (bk s5). split; [exact B6|]. split; [unfold room, TASK_PAGES; lia|]. split; [lia|exact HP].
Qed.

(** From there on. *)
Lemma aps_come_up P s0 s :
  before_aps P s0 (bk s) -> room P (1 + Z.to_nat n) -> 7 < np -> (forall q, q ∈ P -> usable e nb np q) ->
  wp (boot_aps K L ap_run) s (fun _ s' => all_up P (1 + Z.to_nat n) (bk s')).
Proof.
  intros (T0 & E & F) Hr Hp HP. pose proof KI as [_ _ _ _ En He].
  assert (256 <= first_free e np \/ np < 0) as Hff by (unfold first_free, image_end; Z.to_euclidean_division_equations; lia).
  apply (wp_stage_aps P s0 s); try done; [cbn; lia|exact image_linked|intros H%HP; unfold usable in H; lia..].
Qed.

Lemma kernel_main_leaves s :
  power_on (bk s) ->
  leaves (kernel_main K A L fuel regs_now eflags_now ap_regs) s (fun s' => exists P, all_up P (1 + Z.to_nat n) (bk s') /\ in_user (bk s')
    /\ forall q, q ∈ P -> usable e nb np q).
Proof.
  intros H. destruct (comes_to_aps s H) as (s1 & E & P & s0 & B & Hr & Hp & HP). unfold leaves. rewrite E.
  pose proof (leaves_wp _ (fun _ => after_aps) s1 _ (fun s' => all_up P (1 + Z.to_nat n) (bk s') /\ in_user (bk s'))
    (aps_come_up P s0 s1 B Hr Hp HP)) as HL. unfold leaves in HL.
  assert (forall (x : unit) s', all_up P (1 + Z.to_nat n) (bk s') ->
    leaves after_aps s' (fun s' => all_up P (1 + Z.to_nat n) (bk s') /\ in_user (bk s'))) as Hafter.
  { intros _ s' Hs'. apply leaves_zoom. cbn [bk]. by apply leaves_last. }
  specialize (HL Hafter). match type of HL with match ?x with _ => _ end => destruct x as [|f s6|]; [done| |done] end.
  exists P. by destruct HL.
Qed.

(** Each processor of the table runs a task. *)
Definition all_busy (s : kern) : Prop :=
  ncpu (k_tk s) = n /\ forall j, 0 <= j < n -> exists c p, zget (cpus (k_tk s)) j = Some c /\ cpu_task c = Some p.

Lemma all_up_busy P k s : all_up P k s -> all_busy s.
Proof.
  intros [F M C O]. split; [exact C|]. intros j Hj. destruct (Z.eq_dec j b) as [->|Hne]; [apply (fl_me _ _ _ _ _ _ F)|].
  destruct (O j Hj Hne) as (c & Hc & _ & p & Hp). by exists c, p.
Qed.

(** The whole run. *)
Definition boots_and_runs (s : bstate) : Prop :=
  exists f s', kernel_main K A L fuel regs_now eflags_now ap_regs s = Iret f s' /\ in_user (bk s') /\ all_busy (bk s') /\
    let K' := ksyms_at K (k_lv (bk s')) in
    forall s2, star (kernel_step K' fuel) (bk s') s2 ->
      (exists ms l, kernel_ok K' s2 ms l) /\
      forall i f va, trap_ok fuel f (trapped_on i f va s2) ->
        exists g s3, default_trap_handler K' fuel OnStack (trapped_on i f va s2) = Iret g s3.

(** After [kernel_main], and from there on. *)
Lemma power_on_good s :
  power_on (bk s) ->
  exists f s' P, kernel_main K A L fuel regs_now eflags_now ap_regs s = Iret f s' /\ in_user (bk s') /\ all_busy (bk s')
    /\ k_lv (bk s') = lv /\ (forall q, image K (program_sizes K) q -> q ∉ P)
    /\ forall s2, star (kernel_step K' fuel) (bk s') s2 -> good K' (P, program_sizes K') s2.
Proof.
  intros H. pose proof (kernel_main_leaves s H) as HL. unfold leaves in HL.
  destruct (kernel_main _ _ _ _ _ _ _ s) as [|f s'|]; [done| |done]. destruct HL as (P & Hall & Hu & HP). pose proof (all_up_busy _ _ _ Hall) as Hbusy.
  destruct Hall as [ [ (ms & l & Hok & Hp & _) Hsz Hlv _ _ _ _ _] _ _ _].
  assert (forall q, image K (program_sizes K) q -> q ∉ P) as Himg.
  { intros q Hq Hin%HP. pose proof (ki_program KI q Hq) as Hi.
    assert (image_end e < first_free e np \/ np < 0) as Hff by (unfold first_free; Z.to_euclidean_division_equations; lia). unfold usable in Hin. lia. }
  exists f, s', P. split_and!; [done|done|done|done|done|]. intros s2 HS.
  destruct (stays_good K' image_linked fuel (bk s') ms l s2 Hok) as (ms2 & l2 & H2 & HP2 & Hz2); [|exact HS|].
  - intros q Hq. rewrite Hp. rewrite Hsz in Hq. by apply Himg.
  - exists ms2, l2. cbn [fst snd] in *. by rewrite HP2, Hp, Hz2, Hsz.
Qed.

Lemma power_on_runs s : power_on (bk s) -> boots_and_runs s.
Proof.
  intros H. destruct (power_on_good s H) as (f & s' & P & E & Hu & Hb2 & Hlv & _ & Hg). exists f, s'.
  split; [exact E|]. split; [exact Hu|]. split; [exact Hb2|]. cbv zeta. rewrite Hlv. intros s2 HS. specialize (Hg s2 HS). split.
  - destruct Hg as (ms & l & Hok & _). by exists ms, l.
  - intros i g va Ht. pose proof (dispatch_leaves K' image_linked fuel _ g _ (good_trapped K' _ i g va s2 Hg) eq_refl Ht) as HL.
    unfold leaves in HL. destruct (default_trap_handler _ _ _ _) as [|h s3|]; [done|by exists h, s3|done].
Qed.

(** Every store by a task's user code goes to a page of its own stack or of the
    program, and no other page changes. *)
Definition confined (s : kern) : Prop :=
  forall p t d va x m', zget (tasks (k_tk s)) p = Some t -> state t <> TASK_FREE -> pgdir t = dirp d -> 0 <= va < 4294967296 ->
    user_store d va x (mm (k_tk s)) = Some m' ->
    exists q, outside [q] (mm (k_tk s)) m'
      /\ ((exists k, 0 <= k < 10 /\ phys (mm (k_tk s)) d (stack_va k) = Some q) \/ image K (program_sizes K) q).

Lemma good_confined P s :
  good K' (P, program_sizes K') s -> (forall q, image K (program_sizes K) q -> q ∉ P) -> confined s.
Proof.
  intros (ms & l & [Hok _ _ _] & HP & Hz) Himg p t d va x m' Ht Hf Hd Hva Hs. cbn [fst snd] in HP, Hz.
  destruct (store_confined K' (k_tk s) ms l p t d va x m' Hok) as (_ & _ & q & HO & Hq); try done.
  - intros q Hq. rewrite HP. apply Himg. by rewrite Hz in Hq.
  - exists q. split; [exact HO|]. rewrite Hz in Hq. exact Hq.
Qed.
End Stages.
End Boot.

(** ** Properties *)

(** The bytes [m] of the firmware's pages, on a machine with [nb] pages of base memory,
    hold tables that name [n] processors, [b] the boot processor, with their local APICs
    at an address that can be mapped. *)
Definition firmware (m : gmap Z Z) (nb n b : Z) : Prop :=
  exists mp conf la es, mp_tables (rd8 m) nb mp conf la es /\ scan es 0 0 = (n, b) /\ 0 <= b < 8 /\ b < n
    /\ 0 < la <= 4294963200 /\ la mod 4096 = 0.

Section Claim.
Context {W : Type} `{!Ports W} `{!ApicRegs W} `{!CpuView W} `{!ApicView W} `{!KbdLaws W} `{!Nvram W} `{!ApicDelivers W}.
Context (K : ksyms) (A : isrs) (L : links) (fuel : nat).
Context (ap_regs : Z -> cpu_regs) (regs_now : PushRegs) (eflags_now n b nb np : Z) (s : bstate (W := W)).

(** The devices answer, the other processors start with their own numbers, the entry
    points of the handlers are addresses, the image is linked as the kernel expects,
    the firmware left its tables, and the machine has just been switched on. *)
Context (HF : forall w : W, (kb_pending w < fuel)%nat /\ (ad_left w < fuel)%nat).
Context (Hap : forall i, ctx_cpu (r_ctx (ap_regs i)) = i).
Context (HA : Forall (fun a => 0 < a < 4294967296) [Default_ISR A; GPFLT A; STACK_ISR A; PGFLT A; TIM_ISR A; KBD_Input A; SYSCALL A]).
Context (KI : kernel_image K L np) (Hnb : 78 <= nb <= 160) (Fw : firmware (ram (mm (k_tk (bk s)))) nb n b).
Context (Hon : power_on L n b nb np (ram (mm (k_tk (bk s)))) (bk s)).



(** C17: Every processor joins.  Under the conditions of the boot theorem [kernel_main]
    gets as far as [boot_aps], in a state in which no processor but the boot processor
    has been started; [boot_aps] returns, and then each other processor of the table is
    marked CPU_STARTED and has a current task of its own, and the scheduler's invariant
    holds over all of them.  What is left of [kernel_main] are its messages and
    [enter_user]. *)
Theorem boot_aps_starts_all :
  exists s1 s2, kernel_main K A L fuel regs_now eflags_now ap_regs s
      = (boot_aps K L (fun i => as_cpu (ap_regs i) (mp_setup K A fuel)) ;; after_aps L regs_now eflags_now) s1
    /\ boot_aps K L (fun i => as_cpu (ap_regs i) (mp_setup K A fuel)) s1 = Ret tt s2
    /\ (forall i c, i <> b -> zget (cpus (k_tk (bk s1))) i = Some c -> cpu_status c <> CPU_STARTED)
    /\ sched_inv (k_tk (bk s2)) /\ ncpu (k_tk (bk s2)) = n
    /\ forall i, 0 <= i < n -> i <> b -> exists c p, zget (cpus (k_tk (bk s2))) i = Some c /\ cpu_status c = CPU_STARTED
         /\ cpu_task c = Some p /\ p ∈ live (cpu_rq c).
Proof.
  destruct Fw as (mp & conf & la & es & T & Hscan & Hb & Hbn & Hla & Hal).
  destruct (comes_to_aps K A L fuel (fun w => proj2 (HF w)) (rd8 (ram (mm (k_tk (bk s))))) mp conf la es n b nb np (ram (mm (k_tk (bk s))))
    Hnb T Hscan Hb Hbn (fun _ _ => eq_refl) ap_regs regs_now eflags_now (fun w => proj1 (HF w)) HA KI Hla Hal s Hon)
    as (s1 & E & P & s0 & B & Hr & Hp & HP).
  destruct (wp_inv _ _ _ (aps_come_up K A L fuel (fun w => proj2 (HF w)) la n b nb np Hb Hbn ap_regs Hap KI Hla Hal P s0 s1 B Hr Hp HP))
    as ([] & s2 & E2 & [F _ Hn Ho]).
  exists s1, s2. split; [exact E|]. split; [exact E2|]. destruct B as (T0 & [ (_ & Ec & _) _] & _). split.
  { intros i c. rewrite Ec. apply (ts_others _ _ _ _ _ _ _ T0). }
  destruct F as [ (ms & l & Hok & _) _ _ _ _ _ _ _]. pose proof (mk_sched _ _ _ _ (ko_machine _ _ _ _ Hok)) as SI.
  split; [exact SI|]. split; [exact Hn|]. intros i Hi Hib. destruct (Ho i Hi Hib) as (c & Hc & Hst & p & Hcp).
  exists c, p. split_and!; [done|done|done|]. by apply (si_cur _ _ SI c p (zget_elem_of _ _ _ Hc)).
Qed.
End Claim.

(** ** Witness *)

(** A clock with its NVRAM, a keyboard controller that holds one byte, and a local APIC
    that has always delivered its messages. *)
Record board := Board { bd_cmos : cmos; bd_key : option Z; bd_cpu : Z }.

#[global] Instance board_ports : Ports board := {|
  port_in p w :=
    if p =? KBSTATP then (match bd_key w with None => 0 | Some _ => 1 end, w)
    else if p =? KBDATAP then (default 0 (bd_key w), Board (bd_cmos w) None (bd_cpu w))
    else let '(v, c) := port_in p (bd_cmos w) in (v, Board c (bd_key w) (bd_cpu w));
  port_out p v w := Board (port_out p v (bd_cmos w)) (bd_key w) (bd_cpu w)
|}.
#[global] Instance board_apic : ApicRegs board := {|
  apic_rd r w := (if r =? ID then Z.shiftl (bd_cpu w) 24 else 0, w);
  apic_wr r v w := w
|}.
#[global] Instance board_cpu : CpuView board := {| view_cpu i w := Board (bd_cmos w) (bd_key w) i |}.

#[global, program] Instance board_view : ApicView board := {| av_cpu w := bd_cpu w mod 256 |}.
Next Obligation. intros i w Hi. by apply Z.mod_small. Qed.
Next Obligation. intros p w. cbn. by destruct (p =? KBSTATP), (p =? KBDATAP). Qed.
Next Obligation. done. Qed.
Next Obligation. done. Qed.
Next Obligation. done. Qed.
Next Obligation.
  intros [m k c]. simpl. unfold u32. rewrite Z.shiftl_mul_pow2, Z.shiftr_div_pow2 by lia.
  change (2 ^ 24) with 16777216. Z.to_euclidean_division_equations. lia.
Qed.

#[global, program] Instance board_kbd : KbdLaws board := {| kb_pending w := match bd_key w with None => 0%nat | Some _ => 1%nat end |}.
Next Obligation. intros [m [x|] c]; cbn; (split; [done|]); [lia|done]. Qed.
Next Obligation. intros [m [x|] c]; cbn; lia. Qed.

#[global, program] Instance board_nvram : Nvram board := {| nv_get w r := nv_get (bd_cmos w) r |}.
Next Obligation. intros w r. apply nv_range. Qed.
Next Obligation. intros w r Hr. reflexivity. Qed.
Next Obligation. intros p w r. cbn. by destruct (p =? KBSTATP), (p =? KBDATAP). Qed.
Next Obligation. intros p v w r Hp. by apply nv_out. Qed.

#[global, program] Instance board_delivers : ApicDelivers board := {| ad_left w := 0%nat |}.
Next Obligation. done. Qed.

(** 636K of base and 63M of extended memory, the tables of [demo_rom], a kernel whose
    image ends six megabytes up. *)
Definition demo_board : board := Board (Cmos 0 (list_to_map [(0x15, 124); (0x16, 2); (0x17, 0); (0x18, 252)])) None 0.
Definition demo_image_links : links :=
  Links (KERNBASE + 0x100000) (KERNBASE + 0x200000) (KERNBASE + 0x300000) (KERNBASE + 0x300000) (KERNBASE + 0x600000)
        (KERNBASE + 0x101000) (KERNBASE + 0x101080).
Definition demo_reset : bstate :=
  BState (Kern (set_mm (set_ram demo_rom (fresh_mm 0 0 0)) demo_mp) demo_screen kbd0 pic0 (LV 0 0) (replicate 256 gate0)
            (replicate 256 None) None 0 demo_frame None 0 false demo_board) 0 0.

Lemma demo_kernel_image : kernel_image demo_K demo_image_links 16384.
Proof.
  split; [by vm_compute|done|apply demo_K_regions| |by vm_compute|by vm_compute].
  intros f Hf. split; [apply demo_image in Hf; lia|]. destruct Hf as (va & Hva & Hr & ->).
  unfold in_regions in Hr. apply existsb_exists in Hr as (r & Hin & Hr). apply andb_prop in Hr as [_ Hr].
  apply Z.ltb_lt in Hr. cut (PGNUM (fst r) + (snd r + 4095) / 4096 <= 960 * 1024 + 1536); [change (image_end (end_va demo_image_links)) with 1536; lia|].
  cbn in Hin. destruct Hin as [<-|[<-|[<-|[<-|[] ] ] ] ]; by vm_compute.
Qed.

Lemma demo_rom_words pa w : demo_rom !! pa = Some w -> 0 <= w < 4294967296.
Proof.
  assert (map_Forall (fun _ w : Z => 0 <= w < 4294967296) demo_rom) as H by (apply (bool_decide_unpack _); by vm_compute).
  apply H.
Qed.

Lemma demo_answers (w : board) : (kb_pending w < 2)%nat /\ (ad_left w < 2)%nat.
Proof. destruct w as [m [x|] c]; cbn; lia. Qed.

Lemma demo_firmware : firmware (ram (mm (k_tk (bk demo_reset)))) 159 2 0.
Proof. exists 0xF0010, 0xF0100, 0xFEE00000, [Proc 3; Proc 1; Skip 1]. split; [exact demo_tables|]. by vm_compute. Qed.

Lemma demo_switched_on : power_on demo_image_links 2 0 159 16384 (ram (mm (k_tk (bk demo_reset)))) (bk demo_reset).
Proof.
  split.
  - split; [reflexivity|reflexivity|]. exact demo_rom_words.
  - reflexivity.
  - reflexivity.
  - reflexivity.
  - by vm_compute.
  - done.
  - done.
  - split; [by vm_compute|done|by exists []; apply kbd0_ring|done].
  - done.
Qed.



Lemma boot_aps_starts_all_witness :
  exists s2 c p, zget (cpus (k_tk (bk (W := board) s2))) 1 = Some c /\ cpu_status c = CPU_STARTED /\ cpu_task c = Some p.
Proof.
  destruct (boot_aps_starts_all demo_K demo_isrs demo_image_links 2 demo_ap_regs regs0 0x202 2 0 159 16384 demo_reset demo_answers)
    as (s1 & s2 & _ & _ & _ & _ & _ & H);
    [done|repeat constructor|exact demo_kernel_image|lia|exact demo_firmware|exact demo_switched_on|].
  destruct (H 1) as (c & p & Hc & Hst & Hp & _); [lia|done|]. by exists s2, c, p.
Defined.

Lemma safe_iret {S X} (m : M S X) s Q I f s' : safe m s Q I -> m s = Iret f s' -> I s'.
Proof. unfold safe. intros H E. by rewrite E in H. Qed.

(** On this machine [kernel_main] does leave for user mode, and so there are runs to
    speak of. *)
Lemma kernel_inv_from_power_on_witness :
  exists f s1, kernel_main demo_K demo_isrs demo_image_links 2 regs0 0x202 demo_ap_regs demo_reset = Iret f s1
    /\ forall s2, star (kstep demo_K 2) (bk s1) s2 -> sched_inv (k_tk s2).
Proof.
  assert (0 <= cpunum (k_tk (bk demo_reset)) < 8) as Hr by (by vm_compute).
  destruct (power_on_good demo_K demo_isrs demo_image_links 2 (fun w => proj2 (demo_answers w)) (rd8 (ram (mm (k_tk (bk demo_reset)))))
    0xF0010 0xF0100 0xFEE00000 [Proc 3; Proc 1; Skip 1] 2 0 159 16384 _ ltac:(lia) demo_tables ltac:(done) ltac:(lia) ltac:(lia)
    (fun _ _ => eq_refl) demo_ap_regs (fun _ => eq_refl) regs0 0x202 (fun w => proj1 (demo_answers w)) ltac:(repeat constructor)
    demo_kernel_image ltac:(lia) ltac:(done) demo_reset demo_switched_on) as (f & s1 & _ & E & _).
  pose proof (kernel_inv_from_power_on demo_K demo_isrs demo_image_links 2 demo_ap_regs (fun _ => eq_refl) regs0 0x202 demo_reset
    eq_refl eq_refl Hr eq_refl) as H.
  exists f, s1. split; [exact E|exact (safe_iret _ _ _ _ _ _ H E)].
Defined.
